(* ===== verification/_CoqProject ===== *)
-Q . S2P
Prelude.v
KList.v
Buddy.v
BuddyInv.v
BuddyOps.v
BuddyInit.v
BuddyRef.v
BuddySpec.v
PageUse.v
Pq.v
Timer.v
Mem.v
KString.v
Trie.v
Slab.v
SlabInv.v
SlabOps.v
SlabSpec.v
Mmap.v
MmapInv.v
MmapOps.v
MmapSpec.v
MmapKernel.v
Highhalf.v
HighhalfInv.v
HighhalfOps.v
HighhalfSpec.v
HighhalfThm.v
Pipe.v
Proc.v
Cow.v
CowTree.v
CowClone.v
CowLoop.v
CowSpec.v
CowReap.v
Sched.v
SchedInv.v
SchedSpec.v
SchedThm.v
Sync.v
SyncSpec.v
Vma.v
VmaSpec.v
Gpio.v
Syscalls.v
SyscallSpec.v
Fork.v
ForkSpec.v
Arm.v
Entry.v
EntrySpec.v
ForkReturn.v
ForkKernel.v
Boot.v
Ext4.v
Ext4Spec.v
Listing.v
Elf.v
Mmio.v
Mailbox.v
Emmc.v
EmmcSpec.v
EmmcRead.v
I2c.v
Printf.v
PrintfSpec.v
Console.v
ConsoleSpec.v
Lcd.v
Dt.v
DtSpec.v
Shell.v
Usrtmp.v
Memprofiler.v
Irq.v
Uart.v
UartSpec.v
Start.v
Launch.v
