(* ===== verification/Prelude.v ===== *)
(** * rpos: a verification development of the kernel's core

    rpos is a small operating-system kernel in C for one core of the Raspberry
    Pi 4 ([src/kernel]), with a user library, a shell and a few programs
    ([src/user]).  This development models the kernel's own logic: memory,
    processes, files, drivers and formatted output.  The definitions follow the
    C functions statement by statement and keep their names; a reader can put a
    definition beside the function of the same name.

    ** How the program is put together

    [boot.S] brings the first core from EL3 down to EL1; [boot/highhalf.c] builds the first page tables and the kernel moves
    to the high half of the address space.  [memory/paging.c] then gives out
    pages by the buddy method; [memory/kmalloc.c] cuts slabs from them, and
    [memory/mmap.c] enters pages into page tables, for which it takes pages of
    its own.  [system/process.c] and [system/scheduler.c] build processes, clone
    them with shared copy-on-write pages and switch between them;
    [system/userfault.c] brings in pages on a fault.  [system/entry.S] saves the
    interrupted program and calls the C handlers.  Interrupts ([system/irq.c]) run the timers, the keyboard and the scheduler.
    System calls ([system/syscalls.c]) reach all of this, and the drivers
    behind file descriptors, whose names are in a trie.  Programs are loaded by
    [filesystem/elf.c] from an ext4 file system ([filesystem/disk.c],
    [filesystem/filesystem.c]) on the SD card ([emmc/emmc.c]), whose clock is
    asked for through the firmware's mailbox.

    ** The files

    - Prelude: the outcomes of an operation ([res]), machine integers, tactics.
    - KList: the intrusive lists of [utils/datastructures.h]; everything that is
      linked - free lists, slabs, run queue, children, areas - uses its [ring].
    - Buddy (definitions), BuddyInv (the tiling invariant), BuddyOps (allocation
      and freeing), BuddyInit (boot), BuddyRef (reference counts and owners),
      BuddySpec (claims): [memory/paging.c].
    - Slab, SlabInv, SlabOps, SlabSpec: [memory/kmalloc.c] over the buddy
      allocator.
    - Pq, Timer: [utils/datastructures/pq.c] and the sleep queue of [utils/timer.c].
    - Mem, KString, Trie: [memory/mem.c], [utils/utils.c], [utils/datastructures/trie.c].
    - Mmap, MmapInv (page-table trees), MmapOps, MmapSpec, MmapKernel:
      [memory/mmap.c] and [memory/mmu.c]; MmapKernel ties the knot between
      [map] and [buddy_alloc_pt].
    - Highhalf, HighhalfInv, HighhalfOps, HighhalfSpec, HighhalfThm:
      [boot/highhalf.c].
    - Pipe: the ring buffer of [filedescriptors.c] and the keyboard, [kbd.c].
    - Proc (processes over the interface [ProcMem]), Cow (copy-on-write address
      spaces; at the end of Cow the instance of [ProcMem] by the real allocators).
    - PageUse (which pages are free), CowTree (address spaces as trees), CowClone,
      CowLoop and CowSpec (cloning), CowReap (giving a space back).
    - Sched (definitions), SchedInv, SchedSpec, SchedThm: the scheduler.
    - Fork (over the interface [ForkMem]), ForkSpec: [clone_active_proc] and
      [sys_fork]; ForkKernel: the interface kept by the kernel's own memory.
    - Arm (A64 instructions as steps of a processor), Entry, EntrySpec:
      [system/entry.S], [contextswitch.S] and [killme.S], the vector table and the
      routines of single instructions; ForkReturn: [fork] together with the entry
      code; Boot: [boot.S], [boot/highhalf.S], [memory/mm.S] and the layouts of
      [sysregs_types.h].
    - Sync, SyncSpec: mutex, spinlock and wait lists, once as routines over the
      scheduler and once split at every shared access, as a step relation.
    - Vma, VmaSpec: [brk], [mmap], the areas of a process and page faults.
    - Gpio, Syscalls, SyscallSpec: pins; dispatch, descriptors and the calls.
      Launch: the small calls, and the first processes.
    - Ext4, Ext4Spec, Elf: the file system's reader and the program loader;
      Listing: the routines that print a disk's directories.
    - Mmio (device registers as the interface [Hardware], a state monad and its
      rules), Mailbox, Emmc, EmmcSpec, EmmcRead: the SD card driver, and the
      card as the file system sees it; I2c: the I2C driver of [filedescriptors.c].
    - Printf, PrintfSpec: [io/kprintf.c] and [user/lib/printf.c].  Console,
      ConsoleSpec: the text screen ([io/cli.c]); Lcd: the frame buffer's set-up; Uart, UartSpec: the mini UART, [kio] over both, and the
      set-up of the interrupt controller.
    - Dt, DtSpec: the device tree's parser.  Shell, Usrtmp: the user's shell, the
      kernel's demonstration program and its copy of [printf].
    - Memprofiler: [memory/memprofiler.c].  Irq: the interrupt dispatch, over the
      interface [Handlers].  Start: the order of [kernel_main].

    ** How state is modelled

    Memory of the kernel's objects is a finite map from addresses to records,
    bytes and words of memory are functions from addresses.  A pointer is its
    address, 0 for NULL; the lists' nodes are keys, because a node is embedded in
    its object.  An operation takes the state it works on and returns a [res]:
    [Ok], the kernel's [panic], undefined behaviour ([UB]: a wild or NULL
    pointer, an index outside an array, a signed overflow, a division by zero)
    or [Fuel].  Integers are [Z] with the wrap-around of their width written out.
    A routine that gives up the processor is split there: its result says what
    it does when it runs again.

    Interfaces: [ProcMem] (what processes need of memory; Cow ends with the
    instance by the real allocators), [ForkMem] (what a [fork] needs beyond it;
    ForkKernel proves it of that instance), [callee] (a C function called from
    assembly), [Hardware] (registers; the theorems about drivers hold for every
    instance, and [Controller] adds the laws of one that answers), [Handlers]
    (what an interrupt can call).  The sectors of the card, as Ext4 reads them,
    are an argument of that file's definitions; EmmcRead shows that the driver
    brings them.

    ** Fuel

    Loops over a measure the code bounds take that bound: the 18 orders of the
    buddy allocator, the four levels of tables, the 512 entries of one, the
    pages of a range, the retries and time-outs of the card.  A search through
    a linked list takes fuel, and the theorems give one that is enough (the
    length of the ring) or say that every one that is larger than a bound is.
    [count_loop] takes the number of frames.  The loops that wait for a device
    without a bound in the code ([sdhc_loop], [wait_inhibit], the mailbox) have
    a fuel argument and no theorem claims that they end; that the others never
    run out is part of the theorems ([emmc_read_safe], [directory_lookup],
    [profile_counts_free], [irq_dispatch], [memzero_ok]).

    ** What the theorems show

    - Memory: the free lists and the frame array describe a tiling of memory,
      which boot establishes and allocation and freeing keep, with what they
      return and when they fail (BuddySpec); [kmalloc] and [kfree] refine a map
      of live items that never overlap (SlabSpec); the tables built by [map] are
      a tree whose translation is the map asked for (MmapSpec), with zeroed
      tables (MmapKernel); the boot tables map the image with its permissions
      and nothing else (HighhalfThm); the profiler counts the free pages.
    - Processes: the run queue is exactly the ready processes, in the order of
      round robin (SchedThm), the mutex is exclusive in every interleaving and
      hands over (SyncSpec), sleepers wake in the order of their deadlines
      (Timer), [mmap] and a fault give the page asked for (VmaSpec), an
      interrupt is dispatched once and ended before the scheduler runs (Irq).
    - Address spaces: a clone shares every page, marked, and translates as its
      parent does (CowSpec); reaping gives back every table and reference, and
      undoes a clone (CowReap).
    - [fork]: the child is a copy of its parent but for its number, its lists and
      the result 0 (ForkSpec), and both leave the kernel at the same place
      (ForkReturn).  On the real memory it succeeds while there is room, for
      address spaces of at most a given number of tables, and the child's table
      translates as its parent's (ForkKernel); the kernel's tables are supposed
      to map every page at level 3 there, which [map] builds but early boot,
      with its 2 MiB blocks, does not.
    - The processor: an interrupt is invisible to the program it interrupts, a
      system call changes its result register (EntrySpec), the boot path
      reaches EL1 with its settings (Boot).
    - Output and input: the kernel's messages appear on the screen and on the
      serial line (UartSpec), the device tree's parser reports the tree that was
      laid out (DtSpec), the shell runs the lines typed (Shell).
    - Files and devices: a descriptor opened is the one used (SyscallSpec), the
      pipe is a bounded queue (Pipe), directory look-up and reading files follow
      the ext4 structures (Ext4Spec), a read of the card is safe whatever the
      controller does and brings the sectors when it answers (EmmcSpec,
      EmmcRead), the two [printf] print the same text, and numbers read back
      (PrintfSpec).
    - Defects: some theorems state what the code does against its intent: the
      copy-on-write fault that is never resolved (VmaSpec), the scheduler that
      leaves a process unscheduled (SchedThm), the read that runs into the
      indirect table (Ext4Spec), the loader that stops at the first other
      segment (Elf).  Lemmas beside them show the others.

    ** Not modelled

    Cache and TLB maintenance and barriers, which have no effect on the state the
    model has ([cache.S], [mmu.S]); more than one core; the debugger's hooks in the
    boot code.  The USB and PCIe code, which is empty, and the host tests.
    Constants that no modelled routine uses ([errno.h], [fb.h], parts of
    [elf_types.h] and [gic_types.h]). *)
From Stdlib Require Export ZArith Lia Bool.
From stdpp Require Export base numbers gmap strings option functions list.

#[global] Open Scope Z_scope.

(** ** Outcomes of a kernel operation *)

(** [Ok a] is a normal return; [Panic] is the kernel's [panic()]; [UB] is an
    access the C program may not make (a NULL or wild pointer dereferenced, an
    array indexed out of range, an over-wide shift); [Fuel] means that the
    model's bound on a loop or a recursion was reached, which the termination
    theorems exclude. *)
Inductive res (A : Type) : Type :=
| Ok (a : A)
| Panic
| UB
| Fuel.
Arguments Ok {A} a.
Arguments Panic {A}.
Arguments UB {A}.
Arguments Fuel {A}.

#[global] Instance res_ret : MRet res := fun A a => Ok a.
#[global] Instance res_bind : MBind res := fun A B f r =>
  match r with
  | Ok a => f a
  | Panic => Panic
  | UB => UB
  | Fuel => Fuel
  end.

Lemma bind_ok {A B} (m : res A) (f : A -> res B) a : m = Ok a -> (m ≫= f) = f a.
Proof. by intros ->. Qed.

(** Dereferencing: a pointer is [Some k], or [None] when it is NULL or
    indeterminate. *)
Definition deref {A} (p : option A) : res A :=
  match p with
  | Some k => Ok k
  | None => UB
  end.

Lemma bind_Ok {A B} (a : A) (f : A -> res B) : (Ok a ≫= f) = f a.
Proof. reflexivity. Qed.

Lemma bind_Ok_inv {A B} (r : res A) (f : A -> res B) (b : B) :
  (r ≫= f) = Ok b -> exists a, r = Ok a /\ f a = Ok b.
Proof. destruct r; simpl; intros H; try discriminate; eauto. Qed.

(** ** Machine integers *)

(** C's unsigned types: arithmetic is taken modulo [2 ^ w]. *)
Definition wrap (w z : Z) : Z := z mod 2 ^ w.
Definition u8 (z : Z) : Z := wrap 8 z.
Definition u16 (z : Z) : Z := wrap 16 z.
Definition u32 (z : Z) : Z := wrap 32 z.
Definition u64 (z : Z) : Z := wrap 64 z.

(** C's 32-bit [int], in two's complement. *)
Definition s32 (z : Z) : Z := (z + 2 ^ 31) mod 2 ^ 32 - 2 ^ 31.

Lemma wrap_small w z : 0 <= z < 2 ^ w -> wrap w z = z.
Proof. apply Z.mod_small. Qed.

Lemma wrap_range w z : 0 <= w -> 0 <= wrap w z < 2 ^ w.
Proof. intros. apply Z.mod_pos_bound. by apply Z.pow_pos_nonneg. Qed.

Lemma u8_small z : 0 <= z < 256 -> u8 z = z.
Proof. apply (wrap_small 8). Qed.
Lemma u16_small z : 0 <= z < 65536 -> u16 z = z.
Proof. apply (wrap_small 16). Qed.
Lemma u32_small z : 0 <= z < 4294967296 -> u32 z = z.
Proof. apply (wrap_small 32). Qed.
Lemma u64_small z : 0 <= z < 18446744073709551616 -> u64 z = z.
Proof. apply (wrap_small 64). Qed.
Lemma s32_small z : - 2147483648 <= z < 2147483648 -> s32 z = z.
Proof.
  intros. unfold s32. change (2 ^ 31) with 2147483648. change (2 ^ 32) with 4294967296.
  rewrite Z.mod_small; lia.
Qed.

(** ** Tactics *)

(** Open every existential and conjunction of the context. *)
Ltac deex :=
  repeat match goal with
    | H : exists x, _ |- _ => let x' := fresh x in destruct H as [x' H]
    | H : _ /\ _ |- _ => destruct H
    end.

(** Arithmetic with divisions and remainders. *)
Ltac zdiv := Z.to_euclidean_division_equations; lia.

(** One step through the outcome monad: use the equation of the bound
    computation when it is known. *)
Ltac run1 :=
  match goal with
  | H : ?r = Ok _ |- context [mbind _ ?r] => rewrite H; cbn [mbind res_bind]
  | |- context [mbind _ (Ok _)] => cbn [mbind res_bind]
  end.
Ltac run := repeat run1.

(** Invert a successful run of the outcome monad in a hypothesis. *)
Ltac inv_bind H :=
  let a := fresh "a" in
  let Ha := fresh "Ha" in
  apply bind_Ok_inv in H; destruct H as [a [Ha H]].

Create HintDb rpos discriminated.

(** ** Powers of two and bits *)

Lemma pow2_pos n : 0 <= n -> 0 < 2 ^ n.
Proof. intros. by apply Z.pow_pos_nonneg. Qed.

Lemma pow2_succ n : 0 <= n -> 2 ^ (n + 1) = 2 * 2 ^ n.
Proof. intros. rewrite Z.pow_add_r by lia. lia. Qed.

Lemma pow2_half n : 1 <= n -> 2 ^ n = 2 * 2 ^ (n - 1).
Proof. intros. rewrite <- pow2_succ by lia. f_equal. lia. Qed.

Lemma pow2_ge1 n : 0 <= n -> 1 <= 2 ^ n.
Proof. intros H%pow2_pos. lia. Qed.

Lemma pow2_le a b : 0 <= a <= b -> 2 ^ a <= 2 ^ b.
Proof. intros. apply Z.pow_le_mono_r; lia. Qed.

Lemma pow2_lt a b : 0 <= a < b -> 2 ^ a < 2 ^ b.
Proof. intros. apply Z.pow_lt_mono_r; lia. Qed.

#[export] Hint Resolve pow2_pos pow2_ge1 pow2_le : rpos.

Lemma shiftl_1 n : 0 <= n -> Z.shiftl 1 n = 2 ^ n.
Proof. intros. rewrite Z.shiftl_mul_pow2; lia. Qed.

(** Flipping bit [n] of [p] moves [p] by [2 ^ n], up or down. *)
Lemma lxor_pow2 p n :
  0 <= n ->
  Z.lxor p (2 ^ n) = if Z.testbit p n then p - 2 ^ n else p + 2 ^ n.
Proof.
  intros Hn. destruct (Z.testbit p n) eqn:Hb.
  - rewrite Z.sub_nocarry_ldiff.
    + apply Z.bits_inj'. intros i Hi.
      rewrite Z.lxor_spec, Z.ldiff_spec, Z.pow2_bits_eqb by lia.
      destruct (Z.eqb_spec n i); [subst; by rewrite Hb|].
      by rewrite xorb_false_r, andb_true_r.
    + apply Z.bits_inj'. intros i Hi. rewrite Z.ldiff_spec, Z.bits_0.
      rewrite Z.pow2_bits_eqb by lia.
      destruct (Z.eqb_spec n i); [subst; by rewrite Hb | done].
  - rewrite Z.add_nocarry_lxor; [done |].
    apply Z.bits_inj'. intros i Hi. rewrite Z.land_spec, Z.bits_0.
    rewrite Z.pow2_bits_eqb by lia.
    destruct (Z.eqb_spec n i); [subst; rewrite Hb; reflexivity | by rewrite andb_false_r].
Qed.

Lemma lxor_pow2_range p n w :
  0 <= n < w -> 0 <= p < 2 ^ w -> 0 <= Z.lxor p (2 ^ n) < 2 ^ w.
Proof.
  intros Hn Hp. split.
  - apply Z.lxor_nonneg. split; intros _; [|lia]. apply Z.pow_nonneg. lia.
  - destruct (Z.eq_dec (Z.lxor p (2 ^ n)) 0) as [->|Hne]; [apply pow2_pos; lia|].
    assert (0 <= Z.lxor p (2 ^ n)).
    { apply Z.lxor_nonneg. split; intros _; [|lia]. apply Z.pow_nonneg. lia. }
    apply Z.log2_lt_pow2; [lia|].
    eapply Z.le_lt_trans; [apply Z.log2_lxor; [lia|apply Z.pow_nonneg; lia]|].
    rewrite Z.log2_pow2 by lia.
    destruct (Z.eq_dec p 0) as [->|]; [simpl; lia|].
    apply Z.max_lub_lt; [|lia]. apply Z.log2_lt_pow2; lia.
Qed.

(** Testing one bit with a mask. *)
Lemma land_pow2_eqb a i : 0 <= i -> (Z.land a (2 ^ i) =? 0) = negb (Z.testbit a i).
Proof.
  intros Hi. destruct (Z.testbit a i) eqn:E.
  - apply Z.eqb_neq. intros H0. assert (Z.testbit (Z.land a (2 ^ i)) i = false) as Hf by (rewrite H0; apply Z.bits_0).
    rewrite Z.land_spec, E, Z.pow2_bits_true in Hf by done. done.
  - apply Z.eqb_eq. apply Z.bits_inj'. intros j Hj. rewrite Z.land_spec, Z.bits_0.
    rewrite Z.pow2_bits_eqb by done. destruct (Z.eqb_spec i j); [subst; by rewrite E|by rewrite andb_false_r].
Qed.
