(* ===== verification/KList.v ===== *)
(** * Intrusive circular lists ([include/utils/datastructures.h])

    The kernel links its objects through embedded [list_head_t] nodes.  A node
    is identified by a key of type [K] (the component that uses the lists says
    which keys there are); the nodes' memory is a map from keys to pointer
    pairs, in which a node never written holds indeterminate pointers.  The
    four operations follow the C code assignment by assignment.  [ring h hd xs]
    says that the nodes [xs], in this order, hang on the list head [hd]. *)
From S2P Require Import Prelude.

Section KList.
Context {K : Type} `{Countable K}.

(** [list_head_t]: a [None] pointer is NULL or indeterminate. *)
Record list_head_t := LNode { lnext : option K; lprev : option K }.

Definition node_at (h : gmap K list_head_t) (n : K) : list_head_t :=
  default (LNode None None) (h !! n).

Definition set_next (n : K) (x : option K) (h : gmap K list_head_t) :=
  <[n := LNode x (lprev (node_at h n))]> h.

Definition set_prev (n : K) (x : option K) (h : gmap K list_head_t) :=
  <[n := LNode (lnext (node_at h n)) x]> h.

Definition INIT_LIST_HEAD (head : K) (h : gmap K list_head_t) :=
  set_prev head (Some head) (set_next head (Some head) h).

Definition list_add (newnode head : K) (h : gmap K list_head_t) : res (gmap K list_head_t) :=
  let h1 := set_next newnode (lnext (node_at h head)) h in
  let h2 := set_prev newnode (Some head) h1 in
  nx ← deref (lnext (node_at h2 head));
  let h3 := set_prev nx (Some newnode) h2 in
  Ok (set_next head (Some newnode) h3).

Definition list_remove (node : K) (h : gmap K list_head_t) : res (gmap K list_head_t) :=
  p ← deref (lprev (node_at h node));
  let h1 := set_next p (lnext (node_at h node)) h in
  n ← deref (lnext (node_at h1 node));
  let h2 := set_prev n (lprev (node_at h1 node)) h1 in
  let h3 := set_next node (Some node) h2 in
  Ok (set_prev node (Some node) h3).

Definition list_empty (head : K) (h : gmap K list_head_t) : bool :=
  bool_decide (lnext (node_at h head) = Some head).

(** ** Representation *)

Definition link (h : gmap K list_head_t) (a b : K) : Prop :=
  lnext (node_at h a) = Some b /\ lprev (node_at h b) = Some a.

Fixpoint chain (h : gmap K list_head_t) (a : K) (l : list K) (b : K) : Prop :=
  match l with
  | [] => link h a b
  | x :: l => link h a x /\ chain h x l b
  end.

Definition ring (h : gmap K list_head_t) (hd : K) (xs : list K) : Prop :=
  chain h hd xs hd /\ NoDup (hd :: xs).

Implicit Types (h : gmap K list_head_t) (a b n hd : K) (xs l : list K).

Lemma node_at_insert h n x k :
  node_at (<[n := x]> h) k = if decide (n = k) then x else node_at h k.
Proof. unfold node_at. rewrite lookup_insert. by case_decide. Qed.

Lemma next_set_next h n x k :
  lnext (node_at (set_next n x h) k) = if decide (n = k) then x else lnext (node_at h k).
Proof. unfold set_next. rewrite node_at_insert. by case_decide. Qed.

Lemma prev_set_next h n x k : lprev (node_at (set_next n x h) k) = lprev (node_at h k).
Proof. unfold set_next. rewrite node_at_insert. case_decide; naive_solver. Qed.

Lemma prev_set_prev h n x k :
  lprev (node_at (set_prev n x h) k) = if decide (n = k) then x else lprev (node_at h k).
Proof. unfold set_prev. rewrite node_at_insert. by case_decide. Qed.

Lemma next_set_prev h n x k : lnext (node_at (set_prev n x h) k) = lnext (node_at h k).
Proof. unfold set_prev. rewrite node_at_insert. case_decide; naive_solver. Qed.

Lemma node_at_ext h h' k :
  lnext (node_at h k) = lnext (node_at h' k) ->
  lprev (node_at h k) = lprev (node_at h' k) ->
  node_at h k = node_at h' k.
Proof. destruct (node_at h k), (node_at h' k); simpl; congruence. Qed.

Lemma chain_app h a l1 x l2 b :
  chain h a (l1 ++ x :: l2) b <-> chain h a l1 x /\ chain h x l2 b.
Proof. revert a. induction l1 as [|y l1 IH]; intros a; simpl; [done|]. rewrite IH. tauto. Qed.

(** A chain only depends on the [next] fields of [a :: l] and on the [prev]
    fields of [l ++ [b]]. *)
Lemma chain_ext h h' a l b :
  (forall k, k = a \/ k ∈ l -> lnext (node_at h' k) = lnext (node_at h k)) ->
  (forall k, k = b \/ k ∈ l -> lprev (node_at h' k) = lprev (node_at h k)) ->
  chain h a l b -> chain h' a l b.
Proof.
  revert a. induction l as [|x l IH]; intros a Hn Hp; simpl; unfold link.
  - rewrite Hn, Hp by auto. done.
  - rewrite Hn by auto. rewrite Hp by (right; left). intros [? Hc]. split; [done|].
    apply IH; [| |done]; intros k Hk; [apply Hn|apply Hp]; set_solver.
Qed.

Lemma ring_ext h h' hd xs :
  (forall k, k ∈ hd :: xs -> node_at h' k = node_at h k) -> ring h hd xs -> ring h' hd xs.
Proof.
  intros Hk [Hc Hd]. split; [|done].
  eapply chain_ext; [| |done]; intros k Hin; rewrite Hk; set_solver.
Qed.

Lemma chain_last h a l b : chain h a l b -> exists z, lprev (node_at h b) = Some z /\ (z = a \/ z ∈ l).
Proof.
  revert a. induction l as [|x l IH]; intros a; simpl.
  - intros [_ ?]. eauto.
  - intros [_ Hc]. destruct (IH _ Hc) as (z & Hz & Hin); exists z; split; [done|].
    right. destruct Hin as [->|]; [left|by right].
Qed.

Lemma ring_next h hd xs : ring h hd xs -> lnext (node_at h hd) = Some (default hd (head xs)).
Proof. intros [Hc _]. destruct xs; simpl in Hc; unfold link in Hc; naive_solver. Qed.

Lemma list_empty_ring h hd xs : ring h hd xs -> list_empty hd h = bool_decide (xs = []).
Proof.
  intros Hr. unfold list_empty. rewrite (ring_next _ _ _ Hr). destruct xs as [|x xs].
  - by rewrite !bool_decide_true.
  - rewrite !bool_decide_false; [done|done|]. destruct Hr as [_ Hd].
    apply NoDup_cons in Hd. set_solver.
Qed.

Lemma INIT_LIST_HEAD_ring h hd : ring (INIT_LIST_HEAD hd h) hd [].
Proof.
  unfold INIT_LIST_HEAD. split; [|apply NoDup_singleton]. simpl. unfold link.
  rewrite next_set_prev, prev_set_prev, next_set_next. by rewrite !decide_True.
Qed.

Lemma INIT_LIST_HEAD_frame h hd k : k <> hd -> node_at (INIT_LIST_HEAD hd h) k = node_at h k.
Proof.
  intros. unfold INIT_LIST_HEAD, set_prev, set_next.
  by repeat (rewrite node_at_insert, (decide_False (P := hd = k)) by congruence).
Qed.

Lemma list_add_ring h hd xs new :
  ring h hd xs -> new ∉ hd :: xs ->
  exists h', list_add new hd h = Ok h' /\ ring h' hd (new :: xs) /\
    forall k, k ∉ new :: hd :: xs -> node_at h' k = node_at h k.
Proof.
  intros Hr Hnew. pose proof (ring_next _ _ _ Hr) as Hnx. destruct Hr as [Hc Hd].
  apply not_elem_of_cons in Hnew as [Hne Hnin]. apply NoDup_cons in Hd as [Hhd Hd].
  unfold list_add. rewrite next_set_prev, next_set_next, decide_False, Hnx by done.
  cbn [deref mbind res_bind]. eexists. split; [done|].
  assert (Hnin2 : default hd (head xs) <> new) by (destruct xs; simpl; set_solver).
  split; [split|].
  - simpl. unfold link.
    rewrite next_set_next, prev_set_next, prev_set_prev, decide_True, decide_False by done.
    rewrite prev_set_prev, decide_True by done. split; [done|].
    destruct xs as [|x xs]; simpl in *; unfold link in *.
    + rewrite next_set_next, prev_set_next, prev_set_prev, next_set_prev, next_set_prev,
        next_set_next, decide_False, !decide_True by done. done.
    + destruct Hc as [_ Hc]. apply NoDup_cons in Hd as [Hx Hd].
      apply not_elem_of_cons in Hhd as [Hhdx Hhd]. apply not_elem_of_cons in Hnin as [_ Hnin].
      rewrite next_set_next, prev_set_next, prev_set_prev, next_set_prev, next_set_prev,
        next_set_next, decide_False, !decide_True by done. split; [done|].
      eapply chain_ext; [| |exact Hc]; intros k Hk.
      * rewrite next_set_next, !next_set_prev, next_set_next.
        rewrite !decide_False; [done| |]; destruct Hk as [->|]; congruence.
      * rewrite prev_set_next, !prev_set_prev, prev_set_next.
        rewrite !decide_False; [done| |]; destruct Hk as [->|]; congruence.
  - repeat (apply NoDup_cons; split); set_solver.
  - intros k Hk. apply not_elem_of_cons in Hk as [? Hk]. apply not_elem_of_cons in Hk as [? Hk].
    assert (k <> default hd (head xs)) by (destruct xs; simpl; set_solver).
    unfold set_next, set_prev. by rewrite !node_at_insert, !decide_False.
Qed.

Lemma chain_first h a l b : chain h a l b -> lnext (node_at h a) = Some (default b (head l)).
Proof. destruct l; simpl; unfold link; naive_solver. Qed.

(** The node before the end of a chain, and the chain without it. *)
Lemma chain_snoc_inv h a l b :
  chain h a l b ->
  exists p, lprev (node_at h b) = Some p /\ lnext (node_at h p) = Some b /\
    ((l = [] /\ p = a) \/ exists l', (l = l' ++ [p]) /\ chain h a l' p).
Proof.
  destruct l as [|z l _] using rev_ind; intros Hc.
  - destruct Hc. exists a. naive_solver.
  - apply chain_app in Hc as [Hc [? ?]]. exists z. naive_solver.
Qed.

(** The node before one of a ring's, and before its head. *)
Lemma chain_prev h a l b : chain h a l b -> lprev (node_at h b) = Some (default a (last l)).
Proof.
  intros Hc. destruct (chain_snoc_inv _ _ _ _ Hc) as (p & Hp & _ & [[-> ->]|(l' & -> & _)]); [done|].
  by rewrite last_snoc.
Qed.

Lemma ring_prev h hd xs : ring h hd xs -> lprev (node_at h hd) = Some (default hd (last xs)).
Proof. intros [Hc _]. by apply chain_prev. Qed.

Lemma ring_prev_mid h hd l1 x l2 : ring h hd (l1 ++ x :: l2) -> lprev (node_at h x) = Some (default hd (last l1)).
Proof. intros [Hc _]. apply chain_app in Hc as [Hc _]. by apply chain_prev. Qed.

Lemma list_remove_ring h hd l1 n l2 :
  ring h hd (l1 ++ n :: l2) ->
  exists h', list_remove n h = Ok h' /\ ring h' hd (l1 ++ l2) /\ ring h' n [] /\
    forall k, k ∉ hd :: l1 ++ n :: l2 -> node_at h' k = node_at h k.
Proof.
  intros [Hc Hd]. apply chain_app in Hc as [Hc1 Hc2].
  apply NoDup_cons in Hd as [Hhd Hd]. apply NoDup_app in Hd as (Hd1 & Hdisj & Hd2).
  apply NoDup_cons in Hd2 as [Hn2 Hd2].
  assert (Hn1 : n ∉ l1) by (intros Hin; apply (Hdisj n Hin); left).
  assert (Hhd' : hd ≠ n ∧ hd ∉ l1 ∧ hd ∉ l2) by set_solver.
  destruct Hhd' as (Hhn & Hh1 & Hh2). clear Hhd.
  assert (Hdj : forall x, x ∈ l1 -> x ∉ l2) by (intros x Hx Hx2; apply (Hdisj x Hx); by right).
  clear Hdisj.
  destruct (chain_snoc_inv _ _ _ _ Hc1) as (p & Hp & _ & Hpl).
  pose proof (chain_first _ _ _ _ Hc2) as Hnx. set (nx := default hd (head l2)) in *.
  assert (Hpn : p <> n) by (destruct Hpl as [[-> ->]|(l' & -> & _)]; set_solver).
  assert (Hxn : nx <> n) by (unfold nx; destruct l2; simpl; set_solver).
  unfold list_remove. rewrite Hp. cbn [deref mbind res_bind].
  rewrite next_set_next, decide_False, Hnx by done. cbn [deref mbind res_bind].
  rewrite prev_set_next, Hp. eexists. split; [done|].
  set (h' := set_prev n _ _).
  assert (Hnext : forall k, lnext (node_at h' k) =
    if decide (k = n) then Some n else if decide (k = p) then Some nx else lnext (node_at h k)).
  { intros k. unfold h'. rewrite next_set_prev, next_set_next, next_set_prev, next_set_next.
    repeat case_decide; congruence. }
  assert (Hprev : forall k, lprev (node_at h' k) =
    if decide (k = n) then Some n else if decide (k = nx) then Some p else lprev (node_at h k)).
  { intros k. unfold h'. rewrite prev_set_prev, prev_set_next, prev_set_prev, prev_set_next.
    repeat case_decide; congruence. }
  clearbody h'. split_and!.
  - split.
    + assert (Htail : forall m, (l2 = nx :: m) -> chain h' nx m hd).
      { intros m Hl2. rewrite Hl2 in Hc2. destruct Hc2 as [_ Hc2].
        assert (p ∉ nx :: m) by (rewrite <- Hl2; destruct Hpl as [[-> ->]|(l' & -> & _)]; set_solver).
        apply NoDup_ListNoDup in Hd2. rewrite Hl2 in Hd2, Hh2, Hn2. apply NoDup_ListNoDup, NoDup_cons in Hd2.
        eapply chain_ext; [| |exact Hc2]; intros k Hk; rewrite ?Hnext, ?Hprev;
          rewrite !decide_False; set_solver. }
      assert (Hhead : forall l', chain h hd l' p -> (l1 = l' ++ [p]) -> chain h' hd l' p).
      { intros l' Hc' Hl1. rewrite Hl1 in Hd1. apply NoDup_app in Hd1 as (_ & Hd1 & _).
        assert (nx ∉ l1) by (unfold nx; destruct l2; simpl; [done|]; intros Hi; apply (Hdj _ Hi); left).
        eapply chain_ext; [| |exact Hc']; intros k Hk; rewrite ?Hnext, ?Hprev;
          rewrite !decide_False; set_solver. }
      assert (Hlink : link h' p nx).
      { split; [rewrite Hnext|rewrite Hprev]; by rewrite decide_False, decide_True. }
      destruct l2 as [|x m]; simpl in nx.
      * rewrite app_nil_r. destruct Hpl as [[-> ->]|(l' & Hl & Hc')]; [exact Hlink|].
        rewrite Hl. apply chain_app. split; [by apply Hhead|exact Hlink].
      * destruct Hpl as [[-> ->]|(l' & Hl & Hc')].
        -- split; [exact Hlink|]. by apply Htail.
        -- rewrite Hl, <- app_assoc. apply chain_app. split; [by apply Hhead|].
           split; [exact Hlink|]. by apply Htail.
    + apply NoDup_cons. split; [set_solver|]. apply NoDup_app. set_solver.
  - split; [|apply NoDup_singleton]. split; [rewrite Hnext|rewrite Hprev]; by rewrite decide_True.
  - intros k Hk. assert (k ≠ hd ∧ k ∉ l1 ∧ k ≠ n ∧ k ∉ l2) as (?&?&?&?) by set_solver.
    apply node_at_ext; [rewrite Hnext|rewrite Hprev]; rewrite !decide_False; try done.
    + destruct Hpl as [[-> ->]|(l' & -> & _)]; set_solver.
    + unfold nx. destruct l2; set_solver.
Qed.

(** Removing a node that hangs on no list (its pointers were reset by
    [INIT_LIST_HEAD] or by a removal) does nothing. *)
Lemma list_remove_single h n :
  ring h n [] -> exists h', list_remove n h = Ok h' /\ forall k, node_at h' k = node_at h k.
Proof.
  intros [[Hn Hp] _]. unfold list_remove. rewrite Hp. cbn [deref mbind res_bind].
  rewrite next_set_next, decide_True, Hn by done. cbn [deref mbind res_bind].
  eexists. split; [done|]. intros k.
  apply node_at_ext; rewrite ?next_set_prev, ?prev_set_prev, ?next_set_next, ?prev_set_next,
    ?next_set_prev, ?prev_set_prev, ?next_set_next, ?prev_set_next;
    repeat case_decide; subst; congruence.
Qed.

(** ** Several disjoint lists in one memory

    [P] says which keys are list heads, [L hd] is what hangs on [hd]. *)
Record rings (h : gmap K list_head_t) (P : K -> Prop) (L : K -> list K) : Prop := {
  rings_ring : forall hd, P hd -> ring h hd (L hd);
  rings_disj : forall a b x, P a -> P b -> a <> b -> x ∈ a :: L a -> x ∉ b :: L b;
}.

Lemma rings_add h P L hd new :
  rings h P L -> P hd -> (forall a, P a -> new ∉ a :: L a) ->
  exists h', list_add new hd h = Ok h' /\ rings h' P (<[hd := new :: L hd]> L) /\
    forall k, k <> new -> (forall a, P a -> k ∉ a :: L a) -> node_at h' k = node_at h k.
Proof.
  intros [Hr Hd] Hhd Hnew.
  destruct (list_add_ring _ _ _ _ (Hr hd Hhd) (Hnew hd Hhd)) as (h' & Ha & Hr' & Hf).
  exists h'. split; [done|]. split; [|intros k ? Hk; apply Hf; specialize (Hk _ Hhd); set_solver].
  split.
  - intros a Ha'. destruct (decide (a = hd)) as [->|Hne]; [by rewrite fn_lookup_insert|].
    rewrite fn_lookup_insert_ne by done. eapply ring_ext; [|by apply Hr].
    intros k Hk. apply Hf. apply not_elem_of_cons. split.
    + intros ->. by apply (Hnew a).
    + by apply (Hd a hd).
  - assert (Hsub : forall a x, x ∈ a :: <[hd := new :: L hd]> L a -> x ∈ a :: L a \/ (a = hd /\ x = new)).
    { intros a x. destruct (decide (a = hd)) as [->|];
        [rewrite fn_lookup_insert | rewrite fn_lookup_insert_ne by done]; set_solver. }
    intros a b x HPa HPb Hne Hxa Hxb. apply Hsub in Hxa, Hxb.
    destruct Hxa as [Hxa|[Ea Ex]], Hxb as [Hxb|[Eb Ex']]; [| | |congruence];
      [|subst x; by apply (Hnew a)|subst x; by apply (Hnew b)].
    by apply (Hd a b x).
Qed.

Lemma rings_remove h P L hd l1 n l2 :
  rings h P L -> P hd -> (L hd = l1 ++ n :: l2) ->
  exists h', list_remove n h = Ok h' /\ rings h' P (<[hd := l1 ++ l2]> L) /\ ring h' n [] /\
    forall k, (forall a, P a -> k ∉ a :: L a) -> node_at h' k = node_at h k.
Proof.
  intros [Hr Hd] Hhd Hl. pose proof (Hr hd Hhd) as Hr0. rewrite Hl in Hr0.
  destruct (list_remove_ring _ _ _ _ _ Hr0) as (h' & Ha & Hr' & Hs & Hf).
  exists h'. split; [done|]. split; [|split; [done|intros k Hk; apply Hf; rewrite <- Hl; by apply Hk]].
  split.
  - intros a Ha'. destruct (decide (a = hd)) as [->|Hne]; [by rewrite fn_lookup_insert|].
    rewrite fn_lookup_insert_ne by done. eapply ring_ext; [|by apply Hr].
    intros k Hk. apply Hf. rewrite <- Hl. by apply (Hd a hd).
  - assert (Hsub : forall a x, x ∈ a :: <[hd := l1 ++ l2]> L a -> x ∈ a :: L a).
    { intros a x. destruct (decide (a = hd)) as [->|];
        [rewrite fn_lookup_insert, Hl | by rewrite fn_lookup_insert_ne by done]; set_solver. }
    intros a b x HPa HPb Hne Hxa Hxb. apply (Hd a b x); auto.
Qed.

Lemma rings_ext h P L L' :
  (forall hd, P hd -> L hd = L' hd) -> rings h P L -> rings h P L'.
Proof.
  intros He [Hr Hd]. split.
  - intros hd Hhd. rewrite <- He by done. by apply Hr.
  - intros a b x Ha Hb. rewrite <- !He by done. by apply Hd.
Qed.

(** ** Lists as a map from nodes to the list they hang on

    [hung h P M]: every node [x] hangs on the list whose head is [M x], on none
    when [M x] is [None]; the order within a list is left open. *)
Definition hung (h : gmap K list_head_t) (P : K -> Prop) (M : K -> option K) : Prop :=
  exists L, rings h P L /\ forall hd x, P hd -> (x ∈ L hd <-> M x = Some hd).

Lemma hung_ext h P M M' : (forall x, M x = M' x) -> hung h P M -> hung h P M'.
Proof. intros HM (L & Hr & HL). exists L. split; [done|]. intros hd x Hp. rewrite <- HM. by apply HL. Qed.

Lemma hung_next h P M hd :
  hung h P M -> P hd ->
  (list_empty hd h = true /\ forall x, M x <> Some hd) \/
  (list_empty hd h = false /\ exists x, lnext (node_at h hd) = Some x /\ M x = Some hd).
Proof.
  intros (L & Hr & HL) Hp. pose proof (rings_ring _ _ _ Hr _ Hp) as Hring.
  rewrite (list_empty_ring _ _ _ Hring). pose proof (ring_next _ _ _ Hring) as Hn.
  pose proof (fun x => HL hd x Hp) as Hx. destruct (L hd) as [|x l].
  - left. split; [by apply bool_decide_true|]. intros x HM. by apply Hx, not_elem_of_nil in HM.
  - right. split; [by apply bool_decide_false|]. exists x. split; [exact Hn|]. apply Hx. left.
Qed.

Lemma hung_remove h P M hd x :
  hung h P M -> P hd -> M x = Some hd ->
  exists h', list_remove x h = Ok h' /\ hung h' P (<[x := None]> M).
Proof.
  intros (L & Hr & HL) Hp HM. pose proof (proj2 (HL hd x Hp) HM) as Hin.
  apply list_elem_of_split in Hin as (l1 & l2 & Hl).
  destruct (rings_remove _ _ _ _ _ _ _ Hr Hp Hl) as (h' & E & Hr' & _ & _).
  exists h'. split; [done|]. exists (<[hd := l1 ++ l2]> L). split; [done|].
  pose proof (proj2 (rings_ring _ _ _ Hr _ Hp)) as Hnd. rewrite Hl in Hnd.
  apply NoDup_cons in Hnd as [_ Hnd]. apply NoDup_app in Hnd as (_ & Hd1 & Hnd).
  apply NoDup_cons in Hnd as [Hd2 _].
  intros hd' y Hp'. destruct (decide (hd' = hd)) as [->|Hne].
  - rewrite fn_lookup_insert.
    assert (Hy : y ∈ l1 ++ l2 <-> y ∈ L hd /\ y <> x).
    { rewrite Hl, !elem_of_app, elem_of_cons. split.
      - intros [Hi|Hi]; (split; [tauto|intros ->]); [apply (Hd1 _ Hi); left|done].
      - tauto. }
    rewrite Hy, HL by done. destruct (decide (y = x)) as [->|]; [rewrite fn_lookup_insert|rewrite fn_lookup_insert_ne by done];
      intuition congruence.
  - rewrite fn_lookup_insert_ne by congruence. rewrite HL by done.
    destruct (decide (y = x)) as [->|]; [rewrite fn_lookup_insert|rewrite fn_lookup_insert_ne by done];
      intuition congruence.
Qed.

Lemma hung_add h P M hd x :
  hung h P M -> P hd -> M x = None -> ~ P x ->
  exists h', list_add x hd h = Ok h' /\ hung h' P (<[x := Some hd]> M) /\ lnext (node_at h' hd) = Some x.
Proof.
  intros (L & Hr & HL) Hp HM Hx.
  destruct (rings_add _ _ _ hd x Hr Hp) as (h' & E & Hr' & _).
  { intros a Ha. rewrite elem_of_cons, HL by done. intros [->|?]; [done|congruence]. }
  exists h'. split; [done|]. split.
  - eexists. split; [exact Hr'|]. intros hd' y Hp'. destruct (decide (hd' = hd)) as [->|Hne].
    + rewrite fn_lookup_insert, elem_of_cons, HL by done.
      destruct (decide (y = x)) as [->|]; [rewrite fn_lookup_insert|rewrite fn_lookup_insert_ne by done];
        intuition congruence.
    + rewrite fn_lookup_insert_ne by congruence. rewrite HL by done.
      destruct (decide (y = x)) as [->|]; [rewrite fn_lookup_insert|rewrite fn_lookup_insert_ne by done];
        intuition congruence.
  - pose proof (rings_ring _ _ _ Hr' _ Hp) as Hring. rewrite fn_lookup_insert in Hring.
    apply (ring_next _ _ _ Hring).
Qed.
End KList.
Arguments list_head_t K : clear implicits.
