(* ===== verification/Buddy.v ===== *)
(** * The buddy page allocator: definitions ([src/kernel/src/memory/paging.c])

    The allocator's state is the page-frame array ([frame_metadata], one
    [page_frame_t] per physical page of the first GiB) and the nineteen free
    lists ([buddy_lists]); a list node is either the head of a free list or the
    node embedded in a page frame.  Every access to the array is checked: an
    index outside it is [UB].  Addresses are 64-bit kernel virtual addresses,
    as in the code. *)
From S2P Require Import Prelude KList.

(** [enum page_state] and [enum page_flags] ([include/types/paging_types.h]). *)
Definition PAGE_FREE : Z := 0.
Definition PAGE_BUDDY : Z := 1.
Definition PAGE_SLAB : Z := 2.
Definition PAGE_RESERVED : Z := 3.

Definition PAGE_BUDDY_TAIL : Z := 1.
Definition PAGE_BUDDY_HEAD : Z := 2.

(** [page_frame_t], without its embedded list node: [order] is 64 bits wide,
    [refcount] 32, [state] and [flags] the two bit fields of one byte. *)
Record page_frame_t := PageFrame {
  order : Z;
  refcount : Z;
  state : Z;
  flags : Z;
}.

Definition set_order (o : Z) (f : page_frame_t) := PageFrame o (refcount f) (state f) (flags f).
Definition set_refcount (r : Z) (f : page_frame_t) := PageFrame (order f) r (state f) (flags f).
Definition set_state (s : Z) (f : page_frame_t) := PageFrame (order f) (refcount f) s (flags f).
Definition set_flags (g : Z) (f : page_frame_t) := PageFrame (order f) (refcount f) (state f) g.

(** What [memset] leaves in the array. *)
Definition zero_frame : page_frame_t := PageFrame 0 0 0 0.

Definition MAX_ORDER : Z := 18.
Definition PAGE_SHIFT : Z := 12.
Definition PAGE_SIZE : Z := 4096.
(** Frames in the array: 1 GiB of 4 KiB pages. *)
Definition NPAGES : Z := 2 ^ 18.

Definition VIRT_BASE : Z := 0xFFFF800000000000.
Definition pa_to_va (pa : Z) : Z := u64 (pa + VIRT_BASE).
Definition va_to_pa (va : Z) : Z := u64 (va - VIRT_BASE).

(** List nodes: [&buddy_lists[o]] and [&frame_metadata[pfn].list]. *)
Inductive bnode := BList (o : Z) | BFrame (pfn : Z).

#[export] Instance bnode_eq_dec : EqDecision bnode.
Proof. solve_decision. Defined.
#[export] Instance bnode_countable : Countable bnode.
Proof.
  refine (inj_countable' (fun n => match n with BList o => inl o | BFrame p => inr p end)
    (fun s => match s with inl o => BList o | inr p => BFrame p end) _).
  by intros [].
Defined.

Record buddy := Buddy {
  meta : gmap Z page_frame_t;           (* frame_metadata *)
  nodes : gmap bnode (list_head_t bnode);
}.

Definition frame_at (st : buddy) (pfn : Z) : page_frame_t := default zero_frame (meta st !! pfn).

Definition in_array (pfn : Z) : bool := (0 <=? pfn) && (pfn <? NPAGES).

Definition get_frame (pfn : Z) (st : buddy) : res page_frame_t :=
  if in_array pfn then Ok (frame_at st pfn) else UB.

Definition upd_frame (pfn : Z) (f : page_frame_t -> page_frame_t) (st : buddy) : res buddy :=
  if in_array pfn
  then Ok (Buddy (<[pfn := f (frame_at st pfn)]> (meta st)) (nodes st))
  else UB.

Definition frame_node (pfn : Z) : res bnode := if in_array pfn then Ok (BFrame pfn) else UB.

Definition buddy_list (o : Z) : res bnode :=
  if (0 <=? o) && (o <=? MAX_ORDER) then Ok (BList o) else UB.

(** [list_entry(p, page_frame_t, list)]: the frame a node is embedded in. *)
Definition frame_of_node (n : bnode) : res Z :=
  match n with BFrame pfn => Ok pfn | BList _ => UB end.

Definition on_nodes (f : gmap bnode (list_head_t bnode) -> res (gmap bnode (list_head_t bnode)))
    (st : buddy) : res buddy :=
  h ← f (nodes st); Ok (Buddy (meta st) h).

Definition lists_next (o : Z) (st : buddy) : res bnode :=
  l ← buddy_list o; deref (lnext (node_at (nodes st) l)).

Definition lists_empty (o : Z) (st : buddy) : res bool :=
  l ← buddy_list o; Ok (list_empty l (nodes st)).

Definition frame_list_add (pfn o : Z) (st : buddy) : res buddy :=
  n ← frame_node pfn; l ← buddy_list o; on_nodes (list_add n l) st.

Definition frame_list_remove (pfn : Z) (st : buddy) : res buddy :=
  n ← frame_node pfn; on_nodes (list_remove n) st.

(** [for(int j = from; j < from + n; j++) frame_metadata[base + j] = f(...)]. *)
Fixpoint upd_range (n : nat) (pfn : Z) (f : page_frame_t -> page_frame_t) (st : buddy) : res buddy :=
  match n with
  | O => Ok st
  | S n => st ← upd_frame pfn f st; upd_range n (pfn + 1) f st
  end.

(** The tail loop of [_split_down]: frames [buddy + j] and [pfn + j] for
    [j] from [j0], [n] of them. *)
Fixpoint split_tails (n : nat) (j pfn buddy_pfn : Z) (st : buddy) : res buddy :=
  match n with
  | O => Ok st
  | S n =>
      st ← upd_frame (buddy_pfn + j) (fun f => set_flags PAGE_BUDDY_TAIL (set_order buddy_pfn f)) st;
      st ← upd_frame (pfn + j) (fun f => set_flags PAGE_BUDDY_TAIL (set_order pfn f)) st;
      split_tails n (j + 1) pfn buddy_pfn st
  end.

(** [_split_down(req_order, curr_order)]; [fuel] bounds the recursion. *)
Fixpoint _split_down (fuel : nat) (req_order curr_order : Z) (st : buddy) : res (bnode * buddy) :=
  match fuel with
  | O => Fuel
  | S fuel =>
      node ← lists_next curr_order st;
      if req_order =? curr_order then Ok (node, st)
      else
        og ← frame_of_node node;
        let pfn := u32 og in
        let buddy_pfn := u32 (pfn + Z.shiftl 1 (curr_order - 1)) in
        st ← on_nodes (list_remove node) st;
        st ← frame_list_add buddy_pfn (curr_order - 1) st;
        st ← frame_list_add og (curr_order - 1) st;
        st ← upd_frame pfn (set_order (curr_order - 1)) st;
        st ← upd_frame buddy_pfn (set_order (curr_order - 1)) st;
        st ← upd_frame buddy_pfn (set_flags PAGE_BUDDY_HEAD) st;
        st ← upd_frame buddy_pfn (set_state PAGE_FREE) st;
        st ← split_tails (Z.to_nat (Z.shiftl 1 (curr_order - 1) - 1)) 1 pfn buddy_pfn st;
        _split_down fuel req_order (u8 (curr_order - 1)) st
  end.

(** [_alloc_and_return(head, req_order)]; the code does not use [head]. *)
Definition _alloc_and_return (head : bnode) (req_order : Z) (st : buddy) : res (Z * buddy) :=
  node ← lists_next req_order st;
  block ← frame_of_node node;
  st ← frame_list_remove block st;
  st ← upd_frame block (set_refcount 1) st;
  st ← upd_frame block (set_state PAGE_BUDDY) st;
  st ← upd_frame block (fun f => set_flags (Z.lor (flags f) PAGE_BUDDY_HEAD) f) st;
  let pfn := block in
  st ← upd_range (Z.to_nat (Z.shiftl 1 req_order - 1)) (pfn + 1)
         (fun f => set_order pfn (set_refcount 1 (set_state PAGE_BUDDY (set_flags PAGE_BUDDY_TAIL f)))) st;
  Ok (pa_to_va (u64 (Z.shiftl pfn 12)), st).

(** [while ((1U << requested_order) < n_pages) requested_order++;] a shift of a
    32-bit value by 32 or more is undefined. *)
Fixpoint order_loop (fuel : nat) (requested_order n_pages : Z) : res Z :=
  match fuel with
  | O => Fuel
  | S fuel =>
      if 32 <=? requested_order then UB
      else if Z.shiftl 1 requested_order <? n_pages
      then order_loop fuel (u8 (requested_order + 1)) n_pages
      else Ok requested_order
  end.

(** The search of [buddy_alloc] through the higher orders. *)
Fixpoint alloc_scan (fuel : nat) (i requested_order : Z) (st : buddy) : res (Z * buddy) :=
  match fuel with
  | O => Fuel
  | S fuel =>
      if i <=? MAX_ORDER then
        e ← lists_empty i st;
        if negb e then
          '(node, st) ← _split_down 20 requested_order i st;
          _alloc_and_return node requested_order st
        else alloc_scan fuel (i + 1) requested_order st
      else Ok (0, st)
  end.

Definition buddy_alloc (bytes : Z) (st : buddy) : res (Z * buddy) :=
  let n_pages := u32 (Z.shiftr (u64 (bytes + 4095)) 12) in
  requested_order ← order_loop 33 0 n_pages;
  if MAX_ORDER <? requested_order then Ok (0, st)
  else
    e ← lists_empty requested_order st;
    if negb e then _alloc_and_return (BList requested_order) requested_order st
    else alloc_scan 20 (requested_order + 1) requested_order st.

(** [coalesce_up(frame)]; [fuel] bounds the recursion. *)
Fixpoint coalesce_up (fuel : nat) (curr_pfn : Z) (st : buddy) : res buddy :=
  match fuel with
  | O => Fuel
  | S fuel =>
      frame ← get_frame curr_pfn st;
      let block_order := order frame in
      if 32 <=? block_order then UB else
      let buddy := Z.lxor curr_pfn (Z.shiftl 1 block_order) in
      let prev := Z.min buddy curr_pfn in
      let next := Z.max buddy curr_pfn in
      prev_frame ← get_frame prev st;
      next_frame ← get_frame next st;
      if negb (order prev_frame =? order next_frame) then Ok st
      else if (state prev_frame =? PAGE_FREE) && (state next_frame =? PAGE_FREE) then
        st ← frame_list_remove prev st;
        st ← frame_list_remove next st;
        st ← upd_frame next (set_flags PAGE_BUDDY_TAIL) st;
        let updated_pfn := Z.min buddy curr_pfn in
        st ← upd_range (Z.to_nat (Z.shiftl 1 block_order)) next (set_order updated_pfn) st;
        st ← upd_frame prev (fun f => set_order (u64 (order f + 1)) f) st;
        st ← frame_list_add prev (block_order + 1) st;
        coalesce_up fuel prev st
      else Ok st
  end.

Definition pfn_of_va (page : Z) : Z := Z.shiftr (va_to_pa page) 12.

Definition buddy_free (page : Z) (st : buddy) : res buddy :=
  let pfn := pfn_of_va page in
  frame ← get_frame pfn st;
  if Z.land (flags frame) PAGE_BUDDY_HEAD =? 0 then Ok st
  else if state frame =? PAGE_FREE then Ok st
  else
    st ← upd_frame pfn (set_state PAGE_FREE) st;
    let block_order := order frame in
    st ← frame_list_add pfn block_order st;
    if block_order <? MAX_ORDER then coalesce_up 20 pfn st else Ok st.

(** Errors come back as [-1] and [-2] converted to [u64]. *)
Definition decrement_ref (addr : Z) (st : buddy) : res (Z * buddy) :=
  let pfn := pfn_of_va addr in
  pf ← get_frame pfn st;
  if state pf =? PAGE_RESERVED then Ok (u64 (-2), st)
  else if Z.land (flags pf) PAGE_BUDDY_HEAD =? 0 then Ok (u64 (-1), st)
  else
    st ← upd_frame pfn (fun f => set_refcount (u32 (refcount f - 1)) f) st;
    pf ← get_frame pfn st;
    st ← (if refcount pf =? 0 then buddy_free addr st else Ok st);
    pf ← get_frame pfn st;
    Ok (refcount pf, st).

Definition set_page_owner (page_addr new_owner : Z) (st : buddy) : res buddy :=
  let pfn := pfn_of_va page_addr in
  f ← get_frame pfn st;
  let pfn := if Z.land (flags f) PAGE_BUDDY_TAIL =? 0 then pfn else order f in
  upd_frame pfn (set_state new_owner) st.

Definition get_page_owner (page_addr : Z) (st : buddy) : res Z :=
  let pfn := pfn_of_va page_addr in
  f ← get_frame pfn st;
  let pfn := if Z.land (flags f) PAGE_BUDDY_TAIL =? 0 then pfn else order f in
  pf ← get_frame pfn st;
  Ok (state pf).

Definition head_from_page (page_addr : Z) (st : buddy) : res Z :=
  let pfn := pfn_of_va page_addr in
  f ← get_frame pfn st;
  let pfn := if flags f =? PAGE_BUDDY_TAIL then order f else pfn in
  pf ← get_frame pfn st;
  if negb (Z.land (flags pf) PAGE_BUDDY_HEAD =? 0)
  then Ok (pa_to_va (u64 (Z.shiftl pfn 12)))
  else Ok 0.

Definition get_block_order (addr : Z) (st : buddy) : res Z :=
  if negb (Z.land addr 0xFFF =? 0) then Ok (u8 (-1))
  else pf ← get_frame (Z.shiftr addr 12) st; Ok (u8 (order pf)).

(** The loop of [_initialize_buddy_allocator] from order [i] down to 0.  The
    tail frames get [state = PAGE_BUDDY_TAIL], as the code writes it. *)
Fixpoint init_orders (n : nat) (curr_pfn available_pages : Z) (st : buddy) : res buddy :=
  match n with
  | O => Ok st
  | S n =>
      let i := Z.of_nat n in
      if negb (Z.land available_pages (Z.shiftl 1 i) =? 0) then
        st ← upd_frame curr_pfn (set_order i) st;
        st ← upd_range (Z.to_nat (Z.shiftl 1 i - 1)) (curr_pfn + 1)
               (fun f => set_state PAGE_BUDDY_TAIL (set_order curr_pfn f)) st;
        st ← upd_frame curr_pfn (fun f => set_flags PAGE_BUDDY_HEAD (set_state PAGE_FREE f)) st;
        st ← frame_list_add curr_pfn i st;
        init_orders n (curr_pfn + Z.shiftl 1 i) available_pages st
      else init_orders n curr_pfn available_pages st
  end.

Definition _initialize_buddy_allocator (start_page_addr available_pages : Z) (st : buddy) : res buddy :=
  init_orders 19 (Z.shiftr start_page_addr 12) available_pages st.

(** [for(i = 0; i <= MAX_ORDER; i++) INIT_LIST_HEAD(&buddy_lists[i])]. *)
Definition init_lists (h : gmap bnode (list_head_t bnode)) : gmap bnode (list_head_t bnode) :=
  fold_left (fun h i => INIT_LIST_HEAD (BList i) h) (seqZ 0 19) h.

Definition is_list_head (n : bnode) : bool := match n with BList _ => true | BFrame _ => false end.

(** [initialize_page_frame_array()]: the linker's test region gives the first
    address after reserved memory; [memset] clears the array (the embedded list
    nodes included). *)
Definition initialize_page_frame_array (phys_test_region test_size : Z) (st : buddy) : res (Z * buddy) :=
  let h := init_lists (nodes st) in
  let reserved_memory := u64 (phys_test_region + test_size) in
  let reserved_pages := Z.shiftr (u64 (reserved_memory + 0xFFF)) 12 in
  let start_page_addr := Z.land (u64 (reserved_memory + 0xFFF)) (u64 (Z.lnot 0xFFF)) in
  let available_pages := u64 (Z.shiftl 1 18 - reserved_pages) in
  let h := filter (fun kv => is_list_head kv.1 = true) h in
  let st := Buddy ∅ h in
  st ← upd_range (Z.to_nat reserved_pages) 0 (set_state PAGE_RESERVED) st;
  st ← _initialize_buddy_allocator start_page_addr available_pages st;
  Ok (reserved_pages, st).
