(* ===== verification/BuddyInv.v ===== *)
(** * The buddy allocator's invariant, and the effect of its building blocks

    [B] is the abstract state: which blocks the managed region
    [[resv, NPAGES)] is cut into, each with its order and whether it is in use.
    [buddy_inv resv B st] ties it to the page-frame array and the free lists:
    the blocks tile the region, every head and tail frame carries its metadata,
    and the free list of order [o] links exactly the free blocks of order [o]. *)
From S2P Require Import Prelude KList Buddy.

Abbreviation blocks := (gmap Z (Z * bool)).

(** ** The tiling *)
Record blocks_wf (resv : Z) (B : blocks) : Prop := {
  bw_bounds : forall p o u, B !! p = Some (o, u) ->
    0 <= o <= MAX_ORDER /\ resv <= p /\ p + 2 ^ o <= NPAGES;
  bw_disj : forall p o u q o' u', B !! p = Some (o, u) -> B !! q = Some (o', u') ->
    p < q -> p + 2 ^ o <= q;
  bw_cover : forall q, resv <= q < NPAGES ->
    exists p o u, B !! p = Some (o, u) /\ p <= q < p + 2 ^ o;
}.

(** ** The metadata *)
Definition head_ok (f : page_frame_t) (o : Z) (used : bool) : Prop :=
  order f = o /\ flags f = PAGE_BUDDY_HEAD /\
  if used then state f <> PAGE_FREE /\ state f <> PAGE_RESERVED else state f = PAGE_FREE.

Definition tail_ok (f : page_frame_t) (head : Z) (used : bool) : Prop :=
  order f = head /\ (flags f = 0 \/ flags f = PAGE_BUDDY_TAIL) /\
  (used = true -> flags f = PAGE_BUDDY_TAIL /\ state f <> PAGE_FREE).

Record frames_ok (resv : Z) (B : blocks) (fr : Z -> page_frame_t) : Prop := {
  fo_head : forall p o u, B !! p = Some (o, u) -> head_ok (fr p) o u;
  fo_tail : forall p o u q, B !! p = Some (o, u) -> p < q < p + 2 ^ o -> tail_ok (fr q) p u;
  fo_resv : forall q, 0 <= q < resv -> fr q = PageFrame 0 0 PAGE_RESERVED 0;
}.

(** ** The free lists *)
Definition is_head (n : bnode) : Prop := exists o, n = BList o /\ 0 <= o <= MAX_ORDER.

Definition lists_ok (B : blocks) (h : gmap bnode (list_head_t bnode)) : Prop :=
  exists L, rings h is_head L /\
    forall o x, 0 <= o <= MAX_ORDER ->
      (x ∈ L (BList o) <-> exists p, x = BFrame p /\ B !! p = Some (o, false)).

Record buddy_inv (resv : Z) (B : blocks) (st : buddy) : Prop := {
  bi_resv : MAX_ORDER < resv;
  bi_wf : blocks_wf resv B;
  bi_frames : frames_ok resv B (frame_at st);
  bi_lists : lists_ok B (nodes st);
}.

Ltac consts := unfold MAX_ORDER, NPAGES in *; change (2 ^ 18) with 262144 in *.

(** ** Tilings under split, merge and change of status *)
Section tiling.
Context (resv : Z) (B : blocks).

Lemma block_order_bound p o u :
  0 < resv -> blocks_wf resv B -> B !! p = Some (o, u) -> 0 <= o < MAX_ORDER.
Proof.
  intros Hr Hw Hp. destruct (bw_bounds _ _ Hw _ _ _ Hp) as (Ho & ? & ?).
  destruct (decide (o = MAX_ORDER)) as [->|]; [|lia]. consts. lia.
Qed.

Lemma blocks_wf_status p o u u' :
  blocks_wf resv B -> B !! p = Some (o, u) -> blocks_wf resv (<[p := (o, u')]> B).
Proof.
  intros Hw Hp. split.
  - intros q oq uq Hq. rewrite lookup_insert in Hq. case_decide; simplify_eq; by eapply bw_bounds.
  - intros a oa ua b ob ub Ha Hb Hab. rewrite lookup_insert in Ha, Hb.
    repeat case_decide; simplify_eq; eapply bw_disj; eauto.
  - intros q Hq. destruct (bw_cover _ _ Hw q Hq) as (a & oa & ua & Ha & Hin).
    destruct (decide (p = a)) as [->|].
    + exists a, o, u'. rewrite lookup_insert_eq. simplify_eq. done.
    + exists a, oa, ua. by rewrite lookup_insert_ne.
Qed.

Lemma block_disjoint p o u q o' u' x :
  blocks_wf resv B -> B !! p = Some (o, u) -> B !! q = Some (o', u') ->
  p <= x < p + 2 ^ o -> q <= x < q + 2 ^ o' -> p = q.
Proof.
  intros Hw Hp Hq Hx Hx'. destruct (Z.lt_trichotomy p q) as [Hlt|[->|Hlt]]; [|done|].
  - pose proof (bw_disj _ _ Hw _ _ _ _ _ _ Hp Hq Hlt). lia.
  - pose proof (bw_disj _ _ Hw _ _ _ _ _ _ Hq Hp Hlt). lia.
Qed.

Lemma block_sep p o u q o' u' :
  blocks_wf resv B -> B !! p = Some (o, u) -> B !! q = Some (o', u') -> p <> q ->
  p + 2 ^ o <= q \/ q + 2 ^ o' <= p.
Proof.
  intros Hw Hp Hq Hne. destruct (Z.lt_trichotomy p q) as [|[|]]; [left|done|right];
    eapply bw_disj; eauto.
Qed.

(** A page inside a block is not the head of another one. *)
Lemma block_interior p o u x :
  blocks_wf resv B -> B !! p = Some (o, u) -> p < x < p + 2 ^ o -> B !! x = None.
Proof.
  intros Hw Hp Hx. destruct (B !! x) as [[o' u']|] eqn:E; [|done].
  destruct (bw_bounds _ _ Hw _ _ _ E) as [? _]. pose proof (pow2_pos o' ltac:(lia)).
  pose proof (block_disjoint _ _ _ _ _ _ x Hw Hp E ltac:(lia) ltac:(lia)). lia.
Qed.

Definition split_block (p o : Z) : blocks :=
  <[p := (o - 1, false)]> (<[p + 2 ^ (o - 1) := (o - 1, false)]> B).

Lemma blocks_wf_split p o u :
  blocks_wf resv B -> B !! p = Some (o, u) -> 1 <= o -> blocks_wf resv (split_block p o).
Proof.
  intros Hw Hp Ho. destruct (bw_bounds _ _ Hw _ _ _ Hp) as (? & ? & ?).
  pose proof (pow2_half o Ho) as Hh. pose proof (pow2_pos (o - 1) ltac:(lia)) as Hpos.
  unfold split_block. split.
  - intros q oq uq. rewrite !lookup_insert. repeat case_decide; intros; simplify_eq; try lia.
    eapply bw_bounds; eauto.
  - intros a oa ua b ob ub. rewrite !lookup_insert.
    repeat case_decide; intros; simplify_eq; try lia.
    + match goal with Hb : B !! b = Some _ |- _ => pose proof (block_sep _ _ _ _ _ _ Hw Hp Hb ltac:(congruence)) end. lia.
    + match goal with Hb : B !! b = Some _ |- _ => pose proof (block_sep _ _ _ _ _ _ Hw Hp Hb ltac:(congruence)) end. lia.
    + match goal with Ha : B !! a = Some _ |- _ => pose proof (block_sep _ _ _ _ _ _ Hw Hp Ha ltac:(congruence)) end. lia.
    + match goal with Ha : B !! a = Some _ |- _ => pose proof (block_sep _ _ _ _ _ _ Hw Hp Ha ltac:(congruence));
        pose proof (bw_bounds _ _ Hw _ _ _ Ha) as [??]; pose proof (pow2_pos oa ltac:(lia)) end. lia.
    + eapply bw_disj; eauto.
  - intros q Hq. destruct (bw_cover _ _ Hw q Hq) as (a & oa & ua & Ha & Hin).
    destruct (decide (p = a)) as [<-|Hne].
    + simplify_eq. destruct (decide (q < p + 2 ^ (o - 1))).
      * exists p, (o - 1), false. rewrite lookup_insert_eq. split; [done|lia].
      * exists (p + 2 ^ (o - 1)), (o - 1), false.
        rewrite lookup_insert_ne, lookup_insert_eq by lia. split; [done|lia].
    + exists a, oa, ua. rewrite !lookup_insert_ne; [done| |done].
      intros <-. rewrite (block_interior _ _ _ (p + 2 ^ (o - 1)) Hw Hp) in Ha by lia.
      congruence.
Qed.

Definition merge_block (p o : Z) : blocks := <[p := (o + 1, false)]> (delete (p + 2 ^ o) B).

Lemma blocks_wf_merge p o u u' :
  0 < resv -> blocks_wf resv B -> B !! p = Some (o, u) -> B !! (p + 2 ^ o) = Some (o, u') ->
  blocks_wf resv (merge_block p o).
Proof.
  intros Hr Hw Hp Hq. pose proof (block_order_bound _ _ _ Hr Hw Hp).
  destruct (bw_bounds _ _ Hw _ _ _ Hp) as (? & ? & ?).
  destruct (bw_bounds _ _ Hw _ _ _ Hq) as (_ & _ & ?).
  pose proof (pow2_succ o ltac:(lia)) as Hs. pose proof (pow2_pos o ltac:(lia)) as Hpos.
  unfold merge_block. split.
  - intros a oa ua. rewrite lookup_insert, lookup_delete.
    repeat case_decide; intros; simplify_eq; [lia|]. eapply bw_bounds; eauto.
  - intros a oa ua b ob ub. rewrite !lookup_insert, !lookup_delete.
    repeat case_decide; intros; simplify_eq; try lia.
    + destruct (Z.lt_trichotomy (a + 2 ^ o) b) as [Hlt|[|Hlt]]; [|congruence|].
      * pose proof (bw_disj _ _ Hw _ _ _ _ _ _ Hq ltac:(eassumption) Hlt). lia.
      * pose proof (bw_disj _ _ Hw _ _ _ _ _ _ Hp ltac:(eassumption) ltac:(eassumption)). lia.
    + eapply bw_disj; eauto.
    + eapply bw_disj; eauto.
  - intros x Hx. destruct (bw_cover _ _ Hw x Hx) as (a & oa & ua & Ha & Hin).
    destruct (decide (p = a)) as [<-|]; [|destruct (decide (p + 2 ^ o = a)) as [<-|]].
    + exists p, (o + 1), false. rewrite lookup_insert_eq. simplify_eq. split; [done|lia].
    + exists p, (o + 1), false. rewrite lookup_insert_eq. simplify_eq. split; [done|lia].
    + exists a, oa, ua. by rewrite lookup_insert_ne, lookup_delete_ne.
Qed.
End tiling.

(** ** Frame updates *)

Lemma in_array_true pfn : 0 <= pfn < NPAGES -> in_array pfn = true.
Proof. unfold in_array. intros. apply andb_true_iff. rewrite Z.leb_le, Z.ltb_lt. lia. Qed.

Lemma get_frame_ok pfn st : 0 <= pfn < NPAGES -> get_frame pfn st = Ok (frame_at st pfn).
Proof. intros. unfold get_frame. by rewrite in_array_true. Qed.

Lemma frame_at_insert m h p f q :
  frame_at (Buddy (<[p := f]> m) h) q = if decide (p = q) then f else frame_at (Buddy m h) q.
Proof. unfold frame_at. simpl. rewrite lookup_insert. by case_decide. Qed.

(** [st'] is [st] with every frame [q] replaced by [g q]; the lists are kept. *)
Definition frames_become (st st' : buddy) (g : Z -> page_frame_t) : Prop :=
  nodes st' = nodes st /\ forall q, frame_at st' q = g q.

Lemma upd_frame_ok pfn f st :
  0 <= pfn < NPAGES ->
  exists st', upd_frame pfn f st = Ok st' /\
    frames_become st st' (fun q => if decide (q = pfn) then f (frame_at st pfn) else frame_at st q).
Proof.
  intros. unfold upd_frame. rewrite in_array_true by done. eexists. split; [done|].
  split; [done|]. intros q. rewrite frame_at_insert.
  repeat case_decide; congruence || done.
Qed.

Lemma upd_range_ok n pfn f st :
  0 <= pfn -> pfn + Z.of_nat n <= NPAGES ->
  exists st', upd_range n pfn f st = Ok st' /\
    frames_become st st'
      (fun q => if decide (pfn <= q < pfn + Z.of_nat n) then f (frame_at st q) else frame_at st q).
Proof.
  revert pfn st. induction n as [|n IH]; intros pfn st H1 H2; simpl.
  - exists st. split; [done|]. split; [done|]. intros q. case_decide; [lia|done].
  - destruct (upd_frame_ok pfn f st) as (s1 & E1 & Hn1 & Hf1); [lia|]. rewrite E1. cbn [mbind res_bind].
    destruct (IH (pfn + 1) s1) as (s2 & E2 & Hn2 & Hf2); [lia|lia|]. rewrite E2.
    exists s2. split; [done|]. split; [congruence|]. intros q. rewrite Hf2, Hf1.
    repeat case_decide; subst; try lia; done.
Qed.

Lemma split_tails_ok n j pfn bud st :
  0 <= pfn -> pfn + j + Z.of_nat n <= bud + 1 -> 1 <= j -> bud + j + Z.of_nat n <= NPAGES ->
  exists st', split_tails n j pfn bud st = Ok st' /\
    frames_become st st' (fun q =>
      if decide (bud + j <= q < bud + j + Z.of_nat n)
      then set_flags PAGE_BUDDY_TAIL (set_order bud (frame_at st q))
      else if decide (pfn + j <= q < pfn + j + Z.of_nat n)
      then set_flags PAGE_BUDDY_TAIL (set_order pfn (frame_at st q))
      else frame_at st q).
Proof.
  revert j st. induction n as [|n IH]; intros j st H1 H2 H3 H4; simpl.
  - exists st. split; [done|]. split; [done|]. intros q. repeat case_decide; lia || done.
  - destruct (upd_frame_ok (bud + j) (fun f => set_flags PAGE_BUDDY_TAIL (set_order bud f)) st)
      as (s1 & E1 & Hn1 & Hf1); [lia|]. rewrite E1. cbn [mbind res_bind].
    destruct (upd_frame_ok (pfn + j) (fun f => set_flags PAGE_BUDDY_TAIL (set_order pfn f)) s1)
      as (s2 & E2 & Hn2 & Hf2); [lia|]. rewrite E2. cbn [mbind res_bind].
    destruct (IH (j + 1) s2) as (s3 & E3 & Hn3 & Hf3); [lia|lia|lia|lia|]. rewrite E3.
    exists s3. split; [done|]. split; [congruence|]. intros q. rewrite Hf3, Hf2, !Hf1.
    repeat case_decide; subst; try lia; done.
Qed.

(** ** The free lists *)
Section lists.
Implicit Types (B : blocks) (h : gmap bnode (list_head_t bnode)).

Lemma is_head_list o : 0 <= o <= MAX_ORDER -> is_head (BList o).
Proof. exists o. done. Qed.

Lemma lists_ok_free_eq B B' h :
  (forall p o, B !! p = Some (o, false) <-> B' !! p = Some (o, false)) ->
  lists_ok B h -> lists_ok B' h.
Proof.
  intros He (L & Hr & HL). exists L. split; [done|]. intros o x Ho. rewrite HL by done.
  setoid_rewrite He. done.
Qed.

Lemma lists_ok_next B h o :
  lists_ok B h -> 0 <= o <= MAX_ORDER ->
  (list_empty (BList o) h = true /\ (forall p, B !! p <> Some (o, false))) \/
  (list_empty (BList o) h = false /\
    exists p, lnext (node_at h (BList o)) = Some (BFrame p) /\ B !! p = Some (o, false)).
Proof.
  intros (L & Hr & HL) Ho. pose proof (rings_ring _ _ _ Hr _ (is_head_list o Ho)) as Hring.
  rewrite (list_empty_ring _ _ _ Hring). pose proof (ring_next _ _ _ Hring) as Hn.
  pose proof (fun x => HL o x Ho) as Hx.
  destruct (L (BList o)) as [|x l] eqn:E.
  - left. split; [by apply bool_decide_true|]. intros p Hp.
    assert (BFrame p ∈ []) as Hin by (apply Hx; eauto). by apply not_elem_of_nil in Hin.
  - right. split; [by apply bool_decide_false|].
    destruct (proj1 (Hx x) ltac:(left)) as (p & -> & Hp). exists p. split; [exact Hn|done].
Qed.

Lemma lists_ok_remove B h p o :
  lists_ok B h -> 0 <= o <= MAX_ORDER -> B !! p = Some (o, false) ->
  exists h', list_remove (BFrame p) h = Ok h' /\ lists_ok (delete p B) h'.
Proof.
  intros (L & Hr & HL) Ho Hp.
  assert (Hin : BFrame p ∈ L (BList o)) by (apply HL; eauto).
  apply list_elem_of_split in Hin as (l1 & l2 & Hl).
  destruct (rings_remove _ _ _ _ _ _ _ Hr (is_head_list o Ho) Hl) as (h' & E & Hr' & _ & _).
  exists h'. split; [done|]. exists (<[BList o := l1 ++ l2]> L). split; [done|].
  pose proof (proj2 (rings_ring _ _ _ Hr _ (is_head_list o Ho))) as Hnd. rewrite Hl in Hnd.
  apply NoDup_cons in Hnd as [_ Hnd]. apply NoDup_app in Hnd as (_ & Hd1 & Hnd).
  apply NoDup_cons in Hnd as [Hd2 _].
  intros o' x Ho'. destruct (decide (o' = o)) as [->|Hne].
  - rewrite fn_lookup_insert.
    assert (Hx : x ∈ l1 ++ l2 <-> x ∈ L (BList o) /\ x <> BFrame p).
    { rewrite Hl, !elem_of_app, elem_of_cons. split.
      - intros [Hi|Hi]; (split; [tauto|intros ->]); [apply (Hd1 _ Hi); left|done].
      - tauto. }
    rewrite Hx, HL by done. split.
    + intros [(q & -> & Hq) Hn]. exists q. rewrite lookup_delete_ne by congruence. done.
    + intros (q & -> & Hq). apply lookup_delete_Some in Hq as [? ?]. split; [eauto|congruence].
  - rewrite fn_lookup_insert_ne by congruence. rewrite HL by done.
    split; intros (q & -> & Hq); exists q; (split; [done|]).
    + rewrite lookup_delete_ne; [done|]. congruence.
    + by apply lookup_delete_Some in Hq as [_ ?].
Qed.

Lemma lists_ok_add B h p o :
  lists_ok B h -> 0 <= o <= MAX_ORDER -> (forall o', B !! p <> Some (o', false)) ->
  exists h', list_add (BFrame p) (BList o) h = Ok h' /\ lists_ok (<[p := (o, false)]> B) h' /\
    lnext (node_at h' (BList o)) = Some (BFrame p).
Proof.
  intros (L & Hr & HL) Ho Hp.
  destruct (rings_add _ _ _ (BList o) (BFrame p) Hr (is_head_list o Ho)) as (h' & E & Hr' & _).
  { intros a (o' & -> & Ho'). rewrite elem_of_cons, HL by done.
    intros [?|(q & Hq & Hb)]; [done|]. simplify_eq. by apply (Hp o'). }
  exists h'. split; [done|]. split.
  - eexists. split; [exact Hr'|]. intros o' x Ho'. destruct (decide (o' = o)) as [->|Hne].
    + rewrite fn_lookup_insert, elem_of_cons, HL by done. split.
      * intros [->|(q & -> & Hq)]; [exists p; by rewrite lookup_insert_eq|].
        exists q. rewrite lookup_insert_ne; [done|]. intros ->. by apply (Hp o).
      * intros (q & -> & Hq). rewrite lookup_insert in Hq. case_decide; [subst; by left|eauto].
    + rewrite fn_lookup_insert_ne by congruence. rewrite HL by done.
      split; intros (q & -> & Hq); exists q; (split; [done|]).
      * rewrite lookup_insert_ne; [done|]. intros ->. by apply (Hp o').
      * rewrite lookup_insert in Hq. case_decide; [congruence|done].
  - pose proof (rings_ring _ _ _ Hr' _ (is_head_list o Ho)) as Hring.
    rewrite fn_lookup_insert in Hring. apply (ring_next _ _ _ Hring).
Qed.
End lists.
