(* ===== verification/BuddyOps.v ===== *)
(** * The buddy allocator's operations meet the invariant

    For each function of [paging.c] modelled in [Buddy]: it runs without
    undefined behaviour and within its fuel from a state that satisfies
    [buddy_inv], what it does to the blocks, and that the invariant holds
    again. *)
From S2P Require Import Prelude KList Buddy BuddyInv.

(** Blocks in use are the same in both tilings, *)
Definition used_same (B B' : blocks) : Prop :=
  forall p o, B !! p = Some (o, true) <-> B' !! p = Some (o, true).

(** and their frames (reference count, owner, tails) were not touched. *)
Definition used_kept (B : blocks) (st st' : buddy) : Prop :=
  forall p o q, B !! p = Some (o, true) -> p <= q < p + 2 ^ o -> frame_at st' q = frame_at st q.

Lemma used_same_refl B : used_same B B.
Proof. done. Qed.
Lemma used_same_trans B1 B2 B3 : used_same B1 B2 -> used_same B2 B3 -> used_same B1 B3.
Proof. intros H1 H2 p o. etransitivity; [apply H1|apply H2]. Qed.
#[export] Instance used_same_equiv : Equivalence used_same.
Proof. split; [done|intros B1 B2 H p o; symmetry; apply H|intros B1 B2 B3; apply used_same_trans]. Qed.
Lemma used_kept_refl B st : used_kept B st st.
Proof. done. Qed.
Lemma used_kept_trans B B' st1 st2 st3 :
  used_same B B' -> used_kept B st1 st2 -> used_kept B' st2 st3 -> used_kept B st1 st3.
Proof.
  intros Hs H1 H2 p o q Hp Hq. rewrite (H2 p o q) by (by apply Hs || done). by apply (H1 p o q).
Qed.
#[export] Hint Resolve used_same_refl used_same_trans used_kept_refl used_kept_trans : rpos.

Section ops.
Context (resv : Z).
Implicit Types (B : blocks) (st : buddy).

Lemma buddy_list_ok o : 0 <= o <= MAX_ORDER -> buddy_list o = Ok (BList o).
Proof.
  intros. unfold buddy_list. rewrite (proj2 (Z.leb_le _ _)), (proj2 (Z.leb_le _ _)) by lia. done.
Qed.

Lemma block_range B st p o u :
  buddy_inv resv B st -> B !! p = Some (o, u) ->
  0 <= o < MAX_ORDER /\ resv <= p /\ 0 < p /\ p + 2 ^ o <= NPAGES /\ 1 <= 2 ^ o.
Proof.
  intros [Hr Hw _ _] Hp. pose proof (block_order_bound resv B p o u ltac:(consts; lia) Hw Hp).
  pose proof (bw_bounds _ _ Hw _ _ _ Hp). pose proof (pow2_ge1 o ltac:(lia)). consts. lia.
Qed.

Lemma block_page B st p o u q :
  buddy_inv resv B st -> B !! p = Some (o, u) -> p <= q < p + 2 ^ o -> 0 <= q < NPAGES.
Proof. intros Hi Hp Hq. pose proof (block_range _ _ _ _ _ Hi Hp). lia. Qed.

(** Frames of blocks that a step leaves alone stay well formed. *)
Lemma frames_ok_step B B' fr fr' :
  frames_ok resv B fr ->
  (forall p o u, B' !! p = Some (o, u) ->
    (B !! p = Some (o, u) /\ forall q, p <= q < p + 2 ^ o -> fr' q = fr q) \/
    (head_ok (fr' p) o u /\ forall q, p < q < p + 2 ^ o -> tail_ok (fr' q) p u)) ->
  (forall q, 0 <= q < resv -> fr' q = fr q) ->
  (forall p o u, B' !! p = Some (o, u) -> 0 < 2 ^ o) ->
  frames_ok resv B' fr'.
Proof.
  intros Hf Hb Hr Hpos. split.
  - intros p o u Hp. destruct (Hb _ _ _ Hp) as [[Hp' He]|[? _]]; [|done].
    rewrite He by (specialize (Hpos _ _ _ Hp); lia). by eapply fo_head.
  - intros p o u q Hp Hq. destruct (Hb _ _ _ Hp) as [[Hp' He]|[_ Ht]]; [|by apply Ht].
    rewrite He by lia. by eapply fo_tail.
  - intros q Hq. rewrite Hr by done. by eapply fo_resv.
Qed.

Lemma wf_pow_pos B p o u : blocks_wf resv B -> B !! p = Some (o, u) -> 0 < 2 ^ o.
Proof. intros Hw Hp. apply pow2_pos. by apply (bw_bounds _ _ Hw) in Hp as [[? _] _]. Qed.

Lemma frame_list_add_ok B h m p o :
  lists_ok B h -> 0 <= o <= MAX_ORDER -> 0 <= p < NPAGES -> (forall o', B !! p <> Some (o', false)) ->
  exists h', frame_list_add p o (Buddy m h) = Ok (Buddy m h') /\
    lists_ok (<[p := (o, false)]> B) h' /\ lnext (node_at h' (BList o)) = Some (BFrame p).
Proof.
  intros Hl Ho Hp Hn. destruct (lists_ok_add _ _ _ _ Hl Ho Hn) as (h' & E & ? & ?).
  unfold frame_list_add, frame_node. rewrite in_array_true, buddy_list_ok by done.
  cbn [mbind res_bind]. unfold on_nodes. cbn [nodes meta]. rewrite E. eauto.
Qed.

Lemma frame_list_remove_ok B h m p o :
  lists_ok B h -> 0 <= o <= MAX_ORDER -> 0 <= p < NPAGES -> B !! p = Some (o, false) ->
  exists h', frame_list_remove p (Buddy m h) = Ok (Buddy m h') /\ lists_ok (delete p B) h'.
Proof.
  intros Hl Ho Hp HB. destruct (lists_ok_remove _ _ _ _ Hl Ho HB) as (h' & E & ?).
  unfold frame_list_remove, frame_node. rewrite in_array_true by done.
  cbn [mbind res_bind]. unfold on_nodes. cbn [nodes meta]. rewrite E. eauto.
Qed.

Lemma lists_next_ok st o p :
  0 <= o <= MAX_ORDER -> lnext (node_at (nodes st) (BList o)) = Some (BFrame p) ->
  lists_next o st = Ok (BFrame p).
Proof. intros Ho Hn. unfold lists_next. rewrite buddy_list_ok by done. simpl. by rewrite Hn. Qed.

(** One halving of [_split_down]: the frame updates it makes, as one function. *)
Definition split_frames (p o : Z) (fr : Z -> page_frame_t) (q : Z) : page_frame_t :=
  let b := p + 2 ^ (o - 1) in
  if decide (q = p) then set_order (o - 1) (fr p)
  else if decide (q = b) then PageFrame (o - 1) (refcount (fr b)) PAGE_FREE PAGE_BUDDY_HEAD
  else if decide (b < q < b + 2 ^ (o - 1)) then set_flags PAGE_BUDDY_TAIL (set_order b (fr q))
  else if decide (p < q < b) then set_flags PAGE_BUDDY_TAIL (set_order p (fr q))
  else fr q.

Lemma split_frames_ok B st p o :
  buddy_inv resv B st -> B !! p = Some (o, false) -> 1 <= o ->
  frames_ok resv (split_block B p o) (split_frames p o (frame_at st)).
Proof.
  intros Hi Hp Ho. pose proof Hi as [Hr Hw Hf Hl].
  pose proof (block_range _ _ _ _ _ Hi Hp) as (? & ? & ? & ? & ?).
  pose proof (pow2_half o Ho). pose proof (pow2_ge1 (o - 1) ltac:(lia)).
  pose proof (fo_head _ _ _ Hf _ _ _ Hp) as (_ & Hhf & Hhs).
  eapply frames_ok_step; [exact Hf| | |].
  - intros a oa ua. unfold split_block. rewrite !lookup_insert.
    repeat case_decide; intros; simplify_eq; try lia; unfold split_frames.
    + right. split; [rewrite decide_True by done; done|].
      intros q Hq. rewrite !decide_False, decide_True by lia.
      split; [done|]. split; [by right|done].
    + right. split; [by rewrite decide_False, decide_True by lia|].
      intros q Hq. rewrite !decide_False, decide_True by lia.
      split; [done|]. split; [by right|done].
    + left. split; [done|]. intros q Hq.
      match goal with Ha : B !! a = Some _ |- _ =>
        pose proof (block_sep _ _ _ _ _ _ _ _ Hw Hp Ha ltac:(congruence)) end.
      rewrite !decide_False by lia. done.
  - intros q Hq. unfold split_frames. rewrite !decide_False by lia. done.
  - intros a oa ua Ha. eapply wf_pow_pos; [|exact Ha].
    eapply (blocks_wf_split resv B); eauto.
Qed.

(** What one level of [_split_down] runs, up to the recursive call. *)
Lemma split_level B st p o :
  buddy_inv resv B st -> B !! p = Some (o, false) -> 1 <= o ->
  lnext (node_at (nodes st) (BList o)) = Some (BFrame p) ->
  exists st',
    (st ← on_nodes (list_remove (BFrame p)) st;
     st ← frame_list_add (u32 (u32 p + Z.shiftl 1 (o - 1))) (o - 1) st;
     st ← frame_list_add p (o - 1) st;
     st ← upd_frame (u32 p) (set_order (o - 1)) st;
     st ← upd_frame (u32 (u32 p + Z.shiftl 1 (o - 1))) (set_order (o - 1)) st;
     st ← upd_frame (u32 (u32 p + Z.shiftl 1 (o - 1))) (set_flags PAGE_BUDDY_HEAD) st;
     st ← upd_frame (u32 (u32 p + Z.shiftl 1 (o - 1))) (set_state PAGE_FREE) st;
     split_tails (Z.to_nat (Z.shiftl 1 (o - 1) - 1)) 1 (u32 p)
       (u32 (u32 p + Z.shiftl 1 (o - 1))) st) = Ok st' /\
    buddy_inv resv (split_block B p o) st' /\
    lnext (node_at (nodes st') (BList (o - 1))) = Some (BFrame p) /\
    forall q, frame_at st' q = split_frames p o (frame_at st) q.
Proof.
  intros Hi Hp Ho Hn. pose proof Hi as [Hr Hw Hf Hl].
  pose proof (block_range _ _ _ _ _ Hi Hp) as (? & ? & ? & ? & ?).
  pose proof (pow2_half o Ho). pose proof (pow2_ge1 (o - 1) ltac:(lia)).
  rewrite shiftl_1 by lia. consts.
  rewrite !(u32_small p) by lia. rewrite !(u32_small (p + 2 ^ (o - 1))) by lia.
  destruct st as [m h]. cbn [nodes] in *.
  destruct (lists_ok_remove B h p o Hl ltac:(consts; lia) Hp) as (h1 & E1 & Hl1).
  unfold on_nodes at 1. cbn [nodes meta]. rewrite E1. cbn [mbind res_bind].
  assert (HbB : B !! (p + 2 ^ (o - 1)) = None) by (eapply block_interior; [exact Hw|exact Hp|lia]).
  destruct (frame_list_add_ok _ h1 m (p + 2 ^ (o - 1)) (o - 1) Hl1) as (h2 & E2 & Hl2 & _);
    [consts; lia|consts; lia|rewrite lookup_delete_ne, HbB by lia; done|].
  rewrite E2. cbn [mbind res_bind].
  destruct (frame_list_add_ok _ h2 m p (o - 1) Hl2) as (h3 & E3 & Hl3 & Hn3);
    [consts; lia|consts; lia|rewrite lookup_insert_ne, lookup_delete_eq by lia; done|].
  rewrite E3. cbn [mbind res_bind].
  destruct (upd_frame_ok p (set_order (o - 1)) (Buddy m h3)) as (s4 & E4 & N4 & F4); [consts; lia|].
  rewrite E4. cbn [mbind res_bind].
  destruct (upd_frame_ok (p + 2 ^ (o - 1)) (set_order (o - 1)) s4) as (s5 & E5 & N5 & F5); [consts; lia|].
  rewrite E5. cbn [mbind res_bind].
  destruct (upd_frame_ok (p + 2 ^ (o - 1)) (set_flags PAGE_BUDDY_HEAD) s5) as (s6 & E6 & N6 & F6); [consts; lia|].
  rewrite E6. cbn [mbind res_bind].
  destruct (upd_frame_ok (p + 2 ^ (o - 1)) (set_state PAGE_FREE) s6) as (s7 & E7 & N7 & F7); [consts; lia|].
  rewrite E7. cbn [mbind res_bind].
  destruct (split_tails_ok (Z.to_nat (2 ^ (o - 1) - 1)) 1 p (p + 2 ^ (o - 1)) s7)
    as (s8 & E8 & N8 & F8); [lia|lia|lia|consts; lia|].
  rewrite E8. exists s8. split; [done|].
  assert (HF : forall q, frame_at s8 q = split_frames p o (frame_at (Buddy m h)) q).
  { intros q. rewrite F8, F7, F6, F5, F4. unfold split_frames. rewrite F6, F5, F4, F5, F4.
    rewrite Z2Nat.id by lia. cbn.
    repeat case_decide; subst; try lia; try done; rewrite ?F4; repeat case_decide; try lia; done. }
  assert (HN : nodes s8 = h3) by (rewrite N8, N7, N6, N5, N4; done).
  split; [split|].
  - consts. lia.
  - by eapply blocks_wf_split.
  - pose proof (split_frames_ok _ _ _ _ Hi Hp Ho) as [G1 G2 G3].
    split; intros; rewrite ?HF; eauto.
  - rewrite HN. eapply lists_ok_free_eq; [|exact Hl3]. intros a oa. unfold split_block.
    rewrite (insert_insert_ne (delete p B)), insert_delete_eq by lia.
    rewrite !lookup_insert. repeat case_decide; done || lia.
  - rewrite HN. done.
Qed.

Lemma split_block_used B p o :
  B !! p = Some (o, false) -> blocks_wf resv B -> 1 <= o -> used_same B (split_block B p o).
Proof.
  intros Hp Hw Ho q oq. unfold split_block. rewrite !lookup_insert.
  repeat case_decide; subst; split; intros; simplify_eq; try done.
  exfalso. rewrite (block_interior _ _ _ _ _ (p + 2 ^ (o - 1)) Hw Hp) in *; [done|].
  pose proof (pow2_half o Ho). pose proof (pow2_pos (o - 1) ltac:(lia)). lia.
Qed.

(** A page in a free block of an order below [m]. *)
Definition small (m : Z) (B : blocks) (q : Z) : Prop := exists p o, B !! p = Some (o, false) /\ o < m /\ p <= q < p + 2 ^ o.

(** An aligned run of four free pages within one such block. *)
Definition quad (m : Z) (B : blocks) (q : Z) : Prop :=
  exists p o, B !! p = Some (o, false) /\ 2 <= o < m /\ p <= q < p + 2 ^ o /\ (q - p) mod 4 = 0.

(** The runs that an allocation at [p] leaves. *)
Definition quads_kept (B B' : blocks) (p : Z) : Prop := forall m q, quad m B q -> q <> p -> quad m B' q.

Lemma quads_kept_refl B p : quads_kept B B p.
Proof. by intros m q. Qed.

(** Splitting a block of order [o] leaves the pages in blocks below [m > o]. *)
Definition small_kept (o : Z) (B B' : blocks) : Prop := forall m q, o < m -> small m B' q <-> small m B q.

Lemma small_kept_refl o B : small_kept o B B.
Proof. by intros m q. Qed.

Lemma split_block_small B p o :
  B !! p = Some (o, false) -> blocks_wf resv B -> 1 <= o -> small_kept o B (split_block B p o).
Proof.
  intros Hp Hw Ho m q Hm. pose proof (pow2_half o Ho). pose proof (pow2_ge1 (o - 1) ltac:(lia)). unfold small, split_block. split.
  - intros (a & oa & Ha & Hoa & Hq). rewrite !lookup_insert in Ha. repeat case_decide; simplify_eq.
    + exists a, o. split; [done|lia].
    + exists p, o. split; [done|lia].
    + by exists a, oa.
  - intros (a & oa & Ha & Hoa & Hq). destruct (decide (a = p)) as [->|Hap].
    + assert (oa = o) as -> by congruence. destruct (decide (q < p + 2 ^ (o - 1))).
      * exists p, (o - 1). rewrite lookup_insert_eq. split; [done|lia].
      * exists (p + 2 ^ (o - 1)), (o - 1). rewrite lookup_insert_ne, lookup_insert_eq by lia. split; [done|lia].
    + exists a, oa. rewrite !lookup_insert_ne; [done| |done]. intros <-.
      rewrite (block_interior _ _ _ _ _ (p + 2 ^ (o - 1)) Hw Hp) in Ha; [done|lia].
Qed.

Lemma used_block_small m B p r q : B !! p = Some (r, false) -> blocks_wf resv B -> r < m ->
  small m (<[p := (r, true)]> B) q <-> small m B q /\ ~ (p <= q < p + 2 ^ r).
Proof.
  intros Hp Hw Hr. unfold small. split.
  - intros (a & oa & Ha & Hoa & Hq). rewrite lookup_insert in Ha. case_decide as Hd; [discriminate|].
    split; [by exists a, oa|]. intros Hq'. apply Hd. symmetry.
    assert (E : (oa, false) = (r, false) /\ a = p); [|by destruct E].
    pose proof (block_sep _ _ _ _ _ _ _ _ Hw Hp Ha ltac:(congruence)). lia.
  - intros [(a & oa & Ha & Hoa & Hq) Hn]. exists a, oa. rewrite lookup_insert_ne; [done|]. intros <-.
    assert (oa = r) as -> by congruence. done.
Qed.

Lemma split_block_quads B p o :
  B !! p = Some (o, false) -> blocks_wf resv B -> 1 <= o -> quads_kept B (split_block B p o) p.
Proof.
  intros Hp Hw Ho m q (a & oa & Ha & Hoa & Hq & Hm) Hne. pose proof (pow2_half o Ho). pose proof (pow2_ge1 (o - 1) ltac:(lia)).
  unfold quad, split_block. destruct (decide (a = p)) as [->|Hap].
  - assert (oa = o) as -> by congruence. destruct (decide (o = 2)) as [->|Ho2]; [change (2 ^ 2) with 4 in *; zdiv|].
    assert (E4 : 2 ^ (o - 1) = 4 * 2 ^ (o - 3)) by (change 4 with (2 ^ 2); rewrite <- Z.pow_add_r by lia; f_equal; lia).
    destruct (decide (q < p + 2 ^ (o - 1))).
    + exists p, (o - 1). rewrite lookup_insert_eq. split; [done|]. split; [lia|]. split; [lia|done].
    + exists (p + 2 ^ (o - 1)), (o - 1). rewrite lookup_insert_ne, lookup_insert_eq by lia. split; [done|]. split; [lia|].
      split; [lia|]. replace (q - (p + 2 ^ (o - 1))) with (q - p + - 2 ^ (o - 3) * 4) by lia. by rewrite Z_mod_plus_full.
  - exists a, oa. rewrite !lookup_insert_ne; [done| |done]. intros <-.
    rewrite (block_interior _ _ _ _ _ (p + 2 ^ (o - 1)) Hw Hp) in Ha; [done|lia].
Qed.

Lemma used_block_quads B p r : B !! p = Some (r, false) -> r <= 2 -> quads_kept B (<[p := (r, true)]> B) p.
Proof.
  intros Hp Hr m q (a & oa & Ha & Hoa & Hq & Hm) Hne. exists a, oa. rewrite lookup_insert_ne; [done|].
  intros <-. assert (oa = r) as -> by congruence. assert (r = 2) as -> by lia. change (2 ^ 2) with 4 in *. zdiv.
Qed.

Lemma split_frames_kept B st st' p o :
  buddy_inv resv B st -> B !! p = Some (o, false) -> 1 <= o ->
  (forall q, frame_at st' q = split_frames p o (frame_at st) q) -> used_kept B st st'.
Proof.
  intros Hi Hp Ho HF a oa q Ha Hq. rewrite HF.
  pose proof (block_sep _ _ _ _ _ _ _ _ (bi_wf _ _ _ Hi) Hp Ha ltac:(congruence)).
  pose proof (pow2_half o Ho). pose proof (pow2_pos (o - 1) ltac:(lia)).
  unfold split_frames. by rewrite !decide_False by lia.
Qed.

Lemma split_down_ok fuel req cur B st p :
  buddy_inv resv B st -> 0 <= req <= cur -> B !! p = Some (cur, false) ->
  lnext (node_at (nodes st) (BList cur)) = Some (BFrame p) ->
  (Z.to_nat (cur - req) < fuel)%nat ->
  exists st' B', _split_down fuel req cur st = Ok (BFrame p, st') /\
    buddy_inv resv B' st' /\ B' !! p = Some (req, false) /\
    lnext (node_at (nodes st') (BList req)) = Some (BFrame p) /\
    used_same B B' /\ used_kept B st st' /\ quads_kept B B' p /\ small_kept cur B B'.
Proof.
  revert cur B st. induction fuel as [|fuel IH]; intros cur B st Hi Hc Hp Hn Hfuel; [lia|].
  pose proof (block_range _ _ _ _ _ Hi Hp) as (? & ? & ? & ? & ?).
  cbn [_split_down]. rewrite (lists_next_ok st cur p) by (done || lia). cbn [mbind res_bind].
  destruct (Z.eqb_spec req cur) as [->|Hne].
  { exists st, B. split_and!; auto using quads_kept_refl, small_kept_refl with rpos. }
  cbn [frame_of_node mbind res_bind].
  destruct (split_level B st p cur Hi Hp ltac:(lia) Hn) as (st1 & E & Hi1 & Hn1 & HF).
  assert (Hp1 : split_block B p cur !! p = Some (cur - 1, false)).
  { unfold split_block. by rewrite lookup_insert_eq. }
  pose proof (split_block_used B p cur Hp (bi_wf _ _ _ Hi) ltac:(lia)) as Hu1.
  pose proof (split_frames_kept B st st1 p cur Hi Hp ltac:(lia) HF) as Hk1.
  destruct (IH (cur - 1) _ _ Hi1 ltac:(lia) Hp1 Hn1 ltac:(lia))
    as (st2 & B2 & E2 & Hi2 & Hp2 & Hn2 & Hu2 & Hk2 & Hq2 & Hs2).
  pose proof (split_block_quads B p cur Hp (bi_wf _ _ _ Hi) ltac:(lia)) as Hq1.
  pose proof (split_block_small B p cur Hp (bi_wf _ _ _ Hi) ltac:(lia)) as Hs1.
  assert (Hq : quads_kept B B2 p) by (intros m q Hq Hqp; apply Hq2; [by apply Hq1|done]).
  assert (Hs : small_kept cur B B2) by (intros m q Hm; transitivity (small m (split_block B p cur) q); [apply Hs2; lia|by apply Hs1]).
  exists st2, B2. split; [|by split_and!; eauto with rpos].
  rewrite u8_small by (consts; lia). revert E. 
  destruct (on_nodes (list_remove (BFrame p)) st) as [s| | |]; cbn [mbind res_bind]; try discriminate.
  intros E. rewrite <- E2. clear E2 IH.
  repeat match goal with
  | E : mbind _ ?r = Ok _ |- mbind _ ?r = _ =>
      destruct r; cbn [mbind res_bind] in *; try discriminate
  end.
  rewrite E. done.
Qed.

(** ** Allocation *)

(** The kernel address of page [p]. *)
Definition page_va (p : Z) : Z := pa_to_va (u64 (Z.shiftl p 12)).

Lemma page_va_eq p : 0 <= p < NPAGES -> page_va p = VIRT_BASE + p * 4096.
Proof.
  intros. unfold page_va, pa_to_va, VIRT_BASE. consts. rewrite Z.shiftl_mul_pow2 by lia.
  change (2 ^ 12) with 4096. rewrite !u64_small; try rewrite u64_small; lia.
Qed.

Lemma page_va_pfn p off : 0 <= p < NPAGES -> 0 <= off < 4096 -> pfn_of_va (page_va p + off) = p.
Proof.
  intros. rewrite page_va_eq by done. unfold pfn_of_va, va_to_pa, VIRT_BASE. consts.
  rewrite u64_small by lia. rewrite Z.shiftr_div_pow2 by lia. change (2 ^ 12) with 4096.
  symmetry. apply Z.div_unique with off; lia.
Qed.

Lemma page_va_pfn0 p : 0 <= p < NPAGES -> pfn_of_va (page_va p) = p.
Proof. intros. rewrite <- (Z.add_0_r (page_va p)). apply page_va_pfn; lia. Qed.

Lemma page_va_nonzero p : 0 <= p < NPAGES -> page_va p <> 0.
Proof. intros. rewrite page_va_eq by done. unfold VIRT_BASE. lia. Qed.

Lemma alloc_and_return_ok B st p r hd :
  buddy_inv resv B st -> B !! p = Some (r, false) ->
  lnext (node_at (nodes st) (BList r)) = Some (BFrame p) ->
  exists st', _alloc_and_return hd r st = Ok (page_va p, st') /\
    buddy_inv resv (<[p := (r, true)]> B) st' /\
    refcount (frame_at st' p) = 1 /\ state (frame_at st' p) = PAGE_BUDDY /\
    (forall q, p < q < p + 2 ^ r -> refcount (frame_at st' q) = 1 /\ state (frame_at st' q) = PAGE_BUDDY) /\
    (forall q, ~ (p <= q < p + 2 ^ r) -> frame_at st' q = frame_at st q).
Proof.
  intros Hi Hp Hn. pose proof Hi as [Hr Hw Hf Hl].
  pose proof (block_range _ _ _ _ _ Hi Hp) as (? & ? & ? & ? & ?).
  unfold _alloc_and_return. rewrite (lists_next_ok st r p) by (done || lia).
  cbn [mbind res_bind frame_of_node].
  destruct st as [m h]. cbn [nodes] in *.
  destruct (frame_list_remove_ok B h m p r Hl) as (h1 & E1 & Hl1); [lia|lia|done|].
  rewrite E1. cbn [mbind res_bind].
  destruct (upd_frame_ok p (set_refcount 1) (Buddy m h1)) as (s2 & E2 & N2 & F2); [lia|].
  rewrite E2. cbn [mbind res_bind].
  destruct (upd_frame_ok p (set_state PAGE_BUDDY) s2) as (s3 & E3 & N3 & F3); [lia|].
  rewrite E3. cbn [mbind res_bind].
  destruct (upd_frame_ok p (fun f => set_flags (Z.lor (flags f) PAGE_BUDDY_HEAD) f) s3)
    as (s4 & E4 & N4 & F4); [lia|].
  rewrite E4. cbn [mbind res_bind]. rewrite shiftl_1 by lia.
  match goal with |- context [upd_range ?n ?b ?f s4] =>
    destruct (upd_range_ok n b f s4) as (s5 & E5 & N5 & F5); [lia|lia|] end.
  rewrite E5. cbn [mbind res_bind]. exists s5. split; [done|].
  rewrite Z2Nat.id in F5 by lia.
  pose proof (fo_head _ _ _ Hf _ _ _ Hp) as (Ho & Hg & _).
  assert (Hhead : frame_at s5 p = PageFrame r 1 PAGE_BUDDY PAGE_BUDDY_HEAD).
  { rewrite F5, decide_False, F4, decide_True, F3, decide_True, F2, decide_True by lia.
    change (frame_at (Buddy m h1) p) with (frame_at (Buddy m h) p).
    destruct (frame_at (Buddy m h) p); cbn in *; subst; done. }
  assert (Htail : forall q, p < q < p + 2 ^ r -> frame_at s5 q = PageFrame p 1 PAGE_BUDDY PAGE_BUDDY_TAIL).
  { intros q Hq. rewrite F5, decide_True by lia. done. }
  assert (Hout : forall q, ~ (p <= q < p + 2 ^ r) -> frame_at s5 q = frame_at (Buddy m h) q).
  { intros q Hq. rewrite F5, decide_False, F4, decide_False, F3, decide_False, F2, decide_False by lia.
    done. }
  split; [split|].
  - done.
  - by eapply blocks_wf_status.
  - eapply frames_ok_step; [exact Hf| | |].
    + intros a oa ua. rewrite lookup_insert. case_decide; intros; simplify_eq.
      * right. split; [rewrite Hhead; done|]. intros q Hq. rewrite Htail by done.
        split; [done|]. split; [by right|done].
      * left. split; [done|]. intros q Hq. apply Hout.
        match goal with Ha : B !! a = Some _ |- _ =>
          pose proof (block_sep _ _ _ _ _ _ _ _ Hw Hp Ha ltac:(congruence)) end. lia.
    + intros q Hq. apply Hout. lia.
    + intros a oa ua Ha. eapply wf_pow_pos; [|exact Ha]. by eapply blocks_wf_status.
  - rewrite N5, N4, N3, N2. eapply lists_ok_free_eq; [|exact Hl1]. intros a oa.
    rewrite lookup_insert, lookup_delete. repeat case_decide; done.
  - rewrite Hhead. split; [done|]. split; [done|]. split; [|done].
    intros q Hq. by rewrite Htail.
Qed.

Lemma order_loop_ok fuel k n :
  0 <= k <= Z.log2_up n -> Z.log2_up n < 32 -> (Z.to_nat (Z.log2_up n - k) < fuel)%nat ->
  order_loop fuel k n = Ok (Z.log2_up n).
Proof.
  revert k. induction fuel as [|fuel IH]; intros k Hk Hn Hf; [lia|]. cbn [order_loop].
  rewrite (proj2 (Z.leb_gt 32 k)) by lia. rewrite shiftl_1 by lia.
  destruct (Z.ltb_spec (2 ^ k) n) as [Hlt|Hge].
  - assert (k < Z.log2_up n) by (apply Z.log2_up_lt_pow2; lia).
    rewrite u8_small by lia. apply IH; lia.
  - f_equal. apply Z.le_antisymm; [lia|].
    destruct (Z.le_gt_cases n 0); [rewrite Z.log2_up_nonpos; lia|].
    apply Z.log2_up_le_pow2; lia.
Qed.

(** Pages that [bytes] bytes need, and the order of the block they get. *)
Definition pages_for (bytes : Z) : Z := (bytes + 4095) / 4096.
Definition order_for (bytes : Z) : Z := Z.log2_up (pages_for bytes).

Lemma alloc_order_ok bytes :
  0 <= bytes <= 2 ^ 43 ->
  order_loop 33 0 (u32 (Z.shiftr (u64 (bytes + 4095)) 12)) = Ok (order_for bytes) /\
  0 <= order_for bytes <= 31.
Proof.
  intros Hb. change (2 ^ 43) with 8796093022208 in Hb.
  rewrite u64_small by lia. rewrite Z.shiftr_div_pow2 by lia. change (2 ^ 12) with 4096.
  fold (pages_for bytes).
  assert (Hp : 0 <= pages_for bytes <= 2 ^ 31).
  { change (2 ^ 31) with 2147483648. unfold pages_for. zdiv. }
  assert (Ho : 0 <= order_for bytes <= 31).
  { unfold order_for. split; [apply Z.log2_up_nonneg|].
    destruct (Z.le_gt_cases (pages_for bytes) 0); [rewrite Z.log2_up_nonpos; lia|].
    apply Z.log2_up_le_pow2; lia. }
  change (2 ^ 31) with 2147483648 in Hp. rewrite u32_small by lia.
  split; [|done]. apply order_loop_ok; unfold order_for in *; lia.
Qed.

(** What a successful allocation of a block of order [r] did. *)
Record alloc_post (B : blocks) (st : buddy) (r p : Z) (B' : blocks) (st' : buddy) : Prop := {
  ap_inv : buddy_inv resv B' st';
  ap_new : B' !! p = Some (r, true);
  ap_fresh : forall o, B !! p <> Some (o, true);
  ap_used : forall q o, q <> p -> (B' !! q = Some (o, true) <-> B !! q = Some (o, true));
  ap_kept : used_kept B st st';
  ap_ref : refcount (frame_at st' p) = 1;
  ap_owner : forall q, p <= q < p + 2 ^ r -> state (frame_at st' q) = PAGE_BUDDY;
  ap_quads : r <= 2 -> quads_kept B B' p;
  ap_least : exists cur, B !! p = Some (cur, false) /\ r <= cur /\
    (forall q o, B !! q = Some (o, false) -> r <= o -> cur <= o) /\
    forall m q, cur < m -> small m B' q <-> small m B q /\ ~ (p <= q < p + 2 ^ r);
}.

Lemma alloc_post_of B B1 st st1 st2 p r cur :
  B !! p = Some (cur, false) -> r <= cur -> (forall q o, B !! q = Some (o, false) -> r <= o -> cur <= o) -> small_kept cur B B1 ->
  used_same B B1 -> used_kept B st st1 -> quads_kept B B1 p -> buddy_inv resv B1 st1 -> B1 !! p = Some (r, false) ->
  buddy_inv resv (<[p := (r, true)]> B1) st2 ->
  refcount (frame_at st2 p) = 1 -> state (frame_at st2 p) = PAGE_BUDDY ->
  (forall q, p < q < p + 2 ^ r -> refcount (frame_at st2 q) = 1 /\ state (frame_at st2 q) = PAGE_BUDDY) ->
  (forall q, ~ (p <= q < p + 2 ^ r) -> frame_at st2 q = frame_at st1 q) ->
  alloc_post B st r p (<[p := (r, true)]> B1) st2.
Proof.
  intros Hpc Hrc' Hmin Hsm Hu Hk Hqu Hi1 Hp Hi2 Hrc Hs Ht Hout. split; try done.
  - apply lookup_insert_eq.
  - intros o Ho. apply Hu in Ho. congruence.
  - intros q o Hne. rewrite lookup_insert_ne by done. symmetry. apply Hu.
  - intros q o x Hq Hx. rewrite Hout; [by eapply Hk|].
    apply Hu in Hq. pose proof (block_sep _ _ _ _ _ _ _ _ (bi_wf _ _ _ Hi1) Hp Hq ltac:(congruence)). lia.
  - intros q Hq. destruct (decide (q = p)) as [->|]; [done|]. apply Ht. lia.
  - intros Hr2 m q Hq Hne. apply (used_block_quads B1 p r Hp Hr2); [|done]. by apply Hqu.
  - exists cur. do 3 (split; [done|]). intros m q Hm. rewrite (used_block_small m B1 p r q Hp (bi_wf _ _ _ Hi1)) by lia.
    by rewrite (Hsm m q Hm).
Qed.

Lemma lists_empty_ok st o :
  0 <= o <= MAX_ORDER -> lists_empty o st = Ok (list_empty (BList o) (nodes st)).
Proof. intros. unfold lists_empty. by rewrite buddy_list_ok. Qed.

Lemma alloc_scan_ok fuel i r B st :
  buddy_inv resv B st -> 0 <= r < i -> i <= MAX_ORDER + 1 -> (Z.to_nat (MAX_ORDER + 1 - i) < fuel)%nat ->
  (forall q o, B !! q = Some (o, false) -> r <= o -> i <= o) ->
  (alloc_scan fuel i r st = Ok (0, st) /\ forall p o, B !! p = Some (o, false) -> o < i) \/
  (exists p st' B', alloc_scan fuel i r st = Ok (page_va p, st') /\ alloc_post B st r p B' st').
Proof.
  revert i. induction fuel as [|fuel IH]; intros i Hi Hr Hmax Hfuel Hmin; [lia|]. cbn [alloc_scan].
  destruct (Z.leb_spec i MAX_ORDER) as [Hle|Hgt].
  - rewrite lists_empty_ok by lia. cbn [mbind res_bind].
    destruct (lists_ok_next _ _ i (bi_lists _ _ _ Hi) ltac:(lia)) as [[-> Hnone]|[-> (p & Hn & Hp)]];
      cbn [negb].
    + destruct (IH (i + 1) Hi ltac:(lia) ltac:(lia) ltac:(lia)) as [[E Hno]|Hs]; [|left|by right].
      { intros q o Hq Ho. specialize (Hmin q o Hq Ho). destruct (decide (o = i)) as [->|]; [by apply Hnone in Hq|lia]. }
      split; [done|]. intros p o Hp. specialize (Hno _ _ Hp).
      destruct (decide (o = i)) as [->|]; [by apply Hnone in Hp|lia].
    + right. destruct (split_down_ok 20 r i B st p Hi ltac:(lia) Hp Hn) as
        (st1 & B1 & E1 & Hi1 & Hp1 & Hn1 & Hu & Hk & Hqu & Hsm); [consts; lia|].
      rewrite E1. cbn [mbind res_bind].
      destruct (alloc_and_return_ok B1 st1 p r (BFrame p) Hi1 Hp1 Hn1)
        as (st2 & E2 & Hi2 & Hrc & Hs & Ht & Hout).
      exists p, st2, (<[p := (r, true)]> B1). split; [done|]. by apply (alloc_post_of B B1 st st1 st2 p r i); try done; lia.
  - left. split; [done|]. intros p o Hp.
    pose proof (block_range _ _ _ _ _ Hi Hp). lia.
Qed.

Lemma buddy_alloc_ok bytes B st :
  buddy_inv resv B st -> 0 <= bytes <= 2 ^ 43 ->
  (buddy_alloc bytes st = Ok (0, st) /\ forall p o, B !! p = Some (o, false) -> o < order_for bytes) \/
  (exists p st' B', buddy_alloc bytes st = Ok (page_va p, st') /\
    alloc_post B st (order_for bytes) p B' st').
Proof.
  intros Hi Hb. destruct (alloc_order_ok bytes Hb) as [E Ho]. unfold buddy_alloc.
  rewrite E. cbn [mbind res_bind]. set (r := order_for bytes) in *.
  destruct (Z.ltb_spec MAX_ORDER r) as [Hlt|Hle].
  - left. split; [done|]. intros p o Hp. pose proof (block_range _ _ _ _ _ Hi Hp). lia.
  - rewrite lists_empty_ok by lia. cbn [mbind res_bind].
    destruct (lists_ok_next _ _ r (bi_lists _ _ _ Hi) ltac:(lia)) as [[-> Hnone]|[-> (p & Hn & Hp)]];
      cbn [negb].
    + destruct (alloc_scan_ok 20 (r + 1) r B st Hi) as [[E2 Hno]|Hs]; [lia|lia|consts; lia| | |by right].
      { intros q o Hq Hro. destruct (decide (o = r)) as [->|]; [by apply Hnone in Hq|lia]. }
      left. split; [done|]. intros p o Hp. specialize (Hno _ _ Hp).
      destruct (decide (o = r)) as [->|]; [by apply Hnone in Hp|lia].
    + right. destruct (alloc_and_return_ok B st p r (BList r) Hi Hp Hn)
        as (st2 & E2 & Hi2 & Hrc & Hs & Ht & Hout).
      exists p, st2, (<[p := (r, true)]> B). split; [done|].
      apply (alloc_post_of B B st st st2 p r r); eauto using quads_kept_refl, small_kept_refl with rpos; done || lia.
Qed.

(** ** Freeing and coalescing *)

(** The buddy of block [p] of order [o] is not a free block of that order. *)
Definition no_free_buddy (B : blocks) (p o : Z) : Prop := B !! Z.lxor p (2 ^ o) <> Some (o, false).

Definition merge_frames (p o : Z) (fr : Z -> page_frame_t) (q : Z) : page_frame_t :=
  if decide (q = p) then set_order (o + 1) (fr p)
  else if decide (q = p + 2 ^ o) then set_order p (set_flags PAGE_BUDDY_TAIL (fr q))
  else if decide (p + 2 ^ o < q < p + 2 ^ o + 2 ^ o) then set_order p (fr q)
  else fr q.

Lemma merge_frames_ok B st p o :
  buddy_inv resv B st -> B !! p = Some (o, false) -> B !! (p + 2 ^ o) = Some (o, false) ->
  frames_ok resv (merge_block B p o) (merge_frames p o (frame_at st)).
Proof.
  intros Hi Hp Hn. pose proof Hi as [Hr Hw Hf Hl].
  pose proof (block_range _ _ _ _ _ Hi Hp) as (? & ? & ? & ? & ?).
  pose proof (pow2_succ o ltac:(lia)).
  eapply frames_ok_step; [exact Hf| | |].
  - intros a oa ua. unfold merge_block. rewrite !lookup_insert, !lookup_delete.
    repeat case_decide; intros; simplify_eq; unfold merge_frames.
    + right. pose proof (fo_head _ _ _ Hf _ _ _ Hp) as (? & ? & ?). split.
      * rewrite decide_True by done. done.
      * intros q Hq. rewrite decide_False by lia. case_decide; [|case_decide].
        -- split; [done|]. split; [by right|done].
        -- destruct (fo_tail _ _ _ Hf _ _ _ q Hn ltac:(lia)) as (? & ? & ?). done.
        -- apply (fo_tail _ _ _ Hf _ _ _ q Hp ltac:(lia)).
    + left. split; [done|]. intros q Hq.
      match goal with Ha : B !! a = Some _ |- _ =>
        pose proof (block_sep _ _ _ _ _ _ _ _ Hw Hp Ha ltac:(congruence));
        pose proof (block_sep _ _ _ _ _ _ _ _ Hw Hn Ha ltac:(congruence)) end.
      by rewrite !decide_False by lia.
  - intros q Hq. unfold merge_frames. by rewrite !decide_False by lia.
  - intros a oa ua Ha. eapply wf_pow_pos; [|exact Ha]. eapply (blocks_wf_merge resv B); eauto. lia.
Qed.

(** What one level of [coalesce_up] runs when it merges [p] with [p + 2 ^ o]. *)
Lemma merge_level B st p o :
  buddy_inv resv B st -> B !! p = Some (o, false) -> B !! (p + 2 ^ o) = Some (o, false) ->
  exists st',
    (st ← frame_list_remove p st;
     st ← frame_list_remove (p + 2 ^ o) st;
     st ← upd_frame (p + 2 ^ o) (set_flags PAGE_BUDDY_TAIL) st;
     st ← upd_range (Z.to_nat (2 ^ o)) (p + 2 ^ o) (set_order p) st;
     st ← upd_frame p (fun f => set_order (u64 (order f + 1)) f) st;
     frame_list_add p (o + 1) st) = Ok st' /\
    buddy_inv resv (merge_block B p o) st' /\
    forall q, frame_at st' q = merge_frames p o (frame_at st) q.
Proof.
  intros Hi Hp Hn. pose proof Hi as [Hr Hw Hf Hl].
  pose proof (block_range _ _ _ _ _ Hi Hp) as (? & ? & ? & ? & ?).
  pose proof (block_range _ _ _ _ _ Hi Hn) as (_ & _ & _ & ? & _).
  pose proof (fo_head _ _ _ Hf _ _ _ Hp) as (Hord & _ & _).
  destruct st as [m h]. cbn [nodes] in *.
  destruct (frame_list_remove_ok B h m p o Hl) as (h1 & E1 & Hl1); [lia|lia|done|].
  rewrite E1. cbn [mbind res_bind].
  destruct (frame_list_remove_ok _ h1 m (p + 2 ^ o) o Hl1) as (h2 & E2 & Hl2);
    [lia|lia|by rewrite lookup_delete_ne by lia|].
  rewrite E2. cbn [mbind res_bind].
  destruct (upd_frame_ok (p + 2 ^ o) (set_flags PAGE_BUDDY_TAIL) (Buddy m h2)) as (s3 & E3 & N3 & F3); [lia|].
  rewrite E3. cbn [mbind res_bind].
  destruct (upd_range_ok (Z.to_nat (2 ^ o)) (p + 2 ^ o) (set_order p) s3) as (s4 & E4 & N4 & F4); [lia|lia|].
  rewrite E4. cbn [mbind res_bind]. rewrite Z2Nat.id in F4 by lia.
  destruct (upd_frame_ok p (fun f => set_order (u64 (order f + 1)) f) s4) as (s5 & E5 & N5 & F5); [lia|].
  rewrite E5. cbn [mbind res_bind]. destruct s5 as [m5 h5]. cbn [nodes] in *.
  assert (Hh5 : h5 = h2) by (rewrite N5, N4, N3; done). clear N5. subst h5.
  assert (Hd : forall o', delete (p + 2 ^ o) (delete p B) !! p <> Some (o', false)).
  { intros o'. rewrite lookup_delete_ne, lookup_delete_eq by lia. done. }
  destruct (frame_list_add_ok _ h2 m5 p (o + 1) Hl2 ltac:(lia) ltac:(lia) Hd) as (h6 & E6 & Hl6 & _).
  rewrite E6. eexists. split; [done|].
  assert (HF : forall q, frame_at (Buddy m5 h6) q = merge_frames p o (frame_at (Buddy m h)) q).
  { intros q. change (frame_at (Buddy m5 h6) q) with (frame_at (Buddy m5 h2) q).
    rewrite F5. unfold merge_frames. case_decide.
    - rewrite F4, decide_False, F3, decide_False by lia.
      change (frame_at (Buddy m h2) p) with (frame_at (Buddy m h) p). subst q.
      rewrite Hord, u64_small by (consts; lia). done.
    - rewrite F4, !F3. change (frame_at (Buddy m h2)) with (frame_at (Buddy m h)).
      repeat case_decide; try lia; try done. by subst. }
  split; [split|done].
  - done.
  - eapply (blocks_wf_merge resv B); eauto. lia.
  - pose proof (merge_frames_ok _ _ _ _ Hi Hp Hn) as [G1 G2 G3].
    split; intros; rewrite ?HF; eauto.
  - eapply lists_ok_free_eq; [|exact Hl6]. intros a oa. unfold merge_block.
    rewrite !lookup_insert, !lookup_delete. repeat case_decide; subst; done || lia.
Qed.

Lemma merge_block_used B p o :
  B !! p = Some (o, false) -> B !! (p + 2 ^ o) = Some (o, false) -> used_same B (merge_block B p o).
Proof.
  intros Hp Hn q oq. unfold merge_block. rewrite !lookup_insert, !lookup_delete.
  repeat case_decide; subst; split; intros; simplify_eq; done.
Qed.

Lemma merge_frames_kept B st st' p o :
  buddy_inv resv B st -> B !! p = Some (o, false) -> B !! (p + 2 ^ o) = Some (o, false) ->
  (forall q, frame_at st' q = merge_frames p o (frame_at st) q) -> used_kept B st st'.
Proof.
  intros Hi Hp Hn HF a oa q Ha Hq. rewrite HF.
  pose proof (block_sep _ _ _ _ _ _ _ _ (bi_wf _ _ _ Hi) Hp Ha ltac:(congruence)).
  pose proof (block_sep _ _ _ _ _ _ _ _ (bi_wf _ _ _ Hi) Hn Ha ltac:(congruence)).
  pose proof (block_range _ _ _ _ _ Hi Hp).
  unfold merge_frames. by rewrite !decide_False by lia.
Qed.

(** A frame that passes [coalesce_up]'s two tests against a free block of
    order [o] is the head of a free block of order [o]. *)
Lemma coalesce_test B st o b :
  buddy_inv resv B st -> 0 <= o < MAX_ORDER -> 0 <= b < NPAGES ->
  order (frame_at st b) = o -> state (frame_at st b) = PAGE_FREE -> B !! b = Some (o, false).
Proof.
  intros Hi Ho Hb Hord Hst. pose proof Hi as [Hr Hw Hf Hl].
  destruct (decide (b < resv)) as [Hlt|].
  { rewrite (fo_resv _ _ _ Hf) in Hst by lia. done. }
  destruct (bw_cover _ _ Hw b ltac:(lia)) as (p & op & u & Hp & Hin).
  destruct (decide (p = b)) as [->|].
  - destruct (fo_head _ _ _ Hf _ _ _ Hp) as (H1 & _ & H2). destruct u; [by destruct H2|].
    congruence.
  - destruct (fo_tail _ _ _ Hf _ _ _ b Hp ltac:(lia)) as (H1 & _).
    pose proof (block_range _ _ _ _ _ Hi Hp). lia.
Qed.

Lemma coalesce_up_ok fuel c o B st :
  buddy_inv resv B st -> B !! c = Some (o, false) -> (Z.to_nat (MAX_ORDER - o) < fuel)%nat ->
  exists st' B' p' o', coalesce_up fuel c st = Ok st' /\ buddy_inv resv B' st' /\
    used_same B B' /\ used_kept B st st' /\
    B' !! p' = Some (o', false) /\ p' <= c /\ c + 2 ^ o <= p' + 2 ^ o' /\ no_free_buddy B' p' o'.
Proof.
  revert c o B st. induction fuel as [|fuel IH]; intros c o B st Hi Hc Hfuel; [lia|].
  pose proof (block_range _ _ _ _ _ Hi Hc) as (? & ? & ? & ? & ?).
  pose proof (fo_head _ _ _ (bi_frames _ _ _ Hi) _ _ _ Hc) as (Hord & _ & Hst).
  cbn [coalesce_up]. rewrite get_frame_ok by lia. cbn [mbind res_bind].
  rewrite Hord, (proj2 (Z.leb_gt 32 o)), shiftl_1 by (consts; lia). cbv zeta.
  assert (Hbr : 0 <= Z.lxor c (2 ^ o) < NPAGES) by (apply lxor_pow2_range; consts; lia).
  pose proof (lxor_pow2 c o ltac:(lia)) as Hx.
  set (b := Z.lxor c (2 ^ o)) in *.
  rewrite !get_frame_ok by (consts; lia). cbn [mbind res_bind].
  set (f := frame_at st (b `min` c)). set (g := frame_at st (b `max` c)).
  assert (Hstop : B !! b <> Some (o, false) ->
    exists st' B' p' o', Ok st = Ok st' /\ buddy_inv resv B' st' /\
    used_same B B' /\ used_kept B st st' /\
    B' !! p' = Some (o', false) /\ p' <= c /\ c + 2 ^ o <= p' + 2 ^ o' /\ no_free_buddy B' p' o').
  { intros Hno. exists st, B, c, o. split_and!; auto with rpos lia. }
  destruct (decide (B !! b = Some (o, false))) as [Hb|Hb].
  2: { destruct (Z.eqb_spec (order f) (order g)) as [He|]; cbn [negb]; [|by apply Hstop].
       destruct (Z.eqb_spec (state f) PAGE_FREE) as [Hf1|]; cbn [andb]; [|by apply Hstop].
       destruct (Z.eqb_spec (state g) PAGE_FREE) as [Hg1|]; [|by apply Hstop].
       exfalso. apply Hb. unfold f, g in *.
       apply (coalesce_test B st o b Hi); [lia|lia| |].
       all: destruct (Z.min_spec b c) as [[? E1]|[? E1]], (Z.max_spec b c) as [[? E2]|[? E2]];
         rewrite E1, E2 in *; try lia; congruence. }
  pose proof (fo_head _ _ _ (bi_frames _ _ _ Hi) _ _ _ Hb) as (Hordb & _ & Hstb).
  set (p := b `min` c) in *.
  assert (Hp : B !! p = Some (o, false)) by (unfold p; destruct (Z.min_spec b c) as [[_ ->]|[_ ->]]; done).
  assert (Hmax : b `max` c = p + 2 ^ o).
  { unfold p. destruct (Z.testbit c o); lia. }
  assert (Hn : B !! (p + 2 ^ o) = Some (o, false)).
  { rewrite <- Hmax. destruct (Z.max_spec b c) as [[_ ->]|[_ ->]]; done. }
  unfold f, g. rewrite Hmax.
  pose proof (fo_head _ _ _ (bi_frames _ _ _ Hi) _ _ _ Hp) as (-> & _ & ->).
  pose proof (fo_head _ _ _ (bi_frames _ _ _ Hi) _ _ _ Hn) as (-> & _ & ->).
  rewrite Z.eqb_refl. cbn [negb]. rewrite Z.eqb_refl. cbn [andb].
  destruct (merge_level B st p o Hi Hp Hn) as (st1 & E1 & Hi1 & HF1).
  assert (Hp1 : merge_block B p o !! p = Some (o + 1, false)) by apply lookup_insert_eq.
  destruct (IH p (o + 1) _ _ Hi1 Hp1 ltac:(lia))
    as (st2 & B2 & p2 & o2 & E2 & Hi2 & Hu2 & Hk2 & Hp2 & Hle & Hge & Hno).
  pose proof (merge_block_used B p o Hp Hn) as Hu1.
  pose proof (merge_frames_kept B st st1 p o Hi Hp Hn HF1) as Hk1.
  pose proof (pow2_succ o ltac:(lia)).
  exists st2, B2, p2, o2. split; [|split_and!; eauto with rpos; unfold p in *; destruct (Z.testbit c o); lia].
  revert E1. clear IH.
  destruct (frame_list_remove p st) as [s| | |]; cbn [mbind res_bind]; try discriminate.
  intros E1. rewrite <- E2.
  repeat match goal with
  | E : mbind _ ?r = Ok _ |- mbind _ ?r = _ =>
      destruct r; cbn [mbind res_bind] in *; try discriminate
  end.
  rewrite E1. done.
Qed.

(** Freeing: the block returns to the allocator, merged as far as possible. *)
Record free_post (B : blocks) (st : buddy) (p o : Z) (B' : blocks) (st' : buddy) : Prop := {
  fp_inv : buddy_inv resv B' st';
  fp_used : forall q oq, B' !! q = Some (oq, true) <-> q <> p /\ B !! q = Some (oq, true);
  fp_kept : forall q oq x, q <> p -> B !! q = Some (oq, true) -> q <= x < q + 2 ^ oq ->
    frame_at st' x = frame_at st x;
  fp_free : exists p' o', B' !! p' = Some (o', false) /\ p' <= p /\ p + 2 ^ o <= p' + 2 ^ o' /\
    no_free_buddy B' p' o';
}.

Lemma buddy_free_ok p o off B st :
  buddy_inv resv B st -> B !! p = Some (o, true) -> 0 <= off < 4096 ->
  exists st' B', buddy_free (page_va p + off) st = Ok st' /\ free_post B st p o B' st'.
Proof.
  intros Hi Hp Hoff. pose proof Hi as [Hr Hw Hf Hl].
  pose proof (block_range _ _ _ _ _ Hi Hp) as (? & ? & ? & ? & ?).
  pose proof (fo_head _ _ _ Hf _ _ _ Hp) as (Hord & Hfl & Hs1 & Hs2).
  unfold buddy_free. rewrite page_va_pfn by lia. rewrite get_frame_ok by lia. cbn [mbind res_bind].
  rewrite Hfl. cbn [Z.land Z.eqb Pos.land PAGE_BUDDY_HEAD Pos.eqb].
  rewrite (proj2 (Z.eqb_neq _ _) Hs1), Hord.
  destruct (upd_frame_ok p (set_state PAGE_FREE) st) as (s1 & E1 & N1 & F1); [lia|].
  rewrite E1. cbn [mbind res_bind]. destruct s1 as [m1 h1]. cbn [nodes] in N1. subst h1.
  assert (Hn : forall o', B !! p <> Some (o', false)) by (intros o'; congruence).
  destruct (frame_list_add_ok B (nodes st) m1 p o Hl ltac:(lia) ltac:(lia) Hn) as (h2 & E2 & Hl2 & _).
  rewrite E2. cbn [mbind res_bind]. rewrite (proj2 (Z.ltb_lt o MAX_ORDER)) by lia.
  assert (F2 : forall q, frame_at (Buddy m1 h2) q =
    if decide (q = p) then set_state PAGE_FREE (frame_at st p) else frame_at st q) by (intros; apply F1).
  assert (Hi2 : buddy_inv resv (<[p := (o, false)]> B) (Buddy m1 h2)).
  { split; [done|by eapply blocks_wf_status| |exact Hl2].
    eapply frames_ok_step; [exact Hf| | |].
    - intros a oa ua. rewrite lookup_insert. case_decide; intros; simplify_eq.
      + right. rewrite F2, decide_True by done. split; [done|]. intros q Hq.
        rewrite F2, decide_False by lia. destruct (fo_tail _ _ _ Hf _ _ _ q Hp Hq) as (? & ? & ?).
        split; [done|]. by split.
      + left. split; [done|]. intros q Hq. rewrite F2, decide_False; [done|]. intros ->.
        match goal with Ha : B !! a = Some _ |- _ =>
          pose proof (block_sep _ _ _ _ _ _ _ _ Hw Hp Ha ltac:(congruence)) end. lia.
    - intros q Hq. by rewrite F2, decide_False by lia.
    - intros a oa ua Ha. eapply wf_pow_pos; [|exact Ha]. by eapply blocks_wf_status. }
  destruct (coalesce_up_ok 20 p o _ _ Hi2 (lookup_insert_eq _ _ _)) as
    (st3 & B3 & p3 & o3 & E3 & Hi3 & Hu3 & Hk3 & Hp3 & Hle & Hge & Hno); [consts; lia|].
  rewrite E3. exists st3, B3. split; [done|]. split; [done| | |eauto 10].
  - intros q oq. rewrite <- (Hu3 q oq), lookup_insert.
    case_decide as Hd; split; [done|by intros []|intros ?; split; congruence|by intros []].
  - intros q oq x Hne Hq Hx. rewrite (Hk3 q oq x) by (by rewrite ?lookup_insert_ne by done || done).
    rewrite F2, decide_False; [done|]. intros ->.
    pose proof (block_sep _ _ _ _ _ _ _ _ Hw Hp Hq ltac:(congruence)). lia.
Qed.
End ops.
