(* ===== verification/BuddyInit.v ===== *)
(** * The allocator at boot, page ownership and reference counts

    [initialize_page_frame_array] establishes the invariant with every managed
    page free; the page-frame queries ([head_from_page], [get_page_owner],
    [get_block_order]), [set_page_owner] and [decrement_ref] on a block in use. *)
From S2P Require Import Prelude KList Buddy BuddyInv BuddyOps.

(** ** Empty free lists *)

Lemma init_lists_node h o :
  0 <= o <= MAX_ORDER ->
  node_at (init_lists h) (BList o) = LNode (Some (BList o)) (Some (BList o)).
Proof.
  intros Ho. unfold init_lists.
  assert (Hin : o ∈ seqZ 0 19) by (apply elem_of_seqZ; consts; lia).
  revert h Hin. generalize (seqZ 0 19) as l. intros l.
  assert (Hkeep : forall l h, o ∉ l ->
    node_at (fold_left (fun h i => INIT_LIST_HEAD (BList i) h) l h) (BList o) = node_at h (BList o)).
  { clear. induction l as [|i l IH]; intros h Hin; simpl; [done|].
    rewrite IH by set_solver. apply INIT_LIST_HEAD_frame. set_solver. }
  induction l as [|i l IH]; intros h Hin; [by apply not_elem_of_nil in Hin|]. simpl.
  destruct (decide (o ∈ l)) as [Hl|Hl]; [by apply IH|].
  rewrite Hkeep by done. apply elem_of_cons in Hin as [<-|]; [|done].
  pose proof (INIT_LIST_HEAD_ring h (BList o)) as [[H1 H2] _].
  destruct (node_at _ _) as [n p] eqn:E. simpl in H1, H2. congruence.
Qed.

Lemma init_lists_ok h :
  lists_ok ∅ (filter (fun kv => is_list_head kv.1 = true) (init_lists h)).
Proof.
  exists (fun _ => []). split; [split|].
  - intros hd (o & -> & Ho). split; [|apply NoDup_singleton]. simpl. unfold link.
    assert (E : node_at (filter (fun kv => is_list_head kv.1 = true) (init_lists h)) (BList o)
      = LNode (Some (BList o)) (Some (BList o))); [|by rewrite E].
    rewrite <- (init_lists_node h o Ho). unfold node_at. f_equal.
    rewrite map_lookup_filter. by destruct (init_lists h !! BList o).
  - intros a b x _ _ Hne. set_solver.
  - intros o x _. rewrite elem_of_nil. split; [done|]. by intros (p & _ & Hp).
Qed.

(** ** The loop over the orders *)

Lemma mod_pow2_step a i :
  0 <= i -> a mod 2 ^ (i + 1) = (if Z.testbit a i then 2 ^ i else 0) + a mod 2 ^ i.
Proof.
  intros Hi. rewrite Z.pow_add_r by lia. change (2 ^ 1) with 2.
  rewrite Z.rem_mul_r by (pose proof (pow2_pos i Hi); lia).
  pose proof (Z.testbit_spec' a i Hi) as Hs. rewrite <- Hs. destruct (Z.testbit a i); simpl; lia.
Qed.

Lemma mod_pow2_le a i j : 0 <= i <= j -> a mod 2 ^ i <= a mod 2 ^ j.
Proof.
  intros [Hi Hij]. replace j with (i + (j - i)) by lia.
  assert (Hd : 0 <= j - i) by lia. revert Hd. clear Hij. generalize (j - i). clear j. intros d Hd.
  pattern d. apply natlike_ind; [by rewrite Z.add_0_r| |done]. clear d Hd. intros d Hd IH.
  replace (i + Z.succ d) with (i + d + 1) by lia. rewrite mod_pow2_step by lia.
  pose proof (pow2_pos (i + d) ltac:(lia)). destruct (Z.testbit a (i + d)); lia.
Qed.

(** The state while [_initialize_buddy_allocator] runs: the pages below [cur]
    are laid out, the others are still as [memset] left them. *)
Record init_inv (resv cur : Z) (B : blocks) (st : buddy) : Prop := {
  ii_bounds : forall p o u, B !! p = Some (o, u) ->
    0 <= o <= MAX_ORDER /\ resv <= p /\ p + 2 ^ o <= cur /\ u = false;
  ii_disj : forall p o u q o' u', B !! p = Some (o, u) -> B !! q = Some (o', u') ->
    p < q -> p + 2 ^ o <= q;
  ii_cover : forall q, resv <= q < cur -> exists p o u, B !! p = Some (o, u) /\ p <= q < p + 2 ^ o;
  ii_frames : frames_ok resv B (frame_at st);
  ii_zero : forall q, cur <= q -> frame_at st q = zero_frame;
  ii_lists : lists_ok B (nodes st);
}.

(** Laying out one block of order [i] at [cur]. *)
Lemma init_block resv cur i B st :
  init_inv resv cur B st -> 0 <= resv <= cur -> 0 <= i <= MAX_ORDER -> cur + 2 ^ i <= NPAGES ->
  exists st',
    (st ← upd_frame cur (set_order i) st;
     st ← upd_range (Z.to_nat (2 ^ i - 1)) (cur + 1)
            (fun f => set_state PAGE_BUDDY_TAIL (set_order cur f)) st;
     st ← upd_frame cur (fun f => set_flags PAGE_BUDDY_HEAD (set_state PAGE_FREE f)) st;
     frame_list_add cur i st) = Ok st' /\
    init_inv resv (cur + 2 ^ i) (<[cur := (i, false)]> B) st'.
Proof.
  intros [Hb Hd Hc Hf Hz Hl] Hr Hi Hend. pose proof (pow2_ge1 i ltac:(lia)).
  destruct (upd_frame_ok cur (set_order i) st) as (s1 & E1 & N1 & F1); [lia|].
  rewrite E1. cbn [mbind res_bind].
  match goal with |- context [upd_range ?n ?b ?f s1] =>
    destruct (upd_range_ok n b f s1) as (s2 & E2 & N2 & F2); [lia|lia|] end.
  rewrite E2. cbn [mbind res_bind]. rewrite Z2Nat.id in F2 by lia.
  destruct (upd_frame_ok cur (fun f => set_flags PAGE_BUDDY_HEAD (set_state PAGE_FREE f)) s2)
    as (s3 & E3 & N3 & F3); [lia|].
  rewrite E3. cbn [mbind res_bind]. destruct s3 as [m3 h3]. cbn [nodes] in *.
  assert (Hh : h3 = nodes st) by congruence. clear N3. subst h3.
  assert (Hn : forall o', B !! cur <> Some (o', false)).
  { intros o' Ho'. apply Hb in Ho' as (? & ? & ? & _). pose proof (pow2_pos o' ltac:(lia)). lia. }
  destruct (frame_list_add_ok B (nodes st) m3 cur i Hl ltac:(lia) ltac:(lia) Hn) as (h4 & E4 & Hl4 & _).
  rewrite E4. eexists. split; [done|].
  assert (HF : forall q, frame_at (Buddy m3 h4) q =
    if decide (q = cur) then PageFrame i 0 PAGE_FREE PAGE_BUDDY_HEAD
    else if decide (cur < q < cur + 2 ^ i) then PageFrame cur 0 PAGE_BUDDY_TAIL 0 else frame_at st q).
  { intros q. change (frame_at (Buddy m3 h4) q) with (frame_at (Buddy m3 (nodes st)) q).
    rewrite F3, !F2, !F1. repeat case_decide; try lia; try done; rewrite Hz by lia; done. }
  split.
  - intros p o u. rewrite lookup_insert. case_decide; intros; simplify_eq; [lia|].
    match goal with Hp : B !! _ = _ |- _ => apply Hb in Hp as (? & ? & ? & ?) end.
    split_and!; done || lia.
  - intros p o u q o' u'. rewrite !lookup_insert. repeat case_decide; intros; simplify_eq; try lia.
    + match goal with Hp : B !! _ = _ |- _ => apply Hb in Hp as (? & ? & ? & _) end.
      pose proof (pow2_pos o' ltac:(lia)). lia.
    + match goal with Hp : B !! _ = _ |- _ => apply Hb in Hp as (? & ? & ? & _) end. lia.
    + by eapply Hd.
  - intros q Hq. destruct (decide (q < cur)).
    + destruct (Hc q ltac:(lia)) as (p & o & u & Hp & Hin). exists p, o, u.
      rewrite lookup_insert_ne; [done|]. intros <-. lia.
    + exists cur, i, false. rewrite lookup_insert_eq. split; [done|lia].
  - eapply frames_ok_step; [exact Hf| | |].
    + intros a oa ua. rewrite lookup_insert. case_decide; intros; simplify_eq.
      * right. rewrite HF, decide_True by done. split; [done|]. intros q Hq.
        rewrite HF, decide_False, decide_True by lia. split; [done|]. split; [by left|done].
      * left. split; [done|]. intros q Hq. rewrite HF.
        match goal with Hp : B !! _ = _ |- _ => apply Hb in Hp as (? & ? & ? & _) end.
        by rewrite !decide_False by lia.
    + intros q Hq. rewrite HF. by rewrite !decide_False by lia.
    + intros a oa ua. rewrite lookup_insert. case_decide; intros; simplify_eq; [lia|].
      match goal with Hp : B !! _ = _ |- _ => apply Hb in Hp as (? & _) end. apply pow2_pos. lia.
  - intros q Hq. rewrite HF, !decide_False by lia. apply Hz. lia.
  - exact Hl4.
Qed.

(** The blocks that the loop lays out: one of order [o] for every bit [o] of the
    number of pages, the largest first. *)
Definition laid_out (n : nat) (avail p o : Z) (u : bool) : Prop :=
  u = false /\ 0 <= o < Z.of_nat n /\ Z.testbit avail o = true /\ p = NPAGES - avail mod 2 ^ (o + 1).

Lemma init_orders_ok n resv cur avail B st :
  init_inv resv cur B st -> 0 <= resv <= cur -> (n <= 19)%nat ->
  cur + avail mod 2 ^ Z.of_nat n = NPAGES ->
  exists st' B', init_orders n cur avail st = Ok st' /\ init_inv resv NPAGES B' st' /\
    forall p o u, B' !! p = Some (o, u) <-> B !! p = Some (o, u) \/ laid_out n avail p o u.
Proof.
  unfold laid_out. revert cur B st. induction n as [|n IH]; intros cur B st Hi Hr Hn Hsum.
  - exists st, B. split; [done|]. change (2 ^ Z.of_nat 0) with 1 in Hsum. rewrite Z.mod_1_r in Hsum.
    replace NPAGES with cur by lia. split; [done|]. intros p o u. split; [by left|]. intros [|(_ & ? & _)]; [done|lia].
  - cbn [init_orders]. rewrite !shiftl_1 by lia. rewrite land_pow2_eqb by lia.
    assert (Hcur : cur = NPAGES - avail mod 2 ^ (Z.of_nat n + 1)) by (replace (Z.of_nat n + 1) with (Z.of_nat (S n)) by lia; lia).
    replace (Z.of_nat (S n)) with (Z.of_nat n + 1) in * by lia.
    rewrite mod_pow2_step in Hsum by lia.
    pose proof (Z.mod_pos_bound avail (2 ^ Z.of_nat n) (pow2_pos (Z.of_nat n) ltac:(lia))).
    destruct (Z.testbit avail (Z.of_nat n)) eqn:Hbit; cbn [negb].
    + destruct (init_block resv cur (Z.of_nat n) B st Hi Hr) as (st1 & E1 & Hi1); [consts; lia|lia|].
      pose proof (pow2_pos (Z.of_nat n) ltac:(lia)).
      destruct (IH _ _ _ Hi1) as (st2 & B2 & E2 & Hi2 & HB); [lia|lia|lia|].
      exists st2, B2. split; [|split; [done|]].
      2:{ assert (Hno : B !! cur = None).
          { destruct (B !! cur) as [[o u]|] eqn:E; [|done]. apply (ii_bounds _ _ _ _ Hi) in E as (? & _ & ? & _).
            pose proof (pow2_pos o ltac:(lia)). lia. }
          intros p o u. rewrite HB, lookup_insert. split.
          - intros [Hp|(-> & Ho & Hb & ->)]; [|right; split_and!; done || lia].
            case_decide as Hd; [|by left]. injection Hp as <- <-. subst p. right. split_and!; done || lia.
          - intros [Hp|(-> & Ho & Hb & ->)].
            + left. rewrite decide_False by congruence. done.
            + destruct (decide (o = Z.of_nat n)) as [->|]; [left; by rewrite decide_True|right; split_and!; done || lia]. }
      rewrite <- E2. revert E1. clear.
      destruct (upd_frame cur _ st) as [s| | |]; cbn [mbind res_bind]; try discriminate. intros E1.
      repeat match goal with
      | E : mbind _ ?r = Ok _ |- mbind _ ?r = _ =>
          destruct r; cbn [mbind res_bind] in *; try discriminate
      end.
      by rewrite E1.
    + destruct (IH cur B st) as (st2 & B2 & E2 & Hi2 & HB); [done|done|lia|lia|].
      exists st2, B2. split; [done|]. split; [done|]. intros p o u. rewrite HB. split.
      * intros [Hp|(-> & Ho & Hb & ->)]; [by left|right; split_and!; done || lia].
      * intros [Hp|(-> & Ho & Hb & ->)]; [by left|right]. destruct (decide (o = Z.of_nat n)) as [->|]; [congruence|].
        split_and!; done || lia.
Qed.

Lemma init_inv_buddy resv B st :
  MAX_ORDER < resv -> init_inv resv NPAGES B st -> buddy_inv resv B st.
Proof.
  intros Hr [Hb Hd Hc Hf Hz Hl]. split; [done| |done|done]. split; [|done|done].
  intros p o u Hp. apply Hb in Hp. tauto.
Qed.

(** ** [initialize_page_frame_array] *)

Lemma page_align_shift x : 0 <= x < 2 ^ 64 -> Z.shiftr (Z.land x (u64 (Z.lnot 0xFFF))) 12 = Z.shiftr x 12.
Proof.
  intros Hx. rewrite Z.shiftr_land. change (Z.shiftr (u64 (Z.lnot 0xFFF)) 12) with (Z.ones 52).
  rewrite Z.land_ones by lia. apply Z.mod_small. rewrite Z.shiftr_div_pow2 by lia.
  split; [apply Z.div_pos; lia|]. apply Z.div_lt_upper_bound; [lia|].
  rewrite <- Z.pow_add_r by lia. apply Hx.
Qed.

(** Pages up to the end of the reserved region, rounded up. *)
Definition reserved_for (phys_test_region test_size : Z) : Z := (phys_test_region + test_size + 4095) / 4096.

(** The computation with its address arithmetic evaluated. *)
Lemma initialize_eq phys size st x r a :
  u64 (u64 (phys + size) + 0xFFF) = x -> Z.shiftr x 12 = r ->
  Z.shiftr (Z.land x (u64 (Z.lnot 0xFFF))) 12 = r -> u64 (Z.shiftl 1 18 - r) = a ->
  initialize_page_frame_array phys size st =
    (st ← upd_range (Z.to_nat r) 0 (set_state PAGE_RESERVED)
            (Buddy ∅ (filter (fun kv => is_list_head kv.1 = true) (init_lists (nodes st))));
     st ← init_orders 19 r a st;
     Ok (r, st)).
Proof.
  intros Hx Hr Hal Ha. unfold initialize_page_frame_array, _initialize_buddy_allocator. cbv zeta.
  rewrite Hx, Hr, Hal, Ha. reflexivity.
Qed.

Lemma init_pages phys size :
  0 <= phys -> 0 <= size -> MAX_ORDER < reserved_for phys size <= NPAGES ->
  let x := phys + size + 4095 in let r := reserved_for phys size in
  u64 (u64 (phys + size) + 0xFFF) = x /\ Z.shiftr x 12 = r /\
  Z.shiftr (Z.land x (u64 (Z.lnot 0xFFF))) 12 = r /\ u64 (Z.shiftl 1 18 - r) = 262144 - r.
Proof.
  intros Hp Hs Hr x r. unfold reserved_for in *. consts.
  assert (0 <= phys + size <= 1073741824) by zdiv.
  assert (Hx : u64 (u64 (phys + size) + 4095) = x) by (rewrite (u64_small (phys + size)) by lia; apply u64_small; lia).
  assert (Hsh : Z.shiftr x 12 = r).
  { rewrite Z.shiftr_div_pow2 by lia. reflexivity. }
  split_and!; [exact Hx|exact Hsh| |].
  - rewrite page_align_shift; [exact Hsh|]. change (2 ^ 64) with 18446744073709551616. lia.
  - change (Z.shiftl 1 18) with 262144. apply u64_small. subst x r. lia.
Qed.

(** The two loops, from a cleared array. *)
Lemma init_run n r a h :
  MAX_ORDER < r <= NPAGES -> lists_ok ∅ h -> (n <= 19)%nat -> r + a mod 2 ^ Z.of_nat n = NPAGES ->
  exists st' B,
    (st ← upd_range (Z.to_nat r) 0 (set_state PAGE_RESERVED) (Buddy ∅ h);
     st ← init_orders n r a st;
     Ok (r, st)) = Ok (r, st') /\
    buddy_inv r B st' /\ (forall p o u, B !! p = Some (o, u) <-> laid_out n a p o u).
Proof.
  intros Hr Hl0 Hn Hsum. unfold MAX_ORDER in Hr.
  destruct (upd_range_ok (Z.to_nat r) 0 (set_state PAGE_RESERVED) (Buddy ∅ h)) as (s1 & E1 & N1 & F1);
    [lia|lia|].
  rewrite E1. cbn [mbind res_bind]. rewrite Z2Nat.id in F1 by lia.
  assert (Hi1 : init_inv r r ∅ s1).
  { split.
    - intros p o u. by rewrite lookup_empty.
    - intros p o u q o' u'. by rewrite lookup_empty.
    - intros q. lia.
    - split; [by intros ???; rewrite lookup_empty|by intros ????; rewrite lookup_empty|].
      intros q Hq. rewrite F1, decide_True by lia. done.
    - intros q Hq. rewrite F1, decide_False by lia. done.
    - rewrite N1. done. }
  destruct (init_orders_ok n r r a ∅ s1 Hi1) as (s2 & B2 & E2 & Hi2 & HB); [lia|lia|done|].
  rewrite E2. cbn [mbind res_bind]. exists s2, B2. split; [done|]. split.
  - apply init_inv_buddy; [unfold MAX_ORDER; lia|done].
  - intros p o u. rewrite HB, lookup_empty. split; [by intros [?|?]|by right].
Qed.

(** The blocks at boot. *)
Lemma initialize_blocks phys size st :
  0 <= phys -> 0 <= size -> MAX_ORDER < reserved_for phys size <= NPAGES ->
  let r := reserved_for phys size in
  exists st' B, initialize_page_frame_array phys size st = Ok (r, st') /\
    buddy_inv r B st' /\ forall p o u, B !! p = Some (o, u) <-> laid_out 19 (NPAGES - r) p o u.
Proof.
  intros Hp Hs Hr r. subst r. destruct (init_pages phys size Hp Hs Hr) as (Hx & Hsh & Hal & Hav).
  rewrite (initialize_eq _ _ _ _ _ _ Hx Hsh Hal Hav).
  apply init_run; [done|apply init_lists_ok|done|].
  unfold NPAGES, MAX_ORDER in *. rewrite Z.mod_small; lia.
Qed.

Lemma initialize_ok phys size st :
  0 <= phys -> 0 <= size -> MAX_ORDER < reserved_for phys size <= NPAGES ->
  exists st' B, initialize_page_frame_array phys size st = Ok (reserved_for phys size, st') /\
    buddy_inv (reserved_for phys size) B st' /\ (forall p o u, B !! p = Some (o, u) -> u = false).
Proof.
  intros Hp Hs Hr. destruct (initialize_blocks phys size st Hp Hs Hr) as (st' & B & E & Hi & HB). exists st', B.
  split; [done|]. split; [done|]. by intros p o u [-> _]%HB.
Qed.
