(* ===== verification/BuddyRef.v ===== *)
(** * Page ownership, reference counts and the page-allocator interface

    The page-frame queries on a block in use ([head_from_page],
    [get_page_owner], [set_page_owner], [get_block_order]), [decrement_ref], and
    the frees that must do nothing.  The class [PageAllocator] is what the slab
    allocator and the page tables use of the buddy allocator. *)
From S2P Require Import Prelude KList Buddy BuddyInv BuddyOps.

Section ref.
Context (resv : Z).

(** A page of a block in use, head or tail. *)
Lemma used_page B st p o q :
  buddy_inv resv B st -> B !! p = Some (o, true) -> p <= q < p + 2 ^ o ->
  0 <= q < NPAGES /\ 0 <= p /\ p < NPAGES /\
  (q = p /\ flags (frame_at st q) = PAGE_BUDDY_HEAD \/
   q <> p /\ flags (frame_at st q) = PAGE_BUDDY_TAIL /\ order (frame_at st q) = p).
Proof.
  intros Hi Hp Hq. pose proof (block_range _ _ _ _ _ _ Hi Hp) as (? & ? & ? & ? & ?).
  split; [lia|]. split; [lia|]. split; [lia|].
  destruct (decide (q = p)) as [->|]; [left|right].
  - split; [done|]. apply (fo_head _ _ _ (bi_frames _ _ _ Hi) _ _ _ Hp).
  - destruct (fo_tail _ _ _ (bi_frames _ _ _ Hi) _ _ _ q Hp ltac:(lia)) as (? & _ & Hu).
    destruct (Hu eq_refl). done.
Qed.

Lemma head_from_page_ok B st p o q off :
  buddy_inv resv B st -> B !! p = Some (o, true) -> p <= q < p + 2 ^ o -> 0 <= off < 4096 ->
  head_from_page (page_va q + off) st = Ok (page_va p).
Proof.
  intros Hi Hp Hq Hoff. destruct (used_page _ _ _ _ _ Hi Hp Hq) as (Hr & Hp0 & Hp1 & Hc).
  pose proof (pow2_pos o ltac:(apply (block_range _ _ _ _ _ _ Hi Hp))).
  pose proof (fo_head _ _ _ (bi_frames _ _ _ Hi) _ _ _ Hp) as (_ & Hfl & _).
  unfold head_from_page. rewrite page_va_pfn by lia. rewrite get_frame_ok by lia. cbn [mbind res_bind].
  destruct Hc as [(-> & ->)|(Hne & -> & ->)]; cbv zeta; cbn [Z.eqb PAGE_BUDDY_HEAD PAGE_BUDDY_TAIL Pos.eqb].
  all: rewrite get_frame_ok by lia; cbn [mbind res_bind]; rewrite Hfl; reflexivity.
Qed.

Lemma owner_pfn B st p o q :
  buddy_inv resv B st -> B !! p = Some (o, true) -> p <= q < p + 2 ^ o ->
  (if Z.land (flags (frame_at st q)) PAGE_BUDDY_TAIL =? 0 then q else order (frame_at st q)) = p.
Proof.
  intros Hi Hp Hq. destruct (used_page _ _ _ _ _ Hi Hp Hq) as (_ & _ & _ & [(-> & ->)|(? & -> & ->)]);
    reflexivity.
Qed.

Lemma get_page_owner_ok B st p o q off :
  buddy_inv resv B st -> B !! p = Some (o, true) -> p <= q < p + 2 ^ o -> 0 <= off < 4096 ->
  get_page_owner (page_va q + off) st = Ok (state (frame_at st p)).
Proof.
  intros Hi Hp Hq Hoff. destruct (used_page _ _ _ _ _ Hi Hp Hq) as (? & ? & ? & _).
  unfold get_page_owner. rewrite page_va_pfn, get_frame_ok by lia. cbn [mbind res_bind].
  rewrite (owner_pfn _ _ _ _ _ Hi Hp Hq). cbv zeta. rewrite get_frame_ok by lia. done.
Qed.

(** Changing one head frame, its order and flags kept. *)
Lemma inv_upd_head B st st' p o f :
  buddy_inv resv B st -> B !! p = Some (o, true) -> nodes st' = nodes st ->
  (forall q, frame_at st' q = if decide (q = p) then f (frame_at st p) else frame_at st q) ->
  head_ok (f (frame_at st p)) o true -> buddy_inv resv B st'.
Proof.
  intros Hi Hp HN HF Hf'. pose proof Hi as [Hr Hw Hf Hl].
  pose proof (block_range _ _ _ _ _ _ Hi Hp) as (? & ? & ? & ? & ?).
  split; [done|done| |by rewrite HN]. split.
  - intros a oa ua Ha. rewrite HF. case_decide as Hd; [subst; simplify_eq; done|].
    by apply (fo_head _ _ _ Hf).
  - intros a oa ua q Ha Hq. rewrite HF, decide_False; [by apply (fo_tail _ _ _ Hf _ oa)|].
    intros ->. pose proof (block_interior _ _ _ _ _ _ Hw Ha Hq). congruence.
  - intros q Hq. rewrite HF, decide_False by lia. by apply (fo_resv _ _ _ Hf).
Qed.

Lemma set_page_owner_ok B st p o q off w :
  buddy_inv resv B st -> B !! p = Some (o, true) -> p <= q < p + 2 ^ o -> 0 <= off < 4096 ->
  w <> PAGE_FREE -> w <> PAGE_RESERVED ->
  exists st', set_page_owner (page_va q + off) w st = Ok st' /\ buddy_inv resv B st' /\
    (forall x, frame_at st' x = if decide (x = p) then set_state w (frame_at st p) else frame_at st x).
Proof.
  intros Hi Hp Hq Hoff Hw1 Hw2. destruct (used_page _ _ _ _ _ Hi Hp Hq) as (? & ? & ? & _).
  unfold set_page_owner. rewrite page_va_pfn, get_frame_ok by lia. cbn [mbind res_bind].
  rewrite (owner_pfn _ _ _ _ _ Hi Hp Hq). cbv zeta.
  destruct (upd_frame_ok p (set_state w) st) as (st' & E & N & F); [lia|].
  assert (HF : forall x, frame_at st' x = if decide (x = p) then set_state w (frame_at st p) else frame_at st x)
    by (intros x; rewrite F; done).
  exists st'. split; [done|]. split; [|done].
  eapply inv_upd_head; [exact Hi|exact Hp|done|exact HF|].
  destruct (fo_head _ _ _ (bi_frames _ _ _ Hi) _ _ _ Hp) as (? & ? & _). done.
Qed.

(** [get_block_order] takes a physical address. *)
Lemma get_block_order_ok B st p o u :
  buddy_inv resv B st -> B !! p = Some (o, u) -> get_block_order (p * 4096) st = Ok o.
Proof.
  intros Hi Hp. pose proof (block_range _ _ _ _ _ _ Hi Hp) as (? & ? & ? & ? & ?).
  unfold get_block_order.
  replace (Z.land (p * 4096) 0xFFF) with 0.
  2: { change 0xFFF with (Z.ones 12). rewrite Z.land_ones by lia. change (2 ^ 12) with 4096.
       by rewrite Z.mod_mul. }
  cbn [Z.eqb negb]. rewrite Z.shiftr_div_pow2 by lia. change (2 ^ 12) with 4096.
  rewrite Z.div_mul, get_frame_ok by lia. cbn [mbind res_bind].
  rewrite (proj1 (fo_head _ _ _ (bi_frames _ _ _ Hi) _ _ _ Hp)), u8_small by (consts; lia). done.
Qed.

(** ** Frees that do nothing *)

(** Freeing any page that is not the head of a block in use - a page of the
    reserved region, a tail, or the head of a free block (a double free) -
    leaves the allocator unchanged. *)
Lemma buddy_free_noop B st q off :
  buddy_inv resv B st -> (forall o, B !! q <> Some (o, true)) -> 0 <= q < NPAGES -> 0 <= off < 4096 ->
  buddy_free (page_va q + off) st = Ok st.
Proof.
  intros Hi Hno Hq Hoff. pose proof Hi as [Hr Hw Hf Hl].
  unfold buddy_free. rewrite page_va_pfn, get_frame_ok by lia. cbn [mbind res_bind].
  destruct (decide (q < resv)).
  { by rewrite (fo_resv _ _ _ Hf) by lia. }
  destruct (bw_cover _ _ Hw q ltac:(lia)) as (p & o & u & Hp & Hin).
  destruct (decide (q = p)) as [->|].
  - destruct u; [by destruct (Hno _ Hp)|].
    destruct (fo_head _ _ _ Hf _ _ _ Hp) as (_ & -> & ->). done.
  - destruct (fo_tail _ _ _ Hf _ _ _ q Hp ltac:(lia)) as (_ & [->| ->] & _); done.
Qed.

(** ** Reference counts *)

Definition same_ref (st st' : buddy) : Prop :=
  forall q, refcount (frame_at st' q) = refcount (frame_at st q).

Lemma upd_frame_ref p f st st' :
  upd_frame p f st = Ok st' -> (forall x, refcount (f x) = refcount x) -> same_ref st st'.
Proof.
  unfold upd_frame. destruct (in_array p) eqn:Hp; [|discriminate]. intros [= <-] Hf q.
  unfold frame_at at 1. cbn [meta]. rewrite lookup_insert. case_decide; [subst; apply Hf|done].
Qed.

Lemma upd_range_ref n p f st st' :
  upd_range n p f st = Ok st' -> (forall x, refcount (f x) = refcount x) -> same_ref st st'.
Proof.
  revert p st. induction n as [|n IH]; intros p st E Hf; cbn [upd_range] in E; [by simplify_eq|].
  inv_bind E. intros q. rewrite (IH _ _ E Hf q). by apply (upd_frame_ref _ _ _ _ Ha).
Qed.

Lemma on_nodes_ref f st st' : on_nodes f st = Ok st' -> same_ref st st'.
Proof. unfold on_nodes. intros E. inv_bind E. by simplify_eq. Qed.

Lemma frame_list_add_ref p o st st' : frame_list_add p o st = Ok st' -> same_ref st st'.
Proof. unfold frame_list_add. intros E. inv_bind E. inv_bind E. by apply on_nodes_ref in E. Qed.

Lemma frame_list_remove_ref p st st' : frame_list_remove p st = Ok st' -> same_ref st st'.
Proof. unfold frame_list_remove. intros E. inv_bind E. by apply on_nodes_ref in E. Qed.

Lemma coalesce_up_ref fuel c st st' : coalesce_up fuel c st = Ok st' -> same_ref st st'.
Proof.
  revert c st. induction fuel as [|fuel IH]; intros c st E; cbn [coalesce_up] in E; [done|].
  inv_bind E. case_match; [done|]. inv_bind E. inv_bind E.
  case_match; [by simplify_eq|]. case_match; [|by simplify_eq].
  do 6 (inv_bind E). intros q. rewrite (IH _ _ E q).
  repeat match goal with
  | H : frame_list_add _ _ _ = Ok _ |- _ => rewrite (frame_list_add_ref _ _ _ _ H q); clear H
  | H : frame_list_remove _ _ = Ok _ |- _ => apply frame_list_remove_ref in H; revert H
  | H : upd_frame _ _ _ = Ok _ |- _ => apply upd_frame_ref in H; [revert H|done]
  | H : upd_range _ _ _ _ = Ok _ |- _ => apply upd_range_ref in H; [revert H|done]
  end.
  unfold same_ref. intros. congruence.
Qed.

Lemma buddy_free_ref page st st' : buddy_free page st = Ok st' -> same_ref st st'.
Proof.
  unfold buddy_free. intros E. inv_bind E. case_match; [by simplify_eq|]. case_match; [by simplify_eq|].
  inv_bind E. inv_bind E. apply upd_frame_ref in Ha0; [|done]. apply frame_list_add_ref in Ha1.
  case_match; [apply coalesce_up_ref in E|simplify_eq].
  all: intros q; rewrite ?(E q), (Ha1 q); apply Ha0.
Qed.

(** Dropping one reference of a block: the count goes down; at zero the block
    is freed, and zero is returned. *)
Lemma decrement_ref_shared B st p o off :
  buddy_inv resv B st -> B !! p = Some (o, true) -> 0 <= off < 4096 ->
  1 < refcount (frame_at st p) < 2 ^ 32 ->
  exists st', decrement_ref (page_va p + off) st = Ok (refcount (frame_at st p) - 1, st') /\
    buddy_inv resv B st' /\
    (forall x, frame_at st' x = if decide (x = p)
      then set_refcount (refcount (frame_at st p) - 1) (frame_at st p) else frame_at st x).
Proof.
  intros Hi Hp Hoff Hrc. change (2 ^ 32) with 4294967296 in Hrc.
  pose proof (block_range _ _ _ _ _ _ Hi Hp) as (? & ? & ? & ? & ?).
  destruct (fo_head _ _ _ (bi_frames _ _ _ Hi) _ _ _ Hp) as (Ho & Hfl & Hs1 & Hs2).
  unfold decrement_ref. rewrite page_va_pfn, get_frame_ok by lia. cbn [mbind res_bind].
  rewrite (proj2 (Z.eqb_neq _ _) Hs2), Hfl. cbn [Z.land Z.eqb Pos.land PAGE_BUDDY_HEAD Pos.eqb].
  destruct (upd_frame_ok p (fun f => set_refcount (u32 (refcount f - 1)) f) st) as (s1 & E1 & N1 & F1); [lia|].
  rewrite E1. cbn [mbind res_bind]. rewrite get_frame_ok by lia. cbn [mbind res_bind].
  assert (Hr1 : refcount (frame_at s1 p) = refcount (frame_at st p) - 1).
  { rewrite F1, decide_True by done. cbn [refcount set_refcount]. by rewrite u32_small by lia. }
  rewrite Hr1, (proj2 (Z.eqb_neq (refcount (frame_at st p) - 1) 0)) by lia. cbn [mbind res_bind].
  rewrite get_frame_ok by lia. cbn [mbind res_bind]. rewrite Hr1.
  assert (HF : forall x, frame_at s1 x = if decide (x = p)
    then set_refcount (refcount (frame_at st p) - 1) (frame_at st p) else frame_at st x).
  { intros x. rewrite F1. case_decide; [subst x|done]. cbv beta. by rewrite u32_small by lia. }
  exists s1. split; [done|]. split; [|done].
  eapply inv_upd_head; [exact Hi|exact Hp|done|exact HF|]. done.
Qed.

Lemma decrement_ref_last B st p o off :
  buddy_inv resv B st -> B !! p = Some (o, true) -> 0 <= off < 4096 -> refcount (frame_at st p) = 1 ->
  exists st' B', decrement_ref (page_va p + off) st = Ok (0, st') /\ free_post resv B st p o B' st'.
Proof.
  intros Hi Hp Hoff Hrc.
  pose proof (block_range _ _ _ _ _ _ Hi Hp) as (? & ? & ? & ? & ?).
  destruct (fo_head _ _ _ (bi_frames _ _ _ Hi) _ _ _ Hp) as (Ho & Hfl & Hs1 & Hs2).
  unfold decrement_ref. rewrite page_va_pfn, get_frame_ok by lia. cbn [mbind res_bind].
  rewrite (proj2 (Z.eqb_neq _ _) Hs2), Hfl. cbn [Z.land Z.eqb Pos.land PAGE_BUDDY_HEAD Pos.eqb].
  destruct (upd_frame_ok p (fun f => set_refcount (u32 (refcount f - 1)) f) st) as (s1 & E1 & N1 & F1); [lia|].
  rewrite E1. cbn [mbind res_bind]. rewrite get_frame_ok by lia. cbn [mbind res_bind].
  assert (Hr1 : refcount (frame_at s1 p) = 0).
  { rewrite F1, decide_True by done. cbn [refcount set_refcount]. by rewrite Hrc. }
  rewrite Hr1. cbn [Z.eqb].
  assert (HF : forall x, frame_at s1 x = if decide (x = p)
    then (fun f => set_refcount (u32 (refcount f - 1)) f) (frame_at st p) else frame_at st x).
  { intros x. rewrite F1. done. }
  assert (Hi1 : buddy_inv resv B s1) by (eapply inv_upd_head; [exact Hi|exact Hp|done|exact HF|done]).
  destruct (buddy_free_ok resv p o off B s1 Hi1 Hp Hoff) as (s2 & B2 & E2 & [P1 P2 P3 P4]).
  rewrite E2. cbn [mbind res_bind]. rewrite get_frame_ok by lia. cbn [mbind res_bind].
  rewrite (buddy_free_ref _ _ _ E2 p), Hr1. exists s2, B2. split; [done|].
  split; [done|done| |done]. intros q oq x Hne Hq Hx. rewrite (P3 q oq x Hne Hq Hx), HF, decide_False; [done|].
  intros ->. pose proof (block_sep _ _ _ _ _ _ _ _ (bi_wf _ _ _ Hi) Hp Hq ltac:(congruence)). lia.
Qed.

(** A page of the reserved region or a page that heads no block is refused. *)
Lemma decrement_ref_errors B st q off :
  buddy_inv resv B st -> 0 <= off < 4096 ->
  (0 <= q < resv -> q < NPAGES -> decrement_ref (page_va q + off) st = Ok (u64 (-2), st)) /\
  (forall p o, B !! p = Some (o, true) -> p < q < p + 2 ^ o ->
    state (frame_at st q) <> PAGE_RESERVED -> decrement_ref (page_va q + off) st = Ok (u64 (-1), st)).
Proof.
  intros Hi Hoff. split.
  - intros Hq Hq'. destruct Hi as [Hr Hw Hf Hl].
    unfold decrement_ref. rewrite page_va_pfn, get_frame_ok by lia. cbn [mbind res_bind].
    by rewrite (fo_resv _ _ _ Hf) by lia.
  - intros p o Hp Hq Hs. pose proof (block_range _ _ _ _ _ _ Hi Hp) as (? & ? & ? & ? & ?).
    unfold decrement_ref. rewrite page_va_pfn, get_frame_ok by lia. cbn [mbind res_bind].
    rewrite (proj2 (Z.eqb_neq _ _) Hs).
    destruct (fo_tail _ _ _ (bi_frames _ _ _ Hi) _ _ _ q Hp ltac:(lia)) as (_ & _ & Hu).
    destruct (Hu eq_refl) as [-> _]. done.
Qed.
End ref.

(** ** The interface *)

(** What the other components use of the page allocator: [pa_view s V] says
    that the blocks in use are exactly those of [V], first page to order and
    owner. *)
Class PageAllocator (S : Type) := {
  pa_alloc : Z -> S -> res (Z * S);
  pa_free : Z -> S -> res S;
  pa_owner : Z -> S -> res Z;
  pa_set_owner : Z -> Z -> S -> res S;
  pa_head : Z -> S -> res Z;
  pa_view : S -> gmap Z (Z * Z) -> Prop;
  pa_range : forall s V p o w, pa_view s V -> V !! p = Some (o, w) ->
    0 < p /\ 0 <= o < MAX_ORDER /\ p + 2 ^ o <= NPAGES;
  pa_disjoint : forall s V p o w q o' w', pa_view s V -> V !! p = Some (o, w) -> V !! q = Some (o', w') ->
    p <> q -> p + 2 ^ o <= q \/ q + 2 ^ o' <= p;
  pa_alloc_spec : forall s V bytes, pa_view s V -> 0 <= bytes <= 2 ^ 43 ->
    pa_alloc bytes s = Ok (0, s) \/
    exists p s', pa_alloc bytes s = Ok (page_va p, s') /\ V !! p = None /\
      pa_view s' (<[p := (order_for bytes, PAGE_BUDDY)]> V);
  pa_free_spec : forall s V p o w off, pa_view s V -> V !! p = Some (o, w) -> 0 <= off < 4096 ->
    exists s', pa_free (page_va p + off) s = Ok s' /\ pa_view s' (delete p V);
  pa_owner_spec : forall s V p o w q off, pa_view s V -> V !! p = Some (o, w) ->
    p <= q < p + 2 ^ o -> 0 <= off < 4096 -> pa_owner (page_va q + off) s = Ok w;
  pa_head_spec : forall s V p o w q off, pa_view s V -> V !! p = Some (o, w) ->
    p <= q < p + 2 ^ o -> 0 <= off < 4096 -> pa_head (page_va q + off) s = Ok (page_va p);
  pa_set_owner_spec : forall s V p o w q off w', pa_view s V -> V !! p = Some (o, w) ->
    p <= q < p + 2 ^ o -> 0 <= off < 4096 -> w' <> PAGE_FREE -> w' <> PAGE_RESERVED ->
    exists s', pa_set_owner (page_va q + off) w' s = Ok s' /\ pa_view s' (<[p := (o, w')]> V);
}.

(** The buddy allocator's blocks in use, with their owners. *)
Definition buddy_view_at (resv : Z) (st : buddy) (V : gmap Z (Z * Z)) : Prop :=
  exists B, buddy_inv resv B st /\
    forall p o w, V !! p = Some (o, w) <-> B !! p = Some (o, true) /\ w = state (frame_at st p).
Definition buddy_view (st : buddy) (V : gmap Z (Z * Z)) : Prop := exists resv, buddy_view_at resv st V.

Lemma kept_owner B st st' p o :
  used_kept B st st' -> B !! p = Some (o, true) -> 0 <= o ->
  state (frame_at st' p) = state (frame_at st p).
Proof. intros Hk Hp Ho. rewrite (Hk p o p Hp); [done|]. pose proof (pow2_pos o Ho). lia. Qed.

Lemma buddy_view_alloc resv st V bytes :
  buddy_view_at resv st V -> 0 <= bytes <= 2 ^ 43 ->
  buddy_alloc bytes st = Ok (0, st) \/
  exists p st', buddy_alloc bytes st = Ok (page_va p, st') /\ V !! p = None /\
    buddy_view_at resv st' (<[p := (order_for bytes, PAGE_BUDDY)]> V).
Proof.
  intros (B & Hi & HV) Hb.
  destruct (buddy_alloc_ok resv bytes B st Hi Hb) as [[E _]|(p & st' & B' & E & [Hi' Hn Hf Hu Hk _ Ho _])];
    [by left|right].
  exists p, st'. split; [done|]. split.
  { destruct (V !! p) as [[o w]|] eqn:Ep; [|done]. apply HV in Ep as [Ep _]. by apply Hf in Ep. }
  exists B'. split; [done|]. intros q o w. rewrite lookup_insert. case_decide as Hd.
  - subst q. pose proof (block_range _ _ _ _ _ _ Hi' Hn) as (? & ? & ? & ? & ?).
    rewrite Ho by lia. split; [by intros [= <- <-]|]. intros [Hq ->]. congruence.
  - rewrite HV, (Hu q o) by done. split; intros [Hq ->]; split; try done.
    all: pose proof (block_range _ _ _ _ _ _ Hi Hq) as (? & _).
    all: rewrite (kept_owner B st st' q o) by (done || lia); done.
Qed.

Lemma buddy_view_free resv st V p o w off :
  buddy_view_at resv st V -> V !! p = Some (o, w) -> 0 <= off < 4096 ->
  exists st', buddy_free (page_va p + off) st = Ok st' /\ buddy_view_at resv st' (delete p V).
Proof.
  intros (B & Hi & HV) Hp Hoff. apply HV in Hp as [Hp _].
  destruct (buddy_free_ok resv p o off B st Hi Hp Hoff) as (st' & B' & E & [Hi' Hu Hk _]).
  exists st'. split; [done|]. exists B'. split; [done|]. intros q oq wq.
  rewrite lookup_delete. case_decide as Hd.
  - subst q. split; [done|]. intros [Hq _]. by apply Hu in Hq as [].
  - rewrite HV, (Hu q oq). split; [intros [Hq ->]|intros [[_ Hq] ->]]; (split; [done|]).
    all: pose proof (block_range _ _ _ _ _ _ Hi Hq) as (? & ? & ? & ? & ?).
    all: rewrite (Hk q oq q) by (done || lia); done.
Qed.

Lemma buddy_view_set_owner resv st V p o w q off w' :
  buddy_view_at resv st V -> V !! p = Some (o, w) -> p <= q < p + 2 ^ o -> 0 <= off < 4096 ->
  w' <> PAGE_FREE -> w' <> PAGE_RESERVED ->
  exists st', set_page_owner (page_va q + off) w' st = Ok st' /\ buddy_view_at resv st' (<[p := (o, w')]> V).
Proof.
  intros (B & Hi & HV) Hp Hq Hoff Hw1 Hw2. apply HV in Hp as [Hp _].
  destruct (set_page_owner_ok resv B st p o q off w' Hi Hp Hq Hoff Hw1 Hw2) as (st' & E & Hi' & HF).
  exists st'. split; [done|]. exists B. split; [done|]. intros x ox wx.
  rewrite lookup_insert, HF. case_decide as Hd.
  - subst x. rewrite decide_True by done. cbn [state set_state].
    split; [by intros [= <- <-]|]. intros [Hx ->]. congruence.
  - rewrite decide_False by done. apply HV.
Qed.

(** The allocator behind [resv] reserved pages. *)
Definition buddy_pages (resv : Z) : PageAllocator buddy.
Proof.
  refine {| pa_alloc := buddy_alloc; pa_free := buddy_free; pa_owner := get_page_owner;
    pa_set_owner := set_page_owner; pa_head := head_from_page; pa_view := buddy_view_at resv |}.
  - intros st V p o w (B & Hi & HV) Hp. apply HV in Hp as [Hp _].
    pose proof (block_range _ _ _ _ _ _ Hi Hp). lia.
  - intros st V p o w q o' w' (B & Hi & HV) Hp Hq Hne. apply HV in Hp as [Hp _], Hq as [Hq _].
    eapply block_sep; eauto using bi_wf.
  - intros. by apply buddy_view_alloc.
  - intros. by eapply buddy_view_free.
  - intros st V p o w q off (B & Hi & HV) Hp Hq Hoff. apply HV in Hp as [Hp ->].
    by eapply get_page_owner_ok.
  - intros st V p o w q off (B & Hi & HV) Hp Hq Hoff. apply HV in Hp as [Hp ->].
    by eapply head_from_page_ok.
  - intros. by eapply buddy_view_set_owner.
Defined.

#[export] Instance buddy_page_allocator : PageAllocator buddy.
Proof.
  refine {| pa_alloc := buddy_alloc; pa_free := buddy_free; pa_owner := get_page_owner;
    pa_set_owner := set_page_owner; pa_head := head_from_page; pa_view := buddy_view |}.
  - intros st V p o w [resv Hv]. exact (@pa_range _ (buddy_pages resv) st V p o w Hv).
  - intros st V p o w q o' w' [resv Hv]. exact (@pa_disjoint _ (buddy_pages resv) st V p o w q o' w' Hv).
  - intros st V bytes [resv Hv] Hb. destruct (buddy_view_alloc resv st V bytes Hv Hb) as [E|(p & st' & E & Hn & Hv')]; [by left|right].
    exists p, st'. do 2 (split; [done|]). by exists resv.
  - intros st V p o w off [resv Hv] Hp Ho. destruct (buddy_view_free resv st V p o w off Hv Hp Ho) as (st' & E & Hv').
    exists st'. split; [done|]. by exists resv.
  - intros st V p o w q off [resv Hv]. exact (@pa_owner_spec _ (buddy_pages resv) st V p o w q off Hv).
  - intros st V p o w q off [resv Hv]. exact (@pa_head_spec _ (buddy_pages resv) st V p o w q off Hv).
  - intros st V p o w q off w' [resv Hv] Hp Hq Ho Hw Hw'.
    destruct (buddy_view_set_owner resv st V p o w q off w' Hv Hp Hq Ho Hw Hw') as (st' & E & Hv').
    exists st'. split; [done|]. by exists resv.
Defined.
