(* ===== verification/BuddySpec.v ===== *)
(** * What the page allocator and its lists promise

    The properties of the intrusive lists and of the buddy allocator, each with
    an instance at a concrete boot: the linker's test region at physical
    [0x80000], of [0x80000] bytes, so that 256 pages are reserved. *)
From S2P Require Import Prelude KList Buddy BuddyInv BuddyOps BuddyInit BuddyRef.

(** ** A concrete allocator state *)

Definition boot_start : buddy := Buddy ∅ ∅.

Lemma boot_state : exists st B,
  initialize_page_frame_array 0x80000 0x80000 boot_start = Ok (256, st) /\ buddy_inv 256 B st /\
  (forall p o u, B !! p = Some (o, u) -> u = false) /\ exists p o, B !! p = Some (o, false).
Proof.
  assert (Hr : reserved_for 0x80000 0x80000 = 256) by reflexivity.
  destruct (initialize_ok 0x80000 0x80000 boot_start) as (st & B & E & Hi & Hu);
    [lia|lia|rewrite Hr; unfold MAX_ORDER, NPAGES; lia|]. rewrite Hr in *.
  exists st, B. split; [exact E|]. split; [exact Hi|]. split; [exact Hu|].
  destruct (bw_cover _ _ (bi_wf _ _ _ Hi) 256) as (p & o & u & Hp & _); [unfold NPAGES; lia|].
  exists p, o. rewrite <- (Hu _ _ _ Hp). exact Hp.
Qed.

(** A state in which one page is in use. *)
Lemma boot_used : exists st B p, buddy_inv 256 B st /\ B !! p = Some (0, true) /\ refcount (frame_at st p) = 1.
Proof.
  destruct boot_state as (st & B & _ & Hi & Hu & q & o & Hq).
  destruct (buddy_alloc_ok 256 4096 B st Hi) as [[_ Hno]|(p & st' & B' & _ & Hpost)]; [lia| |].
  - apply Hno in Hq as Hlt. pose proof (block_range _ _ _ _ _ _ Hi Hq).
    change (order_for 4096) with 0 in Hlt. lia.
  - exists st', B', p. split; [apply Hpost|]. split; [apply Hpost|apply Hpost].
Qed.

(** ** The allocator at boot *)

(** C3: [initialize_page_frame_array] returns the number of reserved pages and
    leaves the allocator in a state that satisfies the invariant: the pages
    above the reserved region are tiled by blocks, all of them free, each on
    the free list of its order, and every frame carries its block's metadata. *)
Theorem boot_establishes_invariant phys size st :
  0 <= phys -> 0 <= size -> MAX_ORDER < reserved_for phys size <= NPAGES ->
  exists st' B, initialize_page_frame_array phys size st = Ok (reserved_for phys size, st') /\
    buddy_inv (reserved_for phys size) B st' /\
    (forall p o u, B !! p = Some (o, u) -> u = false).
Proof. apply initialize_ok. Qed.

Lemma boot_establishes_invariant_witness :
  exists st' B, initialize_page_frame_array 0x80000 0x80000 boot_start = Ok (256, st') /\
    buddy_inv 256 B st' /\ (forall p o u, B !! p = Some (o, u) -> u = false).
Proof.
  assert (Hr : reserved_for 0x80000 0x80000 = 256) by reflexivity. rewrite <- Hr.
  apply (boot_establishes_invariant 0x80000 0x80000 boot_start); [lia|lia|rewrite Hr; unfold MAX_ORDER, NPAGES; lia].
Defined.

(** ** Allocation *)

(** C1: [buddy_alloc] on a consistent allocator either hands out a block or
    returns NULL and changes nothing, the latter only when no free block is
    large enough.  A block handed out was not in use, is the smallest power of
    two of pages that holds the request, belongs to [PAGE_BUDDY] with reference
    count 1, and every block in use before is still there with its metadata
    untouched. *)
Theorem buddy_alloc_refines resv bytes B st :
  buddy_inv resv B st -> 0 <= bytes <= 2 ^ 43 ->
  (buddy_alloc bytes st = Ok (0, st) /\ forall p o, B !! p = Some (o, false) -> o < order_for bytes) \/
  (exists p st' B', buddy_alloc bytes st = Ok (page_va p, st') /\
    alloc_post resv B st (order_for bytes) p B' st').
Proof. apply buddy_alloc_ok. Qed.

Lemma buddy_alloc_refines_witness : exists st B p st' B',
  buddy_inv 256 B st /\ buddy_alloc 4096 st = Ok (page_va p, st') /\ alloc_post 256 B st 0 p B' st'.
Proof.
  destruct boot_state as (st & B & _ & Hi & _ & q & o & Hq).
  destruct (buddy_alloc_refines 256 4096 B st Hi) as [[_ Hno]|(p & st' & B' & E & Hpost)]; [lia| |].
  - exfalso. apply Hno in Hq as Hlt. pose proof (block_range _ _ _ _ _ _ Hi Hq).
    change (order_for 4096) with 0 in Hlt. lia.
  - exists st, B, p, st', B'. done.
Defined.

(** The order is the least one whose block holds the request. *)
Lemma order_for_spec bytes :
  0 <= bytes ->
  bytes <= 4096 * 2 ^ order_for bytes /\
  (0 < order_for bytes -> 4096 * 2 ^ (order_for bytes - 1) < bytes).
Proof.
  intros Hb. unfold order_for. set (n := pages_for bytes).
  assert (Hn : 0 <= n /\ bytes <= 4096 * n /\ 4096 * (n - 1) < bytes).
  { unfold n, pages_for. zdiv. }
  destruct (Z.le_gt_cases n 1) as [H1|H1].
  - assert (n = 0 \/ n = 1) as [-> | ->] by lia; cbn; lia.
  - pose proof (Z.log2_up_spec n H1) as [Hlo Hhi]. rewrite <- Z.sub_1_r in Hlo. lia.
Qed.

(** The block [buddy_alloc] returns lies in managed memory, is at least as
    large as the request and less than twice as large (in pages, a power of
    two): no smaller order would do. *)
Lemma buddy_alloc_size resv bytes B st va st' :
  buddy_inv resv B st -> 0 <= bytes <= 2 ^ 43 -> buddy_alloc bytes st = Ok (va, st') -> va <> 0 ->
  exists p o B', va = page_va p /\ buddy_inv resv B' st' /\ B' !! p = Some (o, true) /\
    resv <= p /\ p + 2 ^ o <= NPAGES /\
    bytes <= 4096 * 2 ^ o /\ (0 < o -> 4096 * 2 ^ (o - 1) < bytes).
Proof.
  intros Hi Hb E Hva. destruct (buddy_alloc_ok resv bytes B st Hi Hb) as [[E' _]|(p & s & B' & E' & Hpost)].
  - rewrite E' in E. simplify_eq.
  - rewrite E' in E. simplify_eq. destruct Hpost as [Hi' Hn _ _ _ _ _].
    pose proof (block_range _ _ _ _ _ _ Hi' Hn). pose proof (order_for_spec bytes ltac:(lia)).
    exists p, (order_for bytes), B'. split_and!; tauto || lia.
Qed.

Lemma buddy_alloc_size_witness : exists st B va st' p o (B' : blocks), buddy_inv 256 B st /\
  buddy_alloc 4096 st = Ok (va, st') /\ va <> 0 /\ va = page_va p /\ B' !! p = Some (o, true) /\
  4096 <= 4096 * 2 ^ o.
Proof.
  destruct boot_state as (st & B & _ & Hi & _ & q & o & Hq).
  destruct (buddy_alloc_ok 256 4096 B st Hi) as [[_ Hno]|(p & st' & B' & E & Hpost)]; [lia| |].
  - exfalso. apply Hno in Hq as Hlt. pose proof (block_range _ _ _ _ _ _ Hi Hq).
    change (order_for 4096) with 0 in Hlt. lia.
  - assert (Hnz : page_va p <> 0).
    { pose proof (block_range _ _ _ _ _ _ (ap_inv _ _ _ _ _ _ _ Hpost) (ap_new _ _ _ _ _ _ _ Hpost)).
      apply page_va_nonzero. pose proof (pow2_pos (order_for 4096)). lia. }
    destruct (buddy_alloc_size 256 4096 B st (page_va p) st' Hi ltac:(lia) E Hnz)
      as (p2 & o2 & B2 & H1 & _ & H3 & _ & _ & H6 & _).
    exists st, B, (page_va p), st', p2, o2, B2. done.
Defined.

(** With no free block of the order or above, the search ends with NULL. *)
Lemma alloc_scan_none resv fuel i r B st :
  buddy_inv resv B st -> 0 <= i -> (Z.to_nat (MAX_ORDER + 1 - i) < fuel)%nat ->
  (forall p o, B !! p = Some (o, false) -> o < i) -> alloc_scan fuel i r st = Ok (0, st).
Proof.
  intros Hi. revert i. induction fuel as [|fuel IH]; intros i H0 Hf Hno; [lia|]. cbn [alloc_scan].
  destruct (Z.leb_spec i MAX_ORDER) as [Hle|]; [|done].
  rewrite lists_empty_ok by lia. cbn [mbind res_bind].
  destruct (lists_ok_next _ _ i (bi_lists _ _ _ Hi) ltac:(lia)) as [[-> _]|[_ (p & _ & Hp)]]; cbn [negb].
  - apply IH; [lia|lia|]. intros p o Hp. apply Hno in Hp. lia.
  - apply Hno in Hp. lia.
Qed.

(** [buddy_alloc] returns NULL exactly when no free block of the
    request's order or of a higher one exists. *)
Lemma buddy_alloc_null_iff resv bytes B st :
  buddy_inv resv B st -> 0 <= bytes <= 2 ^ 43 ->
  (buddy_alloc bytes st = Ok (0, st) <-> forall p o, B !! p = Some (o, false) -> o < order_for bytes).
Proof.
  intros Hi Hb. split.
  - intros E. destruct (buddy_alloc_ok resv bytes B st Hi Hb) as [[_ Hno]|(p & s & B' & E' & Hpost)]; [done|].
    exfalso. rewrite E in E'. simplify_eq.
    pose proof (block_range _ _ _ _ _ _ (ap_inv _ _ _ _ _ _ _ Hpost) (ap_new _ _ _ _ _ _ _ Hpost)).
    apply (page_va_nonzero p); [lia|done].
  - intros Hno. destruct (alloc_order_ok bytes Hb) as [E Ho]. unfold buddy_alloc.
    rewrite E. cbn [mbind res_bind]. set (r := order_for bytes) in *.
    destruct (Z.ltb_spec MAX_ORDER r) as [Hlt|Hle]; [done|].
    rewrite lists_empty_ok by lia. cbn [mbind res_bind].
    destruct (lists_ok_next _ _ r (bi_lists _ _ _ Hi) ltac:(lia)) as [[-> _]|[_ (p & _ & Hp)]]; cbn [negb].
    + apply (alloc_scan_none resv 20 (r + 1) r B st Hi); [lia|consts; lia|].
      intros p o Hp. apply Hno in Hp. lia.
    + apply Hno in Hp. lia.
Qed.

Lemma buddy_alloc_null_iff_witness : exists st B, buddy_inv 256 B st /\
  (buddy_alloc (2 ^ 30) st = Ok (0, st) <-> forall p o, B !! p = Some (o, false) -> o < order_for (2 ^ 30)) /\
  buddy_alloc (2 ^ 30) st = Ok (0, st).
Proof.
  destruct boot_state as (st & B & _ & Hi & _). exists st, B. split; [exact Hi|].
  assert (H : buddy_alloc (2 ^ 30) st = Ok (0, st) <-> forall p o, B !! p = Some (o, false) -> o < order_for (2 ^ 30))
    by (apply (buddy_alloc_null_iff 256 (2 ^ 30) B st Hi); lia).
  split; [exact H|]. apply H. intros p o Hp. pose proof (block_range _ _ _ _ _ _ Hi Hp).
  change (order_for (2 ^ 30)) with MAX_ORDER. lia.
Defined.

(** ** Freeing *)

(** C2: [buddy_free] of any address in the first page of a block in use returns
    the block: it is no longer in use, every other block in use keeps its
    metadata, and the block ends up inside a free block whose buddy is not a
    free block of the same order - coalescing went as far as it can. *)
Theorem buddy_free_refines resv p o off B st :
  buddy_inv resv B st -> B !! p = Some (o, true) -> 0 <= off < 4096 ->
  exists st' B', buddy_free (page_va p + off) st = Ok st' /\ free_post resv B st p o B' st'.
Proof. apply buddy_free_ok. Qed.

Lemma buddy_free_refines_witness : exists st B p st' B', buddy_inv 256 B st /\ B !! p = Some (0, true) /\
  buddy_free (page_va p + 8) st = Ok st' /\ free_post 256 B st p 0 B' st'.
Proof.
  destruct boot_used as (st & B & p & Hi & Hp & _).
  destruct (buddy_free_refines 256 p 0 8 B st Hi Hp) as (st' & B' & E & Hpost); [lia|].
  exists st, B, p, st', B'. done.
Defined.

(** Freeing a page that heads no block in use - a second free of the same
    block, a tail page, a reserved page - leaves the allocator as it is. *)
Lemma buddy_free_harmless resv B st q off :
  buddy_inv resv B st -> (forall o, B !! q <> Some (o, true)) -> 0 <= q < NPAGES -> 0 <= off < 4096 ->
  buddy_free (page_va q + off) st = Ok st.
Proof. apply buddy_free_noop. Qed.

Lemma buddy_free_harmless_witness : exists st B p st', buddy_inv 256 B st /\ B !! p = Some (0, true) /\
  buddy_free (page_va p) st = Ok st' /\ buddy_free (page_va p) st' = Ok st'.
Proof.
  destruct boot_used as (st & B & p & Hi & Hp & _).
  destruct (buddy_free_ok 256 p 0 0 B st Hi Hp) as (st' & B' & E & [Hi' Hu _ _]); [lia|].
  rewrite Z.add_0_r in E. exists st, B, p, st'. split; [exact Hi|]. split; [exact Hp|]. split; [exact E|].
  pose proof (block_range _ _ _ _ _ _ Hi Hp) as (? & ? & ? & ? & ?).
  rewrite <- (Z.add_0_r (page_va p)).
  apply (buddy_free_harmless 256 B' st' p 0 Hi'); [|lia|lia].
  intros o Ho. by apply Hu in Ho as [].
Defined.

(** ** Page queries and reference counts *)

(** From any address in any page of a block in use, head or tail,
    [head_from_page] finds the block's first page and [get_page_owner] its
    owner; [set_page_owner] records a new owner, keeps the allocator consistent
    and is what [get_page_owner] then returns from every page of the block. *)
Lemma page_metadata_lookup resv B st p o q off w :
  buddy_inv resv B st -> B !! p = Some (o, true) -> p <= q < p + 2 ^ o -> 0 <= off < 4096 ->
  w <> PAGE_FREE -> w <> PAGE_RESERVED ->
  head_from_page (page_va q + off) st = Ok (page_va p) /\
  get_page_owner (page_va q + off) st = Ok (state (frame_at st p)) /\
  exists st', set_page_owner (page_va q + off) w st = Ok st' /\ buddy_inv resv B st' /\
    (forall q' off', p <= q' < p + 2 ^ o -> 0 <= off' < 4096 ->
      get_page_owner (page_va q' + off') st' = Ok w) /\
    (forall x, x <> p -> frame_at st' x = frame_at st x).
Proof.
  intros Hi Hp Hq Hoff H1 H2. split; [by eapply head_from_page_ok|]. split; [by eapply get_page_owner_ok|].
  destruct (set_page_owner_ok resv B st p o q off w Hi Hp Hq Hoff H1 H2) as (st' & E & Hi' & HF).
  exists st'. split; [done|]. split; [done|]. split.
  - intros q' off' Hq' Hoff'. rewrite (get_page_owner_ok resv B st' p o q' off') by done.
    by rewrite HF, decide_True.
  - intros x Hx. by rewrite HF, decide_False.
Qed.

Lemma page_metadata_lookup_witness : exists st B p, buddy_inv 256 B st /\ B !! p = Some (0, true) /\
  head_from_page (page_va p + 100) st = Ok (page_va p).
Proof.
  destruct boot_used as (st & B & p & Hi & Hp & _). exists st, B, p. split; [exact Hi|]. split; [exact Hp|].
  apply (page_metadata_lookup 256 B st p 0 p 100 PAGE_SLAB Hi Hp); [lia|lia|done|done].
Defined.

(** [decrement_ref] on the head of a block in use returns the new count;
    with other references left the block stays in use and only its count
    changes, with none left the block is freed.  A reserved page and a tail
    page are refused with [-2] and [-1] and nothing changes. *)
Lemma decrement_ref_refines resv B st p o off :
  buddy_inv resv B st -> B !! p = Some (o, true) -> 0 <= off < 4096 -> 0 < refcount (frame_at st p) < 2 ^ 32 ->
  (exists st', decrement_ref (page_va p + off) st = Ok (refcount (frame_at st p) - 1, st') /\
    if decide (refcount (frame_at st p) = 1) then exists B', free_post resv B st p o B' st'
    else buddy_inv resv B st' /\ forall x, frame_at st' x =
      if decide (x = p) then set_refcount (refcount (frame_at st p) - 1) (frame_at st p) else frame_at st x) /\
  (forall q, 0 <= q < resv -> q < NPAGES -> decrement_ref (page_va q + off) st = Ok (u64 (-2), st)) /\
  (forall q, p < q < p + 2 ^ o -> state (frame_at st q) <> PAGE_RESERVED ->
    decrement_ref (page_va q + off) st = Ok (u64 (-1), st)).
Proof.
  intros Hi Hp Hoff Hrc. split_and!.
  - case_decide as Hd.
    + destruct (decrement_ref_last resv B st p o off Hi Hp Hoff Hd) as (st' & B' & E & Hpost).
      exists st'. rewrite Hd. eauto.
    + destruct (decrement_ref_shared resv B st p o off Hi Hp Hoff) as (st' & E & Hi' & HF); [lia|].
      exists st'. eauto.
  - intros q Hq Hn. by apply (decrement_ref_errors resv B st q off Hi Hoff).
  - intros q Hq Hs. by apply (proj2 (decrement_ref_errors resv B st q off Hi Hoff) p o).
Qed.

Lemma decrement_ref_refines_witness : exists st B p st' B', buddy_inv 256 B st /\ B !! p = Some (0, true) /\
  decrement_ref (page_va p + 0) st = Ok (0, st') /\ free_post 256 B st p 0 B' st'.
Proof.
  destruct boot_used as (st & B & p & Hi & Hp & Hrc).
  destruct (decrement_ref_refines 256 B st p 0 0 Hi Hp) as [(st' & E & Hpost) _]; [lia|rewrite Hrc; lia|].
  rewrite Hrc in Hpost, E. rewrite decide_True in Hpost by done. destruct Hpost as [B' Hpost].
  exists st, B, p, st', B'. done.
Defined.

(** The page count is cut to 32 bits: a request of [2 ^ 44] bytes more than
    a small one is served as the small one, with a block of the small size. *)
Lemma buddy_alloc_truncates bytes st :
  0 <= bytes <= 2 ^ 43 -> buddy_alloc (2 ^ 44 + bytes) st = buddy_alloc bytes st.
Proof.
  intros Hb. unfold buddy_alloc.
  change (2 ^ 43) with 8796093022208 in Hb. change (2 ^ 44) with 17592186044416.
  rewrite !u64_small by lia. rewrite !Z.shiftr_div_pow2 by lia. change (2 ^ 12) with 4096.
  replace (17592186044416 + bytes + 4095) with (bytes + 4095 + 4294967296 * 4096) by lia.
  rewrite Z.div_add by lia.
  replace (u32 ((bytes + 4095) / 4096 + 4294967296)) with (u32 ((bytes + 4095) / 4096)); [done|].
  unfold u32, wrap. change (2 ^ 32) with 4294967296. zdiv.
Qed.

Lemma buddy_alloc_truncates_witness : exists st B p st' B', buddy_inv 256 B st /\
  buddy_alloc (2 ^ 44 + 1) st = Ok (page_va p, st') /\ alloc_post 256 B st 0 p B' st'.
Proof.
  destruct boot_state as (st & B & _ & Hi & _ & q & o & Hq).
  destruct (buddy_alloc_ok 256 1 B st Hi) as [[_ Hno]|(p & st' & B' & E & Hpost)]; [lia| |].
  - exfalso. apply Hno in Hq as Hlt. pose proof (block_range _ _ _ _ _ _ Hi Hq).
    change (order_for 1) with 0 in Hlt. lia.
  - exists st, B, p, st', B'. split; [exact Hi|]. split; [|exact Hpost].
    rewrite (buddy_alloc_truncates 1 st); [exact E|lia].
Defined.
