(* ===== verification/PageUse.v ===== *)
(** * Pages in use, and what a run of allocations and references does to them

    [in_use] and [free_page] say of one page whether the blocks of the allocator
    give it out.  [grown B st B' st' N A]: from [st] to [st'] the pages [N] were
    allocated, one by one, and the pages of [A] got a reference each. *)
From S2P Require Import Prelude KList Buddy BuddyInv BuddyOps BuddyInit BuddyRef.

Definition in_use (B : blocks) (q : Z) : Prop := exists p o, B !! p = Some (o, true) /\ p <= q < p + 2 ^ o.
Definition free_page (B : blocks) (q : Z) : Prop := exists p o, B !! p = Some (o, false) /\ p <= q < p + 2 ^ o.

(** How often [q] occurs in a list. *)
Fixpoint refs (q : Z) (A : list Z) : Z :=
  match A with
  | [] => 0
  | a :: A => (if a =? q then 1 else 0) + refs q A
  end.

Lemma refs_app q A A' : refs q (A ++ A') = refs q A + refs q A'.
Proof. induction A as [|a A IH]; cbn [app refs]; lia. Qed.
Lemma refs_nonneg q A : 0 <= refs q A.
Proof. induction A as [|a A IH]; cbn [refs]; [lia|]. destruct (a =? q); lia. Qed.
Lemma refs_notin q A : q ∉ A -> refs q A = 0.
Proof.
  induction A as [|a A IH]; intros Hn; cbn [refs]; [done|]. apply not_elem_of_cons in Hn as [Ha Hn].
  rewrite (proj2 (Z.eqb_neq a q)), IH by done. done.
Qed.
Lemma refs_in q A : q ∈ A -> 1 <= refs q A.
Proof.
  intros Hq. induction Hq as [a A|a b A Hq IH]; cbn [refs].
  - rewrite Z.eqb_refl. pose proof (refs_nonneg a A). lia.
  - destruct (b =? a); lia.
Qed.
#[global] Instance refs_perm q : Proper ((≡ₚ) ==> eq) (refs q).
Proof. induction 1; cbn [refs]; lia. Qed.
Lemma refs_nodup q A : NoDup A -> refs q A <= 1.
Proof.
  induction 1 as [|a A Ha HA IH]; cbn [refs]; [lia|]. destruct (Z.eqb_spec a q); [|lia].
  subst. rewrite refs_notin by done. lia.
Qed.

(** Of distinct elements at most as many are in [N] as [N] has. *)
Lemma nodup_outside (N l : list Z) : NoDup l -> (length l <= length (filter (fun q => q ∉ N) l) + length N)%nat.
Proof.
  intros Hl. assert (Hp : l ≡ₚ filter (fun q => q ∉ N) l ++ filter (fun q => ~ (q ∉ N)) l).
  { clear. induction l as [|y l IH]; [done|]. rewrite !filter_cons. destruct (decide (y ∉ N)).
    - rewrite decide_False by naive_solver. cbn. by constructor.
    - rewrite decide_True by done. rewrite <- Permutation_middle. by constructor. }
  apply Permutation_length in Hp. rewrite length_app in Hp.
  assert (length (filter (fun q => ~ (q ∉ N)) l) <= length N)%nat; [|lia].
  apply submseteq_length, NoDup_submseteq; [by apply NoDup_filter|]. intros q [Hq _]%list_elem_of_filter. by apply dec_stable.
Qed.

Section use.
Context (resv : Z).

Lemma free_not_used B st q : buddy_inv resv B st -> free_page B q -> ~ in_use B q.
Proof.
  intros Hi (p & o & Hp & Hq) (p' & o' & Hp' & Hq').
  pose proof (block_disjoint _ _ _ _ _ _ _ _ q (bi_wf _ _ _ Hi) Hp Hp' Hq Hq'). congruence.
Qed.

Lemma used_range B st q : buddy_inv resv B st -> in_use B q -> resv <= q < NPAGES /\ 0 < q.
Proof. intros Hi (p & o & Hp & Hq). pose proof (block_range _ _ _ _ _ _ Hi Hp). lia. Qed.

Lemma free_range B st q : buddy_inv resv B st -> free_page B q -> resv <= q < NPAGES /\ 0 < q.
Proof. intros Hi (p & o & Hp & Hq). pose proof (block_range _ _ _ _ _ _ Hi Hp). lia. Qed.

Lemma free_or_used B st q : buddy_inv resv B st -> resv <= q < NPAGES -> free_page B q \/ in_use B q.
Proof.
  intros Hi Hq. destruct (bw_cover _ _ (bi_wf _ _ _ Hi) q Hq) as (p & o & [] & Hp & Hin); [right|left]; by exists p, o.
Qed.

(** The blocks of [B'] in use are those of [B] and the single pages [N]. *)
Definition used_plus (B B' : blocks) (N : list Z) : Prop :=
  forall p o, B' !! p = Some (o, true) <-> B !! p = Some (o, true) \/ p ∈ N /\ o = 0.

Lemma in_use_plus B B' N q : used_plus B B' N -> in_use B' q <-> in_use B q \/ q ∈ N.
Proof.
  intros Hu. split.
  - intros (p & o & Hp & Hq). apply Hu in Hp as [Hp|[Hp ->]]; [left; by exists p, o|right].
    change (2 ^ 0) with 1 in Hq. by replace q with p by lia.
  - intros [(p & o & Hp & Hq)|Hq]; [exists p, o|exists q, 0]; (split; [apply Hu; tauto|]); [done|lia].
Qed.

Lemma free_page_mono B B' st st' N q :
  buddy_inv resv B st -> buddy_inv resv B' st' -> used_plus B B' N -> free_page B' q -> free_page B q.
Proof.
  intros Hi Hi' Hu Hq. destruct (free_or_used B st q Hi) as [|Hq']; [by apply (free_range B' st')|done|].
  destruct (free_not_used B' st' q Hi' Hq). apply (in_use_plus B B' N q Hu). by left.
Qed.

Lemma free_page_minus B B' st st' N q :
  buddy_inv resv B st -> buddy_inv resv B' st' -> used_plus B B' N -> free_page B q -> q ∉ N -> free_page B' q.
Proof.
  intros Hi Hi' Hu Hq Hn. destruct (free_or_used B' st' q Hi') as [|Hq']; [by apply (free_range B st)|done|].
  apply (in_use_plus B B' N q Hu) in Hq' as [Hq'|]; [|done]. by destruct (free_not_used B st q Hi Hq).
Qed.

Record grown (B : blocks) (st : buddy) (B' : blocks) (st' : buddy) (N A : list Z) : Prop := {
  gr_used : used_plus B B' N;
  gr_free : forall q, q ∈ N -> free_page B q;
  gr_nodup : NoDup N;
  gr_count : forall q, in_use B q ->
    refcount (frame_at st' q) mod 2 ^ 32 = (refcount (frame_at st q) + refs q A) mod 2 ^ 32;
  gr_range : forall q, in_use B q -> 0 <= refcount (frame_at st q) < 2 ^ 32 -> 0 <= refcount (frame_at st' q) < 2 ^ 32;
  gr_new : forall q, q ∈ N -> refcount (frame_at st' q) = 1;
  gr_owner : forall q, in_use B q -> state (frame_at st' q) = state (frame_at st q);
  gr_fresh : forall q, q ∈ N -> state (frame_at st' q) = PAGE_BUDDY;
  gr_quads : forall m q, quad m B q -> q ∉ N -> quad m B' q;
  gr_cold : forall q, q ∈ N -> q mod 512 <> 0;
}.

Lemma grown_refl B st : grown B st B st [] [].
Proof.
  split; try by intros; rewrite ?Z.add_0_r.
  - intros p o. rewrite elem_of_nil. tauto.
  - intros q H. by apply elem_of_nil in H.
  - constructor.
  - intros q H. by apply elem_of_nil in H.
  - intros q H. by apply elem_of_nil in H.
  - intros q H. by apply elem_of_nil in H.
Qed.

Lemma used_plus_trans B B1 B2 N1 N2 : used_plus B B1 N1 -> used_plus B1 B2 N2 -> used_plus B B2 (N1 ++ N2).
Proof. intros H1 H2 p o. rewrite (H2 p o), (H1 p o), elem_of_app. tauto. Qed.

Lemma grown_trans B st B1 st1 B2 st2 N1 A1 N2 A2 :
  buddy_inv resv B st -> buddy_inv resv B1 st1 -> (forall a, a ∈ A2 -> in_use B a) ->
  grown B st B1 st1 N1 A1 -> grown B1 st1 B2 st2 N2 A2 -> grown B st B2 st2 (N1 ++ N2) (A1 ++ A2).
Proof.
  intros Hi Hi1 HA G1 G2.
  assert (Hin1 : forall q, in_use B q -> in_use B1 q).
  { intros q Hq. apply (in_use_plus B B1 N1 q (gr_used _ _ _ _ _ _ G1)). by left. }
  assert (HN1 : forall q, q ∈ N1 -> in_use B1 q).
  { intros q Hq. apply (in_use_plus B B1 N1 q (gr_used _ _ _ _ _ _ G1)). by right. }
  split.
  - eapply used_plus_trans; by eapply gr_used.
  - intros q [Hq|Hq]%elem_of_app; [by apply (gr_free _ _ _ _ _ _ G1)|].
    eapply free_page_mono; [exact Hi|exact Hi1|by eapply gr_used|by apply (gr_free _ _ _ _ _ _ G2)].
  - apply NoDup_app. split; [by eapply gr_nodup|]. split; [|by eapply gr_nodup]. intros q Hq Hq2.
    apply (free_not_used B1 st1 q Hi1); [by apply (gr_free _ _ _ _ _ _ G2)|by apply HN1].
  - intros q Hq. rewrite (gr_count _ _ _ _ _ _ G2 q) by auto. rewrite refs_app.
    rewrite Z.add_mod, (gr_count _ _ _ _ _ _ G1 q), <- Z.add_mod by (done || lia). f_equal. lia.
  - intros q Hq Hr. apply (gr_range _ _ _ _ _ _ G2); [auto|]. by apply (gr_range _ _ _ _ _ _ G1).
  - intros q [Hq|Hq]%elem_of_app; [|by apply (gr_new _ _ _ _ _ _ G2)].
    pose proof (gr_new _ _ _ _ _ _ G1 q Hq) as H1.
    pose proof (gr_count _ _ _ _ _ _ G2 q (HN1 q Hq)) as Hc.
    pose proof (gr_range _ _ _ _ _ _ G2 q (HN1 q Hq) ltac:(rewrite H1; lia)) as Hr.
    rewrite (refs_notin q A2), H1 in Hc.
    2: { intros Ha%HA. apply (free_not_used B st q Hi); [by apply (gr_free _ _ _ _ _ _ G1)|done]. }
    rewrite Z.mod_small in Hc by done. rewrite Hc. done.
  - intros q Hq. rewrite (gr_owner _ _ _ _ _ _ G2) by auto. by apply (gr_owner _ _ _ _ _ _ G1).
  - intros q [Hq|Hq]%elem_of_app; [|by apply (gr_fresh _ _ _ _ _ _ G2)].
    rewrite (gr_owner _ _ _ _ _ _ G2) by auto. by apply (gr_fresh _ _ _ _ _ _ G1).
  - intros m q Hq [Hn1 Hn2]%not_elem_of_app. apply (gr_quads _ _ _ _ _ _ G2); [|done]. by apply (gr_quads _ _ _ _ _ _ G1).
  - intros q [Hq|Hq]%elem_of_app; [by apply (gr_cold _ _ _ _ _ _ G1)|by apply (gr_cold _ _ _ _ _ _ G2)].
Qed.

(** The count of a page in use, when it does not overflow. *)
Lemma grown_count B st B' st' N A q : grown B st B' st' N A -> in_use B q ->
  0 <= refcount (frame_at st q) -> refcount (frame_at st q) + refs q A < 2 ^ 32 ->
  refcount (frame_at st' q) = refcount (frame_at st q) + refs q A.
Proof.
  intros G Hq H0 H1. pose proof (refs_nonneg q A). pose proof (gr_count _ _ _ _ _ _ G q Hq) as Hc.
  pose proof (gr_range _ _ _ _ _ _ G q Hq ltac:(lia)) as Hr.
  rewrite !Z.mod_small in Hc by lia. done.
Qed.

(** The first page of a 2 MiB block of the memory that the allocator hands out. *)
Definition hot (q : Z) : Prop := resv <= q /\ q mod 512 = 0.

(** The free blocks of an order below [m] hold [k] pages or more, none of them
    hot.  While they last, no other block is split. *)
Definition stock (m : Z) (B : blocks) (k : nat) : Prop :=
  (exists L, NoDup L /\ (k <= length L)%nat /\ forall q, q ∈ L -> small m B q) /\ forall q, small m B q -> ~ hot q.

Lemma stock_less m B k k' : stock m B k -> (k' <= k)%nat -> stock m B k'.
Proof. intros [(L & Hn & Hk & Hf) Hc] Hle. split; [|done]. exists L. split; [done|]. split; [lia|done]. Qed.

(** A block below order [m] is taken while there is one that is large enough. *)
Lemma alloc_stock m B st r p B' st' q o : alloc_post resv B st r p B' st' -> B !! q = Some (o, false) -> r <= o -> o < m ->
  (forall a, small m B' a <-> small m B a /\ ~ (p <= a < p + 2 ^ r)) /\ forall a, p <= a < p + 2 ^ r -> small m B a.
Proof.
  intros HP Hq Hr Ho. destruct (ap_least _ _ _ _ _ _ _ HP) as (cur & Hp & Hrc & Hmin & Hs). specialize (Hmin q o Hq Hr).
  split; [intros a; apply Hs; lia|]. intros a Ha. exists p, cur. split; [done|]. split; [lia|].
  destruct (Z.le_gt_cases 0 r); [pose proof (pow2_le r cur ltac:(lia)); lia|].
  rewrite Z.pow_neg_r in Ha by lia. lia.
Qed.

(** After boot the last pages of memory make the stock: the blocks of less than
    2 MiB lie behind the last whole 2 MiB. *)
Lemma boot_stock B st : buddy_inv resv B st -> resv <= NPAGES ->
  (forall p o u, B !! p = Some (o, u) <-> laid_out 19 (NPAGES - resv) p o u) ->
  stock 9 B (Z.to_nat ((NPAGES - resv) mod 512)).
Proof.
  intros Hi Hr HB. set (a := NPAGES - resv) in *. change 512 with (2 ^ 9).
  pose proof (Z.mod_pos_bound a (2 ^ 9) ltac:(done)) as Ha.
  assert (Hsm : forall q, small 9 B q -> NPAGES - a mod 2 ^ 9 <= q < NPAGES).
  { intros q (p & o & (_ & Ho & Hb & ->)%HB & Ho9 & Hq). rewrite mod_pow2_step, Hb in Hq by lia.
    pose proof (Z.mod_pos_bound a (2 ^ o) (pow2_pos o ltac:(lia))).
    pose proof (mod_pow2_le a (o + 1) 9 ltac:(lia)) as Hle. rewrite (mod_pow2_step a o), Hb in Hle by lia. lia. }
  split; [|intros q Hq%Hsm [_ Hh]; consts; change (2 ^ 9) with 512 in *; zdiv].
  exists (seqZ (NPAGES - a mod 2 ^ 9) (a mod 2 ^ 9)). split; [apply NoDup_seqZ|]. split; [by rewrite length_seqZ|].
  intros q Hq%elem_of_seqZ. assert (Hq2 : resv <= q < NPAGES).
  { assert (a mod 2 ^ 9 <= a) by (apply Z.mod_le; lia). lia. }
  destruct (bw_cover _ _ (bi_wf _ _ _ Hi) q Hq2) as (p & o & u & Hp & Hin). pose proof Hp as Hp'.
  apply HB in Hp' as (-> & Ho & Hb & ->). exists (NPAGES - a mod 2 ^ (o + 1)), o. split; [done|]. split; [|done].
  apply Z.nle_gt. intros Ho9. rewrite mod_pow2_step, Hb in Hin by lia.
  pose proof (mod_pow2_le a 9 o ltac:(lia)). lia.
Qed.

(** A single page is allocated. *)
Lemma alloc_page_ok m B st k :
  buddy_inv resv B st -> stock m B (S k) ->
  exists n st' B', buddy_alloc PAGE_SIZE st = Ok (page_va n, st') /\ buddy_inv resv B' st' /\
    grown B st B' st' [n] [] /\ stock m B' k /\ resv <= n < NPAGES /\ 0 <= n /\ ~ hot n.
Proof.
  intros Hi [(L & Hnd & Hlen & HL) Hcold].
  destruct L as [|x L]; [cbn in Hlen; lia|].
  destruct (HL x (list_elem_of_here x L)) as (px & ox & Hpx & Hox & _).
  pose proof (block_range _ _ _ _ _ _ Hi Hpx) as (Hpr & Hpr').
  destruct (buddy_alloc_ok resv PAGE_SIZE B st Hi) as [[_ Hno]|(n & st' & B' & E & HP)]; [done| |].
  { apply Hno in Hpx as Hlt. pose proof (block_range _ _ _ _ _ _ Hi Hpx). change (order_for PAGE_SIZE) with 0 in Hlt. lia. }
  change (order_for PAGE_SIZE) with 0 in HP.
  destruct (alloc_stock m B st 0 n B' st' px ox HP Hpx ltac:(lia) Hox) as [Hst Hnsm]. change (2 ^ 0) with 1 in Hst, Hnsm.
  specialize (Hnsm n ltac:(lia)). destruct HP as [Hi' Hnew Hfresh Hused Hkept Hone Hown Hquads _].
  pose proof (block_range _ _ _ _ _ _ Hi' Hnew) as (_ & Hr1 & Hr2 & Hr3 & _). change (2 ^ 0) with 1 in *.
  assert (Hu : used_plus B B' [n]).
  { intros p o. rewrite list_elem_of_singleton. destruct (decide (p = n)) as [->|Hne].
    - rewrite Hnew. split; [intros [= <-]; tauto|]. intros [H|[_ ->]]; [by apply Hfresh in H|done].
    - rewrite Hused by done. tauto. }
  assert (Hnf : free_page B n).
  { destruct (free_or_used B st n Hi) as [|(p & o & Hp & Hq)]; [lia|done|]. exfalso.
    assert (Hp' : B' !! p = Some (o, true)) by (apply Hu; by left).
    pose proof (block_disjoint _ _ _ _ _ _ _ _ n (bi_wf _ _ _ Hi') Hp' Hnew Hq ltac:(change (2 ^ 0) with 1; lia)) as ->.
    by apply Hfresh in Hp. }
  exists n, st', B'. split; [done|]. split; [done|]. split; [|split; [split; [|intros q [Hq _]%Hst; by apply Hcold]|split; [lia|split; [lia|by apply Hcold]]]].
  - split; [done| | | | | | | | |].
    + intros q ->%list_elem_of_singleton. done.
    + apply NoDup_singleton.
    + intros q (p & o & Hp & Hq). rewrite (Hkept p o q Hp Hq), Z.add_0_r. done.
    + intros q (p & o & Hp & Hq). by rewrite (Hkept p o q Hp Hq).
    + intros q ->%list_elem_of_singleton. done.
    + intros q (p & o & Hp & Hq). by rewrite (Hkept p o q Hp Hq).
    + intros q ->%list_elem_of_singleton. apply Hown. change (2 ^ 0) with 1. lia.
    + intros o q Hq Hn. apply Hquads; [done|done|]. by rewrite list_elem_of_singleton in Hn.
    + intros q ->%list_elem_of_singleton E0. by apply (Hcold n Hnsm).
  - exists (filter (fun q => q <> n) (x :: L)). split; [by apply NoDup_filter|]. split.
    + assert (Hp : (x :: L) ≡ₚ filter (fun q => q = n) (x :: L) ++ filter (fun q => q <> n) (x :: L)).
      { clear. induction (x :: L) as [|y l IH]; [done|]. rewrite !filter_cons. repeat case_decide; subst; try done.
        - cbn. by constructor.
        - rewrite <- Permutation_middle. by constructor. }
      apply Permutation_length in Hp. rewrite length_app in Hp.
      assert (length (filter (fun q => q = n) (x :: L)) <= 1)%nat; [|lia].
      clear -Hnd. induction Hnd as [|y l Hy Hl IH]; [cbn; lia|]. rewrite filter_cons. case_decide as Hd; [|done]. subst y.
      replace (filter (fun q => q = n) l) with ([] : list Z); [cbn; lia|]. symmetry.
      apply elem_of_nil_inv. intros q [-> Hq]%list_elem_of_filter. done.
    + intros q [Hn Hq]%list_elem_of_filter. apply Hst. split; [by apply HL|lia].
Qed.

(** [pf->refcount++] on a page in use. *)
Lemma inc_ref_ok B st a :
  buddy_inv resv B st -> in_use B a ->
  exists st', upd_frame a (fun f => set_refcount (u32 (refcount f + 1)) f) st = Ok st' /\ buddy_inv resv B st' /\
    grown B st B st' [] [a].
Proof.
  intros Hi Ha. pose proof (used_range B st a Hi Ha) as Hr. pose proof Hi as [Hr0 Hw Hf Hl].
  destruct (upd_frame_ok a (fun f => set_refcount (u32 (refcount f + 1)) f) st) as (st' & E & N & F); [lia|].
  exists st'. split; [done|].
  assert (HF : forall q, state (frame_at st' q) = state (frame_at st q) /\ flags (frame_at st' q) = flags (frame_at st q) /\
    order (frame_at st' q) = order (frame_at st q)).
  { intros q. rewrite F. case_decide; [subst|]; done. }
  split.
  - split; [done|done| |by rewrite N]. split.
    + intros p o u Hp. destruct (fo_head _ _ _ Hf _ _ _ Hp). destruct (HF p) as (E1 & E2 & E3). unfold head_ok. rewrite E1, E2, E3. done.
    + intros p o u q Hp Hq. destruct (fo_tail _ _ _ Hf _ _ _ q Hp Hq). destruct (HF q) as (E1 & E2 & E3).
      unfold tail_ok. rewrite E1, E2, E3. done.
    + intros q Hq. rewrite F, decide_False by lia. by apply (fo_resv _ _ _ Hf).
  - split.
    + intros p o. rewrite elem_of_nil. tauto.
    + intros q Hq. by apply elem_of_nil in Hq.
    + constructor.
    + intros q Hq. rewrite F. cbn [refs]. case_decide as Hd.
      * subst q. rewrite Z.eqb_refl. cbn [refcount set_refcount]. unfold u32, wrap. rewrite Z.mod_mod by done. f_equal; lia.
      * rewrite (proj2 (Z.eqb_neq a q)) by done. f_equal. lia.
    + intros q Hq Hq'. rewrite F. case_decide; [|done]. cbn [refcount set_refcount]. by apply (wrap_range 32).
    + intros q Hq. by apply elem_of_nil in Hq.
    + intros q Hq. by destruct (HF q).
    + intros q Hq. by apply elem_of_nil in Hq.
    + by intros m q.
    + intros q Hq. by apply elem_of_nil in Hq.
Qed.
End use.

Arguments gr_used {B st B' st' N A} _.
Arguments gr_free {B st B' st' N A} _ q _.
Arguments gr_nodup {B st B' st' N A} _.
Arguments gr_count {B st B' st' N A} _ q _.
Arguments gr_range {B st B' st' N A} _ q _ _.
Arguments gr_new {B st B' st' N A} _ q _.
Arguments gr_owner {B st B' st' N A} _ q _.
Arguments gr_fresh {B st B' st' N A} _ q _.
Arguments gr_cold {B st B' st' N A} _ q _.
Arguments gr_quads {B st B' st' N A} _ m q _ _.
