(* ===== verification/Pq.v ===== *)
(** * The binary heap of [utils/datastructures/pq.c]

    [heap] is the array of [size] nodes, of which the first [items] are live.
    An array access outside [heap] is [UB].  The two loops carry fuel, the
    number of live nodes, which the theorems show to be enough. *)
From Stdlib Require Import ZifyNat Sorted.
From S2P Require Import Prelude.

Record pqnode_t := PqNode { priority : Z; element : Z }.

Record pq_t := Pq {
  heap : list pqnode_t;    (* [size] nodes *)
  items : nat;
}.

Definition size (pq : pq_t) : nat := length (heap pq).

Definition PARENT (i : nat) : nat := ((i - 1) / 2)%nat.
Definition LCHILD (i : nat) : nat := (2 * i + 1)%nat.
Definition RCHILD (i : nat) : nat := (2 * i + 2)%nat.

Definition heap_get (h : list pqnode_t) (i : nat) : res pqnode_t := deref (h !! i).

Definition heap_set (h : list pqnode_t) (i : nat) (x : pqnode_t) : res (list pqnode_t) :=
  if (i <? length h)%nat then Ok (<[i := x]> h) else UB.

Definition _pq_swap (h : list pqnode_t) (idx1 idx2 : nat) : res (list pqnode_t) :=
  temp ← heap_get h idx1;
  b ← heap_get h idx2;
  h ← heap_set h idx1 b;
  heap_set h idx2 temp.

(** [heap[i].priority < heap[j].priority] *)
Definition prio_lt (h : list pqnode_t) (i j : nat) : res bool :=
  a ← heap_get h i; b ← heap_get h j; Ok (priority a <? priority b).

Fixpoint _pq_sink (fuel : nat) (n : nat) (h : list pqnode_t) (idx : nat) : res (list pqnode_t) :=
  match fuel with
  | O => Fuel
  | S fuel =>
      let lchild := LCHILD idx in
      let rchild := RCHILD idx in
      let largest := idx in
      b ← (if (lchild <? n)%nat then prio_lt h lchild largest else Ok false);
      let largest := if b : bool then lchild else largest in
      b ← (if (rchild <? n)%nat then prio_lt h rchild largest else Ok false);
      let largest := if b : bool then rchild else largest in
      if (largest =? idx)%nat then Ok h
      else h ← _pq_swap h idx largest; _pq_sink fuel n h largest
  end.

Fixpoint _pq_swim (fuel : nat) (h : list pqnode_t) (idx : nat) : res (list pqnode_t) :=
  match fuel with
  | O => Fuel
  | S fuel =>
      if (0 <? idx)%nat then
        let parent_idx := PARENT idx in
        p ← heap_get h parent_idx;
        x ← heap_get h idx;
        if priority p <=? priority x then Ok h
        else h ← _pq_swap h parent_idx idx; _pq_swim fuel h parent_idx
      else Ok h
  end.

Definition pq_add (pq : pq_t) (priority element : Z) : res pq_t :=
  if (size pq <=? items pq)%nat then Ok pq
  else
    h ← heap_set (heap pq) (items pq) (PqNode priority element);
    h ← _pq_swim (S (items pq)) h (items pq);
    Ok (Pq h (items pq + 1)).

Definition pq_pop (pq : pq_t) : res (pqnode_t * pq_t) :=
  if (items pq =? 0)%nat then Ok (PqNode 0 0, pq)
  else
    node ← heap_get (heap pq) 0;
    h ← _pq_swap (heap pq) 0 (items pq - 1);
    let items := (items pq - 1)%nat in
    h ← _pq_sink (S items) items h 0;
    Ok (node, Pq h items).

Definition pq_peek (pq : pq_t) : res pqnode_t := heap_get (heap pq) 0.

(** ** The heap order *)

Definition pr (h : list pqnode_t) (i : nat) : Z :=
  match h !! i with Some x => priority x | None => 0 end.

Definition live (pq : pq_t) : list pqnode_t := take (items pq) (heap pq).

(** Every live node is at least as large as its parent. *)
Definition heap_ordered (h : list pqnode_t) (n : nat) : Prop :=
  forall i, (0 < i < n)%nat -> pr h (PARENT i) <= pr h i.

Record pq_inv (pq : pq_t) : Prop := {
  pi_items : (items pq <= size pq)%nat;
  pi_order : heap_ordered (heap pq) (items pq);
}.

Ltac ndiv := unfold PARENT, LCHILD, RCHILD in *; zify; Z.to_euclidean_division_equations; lia.

Lemma heap_get_ok h i : (i < length h)%nat -> exists x, heap_get h i = Ok x /\ h !! i = Some x /\ priority x = pr h i.
Proof.
  intros Hi. destruct (lookup_lt_is_Some_2 h i Hi) as [x Hx]. exists x.
  unfold heap_get, pr. rewrite Hx. done.
Qed.

Lemma swap_ok h i j :
  (i < length h)%nat -> (j < length h)%nat ->
  exists h', _pq_swap h i j = Ok h' /\ length h' = length h /\
    (forall k, h' !! k = if decide (k = i) then h !! j else if decide (k = j) then h !! i else h !! k).
Proof.
  intros Hi Hj. unfold _pq_swap.
  destruct (heap_get_ok h i Hi) as (x & -> & Ex & _). destruct (heap_get_ok h j Hj) as (y & -> & Ey & _).
  cbn [mbind res_bind]. unfold heap_set. rewrite (proj2 (Nat.ltb_lt _ _) Hi). cbn [mbind res_bind].
  rewrite length_insert, (proj2 (Nat.ltb_lt _ _) Hj). eexists. split; [done|].
  split; [by rewrite !length_insert|].
  intros k. repeat case_decide; subst.
  - destruct (decide (i = j)) as [->|Hne]; [rewrite list_lookup_insert_eq by (rewrite length_insert; lia); congruence|].
    rewrite list_lookup_insert_ne, list_lookup_insert_eq by (done || lia). done.
  - rewrite list_lookup_insert_eq by (rewrite length_insert; lia). done.
  - rewrite !list_lookup_insert_ne by done. done.
Qed.

Lemma swap_pr h h' i j k :
  (forall k, h' !! k = if decide (k = i) then h !! j else if decide (k = j) then h !! i else h !! k) ->
  pr h' k = if decide (k = i) then pr h j else if decide (k = j) then pr h i else pr h k.
Proof. intros H. unfold pr. rewrite H. by repeat case_decide. Qed.

Lemma swap_pr3 h h' i j :
  (forall k, h' !! k = if decide (k = i) then h !! j else if decide (k = j) then h !! i else h !! k) ->
  i <> j ->
  pr h' i = pr h j /\ pr h' j = pr h i /\ forall k, k <> i -> k <> j -> pr h' k = pr h k.
Proof.
  intros H Hne. split_and!; [| |intros k H1 H2]; rewrite (swap_pr _ _ _ _ _ H); by repeat case_decide.
Qed.

(** Swapping two live nodes permutes the live nodes. *)
Lemma swap_perm (h h' : list pqnode_t) n i j :
  (i < n)%nat -> (j < n)%nat -> (n <= length h)%nat -> length h' = length h ->
  (forall k, h' !! k = if decide (k = i) then h !! j else if decide (k = j) then h !! i else h !! k) ->
  take n h' ≡ₚ take n h.
Proof.
  intros Hi Hj Hn Hlen H. apply Permutation_inj. split; [rewrite !length_take; lia|].
  exists (fun k => if decide (k = i) then j else if decide (k = j) then i else k). split.
  - intros a b. repeat case_decide; congruence.
  - intros k. destruct (decide (k < n)%nat) as [Hk|Hk].
    + rewrite lookup_take_lt, H by done. repeat case_decide; rewrite lookup_take_lt by lia; done.
    + rewrite lookup_take_ge by lia. repeat case_decide; subst; try lia. by rewrite lookup_take_ge by lia.
Qed.

(** ** Swimming up *)

(** The order holds except between [idx] and its parent. *)
Definition swim_inv (h : list pqnode_t) (n idx : nat) : Prop :=
  (forall i, (0 < i < n)%nat -> i <> idx -> pr h (PARENT i) <= pr h i) /\
  (forall i, (0 < i < n)%nat -> PARENT i = idx -> (0 < idx)%nat -> pr h (PARENT idx) <= pr h i).

Lemma swim_ok fuel h n idx :
  (idx < n)%nat -> (n <= length h)%nat -> (idx < fuel)%nat -> swim_inv h n idx ->
  exists h', _pq_swim fuel h idx = Ok h' /\ length h' = length h /\ heap_ordered h' n /\ take n h' ≡ₚ take n h.
Proof.
  revert h idx. induction fuel as [|fuel IH]; intros h idx Hidx Hn Hf [H1 H2]; [lia|]. cbn [_pq_swim].
  destruct (Nat.ltb_spec 0 idx) as [Hp|Hp].
  - assert (Hpar : (PARENT idx < idx)%nat) by ndiv.
    destruct (heap_get_ok h (PARENT idx)) as (p & -> & _ & Ep); [lia|].
    destruct (heap_get_ok h idx) as (x & -> & _ & Ex); [lia|].
    cbn [mbind res_bind]. rewrite Ep, Ex. destruct (Z.leb_spec (pr h (PARENT idx)) (pr h idx)) as [Hle|Hgt].
    + exists h. split; [done|]. split; [done|]. split; [|done]. intros i Hi.
      destruct (decide (i = idx)) as [->|]; [done|by apply H1].
    + destruct (swap_ok h (PARENT idx) idx) as (h1 & -> & Hl1 & HS); [lia|lia|]. cbn [mbind res_bind].
      destruct (swap_pr3 _ _ _ _ HS ltac:(lia)) as (HP & HI & HO).
      destruct (IH h1 (PARENT idx)) as (h2 & -> & Hl2 & Ho & Hperm); [lia|lia|lia| |].
      * split; intros i Hi Hi2.
        -- destruct (decide (i = idx)) as [->|Hne]; [rewrite HP, HI; lia|].
           rewrite (HO i) by done. pose proof (H1 i Hi Hne).
           destruct (decide (PARENT i = PARENT idx)) as [Heq|]; [rewrite Heq in *; rewrite HP; lia|].
           destruct (decide (PARENT i = idx)) as [Heq|]; [rewrite Heq, HI; by apply H2|].
           by rewrite HO.
        -- intros Hpp. assert (PARENT (PARENT idx) < PARENT idx)%nat by ndiv.
           pose proof (H1 (PARENT idx) ltac:(lia) ltac:(lia)).
           rewrite (HO (PARENT (PARENT idx))) by lia.
           destruct (decide (i = idx)) as [->|Hne]; [rewrite HI; lia|].
           pose proof (H1 i Hi Hne) as Hi1. rewrite Hi2 in Hi1. rewrite HO by (done || ndiv). lia.
      * exists h2. split; [done|]. split; [lia|]. split; [done|]. rewrite Hperm.
        apply (swap_perm _ _ _ (PARENT idx) idx); done || lia.
  - exists h. split; [done|]. split; [done|]. split; [|done]. intros i Hi. apply H1; lia.
Qed.

(** ** Sinking down *)

(** The order holds except between [idx] and its children. *)
Definition sink_inv (h : list pqnode_t) (n idx : nat) : Prop :=
  (forall i, (0 < i < n)%nat -> PARENT i <> idx -> pr h (PARENT i) <= pr h i) /\
  (forall i, (0 < i < n)%nat -> PARENT i = idx -> (0 < idx)%nat -> pr h (PARENT idx) <= pr h i).

Lemma prio_lt_ok h i j :
  (i < length h)%nat -> (j < length h)%nat -> prio_lt h i j = Ok (pr h i <? pr h j).
Proof.
  intros Hi Hj. unfold prio_lt. destruct (heap_get_ok h i Hi) as (x & -> & _ & <-).
  by destruct (heap_get_ok h j Hj) as (y & -> & _ & <-).
Qed.

Lemma sink_step h n idx :
  (n <= length h)%nat -> (idx < length h)%nat ->
  exists b1 b2 : bool,
    (if (LCHILD idx <? n)%nat then prio_lt h (LCHILD idx) idx else Ok false) = Ok b1 /\
    (if (RCHILD idx <? n)%nat then prio_lt h (RCHILD idx) (if b1 then LCHILD idx else idx) else Ok false) = Ok b2 /\
    let m := if b2 then RCHILD idx else if b1 then LCHILD idx else idx in
    (forall i, (0 < i < n)%nat -> PARENT i = idx -> pr h m <= pr h i) /\
    (m <> idx -> (idx < m < n)%nat /\ PARENT m = idx /\ pr h m < pr h idx).
Proof.
  intros Hn Hidx.
  assert (Hch : forall i, (0 < i)%nat -> PARENT i = idx -> i = LCHILD idx \/ i = RCHILD idx) by (intros; ndiv).
  assert (HL : PARENT (LCHILD idx) = idx) by ndiv. assert (HR : PARENT (RCHILD idx) = idx) by ndiv.
  assert (HLi : (idx < LCHILD idx)%nat) by ndiv. assert (HRi : (LCHILD idx < RCHILD idx)%nat) by ndiv.
  set (L := LCHILD idx) in *. set (R := RCHILD idx) in *. clearbody L R.
  exists ((L <? n)%nat && (pr h L <? pr h idx)).
  set (b1 := (L <? n)%nat && (pr h L <? pr h idx)).
  assert (E1 : (if (L <? n)%nat then prio_lt h L idx else Ok false) = Ok b1).
  { unfold b1. destruct (Nat.ltb_spec L n); [rewrite prio_lt_ok by lia|]; done. }
  set (m1 := if b1 then L else idx).
  exists ((R <? n)%nat && (pr h R <? pr h m1)). split; [done|]. split.
  { destruct (Nat.ltb_spec R n); [rewrite prio_lt_ok; [done|lia|]|done]. unfold m1. destruct b1; lia. }
  unfold m1, b1 in *. clear E1 m1 b1. cbv zeta.
  destruct (Nat.ltb_spec L n); cbn [andb]; [destruct (Z.ltb_spec (pr h L) (pr h idx))|].
  all: destruct (Nat.ltb_spec R n); cbn [andb]; [try destruct (Z.ltb_spec (pr h R) (pr h L));
    try destruct (Z.ltb_spec (pr h R) (pr h idx))|]; try lia.
  all: split; [intros i Hi Hpi; destruct (Hch i) as [->| ->]; lia|intros; lia].
Qed.

Lemma sink_ok fuel h n idx :
  (n <= length h)%nat -> (idx < length h)%nat -> (n - idx < fuel)%nat -> sink_inv h n idx ->
  exists h', _pq_sink fuel n h idx = Ok h' /\ length h' = length h /\ heap_ordered h' n /\ take n h' ≡ₚ take n h.
Proof.
  revert h idx. induction fuel as [|fuel IH]; intros h idx Hn Hidx Hf [H1 H2]; [lia|].
  cbn [_pq_sink]. cbv zeta.
  destruct (sink_step h n idx Hn Hidx) as (b1 & b2 & -> & E2 & Hmin & Hm). cbn [mbind res_bind].
  rewrite E2. cbn [mbind res_bind]. clear E2.
  set (m := if b2 then RCHILD idx else if b1 then LCHILD idx else idx) in *. clearbody m.
  destruct (Nat.eqb_spec m idx) as [->|Hne].
  - exists h. split; [done|]. split; [done|]. split; [|done]. intros i Hi.
    destruct (decide (PARENT i = idx)) as [Hp|]; [rewrite Hp; by apply Hmin|by apply H1].
  - destruct (Hm Hne) as (Hmn & Hpm & Hlt).
    destruct (swap_ok h idx m) as (h1 & -> & Hl1 & HS); [lia|lia|]. cbn [mbind res_bind].
    destruct (swap_pr3 _ _ _ _ HS ltac:(lia)) as (HI & HM & HO).
    destruct (IH h1 m) as (h2 & -> & Hl2 & Ho & Hperm); [lia|lia|lia| |].
    + split; intros i Hi Hi2.
      * destruct (decide (i = idx)) as [->|Hni].
        { rewrite HI. assert (PARENT idx <> idx) by ndiv. rewrite HO by done. apply H2; [lia|done|lia]. }
        destruct (decide (i = m)) as [->|Hnm]; [rewrite Hpm, HI, HM; lia|]. rewrite (HO i) by done.
        destruct (decide (PARENT i = idx)) as [Hp|Hp]; [rewrite Hp, HI; by apply Hmin|].
        rewrite HO by done. by apply H1.
      * intros _. rewrite Hpm, HI. assert (i <> idx) by ndiv. assert (i <> m) by ndiv.
        rewrite HO by done. rewrite <- Hi2. apply H1; [done|]. lia.
    + exists h2. split; [done|]. split; [lia|]. split; [done|]. rewrite Hperm.
      apply (swap_perm _ _ _ idx m); done || lia.
Qed.

(** ** The operations *)

Lemma pq_add_ok pq p e :
  pq_inv pq -> (items pq < size pq)%nat ->
  exists pq', pq_add pq p e = Ok pq' /\ pq_inv pq' /\ size pq' = size pq /\
    items pq' = S (items pq) /\ live pq' ≡ₚ PqNode p e :: live pq.
Proof.
  intros [Hi Ho] Hlt. unfold pq_add, size in *. rewrite (proj2 (Nat.leb_gt _ _) Hlt).
  unfold heap_set. rewrite (proj2 (Nat.ltb_lt _ _) Hlt). cbn [mbind res_bind].
  set (n := items pq) in *. set (h := <[n := PqNode p e]> (heap pq)).
  assert (Hl : length h = length (heap pq)) by apply length_insert.
  assert (Hpr : forall k, k <> n -> pr h k = pr (heap pq) k).
  { intros k Hk. unfold pr, h. by rewrite list_lookup_insert_ne. }
  destruct (swim_ok (S n) h (n + 1) n) as (h' & -> & Hl' & Ho' & Hperm); [lia|lia|lia| |].
  { split; intros i Hii Hi2.
    - rewrite !Hpr by ndiv. apply Ho. lia.
    - ndiv. }
  cbn [mbind res_bind]. exists (Pq h' (n + 1)). split; [done|]. split; [split; cbn; unfold size; cbn; [lia|done]|].
  split; [cbn; lia|]. split; [cbn; lia|]. unfold live. cbn [items heap]. rewrite Hperm.
  replace (n + 1)%nat with (S n) by lia.
  rewrite (take_S_r h n (PqNode p e)).
  - unfold h. rewrite take_insert_ge by lia. fold n. apply Permutation_app_comm.
  - unfold h. apply list_lookup_insert_eq. lia.
Qed.

Lemma heap_min h n i : heap_ordered h n -> (i < n)%nat -> pr h 0 <= pr h i.
Proof.
  intros Ho. induction i as [i IH] using lt_wf_ind. intros Hi.
  destruct (decide (i = 0%nat)) as [->|]; [done|].
  assert (PARENT i < i)%nat by ndiv. pose proof (Ho i ltac:(lia)). pose proof (IH (PARENT i) ltac:(lia) ltac:(lia)). lia.
Qed.

(** The root is a least element. *)
Lemma peek_ok pq :
  pq_inv pq -> (0 < items pq)%nat ->
  exists x, pq_peek pq = Ok x /\ x ∈ live pq /\ forall y, y ∈ live pq -> priority x <= priority y.
Proof.
  intros [Hi Ho] Hn. unfold size in Hi. destruct (heap_get_ok (heap pq) 0) as (x & E & Ex & Hx); [lia|].
  exists x. split; [done|]. split.
  - apply list_elem_of_lookup_2 with 0%nat. unfold live. by rewrite lookup_take_lt.
  - intros y Hy. apply list_elem_of_lookup in Hy as [i Hy]. unfold live in Hy.
    apply lookup_take_Some in Hy as [Hy Hlt]. pose proof (heap_min _ _ i Ho Hlt) as Hmin.
    unfold pr in Hmin at 2. rewrite Hy in Hmin. lia.
Qed.

Lemma pq_pop_ok pq :
  pq_inv pq -> (0 < items pq)%nat ->
  exists x pq', pq_pop pq = Ok (x, pq') /\ pq_inv pq' /\ size pq' = size pq /\ S (items pq') = items pq /\
    live pq ≡ₚ x :: live pq' /\ forall y, y ∈ live pq -> priority x <= priority y.
Proof.
  intros Hinv Hn. destruct (peek_ok pq Hinv Hn) as (x & E & _ & Hmin). destruct Hinv as [Hi Ho].
  unfold pq_peek in E. unfold pq_pop, size in *.
  rewrite (proj2 (Nat.eqb_neq _ _)) by lia. rewrite E. cbn [mbind res_bind].
  set (n := items pq) in *. set (h := heap pq) in *.
  destruct (swap_ok h 0 (n - 1)) as (h1 & -> & Hl1 & HS); [lia|lia|]. cbn [mbind res_bind].
  assert (Hx : h1 !! (n - 1)%nat = Some x).
  { unfold heap_get in E. destruct (h !! 0%nat) eqn:E0; [|discriminate]. cbn in E.
    rewrite HS. repeat case_decide; [|congruence|lia]. replace (n - 1)%nat with 0%nat by lia. congruence. }
  destruct (sink_ok (S (n - 1)) h1 (n - 1) 0) as (h2 & -> & Hl2 & Ho2 & Hperm); [lia|lia|lia| |].
  { split; [|lia]. intros i Hi1 Hi2. rewrite !(swap_pr _ _ _ _ _ HS). repeat case_decide; try ndiv.
    - apply Ho. lia. }
  cbn [mbind res_bind]. exists x, (Pq h2 (n - 1)). split; [done|]. split; [split; cbn; unfold size; cbn; [lia|done]|].
  split; [cbn; lia|]. split; [cbn; lia|]. split; [|done].
  unfold live. cbn [items heap]. fold n h. rewrite Hperm.
  rewrite <- (swap_perm h h1 n 0 (n - 1)) by (done || lia).
  replace n with (S (n - 1)) at 1 by lia. rewrite (take_S_r h1 (n - 1) x) by done.
  apply Permutation_app_comm.
Qed.

(** ** Draining the queue *)

(** [n] calls of [pq_pop]. *)
Fixpoint pop_n (n : nat) (pq : pq_t) : res (list pqnode_t * pq_t) :=
  match n with
  | O => Ok ([], pq)
  | S n =>
      '(x, pq) ← pq_pop pq;
      '(xs, pq) ← pop_n n pq;
      Ok (x :: xs, pq)
  end.

Lemma pop_n_ok n pq :
  pq_inv pq -> items pq = n ->
  exists xs pq', pop_n n pq = Ok (xs, pq') /\ items pq' = 0%nat /\ xs ≡ₚ live pq /\
    StronglySorted (fun a b => priority a <= priority b) xs.
Proof.
  revert pq. induction n as [|n IH]; intros pq Hinv Hn.
  - exists [], pq. split; [done|]. split; [done|]. unfold live. rewrite Hn. split; [done|constructor].
  - destruct (pq_pop_ok pq Hinv) as (x & pq1 & E & Hinv1 & _ & Hit & Hperm & Hmin); [lia|].
    destruct (IH pq1 Hinv1) as (xs & pq2 & E2 & H0 & Hp2 & Hs); [lia|].
    cbn [pop_n]. rewrite E. cbn [mbind res_bind]. rewrite E2. cbn [mbind res_bind].
    exists (x :: xs), pq2. split; [done|]. split; [done|]. split; [by rewrite Hp2|].
    constructor; [done|]. apply Forall_forall. intros y Hy. apply Hmin. rewrite Hperm. right. by rewrite <- Hp2.
Qed.
