(* ===== verification/Timer.v ===== *)
(** * Timers and sleeping processes ([utils/timer.c])

    The sleep queue is a heap of absolute deadlines; the virtual timer, when it
    is enabled, fires at the deadline stored in it.  [reschedule] is the
    scheduler's entry point, an argument of the handler. *)
From S2P Require Import Prelude Pq.

Definition MAX_PROCESSES : nat := 64.
Definition CLOCKHZ : Z := 1000000.

(** ** The system timer's registers *)

Record timer_regs := TimerRegs {
  control_status : Z;
  counter_lo : Z;
  counter_hi : Z;
  compare : list Z;      (* four registers *)
}.

Definition SYS_TIMER_IRQ_1 : Z := 2.
Definition SYS_TIMER_IRQ_3 : Z := 8.

Definition interval_1 : Z := u32 CLOCKHZ.
Definition interval_3 : Z := u32 (CLOCKHZ / 4).

Definition set_compare (i : nat) (v : Z) (r : timer_regs) : timer_regs :=
  TimerRegs (control_status r) (counter_lo r) (counter_hi r) (<[i := v]> (compare r)).
Definition ack (bits : Z) (r : timer_regs) : timer_regs :=
  TimerRegs (Z.lor (control_status r) bits) (counter_lo r) (counter_hi r) (compare r).

(** [lo1] and [lo3] are the two readings of the free-running counter; the
    result is [curr_val_1], [curr_val_3] and the registers. *)
Definition timer_init (lo1 lo3 : Z) (r : timer_regs) : Z * Z * timer_regs :=
  let curr_val_1 := u32 (lo1 + interval_1) in
  let r := set_compare 1 curr_val_1 r in
  let curr_val_3 := u32 (lo3 + interval_3) in
  let r := set_compare 3 curr_val_3 r in
  (curr_val_1, curr_val_3, r).

Definition handle_timer_1 (curr_val_1 : Z) (r : timer_regs) : Z * timer_regs :=
  let curr_val_1 := u32 (curr_val_1 + interval_1) in
  (curr_val_1, ack SYS_TIMER_IRQ_1 (set_compare 1 curr_val_1 r)).

Definition handle_timer_3 (curr_val_3 : Z) (r : timer_regs) : Z * timer_regs :=
  let curr_val_3 := u32 (curr_val_3 + interval_3) in
  (curr_val_3, ack SYS_TIMER_IRQ_3 (set_compare 3 curr_val_3 r)).

(** The counter is read up to five times; [c i] is its 64-bit value at the
    [i]-th read. *)
Definition hi32 (v : Z) : Z := Z.shiftr v 32.
Definition lo32 (v : Z) : Z := u32 v.

Definition timer_get_ticks (c : nat -> Z) : Z :=
  let hi := hi32 (c 0%nat) in
  let lo := lo32 (c 1%nat) in
  let '(hi, lo) := (if negb (hi =? hi32 (c 2%nat)) then (hi32 (c 3%nat), lo32 (c 4%nat)) else (hi, lo)) in
  Z.lor (u64 (Z.shiftl hi 32)) lo.

(** ** The sleep queue *)

Record sleepers := Sleepers {
  sleep_timer_queue : pq_t;
  vtimer : option Z;        (* CNTV_CVAL_EL0 when the timer is enabled *)
}.

Definition sleep_init : sleepers :=
  Sleepers (Pq (replicate MAX_PROCESSES (PqNode 0 0)) 0) None.

(** The deadline of a request made when the virtual counter reads [now]. *)
Definition deadline (nanoseconds now : Z) : Z :=
  u64 (u64 (nanoseconds * CLOCKHZ) / 1000000000 + now).

Definition timer_nanosleep (nanoseconds now current : Z) (t : sleepers) : res sleepers :=
  let timer_request := deadline nanoseconds now in
  q ← pq_add (sleep_timer_queue t) timer_request current;
  node ← pq_peek q;
  Ok (Sleepers q (Some (priority node))).

Definition handle_virtual_timer {S} (reschedule : Z -> S -> res S) (t : sleepers) (s : S) : res (sleepers * S) :=
  '(node, q) ← pq_pop (sleep_timer_queue t);
  s ← reschedule (element node) s;
  if negb (items q =? 0)%nat then
    top ← pq_peek q;
    Ok (Sleepers q (Some (priority top)), s)
  else Ok (Sleepers q None, s).

(** A sleep of about five hours: the product overflows and the deadline is now. *)
Lemma deadline_wraps : deadline 18446744073710 0 = 0.
Proof. reflexivity. Qed.

(** ** The queue's contract *)

(** The virtual timer is armed for the earliest deadline, or off when nobody
    sleeps. *)
Definition armed (t : sleepers) : Prop :=
  match vtimer t with
  | None => items (sleep_timer_queue t) = 0%nat
  | Some d => (exists x, x ∈ live (sleep_timer_queue t) /\ priority x = d) /\
      forall x, x ∈ live (sleep_timer_queue t) -> d <= priority x
  end.

Record sleep_inv (t : sleepers) : Prop := {
  si_queue : pq_inv (sleep_timer_queue t);
  si_armed : armed t;
}.

Lemma sleep_init_ok : sleep_inv sleep_init /\ size (sleep_timer_queue sleep_init) = MAX_PROCESSES.
Proof. split; [split; [split; cbn; [lia|intros i Hi; lia]|done]|done]. Qed.

(** [pq_add] puts a node into a queue that has room, keeps the heap order
    and the nodes that were there; a full queue is left as it is, the node
    dropped. *)
Lemma pq_add_refines pq p e :
  pq_inv pq ->
  (size pq = items pq -> pq_add pq p e = Ok pq) /\
  ((items pq < size pq)%nat -> exists pq', pq_add pq p e = Ok pq' /\ pq_inv pq' /\
    size pq' = size pq /\ live pq' ≡ₚ PqNode p e :: live pq).
Proof.
  intros Hi. split.
  - intros E. unfold pq_add. by rewrite (proj2 (Nat.leb_le _ _)) by lia.
  - intros Hlt. destruct (pq_add_ok pq p e Hi Hlt) as (pq' & ? & ? & ? & _ & ?). eauto.
Qed.

Lemma pq_add_refines_witness :
  let pq := sleep_timer_queue sleep_init in
  pq_inv pq /\ exists pq', pq_add pq 7 3 = Ok pq' /\ pq_inv pq' /\ live pq' ≡ₚ [PqNode 7 3].
Proof.
  cbv zeta. destruct sleep_init_ok as [[Hq _] Hs]. split; [exact Hq|].
  destruct (proj2 (pq_add_refines _ 7 3 Hq)) as (pq' & E & Hi & _ & Hp); [rewrite Hs; cbn; unfold MAX_PROCESSES; lia|].
  exists pq'. split; [exact E|]. split; [exact Hi|]. exact Hp.
Defined.

(** Popping a heap as often as it has nodes yields exactly its nodes, in
    order of priority: the earliest deadline first. *)
Lemma pq_drains_sorted pq :
  pq_inv pq ->
  exists xs pq', pop_n (items pq) pq = Ok (xs, pq') /\ items pq' = 0%nat /\ xs ≡ₚ live pq /\
    Sorted.StronglySorted (fun a b => priority a <= priority b) xs.
Proof. intros Hi. by apply pop_n_ok. Qed.

Definition heap_example : pq_t := Pq [PqNode 1 10; PqNode 4 20; PqNode 2 30; PqNode 9 40] 4.

Lemma heap_example_ok : pq_inv heap_example.
Proof.
  split; [cbn; lia|]. intros i Hi. cbn in Hi.
  destruct i as [|[|[|[|i]]]]; try lia; vm_compute; discriminate.
Qed.

Lemma pq_drains_sorted_witness :
  exists xs pq', pop_n (items heap_example) heap_example = Ok (xs, pq') /\ items pq' = 0%nat /\
    xs ≡ₚ live heap_example /\ Sorted.StronglySorted (fun a b => priority a <= priority b) xs.
Proof. apply (pq_drains_sorted heap_example). apply heap_example_ok. Defined.

(** C32: the sleep queue's invariant - heap order, and the virtual timer armed
    for the earliest deadline or off when nobody sleeps - is kept by
    [timer_nanosleep] while the queue has room and by the timer interrupt when
    somebody sleeps; the interrupt wakes a process whose deadline is earliest
    and takes only it off the queue. *)
Theorem sleep_queue_invariant {S} (reschedule : Z -> S -> res S) t ns now current s :
  sleep_inv t ->
  ((items (sleep_timer_queue t) < size (sleep_timer_queue t))%nat ->
    exists t', timer_nanosleep ns now current t = Ok t' /\ sleep_inv t' /\
      live (sleep_timer_queue t') ≡ₚ PqNode (deadline ns now) current :: live (sleep_timer_queue t)) /\
  ((0 < items (sleep_timer_queue t))%nat ->
    exists x t', live (sleep_timer_queue t) ≡ₚ x :: live (sleep_timer_queue t') /\ sleep_inv t' /\
      (forall y, y ∈ live (sleep_timer_queue t) -> priority x <= priority y) /\
      handle_virtual_timer reschedule t s = (s ← reschedule (element x) s; Ok (t', s))).
Proof.
  intros [Hq Ha]. destruct t as [q v]. cbn [sleep_timer_queue vtimer] in *. split.
  - intros Hlt. destruct (pq_add_ok q (deadline ns now) current Hq Hlt) as (q' & E & Hq' & _ & Hn & Hp).
    destruct (peek_ok q' Hq') as (x & Ex & Hx & Hmin); [lia|].
    unfold timer_nanosleep. cbn [sleep_timer_queue]. rewrite E. cbn [mbind res_bind].
    rewrite Ex. cbn [mbind res_bind]. eexists. split; [done|]. split; [|done]. split; [done|].
    split; [by exists x|done].
  - intros Hn. destruct (pq_pop_ok q Hq Hn) as (x & q' & E & Hq' & _ & Hit & Hp & Hmin).
    unfold handle_virtual_timer. cbn [sleep_timer_queue]. rewrite E. cbn [mbind res_bind].
    destruct (Nat.eqb_spec (items q') 0) as [H0|H0]; cbn [negb].
    + exists x, (Sleepers q' None). split; [done|]. split; [split; done|]. split; [done|].
      by destruct (reschedule (element x) s).
    + destruct (peek_ok q' Hq') as (y & Ey & Hy & Hmy); [lia|].
      exists x, (Sleepers q' (Some (priority y))). split; [done|].
      split; [split; [done|split; [by exists y|done]]|]. split; [done|].
      rewrite Ey. by destruct (reschedule (element x) s).
Qed.

Lemma sleep_queue_invariant_witness : exists t1 t2 : sleepers,
  timer_nanosleep 5000 100 42 sleep_init = Ok t1 /\ sleep_inv t1 /\ vtimer t1 = Some 105 /\
  handle_virtual_timer (fun p s => Ok (p :: s)) t1 [] = Ok (t2, [42]) /\ sleep_inv t2.
Proof.
  destruct sleep_init_ok as [Hi Hs].
  destruct (proj1 (sleep_queue_invariant (fun p s => Ok (p :: s)) sleep_init 5000 100 42 [] Hi))
    as (t1 & E1 & Hi1 & Hp); [rewrite Hs; cbn; unfold MAX_PROCESSES; lia|].
  pose proof E1 as E1'. vm_compute in E1'. simplify_eq.
  destruct (proj2 (sleep_queue_invariant (fun p s => Ok (p :: s)) _ 0 0 0 [] Hi1))
    as (x & t2 & Hp2 & Hi2 & _ & E2); [vm_compute; lia|].
  eexists _, t2. split; [exact E1|]. split; [exact Hi1|]. split; [reflexivity|]. split; [|exact Hi2].
  rewrite E2. assert (Hx : x ∈ [PqNode 105 42]) by (apply (elem_of_Permutation_proper x _ _ Hp2); left).
  apply list_elem_of_singleton in Hx as ->. reflexivity.
Defined.

(** [timer_get_ticks] reads the two halves of a running 64-bit counter one
    after the other; when the counter moves by less than [2 ^ 32] meanwhile, the
    result is a value the counter held during the call, also across a carry into
    the upper half. *)
Lemma timer_get_ticks_linear (c : nat -> Z) :
  (forall i, 0 <= c i < 2 ^ 64) -> (forall i, c i <= c (S i)) -> c 4%nat - c 0%nat < 2 ^ 32 ->
  exists i, (i <= 4)%nat /\ timer_get_ticks c = c i.
Proof.
  intros Hr Hm Hd.
  assert (Hval : forall a b, 0 <= a < 2 ^ 64 -> 0 <= b < 2 ^ 64 -> hi32 a = hi32 b ->
    Z.lor (u64 (Z.shiftl (hi32 a) 32)) (lo32 b) = b).
  { intros a b Ha Hb E. rewrite E. unfold hi32, lo32, u32, wrap.
    rewrite <- Z.land_ones by lia. rewrite u64_small.
    - apply Z.bits_inj'. intros n Hn. rewrite Z.lor_spec, Z.land_spec.
      destruct (Z.lt_ge_cases n 32).
      + rewrite Z.shiftl_spec_low, Z.ones_spec_low by lia. by rewrite andb_true_r.
      + rewrite Z.shiftl_spec, Z.shiftr_spec, Z.ones_spec_high by lia.
        rewrite andb_false_r, orb_false_r. f_equal. lia.
    - rewrite Z.shiftl_mul_pow2, Z.shiftr_div_pow2 by lia.
      change (2 ^ 32) with 4294967296. change (2 ^ 64) with 18446744073709551616 in *. zdiv. }
  pose proof (Hm 0%nat); pose proof (Hm 1%nat); pose proof (Hm 2%nat); pose proof (Hm 3%nat).
  unfold timer_get_ticks. unfold hi32 at 1 2. rewrite !Z.shiftr_div_pow2 by lia.
  change (2 ^ 32) with 4294967296 in *.
  destruct (Z.eqb_spec (c 0%nat / 4294967296) (c 2%nat / 4294967296)) as [E|E]; cbn [negb].
  - exists 1%nat. split; [lia|]. apply Hval; [done|done|]. unfold hi32. rewrite !Z.shiftr_div_pow2 by lia.
    change (2 ^ 32) with 4294967296. zdiv.
  - exists 4%nat. split; [lia|]. apply Hval; [done|done|]. unfold hi32. rewrite !Z.shiftr_div_pow2 by lia.
    change (2 ^ 32) with 4294967296. zdiv.
Qed.

Lemma timer_get_ticks_linear_witness :
  exists i, (i <= 4)%nat /\ timer_get_ticks (fun i => 0xFFFFFFFE + Z.of_nat (i `min` 4)) = 0xFFFFFFFE + Z.of_nat (i `min` 4).
Proof.
  apply (timer_get_ticks_linear (fun i => 0xFFFFFFFE + Z.of_nat (i `min` 4)));
    [intros i; change (2 ^ 64) with 18446744073709551616|intros i|change (2 ^ 32) with 4294967296]; lia.
Defined.
