(* ===== verification/Mem.v ===== *)
(** * Byte memory: [memcpy] and [memset] ([memory/mem.c], [memory/mem.S])

    Memory is a function from addresses to bytes.  The three NEON routines are
    do-while loops over 16-byte vectors: each loads a vector, stores it and only
    then tests its count. *)
From S2P Require Import Prelude.

Definition mem : Type := Z -> Z.

Definition store8 (a v : Z) (m : mem) : mem := fun x => if x =? a then v else m x.

(** A 16-byte vector register. *)
Definition ld1 (m : mem) (a : Z) : list Z := map (fun i => m (a + i)) (seqZ 0 16).
Definition st1 (v : list Z) (a : Z) (m : mem) : mem :=
  fun x => if (a <=? x) && (x <? a + 16) then default 0 (v !! Z.to_nat (x - a)) else m x.

Definition copy16 (dest src : Z) (m : mem) : mem := st1 (ld1 m src) dest m.

(** [subs x2, x2, #1; b.gt]: a count of 0 or 1 means one iteration. *)
Fixpoint _neon_16_memcpy (x2 : nat) (dest src : Z) (m : mem) : mem :=
  let m := copy16 dest src m in
  match x2 with
  | S (S _ as n) => _neon_16_memcpy n (dest + 16) (src + 16) m
  | _ => m
  end.

Fixpoint _neon_64_memcpy (x2 : nat) (dest src : Z) (m : mem) : mem :=
  let m := copy16 dest src m in
  let m := copy16 (dest + 16) (src + 16) m in
  let m := copy16 (dest + 32) (src + 32) m in
  let m := copy16 (dest + 48) (src + 48) m in
  match x2 with
  | S (S _ as n) => _neon_64_memcpy n (dest + 64) (src + 64) m
  | _ => m
  end.

Fixpoint _neon_8_memset (x2 : nat) (buf byte : Z) (m : mem) : mem :=
  let m := st1 (replicate 16 byte) buf m in
  match x2 with
  | S (S _ as n) => _neon_8_memset n (buf + 16) byte m
  | _ => m
  end.

(** [for(i = 0; i < n; i++) cdest[i] = csrc[i];] *)
Fixpoint copy_loop (n : nat) (i dest src : Z) (m : mem) : mem :=
  match n with
  | O => m
  | S n => copy_loop n (i + 1) dest src (store8 (dest + i) (m (src + i)) m)
  end.

Fixpoint set_loop (n : nat) (i ptr v : Z) (m : mem) : mem :=
  match n with
  | O => m
  | S n => set_loop n (i + 1) ptr v (store8 (ptr + i) v m)
  end.

Definition memcpy (dest src bytes : Z) (m : mem) : mem :=
  let bytes := u32 bytes in
  let copy_iters := bytes / 64 in
  let m := if negb (copy_iters =? 0) then _neon_64_memcpy (Z.to_nat copy_iters) dest src m else m in
  let dest := dest + copy_iters * 64 in
  let src := src + copy_iters * 64 in
  let remaining_bytes := bytes mod 64 in
  let copy_iters := remaining_bytes / 16 in
  let m := if negb (copy_iters =? 0) then _neon_16_memcpy (Z.to_nat copy_iters) dest src m else m in
  let dest := dest + copy_iters * 16 in
  let src := src + copy_iters * 16 in
  let remaining_bytes := remaining_bytes mod 16 in
  copy_loop (Z.to_nat remaining_bytes) 0 dest src m.

Definition memset (ptr value len : Z) (m : mem) : mem :=
  let tail := len mod 16 in
  let vectors := len / 16 in
  let m := _neon_8_memset (Z.to_nat vectors) ptr (u8 value) m in
  set_loop (Z.to_nat tail) 0 (ptr + vectors * 16) (u8 value) m.

(** A word in memory, least significant byte first. *)
Definition store32 (a v : Z) (m : mem) : mem :=
  store8 (a + 3) (u8 (Z.shiftr v 24)) (store8 (a + 2) (u8 (Z.shiftr v 16))
    (store8 (a + 1) (u8 (Z.shiftr v 8)) (store8 a (u8 v) m))).
Definition load32 (a : Z) (m : mem) : Z :=
  u8 (m a) + 2 ^ 8 * u8 (m (a + 1)) + 2 ^ 16 * u8 (m (a + 2)) + 2 ^ 24 * u8 (m (a + 3)).

(** ** What they do *)

(** [m'] is [m] with the [n] bytes at [d] replaced by those [m] has at [s]. *)
Definition copied (d s n : Z) (m m' : mem) : Prop :=
  forall x, m' x = if (d <=? x) && (x <? d + n) then m (s + (x - d)) else m x.

(** Copying upwards is safe when the ranges are apart or the destination is
    not above the source. *)
Definition copy_safe (d s n : Z) : Prop := d <= s \/ s + n <= d.

Ltac zbool := repeat match goal with
  | |- context [(?a <=? ?b)] => destruct (Z.leb_spec a b)
  | |- context [(?a <? ?b)] => destruct (Z.ltb_spec a b)
  | |- context [(?a =? ?b)] => destruct (Z.eqb_spec a b)
  end; cbn [andb orb negb].

Lemma ld1_lookup m a i : 0 <= i < 16 -> default 0 (ld1 m a !! Z.to_nat i) = m (a + i).
Proof.
  intros Hi. unfold ld1. rewrite list_lookup_fmap, lookup_seqZ_lt by lia. cbn.
  f_equal. lia.
Qed.

Lemma copy16_ok d s m : copied d s 16 m (copy16 d s m).
Proof. intros x. unfold copy16, st1. zbool; try done. rewrite ld1_lookup by lia. done. Qed.

Lemma copied_app d s n1 n2 m m1 m2 :
  0 <= n1 -> 0 <= n2 -> copy_safe d s (n1 + n2) ->
  copied d s n1 m m1 -> copied (d + n1) (s + n1) n2 m1 m2 -> copied d s (n1 + n2) m m2.
Proof.
  intros H1 H2 Hs C1 C2 x. rewrite C2, C1. unfold copy_safe in Hs.
  zbool; rewrite ?C1; zbool; try lia; f_equal; lia.
Qed.

Lemma copied_0 d s m : copied d s 0 m m.
Proof. intros x. zbool; done || lia. Qed.

Lemma copy_loop_ok n d s m :
  copy_safe d s (Z.of_nat n) -> forall i, copied (d + i) (s + i) (Z.of_nat n) m (copy_loop n i d s m).
Proof.
  revert m. induction n as [|n IH]; intros m Hs i; cbn [copy_loop]; [apply copied_0|].
  replace (Z.of_nat (S n)) with (1 + Z.of_nat n) in * by lia.
  eapply copied_app; [lia|lia|unfold copy_safe in *; lia| |].
  - intros x. unfold store8. instantiate (1 := store8 (d + i) (m (s + i)) m). unfold store8.
    zbool; try lia; subst; f_equal; lia.
  - rewrite <- !Z.add_assoc. apply IH. unfold copy_safe in *. lia.
Qed.

Lemma neon_16_ok n d s m :
  copy_safe d s (16 * Z.of_nat (S n)) -> copied d s (16 * Z.of_nat (S n)) m (_neon_16_memcpy (S n) d s m).
Proof.
  revert d s m. induction n as [|n IH]; intros d s m Hs.
  - change (_neon_16_memcpy 1 d s m) with (copy16 d s m). apply copy16_ok.
  - change (_neon_16_memcpy (S (S n)) d s m) with (_neon_16_memcpy (S n) (d + 16) (s + 16) (copy16 d s m)).
    replace (16 * Z.of_nat (S (S n))) with (16 + 16 * Z.of_nat (S n)) in * by lia.
    eapply copied_app; [lia|lia|done|apply copy16_ok|]. apply IH. unfold copy_safe in *. lia.
Qed.

Lemma copy64_ok d s m :
  copy_safe d s 64 ->
  copied d s 64 m (copy16 (d + 48) (s + 48) (copy16 (d + 32) (s + 32) (copy16 (d + 16) (s + 16) (copy16 d s m)))).
Proof.
  intros Hs. unfold copy_safe in Hs.
  apply (copied_app d s 48 16 m (copy16 (d + 32) (s + 32) (copy16 (d + 16) (s + 16) (copy16 d s m))));
    [lia|lia|unfold copy_safe; lia| |apply copy16_ok].
  apply (copied_app d s 32 16 m (copy16 (d + 16) (s + 16) (copy16 d s m)));
    [lia|lia|unfold copy_safe; lia| |apply copy16_ok].
  apply (copied_app d s 16 16 m (copy16 d s m)); [lia|lia|unfold copy_safe; lia| |]; apply copy16_ok.
Qed.

Lemma neon_64_ok n d s m :
  copy_safe d s (64 * Z.of_nat (S n)) -> copied d s (64 * Z.of_nat (S n)) m (_neon_64_memcpy (S n) d s m).
Proof.
  revert d s m. induction n as [|n IH]; intros d s m Hs.
  - apply copy64_ok. unfold copy_safe in *. lia.
  - replace (64 * Z.of_nat (S (S n))) with (64 + 64 * Z.of_nat (S n)) in * by lia.
    eapply copied_app; [lia|lia|done|apply copy64_ok; unfold copy_safe in *; lia|].
    apply IH. unfold copy_safe in *. lia.
Qed.

Lemma memcpy_ok d s n m :
  0 <= n < 2 ^ 32 -> copy_safe d s n -> copied d s n m (memcpy d s n m).
Proof.
  intros Hn Hs. change (2 ^ 32) with 4294967296 in Hn. unfold memcpy. rewrite u32_small by lia. cbv zeta.
  assert (E : n = 64 * (n / 64) + (16 * (n mod 64 / 16) + n mod 64 mod 16)) by zdiv.
  set (a := n / 64) in *. set (b := n mod 64 / 16) in *. set (c := n mod 64 mod 16) in *.
  assert (0 <= a /\ 0 <= b /\ 0 <= c) by (unfold a, b, c; zdiv). clearbody a b c. subst n.
  unfold copy_safe in Hs. rewrite (Z.mul_comm a 64), (Z.mul_comm b 16).
  set (m1 := if negb (a =? 0) then _neon_64_memcpy (Z.to_nat a) d s m else m).
  assert (C1 : copied d s (64 * a) m m1).
  { unfold m1. destruct (Z.eqb_spec a 0) as [->|]; cbn [negb]; [apply copied_0|].
    destruct (Z.to_nat a) as [|k] eqn:Ek; [lia|]. replace a with (Z.of_nat (S k)) by lia.
    apply neon_64_ok. unfold copy_safe. lia. }
  set (m2 := if negb (b =? 0) then _neon_16_memcpy (Z.to_nat b) (d + 64 * a) (s + 64 * a) m1 else m1).
  assert (C2 : copied (d + 64 * a) (s + 64 * a) (16 * b) m1 m2).
  { unfold m2. destruct (Z.eqb_spec b 0) as [->|]; cbn [negb]; [apply copied_0|].
    destruct (Z.to_nat b) as [|k] eqn:Ek; [lia|]. replace b with (Z.of_nat (S k)) by lia.
    apply neon_16_ok. unfold copy_safe. lia. }
  eapply copied_app; [lia|lia|unfold copy_safe; lia|exact C1|].
  eapply copied_app; [lia|lia|unfold copy_safe; lia|exact C2|].
  pose proof (copy_loop_ok (Z.to_nat c) (d + 64 * a + 16 * b) (s + 64 * a + 16 * b) m2) as H3.
  rewrite Z2Nat.id in H3 by lia. specialize (H3 ltac:(unfold copy_safe; lia) 0). by rewrite !Z.add_0_r in H3.
Qed.

Definition filled (d n v : Z) (m m' : mem) : Prop :=
  forall x, m' x = if (d <=? x) && (x <? d + n) then v else m x.

Lemma st1_replicate v d m : filled d 16 v m (st1 (replicate 16 v) d m).
Proof. intros x. unfold st1. zbool; try done. rewrite lookup_replicate_2 by lia. done. Qed.

Lemma neon_set_ok n d v m : filled d (16 * Z.max 1 (Z.of_nat n)) v m (_neon_8_memset n d v m).
Proof.
  revert d m. induction n as [|[|n] IH]; intros d m; [apply st1_replicate|apply st1_replicate|].
  change (_neon_8_memset (S (S n)) d v m) with (_neon_8_memset (S n) (d + 16) v (st1 (replicate 16 v) d m)).
  intros x. rewrite (IH _ _ x), (st1_replicate v d m x). zbool; lia || done.
Qed.

Lemma set_loop_ok n i d v m : filled (d + i) (Z.of_nat n) v m (set_loop n i d v m).
Proof.
  revert i m. induction n as [|n IH]; intros i m x; cbn [set_loop]; [zbool; lia || done|].
  rewrite (IH _ _ x). unfold store8. zbool; lia || done.
Qed.

Lemma memset_ok d v n m : 0 <= n -> filled d (Z.max 16 n) (u8 v) m (memset d v n m).
Proof.
  intros Hn x. unfold memset. rewrite (set_loop_ok _ _ _ _ _ x), (neon_set_ok _ _ _ _ x).
  assert (E : n = 16 * (n / 16) + n mod 16) by zdiv. assert (0 <= n mod 16 < 16) by zdiv.
  assert (0 <= n / 16) by zdiv. rewrite !Z2Nat.id by lia.
  set (q := n / 16) in *. set (r := n mod 16) in *. clearbody q r. zbool; lia || done.
Qed.

(** [memcpy] copies exactly the bytes asked for and changes nothing else,
    whatever the split into 64-byte, 16-byte and single-byte steps, as long as
    the two ranges are apart or the destination is not above the source - the
    latter is how the console scrolls its frame buffer. *)
Lemma memcpy_copies dest src n m x :
  0 <= n < 2 ^ 32 -> dest <= src \/ src + n <= dest ->
  memcpy dest src n m x = if (dest <=? x) && (x <? dest + n) then m (src + (x - dest)) else m x.
Proof. intros Hn Hs. by apply memcpy_ok. Qed.

Lemma memcpy_copies_witness :
  memcpy 1000 1003 100 (fun x => x mod 251) 1098 = (1101 mod 251) /\
  memcpy 1000 1003 100 (fun x => x mod 251) 1100 = (1100 mod 251).
Proof.
  rewrite (memcpy_copies 1000 1003 100 (fun x => x mod 251) 1098), (memcpy_copies 1000 1003 100 (fun x => x mod 251) 1100);
    [split; reflexivity|change (2 ^ 32) with 4294967296; lia|lia|change (2 ^ 32) with 4294967296; lia|lia].
Defined.

(** [memset] writes the byte to [max 16 len] bytes: the vector loop runs
    once even when [len] is below 16, so a short fill overruns its buffer. *)
Lemma memset_overruns ptr v len m x :
  0 <= len ->
  memset ptr v len m x = if (ptr <=? x) && (x <? ptr + Z.max 16 len) then u8 v else m x.
Proof. intros Hn. by apply memset_ok. Qed.

Lemma memset_overruns_witness :
  memset 1000 0 3 (fun _ => 7) 1010 = 0 /\ memset 1000 0 3 (fun _ => 7) 1016 = 7.
Proof.
  rewrite (memset_overruns 1000 0 3 (fun _ => 7) 1010), (memset_overruns 1000 0 3 (fun _ => 7) 1016) by lia.
  split; reflexivity.
Defined.

(** ** Words *)

Lemma load_store32 a v m : 0 <= v < 2 ^ 32 -> load32 a (store32 a v m) = v.
Proof.
  intros Hv. unfold load32, store32, store8.
  rewrite !Z.eqb_refl, !(proj2 (Z.eqb_neq _ _)) by lia.
  unfold u8, wrap. rewrite !Z.shiftr_div_pow2 by lia.
  change (2 ^ 8) with 256. change (2 ^ 16) with 65536. change (2 ^ 24) with 16777216. change (2 ^ 32) with 4294967296 in Hv.
  zdiv.
Qed.

Lemma load32_same a m m' : (forall x, a <= x < a + 4 -> m' x = m x) -> load32 a m' = load32 a m.
Proof. intros E. unfold load32. by rewrite !E by lia. Qed.

Lemma store32_below a v m x : x < a -> store32 a v m x = m x.
Proof. intros. unfold store32, store8. by rewrite !(proj2 (Z.eqb_neq x _)) by lia. Qed.

Lemma store32_other a v m x : ~ (a <= x < a + 4) -> store32 a v m x = m x.
Proof. intros. unfold store32, store8. by rewrite !(proj2 (Z.eqb_neq x _)) by lia. Qed.
