(* ===== verification/KString.v ===== *)
(** * C strings and the small utilities of [utils/utils.c]

    A C string is read from byte memory up to its NUL; the scanning loops carry
    fuel, one more than the string's length being enough. *)
From S2P Require Import Prelude Mem.

(** [num >> ret]: a shift by 64 or more is undefined. *)
Fixpoint log2_loop (fuel : nat) (num ret : Z) : res Z :=
  match fuel with
  | O => Fuel
  | S fuel =>
      if 64 <=? ret then UB
      else if negb (Z.shiftr num ret =? 0) then log2_loop fuel num (ret + 1)
      else Ok (ret - 1)
  end.

Definition log2_pow2 (num : Z) : res Z :=
  if num =? 0 then Ok 0 else log2_loop 66 num 0.

(** Returns 1 when the strings differ, 0 when they are equal. *)
Fixpoint strcmp (fuel : nat) (m : mem) (str1 str2 : Z) : res Z :=
  match fuel with
  | O => Fuel
  | S fuel =>
      if negb (m str1 =? 0) && negb (m str2 =? 0) then
        if negb (m str1 =? m str2) then Ok 1 else strcmp fuel m (str1 + 1) (str2 + 1)
      else Ok (if (m str1 =? 0) && (m str2 =? 0) then 0 else 1)
  end.

Fixpoint strlen_loop (fuel : nat) (m : mem) (str s : Z) : res Z :=
  match fuel with
  | O => Fuel
  | S fuel => if negb (m s =? 0) then strlen_loop fuel m str (s + 1) else Ok (s32 (s - str))
  end.

Definition strlen (fuel : nat) (m : mem) (str : Z) : res Z := strlen_loop fuel m str str.

Fixpoint skip_delim (fuel : nat) (m : mem) (delim s : Z) : res Z :=
  match fuel with
  | O => Fuel
  | S fuel => if m s =? delim then skip_delim fuel m delim (s + 1) else Ok s
  end.

(** The matching loop: the memory, [*saveptr] and the token. *)
Fixpoint tok_loop (fuel : nat) (m : mem) (delim token s : Z) : res (mem * Z * Z) :=
  match fuel with
  | O => Fuel
  | S fuel =>
      let c := m s in
      if negb (c =? 0) then
        if c =? delim then Ok (store8 s 0 m, s + 1, token)
        else tok_loop fuel m delim token (s + 1)
      else Ok (m, s, token)
  end.

(** [strtok(str, delim, saveptr)]: the memory, [*saveptr] and the token or NULL. *)
Definition strtok (fuel : nat) (m : mem) (str delim saveptr : Z) : res (mem * Z * Z) :=
  let s := if negb (str =? 0) then str else saveptr in
  if s =? 0 then Ok (m, saveptr, 0)
  else
    s ← skip_delim fuel m delim s;
    if m s =? 0 then Ok (m, s, 0)
    else tok_loop fuel m delim s s.

(** ** Strings in memory *)

Fixpoint cstr (m : mem) (a : Z) (s : list Z) : Prop :=
  match s with
  | [] => m a = 0
  | c :: s => c <> 0 /\ m a = c /\ cstr m (a + 1) s
  end.

Lemma cstr_ext m m' a s :
  (forall x, a <= x <= a + Z.of_nat (length s) -> m' x = m x) -> cstr m a s -> cstr m' a s.
Proof.
  revert a. induction s as [|c s IH]; intros a H; cbn [cstr length] in *; [rewrite H by lia; done|].
  intros (Hc & Ha & Hs). split; [done|]. split; [rewrite H by lia; done|]. apply IH; [|done].
  intros x Hx. apply H. lia.
Qed.

Lemma strlen_loop_ok fuel m str a s :
  cstr m a s -> (length s < fuel)%nat ->
  strlen_loop fuel m str a = Ok (s32 (a + Z.of_nat (length s) - str)).
Proof.
  revert fuel a. induction s as [|c s IH]; intros [|fuel] a Hs Hf; cbn [length] in *; try lia; cbn [strlen_loop].
  - cbn in Hs. rewrite Hs. cbn. do 2 f_equal. lia.
  - destruct Hs as (Hc & Ha & Hs). rewrite Ha, (proj2 (Z.eqb_neq _ _) Hc). cbn [negb].
    rewrite (IH fuel (a + 1) Hs) by lia. do 2 f_equal. lia.
Qed.

Lemma strcmp_ok fuel m a b s t :
  cstr m a s -> cstr m b t -> (length s < fuel)%nat ->
  strcmp fuel m a b = Ok (if decide (s = t) then 0 else 1).
Proof.
  revert fuel a b t. induction s as [|c s IH]; intros [|fuel] a b t Hs Ht Hf; cbn [length] in *; try lia;
    cbn [strcmp]; destruct t as [|d t].
  - cbn in Hs, Ht. rewrite Hs, Ht. done.
  - cbn in Hs. destruct Ht as (Hd & Hb & _). rewrite Hs, Hb. cbn [Z.eqb negb andb].
    by rewrite (proj2 (Z.eqb_neq _ _) Hd).
  - cbn in Ht. destruct Hs as (Hc & Ha & _). rewrite Ht, Ha. rewrite (proj2 (Z.eqb_neq _ _) Hc). done.
  - destruct Hs as (Hc & Ha & Hs), Ht as (Hd & Hb & Ht). rewrite Ha, Hb.
    rewrite (proj2 (Z.eqb_neq _ _) Hc), (proj2 (Z.eqb_neq _ _) Hd). cbn [negb andb].
    destruct (Z.eqb_spec c d) as [->|Hne]; cbn [negb].
    + rewrite (IH fuel _ _ t Hs Ht) by lia. f_equal. repeat case_decide; congruence.
    + case_decide; congruence.
Qed.

Lemma log2_loop_ok fuel num ret :
  0 < num < 2 ^ 63 -> 0 <= ret <= Z.log2 num + 1 -> (Z.to_nat (65 - ret) <= fuel)%nat ->
  log2_loop fuel num ret = Ok (Z.log2 num).
Proof.
  intros Hn. assert (Hl : Z.log2 num < 63) by (apply Z.log2_lt_pow2; lia).
  revert ret. induction fuel as [|fuel IH]; intros ret Hr Hf; [lia|]. cbn [log2_loop].
  rewrite (proj2 (Z.leb_gt 64 ret)) by lia.
  destruct (decide (ret = Z.log2 num + 1)) as [->|Hne].
  - rewrite Z.shiftr_eq_0 by lia. cbn. f_equal. lia.
  - destruct (Z.eqb_spec (Z.shiftr num ret) 0) as [E|E]; cbn [negb].
    + exfalso. apply Z.shiftr_eq_0_iff in E as [?|[_ ?]]; lia.
    + apply IH; lia.
Qed.

Lemma log2_pow2_pow o : 0 <= o < 63 -> log2_pow2 (2 ^ o) = Ok o.
Proof.
  intros Ho. unfold log2_pow2. pose proof (pow2_pos o ltac:(lia)). pose proof (pow2_lt o 63 ltac:(lia)).
  rewrite (proj2 (Z.eqb_neq _ _)) by lia.
  rewrite (log2_loop_ok 66 (2 ^ o) 0); [by rewrite Z.log2_pow2 by lia|lia| |lia].
  rewrite Z.log2_pow2; lia.
Qed.

(** ** Tokens *)

(** The pieces of a string between delimiters, the empty ones left out. *)
Fixpoint tokens_go (d : Z) (cur : list Z) (s : list Z) : list (list Z) :=
  match s with
  | [] => if cur is [] then [] else [rev cur]
  | c :: s =>
      if c =? d then (if cur is [] then tokens_go d [] s else rev cur :: tokens_go d [] s)
      else tokens_go d (c :: cur) s
  end.
Definition tokens (d : Z) (s : list Z) : list (list Z) := tokens_go d [] s.

(** The string from the first character that is not a delimiter; the token it
    starts with; what follows that token's delimiter. *)
Fixpoint skipped (d : Z) (s : list Z) : list Z :=
  match s with c :: s' => if c =? d then skipped d s' else s | [] => [] end.
Fixpoint token_of (d : Z) (s : list Z) : list Z :=
  match s with c :: s' => if c =? d then [] else c :: token_of d s' | [] => [] end.
Fixpoint after_token (d : Z) (s : list Z) : list Z :=
  match s with c :: s' => if c =? d then s' else after_token d s' | [] => [] end.

Lemma tokens_go_skip d s : tokens d (skipped d s) = tokens d s.
Proof.
  unfold tokens. induction s as [|c s IH]; [done|]. cbn [skipped].
  destruct (Z.eqb_spec c d) as [->|Hne]; [|done]. rewrite IH. cbn [tokens_go]. by rewrite Z.eqb_refl.
Qed.

Lemma tokens_go_token d cur s :
  tokens_go d cur s = (if decide (rev cur ++ token_of d s = []) then [] else [rev cur ++ token_of d s])
    ++ tokens d (after_token d s).
Proof.
  revert cur. induction s as [|c s IH]; intros cur; cbn [tokens_go token_of after_token].
  - rewrite app_nil_r. unfold tokens. cbn [tokens_go]. rewrite app_nil_r.
    destruct cur as [|x cur]; [done|]. rewrite decide_False; [done|].
    cbn. intros [_ ?]%app_nil. done.
  - destruct (Z.eqb_spec c d) as [->|Hne].
    + rewrite app_nil_r. destruct cur as [|x cur]; [done|]. rewrite decide_False; [done|].
      cbn. intros [_ ?]%app_nil. done.
    + rewrite IH. cbn [rev]. rewrite <- app_assoc. cbn [app].
      by rewrite !decide_False by (intros [_ ?]%app_nil; done).
Qed.

Lemma tokens_cons d c s :
  c <> d -> tokens d (c :: s) = (c :: token_of d s) :: tokens d (after_token d s).
Proof.
  intros Hc. unfold tokens at 1. cbn [tokens_go]. rewrite (proj2 (Z.eqb_neq _ _) Hc).
  rewrite tokens_go_token. cbn [rev app]. by rewrite decide_False.
Qed.

Lemma skip_delim_ok fuel m d a s :
  cstr m a s -> d <> 0 -> (length s < fuel)%nat ->
  exists a', skip_delim fuel m d a = Ok a' /\ cstr m a' (skipped d s) /\
    a' = a + Z.of_nat (length s - length (skipped d s)).
Proof.
  revert fuel a. induction s as [|c s IH]; intros [|fuel] a Hs Hd Hf; cbn [length] in *; try lia; cbn [skip_delim].
  - cbn in Hs. rewrite Hs, (proj2 (Z.eqb_neq _ _)) by done. exists a. split; [done|]. split; [done|]. cbn. lia.
  - destruct Hs as (Hc & Ha & Hs). rewrite Ha. cbn [skipped]. destruct (Z.eqb_spec c d) as [->|Hne].
    + destruct (IH fuel (a + 1) Hs Hd) as (a' & -> & H1 & H2); [lia|]. exists a'. split; [done|]. split; [done|].
      assert (length (skipped d s) <= length s)%nat; [|lia]. clear. induction s as [|x s IH]; [done|].
      cbn [skipped length]. case_match; cbn [length]; lia.
    + exists a. split; [done|]. split; [done|]. cbn [length]. lia.
Qed.

Lemma tok_loop_ok fuel m d tok a s :
  cstr m a s -> (length s < fuel)%nat ->
  exists m' sv, tok_loop fuel m d tok a = Ok (m', sv, tok) /\
    cstr m' a (token_of d s) /\ cstr m' sv (after_token d s) /\
    a + Z.of_nat (length (token_of d s)) <= sv /\ sv + Z.of_nat (length (after_token d s)) = a + Z.of_nat (length s) /\
    (forall x, x < a \/ sv <= x -> m' x = m x) /\
    (sv = a + Z.of_nat (length (token_of d s)) -> after_token d s = []).
Proof.
  revert fuel a. induction s as [|c s IH]; intros [|fuel] a Hs Hf; cbn [length] in *; try lia; cbn [tok_loop].
  - cbn in Hs. rewrite Hs. cbn. exists m, a. split; [done|]. split_and!; done || lia.
  - destruct Hs as (Hc & Ha & Hs). rewrite Ha, (proj2 (Z.eqb_neq _ _) Hc). cbn [negb token_of after_token].
    destruct (Z.eqb_spec c d) as [->|Hne].
    + exists (store8 a 0 m), (a + 1). split; [done|]. cbn [cstr length]. split_and!; try lia.
      * unfold store8. by rewrite Z.eqb_refl.
      * eapply cstr_ext; [|exact Hs]. intros x Hx. unfold store8. by rewrite (proj2 (Z.eqb_neq _ _)) by lia.
      * intros x Hx. unfold store8. by rewrite (proj2 (Z.eqb_neq _ _)) by lia.
    + destruct (IH fuel (a + 1) Hs) as (m' & sv & -> & H1 & H2 & H3 & H4 & H5 & H6); [lia|].
      exists m', sv. split; [done|]. cbn [cstr length]. split_and!; try done || lia.
      * rewrite H5; [done|lia].
      * intros x Hx. apply H5. lia.
      * intros Hx. apply H6. lia.
Qed.

(** One call of [strtok] on a string: NULL when only delimiters are left,
    otherwise the next token, NUL-terminated in place, with the rest saved. *)
Lemma strtok_ok fuel m str d save s :
  let a := if negb (str =? 0) then str else save in
  0 < a -> d <> 0 -> cstr m a s -> (length s < fuel)%nat ->
  (tokens d s = [] /\ exists sv, strtok fuel m str d save = Ok (m, sv, 0)) \/
  (exists m' sv tok t rest, strtok fuel m str d save = Ok (m', sv, tok) /\
    tokens d s = t :: tokens d rest /\ cstr m' tok t /\ cstr m' sv rest /\
    a <= tok /\ tok + Z.of_nat (length t) <= sv /\ sv + Z.of_nat (length rest) = a + Z.of_nat (length s) /\
    (forall x, x < tok \/ sv <= x -> m' x = m x) /\ (length rest < length s)%nat /\
    (sv = tok + Z.of_nat (length t) -> rest = [])).
Proof.
  intros a Ha Hd Hs Hf. unfold strtok. fold a. rewrite (proj2 (Z.eqb_neq a 0)) by lia.
  destruct (skip_delim_ok fuel m d a s Hs Hd Hf) as (a' & -> & Hs' & Ea). cbn [mbind res_bind].
  rewrite <- (tokens_go_skip d s).
  assert (Hsk : (length (skipped d s) <= length s)%nat).
  { clear. induction s as [|x s IH]; [done|]. cbn [skipped length]. case_match; cbn [length]; lia. }
  assert (Hfst : match skipped d s with c :: _ => c <> d | [] => True end).
  { clear. induction s as [|x s IH]; [done|]. cbn [skipped]. destruct (Z.eqb_spec x d); done. }
  destruct (skipped d s) as [|c s'] eqn:Esk.
  - left. split; [done|]. cbn in Hs'. rewrite Hs'. cbn. eauto.
  - right. pose proof Hs' as (Hc & Hac & Hs2). rewrite Hac, (proj2 (Z.eqb_neq _ _) Hc).
    destruct (tok_loop_ok fuel m d a' a' (c :: s') Hs') as (m' & sv & E & H1 & H2 & H3 & H4 & H5 & H6); [lia|].
    rewrite E. cbn [token_of after_token length] in *. rewrite (proj2 (Z.eqb_neq _ _) Hfst) in *.
    exists m', sv, a', (c :: token_of d s'), (after_token d s'). split; [done|].
    rewrite tokens_cons by done. split; [done|]. split_and!; try done || lia.
    cbn [length] in *. lia.
Qed.

(** Calling [strtok] until it returns NULL, first on the string and then on
    NULL, as a path is walked: the final memory and the tokens' addresses. *)
Fixpoint strtok_all (n fuel : nat) (m : mem) (str d save : Z) : res (mem * list Z) :=
  match n with
  | O => Fuel
  | S n =>
      '(m, sv, tok) ← strtok fuel m str d save;
      if tok =? 0 then Ok (m, [])
      else '(m, toks) ← strtok_all n fuel m 0 d sv; Ok (m, tok :: toks)
  end.

Lemma strtok_all_ok n fuel m str d save s :
  let a := if negb (str =? 0) then str else save in
  0 < a -> d <> 0 -> cstr m a s -> (length s < fuel)%nat -> (length s < n)%nat ->
  exists m' toks, strtok_all n fuel m str d save = Ok (m', toks) /\
    Forall2 (cstr m') toks (tokens d s) /\ Forall (fun t => a <= t) toks /\
    (forall x, x < a \/ a + Z.of_nat (length s) <= x -> m' x = m x).
Proof.
  revert m str save s. induction n as [|n IH]; intros m str save s a Ha Hd Hs Hf Hn; [lia|]. cbn [strtok_all].
  destruct (strtok_ok fuel m str d save s Ha Hd Hs Hf)
    as [[Et (sv & ->)]|(m1 & sv & tok & t & rest & -> & Et & Ht & Hr & Hle & Hend & Hlen & Hsame & Hlt & Hnil)];
    cbn [mbind res_bind].
  - exists m, []. rewrite Et. split; [done|]. split; [constructor|]. split; [constructor|done].
  - fold a in Hle, Hlen. rewrite (proj2 (Z.eqb_neq tok 0)) by lia.
    destruct (IH m1 0 sv rest) as (m2 & toks & E & HF & Hge & Hs2); [cbn; lia|done|done|lia|lia|].
    cbn [Z.eqb negb] in E, Hge, Hs2. rewrite E. cbn [mbind res_bind].
    exists m2, (tok :: toks). split; [done|]. rewrite Et. split; [|split].
    + constructor; [|done]. eapply cstr_ext; [|exact Ht]. intros x Hx. apply Hs2.
      destruct (decide (sv = tok + Z.of_nat (length t))) as [Heq|]; [|lia].
      rewrite (Hnil Heq) in *. cbn [length]. lia.
    + constructor; [lia|]. eapply Forall_impl; [exact Hge|]. intros x Hx; cbn beta in *; lia.
    + intros x Hx. rewrite Hs2, Hsame by lia. done.
Qed.

(** ** What the utilities promise *)

(** A memory that holds the path [//usr/bin/] at address 100. *)
Definition path_example : list Z := [47; 47; 117; 115; 114; 47; 98; 105; 110; 47].
Definition path_mem : mem := fun x => if 100 <=? x then default 0 (path_example !! Z.to_nat (x - 100)) else 9.

Lemma path_mem_cstr : cstr path_mem 100 path_example.
Proof. cbn. repeat split; discriminate. Qed.

(** Calling [strtok] until it returns NULL yields, in order, the address of
    every non-empty piece of the string between delimiters, each NUL-terminated
    in place; memory before the string is not touched. *)
Lemma strtok_splits n fuel m str d s :
  0 < str -> d <> 0 -> cstr m str s -> (length s < fuel)%nat -> (length s < n)%nat ->
  exists m' toks, strtok_all n fuel m str d 0 = Ok (m', toks) /\
    Forall2 (cstr m') toks (tokens d s) /\
    (forall x, x < str \/ str + Z.of_nat (length s) <= x -> m' x = m x).
Proof.
  intros Hp Hd Hs Hf Hn.
  assert (Ha : (if negb (str =? 0) then str else 0) = str) by (by rewrite (proj2 (Z.eqb_neq str 0)) by lia).
  pose proof (strtok_all_ok n fuel m str d 0 s) as H. cbv zeta in H. rewrite Ha in H.
  destruct (H Hp Hd Hs Hf Hn) as (m' & toks & E & HF & _ & Hx). eauto.
Qed.

Lemma strtok_splits_witness : exists m' toks,
  strtok_all 20 20 path_mem 100 47 0 = Ok (m', toks) /\ toks = [102; 106] /\
  Forall2 (cstr m') toks [[117; 115; 114]; [98; 105; 110]].
Proof.
  destruct (strtok_splits 20 20 path_mem 100 47 path_example) as (m' & toks & E & HF & _);
    [lia|discriminate|apply path_mem_cstr|cbn; lia|cbn; lia|].
  exists m', toks. split; [exact E|]. split; [|exact HF].
  vm_compute in E. by injection E as _ <-.
Defined.

(** On NUL-terminated strings [strcmp] returns 0 exactly for equal strings
    and [strlen] the number of characters before the NUL. *)
Lemma string_queries fuel m a b s t :
  cstr m a s -> cstr m b t -> (length s < fuel)%nat -> Z.of_nat (length s) < 2 ^ 31 ->
  (strcmp fuel m a b = Ok 0 <-> s = t) /\ strlen fuel m a = Ok (Z.of_nat (length s)).
Proof.
  intros Hs Ht Hf Hl. change (2 ^ 31) with 2147483648 in Hl. split.
  - rewrite (strcmp_ok fuel m a b s t Hs Ht Hf). case_decide; split; intros; done.
  - unfold strlen. rewrite (strlen_loop_ok fuel m a a s Hs Hf). f_equal. rewrite s32_small; lia.
Qed.

Lemma string_queries_witness :
  cstr path_mem 100 path_example /\ strcmp 20 path_mem 100 100 = Ok 0 /\ strlen 20 path_mem 100 = Ok 10.
Proof.
  split; [apply path_mem_cstr|].
  destruct (string_queries 20 path_mem 100 100 path_example path_example path_mem_cstr path_mem_cstr) as [H1 H2];
    [cbn; lia|cbn; change (2 ^ 31) with 2147483648; lia|]. split; [by apply H1|exact H2].
Defined.

(** [log2_pow2] is the binary logarithm, rounded down, below [2 ^ 63]; from
    there on its loop shifts a 64-bit value by 64, which is undefined. *)
Lemma log2_pow2_range num :
  0 < num < 2 ^ 64 -> log2_pow2 num = if num <? 2 ^ 63 then Ok (Z.log2 num) else UB.
Proof.
  intros Hn. unfold log2_pow2. rewrite (proj2 (Z.eqb_neq _ _)) by lia.
  destruct (Z.ltb_spec num (2 ^ 63)); [apply log2_loop_ok; [lia|pose proof (Z.log2_nonneg num); lia|lia]|].
  assert (Hgo : forall fuel ret, 0 <= ret <= 64 -> (Z.to_nat (64 - ret) < fuel)%nat -> log2_loop fuel num ret = UB).
  { induction fuel as [|fuel IH]; intros ret Hr Hf; [lia|]. cbn [log2_loop].
    destruct (Z.leb_spec 64 ret); [done|]. destruct (Z.eqb_spec (Z.shiftr num ret) 0) as [E|]; cbn [negb];
      [|apply IH; lia].
    exfalso. apply Z.shiftr_eq_0_iff in E as [?|[_ Hl]]; [lia|].
    assert (63 <= Z.log2 num) by (apply Z.log2_le_pow2; lia). lia. }
  apply Hgo; lia.
Qed.

Lemma log2_pow2_range_witness : log2_pow2 4096 = Ok 12 /\ log2_pow2 (2 ^ 63) = UB.
Proof.
  rewrite (log2_pow2_range 4096), (log2_pow2_range (2 ^ 63)); [split; reflexivity| |];
    change (2 ^ 64) with 18446744073709551616; change (2 ^ 63) with 9223372036854775808; lia.
Defined.
