(* ===== verification/Trie.v ===== *)
(** * The search trie ([utils/datastructures/trie.c])

    A level of the trie is a list of siblings linked by [next] in increasing
    order of their character; [down] is the level below.  [TNil] is NULL.  Nodes
    come from [kmalloc]; [avail] is how many it can still hand out before it
    returns NULL.  A key is its characters, without the NUL. *)
From S2P Require Import Prelude.

Inductive trie_node :=
| TNil
| TNode (c value : Z) (next down : trie_node).

Record trie := Trie { head : trie_node; keys : Z }.

Definition trie_init : trie := Trie TNil 0.

(** [trie_add_down(key_remainder, value)]: the nodes left and the new chain, or
    NULL (the nodes already taken are not given back).  On an empty remainder
    the loop reads past the NUL. *)
Fixpoint chain_down (avail : nat) (c : Z) (rest : list Z) (value : Z) : nat * trie_node :=
  match avail with
  | O => (O, TNil)
  | S avail =>
      match rest with
      | [] => (avail, TNode c value TNil TNil)
      | c' :: rest =>
          let '(avail, d) := chain_down avail c' rest value in
          match d with TNil => (avail, TNil) | _ => (avail, TNode c 0 TNil d) end
      end
  end.

Definition trie_add_down (avail : nat) (key_remainder : list Z) (value : Z) : res (nat * trie_node) :=
  match key_remainder with
  | [] => UB
  | c :: rest => Ok (chain_down avail c rest value)
  end.

Fixpoint trie_get_down (node : trie_node) (c : Z) : trie_node :=
  match node with
  | TNil => TNil
  | TNode c' _ next down =>
      if c' <? c then trie_get_down next c
      else if c' =? c then down
      else TNil
  end.

(** [new_node->next = cur] *)
Definition with_next (node cur : trie_node) : trie_node :=
  match node with TNil => TNil | TNode c v _ d => TNode c v cur d end.

(** The descent of [trie_add] through the levels, from the node [cur] of a
    level, for the remaining key [c :: rest]: the nodes left, the updated
    structure and the number of keys added. *)
Fixpoint add_at (cur : trie_node) (avail : nat) (c : Z) (rest : list Z) (value : Z) : nat * trie_node * Z :=
  let insert :=
    let '(avail, new_node) := chain_down avail c rest value in
    match new_node with
    | TNil => (avail, cur, 0)
    | _ => (avail, with_next new_node cur, 1)
    end in
  match cur with
  | TNil => insert
  | TNode c' v next down =>
      if c' <? c then
        let '(avail, next, k) := add_at next avail c rest value in (avail, TNode c' v next down, k)
      else if c' =? c then
        match rest with
        | [] => (avail, TNode c' value next down, 0)
        | c2 :: rest =>
            let '(avail, down, k) := add_at down avail c2 rest value in (avail, TNode c' v next down, k)
        end
      else insert
  end.

Definition trie_add (t : trie) (avail : nat) (key : list Z) (value : Z) : res (nat * trie) :=
  if keys t =? 0 then
    '(avail, result) ← trie_add_down avail key value;
    match result with
    | TNil => Ok (avail, t)
    | _ => Ok (avail, Trie result (u32 (keys t + 1)))
    end
  else
    match key with
    | [] => Ok (avail, t)
    | c :: rest =>
        let '(avail, h, k) := add_at (head t) avail c rest value in
        Ok (avail, Trie h (u32 (keys t + k)))
    end.

Definition trie_remove (t : trie) (key : list Z) : trie := t.

Definition node_value (n : trie_node) : Z := match n with TNil => 0 | TNode _ v _ _ => v end.

(** The loop of [trie_get]; [prevnode] is [node] at the start of a turn. *)
Fixpoint get_loop (node : trie_node) (key : list Z) : Z :=
  match key with
  | [] => 0
  | c :: rest =>
      match node with
      | TNil => 0
      | _ =>
          let prevnode := node in
          let node := trie_get_down node c in
          match node, rest with
          | TNil, [] => node_value prevnode
          | _, _ => get_loop node rest
          end
      end
  end.

Definition trie_get (t : trie) (key : list Z) : Z :=
  if keys t =? 0 then 0 else get_loop (head t) key.

(** ** The map a trie stands for *)

(** The value stored for a key, 0 (NULL) when there is none. *)
Fixpoint find (node : trie_node) (c : Z) (rest : list Z) : Z :=
  match node with
  | TNil => 0
  | TNode c' v next down =>
      if c' =? c then
        match rest with [] => v | c2 :: rest => find down c2 rest end
      else find next c rest
  end.

Definition lookup_key (t : trie) (key : list Z) : Z :=
  match key with [] => 0 | c :: rest => find (head t) c rest end.

(** Siblings strictly increase from [lo] on. *)
Fixpoint sorted_above (lo : Z) (n : trie_node) : Prop :=
  match n with
  | TNil => True
  | TNode c _ next down => lo < c /\ sorted_above c next /\ sorted_above 0 down
  end.

Definition trie_inv (t : trie) : Prop :=
  sorted_above 0 (head t) /\ 0 <= keys t < 2 ^ 32 /\ (keys t = 0 -> head t = TNil).

Lemma sorted_above_weaken a b n : a <= b -> sorted_above b n -> sorted_above a n.
Proof. destruct n; cbn; [done|]. intros ? (? & ? & ?). split; [lia|done]. Qed.

(** Characters at or below the bound are not on the level. *)
Lemma find_below n lo c rest : sorted_above lo n -> c <= lo -> find n c rest = 0.
Proof.
  revert lo. induction n as [|c' v nx IH d _]; intros lo Hs Hc; cbn in *; [done|].
  destruct Hs as (H1 & H2 & _). rewrite (proj2 (Z.eqb_neq _ _)) by lia. apply (IH c'); [done|lia].
Qed.

Lemma chain_down_ok avail c rest value :
  (length rest < avail)%nat -> 0 < c -> Forall (fun x => 0 < x) rest ->
  exists d v, chain_down avail c rest value = ((avail - S (length rest))%nat, TNode c v TNil d) /\
    sorted_above 0 (TNode c v TNil d) /\
    forall c' rest', find (TNode c v TNil d) c' rest' = if decide (c' :: rest' = c :: rest) then value else 0.
Proof.
  revert avail c. induction rest as [|c2 rest IH]; intros [|avail] c Ha Hc Hr; cbn [length] in *; try lia; cbn [chain_down].
  - exists TNil, value. split; [do 2 f_equal; lia|]. split; [done|]. intros c' rest'. cbn.
    destruct (Z.eqb_spec c c') as [->|]; [destruct rest'|]; case_decide; congruence || done.
  - apply Forall_cons in Hr as [Hc2 Hr].
    destruct (IH avail c2) as (d & v & -> & Hs & Hf); [lia|done|done|].
    exists (TNode c2 v TNil d), 0. split; [done|]. split; [split; [done|]; split; [done|exact Hs]|].
    intros c' rest'. cbn [find]. destruct (Z.eqb_spec c c') as [->|Hne].
    + destruct rest' as [|c3 rest']; [by rewrite decide_False by congruence|]. fold (find (TNode c2 v TNil d) c3 rest').
      change (find (TNode c2 v TNil d) c3 rest' = if decide (c' :: c3 :: rest' = c' :: c2 :: rest) then value else 0).
      rewrite Hf. repeat case_decide; congruence.
    + rewrite decide_False by congruence. done.
Qed.

(** The descent keeps the levels sorted and changes the map at the key only. *)
Lemma add_at_ok n avail c rest value lo :
  sorted_above lo n -> 0 <= lo < c -> Forall (fun x => 0 < x) rest -> (length rest < avail)%nat ->
  exists avail' n' k, add_at n avail c rest value = (avail', n', k) /\ sorted_above lo n' /\ 0 <= k <= 1 /\
    forall c' rest', find n' c' rest' = if decide (c' :: rest' = c :: rest) then value else find n c' rest'.
Proof.
  revert avail c rest lo. induction n as [|c1 v1 nx IHn d IHd]; intros avail c rest lo Hs Hlo Hr Ha; cbn [add_at].
  - destruct (chain_down_ok avail c rest value Ha ltac:(lia) Hr) as (d & v & E & Hc & Hf). rewrite E.
    cbn [with_next]. eexists _, _, 1. split; [done|]. cbn [sorted_above] in *. split_and!; tauto || lia.
  - destruct Hs as (H1 & H2 & H3). destruct (Z.ltb_spec c1 c) as [Hlt|Hge].
    + destruct (IHn avail c rest c1 H2 ltac:(lia) Hr Ha) as (a' & n' & k & -> & Hs' & Hk & Hf).
      eexists _, _, k. split; [done|]. cbn [sorted_above]. split; [done|]. split; [done|].
      intros c' rest'. cbn [find]. rewrite Hf. destruct (Z.eqb_spec c1 c') as [->|]; [|done].
      rewrite decide_False by (intros [=]; lia). done.
    + destruct (Z.eqb_spec c1 c) as [->|Hne].
      * destruct rest as [|c2 rest].
        -- eexists _, _, 0. split; [done|]. split; [done|]. split; [lia|]. intros c' rest'. cbn [find].
           destruct (Z.eqb_spec c c') as [->|]; [destruct rest'|]; case_decide; congruence || done.
        -- apply Forall_cons in Hr as [Hc2 Hr]. cbn [length] in Ha.
           destruct (IHd avail c2 rest 0 H3 ltac:(lia) Hr ltac:(lia)) as (a' & n' & k & -> & Hs' & Hk & Hf).
           eexists _, _, k. split; [done|]. split; [done|]. split; [done|]. intros c' rest'. cbn [find].
           destruct (Z.eqb_spec c c') as [->|]; [|by rewrite decide_False by congruence].
           destruct rest' as [|c3 rest']; [by rewrite decide_False by congruence|].
           rewrite Hf. repeat case_decide; congruence.
      * destruct (chain_down_ok avail c rest value Ha ltac:(lia) Hr) as (d' & v & E & Hc & Hf). rewrite E.
        cbn [with_next]. eexists _, _, 1. split; [done|].
        split; [cbn [sorted_above] in *; split_and!; tauto || lia|]. split; [lia|].
        intros c' rest'. specialize (Hf c' rest'). cbn [find] in *.
        destruct (Z.eqb_spec c c') as [->|Hn']; [|by rewrite decide_False by congruence].
        rewrite Hf. case_decide; [done|]. rewrite (proj2 (Z.eqb_neq c1 c')) by lia.
        symmetry. apply (find_below nx c1); [done|lia].
Qed.

(** The first key added must not be empty. *)
Lemma trie_add_empty_key avail value : trie_add trie_init avail [] value = UB.
Proof. reflexivity. Qed.

(** With memory for the key, [trie_add] makes the trie stand for the same
    map with the key bound to the value, whatever keys it held - new branches in
    the middle of a level, extensions and prefixes of present keys included -
    and keeps every level sorted. *)
Lemma trie_add_binds t avail key value :
  trie_inv t -> keys t < 2 ^ 32 - 1 -> key <> [] -> Forall (fun x => 0 < x) key -> (length key <= avail)%nat ->
  exists avail' t', trie_add t avail key value = Ok (avail', t') /\ trie_inv t' /\
    forall key', lookup_key t' key' = if decide (key' = key) then value else lookup_key t key'.
Proof.
  intros (Hs & Hk & H0) Hmax Hne Hpos Ha. change (2 ^ 32) with 4294967296 in *.
  destruct key as [|c rest]; [done|]. apply Forall_cons in Hpos as [Hc Hr]. cbn [length] in Ha.
  unfold trie_add. destruct (Z.eqb_spec (keys t) 0) as [E|E].
  - cbn [trie_add_down mbind res_bind].
    destruct (chain_down_ok avail c rest value ltac:(lia) Hc Hr) as (d & v & -> & Hs' & Hf).
    eexists _, _. split; [done|]. rewrite u32_small by lia. split.
    + split; [done|]. change (2 ^ 32) with 4294967296. cbn [keys]. lia.
    + intros [|c' rest']; [by rewrite decide_False|]. cbn [lookup_key head]. rewrite Hf, H0 by done. done.
  - destruct (add_at_ok (head t) avail c rest value 0 Hs ltac:(lia) Hr ltac:(lia)) as (a' & n' & k & -> & Hs' & Hk' & Hf).
    eexists _, _. split; [done|]. rewrite u32_small by lia. split.
    + split; [done|]. change (2 ^ 32) with 4294967296. cbn [keys]. lia.
    + intros [|c' rest']; [by rewrite decide_False|]. cbn [lookup_key head]. apply Hf.
Qed.

Lemma trie_init_inv : trie_inv trie_init.
Proof. by split. Qed.

Lemma trie_add_binds_witness : exists a t, trie_add trie_init 8 [97; 98] 5 = Ok (a, t) /\ trie_inv t /\
  lookup_key t [97; 98] = 5 /\ lookup_key t [97] = 0.
Proof.
  destruct (trie_add_binds trie_init 8 [97; 98] 5) as (a & t & E & Hi & Hf);
    [apply trie_init_inv|reflexivity|discriminate|repeat constructor; lia|cbn; lia|].
  exists a, t. split; [exact E|]. split; [exact Hi|].
  rewrite !Hf, decide_True, decide_False by congruence. split; reflexivity.
Defined.

Lemma chain_down_node avail c rest value :
  (length rest < avail)%nat -> exists v d, (chain_down avail c rest value).2 = TNode c v TNil d.
Proof.
  revert avail c. induction rest as [|c2 rest IH]; intros [|avail] c Ha; cbn [length] in *; try lia; cbn [chain_down].
  - by eexists _, _.
  - destruct (IH avail c2 ltac:(lia)) as (v & d & E).
    destruct (chain_down avail c2 rest value) as [a d2]. cbn [snd] in E. subst d2. by eexists _, _.
Qed.

Lemma get_loop_chain avail c rest value :
  (length rest < avail)%nat -> get_loop (chain_down avail c rest value).2 (c :: rest) = value.
Proof.
  revert avail c. induction rest as [|c2 rest IH]; intros [|avail] c Ha; cbn [length] in *; try lia; cbn [chain_down].
  - cbn. rewrite Z.ltb_irrefl, Z.eqb_refl. done.
  - specialize (IH avail c2 ltac:(lia)). destruct (chain_down_node avail c2 rest value) as (v & d & E); [lia|].
    destruct (chain_down avail c2 rest value) as [a d2]. cbn [snd] in E, IH. subst d2. cbn [snd].
    remember (c2 :: rest) as r2 eqn:Er. cbn [get_loop trie_get_down]. rewrite Z.ltb_irrefl, Z.eqb_refl. exact IH.
Qed.

(** In a trie that holds a single key, [trie_get] finds its value. *)
Lemma trie_single_roundtrip avail key value :
  key <> [] -> (length key <= avail)%nat ->
  exists avail' t, trie_add trie_init avail key value = Ok (avail', t) /\ trie_get t key = value.
Proof.
  intros Hk Ha. destruct key as [|c rest]; [done|]. cbn [length] in Ha.
  unfold trie_add. cbn [trie_init keys Z.eqb trie_add_down mbind res_bind].
  pose proof (get_loop_chain avail c rest value Ha) as Hg.
  destruct (chain_down_node avail c rest value) as (v & d & E); [lia|].
  destruct (chain_down avail c rest value) as [a d2]. cbn [snd] in E, Hg. subst d2.
  eexists _, _. split; [done|]. exact Hg.
Qed.

Lemma trie_single_roundtrip_witness :
  exists a t, trie_add trie_init 8 [97; 98; 99] 7 = Ok (a, t) /\ trie_get t [97; 98; 99] = 7.
Proof. apply (trie_single_roundtrip 8 [97; 98; 99] 7); [discriminate|cbn; lia]. Defined.

(** For a key of one character below which nothing hangs - present or not -
    [trie_get] returns the value of the first sibling of the level, not the
    value stored for the key. *)
Lemma trie_get_first_sibling c0 v0 next down k c :
  k <> 0 -> trie_get_down (TNode c0 v0 next down) c = TNil ->
  trie_get (Trie (TNode c0 v0 next down) k) [c] = v0.
Proof.
  intros Hk Hd. unfold trie_get. cbn [keys head]. rewrite (proj2 (Z.eqb_neq _ _) Hk).
  cbn [get_loop]. rewrite Hd. done.
Qed.

(** The device tree's trie, built as [device_tree_init] does, with [kbd] and
    [i2c] for the addresses of the two files: asking for [/dev/ttyS2], which is
    not there, gives the keyboard. *)
Definition dev (l : list Z) : list Z := [47; 100; 101; 118; 47] ++ l.
Definition device_trie (kbd i2c : Z) : res (nat * trie) :=
  '(a, t) ← trie_add trie_init 64 (dev [102; 98; 48]) 1;
  '(a, t) ← trie_add t a (dev [116; 116; 121; 83; 49]) kbd;
  trie_add t a (dev [105; 50; 99]) i2c.

Lemma trie_get_first_sibling_witness :
  trie_get (Trie (TNode 97 1 (TNode 98 2 TNil TNil) TNil) 2) [98] = 1 /\
  lookup_key (Trie (TNode 97 1 (TNode 98 2 TNil TNil) TNil) 2) [98] = 2 /\
  (match device_trie 1000 2000 with
   | Ok (_, t) => lookup_key t (dev [116; 116; 121; 83; 50]) = 0 /\ trie_get t (dev [116; 116; 121; 83; 50]) = 1000
   | _ => False
   end).
Proof.
  split; [|split; [reflexivity|split; reflexivity]].
  apply (trie_get_first_sibling 97 1 (TNode 98 2 TNil TNil) TNil 2 98); [discriminate|reflexivity].
Defined.
