(* ===== verification/Slab.v ===== *)
(** * The kernel heap: definitions ([memory/kmalloc.c])

    Small requests are served from slabs, blocks of one to four pages cut into
    items of one size with a bitmap in front; larger ones straight from the page
    allocator.  The page allocator is used through [PageAllocator]; [map], which
    enters pages into the kernel's page tables, is an argument with its contract
    [kernel_map_ok].  A slab's header is found by the address of its block. *)
From S2P Require Import Prelude KList KString Buddy BuddyInv BuddyOps BuddyRef.

Definition MIN_SLAB_ORDER : Z := 5.
Definition MAX_SLAB_ORDER : Z := 11.
Definition MAX_BUDDY_ORDER : Z := 18.
Definition CACHES : Z := 7.

Definition MAP_READ : Z := 1.
Definition MAP_WRITE : Z := 2.
Definition MAP_KERNEL : Z := 16.

(** [slab], without its list node: 16 bitmap bytes and three 16-bit fields. *)
Record slab := Slab {
  bitmap : list Z;
  inuse : Z;
  total : Z;
  slab_order : Z;
}.

Definition sizeof_slab : Z := 40.

(** List nodes: the two heads of each of the [kcaches] and the slabs'. *)
Inductive snode := SFull (i : Z) | SPartial (i : Z) | SSlab (a : Z).

#[export] Instance snode_eq_dec : EqDecision snode.
Proof. solve_decision. Defined.
#[export] Instance snode_countable : Countable snode.
Proof.
  refine (inj_countable'
    (fun n => match n with SFull i => inl (inl i) | SPartial i => inl (inr i) | SSlab a => inr a end)
    (fun s => match s with inl (inl i) => SFull i | inl (inr i) => SPartial i | inr a => SSlab a end) _).
  by intros [].
Defined.

Definition ALIGN_UP (x a : Z) : Z := Z.land (x + (a - 1)) (Z.lnot (a - 1)).
Definition ALIGN_DOWN (x a : Z) : Z := Z.land x (Z.lnot (a - 1)).
Definition clzll (x : Z) : Z := 63 - Z.log2 x.

Section Slab.
Context {S : Type} `{!PageAllocator S}.
Context (map : Z -> Z -> Z -> Z -> Z -> S -> res (bool * S)) (L0_TABLE : Z).

Record kheap := KHeap {
  pages : S;
  slabs : gmap Z slab;                          (* the headers in memory *)
  snodes : gmap snode (@list_head_t snode);
}.

Definition cache_head (mk : Z -> snode) (i : Z) : res snode :=
  if (0 <=? i) && (i <? CACHES) then Ok (mk i) else UB.

(** [list_entry(p, slab, list)] *)
Definition slab_of_node (n : snode) : res Z := match n with SSlab a => Ok a | _ => UB end.

Definition get_slab (a : Z) (k : kheap) : res slab := deref (slabs k !! a).
Definition put_slab (a : Z) (s : slab) (k : kheap) : kheap := KHeap (pages k) (<[a := s]> (slabs k)) (snodes k).
Definition on_pages {A} (f : S -> res (A * S)) (k : kheap) : res (A * kheap) :=
  '(a, s) ← f (pages k); Ok (a, KHeap s (slabs k) (snodes k)).
Definition on_snodes (f : gmap snode (@list_head_t snode) -> res (gmap snode (@list_head_t snode))) (k : kheap) : res kheap :=
  h ← f (snodes k); Ok (KHeap (pages k) (slabs k) h).

Definition kheap_init (k : kheap) : kheap :=
  KHeap (pages k) (slabs k)
    (fold_left (fun h i => INIT_LIST_HEAD (SPartial i) (INIT_LIST_HEAD (SFull i) h)) (seqZ 0 CACHES) (snodes k)).

(** [_slab_alloc(order)]; the owner is set before the page is checked. *)
Definition _slab_alloc (order : Z) (k : kheap) : res (Z * kheap) :=
  '(phys_page, k) ← on_pages (pa_alloc (u64 (PAGE_SIZE * (order + 1)))) k;
  '(_, k) ← on_pages (fun s => s ← pa_set_owner phys_page PAGE_SLAB s; Ok (tt, s)) k;
  if phys_page =? 0 then Panic
  else
    '(_, k) ← on_pages (map phys_page (va_to_pa phys_page) order
                          (Z.lor (Z.lor MAP_KERNEL MAP_READ) MAP_WRITE) L0_TABLE) k;
    Ok (phys_page, k).

Definition bit_set (b bit : Z) : bool := negb (Z.land b (Z.shiftl 1 bit) =? 0).

(** The search of [_addr_from_slab] from item [i] on, [n] items left. *)
Fixpoint addr_loop (n : nat) (i : Z) (a : Z) (s : slab) : res (slab * Z) :=
  match n with
  | O => Ok (s, 0)
  | Datatypes.S n =>
      let byte := u8 (i / 8) in
      let offset := u8 (i mod 8) in
      b ← deref (bitmap s !! Z.to_nat byte);
      if negb (bit_set b offset) then
        let s := Slab (<[Z.to_nat byte := u8 (Z.lor b (Z.shiftl 1 offset))]> (bitmap s))
                   (u16 (inuse s + 1)) (total s) (slab_order s) in
        Ok (s, u64 (a + ALIGN_UP sizeof_slab (Z.shiftl 1 (slab_order s)) + i * Z.shiftl 1 (slab_order s)))
      else addr_loop n (i + 1) a s
  end.

Definition _addr_from_slab (a : Z) (s : slab) : res (slab * Z) := addr_loop (Z.to_nat (total s)) 0 a s.

(** A new slab of items of [2 ^ log2] bytes, put on its partial list; [junk a] is
    what memory holds in the upper eight bitmap bytes of a header at [a], which
    the code does not clear. *)
Definition new_slab (junk : Z -> list Z) (aligned_bytes log2 : Z) (partial : snode) (k : kheap) : res kheap :=
  let order := if 9 <? log2 then log2 - 9 else 0 in
  '(new_slab, k) ← _slab_alloc order k;
  let s := Slab (replicate 8 0 ++ junk new_slab) 0
             (u16 ((Z.shiftl PAGE_SIZE order - ALIGN_UP sizeof_slab aligned_bytes) / aligned_bytes))
             (u16 log2) in
  on_snodes (list_add (SSlab new_slab) partial) (put_slab new_slab s k).

(** Taking an item of the first slab of the partial list. *)
Definition take_item (partial full : snode) (k : kheap) : res (Z * kheap) :=
  n ← deref (lnext (node_at (snodes k) partial));
  a ← slab_of_node n;
  s ← get_slab a k;
  '(s, addr) ← _addr_from_slab a s;
  let k := put_slab a s k in
  if inuse s =? total s then
    k ← on_snodes (list_remove (SSlab a)) k;
    k ← on_snodes (list_add (SSlab a) full) k;
    Ok (addr, k)
  else Ok (addr, k).

Definition kmalloc (junk : Z -> list Z) (bytes : Z) (k : kheap) : res (Z * kheap) :=
  if Z.shiftl 1 (MAX_BUDDY_ORDER + PAGE_SHIFT) <? bytes then Ok (0, k)
  else
    let aligned_bytes := u64 (Z.shiftl 1 (64 - clzll (Z.max bytes (Z.shiftl 1 MIN_SLAB_ORDER) - 1))) in
    l ← log2_pow2 aligned_bytes;
    let log2 := u32 l in
    let cache_idx := u32 (log2 - MIN_SLAB_ORDER) in
    if MAX_SLAB_ORDER <? log2 then
      '(p, k) ← on_pages (pa_alloc aligned_bytes) k;
      '(_, k) ← on_pages (map p (va_to_pa p) (u8 (log2 - PAGE_SHIFT)) MAP_KERNEL L0_TABLE) k;
      Ok (p, k)
    else
      partial ← cache_head SPartial cache_idx;
      full ← cache_head SFull cache_idx;
      k ← (if list_empty partial (snodes k) then new_slab junk aligned_bytes log2 partial k else Ok k);
      take_item partial full k.

(** The item of a slab a pointer falls on. *)
Definition item_index (ptr slab_head : Z) (s : slab) : Z :=
  let item_size := Z.shiftl 1 (slab_order s) in
  let metadata_size := ALIGN_UP sizeof_slab item_size / item_size in
  u64 (u64 (ptr - slab_head) / item_size - metadata_size).

(** What [_slab_free] does once the bit is cleared. *)
Definition drop_item (slab_head : Z) (s : slab) (k : kheap) : res kheap :=
  let k := put_slab slab_head s k in
  k ← (if inuse s =? total s then
         k ← on_snodes (list_remove (SSlab slab_head)) k;
         partial ← cache_head SPartial (slab_order s - MIN_SLAB_ORDER);
         on_snodes (list_add (SSlab slab_head) partial) k
       else Ok k);
  let s := Slab (bitmap s) (u16 (inuse s - 1)) (total s) (slab_order s) in
  let k := put_slab slab_head s k in
  if inuse s =? 0 then
    k ← on_snodes (list_remove (SSlab slab_head)) k;
    '(_, k) ← on_pages (fun p => p ← pa_free slab_head p; Ok (tt, p)) k;
    Ok k
  else Ok k.

Definition _slab_free (ptr : Z) (k : kheap) : res kheap :=
  '(slab_head, k) ← on_pages (fun s => h ← pa_head (ALIGN_DOWN ptr PAGE_SIZE) s; Ok (h, s)) k;
  s ← get_slab slab_head k;
  let offset := item_index ptr slab_head s in
  let byte := offset / 8 in
  let bit := offset mod 8 in
  b ← deref (bitmap s !! Z.to_nat byte);
  if negb (bit_set b bit) then Ok k
  else
    drop_item slab_head
      (Slab (<[Z.to_nat byte := u8 (Z.land b (Z.lnot (Z.shiftl 1 bit)))]> (bitmap s)) (inuse s) (total s) (slab_order s)) k.

Definition kfree (ptr : Z) (k : kheap) : res kheap :=
  if ptr =? 0 then Ok k
  else
    let aligned_ptr := ALIGN_DOWN ptr PAGE_SIZE in
    '(owner, k) ← on_pages (fun s => w ← pa_owner aligned_ptr s; Ok (w, s)) k;
    if owner =? PAGE_BUDDY then
      '(_, k) ← on_pages (fun s => s ← pa_free aligned_ptr s; Ok (tt, s)) k;
      Ok k
    else if owner =? PAGE_SLAB then _slab_free ptr k
    else if owner =? PAGE_FREE then Ok k
    else Panic.
End Slab.

Arguments kheap S : clear implicits.
