(* ===== verification/SlabInv.v ===== *)
(** * The kernel heap: invariant and lemmas

    [heap_inv V k]: every block the page allocator has handed to the slab
    allocator carries a well-formed header whose count agrees with its bitmap,
    and hangs on the partial or the full list of its size.  [live_obj] are the
    items in use. *)
From S2P Require Import Prelude KList KString Buddy BuddyInv BuddyOps BuddyRef Slab.

(** ** Sizes *)

Definition hdr (o : Z) : Z := ALIGN_UP sizeof_slab (2 ^ o).
Definition slab_pages (o : Z) : Z := if 9 <? o then o - 9 else 0.
Definition total_for (o : Z) : Z := (4096 * 2 ^ slab_pages o - hdr o) / 2 ^ o.

(** The order of the items that serve a request. *)
Definition size_class (bytes : Z) : Z := Z.log2_up (Z.max bytes 32).

Lemma order_cases (P : Z -> Prop) :
  P 5 -> P 6 -> P 7 -> P 8 -> P 9 -> P 10 -> P 11 -> forall o, 5 <= o <= 11 -> P o.
Proof.
  intros. assert (o = 5 \/ o = 6 \/ o = 7 \/ o = 8 \/ o = 9 \/ o = 10 \/ o = 11) as Ho by lia.
  destruct Ho as [->|[->|[->|[->|[->|[->| ->]]]]]]; done.
Qed.

Lemma size_facts o : 5 <= o <= 11 ->
  32 <= 2 ^ o <= 2048 /\ 40 <= hdr o /\ hdr o = hdr o / 2 ^ o * 2 ^ o /\ 0 < total_for o <= 126 /\
  hdr o + total_for o * 2 ^ o <= 4096 * 2 ^ slab_pages o /\ 0 <= slab_pages o <= 2 /\
  order_for (4096 * (slab_pages o + 1)) = slab_pages o /\ (5 < o -> total_for o <= 64) /\
  Z.shiftl 4096 (slab_pages o) = 4096 * 2 ^ slab_pages o.
Proof. revert o. apply order_cases; vm_compute; repeat split; try discriminate; intros ?; discriminate. Qed.

Lemma size_class_32 bytes : size_class bytes = 5 -> bytes <= 32.
Proof.
  unfold size_class. intros E. destruct (Z.le_gt_cases bytes 32) as [|Hlt]; [done|]. rewrite Z.max_l in E by lia.
  pose proof (proj2 (Z.log2_log2_up_spec bytes ltac:(lia))) as H. rewrite E in H. change (2 ^ 5) with 32 in H. lia.
Qed.

Lemma size_class_ok bytes :
  bytes <= 2 ^ 30 ->
  u64 (Z.shiftl 1 (64 - clzll (Z.max bytes (Z.shiftl 1 MIN_SLAB_ORDER) - 1))) = 2 ^ size_class bytes /\
  5 <= size_class bytes <= 30 /\ bytes <= 2 ^ size_class bytes /\ (bytes <= 2048 <-> size_class bytes <= 11).
Proof.
  intros Hb. change (Z.shiftl 1 MIN_SLAB_ORDER) with 32. unfold clzll, size_class.
  set (x := Z.max bytes 32). assert (Hx : 32 <= x <= 2 ^ 30) by (unfold x; change (2 ^ 30) with 1073741824 in *; lia).
  replace (64 - (63 - Z.log2 (x - 1))) with (Z.log2_up x).
  2: { unfold Z.log2_up. destruct (Z.compare_spec 1 x); [lia| |lia]. rewrite <- Z.sub_1_r. lia. }
  assert (H5 : 5 <= Z.log2_up x) by (change 5 with (Z.log2_up 32); apply Z.log2_up_le_mono; lia).
  assert (H30 : Z.log2_up x <= 30) by (change 30 with (Z.log2_up (2 ^ 30)); apply Z.log2_up_le_mono; lia).
  assert (Hx2 : x <= 2 ^ Z.log2_up x) by (apply Z.log2_up_spec; lia).
  split; [|split; [lia|split]].
  - rewrite shiftl_1 by lia. apply u64_small. pose proof (pow2_pos (Z.log2_up x)).
    pose proof (pow2_le (Z.log2_up x) 30 ltac:(lia)). change (2 ^ 30) with 1073741824 in *. lia.
  - unfold x in *. lia.
  - split; intros H.
    + change 11 with (Z.log2_up 2048). apply Z.log2_up_le_mono. unfold x. lia.
    + pose proof (pow2_le (Z.log2_up x) 11 ltac:(lia)). change (2 ^ 11) with 2048 in *. unfold x in *. lia.
Qed.

(** ** Bitmaps *)

Definition item_used (bm : list Z) (i : Z) : bool := Z.testbit (default 0 (bm !! Z.to_nat (i / 8))) (i mod 8).

Fixpoint used_count (bm : list Z) (n : nat) : Z :=
  match n with
  | O => 0
  | S n => used_count bm n + Z.b2z (item_used bm (Z.of_nat n))
  end.

Definition bytes_ok (bm : list Z) : Prop := length bm = 16%nat /\ Forall (fun b => 0 <= b < 256) bm.

Lemma bit_set_testbit b i : 0 <= i -> bit_set b i = Z.testbit b i.
Proof. intros Hi. unfold bit_set. rewrite shiftl_1, land_pow2_eqb by lia. by rewrite negb_involutive. Qed.

Lemma bytes_lookup bm i :
  bytes_ok bm -> 0 <= i < 128 ->
  exists b, bm !! Z.to_nat (i / 8) = Some b /\ 0 <= b < 256 /\ item_used bm i = Z.testbit b (i mod 8).
Proof.
  intros [Hl Hb] Hi. destruct (lookup_lt_is_Some_2 bm (Z.to_nat (i / 8))) as [b E]; [zdiv|].
  exists b. split; [done|]. split; [by eapply Forall_lookup_1 in Hb|]. unfold item_used. by rewrite E.
Qed.

(** Replacing a byte by one that differs in bit [i mod 8] only. *)
Lemma update_bit bm i b' (v : bool) b :
  bytes_ok bm -> 0 <= i < 128 -> bm !! Z.to_nat (i / 8) = Some b ->
  0 <= b' < 256 -> (forall j, 0 <= j < 8 -> Z.testbit b' j = if decide (j = i mod 8) then v else Z.testbit b j) ->
  bytes_ok (<[Z.to_nat (i / 8) := b']> bm) /\
  forall j, 0 <= j < 128 -> item_used (<[Z.to_nat (i / 8) := b']> bm) j = if decide (j = i) then v else item_used bm j.
Proof.
  intros [Hl Hb] Hi E Hb' Ht. split; [split; [by rewrite length_insert|by apply Forall_insert]|].
  intros j Hj. unfold item_used. destruct (decide (j / 8 = i / 8)) as [Heq|Hne].
  - rewrite Heq, list_lookup_insert_eq by zdiv. cbn [default]. rewrite Ht by zdiv. rewrite E. cbn [default].
    repeat case_decide; done || zdiv.
  - rewrite list_lookup_insert_ne by zdiv. rewrite decide_False; [done|congruence].
Qed.

Lemma byte_bits b : 0 <= b < 256 -> forall j, 8 <= j -> Z.testbit b j = false.
Proof.
  intros Hb j Hj. destruct (decide (b = 0)) as [->|]; [apply Z.bits_0|].
  apply Z.bits_above_log2; [lia|]. apply Z.log2_lt_pow2; [lia|].
  apply Z.lt_le_trans with (2 ^ 8); [change (2 ^ 8) with 256; lia|apply pow2_le; lia].
Qed.

Lemma byte_of_bits b : 0 <= b -> (forall j, 8 <= j -> Z.testbit b j = false) -> b < 256.
Proof.
  intros H0 Hb. destruct (Z.lt_ge_cases b 256); [done|]. exfalso.
  assert (H8 : 8 <= Z.log2 b) by (change 8 with (Z.log2 256); apply Z.log2_le_mono; lia).
  specialize (Hb (Z.log2 b) H8). rewrite Z.bit_log2 in Hb by lia. done.
Qed.

Lemma set_bit_byte b i : 0 <= b < 256 -> 0 <= i < 8 ->
  0 <= Z.lor b (Z.shiftl 1 i) < 256 /\ u8 (Z.lor b (Z.shiftl 1 i)) = Z.lor b (Z.shiftl 1 i) /\
  forall j, 0 <= j < 8 -> Z.testbit (Z.lor b (Z.shiftl 1 i)) j = if decide (j = i) then true else Z.testbit b j.
Proof.
  intros Hb Hi. rewrite shiftl_1 by lia.
  assert (H : forall j, 0 <= j -> Z.testbit (Z.lor b (2 ^ i)) j = if decide (j = i) then true else Z.testbit b j).
  { intros j Hj. rewrite Z.lor_spec, Z.pow2_bits_eqb by lia.
    case_decide; [subst; rewrite Z.eqb_refl; apply orb_true_r|].
    rewrite (proj2 (Z.eqb_neq i j)) by lia. apply orb_false_r. }
  assert (0 <= Z.lor b (2 ^ i)) by (apply Z.lor_nonneg; pose proof (pow2_pos i); lia).
  assert (Z.lor b (2 ^ i) < 256).
  { apply byte_of_bits; [done|]. intros j Hj. rewrite H, decide_False by lia. by apply byte_bits. }
  split; [lia|]. split; [apply u8_small; lia|]. intros j Hj. apply H. lia.
Qed.

Lemma clear_bit_byte b i : 0 <= b < 256 -> 0 <= i < 8 ->
  0 <= u8 (Z.land b (Z.lnot (Z.shiftl 1 i))) < 256 /\
  forall j, 0 <= j < 8 -> Z.testbit (u8 (Z.land b (Z.lnot (Z.shiftl 1 i)))) j = if decide (j = i) then false else Z.testbit b j.
Proof.
  intros Hb Hi. rewrite shiftl_1 by lia.
  assert (H : forall j, 0 <= j -> Z.testbit (Z.land b (Z.lnot (2 ^ i))) j = if decide (j = i) then false else Z.testbit b j).
  { intros j Hj. rewrite Z.land_spec, Z.lnot_spec, Z.pow2_bits_eqb by lia.
    case_decide; [subst; rewrite Z.eqb_refl; apply andb_false_r|].
    rewrite (proj2 (Z.eqb_neq i j)) by lia. apply andb_true_r. }
  assert (0 <= Z.land b (Z.lnot (2 ^ i))) by (apply Z.land_nonneg; lia).
  assert (Z.land b (Z.lnot (2 ^ i)) < 256).
  { apply byte_of_bits; [done|]. intros j Hj. rewrite H by lia. case_decide; [done|]. by apply byte_bits. }
  rewrite u8_small by lia. split; [lia|]. intros j Hj. apply H. lia.
Qed.

Lemma used_count_range bm n : 0 <= used_count bm n <= Z.of_nat n.
Proof. induction n as [|n IH]; cbn [used_count]; [lia|]. pose proof (Z.b2z_bit0 (item_used bm (Z.of_nat n))). destruct (item_used bm _); cbn; lia. Qed.

(** Setting or clearing one item moves the count by one. *)
Lemma used_count_update bm bm' n i (v : bool) :
  (forall j, 0 <= j < 128 -> item_used bm' j = if decide (j = i) then v else item_used bm j) ->
  0 <= i < Z.of_nat n -> (n <= 128)%nat -> item_used bm i = negb v ->
  used_count bm' n = used_count bm n + (if v then 1 else -1).
Proof.
  intros H Hi Hn Hv.
  assert (Hlow : forall k, (k <= 128)%nat -> Z.of_nat k <= i -> used_count bm' k = used_count bm k).
  { induction k as [|k IH]; intros Hk Hki; cbn [used_count]; [done|]. rewrite IH, H by lia.
    by rewrite decide_False by lia. }
  induction n as [|n IH]; [lia|]. cbn [used_count]. rewrite H by lia. case_decide as Hd.
  - rewrite Hlow by lia. rewrite Hd, Hv. destruct v; cbn; lia.
  - rewrite IH by lia. lia.
Qed.

Lemma used_count_full bm n : used_count bm n = Z.of_nat n -> forall i, 0 <= i < Z.of_nat n -> item_used bm i = true.
Proof.
  induction n as [|n IH]; cbn [used_count]; intros H i Hi; [lia|].
  pose proof (used_count_range bm n). destruct (item_used bm (Z.of_nat n)) eqn:E; cbn in H; [|lia].
  destruct (decide (i = Z.of_nat n)) as [->|]; [done|]. apply IH; lia.
Qed.

Lemma used_count_zero bm n : (forall i, 0 <= i < Z.of_nat n -> item_used bm i = false) -> used_count bm n = 0.
Proof.
  induction n as [|n IH]; cbn [used_count]; intros H; [done|]. rewrite IH by (intros; apply H; lia).
  by rewrite H by lia.
Qed.

Lemma used_count_free bm n :
  used_count bm n < Z.of_nat n -> exists i, 0 <= i < Z.of_nat n /\ item_used bm i = false.
Proof.
  induction n as [|n IH]; cbn [used_count]; intros H; [lia|].
  destruct (item_used bm (Z.of_nat n)) eqn:E.
  - destruct IH as (i & Hi & Hf); [cbn in H; lia|]. exists i. split; [lia|done].
  - exists (Z.of_nat n). split; [lia|done].
Qed.

Lemma used_count_zero_inv bm n i : used_count bm n = 0 -> 0 <= i < Z.of_nat n -> item_used bm i = false.
Proof.
  induction n as [|n IH]; cbn [used_count]; intros H Hi; [lia|]. pose proof (used_count_range bm n).
  destruct (item_used bm (Z.of_nat n)) eqn:E; cbn in H; [lia|].
  destruct (decide (i = Z.of_nat n)) as [->|]; [done|]. apply IH; lia.
Qed.

(** ** Slabs *)

(** A header of a slab whose block has order [w]. *)
Record slab_ok (s : slab) (w : Z) : Prop := {
  so_order : MIN_SLAB_ORDER <= slab_order s <= MAX_SLAB_ORDER;
  so_pages : w = slab_pages (slab_order s);
  so_total : total s = total_for (slab_order s);
  so_bytes : bytes_ok (bitmap s);
  so_inuse : inuse s = used_count (bitmap s) (Z.to_nat (total s));
}.

(** The address of item [i] of a slab of order [o] in the block of page [p]. *)
Definition item_addr (p o i : Z) : Z := page_va p + hdr o + i * 2 ^ o.

Lemma slab_sizes s w : slab_ok s w ->
  5 <= slab_order s <= 11 /\ 32 <= 2 ^ slab_order s <= 2048 /\ 0 < total s <= 126 /\ 0 <= inuse s <= total s.
Proof.
  intros [H1 _ H2 _ H3]. unfold MIN_SLAB_ORDER, MAX_SLAB_ORDER in H1.
  pose proof (size_facts _ H1). pose proof (used_count_range (bitmap s) (Z.to_nat (total s))). lia.
Qed.

(** The search finds the first free item. *)
Lemma addr_loop_ok n i p s w :
  slab_ok s w -> 0 <= p < NPAGES -> 0 <= i -> Z.of_nat n = total s - i ->
  (exists j, i <= j < total s /\ item_used (bitmap s) j = false) ->
  exists j bm', addr_loop n i (page_va p) s =
      Ok (Slab bm' (inuse s + 1) (total s) (slab_order s), item_addr p (slab_order s) j) /\
    i <= j < total s /\ item_used (bitmap s) j = false /\ bytes_ok bm' /\
    forall k, 0 <= k < 128 -> item_used bm' k = if decide (k = j) then true else item_used (bitmap s) k.
Proof.
  intros Hs Hp. pose proof (slab_sizes _ _ Hs) as (Ho & Hpow & Ht & Hin). pose proof (size_facts _ Ho) as Hsz.
  pose proof (so_total _ _ Hs) as Htot. revert i. induction n as [|n IH]; intros i Hi Hn (j & Hj & Hjf); [lia|].
  cbn [addr_loop]. destruct (bytes_lookup (bitmap s) i (so_bytes _ _ Hs) ltac:(lia)) as (b & Eb & Hb & Hu).
  rewrite (u8_small (i / 8)), (u8_small (i mod 8)) by zdiv. rewrite Eb. cbn [deref mbind res_bind].
  rewrite bit_set_testbit, <- Hu by zdiv. destruct (item_used (bitmap s) i) eqn:Ei; cbn [negb].
  - destruct (IH (i + 1)) as (j' & bm' & E & Hj' & Hf & Hbm); [lia|lia| |].
    { exists j. split; [|done]. destruct (decide (i = j)); [congruence|lia]. }
    exists j', bm'. split; [done|]. split; [lia|done].
  - destruct (set_bit_byte b (i mod 8) Hb ltac:(zdiv)) as (Hr & -> & Hbits).
    destruct (update_bit (bitmap s) i _ true b (so_bytes _ _ Hs) ltac:(lia) Eb Hr Hbits) as [Hok Hupd].
    exists i, (<[Z.to_nat (i / 8) := Z.lor b (Z.shiftl 1 (i mod 8))]> (bitmap s)).
    rewrite (u16_small (inuse s + 1)) by lia. split; [|split; [lia|split; [done|split; done]]].
    do 2 f_equal. cbn [slab_order]. rewrite (shiftl_1 (slab_order s)) by lia. fold (hdr (slab_order s)). unfold item_addr. apply u64_small.
    rewrite page_va_eq by done. unfold VIRT_BASE. consts. destruct Hsz as (_ & ? & _ & _ & ? & ? & _).
    pose proof (pow2_le (slab_pages (slab_order s)) 2 ltac:(lia)). change (2 ^ 2) with 4 in *. nia.
Qed.

Lemma align_down_page x : ALIGN_DOWN x PAGE_SIZE = x / 4096 * 4096.
Proof.
  unfold ALIGN_DOWN, PAGE_SIZE. change (4096 - 1) with (Z.ones 12).
  change (Z.land x (Z.lnot (Z.ones 12))) with (Z.land x (Z.lnot (Z.ones 12))).
  rewrite <- Z.ldiff_land, Z.ldiff_ones_r by lia. rewrite Z.shiftl_mul_pow2, Z.shiftr_div_pow2 by lia. done.
Qed.

(** The header a new slab starts with: no item in use. *)
Lemma fresh_slab_ok o junk :
  5 <= o <= 11 -> length junk = 8%nat -> Forall (fun b => 0 <= b < 256) junk ->
  (o = 5 -> junk = replicate 8 0) ->
  let s := Slab (replicate 8 0 ++ junk) 0 (u16 ((Z.shiftl PAGE_SIZE (slab_pages o) - ALIGN_UP sizeof_slab (2 ^ o)) / 2 ^ o)) (u16 o) in
  slab_ok s (slab_pages o) /\ slab_order s = o /\ inuse s <> total s /\
  forall i, 0 <= i < total s -> item_used (bitmap s) i = false.
Proof.
  intros Ho Hl Hj H5 s. pose proof (size_facts o Ho) as (Hp & Hh & _ & Ht & _ & _ & _ & H64 & Hsh).
  assert (Htot : total s = total_for o).
  { cbn [total s]. change PAGE_SIZE with 4096. rewrite Hsh. fold (hdr o). fold (total_for o). apply u16_small. lia. }
  assert (Hord : slab_order s = o) by (apply u16_small; lia).
  assert (Hzero : forall i, 0 <= i < total s -> item_used (bitmap s) i = false).
  { intros i Hi. unfold item_used. cbn [bitmap s].
    assert (Hb : (replicate 8 0 ++ junk) !! Z.to_nat (i / 8) = Some 0).
    { destruct (decide (i < 64)).
      - rewrite lookup_app_l by (rewrite length_replicate; zdiv). apply lookup_replicate_2. zdiv.
      - assert (o = 5) as E by (destruct (decide (o = 5)); [done|]; specialize (H64 ltac:(lia)); lia).
        rewrite (H5 E). rewrite <- replicate_add. apply lookup_replicate_2. zdiv. }
    rewrite Hb. apply Z.bits_0. }
  split; [|split; [done|split; [cbn [inuse s]; lia|done]]]. split.
  - rewrite Hord. done.
  - by rewrite Hord.
  - by rewrite Hord.
  - split; [cbn [bitmap s]; rewrite length_app, Hl; done|]. apply Forall_app. split; [|done].
    apply Forall_replicate. lia.
  - cbn [inuse s]. symmetry. apply used_count_zero. intros i Hi. apply Hzero. lia.
Qed.
