(* ===== verification/SlabOps.v ===== *)
(** * The kernel heap: [kmalloc] and [kfree] against the invariant *)
From S2P Require Import Prelude KList KString Buddy BuddyInv BuddyOps BuddyRef Slab SlabInv.

Definition is_cache (n : snode) : Prop := exists i, 0 <= i < CACHES /\ (n = SFull i \/ n = SPartial i).

(** The list a slab belongs on. *)
Definition home (s : slab) : snode :=
  if inuse s =? total s then SFull (slab_order s - 5) else SPartial (slab_order s - 5).

(** Which list the node of the slab at [a] hangs on. *)
Definition hangs (V : gmap Z (Z * Z)) (sl : gmap Z slab) (n : snode) : option snode :=
  match n with
  | SSlab a =>
      match V !! pfn_of_va a with
      | Some (_, w) =>
          if (w =? PAGE_SLAB) && (a =? page_va (pfn_of_va a)) then home <$> sl !! a else None
      | None => None
      end
  | _ => None
  end.

Section SlabOps.
Context {S : Type} `{!PageAllocator S}.

Record heap_inv (V : gmap Z (Z * Z)) (k : kheap S) : Prop := {
  hi_view : pa_view (pages k) V;
  hi_slabs : forall p w, V !! p = Some (w, PAGE_SLAB) -> exists s, slabs k !! page_va p = Some s /\ slab_ok s w;
  hi_lists : hung (snodes k) is_cache (hangs V (slabs k));
}.

(** The items in use: address and size. *)
Definition live_obj (V : gmap Z (Z * Z)) (k : kheap S) (addr n : Z) : Prop :=
  exists p w s i, V !! p = Some (w, PAGE_SLAB) /\ slabs k !! page_va p = Some s /\
    0 <= i < total s /\ item_used (bitmap s) i = true /\
    addr = item_addr p (slab_order s) i /\ n = 2 ^ slab_order s.

Lemma view_page V k p x : heap_inv V k -> V !! p = Some x -> 0 <= p < NPAGES /\ pfn_of_va (page_va p) = p.
Proof.
  intros Hi Hp. destruct x as [o w]. pose proof (pa_range _ _ _ _ _ (hi_view _ _ Hi) Hp).
  pose proof (pow2_pos o ltac:(lia)). split; [lia|]. apply page_va_pfn0. lia.
Qed.

Lemma hangs_slab V k p w s :
  heap_inv V k -> V !! p = Some (w, PAGE_SLAB) -> slabs k !! page_va p = Some s ->
  hangs V (slabs k) (SSlab (page_va p)) = Some (home s).
Proof.
  intros Hi Hp Hs. cbn. destruct (view_page _ _ _ _ Hi Hp) as [_ ->]. rewrite Hp, Hs. by rewrite !Z.eqb_refl.
Qed.

Lemma hangs_inv V k n c :
  heap_inv V k -> hangs V (slabs k) n = Some c ->
  exists p w s, n = SSlab (page_va p) /\ V !! p = Some (w, PAGE_SLAB) /\ slabs k !! page_va p = Some s /\
    slab_ok s w /\ c = home s.
Proof.
  intros Hi H. destruct n as [| |a]; [done|done|]. cbn in H.
  destruct (V !! pfn_of_va a) as [[w o]|] eqn:E; [|done].
  destruct (Z.eqb_spec o PAGE_SLAB) as [->|]; [|done]. destruct (Z.eqb_spec a (page_va (pfn_of_va a))) as [Ea|]; [|done].
  cbn [andb] in H. destruct (hi_slabs _ _ Hi _ _ E) as (s & Hs & Hok). rewrite <- Ea in Hs. rewrite Hs in H.
  cbn in H. exists (pfn_of_va a), w, s. rewrite <- Ea. naive_solver.
Qed.

Lemma page_va_inj p q : 0 <= p < NPAGES -> 0 <= q < NPAGES -> page_va p = page_va q -> p = q.
Proof. intros Hp Hq. rewrite !page_va_eq by done. lia. Qed.

(** Replacing one header by another well-formed one of the same size. *)
Lemma put_slab_hangs V k p w s s' n :
  heap_inv V k -> V !! p = Some (w, PAGE_SLAB) -> slabs k !! page_va p = Some s ->
  hangs V (<[page_va p := s']> (slabs k)) n =
    if decide (n = SSlab (page_va p)) then Some (home s') else hangs V (slabs k) n.
Proof.
  intros Hi Hp Hs. destruct (view_page _ _ _ _ Hi Hp) as [Hr Hpfn]. case_decide as Hd.
  - subst n. cbn. rewrite Hpfn, Hp, !Z.eqb_refl. cbn. by rewrite lookup_insert_eq.
  - destruct n as [| |a]; [done|done|]. cbn. destruct (V !! _) as [[ow ww]|]; [|done]. case_match; [|done]. rewrite lookup_insert_ne; [done|]. intros <-. done.
Qed.

Lemma put_slab_ok V k p w s s' h :
  heap_inv V k -> V !! p = Some (w, PAGE_SLAB) -> slabs k !! page_va p = Some s -> slab_ok s' w ->
  hung h is_cache (hangs V (<[page_va p := s']> (slabs k))) ->
  heap_inv V (KHeap (pages k) (<[page_va p := s']> (slabs k)) h).
Proof.
  intros Hi Hp Hs Hs' Hh. split; cbn [pages slabs snodes]; [apply Hi| |done].
  intros q wq Hq. destruct (decide (q = p)) as [->|Hne].
  - exists s'. rewrite lookup_insert_eq. split; [done|]. congruence.
  - rewrite lookup_insert_ne; [by apply (hi_slabs _ _ Hi)|]. intros E. apply Hne.
    destruct (view_page _ _ _ _ Hi Hp), (view_page _ _ _ _ Hi Hq). by apply page_va_inj.
Qed.

Lemma cache_head_ok mk i : 0 <= i < CACHES -> cache_head mk i = Ok (mk i).
Proof.
  intros Hi. unfold cache_head. rewrite (proj2 (Z.leb_le 0 i)), (proj2 (Z.ltb_lt i CACHES)) by lia. done.
Qed.

Lemma home_cache s w : slab_ok s w -> is_cache (home s).
Proof.
  intros Hs. pose proof (slab_sizes _ _ Hs) as (Ho & _). unfold home, is_cache, CACHES.
  exists (slab_order s - 5). destruct (inuse s =? total s); (split; [lia|]); [by left|by right].
Qed.

(** ** Items *)

(** Item [i] of the slab in the block of page [p]. *)
Definition item_of (V : gmap Z (Z * Z)) (k : kheap S) (p i : Z) (s : slab) : Prop :=
  exists w, V !! p = Some (w, PAGE_SLAB) /\ slabs k !! page_va p = Some s /\ 0 <= i < total s.

Lemma item_facts V k p i s : heap_inv V k -> item_of V k p i s ->
  0 <= p < NPAGES /\ 5 <= slab_order s <= 11 /\ 32 <= 2 ^ slab_order s <= 2048 /\
  V !! p = Some (slab_pages (slab_order s), PAGE_SLAB) /\ slab_ok s (slab_pages (slab_order s)) /\
  VIRT_BASE + p * 4096 + 40 <= item_addr p (slab_order s) i /\
  item_addr p (slab_order s) i + 2 ^ slab_order s <= VIRT_BASE + p * 4096 + 4096 * 2 ^ slab_pages (slab_order s).
Proof.
  intros Hi (w & Hp & Hs & Hir). destruct (hi_slabs _ _ Hi _ _ Hp) as (s' & Hs' & Hok).
  assert (s' = s) as -> by congruence. pose proof (slab_sizes _ _ Hok) as (Ho & Hpow & _ & _).
  destruct (size_facts _ Ho) as (_ & Hh & _ & _ & Hend & _). pose proof (so_pages _ _ Hok) as Hw. subst w.
  destruct (view_page _ _ _ _ Hi Hp) as [Hr _]. split; [done|]. split; [done|]. split; [done|].
  split; [done|]. split; [done|]. unfold item_addr. rewrite page_va_eq by done.
  pose proof (so_total _ _ Hok) as Ht. rewrite Ht in *. nia.
Qed.

(** Two different items do not overlap. *)
Lemma items_apart V k p i s q j t : heap_inv V k -> item_of V k p i s -> item_of V k q j t ->
  ~ (p = q /\ i = j) ->
  item_addr p (slab_order s) i + 2 ^ slab_order s <= item_addr q (slab_order t) j \/
  item_addr q (slab_order t) j + 2 ^ slab_order t <= item_addr p (slab_order s) i.
Proof.
  intros Hi H1 H2 Hne. destruct (item_facts _ _ _ _ _ Hi H1) as (? & ? & ? & HV1 & _ & ? & ?).
  destruct (item_facts _ _ _ _ _ Hi H2) as (? & ? & ? & HV2 & _ & ? & ?).
  destruct (decide (p = q)) as [->|Hpq].
  - destruct H1 as (w1 & _ & Hs & _), H2 as (w2 & _ & Ht & _). assert (s = t) as -> by congruence.
    unfold item_addr. assert (i <> j) by tauto. nia.
  - pose proof (pa_disjoint _ _ _ _ _ _ _ _ (hi_view _ _ Hi) HV1 HV2 Hpq). lia.
Qed.

(** Which items are in use after a header is replaced by one that differs in the
    bit of item [j]. *)
Lemma live_update V k p j s s' h (v : bool) :
  heap_inv V k -> item_of V k p j s -> slab_order s' = slab_order s -> total s' = total s ->
  (forall i, 0 <= i < 128 -> item_used (bitmap s') i = if decide (i = j) then v else item_used (bitmap s) i) ->
  forall a n, live_obj V (KHeap (pages k) (<[page_va p := s']> (slabs k)) h) a n <->
    if v then live_obj V k a n \/ (a = item_addr p (slab_order s) j /\ n = 2 ^ slab_order s)
    else live_obj V k a n /\ a <> item_addr p (slab_order s) j.
Proof.
  intros Hi Hj Ho Ht Hbits a n. destruct (item_facts _ _ _ _ _ Hi Hj) as (Hpr & _ & Hpow & _ & Hok & _).
  pose proof (slab_sizes _ _ Hok) as (_ & _ & Hmax & _). pose proof Hj as Hj0. destruct Hj as (w & Hp & Hs & Hjr).
  assert (Hpage : forall q x, V !! q = Some x -> q <> p -> page_va q <> page_va p).
  { intros q x Hq Hne E. apply Hne, page_va_inj; [|done|done]. by destruct (view_page _ _ _ _ Hi Hq). }
  assert (Hne : forall q i t, item_of V k q i t -> item_addr q (slab_order t) i = item_addr p (slab_order s) j ->
    q = p /\ i = j).
  { intros q i t Hq E. destruct (decide (q = p /\ i = j)) as [|Hd]; [done|]. exfalso.
    destruct (item_facts _ _ _ _ _ Hi Hq) as (_ & _ & ? & _).
    destruct (items_apart V k q i t p j s Hi Hq Hj0 Hd); lia. }
  split.
  - intros (q & wq & sq & i & Hq & Hsq & Hir & Hu & -> & ->). cbn [slabs] in Hsq.
    destruct (decide (q = p)) as [->|Hqp].
    + rewrite lookup_insert_eq in Hsq. injection Hsq as <-. rewrite Ho, Ht in *. rewrite Hbits in Hu by lia.
      case_decide as Hd.
      * subst v i. by right.
      * assert (live_obj V k (item_addr p (slab_order s) i) (2 ^ slab_order s)) by (by exists p, w, s, i).
        destruct v; [by left|]. split; [done|]. intros E. destruct (Hne p i s) as [_ ?]; [by exists w|done|done].
    + rewrite lookup_insert_ne in Hsq by (apply not_eq_sym; by eapply Hpage).
      assert (live_obj V k (item_addr q (slab_order sq) i) (2 ^ slab_order sq)) by (by exists q, wq, sq, i).
      destruct v; [by left|]. split; [done|]. intros E. destruct (Hne q i sq) as [? _]; [by exists wq|done|done].
  - intros H. destruct (decide (v = true /\ a = item_addr p (slab_order s) j /\ n = 2 ^ slab_order s)) as [(-> & -> & ->)|Hnew].
    + exists p, w, s', j. cbn [slabs]. rewrite lookup_insert_eq, Ho, Ht.
      split_and!; try done || lia. by rewrite Hbits, decide_True by lia.
    + assert (Hl : live_obj V k a n /\ (v = true \/ a <> item_addr p (slab_order s) j)) by (destruct v; tauto).
      destruct Hl as [(q & wq & sq & i & Hq & Hsq & Hir & Hu & -> & ->) Hv].
      destruct (decide (q = p)) as [->|Hqp].
      * assert (sq = s) as -> by congruence. exists p, wq, s', i. cbn [slabs]. rewrite lookup_insert_eq, Ho, Ht.
        split_and!; try done || lia. rewrite Hbits by lia. case_decide as Hd; [|done]. subst i. tauto.
      * exists q, wq, sq, i. cbn [slabs]. rewrite lookup_insert_ne by (apply not_eq_sym; by eapply Hpage). done.
Qed.

Lemma item_addr_aligned p o i :
  0 <= p < NPAGES -> 5 <= o <= 11 -> 0 <= i -> item_addr p o i mod 2 ^ o = 0 /\ item_addr p o i <> 0.
Proof.
  intros Hp Ho Hi. unfold item_addr. destruct (size_facts _ Ho) as (? & ? & Hh & _). rewrite page_va_eq by done.
  unfold VIRT_BASE. split; [|nia]. rewrite Hh. apply Z.mod_divide; [lia|].
  assert (E12 : 4096 = 2 ^ (12 - o) * 2 ^ o)
    by (rewrite <- Z.pow_add_r by lia; replace (12 - o + o) with 12 by lia; done).
  exists ((0xFFFF800000000 + p) * 2 ^ (12 - o) + hdr o / 2 ^ o + i).
  rewrite !Z.mul_add_distr_r, <- !Z.mul_assoc, <- E12. lia.
Qed.

(** ** Taking an item *)

(** A slab of items of [2 ^ o] bytes has an item that is not in use. *)
Definition free_item (V : gmap Z (Z * Z)) (k : kheap S) (o : Z) : Prop :=
  exists p s i, item_of V k p i s /\ slab_order s = o /\ item_used (bitmap s) i = false.

(** The partial list of a size class is empty when no slab of it has a free item. *)
Lemma partial_empty V k i : heap_inv V k -> 0 <= i < CACHES ->
  list_empty (SPartial i) (snodes k) = true <-> ~ free_item V k (i + 5).
Proof.
  intros Hi Hir. assert (HP : is_cache (SPartial i)) by (exists i; auto).
  destruct (hung_next _ _ _ _ (hi_lists _ _ Hi) HP) as [[-> Hno]|[-> (n & _ & HM)]].
  - split; [intros _|done]. intros (p & s & j & (w & Hp & Hs & Hj) & Ho & Hu). apply (Hno (SSlab (page_va p))).
    destruct (hi_slabs _ _ Hi _ _ Hp) as (s' & Hs' & Hok). assert (s' = s) as -> by congruence.
    rewrite (hangs_slab V k p w s Hi Hp Hs). unfold home. destruct (Z.eqb_spec (inuse s) (total s)) as [Ef|]; [|do 2 f_equal; lia].
    rewrite (used_count_full (bitmap s) (Z.to_nat (total s))) in Hu; [done| |lia]. rewrite <- (so_inuse _ _ Hok). lia.
  - split; [done|]. intros Hno. destruct Hno. destruct (hangs_inv _ _ _ _ Hi HM) as (p & w & s & -> & Hp & Hs & Hok & Hhome).
    pose proof (slab_sizes _ _ Hok) as (Ho & _ & Ht & Hin).
    unfold home in Hhome. destruct (Z.eqb_spec (inuse s) (total s)) as [|Hnf]; [done|]. injection Hhome as Hi5.
    destruct (used_count_free (bitmap s) (Z.to_nat (total s))) as (j & Hj & Hf); [rewrite <- (so_inuse _ _ Hok); lia|].
    exists p, s, j. split; [exists w; split_and!; done || lia|]. split; [lia|done].
Qed.

Lemma take_item_ok V k i :
  heap_inv V k -> 0 <= i < CACHES -> list_empty (SPartial i) (snodes k) = false ->
  exists addr k', take_item (SPartial i) (SFull i) k = Ok (addr, k') /\ heap_inv V k' /\
    ~ live_obj V k addr (2 ^ (i + 5)) /\
    (forall a n, live_obj V k' a n <-> live_obj V k a n \/ (a = addr /\ n = 2 ^ (i + 5))) /\
    addr mod 2 ^ (i + 5) = 0 /\ addr <> 0.
Proof.
  intros Hi Hir He.
  assert (HP : is_cache (SPartial i)) by (exists i; auto).
  destruct (hung_next _ _ _ _ (hi_lists _ _ Hi) HP) as [[E _]|[_ (n & Hn & HM)]]; [congruence|].
  destruct (hangs_inv _ _ _ _ Hi HM) as (p & w & s & -> & Hp & Hs & Hok & Hhome).
  pose proof (slab_sizes _ _ Hok) as (Ho & Hpow & Ht & Hin).
  unfold home in Hhome. destruct (Z.eqb_spec (inuse s) (total s)) as [|Hnf]; [done|]. injection Hhome as Hi5.
  destruct (view_page _ _ _ _ Hi Hp) as [Hpr Hpfn].
  assert (Hfree : exists j, 0 <= j < total s /\ item_used (bitmap s) j = false).
  { destruct (used_count_free (bitmap s) (Z.to_nat (total s))) as (j & Hj & Hf);
      [rewrite <- (so_inuse _ _ Hok); lia|]. exists j. split; [lia|done]. }
  destruct (addr_loop_ok (Z.to_nat (total s)) 0 p s w Hok Hpr) as (j & bm' & E & Hj & Hjf & Hb' & Hupd);
    [lia|lia|done|].
  set (s' := Slab bm' (inuse s + 1) (total s) (slab_order s)) in *.
  assert (Hitem : item_of V k p j s) by (by exists w).
  assert (Hok' : slab_ok s' w).
  { destruct Hok as [K1 K2 K3 K4 K5]. split; cbn [bitmap inuse total slab_order s']; try done.
    rewrite (used_count_update (bitmap s) bm' _ j true Hupd), <- K5; [done|lia|lia|done]. }
  pose proof (fun h => live_update V k p j s s' h true Hi Hitem eq_refl eq_refl Hupd) as Hlive. cbn beta iota in Hlive.
  assert (Hnew : ~ live_obj V k (item_addr p (slab_order s) j) (2 ^ slab_order s)).
  { intros (q & wq & sq & jq & Hq & Hsq & Hjq & Hu & Ea & En).
    destruct (decide (p = q /\ j = jq)) as [[<- <-]|Hne]; [congruence|].
    assert (Hitem' : item_of V k q jq sq) by (by exists wq).
    destruct (item_facts _ _ _ _ _ Hi Hitem') as (_ & _ & ? & _).
    destruct (items_apart V k p j s q jq sq Hi Hitem Hitem' Hne); lia. }
  pose proof (item_addr_aligned p (slab_order s) j Hpr Ho ltac:(lia)) as Hal.
  unfold take_item. rewrite Hn. cbn [deref mbind res_bind slab_of_node]. unfold get_slab. rewrite Hs.
  cbn [deref mbind res_bind]. unfold _addr_from_slab. rewrite E. cbn [mbind res_bind].
  change (inuse s') with (inuse s + 1). change (total s') with (total s).
  assert (Hso : i + 5 = slab_order s) by lia. rewrite Hso.
  destruct (Z.eqb_spec (inuse s + 1) (total s)) as [Hfull|Hpart].
  - unfold on_snodes, put_slab. cbn [snodes slabs pages].
    destruct (hung_remove _ _ _ _ _ (hi_lists _ _ Hi) HP HM) as (h1 & -> & Hh1). cbn [mbind res_bind snodes slabs pages].
    destruct (hung_add _ _ _ (SFull i) (SSlab (page_va p)) Hh1) as (h2 & -> & Hh2 & _);
      [exists i; auto|by rewrite fn_lookup_insert|by intros (i' & _ & [|])|].
    cbn [mbind res_bind]. eexists _, _. split; [done|]. split; [|split; [done|split; [apply Hlive|done]]].
    eapply put_slab_ok; [done|done|done|done|]. eapply hung_ext; [|exact Hh2]. intros n.
    rewrite (put_slab_hangs V k p w s) by done. case_decide as Hd.
    + subst n. rewrite fn_lookup_insert. unfold home. cbn [s' inuse total slab_order].
      rewrite (proj2 (Z.eqb_eq _ _) Hfull). do 2 f_equal. lia.
    + by rewrite !fn_lookup_insert_ne by done.
  - eexists _, _. split; [done|]. split; [|split; [done|split; [apply Hlive|done]]].
    eapply put_slab_ok; [done|done|done|done|]. eapply hung_ext; [|exact (hi_lists _ _ Hi)]. intros n.
    rewrite (put_slab_hangs V k p w s) by done. case_decide as Hd; [|done].
    subst n. rewrite HM. unfold home. cbn [s' inuse total slab_order].
    rewrite (proj2 (Z.eqb_neq _ _) Hpart). do 2 f_equal. lia.
Qed.

(** ** [kfree] *)

Lemma item_page V k p i s : heap_inv V k -> item_of V k p i s ->
  let ptr := item_addr p (slab_order s) i in
  exists q, ALIGN_DOWN ptr PAGE_SIZE = page_va q /\ p <= q < p + 2 ^ slab_pages (slab_order s) /\
    ptr <> 0 /\ item_index ptr (page_va p) s = i.
Proof.
  intros Hi Hit ptr. destruct (item_facts _ _ _ _ _ Hi Hit) as (Hr & Ho & Hpow & HV & Hok & Hlo & Hhi).
  fold ptr in Hlo, Hhi. pose proof (pa_range _ _ _ _ _ (hi_view _ _ Hi) HV) as (_ & _ & Hend).
  destruct Hit as (_ & _ & _ & Hir). pose proof (slab_sizes _ _ Hok) as (_ & _ & Hmax & _).
  unfold VIRT_BASE in *. exists ((ptr - 0xFFFF800000000000) / 4096).
  assert (Hq : p <= (ptr - 0xFFFF800000000000) / 4096 < p + 2 ^ slab_pages (slab_order s)) by zdiv.
  split; [|split; [done|split; [lia|]]].
  - rewrite align_down_page, page_va_eq by lia. unfold VIRT_BASE. zdiv.
  - unfold item_index. rewrite shiftl_1 by lia. fold (hdr (slab_order s)).
    destruct (size_facts _ Ho) as (_ & _ & Hh & _ & _ & Hpg & _).
    replace (ptr - page_va p) with ((hdr (slab_order s) / 2 ^ slab_order s + i) * 2 ^ slab_order s)
      by (unfold ptr, item_addr; lia).
    pose proof (pow2_le (slab_pages (slab_order s)) 2 ltac:(lia)). change (2 ^ 2) with 4 in *.
    assert (0 <= (hdr (slab_order s) / 2 ^ slab_order s + i) * 2 ^ slab_order s <= 16384).
    { unfold ptr, item_addr in *. rewrite page_va_eq in * by done. unfold VIRT_BASE in *. lia. }
    rewrite (u64_small (_ * 2 ^ slab_order s)) by lia.
    rewrite Z.div_mul by lia. rewrite u64_small by lia. lia.
Qed.

(** Clearing the bit of an item in use and counting it off. *)
Lemma drop_item_ok V k p i s bm' :
  heap_inv V k -> item_of V k p i s -> item_used (bitmap s) i = true -> bytes_ok bm' ->
  (forall j, 0 <= j < 128 -> item_used bm' j = if decide (j = i) then false else item_used (bitmap s) j) ->
  exists k' V', drop_item (page_va p) (Slab bm' (inuse s) (total s) (slab_order s)) k = Ok k' /\ heap_inv V' k' /\
    (forall a n, live_obj V' k' a n <-> live_obj V k a n /\ a <> item_addr p (slab_order s) i) /\
    V' = if inuse s =? 1 then delete p V else V.
Proof.
  intros Hi Hit Hu Hb' Hupd. destruct (item_facts _ _ _ _ _ Hi Hit) as (Hpr & Ho & _ & HV & Hok & _).
  pose proof (slab_sizes _ _ Hok) as (_ & _ & Ht & Hin). pose proof Hit as (w & Hp & Hs & Hir).
  assert (w = slab_pages (slab_order s)) as -> by congruence. set (w := slab_pages (slab_order s)) in *.
  assert (Hcnt : used_count bm' (Z.to_nat (total s)) = inuse s - 1).
  { rewrite (used_count_update (bitmap s) bm' _ i false Hupd), <- (so_inuse _ _ Hok); [lia|lia|lia|done]. }
  pose proof (used_count_range bm' (Z.to_nat (total s))).
  set (s1 := Slab bm' (inuse s) (total s) (slab_order s)).
  set (s2 := Slab bm' (inuse s - 1) (total s) (slab_order s)).
  assert (Hok2 : slab_ok s2 w) by (destruct Hok as [K1 K2 K3 K4 K5]; split; cbn [s2 bitmap inuse total slab_order]; done).
  assert (Hhome2 : home s2 = SPartial (slab_order s - 5)).
  { unfold home. cbn [s2 inuse total slab_order]. by rewrite (proj2 (Z.eqb_neq _ _)) by lia. }
  pose proof (hangs_slab V k p w s Hi HV Hs) as HM.
  assert (HP : is_cache (SPartial (slab_order s - 5))) by (exists (slab_order s - 5); unfold CACHES; split; [lia|by right]).
  (* after the first step the node is on the partial list *)
  assert (Hmove : exists h, (if inuse s1 =? total s1 then
         k ← on_snodes (list_remove (SSlab (page_va p))) (put_slab (page_va p) s1 k);
         partial ← cache_head SPartial (slab_order s1 - MIN_SLAB_ORDER);
         on_snodes (list_add (SSlab (page_va p)) partial) k
       else Ok (put_slab (page_va p) s1 k)) = Ok (KHeap (pages k) (<[page_va p := s1]> (slabs k)) h) /\
     hung h is_cache (hangs V (<[page_va p := s2]> (slabs k)))).
  { cbn [s1 inuse total slab_order]. change MIN_SLAB_ORDER with 5. destruct (Z.eqb_spec (inuse s) (total s)) as [Hfull|Hpart].
    - unfold on_snodes, put_slab. cbn [pages slabs snodes].
      destruct (hung_remove _ _ _ _ _ (hi_lists _ _ Hi) (home_cache _ _ Hok) HM) as (h1 & -> & Hh1).
      cbn [mbind res_bind pages slabs snodes]. rewrite cache_head_ok by (unfold CACHES; lia). cbn [mbind res_bind].
      destruct (hung_add _ _ _ (SPartial (slab_order s - 5)) (SSlab (page_va p)) Hh1 HP) as (h2 & -> & Hh2 & _);
        [by rewrite fn_lookup_insert|by intros (i' & _ & [|])|].
      cbn [mbind res_bind]. exists h2. split; [done|]. eapply hung_ext; [|exact Hh2]. intros n.
      rewrite (put_slab_hangs V k p w s) by done. case_decide as Hd.
      + subst n. by rewrite fn_lookup_insert, Hhome2.
      + by rewrite !fn_lookup_insert_ne by done.
    - exists (snodes k). split; [done|]. eapply hung_ext; [|exact (hi_lists _ _ Hi)]. intros n.
      rewrite (put_slab_hangs V k p w s) by done. case_decide as Hd; [|done].
      subst n. rewrite HM, Hhome2. unfold home. by rewrite (proj2 (Z.eqb_neq _ _) Hpart). }
  destruct Hmove as (h & Emove & Hh).
  pose proof (put_slab_ok V k p w s s2 h Hi HV Hs Hok2 Hh) as Hi2.
  pose proof (live_update V k p i s s2 h false Hi Hit eq_refl eq_refl Hupd) as Hlive. cbn beta iota in Hlive.
  unfold drop_item. fold s1. rewrite Emove. cbn [mbind res_bind].
  change (inuse s1) with (inuse s). change (bitmap s1) with bm'. change (total s1) with (total s). change (slab_order s1) with (slab_order s).
  rewrite (u16_small (inuse s - 1)) by lia. fold s2. unfold put_slab. cbn [pages slabs snodes inuse s2].
  rewrite insert_insert_eq. fold s2. destruct (Z.eqb_spec (inuse s) 1) as [H1|H1].
  - rewrite (proj2 (Z.eqb_eq (inuse s - 1) 0)) by lia. unfold on_snodes. cbn [pages slabs snodes].
    assert (HM2 : hangs V (<[page_va p := s2]> (slabs k)) (SSlab (page_va p)) = Some (SPartial (slab_order s - 5))).
    { rewrite (put_slab_hangs V k p w s) by done. by rewrite decide_True, Hhome2. }
    destruct (hung_remove _ _ _ _ _ Hh HP HM2) as (h3 & -> & Hh3). cbn [mbind res_bind pages slabs snodes].
    destruct (pa_free_spec _ _ _ _ _ 0 (hi_view _ _ Hi) HV) as (s3 & E3 & Hv3); [lia|]. rewrite Z.add_0_r in E3.
    unfold on_pages. cbn [pages slabs snodes]. rewrite E3. cbn [mbind res_bind pages slabs snodes].
    eexists _, (delete p V). split; [done|]. split; [|split; [|done]].
    + split; cbn [pages slabs snodes]; [done| |].
      * intros q wq Hq. rewrite lookup_delete in Hq. case_decide; [done|]. by apply (hi_slabs _ _ Hi2).
      * eapply hung_ext; [|exact Hh3]. intros n. destruct (decide (n = SSlab (page_va p))) as [->|Hne].
        -- rewrite fn_lookup_insert. cbn. by rewrite page_va_pfn0, lookup_delete_eq by done.
        -- rewrite fn_lookup_insert_ne by done. destruct n as [| |a]; [done|done|]. cbn.
           rewrite lookup_delete. case_decide as Hd; [|done]. rewrite <- Hd.
           destruct (Z.eqb_spec a (page_va p)) as [->|]; [done|]. destruct (V !! p) as [[? ?]|]; [|done].
           by rewrite andb_false_r.
    + intros a n. rewrite <- Hlive. split.
      * intros (q & wq & sq & j & Hq & H'). apply lookup_delete_Some in Hq as [_ Hq]. exists q, wq, sq, j. done.
      * intros (q & wq & sq & j & Hq & Hsq & Hj & Huj & -> & ->). exists q, wq, sq, j. cbn [slabs] in *.
        rewrite lookup_delete_ne; [done|]. intros <-. rewrite lookup_insert_eq in Hsq. injection Hsq as <-.
        cbn [s2 bitmap total] in *. rewrite (used_count_zero_inv bm' (Z.to_nat (total s)) j) in Huj by lia. done.
  - rewrite (proj2 (Z.eqb_neq (inuse s - 1) 0)) by lia. eexists _, V. split; [done|]. split; [exact Hi2|]. split; [|done].
    exact Hlive.
Qed.

Lemma kfree_ok V k addr n :
  heap_inv V k -> live_obj V k addr n ->
  exists k' V', kfree addr k = Ok k' /\ heap_inv V' k' /\
    (forall a m, live_obj V' k' a m <-> live_obj V k a m /\ a <> addr) /\ V' ⊆ V.
Proof.
  intros Hi (p & w & s & i & Hp & Hs & Hir & Hu & -> & ->).
  assert (Hit : item_of V k p i s) by (by exists w).
  destruct (item_facts _ _ _ _ _ Hi Hit) as (Hpr & Ho & _ & HV & Hok & _).
  destruct (item_page _ _ _ _ _ Hi Hit) as (q & Eq & Hq & Hnz & Hidx).
  set (ptr := item_addr p (slab_order s) i) in *. pose proof (slab_sizes _ _ Hok) as (_ & _ & Ht & Hin).
  destruct (bytes_lookup (bitmap s) i (so_bytes _ _ Hok) ltac:(lia)) as (b & Eb & Hb & Hub).
  destruct (clear_bit_byte b (i mod 8) Hb ltac:(zdiv)) as (Hr & Hbits).
  destruct (update_bit (bitmap s) i _ false b (so_bytes _ _ Hok) ltac:(lia) Eb Hr Hbits) as [Hok' Hupd].
  destruct (drop_item_ok V k p i s _ Hi Hit Hu Hok' Hupd) as (k' & V' & E & Hi' & Hl' & HV').
  exists k', V'. split; [|split; [done|split; [done|]]].
  2: { rewrite HV'. destruct (inuse s =? 1); [apply delete_subseteq|done]. }
  rewrite <- E. unfold kfree. rewrite (proj2 (Z.eqb_neq _ _) Hnz), Eq.
  pose proof (pa_owner_spec _ _ _ _ _ q 0 (hi_view _ _ Hi) HV Hq ltac:(lia)) as Eo. rewrite Z.add_0_r in Eo.
  pose proof (pa_head_spec _ _ _ _ _ q 0 (hi_view _ _ Hi) HV Hq ltac:(lia)) as Eh. rewrite Z.add_0_r in Eh.
  destruct k as [pg sl sn]. cbn [pages slabs snodes] in *. unfold on_pages. cbn [pages slabs snodes].
  rewrite Eo. cbn [mbind res_bind pages slabs snodes Z.eqb PAGE_SLAB PAGE_BUDDY Pos.eqb].
  unfold _slab_free, on_pages. rewrite Eq. cbn [pages slabs snodes]. rewrite Eh. cbn [mbind res_bind pages slabs snodes].
  unfold get_slab. cbn [slabs]. rewrite Hs. cbn [deref mbind res_bind]. rewrite Hidx, Eb. cbn [deref mbind res_bind].
  rewrite bit_set_testbit, <- Hub, Hu by zdiv. done.
Qed.
(** ** [kmalloc], over a [map] that meets its contract *)

Context (map : Z -> Z -> Z -> Z -> Z -> S -> res (bool * S)) (L0_TABLE : Z).

(** What the heap needs of [map]: it returns, keeps every block in use, and the
    blocks it takes itself do not belong to slabs. *)
Definition kernel_map_ok : Prop := forall va pa o fl s V, pa_view s V ->
  exists b s' V', map va pa o fl L0_TABLE s = Ok (b, s') /\ pa_view s' V' /\
    (forall p x, V !! p = Some x -> V' !! p = Some x) /\
    (forall p w, V' !! p = Some (w, PAGE_SLAB) -> V !! p = Some (w, PAGE_SLAB)).

(** What a new slab needs of it: the same for the slab's own pages. *)
Definition slab_map_ok : Prop := forall p w fl s V, pa_view s V -> V !! p = Some (w, PAGE_SLAB) -> 0 <= w <= 2 ->
  exists b s' V', map (page_va p) (va_to_pa (page_va p)) w fl L0_TABLE s = Ok (b, s') /\ pa_view s' V' /\
    (forall q x, V !! q = Some x -> V' !! q = Some x) /\
    (forall q x, V' !! q = Some (x, PAGE_SLAB) -> V !! q = Some (x, PAGE_SLAB)).

Lemma slab_map_of : kernel_map_ok -> slab_map_ok.
Proof. intros H p w fl s V Hv _ _. by apply H. Qed.

(** ** A new slab *)

(** What memory holds in the upper bitmap bytes of a new header, which the code
    does not clear, is eight bytes. *)
Definition junk_bytes (junk : Z -> list Z) : Prop := forall a, length (junk a) = 8%nat /\ Forall (fun b => 0 <= b < 256) (junk a).

(** A view that grew by one slab block and by blocks of others. *)
Lemma hangs_grow V V' sl p w s n :
  0 <= p < NPAGES -> V !! p = None -> V' !! p = Some (w, PAGE_SLAB) ->
  (forall q x, V !! q = Some x -> V' !! q = Some x) ->
  (forall q x, q <> p -> V' !! q = Some (x, PAGE_SLAB) -> V !! q = Some (x, PAGE_SLAB)) ->
  hangs V' (<[page_va p := s]> sl) n = if decide (n = SSlab (page_va p)) then Some (home s) else hangs V sl n.
Proof.
  intros Hr HV HV' Hsub Hsup. case_decide as Hd.
  - subst n. cbn. rewrite page_va_pfn0, HV' by done. rewrite !Z.eqb_refl. cbn. by rewrite lookup_insert_eq.
  - destruct n as [| |a]; [done|done|]. cbn. destruct (Z.eqb_spec a (page_va (pfn_of_va a))) as [Ea|].
    + assert (Hne : pfn_of_va a <> p) by congruence. rewrite lookup_insert_ne by congruence.
      destruct (V !! pfn_of_va a) as [[w0 o0]|] eqn:E; [by rewrite (Hsub _ _ E)|].
      destruct (V' !! pfn_of_va a) as [[w0 o0]|] eqn:E'; [|done].
      destruct (Z.eqb_spec o0 PAGE_SLAB) as [->|]; [|done]. apply (Hsup _ _ Hne) in E'. congruence.
    + destruct (V' !! pfn_of_va a) as [[? ?]|], (V !! pfn_of_va a) as [[? ?]|]; by rewrite ?andb_false_r.
Qed.

Lemma new_slab_ok V k o junk :
  slab_map_ok -> heap_inv V k -> 5 <= o <= 11 -> junk_bytes junk -> (o = 5 -> forall a, junk a = replicate 8 0) ->
  (pa_alloc (4096 * (slab_pages o + 1)) (pages k) = Ok (0, pages k) /\
    new_slab map L0_TABLE junk (2 ^ o) o (SPartial (o - 5)) k = (_ ← pa_set_owner 0 PAGE_SLAB (pages k); Panic)) \/
  exists k' V', new_slab map L0_TABLE junk (2 ^ o) o (SPartial (o - 5)) k = Ok k' /\ heap_inv V' k' /\
    (forall a n, live_obj V' k' a n <-> live_obj V k a n) /\ list_empty (SPartial (o - 5)) (snodes k') = false.
Proof.
  intros Hmap Hi Ho Hj H5. pose proof (size_facts o Ho) as (_ & _ & _ & _ & _ & Hpg & Hord & _).
  destruct (pa_alloc_spec _ _ (4096 * (slab_pages o + 1)) (hi_view _ _ Hi)) as [E|(p & s1 & E & HVp & Hv1)];
    [lia|left; split; [done|]|right].
  { unfold new_slab, _slab_alloc, on_pages. cbn [mbind]. fold (slab_pages o). change PAGE_SIZE with 4096. rewrite u64_small by lia.
    rewrite E. cbn [mbind res_bind pages]. by destruct (pa_set_owner 0 PAGE_SLAB (pages k)). }
  rewrite Hord in Hv1. assert (Hlook : <[p:=(slab_pages o, PAGE_BUDDY)]> V !! p = Some (slab_pages o, PAGE_BUDDY)) by apply lookup_insert_eq.
  pose proof (pa_range _ _ _ _ _ Hv1 Hlook) as (? & _ & ?). pose proof (pow2_pos (slab_pages o) ltac:(lia)).
  assert (Hpr : 0 <= p < NPAGES) by lia.
  destruct (pa_set_owner_spec _ _ _ _ _ p 0 PAGE_SLAB Hv1 Hlook) as (s2 & E2 & Hv2); [lia|lia|done|done|].
  rewrite insert_insert_eq in Hv2. rewrite Z.add_0_r in E2.
  destruct (Hmap p (slab_pages o) (Z.lor (Z.lor MAP_KERNEL MAP_READ) MAP_WRITE) s2 _ Hv2 (lookup_insert_eq _ _ _) Hpg)
    as (b & s3 & V3 & E3 & Hv3 & Hsub & Hsup).
  destruct (Hj (page_va p)) as (Hj1 & Hj2).
  destruct (fresh_slab_ok o (junk (page_va p)) Ho Hj1 Hj2 (fun E => H5 E _)) as (Hok & Hso & Hnf & Hfree).
  set (s0 := Slab _ _ _ _) in *.
  assert (HV3p : V3 !! p = Some (slab_pages o, PAGE_SLAB)) by (apply Hsub, lookup_insert_eq).
  assert (Hsub' : forall q x, V !! q = Some x -> V3 !! q = Some x).
  { intros q x Hq. apply Hsub. rewrite lookup_insert_ne; [done|]. congruence. }
  assert (Hsup' : forall q x, q <> p -> V3 !! q = Some (x, PAGE_SLAB) -> V !! q = Some (x, PAGE_SLAB)).
  { intros q x Hne Hq. apply Hsup in Hq. by rewrite lookup_insert_ne in Hq. }
  assert (Hhome : home s0 = SPartial (o - 5)) by (unfold home; rewrite (proj2 (Z.eqb_neq _ _) Hnf), Hso; done).
  assert (HP : is_cache (SPartial (o - 5))) by (exists (o - 5); unfold CACHES; split; [lia|by right]).
  destruct (hung_add _ _ _ (SPartial (o - 5)) (SSlab (page_va p)) (hi_lists _ _ Hi) HP) as (h & Eh & Hh & Hn).
  { cbn. by rewrite page_va_pfn0, HVp. }
  { by intros (i' & _ & [|]). }
  exists (KHeap s3 (<[page_va p := s0]> (slabs k)) h), V3.
  assert (Hpage : forall q x, V3 !! q = Some x -> q <> p -> page_va q <> page_va p).
  { intros q [oq wq] Hq Hne Eq. apply Hne, page_va_inj; [|done|done].
    pose proof (pa_range _ _ _ _ _ Hv3 Hq). pose proof (pow2_pos oq ltac:(lia)). lia. }
  assert (Hinv : heap_inv V3 (KHeap s3 (<[page_va p := s0]> (slabs k)) h)).
  { split; cbn [pages slabs snodes]; [done| |].
    - intros q w Hq. destruct (decide (q = p)) as [->|Hne].
      + exists s0. rewrite lookup_insert_eq. split; [done|]. congruence.
      + rewrite lookup_insert_ne by (apply not_eq_sym; by eapply Hpage). apply (hi_slabs _ _ Hi). by apply Hsup'.
    - eapply hung_ext; [|exact Hh]. intros n. rewrite (hangs_grow V V3 (slabs k) p (slab_pages o) s0) by done.
      case_decide as Hd; [subst n; by rewrite fn_lookup_insert, Hhome|by rewrite fn_lookup_insert_ne by done]. }
  split; [|split; [exact Hinv|split]].
  - unfold new_slab, _slab_alloc, on_pages. cbn [mbind]. fold (slab_pages o).
    change PAGE_SIZE with 4096. rewrite u64_small by lia. rewrite E. cbn [mbind res_bind pages slabs snodes].
    rewrite E2. cbn [mbind res_bind pages slabs snodes]. rewrite (proj2 (Z.eqb_neq _ _) (page_va_nonzero p Hpr)).
    rewrite E3. cbn [mbind res_bind pages slabs snodes]. unfold on_snodes, put_slab. cbn [pages slabs snodes].
    change 4096 with PAGE_SIZE. fold s0. rewrite Eh. done.
  - intros a n. split.
    + intros (q & w & s & i & Hq & Hs & Hir & Hu & -> & ->). cbn [slabs] in Hs. destruct (decide (q = p)) as [->|Hne].
      * rewrite lookup_insert_eq in Hs. injection Hs as <-. rewrite Hfree in Hu by done. done.
      * rewrite lookup_insert_ne in Hs by (apply not_eq_sym; by eapply Hpage). exists q, w, s, i. eauto 10.
    + intros (q & w & s & i & Hq & Hs & Hir & Hu & -> & ->). exists q, w, s, i. cbn [slabs].
      rewrite lookup_insert_ne; [eauto 10|]. apply not_eq_sym. eapply Hpage; [by apply Hsub'|]. congruence.
  - cbn [snodes]. unfold list_empty. apply bool_decide_false. rewrite Hn. congruence.
Qed.

(** ** [kmalloc] *)

Lemma kmalloc_run bytes junk (k : kheap S) : bytes <= 2048 ->
  let o := size_class bytes in
  kmalloc map L0_TABLE junk bytes k =
    (k ← (if list_empty (SPartial (o - 5)) (snodes k) then new_slab map L0_TABLE junk (2 ^ o) o (SPartial (o - 5)) k else Ok k);
     take_item (SPartial (o - 5)) (SFull (o - 5)) k).
Proof.
  intros Hb o. destruct (size_class_ok bytes) as (Ea & Ho & _ & [Hcls _]); [change (2 ^ 30) with 1073741824; lia|].
  specialize (Hcls Hb). fold o in Ea, Ho, Hcls. unfold kmalloc. change (Z.shiftl 1 (MAX_BUDDY_ORDER + PAGE_SHIFT)) with 1073741824.
  rewrite (proj2 (Z.ltb_ge _ _)) by lia. cbv zeta. rewrite Ea, log2_pow2_pow by lia. cbn [mbind res_bind].
  rewrite (u32_small o) by lia. change MAX_SLAB_ORDER with 11. rewrite (proj2 (Z.ltb_ge 11 o)) by lia.
  change MIN_SLAB_ORDER with 5. rewrite (u32_small (o - 5)), !cache_head_ok by (unfold CACHES; lia). done.
Qed.

Lemma kmalloc_small V k bytes junk :
  slab_map_ok -> heap_inv V k -> bytes <= 2048 -> junk_bytes junk ->
  (size_class bytes = 5 -> ~ free_item V k 5 -> forall a, junk a = replicate 8 0) ->
  (~ free_item V k (size_class bytes) /\ pa_alloc (4096 * (slab_pages (size_class bytes) + 1)) (pages k) = Ok (0, pages k) /\
    kmalloc map L0_TABLE junk bytes k = (_ ← pa_set_owner 0 PAGE_SLAB (pages k); Panic)) \/
  exists addr k' V', kmalloc map L0_TABLE junk bytes k = Ok (addr, k') /\ heap_inv V' k' /\
    ~ live_obj V k addr (2 ^ size_class bytes) /\
    (forall a n, live_obj V' k' a n <-> live_obj V k a n \/ (a = addr /\ n = 2 ^ size_class bytes)) /\
    addr mod 2 ^ size_class bytes = 0 /\ addr <> 0 /\ (free_item V k (size_class bytes) -> V' = V).
Proof.
  intros Hmap Hi Hb Hj Hz.
  destruct (size_class_ok bytes) as (Ea & Ho & _ & [Hcls _]); [change (2 ^ 30) with 1073741824; lia|].
  specialize (Hcls Hb). set (o := size_class bytes) in *.
  pose proof (kmalloc_run bytes junk k Hb) as Hrun. cbv zeta in Hrun. fold o in Hrun.
  pose proof (partial_empty V k (o - 5) Hi ltac:(unfold CACHES; lia)) as Hemp. replace (o - 5 + 5) with o in Hemp by lia.
  destruct (list_empty (SPartial (o - 5)) (snodes k)) eqn:He.
  - assert (Hno : ~ free_item V k o) by tauto.
    destruct (new_slab_ok V k o junk Hmap Hi ltac:(lia) Hj) as [[E Eu]|(k1 & V1 & E1 & Hi1 & Hl1 & He1)].
    { intros E. apply Hz; [done|by rewrite <- E]. }
    { left. split; [done|]. split; [done|]. rewrite Hrun, Eu. by destruct (pa_set_owner 0 PAGE_SLAB (pages k)). }
    right. destruct (take_item_ok V1 k1 (o - 5) Hi1) as (addr & k2 & E2 & Hi2 & Hn & Hl2 & Hal & Hnz); [unfold CACHES; lia|done|].
    rewrite Hrun, E1. cbn [mbind res_bind]. rewrite E2. exists addr, k2, V1. replace (o - 5 + 5) with o in * by lia.
    split; [done|]. split; [done|]. split; [by rewrite <- Hl1|]. split; [|by split_and!].
    intros a n. by rewrite Hl2, Hl1.
  - right. destruct (take_item_ok V k (o - 5) Hi) as (addr & k2 & E2 & Hi2 & Hn & Hl2 & Hal & Hnz); [unfold CACHES; lia|done|].
    rewrite Hrun. cbn [mbind res_bind]. rewrite E2. exists addr, k2, V. replace (o - 5 + 5) with o in * by lia. by split_and!.
Qed.

(** What a small request does to the pages: nothing, or one block for a new slab. *)
Lemma take_item_pages partial full (k : kheap S) addr k' : take_item partial full k = Ok (addr, k') -> pages k' = pages k.
Proof.
  unfold take_item. intros H. apply bind_Ok_inv in H as (n & _ & H). apply bind_Ok_inv in H as (a & _ & H).
  apply bind_Ok_inv in H as (s & _ & H). apply bind_Ok_inv in H as ([s' ad] & _ & H).
  destruct (_ =? _); [|by injection H as <- <-]. unfold on_snodes in H.
  apply bind_Ok_inv in H as (k1 & H1 & H). apply bind_Ok_inv in H as (k2 & H2 & H).
  apply bind_Ok_inv in H1 as (h1 & _ & [= <-]). apply bind_Ok_inv in H2 as (h2 & _ & [= <-]). by injection H as <- <-.
Qed.

(** The block of a new slab of order [o]: allocated, given to the slabs, mapped. *)
Definition slab_block (o : Z) (s s' : S) : Prop := exists p s1 s2 b,
  pa_alloc (4096 * (slab_pages o + 1)) s = Ok (p, s1) /\ p <> 0 /\ pa_set_owner p PAGE_SLAB s1 = Ok s2 /\
  map p (va_to_pa p) (slab_pages o) (Z.lor (Z.lor MAP_KERNEL MAP_READ) MAP_WRITE) L0_TABLE s2 = Ok (b, s').

Lemma new_slab_pages o junk partial (k k' : kheap S) : 5 <= o <= 11 ->
  new_slab map L0_TABLE junk (2 ^ o) o partial k = Ok k' -> slab_block o (pages k) (pages k').
Proof.
  intros Ho H. pose proof (size_facts o Ho) as (_ & _ & _ & _ & _ & Hpg & _). unfold new_slab, _slab_alloc, on_pages in H.
  fold (slab_pages o) in H. change PAGE_SIZE with 4096 in H. rewrite u64_small in H by lia.
  apply bind_Ok_inv in H as ([p k1] & H1 & H). apply bind_Ok_inv in H as (h & _ & [= <-]). cbn [pages].
  apply bind_Ok_inv in H1 as ([p1 k2] & E1 & H1). apply bind_Ok_inv in E1 as ([p2 s1] & E1 & [= <- <-]).
  apply bind_Ok_inv in H1 as ([[] k3] & E2 & H1). apply bind_Ok_inv in E2 as ([[] s2] & E2 & [= <-]).
  apply bind_Ok_inv in E2 as (s3 & E2 & [= <-]). cbn [pages] in *. destruct (Z.eqb_spec p2 0) as [|Hp]; [done|].
  apply bind_Ok_inv in H1 as ([b k4] & E3 & [= <- <-]). apply bind_Ok_inv in E3 as ([b' s4] & E3 & [= <- <-]).
  exists p2, s1, s3, b'. done.
Qed.

Lemma kmalloc_pages bytes junk (k : kheap S) addr k' : bytes <= 2048 -> kmalloc map L0_TABLE junk bytes k = Ok (addr, k') ->
  pages k' = pages k \/ slab_block (size_class bytes) (pages k) (pages k').
Proof.
  intros Hb H. destruct (size_class_ok bytes) as (_ & Ho & _ & [Hcls _]); [change (2 ^ 30) with 1073741824; lia|].
  specialize (Hcls Hb). rewrite kmalloc_run in H by done. apply bind_Ok_inv in H as (k1 & H1 & H2).
  apply take_item_pages in H2. rewrite H2. destruct (list_empty _ _); [right|left; congruence].
  apply (new_slab_pages _ junk (SPartial (size_class bytes - 5))); [lia|done].
Qed.

(** The heap when the page allocator has given out other blocks. *)
Lemma heap_inv_grow V k V1 s1 : heap_inv V k -> pa_view s1 V1 -> (forall p x, V !! p = Some x -> V1 !! p = Some x) ->
  (forall p w, V1 !! p = Some (w, PAGE_SLAB) -> V !! p = Some (w, PAGE_SLAB)) ->
  heap_inv V1 (KHeap s1 (slabs k) (snodes k)) /\
  (forall a n, live_obj V1 (KHeap s1 (slabs k) (snodes k)) a n <-> live_obj V k a n).
Proof.
  intros Hi Hv1 Hsub Hsup. split; [split; cbn [pages slabs snodes]; [done| |]|].
  - intros p w Hp. apply (hi_slabs _ _ Hi). by apply Hsup.
  - eapply hung_ext; [|exact (hi_lists _ _ Hi)]. intros [| |a]; [done|done|]. cbn.
    destruct (V !! pfn_of_va a) as [[w0 o0]|] eqn:E; [by rewrite (Hsub _ _ E)|].
    destruct (V1 !! pfn_of_va a) as [[w0 o0]|] eqn:E'; [|done].
    destruct (Z.eqb_spec o0 PAGE_SLAB) as [->|]; [|done]. apply Hsup in E'. congruence.
  - intros a n. split; intros (q & w & s & i & Hq & H); exists q, w, s, i; (split; [|exact H]); auto.
Qed.

(** A request above 2048 bytes is a block of the page allocator. *)
Lemma kmalloc_large V k bytes junk :
  kernel_map_ok -> heap_inv V k -> 2048 < bytes <= 2 ^ 30 ->
  exists k' V' addr, kmalloc map L0_TABLE junk bytes k = Ok (addr, k') /\ heap_inv V' k' /\
    (forall a n, live_obj V' k' a n <-> live_obj V k a n) /\
    (addr = 0 /\ pa_alloc (2 ^ size_class bytes) (pages k) = Ok (0, pages k) \/
     exists p o, addr = page_va p /\ V !! p = None /\ V' !! p = Some (o, PAGE_BUDDY) /\ bytes <= 4096 * 2 ^ o).
Proof.
  intros Hmap Hi Hb. destruct (size_class_ok bytes) as (Ea & Ho & Hle & [_ Hcls]); [lia|].
  set (o := size_class bytes) in *. assert (Ho12 : 12 <= o) by (destruct (decide (o <= 11)); [specialize (Hcls ltac:(lia)); lia|lia]).
  change (2 ^ 30) with 1073741824 in Hb.
  pose proof (heap_inv_grow V k) as Hgrow.
  assert (Hp30 : 4096 <= 2 ^ o <= 2 ^ 43).
  { pose proof (pow2_le 12 o ltac:(lia)). pose proof (pow2_le o 43 ltac:(lia)). change (2 ^ 12) with 4096 in *. lia. }
  assert (Hrun : kmalloc map L0_TABLE junk bytes k =
    ('(p, k) ← on_pages (pa_alloc (2 ^ o)) k;
     '(_, k) ← on_pages (map p (va_to_pa p) (u8 (o - PAGE_SHIFT)) MAP_KERNEL L0_TABLE) k;
     Ok (p, k))).
  { unfold kmalloc. change (Z.shiftl 1 (MAX_BUDDY_ORDER + PAGE_SHIFT)) with 1073741824.
    rewrite (proj2 (Z.ltb_ge _ _)) by lia. cbv zeta. rewrite Ea, log2_pow2_pow by lia. cbn [mbind res_bind].
    rewrite (u32_small o) by lia. change MAX_SLAB_ORDER with 11. by rewrite (proj2 (Z.ltb_lt 11 o)) by lia. }
  rewrite Hrun. unfold on_pages.
  destruct (pa_alloc_spec _ _ (2 ^ o) (hi_view _ _ Hi)) as [E|(p & s1 & E & HVp & Hv1)]; [lia| |];
    rewrite E; cbn [mbind res_bind pages slabs snodes].
  - destruct (Hmap 0 (va_to_pa 0) (u8 (o - PAGE_SHIFT)) MAP_KERNEL _ _ (hi_view _ _ Hi)) as (b & s3 & V3 & E3 & Hv3 & Hsub & Hsup).
    rewrite E3. cbn [mbind res_bind]. destruct (Hgrow V3 s3 Hi Hv3 Hsub Hsup) as [G1 G2].
    eexists _, V3, _. split; [done|]. split; [done|]. split; [done|]. by left.
  - destruct (Hmap (page_va p) (va_to_pa (page_va p)) (u8 (o - PAGE_SHIFT)) MAP_KERNEL _ _ Hv1) as (b & s3 & V3 & E3 & Hv3 & Hsub & Hsup).
    rewrite E3. cbn [mbind res_bind]. destruct (Hgrow V3 s3 Hi Hv3) as [G1 G2].
    { intros q x Hq. apply Hsub. rewrite lookup_insert_ne; [done|]. congruence. }
    { intros q w Hq. apply Hsup in Hq. rewrite lookup_insert in Hq. case_decide; [unfold PAGE_SLAB, PAGE_BUDDY in *; congruence|done]. }
    eexists _, V3, _. split; [done|]. split; [done|]. split; [done|]. right.
    exists p, (order_for (2 ^ o)). split; [done|]. split; [done|]. split; [apply Hsub, lookup_insert_eq|].
    etrans; [exact Hle|]. unfold order_for, pages_for.
    replace ((2 ^ o + 4095) / 4096) with (2 ^ (o - 12)).
    + rewrite Z.log2_up_pow2 by lia. change 4096 with (2 ^ 12). rewrite <- Z.pow_add_r by lia. apply pow2_le. lia.
    + replace (2 ^ o) with (2 ^ (o - 12) * 4096); [zdiv|]. change 4096 with (2 ^ 12). rewrite <- Z.pow_add_r by lia.
      f_equal. lia.
Qed.

End SlabOps.
