(* ===== verification/SlabSpec.v ===== *)
(** * What the kernel heap promises

    The properties of [kmalloc] and [kfree] over any page allocator that meets
    [PageAllocator], with instances over the buddy allocator at boot. *)
From S2P Require Import Prelude KList KString Buddy BuddyInv BuddyOps BuddyInit BuddyRef BuddySpec Slab SlabInv SlabOps.

(** ** Initialisation *)

Lemma init_self {K} `{Countable K} (h : gmap K (@list_head_t K)) x n :
  ring h n [] \/ n = x -> ring (INIT_LIST_HEAD x h) n [].
Proof.
  destruct (decide (n = x)) as [->|Hne]; [intros _; apply INIT_LIST_HEAD_ring|].
  intros [Hr|]; [|done]. eapply ring_ext; [|exact Hr]. intros k Hk.
  apply INIT_LIST_HEAD_frame. set_solver.
Qed.

Lemma kheap_init_heads h l n :
  ring h n [] \/ (exists i, i ∈ l /\ (n = SFull i \/ n = SPartial i)) ->
  ring (fold_left (fun h i => INIT_LIST_HEAD (SPartial i) (INIT_LIST_HEAD (SFull i) h)) l h) n [].
Proof.
  revert h. induction l as [|i l IH]; intros h Hn; cbn [fold_left].
  - destruct Hn as [|(i & Hi & _)]; [done|by apply not_elem_of_nil in Hi].
  - apply IH. destruct Hn as [Hn|(j & Hj & Hn)].
    + left. apply init_self. left. apply init_self. by left.
    + apply elem_of_cons in Hj as [->|Hj]; [left|right; eauto].
      apply init_self. destruct Hn as [->| ->]; [left; apply init_self; by right|by right].
Qed.

Lemma kheap_init_ok {S} `{!PageAllocator S} V (k : kheap S) :
  pa_view (pages k) V -> (forall p w, V !! p <> Some (w, PAGE_SLAB)) -> heap_inv V (kheap_init k).
Proof.
  intros Hv Hno. split; [done|by intros p w Hp; apply Hno in Hp|].
  exists (fun _ => []). split; [split|].
  - intros hd (i & Hi & Hd). apply kheap_init_heads. right. exists i. split; [|done].
    apply elem_of_seqZ. unfold CACHES in *. lia.
  - intros a b x (i & _ & Ha) (j & _ & Hb) Hne. set_solver.
  - intros hd x _. rewrite elem_of_nil. split; [done|]. destruct x as [| |a]; [done|done|]. cbn.
    destruct (V !! pfn_of_va a) as [[w o]|] eqn:E; [|done].
    destruct (Z.eqb_spec o PAGE_SLAB) as [->|]; [|done]. by apply Hno in E.
Qed.

(** ** A concrete heap *)

(** Every kernel page is mapped already: [map] changes nothing. *)
Definition premapped (va pa o fl pt : Z) (s : buddy) : res (bool * buddy) := Ok (true, s).

Lemma premapped_ok pt : kernel_map_ok premapped pt.
Proof. intros va pa o fl s V Hv. exists true, s, V. done. Qed.

Lemma premapped_slab pt : slab_map_ok premapped pt.
Proof. apply slab_map_of, premapped_ok. Qed.

Definition clear_junk (a : Z) : list Z := replicate 8 0.

Lemma clear_junk_ok : junk_bytes clear_junk.
Proof. intros a. split; [done|]. apply Forall_replicate. lia. Qed.

(** The heap at boot, with room for a page. *)
Lemma boot_heap : exists (k : kheap buddy), heap_inv ∅ k /\ (forall a n, ~ live_obj ∅ k a n) /\
  pa_alloc 4096 (pages k) <> Ok (0, pages k).
Proof.
  destruct boot_state as (st & B & _ & Hi & Hu & q & o & Hq).
  assert (Hv : buddy_view st ∅).
  { exists 256, B. split; [exact Hi|]. intros p o' w. rewrite lookup_empty. split; [done|].
    intros [Hp _]. apply Hu in Hp. done. }
  exists (kheap_init (KHeap st ∅ ∅)). split; [apply kheap_init_ok; [exact Hv|by intros p w; rewrite lookup_empty]|].
  split; [intros a n (p & w & s & i & Hp & _); by rewrite lookup_empty in Hp|].
  cbn [pages kheap_init]. intros E.
  destruct (buddy_alloc_ok 256 4096 B st Hi) as [[_ Hno]|(p & st' & B' & E' & Hpost)]; [lia| |].
  - apply Hno in Hq as Hlt. pose proof (block_range _ _ _ _ _ _ Hi Hq). change (order_for 4096) with 0 in Hlt. lia.
  - change (pa_alloc 4096 st) with (buddy_alloc 4096 st) in E. rewrite E in E'. injection E' as E0 _.
    pose proof (block_range _ _ _ _ _ _ (ap_inv _ _ _ _ _ _ _ Hpost) (ap_new _ _ _ _ _ _ _ Hpost)) as (_ & _ & ? & ? & ?).
    apply (page_va_nonzero p); [lia|]. by symmetry.
Qed.



(** A heap with one item in use. *)
Lemma boot_item : exists (k : kheap buddy) V addr n, heap_inv V k /\ live_obj V k addr n.
Proof.
  destruct boot_heap as (k & Hi & Hno & Hroom).
  destruct (kmalloc_small premapped 0 ∅ k 100 clear_junk (premapped_slab 0) Hi) as [(_ & E & _)|(addr & k' & V' & _ & Hi' & _ & Hl & _)];
    [lia|apply clear_junk_ok|done|by destruct (Hroom E)|].
  exists k', V', addr, (2 ^ size_class 100). split; [done|]. apply Hl. by right.
Qed.

(** C5: [kfree] of an item in use takes exactly that item out of use, keeps the
    heap consistent, and gives blocks back to the page allocator only. *)
Theorem kfree_refines {S} `{!PageAllocator S} V (k : kheap S) addr n :
  heap_inv V k -> live_obj V k addr n ->
  exists k' V', kfree addr k = Ok k' /\ heap_inv V' k' /\ V' ⊆ V /\
    (forall a m, live_obj V' k' a m <-> live_obj V k a m /\ a <> addr).
Proof.
  intros Hi Hl. destruct (kfree_ok V k addr n Hi Hl) as (k' & V' & ? & ? & ? & ?). eauto 10.
Qed.

Lemma kfree_refines_witness : exists (k : kheap buddy) V addr n k' V',
  heap_inv V k /\ live_obj V k addr n /\ kfree addr k = Ok k' /\ heap_inv V' k' /\ ~ live_obj V' k' addr n.
Proof.
  destruct boot_item as (k & V & addr & n & Hi & Hl).
  destruct (kfree_refines V k addr n Hi Hl) as (k' & V' & E & Hi' & _ & Hl').
  exists k, V, addr, n, k', V'. split; [exact Hi|]. split; [exact Hl|]. split; [exact E|]. split; [exact Hi'|].
  intros H. by apply Hl' in H as [_ ?].
Defined.

Lemma live_disjoint {S} `{!PageAllocator S} V (k : kheap S) a n b m :
  heap_inv V k -> live_obj V k a n -> live_obj V k b m -> (a = b /\ n = m) \/ a + n <= b \/ b + m <= a.
Proof.
  intros Hi (p & w & s & i & Hp & Hs & Hir & _ & -> & ->) (q & w' & t & j & Hq & Ht & Hjr & _ & -> & ->).
  destruct (decide (p = q /\ i = j)) as [[-> ->]|Hne].
  - left. by assert (s = t) as -> by congruence.
  - right. apply (items_apart V k p i s q j t Hi); [by exists w|by exists w'|done].
Qed.

(** Two items in use are the same item or do not overlap. *)
Lemma heap_items_disjoint {S} `{!PageAllocator S} V (k : kheap S) a n b m :
  heap_inv V k -> live_obj V k a n -> live_obj V k b m -> (a = b /\ n = m) \/ a + n <= b \/ b + m <= a.
Proof. apply live_disjoint. Qed.

Lemma heap_items_disjoint_witness : exists (k : kheap buddy) V a n,
  heap_inv V k /\ live_obj V k a n /\ ((a = a /\ n = n) \/ a + n <= a \/ a + n <= a).
Proof.
  destruct boot_item as (k & V & a & n & Hi & Hl). exists k, V, a, n. split; [exact Hi|]. split; [exact Hl|].
  apply (heap_items_disjoint V k a n a n Hi Hl Hl).
Defined.

(** A request above 2048 bytes, up to 1 GiB, is served by a whole block of
    the page allocator that holds it, which then belongs to [PAGE_BUDDY]; the
    items of the slabs are untouched. *)
Lemma kmalloc_large_refines {S} `{!PageAllocator S} map L0_TABLE V (k : kheap S) bytes junk :
  kernel_map_ok map L0_TABLE -> heap_inv V k -> 2048 < bytes <= 2 ^ 30 ->
  exists k' V' addr, kmalloc map L0_TABLE junk bytes k = Ok (addr, k') /\ heap_inv V' k' /\
    (forall a n, live_obj V' k' a n <-> live_obj V k a n) /\
    (addr = 0 /\ pa_alloc (2 ^ size_class bytes) (pages k) = Ok (0, pages k) \/
     exists p o, addr = page_va p /\ V !! p = None /\ V' !! p = Some (o, PAGE_BUDDY) /\ bytes <= 4096 * 2 ^ o).
Proof. apply kmalloc_large. Qed.

Lemma kmalloc_large_refines_witness : exists (k k' : kheap buddy) V' addr,
  heap_inv ∅ k /\ kmalloc premapped 0 clear_junk 10000 k = Ok (addr, k') /\ heap_inv V' k'.
Proof.
  destruct boot_heap as (k & Hi & _).
  destruct (kmalloc_large_refines premapped 0 ∅ k 10000 clear_junk (premapped_ok 0) Hi) as (k' & V' & addr & E & Hi' & _);
    [change (2 ^ 30) with 1073741824; lia|].
  exists k, k', V', addr. done.
Defined.

(** The 32-byte slabs have 126 items but only the first 64 bits of the bitmap
    are cleared.  When memory held ones in the rest, a slab with 64 items in use
    has no free bit left: the search gives NULL, and as the slab never counts as
    full it stays at the front of the partial list. *)
Lemma stale_bitmap_starves a :
  let s := Slab (replicate 16 255) 64 126 5 in
  total s = total_for 5 /\ inuse s <> total s /\ _addr_from_slab a s = Ok (s, 0).
Proof. split; [reflexivity|]. split; [discriminate|reflexivity]. Qed.

(** With no page left, [_slab_alloc] sets the owner of page NULL before it
    checks for NULL: the page-frame array is accessed out of bounds. *)
Lemma slab_alloc_oom map L0_TABLE order (k : kheap buddy) :
  buddy_alloc (u64 (PAGE_SIZE * (order + 1))) (pages k) = Ok (0, pages k) ->
  _slab_alloc map L0_TABLE order k = UB.
Proof.
  intros E. unfold _slab_alloc, on_pages. change (pa_alloc ?b (pages k)) with (buddy_alloc b (pages k)).
  rewrite E. cbn [mbind res_bind pages slabs snodes]. reflexivity.
Qed.
