(* ===== verification/Mmap.v ===== *)
(** * Page tables: definitions ([memory/mmap.c], [memory/mmu.c], [types/mmu_types.h])

    A page-table entry is a 64-bit word read through two overlays, table and
    memory descriptors, whose bit fields are cut out of the word.  Memory is a
    function from physical addresses to 64-bit words; the kernel reaches it at
    [VIRT_BASE] above.  A bit field used in an expression widens to 64 bits.
    [map] and [buddy_alloc_pt] call each other: a new page table is itself
    entered into the kernel's tables; the knot is tied with fuel. *)
From S2P Require Import Prelude Buddy BuddyRef.

Definition pte := Z.

(** Bits [lo, lo + width) of a word. *)
Definition get_bits (lo width v : Z) : Z := Z.land (Z.shiftr v lo) (Z.ones width).
Definition set_bits (lo width x v : Z) : pte :=
  Z.lor (Z.ldiff v (Z.shiftl (Z.ones width) lo)) (Z.shiftl (Z.land x (Z.ones width)) lo).

(** The fields the code uses; the table descriptor's [pxn] and [uxn] are one bit
    lower than the memory descriptor's. *)
Definition valid := get_bits 0 1.
Definition type := get_bits 1 1.
Definition ap := get_bits 6 2.
Definition address := get_bits 12 36.
Definition cow := get_bits 55 1.

Definition set_valid := set_bits 0 1.
Definition set_type := set_bits 1 1.
Definition set_attr_index := set_bits 2 3.
Definition set_ns := set_bits 5 1.
Definition set_ap := set_bits 6 2.
Definition set_sh := set_bits 8 2.
Definition set_af := set_bits 10 1.
Definition set_ng := set_bits 11 1.
Definition set_address := set_bits 12 36.
Definition set_md_pxn := set_bits 53 1.
Definition set_md_uxn := set_bits 54 1.
Definition set_td_pxn := set_bits 52 1.
Definition set_td_uxn := set_bits 53 1.
Definition set_cow := set_bits 55 1.

(** [AccessPermissions_t] *)
Definition EL0_NA_EL1_RW : Z := 0.
Definition EL0_RW_EL1_RW : Z := 1.
Definition EL0_NA_EL1_RO : Z := 2.
Definition EL0_RO_EL1_RO : Z := 3.

Definition MAP_READ : Z := 1.
Definition MAP_WRITE : Z := 2.
Definition MAP_EXEC : Z := 4.
Definition MAP_USER : Z := 8.
Definition MAP_KERNEL : Z := 16.
Definition MAP_DEVICE : Z := 32.
Definition MAP_CACHE : Z := 128.

Definition BLOCK_SIZE : Z := 2 ^ 21.

Definition has (flags f : Z) : bool := negb (Z.land flags f =? 0).

Definition parse_table_flags (flags : Z) : pte :=
  let td := 0 in
  let td := set_valid 1 td in
  let td := set_type 1 td in
  let td := set_td_uxn 0 td in
  let td := set_td_pxn 0 td in
  let td := set_address 0 td in
  if has flags MAP_EXEC then
    if has flags MAP_KERNEL then set_td_pxn 0 td
    else if has flags MAP_USER then set_td_uxn 0 td else td
  else td.

Definition parse_block_flags (flags : Z) (is_page : bool) : pte :=
  let md := 0 in
  let md := set_valid 1 md in
  let md := set_af 1 md in
  let md := set_ns 0 md in
  let md := set_sh 3 md in
  let md := set_attr_index 0 md in
  let md := set_type (if is_page then 1 else 0) md in
  let md := set_ap EL0_NA_EL1_RO md in
  let md := set_md_pxn 1 md in
  let md := set_md_uxn 1 md in
  let md := (if has flags MAP_DEVICE then set_sh 0 (set_attr_index 1 md)
             else if has flags MAP_CACHE then set_attr_index 2 md else md) in
  let md := (if has flags MAP_EXEC then
               if has flags MAP_KERNEL then set_md_pxn 0 md
               else if has flags MAP_USER then set_md_uxn 0 md else md
             else md) in
  if has flags MAP_USER then
    let md := set_ng 1 md in
    if has flags MAP_READ && has flags MAP_WRITE then set_ap EL0_RW_EL1_RW md
    else if has flags MAP_READ then set_ap EL0_RO_EL1_RO md else md
  else if has flags MAP_KERNEL then
    if has flags MAP_READ && has flags MAP_WRITE then set_ap EL0_NA_EL1_RW md
    else if has flags MAP_READ then set_ap EL0_NA_EL1_RO md else md
  else md.

(** Indices of a virtual address, one per level. *)
Definition idx0 (va : Z) : Z := Z.land (Z.shiftr va 39) 0x1FF.
Definition idx1 (va : Z) : Z := Z.land (Z.shiftr va 30) 0x1FF.
Definition idx2 (va : Z) : Z := Z.land (Z.shiftr va 21) 0x1FF.
Definition idx3 (va : Z) : Z := Z.land (Z.shiftr va 12) 0x1FF.

(** ** Memory *)

Definition words : Type := Z -> Z.

Definition store64 (pa v : Z) (w : words) : words := fun x => if x =? pa then v else w x.

(** Entry [i] of the table at kernel address [table]. *)
Definition entry_pa (table i : Z) : Z := va_to_pa (u64 (table + 8 * i)).
Definition rd_entry (w : words) (table i : Z) : pte := w (entry_pa table i).
Definition wr_entry (table i : Z) (e : pte) (w : words) : words := store64 (entry_pa table i) e w.

(** The kernel address of the table an entry points to. *)
Definition next_table (e : pte) : Z := u64 (u64 (Z.shiftl (address e) 12) + VIRT_BASE).

(** [memset(page, 0, PAGE_SIZE)]: the words of the page. *)
Definition zero_page (page : Z) (w : words) : words :=
  fun x => if (va_to_pa page <=? x) && (x <? va_to_pa page + 4096) then 0 else w x.

(** [translate_va(va, ttbr1_base)]; it follows the tables by their physical
    addresses.  [-1] is the fault value. *)
Definition translate_va (w : words) (va ttbr1_base : Z) : Z :=
  let l0 := Z.land ttbr1_base (u64 (Z.lnot 0xFFF)) in
  let page_off := Z.land va 0xFFF in
  let d0 := w (l0 + 8 * idx0 va) in
  if valid d0 =? 0 then u64 (-1)
  else
    let l1 := u64 (Z.shiftl (address d0) 12) in
    let d1 := w (l1 + 8 * idx1 va) in
    if valid d1 =? 0 then u64 (-1)
    else if type d1 =? 0 then u64 (u64 (Z.shiftl (address d1) 30) + Z.land va 0x3FFFFFFF)
    else
      let l2 := u64 (Z.shiftl (address d1) 12) in
      let d2 := w (l2 + 8 * idx2 va) in
      if valid d2 =? 0 then u64 (-1)
      else if type d2 =? 0 then u64 (u64 (Z.shiftl (address d2) 12) + Z.land va 0x1FFFFF)
      else
        let l3 := u64 (Z.shiftl (address d2) 12) in
        let d3 := w (l3 + 8 * idx3 va) in
        if valid d3 =? 0 then u64 (-1)
        else
          let raw_pa := Z.lor (u64 (Z.shiftl (address d3) 12)) page_off in
          Z.land raw_pa (Z.shiftl 1 36 - 1).

Section Mmap.
Context {S : Type}.

(** The page allocator's state and memory. *)
Record mm := MM { mpages : S; mwords : words }.

Definition on_words (f : words -> words) (s : mm) : mm := MM (mpages s) (f (mwords s)).

(** ** Mapping, given the routine that allocates page tables *)
Section with_alloc.
Context (alloc_pt : mm -> res (Z * mm)).

(** One level of the walk of [map_pages] and [map_blocks]: the table that entry
    [i] of [table] points to, allocated when the entry is not valid. *)
Definition descend (ptte : pte) (table i : Z) (s : mm) : res (Z * mm) :=
  s ← (if valid (rd_entry (mwords s) table i) =? 0 then
         '(page, s) ← alloc_pt s;
         Ok (on_words (wr_entry table i (set_address (Z.shiftr (va_to_pa page) PAGE_SHIFT) ptte)) s)
       else Ok s);
  Ok (next_table (rd_entry (mwords s) table i), s).

(** The body of the loop of [map_pages]. *)
Definition map_one_page (ptte ptme : pte) (va pa pt_base : Z) (s : mm) : res mm :=
  '(l1_table, s) ← descend ptte pt_base (idx0 va) s;
  '(l2_table, s) ← descend ptte l1_table (idx1 va) s;
  '(l3_table, s) ← descend ptte l2_table (idx2 va) s;
  if valid (rd_entry (mwords s) l3_table (idx3 va)) =? 0 then
    Ok (on_words (wr_entry l3_table (idx3 va) (set_address (Z.shiftr pa PAGE_SHIFT) ptme)) s)
  else Ok s.

Fixpoint map_pages_loop (blocks : nat) (ptte ptme : pte) (va pa pt_base : Z) (s : mm) : res mm :=
  match blocks with
  | O => Ok s
  | Datatypes.S blocks =>
      s ← map_one_page ptte ptme va pa pt_base s;
      map_pages_loop blocks ptte ptme (u64 (va + PAGE_SIZE)) (u64 (pa + PAGE_SIZE)) pt_base s
  end.

Definition map_pages (virt_block phys_block blocks flags pt_base : Z) (s : mm) : res (bool * mm) :=
  s ← map_pages_loop (Z.to_nat blocks) (parse_table_flags flags) (parse_block_flags flags true)
        virt_block phys_block pt_base s;
  Ok (true, s).

Definition map_one_block (ptte ptme : pte) (va pa pt_base : Z) (s : mm) : res mm :=
  '(l1_table, s) ← descend ptte pt_base (idx0 va) s;
  '(l2_table, s) ← descend ptte l1_table (idx1 va) s;
  if valid (rd_entry (mwords s) l2_table (idx2 va)) =? 0 then
    Ok (on_words (wr_entry l2_table (idx2 va) (set_address (Z.shiftr pa PAGE_SHIFT) ptme)) s)
  else Ok s.

Fixpoint map_blocks_loop (blocks : nat) (ptte ptme : pte) (va pa pt_base : Z) (s : mm) : res mm :=
  match blocks with
  | O => Ok s
  | Datatypes.S blocks =>
      s ← map_one_block ptte ptme va pa pt_base s;
      map_blocks_loop blocks ptte ptme (u64 (va + BLOCK_SIZE)) (u64 (pa + BLOCK_SIZE)) pt_base s
  end.

Definition map_blocks (virt_block phys_block blocks flags pt_base : Z) (s : mm) : res (bool * mm) :=
  s ← map_blocks_loop (Z.to_nat blocks) (parse_table_flags flags) (parse_block_flags flags false)
        virt_block phys_block pt_base s;
  Ok (true, s).

(** [map]: a block of 2 MiB or more at a 2 MiB boundary is entered as blocks. *)
Definition map (virt_block phys_block block_order flags pt_base : Z) (s : mm) : res (bool * mm) :=
  if (9 <=? block_order) && (idx3 virt_block =? 0) then
    if 40 <=? block_order then UB
    else map_blocks virt_block phys_block (Z.shiftl 1 (block_order - 9)) flags pt_base s
  else if 31 <=? block_order then UB
  else map_pages virt_block phys_block (Z.shiftl 1 block_order) flags pt_base s.
End with_alloc.

(** [buddy_alloc_pt()]: a zeroed page, entered into the kernel's tables first. *)
Fixpoint buddy_alloc_pt `{!PageAllocator S} (fuel : nat) (L0_TABLE : Z) (s : mm) : res (Z * mm) :=
  match fuel with
  | O => Fuel
  | Datatypes.S fuel =>
      '(new_page, p) ← pa_alloc PAGE_SIZE (mpages s);
      let s := MM p (mwords s) in
      if new_page =? 0 then Ok (0, s)
      else
        '(_, s) ← map (buddy_alloc_pt fuel L0_TABLE) new_page (va_to_pa new_page) 0
                    (Z.lor (Z.lor MAP_KERNEL MAP_READ) MAP_WRITE) L0_TABLE s;
        Ok (new_page, on_words (zero_page new_page) s)
  end.

(** The walk of [update_mapping], which gives up at an entry that is not valid. *)
Definition walk_l3 (w : words) (pt_base va : Z) : option Z :=
  let e0 := rd_entry w pt_base (idx0 va) in
  if valid e0 =? 0 then None
  else
    let l1_table := pa_to_va (u64 (Z.shiftl (address e0) 12)) in
    let e1 := rd_entry w l1_table (idx1 va) in
    if valid e1 =? 0 then None
    else
      let l2_table := pa_to_va (u64 (Z.shiftl (address e1) 12)) in
      let e2 := rd_entry w l2_table (idx2 va) in
      if valid e2 =? 0 then None else Some (pa_to_va (u64 (Z.shiftl (address e2) 12))).

(** The loop over the pages: [true] when it ran to its end. *)
Fixpoint update_loop (pages : nat) (ptme : pte) (va pt_base : Z) (s : mm) : bool * mm :=
  match pages with
  | O => (true, s)
  | Datatypes.S pages =>
      match walk_l3 (mwords s) pt_base va with
      | None => (false, s)
      | Some l3_table =>
          let entry := rd_entry (mwords s) l3_table (idx3 va) in
          if valid entry =? 0 then (false, s)
          else
            update_loop pages ptme (u64 (va + PAGE_SIZE)) pt_base
              (on_words (wr_entry l3_table (idx3 va) (set_address (address entry) ptme)) s)
      end
  end.

(** [update_mapping]: [Some false] is the failure value; a call that succeeds
    runs off the end of the function, so its value [None] is indeterminate. *)
Definition update_mapping (virt_start virt_end flags pt_base : Z) (s : mm) : option bool * mm :=
  if negb (Z.land virt_start 0xFFF =? 0) || negb (Z.land virt_end 0xFFF =? 0) then (Some false, s)
  else
    let '(done, s) :=
      update_loop (Z.to_nat (u64 (virt_end - virt_start) / PAGE_SIZE)) (parse_block_flags flags true) virt_start pt_base s in
    (if done then None else Some false, s).
End Mmap.

Arguments mm S : clear implicits.

(** [alloc_page_table()] hands out the static region's pages after the fifteen
    that early boot uses: the page's physical address and the new count. *)
Definition STATIC_PAGE_REGION_PAGES : Z := 100.

Definition alloc_page_table (region_start allocated_pages : Z) (w : words) : res (Z * Z * words) :=
  if STATIC_PAGE_REGION_PAGES <=? allocated_pages then Panic
  else
    let page_addr := u64 (region_start + u64 (PAGE_SIZE * allocated_pages)) in
    Ok (va_to_pa page_addr, u64 (allocated_pages + 1), zero_page page_addr w).
