(* ===== verification/MmapInv.v ===== *)
(** * Page tables: the tree they form, and one step of a mapping

    [tbl w r path] is the table reached from the root page [r] along a list of
    indices, [leaf w r va] the page entry of an address.  [pt_wf own w r]: the
    tables of a tree are distinct owned pages. *)
From S2P Require Import Prelude Buddy BuddyInv BuddyOps BuddyRef Mmap.

(** ** Bit fields *)

Lemma get_bits_spec lo width v i :
  0 <= lo -> 0 <= width -> 0 <= i -> Z.testbit (get_bits lo width v) i = (i <? width) && Z.testbit v (i + lo).
Proof.
  intros Hlo Hw Hi. unfold get_bits. rewrite Z.land_spec, Z.shiftr_spec by done.
  destruct (Z.ltb_spec i width); [rewrite Z.ones_spec_low by lia; by rewrite andb_true_r|].
  by rewrite Z.ones_spec_high, andb_false_r by lia.
Qed.

Lemma set_bits_spec lo width x v i :
  0 <= lo -> 0 <= width -> 0 <= i ->
  Z.testbit (set_bits lo width x v) i =
    if (lo <=? i) && (i <? lo + width) then Z.testbit x (i - lo) else Z.testbit v i.
Proof.
  intros Hlo Hw Hi. unfold set_bits. rewrite Z.lor_spec, Z.ldiff_spec.
  destruct (Z.leb_spec lo i) as [Hl|Hl]; cbn [andb].
  - rewrite !Z.shiftl_spec, Z.land_spec by lia. destruct (Z.ltb_spec i (lo + width)).
    + rewrite Z.ones_spec_low by lia. cbn. by rewrite andb_false_r, andb_true_r.
    + rewrite Z.ones_spec_high by lia. cbn. by rewrite andb_true_r, andb_false_r, orb_false_r.
  - rewrite !Z.shiftl_spec_low by lia. cbn. by rewrite andb_true_r, orb_false_r.
Qed.

Lemma get_set_same lo width x v :
  0 <= lo -> 0 <= width -> get_bits lo width (set_bits lo width x v) = Z.land x (Z.ones width).
Proof.
  intros Hlo Hw. apply Z.bits_inj'. intros i Hi. rewrite get_bits_spec, set_bits_spec, Z.land_spec by lia.
  rewrite (proj2 (Z.leb_le lo (i + lo))) by lia. cbn [andb]. destruct (Z.ltb_spec i width).
  - rewrite (proj2 (Z.ltb_lt (i + lo) (lo + width))), Z.ones_spec_low, andb_true_r by lia. cbn. f_equal. lia.
  - rewrite Z.ones_spec_high by lia. by rewrite andb_false_r.
Qed.

Lemma get_set_other lo width lo' width' x v :
  0 <= lo -> 0 <= width -> 0 <= lo' -> 0 <= width' -> lo + width <= lo' \/ lo' + width' <= lo ->
  get_bits lo' width' (set_bits lo width x v) = get_bits lo' width' v.
Proof.
  intros Hlo Hw Hlo' Hw' Hd. apply Z.bits_inj'. intros i Hi. rewrite !get_bits_spec, set_bits_spec by lia.
  destruct (Z.ltb_spec i width'); [|done]. cbn [andb].
  destruct (Z.leb_spec lo (i + lo')), (Z.ltb_spec (i + lo') (lo + width)); cbn [andb]; done || lia.
Qed.

Lemma address_set a e : 0 <= a < 2 ^ 36 -> address (set_address a e) = a.
Proof. intros Ha. unfold address, set_address. rewrite get_set_same, Z.land_ones, Z.mod_small by lia. done. Qed.
Lemma valid_set_address a e : valid (set_address a e) = valid e.
Proof. apply get_set_other; lia. Qed.
Lemma type_set_address a e : type (set_address a e) = type e.
Proof. apply get_set_other; lia. Qed.
Lemma ap_set_address a e : ap (set_address a e) = ap e.
Proof. apply get_set_other; lia. Qed.

Lemma get_bits_range lo width v : 0 <= width -> 0 <= get_bits lo width v < 2 ^ width.
Proof. intros Hw. unfold get_bits. rewrite Z.land_ones by done. by apply Z.mod_pos_bound, pow2_pos. Qed.

(** The two descriptors that the flags are turned into are valid; the table
    descriptor does not depend on the flags at all. *)
Lemma table_flags_eq flags : parse_table_flags flags = 3.
Proof. unfold parse_table_flags. by destruct (has flags MAP_EXEC), (has flags MAP_KERNEL), (has flags MAP_USER). Qed.

Lemma block_flags_valid flags b : valid (parse_block_flags flags b) = 1 /\ type (parse_block_flags flags b) = if b then 1 else 0.
Proof.
  unfold parse_block_flags.
  by destruct b, (has flags MAP_DEVICE), (has flags MAP_CACHE), (has flags MAP_EXEC), (has flags MAP_KERNEL),
    (has flags MAP_USER), (has flags MAP_READ), (has flags MAP_WRITE).
Qed.

(** ** Addresses *)

Lemma idx_range va : 0 <= idx0 va < 512 /\ 0 <= idx1 va < 512 /\ 0 <= idx2 va < 512 /\ 0 <= idx3 va < 512.
Proof.
  unfold idx0, idx1, idx2, idx3. change 0x1FF with (Z.ones 9). rewrite !Z.land_ones by lia.
  change (2 ^ 9) with 512. repeat split; apply Z.mod_pos_bound; lia.
Qed.

Lemma idx_div va : 0 <= va ->
  idx0 va = va / 2 ^ 39 mod 512 /\ idx1 va = va / 2 ^ 30 mod 512 /\ idx2 va = va / 2 ^ 21 mod 512 /\ idx3 va = va / 2 ^ 12 mod 512.
Proof.
  intros. unfold idx0, idx1, idx2, idx3. change 0x1FF with (Z.ones 9). rewrite !Z.land_ones by lia.
  rewrite !Z.shiftr_div_pow2 by lia. done.
Qed.

(** Within 48 bits the four indices are the page number. *)
Lemma idx_page va : 0 <= va < 2 ^ 48 ->
  va / 4096 = ((idx0 va * 512 + idx1 va) * 512 + idx2 va) * 512 + idx3 va.
Proof.
  intros Hva. destruct (idx_div va ltac:(lia)) as (-> & -> & -> & ->).
  change (2 ^ 48) with 281474976710656 in Hva. change (2 ^ 39) with 549755813888. change (2 ^ 30) with 1073741824.
  change (2 ^ 21) with 2097152. change (2 ^ 12) with 4096. zdiv.
Qed.

Lemma entry_pa_page p i : 0 <= p < NPAGES -> 0 <= i < 512 -> entry_pa (page_va p) i = p * 4096 + 8 * i.
Proof.
  intros Hp Hi. unfold entry_pa, va_to_pa. rewrite page_va_eq by done. unfold VIRT_BASE. consts.
  rewrite (u64_small (_ + 8 * i)) by lia. rewrite u64_small; lia.
Qed.

Lemma next_table_page e : next_table e = page_va (address e).
Proof. done. Qed.

(** The words of page [n]. *)
Definition in_page (n x : Z) : Prop := n * 4096 <= x < n * 4096 + 4096.

Lemma zero_page_spec n w x : 0 <= n < NPAGES ->
  zero_page (page_va n) w x = if decide (in_page n x) then 0 else w x.
Proof.
  intros Hn. unfold zero_page, in_page, va_to_pa. rewrite page_va_eq by done. unfold VIRT_BASE. consts.
  rewrite u64_small by lia. replace (0xFFFF800000000000 + n * 4096 - 0xFFFF800000000000) with (n * 4096) by lia.
  case_decide; destruct (Z.leb_spec (n * 4096) x), (Z.ltb_spec x (n * 4096 + 4096)); cbn; done || lia.
Qed.

(** ** The tree of tables *)

Definition entry (w : words) (t i : Z) : pte := w (t * 4096 + 8 * i).

Fixpoint tbl (w : words) (r : Z) (path : list Z) : option Z :=
  match path with
  | [] => Some r
  | i :: path => if valid (entry w r i) =? 0 then None else tbl w (address (entry w r i)) path
  end.

Definition leaf (w : words) (r va : Z) : option pte :=
  match tbl w r [idx0 va; idx1 va; idx2 va] with
  | Some t => if valid (entry w t (idx3 va)) =? 0 then None else Some (entry w t (idx3 va))
  | None => None
  end.

(** Addresses of one page have the same entry. *)
Lemma leaf_page w r a b :
  0 <= a < 2 ^ 48 -> 0 <= b < 2 ^ 48 -> a / 4096 = b / 4096 -> leaf w r a = leaf w r b.
Proof.
  intros Ha Hb E. unfold leaf. pose proof (idx_page a Ha). pose proof (idx_page b Hb).
  pose proof (idx_range a) as (? & ? & ? & ?). pose proof (idx_range b) as (? & ? & ? & ?).
  assert (idx0 a = idx0 b /\ idx1 a = idx1 b /\ idx2 a = idx2 b /\ idx3 a = idx3 b) as (-> & -> & -> & ->) by lia.
  done.
Qed.

(** Entering the page of [v] and then the [n] pages behind it, where an address
    has no entry yet, is entering the run of [n + 1] pages. *)
Lemma pages_step (f : Z -> option pte) v pa n ptme a :
  (forall a b, 0 <= a < 2 ^ 48 -> 0 <= b < 2 ^ 48 -> a / 4096 = b / 4096 -> f a = f b) ->
  0 <= v < 2 ^ 48 -> v mod 4096 = 0 -> pa mod 4096 = 0 -> 0 <= a < 2 ^ 48 -> 0 <= n ->
  let f1 a := if decide (a / 4096 = v / 4096 /\ f v = None) then Some (set_address (Z.shiftr pa PAGE_SHIFT) ptme) else f a in
  (if decide (v + 4096 <= a < v + 4096 + 4096 * n /\ f1 a = None)
   then Some (set_address (Z.shiftr (pa + 4096 + (a - (v + 4096))) PAGE_SHIFT) ptme) else f1 a) =
  if decide (v <= a < v + 4096 * (n + 1) /\ f a = None)
  then Some (set_address (Z.shiftr (pa + (a - v)) PAGE_SHIFT) ptme) else f a.
Proof.
  intros Hf Hv Hal Hpal Ha Hn f1. unfold f1. change (2 ^ 48) with 281474976710656 in *.
  destruct (decide (a / 4096 = v / 4096)) as [Heq|Hne].
  - assert (v <= a < v + 4096) by zdiv. rewrite (decide_False (P := (v + 4096 <= a < _) /\ _)) by lia.
    rewrite (Hf a v) by done. destruct (f v) eqn:E; [by rewrite !decide_False by (intros [? ?]; done)|].
    rewrite !decide_True by (split; done || lia). do 2 f_equal.
    unfold PAGE_SHIFT. rewrite !Z.shiftr_div_pow2 by lia. change (2 ^ 12) with 4096. zdiv.
  - rewrite !(decide_False (P := a / 4096 = _ /\ _)) by tauto.
    destruct (f a) eqn:E; [by rewrite !decide_False by (intros [? ?]; done)|].
    assert (Hout : ~ (v <= a < v + 4096)) by zdiv. destruct (decide (v <= a < v + 4096 * (n + 1))).
    + rewrite !decide_True by (split; done || lia). do 3 f_equal. lia.
    + rewrite !decide_False by (intros [? _]; lia). done.
Qed.

Definition path_ok (p : list Z) : Prop := (length p <= 3)%nat /\ Forall (fun i => 0 <= i < 512) p.

Record pt_wf (own : Z -> Prop) (w : words) (r : Z) : Prop := {
  pw_own : forall p t, path_ok p -> tbl w r p = Some t -> 0 <= t < NPAGES /\ own t;
  pw_inj : forall p q t, path_ok p -> path_ok q -> tbl w r p = Some t -> tbl w r q = Some t -> p = q;
  pw_type : forall p t i, path_ok (p ++ [i]) -> tbl w r p = Some t -> valid (entry w t i) <> 0 -> type (entry w t i) = 1;
}.

Lemma tbl_snoc w r p i :
  tbl w r (p ++ [i]) = match tbl w r p with
    | Some t => if valid (entry w t i) =? 0 then None else Some (address (entry w t i)) | None => None end.
Proof. revert r. induction p as [|j p IH]; intros r; cbn [app tbl]; [done|]. case_match; [done|]. apply IH. Qed.

Lemma path_ok_snoc p i : path_ok (p ++ [i]) <-> path_ok p /\ (length p <= 2)%nat /\ 0 <= i < 512.
Proof.
  unfold path_ok. rewrite length_app, Forall_app, Forall_singleton. cbn. split; intros; split_and!; tauto || lia.
Qed.

Lemma entry_neq t i u j : 0 <= i < 512 -> 0 <= j < 512 -> t * 4096 + 8 * i = u * 4096 + 8 * j -> t = u /\ i = j.
Proof. lia. Qed.

(** Linking the fresh, zeroed page [n] under [path ++ [i]]; other memory than
    the pages of the tree may have changed. *)
Section link.
Context (own : Z -> Prop) (w w' : words) (r : Z) (p : list Z) (i t n e : Z).
Hypothesis (Hwf : pt_wf own w r) (Hp : path_ok (p ++ [i])) (Ht : tbl w r p = Some t)
  (Hinv : valid (entry w t i) = 0) (Hn : 0 <= n < NPAGES) (Hfresh : ~ own n)
  (He : valid e = 1) (Hty : type e = 1) (Ha : address e = n)
  (Hw : forall u x, own u \/ u = n -> in_page u x ->
    w' x = if decide (x = t * 4096 + 8 * i) then e else if decide (in_page n x) then 0 else w x).

Lemma link_t : t <> n.
Proof. intros ->. apply Hfresh. pose proof (proj1 (path_ok_snoc p i) Hp) as [Hp' _]. by apply (pw_own _ _ _ Hwf p). Qed.

Lemma link_entry u j : own u \/ u = n -> 0 <= j < 512 ->
  entry w' u j = if decide (u = t /\ j = i) then e else if decide (u = n) then 0 else entry w u j.
Proof.
  intros Hu Hj. pose proof (proj1 (path_ok_snoc p i) Hp) as (_ & _ & Hi). pose proof link_t. unfold entry.
  rewrite (Hw u) by (done || unfold in_page; lia).
  destruct (decide (u = t /\ j = i)) as [[-> ->]|Hne]; [by rewrite decide_True|].
  rewrite decide_False by (intros ?%entry_neq; tauto). unfold in_page.
  destruct (decide (u = n)) as [->|]; [rewrite decide_True by lia; done|]. rewrite decide_False by lia. done.
Qed.

Lemma link_tbl q : path_ok q -> tbl w' r q = if decide (q = p ++ [i]) then Some n else tbl w r q.
Proof.
  intros Hq. pose proof link_t as Htn. pose proof (proj1 (path_ok_snoc p i) Hp) as (Hp' & Hlp & Hi).
  induction q as [|j q IH] using rev_ind.
  - rewrite decide_False; [done|]. by destruct p.
  - apply path_ok_snoc in Hq as (Hq & Hlq & Hj). rewrite !tbl_snoc, IH by done.
    destruct (decide (q = p ++ [i])) as [->|Hne].
    + rewrite decide_False by (intros E%(f_equal length); rewrite !length_app in E; cbn in E; lia).
      rewrite link_entry, decide_False, decide_True by (done || (by right) || intros [? _]; congruence).
      rewrite tbl_snoc, Ht, Hinv. done.
    + destruct (tbl w r q) as [u|] eqn:Eu.
      * pose proof (pw_own _ _ _ Hwf q u Hq Eu) as [_ Hu]. rewrite link_entry by (by left || done). destruct (decide (u = t /\ j = i)) as [[-> ->]|Hd].
        -- assert (q = p) as -> by (eapply (pw_inj _ _ _ Hwf); eauto). rewrite decide_True by done.
           by rewrite He, Ha.
        -- rewrite (decide_False (P := u = n)).
           2: { intros ->. apply Hfresh. by apply (pw_own _ _ _ Hwf q). }
           rewrite decide_False; [done|]. intros [-> ->]%app_inj_tail. rewrite Ht in Eu. injection Eu as ->. tauto.
      * rewrite decide_False; [done|]. intros [-> ->]%app_inj_tail. congruence.
Qed.

Lemma link_wf : pt_wf (fun x => own x \/ x = n) w' r.
Proof.
  pose proof link_t as Htn. pose proof (proj1 (path_ok_snoc p i) Hp) as (Hp' & Hlp & Hi). split.
  - intros q u Hq. rewrite link_tbl by done. case_decide; intros Eu; [injection Eu as <-; split; [lia|by right]|].
    apply (pw_own _ _ _ Hwf q _ Hq) in Eu. tauto.
  - intros q1 q2 u H1 H2. rewrite !link_tbl by done. repeat case_decide; intros E1 E2; simplify_eq; try done.
    + exfalso. apply Hfresh. by apply (pw_own _ _ _ Hwf q2).
    + exfalso. apply Hfresh. by apply (pw_own _ _ _ Hwf q1).
    + by eapply (pw_inj _ _ _ Hwf).
  - intros q u j Hq. pose proof (proj1 (path_ok_snoc _ _) Hq) as (Hq' & _ & Hj).
    rewrite link_tbl by done. case_decide as Hd; intros Eu.
    + injection Eu as <-. rewrite link_entry by (done || by right).
      rewrite decide_False by (intros [? _]; congruence). rewrite decide_True by done. by intros [].
    + pose proof (pw_own _ _ _ Hwf q u Hq' Eu) as [_ Hu]. rewrite link_entry by (done || by left). case_decide; [done|]. rewrite decide_False; [by apply (pw_type _ _ _ Hwf q)|].
      intros ->. apply Hfresh. by apply (pw_own _ _ _ Hwf q).
Qed.

(** No page entry changes: below the new table there is none. *)
Lemma link_leaf va : leaf w' r va = leaf w r va.
Proof.
  pose proof link_t as Htn. pose proof (idx_range va) as (H0 & H1 & H2 & H3).
  assert (Hq : path_ok [idx0 va; idx1 va; idx2 va]) by (split; [done|repeat constructor; lia]).
  assert (Hent : forall u, tbl w r [idx0 va; idx1 va; idx2 va] = Some u -> entry w' u (idx3 va) = entry w u (idx3 va)).
  { intros u Eu. rewrite link_entry by (done || left; by apply (pw_own _ _ _ Hwf [idx0 va; idx1 va; idx2 va])). rewrite !decide_False; [done| |].
    - intros ->. apply Hfresh. by apply (pw_own _ _ _ Hwf [idx0 va; idx1 va; idx2 va]).
    - intros [-> Hi]. assert ([idx0 va; idx1 va; idx2 va] = p) as E.
      { eapply (pw_inj _ _ _ Hwf); eauto. by apply (path_ok_snoc p i). }
      pose proof (proj1 (path_ok_snoc p i) Hp) as (_ & Hl & _). rewrite <- E in Hl. cbn in Hl. lia. }
  unfold leaf. rewrite link_tbl by done. case_decide as Hd.
  - rewrite link_entry, decide_False, decide_True by (done || (by right) || intros [? _]; congruence).
    rewrite Hd, tbl_snoc, Ht, Hinv. done.
  - destruct (tbl w r [idx0 va; idx1 va; idx2 va]) as [u|] eqn:Eu; [|done]. by rewrite Hent.
Qed.
End link.

(** Writing the page entry of [va] in its last-level table. *)
Section leaf_write.
Context (own : Z -> Prop) (w w' : words) (r : Z) (va t e : Z).
Hypothesis (Hwf : pt_wf own w r) (Ht : tbl w r [idx0 va; idx1 va; idx2 va] = Some t) (He : valid e = 1)
  (Hw : forall x, w' x = if decide (x = t * 4096 + 8 * idx3 va) then e else w x).

Lemma idx_path a : path_ok [idx0 a; idx1 a; idx2 a].
Proof. pose proof (idx_range a). split; [done|repeat constructor; lia]. Qed.

Lemma leaf_entry u j : 0 <= j < 512 -> entry w' u j = if decide (u = t /\ j = idx3 va) then e else entry w u j.
Proof.
  intros Hj. pose proof (idx_range va). unfold entry. rewrite Hw.
  destruct (decide (u = t /\ j = idx3 va)) as [[-> ->]|Hne]; [by rewrite decide_True|].
  rewrite decide_False; [done|]. intros E%entry_neq; [tauto|done|lia].
Qed.

Lemma leaf_tbl q : path_ok q -> tbl w' r q = tbl w r q.
Proof.
  induction q as [|j q IH] using rev_ind; [done|]. intros Hq. pose proof (proj1 (path_ok_snoc q j) Hq) as (Hq' & Hl & Hj).
  rewrite !tbl_snoc, IH by done. destruct (tbl w r q) as [u|] eqn:Eu; [|done].
  rewrite leaf_entry, decide_False; [done| |done]. intros [-> _].
  assert (q = [idx0 va; idx1 va; idx2 va]) as -> by (eapply (pw_inj _ _ _ Hwf); eauto using idx_path).
  cbn in Hl. lia.
Qed.

Lemma leaf_wf : pt_wf own w' r.
Proof.
  split.
  - intros q u Hq. rewrite leaf_tbl by done. by apply (pw_own _ _ _ Hwf).
  - intros q1 q2 u H1 H2. rewrite !leaf_tbl by done. by apply (pw_inj _ _ _ Hwf).
  - intros q u j Hq. pose proof (proj1 (path_ok_snoc q j) Hq) as (Hq' & Hl & Hj).
    rewrite leaf_tbl by done. intros Eu. rewrite leaf_entry, decide_False; [by apply (pw_type _ _ _ Hwf q)| |done].
    intros [-> _]. assert (q = [idx0 va; idx1 va; idx2 va]) as -> by (eapply (pw_inj _ _ _ Hwf); eauto using idx_path).
    cbn in Hl. lia.
Qed.

Lemma leaf_leaf a : 0 <= va < 2 ^ 48 -> 0 <= a < 2 ^ 48 ->
  leaf w' r a = if decide (a / 4096 = va / 4096) then Some e else leaf w r a.
Proof.
  intros Hva Ha. pose proof (idx_page va Hva) as E1. pose proof (idx_page a Ha) as E2.
  pose proof (idx_range va) as (? & ? & ? & ?). pose proof (idx_range a) as (? & ? & ? & ?).
  unfold leaf. rewrite leaf_tbl by apply idx_path. case_decide as Hd.
  - assert (idx0 a = idx0 va /\ idx1 a = idx1 va /\ idx2 a = idx2 va /\ idx3 a = idx3 va) as (-> & -> & -> & ->) by lia.
    rewrite Ht, leaf_entry, decide_True by done. by rewrite He.
  - destruct (tbl w r [idx0 a; idx1 a; idx2 a]) as [u|] eqn:Eu; [|done]. rewrite leaf_entry, decide_False; [done| |done].
    intros [-> Hi3]. assert ([idx0 a; idx1 a; idx2 a] = [idx0 va; idx1 va; idx2 va]) as E
      by (eapply (pw_inj _ _ _ Hwf); eauto using idx_path).
    injection E as ? ? ?. lia.
Qed.
End leaf_write.
