(* ===== verification/MmapOps.v ===== *)
(** * Page tables: [map_pages] over a supply of page tables *)
From S2P Require Import Prelude Buddy BuddyInv BuddyOps BuddyRef Mmap MmapInv.

(** What [map_pages] needs of the routine that allocates page tables: [ready s
    own k] says that [k] more calls will each return a page outside [own],
    zeroed, and leave the pages of [own] as they are.  Readiness does not depend
    on the words outside the pages [kern]. *)
Class TableSupply {S : Type} (alloc_pt : mm S -> res (Z * mm S)) (kern : Z -> Prop)
    (ready : mm S -> (Z -> Prop) -> nat -> Prop) : Prop := {
  ts_alloc : forall s own k, ready s own (Datatypes.S k) ->
    exists n s', alloc_pt s = Ok (page_va n, s') /\ 0 <= n < NPAGES /\ ~ own n /\ ~ kern n /\
      (forall u x, own u \/ u = n -> in_page u x -> mwords s' x = if decide (in_page n x) then 0 else mwords s x) /\
      ready s' (fun x => own x \/ x = n) k;
  ts_words : forall s w own k, ready s own k ->
    (forall n x, kern n -> in_page n x -> w x = mwords s x) -> ready (MM (mpages s) w) own k;
  ts_less : forall s own k k', ready s own k -> (k' <= k)%nat -> ready s own k';
}.

Section MmapOps.
Context {S : Type} (alloc_pt : mm S -> res (Z * mm S)) (kern : Z -> Prop)
  (ready : mm S -> (Z -> Prop) -> nat -> Prop) `{!TableSupply alloc_pt kern ready}.

(** The tree of tables at [r], none of them a kernel page. *)
Definition tree_ok (own : Z -> Prop) (s : mm S) (r : Z) : Prop :=
  pt_wf own (mwords s) r /\ forall p t, path_ok p -> tbl (mwords s) r p = Some t -> ~ kern t.

Lemma ready_write s own k t i e :
  ready s own k -> ~ kern t -> 0 <= t < NPAGES -> 0 <= i < 512 ->
  ready (on_words (wr_entry (page_va t) i e) s) own k.
Proof.
  intros Hr Hk Ht Hi. apply (ts_words s); [done|]. intros n x Hn Hx. unfold wr_entry, store64.
  rewrite entry_pa_page by done. unfold in_page in Hx.
  destruct (Z.eqb_spec x (t * 4096 + 8 * i)); [|done]. assert (n = t) as -> by lia. done.
Qed.

(** One level: the table is there or is allocated and linked. *)
Lemma descend_ok s own r p i t k :
  tree_ok own s r -> path_ok (p ++ [i]) -> tbl (mwords s) r p = Some t -> ready s own (Datatypes.S k) ->
  exists u s' own', descend alloc_pt 3 (page_va t) i s = Ok (page_va u, s') /\
    tree_ok own' s' r /\ (forall x, own x -> own' x) /\ ready s' own' k /\
    tbl (mwords s') r (p ++ [i]) = Some u /\ (forall va, leaf (mwords s') r va = leaf (mwords s) r va).
Proof.
  intros [Hwf Hk] Hp Ht Hr. pose proof (proj1 (path_ok_snoc p i) Hp) as (Hp' & Hl & Hi).
  pose proof (pw_own _ _ _ Hwf p t Hp' Ht) as [Htr Hto]. pose proof (Hk p t Hp' Ht) as Htk.
  unfold descend. unfold rd_entry. rewrite entry_pa_page by done. fold (entry (mwords s) t i).
  destruct (Z.eqb_spec (valid (entry (mwords s) t i)) 0) as [E|E].
  - destruct (ts_alloc s own k Hr) as (n & s1 & Ea & Hn & Hno & Hnk & Hw1 & Hr1). rewrite Ea. cbn [mbind res_bind].
    assert (Hpg : Z.shiftr (va_to_pa (page_va n)) PAGE_SHIFT = n) by (apply (page_va_pfn0 n Hn)).
    rewrite Hpg. set (e := set_address n 3).
    assert (Hn36 : 0 <= n < 2 ^ 36) by (consts; change (2 ^ 36) with 68719476736; lia).
    assert (He : valid e = 1 /\ type e = 1 /\ address e = n).
    { unfold e. rewrite valid_set_address, type_set_address, address_set by done. done. }
    destruct He as (Hv & Hty & Had).
    set (s2 := on_words (wr_entry (page_va t) i e) s1).
    assert (Hw2 : forall u x, own u \/ u = n -> in_page u x -> mwords s2 x = if decide (x = t * 4096 + 8 * i) then e
      else if decide (in_page n x) then 0 else mwords s x).
    { intros u x Hu Hx. cbn. unfold wr_entry, store64. rewrite entry_pa_page by done. rewrite (Hw1 u x Hu Hx).
      destruct (Z.eqb_spec x (t * 4096 + 8 * i)); repeat case_decide; done. }
    exists n, s2, (fun x => own x \/ x = n).
    assert (Htbl : forall q, path_ok q -> tbl (mwords s2) r q = if decide (q = p ++ [i]) then Some n else tbl (mwords s) r q)
      by (intros q Hq; eapply link_tbl; eauto).
    split; [|split; [split|split; [auto|split; [|split]]]].
    + f_equal. f_equal. rewrite next_table_page. f_equal. change (mwords s2 (t * 4096 + 8 * i)) with (entry (mwords s2) t i).
      unfold entry. rewrite (Hw2 t), decide_True; [done|done|by left|unfold in_page; lia].
    + eapply link_wf; eauto.
    + intros q u Hq. rewrite Htbl by done. case_decide; [by intros [= <-]|by apply Hk].
    + by apply ready_write.
    + rewrite Htbl by done. by rewrite decide_True.
    + intros va. eapply link_leaf; eauto.
  - cbn [mbind res_bind]. exists (address (entry (mwords s) t i)), s, own.
    split; [done|]. split; [done|]. split; [done|]. split; [apply (ts_less s own (Datatypes.S k)); [done|lia]|].
    split; [|done]. rewrite tbl_snoc, Ht. by rewrite (proj2 (Z.eqb_neq _ _) E).
Qed.

(** One page: entered unless its entry is already valid. *)
Lemma map_one_page_ok s own r ptme va pa k :
  tree_ok own s r -> ready s own (3 + k) -> valid ptme = 1 -> 0 <= va < 2 ^ 48 ->
  exists s' own', map_one_page alloc_pt 3 ptme va pa (page_va r) s = Ok s' /\
    tree_ok own' s' r /\ (forall x, own x -> own' x) /\ ready s' own' k /\
    forall a, 0 <= a < 2 ^ 48 -> leaf (mwords s') r a =
      if decide (a / 4096 = va / 4096 /\ leaf (mwords s) r va = None) then Some (set_address (Z.shiftr pa PAGE_SHIFT) ptme)
      else leaf (mwords s) r a.
Proof.
  intros Hs Hr Hv Hva. pose proof (idx_range va) as (H0 & H1 & H2 & H3). unfold map_one_page.
  destruct (descend_ok s own r [] (idx0 va) r (2 + k) Hs) as (t1 & s1 & o1 & -> & Hs1 & Ho1 & Hr1 & Ht1 & Hl1);
    [split; [cbn; lia|repeat constructor; lia]|done|done|]. cbn [mbind res_bind].
  destruct (descend_ok s1 o1 r [idx0 va] (idx1 va) t1 (1 + k) Hs1) as (t2 & s2 & o2 & -> & Hs2 & Ho2 & Hr2 & Ht2 & Hl2);
    [split; [cbn; lia|repeat constructor; lia]|done|done|]. cbn [mbind res_bind].
  destruct (descend_ok s2 o2 r [idx0 va; idx1 va] (idx2 va) t2 k Hs2) as (t3 & s3 & o3 & -> & Hs3 & Ho3 & Hr3 & Ht3 & Hl3);
    [split; [cbn; lia|repeat constructor; lia]|done|done|]. cbn [mbind res_bind]. cbn [app] in Ht3.
  assert (Hleaf : forall a, leaf (mwords s3) r a = leaf (mwords s) r a) by (intros a; by rewrite Hl3, Hl2, Hl1).
  destruct Hs3 as [Hwf3 Hk3].
  pose proof (pw_own _ _ _ Hwf3 _ t3 (idx_path va) Ht3) as [Ht3r _]. pose proof (Hk3 _ t3 (idx_path va) Ht3) as Ht3k.
  unfold rd_entry. rewrite entry_pa_page by done. fold (entry (mwords s3) t3 (idx3 va)).
  assert (Hcur : leaf (mwords s) r va = if valid (entry (mwords s3) t3 (idx3 va)) =? 0 then None
    else Some (entry (mwords s3) t3 (idx3 va))) by (rewrite <- Hleaf; unfold leaf; by rewrite Ht3).
  rewrite Hcur. destruct (Z.eqb_spec (valid (entry (mwords s3) t3 (idx3 va))) 0) as [E|E].
  - set (e := set_address (Z.shiftr pa PAGE_SHIFT) ptme).
    set (s4 := on_words (wr_entry (page_va t3) (idx3 va) e) s3).
    assert (Hw : forall x, mwords s4 x = if decide (x = t3 * 4096 + 8 * idx3 va) then e else mwords s3 x).
    { intros x. cbn. unfold wr_entry, store64. rewrite entry_pa_page by done.
      destruct (Z.eqb_spec x (t3 * 4096 + 8 * idx3 va)); case_decide; done. }
    assert (Hve : valid e = 1) by (unfold e; by rewrite valid_set_address).
    exists s4, o3. split; [done|]. split; [split|split; [auto|split; [by apply ready_write|]]].
    + eapply leaf_wf; eauto.
    + intros q u Hq. rewrite (leaf_tbl o3 (mwords s3) (mwords s4) r va t3 e) by done. by apply Hk3.
    + intros a Ha. rewrite (leaf_leaf o3 (mwords s3) (mwords s4) r va t3 e) by done. rewrite Hleaf.
      repeat case_decide; tauto.
  - exists s3, o3. split; [done|]. split; [done|]. split; [auto|]. split; [done|]. intros a Ha.
    rewrite Hleaf, decide_False; [done|]. by intros [_ ?].
Qed.

(** The loop: [n] consecutive pages. *)
Lemma map_pages_loop_ok n s own r ptme va pa k :
  tree_ok own s r -> ready s own (3 * n + k) -> valid ptme = 1 ->
  0 <= va -> va + 4096 * Z.of_nat n <= 2 ^ 48 -> 0 <= pa -> pa + 4096 * Z.of_nat n <= 2 ^ 48 -> va mod 4096 = 0 -> pa mod 4096 = 0 ->
  exists s' own', map_pages_loop alloc_pt n 3 ptme va pa (page_va r) s = Ok s' /\
    tree_ok own' s' r /\ (forall x, own x -> own' x) /\ ready s' own' k /\
    forall a, 0 <= a < 2 ^ 48 -> leaf (mwords s') r a =
      if decide (va <= a < va + 4096 * Z.of_nat n /\ leaf (mwords s) r a = None)
      then Some (set_address (Z.shiftr (pa + (a - va)) PAGE_SHIFT) ptme) else leaf (mwords s) r a.
Proof.
  revert s own va pa. induction n as [|n IH]; intros s own va pa Hs Hr Hv Hva Hve Hpa Hpe Hal Hpal; cbn [map_pages_loop].
  - exists s, own. split; [done|]. split; [done|]. split; [done|]. split; [done|]. intros a Ha.
    rewrite decide_False; [done|lia].
  - change (2 ^ 48) with 281474976710656 in *.
    destruct (map_one_page_ok s own r ptme va pa (3 * n + k) Hs) as (s1 & o1 & -> & Hs1 & Ho1 & Hr1 & Hl1);
      [apply (ts_less s own (3 * Datatypes.S n + k)); [done|lia]|done|change (2 ^ 48) with 281474976710656; lia|].
    cbn [mbind res_bind]. unfold PAGE_SIZE. rewrite (u64_small (va + 4096)), (u64_small (pa + 4096)) by lia.
    destruct (IH s1 o1 (va + 4096) (pa + 4096) Hs1 Hr1 Hv) as (s2 & o2 & -> & Hs2 & Ho2 & Hr2 & Hl2);
      [lia|change (2 ^ 48) with 281474976710656; lia|lia|change (2 ^ 48) with 281474976710656; lia|zdiv|zdiv|].
    exists s2, o2. split; [done|]. split; [done|]. split; [auto|]. split; [done|]. intros a Ha.
    rewrite Hl2, Hl1 by done.
    rewrite (pages_step (leaf (mwords s) r) va pa (Z.of_nat n)) by (done || lia || apply leaf_page).
    replace (Z.of_nat (Datatypes.S n)) with (Z.of_nat n + 1) by lia. done.
Qed.
End MmapOps.
