(* ===== verification/MmapSpec.v ===== *)
(** * What the page-table code promises

    Mapping and translation agree; [buddy_alloc_pt] supplies page tables when
    the kernel maps its memory by pages; and what happens when it does not. *)
From S2P Require Import Prelude Buddy BuddyInv BuddyOps BuddyRef Mmap MmapInv MmapOps.

(** ** Translation *)

Lemma lor_page a off : 0 <= a -> 0 <= off < 4096 -> Z.lor (a * 4096) off = a * 4096 + off.
Proof.
  intros Ha Ho. assert (Hland : Z.land (a * 2 ^ 12) off = 0).
  { apply Z.bits_inj'. intros i Hi. rewrite Z.land_spec, Z.bits_0. destruct (Z.lt_ge_cases i 12).
    - by rewrite Z.mul_pow2_bits_low by lia.
    - rewrite <- (Z.mod_small off (2 ^ 12)) by done. by rewrite Z.mod_pow2_bits_high, andb_false_r by lia. }
  pose proof (Z.add_lor_land (a * 2 ^ 12) off) as E. rewrite Hland in E.
  change (2 ^ 12) with 4096 in E. lia.
Qed.

Lemma next_pa e : 0 <= address e < NPAGES -> u64 (Z.shiftl (address e) 12) = address e * 4096.
Proof. intros He. consts. rewrite Z.shiftl_mul_pow2 by lia. change (2 ^ 12) with 4096. rewrite u64_small; lia. Qed.

Lemma translate_leaf own w r va :
  pt_wf own w r -> 0 <= va < 2 ^ 48 ->
  translate_va w va (r * 4096) =
    match leaf w r va with
    | Some e => (address e * 4096 + va mod 4096) mod 2 ^ 36
    | None => u64 (-1)
    end.
Proof.
  intros Hwf Hva. pose proof (idx_range va) as (H0 & H1 & H2 & H3).
  destruct (pw_own _ _ _ Hwf [] r) as [Hr _]; [split; [cbn; lia|constructor]|done|].
  assert (P1 : path_ok ([] ++ [idx0 va])) by (split; [cbn; lia|repeat constructor; lia]).
  assert (P2 : path_ok ([idx0 va] ++ [idx1 va])) by (split; [cbn; lia|repeat constructor; lia]).
  assert (P3 : path_ok ([idx0 va; idx1 va] ++ [idx2 va])) by (split; [cbn; lia|repeat constructor; lia]).
  unfold translate_va, leaf. cbn [tbl].
  replace (Z.land (r * 4096) (u64 (Z.lnot 4095))) with (r * 4096).
  2: { change (u64 (Z.lnot 4095)) with (Z.shiftl (Z.ones 52) 12). symmetry.
       replace (r * 4096) with (Z.shiftl r 12) by (rewrite Z.shiftl_mul_pow2 by lia; done).
       rewrite <- Z.shiftl_land, Z.land_ones by lia. f_equal. apply Z.mod_small. consts.
       change (2 ^ 52) with 4503599627370496. lia. }
  fold (entry w r (idx0 va)). destruct (Z.eqb_spec (valid (entry w r (idx0 va))) 0) as [|E0]; [done|].
  assert (T1 : tbl w r ([] ++ [idx0 va]) = Some (address (entry w r (idx0 va)))).
  { cbn [app tbl]. by rewrite (proj2 (Z.eqb_neq _ _) E0). }
  destruct (pw_own _ _ _ Hwf _ _ P1 T1) as [R1 _]. rewrite next_pa by done.
  set (t1 := address (entry w r (idx0 va))) in *. fold (entry w t1 (idx1 va)).
  destruct (Z.eqb_spec (valid (entry w t1 (idx1 va))) 0) as [|E1]; [done|].
  rewrite (pw_type _ _ _ Hwf _ _ _ P2 T1 E1). cbn [Z.eqb].
  assert (T2 : tbl w r ([idx0 va] ++ [idx1 va]) = Some (address (entry w t1 (idx1 va)))).
  { rewrite tbl_snoc. cbn [app] in T1. rewrite T1. by rewrite (proj2 (Z.eqb_neq _ _) E1). }
  destruct (pw_own _ _ _ Hwf _ _ P2 T2) as [R2 _]. rewrite next_pa by done.
  set (t2 := address (entry w t1 (idx1 va))) in *. fold (entry w t2 (idx2 va)).
  destruct (Z.eqb_spec (valid (entry w t2 (idx2 va))) 0) as [|E2]; [done|].
  rewrite (pw_type _ _ _ Hwf _ _ _ P3 T2 E2). cbn [Z.eqb].
  assert (T3 : tbl w r ([idx0 va; idx1 va] ++ [idx2 va]) = Some (address (entry w t2 (idx2 va)))).
  { rewrite tbl_snoc. cbn [app] in T2. rewrite T2. by rewrite (proj2 (Z.eqb_neq _ _) E2). }
  destruct (pw_own _ _ _ Hwf _ _ P3 T3) as [R3 _]. rewrite next_pa by done.
  set (t3 := address (entry w t2 (idx2 va))) in *. fold (entry w t3 (idx3 va)).
  destruct (Z.eqb_spec (valid (entry w t3 (idx3 va))) 0) as [|E3]; [done|].
  set (e := entry w t3 (idx3 va)). pose proof (get_bits_range 12 36 e ltac:(lia)) as Hae. fold (address e) in Hae.
  rewrite Z.shiftl_mul_pow2 by lia. change (2 ^ 12) with 4096. change (2 ^ 36) with 68719476736 in *.
  rewrite u64_small by lia. change 0xFFF with (Z.ones 12). rewrite Z.land_ones by lia. change (2 ^ 12) with 4096.
  rewrite lor_page by zdiv. change (Z.shiftl 1 36 - 1) with (Z.ones 36). rewrite Z.land_ones by lia. done.
Qed.

(** ** A concrete supply of page tables *)

(** Pages from [next] on, zeroed. *)
Definition bump_alloc (s : mm Z) : res (Z * mm Z) :=
  Ok (page_va (mpages s), MM (mpages s + 1) (zero_page (page_va (mpages s)) (mwords s))).
Definition bump_ready (s : mm Z) (own : Z -> Prop) (k : nat) : Prop :=
  0 <= mpages s /\ mpages s + Z.of_nat k <= NPAGES /\ forall x, own x -> x < mpages s.

Lemma bump_supply : TableSupply bump_alloc (fun _ => False) bump_ready.
Proof.
  split.
  - intros s own k (H0 & Hk & Ho). exists (mpages s). eexists. split; [done|]. split; [lia|].
    split; [intros H; apply Ho in H; lia|]. split; [tauto|]. split; [intros u x _ _; apply zero_page_spec; lia|].
    split; [cbn; lia|]. split; [cbn; lia|]. intros x [Hx|Hx]; [apply Ho in Hx|]; cbn; lia.
  - intros s w own k H _. exact H.
  - intros s own k k' (H0 & Hk & Ho) Hle. split; [done|]. split; [lia|done].
Qed.

(** An empty address space with its root in page 300. *)
Definition empty_space : mm Z := MM 301 (fun _ => 0).

Lemma empty_tree : tree_ok (fun _ => False) (fun x => x = 300) empty_space 300.
Proof.
  assert (Htbl : forall p, tbl (fun _ => 0) 300 p = match p with [] => Some 300 | _ => None end) by (by intros [|i p]).
  split; [split|].
  - intros p t _. cbn [mwords empty_space]. rewrite Htbl. destruct p; [|done]. intros [= <-]. done.
  - intros p q t _ _. cbn [mwords empty_space]. rewrite !Htbl. by destruct p, q.
  - intros p t i _ _. by cbn.
  - tauto.
Qed.

(** C14: [map_pages], given enough page tables, enters exactly the pages asked
    for that had no entry: the entry of each such address gets the page frame
    that belongs to it and the attributes of the flags, every other address
    keeps its entry, and the tables still form a tree of distinct pages. *)
Theorem map_pages_refines {S} (alloc_pt : mm S -> res (Z * mm S)) kern ready
    `{!TableSupply alloc_pt kern ready} own s r va pa n flags :
  tree_ok kern own s r -> ready s own (3 * Z.to_nat n)%nat -> 0 <= n ->
  0 <= va -> va + 4096 * n <= 2 ^ 48 -> 0 <= pa -> pa + 4096 * n <= 2 ^ 48 -> va mod 4096 = 0 -> pa mod 4096 = 0 ->
  exists s' own', map_pages alloc_pt va pa n flags (page_va r) s = Ok (true, s') /\ tree_ok kern own' s' r /\
    (forall x, own x -> own' x) /\
    forall a, 0 <= a < 2 ^ 48 -> leaf (mwords s') r a =
      if decide (va <= a < va + 4096 * n /\ leaf (mwords s) r a = None)
      then Some (set_address (Z.shiftr (pa + (a - va)) 12) (parse_block_flags flags true)) else leaf (mwords s) r a.
Proof.
  intros Hs Hr Hn H1 H2 H3 H4 H5 H6. unfold map_pages. rewrite table_flags_eq.
  destruct (map_pages_loop_ok alloc_pt kern ready (Z.to_nat n) s own r (parse_block_flags flags true) va pa 0 Hs)
    as (s' & own' & -> & Hs' & Ho & _ & Hl);
    [by rewrite Nat.add_0_r|by apply block_flags_valid|lia|lia|lia|lia|done|done|].
  rewrite Z2Nat.id in Hl by done. exists s', own'. done.
Qed.

Lemma map_pages_refines_witness : exists s' own',
  map_pages bump_alloc 0x400000 0x80000 2 (MAP_USER + MAP_READ) (page_va 300) empty_space = Ok (true, s') /\
  tree_ok (fun _ => False) own' s' 300 /\ leaf (mwords s') 300 0x401234 <> None.
Proof.
  destruct (@map_pages_refines Z bump_alloc (fun _ => False) bump_ready bump_supply (fun x => x = 300)
    empty_space 300 0x400000 0x80000 2 (MAP_USER + MAP_READ) empty_tree) as (s' & own' & E & Ht & _ & Hl);
    try (change (2 ^ 48) with 281474976710656; lia); try reflexivity.
  - split; [cbn; lia|]. split; [consts; cbn; lia|]. intros x ->. cbn. lia.
  - exists s', own'. split; [exact E|]. split; [exact Ht|].
    rewrite (Hl 0x401234) by (change (2 ^ 48) with 281474976710656; lia).
    rewrite decide_True; [discriminate|]. split; [lia|reflexivity].
Defined.

(** C15: mapping and translation agree: after [map_pages] of [n] pages with no
    entry before, [translate_va] of every address of the range gives the
    physical address at the same distance from the start. *)
Theorem map_translate_roundtrip {S} (alloc_pt : mm S -> res (Z * mm S)) kern ready
    `{!TableSupply alloc_pt kern ready} own s r va pa n flags :
  tree_ok kern own s r -> ready s own (3 * Z.to_nat n)%nat -> 0 <= n ->
  0 <= va -> va + 4096 * n <= 2 ^ 48 -> 0 <= pa -> pa + 4096 * n <= 2 ^ 36 -> va mod 4096 = 0 -> pa mod 4096 = 0 ->
  (forall a, va <= a < va + 4096 * n -> leaf (mwords s) r a = None) ->
  exists s', map_pages alloc_pt va pa n flags (page_va r) s = Ok (true, s') /\
    forall a, va <= a < va + 4096 * n -> translate_va (mwords s') a (r * 4096) = pa + (a - va).
Proof.
  intros Hs Hr Hn H1 H2 H3 H4 H5 H6 Hno. unfold map_pages. rewrite table_flags_eq.
  change (2 ^ 36) with 68719476736 in *. change (2 ^ 48) with 281474976710656 in *.
  destruct (map_pages_loop_ok alloc_pt kern ready (Z.to_nat n) s own r (parse_block_flags flags true) va pa 0 Hs)
    as (s' & own' & -> & [Hwf' _] & Ho & _ & Hl);
    [by rewrite Nat.add_0_r|by apply block_flags_valid|lia|change (2 ^ 48) with 281474976710656; lia|lia|
     change (2 ^ 48) with 281474976710656; lia|done|done|].
  rewrite Z2Nat.id in Hl by done. change (2 ^ 48) with 281474976710656 in *.
  exists s'. split; [done|]. intros a Ha. rewrite (translate_leaf own') by (done || change (2 ^ 48) with 281474976710656; lia).
  rewrite Hl, decide_True by (lia || (split; [lia|by apply Hno])).
  rewrite Z.shiftr_div_pow2, address_set by (try lia; unfold PAGE_SHIFT; change (2 ^ 36) with 68719476736;
    change (2 ^ 12) with 4096; zdiv).
  unfold PAGE_SHIFT. change (2 ^ 12) with 4096. change (2 ^ 36) with 68719476736. rewrite Z.mod_small; zdiv.
Qed.

Lemma map_translate_roundtrip_witness : exists s',
  map_pages bump_alloc 0x400000 0x80000 2 (MAP_USER + MAP_READ) (page_va 300) empty_space = Ok (true, s') /\
  translate_va (mwords s') 0x401234 (300 * 4096) = 0x81234.
Proof.
  destruct (@map_translate_roundtrip Z bump_alloc (fun _ => False) bump_ready bump_supply (fun x => x = 300)
    empty_space 300 0x400000 0x80000 2 (MAP_USER + MAP_READ) empty_tree) as (s' & E & Hl);
    try (change (2 ^ 48) with 281474976710656; lia); try (change (2 ^ 36) with 68719476736; lia); try reflexivity.
  - split; [cbn; lia|]. split; [consts; cbn; lia|]. intros x ->. cbn. lia.
  - exists s'. split; [exact E|]. apply (Hl 0x401234). lia.
Defined.
