(* ===== verification/MmapKernel.v ===== *)
(** * Page tables of the kernel: [buddy_alloc_pt], blocks and permissions

    Early boot maps the memory behind the kernel by 2 MiB blocks, page by page
    only up to the first block.  [map_pages] does not know blocks: it takes the
    first page of a block for a table and enters the page there, a word of data
    memory.  [kernel_walk] describes the tables that boot leaves, [scar n] is the
    word that page [n] overwrites; with them [buddy_alloc_pt] is a supply of page
    tables in the sense of [TableSupply]. *)
From S2P Require Import Prelude Buddy BuddyInv BuddyOps BuddyInit BuddyRef PageUse Mmap MmapInv MmapOps MmapSpec.

(** The word that is taken for the page entry of page [n] when a block maps it. *)
Definition scar (n : Z) : Z := n / 512 * 512 * 4096 + 8 * (n mod 512).

Lemma page_idx3 n : 0 <= n < NPAGES -> idx3 (page_va n) = n mod 512.
Proof.
  intros Hn. destruct (idx_div (page_va n)) as (_ & _ & _ & ->); rewrite page_va_eq by done; unfold VIRT_BASE; consts; [lia|].
  change (2 ^ 12) with 4096. zdiv.
Qed.

Lemma descend_present {S} alloc_pt ptte t i u (s : mm S) :
  0 <= t < NPAGES -> 0 <= i < 512 -> valid (entry (mwords s) t i) <> 0 -> address (entry (mwords s) t i) = u ->
  descend alloc_pt ptte (page_va t) i s = Ok (page_va u, s).
Proof.
  intros Ht Hi Hv <-. unfold descend, rd_entry. rewrite entry_pa_page by done. fold (entry (mwords s) t i).
  rewrite (proj2 (Z.eqb_neq _ _) Hv). done.
Qed.

(** The walk to level 3, when the entries above it are there; [map_one_page]
    does not see whether the level-2 entry is a table or a block. *)
Lemma map_one_walked {S} alloc_pt ptte ptme va pa r t1 t2 t3 (s : mm S) :
  0 <= r < NPAGES -> 0 <= t1 < NPAGES -> 0 <= t2 < NPAGES -> 0 <= t3 < NPAGES ->
  valid (entry (mwords s) r (idx0 va)) <> 0 -> address (entry (mwords s) r (idx0 va)) = t1 ->
  valid (entry (mwords s) t1 (idx1 va)) <> 0 -> address (entry (mwords s) t1 (idx1 va)) = t2 ->
  valid (entry (mwords s) t2 (idx2 va)) <> 0 -> address (entry (mwords s) t2 (idx2 va)) = t3 ->
  exists w, map_one_page alloc_pt ptte ptme va pa (page_va r) s = Ok (MM (mpages s) w) /\
    forall x, w x = if decide (x = t3 * 4096 + 8 * idx3 va /\ valid (mwords s x) = 0)
      then set_address (Z.shiftr pa PAGE_SHIFT) ptme else mwords s x.
Proof.
  intros R0 R1 R2 R3 V0 A0 V1 A1 V2 A2. pose proof (idx_range va) as (? & ? & ? & ?). unfold map_one_page.
  rewrite (descend_present alloc_pt _ r (idx0 va) t1 s R0 ltac:(lia) V0 A0). cbn [mbind res_bind].
  rewrite (descend_present alloc_pt _ t1 (idx1 va) t2 s R1 ltac:(lia) V1 A1). cbn [mbind res_bind].
  rewrite (descend_present alloc_pt _ t2 (idx2 va) t3 s R2 ltac:(lia) V2 A2). cbn [mbind res_bind].
  unfold rd_entry. rewrite entry_pa_page by done.
  destruct (Z.eqb_spec (valid (mwords s (t3 * 4096 + 8 * idx3 va))) 0) as [E|E].
  - eexists. split; [done|]. intros x. unfold wr_entry, store64. rewrite entry_pa_page by done.
    destruct (Z.eqb_spec x (t3 * 4096 + 8 * idx3 va)) as [->|]; case_decide; tauto.
  - exists (mwords s). split; [by destruct s|]. intros x. case_decide as Hd; [|done]. destruct Hd as [-> ?]. done.
Qed.

Section kernel.
Context (resv r0 : Z).

(** The kernel's tables [kern], rooted at [r0], lead to every page that the
    allocator hands out: to its entry, or to a block that maps its 2 MiB of
    memory, all of which the allocator hands out. *)
Definition kernel_walk (kern : Z -> Prop) (w : words) : Prop := forall n, resv <= n < NPAGES -> 0 <= n ->
  let va := page_va n in
  exists t1 t2 t3, kern r0 /\ kern t1 /\ kern t2 /\
    0 <= r0 < NPAGES /\ 0 <= t1 < NPAGES /\ 0 <= t2 < NPAGES /\ 0 <= t3 < NPAGES /\
    (valid (entry w r0 (idx0 va)) <> 0 /\ address (entry w r0 (idx0 va)) = t1) /\
    (valid (entry w t1 (idx1 va)) <> 0 /\ address (entry w t1 (idx1 va)) = t2) /\
    (valid (entry w t2 (idx2 va)) <> 0 /\ address (entry w t2 (idx2 va)) = t3) /\
    (kern t3 /\ valid (entry w t3 (idx3 va)) <> 0 \/
     type (entry w t2 (idx2 va)) = 0 /\ t3 = n / 512 * 512 /\ resv <= t3).

Lemma kernel_walk_ext kern w w' :
  (forall n x, kern n -> in_page n x -> w' x = w x) -> kernel_walk kern w -> kernel_walk kern w'.
Proof.
  intros Hw Hk n Hn Hn0 va. destruct (Hk n Hn Hn0) as (t1 & t2 & t3 & K0 & K1 & K2 & R0 & R1 & R2 & R3 & H0 & H1 & H2 & H3).
  fold va in H0, H1, H2, H3. pose proof (idx_range va) as (? & ? & ? & ?).
  assert (He : forall t i, kern t -> 0 <= i < 512 -> entry w' t i = entry w t i).
  { intros t i Ht Hi. unfold entry. apply (Hw t); [done|]. unfold in_page. lia. }
  exists t1, t2, t3. rewrite !(He r0), !(He t1), !(He t2) by done. split_and!; try tauto.
  destruct H3 as [[K3 V3]|H3]; [left|by right]. rewrite He by done. done.
Qed.

(** The words that the pages [N] overwrite when they are entered. *)
Definition scarred (N : list Z) (x : Z) : Prop := exists n, n ∈ N /\ resv <= n / 512 * 512 /\ x = scar n.

Lemma scarred_app N N' x : scarred (N ++ N') x <-> scarred N x \/ scarred N' x.
Proof. unfold scarred. setoid_rewrite elem_of_app. naive_solver. Qed.

Lemma scarred_sub N N' x : (forall n, n ∈ N -> n ∈ N') -> scarred N x -> scarred N' x.
Proof. intros H (n & Hn & Hx). exists n. split; [by apply H|done]. Qed.

Lemma scarred_perm N N' x : N ≡ₚ N' -> scarred N x <-> scarred N' x.
Proof. intros HP. split; apply scarred_sub; intros n; by rewrite HP. Qed.

Lemma scarred_nil x : ~ scarred [] x.
Proof. intros (n & Hn & _). by apply elem_of_nil in Hn. Qed.

(** Only the first pages of blocks are overwritten. *)
Lemma scarred_hot N q x : scarred N x -> in_page q x -> hot resv q.
Proof.
  intros (n & _ & Hr & ->) Hx. unfold scar, in_page, hot in *. assert (q = n / 512 * 512) as -> by zdiv.
  split; [done|]. by apply Z.mod_mul.
Qed.

Lemma cold_word N q x : ~ hot resv q -> in_page q x -> ~ scarred N x.
Proof. intros Hq Hx Hs. by eapply Hq, scarred_hot. Qed.

(** Entering pages of memory in the kernel's tables changes no word but these. *)
Lemma map_loop_walked {S} kern alloc_pt ptte ptme k : forall n pa (s : mm S),
  (forall q, kern q -> q < resv) -> kernel_walk kern (mwords s) -> resv <= n -> 0 <= n -> n + Z.of_nat k <= NPAGES ->
  exists w, map_pages_loop alloc_pt k ptte ptme (page_va n) pa (page_va r0) s = Ok (MM (mpages s) w) /\
    forall x, ~ scarred (seqZ n (Z.of_nat k)) x -> w x = mwords s x.
Proof.
  induction k as [|k IH]; intros n pa s Hkern Hk Hn Hn0 Hend; [exists (mwords s); by destruct s|].
  destruct (Hk n ltac:(lia) Hn0) as (t1 & t2 & t3 & K0 & K1 & K2 & R0 & R1 & R2 & R3 & [V0 A0] & [V1 A1] & [V2 A2] & H3).
  cbn [map_pages_loop].
  destruct (map_one_walked alloc_pt ptte ptme (page_va n) pa r0 t1 t2 t3 s R0 R1 R2 R3 V0 A0 V1 A1 V2 A2) as (w1 & -> & Hw1).
  cbn [mbind res_bind].
  assert (Hw1' : forall x, ~ scarred (seqZ n (Z.of_nat (Datatypes.S k))) x -> w1 x = mwords s x).
  { intros x Hx. rewrite Hw1, decide_False; [done|]. intros [-> Ez]. destruct H3 as [[_ V3]|(_ & -> & Hr)]; [done|].
    apply Hx. exists n. split; [apply elem_of_seqZ; lia|]. split; [done|]. unfold scar. rewrite page_idx3 by lia. lia. }
  destruct k as [|k]; [by exists w1|].
  replace (u64 (page_va n + PAGE_SIZE)) with (page_va (n + 1)).
  2: { rewrite !page_va_eq by lia. unfold PAGE_SIZE, VIRT_BASE. consts. rewrite u64_small; lia. }
  destruct (IH (n + 1) (u64 (pa + PAGE_SIZE)) (MM (mpages s) w1) Hkern) as (w2 & E2 & Hw2); [|lia|lia|lia|].
  { apply (kernel_walk_ext kern (mwords s)); [|done]. intros q x Hq Hx. apply Hw1'. eapply cold_word; [|exact Hx].
    intros [Hh _]. apply Hkern in Hq. lia. }
  exists w2. cbn [mpages mwords] in *. split; [exact E2|]. intros x Hx. rewrite Hw2; [by apply Hw1'|].
  intros Hs. apply Hx. eapply scarred_sub; [|exact Hs]. intros q. rewrite !elem_of_seqZ. lia.
Qed.

Lemma map_walked {S} kern alloc_pt n o pa flags (s : mm S) :
  (forall q, kern q -> q < resv) -> kernel_walk kern (mwords s) -> resv <= n -> 0 <= n -> n + 2 ^ o <= NPAGES -> 0 <= o < 9 ->
  exists w, map alloc_pt (page_va n) pa o flags (page_va r0) s = Ok (true, MM (mpages s) w) /\
    forall x, ~ scarred (seqZ n (2 ^ o)) x -> w x = mwords s x.
Proof.
  intros Hkern Hk Hn Hn0 Hend Ho. unfold map. rewrite (proj2 (Z.leb_gt 9 o)), (proj2 (Z.leb_gt 31 o)) by lia. cbn [andb].
  unfold map_pages. rewrite shiftl_1 by lia. pose proof (pow2_pos o ltac:(lia)).
  destruct (map_loop_walked kern alloc_pt (parse_table_flags flags) (parse_block_flags flags true) (Z.to_nat (2 ^ o)) n pa s Hkern Hk)
    as (w & -> & Hw); [lia|lia|lia|]. exists w. split; [done|]. by rewrite Z2Nat.id in Hw by lia.
Qed.

(** [buddy_alloc_pt]: a page that was free, zeroed, and one word of a block
    overwritten; [k] pages more can follow. *)
Lemma buddy_alloc_pt_ok kern fuel m B (s : mm buddy) k :
  (forall q, kern q -> q < resv) -> buddy_inv resv B (mpages s) -> kernel_walk kern (mwords s) -> stock resv m B (S k) ->
  exists n s' B', buddy_alloc_pt (S fuel) (page_va r0) s = Ok (page_va n, s') /\ buddy_inv resv B' (mpages s') /\
    grown B (mpages s) B' (mpages s') [n] [] /\ stock resv m B' k /\ kernel_walk kern (mwords s') /\
    resv <= n < NPAGES /\ 0 <= n /\ ~ hot resv n /\
    forall x, ~ scarred [n] x -> mwords s' x = if decide (in_page n x) then 0 else mwords s x.
Proof.
  intros Hkern Hi Hk Hst. destruct (alloc_page_ok resv m B (mpages s) k Hi Hst) as (n & b & B' & E & Hi' & HG & Hst' & Hn & Hn0 & Hh).
  cbn [buddy_alloc_pt]. change (pa_alloc PAGE_SIZE (mpages s)) with (buddy_alloc PAGE_SIZE (mpages s)). rewrite E. cbn [mbind res_bind].
  rewrite (proj2 (Z.eqb_neq _ _) (page_va_nonzero n ltac:(lia))).
  match goal with |- context [map ?f _ ?pa 0 ?fl _ ?s0] =>
    destruct (map_walked kern f n 0 pa fl s0 Hkern Hk) as (w & -> & Hw); [lia|lia|change (2 ^ 0) with 1; lia|lia|] end.
  cbn [mbind res_bind mpages mwords]. change (seqZ n (2 ^ 0)) with [n] in Hw.
  eexists n, _, B'. split; [done|]. cbn [mpages mwords on_words].
  assert (Hz : forall x, ~ scarred [n] x -> zero_page (page_va n) w x = if decide (in_page n x) then 0 else mwords s x).
  { intros x Hx. rewrite zero_page_spec by lia. case_decide; [done|by apply Hw]. }
  split_and!; try done; try lia. apply (kernel_walk_ext kern (mwords s)); [|done]. intros q x Hq Hx. pose proof (Hkern q Hq).
  rewrite Hz; [rewrite decide_False; [done|unfold in_page in *; lia]|].
  eapply cold_word; [|exact Hx]. intros [Hh' _]. lia.
Qed.

(** The pages [own] are neither free nor overwritten. *)
Definition kernel_ready (m : Z) (kern : Z -> Prop) (s : mm buddy) (own : Z -> Prop) (k : nat) : Prop :=
  (forall q, kern q -> q < resv) /\ kernel_walk kern (mwords s) /\
  exists B, buddy_inv resv B (mpages s) /\ stock resv m B k /\ forall q, own q -> ~ free_page B q /\ ~ hot resv q.

Lemma buddy_alloc_pt_supply m kern fuel :
  TableSupply (buddy_alloc_pt (S fuel) (page_va r0)) kern (kernel_ready m kern).
Proof.
  split.
  - intros s own k (Hkern & Hk & B & Hi & Hst & Ho).
    destruct (buddy_alloc_pt_ok kern fuel m B s k Hkern Hi Hk Hst) as (n & s' & B' & E & Hi' & HG & Hst' & Hk' & Hn & Hn0 & Hh & Hw).
    exists n, s'. split; [done|]. split; [lia|].
    pose proof (gr_free HG n (list_elem_of_here n [])) as Hf.
    split; [by intros H; apply Ho in H as [H _]|]. split; [by intros H%Hkern; lia|]. split.
    + intros u x Hu Hx. apply Hw. eapply cold_word; [|exact Hx]. destruct Hu as [Hu| ->]; [by apply Ho|done].
    + split; [done|]. split; [done|]. exists B'. split; [done|]. split; [done|]. intros q [Hq| ->].
      * destruct (Ho q Hq) as [Hf' Hh']. split; [|done]. intros H. apply Hf'.
        eapply free_page_mono; [exact Hi|exact Hi'|by eapply gr_used|done].
      * split; [|done]. intros H. apply (free_not_used resv B' (mpages s') n Hi' H).
        apply (in_use_plus B B' [n] n (gr_used HG)). right. by left.
  - intros s w own k (Hkern & Hk & B & H) Hw. split; [done|]. split; [by apply (kernel_walk_ext kern (mwords s))|by exists B].
  - intros s own k k' (Hkern & Hk & B & Hi & Hst & Ho) Hle. split; [done|]. split; [done|]. exists B.
    split; [done|]. split; [by eapply stock_less|done].
Qed.
End kernel.

(** When the level-2 entry of an address is a 2 MiB block, as early boot
    maps memory, [map_pages] takes the block's first page for a table and writes
    a page entry into it: a word of data memory is overwritten. *)
Lemma map_pages_corrupts_block {S} (alloc_pt : mm S -> res (Z * mm S)) (s : mm S) r t1 t2 b va pa flags :
  0 <= r < NPAGES -> 0 <= t1 < NPAGES -> 0 <= t2 < NPAGES -> 0 <= b < NPAGES ->
  valid (entry (mwords s) r (idx0 va)) <> 0 -> address (entry (mwords s) r (idx0 va)) = t1 ->
  valid (entry (mwords s) t1 (idx1 va)) <> 0 -> address (entry (mwords s) t1 (idx1 va)) = t2 ->
  valid (entry (mwords s) t2 (idx2 va)) <> 0 -> type (entry (mwords s) t2 (idx2 va)) = 0 ->
  address (entry (mwords s) t2 (idx2 va)) = b -> Z.testbit (mwords s (b * 4096 + 8 * idx3 va)) 0 = false ->
  exists s', map_pages alloc_pt va pa 1 flags (page_va r) s = Ok (true, s') /\
    valid (mwords s' (b * 4096 + 8 * idx3 va)) = 1 /\
    mwords s' (b * 4096 + 8 * idx3 va) <> mwords s (b * 4096 + 8 * idx3 va).
Proof.
  intros Hr H1 H2 Hb V0 A0 V1 A1 V2 _ A2 Hw. pose proof (idx_range va) as (? & ? & ? & ?).
  assert (Hbit : forall v, valid v = Z.b2z (Z.testbit v 0)).
  { intros v. unfold valid, get_bits. rewrite Z.shiftr_0_r. change (Z.ones 1) with (Z.ones 1).
    rewrite Z.land_ones by lia. rewrite <- Z.bit0_mod. done. }
  assert (Hv : valid (entry (mwords s) b (idx3 va)) = 0) by (rewrite Hbit; unfold entry; by rewrite Hw).
  unfold map_pages. change (Z.to_nat 1) with 1%nat. cbn [map_pages_loop]. unfold map_one_page.
  rewrite (descend_present alloc_pt _ r (idx0 va) t1 s Hr ltac:(lia) V0 A0). cbn [mbind res_bind].
  rewrite (descend_present alloc_pt _ t1 (idx1 va) t2 s H1 ltac:(lia) V1 A1). cbn [mbind res_bind].
  rewrite (descend_present alloc_pt _ t2 (idx2 va) b s H2 ltac:(lia) V2 A2). cbn [mbind res_bind].
  unfold rd_entry. rewrite entry_pa_page by done. fold (entry (mwords s) b (idx3 va)). rewrite Hv. cbn [Z.eqb mbind res_bind].
  eexists. split; [done|]. cbn [mwords on_words]. unfold wr_entry, store64. rewrite entry_pa_page, Z.eqb_refl by done.
  rewrite valid_set_address, (proj1 (block_flags_valid _ _)). split; [done|].
  intros E. apply (f_equal valid) in E. rewrite valid_set_address, (proj1 (block_flags_valid _ _)) in E.
  fold (entry (mwords s) b (idx3 va)) in E. lia.
Qed.

(** Memory at 2 MiB mapped by a block, and filled with the data word 10. *)
Definition block_words : words := fun x =>
  let t := x / 4096 in
  if t =? 1 then set_address 2 3 else if t =? 2 then set_address 3 3
  else if t =? 3 then set_address 512 1 else 10.

Lemma map_pages_corrupts_block_witness : exists s',
  map_pages (fun s => Ok (0, s)) (page_va 517) (517 * 4096) 1 MAP_KERNEL (page_va 1) (MM tt block_words) = Ok (true, s') /\
  block_words (512 * 4096 + 8 * 5) = 10 /\ mwords s' (512 * 4096 + 8 * 5) <> 10.
Proof.
  destruct (map_pages_corrupts_block (fun s => Ok (0, s)) (MM tt block_words) 1 2 3 512 (page_va 517) (517 * 4096) MAP_KERNEL)
    as (s' & E & _ & Hne); try (unfold NPAGES; lia); try reflexivity; try discriminate.
  exists s'. split; [exact E|]. split; [reflexivity|exact Hne].
Defined.

(** ** [update_mapping] *)

Lemma walk_l3_tbl own w r va : pt_wf own w r -> 
  walk_l3 w (page_va r) va = page_va <$> tbl w r [idx0 va; idx1 va; idx2 va].
Proof.
  intros Hwf. pose proof (idx_range va) as (H0 & H1 & H2 & H3).
  destruct (pw_own _ _ _ Hwf [] r) as [Hr _]; [split; [cbn; lia|constructor]|done|].
  assert (P1 : path_ok ([] ++ [idx0 va])) by (split; [cbn; lia|repeat constructor; lia]).
  assert (P2 : path_ok ([idx0 va] ++ [idx1 va])) by (split; [cbn; lia|repeat constructor; lia]).
  unfold walk_l3. cbn [tbl]. unfold rd_entry. rewrite (entry_pa_page r) by done. fold (entry w r (idx0 va)).
  destruct (Z.eqb_spec (valid (entry w r (idx0 va))) 0) as [|E0]; [done|].
  assert (T1 : tbl w r ([] ++ [idx0 va]) = Some (address (entry w r (idx0 va)))).
  { cbn [app tbl]. by rewrite (proj2 (Z.eqb_neq _ _) E0). }
  destruct (pw_own _ _ _ Hwf _ _ P1 T1) as [R1 _]. set (t1 := address (entry w r (idx0 va))) in *. fold (page_va t1).
  rewrite (entry_pa_page t1) by done. fold (entry w t1 (idx1 va)).
  destruct (Z.eqb_spec (valid (entry w t1 (idx1 va))) 0) as [|E1]; [done|].
  assert (T2 : tbl w r ([idx0 va] ++ [idx1 va]) = Some (address (entry w t1 (idx1 va)))).
  { rewrite tbl_snoc. cbn [app] in T1. rewrite T1. by rewrite (proj2 (Z.eqb_neq _ _) E1). }
  destruct (pw_own _ _ _ Hwf _ _ P2 T2) as [R2 _]. set (t2 := address (entry w t1 (idx1 va))) in *. fold (page_va t2).
  rewrite (entry_pa_page t2) by done. fold (entry w t2 (idx2 va)).
  destruct (valid (entry w t2 (idx2 va)) =? 0); done.
Qed.

Lemma update_loop_ok {S} own n (s : mm S) r ptme va :
  pt_wf own (mwords s) r -> valid ptme = 1 -> 0 <= va -> va + 4096 * Z.of_nat n <= 2 ^ 48 -> va mod 4096 = 0 ->
  (forall a, va <= a < va + 4096 * Z.of_nat n -> leaf (mwords s) r a <> None) ->
  exists s', update_loop n ptme va (page_va r) s = (true, s') /\ pt_wf own (mwords s') r /\
    forall a, 0 <= a < 2 ^ 48 -> leaf (mwords s') r a =
      if decide (va <= a < va + 4096 * Z.of_nat n)
      then (fun e => set_address (address e) ptme) <$> leaf (mwords s) r a else leaf (mwords s) r a.
Proof.
  revert s va. induction n as [|n IH]; intros s va Hwf Hv Hva Hend Hal Hl; cbn [update_loop].
  - exists s. split; [done|]. split; [done|]. intros a Ha. rewrite decide_False; [done|lia].
  - change (2 ^ 48) with 281474976710656 in *. rewrite (walk_l3_tbl own) by done.
    pose proof (idx_range va) as (H0 & H1 & H2 & H3).
    pose proof (Hl va ltac:(lia)) as Hcur. unfold leaf in Hcur.
    destruct (tbl (mwords s) r [idx0 va; idx1 va; idx2 va]) as [t|] eqn:Et; [|done]. cbn [fmap option_fmap option_map].
    destruct (pw_own _ _ _ Hwf _ t (idx_path va) Et) as [Ht _].
    unfold rd_entry. rewrite (entry_pa_page t) by done. fold (entry (mwords s) t (idx3 va)).
    destruct (Z.eqb_spec (valid (entry (mwords s) t (idx3 va))) 0) as [|E3]; [done|].
    set (e := set_address (address (entry (mwords s) t (idx3 va))) ptme).
    set (s1 := on_words (wr_entry (page_va t) (idx3 va) e) s).
    assert (Hw : forall x, mwords s1 x = if decide (x = t * 4096 + 8 * idx3 va) then e else mwords s x).
    { intros x. cbn. unfold wr_entry, store64. rewrite entry_pa_page by done.
      destruct (Z.eqb_spec x (t * 4096 + 8 * idx3 va)); case_decide; done. }
    assert (Hve : valid e = 1) by (unfold e; by rewrite valid_set_address).
    assert (Hva48 : 0 <= va < 2 ^ 48) by (change (2 ^ 48) with 281474976710656; lia).
    assert (Hold : leaf (mwords s) r va = Some (entry (mwords s) t (idx3 va))).
    { unfold leaf. rewrite Et. by rewrite (proj2 (Z.eqb_neq _ _) E3). }
    assert (Hl1 : forall a, 0 <= a < 281474976710656 -> leaf (mwords s1) r a = if decide (a / 4096 = va / 4096) then Some e else leaf (mwords s) r a).
    { intros a Ha. apply (leaf_leaf own (mwords s) (mwords s1) r va t e); done. }
    unfold PAGE_SIZE. rewrite (u64_small (va + 4096)) by lia.
    destruct (IH s1 (va + 4096)) as (s2 & -> & Hwf2 & Hl2);
      [by eapply leaf_wf|done|lia|change (2 ^ 48) with 281474976710656; lia|zdiv| |].
    { intros a Ha. rewrite Hl1 by lia. case_decide; [done|]. apply Hl. lia. }
    exists s2. split; [done|]. split; [done|]. intros a Ha. change (2 ^ 48) with 281474976710656 in *.
    rewrite Hl2, Hl1 by done. destruct (decide (a / 4096 = va / 4096)) as [Eq|Hne].
    + assert (va <= a < va + 4096) by zdiv. rewrite decide_False, decide_True by lia.
      rewrite (leaf_page (mwords s) r a va), Hold by (done || change (2 ^ 48) with 281474976710656; lia). done.
    + assert (Hout : ~ (va <= a < va + 4096)) by zdiv.
      repeat case_decide; done || lia.
Qed.

(** [update_mapping] over a range whose pages all have entries gives every
    one of them the attributes of the flags and keeps its page frame, and leaves
    all other entries alone; but it runs off the end of the function, so that its
    result, which is to be TRUE, is indeterminate. *)
Lemma update_mapping_refines {S} own (s : mm S) r v1 v2 flags :
  pt_wf own (mwords s) r -> 0 <= v1 <= v2 -> v2 <= 2 ^ 48 -> v1 mod 4096 = 0 -> v2 mod 4096 = 0 ->
  (forall a, v1 <= a < v2 -> leaf (mwords s) r a <> None) ->
  exists s', update_mapping v1 v2 flags (page_va r) s = (None, s') /\ pt_wf own (mwords s') r /\
    forall a, 0 <= a < 2 ^ 48 -> leaf (mwords s') r a =
      if decide (v1 <= a < v2) then (fun e => set_address (address e) (parse_block_flags flags true)) <$> leaf (mwords s) r a
      else leaf (mwords s) r a.
Proof.
  intros Hwf Hv H48 A1 A2 Hl. change (2 ^ 48) with 281474976710656 in *. unfold update_mapping. change 0xFFF with (Z.ones 12).
  rewrite !Z.land_ones by lia. change (2 ^ 12) with 4096. rewrite A1, A2. cbn [Z.eqb negb orb].
  rewrite u64_small by lia. unfold PAGE_SIZE.
  destruct (update_loop_ok own (Z.to_nat ((v2 - v1) / 4096)) s r (parse_block_flags flags true) v1 Hwf)
    as (s' & -> & Hwf' & Hl'); [apply block_flags_valid|lia|change (2 ^ 48) with 281474976710656; zdiv|done| |].
  { intros a Ha. apply Hl. zdiv. }
  exists s'. split; [done|]. split; [done|]. intros a Ha. change (2 ^ 48) with 281474976710656 in *. rewrite Hl' by done.
  replace (v1 + 4096 * Z.of_nat (Z.to_nat ((v2 - v1) / 4096))) with v2 by zdiv. done.
Qed.

Lemma update_mapping_refines_witness : exists (s s' : mm Z) own,
  pt_wf own (mwords s) 300 /\
  update_mapping 0x400000 0x402000 (MAP_USER + MAP_READ + MAP_WRITE) (page_va 300) s = (None, s') /\
  (ap <$> leaf (mwords s) 300 0x401000) = Some EL0_RO_EL1_RO /\
  (ap <$> leaf (mwords s') 300 0x401000) = Some EL0_RW_EL1_RW.
Proof.
  destruct (@map_pages_loop_ok Z bump_alloc (fun _ => False) bump_ready bump_supply 2
    empty_space (fun x => x = 300) 300 (parse_block_flags (MAP_USER + MAP_READ) true) 0x400000 0x80000 0 empty_tree)
    as (s & own & _ & [Hwf _] & _ & _ & Hl); try reflexivity; try lia; try (change (2 ^ 48) with 281474976710656; lia).
  { split; [cbn; lia|]. split; [consts; cbn; lia|]. intros x ->. cbn. lia. }
  change (2 ^ 48) with 281474976710656 in Hl.
  destruct (update_mapping_refines own s 300 0x400000 0x402000 (MAP_USER + MAP_READ + MAP_WRITE) Hwf)
    as (s' & E & _ & Hl'); try reflexivity; try lia; try (change (2 ^ 48) with 281474976710656; lia).
  { intros a Ha. rewrite Hl by lia. rewrite decide_True; [discriminate|]. split; [lia|].
    unfold leaf. cbn [mwords empty_space tbl]. reflexivity. }
  exists s, s', own. split; [exact Hwf|]. split; [exact E|]. change (2 ^ 48) with 281474976710656 in Hl'.
  assert (Hs : leaf (mwords s) 300 0x401000 = Some (set_address (Z.shiftr (0x80000 + (0x401000 - 0x400000)) PAGE_SHIFT)
    (parse_block_flags (MAP_USER + MAP_READ) true))).
  { rewrite Hl by lia. rewrite decide_True; [reflexivity|]. split; [lia|reflexivity]. }
  rewrite (Hl' 0x401000) by lia. rewrite decide_True, Hs by lia. split; reflexivity.
Defined.
