(* ===== verification/Highhalf.v ===== *)
(** * The boot mapping of the kernel ([boot/highhalf.c])

    Before the MMU is on, [map_high] builds the first page tables: one for the
    high half, with the parts of the kernel image and the rest of the first GiB,
    and one for the low half, with the page that switches the MMU on.  Tables are
    pages of a static region, reached by their physical addresses. *)
From S2P Require Import Prelude Buddy Mmap Slab.

(** [enum permissions] *)
Inductive permissions := RO | RW | RX.

(** Memory and [lo_allocated_pages]. *)
Record boot := Boot { bwords : words; lo_allocated_pages : Z }.

(** What the linker places: the addresses of its symbols. *)
Record symbols := Symbols {
  kernel_high_start : Z;
  text_start : Z; text_end : Z;
  rodata_start : Z; rodata_end : Z;
  bss_start : Z; bss_end : Z;
  static_page_region_start : Z;
  kstack_bottom_hi : Z; kstack_top_hi : Z;
  page_frame_array_start : Z; page_frame_array_end : Z;
  test_phys_loc : Z; test_size : Z;
  enable_mmu : Z;
}.

(** The templates [k_code_table_mapping] and [k_code_mem_mapping]. *)
Definition k_code_table_mapping : pte :=
  let td := set_type 1 0 in
  let td := set_td_pxn 1 td in
  let td := set_td_uxn 1 td in
  set_valid 1 td.
Definition k_code_mem_mapping : pte :=
  let md := set_valid 1 0 in
  let md := set_af 1 md in
  let md := set_ns 0 md in
  let md := set_sh 3 md in
  let md := set_ap 0 md in
  let md := set_md_pxn 1 md in
  let md := set_md_uxn 1 md in
  let md := set_attr_index 0 md in
  set_type 1 md.

(** The [switch] on the permissions. *)
Definition mark (perms : permissions) (ptme : pte) : pte :=
  match perms with
  | RO => set_md_pxn 1 (set_ap 2 ptme)
  | RW => set_md_pxn 1 (set_ap 0 ptme)
  | RX => set_md_pxn 0 (set_ap 2 ptme)
  end.

Section Highhalf.
(** [static_page_region_start_phys()] *)
Context (region : Z).

(** The words of a page, by its physical address. *)
Definition clear_page (page_addr : Z) (w : words) : words :=
  fun x => if (page_addr <=? x) && (x <? page_addr + 4096) then 0 else w x.

Definition alloc_page_table_lo (s : boot) : Z * boot :=
  let page_addr := u64 (region + u64 (PAGE_SIZE * lo_allocated_pages s)) in
  (page_addr, Boot (clear_page page_addr (bwords s)) (s32 (lo_allocated_pages s + 1))).

Definition rd_lo (s : boot) (table i : Z) : pte := bwords s (u64 (table + 8 * i)).
Definition wr_lo (table i : Z) (e : pte) (s : boot) : boot :=
  Boot (store64 (u64 (table + 8 * i)) e (bwords s)) (lo_allocated_pages s).

(** One level of the walk: the table entry [i] of [table] points to, allocated
    when the entry is not valid. *)
Definition descend_lo (ptte : pte) (table i : Z) (s : boot) : Z * boot :=
  let s := if valid (rd_lo s table i) =? 0 then
             let '(page, s) := alloc_page_table_lo s in
             wr_lo table i (set_address (Z.shiftr page PAGE_SHIFT) ptte) s
           else s in
  (u64 (Z.shiftl (address (rd_lo s table i)) PAGE_SHIFT), s).

(** The bodies of the two loops, and the loops. *)
Definition map_l3_page (va pa pt : Z) (ptme : pte) (s : boot) : boot :=
  let '(l1_table, s) := descend_lo k_code_table_mapping pt (idx0 va) s in
  let '(l2_table, s) := descend_lo k_code_table_mapping l1_table (idx1 va) s in
  let '(l3_table, s) := descend_lo k_code_table_mapping l2_table (idx2 va) s in
  if valid (rd_lo s l3_table (idx3 va)) =? 0
  then wr_lo l3_table (idx3 va) (set_address (Z.shiftr pa PAGE_SHIFT) ptme) s else s.

Fixpoint map_l3_loop (l3_blocks : nat) (va pa pt : Z) (ptme : pte) (s : boot) : boot :=
  match l3_blocks with
  | O => s
  | S n => map_l3_loop n (u64 (va + PAGE_SIZE)) (u64 (pa + PAGE_SIZE)) pt ptme (map_l3_page va pa pt ptme s)
  end.
Definition map_l3_range (va pa l3_blocks pt : Z) (perms : permissions) (s : boot) : boot :=
  map_l3_loop (Z.to_nat l3_blocks) va pa pt (mark perms k_code_mem_mapping) s.

Definition map_l2_block (va pa pt : Z) (ptme : pte) (s : boot) : boot :=
  let '(l1_table, s) := descend_lo k_code_table_mapping pt (idx0 va) s in
  let '(l2_table, s) := descend_lo k_code_table_mapping l1_table (idx1 va) s in
  if valid (rd_lo s l2_table (idx2 va)) =? 0
  then wr_lo l2_table (idx2 va) (set_address (Z.shiftr pa PAGE_SHIFT) ptme) s else s.

Fixpoint map_l2_loop (l2_blocks : nat) (va pa pt : Z) (ptme : pte) (s : boot) : boot :=
  match l2_blocks with
  | O => s
  | S n => map_l2_loop n (u64 (va + BLOCK_SIZE)) (u64 (pa + BLOCK_SIZE)) pt ptme (map_l2_block va pa pt ptme s)
  end.
Definition map_l2_range (va pa l2_blocks pt : Z) (perms : permissions) (s : boot) : boot :=
  map_l2_loop (Z.to_nat l2_blocks) va pa pt (mark perms (set_type 0 k_code_mem_mapping)) s.

(** [map_lo]: pages up to the first 2 MiB boundary, whole blocks, and the pages
    that are left.  [pages] is an [int]; the counts are 64 bits wide and become
    [int]s again when they are passed on. *)
Definition map_lo (va pa pages pt : Z) (perms : permissions) (s : boot) : boot :=
  let pages := s32 pages in
  let l2_boundary := u64 (ALIGN_UP va BLOCK_SIZE - va) in
  let n_front_pages := l2_boundary / PAGE_SIZE in
  let n_front_pages := if n_front_pages =? 0 then 0 else Z.min n_front_pages (u64 pages) in
  let s := if n_front_pages =? 0 then s else map_l3_range va pa (s32 n_front_pages) pt perms s in
  let va := u64 (va + u64 (n_front_pages * PAGE_SIZE)) in
  let pa := u64 (pa + u64 (n_front_pages * PAGE_SIZE)) in
  let pages := s32 (pages - n_front_pages) in
  let l2_blocks := u64 (Z.shiftr pages 9) in
  let l3_blocks := Z.land pages 0x1FF in
  let s := if l2_blocks =? 0 then s else map_l2_range va pa (s32 l2_blocks) pt perms s in
  let va := u64 (va + u64 (l2_blocks * BLOCK_SIZE)) in
  let pa := u64 (pa + u64 (l2_blocks * BLOCK_SIZE)) in
  if l3_blocks =? 0 then s else map_l3_range va pa (s32 l3_blocks) pt perms s.

(** ** The parts of the image *)
Context (y : symbols).

Definition map_pre_code (pt : Z) : boot -> boot :=
  let code_base := ALIGN_DOWN (kernel_high_start y) PAGE_SIZE in
  map_lo VIRT_BASE (u64 (VIRT_BASE - VIRT_BASE)) (u64 (code_base - VIRT_BASE) / PAGE_SIZE) pt RW.

Definition map_code (pt : Z) : boot -> boot :=
  let code_base := ALIGN_DOWN (text_start y) PAGE_SIZE in
  let code_end := ALIGN_UP (text_end y) PAGE_SIZE in
  map_lo code_base (u64 (code_base - VIRT_BASE)) (u64 (code_end - code_base) / PAGE_SIZE) pt RX.

Definition map_rodata (pt : Z) : boot -> boot :=
  let start := ALIGN_DOWN (rodata_start y) PAGE_SIZE in
  let end_ := ALIGN_UP (rodata_end y) PAGE_SIZE in
  map_lo start (u64 (start - VIRT_BASE)) (u64 (end_ - start) / PAGE_SIZE) pt RO.

Definition map_bss (pt : Z) : boot -> boot :=
  let start := ALIGN_DOWN (bss_start y) PAGE_SIZE in
  let end_ := ALIGN_UP (bss_end y) PAGE_SIZE in
  map_lo start (u64 (start - VIRT_BASE)) (u64 (end_ - start) / PAGE_SIZE) pt RW.

Definition map_static_page_region (pt : Z) : boot -> boot :=
  let spr := static_page_region_start y in
  map_lo spr (u64 (spr - VIRT_BASE)) STATIC_PAGE_REGION_PAGES pt RW.

Definition map_kernel_stack (pt : Z) : boot -> boot :=
  let bottom := ALIGN_DOWN (kstack_bottom_hi y) PAGE_SIZE in
  let top := ALIGN_UP (kstack_top_hi y) PAGE_SIZE in
  map_lo bottom (u64 (bottom - VIRT_BASE)) (u64 (top - bottom) / PAGE_SIZE) pt RW.

Definition map_mmu_stub (pt : Z) : boot -> boot :=
  let loc := ALIGN_DOWN (enable_mmu y) PAGE_SIZE in
  map_lo loc loc 1 pt RX.

Definition map_page_frame_array (pt : Z) : boot -> boot :=
  let start := ALIGN_DOWN (page_frame_array_start y) PAGE_SIZE in
  let end_ := ALIGN_UP (page_frame_array_end y) PAGE_SIZE in
  map_lo start (u64 (start - VIRT_BASE)) (Z.shiftr (u64 (end_ - start)) 12) pt RW.

Definition map_ram (pt : Z) : boot -> boot :=
  let test_end := ALIGN_UP (u64 (test_phys_loc y + test_size y)) PAGE_SIZE in
  map_lo (u64 (VIRT_BASE + test_end)) test_end (u64 (2 ^ 30 - test_end) / PAGE_SIZE) pt RW.

(** [map_high()], up to the call of [enable_mmu(pt_hi, pt_lo)]. *)
Definition map_high (s : boot) : Z * Z * boot :=
  let '(pt_hi, s) := alloc_page_table_lo s in
  let '(pt_lo, s) := alloc_page_table_lo s in
  let s := map_pre_code pt_hi s in
  let s := map_code pt_hi s in
  let s := map_rodata pt_hi s in
  let s := map_bss pt_hi s in
  let s := map_static_page_region pt_hi s in
  let s := map_kernel_stack pt_hi s in
  let s := map_mmu_stub pt_lo s in
  let s := map_page_frame_array pt_hi s in
  let s := map_ram pt_hi s in
  (pt_hi, pt_lo, s).
End Highhalf.
