(* ===== verification/HighhalfInv.v ===== *)
(** * The tables of the boot mapping

    The tree of tables is the one of the file MmapInv, seen through [tables],
    which hides everything but table (and page) descriptors, so that a 2 MiB
    block entry is not taken for a table.  [lvl2] is the level-2 entry of an
    address, [leaf] its page entry. *)
From S2P Require Import Prelude Buddy BuddyInv BuddyOps BuddyRef Mmap MmapInv Slab Highhalf.

Definition tables (w : words) : words := fun x => if (valid (w x) =? 1) && (type (w x) =? 1) then w x else 0.

Definition lvl2 (w : words) (r v : Z) : option pte :=
  match tbl (tables w) r [idx0 v; idx1 v] with
  | Some t => if valid (entry w t (idx2 v)) =? 0 then None else Some (entry w t (idx2 v))
  | None => None
  end.

Notation path3 v := [idx0 v; idx1 v; idx2 v].

Record btree (own : Z -> Prop) (w : words) (r : Z) : Prop := {
  bt_wf : pt_wf own (tables w) r;
  bt_type : forall p t i, path_ok p -> length p <> 2%nat -> 0 <= i < 512 ->
    tbl (tables w) r p = Some t -> valid (entry w t i) <> 0 -> type (entry w t i) = 1;
}.

Lemma bit_cases e : (valid e = 0 \/ valid e = 1) /\ (type e = 0 \/ type e = 1).
Proof.
  pose proof (get_bits_range 0 1 e ltac:(lia)). pose proof (get_bits_range 1 1 e ltac:(lia)).
  change (2 ^ 1) with 2 in *. unfold valid, type. lia.
Qed.

Lemma tables_entry w t i :
  entry (tables w) t i = if (valid (entry w t i) =? 1) && (type (entry w t i) =? 1) then entry w t i else 0.
Proof. done. Qed.

Lemma tables_valid w t i : valid (entry w t i) = 0 -> valid (entry (tables w) t i) = 0.
Proof. intros E. rewrite tables_entry, E. done. Qed.

(** A tree depends on the words only pointwise. *)
Lemma tbl_ext w w' r p : (forall x, w' x = w x) -> tbl w' r p = tbl w r p.
Proof. intros H. revert r. induction p as [|i p IH]; intros r; cbn [tbl]; [done|]. unfold entry. rewrite H. case_match; [done|apply IH]. Qed.
Lemma pt_wf_ext own w w' r : (forall x, w' x = w x) -> pt_wf own w r -> pt_wf own w' r.
Proof.
  intros H [H1 H2 H3]. split.
  - intros p t Hp. rewrite (tbl_ext w) by done. by apply H1.
  - intros p q t Hp Hq. rewrite !(tbl_ext w w') by done. by apply H2.
  - intros p t i Hp. rewrite (tbl_ext w) by done. unfold entry. rewrite H. by apply H3.
Qed.
Lemma leaf_ext w w' r v : (forall x, w' x = w x) -> leaf w' r v = leaf w r v.
Proof. intros H. unfold leaf. rewrite (tbl_ext w) by done. unfold entry. case_match; [|done]. by rewrite H. Qed.

(** ** Linking a new table *)
Section blink.
Context (own : Z -> Prop) (w w' : words) (r : Z) (p : list Z) (i t n e : Z).
Hypothesis (Hbt : btree own w r) (Hp : path_ok (p ++ [i])) (Ht : tbl (tables w) r p = Some t)
  (Hinv : valid (entry w t i) = 0) (Hn : 0 <= n < NPAGES) (Hfresh : ~ own n)
  (He : valid e = 1) (Hty : type e = 1) (Ha : address e = n)
  (Hw : forall x, w' x = if decide (x = t * 4096 + 8 * i) then e else if decide (in_page n x) then 0 else w x).

Lemma blink_tables x :
  tables w' x = if decide (x = t * 4096 + 8 * i) then e else if decide (in_page n x) then 0 else tables w x.
Proof. unfold tables. rewrite Hw. repeat case_decide; [by rewrite He, Hty|done|done]. Qed.

Lemma blink_tbl q : path_ok q -> tbl (tables w') r q = if decide (q = p ++ [i]) then Some n else tbl (tables w) r q.
Proof. eapply (link_tbl own (tables w) (tables w') r p i t n e); eauto using blink_tables, tables_valid, bt_wf. Qed.

Lemma blink_t : t <> n.
Proof. eapply (link_t own (tables w) (tables w') r p i t n e); eauto using blink_tables, tables_valid, bt_wf. Qed.

Lemma blink_entry u j : 0 <= j < 512 ->
  entry w' u j = if decide (u = t /\ j = i) then e else if decide (u = n) then 0 else entry w u j.
Proof.
  intros Hj. pose proof (proj1 (path_ok_snoc p i) Hp) as (_ & _ & Hi). pose proof blink_t. unfold entry. rewrite Hw.
  destruct (decide (u = t /\ j = i)) as [[-> ->]|Hne]; [by rewrite decide_True|].
  rewrite decide_False by (intros ?%entry_neq; tauto). unfold in_page.
  destruct (decide (u = n)) as [->|]; [rewrite decide_True by lia; done|]. rewrite decide_False by lia. done.
Qed.

Lemma blink_btree : btree (fun x => own x \/ x = n) w' r.
Proof.
  split; [eapply (link_wf own (tables w) (tables w') r p i t n e); eauto using blink_tables, tables_valid, bt_wf|].
  intros q u j Hq Hl Hj. rewrite blink_tbl, blink_entry by done. case_decide as Hd; intros Eu.
  - injection Eu as <-. rewrite decide_False by (intros [? _]; by apply blink_t). by rewrite decide_True.
  - case_decide; [done|]. rewrite decide_False; [by apply (bt_type _ _ _ Hbt q)|].
    intros ->. apply Hfresh. by apply (pw_own _ _ _ (bt_wf _ _ _ Hbt) q).
Qed.

Lemma blink_leaf v : leaf (tables w') r v = leaf (tables w) r v.
Proof. eapply (link_leaf own (tables w) (tables w') r p i t n e); eauto using blink_tables, tables_valid, bt_wf. Qed.

Lemma blink_lvl2 v :
  (p ++ [i] <> path3 v -> lvl2 w' r v = lvl2 w r v) /\ (p ++ [i] = path3 v -> lvl2 w' r v = Some e).
Proof.
  pose proof (idx_range v) as (H0 & H1 & H2 & _). pose proof (bt_wf _ _ _ Hbt) as Hwf.
  assert (Hq : path_ok [idx0 v; idx1 v]) by (split; [cbn; lia|repeat constructor; lia]).
  unfold lvl2. rewrite blink_tbl by done. case_decide as Hd.
  - split; [|intros E; rewrite <- Hd in E; apply (f_equal length) in E; cbn in E; lia]. intros _.
    rewrite blink_entry, decide_False, decide_True by (lia || done || (intros [? _]; by apply blink_t)).
    change (valid 0 =? 0) with true. rewrite Hd, tbl_snoc, Ht. by rewrite tables_valid.
  - destruct (tbl (tables w) r [idx0 v; idx1 v]) as [u|] eqn:Eu.
    + rewrite blink_entry by lia. destruct (decide (u = t /\ idx2 v = i)) as [[-> Ei]|Hne].
      * assert (p = [idx0 v; idx1 v]) as Ep by (eapply (pw_inj _ _ _ Hwf); eauto; by apply (path_ok_snoc p i)).
        rewrite He. split; [|done]. intros E. exfalso. apply E. by rewrite Ep, <- Ei.
      * rewrite (decide_False (P := u = n)) by (intros ->; apply Hfresh; by apply (pw_own _ _ _ Hwf [idx0 v; idx1 v])).
        split; [done|]. intros E. exfalso. apply Hne. change (path3 v) with ([idx0 v; idx1 v] ++ [idx2 v]) in E.
        apply app_inj_tail in E as [-> ->]. split; congruence.
    + split; [done|]. intros E. change (path3 v) with ([idx0 v; idx1 v] ++ [idx2 v]) in E.
      apply app_inj_tail in E as [-> ->]. congruence.
Qed.
End blink.

(** ** Writing a page entry *)
Section bleaf.
Context (own : Z -> Prop) (w w' : words) (r v t e : Z).
Hypothesis (Hbt : btree own w r) (Ht : tbl (tables w) r (path3 v) = Some t) (He : valid e = 1) (Hty : type e = 1)
  (Hw : forall x, w' x = if decide (x = t * 4096 + 8 * idx3 v) then e else w x).

Lemma bleaf_tables x : tables w' x = if decide (x = t * 4096 + 8 * idx3 v) then e else tables w x.
Proof. unfold tables. rewrite Hw. case_decide; [by rewrite He, Hty|done]. Qed.

Lemma bleaf_tbl q : path_ok q -> tbl (tables w') r q = tbl (tables w) r q.
Proof. eapply (leaf_tbl own (tables w) (tables w') r v t e); eauto using bleaf_tables, bt_wf. Qed.

Lemma bleaf_entry u j : 0 <= j < 512 -> entry w' u j = if decide (u = t /\ j = idx3 v) then e else entry w u j.
Proof.
  intros Hj. pose proof (idx_range v). unfold entry. rewrite Hw.
  destruct (decide (u = t /\ j = idx3 v)) as [[-> ->]|Hne]; [by rewrite decide_True|].
  rewrite decide_False; [done|]. intros E%entry_neq; [tauto|done|lia].
Qed.

Lemma bleaf_btree : btree own w' r.
Proof.
  split; [eapply (leaf_wf own (tables w) (tables w') r v t e); eauto using bleaf_tables, bt_wf|].
  intros q u j Hq Hl Hj. rewrite bleaf_tbl, bleaf_entry by done. intros Eu. case_decide; [done|].
  by apply (bt_type _ _ _ Hbt q).
Qed.

Lemma bleaf_leaf a : 0 <= v < 2 ^ 48 -> 0 <= a < 2 ^ 48 ->
  leaf (tables w') r a = if decide (a / 4096 = v / 4096) then Some e else leaf (tables w) r a.
Proof. intros. eapply (leaf_leaf own (tables w) (tables w') r v t e); eauto using bleaf_tables, bt_wf. Qed.

Lemma bleaf_lvl2 a : lvl2 w' r a = lvl2 w r a.
Proof.
  pose proof (idx_range a) as (H0 & H1 & H2 & _).
  assert (Hq : path_ok [idx0 a; idx1 a]) by (split; [cbn; lia|repeat constructor; lia]).
  unfold lvl2. rewrite bleaf_tbl by done. destruct (tbl (tables w) r [idx0 a; idx1 a]) as [u|] eqn:Eu; [|done].
  rewrite bleaf_entry, decide_False; [done| |lia]. intros [-> _].
  assert ([idx0 a; idx1 a] = path3 v) by (eapply (pw_inj _ _ _ (bt_wf _ _ _ Hbt)); eauto using idx_path). discriminate.
Qed.
End bleaf.

(** ** Writing a block entry *)
Section bblock.
Context (own : Z -> Prop) (w w' : words) (r v t e : Z).
Hypothesis (Hbt : btree own w r) (Ht : tbl (tables w) r [idx0 v; idx1 v] = Some t) (Hinv : valid (entry w t (idx2 v)) = 0)
  (He : valid e = 1) (Hty : type e = 0)
  (Hw : forall x, w' x = if decide (x = t * 4096 + 8 * idx2 v) then e else w x).

Lemma bblock_tables x : tables w' x = tables w x.
Proof.
  unfold tables. rewrite Hw. case_decide as Hd; [|done]. rewrite Hty, Hd. cbn. rewrite andb_false_r.
  change (w (t * 4096 + 8 * idx2 v)) with (entry w t (idx2 v)). by rewrite Hinv.
Qed.

Lemma bblock_entry u j : 0 <= j < 512 -> entry w' u j = if decide (u = t /\ j = idx2 v) then e else entry w u j.
Proof.
  intros Hj. pose proof (idx_range v). unfold entry. rewrite Hw.
  destruct (decide (u = t /\ j = idx2 v)) as [[-> ->]|Hne]; [by rewrite decide_True|].
  rewrite decide_False; [done|]. intros E%entry_neq; [tauto|done|lia].
Qed.

Lemma bblock_btree : btree own w' r.
Proof.
  pose proof (idx_range v) as (H0 & H1 & H2 & _). split; [eapply pt_wf_ext; [apply bblock_tables|apply Hbt]|].
  intros q u j Hq Hl Hj. rewrite (tbl_ext (tables w)) by apply bblock_tables. rewrite bblock_entry by done. intros Eu.
  case_decide as Hd; [|by apply (bt_type _ _ _ Hbt q)]. destruct Hd as [-> _]. exfalso. apply Hl.
  assert (q = [idx0 v; idx1 v]) as ->; [|done].
  eapply (pw_inj _ _ _ (bt_wf _ _ _ Hbt)); eauto. split; [cbn; lia|repeat constructor; lia].
Qed.

Lemma bblock_lvl2 a :
  lvl2 w' r a = if decide (idx0 a = idx0 v /\ idx1 a = idx1 v /\ idx2 a = idx2 v) then Some e else lvl2 w r a.
Proof.
  pose proof (idx_range a) as (H0 & H1 & H2 & _). pose proof (idx_range v) as (G0 & G1 & G2 & _).
  unfold lvl2. rewrite (tbl_ext (tables w)) by apply bblock_tables. case_decide as Hd.
  - destruct Hd as (-> & -> & ->). rewrite Ht, bblock_entry, decide_True by (done || lia). by rewrite He.
  - destruct (tbl (tables w) r [idx0 a; idx1 a]) as [u|] eqn:Eu; [|done]. rewrite bblock_entry by lia.
    rewrite decide_False; [done|]. intros [-> Ei]. apply Hd.
    assert ([idx0 a; idx1 a] = [idx0 v; idx1 v]) as E
      by (eapply (pw_inj _ _ _ (bt_wf _ _ _ Hbt)); eauto; split; (cbn; lia) || (repeat constructor; lia)).
    injection E as ? ?. done.
Qed.
End bblock.
