(* ===== verification/HighhalfOps.v ===== *)
(** * The boot mapping: its loops

    What one step of the two mapping loops does to the tree, and then the loops:
    a run of pages inside one 2 MiB block, a run of blocks inside one GiB. *)
From S2P Require Import Prelude Buddy BuddyInv BuddyOps BuddyRef Mmap MmapInv MmapSpec Slab Highhalf HighhalfInv.

Section HighhalfOps.
(** The first page of the static region. *)
Context (R : Z) (HR : 0 < R).

(** A tree grows: what all the routines keep. *)
Record grows (own : Z -> Prop) (s : boot) (r : Z) (own' : Z -> Prop) (s' : boot) : Prop := {
  gr_bt : btree own' (bwords s') r;
  gr_sub : forall x, own x -> own' x;
  gr_new : forall x, own' x -> own x \/ R + lo_allocated_pages s <= x < R + lo_allocated_pages s';
  gr_n : lo_allocated_pages s <= lo_allocated_pages s';
  gr_tbl : forall p t, path_ok p -> tbl (tables (bwords s)) r p = Some t -> tbl (tables (bwords s')) r p = Some t;
  gr_frame : forall x, (forall m, own' m -> ~ in_page m x) -> bwords s' x = bwords s x;
}.

Lemma grows_refl own s r : btree own (bwords s) r -> grows own s r own s.
Proof. intros H. split; auto. lia. Qed.

Lemma grows_trans own s r own1 s1 own2 s2 : grows own s r own1 s1 -> grows own1 s1 r own2 s2 -> grows own s r own2 s2.
Proof.
  intros G1 G2. split.
  - apply G2.
  - intros x Hx. by apply (gr_sub _ _ _ _ _ G2), (gr_sub _ _ _ _ _ G1).
  - intros x Hx. pose proof (gr_n _ _ _ _ _ G1). pose proof (gr_n _ _ _ _ _ G2).
    apply (gr_new _ _ _ _ _ G2) in Hx as [Hx|Hx]; [|right; lia].
    apply (gr_new _ _ _ _ _ G1) in Hx as [Hx|Hx]; [by left|right; lia].
  - pose proof (gr_n _ _ _ _ _ G1). pose proof (gr_n _ _ _ _ _ G2). lia.
  - intros p t Hp Ht. apply (gr_tbl _ _ _ _ _ G2); [done|]. by apply (gr_tbl _ _ _ _ _ G1).
  - intros x Hx. rewrite (gr_frame _ _ _ _ _ G2) by done. apply (gr_frame _ _ _ _ _ G1).
    intros m Hm. apply Hx. by apply (gr_sub _ _ _ _ _ G2).
Qed.

(** The pages of a tree come from the pool. *)
Definition pooled (own : Z -> Prop) (s : boot) : Prop :=
  0 <= lo_allocated_pages s /\ forall x, own x -> R <= x < R + lo_allocated_pages s.

Lemma grows_pooled own s r own' s' : pooled own s -> grows own s r own' s' -> pooled own' s'.
Proof.
  intros [Hn Ho] G. pose proof (gr_n _ _ _ _ _ G). split; [lia|]. intros x Hx.
  apply (gr_new _ _ _ _ _ G) in Hx as [Hx|Hx]; [apply Ho in Hx; lia|lia].
Qed.

Lemma table_addr t i : 0 <= t < NPAGES -> 0 <= i < 512 -> u64 (t * 4096 + 8 * i) = t * 4096 + 8 * i.
Proof. consts. intros. apply u64_small. lia. Qed.

Lemma alloc_page_table_lo_ok s : 0 <= lo_allocated_pages s -> R + lo_allocated_pages s < NPAGES ->
  exists s', alloc_page_table_lo (R * 4096) s = ((R + lo_allocated_pages s) * 4096, s') /\
    lo_allocated_pages s' = lo_allocated_pages s + 1 /\
    forall x, bwords s' x = if decide (in_page (R + lo_allocated_pages s) x) then 0 else bwords s x.
Proof.
  intros Hn Hp. consts. unfold alloc_page_table_lo, PAGE_SIZE.
  rewrite (u64_small (4096 * _)), (u64_small (R * 4096 + _)), s32_small by lia.
  replace (R * 4096 + 4096 * lo_allocated_pages s) with ((R + lo_allocated_pages s) * 4096) by lia.
  eexists. split; [done|]. split; [done|]. intros x. cbn. unfold clear_page, in_page.
  case_decide; destruct (Z.leb_spec ((R + lo_allocated_pages s) * 4096) x),
    (Z.ltb_spec x ((R + lo_allocated_pages s) * 4096 + 4096)); cbn; done || lia.
Qed.

Lemma wr_lo_words t i e s x : 0 <= t < NPAGES -> 0 <= i < 512 ->
  bwords (wr_lo (t * 4096) i e s) x = if decide (x = t * 4096 + 8 * i) then e else bwords s x.
Proof.
  intros Ht Hi. cbn. unfold store64. rewrite table_addr by done.
  destruct (Z.eqb_spec x (t * 4096 + 8 * i)); case_decide; done.
Qed.

Lemma rd_lo_entry s t i : 0 <= t < NPAGES -> 0 <= i < 512 -> rd_lo s (t * 4096) i = entry (bwords s) t i.
Proof. intros. unfold rd_lo. by rewrite table_addr. Qed.

Lemma descend_lo_ok own s r p i t :
  btree own (bwords s) r -> pooled own s -> R + lo_allocated_pages s < NPAGES ->
  path_ok (p ++ [i]) -> tbl (tables (bwords s)) r p = Some t ->
  (valid (entry (bwords s) t i) <> 0 -> type (entry (bwords s) t i) = 1) ->
  exists u own' s', descend_lo (R * 4096) k_code_table_mapping (t * 4096) i s = (u * 4096, s') /\
    grows own s r own' s' /\ tbl (tables (bwords s')) r (p ++ [i]) = Some u /\
    (forall v, leaf (tables (bwords s')) r v = leaf (tables (bwords s)) r v) /\
    (forall v, (p ++ [i] <> path3 v -> lvl2 (bwords s') r v = lvl2 (bwords s) r v) /\
               (p ++ [i] = path3 v -> exists e, lvl2 (bwords s') r v = Some e /\ type e = 1)) /\
    lo_allocated_pages s' <= lo_allocated_pages s + 1 /\
    (is_Some (tbl (tables (bwords s)) r (p ++ [i])) -> lo_allocated_pages s' = lo_allocated_pages s).
Proof.
  intros Hbt [Hn0 Hpool] Hlt Hp Ht Hty. pose proof (bt_wf _ _ _ Hbt) as Hwf.
  pose proof (proj1 (path_ok_snoc p i) Hp) as (Hp' & Hl & Hi).
  destruct (pw_own _ _ _ Hwf p t Hp' Ht) as [Htr Hto]. unfold descend_lo. rewrite (rd_lo_entry s t i) by done.
  destruct (Z.eqb_spec (valid (entry (bwords s) t i)) 0) as [E|E].
  - destruct (alloc_page_table_lo_ok s Hn0 Hlt) as (s1 & -> & En & Hw1).
    set (n := R + lo_allocated_pages s) in *. assert (Hnr : 0 <= n < NPAGES) by lia.
    assert (Hpg : Z.shiftr (n * 4096) PAGE_SHIFT = n).
    { unfold PAGE_SHIFT. rewrite Z.shiftr_div_pow2 by lia. apply Z.div_mul. lia. }
    rewrite Hpg. set (e := set_address n k_code_table_mapping).
    assert (Ha : address e = n) by (apply address_set; consts; change (2 ^ 36) with 68719476736; lia).
    assert (He : valid e = 1) by (unfold e; by rewrite valid_set_address).
    assert (Hte : type e = 1) by (unfold e; by rewrite type_set_address).
    set (s2 := wr_lo (t * 4096) i e s1).
    assert (Hw2 : forall x, bwords s2 x = if decide (x = t * 4096 + 8 * i) then e
        else if decide (in_page n x) then 0 else bwords s x).
    { intros x. unfold s2. rewrite wr_lo_words by done. by rewrite Hw1. }
    assert (Hfresh : ~ own n) by (intros H%Hpool; lia).
    pose proof (blink_tbl own (bwords s) (bwords s2) r p i t n e Hbt Hp Ht E Hnr Hfresh He Hte Ha Hw2) as Htbl.
    exists n, (fun x => own x \/ x = n), s2. split; [|split; [split|]].
    + fold s2. cbn zeta. f_equal. rewrite rd_lo_entry by done. unfold entry. rewrite Hw2, decide_True, Ha by done.
      unfold PAGE_SHIFT. rewrite Z.shiftl_mul_pow2 by lia. apply u64_small. consts. change (2 ^ 12) with 4096. lia.
    + eapply blink_btree; eauto.
    + auto.
    + intros x [Hx| ->]; [by left|]. right. cbn. lia.
    + cbn. lia.
    + intros q u Hq Eu. rewrite Htbl by done. case_decide as Hd; [|done]. exfalso.
      rewrite Hd, tbl_snoc, Ht, tables_valid in Eu by done. done.
    + intros x Hx. rewrite Hw2, !decide_False; [done| |].
      * apply Hx. by right.
      * intros ->. apply (Hx t); [by left|]. unfold in_page. lia.
    + split; [rewrite Htbl by done; by rewrite decide_True|]. split; [intros v; eapply blink_leaf; eauto|].
      split; [|cbn; rewrite En; split; [lia|]].
      * intros v. destruct (blink_lvl2 own (bwords s) (bwords s2) r p i t n e Hbt Hp Ht E Hnr Hfresh He Hte Ha Hw2 v) as [H1 H2].
        split; [done|]. intros Hd. exists e. auto.
      * intros [u Eu]. rewrite tbl_snoc, Ht, tables_valid in Eu by done. done.
  - assert (Hv : valid (entry (bwords s) t i) = 1) by (destruct (bit_cases (entry (bwords s) t i)) as [[?|?] _]; done).
    assert (Hte : entry (tables (bwords s)) t i = entry (bwords s) t i) by (rewrite tables_entry, Hv, Hty by done; done).
    assert (Et : tbl (tables (bwords s)) r (p ++ [i]) = Some (address (entry (bwords s) t i))).
    { rewrite tbl_snoc, Ht, Hte, Hv. done. }
    exists (address (entry (bwords s) t i)), own, s. split; [|split; [by apply grows_refl|]].
    + f_equal. rewrite rd_lo_entry by done. destruct (pw_own _ _ _ Hwf _ _ Hp Et) as [Hr _].
      unfold PAGE_SHIFT. by apply next_pa.
    + split; [done|]. split; [done|]. split; [|split; [lia|done]]. intros v. split; [done|]. intros Hd.
      exists (entry (bwords s) t i). split; [|by apply Hty]. unfold lvl2.
      change (path3 v) with ([idx0 v; idx1 v] ++ [idx2 v]) in Hd. apply app_inj_tail in Hd as [-> ->].
      rewrite Ht, Hv. done.
Qed.

(** ** Addresses *)

Lemma idx_hi hi v : idx0 (hi * 2 ^ 48 + v) = idx0 v /\ idx1 (hi * 2 ^ 48 + v) = idx1 v /\
  idx2 (hi * 2 ^ 48 + v) = idx2 v /\ idx3 (hi * 2 ^ 48 + v) = idx3 v.
Proof.
  assert (H : forall k, 0 <= k -> k + 9 <= 48 ->
    Z.land (Z.shiftr (hi * 2 ^ 48 + v) k) 0x1FF = Z.land (Z.shiftr v k) 0x1FF).
  { intros k Hk H9. change 0x1FF with (Z.ones 9). rewrite !Z.land_ones, !Z.shiftr_div_pow2 by lia.
    replace (hi * 2 ^ 48) with (hi * 2 ^ (39 - k) * 2 ^ 9 * 2 ^ k).
    2: { rewrite <- !Z.mul_assoc, <- !Z.pow_add_r by lia. do 2 f_equal. lia. }
    rewrite Z.add_comm, Z.div_add by (apply Z.pow_nonzero; lia). by rewrite Z.mod_add. }
  unfold idx0, idx1, idx2, idx3. split_and!; apply H; lia.
Qed.

Lemma path3_block a b : 0 <= a < 2 ^ 48 -> 0 <= b < 2 ^ 48 -> path3 a = path3 b <-> a / 2 ^ 21 = b / 2 ^ 21.
Proof.
  intros Ha Hb. destruct (idx_div a ltac:(lia)) as (-> & -> & -> & _). destruct (idx_div b ltac:(lia)) as (-> & -> & -> & _).
  change (2 ^ 48) with 281474976710656 in *. change (2 ^ 39) with 549755813888. change (2 ^ 30) with 1073741824.
  change (2 ^ 21) with 2097152. split; [intros [= H0 H1 H2]; zdiv|]. intros H.
  assert (a / 549755813888 = b / 549755813888 /\ a / 1073741824 = b / 1073741824) as [-> ->] by zdiv. by rewrite H.
Qed.

Lemma path_ok1 v : path_ok ([] ++ [idx0 v]).
Proof. pose proof (idx_range v). split; [cbn; lia|repeat constructor; lia]. Qed.
Lemma path_ok2 v : path_ok ([idx0 v] ++ [idx1 v]).
Proof. pose proof (idx_range v). split; [cbn; lia|repeat constructor; lia]. Qed.
Lemma path_ok3 v : path_ok ([idx0 v; idx1 v] ++ [idx2 v]).
Proof. pose proof (idx_range v). split; [cbn; lia|repeat constructor; lia]. Qed.

Lemma lvl2_path w r a b : path3 a = path3 b -> lvl2 w r a = lvl2 w r b.
Proof. intros [= H0 H1 H2]. unfold lvl2. by rewrite H0, H1, H2. Qed.

(** The walk down to level 2, which both loops share. *)
Lemma walk_lo_ok own s r hi v :
  btree own (bwords s) r -> pooled own s -> R + lo_allocated_pages s + 1 < NPAGES -> 0 <= v < 2 ^ 48 ->
  exists t2 own' s',
    (let '(l1_table, s) := descend_lo (R * 4096) k_code_table_mapping (r * 4096) (idx0 (hi * 2 ^ 48 + v)) s in
     descend_lo (R * 4096) k_code_table_mapping l1_table (idx1 (hi * 2 ^ 48 + v)) s) = (t2 * 4096, s') /\
    grows own s r own' s' /\ tbl (tables (bwords s')) r [idx0 v; idx1 v] = Some t2 /\
    (forall a, leaf (tables (bwords s')) r a = leaf (tables (bwords s)) r a) /\
    (forall a, lvl2 (bwords s') r a = lvl2 (bwords s) r a) /\
    lo_allocated_pages s' <= lo_allocated_pages s + 2 /\
    (is_Some (tbl (tables (bwords s)) r [idx0 v; idx1 v]) -> lo_allocated_pages s' = lo_allocated_pages s).
Proof.
  intros Hbt Hpl Hlt Hv. destruct (idx_hi hi v) as (-> & -> & _). pose proof (idx_range v) as (H0 & H1 & _).
  destruct (descend_lo_ok own s r [] (idx0 v) r Hbt Hpl ltac:(lia) (path_ok1 v) ltac:(done)) as
    (t1 & o1 & s1 & -> & G1 & T1 & L1 & B1 & N1 & S1).
  { apply (bt_type _ _ _ Hbt []); [split; [cbn; lia|constructor]|done|lia|done]. }
  destruct (descend_lo_ok o1 s1 r [idx0 v] (idx1 v) t1) as (t2 & o2 & s2 & -> & G2 & T2 & L2 & B2 & N2 & S2);
    [apply G1|by eapply grows_pooled|lia|apply path_ok2|exact T1| |].
  { apply (bt_type _ _ _ (gr_bt _ _ _ _ _ G1) [idx0 v]); [apply path_ok1|done|lia|exact T1]. }
  exists t2, o2, s2. split; [done|]. split; [by eapply grows_trans|]. split; [exact T2|].
  split; [intros a; by rewrite L2, L1|]. split; [|split; [lia|]].
  - intros a. rewrite (proj1 (B2 a)) by discriminate. by rewrite (proj1 (B1 a)) by discriminate.
  - intros [t Et]. rewrite S2, S1; [done| |].
    + change [idx0 v; idx1 v] with ([idx0 v] ++ [idx1 v]) in Et. rewrite tbl_snoc in Et. cbn [app].
      destruct (tbl (tables (bwords s)) r [idx0 v]); [eauto|done].
    + exists t. apply (gr_tbl _ _ _ _ _ G1); [apply path_ok2|exact Et].
Qed.

(** ** Pages *)

(** [d1] and [d2]: how many tables a tree lacks on the way to a page. *)
Lemma map_l3_page_ok own s r hi v pa ptme :
  btree own (bwords s) r -> pooled own s -> R + lo_allocated_pages s + 2 < NPAGES -> 0 <= v < 2 ^ 48 ->
  valid ptme = 1 -> type ptme = 1 -> (forall e, lvl2 (bwords s) r v = Some e -> type e = 1) ->
  exists own', let s' := map_l3_page (R * 4096) (hi * 2 ^ 48 + v) pa (r * 4096) ptme s in
    grows own s r own' s' /\ is_Some (tbl (tables (bwords s')) r (path3 v)) /\
    (forall a, 0 <= a < 2 ^ 48 -> leaf (tables (bwords s')) r a =
      if decide (a / 4096 = v / 4096 /\ leaf (tables (bwords s)) r v = None)
      then Some (set_address (Z.shiftr pa PAGE_SHIFT) ptme) else leaf (tables (bwords s)) r a) /\
    (forall a, path3 a <> path3 v -> lvl2 (bwords s') r a = lvl2 (bwords s) r a) /\
    (exists e, lvl2 (bwords s') r v = Some e /\ type e = 1) /\
    lo_allocated_pages s' <= lo_allocated_pages s + 3 /\
    (is_Some (tbl (tables (bwords s)) r [idx0 v; idx1 v]) -> lo_allocated_pages s' <= lo_allocated_pages s + 1) /\
    (is_Some (tbl (tables (bwords s)) r (path3 v)) -> lo_allocated_pages s' = lo_allocated_pages s).
Proof.
  intros Hbt Hpl Hlt Hv Hvp Htp Hl2. pose proof (idx_range v) as (H0 & H1 & H2 & H3).
  destruct (walk_lo_ok own s r hi v Hbt Hpl ltac:(lia) Hv) as (t2 & o2 & s2 & E2 & G2 & T2 & L2 & B2 & N2 & S2).
  destruct (descend_lo_ok o2 s2 r [idx0 v; idx1 v] (idx2 v) t2) as (t3 & o3 & s3 & E3 & G3 & T3 & L3 & B3 & N3 & S3);
    [apply G2|by eapply grows_pooled|lia|apply path_ok3|exact T2| |].
  { intros Hnv. apply Hl2. rewrite <- B2. unfold lvl2. rewrite T2. by rewrite (proj2 (Z.eqb_neq _ _)). }
  assert (Hpg : map_l3_page (R * 4096) (hi * 2 ^ 48 + v) pa (r * 4096) ptme s =
    if valid (entry (bwords s3) t3 (idx3 v)) =? 0
    then wr_lo (t3 * 4096) (idx3 v) (set_address (Z.shiftr pa PAGE_SHIFT) ptme) s3 else s3).
  { pose proof (pw_own _ _ _ (bt_wf _ _ _ (gr_bt _ _ _ _ _ G3)) _ t3 (idx_path v) T3) as [Ht3 _].
    unfold map_l3_page. destruct (descend_lo _ _ _ _ s) as [l1 s1] eqn:E1. rewrite E2.
    destruct (idx_hi hi v) as (_ & _ & -> & ->). rewrite E3. by rewrite rd_lo_entry. }
  cbn zeta. rewrite Hpg. clear Hpg. change ([idx0 v; idx1 v] ++ [idx2 v]) with (path3 v) in *.
  pose proof (grows_trans _ _ _ _ _ _ _ G2 G3) as G. pose proof (gr_bt _ _ _ _ _ G) as Hbt3.
  destruct (pw_own _ _ _ (bt_wf _ _ _ Hbt3) _ t3 (idx_path v) T3) as [Ht3 Ho3].
  assert (Hcur : leaf (tables (bwords s)) r v = if valid (entry (bwords s3) t3 (idx3 v)) =? 0 then None
    else Some (entry (bwords s3) t3 (idx3 v))).
  { rewrite <- L2, <- L3. unfold leaf. rewrite T3, tables_entry.
    pose proof (bt_type _ _ _ Hbt3 _ t3 (idx3 v) (idx_path v) ltac:(done) H3 T3) as Hty3.
    destruct (bit_cases (entry (bwords s3) t3 (idx3 v))) as [[E|E] _]; rewrite E; [done|]. rewrite Hty3 by lia.
    cbn. by rewrite E. }
  assert (Hcnt : lo_allocated_pages s3 <= lo_allocated_pages s + 3 /\
    (is_Some (tbl (tables (bwords s)) r [idx0 v; idx1 v]) -> lo_allocated_pages s3 <= lo_allocated_pages s + 1) /\
    (is_Some (tbl (tables (bwords s)) r (path3 v)) -> lo_allocated_pages s3 = lo_allocated_pages s)).
  { split; [lia|]. split; [intros H%S2; lia|]. intros [u Eu]. rewrite S3, S2; [done| |].
    - change (path3 v) with ([idx0 v; idx1 v] ++ [idx2 v]) in Eu. rewrite tbl_snoc in Eu.
      destruct (tbl (tables (bwords s)) r [idx0 v; idx1 v]); [eauto|done].
    - exists u. apply (gr_tbl _ _ _ _ _ G2); [apply idx_path|exact Eu]. }
  assert (HB : (forall a, path3 a <> path3 v -> lvl2 (bwords s3) r a = lvl2 (bwords s) r a) /\
    (exists e, lvl2 (bwords s3) r v = Some e /\ type e = 1)).
  { split; [|by apply (B3 v)]. intros a Ha. rewrite (proj1 (B3 a)) by congruence. apply B2. }
  destruct (Z.eqb_spec (valid (entry (bwords s3) t3 (idx3 v))) 0) as [E|E].
  - set (e := set_address _ ptme). set (s4 := wr_lo _ _ e s3).
    assert (Hw : forall x, bwords s4 x = if decide (x = t3 * 4096 + 8 * idx3 v) then e else bwords s3 x)
      by (intros x; by apply wr_lo_words).
    assert (He : valid e = 1) by (unfold e; by rewrite valid_set_address).
    assert (Hte : type e = 1) by (unfold e; by rewrite type_set_address).
    exists o3. split; [|split; [|split; [|split; [|split; [|exact Hcnt]]]]].
    + eapply grows_trans; [exact G|]. split; [by eapply bleaf_btree|auto|auto|done| |].
      * intros p t Hp Et. by rewrite (bleaf_tbl o3 (bwords s3) (bwords s4) r v t3 e).
      * intros x Hx. rewrite Hw, decide_False; [done|]. intros ->. apply (Hx t3 Ho3). unfold in_page. lia.
    + rewrite (bleaf_tbl o3 (bwords s3) (bwords s4) r v t3 e) by (done || apply idx_path). eauto.
    + intros a Ha. rewrite (bleaf_leaf o3 (bwords s3) (bwords s4) r v t3 e) by done. rewrite L3, L2, Hcur.
      repeat case_decide; tauto.
    + intros a Ha. rewrite (bleaf_lvl2 o3 (bwords s3) (bwords s4) r v t3 e) by done. by apply HB.
    + rewrite (bleaf_lvl2 o3 (bwords s3) (bwords s4) r v t3 e) by done. apply HB.
  - exists o3. split; [exact G|]. split; [eauto|]. split; [|split; [apply HB|split; [apply HB|exact Hcnt]]].
    intros a Ha. rewrite L3, L2, Hcur, decide_False; [done|]. by intros [_ ?].
Qed.

Lemma same_block_page v n : 0 <= v -> v mod 4096 = 0 -> 0 < n -> v / 2 ^ 21 = (v + 4096 * n - 1) / 2 ^ 21 ->
  forall a, v <= a < v + 4096 * n -> a / 2 ^ 21 = v / 2 ^ 21.
Proof.
  intros Hv Hal Hn E a Ha. assert (v / 2 ^ 21 <= a / 2 ^ 21) by (apply Z.div_le_mono; lia).
  assert (a / 2 ^ 21 <= (v + 4096 * n - 1) / 2 ^ 21) by (apply Z.div_le_mono; lia). lia.
Qed.

(** A run of pages inside one 2 MiB block. *)
Lemma map_l3_loop_ok n : forall own s r hi v pa ptme,
  btree own (bwords s) r -> pooled own s ->
  (R + lo_allocated_pages s + 5 < NPAGES \/ is_Some (tbl (tables (bwords s)) r (path3 v)) /\ R + lo_allocated_pages s + 2 < NPAGES) ->
  0 <= v -> v mod 4096 = 0 -> v + 4096 * Z.of_nat n <= 2 ^ 48 -> (0 < n)%nat ->
  v / 2 ^ 21 = (v + 4096 * Z.of_nat n - 1) / 2 ^ 21 ->
  0 <= hi -> hi * 2 ^ 48 + v + 4096 * Z.of_nat n < 2 ^ 64 -> 0 <= pa -> pa mod 4096 = 0 -> pa + 4096 * Z.of_nat n <= 2 ^ 48 ->
  valid ptme = 1 -> type ptme = 1 -> (forall e, lvl2 (bwords s) r v = Some e -> type e = 1) ->
  exists own', let s' := map_l3_loop (R * 4096) n (hi * 2 ^ 48 + v) pa (r * 4096) ptme s in
    grows own s r own' s' /\ is_Some (tbl (tables (bwords s')) r (path3 v)) /\
    (forall a, 0 <= a < 2 ^ 48 -> leaf (tables (bwords s')) r a =
      if decide (v <= a < v + 4096 * Z.of_nat n /\ leaf (tables (bwords s)) r a = None)
      then Some (set_address (Z.shiftr (pa + (a - v)) PAGE_SHIFT) ptme) else leaf (tables (bwords s)) r a) /\
    (forall a, path3 a <> path3 v -> lvl2 (bwords s') r a = lvl2 (bwords s) r a) /\
    (exists e, lvl2 (bwords s') r v = Some e /\ type e = 1) /\
    lo_allocated_pages s' <= lo_allocated_pages s + 3 /\
    (is_Some (tbl (tables (bwords s)) r [idx0 v; idx1 v]) -> lo_allocated_pages s' <= lo_allocated_pages s + 1) /\
    (is_Some (tbl (tables (bwords s)) r (path3 v)) -> lo_allocated_pages s' = lo_allocated_pages s).
Proof.
  induction n as [|n IH]; intros own s r hi v pa ptme Hbt Hpl Hlt Hv Hal Hve Hn Hsame Hhi Hmax Hpa Hpal Hpe Hvp Htp Hl2;
    [lia|]. cbn [map_l3_loop].
  change (2 ^ 64) with 18446744073709551616 in *.
  destruct (map_l3_page_ok own s r hi v pa ptme Hbt Hpl ltac:(lia) ltac:(lia) Hvp Htp Hl2) as
    (o1 & G1 & T1 & L1 & B1 & B1' & N1 & N1' & N1'').
  set (s1 := map_l3_page _ _ _ _ _ s) in *. destruct n as [|n].
  - exists o1. cbn [map_l3_loop]. split; [done|]. split; [done|]. split; [|tauto]. intros a Ha. rewrite L1 by done.
    change (Z.of_nat 1) with (0 + 1). rewrite <- (pages_step (leaf (tables (bwords s)) r) v pa 0) by (done || lia || apply leaf_page).
    cbn zeta. by rewrite (decide_False (P := v + 4096 <= a < _ /\ _)) by lia.
  - pose proof (same_block_page v (Z.of_nat (S (S n))) Hv Hal ltac:(lia) Hsame) as Hblk.
    assert (Hp3 : path3 (v + 4096) = path3 v) by (apply path3_block; [lia|lia|]; apply Hblk; lia).
    assert (Hu : u64 (hi * 2 ^ 48 + v + PAGE_SIZE) = hi * 2 ^ 48 + (v + 4096)) by (unfold PAGE_SIZE; rewrite u64_small; lia).
    assert (Hu' : u64 (pa + PAGE_SIZE) = pa + 4096) by (unfold PAGE_SIZE; change (2 ^ 48) with 281474976710656 in *; rewrite u64_small; lia).
    rewrite Hu, Hu'.
    destruct B1' as (e1 & Ee1 & Te1).
    destruct (IH o1 s1 r hi (v + 4096) (pa + 4096) ptme) as (o2 & G2 & T2 & L2 & B2 & B2' & N2 & N2' & N2'');
      [apply G1|by eapply grows_pooled| |lia|zdiv|lia|lia| |lia|lia|lia|zdiv|lia|done|done| |].
    + right. rewrite Hp3. split; [done|]. destruct Hlt as [?|[H ?]]; [lia|]. rewrite N1'' by done. lia.
    + rewrite (Hblk (v + 4096)) by lia. rewrite Hsame. f_equal. lia.
    + intros e. rewrite (lvl2_path _ _ _ _ Hp3), Ee1. by intros [= <-].
    + exists o2. cbn zeta in *. rewrite Hp3 in *.
      split; [by eapply grows_trans|]. split; [done|]. split; [|split; [|split; [|split; [|split]]]].
      * intros a Ha. rewrite L2, L1 by done.
        rewrite (pages_step (leaf (tables (bwords s)) r) v pa (Z.of_nat (S n))) by (done || lia || apply leaf_page).
        by replace (Z.of_nat (S (S n))) with (Z.of_nat (S n) + 1) by lia.
      * intros a Ha. rewrite B2 by done. by apply B1.
      * by rewrite <- (lvl2_path _ _ _ _ Hp3).
      * rewrite N2'' by done. done.
      * rewrite N2'' by done. done.
      * rewrite N2'' by done. done.
Qed.

(** ** Blocks *)

Lemma map_l2_block_ok own s r hi v pa ptme :
  btree own (bwords s) r -> pooled own s -> R + lo_allocated_pages s + 1 < NPAGES -> 0 <= v < 2 ^ 48 ->
  valid ptme = 1 -> type ptme = 0 -> lvl2 (bwords s) r v = None ->
  exists own', let s' := map_l2_block (R * 4096) (hi * 2 ^ 48 + v) pa (r * 4096) ptme s in
    grows own s r own' s' /\ is_Some (tbl (tables (bwords s')) r [idx0 v; idx1 v]) /\
    (forall a, leaf (tables (bwords s')) r a = leaf (tables (bwords s)) r a) /\
    (forall a, lvl2 (bwords s') r a =
      if decide (path3 a = path3 v) then Some (set_address (Z.shiftr pa PAGE_SHIFT) ptme) else lvl2 (bwords s) r a) /\
    lo_allocated_pages s' <= lo_allocated_pages s + 2 /\
    (is_Some (tbl (tables (bwords s)) r [idx0 v; idx1 v]) -> lo_allocated_pages s' = lo_allocated_pages s).
Proof.
  intros Hbt Hpl Hlt Hv Hvp Htp Hl2. pose proof (idx_range v) as (H0 & H1 & H2 & H3).
  destruct (walk_lo_ok own s r hi v Hbt Hpl ltac:(lia) Hv) as (t2 & o2 & s2 & E2 & G2 & T2 & L2 & B2 & N2 & S2).
  pose proof (gr_bt _ _ _ _ _ G2) as Hbt2.
  destruct (pw_own _ _ _ (bt_wf _ _ _ Hbt2) _ t2 (path_ok2 v) T2) as [Ht2 Ho2].
  assert (Hinv : valid (entry (bwords s2) t2 (idx2 v)) = 0).
  { rewrite <- B2 in Hl2. unfold lvl2 in Hl2. rewrite T2 in Hl2. by destruct (Z.eqb_spec (valid (entry (bwords s2) t2 (idx2 v))) 0). }
  set (e := set_address (Z.shiftr pa PAGE_SHIFT) ptme).
  assert (Hpg : map_l2_block (R * 4096) (hi * 2 ^ 48 + v) pa (r * 4096) ptme s = wr_lo (t2 * 4096) (idx2 v) e s2).
  { unfold map_l2_block. destruct (descend_lo _ _ _ _ s) as [l1 s1] eqn:E1. rewrite E2.
    destruct (idx_hi hi v) as (_ & _ & -> & _). rewrite rd_lo_entry by done. by rewrite Hinv. }
  cbn zeta. rewrite Hpg. clear Hpg. set (s4 := wr_lo _ _ e s2).
  assert (Hw : forall x, bwords s4 x = if decide (x = t2 * 4096 + 8 * idx2 v) then e else bwords s2 x)
    by (intros x; by apply wr_lo_words).
  assert (He : valid e = 1) by (unfold e; by rewrite valid_set_address).
  assert (Hte : type e = 0) by (unfold e; by rewrite type_set_address).
  pose proof (bblock_tables (bwords s2) (bwords s4) v t2 e Hinv Hte Hw) as Htabs.
  exists o2. split; [|split; [|split; [|split; [|done]]]].
  - eapply grows_trans; [exact G2|]. split; [by eapply bblock_btree|auto|auto|done| |].
    + intros p t Hp Et. by rewrite (tbl_ext (tables (bwords s2))).
    + intros x Hx. rewrite Hw, decide_False; [done|]. intros ->. apply (Hx t2 Ho2). unfold in_page. lia.
  - rewrite (tbl_ext (tables (bwords s2))) by done. eauto.
  - intros a. rewrite (leaf_ext (tables (bwords s2))) by done. apply L2.
  - intros a. rewrite (bblock_lvl2 o2 (bwords s2) (bwords s4) r v t2 e) by done. rewrite B2.
    destruct (decide (idx0 a = idx0 v /\ _)) as [(-> & -> & ->)|Hne]; case_decide as Hd; try done. exfalso. injection Hd as ? ? ?. tauto.
Qed.

Lemma gib_path a b : 0 <= a -> 0 <= b -> a / 2 ^ 30 = b / 2 ^ 30 -> idx0 a = idx0 b /\ idx1 a = idx1 b.
Proof.
  intros Ha Hb E. destruct (idx_div a Ha) as (-> & -> & _). destruct (idx_div b Hb) as (-> & -> & _).
  rewrite E. split; [|done]. change (2 ^ 39) with 549755813888. change (2 ^ 30) with 1073741824 in E.
  assert (a / 549755813888 = b / 549755813888) as -> by zdiv. done.
Qed.

(** A run of blocks inside one GiB. *)
Lemma map_l2_loop_ok n : forall own s r hi v pa ptme,
  btree own (bwords s) r -> pooled own s ->
  (R + lo_allocated_pages s + 3 < NPAGES \/ is_Some (tbl (tables (bwords s)) r [idx0 v; idx1 v]) /\ R + lo_allocated_pages s + 1 < NPAGES) ->
  0 <= v -> v mod 2 ^ 21 = 0 -> v + 2 ^ 21 * Z.of_nat n <= 2 ^ 48 -> (0 < n)%nat ->
  v / 2 ^ 30 = (v + 2 ^ 21 * Z.of_nat n - 1) / 2 ^ 30 ->
  0 <= hi -> hi * 2 ^ 48 + v + 2 ^ 21 * Z.of_nat n < 2 ^ 64 -> 0 <= pa -> pa + 2 ^ 21 * Z.of_nat n <= 2 ^ 48 ->
  valid ptme = 1 -> type ptme = 0 -> (forall a, v <= a < v + 2 ^ 21 * Z.of_nat n -> lvl2 (bwords s) r a = None) ->
  exists own', let s' := map_l2_loop (R * 4096) n (hi * 2 ^ 48 + v) pa (r * 4096) ptme s in
    grows own s r own' s' /\ is_Some (tbl (tables (bwords s')) r [idx0 v; idx1 v]) /\
    (forall a, leaf (tables (bwords s')) r a = leaf (tables (bwords s)) r a) /\
    (forall a, 0 <= a < 2 ^ 48 -> lvl2 (bwords s') r a =
      if decide (v <= a < v + 2 ^ 21 * Z.of_nat n)
      then Some (set_address (Z.shiftr (pa + 2 ^ 21 * ((a - v) / 2 ^ 21)) PAGE_SHIFT) ptme) else lvl2 (bwords s) r a) /\
    lo_allocated_pages s' <= lo_allocated_pages s + 2 /\
    (is_Some (tbl (tables (bwords s)) r [idx0 v; idx1 v]) -> lo_allocated_pages s' = lo_allocated_pages s).
Proof.
  change (2 ^ 21) with 2097152.
  induction n as [|n IH]; intros own s r hi v pa ptme Hbt Hpl Hlt Hv Hal Hve Hn Hsame Hhi Hmax Hpa Hpe Hvp Htp Hl2;
    [lia|]. cbn [map_l2_loop]. change (2 ^ 64) with 18446744073709551616 in *.
  assert (Hv48 : 0 <= v < 2 ^ 48) by lia.
  destruct (map_l2_block_ok own s r hi v pa ptme Hbt Hpl ltac:(lia) Hv48 Hvp Htp) as (o1 & G1 & T1 & L1 & B1 & N1 & N1');
    [apply Hl2; lia|]. set (s1 := map_l2_block _ _ _ _ _ s) in *.
  assert (Hhead : forall a, 0 <= a < 2 ^ 48 -> path3 a = path3 v <-> v <= a < v + 2097152).
  { intros a Ha. rewrite path3_block by done. change (2 ^ 21) with 2097152. zdiv. }
  destruct n as [|n].
  - exists o1. cbn [map_l2_loop]. split; [done|]. split; [done|]. split; [done|]. split; [|done]. intros a Ha.
    rewrite B1. change (Z.of_nat 1) with 1. pose proof (Hhead a Ha). repeat case_decide; try tauto || lia.
    by rewrite (Z.div_small (a - v)), Z.mul_0_r, Z.add_0_r by lia.
  - assert (Hgib : idx0 (v + 2097152) = idx0 v /\ idx1 (v + 2097152) = idx1 v).
    { apply gib_path; [lia|lia|]. change (2 ^ 30) with 1073741824 in *.
      assert (v / 1073741824 <= (v + 2097152) / 1073741824) by (apply Z.div_le_mono; lia).
      assert ((v + 2097152) / 1073741824 <= (v + 2097152 * Z.of_nat (S (S n)) - 1) / 1073741824) by (apply Z.div_le_mono; lia).
      lia. }
    destruct Hgib as [Hg0 Hg1].
    assert (Hu : u64 (hi * 2 ^ 48 + v + BLOCK_SIZE) = hi * 2 ^ 48 + (v + 2097152))
      by (unfold BLOCK_SIZE; change (2 ^ 21) with 2097152; rewrite u64_small; lia).
    assert (Hu' : u64 (pa + BLOCK_SIZE) = pa + 2097152)
      by (unfold BLOCK_SIZE; change (2 ^ 21) with 2097152; change (2 ^ 48) with 281474976710656 in *; rewrite u64_small; lia).
    rewrite Hu, Hu'.
    destruct (IH o1 s1 r hi (v + 2097152) (pa + 2097152) ptme) as (o2 & G2 & T2 & L2 & B2 & N2 & N2');
      [apply G1|by eapply grows_pooled| |lia|zdiv|lia|lia| |lia|lia|lia|lia|done|done| |].
    + right. rewrite Hg0, Hg1. split; [done|]. destruct Hlt as [?|[H ?]]; [lia|]. rewrite N1' by done. lia.
    + change (2 ^ 30) with 1073741824 in *.
      assert (v / 1073741824 <= (v + 2097152) / 1073741824) by (apply Z.div_le_mono; lia).
      assert ((v + 2097152) / 1073741824 <= (v + 2097152 * Z.of_nat (S (S n)) - 1) / 1073741824) by (apply Z.div_le_mono; lia).
      replace (v + 2097152 + 2097152 * Z.of_nat (S n) - 1) with (v + 2097152 * Z.of_nat (S (S n)) - 1) by lia. lia.
    + intros a Ha. rewrite B1, decide_False; [apply Hl2; lia|]. rewrite Hhead by lia. lia.
    + exists o2. cbn zeta in *. rewrite Hg0, Hg1 in *.
      split; [by eapply grows_trans|]. split; [done|]. split; [intros a; by rewrite L2, L1|].
      split; [|rewrite N2' by done; split; [lia|done]].
      intros a Ha. rewrite B2, B1 by done. pose proof (Hhead a Ha) as Hh.
      destruct (decide (path3 a = path3 v)) as [Hd|Hd].
      * apply Hh in Hd. rewrite (decide_False (P := v + 2097152 <= a < _)) by lia. rewrite decide_True by lia. by rewrite (Z.div_small (a - v)), Z.mul_0_r, Z.add_0_r by lia.
      * assert (~ (v <= a < v + 2097152)) by tauto. destruct (decide (v + 2097152 <= a < _)).
        -- rewrite decide_True by lia. do 3 f_equal.
           replace (a - v) with (a - (v + 2097152) + 1 * 2097152) by lia. rewrite Z.div_add by lia. lia.
        -- rewrite decide_False by lia. done.
Qed.
End HighhalfOps.
