(* ===== verification/HighhalfSpec.v ===== *)
(** * What the boot mapping promises

    [boot_map own s r F]: the tables at [r] give each virtual address exactly
    the physical address and the permissions that the map [F] gives it.
    [map_lo] extends the map by a range, [map_high] builds the map of the whole
    kernel image. *)
From S2P Require Import Prelude Buddy BuddyInv BuddyOps BuddyRef Mmap MmapInv MmapSpec Slab Highhalf HighhalfInv HighhalfOps.

Definition md_pxn := get_bits 53 1.

(** The MMU's walk: physical address, access permissions and PXN.  A level-2
    block maps 2 MiB; the low bits of its address are ignored. *)
Definition walk (w : words) (r v : Z) : option (Z * Z * Z) :=
  let e0 := entry w r (idx0 v) in
  if valid e0 =? 0 then None
  else
    let e1 := entry w (address e0) (idx1 v) in
    if valid e1 =? 0 then None
    else
      let e2 := entry w (address e1) (idx2 v) in
      if valid e2 =? 0 then None
      else if type e2 =? 0 then Some (address e2 / 512 * 2 ^ 21 + v mod 2 ^ 21, ap e2, md_pxn e2)
      else
        let e3 := entry w (address e2) (idx3 v) in
        if valid e3 =? 0 then None else Some (address e3 * 4096 + v mod 4096, ap e3, md_pxn e3).

(** Executable by the kernel only with [RX], writable only with [RW]. *)
Definition perm_bits (p : permissions) : Z * Z :=
  match p with RO => (2, 1) | RW => (0, 1) | RX => (2, 0) end.
Definition seen (x : Z * permissions) : Z * Z * Z := (x.1, (perm_bits x.2).1, (perm_bits x.2).2).

Record boot_map (own : Z -> Prop) (s : boot) (r : Z) (F : Z -> option (Z * permissions)) : Prop := {
  bm_bt : btree own (bwords s) r;
  bm_walk : forall v, 0 <= v < 2 ^ 48 -> walk (bwords s) r v = seen <$> F v;
  bm_lvl2 : forall v e, 0 <= v < 2 ^ 48 -> lvl2 (bwords s) r v = Some e ->
    (type e = 1 /\ exists v', 0 <= v' < 2 ^ 48 /\ v' / 2 ^ 21 = v / 2 ^ 21 /\ is_Some (F v')) \/
    (type e = 0 /\ address e mod 512 = 0 /\ forall v', v' / 2 ^ 21 = v / 2 ^ 21 -> is_Some (F v'));
}.

(** The map with the range of [len] bytes at [v] added. *)
Definition extend (F : Z -> option (Z * permissions)) (v pa len : Z) (perms : permissions) : Z -> option (Z * permissions) :=
  fun a => if decide (v <= a < v + len) then Some (pa + (a - v), perms) else F a.

Lemma boot_map_ext own s r F G : (forall v, F v = G v) -> boot_map own s r F -> boot_map own s r G.
Proof.
  intros E [H1 H2 H3]. split; [done|intros v Hv; rewrite <- E; by apply H2|]. intros v e Hv He.
  destruct (H3 v e Hv He) as [(Ht & v' & Hv' & Hb & Hs)|(Ht & Had & Hall)]; [left|right]; (split; [done|]).
  - exists v'. by rewrite <- E.
  - split; [done|]. intros v' Hb. rewrite <- E. by apply Hall.
Qed.

(** ** The walk, through the tree *)

Lemma entry_table own w r p t i : btree own w r -> path_ok p -> length p <> 2%nat -> 0 <= i < 512 ->
  tbl (tables w) r p = Some t -> valid (entry w t i) <> 0 -> entry (tables w) t i = entry w t i.
Proof.
  intros Hbt Hp Hl Hi Ht Hv. rewrite tables_entry, (bt_type _ _ _ Hbt p t i) by done.
  by destruct (bit_cases (entry w t i)) as [[E| ->] _].
Qed.

Lemma walk_view own w r v : btree own w r ->
  walk w r v = match lvl2 w r v with
    | None => None
    | Some e => if type e =? 0 then Some (address e / 512 * 2 ^ 21 + v mod 2 ^ 21, ap e, md_pxn e)
        else match leaf (tables w) r v with Some e => Some (address e * 4096 + v mod 4096, ap e, md_pxn e) | None => None end
    end.
Proof.
  intros Hbt. pose proof (idx_range v) as (H0 & H1 & H2 & H3).
  assert (P0 : path_ok []) by (split; [cbn; lia|constructor]).
  assert (P1 : path_ok [idx0 v]) by (split; [cbn; lia|repeat constructor; lia]).
  assert (P2 : path_ok [idx0 v; idx1 v]) by (split; [cbn; lia|repeat constructor; lia]).
  unfold walk, lvl2. change [idx0 v; idx1 v] with ([idx0 v] ++ [idx1 v]). rewrite tbl_snoc.
  change [idx0 v] with ([] ++ [idx0 v]) at 1. rewrite tbl_snoc. cbn [tbl app].
  destruct (Z.eqb_spec (valid (entry w r (idx0 v))) 0) as [E0|E0]; [by rewrite tables_valid|].
  assert (T1 : tbl (tables w) r [idx0 v] = Some (address (entry w r (idx0 v)))).
  { cbn [tbl]. rewrite (entry_table own w r [] r) by done. by rewrite (proj2 (Z.eqb_neq _ _) E0). }
  rewrite (entry_table own w r [] r) by done. rewrite (proj2 (Z.eqb_neq _ _) E0).
  set (t1 := address (entry w r (idx0 v))) in *.
  destruct (Z.eqb_spec (valid (entry w t1 (idx1 v))) 0) as [E1|E1]; [by rewrite tables_valid|].
  rewrite (entry_table own w r [idx0 v] t1) by done. rewrite (proj2 (Z.eqb_neq _ _) E1).
  assert (T2 : tbl (tables w) r ([idx0 v] ++ [idx1 v]) = Some (address (entry w t1 (idx1 v)))).
  { rewrite tbl_snoc, T1, (entry_table own w r [idx0 v] t1) by done. by rewrite (proj2 (Z.eqb_neq _ _) E1). }
  set (t2 := address (entry w t1 (idx1 v))) in *.
  destruct (Z.eqb_spec (valid (entry w t2 (idx2 v))) 0) as [E2|E2]; [done|].
  destruct (Z.eqb_spec (type (entry w t2 (idx2 v))) 0) as [Ty|Ty]; [done|].
  assert (T3 : tbl (tables w) r (path3 v) = Some (address (entry w t2 (idx2 v)))).
  { change (path3 v) with (([idx0 v] ++ [idx1 v]) ++ [idx2 v]). rewrite tbl_snoc, T2, tables_entry.
    destruct (bit_cases (entry w t2 (idx2 v))) as [[?|Ev] [?|Et]]; try lia. rewrite Ev, Et. cbn. by rewrite Ev. }
  unfold leaf. rewrite T3. set (t3 := address (entry w t2 (idx2 v))) in *.
  destruct (Z.eqb_spec (valid (entry w t3 (idx3 v))) 0) as [E3|E3]; [by rewrite tables_valid|].
  rewrite (entry_table own w r (path3 v) t3) by (done || apply idx_path). by rewrite (proj2 (Z.eqb_neq _ _) E3).
Qed.

Lemma leaf_lvl2 w r v e : leaf (tables w) r v = Some e -> exists e2, lvl2 w r v = Some e2 /\ type e2 = 1.
Proof.
  unfold leaf, lvl2. change (path3 v) with ([idx0 v; idx1 v] ++ [idx2 v]). rewrite tbl_snoc.
  destruct (tbl (tables w) r [idx0 v; idx1 v]) as [t|]; [|done]. rewrite tables_entry.
  destruct (bit_cases (entry w t (idx2 v))) as [[Ev|Ev] [Et|Et]]; rewrite ?Ev, ?Et; cbn; try done. eauto.
Qed.

(** An address outside the map has no page entry, and no block entry either. *)
Lemma unmapped own s r F v : boot_map own s r F -> 0 <= v < 2 ^ 48 -> F v = None ->
  leaf (tables (bwords s)) r v = None /\ (forall e, lvl2 (bwords s) r v = Some e -> type e = 1).
Proof.
  intros Hb Hv HF. pose proof (bm_walk _ _ _ _ Hb v Hv) as Hw. rewrite HF in Hw. cbn in Hw.
  rewrite (walk_view own) in Hw by apply Hb. split.
  - destruct (leaf (tables (bwords s)) r v) eqn:El; [|done]. destruct (leaf_lvl2 _ _ _ _ El) as (e2 & E2 & T2).
    rewrite E2, T2 in Hw. done.
  - intros e Ee. rewrite Ee in Hw. destruct (bit_cases e) as [_ [Et|Et]]; [|done]. by rewrite Et in Hw.
Qed.

Lemma template_bits perms x b : 0 <= x < 2 ^ 36 ->
  let e := set_address x (mark perms (if b : bool then set_type 0 k_code_mem_mapping else k_code_mem_mapping)) in
  address e = x /\ valid e = 1 /\ type e = (if b then 0 else 1) /\ (ap e, md_pxn e) = perm_bits perms.
Proof.
  intros Hx e. unfold e. rewrite address_set, valid_set_address, type_set_address, ap_set_address by done.
  unfold md_pxn, set_address. rewrite get_set_other by lia. by destruct perms, b.
Qed.

Lemma template_type perms (b : bool) :
  let m := mark perms (if b then set_type 0 k_code_mem_mapping else k_code_mem_mapping) in
  valid m = 1 /\ type m = if b then 0 else 1.
Proof. by destruct perms, b. Qed.

(** ** Extending the map *)
Section extend.
Context (R : Z) (HR : 0 < R).

Lemma addr36 pa : 0 <= pa < 2 ^ 48 -> 0 <= Z.shiftr pa PAGE_SHIFT < 2 ^ 36.
Proof.
  unfold PAGE_SHIFT. rewrite Z.shiftr_div_pow2 by lia. change (2 ^ 48) with 281474976710656.
  change (2 ^ 12) with 4096. change (2 ^ 36) with 68719476736. intros. zdiv.
Qed.

(** A run of pages inside a 2 MiB block. *)
Lemma extend_pages own s r F hi v pa n perms :
  boot_map own s r F -> pooled R own s -> R + lo_allocated_pages s + 5 < NPAGES ->
  0 <= v -> v mod 4096 = 0 -> v + 4096 * n <= 2 ^ 48 -> 0 < n -> v / 2 ^ 21 = (v + 4096 * n - 1) / 2 ^ 21 ->
  0 <= hi -> hi * 2 ^ 48 + v + 4096 * n < 2 ^ 64 -> 0 <= pa -> pa mod 4096 = 0 -> pa + 4096 * n <= 2 ^ 48 ->
  (forall a, v <= a < v + 4096 * n -> F a = None) ->
  exists own', let s' := map_l3_range (R * 4096) (hi * 2 ^ 48 + v) pa n (r * 4096) perms s in
    grows R own s r own' s' /\ boot_map own' s' r (extend F v pa (4096 * n) perms) /\
    is_Some (tbl (tables (bwords s')) r [idx0 v; idx1 v]) /\
    lo_allocated_pages s' <= lo_allocated_pages s + 3 /\
    (is_Some (tbl (tables (bwords s)) r [idx0 v; idx1 v]) -> lo_allocated_pages s' <= lo_allocated_pages s + 1).
Proof.
  intros Hb Hpl Hlt Hv Hal Hve Hn Hsame Hhi Hmax Hpa Hpal Hpe HF. pose proof (bm_bt _ _ _ _ Hb) as Hbt.
  unfold map_l3_range. set (m := mark perms k_code_mem_mapping).
  destruct (template_type perms false) as [Hm1 Hm2]. fold m in Hm1, Hm2.
  assert (EN : Z.of_nat (Z.to_nat n) = n) by lia.
  destruct (map_l3_loop_ok R HR (Z.to_nat n) own s r hi v pa m Hbt Hpl) as (o1 & G & T & L & B & B' & N & N1 & _);
    rewrite ?EN; try done; try lia; [by apply (unmapped _ _ _ _ v Hb); [lia|apply HF; lia]|].
  exists o1. cbn zeta in *. rewrite EN in *. set (s1 := map_l3_loop _ _ _ _ _ m s) in *. clearbody s1.
  pose proof (same_block_page v n Hv Hal Hn Hsame) as Hblk.
  split; [done|]. split; [split; [apply G| |]|split; [|done]].
  - intros a Ha. rewrite (walk_view o1) by apply G. unfold extend.
    destruct (decide (path3 a = path3 v)) as [Hp|Hp].
    + rewrite (lvl2_path _ _ _ _ Hp). destruct B' as (e1 & -> & ->). cbn [Z.eqb]. rewrite L by done. destruct (decide (v <= a < v + 4096 * n)) as [Hr|Hr].
      * destruct (unmapped _ _ _ _ a Hb Ha (HF a Hr)) as [Hl _]. rewrite decide_True by done.
        change (2 ^ 48) with 281474976710656 in *.
        destruct (template_bits perms (Z.shiftr (pa + (a - v)) PAGE_SHIFT) false) as (Ea & _ & _ & Ep);
          [apply addr36; change (2 ^ 48) with 281474976710656; lia|]. fold m in Ea, Ep. rewrite Ea.
        cbn. unfold seen. cbn [fst snd]. rewrite <- Ep. cbn. do 3 f_equal.
        unfold PAGE_SHIFT. rewrite Z.shiftr_div_pow2 by lia. change (2 ^ 12) with 4096. zdiv.
      * rewrite decide_False by tauto. rewrite <- (bm_walk _ _ _ _ Hb a Ha), (walk_view own) by done.
        destruct (lvl2 (bwords s) r a) as [e|] eqn:Ee.
        -- rewrite (lvl2_path _ _ _ _ Hp) in Ee. destruct (unmapped _ _ _ _ v Hb ltac:(lia) ltac:(apply HF; lia)) as [_ Hty].
           by rewrite (Hty e Ee).
        -- destruct (leaf (tables (bwords s)) r a) eqn:El; [|done]. apply leaf_lvl2 in El as (? & ? & _). congruence.
    + assert (~ (v <= a < v + 4096 * n)) as Hr by (intros Hr; apply Hp, path3_block; [lia|lia|by apply Hblk]).
      rewrite B, L by done. rewrite !decide_False by tauto. rewrite <- (bm_walk _ _ _ _ Hb a Ha). by rewrite (walk_view own).
  - intros a e Ha Ee. unfold extend. destruct (decide (path3 a = path3 v)) as [Hp|Hp].
    + rewrite (lvl2_path _ _ _ _ Hp) in Ee. destruct B' as (e1 & E1 & T1). left. assert (e = e1) as -> by congruence.
      split; [done|]. exists v. split; [lia|]. split; [symmetry; apply path3_block; done || lia|]. rewrite decide_True by lia. eauto.
    + rewrite B in Ee by done. destruct (bm_lvl2 _ _ _ _ Hb a e Ha Ee) as [(Ht & v' & Hv' & Hbv & Hs)|(Ht & Had & Hall)];
        [left|right]; (split; [done|]).
      * exists v'. split; [done|]. split; [done|]. case_decide; eauto.
      * split; [done|]. intros v' Hv'. case_decide; [eauto|by apply Hall].
  - destruct T as [t3 T]. change (path3 v) with ([idx0 v; idx1 v] ++ [idx2 v]) in T. rewrite tbl_snoc in T.
    destruct (tbl (tables (bwords s1)) r [idx0 v; idx1 v]); [eauto|done].
Qed.

(** A run of blocks inside a GiB. *)
Lemma extend_blocks own s r F hi v pa n perms :
  boot_map own s r F -> pooled R own s -> R + lo_allocated_pages s + 5 < NPAGES ->
  0 <= v -> v mod 2 ^ 21 = 0 -> v + 2 ^ 21 * n <= 2 ^ 48 -> 0 < n -> v / 2 ^ 30 = (v + 2 ^ 21 * n - 1) / 2 ^ 30 ->
  0 <= hi -> hi * 2 ^ 48 + v + 2 ^ 21 * n < 2 ^ 64 -> 0 <= pa -> pa mod 2 ^ 21 = 0 -> pa + 2 ^ 21 * n <= 2 ^ 48 ->
  (forall a, v <= a < v + 2 ^ 21 * n -> F a = None) ->
  exists own', let s' := map_l2_range (R * 4096) (hi * 2 ^ 48 + v) pa n (r * 4096) perms s in
    grows R own s r own' s' /\ boot_map own' s' r (extend F v pa (2 ^ 21 * n) perms) /\
    is_Some (tbl (tables (bwords s')) r [idx0 v; idx1 v]) /\
    lo_allocated_pages s' <= lo_allocated_pages s + 2 /\
    (is_Some (tbl (tables (bwords s)) r [idx0 v; idx1 v]) -> lo_allocated_pages s' = lo_allocated_pages s).
Proof.
  intros Hb Hpl Hlt Hv Hal Hve Hn Hsame Hhi Hmax Hpa Hpal Hpe HF. pose proof (bm_bt _ _ _ _ Hb) as Hbt.
  unfold map_l2_range. set (m := mark perms (set_type 0 k_code_mem_mapping)).
  destruct (template_type perms true) as [Hm1 Hm2]. fold m in Hm1, Hm2.
  assert (EN : Z.of_nat (Z.to_nat n) = n) by lia.
  destruct (map_l2_loop_ok R HR (Z.to_nat n) own s r hi v pa m Hbt Hpl) as (o1 & G & T & L & B & N & N1);
    rewrite ?EN; try done; try lia.
  { intros a Ha. change (2 ^ 21) with 2097152 in *.
    destruct (lvl2 (bwords s) r a) as [e|] eqn:Ee; [|done]. exfalso.
    destruct (bm_lvl2 _ _ _ _ Hb a e ltac:(lia) Ee) as [(Ht & v' & Hv' & Hbv & [x Hs])|(Ht & Had & Hall)].
    - change (2 ^ 21) with 2097152 in *. rewrite HF in Hs by zdiv. done.
    - destruct (Hall a eq_refl) as [x Hx]. rewrite HF in Hx by lia. done. }
  exists o1. cbn zeta in *. rewrite EN in *. set (s1 := map_l2_loop _ _ _ _ _ m s) in *. clearbody s1.
  split; [done|]. split; [split; [apply G| |]|done].
  - intros a Ha. rewrite (walk_view o1) by apply G. unfold extend. rewrite B by done. case_decide as Hr.
    + change (2 ^ 48) with 281474976710656 in *. change (2 ^ 21) with 2097152 in *.
      destruct (template_bits perms (Z.shiftr (pa + 2097152 * ((a - v) / 2097152)) PAGE_SHIFT) true) as (Ea & _ & Et & Ep);
        [apply addr36; change (2 ^ 48) with 281474976710656; zdiv|]. fold m in Ea, Et, Ep. rewrite Et, Ea.
      cbn. unfold seen. cbn [fst snd]. rewrite <- Ep. cbn. do 3 f_equal.
      unfold PAGE_SHIFT. rewrite Z.shiftr_div_pow2 by lia. change (2 ^ 12) with 4096. zdiv.
    + rewrite L. rewrite <- (bm_walk _ _ _ _ Hb a Ha). by rewrite (walk_view own).
  - intros a e Ha Ee. rewrite B in Ee by done. unfold extend. case_decide as Hr.
    + right. injection Ee as <-. rewrite type_set_address. split; [done|]. split.
      { change (2 ^ 21) with 2097152 in *. change (2 ^ 48) with 281474976710656 in *. rewrite address_set.
        - unfold PAGE_SHIFT. rewrite Z.shiftr_div_pow2 by lia. change (2 ^ 12) with 4096. zdiv.
        - apply addr36. change (2 ^ 48) with 281474976710656. zdiv. }
      intros v' Hv'.
      change (2 ^ 21) with 2097152 in *. rewrite decide_True by zdiv. eauto.
    + destruct (bm_lvl2 _ _ _ _ Hb a e Ha Ee) as [(Ht & v' & Hv' & Hbv & Hs)|(Ht & Had & Hall)]; [left|right]; (split; [done|]).
      * exists v'. split; [done|]. split; [done|]. case_decide; eauto.
      * split; [done|]. intros v' Hv'. case_decide; [eauto|by apply Hall].
Qed.

(** Both, when there may be nothing to map.  [T s] says that the level-2 table of
    the GiB is there. *)
Definition reached (s : boot) (r v : Z) : Prop := is_Some (tbl (tables (bwords s)) r [idx0 v; idx1 v]).

Lemma grows_reached own s r own' s' v : grows R own s r own' s' -> reached s r v -> reached s' r v.
Proof.
  intros G [t Ht]. exists t. apply (gr_tbl _ _ _ _ _ _ G); [|done].
  pose proof (idx_range v). split; [cbn; lia|repeat constructor; lia].
Qed.

Lemma extend_nothing F v pa perms a : extend F v pa 0 perms a = F a.
Proof. unfold extend. by rewrite decide_False by lia. Qed.

Lemma extend_extend F v pa l1 l2 perms a : 0 <= l1 -> 0 <= l2 ->
  extend (extend F v pa l1 perms) (v + l1) (pa + l1) l2 perms a = extend F v pa (l1 + l2) perms a.
Proof.
  intros H1 H2. unfold extend.
  destruct (decide (v + l1 <= a < v + l1 + l2)), (decide (v <= a < v + l1)), (decide (v <= a < v + (l1 + l2))); try lia; try done.
  do 2 f_equal. lia.
Qed.

Lemma extend_pages0 own s r F hi v pa n perms :
  boot_map own s r F -> pooled R own s -> R + lo_allocated_pages s + 5 < NPAGES ->
  0 <= v -> v mod 4096 = 0 -> v + 4096 * n <= 2 ^ 48 -> 0 <= n -> (0 < n -> v / 2 ^ 21 = (v + 4096 * n - 1) / 2 ^ 21) ->
  0 <= hi -> hi * 2 ^ 48 + v + 4096 * n < 2 ^ 64 -> 0 <= pa -> pa mod 4096 = 0 -> pa + 4096 * n <= 2 ^ 48 ->
  (forall a, v <= a < v + 4096 * n -> F a = None) ->
  exists own', let s' := if n =? 0 then s else map_l3_range (R * 4096) (hi * 2 ^ 48 + v) pa n (r * 4096) perms s in
    grows R own s r own' s' /\ boot_map own' s' r (extend F v pa (4096 * n) perms) /\
    (0 < n -> reached s' r v) /\ lo_allocated_pages s' <= lo_allocated_pages s + 3 /\
    (reached s r v -> lo_allocated_pages s' <= lo_allocated_pages s + 1) /\ (n = 0 -> s' = s).
Proof.
  intros. destruct (Z.eqb_spec n 0) as [->|Hn].
  - exists own. split; [by eapply grows_refl, bm_bt|]. split; [|split; [lia|split; [lia|split; [lia|done]]]].
    eapply boot_map_ext; [|done]. intros a. by rewrite extend_nothing.
  - destruct (extend_pages own s r F hi v pa n perms) as (o1 & G & B & T & N & N1); try done; try lia.
    exists o1. do 4 (split; [auto|]). split; [auto|lia].
Qed.

Lemma extend_blocks0 own s r F hi v pa n perms :
  boot_map own s r F -> pooled R own s -> R + lo_allocated_pages s + 5 < NPAGES ->
  0 <= v -> (0 < n -> v mod 2 ^ 21 = 0) -> v + 2 ^ 21 * n <= 2 ^ 48 -> 0 <= n -> (0 < n -> v / 2 ^ 30 = (v + 2 ^ 21 * n - 1) / 2 ^ 30) ->
  0 <= hi -> hi * 2 ^ 48 + v + 2 ^ 21 * n < 2 ^ 64 -> 0 <= pa -> (0 < n -> pa mod 2 ^ 21 = 0) -> pa + 2 ^ 21 * n <= 2 ^ 48 ->
  (forall a, v <= a < v + 2 ^ 21 * n -> F a = None) ->
  exists own', let s' := if n =? 0 then s else map_l2_range (R * 4096) (hi * 2 ^ 48 + v) pa n (r * 4096) perms s in
    grows R own s r own' s' /\ boot_map own' s' r (extend F v pa (2 ^ 21 * n) perms) /\
    (0 < n -> reached s' r v) /\ lo_allocated_pages s' <= lo_allocated_pages s + 2 /\
    (reached s r v -> lo_allocated_pages s' = lo_allocated_pages s) /\ (n = 0 -> s' = s).
Proof.
  intros. destruct (Z.eqb_spec n 0) as [->|Hn].
  - exists own. split; [by eapply grows_refl, bm_bt|]. split; [|split; [lia|split; [lia|split; [lia|done]]]].
    rewrite Z.mul_0_r. eapply boot_map_ext; [|done]. intros a. by rewrite extend_nothing.
  - destruct (extend_blocks own s r F hi v pa n perms) as (o1 & G & B & T & N & N1); try done; try lia.
    exists o1. do 4 (split; [auto|]). split; [auto|lia].
Qed.

Lemma align_up_block va : 0 <= va -> ALIGN_UP va BLOCK_SIZE - va = (- va) mod 2097152.
Proof.
  intros Hv. unfold ALIGN_UP, BLOCK_SIZE. change (2 ^ 21 - 1) with (Z.ones 21). rewrite <- Z.ldiff_land, Z.ldiff_ones_r by lia.
  rewrite Z.shiftr_div_pow2, Z.shiftl_mul_pow2 by lia. change (2 ^ 21) with 2097152. change (Z.ones 21) with 2097151. zdiv.
Qed.

Lemma map_lo_ok own s r F hi v pa pages perms :
  boot_map own s r F -> pooled R own s -> R + lo_allocated_pages s + 10 < NPAGES ->
  0 <= v -> v mod 4096 = 0 -> 0 < pages <= 2 ^ 18 -> v + 4096 * pages <= 2 ^ 48 ->
  v / 2 ^ 30 = (v + 4096 * pages - 1) / 2 ^ 30 ->
  0 <= hi -> hi * 2 ^ 48 + v + 4096 * pages < 2 ^ 64 -> 0 <= pa -> pa + 4096 * pages <= 2 ^ 48 -> (v - pa) mod 2 ^ 21 = 0 ->
  (forall a, v <= a < v + 4096 * pages -> F a = None) ->
  exists own', let s' := map_lo (R * 4096) (hi * 2 ^ 48 + v) pa pages (r * 4096) perms s in
    grows R own s r own' s' /\ boot_map own' s' r (extend F v pa (4096 * pages) perms) /\ reached s' r v /\
    lo_allocated_pages s' <= lo_allocated_pages s + 4 /\
    (reached s r v -> lo_allocated_pages s' <= lo_allocated_pages s + 2).
Proof.
  intros Hb Hpl Hlt Hv Hal Hpg Hve Hgib Hhi Hmax Hpa Hpe Hdiff HF.
  change (2 ^ 18) with 262144 in *. change (2 ^ 64) with 18446744073709551616 in *.
  change (2 ^ 48) with 281474976710656 in *. change (2 ^ 21) with 2097152 in *. change (2 ^ 30) with 1073741824 in *.
  unfold map_lo. cbv zeta. rewrite (s32_small pages) by lia. rewrite align_up_block by lia.
  replace ((- (hi * 281474976710656 + v)) mod 2097152) with ((- v) mod 2097152) by zdiv.
  rewrite (u64_small ((- v) mod 2097152)), (u64_small pages) by zdiv. unfold PAGE_SIZE.
  set (nf := if (- v) mod 2097152 / 4096 =? 0 then 0 else Z.min ((- v) mod 2097152 / 4096) pages).
  assert (Hnf : nf = Z.min ((- v) mod 2097152 / 4096) pages).
  { unfold nf. destruct (Z.eqb_spec ((- v) mod 2097152 / 4096) 0); [lia|done]. }
  clearbody nf. assert (Hnf0 : 0 <= nf <= pages /\ nf < 512) by zdiv.
  rewrite (s32_small nf), (u64_small (nf * 4096)), (s32_small (pages - nf)) by lia.
  destruct (extend_pages0 own s r F hi v pa nf perms) as (o1 & G1 & B1 & T1 & N1 & N1' & Z1);
    [done|done|lia|lia|done|change (2 ^ 48) with 281474976710656; lia|lia|change (2 ^ 21) with 2097152; intros; zdiv|lia
    |change (2 ^ 64) with 18446744073709551616; change (2 ^ 48) with 281474976710656; lia|lia|zdiv
    |change (2 ^ 48) with 281474976710656; lia|intros a Ha; apply HF; lia|].
  change (2 ^ 48) with 281474976710656 in *. cbn zeta in G1, B1, T1, N1, N1', Z1.
  set (s1 := if nf =? 0 then s else _) in *. clearbody s1.
  rewrite (u64_small (hi * 281474976710656 + v + nf * 4096)), (u64_small (pa + nf * 4096)) by lia.
  rewrite (Z.shiftr_div_pow2 _ 9) by lia. change (2 ^ 9) with 512. change 0x1FF with (Z.ones 9).
  rewrite (Z.land_ones _ 9) by lia. change (2 ^ 9) with 512.
  set (nb := (pages - nf) / 512). assert (Hnb : 0 <= nb /\ 512 * nb <= pages - nf) by (subst nb; zdiv).
  set (nt := (pages - nf) mod 512). assert (Hnt : 0 <= nt < 512 /\ pages = nf + 512 * nb + nt) by (subst nb nt; zdiv).
  clearbody nb nt. rewrite (u64_small nb), (s32_small nb), (s32_small nt) by lia. unfold BLOCK_SIZE. change (2 ^ 21) with 2097152.
  rewrite (u64_small (nb * 2097152)) by lia.
  assert (Hv1 : 0 < nb \/ 0 < nt -> (v + 4096 * nf) mod 2097152 = 0) by (intros; zdiv).
  set (v1 := v + 4096 * nf) in *. set (pa1 := pa + 4096 * nf) in *.
  replace (hi * 281474976710656 + v + nf * 4096) with (hi * 281474976710656 + v1) by lia.
  replace (pa + nf * 4096) with pa1 by lia.
  assert (Hi1 : forall x, v <= x < v + 4096 * pages -> idx0 x = idx0 v /\ idx1 x = idx1 v).
  { intros x Hx. apply gib_path; [lia|lia|]. change (2 ^ 30) with 1073741824.
    assert (v / 1073741824 <= x / 1073741824) by (apply Z.div_le_mono; lia).
    assert (x / 1073741824 <= (v + 4096 * pages - 1) / 1073741824) by (apply Z.div_le_mono; lia). lia. }
  assert (HR1 : forall s x, v <= x < v + 4096 * pages -> reached s r x <-> reached s r v)
    by (intros s0 x Hx; unfold reached; by destruct (Hi1 x Hx) as [-> ->]).
  assert (Hpl1 : pooled R o1 s1) by (by eapply grows_pooled).
  assert (Hin : 0 < nb \/ 0 < nt -> v <= v1 < v + 4096 * pages) by lia.
  destruct (extend_blocks0 o1 s1 r _ hi v1 pa1 nb perms B1 Hpl1) as (o2 & G2 & B2 & T2 & N2 & N2' & Z2);
    [lia|lia|change (2 ^ 21) with 2097152; auto|change (2 ^ 48) with 281474976710656; change (2 ^ 21) with 2097152; lia|lia
    |change (2 ^ 30) with 1073741824; change (2 ^ 21) with 2097152; intros; zdiv|lia
    |change (2 ^ 64) with 18446744073709551616; change (2 ^ 48) with 281474976710656; change (2 ^ 21) with 2097152; lia|lia
    |change (2 ^ 21) with 2097152; intros; zdiv|change (2 ^ 48) with 281474976710656; change (2 ^ 21) with 2097152; lia
    |change (2 ^ 21) with 2097152; intros a Ha; unfold extend; rewrite decide_False by lia; apply HF; lia|].
  cbn zeta in G2, B2, T2, N2, N2', Z2. change (2 ^ 48) with 281474976710656 in *. change (2 ^ 21) with 2097152 in *.
  set (s2 := if nb =? 0 then s1 else _) in *. clearbody s2.
  rewrite (u64_small (hi * 281474976710656 + v1 + nb * 2097152)), (u64_small (pa1 + nb * 2097152)) by lia.
  set (v2 := v1 + 2097152 * nb) in *. set (pa2 := pa1 + 2097152 * nb) in *.
  replace (hi * 281474976710656 + v1 + nb * 2097152) with (hi * 281474976710656 + v2) by lia.
  replace (pa1 + nb * 2097152) with pa2 by lia.
  assert (Hpl2 : pooled R o2 s2) by (by eapply grows_pooled).
  destruct (extend_pages0 o2 s2 r _ hi v2 pa2 nt perms B2 Hpl2) as (o3 & G3 & B3 & T3 & N3 & N3' & Z3);
    [lia|lia|zdiv|change (2 ^ 48) with 281474976710656; lia|lia|change (2 ^ 21) with 2097152; intros; zdiv|lia
    |change (2 ^ 64) with 18446744073709551616; change (2 ^ 48) with 281474976710656; lia|lia|zdiv
    |change (2 ^ 48) with 281474976710656; lia|intros a Ha; unfold extend; rewrite !decide_False by lia; apply HF; lia|].
  change (2 ^ 48) with 281474976710656 in *. cbn zeta in G3, B3, T3, N3, N3', Z3.
  set (s3 := if nt =? 0 then s2 else _) in *. clearbody s3.
  exists o3. split; [by eapply grows_trans; [eapply grows_trans|]|]. split.
  { eapply boot_map_ext; [|exact B3]. intros a. unfold v2, pa2. change (2 ^ 21) with 2097152.
    replace (4096 * pages) with (4096 * nf + 2097152 * nb + 4096 * nt) by lia.
    rewrite <- !extend_extend by lia. unfold v1, pa1, extend. repeat case_decide; try done; try lia; do 2 f_equal; lia. }
  assert (Hc : (nb = 0 /\ nt = 0 /\ s3 = s1) \/ (0 < nb \/ 0 < nt)).
  { destruct (decide (nb = 0)) as [E|]; [|right; lia]. destruct (decide (nt = 0)) as [E'|]; [|right; lia].
    left. rewrite Z3, Z2 by done. done. }
  destruct Hc as [(-> & -> & ->)|Hc].
  { split; [apply T1; lia|]. split; [lia|]. intros H%N1'. lia. }
  pose proof (Hin Hc) as Hin1. assert (Hin2 : 0 < nt -> v <= v2 < v + 4096 * pages) by lia.
  assert (Hs1 : 0 < nf -> reached s1 r v1) by (intros Hf; by apply HR1; [|apply T1]).
  assert (Hs2 : reached s1 r v1 -> reached s2 r v1) by (by eapply grows_reached).
  assert (Hs3 : reached s2 r v1 -> reached s3 r v1) by (by eapply grows_reached).
  assert (Hs0 : reached s r v -> reached s1 r v1) by (intros H; apply HR1; [done|by eapply grows_reached]).
  assert (Hs12 : 0 < nt -> reached s2 r v1 <-> reached s2 r v2).
  { intros Hnt0. rewrite (HR1 s2 v1), (HR1 s2 v2) by lia. done. }
  assert (Hs13 : 0 < nt -> reached s3 r v1 <-> reached s3 r v2).
  { intros Hnt0. rewrite (HR1 s3 v1), (HR1 s3 v2) by lia. done. }
  assert (Hn3 : reached s2 r v1 -> lo_allocated_pages s3 <= lo_allocated_pages s2 + 1).
  { intros H. destruct (decide (nt = 0)) as [E|]; [rewrite Z3 by done; lia|]. apply N3', Hs12; [lia|done]. }
  assert (Hall : reached s1 r v1 -> lo_allocated_pages s3 <= lo_allocated_pages s1 + 1).
  { intros H. rewrite <- (N2' H). by apply Hn3, Hs2. }
  split; [|split].
  - apply (HR1 s3 v1 Hin1). destruct (decide (0 < nb)) as [H|H]; [by apply Hs3, T2|]. apply Hs13; [lia|apply T3; lia].
  - destruct (decide (0 < nf)) as [H|H]; [pose proof (Hall (Hs1 H)); lia|]. rewrite <- (Z1 ltac:(lia)) in *.
    destruct (decide (0 < nb)) as [H'|H']; [pose proof (Hn3 (T2 H')); lia|]. rewrite <- (Z2 ltac:(lia)) in *. lia.
  - intros Hr. pose proof (Hall (Hs0 Hr)). pose proof (N1' Hr). lia.
Qed.

(** ** Two trees *)

(** A tree whose pages are not written stays as it is. *)
Lemma btree_frame own w w' r : btree own w r -> (forall m x, own m -> in_page m x -> w' x = w x) ->
  btree own w' r /\ (forall p, path_ok p -> tbl (tables w') r p = tbl (tables w) r p) /\
  (forall v, lvl2 w' r v = lvl2 w r v) /\ (forall v, leaf (tables w') r v = leaf (tables w) r v).
Proof.
  intros Hbt Hw. pose proof (bt_wf _ _ _ Hbt) as Hwf.
  assert (He : forall p t i, path_ok p -> 0 <= i < 512 -> tbl (tables w) r p = Some t -> entry w' t i = entry w t i).
  { intros p t i Hp Hi Ht. destruct (pw_own _ _ _ Hwf p t Hp Ht) as [_ Ho]. unfold entry. apply (Hw t); [done|].
    unfold in_page. lia. }
  assert (Htbl : forall p, path_ok p -> tbl (tables w') r p = tbl (tables w) r p).
  { induction p as [|i p IH] using rev_ind; [done|]. intros Hp. apply path_ok_snoc in Hp as (Hp & _ & Hi).
    rewrite !tbl_snoc, IH by done. destruct (tbl (tables w) r p) eqn:Et; [|done]. rewrite !tables_entry. by rewrite (He p). }
  split; [split; [split|]|split; [done|]].
  - intros p t Hp. rewrite Htbl by done. by apply (pw_own _ _ _ Hwf).
  - intros p q t Hp Hq. rewrite !Htbl by done. by apply (pw_inj _ _ _ Hwf).
  - intros p t i Hp. pose proof (proj1 (path_ok_snoc p i) Hp) as (Hp' & _ & Hi). rewrite Htbl by done. intros Ht.
    rewrite tables_entry, (He p) by done. by apply (pw_type _ _ _ Hwf p).
  - intros p t i Hp Hl Hi. rewrite Htbl by done. intros Ht. rewrite (He p) by done. by apply (bt_type _ _ _ Hbt p).
  - split; intros v; pose proof (idx_range v) as (H0 & H1 & H2 & H3).
    + unfold lvl2. assert (Hp : path_ok [idx0 v; idx1 v]) by (split; [cbn; lia|repeat constructor; lia]).
      rewrite Htbl by done. destruct (tbl (tables w) r [idx0 v; idx1 v]) eqn:Et; [|done]. by rewrite (He [idx0 v; idx1 v]).
    + unfold leaf. rewrite Htbl by apply idx_path. destruct (tbl (tables w) r (path3 v)) eqn:Et; [|done].
      rewrite !tables_entry. by rewrite (He (path3 v)) by (done || apply idx_path).
Qed.

Lemma boot_map_frame own s s' r F : boot_map own s r F ->
  (forall m x, own m -> in_page m x -> bwords s' x = bwords s x) -> boot_map own s' r F.
Proof.
  intros Hb Hw. destruct (btree_frame own (bwords s) (bwords s') r (bm_bt _ _ _ _ Hb) Hw) as (Hbt & _ & Hl2 & Hlf). split; [done| |].
  - intros v Hv. rewrite <- (bm_walk _ _ _ _ Hb v Hv), (walk_view own), (walk_view own (bwords s)) by (done || apply Hb).
    by rewrite Hl2, Hlf.
  - intros v e Hv. rewrite Hl2. by apply (bm_lvl2 _ _ _ _ Hb).
Qed.

(** An empty tree. *)
Lemma boot_map_empty s n : 0 <= n < NPAGES -> (forall x, in_page n x -> bwords s x = 0) ->
  boot_map (fun x => x = n) s n (fun _ => None).
Proof.
  intros Hn Hz. assert (He : forall i, 0 <= i < 512 -> entry (bwords s) n i = 0).
  { intros i Hi. apply Hz. unfold in_page. lia. }
  assert (Ht : forall p t, path_ok p -> tbl (tables (bwords s)) n p = Some t -> p = [] /\ t = n).
  { intros [|i p] t [Hl Hp]; cbn [tbl]; [by intros [= <-]|]. apply Forall_cons in Hp as [Hi _].
    rewrite tables_entry, He by done. done. }
  assert (Hbt : btree (fun x => x = n) (bwords s) n).
  { split; [split|].
    - intros p t Hp Et. by destruct (Ht p t Hp Et) as [_ ->].
    - intros p q t Hp Hq Ep Eq. destruct (Ht p t Hp Ep) as [-> _]. by destruct (Ht q t Hq Eq) as [-> _].
    - intros p t i Hp Et. pose proof (proj1 (path_ok_snoc p i) Hp) as (Hp' & _ & Hi).
      destruct (Ht p t Hp' Et) as [-> ->]. by rewrite tables_entry, He.
    - intros p t i Hp _ Hi Et. destruct (Ht p t Hp Et) as [-> ->]. by rewrite He. }
  assert (H2 : forall v, lvl2 (bwords s) n v = None).
  { intros v. unfold lvl2. destruct (tbl (tables (bwords s)) n [idx0 v; idx1 v]) eqn:Et; [|done]. apply Ht in Et as [? _]; [done|].
    pose proof (idx_range v). split; [cbn; lia|repeat constructor; lia]. }
  split; [done| |].
  - intros v Hv. rewrite (walk_view (fun x => x = n)) by done. by rewrite H2.
  - intros v e Hv. by rewrite H2.
Qed.
End extend.
