(* ===== verification/HighhalfThm.v ===== *)
(** * The boot mapping of the kernel: [map_high] *)
From S2P Require Import Prelude Buddy BuddyInv BuddyOps BuddyRef Mmap MmapInv MmapSpec Slab Highhalf HighhalfInv HighhalfOps HighhalfSpec.
From S2P Require Import MmapKernel.

(** The high half starts at [2 ^ 47] in the 48 bits that are translated. *)
Definition HALF : Z := 2 ^ 47.

(** Physical addresses of the parts of the image, rounded to pages. *)
Definition low_page (x : Z) : Z := (x - VIRT_BASE) / 4096 * 4096.
Definition high_page (x : Z) : Z := (x - VIRT_BASE + 4095) / 4096 * 4096.
Definition test_end (y : symbols) : Z := (test_phys_loc y + test_size y + 4095) / 4096 * 4096.

Definition region : Type := Z * Z * permissions.

(** The parts that [map_high] enters into the high half, the last part first: the
    image of the kernel without its [.data], the boot memory and the rest of RAM. *)
Definition image (y : symbols) : list region :=
  [(test_end y, 2 ^ 30, RW);
   (low_page (page_frame_array_start y), high_page (page_frame_array_end y), RW);
   (low_page (kstack_bottom_hi y), high_page (kstack_top_hi y), RW);
   (low_page (static_page_region_start y), low_page (static_page_region_start y) + 409600, RW);
   (low_page (bss_start y), high_page (bss_end y), RW);
   (low_page (rodata_start y), high_page (rodata_end y), RO);
   (low_page (text_start y), high_page (text_end y), RX);
   (0, low_page (kernel_high_start y), RW)].

(** The order of the parts in the linker script. *)
Record layout_ok (y : symbols) : Prop := {
  lo_khs : 0 < low_page (kernel_high_start y) <= low_page (text_start y);
  lo_text : low_page (text_start y) < high_page (text_end y) <= low_page (rodata_start y);
  lo_rodata : low_page (rodata_start y) < high_page (rodata_end y) <= low_page (bss_start y);
  lo_bss : low_page (bss_start y) < high_page (bss_end y) <= low_page (kstack_bottom_hi y);
  lo_kstack : low_page (kstack_bottom_hi y) < high_page (kstack_top_hi y) <= low_page (page_frame_array_start y);
  lo_pfa : low_page (page_frame_array_start y) < high_page (page_frame_array_end y) <= low_page (static_page_region_start y);
  lo_spr : static_page_region_start y mod 4096 = 0 /\ low_page (static_page_region_start y) + 409600 <= test_end y;
  lo_test : test_end y < 2 ^ 30 /\ 0 <= test_phys_loc y /\ 0 <= test_size y;
  lo_stub : 0 <= enable_mmu y < 2 ^ 30;
}.

Fixpoint region_map (l : list region) (v : Z) : option (Z * permissions) :=
  match l with
  | [] => None
  | (a, b, p) :: l => extend (region_map l) (HALF + a) a (b - a) p v
  end.

Lemma region_map_in l v x p : region_map l v = Some (x, p) -> exists a b, (a, b, p) ∈ l /\ a <= x < b /\ v = HALF + x.
Proof.
  induction l as [|[[a b] q] l IH]; cbn [region_map]; [done|]. unfold extend. case_decide as Hd.
  - intros [= <- <-]. exists a, b. split; [left|lia].
  - intros (a' & b' & Hin & H)%IH. exists a', b'. split; [by right|done].
Qed.

Lemma region_map_out l v : (forall a b p, (a, b, p) ∈ l -> ~ (a <= v - HALF < b)) -> region_map l v = None.
Proof.
  induction l as [|[[a b] q] l IH]; cbn [region_map]; [done|]. intros H. unfold extend. rewrite decide_False.
  - apply IH. intros a' b' p Hin. apply (H a' b' p). by right.
  - pose proof (H a b q ltac:(left)). lia.
Qed.

(** Two parts have no address in common. *)
Definition apart (r r' : region) : Prop := r.1.2 <= r'.1.1 \/ r'.1.2 <= r.1.1.

(** When the parts are apart, each is mapped as it says. *)
Lemma region_map_at l a b p x : ForallOrdPairs apart l ->
  (a, b, p) ∈ l -> a <= x < b -> region_map l (HALF + x) = Some (x, p).
Proof.
  intros Hap Hin Hx. induction Hap as [|[[c d] q] l Hhd Hap IH]; [by apply not_elem_of_nil in Hin|]. cbn [region_map].
  unfold extend. apply elem_of_cons in Hin as [[= -> -> ->]|Hin].
  - rewrite decide_True by lia. do 2 f_equal. lia.
  - rewrite Forall_forall in Hhd. pose proof (Hhd _ Hin) as Hq. unfold apart in Hq. cbn in Hq.
    rewrite decide_False by lia. by apply IH.
Qed.

Section boot.
Context (R : Z) (HR : 0 < R).

(** The two trees. *)
Definition boots (s : boot) (Fh Fl : Z -> option (Z * permissions)) : Prop :=
  exists oh ol, boot_map oh s R Fh /\ boot_map ol s (R + 1) Fl /\ pooled R oh s /\ pooled R ol s /\
    (forall x, oh x -> ol x -> False).

Lemma grows_words own s r own' s' m x : grows R own s r own' s' -> in_page m x -> ~ own' m -> bwords s' x = bwords s x.
Proof.
  intros G Hm Hn. apply (gr_frame _ _ _ _ _ _ G). intros m' Hm' Hx. apply Hn. unfold in_page in *.
  assert (m = m') as -> by lia. done.
Qed.

Lemma boots_first s Fl oh ol oh' s' Fh' :
  boot_map ol s (R + 1) Fl -> pooled R oh s -> pooled R ol s -> (forall x, oh x -> ol x -> False) ->
  grows R oh s R oh' s' -> boot_map oh' s' R Fh' -> boots s' Fh' Fl.
Proof.
  intros Bl Ph Pl Hd G Bh'. assert (Hd' : forall x, oh' x -> ol x -> False).
  { intros x Hx Hl. apply (gr_new _ _ _ _ _ _ G) in Hx as [Hx|Hx]; [by eapply Hd|]. apply Pl in Hl. lia. }
  exists oh', ol. split; [done|]. split; [|split; [eapply grows_pooled; [exact Ph|exact G]|split; [|done]]].
  - eapply boot_map_frame; [done|]. intros m x Hm Hx. eapply grows_words; [exact G|exact Hx|]. intros Ho. by apply (Hd' m).
  - destruct Pl as [Hn Hl]. pose proof (gr_n _ _ _ _ _ _ G). split; [lia|]. intros x Hx%Hl. lia.
Qed.

Lemma boots_second s Fh oh ol ol' s' Fl' :
  boot_map oh s R Fh -> pooled R oh s -> pooled R ol s -> (forall x, oh x -> ol x -> False) ->
  grows R ol s (R + 1) ol' s' -> boot_map ol' s' (R + 1) Fl' -> boots s' Fh Fl'.
Proof.
  intros Bh Ph Pl Hd G Bl'. assert (Hd' : forall x, oh x -> ol' x -> False).
  { intros x Hx Hl. apply (gr_new _ _ _ _ _ _ G) in Hl as [Hl|Hl]; [by eapply Hd|]. apply Ph in Hx. lia. }
  exists oh, ol'. split; [|split; [done|split; [|split; [eapply grows_pooled; [exact Pl|exact G]|done]]]].
  - eapply boot_map_frame; [done|]. intros m x Hm Hx. eapply grows_words; [exact G|exact Hx|]. intros Ho. by apply (Hd' m).
  - destruct Ph as [Hn Hh]. pose proof (gr_n _ _ _ _ _ _ G). split; [lia|]. intros x Hx%Hh. lia.
Qed.

Lemma half_gib a : 0 <= a < 2 ^ 30 -> idx0 (HALF + a) = idx0 HALF /\ idx1 (HALF + a) = idx1 HALF.
Proof.
  intros Ha. change (2 ^ 30) with 1073741824 in *.
  apply gib_path; unfold HALF; change (2 ^ 47) with 140737488355328; change (2 ^ 30) with 1073741824; [lia|lia|zdiv].
Qed.

(** No table of the first tree is unlinked. *)
Definition keeps_tables (s s' : boot) : Prop := forall p t, path_ok p -> tbl (tables (bwords s)) R p = Some t ->
  tbl (tables (bwords s')) R p = Some t.

(** One part of the image. *)
Lemma part_ok s l Fl a b p :
  boots s (region_map l) Fl -> 0 <= a < b -> b <= 2 ^ 30 -> a mod 4096 = 0 -> b mod 4096 = 0 ->
  R + lo_allocated_pages s + 10 < NPAGES -> (forall a' b' p', (a', b', p') ∈ l -> b <= a' \/ b' <= a) ->
  let s' := map_lo (R * 4096) (VIRT_BASE + a) a ((b - a) / 4096) (R * 4096) p s in
  boots s' (region_map ((a, b, p) :: l)) Fl /\ reached s' R HALF /\
  lo_allocated_pages s' <= lo_allocated_pages s + 4 /\
  (reached s R HALF -> lo_allocated_pages s' <= lo_allocated_pages s + 2) /\ keeps_tables s s'.
Proof.
  intros (oh & ol & Bh & Bl & Ph & Pl & Hd) Ha Hb Hal Hbl Hlt Hap.
  change (2 ^ 30) with 1073741824 in Hb. assert (Hlen : 4096 * ((b - a) / 4096) = b - a) by zdiv.
  assert (Hva : VIRT_BASE + a = 65535 * 2 ^ 48 + (HALF + a)) by (unfold VIRT_BASE, HALF; lia).
  destruct (map_lo_ok R HR oh s R (region_map l) 65535 (HALF + a) a ((b - a) / 4096) p) as (oh' & G & B & T & N & N');
    [done|done|done| | | | | | | | | | | |].
  all: unfold HALF in *; change (2 ^ 47) with 140737488355328 in *; change (2 ^ 48) with 281474976710656;
       change (2 ^ 18) with 262144; change (2 ^ 64) with 18446744073709551616; change (2 ^ 30) with 1073741824;
       change (2 ^ 21) with 2097152; rewrite ?Hlen.
  - lia.
  - zdiv.
  - zdiv.
  - lia.
  - zdiv.
  - lia.
  - lia.
  - lia.
  - lia.
  - zdiv.
  - intros v Hv. apply region_map_out. intros a' b' p' Hin. apply Hap in Hin. unfold HALF. change (2 ^ 47) with 140737488355328. lia.
  - rewrite <- Hva in *. cbn zeta. cbn zeta in G, B, T, N, N'. set (s' := map_lo _ _ _ _ _ _ s) in *. clearbody s'.
    change 140737488355328 with HALF in *.
    assert (Hr : forall s, reached s R (HALF + a) <-> reached s R HALF).
    { intros s0. unfold reached. destruct (half_gib a ltac:(lia)) as [-> ->]. done. }
    split; [|split; [by apply Hr|split; [done|split; [intros H; apply N'; by apply Hr|exact (gr_tbl _ _ _ _ _ _ G)]]]].
    rewrite Hlen in B. eapply boots_first; [exact Bl|exact Ph|exact Pl|exact Hd|exact G|exact B].
Qed.

(** The page that switches the MMU on, in the low half. *)
Lemma stub_ok s Fh a :
  boots s Fh (fun _ => None) -> 0 <= a < 2 ^ 30 -> a mod 4096 = 0 -> R + lo_allocated_pages s + 10 < NPAGES ->
  let s' := map_lo (R * 4096) a a 1 ((R + 1) * 4096) RX s in
  boots s' Fh (extend (fun _ => None) a a 4096 RX) /\ (reached s R HALF -> reached s' R HALF) /\
  lo_allocated_pages s' <= lo_allocated_pages s + 4.
Proof.
  intros (oh & ol & Bh & Bl & Ph & Pl & Hd) Ha Hal Hlt. change (2 ^ 30) with 1073741824 in Ha.
  destruct (map_lo_ok R HR ol s (R + 1) (fun _ => None) 0 a a 1 RX) as (ol' & G & B & T & N & _);
    [done|done|done| | | | | | | | | | | |].
  all: change (2 ^ 48) with 281474976710656; change (2 ^ 18) with 262144; change (2 ^ 64) with 18446744073709551616;
       change (2 ^ 30) with 1073741824; try lia; try done.
  - zdiv.
  - by rewrite Z.sub_diag.
  - change (0 * 281474976710656 + a) with a in *. cbn zeta in *. set (s' := map_lo _ _ _ _ _ _ s) in *. clearbody s'.
    assert (Hb' : boots s' Fh (extend (fun _ => None) a a 4096 RX))
      by (eapply boots_second; [exact Bh|exact Ph|exact Pl|exact Hd|exact G|exact B]).
    split; [done|]. split; [|done]. intros [t Et]. exists t. rewrite <- Et.
    assert (Hw : forall m x, oh m -> in_page m x -> bwords s' x = bwords s x).
    { intros m x Hm Hx. eapply grows_words; [exact G|exact Hx|]. intros Ho.
      apply (gr_new _ _ _ _ _ _ G) in Ho as [Ho|Ho]; [by apply (Hd m)|]. apply Ph in Hm. lia. }
    destruct (btree_frame oh (bwords s) (bwords s') R (bm_bt _ _ _ _ Bh) Hw) as (_ & Htbl & _).
    apply Htbl. pose proof (idx_range HALF). split; [cbn; lia|repeat constructor; lia].
Qed.
End boot.

(** ** Rounding *)

Lemma align_down_va x : 0 <= x -> ALIGN_DOWN x PAGE_SIZE = x / 4096 * 4096.
Proof.
  intros Hx. unfold ALIGN_DOWN, PAGE_SIZE. change (4096 - 1) with (Z.ones 12). rewrite <- Z.ldiff_land, Z.ldiff_ones_r by lia.
  by rewrite Z.shiftr_div_pow2, Z.shiftl_mul_pow2 by lia.
Qed.
Lemma align_up_va x : 0 <= x -> ALIGN_UP x PAGE_SIZE = (x + 4095) / 4096 * 4096.
Proof.
  intros Hx. unfold ALIGN_UP, PAGE_SIZE. change (4096 - 1) with (Z.ones 12). rewrite <- Z.ldiff_land, Z.ldiff_ones_r by lia.
  by rewrite Z.shiftr_div_pow2, Z.shiftl_mul_pow2 by lia.
Qed.

Lemma align_down_low x : VIRT_BASE <= x -> ALIGN_DOWN x PAGE_SIZE = VIRT_BASE + low_page x.
Proof. intros Hx. unfold low_page, VIRT_BASE in *. rewrite align_down_va by lia. zdiv. Qed.
Lemma align_up_high x : VIRT_BASE <= x -> ALIGN_UP x PAGE_SIZE = VIRT_BASE + high_page x.
Proof. intros Hx. unfold high_page, VIRT_BASE in *. rewrite align_up_va by lia. zdiv. Qed.

Lemma low_page_ge x : 0 <= low_page x -> VIRT_BASE <= x.
Proof. unfold low_page. intros. zdiv. Qed.
Lemma high_page_ge x : 0 < high_page x -> VIRT_BASE <= x.
Proof. unfold high_page. intros. zdiv. Qed.
Lemma low_page_mod x : low_page x mod 4096 = 0.
Proof. apply Z.mod_mul. lia. Qed.
Lemma high_page_mod x : high_page x mod 4096 = 0.
Proof. apply Z.mod_mul. lia. Qed.
Lemma test_end_mod y : test_end y mod 4096 = 0.
Proof. apply Z.mod_mul. lia. Qed.

(** The arguments with which a part calls [map_lo]. *)
Lemma part_args a b : 0 <= a <= b -> b <= 2 ^ 30 ->
  u64 (VIRT_BASE + a - VIRT_BASE) = a /\ u64 (VIRT_BASE + b - (VIRT_BASE + a)) = b - a.
Proof. intros Ha Hb. change (2 ^ 30) with 1073741824 in Hb. split; rewrite u64_small; lia. Qed.

(** A part is made of pages of the first GiB. *)
Definition part_wf (r : region) : Prop := 0 <= r.1.1 < r.1.2 /\ r.1.2 <= 2 ^ 30 /\ r.1.1 mod 4096 = 0 /\ r.1.2 mod 4096 = 0.

Lemma parts_tail r l : ForallOrdPairs apart (r :: l) /\ Forall part_wf (r :: l) -> ForallOrdPairs apart l /\ Forall part_wf l.
Proof. intros [H1 H2]. inversion_clear H1. inversion_clear H2. done. Qed.

Lemma part_next R s l Fl a b p : 0 < R ->
  boots R s (region_map l) Fl -> ForallOrdPairs apart ((a, b, p) :: l) /\ Forall part_wf ((a, b, p) :: l) ->
  R + lo_allocated_pages s + 10 < NPAGES ->
  let s' := map_lo (R * 4096) (VIRT_BASE + a) a ((b - a) / 4096) (R * 4096) p s in
  boots R s' (region_map ((a, b, p) :: l)) Fl /\ reached s' R HALF /\
  lo_allocated_pages s' <= lo_allocated_pages s + 4 /\
  (reached s R HALF -> lo_allocated_pages s' <= lo_allocated_pages s + 2) /\ keeps_tables R s s'.
Proof.
  intros HR Hb [H1 H2] Hlt. apply Forall_cons in H2 as [(Ha & Hb' & Hm & Hm') _]. cbn [fst snd] in *.
  apply part_ok; try done. intros a' b' p' Hin. inversion_clear H1 as [|? ? Hhd _]. rewrite Forall_forall in Hhd.
  pose proof (Hhd _ Hin) as Hq. unfold apart in Hq. cbn [fst snd] in Hq. lia.
Qed.

(** The parts are apart. *)
Lemma image_apart y : layout_ok y ->
  ForallOrdPairs apart (image y) /\ Forall part_wf (image y).
Proof.
  intros [H1 H2 H3 H4 H5 H6 [H7 H7'] [H8 _] _]. split.
  - unfold image. repeat apply FOP_cons; try apply FOP_nil; repeat apply Forall_cons_2; try apply Forall_nil_2;
      unfold apart; cbn [fst snd]; lia.
  - unfold image. repeat apply Forall_cons_2; try apply Forall_nil_2; unfold part_wf; cbn [fst snd];
      rewrite ?low_page_mod, ?high_page_mod, ?test_end_mod; (split; [lia|split; [lia|split; try done]]).
    rewrite Z.add_mod, low_page_mod by lia. done.
Qed.

(** Each part calls [map_lo] on its pages. *)
Lemma parts_eq R y : layout_ok y ->
  let go a b p := map_lo (R * 4096) (VIRT_BASE + a) a ((b - a) / 4096) (R * 4096) p in
  map_pre_code (R * 4096) y (R * 4096) = go 0 (low_page (kernel_high_start y)) RW /\
  map_code (R * 4096) y (R * 4096) = go (low_page (text_start y)) (high_page (text_end y)) RX /\
  map_rodata (R * 4096) y (R * 4096) = go (low_page (rodata_start y)) (high_page (rodata_end y)) RO /\
  map_bss (R * 4096) y (R * 4096) = go (low_page (bss_start y)) (high_page (bss_end y)) RW /\
  map_static_page_region (R * 4096) y (R * 4096) =
    go (low_page (static_page_region_start y)) (low_page (static_page_region_start y) + 409600) RW /\
  map_kernel_stack (R * 4096) y (R * 4096) = go (low_page (kstack_bottom_hi y)) (high_page (kstack_top_hi y)) RW /\
  map_page_frame_array (R * 4096) y (R * 4096) = go (low_page (page_frame_array_start y)) (high_page (page_frame_array_end y)) RW /\
  map_ram (R * 4096) y (R * 4096) = go (test_end y) (2 ^ 30) RW.
Proof.
  intros [H1 H2 H3 H4 H5 H6 [H7 H7'] (H8 & H9 & H10) _]. change (2 ^ 30) with 1073741824 in H8.
  assert (Hargs : forall a b, 0 <= a <= b -> b <= 1073741824 ->
    u64 (VIRT_BASE + a - VIRT_BASE) = a /\ u64 (VIRT_BASE + b - (VIRT_BASE + a)) = b - a) by (intros; apply part_args; done).
  assert (Hspr : static_page_region_start y = VIRT_BASE + low_page (static_page_region_start y)) by (unfold low_page, VIRT_BASE in *; zdiv).
  cbn zeta. unfold map_pre_code, map_code, map_rodata, map_bss, map_kernel_stack, map_page_frame_array.
  rewrite !align_down_low, !align_up_high by ((apply low_page_ge; lia) || (apply high_page_ge; lia)).
  rewrite (Z.shiftr_div_pow2 _ 12) by lia. change (2 ^ 12) with 4096. change PAGE_SIZE with 4096.
  split_and!.
  - replace (VIRT_BASE - VIRT_BASE) with (VIRT_BASE + 0 - VIRT_BASE) by lia. rewrite (proj1 (Hargs 0 0 ltac:(lia) ltac:(lia))).
    rewrite (proj1 (Hargs (low_page (kernel_high_start y)) (low_page (kernel_high_start y)) ltac:(lia) ltac:(lia))).
    by rewrite Z.add_0_r, Z.sub_0_r.
  - by destruct (Hargs (low_page (text_start y)) (high_page (text_end y)) ltac:(lia) ltac:(lia)) as [-> ->].
  - by destruct (Hargs (low_page (rodata_start y)) (high_page (rodata_end y)) ltac:(lia) ltac:(lia)) as [-> ->].
  - by destruct (Hargs (low_page (bss_start y)) (high_page (bss_end y)) ltac:(lia) ltac:(lia)) as [-> ->].
  - unfold map_static_page_region. set (p := low_page (static_page_region_start y)) in *. rewrite Hspr.
    rewrite (proj1 (Hargs p p ltac:(lia) ltac:(lia))). f_equal. unfold STATIC_PAGE_REGION_PAGES.
    replace (p + 409600 - p) with 409600 by lia. done.
  - by destruct (Hargs (low_page (kstack_bottom_hi y)) (high_page (kstack_top_hi y)) ltac:(lia) ltac:(lia)) as [-> ->].
  - by destruct (Hargs (low_page (page_frame_array_start y)) (high_page (page_frame_array_end y)) ltac:(lia) ltac:(lia)) as [-> ->].
  - unfold map_ram. assert (Hte : test_phys_loc y + test_size y <= 1073741824) by (unfold test_end in H8; zdiv).
    rewrite (u64_small (test_phys_loc y + test_size y)), align_up_va by lia. fold (test_end y).
    change (2 ^ 30) with 1073741824. rewrite !u64_small by (unfold VIRT_BASE; lia). done.
Qed.

(** Go past the call of [map_lo] of the part that [H] has at its head. *)
Ltac past_part HR B H :=
  let B' := fresh "B" in let T := fresh "T" in let N := fresh "N" in let N' := fresh "M" in let K := fresh "K" in
  lazymatch type of B with boots ?R ?s (region_map ?l) ?Fl =>
  lazymatch type of H with ForallOrdPairs apart ((?a, ?b, ?p) :: ?l) /\ _ =>
    destruct (part_next R s l Fl a b p HR B H ltac:(lia)) as (B' & T & N & N' & K);
    repeat match goal with T : reached ?s R HALF, M : reached ?s R HALF -> _ |- _ => specialize (M T) end;
    set (map_lo _ _ _ _ _ _ s) in *; clear B K; rename B' into B
  end end.

(** A block of the RAM part begins in the RAM part: the parts before it have no
    address in a 2 MiB area that is still free of tables and blocks. *)
Lemma ram_blocks y R s s' Fl x e : layout_ok y ->
  boots R s (region_map (tl (image y))) Fl -> boots R s' (region_map (image y)) Fl -> keeps_tables R s s' ->
  test_end y <= x < 2 ^ 30 -> lvl2 (bwords s') R (HALF + x) = Some e -> type e = 0 -> test_end y <= x / 2 ^ 21 * 2 ^ 21.
Proof.
  intros Hy (oh & ol & Bh & _) (oh' & ol' & Bh' & _) Hkeep Hx He Ht. change (2 ^ 30) with 1073741824 in *.
  pose proof (lo_test _ Hy) as (Hte & Hte0 & Hte1). change (2 ^ 30) with 1073741824 in Hte.
  assert (Hte2 : 0 <= test_end y) by (unfold test_end; zdiv).
  assert (Hv : 0 <= HALF + x < 2 ^ 48) by (unfold HALF; change (2 ^ 47) with 140737488355328; change (2 ^ 48) with 281474976710656; lia).
  destruct (image_apart y Hy) as [Hap Hwf].
  assert (Hout : region_map (tl (image y)) (HALF + x) = None).
  { apply region_map_out. intros a b p Hin. replace (HALF + x - HALF) with x by lia. unfold image in Hap, Hin. cbn [tl] in Hin.
    inversion_clear Hap as [|? ? Hhd _]. rewrite Forall_forall in Hhd. specialize (Hhd _ Hin). unfold apart in Hhd. cbn [fst snd] in Hhd.
    change (2 ^ 30) with 1073741824 in *. rewrite Forall_forall in Hwf. specialize (Hwf _ (list_elem_of_further _ _ _ Hin)).
    unfold part_wf in Hwf. cbn [fst snd] in Hwf. change (2 ^ 30) with 1073741824 in *. lia. }
  assert (Hnone : lvl2 (bwords s) R (HALF + x) = None).
  { destruct (lvl2 (bwords s) R (HALF + x)) as [e0|] eqn:E0; [|done]. exfalso.
    destruct (unmapped _ _ _ _ _ Bh Hv Hout) as [_ Hty]. specialize (Hty _ E0).
    assert (HT : exists t, tbl (tables (bwords s)) R (path3 (HALF + x)) = Some t /\ True).
    { unfold lvl2 in E0. change (path3 (HALF + x)) with ([idx0 (HALF + x); idx1 (HALF + x)] ++ [idx2 (HALF + x)]). rewrite tbl_snoc.
      destruct (tbl (tables (bwords s)) R [idx0 (HALF + x); idx1 (HALF + x)]) as [t|]; [|done]. rewrite tables_entry.
      destruct (Z.eqb_spec (valid (entry (bwords s) t (idx2 (HALF + x)))) 0) as [|Ev]; [done|]. injection E0 as E0. rewrite E0 in *.
      destruct (bit_cases e0) as [[?|Ev'] _]; [done|]. rewrite Ev', Hty. cbn. rewrite Ev'. eauto. }
    destruct HT as (t & HT & _). apply Hkeep in HT; [|apply idx_path].
    unfold lvl2 in He. change (path3 (HALF + x)) with ([idx0 (HALF + x); idx1 (HALF + x)] ++ [idx2 (HALF + x)]) in HT. rewrite tbl_snoc in HT.
    destruct (tbl (tables (bwords s')) R [idx0 (HALF + x); idx1 (HALF + x)]) as [u|]; [|done]. rewrite tables_entry in HT.
    destruct (valid (entry (bwords s') u (idx2 (HALF + x))) =? 0); [done|]. injection He as He. rewrite He, Ht in HT. change (0 =? 1) with false in HT. by rewrite andb_false_r in HT. }
  set (x0 := x / 2 ^ 21 * 2 ^ 21). change (2 ^ 21) with 2097152 in *. change (2 ^ 48) with 281474976710656 in *.
  assert (Hx0 : 0 <= x0 <= x /\ (HALF + x0) / 2097152 = (HALF + x) / 2097152).
  { unfold x0, HALF in *. change (2 ^ 47) with 140737488355328 in *. zdiv. }
  assert (Hv0 : 0 <= HALF + x0 < 2 ^ 48) by (unfold HALF in *; change (2 ^ 47) with 140737488355328 in *; change (2 ^ 48) with 281474976710656; lia).
  destruct (bm_lvl2 _ _ _ _ Bh' _ e Hv He) as [[Ht1 _]|(_ & _ & Hall)]; [lia|].
  destruct (Hall (HALF + x0)) as [[z q] Hz]; [change (2 ^ 21) with 2097152; tauto|].
  change (region_map (image y)) with (extend (region_map (tl (image y))) (HALF + test_end y) (test_end y) (2 ^ 30 - test_end y) RW) in Hz.
  unfold extend in Hz. case_decide as Hd; [lia|]. exfalso.
  pose proof (bm_walk _ _ _ _ Bh _ Hv0) as Hw. rewrite Hz in Hw.
  rewrite (walk_view oh) in Hw by apply Bh. rewrite (lvl2_path _ _ _ (HALF + x)), Hnone in Hw; [done|].
  apply path3_block; [done|done|]. change (2 ^ 21) with 2097152. tauto.
Qed.

(** What [map_high] leaves: the two trees, and RAM in blocks of its own. *)
Lemma map_high_built y R w :
  layout_ok y -> 0 < R -> R + 40 < NPAGES ->
  exists s, map_high (R * 4096) y (Boot w 0) = (R * 4096, (R + 1) * 4096, s) /\
    lo_allocated_pages s <= 24 /\
    boots R s (region_map (image y)) (extend (fun _ => None) (enable_mmu y / 4096 * 4096) (enable_mmu y / 4096 * 4096) 4096 RX) /\
    forall x e, test_end y <= x < 2 ^ 30 -> lvl2 (bwords s) R (HALF + x) = Some e -> type e = 0 -> test_end y <= x / 2 ^ 21 * 2 ^ 21.
Proof.
  intros Hy HR Hlt. destruct (image_apart y Hy) as [Hap Hrg].
  pose proof (parts_eq R y Hy) as (E1 & E2 & E3 & E4 & E5 & E6 & E7 & E8). cbn zeta in *.
  unfold map_high.
  destruct (alloc_page_table_lo_ok R HR (Boot w 0) ltac:(cbn; lia) ltac:(cbn; lia)) as (s1 & A1 & N1 & W1).
  cbn [lo_allocated_pages bwords] in *. rewrite Z.add_0_r in *. rewrite A1.
  destruct (alloc_page_table_lo_ok R HR s1 ltac:(lia) ltac:(lia)) as (s2 & A2 & N2 & W2). rewrite N1 in *. change (0 + 1) with 1 in *.
  rewrite A2.
  assert (B2 : boots R s2 (region_map []) (fun _ => None)).
  { exists (fun x => x = R), (fun x => x = R + 1). split; [|split; [|split; [|split]]].
    - apply boot_map_empty; [lia|]. intros x Hx. rewrite W2, decide_False, W1, decide_True by (done || (unfold in_page in *; lia)). done.
    - apply boot_map_empty; [lia|]. intros x Hx. by rewrite W2, decide_True.
    - split; [lia|]. intros x ->. lia.
    - split; [lia|]. intros x ->. lia.
    - intros x -> ?. lia. }
  assert (Hs : ForallOrdPairs apart (image y) /\ Forall part_wf (image y)) by done. unfold image in Hs.
  pose proof (parts_tail _ _ Hs) as Hs7. pose proof (parts_tail _ _ Hs7) as Hs6. pose proof (parts_tail _ _ Hs6) as Hs5.
  pose proof (parts_tail _ _ Hs5) as Hs4. pose proof (parts_tail _ _ Hs4) as Hs3. pose proof (parts_tail _ _ Hs3) as Hs2.
  pose proof (parts_tail _ _ Hs2) as Hs1.
  assert (Hstub : 0 <= enable_mmu y / 4096 * 4096 < 2 ^ 30) by (pose proof (lo_stub _ Hy); change (2 ^ 30) with 1073741824 in *; zdiv).
  rewrite E1. past_part HR B2 Hs1. rewrite E2. past_part HR B2 Hs2. rewrite E3. past_part HR B2 Hs3.
  rewrite E4. past_part HR B2 Hs4. rewrite E5. past_part HR B2 Hs5. rewrite E6. past_part HR B2 Hs6.
  unfold map_mmu_stub. rewrite align_down_va by (pose proof (lo_stub _ Hy); lia).
  match type of B2 with boots _ ?s _ _ =>
    destruct (stub_ok R HR s _ (enable_mmu y / 4096 * 4096) B2 Hstub ltac:(by apply Z.mod_mul) ltac:(lia)) as (B9 & T9 & N9) end.
  set (map_lo _ _ _ 1 _ _ _) in *. clear B2.
  match goal with T : reached _ R HALF, T9 : reached _ R HALF -> _ |- _ => specialize (T9 T) end.
  rewrite E7. past_part HR B9 Hs7. rewrite E8.
  match type of B9 with boots _ ?s _ ?Fl =>
    destruct (part_next R s (tl (image y)) Fl (test_end y) (2 ^ 30) RW HR B9 Hs ltac:(lia)) as (B10 & T10 & N10 & M10 & K10) end.
  match goal with T : reached ?s R HALF, M : reached ?s R HALF -> _ |- _ => specialize (M T) end.
  set (map_lo _ _ _ _ _ RW b6) in *.
  eexists. split; [done|]. split; [lia|]. split; [exact B10|]. intros x e. by eapply ram_blocks.
Qed.


(** ** The tables of the running kernel *)

(** The tables that a path of two indices leads through. *)
Lemma tables_path own w r v t2 : btree own w r -> tbl (tables w) r [idx0 v; idx1 v] = Some t2 ->
  exists t1, (own r /\ 0 <= r < NPAGES) /\ (own t1 /\ 0 <= t1 < NPAGES) /\ (own t2 /\ 0 <= t2 < NPAGES) /\
    (valid (entry w r (idx0 v)) <> 0 /\ address (entry w r (idx0 v)) = t1) /\
    (valid (entry w t1 (idx1 v)) <> 0 /\ address (entry w t1 (idx1 v)) = t2).
Proof.
  intros Hbt Ht. pose proof (bt_wf _ _ _ Hbt) as Hwf.
  assert (HE : forall t i, valid (entry (tables w) t i) <> 0 -> entry (tables w) t i = entry w t i).
  { intros t i. rewrite tables_entry. by case_match. }
  pose proof Ht as Ht2. change [idx0 v; idx1 v] with ([idx0 v] ++ [idx1 v]) in Ht2. rewrite tbl_snoc in Ht2.
  destruct (tbl (tables w) r [idx0 v]) as [t1|] eqn:E1; [|done].
  destruct (Z.eqb_spec (valid (entry (tables w) t1 (idx1 v))) 0) as [|V1]; [done|]. rewrite (HE t1 _ V1) in *. injection Ht2 as A1.
  pose proof E1 as E1'. cbn [tbl] in E1. destruct (Z.eqb_spec (valid (entry (tables w) r (idx0 v))) 0) as [|V0]; [done|].
  rewrite (HE r _ V0) in *. injection E1 as A0. exists t1.
  destruct (pw_own _ _ _ Hwf [] r) as [R0 O0]; [split; [cbn; lia|constructor]|done|].
  destruct (pw_own _ _ _ Hwf _ t1 (path_ok1 v) E1') as [R1 O1].
  destruct (pw_own _ _ _ Hwf _ t2 (path_ok2 v) Ht) as [R2 O2].
  pose proof (HE t1 _ V1) as W1. rewrite W1 in V1. pose proof (HE r _ V0) as W0. rewrite W0 in V0. split_and!; done || lia.
Qed.

(** The high-half tables lead to every page behind the test area: [kernel_walk]
    holds of the tables of the boot mapping. *)
Lemma boot_kernel_walk y R w s : layout_ok y -> 0 < R -> R + 40 < NPAGES ->
  map_high (R * 4096) y (Boot w 0) = (R * 4096, (R + 1) * 4096, s) ->
  kernel_walk (test_end y / 4096) R (fun q => R <= q < R + 24) (bwords s).
Proof.
  intros Hy HR Hlt E. destruct (map_high_built y R w Hy HR Hlt) as (s' & E' & Hn & (oh & ol & Bh & _ & [_ Hpool] & _) & Hblk).
  rewrite E in E'. injection E' as <-. intros n Hn1 Hn0. cbn zeta.
  pose proof (test_end_mod y) as Hmod. consts.
  assert (Hx : test_end y <= n * 4096 < 2 ^ 30) by (change (2 ^ 30) with 1073741824; zdiv).
  assert (Hva : page_va n = 65535 * 2 ^ 48 + (HALF + n * 4096)) by (rewrite page_va_eq by (consts; lia); unfold VIRT_BASE, HALF; lia).
  rewrite Hva. destruct (idx_hi 65535 (HALF + n * 4096)) as (-> & -> & -> & ->). set (v := HALF + n * 4096) in *.
  assert (Hv : 0 <= v < 2 ^ 48) by (unfold v, HALF; change (2 ^ 47) with 140737488355328; change (2 ^ 48) with 281474976710656; lia).
  assert (Hin : region_map (image y) v = Some (n * 4096, RW)).
  { apply (region_map_at (image y) (test_end y) (2 ^ 30)); [by apply image_apart|by left|done]. }
  pose proof (bm_walk _ _ _ _ Bh v Hv) as Hw. rewrite Hin in Hw. cbn in Hw. pose proof (bm_bt _ _ _ _ Bh) as Hbt.
  rewrite (walk_view oh) in Hw by done. destruct (lvl2 (bwords s) R v) as [e2|] eqn:E2; [|done].
  assert (Hkern : forall x, oh x -> R <= x < R + 24) by (intros x Hx'%Hpool; lia).
  pose proof E2 as E2'. unfold lvl2 in E2. destruct (tbl (tables (bwords s)) R [idx0 v; idx1 v]) as [t2|] eqn:T2; [|done].
  destruct (Z.eqb_spec (valid (entry (bwords s) t2 (idx2 v))) 0) as [|V2]; [done|]. injection E2 as E2.
  destruct (tables_path oh (bwords s) R v t2 Hbt T2) as (t1 & [O0 R0] & [O1 R1] & [O2 R2] & P0 & P1).
  pose proof (Hkern _ O0). pose proof (Hkern _ O1). pose proof (Hkern _ O2).
  exists t1, t2, (address e2). rewrite E2 in *. consts. destruct (Z.eqb_spec (type e2) 0) as [Ty|Ty].
  - destruct (bm_lvl2 _ _ _ _ Bh v e2 Hv E2') as [[? _]|(_ & Hal & _)]; [lia|].
    specialize (Hblk (n * 4096) e2 Hx E2' Ty). injection Hw as Hw _ _.
    assert (Ha : address e2 = n / 512 * 512).
    { unfold v, HALF in Hw. change (2 ^ 47) with 140737488355328 in Hw. change (2 ^ 21) with 2097152 in Hw. zdiv. }
    change (2 ^ 21) with 2097152 in Hblk. assert (0 <= address e2 < 262144) by zdiv. split_and!; try done; try lia; try tauto. right. split; [done|]. split; [done|]. zdiv.
  - destruct (leaf (tables (bwords s)) R v) as [e3|] eqn:E3; [|done]. unfold leaf in E3.
    destruct (tbl (tables (bwords s)) R (path3 v)) as [t3|] eqn:T3; [|done].
    destruct (pw_own _ _ _ (bt_wf _ _ _ Hbt) _ t3 (idx_path v) T3) as [R3 O3]. consts.
    assert (Ht3 : t3 = address e2).
    { change (path3 v) with ([idx0 v; idx1 v] ++ [idx2 v]) in T3. rewrite tbl_snoc, T2, tables_entry, E2 in T3.
      destruct (bit_cases e2) as [[?|Ev] [?|Et]]; [done|done|lia|]. rewrite Ev, Et in T3. cbn in T3. rewrite Ev in T3. by injection T3. }
    pose proof (Hkern _ O3). rewrite <- Ht3. split_and!; try done; try lia; try tauto. left. split; [lia|]. intros V3. rewrite tables_valid in E3 by done. done.
Qed.

(** A layout; its [.data] takes the pages 0xA0000 and 0xA1000, and [.bss] begins
    in the second of them. *)
Definition layout0 : symbols := {|
  kernel_high_start := VIRT_BASE + 0x80000; text_start := VIRT_BASE + 0x90000; text_end := VIRT_BASE + 0x9A120;
  rodata_start := VIRT_BASE + 0x9B000; rodata_end := VIRT_BASE + 0x9F800; bss_start := VIRT_BASE + 0xA1800;
  bss_end := VIRT_BASE + 0xA4010; static_page_region_start := VIRT_BASE + 0x8A7000;
  kstack_bottom_hi := VIRT_BASE + 0xA5000; kstack_top_hi := VIRT_BASE + 0xA7000;
  page_frame_array_start := VIRT_BASE + 0xA7000; page_frame_array_end := VIRT_BASE + 0x8A7000;
  test_phys_loc := 0x90B000; test_size := 0x3100; enable_mmu := 0x81234 |}.

Lemma layout0_ok : layout_ok layout0.
Proof. split; vm_compute; repeat split; discriminate. Qed.

Lemma layout0_data a b p : (a, b, p) ∈ image layout0 -> ~ (a <= HALF + 0xA0000 - HALF < b).
Proof.
  intros Hin H. assert (Hb : forallb (fun r : region => negb ((r.1.1 <=? HALF + 0xA0000 - HALF) && (HALF + 0xA0000 - HALF <? r.1.2))) (image layout0) = true)
    by (vm_compute; reflexivity).
  rewrite forallb_forall in Hb. specialize (Hb (a, b, p)). rewrite <- list_elem_of_In in Hb. specialize (Hb Hin).
  cbn [fst snd] in Hb. by rewrite (proj2 (Z.leb_le _ _)), (proj2 (Z.ltb_lt _ _)) in Hb by apply H.
Qed.

