(* ===== verification/Pipe.v ===== *)
(** * Pipes and the keyboard ([filedescriptors/filedescriptors.c], [drivers/kbd.c])

    A pipe is a ring buffer with two free-running counters and a queue of
    blocked readers; the keyboard interrupt is its writer.  A reader that finds
    the buffer empty blocks inside [pipe_read]: the outcome [Blocked] is the
    state at its call of [deschedule], and the loop is entered again when the
    reader is woken. *)
From S2P Require Import Prelude KList Buddy.

(** The heads of the two wait queues and the entries, which live on the stacks
    of the waiting processes. *)
Inductive wnode := W_rd | W_wr | W_entry (proc : Z).

#[export] Instance wnode_eq_dec : EqDecision wnode.
Proof. solve_decision. Defined.
#[export] Instance wnode_countable : Countable wnode.
Proof.
  refine (inj_countable'
    (fun n => match n with W_rd => inl true | W_wr => inl false | W_entry p => inr p end)
    (fun s => match s with inl true => W_rd | inl false => W_wr | inr p => W_entry p end) _).
  by intros [].
Defined.

(** [pipe_data_t]; the mutex is never used. *)
Record pipe_data_t := PipeData {
  wnodes : gmap wnode (list_head_t wnode);
  head : Z;
  tail : Z;
  ring_size : Z;
  readers : Z;
  writers : Z;
  buf : list Z;
}.

Definition set_wnodes x p := PipeData x (head p) (tail p) (ring_size p) (readers p) (writers p) (buf p).
Definition set_head x p := PipeData (wnodes p) x (tail p) (ring_size p) (readers p) (writers p) (buf p).
Definition set_tail x p := PipeData (wnodes p) (head p) x (ring_size p) (readers p) (writers p) (buf p).
Definition set_buf x p := PipeData (wnodes p) (head p) (tail p) (ring_size p) (readers p) (writers p) x.

(** The read of a slot and the copy of a run of slots: an index outside the
    buffer is an error. *)
Definition copy_out (p : pipe_data_t) (i n : Z) : res (list Z) :=
  if Z.of_nat (length (buf p)) <? i + n then UB else Ok (take (Z.to_nat n) (drop (Z.to_nat i) (buf p))).

Inductive read_outcome :=
| Blocked
| Read (bytes : list Z) (to_read : Z).

Definition umod (a b : Z) : res Z := if b =? 0 then UB else Ok (a mod b).

(** [pipe_read(file, buf, count)] from the loop's head, in process [cur]. *)
Definition pipe_read (cur count : Z) (p : pipe_data_t) : res (read_outcome * pipe_data_t) :=
  if head p =? tail p then
    if list_empty W_rd (wnodes p) then
      h ← list_add (W_entry cur) W_rd (INIT_LIST_HEAD (W_entry cur) (wnodes p));
      Ok (Blocked, set_wnodes h p)
    else Ok (Blocked, p)
  else
    let avail := u32 (head p - tail p) in
    let to_read := Z.min avail (u32 count) in
    let tail_idx := u32 (Z.land (tail p) (ring_size p - 1)) in
    let first_chunk := Z.min to_read (u32 (ring_size p - tail_idx)) in
    i ← umod (tail p) (ring_size p);
    a ← copy_out p i first_chunk;
    let second_chunk := u32 (to_read - first_chunk) in
    b ← (if 0 <? second_chunk then copy_out p 0 second_chunk else Ok []);
    Ok (Read (a ++ b) to_read, set_tail (u64 (tail p + to_read)) p).

(** [pipe_write]: the amount is computed and nothing is written. *)
Definition pipe_write (count : Z) (p : option pipe_data_t) : Z * option pipe_data_t :=
  match p with
  | None => (0, None)
  | Some p => let bytes_to_write := Z.min count (ring_size p) in (0, Some p)
  end.

(** [pipe_open], with the addresses that its two calls of [kmalloc] return and
    the free of the first; the wait queues are left as memory had them. *)
Definition pipe_open (data_addr buf_addr : Z) (junk : pipe_data_t) : bool * option pipe_data_t * list Z :=
  if data_addr =? 0 then (false, None, [])
  else if buf_addr =? 0 then (false, None, [data_addr])
  else (true, Some (PipeData (wnodes junk) buf_addr buf_addr 4096 (readers junk) (writers junk) (buf junk)), []).

(** [keyboard_init] with the address that [kmalloc(PAGE_SIZE)] returned: the
    pipe and the new [kbd_flag]. *)
Definition keyboard_init (buf_addr : Z) (mem : list Z) (p : pipe_data_t) : pipe_data_t * Z :=
  (PipeData (INIT_LIST_HEAD W_wr (INIT_LIST_HEAD W_rd (wnodes p))) buf_addr buf_addr PAGE_SIZE (readers p) (writers p) mem, 1).

Section Wake.
Context {S : Type} (uart_putc reschedule : Z -> S -> res S).

(** [wake_listeners]: every waiter is made ready and taken off the queue. *)
Fixpoint wake_listeners (fuel : nat) (h : gmap wnode (list_head_t wnode)) (s : S) : res (gmap wnode (list_head_t wnode) * S) :=
  match fuel with
  | O => Fuel
  | Datatypes.S fuel =>
      if negb (list_empty W_rd h) then
        n ← deref (lnext (node_at h W_rd));
        match n with
        | W_entry proc =>
            s ← reschedule proc s;
            h ← list_remove n h;
            wake_listeners fuel h s
        | _ => UB
        end
      else Ok (h, s)
  end.

(** [handle_keyboard_event(c)], with the echo [uart_putc]. *)
Definition handle_keyboard_event (fuel : nat) (c : Z) (p : pipe_data_t) (s : S) : res (pipe_data_t * S) :=
  if ring_size p <=? u64 (head p - tail p) then Ok (p, s)
  else
    loc ← umod (head p) (ring_size p);
    let loc := u32 loc in
    if Z.of_nat (length (buf p)) <=? loc then UB
    else
      let p := set_buf (<[Z.to_nat loc := u8 c]> (buf p)) p in
      let p := set_head (u64 (head p + 1)) p in
      s ← uart_putc c s;
      '(h, s) ← wake_listeners fuel (wnodes p) s;
      Ok (set_wnodes h p, s).
End Wake.

(** ** The ring buffer is a bounded queue *)

(** The bytes in the pipe, oldest first. *)
Definition slot (p : pipe_data_t) (pos : Z) : Z := nth (Z.to_nat (pos mod ring_size p)) (buf p) 0.
Definition filled (p : pipe_data_t) : Z := u64 (head p - tail p).
Definition contents (p : pipe_data_t) : list Z :=
  (fun i => slot p (tail p + i)) <$> seqZ 0 (filled p).

(** The size is a power of two, and the counters are any two 64-bit numbers at
    most the size apart: they start at an address and may wrap. *)
Record pipe_inv (n : Z) (p : pipe_data_t) : Prop := {
  pi_n : 0 <= n < 32;
  pi_size : ring_size p = 2 ^ n;
  pi_len : Z.of_nat (length (buf p)) = 2 ^ n;
  pi_tail : 0 <= tail p < 2 ^ 64;
  pi_head : 0 <= head p < 2 ^ 64;
  pi_count : filled p <= 2 ^ n;
}.

(** The waiting readers, first to be woken first. *)
Definition waiters (p : pipe_data_t) (ws : list Z) : Prop := ring (wnodes p) W_rd (W_entry <$> ws).

Lemma filled_range p : 0 <= filled p < 2 ^ 64.
Proof. apply Z.mod_pos_bound. lia. Qed.

Lemma length_contents p : Z.of_nat (length (contents p)) = filled p.
Proof. unfold contents. rewrite length_fmap, length_seqZ. pose proof (filled_range p). lia. Qed.

Lemma filled_zero n p : pipe_inv n p -> filled p = 0 <-> head p = tail p.
Proof.
  intros []. unfold filled, u64, wrap in *. change (2 ^ 64) with 18446744073709551616 in *. split; [|intros ->; by rewrite Z.sub_diag]. zdiv.
Qed.

(** Positions that agree modulo 2^64 are the same slot. *)
Lemma mod_u64 n x : 0 <= n < 32 -> u64 x mod 2 ^ n = x mod 2 ^ n.
Proof.
  intros Hn. unfold u64, wrap. replace 64 with (n + (64 - n)) by lia. rewrite Z.pow_add_r by lia.
  pose proof (pow2_pos n ltac:(lia)). pose proof (pow2_pos (64 - n) ltac:(lia)). rewrite Z.rem_mul_r by lia.
  rewrite Z.mul_comm, Z.mod_add by lia. apply Z.mod_mod. lia.
Qed.

Lemma head_slot n p : pipe_inv n p -> head p mod ring_size p = (tail p + filled p) mod ring_size p.
Proof.
  intros []. rewrite pi_size0. unfold filled. rewrite <- Z.add_mod_idemp_r, mod_u64, Z.add_mod_idemp_r by lia.
  f_equal. lia.
Qed.

Lemma wake_all {S} (reschedule : Z -> S -> res S) ws h s s' fuel :
  ring h W_rd (W_entry <$> ws) -> (length ws < fuel)%nat ->
  foldl (fun r w => s ← r; reschedule w s) (Ok s) ws = Ok s' ->
  exists h', wake_listeners reschedule fuel h s = Ok (h', s') /\ ring h' W_rd [].
Proof.
  revert h s fuel. induction ws as [|w ws IH]; intros h s fuel Hr Hf Hs; (destruct fuel as [|fuel]; [cbn in Hf; lia|]); cbn [wake_listeners].
  - rewrite (list_empty_ring _ _ _ Hr). rewrite bool_decide_true by done. cbn in *. simplify_eq. eauto.
  - rewrite (list_empty_ring _ _ _ Hr). rewrite bool_decide_false by done. cbn [negb].
    rewrite (ring_next _ _ _ Hr). cbn [fmap list_fmap from_option id deref mbind res_bind list.head].
    destruct (list_remove_ring h W_rd [] _ _ Hr) as (h' & E & Hr' & _).
    cbn [foldl mbind res_bind] in Hs.
    destruct (reschedule w s) as [s1| | |] eqn:E1; cbn [mbind res_bind];
      try (exfalso; clear -Hs; induction ws; cbn in Hs; [done|auto]).
    rewrite E. cbn [mbind res_bind]. apply (IH h' s1); [done|cbn in Hf; lia|done].
Qed.

Lemma slot_set p pos c h :
  0 < ring_size p -> Z.of_nat (length (buf p)) = ring_size p ->
  slot (set_head h (set_buf (<[Z.to_nat (pos mod ring_size p) := c]> (buf p)) p)) pos = c.
Proof.
  intros Hp Hl. unfold slot. cbn. pose proof (Z.mod_pos_bound pos (ring_size p) Hp).
  apply nth_lookup_Some. apply list_lookup_insert_eq. lia.
Qed.

Lemma slot_set_ne p pos q c h :
  0 < ring_size p -> pos < q < pos + ring_size p \/ q < pos < q + ring_size p ->
  slot (set_head h (set_buf (<[Z.to_nat (pos mod ring_size p) := c]> (buf p)) p)) q = slot p q.
Proof.
  intros Hp Hq. unfold slot. cbn. rewrite !nth_lookup. f_equal. apply list_lookup_insert_ne.
  intros E. apply Z2Nat.inj in E; [|apply Z.mod_pos_bound; lia..].
  pose proof (Z.div_mod pos (ring_size p)). pose proof (Z.div_mod q (ring_size p)).
  destruct (Z.lt_trichotomy (pos / ring_size p) (q / ring_size p)) as [|[|]]; nia.
Qed.

(** A run of positions that does not wrap is a run of the buffer. *)
Lemma slots_run p pos n :
  0 < ring_size p -> Z.of_nat (length (buf p)) = ring_size p -> 0 <= n ->
  pos mod ring_size p + n <= ring_size p ->
  (fun i => slot p (pos + i)) <$> seqZ 0 n = take (Z.to_nat n) (drop (Z.to_nat (pos mod ring_size p)) (buf p)).
Proof.
  intros Hs Hl Hn Hw. pose proof (Z.mod_pos_bound pos _ Hs). apply list_eq. intros i.
  destruct (decide (i < Z.to_nat n)%nat) as [Hi|Hi].
  - rewrite list_lookup_fmap, lookup_seqZ_lt by lia. rewrite lookup_take, decide_True, lookup_drop by lia.
    cbn [fmap option_fmap option_map]. unfold slot.
    replace ((pos + (0 + Z.of_nat i)) mod ring_size p) with (pos mod ring_size p + Z.of_nat i).
    + rewrite Z2Nat.inj_add, Nat2Z.id by lia.
      destruct (lookup_lt_is_Some_2 (buf p) (Z.to_nat (pos mod ring_size p) + i)%nat) as [x E]; [lia|].
      rewrite E. f_equal. by apply nth_lookup_Some.
    + rewrite Z.add_0_l, <- Z.add_mod_idemp_l by lia. symmetry. apply Z.mod_small. lia.
  - rewrite (proj2 (lookup_ge_None _ _)) by (rewrite length_fmap, length_seqZ; lia).
    rewrite (proj2 (lookup_ge_None _ _)); [done|]. rewrite length_take. lia.
Qed.

Lemma seqZ_split m n : 0 <= m <= n -> seqZ 0 n = seqZ 0 m ++ ((fun i => m + i) <$> seqZ 0 (n - m)).
Proof.
  intros. replace n with (m + (n - m)) at 1 by lia. rewrite seqZ_app by lia. f_equal.
  transitivity (Z.add m <$> seqZ 0 (n - m)); [rewrite fmap_add_seqZ; f_equal; lia|done].
Qed.

(** What a read takes out. *)
Lemma read_chunks n p k :
  pipe_inv n p -> 0 <= k <= filled p ->
  let i := tail p mod ring_size p in
  let first := Z.min k (ring_size p - i) in
  exists a b, copy_out p i first = Ok a /\
    (if 0 <? k - first then copy_out p 0 (k - first) else Ok []) = Ok b /\
    a ++ b = take (Z.to_nat k) (contents p).
Proof.
  intros [] Hk i first. assert (Hs : 0 < ring_size p) by (rewrite pi_size0; apply pow2_pos; lia).
  pose proof (Z.mod_pos_bound (tail p) _ Hs) as Hi. fold i in Hi.
  assert (Hc : take (Z.to_nat k) (contents p) = (fun j => slot p (tail p + j)) <$> seqZ 0 k).
  { unfold contents. rewrite <- fmap_take. f_equal. rewrite (seqZ_split k) by lia.
    rewrite take_app_le by (rewrite length_seqZ; lia). apply take_ge. rewrite length_seqZ. lia. }
  exists (take (Z.to_nat first) (drop (Z.to_nat i) (buf p))), (take (Z.to_nat (k - first)) (buf p)).
  unfold copy_out. rewrite (proj2 (Z.ltb_ge _ _)) by lia. split; [done|].
  assert (Hab : take (Z.to_nat first) (drop (Z.to_nat i) (buf p)) ++ take (Z.to_nat (k - first)) (buf p) = take (Z.to_nat k) (contents p)).
  { rewrite Hc, (seqZ_split first k) by lia. rewrite fmap_app. f_equal.
    - rewrite slots_run by lia. done.
    - rewrite <- list_fmap_compose.
      destruct (Z.eq_dec (k - first) 0) as [->|Hne]; [done|].
      assert (Hm : (tail p + first) mod ring_size p = 0).
      { replace first with (ring_size p - i) by lia. subst i.
        pose proof (Z.div_mod (tail p) (ring_size p)).
        replace (tail p + (ring_size p - tail p mod ring_size p)) with (ring_size p * (tail p / ring_size p + 1)) by lia.
        rewrite Z.mul_comm. apply Z.mod_mul. lia. }
      transitivity ((fun j => slot p (tail p + first + j)) <$> seqZ 0 (k - first)).
      + rewrite slots_run by (try rewrite Hm; lia). by rewrite Hm.
      + apply list_fmap_ext. intros j x _. cbn. f_equal. lia. }
  split; [|done]. destruct (Z.ltb_spec 0 (k - first)) as [Hlt|Hle].
  - rewrite (proj2 (Z.ltb_ge _ _)) by lia. cbn. done.
  - replace (k - first) with 0 by lia. done.
Qed.

Lemma slot_u64 n p x i : pipe_inv n p -> slot p (u64 x + i) = slot p (x + i).
Proof.
  intros []. unfold slot. rewrite pi_size0. by rewrite <- Z.add_mod_idemp_l, mod_u64, Z.add_mod_idemp_l by (pose proof (pow2_pos n ltac:(lia)); lia).
Qed.

Lemma filled_advance p k : 0 <= k <= filled p -> u64 (head p - u64 (tail p + k)) = filled p - k.
Proof. unfold filled, u64, wrap. change (2 ^ 64) with 18446744073709551616. intros. zdiv. Qed.

Lemma contents_advance n p k : pipe_inv n p ->
  0 <= k <= filled p -> contents (set_tail (u64 (tail p + k)) p) = drop (Z.to_nat k) (contents p).
Proof.
  intros Hi Hk. unfold contents. unfold filled at 1. cbn [head tail set_tail]. rewrite filled_advance by done. rewrite <- fmap_drop.
  rewrite (seqZ_split k (filled p)) by lia.
  rewrite drop_app_ge by (rewrite length_seqZ; lia). rewrite length_seqZ, Nat.sub_diag, drop_0.
  rewrite <- list_fmap_compose.
  apply list_fmap_ext. intros i x _. transitivity (slot p (u64 (tail p + k) + x)); [done|].
  rewrite (slot_u64 n) by done. cbn. by rewrite Z.add_assoc.
Qed.

Lemma tail_idx n p : pipe_inv n p -> u32 (Z.land (tail p) (ring_size p - 1)) = tail p mod ring_size p.
Proof.
  intros []. rewrite pi_size0.
  replace (2 ^ n - 1) with (Z.ones n) by (rewrite Z.ones_equiv; lia).
  rewrite Z.land_ones by lia. apply u32_small.
  pose proof (Z.mod_pos_bound (tail p) (2 ^ n) ltac:(apply pow2_pos; lia)).
  pose proof (pow2_lt n 32 ltac:(lia)). change (2 ^ 32) with 4294967296 in *. lia.
Qed.

(** The low word of the difference is all of it. *)
Lemma avail_ok n p : pipe_inv n p -> u32 (head p - tail p) = filled p.
Proof.
  intros []. pose proof (pow2_lt n 32 ltac:(lia)). pose proof (filled_range p). unfold filled, u32, u64, wrap in *.
  change (2 ^ 32) with 4294967296 in *. change (2 ^ 64) with 18446744073709551616 in *. zdiv.
Qed.

Lemma pipe_read_ok n p cur count :
  pipe_inv n p -> contents p <> [] -> 0 <= count < 2 ^ 32 ->
  let k := Z.min (Z.of_nat (length (contents p))) count in
  exists p', pipe_read cur count p = Ok (Read (take (Z.to_nat k) (contents p)) k, p') /\ pipe_inv n p' /\
    contents p' = drop (Z.to_nat k) (contents p) /\ wnodes p' = wnodes p.
Proof.
  intros Hi Hne Hc k. pose proof Hi as []. pose proof (length_contents p) as Hl. pose proof (filled_range p).
  assert (Hpos : filled p <> 0) by (intros E; apply Hne; apply nil_length_inv; lia).
  pose proof (pow2_lt n 32 ltac:(lia)) as Hp. change (2 ^ 32) with 4294967296 in *.
  assert (Hs : 0 < ring_size p) by (rewrite pi_size0; apply pow2_pos; lia).
  pose proof (Z.mod_pos_bound (tail p) _ Hs) as Hm.
  unfold pipe_read. rewrite (proj2 (Z.eqb_neq _ _)) by (intros E; by apply Hpos, (filled_zero n)).
  rewrite (tail_idx n), (avail_ok n) by done. rewrite (u32_small count), (u32_small (ring_size p - _)) by lia.
  replace (Z.min (filled p) count) with k by lia.
  unfold umod. rewrite (proj2 (Z.eqb_neq _ _)) by lia. cbn [mbind res_bind].
  rewrite (u32_small (k - _)) by lia.
  destruct (read_chunks n p k Hi ltac:(lia)) as (a & b & Ea & Eb & Eab). rewrite Ea. cbn [mbind res_bind].
  rewrite Eb. cbn [mbind res_bind]. rewrite Eab.
  eexists. split; [done|]. split; [|split; [apply (contents_advance n); [done|lia]|done]].
  split; cbn [head tail ring_size buf set_tail]; try done; [apply Z.mod_pos_bound; lia|].
  unfold filled. cbn [head tail set_tail]. rewrite filled_advance by lia. lia.
Qed.

Lemma keyboard_ok {S} (uart_putc reschedule : Z -> S -> res S) n p c s s' ws fuel :
  pipe_inv n p -> 0 <= c < 256 -> waiters p ws -> (length ws < fuel)%nat ->
  Z.of_nat (length (contents p)) < ring_size p ->
  foldl (fun r w => s ← r; reschedule w s) (uart_putc c s) ws = Ok s' ->
  exists p', handle_keyboard_event uart_putc reschedule fuel c p s = Ok (p', s') /\ pipe_inv n p' /\
    contents p' = contents p ++ [c] /\ waiters p' [].
Proof.
  intros Hi Hc Hw Hf Hroom Hs. pose proof Hi as []. pose proof (length_contents p) as Hl. pose proof (filled_range p) as Hfr.
  pose proof (pow2_lt n 32 ltac:(lia)) as Hp. change (2 ^ 32) with 4294967296 in *.
  assert (Hs0 : 0 < ring_size p) by (rewrite pi_size0; apply pow2_pos; lia).
  pose proof (Z.mod_pos_bound (head p) _ Hs0) as Hm.
  destruct (uart_putc c s) as [s1| | |] eqn:E1;
    try (exfalso; clear -Hs; induction ws; cbn in Hs; [done|auto]).
  unfold handle_keyboard_event. fold (filled p).
  rewrite (proj2 (Z.leb_gt _ _)) by lia. unfold umod. rewrite (proj2 (Z.eqb_neq _ _)) by lia. cbn [mbind res_bind].
  rewrite u32_small by lia. rewrite (proj2 (Z.leb_gt _ _)) by lia. rewrite (u8_small c), E1 by lia.
  cbn [head set_buf mbind res_bind].
  destruct (wake_all reschedule ws (wnodes p) s1 s' fuel Hw Hf Hs) as (h' & E & Hr). cbn [wnodes set_head set_buf].
  rewrite E. cbn [mbind res_bind]. eexists. split; [done|].
  assert (Hfill : u64 (u64 (head p + 1) - tail p) = filled p + 1).
  { unfold filled, u64, wrap in *. change (2 ^ 64) with 18446744073709551616 in *. zdiv. }
  split; [split; cbn; try done; try lia; [by rewrite length_insert|apply Z.mod_pos_bound; lia|unfold filled; cbn; lia]|]. split; [|done].
  unfold contents at 1. unfold filled at 1. cbn [head tail set_head set_buf set_wnodes]. rewrite Hfill.
  rewrite seqZ_app by lia. rewrite fmap_app, (head_slot n) by done. f_equal.
  - apply list_fmap_ext. intros i x Hx. apply lookup_seqZ in Hx.
    etransitivity; [|apply (slot_set_ne p (tail p + filled p) (tail p + x) c (u64 (head p + 1))); lia]. done.
  - rewrite seqZ_cons by lia. replace (Z.pred 1) with 0 by done. rewrite seqZ_nil by lia. cbn [fmap list_fmap]. f_equal.
    replace (tail p + (0 + filled p)) with (tail p + filled p) by lia.
    etransitivity; [|apply (slot_set p (tail p + filled p) c (u64 (head p + 1))); lia]. done.
Qed.

(** The counters start at the address of the buffer, whatever it is. *)
Lemma keyboard_init_ok buf_addr mem p :
  0 <= buf_addr < 2 ^ 64 -> length mem = 4096%nat ->
  pipe_inv 12 (keyboard_init buf_addr mem p).1 /\ contents (keyboard_init buf_addr mem p).1 = [] /\
  waiters (keyboard_init buf_addr mem p).1 [].
Proof.
  intros Ha Hm. assert (H0 : filled (keyboard_init buf_addr mem p).1 = 0) by (unfold filled; cbn; by rewrite Z.sub_diag).
  split; [|split].
  - split; rewrite ?H0; cbn; try done; lia.
  - unfold contents. by rewrite H0.
  - unfold waiters. cbn. eapply ring_ext; [|apply (INIT_LIST_HEAD_ring (wnodes p) W_rd)].
    intros k Hk. apply list_elem_of_singleton in Hk as ->. apply INIT_LIST_HEAD_frame. done.
Qed.

(** C33: the pipe between the keyboard and its readers is a bounded queue,
    wherever its 64-bit counters stand.  A key press appends its byte, echoes it
    and makes every waiting reader ready, or is dropped when the buffer is full;
    a read takes the oldest bytes, as many as there are and were asked for, also
    where they wrap around the buffer's end. *)
Theorem pipe_is_queue {S} (uart_putc reschedule : Z -> S -> res S) n p c s s' ws fuel cur count :
  pipe_inv n p -> waiters p ws -> (length ws < fuel)%nat ->
  0 <= c < 256 -> 0 <= count < 2 ^ 32 ->
  foldl (fun r w => s ← r; reschedule w s) (uart_putc c s) ws = Ok s' ->
  (Z.of_nat (length (contents p)) < ring_size p ->
    exists p', handle_keyboard_event uart_putc reschedule fuel c p s = Ok (p', s') /\ pipe_inv n p' /\
      contents p' = contents p ++ [c] /\ waiters p' []) /\
  (Z.of_nat (length (contents p)) = ring_size p -> handle_keyboard_event uart_putc reschedule fuel c p s = Ok (p, s)) /\
  (contents p <> [] -> let k := Z.min (Z.of_nat (length (contents p))) count in
    exists p', pipe_read cur count p = Ok (Read (take (Z.to_nat k) (contents p)) k, p') /\ pipe_inv n p' /\
      contents p' = drop (Z.to_nat k) (contents p) /\ waiters p' ws).
Proof.
  intros Hi Hw Hf Hc Hcount Hs. split; [|split].
  - intros Hroom. by apply (keyboard_ok uart_putc reschedule n p c s s' ws fuel).
  - intros Hfull. pose proof (length_contents p) as Hl. unfold handle_keyboard_event. fold (filled p).
    by rewrite (proj2 (Z.leb_le _ _)) by lia.
  - intros Hne k. destruct (pipe_read_ok n p cur count Hi Hne Hcount) as (p' & E & Hi' & Hc' & Hw').
    exists p'. repeat (split; [done|]). unfold waiters. by rewrite Hw'.
Qed.

(** A key press, then a read of three bytes, in a buffer at page 2304; the log
    holds what was echoed. *)
Definition demo_echo (c : Z) (log : list Z) : res (list Z) := Ok (c :: log).
Definition demo_pipe : pipe_data_t := (keyboard_init 0xFFFF800000900000 (replicate 4096 0) (PipeData ∅ 0 0 0 0 0 [])).1.

Lemma demo_pipe_ok : pipe_inv 12 demo_pipe /\ contents demo_pipe = [] /\ waiters demo_pipe [].
Proof. apply keyboard_init_ok; [lia|apply length_replicate]. Qed.

Lemma pipe_is_queue_witness : exists p1 p2,
  handle_keyboard_event demo_echo demo_echo 1 65 demo_pipe [] = Ok (p1, [65]) /\
  contents p1 = [65] /\ pipe_read 7 3 p1 = Ok (Read [65] 1, p2) /\ contents p2 = [].
Proof.
  destruct demo_pipe_ok as (Hi & Hc & Hw).
  destruct (pipe_is_queue demo_echo demo_echo 12 demo_pipe 65 [] [65] [] 1 7 3 Hi Hw) as [H1 _];
    [cbn; lia|lia|lia|reflexivity|].
  destruct H1 as (p1 & E1 & Hi1 & Hc1 & Hw1); [rewrite Hc; reflexivity|]. rewrite Hc in Hc1. cbn [app] in Hc1.
  destruct (pipe_is_queue demo_echo demo_echo 12 p1 65 [] [65] [] 1 7 3 Hi1 Hw1) as [_ [_ H2]];
    [cbn; lia|lia|lia|reflexivity|].
  destruct H2 as (p2 & E2 & _ & Hc2 & _); [rewrite Hc1; discriminate|]. rewrite Hc1 in E2, Hc2.
  exists p1, p2. split; [exact E1|]. split; [exact Hc1|]. split; [exact E2|exact Hc2].
Defined.

(** A reader that finds the pipe empty is put on the wait queue only when
    nobody waits yet.  Any later reader blocks without being on the queue, so no
    key press ever wakes it. *)
Lemma second_reader_lost p ws cur count :
  waiters p ws -> head p = tail p -> cur ∉ ws ->
  (ws = [] -> exists p', pipe_read cur count p = Ok (Blocked, p') /\ waiters p' [cur]) /\
  (ws <> [] -> pipe_read cur count p = Ok (Blocked, p)).
Proof.
  intros Hw He Hc. unfold pipe_read. rewrite He, Z.eqb_refl. rewrite (list_empty_ring _ _ _ Hw). split.
  - intros ->. cbn [fmap list_fmap]. rewrite bool_decide_true by done.
    destruct (list_add_ring (INIT_LIST_HEAD (W_entry cur) (wnodes p)) W_rd [] (W_entry cur)) as (h & E & Hr & _).
    + eapply ring_ext; [|exact Hw]. intros k Hk. apply list_elem_of_singleton in Hk as ->.
      by apply INIT_LIST_HEAD_frame.
    + set_solver.
    + rewrite E. cbn [mbind res_bind]. eexists. split; [done|]. exact Hr.
  - intros Hne. rewrite bool_decide_false; [done|]. by destruct ws.
Qed.

Lemma second_reader_lost_witness : exists p1,
  pipe_read 7 3 demo_pipe = Ok (Blocked, p1) /\ waiters p1 [7] /\ pipe_read 8 3 p1 = Ok (Blocked, p1).
Proof.
  destruct demo_pipe_ok as (_ & _ & Hw).
  destruct (proj1 (second_reader_lost _ _ 7 3 Hw ltac:(reflexivity) ltac:(apply not_elem_of_nil)) eq_refl) as (p1 & E & Hw1).
  exists p1. split; [exact E|]. split; [exact Hw1|].
  apply (proj2 (second_reader_lost p1 [7] 8 3 Hw1 ltac:(vm_compute in E; injection E as <-; reflexivity) ltac:(apply not_elem_of_cons; split; [discriminate|apply not_elem_of_nil]))).
  discriminate.
Defined.
