(* ===== verification/Proc.v ===== *)
(** * Processes ([system/process.c], [types/process_types.h])

    The process control blocks, the list nodes embedded in them and in the
    [vma] objects, and the routines that build a process, clone one and free
    the kernel stack of one that ended.  The memory under the processes - heap,
    pages, page tables and the words of memory - is reached through the class
    [ProcMem], which the kernel's own allocators implement (file Kernel). *)
From S2P Require Import Prelude KList Buddy Mmap.

Definition MAX_OPEN_FILES : nat := 32.
Definition USER_STACK_TOP : Z := 0x0000800000000.
Definition KSTACK_SIZE : Z := PAGE_SIZE.
Definition S_FRAME_SIZE : Z := 272.
Definition WAITING_ALL : Z := u32 (-1).
Definition WAITING_NONE : Z := 0.
Definition VMA_READ : Z := 1.
Definition VMA_WRITE : Z := 2.
Definition STDIN : nat := 0.
Definition STDOUT : nat := 1.
Definition STDERR : nat := 2.

Inductive PROC_STATE := PROCESS_BLOCKED | PROCESS_READY | PROCESS_RUNNING | PROCESS_TERMINATED.

#[export] Instance PROC_STATE_eq_dec : EqDecision PROC_STATE.
Proof. solve_decision. Defined.

(** [pcb_t] without its list nodes, and without [cwd] and [exit_status], which no
    code reads; a pointer 0 is NULL. *)
Record pcb_t := Pcb {
  kernel_stack : Z;
  ttbr : Z;
  pstate : PROC_STATE;
  pid : Z;
  waiting_on : Z;
  parent : Z;
  brk : Z;
  start_brk : Z;
  heap_vma : Z;
  fds : list Z;
}.

Definition set_kernel_stack x b := Pcb x (ttbr b) (pstate b) (pid b) (waiting_on b) (parent b) (brk b) (start_brk b) (heap_vma b) (fds b).
Definition set_ttbr x b := Pcb (kernel_stack b) x (pstate b) (pid b) (waiting_on b) (parent b) (brk b) (start_brk b) (heap_vma b) (fds b).
Definition set_pstate x b := Pcb (kernel_stack b) (ttbr b) x (pid b) (waiting_on b) (parent b) (brk b) (start_brk b) (heap_vma b) (fds b).
Definition set_pid x b := Pcb (kernel_stack b) (ttbr b) (pstate b) x (waiting_on b) (parent b) (brk b) (start_brk b) (heap_vma b) (fds b).
Definition set_waiting_on x b := Pcb (kernel_stack b) (ttbr b) (pstate b) (pid b) x (parent b) (brk b) (start_brk b) (heap_vma b) (fds b).
Definition set_parent x b := Pcb (kernel_stack b) (ttbr b) (pstate b) (pid b) (waiting_on b) x (brk b) (start_brk b) (heap_vma b) (fds b).
Definition set_heap_vma x b := Pcb (kernel_stack b) (ttbr b) (pstate b) (pid b) (waiting_on b) (parent b) (brk b) (start_brk b) x (fds b).
Definition set_fds x b := Pcb (kernel_stack b) (ttbr b) (pstate b) (pid b) (waiting_on b) (parent b) (brk b) (start_brk b) (heap_vma b) x.

(** [memset(process, 0, sizeof(pcb_t))]; the state 0 is [PROCESS_BLOCKED]. *)
Definition zero_pcb : pcb_t := Pcb 0 0 PROCESS_BLOCKED 0 0 0 0 0 0 (replicate MAX_OPEN_FILES 0).
Definition sizeof_pcb_t : Z := 408.

(** [vma] without its list node; [permissions] is a byte. *)
Record vma := Vma { start : Z; end_ : Z; permissions : Z }.
Definition sizeof_vma : Z := 40.
Definition sizeof_file_t : Z := 40.

(** The list nodes: the two global heads, and those embedded in a [pcb_t] or a
    [vma] at an address. *)
Inductive lkey :=
| L_proclist_head
| L_runqueue_head
| L_proclist (p : Z)
| L_runqueue (p : Z)
| L_children (p : Z)
| L_siblings (p : Z)
| L_vmas (p : Z)
| L_vma (v : Z).

#[export] Instance lkey_eq_dec : EqDecision lkey.
Proof. solve_decision. Defined.
#[export] Instance lkey_countable : Countable lkey.
Proof.
  refine (inj_countable'
    (fun k => match k with
      | L_proclist_head => (0%nat, 0) | L_runqueue_head => (1%nat, 0) | L_proclist p => (2%nat, p)
      | L_runqueue p => (3%nat, p) | L_children p => (4%nat, p) | L_siblings p => (5%nat, p)
      | L_vmas p => (6%nat, p) | L_vma p => (7%nat, p) end)
    (fun x => match x with
      | (0%nat, _) => L_proclist_head | (1%nat, _) => L_runqueue_head | (2%nat, p) => L_proclist p
      | (3%nat, p) => L_runqueue p | (4%nat, p) => L_children p | (5%nat, p) => L_siblings p
      | (6%nat, p) => L_vmas p | (_, p) => L_vma p end) _).
  by intros [].
Defined.

(** [list_entry(node, pcb_t, runqueue)] and the like: the object around a node
    of the expected kind. *)
Definition runqueue_entry (n : lkey) : res Z := match n with L_runqueue p => Ok p | _ => UB end.
Definition siblings_entry (n : lkey) : res Z := match n with L_siblings p => Ok p | _ => UB end.
Definition vma_entry (n : lkey) : res Z := match n with L_vma v => Ok v | _ => UB end.

(** What the process code needs of the kernel's memory. *)
Class ProcMem (M : Type) := {
  pm_frame_array : Z;                       (* [page_frame_array_start()] *)
  pm_kmalloc : Z -> M -> res (Z * M);
  pm_buddy_alloc : Z -> M -> res (Z * M);
  pm_buddy_free : Z -> M -> res M;
  pm_head_from_page : Z -> M -> res Z;
  pm_map : Z -> Z -> Z -> Z -> Z -> M -> res M;
  pm_update_mapping : Z -> Z -> Z -> Z -> M -> M;
  pm_buddy_alloc_pt : M -> res (Z * M);
  pm_clone_virtual_memory : Z -> M -> res (Z * M);
  pm_reap_virtual_memory : Z -> Z -> M -> res M;
  pm_decrement_ref : Z -> M -> res M;
  pm_frame_refcount : Z -> M -> res Z;      (* of the [page_frame_t] at an address *)
  pm_words : M -> words;
  pm_on_words : (words -> words) -> M -> M;
}.

Section Proc.
Context {M : Type} `{!ProcMem M}.

(** The kernel's state: the objects, their list nodes, the statics of
    [scheduler.c] and [process.c] and the processor's registers that a context
    switch changes ([sp], [TTBR0_EL1], [TPIDR_EL1] and the quantum timer). *)
Record kernel := Kernel {
  pcbs : gmap Z pcb_t;
  vmas : gmap Z vma;
  links : gmap lkey (list_head_t lkey);
  idle_proc : Z;
  n_processes : Z;
  pidcounter : Z;
  current : Z;
  cpu_sp : Z;
  cpu_ttbr0 : Z;
  primed : bool;
  kmem : M;
}.

Definition with_pcbs x k := Kernel x (vmas k) (links k) (idle_proc k) (n_processes k) (pidcounter k) (current k) (cpu_sp k) (cpu_ttbr0 k) (primed k) (kmem k).
Definition with_vmas x k := Kernel (pcbs k) x (links k) (idle_proc k) (n_processes k) (pidcounter k) (current k) (cpu_sp k) (cpu_ttbr0 k) (primed k) (kmem k).
Definition with_links x k := Kernel (pcbs k) (vmas k) x (idle_proc k) (n_processes k) (pidcounter k) (current k) (cpu_sp k) (cpu_ttbr0 k) (primed k) (kmem k).
Definition with_idle x k := Kernel (pcbs k) (vmas k) (links k) x (n_processes k) (pidcounter k) (current k) (cpu_sp k) (cpu_ttbr0 k) (primed k) (kmem k).
Definition with_n x k := Kernel (pcbs k) (vmas k) (links k) (idle_proc k) x (pidcounter k) (current k) (cpu_sp k) (cpu_ttbr0 k) (primed k) (kmem k).
Definition with_pidcounter x k := Kernel (pcbs k) (vmas k) (links k) (idle_proc k) (n_processes k) x (current k) (cpu_sp k) (cpu_ttbr0 k) (primed k) (kmem k).
Definition set_current x k := Kernel (pcbs k) (vmas k) (links k) (idle_proc k) (n_processes k) (pidcounter k) x (cpu_sp k) (cpu_ttbr0 k) (primed k) (kmem k).
Definition set_sp x k := Kernel (pcbs k) (vmas k) (links k) (idle_proc k) (n_processes k) (pidcounter k) (current k) x (cpu_ttbr0 k) (primed k) (kmem k).
Definition set_ttbr0 x k := Kernel (pcbs k) (vmas k) (links k) (idle_proc k) (n_processes k) (pidcounter k) (current k) (cpu_sp k) x (primed k) (kmem k).
Definition prime_physical_timer k := Kernel (pcbs k) (vmas k) (links k) (idle_proc k) (n_processes k) (pidcounter k) (current k) (cpu_sp k) (cpu_ttbr0 k) true (kmem k).
Definition with_mem x k := Kernel (pcbs k) (vmas k) (links k) (idle_proc k) (n_processes k) (pidcounter k) (current k) (cpu_sp k) (cpu_ttbr0 k) (primed k) x.

Definition get_current (k : kernel) : Z := current k.

(** [p->field] and [p->field = x]. *)
Definition get_pcb (p : Z) (k : kernel) : res pcb_t := deref (pcbs k !! p).
Definition upd_pcb (p : Z) (f : pcb_t -> pcb_t) (k : kernel) : res kernel :=
  b ← get_pcb p k; Ok (with_pcbs (<[p := f b]> (pcbs k)) k).
Definition get_vma (v : Z) (k : kernel) : res vma := deref (vmas k !! v).
Definition put_vma (v : Z) (x : vma) (k : kernel) : kernel := with_vmas (<[v := x]> (vmas k)) k.

Definition on_links (f : gmap lkey (list_head_t lkey) -> res (gmap lkey (list_head_t lkey))) (k : kernel) : res kernel :=
  l ← f (links k); Ok (with_links l k).
Definition on_mem {A} (f : M -> res (A * M)) (k : kernel) : res (A * kernel) :=
  '(a, m) ← f (kmem k); Ok (a, with_mem m k).
Definition do_mem (f : M -> res M) (k : kernel) : res kernel :=
  m ← f (kmem k); Ok (with_mem m k).
Definition init_lists (ns : list lkey) (k : kernel) : kernel :=
  with_links (foldl (fun h n => INIT_LIST_HEAD n h) (links k) ns) k.

(** [*(u64* ) va] for a kernel address, and its assignment. *)
Definition load64 (va : Z) (k : kernel) : Z := pm_words (kmem k) (va_to_pa va).
Definition store_kernel (va v : Z) (k : kernel) : kernel :=
  with_mem (pm_on_words (store64 (va_to_pa va) v) (kmem k)) k.

(** [memset(va, 0, 8 * n)] and [memcpy(dst, src, 8 * n)] on kernel addresses,
    ascending. *)
Fixpoint zero_words (n : nat) (va : Z) (k : kernel) : kernel :=
  match n with
  | O => k
  | S n => zero_words n (va + 8) (store_kernel va 0 k)
  end.
Fixpoint copy_words (n : nat) (dst src : Z) (k : kernel) : kernel :=
  match n with
  | O => k
  | S n => copy_words n (dst + 8) (src + 8) (store_kernel dst (load64 src k) k)
  end.

Definition page_down (x : Z) : Z := Z.land x (Z.lnot 4095).
Definition page_up (x : Z) : Z := Z.land (u64 (x + 4095)) (Z.lnot 4095).

(** [BASE_TRAPFRAME(kstack)] and the offsets of the frame's last fields. *)
Definition BASE_TRAPFRAME (kstack : Z) : Z := u64 (page_up kstack - 0x10 - S_FRAME_SIZE).
Definition off_sp_el0 : Z := 248.
Definition off_elr_el1 : Z := 256.
Definition off_spsr_el1 : Z := 264.

(** Two pages; only the upper one is entered into the kernel's tables. *)
Definition initialize_proc_kstack (L0_TABLE : Z) (k : kernel) : res (Z * kernel) :=
  '(range, k) ← on_mem (pm_buddy_alloc (KSTACK_SIZE + PAGE_SIZE)) k;
  k ← do_mem (pm_map (u64 (range + PAGE_SIZE)) (va_to_pa (u64 (range + PAGE_SIZE))) 0
        (Z.lor (Z.lor MAP_KERNEL MAP_READ) MAP_WRITE) L0_TABLE) k;
  Ok (u64 (range + (KSTACK_SIZE + PAGE_SIZE) - 0x10), k).

Definition generate_pid (k : kernel) : Z * kernel :=
  let p := u32 (pidcounter k + 1) in (p, with_pidcounter p k).

(** The first free slot of the table, or -1. *)
Fixpoint fd_scan (n : nat) (i : nat) (file : Z) (fds : list Z) : Z * list Z :=
  match n with
  | O => (-1, fds)
  | S n => if default 0 (fds !! i) =? 0 then (Z.of_nat i, <[i := file]> fds) else fd_scan n (S i) file fds
  end.
Definition fd_alloc (proc file : Z) (k : kernel) : res (Z * kernel) :=
  b ← get_pcb proc k;
  let '(fd, l) := fd_scan MAX_OPEN_FILES 0 file (fds b) in
  k ← upd_pcb proc (set_fds l) k;
  Ok (fd, k).

Definition pcb_lists (p : Z) : list lkey := [L_children p; L_siblings p; L_proclist p; L_runqueue p].

(** [kmalloc] of a structure that is written through at once: NULL is a fault. *)
Definition kmalloc_obj (size : Z) (k : kernel) : res (Z * kernel) :=
  '(p, k) ← on_mem (pm_kmalloc size) k;
  if p =? 0 then UB else Ok (p, k).

(** The stack's top: a saved context of twelve zeroed registers whose link
    register is the trampoline out of the kernel. *)
Definition push_context (ret_from_fork process : Z) (frame : Z) (k : kernel) : res kernel :=
  k ← upd_pcb process (fun b => set_kernel_stack (u64 (kernel_stack b - frame - 96)) b) k;
  b ← get_pcb process k;
  let k := zero_words 12 (kernel_stack b) k in
  Ok (store_kernel (kernel_stack b + 8) ret_from_fork k).

(** [procalloc(entrypoint)]: the new process's address. *)
Definition procalloc (L0_TABLE ret_from_fork entrypoint : Z) (k : kernel) : res (Z * kernel) :=
  '(process, k) ← kmalloc_obj sizeof_pcb_t k;
  let k := with_pcbs (<[process := zero_pcb]> (pcbs k)) k in
  let '(new_pid, k) := generate_pid k in
  k ← upd_pcb process (set_pid new_pid) k;
  k ← upd_pcb process (set_parent (get_current k)) k;
  let k := init_lists (pcb_lists process) k in
  let k := init_lists [L_vmas process] k in
  k ← upd_pcb process (set_waiting_on WAITING_NONE) k;
  '(table, k) ← on_mem pm_buddy_alloc_pt k;
  k ← upd_pcb process (set_ttbr table) k;
  let stack_size := u32 (PAGE_SIZE * 2) in
  '(stack_vma, k) ← kmalloc_obj sizeof_vma k;
  let k := put_vma stack_vma (Vma (USER_STACK_TOP - stack_size) USER_STACK_TOP (Z.lor VMA_READ VMA_WRITE)) k in
  k ← on_links (list_add (L_vma stack_vma) (L_vmas process)) k;
  '(kstack, k) ← initialize_proc_kstack L0_TABLE k;
  k ← upd_pcb process (set_kernel_stack kstack) k;
  let tf := BASE_TRAPFRAME kstack in
  let k := store_kernel (tf + off_sp_el0) (USER_STACK_TOP - 16) k in
  let k := store_kernel (tf + off_elr_el1) entrypoint k in
  let k := store_kernel (tf + off_spsr_el1) 0 k in
  k ← push_context ret_from_fork process S_FRAME_SIZE k;
  '(stdin_f, k) ← kmalloc_obj sizeof_file_t k;
  '(stdout_f, k) ← kmalloc_obj sizeof_file_t k;
  '(stderr_f, k) ← kmalloc_obj sizeof_file_t k;
  k ← upd_pcb process (fun b => set_fds (<[STDERR := stderr_f]> (<[STDOUT := stdout_f]> (<[STDIN := stdin_f]> (fds b)))) b) k;
  k ← upd_pcb process (set_pstate PROCESS_READY) k;
  Ok (process, k).

(** [memcpy(new_vma, v, sizeof(vma))]: the list node is copied too. *)
Definition copy_vma (v new_vma process : Z) (k : kernel) : res kernel :=
  x ← get_vma v k;
  let k := put_vma new_vma x k in
  let k := with_links (<[L_vma new_vma := node_at (links k) (L_vma v)]> (links k)) k in
  on_links (list_add (L_vma new_vma) (L_vmas process)) k.

(** The loop over the parent's list, from its tail. *)
Fixpoint clone_vmas (fuel : nat) (p : lkey) (cur process : Z) (k : kernel) : res kernel :=
  match fuel with
  | O => Fuel
  | S fuel =>
      if decide (p = L_vmas cur) then Ok k
      else
        v ← vma_entry p;
        '(new_vma, k) ← on_mem (pm_kmalloc sizeof_vma) k;
        if new_vma =? 0 then Panic
        else
          k ← copy_vma v new_vma process k;
          p ← deref (lprev (node_at (links k) p));
          clone_vmas fuel p cur process k
  end.

(** [clone_active_proc()]; [fuel] bounds the number of the parent's areas. *)
Definition clone_active_proc (fuel : nat) (L0_TABLE ret_from_fork : Z) (k : kernel) : res (Z * kernel) :=
  '(process, k) ← kmalloc_obj sizeof_pcb_t k;
  let cur := get_current k in
  b ← get_pcb cur k;
  let k := with_pcbs (<[process := b]> (pcbs k)) k in
  let k := init_lists (pcb_lists process) k in
  let k := init_lists [L_vmas process] k in
  p ← deref (lprev (node_at (links k) (L_vmas cur)));
  k ← clone_vmas fuel p cur process k;
  k ← upd_pcb process (set_parent cur) k;
  '(kstack, k) ← initialize_proc_kstack L0_TABLE k;
  k ← upd_pcb process (set_kernel_stack kstack) k;
  let '(new_pid, k) := generate_pid k in
  k ← upd_pcb process (set_pid new_pid) k;
  head ← pm_head_from_page (page_down (cpu_sp k)) (kmem k);
  let current_stack_top := u64 (head + PAGE_SIZE) in
  let k := copy_words 512 (page_down kstack) current_stack_top k in
  b ← get_pcb cur k;
  '(table, k) ← on_mem (pm_clone_virtual_memory (ttbr b)) k;
  k ← upd_pcb process (set_ttbr table) k;
  k ← upd_pcb process (fun b => set_kernel_stack (u64 (kernel_stack b - S_FRAME_SIZE)) b) k;
  b ← get_pcb process k;
  let k := store_kernel (kernel_stack b) 0 k in
  k ← push_context ret_from_fork process 0 k;
  Ok (process, k).

(** [check_and_reap]: its argument points at the [kernel_stack] field of the
    process switched out, [old_pcb]. *)
Definition check_and_reap (old_pcb : Z) (k : kernel) : res kernel :=
  b ← get_pcb old_pcb k;
  if decide (pstate b = PROCESS_TERMINATED) then
    stack_head ← pm_head_from_page (page_down (kernel_stack b)) (kmem k);
    k ← do_mem (pm_buddy_free stack_head) k;
    upd_pcb old_pcb (set_kernel_stack 0) k
  else Ok k.
End Proc.

Arguments kernel M : clear implicits.
