(* ===== verification/Cow.v ===== *)
(** * Copy-on-write address spaces ([memory/paging.c], [system/userfault.c])

    Cloning, walking and freeing the tree of page tables of a process, over the
    words of memory and the buddy allocator's page frames.  [L0_TABLE] is the
    kernel's table and [fuel] the bound of [buddy_alloc_pt]'s recursion.  With
    these operations the kernel's memory is complete: at the end of the file the
    heap of [kmalloc.c] over pages of [paging.c] and the tables of [mmap.c] are
    assembled into the implementation of the interface that the process code
    uses. *)
From S2P Require Import Prelude KList Buddy BuddyRef Slab Mmap Proc.

Definition n_entries : nat := 512.

(** [frame_metadata + pfn]: [pf->refcount++]. *)
Definition ref_page (pfn : Z) (s : mm buddy) : res (mm buddy) :=
  b ← upd_frame pfn (fun f => set_refcount (u32 (refcount f + 1)) f) (mpages s);
  Ok (MM b (mwords s)).

Definition unref_page (addr : Z) (s : mm buddy) : res (mm buddy) :=
  '(_, b) ← decrement_ref addr (mpages s); Ok (MM b (mwords s)).

Section Cow.
Context (fuel : nat) (L0_TABLE : Z).

(** [if(!child_table) child_table = buddy_alloc_pt()], before a write through it. *)
Definition need_table (child_table : Z) (s : mm buddy) : res (Z * mm buddy) :=
  '(t, s) ← (if child_table =? 0 then buddy_alloc_pt fuel L0_TABLE s else Ok (child_table, s));
  if t =? 0 then UB else Ok (t, s).

(** The body of the loop of [clone_page_table] at entry [i]; [rec] clones the
    table below. *)
Definition clone_entry (rec : Z -> mm buddy -> res (Z * mm buddy)) (level parent_table i child_table : Z) (s : mm buddy)
    : res (Z * mm buddy) :=
  let e := rd_entry (mwords s) parent_table i in
  if valid e =? 0 then Ok (child_table, s)
  else if (level <? 3) && (type e =? 1) then
    '(new_table_address, s) ← rec (pa_to_va (u64 (Z.shiftl (address e) 12))) s;
    '(child_table, s) ← need_table child_table s;
    let e := rd_entry (mwords s) parent_table i in
    let s := on_words (wr_entry child_table i e) s in
    Ok (child_table, on_words (wr_entry child_table i
          (set_address (Z.shiftr (va_to_pa new_table_address) 12) (rd_entry (mwords s) child_table i))) s)
  else
    let s := on_words (wr_entry parent_table i (set_cow 1 e)) s in
    let s := on_words (wr_entry parent_table i (set_ap EL0_RO_EL1_RO (rd_entry (mwords s) parent_table i))) s in
    '(child_table, s) ← need_table child_table s;
    let e := rd_entry (mwords s) parent_table i in
    let s := on_words (wr_entry child_table i e) s in
    s ← ref_page (address (rd_entry (mwords s) parent_table i)) s;
    Ok (child_table, s).

Fixpoint clone_loop (rec : Z -> mm buddy -> res (Z * mm buddy)) (n : nat) (i level parent_table child_table : Z) (s : mm buddy)
    : res (Z * mm buddy) :=
  match n with
  | O => Ok (child_table, s)
  | S n =>
      '(child_table, s) ← clone_entry rec level parent_table i child_table s;
      clone_loop rec n (i + 1) level parent_table child_table s
  end.

(** [clone_page_table(parent_table, level)]; four levels of fuel reach level 3. *)
Fixpoint clone_page_table (levels : nat) (parent_table level : Z) (s : mm buddy) : res (Z * mm buddy) :=
  match levels with
  | O => Fuel
  | S levels =>
      clone_loop (fun t => clone_page_table levels t (level + 1)) n_entries 0 level parent_table 0 s
  end.

(** The loop of [clone_virtual_memory]. *)
Fixpoint clone_l0 (n : nat) (i parent_table new_l0_table : Z) (s : mm buddy) : res (mm buddy) :=
  match n with
  | O => Ok s
  | S n =>
      let e := rd_entry (mwords s) parent_table i in
      s ← (if valid e =? 0 then Ok s
           else
             let s := on_words (wr_entry new_l0_table i e) s in
             '(new_table_address, s) ← clone_page_table 3 (pa_to_va (u64 (Z.shiftl (address e) 12))) 1 s;
             if new_table_address =? 0 then Ok s
             else Ok (on_words (wr_entry new_l0_table i
                    (set_address (Z.shiftr (va_to_pa new_table_address) 12) (rd_entry (mwords s) new_l0_table i))) s));
      clone_l0 n (i + 1) parent_table new_l0_table s
  end.

Definition clone_virtual_memory (parent_table : Z) (s : mm buddy) : res (Z * mm buddy) :=
  '(new_l0_table, s) ← buddy_alloc_pt fuel L0_TABLE s;
  s ← clone_l0 n_entries 0 parent_table new_l0_table s;
  Ok (new_l0_table, s).
End Cow.

(** The [page_frame_t] at an address, 32 bytes each, in the array that starts at
    [array]. *)
Definition sizeof_page_frame_t : Z := 32.
Definition frame_refcount (array addr : Z) (st : buddy) : res Z :=
  let off := addr - array in
  if (off mod sizeof_page_frame_t =? 0) && in_array (off / sizeof_page_frame_t)
  then Ok (refcount (frame_at st (off / sizeof_page_frame_t))) else UB.

(** [reap_virtual_memory(parent_table, level)]: references to the pages are
    given back before the tables are. *)
Definition reap_entry (rec : Z -> mm buddy -> res (mm buddy)) (level parent_table i : Z) (s : mm buddy) : res (mm buddy) :=
  let e := rd_entry (mwords s) parent_table i in
  if valid e =? 0 then Ok s
  else if (level <? 3) && (type e =? 1) then rec (pa_to_va (u64 (Z.shiftl (address e) 12))) s
  else unref_page (pa_to_va (u64 (Z.shiftl (address e) 12))) s.

Fixpoint reap_loop (rec : Z -> mm buddy -> res (mm buddy)) (n : nat) (i level parent_table : Z) (s : mm buddy) : res (mm buddy) :=
  match n with
  | O => Ok s
  | S n => s ← reap_entry rec level parent_table i s; reap_loop rec n (i + 1) level parent_table s
  end.

Fixpoint reap_virtual_memory (levels : nat) (parent_table level : Z) (s : mm buddy) : res (mm buddy) :=
  match levels with
  | O => Fuel
  | S levels =>
      s ← reap_loop (fun t => reap_virtual_memory levels t (level + 1)) n_entries 0 level parent_table s;
      unref_page parent_table s
  end.

(** ** The kernel's memory, assembled *)

(** The page allocator, with the words of memory beside it. *)
Section Lift.
Context {S : Type} `{!PageAllocator S}.

Definition lift_alloc (bytes : Z) (s : mm S) : res (Z * mm S) :=
  '(p, q) ← pa_alloc bytes (mpages s); Ok (p, MM q (mwords s)).
Definition lift_pages (f : S -> res S) (s : mm S) : res (mm S) :=
  q ← f (mpages s); Ok (MM q (mwords s)).

#[export] Instance mm_page_allocator : PageAllocator (mm S).
Proof.
  refine {| pa_alloc := lift_alloc; pa_free := fun p => lift_pages (pa_free p);
    pa_owner := fun p s => pa_owner p (mpages s); pa_set_owner := fun p w => lift_pages (pa_set_owner p w);
    pa_head := fun p s => pa_head p (mpages s); pa_view := fun s => pa_view (mpages s) |}.
  - intros s. exact (pa_range (mpages s)).
  - intros s. exact (pa_disjoint (mpages s)).
  - intros s V bytes Hv Hb. unfold lift_alloc.
    destruct (pa_alloc_spec (mpages s) V bytes Hv Hb) as [E|(p & q & E & Hn & Hv')]; rewrite E; cbn.
    + left. by destruct s.
    + right. by exists p, (MM q (mwords s)).
  - intros s V p o w off Hv Hp Ho. unfold lift_pages.
    destruct (pa_free_spec (mpages s) V p o w off Hv Hp Ho) as (q & E & Hv'). rewrite E. cbn. eauto.
  - intros s. exact (pa_owner_spec (mpages s)).
  - intros s. exact (pa_head_spec (mpages s)).
  - intros s V p o w q off w' Hv Hp Hq Ho Hw Hw'. unfold lift_pages.
    destruct (pa_set_owner_spec (mpages s) V p o w q off w' Hv Hp Hq Ho Hw Hw') as (r & E & Hv'). rewrite E. cbn. eauto.
Defined.
End Lift.

Section Kernel.
Context (fuel : nat) (L0_TABLE frame_array : Z) (junk : Z -> list Z).

Definition kernel_mem : Type := kheap (mm buddy).

Definition on_mm {A} (f : mm buddy -> res (A * mm buddy)) (k : kernel_mem) : res (A * kernel_mem) :=
  '(a, s) ← f (pages k); Ok (a, KHeap s (slabs k) (snodes k)).
Definition do_mm (f : mm buddy -> res (mm buddy)) (k : kernel_mem) : res kernel_mem :=
  s ← f (pages k); Ok (KHeap s (slabs k) (snodes k)).

Definition kmap (virt phys order flags table : Z) (s : mm buddy) : res (bool * mm buddy) :=
  map (buddy_alloc_pt fuel L0_TABLE) virt phys order flags table s.

#[export] Instance kernel_proc_mem : ProcMem kernel_mem := {|
  pm_frame_array := frame_array;
  pm_decrement_ref addr := do_mm (unref_page addr);
  pm_frame_refcount addr k := frame_refcount frame_array addr (mpages (pages k));
  pm_kmalloc bytes k := Slab.kmalloc kmap L0_TABLE junk bytes k;
  pm_buddy_alloc bytes := on_mm (pa_alloc bytes);
  pm_buddy_free page := do_mm (pa_free page);
  pm_head_from_page page k := pa_head page (pages k);
  pm_map virt phys order flags table := do_mm (fun s => '(_, s) ← kmap virt phys order flags table s; Ok s);
  pm_update_mapping virt_start virt_end flags table k :=
    KHeap (update_mapping virt_start virt_end flags table (pages k)).2 (slabs k) (snodes k);
  pm_buddy_alloc_pt := on_mm (buddy_alloc_pt fuel L0_TABLE);
  pm_clone_virtual_memory t := on_mm (clone_virtual_memory fuel L0_TABLE t);
  pm_reap_virtual_memory t level := do_mm (reap_virtual_memory 4 t level);
  pm_words k := mwords (pages k);
  pm_on_words f k := KHeap (on_words f (pages k)) (slabs k) (snodes k);
|}.
End Kernel.
