(* ===== verification/CowTree.v ===== *)
(** * Address spaces as trees

    [shape lv w e T]: the valid entry [e], with [lv] levels of tables below it,
    is the root of the tree [T] in memory [w].  [tables T] are the pages of its
    tables, [mapped T] the frames its page entries name, [share T] the tree with
    every page entry made read-only and copy-on-write, [erase T] the tree
    without the addresses of its tables. *)
From S2P Require Import Prelude Buddy BuddyInv BuddyOps Mmap MmapInv Cow.

Inductive ptree := Page (e : pte) | Table (t : Z) (kids : list (option ptree)).

Fixpoint tables (T : ptree) : list Z :=
  match T with
  | Page _ => []
  | Table t kids => t :: concat (List.map (fun o => match o with Some T => tables T | None => [] end) kids)
  end.
Definition kid_tables (kids : list (option ptree)) : list Z :=
  concat (List.map (fun o => match o with Some T => tables T | None => [] end) kids).

Fixpoint mapped (T : ptree) : list Z :=
  match T with
  | Page e => [address e]
  | Table t kids => concat (List.map (fun o => match o with Some T => mapped T | None => [] end) kids)
  end.
Definition kid_mapped (kids : list (option ptree)) : list Z :=
  concat (List.map (fun o => match o with Some T => mapped T | None => [] end) kids).

Definition share_pte (e : pte) : pte := set_ap EL0_RO_EL1_RO (set_cow 1 e).

Fixpoint share (T : ptree) : ptree :=
  match T with
  | Page e => Page (share_pte e)
  | Table t kids => Table t (List.map (option_map share) kids)
  end.

Fixpoint erase (T : ptree) : ptree :=
  match T with
  | Page e => Page e
  | Table t kids => Table 0 (List.map (option_map erase) kids)
  end.

Definition kid (sh : pte -> ptree -> Prop) (e : pte) (o : option ptree) : Prop :=
  match o with Some T => sh e T | None => valid e = 0 end.

(** The entries of table [t] from index [i] on. *)
Definition kids_at (sh : pte -> ptree -> Prop) (w : words) (t i : Z) (kids : list (option ptree)) : Prop :=
  forall (j : nat) o, kids !! j = Some o -> kid sh (entry w t (i + Z.of_nat j)) o.

Definition some_kid (kids : list (option ptree)) : Prop := exists T, Some T ∈ kids.

Fixpoint shape (lv : nat) (w : words) (e : pte) (T : ptree) : Prop :=
  valid e <> 0 /\
  match T with
  | Page e' => e' = e /\ (lv = 0%nat \/ type e = 0)
  | Table t kids =>
      match lv with
      | O => False
      | S lv => type e = 1 /\ address e = t /\ 0 <= t < NPAGES /\ length kids = 512%nat /\ some_kid kids /\
          kids_at (shape lv w) w t 0 kids
      end
  end.

(** ** Lists of children *)

Lemma kids_at_nil sh w t i : kids_at sh w t i [].
Proof. intros j o Hj. by rewrite lookup_nil in Hj. Qed.

Lemma kids_at_cons sh w t i o kids :
  kids_at sh w t i (o :: kids) <-> kid sh (entry w t i) o /\ kids_at sh w t (i + 1) kids.
Proof.
  split.
  - intros H. split; [specialize (H 0%nat o eq_refl); by rewrite Z.add_0_r in H|].
    intros j x Hj. specialize (H (S j) x Hj). by replace (i + 1 + Z.of_nat j) with (i + Z.of_nat (S j)) by lia.
  - intros [H0 H] [|j] x Hj; cbn in Hj; [injection Hj as <-; by rewrite Z.add_0_r|].
    specialize (H j x Hj). by replace (i + Z.of_nat (S j)) with (i + 1 + Z.of_nat j) by lia.
Qed.

Lemma tables_kids t kids : tables (Table t kids) = t :: kid_tables kids.
Proof. done. Qed.
Lemma mapped_kids t kids : mapped (Table t kids) = kid_mapped kids.
Proof. done. Qed.

Lemma kid_tables_elem q kids : q ∈ kid_tables kids <-> exists T, Some T ∈ kids /\ q ∈ tables T.
Proof.
  unfold kid_tables. rewrite list_elem_of_In, in_concat. setoid_rewrite in_map_iff. split.
  - intros (l & ([T|] & <- & Ho) & Hq); [|done]. exists T. by rewrite !list_elem_of_In.
  - intros (T & Ho & Hq). exists (tables T). rewrite !list_elem_of_In in *. split; [by exists (Some T)|done].
Qed.

Lemma share_tables T : tables (share T) = tables T.
Proof.
  revert T. fix IH 1. intros [e|t kids]; [done|]. cbn [share tables]. f_equal. f_equal.
  induction kids as [|[T|] kids IHk]; cbn; [done| |]; by rewrite ?IH, IHk.
Qed.
Lemma share_address e : address (share_pte e) = address e.
Proof. unfold share_pte, address, set_ap, set_cow. rewrite !get_set_other; done || lia. Qed.
Lemma share_valid e : valid (share_pte e) = valid e.
Proof. unfold share_pte, valid, set_ap, set_cow. rewrite !get_set_other; done || lia. Qed.
Lemma share_type e : type (share_pte e) = type e.
Proof. unfold share_pte, type, set_ap, set_cow. rewrite !get_set_other; done || lia. Qed.
Lemma share_mapped T : mapped (share T) = mapped T.
Proof.
  revert T. fix IH 1. intros [e|t kids]; cbn [share mapped]; [by rewrite share_address|]. f_equal.
  induction kids as [|[T|] kids IHk]; cbn; [done| |]; by rewrite ?IH, IHk.
Qed.
Lemma erase_mapped T : mapped (erase T) = mapped T.
Proof.
  revert T. fix IH 1. intros [e|t kids]; cbn [erase mapped]; [done|]. f_equal.
  induction kids as [|[T|] kids IHk]; cbn; [done| |]; by rewrite ?IH, IHk.
Qed.

(** ** Memory outside the tables does not matter *)

Definition same_on (w w' : words) (P : list Z) : Prop := forall q x, q ∈ P -> in_page q x -> w' x = w x.

Lemma same_on_entry w w' P t i : same_on w w' P -> t ∈ P -> 0 <= i < 512 -> entry w' t i = entry w t i.
Proof. intros Hs Ht Hi. apply (Hs t); [done|]. unfold in_page. lia. Qed.

Lemma shape_frame lv w w' e T : shape lv w e T -> same_on w w' (tables T) -> shape lv w' e T.
Proof.
  revert e T. induction lv as [|lv IH]; intros e [e'|t kids] [Hv H] Hs; cbn [shape] in *; split; try done.
  destruct H as (Hty & Ha & Ht & Hlen & Hne & Hk). split_and!; try done; try lia. intros j o Hj.
  pose proof (lookup_lt_Some _ _ _ Hj) as Hlt.
  rewrite (same_on_entry w w' (tables (Table t kids))) by (done || (by left) || lia).
  specialize (Hk j o Hj). destruct o as [T|]; cbn [kid] in *; [|done]. apply IH; [done|].
  intros q x Hq. apply Hs. rewrite tables_kids. right. apply kid_tables_elem. exists T.
  split; [by apply list_elem_of_lookup_2 in Hj|done].
Qed.

Lemma kids_frame lv w w' t i kids :
  kids_at (shape lv w) w t i kids -> same_on w w' (kid_tables kids) ->
  (forall j, i <= j < i + Z.of_nat (length kids) -> entry w' t j = entry w t j) ->
  kids_at (shape lv w') w' t i kids.
Proof.
  intros Hk Hs He j o Hj. pose proof (lookup_lt_Some _ _ _ Hj) as Hlt. rewrite He by lia.
  specialize (Hk j o Hj). destruct o as [T|]; [|done]. cbn [kid] in *. eapply shape_frame; [exact Hk|].
  intros q x Hq. apply Hs. apply kid_tables_elem. exists T. split; [by apply list_elem_of_lookup_2 in Hj|done].
Qed.

Lemma shape_valid lv w e T : shape lv w e T -> valid e <> 0.
Proof. destruct lv; by intros [H _]. Qed.

(** ** A whole address space

    The entries of the root point to tables. *)
Definition root_kids (kids : list (option ptree)) : Prop := forall e, Some (Page e) ∉ kids.

Record space (w : words) (r : Z) (kids : list (option ptree)) : Prop := {
  sp_range : 0 <= r < NPAGES;
  sp_len : length kids = 512%nat;
  sp_kids : kids_at (shape 3 w) w r 0 kids;
  sp_root : root_kids kids;
}.

(** The page entries of a tree. *)
Fixpoint ptes (T : ptree) : list pte :=
  match T with
  | Page e => [e]
  | Table t kids => concat (List.map (fun o => match o with Some T => ptes T | None => [] end) kids)
  end.
Definition kid_ptes (kids : list (option ptree)) : list pte :=
  concat (List.map (fun o => match o with Some T => ptes T | None => [] end) kids).

Lemma ptes_erase T : ptes (erase T) = ptes T.
Proof.
  revert T. fix IH 1. intros [e|t kids]; cbn [erase ptes]; [done|].
  induction kids as [|[T|] kids IHk]; cbn; [done| |]; by rewrite ?IH, IHk.
Qed.
Lemma kid_ptes_erase kids : kid_ptes (List.map (option_map erase) kids) = kid_ptes kids.
Proof. exact (ptes_erase (Table 0 kids)). Qed.
Lemma ptes_share T : ptes (share T) = List.map share_pte (ptes T).
Proof.
  revert T. fix IH 1. intros [e|t kids]; cbn [share ptes]; [done|].
  induction kids as [|[T|] kids IHk]; cbn; rewrite ?map_app; [done| |]; by rewrite ?IH, IHk.
Qed.
Lemma kid_ptes_share kids : kid_ptes (List.map (option_map share) kids) = List.map share_pte (kid_ptes kids).
Proof. exact (ptes_share (Table 0 kids)). Qed.

Lemma ptes_mapped T : mapped T = List.map address (ptes T).
Proof.
  revert T. fix IH 1. intros [e|t kids]; cbn [mapped ptes]; [done|].
  induction kids as [|[T|] kids IHk]; cbn; rewrite ?map_app; [done| |]; by rewrite ?IH, IHk.
Qed.
Lemma mapped_ptes kids : kid_mapped kids = List.map address (kid_ptes kids).
Proof. exact (ptes_mapped (Table 0 kids)). Qed.

Lemma share_flags e : ap (share_pte e) = EL0_RO_EL1_RO /\ cow (share_pte e) = 1 /\ valid (share_pte e) = valid e.
Proof.
  unfold share_pte. split_and!.
  - unfold ap, set_ap. by rewrite get_set_same by lia.
  - unfold cow, set_ap. rewrite get_set_other by lia. unfold set_cow. by rewrite get_set_same by lia.
  - apply share_valid.
Qed.

(** ** Translation, as the tree has it *)

Lemma table_base r : 0 <= r < NPAGES -> Z.land (r * 4096) (u64 (Z.lnot 0xFFF)) = r * 4096.
Proof.
  intros Hr. change (u64 (Z.lnot 0xFFF)) with (Z.shiftl (Z.ones 52) 12).
  replace (r * 4096) with (Z.shiftl r 12) by (rewrite Z.shiftl_mul_pow2 by lia; done).
  rewrite <- Z.shiftl_land, Z.land_ones by lia. f_equal. apply Z.mod_small. consts.
  change (2 ^ 52) with 4503599627370496. lia.
Qed.
Lemma table_next t : 0 <= t < NPAGES -> u64 (Z.shiftl t 12) = t * 4096.
Proof. intros Ht. consts. rewrite Z.shiftl_mul_pow2 by lia. change (2 ^ 12) with 4096. rewrite u64_small; lia. Qed.

Definition look (kids : list (option ptree)) (i : Z) : option ptree := default None (kids !! Z.to_nat i).

Definition tree_va (kids : list (option ptree)) (va : Z) : Z :=
  match look kids (idx0 va) with
  | Some (Table _ k1) =>
      match look k1 (idx1 va) with
      | Some (Page e) => u64 (u64 (Z.shiftl (address e) 30) + Z.land va 0x3FFFFFFF)
      | Some (Table _ k2) =>
          match look k2 (idx2 va) with
          | Some (Page e) => u64 (u64 (Z.shiftl (address e) 12) + Z.land va 0x1FFFFF)
          | Some (Table _ k3) =>
              match look k3 (idx3 va) with
              | Some (Page e) => Z.land (Z.lor (u64 (Z.shiftl (address e) 12)) (Z.land va 0xFFF)) (Z.shiftl 1 36 - 1)
              | _ => u64 (-1)
              end
          | None => u64 (-1)
          end
      | None => u64 (-1)
      end
  | _ => u64 (-1)
  end.

Lemma look_map f kids i : look (List.map (option_map f) kids) i = option_map f (look kids i).
Proof.
  unfold look. replace (List.map (option_map f) kids) with (option_map f <$> kids) by done.
  rewrite list_lookup_fmap. by destruct (kids !! Z.to_nat i).
Qed.

Lemma tree_va_share kids va : tree_va (List.map (option_map share) kids) va = tree_va kids va.
Proof.
  unfold tree_va. rewrite look_map. destruct (look kids (idx0 va)) as [[|? k1]|]; cbn; [done| |done].
  rewrite look_map. destruct (look k1 (idx1 va)) as [[|? k2]|]; cbn; [by rewrite share_address| |done].
  rewrite look_map. destruct (look k2 (idx2 va)) as [[|? k3]|]; cbn; [by rewrite share_address| |done].
  rewrite look_map. destruct (look k3 (idx3 va)) as [[|? k4]|]; cbn; [by rewrite share_address|done|done].
Qed.

Lemma tree_va_erase kids va : tree_va (List.map (option_map erase) kids) va = tree_va kids va.
Proof.
  unfold tree_va. rewrite look_map. destruct (look kids (idx0 va)) as [[|? k1]|]; cbn; [done| |done].
  rewrite look_map. destruct (look k1 (idx1 va)) as [[|? k2]|]; cbn; [done| |done].
  rewrite look_map. destruct (look k2 (idx2 va)) as [[|? k3]|]; cbn; [done| |done].
  rewrite look_map. by destruct (look k3 (idx3 va)) as [[|? k4]|].
Qed.

Lemma look_kid sh w t kids i : kids_at sh w t 0 kids -> length kids = 512%nat -> 0 <= i < 512 ->
  kid sh (entry w t i) (look kids i).
Proof.
  intros Hk Hl Hi. destruct (lookup_lt_is_Some_2 kids (Z.to_nat i)) as [o Ho]; [lia|].
  specialize (Hk _ _ Ho). unfold look. rewrite Ho. cbn. by replace (0 + Z.of_nat (Z.to_nat i)) with i in Hk by lia.
Qed.

Lemma look_elem kids i T : look kids i = Some T -> Some T ∈ kids.
Proof.
  unfold look. destruct (kids !! Z.to_nat i) as [o|] eqn:E; cbn; [|done]. intros ->. by apply list_elem_of_lookup_2 in E.
Qed.

Lemma translate_tree w r kids va : space w r kids -> 0 <= va -> translate_va w va (r * 4096) = tree_va kids va.
Proof.
  intros [Hr Hl Hk Hroot] Hva. pose proof (idx_range va) as (I0 & I1 & I2 & I3). unfold translate_va, tree_va.
  rewrite table_base by done. fold (entry w r (idx0 va)).
  pose proof (look_kid _ _ _ _ _ Hk Hl I0) as K0. pose proof (look_elem kids (idx0 va)) as HE.
  destruct (look kids (idx0 va)) as [[e0|t1 k1]|]; cbn [kid] in K0.
  1: by destruct (Hroot e0 (HE _ eq_refl)). 2: by rewrite K0.
  destruct K0 as (V0 & _ & A0 & R1 & L1 & _ & K1). rewrite (proj2 (Z.eqb_neq _ _) V0), A0.
  rewrite table_next by done. fold (entry w t1 (idx1 va)).
  pose proof (look_kid _ _ _ _ _ K1 L1 I1) as E1. destruct (look k1 (idx1 va)) as [[e1|t2 k2]|]; cbn [kid] in E1.
  3: by rewrite E1.
  { destruct E1 as (V1 & -> & [?|T1]); [done|]. by rewrite (proj2 (Z.eqb_neq _ _) V1), T1. }
  destruct E1 as (V1 & T1 & A1 & R2 & L2 & _ & K2). rewrite (proj2 (Z.eqb_neq _ _) V1), T1, A1. cbn [Z.eqb].
  rewrite table_next by done. fold (entry w t2 (idx2 va)).
  pose proof (look_kid _ _ _ _ _ K2 L2 I2) as E2. destruct (look k2 (idx2 va)) as [[e2|t3 k3]|]; cbn [kid] in E2.
  3: by rewrite E2.
  { destruct E2 as (V2 & -> & [?|T2]); [done|]. by rewrite (proj2 (Z.eqb_neq _ _) V2), T2. }
  destruct E2 as (V2 & T2 & A2 & R3 & L3 & _ & K3). rewrite (proj2 (Z.eqb_neq _ _) V2), T2, A2. cbn [Z.eqb].
  rewrite table_next by done. fold (entry w t3 (idx3 va)).
  pose proof (look_kid _ _ _ _ _ K3 L3 I3) as E3. destruct (look k3 (idx3 va)) as [[e3|t4 k4]|]; cbn [kid] in E3.
  - destruct E3 as (V3 & -> & _). by rewrite (proj2 (Z.eqb_neq _ _) V3).
  - by destruct E3.
  - by rewrite E3.
Qed.
