(* ===== verification/CowClone.v ===== *)
(** * Cloning the tables of an address space

    One entry of [clone_page_table], its loop over a table and the recursion over
    the levels, on trees ([CowTree]) over a running allocator ([PageUse]). *)
From S2P Require Import Prelude KList Buddy BuddyInv BuddyOps BuddyRef Mmap MmapInv MmapKernel Cow PageUse CowTree.

Definition slot (t i : Z) : Z := t * 4096 + 8 * i.

Lemma slot_page t i : 0 <= i < 512 -> in_page t (slot t i).
Proof. unfold in_page, slot. lia. Qed.
Lemma in_page_eq p q x : in_page p x -> in_page q x -> p = q.
Proof. unfold in_page. lia. Qed.
Lemma slot_inj t i u j : 0 <= i < 512 -> 0 <= j < 512 -> slot t i = slot u j -> t = u /\ i = j.
Proof. apply entry_neq. Qed.

Lemma wr_words t i e (s : mm buddy) x : 0 <= t < NPAGES -> 0 <= i < 512 ->
  mwords (on_words (wr_entry (page_va t) i e) s) x = if decide (x = slot t i) then e else mwords s x.
Proof.
  intros Ht Hi. cbn. unfold wr_entry, store64. rewrite entry_pa_page by done. fold (slot t i).
  destruct (Z.eqb_spec x (slot t i)); by case_decide.
Qed.

Lemma rd_words t i w : 0 <= t < NPAGES -> 0 <= i < 512 -> rd_entry w (page_va t) i = entry w t i.
Proof. intros. unfold rd_entry. by rewrite entry_pa_page. Qed.

Section clone.
Context (resv r0 top : Z) (kern : Z -> Prop) (fuel : nat).

(** The allocator works, the kernel's tables lead to every page it hands out, and
    the free blocks below order [top] hold [k] pages. *)
Record ready (B : blocks) (s : mm buddy) (k : nat) : Prop := {
  rd_inv : buddy_inv resv B (mpages s);
  rd_walk : kernel_walk resv r0 kern (mwords s);
  rd_kern : forall q, kern q -> q < resv;
  rd_stock : stock resv top B k;
}.

(** A page whose words may be changed, and that no other page overwrites. *)
Definition writable (B : blocks) (q : Z) : Prop := 0 <= q < NPAGES /\ ~ free_page B q /\ ~ kern q /\ ~ hot resv q.

Lemma ready_less B s k k' : ready B s k -> (k' <= k)%nat -> ready B s k'.
Proof. intros [H1 H2 H3 H4] Hle. split; try done. by eapply stock_less. Qed.

Lemma ready_words B s w k : ready B s k -> (forall q x, kern q -> in_page q x -> w x = mwords s x) -> ready B (MM (mpages s) w) k.
Proof. intros [H1 H2 H3 H4] Hw. split; try done. by apply (kernel_walk_ext resv r0 kern (mwords s)). Qed.

Lemma ready_wr B s k t i e :
  ready B s k -> writable B t -> 0 <= i < 512 -> ready B (on_words (wr_entry (page_va t) i e) s) k.
Proof.
  intros Hr (Ht & _ & Hk & _) Hi. apply (ready_words B s); [done|]. intros q x Hq Hx.
  pose proof (wr_words t i e s x Ht Hi) as E. cbn in E. rewrite E. case_decide; [|done]. subst x.
  by rewrite (in_page_eq t q (slot t i)) in Hk by (by apply slot_page || done).
Qed.

Lemma writable_grown B s B' s' N A k k' q :
  ready B s k -> ready B' s' k' -> grown B (mpages s) B' (mpages s') N A -> writable B q -> writable B' q.
Proof.
  intros Hr Hr' HG (H1 & H2 & H3). split; [done|]. split; [|done]. intros Hf. apply H2.
  eapply free_page_mono; [apply Hr|apply Hr'|apply HG|done].
Qed.

Lemma writable_new B s B' s' N A k k' q :
  ready B s k -> ready B' s' k' -> grown B (mpages s) B' (mpages s') N A -> q ∈ N -> writable B' q.
Proof.
  intros Hr Hr' HG Hq. pose proof (gr_free HG q Hq) as Hf.
  pose proof (free_range resv _ _ _ (rd_inv _ _ _ Hr) Hf) as Hrg. pose proof (bi_resv _ _ _ (rd_inv _ _ _ Hr)).
  split; [consts; lia|]. split; [|split; [intros Hk; pose proof (rd_kern _ _ _ Hr q Hk); lia|]].
  - intros Hf'. apply (free_not_used resv B' (mpages s') q (rd_inv _ _ _ Hr') Hf').
    apply (in_use_plus B B' N q (gr_used HG)). by right.
  - intros [_ Hh]. by apply (gr_cold HG q Hq).
Qed.

Lemma in_use_grown B st B' st' N A q : grown B st B' st' N A -> in_use B q -> in_use B' q.
Proof. intros HG Hq. apply (in_use_plus B B' N q (gr_used HG)). by left. Qed.

(** The words of such pages are not overwritten. *)
Lemma writable_word B q N x : writable B q -> in_page q x -> ~ scarred resv N x.
Proof. intros (_ & _ & _ & Hh). by apply cold_word. Qed.

Lemma slot_word B q N i : writable B q -> 0 <= i < 512 -> ~ scarred resv N (slot q i).
Proof. intros Hq Hi. eapply writable_word; [exact Hq|by apply slot_page]. Qed.

Lemma new_word B st B' st' N A q N' x : grown B st B' st' N A -> q ∈ N -> in_page q x -> ~ scarred resv N' x.
Proof. intros HG Hq. apply cold_word. intros [_ Hh]. by apply (gr_cold HG q Hq). Qed.

(** [buddy_alloc_pt] on the real allocator. *)
Lemma alloc_pt_ok B s k : ready B s (S k) ->
  exists n s' B', buddy_alloc_pt (S fuel) (page_va r0) s = Ok (page_va n, s') /\ ready B' s' k /\
    grown B (mpages s) B' (mpages s') [n] [] /\ 0 <= n < NPAGES /\
    (forall x, ~ scarred resv [n] x -> mwords s' x = if decide (in_page n x) then 0 else mwords s x).
Proof.
  intros [Hi Hm Hk Hs].
  destruct (buddy_alloc_pt_ok resv r0 kern fuel top B s k Hk Hi Hm Hs) as (n & s' & B' & E & Hi' & HG & Hs' & Hm' & Hn & Hn0 & _ & Hw).
  exists n, s', B'. split; [done|]. split; [done|]. split; [done|]. split; [lia|done].
Qed.

(** The table of the child so far: none, or the page [n]. *)
Definition ptr (co : option Z) : Z := match co with Some n => page_va n | None => 0 end.
Definition cost (co : option Z) : nat := match co with Some _ => 0%nat | None => 1%nat end.
Definition new_of (co : option Z) (n : Z) : list Z := match co with Some _ => [] | None => [n] end.

Lemma need_table_ok co B s k :
  ready B s (cost co + k) -> (forall n, co = Some n -> writable B n) ->
  exists n s' B', need_table (S fuel) (page_va r0) (ptr co) s = Ok (page_va n, s') /\ ready B' s' k /\
    grown B (mpages s) B' (mpages s') (new_of co n) [] /\ 0 <= n < NPAGES /\
    (forall m, co = Some m -> n = m) /\
    (forall x, ~ scarred resv (new_of co n) x -> mwords s' x = if decide (co = None /\ in_page n x) then 0 else mwords s x).
Proof.
  intros Hr Hco. destruct co as [n|]; unfold need_table; cbn [ptr cost new_of] in *.
  - destruct (Hco n eq_refl) as (Hn & _). pose proof (page_va_nonzero n Hn) as Hnz.
    rewrite (proj2 (Z.eqb_neq _ _) Hnz). cbn [mbind res_bind]. rewrite (proj2 (Z.eqb_neq _ _) Hnz).
    exists n, s, B. split; [done|]. split; [done|]. split; [apply grown_refl|]. split; [done|].
    split; [by intros m [= ->]|]. intros x. rewrite decide_False; [done|]. by intros [? _].
  - destruct (alloc_pt_ok B s k Hr) as (n & s' & B' & E & Hr' & HG & Hn & Hw). cbn [Z.eqb]. rewrite E.
    cbn [mbind res_bind]. rewrite (proj2 (Z.eqb_neq _ _) (page_va_nonzero n Hn)).
    exists n, s', B'. split; [done|]. split; [done|]. split; [done|]. split; [done|]. split; [done|].
    intros x Hx. rewrite Hw by done. repeat case_decide; tauto.
Qed.

Lemma ref_page_ok B s k a : ready B s k -> in_use B a ->
  exists s', ref_page a s = Ok s' /\ ready B s' k /\ mwords s' = mwords s /\ grown B (mpages s) B (mpages s') [] [a].
Proof.
  intros [Hi Hm Hk Hs] Ha. destruct (inc_ref_ok resv B (mpages s) a Hi Ha) as (st' & E & Hi' & HG).
  unfold ref_page. rewrite E. cbn [mbind res_bind]. exists (MM st' (mwords s)). split; [done|].
  split; [by split|]. split; done.
Qed.

(** What cloning the table [t] with the children [kids] does. *)
Record cloned (lv : nat) (B : blocks) (s : mm buddy) (t : Z) (kids : list (option ptree)) (k : nat)
    (n : Z) (kids' : list (option ptree)) (B' : blocks) (s' : mm buddy) (N : list Z) : Prop := {
  cl_ready : ready B' s' k;
  cl_grown : grown B (mpages s) B' (mpages s') N (kid_mapped kids);
  cl_parent : kids_at (shape lv (mwords s')) (mwords s') t 0 (List.map (option_map share) kids);
  cl_child : kids_at (shape lv (mwords s')) (mwords s') n 0 kids';
  cl_same : List.map (option_map erase) kids' = List.map (option_map erase) (List.map (option_map share) kids);
  cl_pages : n :: kid_tables kids' ≡ₚ N;
  cl_frame : forall x, (forall q, q ∈ t :: kid_tables kids ++ N -> ~ in_page q x) -> ~ scarred resv N x -> mwords s' x = mwords s x;
}.

Definition clone_spec (lv : nat) (run : Z -> mm buddy -> res (Z * mm buddy)) : Prop :=
  forall t kids B s k,
  kids_at (shape lv (mwords s)) (mwords s) t 0 kids -> length kids = 512%nat -> some_kid kids ->
  NoDup (t :: kid_tables kids) -> (forall q, q ∈ t :: kid_tables kids -> writable B q) ->
  (forall a, a ∈ kid_mapped kids -> in_use B a) -> ready B s (length (t :: kid_tables kids) + k) ->
  exists n kids' s' B' N, run (page_va t) s = Ok (page_va n, s') /\ cloned lv B s t kids k n kids' B' s' N.

(** What one entry does: [n] is the child's table, new when there was none. *)
Record entry_cloned (lv : nat) (B : blocks) (s : mm buddy) (t i : Z) (co : option Z) (T : ptree) (k : nat)
    (n : Z) (T' : ptree) (B' : blocks) (s' : mm buddy) (N : list Z) : Prop := {
  ec_ready : ready B' s' k;
  ec_grown : grown B (mpages s) B' (mpages s') N (mapped T);
  ec_parent : shape lv (mwords s') (entry (mwords s') t i) (share T);
  ec_child : shape lv (mwords s') (entry (mwords s') n i) T';
  ec_same : erase T' = erase (share T);
  ec_pages : new_of co n ++ tables T' ≡ₚ N;
  ec_old : forall m, co = Some m -> n = m;
  ec_zero : co = None -> forall j, 0 <= j < 512 -> j <> i -> entry (mwords s') n j = 0;
  ec_frame : forall x, x <> slot t i -> x <> slot n i -> (forall q, q ∈ tables T ++ N -> ~ in_page q x) ->
    ~ scarred resv N x -> mwords s' x = mwords s x;
}.

Lemma fresh_ne B s B' s' N A k k' q n :
  ready B s k -> ready B' s' k' -> grown B (mpages s) B' (mpages s') N A -> writable B q -> n ∈ N -> n <> q.
Proof. intros Hr Hr' HG (_ & Hf & _) Hn ->. by apply Hf, (gr_free HG). Qed.

Lemma wr_entry_at t i e (s : mm buddy) u j : 0 <= t < NPAGES -> 0 <= i < 512 -> 0 <= j < 512 ->
  entry (mwords (on_words (wr_entry (page_va t) i e) s)) u j =
    if decide (u = t /\ j = i) then e else entry (mwords s) u j.
Proof.
  intros Ht Hi Hj. unfold entry at 1. rewrite wr_words by done.
  destruct (decide (u = t /\ j = i)) as [[-> ->]|Hne]; [by rewrite decide_True|].
  rewrite decide_False; [done|]. intros E%slot_inj; tauto.
Qed.

Lemma type_01 e : type e = 0 \/ type e = 1.
Proof. pose proof (get_bits_range 1 1 e ltac:(lia)) as H. change (2 ^ 1) with 2 in H. unfold type. lia. Qed.

(** An entry that maps memory: marked, copied and counted. *)
Lemma clone_page_entry rec lv t i co e B s k :
  0 <= i < 512 -> entry (mwords s) t i = e -> valid e <> 0 -> (lv = 0%nat \/ type e = 0) ->
  writable B t -> (forall m, co = Some m -> writable B m /\ m <> t) -> in_use B (address e) ->
  ready B s (cost co + k) ->
  exists n s' B' N, clone_entry (S fuel) (page_va r0) rec (3 - Z.of_nat lv) (page_va t) i (ptr co) s = Ok (page_va n, s') /\
    entry_cloned lv B s t i co (Page e) k n (Page (share_pte e)) B' s' N.
Proof.
  intros Hi He Hv Hlv Ht Hco Ha Hr. pose proof Ht as (Htr & _). unfold clone_entry. rewrite (rd_words t i) by done. rewrite He.
  rewrite (proj2 (Z.eqb_neq _ _) Hv).
  replace ((3 - Z.of_nat lv <? 3) && (type e =? 1)) with false
    by (destruct Hlv as [->| ->]; [done|by rewrite andb_false_r]). cbv zeta.
  set (s1 := on_words (wr_entry (page_va t) i (set_cow 1 e)) s).
  assert (E1 : rd_entry (mwords s1) (page_va t) i = set_cow 1 e).
  { rewrite rd_words by done. unfold s1. rewrite wr_entry_at, decide_True; done. }
  rewrite E1. fold (share_pte e). set (s2 := on_words (wr_entry (page_va t) i (share_pte e)) s1).
  assert (Hr2 : ready B s2 (cost co + k)) by (by repeat apply ready_wr).
  destruct (need_table_ok co B s2 k Hr2) as (n & s3 & B3 & -> & Hr3 & HG3 & Hn & Hold & Hw3); [intros m Hm; by apply Hco|].
  cbn [mbind res_bind].
  assert (Hne : n <> t).
  { destruct co as [m|]; [rewrite (Hold m eq_refl); by apply Hco|].
    eapply (fresh_ne B s2 B3 s3 [n]); [exact Hr2|exact Hr3|exact HG3|done|by left]. }
  assert (Hwn : writable B3 n).
  { destruct co as [m|]; [rewrite (Hold m eq_refl); eapply writable_grown; [exact Hr2|exact Hr3|exact HG3|by apply Hco]|].
    eapply (writable_new B s2 B3 s3); [exact Hr2|exact Hr3|exact HG3|by left]. }
  assert (E3 : entry (mwords s3) t i = share_pte e).
  { unfold entry. rewrite Hw3, decide_False; [| |exact (slot_word B t _ i Ht Hi)].
    - fold (entry (mwords s2) t i). unfold s2. rewrite wr_entry_at, decide_True; done.
    - intros [_ Hx]. apply Hne. eapply in_page_eq; [exact Hx|]. by apply slot_page. }
  rewrite (rd_words t i (mwords s3)) by done. rewrite E3. set (s4 := on_words (wr_entry (page_va n) i (share_pte e)) s3).
  rewrite (rd_words t i (mwords s4)) by done.
  assert (E4 : entry (mwords s4) t i = share_pte e).
  { unfold s4. rewrite wr_entry_at, decide_False by (done || intros [? _]; congruence). done. }
  rewrite E4, share_address. assert (Hr4 : ready B3 s4 k) by (by apply ready_wr).
  destruct (ref_page_ok B3 s4 k (address e) Hr4) as (s5 & -> & Hr5 & Hw5 & HG5); [by eapply in_use_grown|].
  cbn [mbind res_bind]. exists n, s5, B3, (new_of co n). split; [done|].
  assert (Hent : forall u j, 0 <= j < 512 -> entry (mwords s5) u j = if decide (u = n /\ j = i) then share_pte e else entry (mwords s3) u j).
  { intros u j Hj. rewrite Hw5. unfold s4. by apply wr_entry_at. }
  assert (Hsh : forall w : words, shape lv w (share_pte e) (Page (share_pte e))).
  { intros w. destruct lv; cbn [shape]; rewrite share_valid, share_type; done. }
  split.
  - exact Hr5.
  - replace (new_of co n) with (new_of co n ++ []) by apply app_nil_r.
    apply (grown_trans resv B (mpages s) B3 (mpages s4) B3 (mpages s5) (new_of co n) [] [] [address e]);
      [apply Hr|apply Hr4|by intros a ->%list_elem_of_singleton|exact HG3|exact HG5].
  - rewrite Hent, decide_False, E3 by (done || intros [? _]; congruence). cbn [share]. apply Hsh.
  - rewrite Hent, decide_True by done. apply Hsh.
  - done.
  - cbn [tables]. by rewrite app_nil_r.
  - exact Hold.
  - intros -> j Hj Hji. rewrite Hent, decide_False by (done || tauto). unfold entry.
    rewrite Hw3, decide_True; [done| |exact (slot_word B3 n _ j Hwn Hj)]. split; [done|]. by apply slot_page.
  - intros x Hx1 Hx2 Hx3 Hx4. rewrite Hw5. unfold s4. rewrite wr_words, decide_False by (done || lia).
    rewrite Hw3, decide_False; [| |done].
    + unfold s2, s1. by rewrite !wr_words, !decide_False by done.
    + intros [-> Hx]. apply (Hx3 n); [by left|done].
Qed.

(** A cloned table [n'] is linked into entry [i] of the child's table [n], whose
    other words are those of [s1], or zero when it is new. *)
Section link.
Context (lv : nat) (B : blocks) (s : mm buddy) (t i : Z) (co : option Z) (t' : Z) (kids : list (option ptree)) (k k1 : nat)
  (n n' : Z) (kids' : list (option ptree)) (B1 B2 : blocks) (s1 s4 : mm buddy) (N1 : list Z).
Hypothesis (Hi : 0 <= i < 512) (Hsh : shape (S lv) (mwords s) (entry (mwords s) t i) (Table t' kids))
  (Hi0 : buddy_inv resv B (mpages s)) (Hc : cloned lv B s t' kids k1 n' kids' B1 s1 N1) (Hn' : 0 <= n' < NPAGES)
  (Hr4 : ready B2 s4 k) (HG4 : grown B1 (mpages s1) B2 (mpages s4) (new_of co n) [])
  (Hold : forall m, co = Some m -> n = m) (Hnt : n <> t) (HnT : n ∉ t' :: kid_tables kids) (HnN : n ∉ N1)
  (HtT : t ∉ t' :: kid_tables kids) (HtN : t ∉ N1)
  (Hslot : mwords s4 (slot n i) = set_address n' (entry (mwords s) t i))
  (Hcold : forall q, q ∈ t :: n :: (t' :: kid_tables kids) ++ N1 -> ~ hot resv q)
  (Hw4 : forall x, x <> slot n i -> ~ scarred resv (new_of co n) x ->
    mwords s4 x = if decide (co = None /\ in_page n x) then 0 else mwords s1 x).

Lemma link_same P : n ∉ P -> (forall q, q ∈ P -> ~ hot resv q) -> same_on (mwords s1) (mwords s4) P.
Proof.
  intros HP HPc q x Hq Hx. assert (Hqn : q <> n) by congruence.
  rewrite Hw4, decide_False; [done| | |by eapply cold_word, Hx; apply HPc].
  - intros [_ Hx']. by apply Hqn, (in_page_eq q n x).
  - intros ->. by apply Hqn, (in_page_eq q n (slot n i)), slot_page.
Qed.

Lemma link_entry4 u j : u <> n -> ~ hot resv u -> 0 <= j < 512 -> entry (mwords s4) u j = entry (mwords s1) u j.
Proof.
  intros Hu Hc' Hj. apply (same_on_entry _ _ [u]); [|by left|done].
  apply link_same; [rewrite list_elem_of_singleton; congruence|by intros q ->%list_elem_of_singleton].
Qed.

Lemma link_cold q : q ∈ (t' :: kid_tables kids) ++ N1 -> ~ hot resv q.
Proof. intros Hq. apply Hcold. by do 2 right. Qed.

Lemma link_parent_entry : entry (mwords s4) t i = entry (mwords s) t i.
Proof.
  assert (Ht : ~ hot resv t) by (apply Hcold; by left).
  rewrite link_entry4 by done. unfold entry. apply (cl_frame _ _ _ _ _ _ _ _ _ _ _ Hc); [|by eapply cold_word, slot_page].
  intros q Hq Hx. apply (in_page_eq t q) in Hx; [|by apply slot_page]. subst q.
  change (t ∈ (t' :: kid_tables kids) ++ N1) in Hq. apply elem_of_app in Hq. tauto.
Qed.

Lemma some_kid_map (f : ptree -> ptree) l : some_kid l -> some_kid (List.map (option_map f) l).
Proof.
  intros [T HT]. exists (f T). rewrite list_elem_of_In, in_map_iff. exists (Some T). by rewrite <- list_elem_of_In.
Qed.
Lemma some_kid_unmap (f : ptree -> ptree) l : some_kid (List.map (option_map f) l) -> some_kid l.
Proof.
  intros [T HT]. rewrite list_elem_of_In, in_map_iff in HT. destruct HT as ([T'|] & ? & HT); [|done].
  exists T'. by rewrite list_elem_of_In.
Qed.

Lemma link_cloned : entry_cloned (S lv) B s t i co (Table t' kids) k n (Table n' kids') B2 s4 (N1 ++ new_of co n).
Proof.
  pose proof link_parent_entry as Et. destruct Hc as [Hr1 HG1 Hpar Hch Hsame Hpg Hfr].
  destruct Hsh as (Hv & Hty & Ha & Ht'r & Hlen & Hne & _).
  assert (Hlen' : length kids' = 512%nat) by (apply (f_equal length) in Hsame; rewrite !length_map in Hsame; congruence).
  assert (Hkt : kid_tables (List.map (option_map share) kids) = kid_tables kids).
  { pose proof (share_tables (Table t' kids)) as E. cbn [share] in E. rewrite !tables_kids in E. by injection E. }
  assert (Hnk : n ∉ n' :: kid_tables kids') by (by rewrite Hpg).
  split.
  - done.
  - rewrite mapped_kids. replace (kid_mapped kids) with (kid_mapped kids ++ []) by apply app_nil_r.
    apply (grown_trans resv _ _ B1 (mpages s1)); [done|apply Hr1| |exact HG1|exact HG4].
    intros a Hx. by apply elem_of_nil in Hx.
  - rewrite Et. cbn [share shape]. split; [done|]. rewrite length_map. split_and!; try done; try lia.
    + by apply some_kid_map.
    + eapply kids_frame; [exact Hpar|rewrite Hkt; apply link_same|].
      * intros Hq. apply HnT. by right.
      * intros q Hq. apply link_cold, elem_of_app. left. by right.
      * intros j Hj. apply link_entry4; [|apply link_cold; by left|rewrite length_map in Hj; lia]. intros ->. apply HnT. by left.
  - unfold entry at 1. fold (slot n i). rewrite Hslot. cbn [shape].
    rewrite valid_set_address, type_set_address, address_set by (consts; change (2 ^ 36) with 68719476736; lia).
    split; [done|]. split_and!; try done; try lia.
    + apply (some_kid_unmap erase). rewrite Hsame. by repeat apply some_kid_map.
    + assert (Hcn : forall q, q ∈ n' :: kid_tables kids' -> ~ hot resv q)
        by (intros q Hq; apply link_cold, elem_of_app; right; by rewrite <- Hpg).
      eapply kids_frame; [exact Hch|apply link_same; [intros Hq; apply Hnk; by right|intros q Hq; apply Hcn; by right]|].
      intros j Hj. apply link_entry4; [intros ->; apply Hnk; by left|apply Hcn; by left|lia].
  - cbn [erase share]. by rewrite Hsame.
  - rewrite tables_kids, Hpg. apply Permutation_app_comm.
  - exact Hold.
  - intros Hco j Hj Hji. unfold entry. rewrite Hw4, decide_True; [done|split; [done|by apply slot_page]| |].
    + intros Hx%slot_inj; tauto.
    + eapply cold_word; [|by apply slot_page]. apply Hcold. right. by left.
  - intros x Hx1 Hx2 Hx3 Hx4. rewrite scarred_app in Hx4. rewrite Hw4, decide_False; [| |done|tauto].
    + apply Hfr; [|tauto]. intros q Hq. apply Hx3. change (q ∈ (t' :: kid_tables kids) ++ N1 ++ new_of co n).
      change (q ∈ (t' :: kid_tables kids) ++ N1) in Hq. rewrite app_assoc. apply elem_of_app. by left.
    + intros [Hco Hx]. apply (Hx3 n); [|done]. rewrite !elem_of_app, Hco. right. right. by left.
Qed.
End link.

(** An entry that points to a table: the table is cloned, then linked. *)
Lemma clone_table_entry rec lv t i co t' kids B s k :
  clone_spec lv rec ->
  0 <= i < 512 -> shape (S lv) (mwords s) (entry (mwords s) t i) (Table t' kids) ->
  NoDup (t' :: kid_tables kids) -> (forall q, q ∈ t' :: kid_tables kids -> writable B q) -> t ∉ t' :: kid_tables kids ->
  writable B t -> (forall m, co = Some m -> writable B m /\ m <> t /\ m ∉ t' :: kid_tables kids) ->
  (forall a, a ∈ kid_mapped kids -> in_use B a) ->
  ready B s (cost co + length (t' :: kid_tables kids) + k) -> (lv < 3)%nat ->
  exists n T' s' B' N, clone_entry (S fuel) (page_va r0) rec (3 - Z.of_nat (S lv)) (page_va t) i (ptr co) s = Ok (page_va n, s') /\
    entry_cloned (S lv) B s t i co (Table t' kids) k n T' B' s' N.
Proof.
  intros Hrec Hi Hsh Hnd Hwr Htn Ht Hco Hin Hr Hlv3. pose proof Ht as (Htr & Htf & _).
  pose proof Hsh as (Hv & Hty & Ha & Ht'r & Hlen & Hne & Hk).
  unfold clone_entry. rewrite (rd_words t i) by done. set (e := entry (mwords s) t i) in *.
  rewrite (proj2 (Z.eqb_neq _ _) Hv), Hty. replace (3 - Z.of_nat (S lv) <? 3) with true by (symmetry; apply Z.ltb_lt; lia).
  cbn [Z.eqb Pos.eqb andb]. fold (page_va (address e)). rewrite Ha.
  destruct (Hrec t' kids B s (cost co + k)%nat Hk Hlen Hne Hnd Hwr Hin) as (n' & kids' & s1 & B1 & N1 & -> & Hc);
    [eapply ready_less; [exact Hr|lia]|]. cbn [mbind res_bind].
  pose proof Hc as [Hr1 HG1 Hpar Hch Hsame Hpg Hfr].
  assert (Hn' : writable B1 n') by (eapply (writable_new B s B1 s1); [exact Hr|exact Hr1|exact HG1|rewrite <- Hpg; by left]).
  destruct (need_table_ok co B1 s1 k Hr1) as (n & s2 & B2 & -> & Hr2 & HG2 & Hn & Hold & Hw2).
  { intros m Hm. eapply (writable_grown B s B1 s1); [exact Hr|exact Hr1|exact HG1|by apply Hco]. }
  cbn [mbind res_bind].
  (* the child's table is another page than the parent's and the new ones *)
  assert (HnP : forall q, writable B q -> (forall m, co = Some m -> m <> q) -> n <> q).
  { intros q Hq Hm. destruct co as [m|]; [rewrite (Hold m eq_refl); by apply Hm|].
    eapply (fresh_ne B1 s1 B2 s2 [n]); [exact Hr1|exact Hr2|exact HG2| |by left].
    by eapply (writable_grown B s B1 s1). }
  assert (Hnt : n <> t) by (apply HnP; [done|intros m Hm; by apply Hco]).
  assert (HnT : n ∉ t' :: kid_tables kids).
  { intros Hq. apply (HnP n); [by apply Hwr| |done]. intros m Hm ->. by apply (Hco _ Hm). }
  assert (HnN : n ∉ N1).
  { intros Hq. destruct co as [m|].
    - rewrite (Hold m eq_refl) in Hq. by eapply (fresh_ne B s B1 s1 N1 _ _ _ m m); [exact Hr|exact Hr1|exact HG1|apply Hco| |].
    - eapply (fresh_ne B1 s1 B2 s2 [n] _ _ _ n n); [exact Hr1|exact Hr2|exact HG2| |by left|done].
      by eapply (writable_new B s B1 s1). }
  assert (HtN : t ∉ N1) by (intros Hq; by eapply (fresh_ne B s B1 s1 N1 _ _ _ t t)).
  assert (E2 : entry (mwords s2) t i = e).
  { unfold entry. rewrite Hw2, decide_False; [| |exact (slot_word B t _ i Ht Hi)].
    - apply Hfr; [|exact (slot_word B t _ i Ht Hi)]. intros q Hq Hx. apply (in_page_eq t q) in Hx; [|by apply slot_page]. subst q.
      change (t ∈ (t' :: kid_tables kids) ++ N1) in Hq. apply elem_of_app in Hq. tauto.
    - intros [_ Hx]. apply Hnt. eapply in_page_eq; [exact Hx|]. by apply slot_page. }
  rewrite (rd_words t i (mwords s2)) by done. rewrite E2. set (s3 := on_words (wr_entry (page_va n) i e) s2).
  rewrite (rd_words n i (mwords s3)) by done.
  assert (E3 : entry (mwords s3) n i = e) by (unfold s3; by rewrite wr_entry_at, decide_True).
  rewrite E3. replace (Z.shiftr (va_to_pa (page_va n')) 12) with n' by (symmetry; apply (page_va_pfn0 n'), Hn').
  assert (Hwn : writable B2 n).
  { destruct co as [m|].
    - rewrite (Hold m eq_refl). eapply (writable_grown B1 s1 B2 s2); [exact Hr1|exact Hr2|exact HG2|].
      eapply (writable_grown B s B1 s1); [exact Hr|exact Hr1|exact HG1|by apply Hco].
    - eapply (writable_new B1 s1 B2 s2); [exact Hr1|exact Hr2|exact HG2|by left]. }
  exists n, (Table n' kids'). eexists. exists B2, (N1 ++ new_of co n). split; [done|].
  eapply (link_cloned lv B s t i co t' kids k _ n n' kids' B1 B2 s1); try done.
  - apply Hr.
  - apply Hn'.
  - by repeat apply ready_wr.
  - rewrite wr_words, decide_True by done. done.
  - intros q [->|[->|[Hq|Hq]%elem_of_app]%elem_of_cons]%elem_of_cons; [apply Ht|apply Hwn|by apply Hwr|].
    intros [_ Hh]. by apply (gr_cold HG1 q Hq).
  - intros x Hx Hx'. unfold s3. rewrite !wr_words, !decide_False by done. by apply Hw2.
Qed.

(** The cloner of the tables below an entry with [lv] levels below it. *)
Definition rec_ok (lv : nat) (rec : Z -> mm buddy -> res (Z * mm buddy)) : Prop :=
  match lv with O => True | S lv => clone_spec lv rec end.

Lemma clone_some_entry rec lv t i co T B s k :
  rec_ok lv rec -> (lv < 3)%nat -> 0 <= i < 512 -> shape lv (mwords s) (entry (mwords s) t i) T -> NoDup (tables T) ->
  (forall q, q ∈ tables T -> writable B q) -> t ∉ tables T -> writable B t ->
  (forall m, co = Some m -> writable B m /\ m <> t /\ m ∉ tables T) -> (forall a, a ∈ mapped T -> in_use B a) ->
  ready B s (cost co + length (tables T) + k) ->
  exists n T' s' B' N, clone_entry (S fuel) (page_va r0) rec (3 - Z.of_nat lv) (page_va t) i (ptr co) s = Ok (page_va n, s') /\
    entry_cloned lv B s t i co T k n T' B' s' N.
Proof.
  intros Hrec Hlv Hi Hsh Hnd Hwr Htn Ht Hco Hin Hr. destruct T as [e|t' kids].
  - assert (Hv := shape_valid _ _ _ _ Hsh). assert (Hp : e = entry (mwords s) t i /\ (lv = 0%nat \/ type (entry (mwords s) t i) = 0))
      by (destruct lv; apply Hsh). destruct Hp as [-> Hp].
    destruct (clone_page_entry rec lv t i co _ B s k Hi eq_refl Hv Hp Ht) as (n & s' & B' & N & E & Hc).
    + intros m Hm. destruct (Hco m Hm) as (? & ? & _). done.
    + apply Hin. by left.
    + eapply ready_less; [exact Hr|lia].
    + eauto 10.
  - destruct lv as [|lv]; [by destruct Hsh|].
    destruct (clone_table_entry rec lv t i co t' kids B s k Hrec Hi Hsh Hnd Hwr Htn Ht Hco Hin Hr ltac:(lia))
      as (n & T' & s' & B' & N & E & Hc). eauto 10.
Qed.
End clone.

Arguments ec_ready {resv r0 top kern lv B s t i co T k n T' B' s' N} _.
Arguments ec_grown {resv r0 top kern lv B s t i co T k n T' B' s' N} _.
Arguments ec_parent {resv r0 top kern lv B s t i co T k n T' B' s' N} _.
Arguments ec_child {resv r0 top kern lv B s t i co T k n T' B' s' N} _.
Arguments ec_same {resv r0 top kern lv B s t i co T k n T' B' s' N} _.
Arguments ec_pages {resv r0 top kern lv B s t i co T k n T' B' s' N} _.
Arguments ec_old {resv r0 top kern lv B s t i co T k n T' B' s' N} _ m _.
Arguments ec_zero {resv r0 top kern lv B s t i co T k n T' B' s' N} _ _ j _ _.
Arguments ec_frame {resv r0 top kern lv B s t i co T k n T' B' s' N} _ x _ _ _ _.
