(* ===== verification/CowLoop.v ===== *)
(** * Cloning: the loop over a table and the recursion over the levels *)
From S2P Require Import Prelude KList Buddy BuddyInv BuddyOps BuddyRef Mmap MmapInv MmapKernel Cow PageUse CowTree CowClone.

Section loop.
Context (resv r0 top : Z) (kern : Z -> Prop) (fuel : nat).
Notation ready := (ready resv r0 top kern).
Notation writable := (writable resv kern).
Notation entry_cloned := (entry_cloned resv r0 top kern).
Notation rec_ok := (rec_ok resv r0 top kern).

(** The state before the entries from [i] on, which hold [kids]. *)
Record loop_pre (lv : nat) (B : blocks) (s : mm buddy) (t i : Z) (kids : list (option ptree)) : Prop := {
  lp_range : 0 <= i /\ i + Z.of_nat (length kids) = 512;
  lp_kids : kids_at (shape lv (mwords s)) (mwords s) t i kids;
  lp_nodup : NoDup (t :: kid_tables kids);
  lp_wr : forall q, q ∈ t :: kid_tables kids -> writable B q;
  lp_in : forall a, a ∈ kid_mapped kids -> in_use B a;
}.

(** The child's table, with nothing from [i] on. *)
Record child_pre (B : blocks) (s : mm buddy) (t i n : Z) (kids : list (option ptree)) : Prop := {
  cp_wr : writable B n;
  cp_ne : n ∉ t :: kid_tables kids;
  cp_zero : forall j, i <= j < 512 -> valid (entry (mwords s) n j) = 0;
}.

#[local] Arguments lp_range {lv B s t i kids} _.
#[local] Arguments lp_nodup {lv B s t i kids} _.
#[local] Arguments lp_wr {lv B s t i kids} _ q _.
#[local] Arguments lp_in {lv B s t i kids} _ a _.
#[local] Arguments cp_wr {B s t i n kids} _.
#[local] Arguments cp_ne {B s t i n kids} _.
#[local] Arguments cp_zero {B s t i n kids} _ j _.

Record looped (lv : nat) (B : blocks) (s : mm buddy) (t i : Z) (kids : list (option ptree)) (k : nat)
    (new : list Z) (n : Z) (kids' : list (option ptree)) (B' : blocks) (s' : mm buddy) (N : list Z) : Prop := {
  lo_ready : ready B' s' k;
  lo_grown : grown B (mpages s) B' (mpages s') N (kid_mapped kids);
  lo_parent : kids_at (shape lv (mwords s')) (mwords s') t i (List.map (option_map share) kids);
  lo_child : kids_at (shape lv (mwords s')) (mwords s') n i kids';
  lo_same : List.map (option_map erase) kids' = List.map (option_map erase) (List.map (option_map share) kids);
  lo_pages : new ++ kid_tables kids' ≡ₚ N;
  lo_frame : forall x, (forall j, i <= j < 512 -> x <> slot t j /\ x <> slot n j) ->
    (forall q, q ∈ kid_tables kids ++ N -> ~ in_page q x) -> ~ scarred resv N x -> mwords s' x = mwords s x;
}.

#[local] Arguments lo_grown {lv B s t i kids k new n kids' B' s' N} _.
#[local] Arguments lo_frame {lv B s t i kids k new n kids' B' s' N} _ x _ _ _.

Lemma kid_tables_some T kids : kid_tables (Some T :: kids) = tables T ++ kid_tables kids.
Proof. done. Qed.
Lemma kid_mapped_some T kids : kid_mapped (Some T :: kids) = mapped T ++ kid_mapped kids.
Proof. done. Qed.

(** An entry that is not valid. *)
Lemma skip_entry rec lv t i c B s kids : loop_pre lv B s t i (None :: kids) ->
  clone_entry (S fuel) (page_va r0) rec (3 - Z.of_nat lv) (page_va t) i c s = Ok (c, s).
Proof.
  intros [[H0 Hl] Hk _ Hw _]. cbn [length] in Hl. destruct (Hw t) as (Ht & _); [by left|].
  apply kids_at_cons in Hk as [Hk _]. unfold clone_entry. rewrite rd_words by (done || lia). cbn [kid] in Hk.
  by rewrite Hk.
Qed.

Lemma pre_skip lv B s t i kids : loop_pre lv B s t i (None :: kids) -> loop_pre lv B s t (i + 1) kids.
Proof.
  intros [[H0 Hl] Hk Hn Hw Hin]. cbn [length] in Hl. apply kids_at_cons in Hk as [_ Hk]. split; done || lia.
Qed.

Lemma looped_skip lv B s t i kids k new n kids' B' s' N :
  loop_pre lv B s t i (None :: kids) -> valid (entry (mwords s') n i) = 0 ->
  looped lv B s t (i + 1) kids k new n kids' B' s' N -> looped lv B s t i (None :: kids) k new n (None :: kids') B' s' N.
Proof.
  intros Hpre Hz [L1 L2 L3 L4 L5 L6 L7]. pose proof Hpre as [[H0 Hl] Hk Hnd Hw Hin]. cbn [length] in Hl.
  apply kids_at_cons in Hk as [Hk0 Hk]. cbn [kid] in Hk0.
  assert (Hti : mwords s' (slot t i) = mwords s (slot t i)).
  { apply L7; [| |eapply (slot_word resv kern B); [apply Hw; by left|lia]].
    - intros j Hj. split; intros [? ?]%slot_inj; lia.
    - intros q Hq Hx. pose proof (in_page_eq t q _ (slot_page t i ltac:(lia)) Hx) as <-.
      apply elem_of_app in Hq as [Hq|Hq]; [by apply NoDup_cons in Hnd as [? _]|].
      destruct (Hw t) as (_ & Hf & _); [by left|]. by apply Hf, (gr_free L2). }
  split; try done.
  - cbn [List.map option_map]. apply kids_at_cons. split; [|done]. cbn [kid]. unfold entry. fold (slot t i). by rewrite Hti.
  - apply kids_at_cons. split; done.
  - cbn [List.map option_map]. by rewrite L5.
  - intros x Hx Hq. apply L7; [|done]. intros j Hj. apply Hx. lia.
Qed.

(** The entry before the loop's range, of a child's table that was there. *)
Lemma looped_zero lv B s t i kids k n kids' B' s' N :
  0 <= i /\ i + Z.of_nat (S (length kids)) = 512 -> child_pre B s t i n kids ->
  looped lv B s t (i + 1) kids k [] n kids' B' s' N -> valid (entry (mwords s') n i) = 0.
Proof.
  intros Hl [C1 C2 C3] HL. unfold entry. fold (slot n i).
  rewrite (lo_frame HL); [| | |eapply (slot_word resv kern B); [done|lia]].
  - apply C3. lia.
  - intros j Hj. split; intros [? ?]%slot_inj; lia.
  - intros q Hq Hx. rewrite (in_page_eq q n _ Hx (slot_page n i ltac:(lia))) in Hq. apply elem_of_app in Hq as [Hq|Hq].
    + apply C2. by right.
    + destruct C1 as (_ & Hf & _). by apply Hf, (gr_free (lo_grown HL)).
Qed.

(** One entry cloned, the rest of the loop has its precondition. *)
Section cons.
Context (lv : nat) (B : blocks) (s : mm buddy) (t i : Z) (T : ptree) (kids : list (option ptree)) (k k1 : nat) (co : option Z)
  (n : Z) (T' : ptree) (B1 : blocks) (s1 : mm buddy) (N1 : list Z).
Hypothesis (Hpre : loop_pre lv B s t i (Some T :: kids)) (Hr : ready B s k)
  (Hc : entry_cloned lv B s t i co T k1 n T' B1 s1 N1)
  (Hco : forall m, co = Some m -> child_pre B s t i m (Some T :: kids)).

Let Hi : 0 <= i < 512.
Proof. pose proof (lp_range Hpre) as H. cbn [length] in H. lia. Qed.
Let Hnd : NoDup (t :: tables T ++ kid_tables kids) := lp_nodup Hpre.
Let Hnew q : q ∈ N1 -> q ∉ t :: tables T ++ kid_tables kids.
Proof.
  intros Hq Hq'. destruct (lp_wr Hpre q Hq') as (_ & Hf & _).
  by apply Hf, (gr_free (ec_grown Hc)).
Qed.
Let Hn : n ∉ t :: tables T ++ kid_tables kids.
Proof.
  destruct co as [m|] eqn:E.
  - rewrite (ec_old Hc m eq_refl). apply (cp_ne (Hco m eq_refl)).
  - apply Hnew. rewrite <- (ec_pages Hc). by left.
Qed.

(** The tables of the rest are as they were. *)
Lemma rest_same : same_on (mwords s) (mwords s1) (kid_tables kids).
Proof.
  intros q x Hq Hx. pose proof Hnd as Hnd'. apply NoDup_cons in Hnd' as [Ht Hnd']. apply NoDup_app in Hnd' as (_ & Hd & _).
  apply (ec_frame Hc); [| | |eapply (writable_word resv kern B); [apply (lp_wr Hpre); right; apply elem_of_app; right|]; done].
  - intros ->. rewrite (in_page_eq q t _ Hx (slot_page t i Hi)) in Hq. apply Ht, elem_of_app. by right.
  - intros ->. rewrite (in_page_eq q n _ Hx (slot_page n i Hi)) in Hq. apply Hn. right. apply elem_of_app. by right.
  - intros p Hp Hx'. rewrite (in_page_eq p q x Hx' Hx) in Hp. apply elem_of_app in Hp as [Hp|Hp]; [by apply (Hd q)|].
    apply (Hnew q Hp). right. apply elem_of_app. by right.
Qed.

Lemma slot_same u j : u = t \/ u = n /\ co <> None -> 0 <= j < 512 -> j <> i -> mwords s1 (slot u j) = mwords s (slot u j).
Proof.
  intros Hu Hj Hji. apply (ec_frame Hc); [| | |apply (slot_word resv kern B); [|done]].
  - intros [_ ?]%slot_inj; done.
  - intros [_ ?]%slot_inj; done.
  - intros q Hq Hx. rewrite (in_page_eq q u _ Hx (slot_page u j Hj)) in Hq. apply NoDup_cons in Hnd as [Ht _].
    apply elem_of_app in Hq as [Hq|Hq]; destruct Hu as [->|[-> Hc']].
    + apply Ht, elem_of_app. by left.
    + apply Hn. right. apply elem_of_app. by left.
    + by apply (Hnew t Hq); left.
    + destruct co as [m|]; [|done]. rewrite (ec_old Hc m eq_refl) in Hq.
      destruct (cp_wr (Hco m eq_refl)) as (_ & Hf & _).
      by apply Hf, (gr_free (ec_grown Hc)).
  - destruct Hu as [->|[-> Hc']]; [apply (lp_wr Hpre); by left|]. destruct co as [m|]; [|done].
    rewrite (ec_old Hc m eq_refl). apply (cp_wr (Hco m eq_refl)).
Qed.

Lemma pre_tail : loop_pre lv B1 s1 t (i + 1) kids.
Proof.
  pose proof Hpre as [[H0 Hl] Hk Hnd' Hw Hin]. cbn [length] in Hl. apply kids_at_cons in Hk as [_ Hk].
  pose proof (ec_ready Hc) as Hr1.
  pose proof (ec_grown Hc) as HG1. split.
  - lia.
  - eapply kids_frame; [exact Hk|apply rest_same|]. intros j Hj. unfold entry. fold (slot t j).
    apply slot_same; [by left|lia|lia].
  - apply NoDup_cons in Hnd as [Ht H]. apply NoDup_app in H as (_ & _ & H). apply NoDup_cons. split; [|done].
    intros Hq. apply Ht, elem_of_app. by right.
  - intros q Hq. eapply (writable_grown resv r0 top kern B s B1 s1); [exact Hr|exact Hr1|exact HG1|]. apply Hw.
    rewrite kid_tables_some. apply elem_of_cons in Hq as [->|Hq]; [by left|]. right. apply elem_of_app. by right.
  - intros a Ha. eapply in_use_grown; [exact HG1|]. apply Hin. rewrite kid_mapped_some. apply elem_of_app. by right.
Qed.

Lemma child_tail : child_pre B1 s1 t (i + 1) n kids.
Proof.
  pose proof (slot_same n) as Hss. pose proof Hn as Hn'.
  pose proof (ec_ready Hc) as Hr1.
  pose proof (ec_grown Hc) as HG1. split.
  - destruct co as [m|] eqn:E.
    + rewrite (ec_old Hc m eq_refl).
      eapply (writable_grown resv r0 top kern B s B1 s1); [exact Hr|exact Hr1|exact HG1|apply (Hco m eq_refl)].
    + eapply (writable_new resv r0 top kern B s B1 s1); [exact Hr|exact Hr1|exact HG1|].
      rewrite <- (ec_pages Hc). by left.
  - intros Hq. apply Hn'. apply elem_of_cons in Hq as [->|Hq]; [by left|]. right. apply elem_of_app. by right.
  - intros j Hj. destruct co as [m|] eqn:E.
    + unfold entry. fold (slot n j). rewrite Hss by (done || lia || (right; done)). fold (entry (mwords s) n j).
      rewrite (ec_old Hc m eq_refl). apply (cp_zero (Hco m eq_refl)). lia.
    + by rewrite (ec_zero Hc eq_refl) by lia.
Qed.

Lemma looped_cons k2 kids' B2 s2 N2 :
  looped lv B1 s1 t (i + 1) kids k2 [] n kids' B2 s2 N2 ->
  looped lv B s t i (Some T :: kids) k2 (new_of co n) n (Some T' :: kids') B2 s2 (N1 ++ N2).
Proof.
  intros [L1 L2 L3 L4 L5 L6 L7].
  pose proof Hc as [Hr1 HG1 Hpar Hch Hsame Hpg Hold Hz Hfr].
  assert (HN2 : forall q, q ∈ t :: tables T ++ kid_tables kids \/ q = n \/ q ∈ N1 -> q ∉ N2).
  { intros q Hq Hq2. pose proof (gr_free L2 q Hq2) as Hf.
    destruct Hq as [Hq|[->|Hq]].
    - destruct (writable_grown resv r0 top kern B s B1 s1 N1 _ _ _ q Hr Hr1 HG1 (lp_wr Hpre q Hq)) as (_ & Hnf & _). done.
    - destruct (cp_wr child_tail) as (_ & Hnf & _). done.
    - destruct (writable_new resv r0 top kern B s B1 s1 N1 _ _ _ q Hr Hr1 HG1 Hq) as (_ & Hnf & _). done. }
  assert (Hkt : forall q, q ∈ tables T \/ q ∈ N1 \/ q = n \/ q = t -> q ∉ kid_tables kids).
  { pose proof Hnd as H. apply NoDup_cons in H as [Ht H]. apply NoDup_app in H as (_ & Hd & _).
    intros q [Hq|[Hq|[->| ->]]] Hq'; [by apply (Hd q)| | |].
    - apply (Hnew q Hq). right. apply elem_of_app. by right.
    - apply Hn. right. apply elem_of_app. by right.
    - apply Ht, elem_of_app. by right. }
  assert (Hpages : forall q x, q ∈ tables T \/ q ∈ N1 -> q <> n -> in_page q x -> mwords s2 x = mwords s1 x).
  { intros q x Hq Hqn Hx. assert (Hqt : q <> t).
    { intros ->. pose proof Hnd as H. apply NoDup_cons in H as [Ht _].
      destruct Hq as [Hq|Hq]; [apply Ht, elem_of_app; by left|by apply (Hnew t Hq); left]. }
    apply L7; [| |destruct Hq as [Hq|Hq]; [|by eapply new_word]].
    - intros j Hj. split; intros ->; [apply Hqt|apply Hqn]; (eapply in_page_eq; [exact Hx|apply slot_page; lia]).
    - intros p Hp Hx'. rewrite (in_page_eq p q x Hx' Hx) in Hp. apply elem_of_app in Hp as [Hp|Hp].
      + apply (Hkt q); [tauto|done].
      + apply (HN2 q); [|done]. destruct Hq as [Hq|Hq]; [left; right; apply elem_of_app; by left|tauto].
    - eapply (writable_word resv kern B); [|exact Hx]. apply (lp_wr Hpre). right. apply elem_of_app. by left. }
  assert (Hslot : forall u, u = t \/ u = n -> mwords s2 (slot u i) = mwords s1 (slot u i)).
  { intros u Hu. apply L7; [| |apply (slot_word resv kern B1); [|done]].
    - intros j Hj. split; intros [_ ?]%slot_inj; lia.
    - intros p Hp Hx'. rewrite (in_page_eq p u _ Hx' (slot_page u i Hi)) in Hp. apply elem_of_app in Hp as [Hp|Hp].
      + apply (Hkt u); [tauto|done].
      + apply (HN2 u); [|done]. destruct Hu as [->| ->]; [left; by left|tauto].
    - destruct Hu as [->| ->]; [|apply child_tail]. apply (lp_wr pre_tail). by left. }
  split.
  - done.
  - rewrite kid_mapped_some. eapply (grown_trans resv B (mpages s) B1 (mpages s1)); [apply Hr|apply Hr1| |exact HG1|exact L2].
    intros a Ha. apply (lp_in Hpre). rewrite kid_mapped_some. apply elem_of_app. by right.
  - cbn [List.map option_map]. apply kids_at_cons. split; [|done]. cbn [kid]. unfold entry. fold (slot t i). rewrite Hslot by tauto.
    eapply shape_frame; [exact Hpar|]. rewrite share_tables. intros q x Hq Hx. apply (Hpages q); [tauto| |done].
    intros ->. apply Hn. right. apply elem_of_app. by left.
  - apply kids_at_cons. split; [|done]. cbn [kid]. unfold entry. fold (slot n i). rewrite Hslot by tauto.
    eapply shape_frame; [exact Hch|]. intros q x Hq Hx.
    assert (HqN : q ∈ N1) by (rewrite <- Hpg; apply elem_of_app; by right).
    apply (Hpages q); [tauto| |done]. intros ->. destruct co as [m|] eqn:E.
    + rewrite (Hold m eq_refl) in HqN. destruct (cp_wr (Hco m eq_refl)) as (_ & Hf & _).
      by apply Hf, (gr_free HG1).
    + pose proof (gr_nodup HG1) as HndN. rewrite <- Hpg in HndN. cbn [new_of] in HndN.
      by apply NoDup_cons in HndN as [? _].
  - cbn [List.map option_map]. by rewrite Hsame, L5.
  - rewrite kid_tables_some, app_assoc, Hpg. by rewrite <- L6.
  - intros x Hx Hq Hs. rewrite scarred_app in Hs. rewrite L7; [apply Hfr|..].
    + apply Hx. lia.
    + apply Hx. lia.
    + intros q Hq'. apply Hq. rewrite kid_tables_some, !elem_of_app in *. tauto.
    + tauto.
    + intros j Hj. apply Hx. lia.
    + intros q Hq'. apply Hq. rewrite kid_tables_some, !elem_of_app in *. tauto.
    + tauto.
Qed.
End cons.

Definition run_loop (rec : Z -> mm buddy -> res (Z * mm buddy)) (lv : nat) (t : Z) (kids : list (option ptree)) (i c : Z) (s : mm buddy) :=
  clone_loop (S fuel) (page_va r0) rec (length kids) i (3 - Z.of_nat lv) (page_va t) c s.

Lemma loop_step rec lv t i c o kids s c1 s1 :
  clone_entry (S fuel) (page_va r0) rec (3 - Z.of_nat lv) (page_va t) i c s = Ok (c1, s1) ->
  run_loop rec lv t (o :: kids) i c s = run_loop rec lv t kids (i + 1) c1 s1.
Proof. intros E. unfold run_loop. cbn [length clone_loop]. by rewrite E. Qed.

(** The loop with the child's table there. *)
Lemma clone_loop_some rec lv t n kids : rec_ok lv rec -> (lv < 3)%nat -> forall i B s k,
  loop_pre lv B s t i kids -> child_pre B s t i n kids -> ready B s (length (kid_tables kids) + k) ->
  exists kids' s' B' N, run_loop rec lv t kids i (page_va n) s = Ok (page_va n, s') /\
    looped lv B s t i kids k [] n kids' B' s' N.
Proof.
  intros Hrec Hlv. induction kids as [|[T|] kids IH]; intros i B s k Hpre Hcp Hr.
  - exists [], s, B, []. split; [done|]. split; done || apply grown_refl || apply kids_at_nil.
  - pose proof Hpre as [[H0 Hl] Hk Hnd Hw Hin]. cbn [length] in Hl. rewrite kid_tables_some in Hr, Hnd.
    apply kids_at_cons in Hk as [Hk _]. apply NoDup_cons in Hnd as [Ht Hnd]. apply NoDup_app in Hnd as (HndT & Hd & _).
    destruct (clone_some_entry resv r0 top kern fuel rec lv t i (Some n) T B s (length (kid_tables kids) + k)%nat)
      as (n1 & T' & s1 & B1 & N1 & E & Hc); try done.
    + lia.
    + intros q Hq. apply Hw. right. apply elem_of_app. by left.
    + intros Hq. apply Ht, elem_of_app. by left.
    + apply Hw. by left.
    + intros m [= <-]. split; [apply Hcp|]. pose proof (cp_ne Hcp) as Hne. split; [intros ->; apply Hne; by left|].
      intros Hq. apply Hne. right. apply elem_of_app. by left.
    + intros a Ha. apply Hin. apply elem_of_app. by left.
    + rewrite length_app in Hr. cbn [cost]. eapply ready_less; [exact Hr|lia].
    + pose proof (ec_old Hc n eq_refl) as ->. cbn [ptr] in E. rewrite (loop_step _ _ _ _ _ _ _ _ _ _ E).
      assert (Hco : forall m, Some n = Some m -> child_pre B s t i m (Some T :: kids)) by (by intros m [= <-]).
      destruct (IH (i + 1) B1 s1 k) as (kids' & s2 & B2 & N2 & E2 & HL2).
      * by eapply pre_tail.
      * by eapply child_tail.
      * exact (ec_ready Hc).
      * exists (Some T' :: kids'), s2, B2, (N1 ++ N2). split; [done|].
        change (@nil Z) with (new_of (Some n) n). by eapply looped_cons.
  - rewrite (loop_step _ _ _ _ _ _ _ _ _ _ (skip_entry rec _ _ _ _ _ _ _ Hpre)).
    pose proof Hcp as [C1 C2 C3]. pose proof (lp_range Hpre) as [H0 Hl]. cbn [length] in Hl.
    destruct (IH (i + 1) B s k) as (kids' & s' & B' & N & E & HL); [by eapply pre_skip| |done|].
    { split; [done|done|]. intros j Hj. apply C3. lia. }
    exists (None :: kids'), s', B', N. split; [done|]. apply looped_skip; try done.
    by eapply looped_zero.
Qed.

(** The loop that still has no table for the child, and comes to an entry that
    needs one. *)
Lemma clone_loop_none rec lv t kids : rec_ok lv rec -> (lv < 3)%nat -> forall i B s k,
  loop_pre lv B s t i kids -> some_kid kids -> ready B s (1 + length (kid_tables kids) + k) ->
  exists n kids' s' B' N, run_loop rec lv t kids i 0 s = Ok (page_va n, s') /\
    looped lv B s t i kids k [n] n kids' B' s' N /\ n ∉ t :: kid_tables kids /\
    forall j, 0 <= j < i -> entry (mwords s') n j = 0.
Proof.
  intros Hrec Hlv. induction kids as [|[T|] kids IH]; intros i B s k Hpre Hne Hr.
  - destruct Hne as [T HT]. by apply elem_of_nil in HT.
  - pose proof Hpre as [[H0 Hl] Hk Hnd Hw Hin]. cbn [length] in Hl. rewrite kid_tables_some in Hr, Hnd.
    apply kids_at_cons in Hk as [Hk _]. apply NoDup_cons in Hnd as [Ht Hnd]. apply NoDup_app in Hnd as (HndT & Hd & _).
    destruct (clone_some_entry resv r0 top kern fuel rec lv t i None T B s (length (kid_tables kids) + k)%nat)
      as (n & T' & s1 & B1 & N1 & E & Hc); try done.
    + lia.
    + intros q Hq. apply Hw. right. apply elem_of_app. by left.
    + intros Hq. apply Ht, elem_of_app. by left.
    + apply Hw. by left.
    + intros a Ha. apply Hin. apply elem_of_app. by left.
    + rewrite length_app in Hr. cbn [cost]. eapply ready_less; [exact Hr|lia].
    + cbn [ptr] in E. rewrite (loop_step _ _ _ _ _ _ _ _ _ _ E).
      assert (Hco : forall m, None = Some m -> child_pre B s t i m (Some T :: kids)) by done.
      assert (Hpre1 : loop_pre lv B1 s1 t (i + 1) kids) by (by eapply pre_tail).
      assert (Hcp1 : child_pre B1 s1 t (i + 1) n kids) by (by eapply child_tail).
      destruct (clone_loop_some rec lv t n kids Hrec Hlv (i + 1) B1 s1 k Hpre1 Hcp1 (ec_ready Hc))
        as (kids' & s2 & B2 & N2 & E2 & HL2).
      exists n, (Some T' :: kids'), s2, B2, (N1 ++ N2). split; [done|]. split; [|split].
      * change [n] with (new_of None n). by eapply looped_cons.
      * assert (HnN : n ∈ N1) by (rewrite <- (ec_pages Hc); by left). intros Hq.
        destruct (Hw n) as (_ & Hf & _); [exact Hq|]. by apply Hf, (gr_free (ec_grown Hc)).
      * intros j Hj. unfold entry. fold (slot n j). rewrite (lo_frame HL2).
        -- apply (ec_zero Hc); [done|lia|lia].
        -- intros j' Hj'. split; intros [? ?]%slot_inj; lia.
        -- intros q Hq Hx. rewrite (in_page_eq q n _ Hx (slot_page n j ltac:(lia))) in Hq. apply elem_of_app in Hq as [Hq|Hq].
           ++ apply (cp_ne Hcp1). by right.
           ++ destruct (cp_wr Hcp1) as (_ & Hf & _). by apply Hf, (gr_free (lo_grown HL2)).
        -- apply (slot_word resv kern B1); [apply Hcp1|lia].
  - rewrite (loop_step _ _ _ _ _ _ _ _ _ _ (skip_entry rec _ _ _ _ _ _ _ Hpre)).
    assert (Hne' : some_kid kids) by (destruct Hne as [T [HT|HT]%elem_of_cons]; [done|by exists T]).
    destruct (IH (i + 1) B s k) as (n & kids' & s' & B' & N & E & HL & Hn & Hz); [by eapply pre_skip|done|done|].
    exists n, (None :: kids'), s', B', N. split; [done|]. pose proof (lp_range Hpre) as [H0 _]. split; [|split].
    + apply looped_skip; try done. rewrite Hz by lia. done.
    + exact Hn.
    + intros j Hj. apply Hz. lia.
Qed.

(** One table, given the cloner of the tables below. *)
Lemma clone_table_ok rec lv : rec_ok lv rec -> (lv < 3)%nat ->
  clone_spec resv r0 top kern lv (fun t => clone_loop (S fuel) (page_va r0) rec n_entries 0 (3 - Z.of_nat lv) t 0).
Proof.
  intros Hrec Hlv t kids B s k Hk Hlen Hne Hnd Hw Hin Hr.
  destruct (clone_loop_none rec lv t kids Hrec Hlv 0 B s k) as (n & kids' & s' & B' & N & E & HL & _); [|done|done|].
  { split; [lia|done|done|done|done]. }
  unfold run_loop in E. rewrite Hlen in E. exists n, kids', s', B', N. split; [exact E|].
  destruct HL as [L1 L2 L3 L4 L5 L6 L7]. split; try done. intros x Hx Hs. apply L7; [| |done].
  - intros j Hj. split; intros ->; [apply (Hx t); [by left|by apply slot_page]|].
    apply (Hx n); [|by apply slot_page]. right. apply elem_of_app. right. rewrite <- L6. by left.
  - intros q Hq. apply Hx. by right.
Qed.

(** [clone_page_table] on a table with [lv] levels below its entries. *)
Lemma clone_page_table_ok lv : (lv < 3)%nat ->
  clone_spec resv r0 top kern lv (fun t => clone_page_table (S fuel) (page_va r0) (S lv) t (3 - Z.of_nat lv)).
Proof.
  induction lv as [|lv IH]; intros Hlv; [by apply clone_table_ok|].
  apply (clone_table_ok (fun t => clone_page_table (S fuel) (page_va r0) (S lv) t (3 - Z.of_nat (S lv) + 1))); [|done].
  replace (3 - Z.of_nat (S lv) + 1) with (3 - Z.of_nat lv) by lia. apply IH. lia.
Qed.
End loop.
