(* ===== verification/CowSpec.v ===== *)
(** * What cloning an address space promises *)
From S2P Require Import Prelude KList Buddy BuddyInv BuddyOps BuddyInit BuddyRef Mmap MmapInv MmapKernel Highhalf HighhalfThm Cow PageUse CowTree CowClone CowLoop.

Section clone_space.
Context (resv r0 top : Z) (kern : Z -> Prop) (fuel : nat).
Notation ready := (ready resv r0 top kern).
Notation writable := (writable resv kern).
Notation looped := (looped resv r0 top kern).
Notation loop_pre := (loop_pre resv kern).
Notation child_pre := (child_pre resv kern).

(** A valid entry of the root: copied, then pointed to the copy of its table. *)
Lemma clone_l0_entry t i n t' kids rest B s k :
  loop_pre 3 B s t i (Some (Table t' kids) :: rest) -> child_pre B s t i n (Some (Table t' kids) :: rest) ->
  ready B s (length (t' :: kid_tables kids) + k) ->
  exists T' s' B' N,
    (forall m, clone_l0 (S fuel) (page_va r0) (S m) i (page_va t) (page_va n) s = clone_l0 (S fuel) (page_va r0) m (i + 1) (page_va t) (page_va n) s') /\
    entry_cloned resv r0 top kern 3 B s t i (Some n) (Table t' kids) k n T' B' s' N.
Proof.
  intros [[H0 Hl] Hk Hnd Hw Hin] [Hwn C2 C3] Hr. pose proof Hwn as (Hnr & Hnf & Hnk & Hnh). cbn [length] in Hl. rewrite kid_tables_some in *.
  assert (Hi : 0 <= i < 512) by lia. apply kids_at_cons in Hk as [Hsh _]. cbn [kid] in Hsh.
  apply NoDup_cons in Hnd as [Ht Hnd]. apply NoDup_app in Hnd as (HndT & _ & _).
  assert (HwT : forall q, q ∈ t' :: kid_tables kids -> writable B q).
  { intros q Hq. apply Hw. right. apply elem_of_app. by left. }
  destruct (Hw t) as (Htr & Htf & _); [by left|].
  assert (HnT : n ∉ t' :: kid_tables kids) by (intros Hq; apply C2; right; apply elem_of_app; by left).
  assert (Hnt : n <> t) by (intros ->; apply C2; by left).
  assert (HtT : t ∉ t' :: kid_tables kids) by (intros Hq; apply Ht; apply elem_of_app; by left).
  pose proof Hsh as (Hv & Hty & Ha & Ht'r & Hlen & Hne & Hk). set (e := entry (mwords s) t i) in *.
  set (s1 := on_words (wr_entry (page_va n) i e) s).
  assert (Hs1 : forall P, n ∉ P -> same_on (mwords s) (mwords s1) P).
  { intros P HP q x Hq Hx. unfold s1. rewrite wr_words, decide_False by done || (intros ->; apply HP;
      by rewrite <- (in_page_eq q n (slot n i)) by (done || by apply slot_page)). done. }
  assert (Hsh1 : shape 3 (mwords s1) e (Table t' kids)) by (eapply shape_frame; [exact Hsh|by apply Hs1]).
  assert (He1 : entry (mwords s1) t i = e).
  { apply (same_on_entry _ _ [t]); [apply Hs1; by rewrite list_elem_of_singleton|by left|done]. }
  assert (Hr1 : ready B s1 (length (t' :: kid_tables kids) + k)) by (by apply ready_wr).
  destruct (clone_page_table_ok resv r0 top kern fuel 2 ltac:(lia) t' kids B s1 k) as (n' & kids' & s2 & B2 & N & E & Hc); try done.
  { apply Hsh1. }
  { intros a Hx. apply Hin. rewrite kid_mapped_some. apply elem_of_app. by left. }
  pose proof Hc as [Hr2 HG2 _ _ _ Hpg Hfr].
  assert (Hn'N : n' ∈ N) by (rewrite <- Hpg; by left).
  assert (Hn' : writable B2 n') by (by eapply (writable_new resv r0 top kern B s1 B2 s2)).
  assert (HNn : forall q, writable B q -> q ∉ N).
  { intros q Hq HqN. by eapply (fresh_ne resv r0 top kern B s1 B2 s2 N _ _ _ q q). }
  assert (E2 : entry (mwords s2) n i = e).
  { transitivity (entry (mwords s1) n i); [|unfold s1; by rewrite wr_entry_at, decide_True].
    unfold entry. apply Hfr; [|by apply (slot_word resv kern B)]. intros q Hq Hx. rewrite (in_page_eq q n _ Hx (slot_page n i Hi)) in Hq.
    change (n ∈ (t' :: kid_tables kids) ++ N) in Hq. apply elem_of_app in Hq as [Hq|Hq]; [done|]. by apply (HNn n). }
  set (s3 := on_words (wr_entry (page_va n) i (set_address n' e)) s2).
  exists (Table n' kids'), s3, B2, (N ++ []). split.
  - intros m. cbn [clone_l0]. rewrite (rd_words t i) by done. fold e. rewrite (proj2 (Z.eqb_neq _ _) Hv).
    fold (page_va (address e)). rewrite Ha. change (3 - Z.of_nat 2) with 1 in E. fold s1. rewrite E. cbn [mbind res_bind].
    rewrite (proj2 (Z.eqb_neq _ _) (page_va_nonzero n' (proj1 Hn'))), (rd_words n i), E2 by done.
    by replace (Z.shiftr (va_to_pa (page_va n')) 12) with n' by (symmetry; apply (page_va_pfn0 n'), Hn').
  - assert (Hc3 : entry_cloned resv r0 top kern 3 B s1 t i (Some n) (Table t' kids) k n (Table n' kids') B2 s3 (N ++ [])).
    { eapply (link_cloned resv r0 top kern 2 B s1 t i (Some n) t' kids k _ n n' kids' B2 B2 s2); try done.
      - by rewrite He1.
      - apply Hr.
      - apply Hn'.
      - apply ready_wr; [done| |done]. by eapply (writable_grown resv r0 top kern B s1 B2 s2).
      - apply grown_refl.
      - by intros m [= <-].
      - by apply HNn.
      - apply HNn, Hw. by left.
      - unfold s3. by rewrite wr_words, decide_True, He1.
      - intros q [->|[->|[Hq|Hq]%elem_of_app]%elem_of_cons]%elem_of_cons; [apply Hw; by left|done|by apply HwT|].
        intros [_ Hh]. by apply (gr_cold HG2 q Hq).
      - intros x Hx _. unfold s3. rewrite wr_words, !decide_False; [done|by intros [? _]|done|done|done]. }
    destruct Hc3 as [D1 D2 D3 D4 D5 D6 D7 D8 D9]. split; try done.
    intros x Hx1 Hx2 Hx3 Hx4. rewrite D9 by done. unfold s1. by rewrite wr_words, decide_False.
Qed.

Lemma clone_l0_skip t i n rest B s m :
  loop_pre 3 B s t i (None :: rest) ->
  clone_l0 (S fuel) (page_va r0) (S m) i (page_va t) n s = clone_l0 (S fuel) (page_va r0) m (i + 1) (page_va t) n s.
Proof.
  intros [[H0 Hl] Hk _ Hw _]. cbn [length] in Hl. destruct (Hw t) as (Ht & _); [by left|].
  apply kids_at_cons in Hk as [Hk _]. cbn [clone_l0]. rewrite rd_words by (done || lia). cbn [kid] in Hk. by rewrite Hk.
Qed.

Lemma clone_l0_ok t n kids : forall i B s k,
  root_kids kids -> loop_pre 3 B s t i kids -> child_pre B s t i n kids -> ready B s (length (kid_tables kids) + k) ->
  exists kids' s' B' N, clone_l0 (S fuel) (page_va r0) (length kids) i (page_va t) (page_va n) s = Ok s' /\
    looped 3 B s t i kids k [] n kids' B' s' N.
Proof.
  induction kids as [|[T|] kids IH]; intros i B s k Hroot Hpre Hcp Hr.
  - exists [], s, B, []. split; [done|]. split; done || apply grown_refl || apply kids_at_nil.
  - destruct T as [e|t' ks]; [destruct (Hroot e); by left|]. rewrite kid_tables_some, length_app in Hr.
    assert (Hroot' : root_kids kids) by (intros e He; apply (Hroot e); by right).
    destruct (clone_l0_entry t i n t' ks kids B s (length (kid_tables kids) + k)%nat Hpre Hcp) as (T' & s1 & B1 & N1 & E & Hc).
    { eapply ready_less; [exact Hr|]. rewrite tables_kids. lia. }
    assert (Hco : forall m, Some n = Some m -> child_pre B s t i m (Some (Table t' ks) :: kids)) by (by intros m [= <-]).
    destruct (IH (i + 1) B1 s1 k) as (kids' & s2 & B2 & N2 & E2 & HL2).
    + done.
    + by eapply pre_tail.
    + by eapply child_tail.
    + exact (ec_ready Hc).
    + exists (Some T' :: kids'), s2, B2, (N1 ++ N2). split; [cbn [length]; by rewrite E|].
      change (@nil Z) with (new_of (Some n) n). by eapply looped_cons.
  - pose proof Hcp as [C1 C2 C3]. pose proof (lp_range _ _ _ _ _ _ _ _ Hpre) as Hl. cbn [length] in Hl. cbn [length]. rewrite (clone_l0_skip _ _ _ _ _ _ _ Hpre).
    assert (Hroot' : root_kids kids) by (intros e He; apply (Hroot e); by right).
    destruct (IH (i + 1) B s k Hroot') as (kids' & s' & B' & N & E & HL); [by eapply pre_skip| |done|].
    { split; [done|done|]. intros j Hj. apply C3. lia. }
    exists (None :: kids'), s', B', N. split; [done|]. apply looped_skip; try done. by eapply looped_zero.
Qed.

(** The root of the copy, before the loop. *)
Lemma clone_root r kids B s k :
  space (mwords s) r kids -> NoDup (r :: kid_tables kids) -> (forall q, q ∈ r :: kid_tables kids -> writable B q) ->
  (forall a, a ∈ kid_mapped kids -> in_use B a) -> ready B s (S k) ->
  exists n s1 B1, buddy_alloc_pt (S fuel) (page_va r0) s = Ok (page_va n, s1) /\ ready B1 s1 k /\
    grown B (mpages s) B1 (mpages s1) [n] [] /\ 0 <= n < NPAGES /\
    (forall x, ~ scarred resv [n] x -> mwords s1 x = if decide (in_page n x) then 0 else mwords s x) /\
    loop_pre 3 B1 s1 r 0 kids /\ child_pre B1 s1 r 0 n kids.
Proof.
  intros [Hrr Hl Hk Hroot] Hnd Hw Hin Hr.
  destruct (alloc_pt_ok resv r0 top kern fuel B s k Hr) as (n & s1 & B1 & E & Hr1 & HG1 & Hn & Hw1).
  exists n, s1, B1. do 5 (split; [done|]).
  assert (HnP : n ∉ r :: kid_tables kids).
  { intros Hq. eapply (fresh_ne resv r0 top kern B s B1 s1 [n] _ _ _ n n); [exact Hr|exact Hr1|exact HG1|by apply Hw|by left|done]. }
  assert (Hsame : same_on (mwords s) (mwords s1) (r :: kid_tables kids)).
  { intros q x Hq Hx. rewrite Hw1, decide_False; [done| |eapply (writable_word resv kern B); [by apply Hw|done]].
    intros Hx'. apply HnP. by rewrite <- (in_page_eq q n x). }
  split; split.
  - lia.
  - eapply kids_frame; [exact Hk| |].
    + intros q x Hq. apply Hsame. by right.
    + intros j Hj. apply (same_on_entry _ _ (r :: kid_tables kids)); [done|by left|lia].
  - done.
  - intros q Hq. eapply (writable_grown resv r0 top kern B s B1 s1); [exact Hr|exact Hr1|exact HG1|by apply Hw].
  - intros a Ha. eapply in_use_grown; [exact HG1|by apply Hin].
  - eapply (writable_new resv r0 top kern B s B1 s1); [exact Hr|exact Hr1|exact HG1|by left].
  - done.
  - intros j Hj. unfold entry. rewrite Hw1, decide_True; [done|by apply slot_page|].
    eapply (new_word resv); [exact HG1|by left|by apply slot_page].
Qed.

(** What [clone_virtual_memory] leaves: the parent's tree with its entries
    marked, and the child's on new pages.  Nothing else has changed but, for each
    new page that the kernel maps by a 2 MiB block, the word of the block's first
    page that is taken for its page entry. *)
Record cloned_space (B : blocks) (s : mm buddy) (r : Z) (kids : list (option ptree)) (k : nat)
    (n : Z) (kids' : list (option ptree)) (B' : blocks) (s' : mm buddy) : Prop := {
  cs_ready : ready B' s' k;
  cs_parent : space (mwords s') r (List.map (option_map share) kids);
  cs_child : space (mwords s') n kids';
  cs_same : List.map (option_map erase) kids' = List.map (option_map erase) (List.map (option_map share) kids);
  cs_flags : kid_ptes kids' = List.map share_pte (kid_ptes kids);
  cs_grown : grown B (mpages s) B' (mpages s') (n :: kid_tables kids') (kid_mapped kids);
  cs_frame : forall x, (forall q, q ∈ (r :: kid_tables kids) ++ n :: kid_tables kids' -> ~ in_page q x) ->
    ~ scarred resv (n :: kid_tables kids') x -> mwords s' x = mwords s x;
  cs_va : forall va, 0 <= va -> translate_va (mwords s') va (r * 4096) = translate_va (mwords s) va (r * 4096) /\
    translate_va (mwords s') va (n * 4096) = translate_va (mwords s) va (r * 4096);
}.

Lemma grown_perm B st B' st' N N' A : N ≡ₚ N' -> grown B st B' st' N A -> grown B st B' st' N' A.
Proof.
  intros HP [G1 G2 G3 G4 G5 G6 G7 G8 G9 G10]. split; try done.
  - intros p o. rewrite (G1 p o), HP. done.
  - intros q. rewrite <- HP. apply G2.
  - by rewrite <- HP.
  - intros q. rewrite <- HP. apply G6.
  - intros q. rewrite <- HP. apply G8.
  - intros o q. rewrite <- HP. apply G9.
  - intros q. rewrite <- HP. apply G10.
Qed.

Lemma root_map (f : ptree -> ptree) kids : (forall T e, f T = Page e -> exists e', T = Page e') ->
  root_kids kids -> root_kids (List.map (option_map f) kids).
Proof.
  intros Hf Hr e He. rewrite list_elem_of_In, in_map_iff in He. destruct He as ([T|] & E & HT); [|done].
  injection E as E. destruct (Hf T e E) as [e' ->]. apply (Hr e'). by rewrite list_elem_of_In.
Qed.

Lemma clone_space_ok r kids B s k :
  space (mwords s) r kids -> NoDup (r :: kid_tables kids) -> (forall q, q ∈ r :: kid_tables kids -> writable B q) ->
  (forall a, a ∈ kid_mapped kids -> in_use B a) -> ready B s (length (r :: kid_tables kids) + k) ->
  exists n kids' s' B', clone_virtual_memory (S fuel) (page_va r0) (page_va r) s = Ok (page_va n, s') /\
    cloned_space B s r kids k n kids' B' s'.
Proof.
  intros Hsp Hnd Hw Hin Hr. pose proof Hsp as [Hrr Hl Hk Hroot].
  destruct (clone_root r kids B s (length (kid_tables kids) + k) Hsp Hnd Hw Hin Hr)
    as (n & s1 & B1 & E1 & Hr1 & HG1 & Hn & Hw1 & Hpre & Hcp).
  destruct (clone_l0_ok r n kids 0 B1 s1 k Hroot Hpre Hcp Hr1) as (kids' & s2 & B2 & N & E2 & [L1 L2 L3 L4 L5 L6 L7]).
  rewrite Hl in E2. exists n, kids', s2, B2. unfold clone_virtual_memory. rewrite E1. cbn [mbind res_bind].
  change n_entries with 512%nat. rewrite E2. cbn [mbind res_bind]. split; [done|]. cbn [app] in L6.
  assert (Hsp1 : space (mwords s2) r (List.map (option_map share) kids)).
  { split; [done|by rewrite length_map|done|]. apply root_map; [|done]. intros [e0|] e; [by eexists|done]. }
  assert (Hsp2 : space (mwords s2) n kids').
  { split; [done|apply (f_equal length) in L5; rewrite !length_map in L5; congruence|done|].
    assert (H : root_kids (List.map (option_map erase) kids')).
    { rewrite L5. do 2 (apply root_map; [intros [e0|] e; [by eexists|done]|]). done. }
    intros e He. apply (H e). rewrite list_elem_of_In, in_map_iff. exists (Some (Page e)). by rewrite <- list_elem_of_In. }
  split; try done.
  - rewrite <- kid_ptes_erase, L5, kid_ptes_erase. apply kid_ptes_share.
  - apply (grown_perm _ _ _ _ ([n] ++ N)); [by rewrite <- L6|].
    change (kid_mapped kids) with ([] ++ kid_mapped kids).
    apply (grown_trans resv B (mpages s) B1 (mpages s1)); [apply Hr|apply Hr1|done|done|done].
  - intros x Hx Hs. assert (Hs' : ~ scarred resv [n] x /\ ~ scarred resv N x).
    { split; intros H; apply Hs; eapply scarred_sub; [|exact H| |exact H]; intros q; [intros ->%list_elem_of_singleton; by left|].
      rewrite <- L6. by right. }
    rewrite L7; [| | |tauto].
    + rewrite Hw1, decide_False; [done| |tauto]. apply Hx. apply elem_of_app. right. by left.
    + intros j Hj. split; intros ->; [apply (Hx r); [by left|by apply slot_page]|].
      apply (Hx n); [apply elem_of_app; right; by left|by apply slot_page].
    + intros q Hq. apply Hx. rewrite <- L6 in Hq. apply elem_of_app in Hq as [Hq|Hq]; apply elem_of_app.
      * left. by right.
      * right. by right.
  - intros va Hva. rewrite (translate_tree _ _ _ va Hsp1), (translate_tree _ _ _ va Hsp2), (translate_tree _ _ _ va Hsp) by done.
    rewrite <- (tree_va_erase kids'), L5, tree_va_erase, tree_va_share. done.
Qed.
End clone_space.

(** ** An address space with one page *)

(** The kernel's memory after boot with [layout0]: the tables of [map_high], in
    the first 24 static pages, and the page allocator behind page 2319. *)
Definition boot_words : words := bwords (map_high (2215 * 4096) layout0 (Boot (fun _ => 0) 0)).2.
Notation boot_kern := (fun q : Z => 2215 <= q < 2239).

Lemma boot_words_walk : kernel_walk 2319 2215 boot_kern boot_words.
Proof.
  destruct (map_high_built layout0 2215 (fun _ => 0) layout0_ok ltac:(lia) ltac:(consts; lia)) as (s & E & _).
  unfold boot_words. rewrite E. exact (boot_kernel_walk layout0 2215 (fun _ => 0) s layout0_ok ltac:(lia) ltac:(consts; lia) E).
Qed.

#[global] Opaque boot_words.

Lemma boot_allocator : exists B st, buddy_inv 2319 B st /\ (forall p o u, B !! p = Some (o, u) -> u = false) /\
  stock 2319 9 B 241 /\ forall i, 0 <= i < 60 -> quad 9 B (261903 + 4 * i).
Proof.
  assert (Hr : reserved_for (test_phys_loc layout0) (test_size layout0) = 2319) by reflexivity.
  destruct (initialize_blocks (test_phys_loc layout0) (test_size layout0) (Buddy ∅ ∅)) as (st & B & E & Hi & HB);
    [cbn; lia|cbn; lia|rewrite Hr; consts; lia|]. rewrite Hr in *. clear E Hr. exists B, st.
  split; [done|]. split; [by intros p o u [-> _]%HB|]. split; [exact (boot_stock 2319 B st Hi ltac:(consts; lia) HB)|].
  assert (Hq : forall o i, 2 <= o < 9 -> Z.testbit (NPAGES - 2319) o = true -> 0 <= i -> 4 * i < 2 ^ o ->
    quad 9 B (NPAGES - (NPAGES - 2319) mod 2 ^ (o + 1) + 4 * i)).
  { intros o i Ho Hb Hi0 Hio. exists (NPAGES - (NPAGES - 2319) mod 2 ^ (o + 1)), o.
    split; [apply HB; split_and!; done || lia|]. split; [lia|]. split; [lia|].
    match goal with |- (?x + ?y - ?x) mod 4 = 0 => replace (x + y - x) with (i * 4) by lia end. apply Z.mod_mul. lia. }
  intros i Hir. destruct (Z.lt_ge_cases i 32); [|destruct (Z.lt_ge_cases i 48); [|destruct (Z.lt_ge_cases i 56)]].
  - exact (Hq 7 i ltac:(lia) eq_refl ltac:(lia) ltac:(change (2 ^ 7) with 128; lia)).
  - replace (261903 + 4 * i) with (262031 + 4 * (i - 32)) by lia.
    exact (Hq 6 (i - 32) ltac:(lia) eq_refl ltac:(lia) ltac:(change (2 ^ 6) with 64; lia)).
  - replace (261903 + 4 * i) with (262095 + 4 * (i - 48)) by lia.
    exact (Hq 5 (i - 48) ltac:(lia) eq_refl ltac:(lia) ltac:(change (2 ^ 5) with 32; lia)).
  - replace (261903 + 4 * i) with (262127 + 4 * (i - 56)) by lia.
    exact (Hq 4 (i - 56) ltac:(lia) eq_refl ltac:(lia) ltac:(change (2 ^ 4) with 16; lia)).
Qed.

Lemma one_page_used : exists B st p, buddy_inv 2319 B st /\ B !! p = Some (0, true) /\ refcount (frame_at st p) = 1 /\
  stock 2319 9 B 200 /\ 2319 <= p < NPAGES /\ (forall q o, B !! q = Some (o, true) -> q = p) /\ state (frame_at st p) = PAGE_BUDDY /\
  ~ hot 2319 p /\ exists room, NoDup room /\ (59 <= length room)%nat /\ forall q, q ∈ room -> quad 9 B q.
Proof.
  destruct boot_allocator as (B & st & Hi & Hu & Hst & Hq).
  destruct (alloc_page_ok 2319 9 B st 200 Hi) as (p & st' & B' & _ & Hi' & HG & Hs & Hp & _ & Hh).
  { eapply stock_less; [exact Hst|lia]. }
  exists B', st', p. split; [done|]. split; [apply (gr_used HG); right; split; [by left|done]|].
  split; [apply (gr_new HG); by left|]. split; [done|]. split; [done|].
  split; [intros q o' Hq'; apply (gr_used HG) in Hq' as [Hq'|[Hq' _]]; [by apply Hu in Hq'|by apply list_elem_of_singleton in Hq']|].
  split; [apply (gr_fresh HG); by left|]. split; [done|].
  set (runs := (fun i => 261903 + 4 * i) <$> seqZ 0 60). exists (filter (fun q => q ∉ [p]) runs).
  assert (Hnd : NoDup runs) by (apply (NoDup_fmap_2_strong _); [intros; lia|apply NoDup_seqZ]).
  split; [by apply NoDup_filter|]. split.
  - pose proof (nodup_outside [p] runs Hnd) as Hl. unfold runs in Hl at 1. rewrite length_fmap, length_seqZ in Hl. cbn in Hl. lia.
  - intros q [Hn (i & -> & Hr%elem_of_seqZ)%list_elem_of_fmap]%list_elem_of_filter. apply (gr_quads HG); [|done]. apply Hq. lia.
Qed.

Definition demo_pte (p : Z) : pte := set_address p (parse_block_flags (MAP_USER + MAP_READ + MAP_WRITE) true).

(** Tables in the pages 2300 to 2303, of the static pages too, over the kernel's;
    virtual page 0 is [p]. *)
Definition demo_words (p : Z) : words := fun x =>
  if x =? slot 2300 0 then set_address 2301 3
  else if x =? slot 2301 0 then set_address 2302 3
  else if x =? slot 2302 0 then set_address 2303 3
  else if x =? slot 2303 0 then demo_pte p
  else if (2300 <=? x / 4096) && (x / 4096 <? 2304) then 0
  else boot_words x.

Definition only (T : ptree) : list (option ptree) := Some T :: replicate 511 None.
Definition demo_kids (p : Z) : list (option ptree) := only (Table 2301 (only (Table 2302 (only (Table 2303 (only (Page (demo_pte p)))))))).

Lemma only_kids sh w t T : sh (entry w t 0) T -> (forall j, 0 < j < 512 -> valid (entry w t j) = 0) -> kids_at sh w t 0 (only T).
Proof.
  intros H0 H. apply kids_at_cons. split; [done|]. intros j o Hj. apply lookup_replicate in Hj as [-> Hj].
  cbn [kid]. apply H. lia.
Qed.
Lemma kid_only {A} (f : ptree -> list A) T :
  concat (List.map (fun o => match o with Some T => f T | None => [] end) (only T)) = f T.
Proof. cbn [only List.map concat]. change (concat _) with (@nil A) at 1. by rewrite app_nil_r. Qed.
Lemma only_some T : some_kid (only T).
Proof. exists T. by left. Qed.

Lemma demo_entry p t j : 2300 <= t < 2304 -> 0 <= j < 512 ->
  entry (demo_words p) t j = if j =? 0 then (if t =? 2303 then demo_pte p else set_address (t + 1) 3) else 0.
Proof.
  intros Ht Hj. unfold entry, demo_words. fold (slot t j).
  assert (Hd : slot t j / 4096 = t) by (unfold slot; zdiv). rewrite Hd.
  replace ((2300 <=? t) && (t <? 2304)) with true by lia.
  destruct (Z.eqb_spec j 0) as [->|Hne].
  - assert (Hc : t = 2300 \/ t = 2301 \/ t = 2302 \/ t = 2303) by lia. destruct Hc as [->|[->|[->| ->]]]. all: reflexivity.
  - unfold slot. by rewrite !(proj2 (Z.eqb_neq (t * 4096 + 8 * j) _)) by lia.
Qed.

Lemma demo_space p : space (demo_words p) 2300 (demo_kids p).
Proof.
  assert (Htab : forall lv t T kids, 2300 <= t < 2303 -> kids = only T -> kids_at (shape lv (demo_words p)) (demo_words p) (t + 1) 0 kids ->
    shape (S lv) (demo_words p) (entry (demo_words p) t 0) (Table (t + 1) kids)).
  { intros lv t T kids Ht -> Hk. rewrite demo_entry by lia. cbn [Z.eqb]. rewrite (proj2 (Z.eqb_neq t 2303)) by lia.
    cbn [shape]. rewrite valid_set_address, type_set_address, address_set by (change (2 ^ 36) with 68719476736; lia).
    split; [done|]. split_and!; try (consts; lia); try done. apply only_some. }
  assert (H0 : forall t j, 2300 <= t < 2304 -> 0 < j < 512 -> valid (entry (demo_words p) t j) = 0).
  { intros t j Ht Hj. rewrite demo_entry by lia. by rewrite (proj2 (Z.eqb_neq j 0)) by lia. }
  assert (Hleaf : shape 0 (demo_words p) (entry (demo_words p) 2303 0) (Page (demo_pte p))).
  { rewrite demo_entry by lia. cbn [Z.eqb Pos.eqb shape]. unfold demo_pte. rewrite valid_set_address. split; [done|].
    split; [done|]. by left. }
  split; [consts; lia|done| |].
  - apply only_kids; [|intros; apply H0; lia]. apply (Htab 2%nat 2300 _ _ ltac:(lia) eq_refl).
    apply only_kids; [|intros; apply H0; lia]. apply (Htab 1%nat 2301 _ _ ltac:(lia) eq_refl).
    apply only_kids; [|intros; apply H0; lia]. apply (Htab 0%nat 2302 _ _ ltac:(lia) eq_refl).
    apply only_kids; [done|intros; apply H0; lia].
  - intros e [?|He]%elem_of_cons; [done|]. apply elem_of_replicate in He as [? _]. done.
Qed.

Lemma demo_tables p : kid_tables (demo_kids p) = [2301; 2302; 2303].
Proof. unfold demo_kids, kid_tables. by do 4 (rewrite (kid_only tables); cbn [tables]; try f_equal). Qed.
Lemma demo_mapped p : 0 <= p < NPAGES -> kid_mapped (demo_kids p) = [p].
Proof.
  intros Hp. unfold demo_kids, kid_mapped. do 4 (rewrite (kid_only mapped); cbn [mapped]). f_equal. unfold demo_pte.
  apply address_set. consts. change (2 ^ 36) with 68719476736. lia.
Qed.
Lemma demo_ptes p : kid_ptes (demo_kids p) = [demo_pte p].
Proof. unfold demo_kids, kid_ptes. by do 4 (rewrite (kid_only ptes); cbn [ptes]). Qed.

(** The tables of the process do not lie among the kernel's. *)
Lemma demo_words_walk p : kernel_walk 2319 2215 boot_kern (demo_words p).
Proof.
  apply (kernel_walk_ext 2319 2215 _ boot_words); [|apply boot_words_walk]. intros n x Hn Hx. unfold in_page in Hx.
  assert (Hd : x / 4096 = n) by zdiv. unfold demo_words, slot. rewrite Hd.
  cbn beta in Hn.
  replace ((2300 <=? n) && (n <? 2304)) with false by lia. by rewrite 4!(proj2 (Z.eqb_neq x _)) by lia.
Qed.

Lemma demo_ready : exists B st p, in_use B p /\ 2319 <= p < NPAGES /\ refcount (frame_at st p) = 1 /\ B !! p = Some (0, true) /\
  ready 2319 2215 9 boot_kern B (MM st (demo_words p)) 8 /\
  (forall q, 2300 <= q < 2304 -> writable 2319 boot_kern B q) /\ (forall q o, B !! q = Some (o, true) -> q = p).
Proof.
  destruct one_page_used as (B & st & p & Hi & Hp & Hrc & Hs & Hpr & Hu & _). exists B, st, p.
  split; [exists p, 0; split; [done|lia]|]. split; [done|]. split; [done|]. split; [done|].
  assert (Hlow : forall q, q < 2319 -> ~ free_page B q).
  { intros q Hq Hf. destruct (free_range 2319 B st q Hi Hf). lia. }
  split; [split|].
  - done.
  - apply demo_words_walk.
  - intros q Hq. cbn beta in Hq. lia.
  - eapply stock_less; [exact Hs|lia].
  - split; [|done]. intros q Hq. split; [consts; lia|]. split; [apply Hlow; lia|]. split; [lia|]. intros [? _]. lia.
Qed.


