(* ===== verification/CowReap.v ===== *)
(** * Giving an address space back

    [reap_virtual_memory] drops one reference of every page of the tree [drops]
    lists; the effect of a list of drops on the allocator; and cloning followed
    by reaping the child. *)
From S2P Require Import Prelude KList Buddy BuddyInv BuddyOps BuddyRef Mmap MmapInv MmapKernel Cow PageUse CowTree CowClone CowLoop CowSpec.

Fixpoint drops (T : ptree) : list Z :=
  match T with
  | Page e => [address e]
  | Table t kids => concat (List.map (fun o => match o with Some T => drops T | None => [] end) kids) ++ [t]
  end.
Definition kid_drops (kids : list (option ptree)) : list Z :=
  concat (List.map (fun o => match o with Some T => drops T | None => [] end) kids).

Lemma drops_perm T : drops T ≡ₚ mapped T ++ tables T.
Proof.
  revert T. fix IH 1. intros [e|t kids]; cbn [drops mapped tables]; [done|].
  assert (H : kid_drops kids ≡ₚ kid_mapped kids ++ kid_tables kids).
  { unfold kid_drops, kid_mapped, kid_tables.
    induction kids as [|[T|] kids IHk]; cbn [List.map concat app]; [done| |done]. rewrite IH, IHk. solve_Permutation. }
  fold (kid_drops kids) (kid_mapped kids) (kid_tables kids). rewrite H. solve_Permutation.
Qed.
Lemma kid_drops_perm kids : kid_drops kids ≡ₚ kid_mapped kids ++ kid_tables kids.
Proof.
  induction kids as [|[T|] kids IHk]; [done| |done].
  change (kid_drops (Some T :: kids)) with (drops T ++ kid_drops kids). rewrite IHk, drops_perm, kid_mapped_some, kid_tables_some.
  solve_Permutation.
Qed.

(** [decrement_ref] on every page of a list, in order. *)
Fixpoint unref_all (l : list Z) (s : mm buddy) : res (mm buddy) :=
  match l with
  | [] => Ok s
  | a :: l => s ← unref_page (page_va a) s; unref_all l s
  end.

Lemma unref_words a s s' : unref_page a s = Ok s' -> mwords s' = mwords s.
Proof. unfold unref_page. intros H. inv_bind H. destruct a0. by injection H as <-. Qed.

Lemma unref_all_words l s s' : unref_all l s = Ok s' -> mwords s' = mwords s.
Proof.
  revert s. induction l as [|a l IH]; intros s H; cbn [unref_all] in H; [by injection H as <-|].
  inv_bind H. rewrite (IH _ H). by eapply unref_words.
Qed.

Lemma unref_all_app l l' s : unref_all (l ++ l') s = s ← unref_all l s; unref_all l' s.
Proof.
  revert s. induction l as [|a l IH]; intros s; cbn [app unref_all]; [done|].
  destruct (unref_page (page_va a) s); cbn [mbind res_bind]; [apply IH|done|done|done].
Qed.

(** Two runs from a list of drops agree when they agree on the same words. *)
Lemma unref_all_bind l s (f g : mm buddy -> res (mm buddy)) :
  (forall s', mwords s' = mwords s -> f s' = g s') -> (unref_all l s ≫= f) = (unref_all l s ≫= g).
Proof.
  intros H. destruct (unref_all l s) eqn:E; cbn [mbind res_bind]; try done. apply H. by eapply unref_all_words.
Qed.

(** Reaping a tree is dropping its pages, whatever the counts are. *)
Lemma reap_loop_drops rec lv t kids : 0 <= t < NPAGES ->
  (forall t' ks s, match lv with O => False | S lv' => kids_at (shape lv' (mwords s)) (mwords s) t' 0 ks end ->
    0 <= t' < NPAGES -> length ks = 512%nat -> rec (page_va t') s = unref_all (drops (Table t' ks)) s) ->
  forall i s, 0 <= i -> i + Z.of_nat (length kids) = 512 -> (lv <= 3)%nat -> kids_at (shape lv (mwords s)) (mwords s) t i kids ->
  reap_loop rec (length kids) i (3 - Z.of_nat lv) (page_va t) s = unref_all (kid_drops kids) s.
Proof.
  intros Ht Hrec. induction kids as [|o kids IH]; intros i s H0 Hl Hlv Hk; [done|]. cbn [length] in Hl.
  apply kids_at_cons in Hk as [Hk0 Hk]. cbn [length reap_loop].
  transitivity (s0 ← unref_all (match o with Some T => drops T | None => [] end) s; unref_all (kid_drops kids) s0);
    [|by destruct o; rewrite <- ?unref_all_app].
  assert (He : reap_entry rec (3 - Z.of_nat lv) (page_va t) i s = unref_all (match o with Some T => drops T | None => [] end) s).
  { unfold reap_entry. rewrite rd_words by (done || lia). destruct o as [T|]; cbn [kid] in Hk0; [|by rewrite Hk0].
    rewrite (proj2 (Z.eqb_neq _ _) (shape_valid _ _ _ _ Hk0)). fold (page_va (address (entry (mwords s) t i))).
    destruct T as [e|t' ks].
    - assert (Hp : e = entry (mwords s) t i /\ (lv = 0%nat \/ type (entry (mwords s) t i) = 0)) by (destruct lv; apply Hk0).
      destruct Hp as [-> Hp]. replace ((3 - Z.of_nat lv <? 3) && (type (entry (mwords s) t i) =? 1)) with false
        by (destruct Hp as [->| ->]; [done|by rewrite andb_false_r]).
      cbn [drops unref_all]. by destruct (unref_page _ _).
    - destruct lv as [|lv]; [by destruct Hk0|]. destruct Hk0 as (_ & -> & -> & Hr & Hlen & _ & Hks).
      replace (3 - Z.of_nat (S lv) <? 3) with true by (symmetry; apply Z.ltb_lt; lia). by apply Hrec. }
  rewrite He. apply unref_all_bind. intros s' Hw. apply IH; [lia|lia|done|by rewrite Hw].
Qed.

Lemma reap_S levels t level s : reap_virtual_memory (S levels) t level s =
  (s ← reap_loop (fun t => reap_virtual_memory levels t (level + 1)) 512 0 level t s; unref_page t s).
Proof. done. Qed.

Lemma reap_drops lv t kids s : (lv <= 3)%nat -> 0 <= t < NPAGES -> length kids = 512%nat ->
  kids_at (shape lv (mwords s)) (mwords s) t 0 kids ->
  reap_virtual_memory (S lv) (page_va t) (3 - Z.of_nat lv) s = unref_all (drops (Table t kids)) s.
Proof.
  revert t kids s. induction lv as [|lv IH]; intros t kids s Hlv Ht Hlen Hk; rewrite reap_S;
    cbn [drops]; fold (kid_drops kids); rewrite unref_all_app.
  - pose proof (reap_loop_drops (fun t => reap_virtual_memory 0 t (3 - Z.of_nat 0 + 1)) 0 t kids Ht) as E. rewrite Hlen in E.
    rewrite E; [|by intros ? ? ? []|lia|lia|lia|done].
    cbn [unref_all]. apply unref_all_bind. intros s' _. by destruct (unref_page _ _).
  - pose proof (reap_loop_drops (fun t => reap_virtual_memory (S lv) t (3 - Z.of_nat (S lv) + 1)) (S lv) t kids Ht) as E.
    rewrite Hlen in E. rewrite E; [| |lia|lia|lia|done].
    + cbn [unref_all]. apply unref_all_bind. intros s' _. by destruct (unref_page _ _).
    + intros t' ks s' Hks Ht' Hlen'. replace (3 - Z.of_nat (S lv) + 1) with (3 - Z.of_nat lv) by lia. apply IH; done || lia.
Qed.

(** ** The effect of a list of drops on the allocator *)

Record dropped (resv : Z) (B : blocks) (st : buddy) (l : list Z) (B' : blocks) (st' : buddy) : Prop := {
  dr_inv : buddy_inv resv B' st';
  dr_used : forall q o, B' !! q = Some (o, true) <->
    B !! q = Some (o, true) /\ (q ∈ l -> refs q l < refcount (frame_at st q));
  dr_count : forall q o, B' !! q = Some (o, true) -> refcount (frame_at st' q) = refcount (frame_at st q) - refs q l;
}.

(** Every page of the list heads a block in use with enough references. *)
Definition droppable (B : blocks) (st : buddy) (l : list Z) : Prop := forall a, a ∈ l ->
  (exists o, B !! a = Some (o, true)) /\ refs a l <= refcount (frame_at st a) < 2 ^ 32.

Section drop.
Context (resv : Z).

(** One drop of the list. *)
Lemma drop_one B st a l : buddy_inv resv B st -> droppable B st (a :: l) ->
  exists v st1 B1, decrement_ref (page_va a) st = Ok (v, st1) /\ dropped resv B st [a] B1 st1 /\ droppable B1 st1 l.
Proof.
  intros Hi Hd. destruct (Hd a (list_elem_of_here a l)) as [[o Ho] Hrc]. cbn [refs] in Hrc. rewrite Z.eqb_refl in Hrc.
  pose proof (refs_nonneg a l) as Hnn. rewrite <- (Z.add_0_r (page_va a)).
  destruct (decide (refcount (frame_at st a) = 1)) as [H1|H1].
  - destruct (decrement_ref_last resv B st a o 0 Hi Ho ltac:(lia) H1) as (st1 & B1 & E & [Hi1 Hu Hk _]).
    assert (Hal : a ∉ l) by (intros H%refs_in; lia).
    assert (Hkept : forall q oq, q <> a -> B !! q = Some (oq, true) -> frame_at st1 q = frame_at st q).
    { intros q oq Hq Hb. apply (Hk q oq q Hq Hb). destruct (block_range _ _ _ _ _ _ Hi Hb). lia. }
    exists 0, st1, B1. split; [done|]. split; [split; [done| |]|].
    + intros q oq. rewrite Hu, list_elem_of_singleton. cbn [refs]. split; [intros [Hq Hb]; split; [done|]; by intros ->|].
      intros [Hb Hlt]. split; [|done]. intros ->. specialize (Hlt eq_refl). rewrite Z.eqb_refl in Hlt. lia.
    + intros q oq [Hq Hb]%Hu. cbn [refs]. rewrite (Hkept q oq), (proj2 (Z.eqb_neq a q)) by congruence. lia.
    + intros b Hb. assert (b <> a) by congruence. destruct (Hd b (list_elem_of_further _ _ _ Hb)) as [[ob Hob] Hrb].
      cbn [refs] in Hrb. rewrite (proj2 (Z.eqb_neq a b)) in Hrb by congruence. split; [exists ob; by apply Hu|].
      rewrite (Hkept b ob) by done. lia.
  - destruct (decrement_ref_shared resv B st a o 0 Hi Ho ltac:(lia) ltac:(lia)) as (st1 & E & Hi1 & HF).
    assert (HR : forall q, refcount (frame_at st1 q) = refcount (frame_at st q) - refs q [a]).
    { intros q. rewrite HF. cbn [refs]. case_decide as Hq; [subst; rewrite Z.eqb_refl; cbn; lia|].
      rewrite (proj2 (Z.eqb_neq a q)) by congruence. lia. }
    exists (refcount (frame_at st a) - 1), st1, B. split; [done|]. split; [split; [done| |]|].
    + intros q oq. rewrite list_elem_of_singleton. split; [|tauto]. intros Hb. split; [done|]. intros ->. cbn [refs].
      rewrite Z.eqb_refl. lia.
    + intros q oq _. apply HR.
    + intros b Hb. destruct (Hd b (list_elem_of_further _ _ _ Hb)) as [Hob Hrb]. split; [done|]. rewrite HR.
      cbn [refs] in *. destruct (a =? b); lia.
Qed.

Lemma drop_all l B s : buddy_inv resv B (mpages s) -> droppable B (mpages s) l ->
  exists st' B', unref_all l s = Ok (MM st' (mwords s)) /\ dropped resv B (mpages s) l B' st'.
Proof.
  revert B s. induction l as [|a l IH]; intros B s Hi Hd.
  - exists (mpages s), B. split; [by destruct s|]. split; [done| |].
    + intros q o. split; [|tauto]. intros H. split; [done|]. intros Hq. by apply elem_of_nil in Hq.
    + intros q o _. cbn. lia.
  - destruct (drop_one B (mpages s) a l Hi Hd) as (v & st1 & B1 & E & [Hi1 U1 C1] & Hd1).
    destruct (IH B1 (MM st1 (mwords s)) Hi1 Hd1) as (st2 & B2 & E2 & [Hi2 U2 C2]).
    exists st2, B2. cbn [unref_all]. unfold unref_page. rewrite E. cbn [mbind res_bind]. split; [done|].
    assert (Hrefs : forall q, refs q (a :: l) = refs q [a] + refs q l) by (intros q; exact (refs_app q [a] l)).
    assert (Hgone : forall q, q ∉ l -> refs q l = 0) by (intros q; apply refs_notin). cbn [mpages] in *.
    split; [done| |].
    + intros q o. rewrite Hrefs, elem_of_cons. split.
      * intros [Hb H2]%U2. pose proof (C1 q o Hb) as C. apply U1 in Hb as [Hb H1]. rewrite list_elem_of_singleton in H1.
        split; [done|]. intros Hq. destruct (decide (q ∈ l)) as [Hl|Hl]; [specialize (H2 Hl); lia|].
        rewrite (Hgone q Hl). destruct Hq as [Hq|Hq]; [specialize (H1 Hq); lia|done].
      * intros (Hb & H). assert (Hb1 : B1 !! q = Some (o, true)).
        { apply U1. rewrite list_elem_of_singleton. split; [done|]. intros Hq. specialize (H (or_introl Hq)).
          pose proof (refs_nonneg q l). lia. }
        apply U2. split; [done|]. intros Hq. rewrite (C1 q o Hb1). specialize (H (or_intror Hq)). lia.
    + intros q o Hb. rewrite (C2 q o Hb), Hrefs. apply U2 in Hb as [Hb _]. rewrite (C1 q o Hb). lia.
Qed.
End drop.

Lemma dropped_perm resv B st l l' B' st' : l ≡ₚ l' -> dropped resv B st l B' st' -> dropped resv B st l' B' st'.
Proof.
  intros HP [D1 D2 D3]. split; [done| |].
  - intros q o. rewrite (D2 q o). by rewrite HP.
  - intros q o Hb. rewrite (D3 q o Hb). by rewrite HP.
Qed.

Lemma reap_space_ok resv B s r kids :
  buddy_inv resv B (mpages s) -> space (mwords s) r kids -> droppable B (mpages s) (kid_mapped kids ++ r :: kid_tables kids) ->
  exists st' B', reap_virtual_memory 4 (page_va r) 0 s = Ok (MM st' (mwords s)) /\
    dropped resv B (mpages s) (kid_mapped kids ++ r :: kid_tables kids) B' st'.
Proof.
  intros Hi [Hr Hl Hk _] Hd.
  assert (HP : drops (Table r kids) ≡ₚ kid_mapped kids ++ r :: kid_tables kids) by (rewrite drops_perm; done).
  destruct (drop_all resv (drops (Table r kids)) B s Hi) as (st' & B' & E & HD).
  { intros a Ha. rewrite HP in Ha. rewrite HP. by apply Hd. }
  exists st', B'. split; [|by eapply dropped_perm].
  rewrite <- E. exact (reap_drops 3 r kids s ltac:(lia) Hr Hl Hk).
Qed.

(** C22: [reap_virtual_memory] ([exit]) drops one reference of a page for every
    entry that names it and every table of the address space; a block whose last
    references these are is freed, all others stay in use with what is left. *)
Theorem reap_virtual_memory_refines resv B s r kids :
  buddy_inv resv B (mpages s) -> space (mwords s) r kids -> droppable B (mpages s) (kid_mapped kids ++ r :: kid_tables kids) ->
  exists s' B', reap_virtual_memory 4 (page_va r) 0 s = Ok s' /\ mwords s' = mwords s /\ buddy_inv resv B' (mpages s') /\
    (forall q o, B' !! q = Some (o, true) <-> B !! q = Some (o, true) /\
      (q ∈ kid_mapped kids ++ r :: kid_tables kids ->
        refs q (kid_mapped kids ++ r :: kid_tables kids) < refcount (frame_at (mpages s) q))) /\
    (forall q o, B' !! q = Some (o, true) -> refcount (frame_at (mpages s') q) =
      refcount (frame_at (mpages s) q) - refs q (kid_mapped kids ++ r :: kid_tables kids)).
Proof.
  intros Hi Hsp Hd. destruct (reap_space_ok resv B s r kids Hi Hsp Hd) as (st' & B' & E & [D1 D2 D3]).
  exists (MM st' (mwords s)), B'. done.
Qed.

(** The counts after cloning, and that the copy can be reaped. *)
Section after_clone.
Context (resv r0 top : Z) (kern : Z -> Prop) (r : Z) (kids : list (option ptree)) (B : blocks) (s : mm buddy) (k : nat).
Hypothesis (Hi : buddy_inv resv B (mpages s))
  (Hhead : forall a, a ∈ kid_mapped kids -> exists o, B !! a = Some (o, true))
  (Hrc : forall q o, B !! q = Some (o, true) -> 0 < refcount (frame_at (mpages s) q) /\
    refcount (frame_at (mpages s) q) + refs q (kid_mapped kids) < 2 ^ 32).
Context (n : Z) (kids' : list (option ptree)) (s' : mm buddy) (B' : blocks).
Hypothesis (Hc : cloned_space resv r0 top kern B s r kids k n kids' B' s').

Let HG := cs_grown _ _ _ _ _ _ _ _ _ _ _ _ _ Hc.

Lemma head_in_use q o : B !! q = Some (o, true) -> in_use B q.
Proof. intros Hq. exists q, o. split; [done|]. destruct (block_range _ _ _ _ _ _ Hi Hq). lia. Qed.

Lemma child_mapped : kid_mapped kids' = kid_mapped kids.
Proof.
  rewrite !mapped_ptes, (cs_flags _ _ _ _ _ _ _ _ _ _ _ _ _ Hc), map_map. apply map_ext. intros e. apply share_address.
Qed.

Lemma head_not_new q o : B !! q = Some (o, true) -> q ∉ n :: kid_tables kids'.
Proof. intros Hq HqN. by apply (free_not_used resv B (mpages s) q Hi (gr_free HG q HqN)), (head_in_use q o). Qed.

Lemma new_not_mapped q : q ∈ n :: kid_tables kids' -> q ∉ kid_mapped kids.
Proof. intros Hq [o Ho]%Hhead. by apply (head_not_new q o). Qed.

Lemma count_after q o : B !! q = Some (o, true) ->
  refcount (frame_at (mpages s') q) = refcount (frame_at (mpages s) q) + refs q (kid_mapped kids).
Proof. intros Hq. destruct (Hrc q o Hq). apply (grown_count _ _ _ _ _ _ q HG); [by eapply head_in_use|lia|lia]. Qed.

Lemma copy_droppable : droppable B' (mpages s') (kid_mapped kids' ++ n :: kid_tables kids').
Proof.
  rewrite child_mapped. intros a Ha. apply elem_of_app in Ha as [Ha|Ha]; rewrite refs_app.
  - destruct (Hhead a Ha) as [o Ho]. split; [exists o; apply (gr_used HG); by left|]. destruct (Hrc a o Ho).
    rewrite (count_after a o Ho), (refs_notin a (n :: kid_tables kids')) by (by eapply head_not_new). lia.
  - split; [exists 0; apply (gr_used HG); by right|].
    rewrite (gr_new HG a Ha), (refs_notin a (kid_mapped kids)) by (by apply new_not_mapped).
    pose proof (refs_nodup a _ (gr_nodup HG)). lia.
Qed.

(** Dropping the copy leaves the blocks and counts of before. *)
Lemma copy_dropped B'' st'' : dropped resv B' (mpages s') (kid_mapped kids' ++ n :: kid_tables kids') B'' st'' ->
  (forall q o, B'' !! q = Some (o, true) <-> B !! q = Some (o, true)) /\
  (forall q o, B !! q = Some (o, true) -> refcount (frame_at st'' q) = refcount (frame_at (mpages s) q)).
Proof.
  rewrite child_mapped. intros [_ D2 D3].
  assert (Hiff : forall q o, B'' !! q = Some (o, true) <-> B !! q = Some (o, true)).
  { intros q o. rewrite (D2 q o), (gr_used HG q o), refs_app, elem_of_app. split.
    - intros [[Hq|[HqN _]] Hlt]; [done|]. specialize (Hlt (or_intror HqN)).
      rewrite (gr_new HG q HqN), (refs_notin q (kid_mapped kids)) in Hlt by (by apply new_not_mapped).
      pose proof (refs_in q _ HqN). lia.
    - intros Hq. split; [by left|]. intros _. destruct (Hrc q o Hq).
      rewrite (count_after q o Hq), (refs_notin q (n :: kid_tables kids')) by (by eapply head_not_new). lia. }
  split; [done|]. intros q o Hq. rewrite (D3 q o) by (by apply Hiff).
  rewrite refs_app, (count_after q o Hq), (refs_notin q (n :: kid_tables kids')) by (by eapply head_not_new). lia.
Qed.
End after_clone.

(** C16: cloning an address space and reaping the copy ([fork], then [exit] of
    the child) is neutral: the same blocks are in use as before, with the same
    reference counts, and the parent's addresses translate as before. The
    kernel's tables map RAM as boot builds them, by 2 MiB blocks among others
    ([kernel_walk]), and the allocator holds a stock of free pages large enough
    for the copy; the words of the first page of a block may change on the way. *)
Theorem clone_reap_roundtrip resv r0 top kern fuel r kids B s k :
  space (mwords s) r kids -> NoDup (r :: kid_tables kids) -> (forall q, q ∈ r :: kid_tables kids -> writable resv kern B q) ->
  (forall a, a ∈ kid_mapped kids -> exists o, B !! a = Some (o, true)) ->
  (forall q o, B !! q = Some (o, true) -> 0 < refcount (frame_at (mpages s) q) /\
    refcount (frame_at (mpages s) q) + refs q (kid_mapped kids) < 2 ^ 32) ->
  ready resv r0 top kern B s (length (r :: kid_tables kids) + k) ->
  exists n s' s'' B'', clone_virtual_memory (S fuel) (page_va r0) (page_va r) s = Ok (page_va n, s') /\
    reap_virtual_memory 4 (page_va n) 0 s' = Ok s'' /\ buddy_inv resv B'' (mpages s'') /\
    (forall q o, B'' !! q = Some (o, true) <-> B !! q = Some (o, true)) /\
    (forall q o, B !! q = Some (o, true) -> refcount (frame_at (mpages s'') q) = refcount (frame_at (mpages s) q)) /\
    (forall va, 0 <= va -> translate_va (mwords s'') va (r * 4096) = translate_va (mwords s) va (r * 4096)).
Proof.
  intros Hsp Hnd Hw Hhead Hrc Hr. pose proof (rd_inv _ _ _ _ _ _ _ Hr) as Hi.
  assert (Hin : forall a, a ∈ kid_mapped kids -> in_use B a).
  { intros a [o Ha]%Hhead. by apply (head_in_use resv B s Hi a o). }
  destruct (clone_space_ok resv r0 top kern fuel r kids B s k Hsp Hnd Hw Hin Hr) as (n & kids' & s' & B' & E & Hc).
  destruct (reap_space_ok resv B' s' n kids' (rd_inv _ _ _ _ _ _ _ (cs_ready _ _ _ _ _ _ _ _ _ _ _ _ _ Hc))
    (cs_child _ _ _ _ _ _ _ _ _ _ _ _ _ Hc)) as (st'' & B'' & E2 & HD); [by eapply copy_droppable|].
  exists n, s', (MM st'' (mwords s')), B''. split; [done|]. split; [done|]. split; [apply HD|].
  destruct (copy_dropped resv r0 top kern r kids B s k Hi Hhead Hrc n kids' s' B' Hc B'' st'' HD) as [Hu Hn].
  split; [done|]. split; [done|]. intros va Hva. by apply (cs_va _ _ _ _ _ _ _ _ _ _ _ _ _ Hc).
Qed.

(** The demonstration space satisfies the hypotheses. *)
Lemma demo_cloneable : exists B st p, 2319 <= p < NPAGES /\ B !! p = Some (0, true) /\
  ready 2319 2215 9 boot_kern B (MM st (demo_words p)) (length (2300 :: kid_tables (demo_kids p)) + 4) /\
  NoDup (2300 :: kid_tables (demo_kids p)) /\
  (forall q, q ∈ 2300 :: kid_tables (demo_kids p) -> writable 2319 boot_kern B q) /\
  (forall a, a ∈ kid_mapped (demo_kids p) -> exists o, B !! a = Some (o, true)) /\
  (forall q o, B !! q = Some (o, true) -> 0 < refcount (frame_at st q) /\
    refcount (frame_at st q) + refs q (kid_mapped (demo_kids p)) < 2 ^ 32).
Proof.
  destruct demo_ready as (B & st & p & Hp & Hpr & Hrc & Hb & Hr & Hw & Hu). exists B, st, p.
  rewrite demo_tables, demo_mapped by (consts; lia). split_and!; try done; try lia.
  - repeat constructor; set_solver.
  - intros q Hq. apply Hw. set_solver by lia.
  - intros a ->%list_elem_of_singleton. by exists 0.
  - intros q o Hq. rewrite (Hu _ _ Hq), Hrc. cbn [refs]. rewrite Z.eqb_refl. done.
Qed.

Lemma reap_virtual_memory_refines_witness : exists (B : blocks) s n s', buddy_inv 2319 B (mpages s) /\
  reap_virtual_memory 4 (page_va n) 0 s = Ok s' /\ mwords s' = mwords s.
Proof.
  destruct demo_cloneable as (B & st & p & Hpr & Hb & Hr & Hnd & Hw & Hhead & Hrc).
  pose proof (rd_inv _ _ _ _ _ _ _ Hr) as Hi.
  destruct (clone_space_ok 2319 2215 9 boot_kern 0 2300 (demo_kids p) B (MM st (demo_words p)) 4 (demo_space p) Hnd Hw)
    as (n & kids' & s' & B' & E & Hc); [|done|].
  { intros a [o Ha]%Hhead. by apply (head_in_use 2319 B (MM st (demo_words p)) Hi a o). }
  destruct (reap_virtual_memory_refines 2319 B' s' n kids') as (s'' & B'' & E2 & Hw2 & _).
  - exact (rd_inv _ _ _ _ _ _ _ (cs_ready _ _ _ _ _ _ _ _ _ _ _ _ _ Hc)).
  - exact (cs_child _ _ _ _ _ _ _ _ _ _ _ _ _ Hc).
  - by eapply copy_droppable.
  - exists B', s', n, s''. split; [exact (rd_inv _ _ _ _ _ _ _ (cs_ready _ _ _ _ _ _ _ _ _ _ _ _ _ Hc))|]. split; [exact E2|exact Hw2].
Defined.

Lemma clone_reap_roundtrip_witness : exists (B : blocks) st p n s' s'', B !! p = Some (0, true) /\
  clone_virtual_memory 1 (page_va 2215) (page_va 2300) (MM st (demo_words p)) = Ok (page_va n, s') /\
  reap_virtual_memory 4 (page_va n) 0 s' = Ok s'' /\ refcount (frame_at (mpages s'') p) = refcount (frame_at st p).
Proof.
  destruct demo_cloneable as (B & st & p & Hpr & Hb & Hr & Hnd & Hw & Hhead & Hrc).
  destruct (clone_reap_roundtrip 2319 2215 9 boot_kern 0 2300 (demo_kids p) B (MM st (demo_words p)) 4
    (demo_space p) Hnd Hw Hhead Hrc Hr) as (n & s' & s'' & B'' & E & E2 & _ & _ & Hcnt & _).
  exists B, st, p, n, s', s''. split; [exact Hb|]. split; [exact E|]. split; [exact E2|]. apply (Hcnt p 0 Hb).
Defined.
