(* ===== verification/Sched.v ===== *)
(** * The scheduler ([system/scheduler.c])

    Every routine that changes the run queue or the current process.  The queue
    is the intrusive list of the [runqueue] nodes; a context switch is the
    change of [sp], [TTBR0_EL1] and [TPIDR_EL1] that [contextswitch.S] makes. *)
From S2P Require Import Prelude KList Buddy Mmap Proc.

Section Sched.
Context {M : Type} `{!ProcMem M}.
Implicit Types k : kernel M.

(** [context_switch(new_sp, &old->kernel_stack, new_ttbr)]: twelve registers are
    pushed on the old stack, and popped from the new one after the check of the
    process switched out. *)
Definition context_switch (new_sp old new_ttbr : Z) (k : kernel M) : res (kernel M) :=
  let k := set_sp (u64 (cpu_sp k - 96)) k in
  k ← upd_pcb old (set_kernel_stack (cpu_sp k)) k;
  let k := set_ttbr0 new_ttbr (set_sp new_sp k) in
  k ← check_and_reap old k;
  Ok (set_sp (u64 (cpu_sp k + 96)) k).

Definition pre_context_switch (newproc old : Z) (k : kernel M) : res (kernel M) :=
  b ← get_pcb newproc k;
  let new_sp := kernel_stack b in
  let new_ttbr := ttbr b in
  let k := set_current newproc k in
  let k := prime_physical_timer k in
  k ← upd_pcb newproc (set_pstate PROCESS_RUNNING) k;
  context_switch new_sp old (va_to_pa new_ttbr) k.

Definition scheduler (k : kernel M) : res (kernel M) :=
  let active_process := get_current k in
  if list_empty L_runqueue_head (links k) then
    b ← get_pcb active_process k;
    if decide (pstate b = PROCESS_RUNNING) then Ok (prime_physical_timer k)
    else pre_context_switch (idle_proc k) active_process k
  else
    n ← deref (lnext (node_at (links k) L_runqueue_head));
    newproc ← runqueue_entry n;
    if newproc =? active_process then Ok (prime_physical_timer k)
    else
      nb ← get_pcb newproc k;
      k ← (if negb (pid nb =? 0) then on_links (list_remove (L_runqueue newproc)) k else Ok k);
      b ← get_pcb active_process k;
      k ← (if decide (pstate b = PROCESS_RUNNING) then
             k ← upd_pcb active_process (set_pstate PROCESS_READY) k;
             if negb (pid b =? 0) then on_links (list_add (L_runqueue active_process) L_runqueue_head) k
             else Ok k
           else Ok k);
      pre_context_switch newproc active_process k.

(** [start_scheduler()] up to the drop into user mode: the result is the trap
    frame and the page table handed to [drop_to_user]. *)
Definition start_scheduler (k : kernel M) : res (Z * Z * kernel M) :=
  let cur := get_current k in
  k ← upd_pcb cur (set_pstate PROCESS_RUNNING) k;
  let k := set_current cur k in
  k ← on_links (list_remove (L_runqueue cur)) k;
  b ← get_pcb cur k;
  Ok (BASE_TRAPFRAME (kernel_stack b), va_to_pa (ttbr b), k).

Definition deschedule (k : kernel M) : res (kernel M) :=
  let cur := get_current k in
  b ← get_pcb cur k;
  k ← (if decide (pstate b = PROCESS_RUNNING) then
         k ← upd_pcb cur (set_pstate PROCESS_BLOCKED) k;
         on_links (list_remove (L_runqueue cur)) k
       else Ok k);
  scheduler k.

Definition reschedule (proc : Z) (k : kernel M) : res (kernel M) :=
  k ← upd_pcb proc (set_pstate PROCESS_READY) k;
  on_links (list_add (L_runqueue proc) L_runqueue_head) k.

Definition add_to_schedule (proc : Z) (k : kernel M) : res (kernel M) :=
  k ← upd_pcb proc (set_pstate PROCESS_READY) k;
  k ← on_links (list_add (L_proclist proc) L_proclist_head) k;
  k ← on_links (list_add (L_runqueue proc) L_runqueue_head) k;
  Ok (with_n (u64 (n_processes k + 1)) k).

(** [reap()]: the process ends; a parent that waits for it is made ready. *)
Definition reap (k : kernel M) : res (kernel M) :=
  let cur := get_current k in
  k ← upd_pcb cur (set_pstate PROCESS_TERMINATED) k;
  b ← get_pcb cur k;
  pb ← get_pcb (parent b) k;
  k ← (if (waiting_on pb =? pid b) || (waiting_on pb =? WAITING_ALL) then
         k ← upd_pcb (parent b) (set_pstate PROCESS_READY) k;
         on_links (list_add (L_runqueue (parent b)) L_runqueue_head) k
       else Ok k);
  k ← do_mem (pm_reap_virtual_memory (ttbr b) 0) k;
  scheduler k.

(** [scheduler_init()]: the idle process and the progenitor; [idle] and
    [ret_from_fork] are the code addresses.  The two blocks are written field
    by field: [junk] is what [kmalloc] left in the others. *)
Definition scheduler_init (L0_TABLE idle ret_from_fork : Z) (junk : Z -> pcb_t) (k : kernel M) : res (kernel M) :=
  let k := init_lists [L_proclist_head; L_runqueue_head] k in
  '(ip, k) ← kmalloc_obj sizeof_pcb_t k;
  let k := with_idle ip (with_pcbs (<[ip := junk ip]> (pcbs k)) k) in
  '(kstack, k) ← initialize_proc_kstack L0_TABLE k;
  k ← upd_pcb ip (set_kernel_stack kstack) k;
  k ← upd_pcb ip (set_ttbr 0) k;
  k ← upd_pcb ip (set_pstate PROCESS_READY) k;
  let k := init_lists [L_proclist ip; L_runqueue ip] k in
  let tf := BASE_TRAPFRAME kstack in
  let k := store_kernel (tf + off_elr_el1) idle k in
  let k := store_kernel (tf + off_sp_el0) 0 k in
  let k := store_kernel (tf + off_spsr_el1) 0x345 k in
  let context_switch_frame := u64 (tf - 96) in
  let k := store_kernel (context_switch_frame + 8) ret_from_fork k in
  k ← upd_pcb ip (set_kernel_stack context_switch_frame) k;
  let k := set_current ip k in
  '(pp, k) ← kmalloc_obj sizeof_pcb_t k;
  let k := with_pcbs (<[pp := set_pid 1 (junk pp)]> (pcbs k)) k in
  Ok (init_lists [L_proclist pp; L_runqueue pp] k).
End Sched.
