(* ===== verification/SchedInv.v ===== *)
(** * The scheduler's invariant and its abstract specification

    [sched_inv ps rq k]: of the processes [ps], exactly those that are ready,
    the idle process apart, are on the run queue, in the order [rq].  The
    abstract scheduler works on the running process and that order alone. *)
From S2P Require Import Prelude KList Buddy Mmap Proc Sched.

(** What a call of the scheduler does: the next process and the new order.
    [running] says whether the active process may go on. *)
Definition abs_schedule (idle cur : Z) (running : bool) (rq : list Z) : Z * list Z :=
  match rq with
  | [] => (if running then cur else idle, [])
  | x :: rq' => (x, if running && negb (cur =? idle) then cur :: rq' else rq')
  end.

(** The fields of a process that scheduling leaves alone. *)
Definition same_proc (b b' : pcb_t) : Prop :=
  set_kernel_stack 0 (set_pstate PROCESS_READY b) = set_kernel_stack 0 (set_pstate PROCESS_READY b').

#[export] Instance same_proc_equiv : Equivalence same_proc.
Proof. split; [done|by intros ??|unfold same_proc; intros ????; congruence]. Qed.

Lemma same_proc_pid b b' : same_proc b b' -> pid b' = pid b.
Proof. intros E. apply (f_equal pid) in E. done. Qed.

Section SchedInv.
Context {M : Type} `{!ProcMem M}.
Implicit Types k : kernel M.

Definition pcb_at k p : pcb_t := default zero_pcb (pcbs k !! p).

Record sched_inv (ps : gset Z) (rq : list Z) k : Prop := {
  si_ring : ring (links k) L_runqueue_head (L_runqueue <$> rq);
  si_off : forall p, p ∈ ps -> p ∉ rq -> ring (links k) (L_runqueue p) [];
  si_known : forall p, p ∈ ps -> exists b, pcbs k !! p = Some b;
  si_pid : forall p, p ∈ ps -> (pid (pcb_at k p) = 0 <-> p = idle_proc k);
  si_ready : forall p, p ∈ rq <-> p ∈ ps /\ p <> idle_proc k /\ pstate (pcb_at k p) = PROCESS_READY;
  si_one : forall p, p ∈ ps -> pstate (pcb_at k p) = PROCESS_RUNNING -> p = current k;
  si_idle : idle_proc k ∈ ps;
  si_cur : current k ∈ ps;
}.

Lemma pcb_at_insert k p b q :
  pcb_at (with_pcbs (<[p := b]> (pcbs k)) k) q = if decide (p = q) then b else pcb_at k q.
Proof. unfold pcb_at. cbn [pcbs with_pcbs]. rewrite lookup_insert. by case_decide. Qed.

Lemma get_pcb_ok k p : (exists b, pcbs k !! p = Some b) -> get_pcb p k = Ok (pcb_at k p).
Proof. intros [b E]. unfold get_pcb, pcb_at. by rewrite E. Qed.

Lemma upd_pcb_ok k p f :
  (exists b, pcbs k !! p = Some b) -> upd_pcb p f k = Ok (with_pcbs (<[p := f (pcb_at k p)]> (pcbs k)) k).
Proof. intros E. unfold upd_pcb. by rewrite get_pcb_ok. Qed.

Lemma rq_fresh (rq : list Z) p : p ∉ rq -> L_runqueue p ∉ L_runqueue_head :: (L_runqueue <$> rq).
Proof.
  intros Hp. rewrite elem_of_cons. intros [E|Hin]; [done|].
  apply list_elem_of_fmap in Hin as (q & E & Hq). congruence.
Qed.

Lemma rq_NoDup ps rq k : sched_inv ps rq k -> NoDup rq.
Proof.
  intros Hi. pose proof (si_ring _ _ _ Hi) as [_ Hn]. apply NoDup_cons in Hn as [_ Hn].
  by apply NoDup_fmap_1 in Hn.
Qed.

(** The queue after an addition or a removal, with the nodes off the queue. *)
Definition queue_ok (h : gmap lkey (list_head_t lkey)) (ps : gset Z) (rq : list Z) : Prop :=
  ring h L_runqueue_head (L_runqueue <$> rq) /\ forall p, p ∈ ps -> p ∉ rq -> ring h (L_runqueue p) [].

Lemma queue_add h ps rq p :
  queue_ok h ps rq -> p ∉ rq ->
  exists h', list_add (L_runqueue p) L_runqueue_head h = Ok h' /\ queue_ok h' ps (p :: rq).
Proof.
  intros [Hr Ho] Hp. destruct (list_add_ring _ _ _ _ Hr (rq_fresh _ _ Hp)) as (h' & E & Hr' & Hf).
  exists h'. split; [done|]. split; [done|]. intros q Hq Hn. apply not_elem_of_cons in Hn as [? Hn].
  eapply ring_ext; [|by apply Ho]. intros x Hx. apply list_elem_of_singleton in Hx as ->. apply Hf.
  apply not_elem_of_cons. split; [congruence|]. by apply rq_fresh.
Qed.

Lemma queue_pop h ps p rq :
  queue_ok h ps (p :: rq) ->
  exists h', list_remove (L_runqueue p) h = Ok h' /\ queue_ok h' ps rq.
Proof.
  intros [Hr Ho]. destruct (list_remove_ring h _ [] _ _ Hr) as (h' & E & Hr' & Hs & Hf).
  exists h'. split; [done|]. split; [done|]. intros q Hq Hn.
  destruct (decide (q = p)) as [->|]; [done|].
  eapply ring_ext; [|apply Ho; [done|]].
  - intros x Hx. apply list_elem_of_singleton in Hx as ->. apply Hf. apply (rq_fresh (p :: rq)). set_solver.
  - set_solver.
Qed.

Lemma queue_remove_off h ps rq p :
  queue_ok h ps rq -> p ∈ ps -> p ∉ rq ->
  exists h', list_remove (L_runqueue p) h = Ok h' /\ queue_ok h' ps rq.
Proof.
  intros [Hr Ho] Hp Hn. destruct (list_remove_single h _ (Ho p Hp Hn)) as (h' & E & Hf).
  exists h'. split; [done|]. split; [|intros q Hq Hqn].
  - eapply ring_ext; [intros; by apply Hf|done].
  - eapply ring_ext; [intros; by apply Hf|by apply Ho].
Qed.

(** ** The context switch *)

(** The kernel stack of a process that ended can be freed. *)
Definition stack_freed k : Prop :=
  exists head m, pm_head_from_page (page_down (u64 (cpu_sp k - 96))) (kmem k) = Ok head /\
    pm_buddy_free head (kmem k) = Ok m.

Record switched (newproc old : Z) k k' : Prop := {
  sw_links : links k' = links k;
  sw_idle : idle_proc k' = idle_proc k;
  sw_cur : current k' = newproc;
  sw_primed : primed k' = true;
  sw_sp : cpu_sp k' = u64 (kernel_stack (pcb_at k newproc) + 96);
  sw_ttbr : cpu_ttbr0 k' = va_to_pa (ttbr (pcb_at k newproc));
  sw_known : forall p, (exists b, pcbs k !! p = Some b) -> exists b, pcbs k' !! p = Some b;
  sw_same : forall p, same_proc (pcb_at k p) (pcb_at k' p);
  sw_state : forall p, pstate (pcb_at k' p) = if decide (p = newproc) then PROCESS_RUNNING else pstate (pcb_at k p);
  sw_freed : newproc <> old -> pstate (pcb_at k old) = PROCESS_TERMINATED -> kernel_stack (pcb_at k' old) = 0 /\
    forall head m, pm_head_from_page (page_down (u64 (cpu_sp k - 96))) (kmem k) = Ok head ->
      pm_buddy_free head (kmem k) = Ok m -> kmem k' = m;
  sw_mem : (newproc = old \/ pstate (pcb_at k old) <> PROCESS_TERMINATED) -> kmem k' = kmem k;
}.

Ltac insert_cases :=
  repeat first [rewrite pcb_at_insert | progress cbn [pstate set_pstate set_kernel_stack]];
  repeat case_decide; subst; try done.

Lemma pre_context_switch_ok newproc old k :
  (exists b, pcbs k !! newproc = Some b) -> (exists b, pcbs k !! old = Some b) ->
  (pstate (pcb_at k old) = PROCESS_TERMINATED -> stack_freed k) ->
  exists k', pre_context_switch newproc old k = Ok k' /\ switched newproc old k k'.
Proof.
  intros Hn Ho Hst. unfold pre_context_switch. rewrite get_pcb_ok by done. cbn [mbind res_bind].
  set (k1 := prime_physical_timer (set_current newproc k)).
  rewrite (upd_pcb_ok k1) by done. cbn [mbind res_bind]. change (pcb_at k1) with (pcb_at k).
  set (k2 := with_pcbs _ k1). unfold context_switch.
  assert (Ho2 : exists b, pcbs k2 !! old = Some b).
  { subst k2 k1. cbn. rewrite lookup_insert. case_decide; eauto. }
  rewrite upd_pcb_ok by exact Ho2. cbn [mbind res_bind].
  set (k3 := set_ttbr0 _ _).
  assert (Hk3 : forall p, pcb_at k3 p =
    if decide (old = p) then set_kernel_stack (u64 (cpu_sp k - 96)) (pcb_at k2 p) else pcb_at k2 p).
  { intros p. transitivity (pcb_at (with_pcbs (<[old := set_kernel_stack (u64 (cpu_sp k - 96)) (pcb_at k2 old)]> (pcbs k2)) k2) p);
      [done|]. rewrite pcb_at_insert. case_decide; by subst. }
  assert (Hk2 : forall p, pcb_at k2 p =
    if decide (newproc = p) then set_pstate PROCESS_RUNNING (pcb_at k p) else pcb_at k p).
  { intros p. transitivity (pcb_at (with_pcbs (<[newproc := set_pstate PROCESS_RUNNING (pcb_at k newproc)]> (pcbs k)) k) p);
      [done|]. rewrite pcb_at_insert. case_decide; by subst. }
  assert (Hkn : forall p, (exists b, pcbs k !! p = Some b) -> exists b, pcbs k3 !! p = Some b).
  { intros p Hp. subst k3 k2 k1. cbn. rewrite !lookup_insert. repeat case_decide; eauto. }
  unfold check_and_reap. rewrite get_pcb_ok by by apply Hkn. cbn [mbind res_bind].
  assert (Hsame : forall p, same_proc (pcb_at k p) (pcb_at k3 p)).
  { intros p. rewrite Hk3, Hk2. repeat case_decide; done. }
  assert (Hstate : forall p, pstate (pcb_at k3 p) = if decide (p = newproc) then PROCESS_RUNNING else pstate (pcb_at k p)).
  { intros p. rewrite Hk3, Hk2. repeat case_decide; subst; done. }
  case_decide as Ht.
  - rewrite Hstate in Ht. case_decide; [done|]. destruct (Hst Ht) as (hd & m & E1 & E2).
    assert (Esp : kernel_stack (pcb_at k3 old) = u64 (cpu_sp k - 96)) by (rewrite Hk3; by rewrite decide_True).
    rewrite Esp. change (kmem k3) with (kmem k). rewrite E1. cbn [mbind res_bind].
    unfold do_mem. change (kmem k3) with (kmem k). rewrite E2. cbn [mbind res_bind].
    rewrite upd_pcb_ok by (apply Hkn; done). cbn [mbind res_bind]. eexists. split; [done|].
    set (k4 := with_mem m k3).
    assert (Hk4 : forall p sp, pcb_at (set_sp sp (with_pcbs (<[old := set_kernel_stack 0 (pcb_at k4 old)]> (pcbs k4)) k4)) p =
      if decide (old = p) then set_kernel_stack 0 (pcb_at k3 p) else pcb_at k3 p).
    { intros p sp. transitivity (pcb_at (with_pcbs (<[old := set_kernel_stack 0 (pcb_at k4 old)]> (pcbs k4)) k4) p);
        [done|]. rewrite pcb_at_insert. case_decide; subst; done. }
    split; try done.
    + intros p Hp. cbn. change (pcbs k4) with (pcbs k3). rewrite lookup_insert. case_decide; eauto.
    + intros p. rewrite Hk4. case_decide; [|done]. rewrite (Hsame p). done.
    + intros p. rewrite Hk4, <- Hstate. by case_decide.
    + intros _ _. rewrite Hk4, decide_True by done. split; [done|]. intros hd' m' E1' E2'. cbn. congruence.
    + intros [?|?]; congruence.
  - eexists. split; [done|]. split; try done. intros Hne Hto. exfalso. apply Ht. rewrite Hstate. by rewrite decide_False by congruence.
Qed.
End SchedInv.
