(* ===== verification/SchedSpec.v ===== *)
(** * The scheduler implements its abstract specification

    The operations of [scheduler.c] keep [sched_inv] and act on the running
    process and the queue's order as the abstract scheduler says; what follows
    from that for the order in which processes get the processor. *)
From S2P Require Import Prelude KList Buddy Mmap Proc Sched SchedInv.

Section SchedSpec.
Context {M : Type} `{!ProcMem M}.
Implicit Types k : kernel M.

Lemma inv_after_switch ps rq newproc old k k' :
  queue_ok (links k) ps rq ->
  (forall p, p ∈ ps -> exists b, pcbs k !! p = Some b) ->
  (forall p, p ∈ ps -> (pid (pcb_at k p) = 0 <-> p = idle_proc k)) ->
  (forall p, p ∈ rq <-> p ∈ ps /\ p <> idle_proc k /\ p <> newproc /\ pstate (pcb_at k p) = PROCESS_READY) ->
  (forall p, p ∈ ps -> pstate (pcb_at k p) = PROCESS_RUNNING -> p = newproc) ->
  idle_proc k ∈ ps -> newproc ∈ ps ->
  switched newproc old k k' -> sched_inv ps rq k'.
Proof.
  intros [Hr Ho] Hk Hp Hrd H1 Hid Hc Hs. destruct Hs. split; rewrite ?sw_links, ?sw_idle, ?sw_cur; try done.
  - intros p Hin. by apply sw_known, Hk.
  - intros p Hin. by rewrite <- Hp, (same_proc_pid _ _ (sw_same p)).
  - intros p. rewrite Hrd, sw_state. case_decide; subst; intuition congruence.
  - intros p Hin. rewrite sw_state. case_decide; [done|]. by apply H1.
Qed.

(** The state after the active process was put back. *)
Definition requeued (cur : Z) (running : bool) k k2 : Prop :=
  forall p, pcb_at k2 p = if decide (p = cur /\ running = true) then set_pstate PROCESS_READY (pcb_at k p) else pcb_at k p.

Record scheduled (ps : gset Z) (rq : list Z) k k' : Prop := {
  sd_abs : exists rq', abs_schedule (idle_proc k) (current k) (bool_decide (pstate (pcb_at k (current k)) = PROCESS_RUNNING)) rq
             = (current k', rq') /\ sched_inv ps rq' k';
  sd_same : forall p, same_proc (pcb_at k p) (pcb_at k' p);
  sd_idle : idle_proc k' = idle_proc k;
  sd_primed : primed k' = true;
  sd_state : forall p, pstate (pcb_at k' p) =
    if decide (p = current k') then PROCESS_RUNNING
    else if decide (p = current k /\ pstate (pcb_at k p) = PROCESS_RUNNING) then PROCESS_READY else pstate (pcb_at k p);
  sd_freed : pstate (pcb_at k (current k)) = PROCESS_TERMINATED -> current k' <> current k ->
    kernel_stack (pcb_at k' (current k)) = 0 /\
    forall head m, pm_head_from_page (page_down (u64 (cpu_sp k - 96))) (kmem k) = Ok head ->
      pm_buddy_free head (kmem k) = Ok m -> kmem k' = m;
  sd_mem : pstate (pcb_at k (current k)) <> PROCESS_TERMINATED -> kmem k' = kmem k;
}.

Lemma scheduler_empty ps k :
  sched_inv ps [] k -> pstate (pcb_at k (current k)) <> PROCESS_READY ->
  (pstate (pcb_at k (current k)) = PROCESS_TERMINATED -> stack_freed k) ->
  exists k', scheduler k = Ok k' /\ scheduled ps [] k k'.
Proof.
  intros Hi Hnr Hst. destruct Hi. unfold scheduler, get_current.
  rewrite (list_empty_ring _ _ _ si_ring). cbn [fmap list_fmap]. rewrite bool_decide_true by done.
  rewrite get_pcb_ok by by apply si_known. cbn [mbind res_bind].
  case_decide as Hrun.
  - eexists. split; [done|]. split; try done.
    + exists []. cbn. rewrite bool_decide_true by done. split; [done|]. by split.
    + intros p. cbn. repeat case_decide; subst; try done; naive_solver.
  - destruct (pre_context_switch_ok (idle_proc k) (current k) k) as (k' & E & Hs);
      [by apply si_known|by apply si_known|done|].
    exists k'. split; [done|]. pose proof Hs as [].
    assert (Hone : forall p, p ∈ ps -> pstate (pcb_at k p) = PROCESS_RUNNING -> p = idle_proc k).
    { intros p Hp Hrp. pose proof (si_one p Hp Hrp). congruence. }
    split; try done.
    + exists []. cbn. rewrite bool_decide_false by done. rewrite sw_cur. split; [done|].
      eapply (inv_after_switch _ _ _ _ k); try done.
      intros p. rewrite si_ready. naive_solver.
    + intros p. rewrite sw_state, sw_cur. repeat case_decide; subst; naive_solver.
    + intros Ht Hne. apply sw_freed; congruence.
    + intros Ht. apply sw_mem. by right.
Qed.

(** Taking the next process off the queue and putting the active one back. *)
Lemma scheduler_requeue ps x rq k :
  sched_inv ps (x :: rq) k -> pstate (pcb_at k (current k)) <> PROCESS_READY ->
  let running := bool_decide (pstate (pcb_at k (current k)) = PROCESS_RUNNING) in
  exists k2, scheduler k = pre_context_switch x (current k) k2 /\
    requeued (current k) running k k2 /\
    queue_ok (links k2) ps (abs_schedule (idle_proc k) (current k) running (x :: rq)).2 /\
    idle_proc k2 = idle_proc k /\ kmem k2 = kmem k /\ cpu_sp k2 = cpu_sp k /\
    (forall p, p ∈ ps -> exists b, pcbs k2 !! p = Some b).
Proof.
  intros Hi Hnr running. pose proof (rq_NoDup _ _ _ Hi) as Hnd. destruct Hi.
  destruct (proj1 (si_ready x)) as (Hx & Hxi & Hxr); [left|].
  assert (Hxc : x <> current k) by congruence.
  unfold scheduler, get_current. rewrite (list_empty_ring _ _ _ si_ring).
  rewrite bool_decide_false by done. rewrite (ring_next _ _ _ si_ring).
  cbn [fmap list_fmap head default deref mbind res_bind runqueue_entry option_rect from_option id].
  destruct (Z.eqb_spec x (current k)); [done|].
  rewrite get_pcb_ok by by apply si_known. cbn [mbind res_bind].
  destruct (Z.eqb_spec (pid (pcb_at k x)) 0) as [E0|_]; [by apply si_pid in E0|]. cbn [negb].
  destruct (queue_pop (links k) ps x rq) as (h1 & E1 & Hq1); [by split|].
  unfold on_links. rewrite E1. cbn [mbind res_bind].
  rewrite (get_pcb_ok (with_links h1 k)) by by apply si_known. cbn [mbind res_bind].
  change (pcb_at (with_links h1 k)) with (pcb_at k).
  subst running. case_decide as Hrun.
  - rewrite bool_decide_true by done. rewrite upd_pcb_ok by by apply si_known. cbn [mbind res_bind].
    set (k2 := with_pcbs _ _).
    assert (Hre : forall h, requeued (current k) true k (with_links h k2)).
    { intros h p. transitivity (pcb_at (with_pcbs (<[current k := set_pstate PROCESS_READY (pcb_at k (current k))]> (pcbs k)) k) p); [done|].
      rewrite pcb_at_insert. repeat case_decide; subst; naive_solver. }
    assert (Hkn : forall p, p ∈ ps -> exists b, pcbs k2 !! p = Some b).
    { intros p Hp. cbn. rewrite lookup_insert. case_decide; [eauto|by apply si_known]. }
    pose proof (si_pid _ si_cur) as Hpid.
    destruct (Z.eqb_spec (pid (pcb_at k (current k))) 0) as [E0|E0]; cbn [negb].
    + exists k2. split; [done|]. split; [intros p; apply (Hre (links k2))|].
      rewrite (proj1 Hpid E0). unfold abs_schedule. rewrite Z.eqb_refl. done.
    + destruct (queue_add h1 ps rq (current k) Hq1) as (h2 & E2 & Hq2).
      { intros Hin. apply Hnr, si_ready. by right. }
      change (links k2) with h1. rewrite E2. cbn [mbind res_bind].
      exists (with_links h2 k2). split; [done|]. split; [apply Hre|].
      unfold abs_schedule. destruct (Z.eqb_spec (current k) (idle_proc k)) as [Ei|_]; [naive_solver|done].
  - rewrite bool_decide_false by done. cbn [mbind res_bind]. exists (with_links h1 k).
    split; [done|]. split; [|done]. intros p. rewrite decide_False by naive_solver. done.
Qed.

Lemma scheduler_cons ps x rq k :
  sched_inv ps (x :: rq) k -> pstate (pcb_at k (current k)) <> PROCESS_READY ->
  (pstate (pcb_at k (current k)) = PROCESS_TERMINATED -> stack_freed k) ->
  exists k', scheduler k = Ok k' /\ scheduled ps (x :: rq) k k'.
Proof.
  intros Hi Hnr Hst. destruct (scheduler_requeue _ _ _ _ Hi Hnr) as (k2 & E & Hre & Hq & Eid & Em & Esp & Hkn).
  pose proof (rq_NoDup _ _ _ Hi) as Hnd. apply NoDup_cons in Hnd as [Hxn _]. destruct Hi.
  destruct (proj1 (si_ready x)) as (Hx & Hxi & Hxr); [left|].
  assert (Hxc : x <> current k) by congruence. unfold requeued in Hre.
  destruct (pre_context_switch_ok x (current k) k2) as (k' & E' & Hs); [by apply Hkn|by apply Hkn| |].
  { rewrite Hre. unfold stack_freed. rewrite Em, Esp. destruct (decide (_ /\ _)) as [Hd|Hd]; [intros Ht; discriminate Ht|exact Hst]. }
  exists k'. rewrite E. split; [done|]. pose proof Hs as [].
  assert (Hsame2 : forall p, same_proc (pcb_at k p) (pcb_at k2 p)).
  { intros p. rewrite Hre. by destruct (decide (_ /\ _)). }
  split.
  - rewrite sw_cur. eexists. split; [done|].
    eapply (inv_after_switch _ _ _ _ k2); try done; try (rewrite Eid; done).
    + intros p Hp. by rewrite Eid, (same_proc_pid _ _ (Hsame2 p)), si_pid.
    + intros p. rewrite Eid, Hre. pose proof (si_ready p) as Hp. rewrite elem_of_cons in Hp.
      pose proof (bool_decide_reflect (pstate (pcb_at k (current k)) = PROCESS_RUNNING)) as Hb.
      destruct Hb as [Hb|Hb].
      * destruct (Z.eqb_spec (current k) (idle_proc k)) as [Ec|Ec]; cbn.
        -- destruct (decide (_ /\ _)) as [Hd|Hd]; [destruct Hd as [-> _]; cbn; naive_solver|]. naive_solver.
        -- rewrite elem_of_cons. destruct (decide (_ /\ _)) as [Hd|Hd]; [destruct Hd as [-> _]; cbn; naive_solver|]. naive_solver.
      * cbn. destruct (decide (_ /\ _)) as [Hd|Hd]; [naive_solver|]. naive_solver.
    + intros p Hp. rewrite Hre. destruct (decide (_ /\ _)) as [Hd|Hd]; [done|]. intros Hrp. exfalso. apply Hd.
      pose proof (si_one p Hp Hrp) as ->. split; [done|]. by apply bool_decide_true.
  - intros p. rewrite (Hsame2 p). apply sw_same.
  - congruence.
  - done.
  - intros p. rewrite sw_state, sw_cur. destruct (decide (p = x)); [done|]. rewrite Hre.
    pose proof (bool_decide_spec (pstate (pcb_at k (current k)) = PROCESS_RUNNING)) as Hb.
    destruct (decide (p = current k /\ bool_decide _ = true)) as [[-> Hd]|Hd],
      (decide (_ /\ pstate _ = _)) as [[Hc He]|He]; [done| |exfalso; apply Hd; split; [done|by apply bool_decide_true; rewrite <- Hc]|done].
    exfalso. apply He. split; [done|by apply bool_decide_eq_true in Hd].
  - intros Ht Hne. rewrite <- Em, <- Esp. apply sw_freed; [congruence|]. rewrite Hre.
    destruct (decide (_ /\ _)) as [[_ Hd]|Hd]; [|done]. apply bool_decide_eq_true in Hd. congruence.
  - intros Ht. rewrite <- Em. apply sw_mem. right. rewrite Hre. by destruct (decide (_ /\ _)).
Qed.

Lemma scheduler_ok ps rq k :
  sched_inv ps rq k -> pstate (pcb_at k (current k)) <> PROCESS_READY ->
  (pstate (pcb_at k (current k)) = PROCESS_TERMINATED -> stack_freed k) ->
  exists k', scheduler k = Ok k' /\ scheduled ps rq k k'.
Proof. destruct rq; [apply scheduler_empty|apply scheduler_cons]. Qed.

(** ** The other operations *)

(** What changes when the state of [p] becomes [st]. *)
Record restated (p : Z) (st : PROC_STATE) k k' : Prop := {
  rs_at : forall q, pcb_at k' q = if decide (p = q) then set_pstate st (pcb_at k p) else pcb_at k q;
  rs_cur : current k' = current k;
  rs_idle : idle_proc k' = idle_proc k;
  rs_mem : kmem k' = kmem k;
  rs_sp : cpu_sp k' = cpu_sp k;
}.

Lemma restate ps rq rq' p st h k :
  sched_inv ps rq k -> p ∈ ps -> queue_ok h ps rq' ->
  (forall q, q ∈ rq' <-> if decide (q = p) then st = PROCESS_READY /\ q <> idle_proc k else q ∈ rq) ->
  (st = PROCESS_RUNNING -> p = current k) ->
  let k' := with_links h (with_pcbs (<[p := set_pstate st (pcb_at k p)]> (pcbs k)) k) in
  sched_inv ps rq' k' /\ restated p st k k'.
Proof.
  intros Hi Hp [Hr Ho] Hrq Hst k'. destruct Hi.
  assert (Hat : forall q, pcb_at k' q = if decide (p = q) then set_pstate st (pcb_at k p) else pcb_at k q).
  { intros q. transitivity (pcb_at (with_pcbs (<[p := set_pstate st (pcb_at k p)]> (pcbs k)) k) q); [done|].
    apply pcb_at_insert. }
  split; [|by split]. split; try done.
  - intros q Hq. cbn. rewrite lookup_insert. case_decide; [eauto|by apply si_known].
  - intros q Hq. rewrite Hat. change (idle_proc k') with (idle_proc k). case_decide; subst; by apply si_pid.
  - intros q. change (idle_proc k') with (idle_proc k). rewrite Hrq, Hat.
    destruct (decide (q = p)) as [->|Hne]; [rewrite decide_True by done|rewrite decide_False by congruence; apply si_ready].
    cbn. tauto.
  - intros q Hq. rewrite Hat. change (current k') with (current k). case_decide; [subst; cbn; auto|by apply si_one].
Qed.

Lemma upd_state p st k :
  (exists b, pcbs k !! p = Some b) ->
  upd_pcb p (set_pstate st) k = Ok (with_pcbs (<[p := set_pstate st (pcb_at k p)]> (pcbs k)) k).
Proof. apply upd_pcb_ok. Qed.

(** Waking a process. *)
Lemma reschedule_ok ps rq p k :
  sched_inv ps rq k -> p ∈ ps -> p <> idle_proc k -> p ∉ rq ->
  exists k', reschedule p k = Ok k' /\ sched_inv ps (p :: rq) k' /\ restated p PROCESS_READY k k'.
Proof.
  intros Hi Hp Hid Hn. unfold reschedule. rewrite upd_state by by apply (si_known _ _ _ Hi).
  cbn [mbind res_bind]. unfold on_links. cbn [links with_pcbs].
  destruct (queue_add (links k) ps rq p) as (h & E & Hq); [by destruct Hi|done|]. rewrite E. cbn [mbind res_bind].
  eexists. split; [done|]. apply (restate ps rq); try done.
  intros q. rewrite elem_of_cons. case_decide; subst; intuition congruence.
Qed.

(** The running process blocks. *)
Lemma block_ok ps rq k :
  sched_inv ps rq k -> pstate (pcb_at k (current k)) = PROCESS_RUNNING ->
  exists h k1, list_remove (L_runqueue (current k)) (links k) = Ok h /\
    k1 = with_links h (with_pcbs (<[current k := set_pstate PROCESS_BLOCKED (pcb_at k (current k))]> (pcbs k)) k) /\
    sched_inv ps rq k1 /\ restated (current k) PROCESS_BLOCKED k k1.
Proof.
  intros Hi Hrun. assert (Hn : current k ∉ rq) by (rewrite (si_ready _ _ _ Hi); intuition congruence).
  destruct (queue_remove_off (links k) ps rq (current k)) as (h & E & Hq);
    [by destruct Hi|by apply (si_cur _ _ _ Hi)|done|].
  eexists h, _. split; [done|]. split; [done|]. apply (restate ps rq); try done; [by apply (si_cur _ _ _ Hi)|].
  intros q. case_decide; subst; intuition congruence.
Qed.

Lemma deschedule_ok ps rq k :
  sched_inv ps rq k -> pstate (pcb_at k (current k)) = PROCESS_RUNNING ->
  exists k', deschedule k = Ok k' /\ current k' = default (idle_proc k) (head rq) /\
    sched_inv ps (tail rq) k' /\ pstate (pcb_at k' (current k')) = PROCESS_RUNNING /\
    (current k' <> current k -> pstate (pcb_at k' (current k)) = PROCESS_BLOCKED) /\ kmem k' = kmem k.
Proof.
  intros Hi Hrun. destruct (block_ok ps rq k Hi Hrun) as (h & k1 & E & -> & Hi1 & Hr).
  unfold deschedule, get_current. rewrite get_pcb_ok by by apply (si_known _ _ _ Hi), (si_cur _ _ _ Hi).
  cbn [mbind res_bind]. rewrite decide_True by done.
  rewrite upd_state by by apply (si_known _ _ _ Hi), (si_cur _ _ _ Hi). cbn [mbind res_bind].
  unfold on_links. cbn [links with_pcbs]. rewrite E. cbn [mbind res_bind].
  set (k1 := with_links h _) in *. destruct Hr as [rs_at rs_cur rs_idle rs_mem rs_sp].
  assert (Hb : pstate (pcb_at k1 (current k1)) = PROCESS_BLOCKED) by (rewrite rs_at, rs_cur; by case_decide).
  destruct (scheduler_ok ps rq k1 Hi1) as (k' & E' & Hs); [by rewrite Hb|by rewrite Hb|].
  exists k'. split; [done|]. destruct Hs as [sd_abs sd_same sd_idle sd_primed sd_state sd_freed sd_mem]. rewrite Hb, bool_decide_false in sd_abs by done.
  destruct sd_abs as (rq' & Ha & Hi'). rewrite rs_idle, rs_cur in *.
  assert (Hc : current k' = default (idle_proc k) (head rq) /\ rq' = tail rq)
    by (destruct rq; cbn in Ha; by simplify_eq).
  destruct Hc as [Hc ->]. split; [done|]. split; [done|]. split; [by rewrite sd_state, decide_True|].
  split; [|rewrite <- rs_mem; apply sd_mem; by rewrite Hb].
  intros Hne. rewrite sd_state, decide_False by congruence.
  rewrite Hb. rewrite decide_False by (intros []; done). done.
Qed.
End SchedSpec.
