(* ===== verification/SchedThm.v ===== *)
(** * What the scheduler guarantees, and what it does not

    The refinement theorem, blocking and waking, the end of a process, and the
    order in which ready processes get the processor. *)
From S2P Require Import Prelude KList Buddy BuddyRef Slab Mmap Proc Cow Sched SchedInv SchedSpec.

(** ** A concrete state: an idle process and [n] others *)

Definition idle_at : Z := 100.
Definition proc_at (i : nat) : Z := 200 + Z.of_nat i.
Definition demo_pcb (st : PROC_STATE) (id par waits : Z) : pcb_t :=
  Pcb (0xFFFF800000001000 + 0x1000 * id) (0xFFFF800000100000 + 0x1000 * id) st id waits par 0 0 0 (replicate MAX_OPEN_FILES 0).

(** Process 0 runs, 1 and 2 are ready, in this order, and 3 waits for its child
    0; the stack in use is the block of the frames 0 and 1. *)
Definition demo_pcbs : gmap Z pcb_t := list_to_map
  [(idle_at, demo_pcb PROCESS_READY 0 0 WAITING_NONE); (proc_at 0, demo_pcb PROCESS_RUNNING 1 (proc_at 3) WAITING_NONE);
   (proc_at 1, demo_pcb PROCESS_READY 2 (proc_at 0) WAITING_NONE); (proc_at 2, demo_pcb PROCESS_READY 3 (proc_at 0) WAITING_NONE);
   (proc_at 3, demo_pcb PROCESS_BLOCKED 4 idle_at 1)].
Definition demo_links : gmap lkey (list_head_t lkey) :=
  let h := foldl (fun h n => INIT_LIST_HEAD n h) ∅
    [L_runqueue_head; L_runqueue idle_at; L_runqueue (proc_at 0); L_runqueue (proc_at 1); L_runqueue (proc_at 2); L_runqueue (proc_at 3)] in
  match (h ← list_add (L_runqueue (proc_at 2)) L_runqueue_head h; list_add (L_runqueue (proc_at 1)) L_runqueue_head h) with
  | Ok h => h | _ => ∅ end.
Definition demo_mem : kernel_mem := KHeap (MM (Buddy {[0 := PageFrame 1 1 PAGE_BUDDY PAGE_BUDDY_HEAD; 1 := PageFrame 0 0 PAGE_BUDDY PAGE_BUDDY_TAIL]}
    (Buddy.init_lists ∅)) (fun _ => 0)) ∅ ∅.
Definition demo : kernel kernel_mem :=
  Kernel demo_pcbs ∅ demo_links idle_at 4 4 (proc_at 0) 0xFFFF800000001F00 0 false demo_mem.
Definition demo_ps : gset Z := {[idle_at; proc_at 0; proc_at 1; proc_at 2; proc_at 3]}.

Lemma demo_inv : sched_inv demo_ps [proc_at 1; proc_at 2] demo.
Proof.
  split.
  - split; [vm_compute; repeat split|]. by apply (bool_decide_unpack _).
  - intros p Hp Hn. unfold demo_ps in Hp. rewrite !elem_of_union, !elem_of_singleton in Hp.
    destruct Hp as [[[[->| ->]| ->]| ->]| ->];
      try (exfalso; apply Hn; set_solver); (split; [vm_compute; repeat split|apply NoDup_singleton]).
  - intros p Hp. unfold demo_ps in Hp. rewrite !elem_of_union, !elem_of_singleton in Hp.
    destruct Hp as [[[[->| ->]| ->]| ->]| ->]; eexists; reflexivity.
  - intros p Hp. unfold demo_ps in Hp. rewrite !elem_of_union, !elem_of_singleton in Hp.
    destruct Hp as [[[[->| ->]| ->]| ->]| ->]; vm_compute; split; intros H; try done; discriminate H.
  - intros p. split.
    + rewrite !elem_of_cons, elem_of_nil. intros [->|[->|[]]]; (split; [by apply (bool_decide_unpack _)|]); by vm_compute.
    + intros (Hp & Hne & Hr). unfold demo_ps in Hp. rewrite !elem_of_union, !elem_of_singleton in Hp.
      destruct Hp as [[[[->| ->]| ->]| ->]| ->]; try (vm_compute in Hr; discriminate Hr); [done|set_solver|set_solver].
  - intros p Hp Hr. unfold demo_ps in Hp. rewrite !elem_of_union, !elem_of_singleton in Hp.
    destruct Hp as [[[[->| ->]| ->]| ->]| ->]; try (vm_compute in Hr; discriminate Hr). done.
  - by apply (bool_decide_unpack _).
  - by apply (bool_decide_unpack _).
Qed.

Section SchedThm.
Context {M : Type} `{!ProcMem M}.
Implicit Types k : kernel M.

(** C24: [scheduler] called with a running or blocked active process never
    fails, and does what the abstract scheduler does: it takes the next process
    off the queue, or stays with the only runnable one, or falls back to the
    idle process; it puts a process that may go on back on the queue; the
    invariant is kept, the next process is running and is the only one. *)
Theorem scheduler_refines ps rq k :
  sched_inv ps rq k -> pstate (pcb_at k (current k)) = PROCESS_RUNNING \/ pstate (pcb_at k (current k)) = PROCESS_BLOCKED ->
  exists k' rq', scheduler k = Ok k' /\
    abs_schedule (idle_proc k) (current k) (bool_decide (pstate (pcb_at k (current k)) = PROCESS_RUNNING)) rq = (current k', rq') /\
    sched_inv ps rq' k' /\
    (forall p, p ∈ ps -> pstate (pcb_at k' p) = PROCESS_RUNNING <-> p = current k') /\
    (forall p, same_proc (pcb_at k p) (pcb_at k' p)) /\ primed k' = true /\ kmem k' = kmem k.
Proof.
  intros Hi Hs. destruct (scheduler_ok ps rq k Hi) as (k' & E & []);
    [destruct Hs; congruence|destruct Hs; congruence|].
  destruct sd_abs as (rq' & Ha & Hi'). exists k', rq'. repeat (split; [done|]). split.
  - intros p Hp. split; [by apply (si_one _ _ _ Hi')|]. intros ->. by rewrite sd_state, decide_True.
  - split; [done|]. split; [done|]. apply sd_mem. destruct Hs; congruence.
Qed.

(** C25: blocking and waking.  [deschedule] blocks the running process, which
    is then on no queue, and runs the head of the queue or the idle process;
    [reschedule] of a process that is not ready makes it the next one to run. *)
Theorem block_and_wake ps rq p k :
  sched_inv ps rq k -> pstate (pcb_at k (current k)) = PROCESS_RUNNING ->
  current k <> idle_proc k -> p ∈ ps -> p <> idle_proc k -> p ∉ rq ->
  (exists k', deschedule k = Ok k' /\ current k' = default (idle_proc k) (head rq) /\ sched_inv ps (tail rq) k' /\
    pstate (pcb_at k' (current k)) = PROCESS_BLOCKED /\ pstate (pcb_at k' (current k')) = PROCESS_RUNNING) /\
  (exists k', reschedule p k = Ok k' /\ sched_inv ps (p :: rq) k' /\ current k' = current k).
Proof.
  intros Hi Hrun Hci Hp Hpi Hn. split.
  - destruct (deschedule_ok ps rq k Hi Hrun) as (k' & E & Hc & Hi' & Hr & Hb & _).
    exists k'. repeat (split; [done|]). split; [|done]. apply Hb. rewrite Hc. intros Heq.
    assert (Hin : current k ∈ rq \/ current k = idle_proc k).
    { rewrite <- Heq. destruct rq; cbn; [by right|left; by left]. }
    destruct Hin as [Hin|?]; [|done]. apply (si_ready _ _ _ Hi) in Hin. intuition congruence.
  - destruct (reschedule_ok ps rq p k Hi Hp Hpi Hn) as (k' & E & Hi' & []). eauto.
Qed.

Fixpoint ticks (n : nat) k : res (kernel M) :=
  match n with
  | O => Ok k
  | S n => k ← scheduler k; ticks n k
  end.

Lemma tick_swaps ps y rest k :
  sched_inv ps (y :: rest) k -> pstate (pcb_at k (current k)) = PROCESS_RUNNING -> current k <> idle_proc k ->
  exists k', scheduler k = Ok k' /\ current k' = y /\ sched_inv ps (current k :: rest) k' /\
    pstate (pcb_at k' (current k')) = PROCESS_RUNNING /\ idle_proc k' = idle_proc k.
Proof.
  intros Hi Hrun Hci. destruct (scheduler_ok ps (y :: rest) k Hi) as (k' & E & []); [congruence|congruence|].
  destruct sd_abs as (rq' & Ha & Hi'). rewrite bool_decide_true in Ha by done. cbn in Ha.
  rewrite (proj2 (Z.eqb_neq _ _) Hci) in Ha. cbn in Ha. injection Ha as Hy <-.
  exists k'. repeat (split; [done|]). split; [|done]. by rewrite sd_state, decide_True.
Qed.

(** C27: the queue is last-in first-out.  While the running process and the
    first of the queue stay runnable, the timer ticks go back and forth between
    these two for ever and no process behind them is ever scheduled. *)
Theorem scheduler_starves ps y rest k n :
  sched_inv ps (y :: rest) k -> pstate (pcb_at k (current k)) = PROCESS_RUNNING -> current k <> idle_proc k ->
  exists k', ticks n k = Ok k' /\
    (if Nat.even n then current k' = current k /\ sched_inv ps (y :: rest) k'
     else current k' = y /\ sched_inv ps (current k :: rest) k') /\
    current k' ∉ rest.
Proof.
  intros Hi Hrun Hci.
  assert (Hout : forall a b k', sched_inv ps (a :: rest) k' -> current k' = b ->
    pstate (pcb_at k' (current k')) = PROCESS_RUNNING -> b ∉ rest).
  { intros a b k' Hi' <- Hr Hin. pose proof (proj1 (si_ready _ _ _ Hi' (current k'))) as Hq.
    destruct Hq as (_ & _ & Hq); [by right|]. congruence. }
  assert (Hyi : y <> idle_proc k) by (apply (si_ready _ _ _ Hi y); left).
  enough (exists k', ticks n k = Ok k' /\ pstate (pcb_at k' (current k')) = PROCESS_RUNNING /\
    (if Nat.even n then current k' = current k /\ sched_inv ps (y :: rest) k'
     else current k' = y /\ sched_inv ps (current k :: rest) k')) as (k' & E & Hr & Hc).
  { exists k'. split; [done|]. split; [done|]. destruct (Nat.even n); destruct Hc; eauto. }
  clear Hout. revert k y Hi Hrun Hci Hyi. induction n as [|n IH]; intros k y Hi Hrun Hci Hyi; [cbn; eauto|].
  destruct (tick_swaps ps y rest k Hi Hrun Hci) as (k1 & E1 & Hc1 & Hi1 & Hr1 & Hid).
  destruct (IH k1 (current k) Hi1 Hr1) as (k' & E & Hr & Hc); [congruence|congruence|].
  exists k'. cbn [ticks]. rewrite E1. cbn [mbind res_bind]. split; [done|]. split; [done|].
  rewrite Nat.even_succ, <- Nat.negb_even. destruct (Nat.even n); cbn [negb]; by rewrite Hc1 in Hc.
Qed.

(** C28: [reap] ends the running process: it is never scheduled again, its
    address space and then its kernel stack are freed, and a parent that waits
    for it is made ready and runs next. *)
Theorem reap_wakes_parent ps rq k m1 head m2 :
  let b := pcb_at k (current k) in
  let pp := parent b in
  let waits := (waiting_on (pcb_at k pp) =? pid b) || (waiting_on (pcb_at k pp) =? WAITING_ALL) in
  sched_inv ps rq k -> pstate b = PROCESS_RUNNING -> current k <> idle_proc k ->
  pp ∈ ps -> pp <> idle_proc k -> pp <> current k -> (waits = true -> pp ∉ rq) ->
  pm_reap_virtual_memory (ttbr b) 0 (kmem k) = Ok m1 ->
  pm_head_from_page (page_down (u64 (cpu_sp k - 96))) m1 = Ok head -> pm_buddy_free head m1 = Ok m2 ->
  let rq1 := if waits then pp :: rq else rq in
  exists k', reap k = Ok k' /\ current k' = default (idle_proc k) (list.head rq1) /\ sched_inv ps (tail rq1) k' /\
    pstate (pcb_at k' (current k)) = PROCESS_TERMINATED /\ kernel_stack (pcb_at k' (current k)) = 0 /\ kmem k' = m2.
Proof.
  intros b pp waits Hi Hrun Hci Hpp Hpi Hpc Hw E1 E2 E3 rq1.
  assert (Hcn : current k ∉ rq) by (rewrite (si_ready _ _ _ Hi); subst b; intuition congruence).
  pose proof (si_cur _ _ _ Hi) as Hcur. pose proof (si_known _ _ _ Hi) as Hkn.
  unfold reap, get_current. rewrite upd_state by by apply Hkn. cbn [mbind res_bind].
  destruct (restate ps rq rq (current k) PROCESS_TERMINATED (links k) k Hi Hcur) as [Hi1 Hr1];
    [by destruct Hi| |done|].
  { intros q. case_decide; subst; intuition congruence. }
  set (k1 := with_links (links k) _) in *. change (with_pcbs _ k) with k1.
  destruct Hr1 as [at1 cur1 idle1 mem1 sp1]. pose proof (si_known _ _ _ Hi1) as Hkn1.
  rewrite get_pcb_ok by by apply Hkn1. cbn [mbind res_bind].
  rewrite (at1 (current k)), decide_True by done. cbn [parent set_pstate pid ttbr]. fold b. fold pp.
  rewrite get_pcb_ok by by apply Hkn1. cbn [mbind res_bind].
  rewrite (at1 pp), decide_False by congruence. fold waits.
  assert (Hk2 : exists k2, (if waits then (k2 ← upd_pcb pp (set_pstate PROCESS_READY) k1;
      on_links (list_add (L_runqueue pp) L_runqueue_head) k2) else Ok k1) = Ok k2 /\
    sched_inv ps rq1 k2 /\ pcb_at k2 (current k) = set_pstate PROCESS_TERMINATED b /\
    current k2 = current k /\ idle_proc k2 = idle_proc k /\ kmem k2 = kmem k /\ cpu_sp k2 = cpu_sp k).
  { subst rq1. destruct waits.
    - destruct (reschedule_ok ps rq pp k1 Hi1) as (k2 & E & Hi2 & [at2 cur2 idle2 mem2 sp2]); [done|congruence|by apply Hw|].
      exists k2. split; [exact E|]. split; [done|].
      split; [by rewrite at2, decide_False, at1, decide_True|]. repeat split; congruence.
    - exists k1. split; [done|]. split; [done|]. by rewrite at1, decide_True. }
  destruct Hk2 as (k2 & Ek & Hi2 & At2 & cur2 & idle2 & mem2 & sp2). rewrite Ek. cbn [mbind res_bind].
  unfold do_mem. rewrite mem2, E1. cbn [mbind res_bind].
  set (k3 := with_mem m1 k2). assert (Hi3 : sched_inv ps rq1 k3) by by destruct Hi2.
  assert (Hst : pstate (pcb_at k3 (current k3)) = PROCESS_TERMINATED).
  { change (pcb_at k3) with (pcb_at k2). change (current k3) with (current k2). by rewrite cur2, At2. }
  destruct (scheduler_ok ps rq1 k3 Hi3) as (k' & E & []); [by rewrite Hst| |].
  { intros _. exists head, m2. change (cpu_sp k3) with (cpu_sp k2). by rewrite sp2. }
  exists k'. split; [done|]. rewrite Hst, bool_decide_false in sd_abs by done.
  change (current k3) with (current k2) in *. change (idle_proc k3) with (idle_proc k2) in *. rewrite cur2, idle2 in *.
  destruct sd_abs as (rq' & Ha & Hi').
  assert (Hc : current k' = default (idle_proc k) (list.head rq1) /\ rq' = tail rq1)
    by (destruct rq1; cbn in Ha; by simplify_eq).
  destruct Hc as [Hc ->].
  assert (Hne : current k' <> current k).
  { rewrite Hc. subst rq1. destruct waits; cbn; [done|]. destruct rq; cbn; [done|]. set_solver. }
  repeat (split; [done|]). split; [rewrite sd_state, !decide_False; [done| |congruence]; intros [_ ?]; congruence|].
  destruct (sd_freed Hst Hne) as [Hks Hm]. split; [done|]. apply (Hm head m2); [|done].
  change (cpu_sp k3) with (cpu_sp k2). by rewrite sp2.
Qed.
End SchedThm.

Definition demo_table : Z := 0xFFFF800000080000.
Definition demo_frames : Z := 0xFFFF800000100000.
#[local] Existing Instance kernel_proc_mem.

Lemma scheduler_refines_witness :
  exists k' rq', @scheduler _ (kernel_proc_mem 4 demo_table demo_frames (fun _ => replicate 8 0)) demo = Ok k' /\
    current k' = proc_at 1 /\ sched_inv demo_ps rq' k' /\ rq' = [proc_at 0; proc_at 2].
Proof.
  destruct (@scheduler_refines _ (kernel_proc_mem 4 demo_table demo_frames (fun _ => replicate 8 0)) demo_ps _ demo demo_inv)
    as (k' & rq' & E & Ha & Hi & _); [left; reflexivity|].
  exists k', rq'. split; [exact E|].
  assert (Ha' : (proc_at 1, [proc_at 0; proc_at 2]) = (current k', rq')) by (rewrite <- Ha; reflexivity).
  injection Ha' as -> <-. split; [reflexivity|]. split; [exact Hi|reflexivity].
Defined.

Lemma block_and_wake_witness :
  (exists k', @deschedule _ (kernel_proc_mem 4 demo_table demo_frames (fun _ => replicate 8 0)) demo = Ok k' /\ current k' = proc_at 1) /\
  exists k', @reschedule kernel_mem (proc_at 3) demo = Ok k' /\ sched_inv demo_ps [proc_at 3; proc_at 1; proc_at 2] k'.
Proof.
  destruct (@block_and_wake _ (kernel_proc_mem 4 demo_table demo_frames (fun _ => replicate 8 0)) demo_ps _ (proc_at 3) demo demo_inv)
    as [(k1 & E1 & Hc & _) (k2 & E2 & Hi & _)];
    [reflexivity|discriminate|by apply (bool_decide_unpack _)|discriminate|by apply (bool_decide_unpack _)|].
  split; [exists k1|exists k2]; (split; [assumption|]); assumption.
Defined.

Lemma scheduler_starves_witness :
  exists k', @ticks _ (kernel_proc_mem 4 demo_table demo_frames (fun _ => replicate 8 0)) 1000 demo = Ok k' /\
    current k' = proc_at 0 /\ current k' ∉ [proc_at 2].
Proof.
  destruct (@scheduler_starves _ (kernel_proc_mem 4 demo_table demo_frames (fun _ => replicate 8 0)) demo_ps _ _ demo 1000 demo_inv)
    as (k' & E & [Hc _] & Hn); [reflexivity|discriminate|].
  exists k'. split; [exact E|]. split; [exact Hc|exact Hn].
Defined.

Lemma reap_wakes_parent_witness :
  exists k', @reap _ (kernel_proc_mem 4 demo_table demo_frames (fun _ => replicate 8 0)) demo = Ok k' /\ current k' = proc_at 3 /\
    sched_inv demo_ps [proc_at 1; proc_at 2] k' /\ kernel_stack (pcb_at k' (proc_at 0)) = 0.
Proof.
  evar (m1 : kernel_mem). evar (m2 : kernel_mem).
  assert (E1 : @pm_reap_virtual_memory _ (kernel_proc_mem 4 demo_table demo_frames (fun _ => replicate 8 0)) (0xFFFF800000101000) 0 demo_mem = Ok m1)
    by (subst m1; vm_compute; reflexivity).
  assert (E3 : @pm_buddy_free _ (kernel_proc_mem 4 demo_table demo_frames (fun _ => replicate 8 0)) 0xFFFF800000000000 m1 = Ok m2)
    by (subst m1 m2; vm_compute; reflexivity).
  destruct (@reap_wakes_parent _ (kernel_proc_mem 4 demo_table demo_frames (fun _ => replicate 8 0)) demo_ps _ demo m1 0xFFFF800000000000 m2 demo_inv)
    as (k' & E & Hc & Hi & _ & Hk & _);
    [reflexivity|discriminate|by apply (bool_decide_unpack _)|discriminate|discriminate|
     intros _; by apply (bool_decide_unpack _)|exact E1|subst m1; vm_compute; reflexivity|exact E3|].
  exists k'. repeat (split; [assumption|]). assumption.
Defined.
