(* ===== verification/Sync.v ===== *)
(** * Spinlocks, wait queues and the mutex ([synchronization/])

    System calls run on the one core with interrupts masked, so a routine is
    not interleaved with others until it calls the scheduler; the mutex as the
    kernel calls it is modelled that way.  The relation [step] splits the same
    routines at every access to shared memory and lets any process take the
    next step. *)
From S2P Require Import Prelude KList Buddy Mmap Proc Sched.

Definition MUTEX_UNLOCKED : Z := 0.

(** The nodes of a wait list: its head, and the entry on the stack of a process
    that waits. *)
Inductive wkey := W_head | W_entry (private : Z).
#[export] Instance wkey_eq : EqDecision wkey.
Proof. solve_decision. Defined.
#[export] Instance wkey_countable : Countable wkey :=
  inj_countable' (fun w => match w with W_head => None | W_entry p => Some p end)
    (fun o => match o with None => W_head | Some p => W_entry p end) ltac:(by intros []).

(** [mutex_t]; [wait_lock] is the 64-bit word at the lock's address, of which the
    lock is the lower half. *)
Record mutex_t := Mutex { owner : Z; wait_lock : Z; wait_list : gmap wkey (@list_head_t wkey) }.
Definition sizeof_mutex_t : Z := 40.

Definition set_owner (x : Z) (m : mutex_t) : mutex_t := Mutex x (wait_lock m) (wait_list m).
Definition set_wait_lock (x : Z) (m : mutex_t) : mutex_t := Mutex (owner m) x (wait_list m).
Definition set_wait_list x (m : mutex_t) : mutex_t := Mutex (owner m) (wait_lock m) x.

(** [spinlock_acquire(&mutex->wait_lock)]: [atomic_swap] is 64 bits wide. *)
Fixpoint spinlock_acquire (fuel : nat) (m : mutex_t) : res mutex_t :=
  match fuel with
  | O => Fuel
  | S fuel =>
      let old := wait_lock m in
      let m := set_wait_lock 1 m in
      if old =? 0 then Ok m else spinlock_acquire fuel m
  end.
Definition spinlock_release (m : mutex_t) : mutex_t := set_wait_lock 0 m.

Section Sync.
Context {M : Type} `{!ProcMem M}.

(** [mutex_init()]: the object that [kmalloc] returns keeps its old content,
    [junk], but for the owner. *)
Definition mutex_init (junk : mutex_t) (k : kernel M) : res (option mutex_t * kernel M) :=
  '(m, k) ← on_mem (pm_kmalloc sizeof_mutex_t) k;
  if m =? 0 then Ok (None, k) else Ok (Some (set_owner MUTEX_UNLOCKED junk), k).

Definition default_wake_fn (entry : wkey) (k : kernel M) : res (kernel M) :=
  match entry with
  | W_entry task_to_wake => reschedule task_to_wake k
  | W_head => UB
  end.

(** One turn of the loop of [mutex_acquire]: [true] when the mutex is held; else
    the process is in [deschedule], from which it goes on with another turn. *)
Definition acquire_turn (fuel : nat) (m : mutex_t) (k : kernel M) : res (bool * mutex_t * kernel M) :=
  let cur := get_current k in
  let old := owner m in
  let m := set_owner cur m in
  if old =? 0 then Ok (true, m, k)
  else
    m ← spinlock_acquire fuel m;
    l ← (if list_empty (W_entry cur) (wait_list m) then list_add (W_entry cur) W_head (wait_list m) else Ok (wait_list m));
    let m := set_wait_list l m in
    k ← upd_pcb cur (set_pstate PROCESS_BLOCKED) k;
    let m := spinlock_release m in
    k ← deschedule k;
    Ok (false, m, k).

Definition mutex_acquire (fuel : nat) (m : mutex_t) (k : kernel M) : res (bool * mutex_t * kernel M) :=
  acquire_turn fuel (set_wait_list (INIT_LIST_HEAD (W_entry (get_current k)) (wait_list m)) m) k.

Definition mutex_release (fuel : nat) (m : mutex_t) (k : kernel M) : res (mutex_t * kernel M) :=
  let m := set_owner MUTEX_UNLOCKED m in
  m ← spinlock_acquire fuel m;
  '(m, k) ← (if list_empty W_head (wait_list m) then Ok (m, k)
             else
               entry ← deref (lnext (node_at (wait_list m) W_head));
               k ← default_wake_fn entry k;
               l ← list_remove entry (wait_list m);
               Ok (set_wait_list l m, k));
  let m := spinlock_release m in
  k ← scheduler k;
  Ok (m, k).
End Sync.

(** ** Interleavings *)

(** Where a process is: outside, before the [atomic_swap] of [mutex_acquire],
    in its four steps after a failed swap, holding the mutex, or in the three
    steps of [mutex_release] after the owner is cleared. *)
Inductive pc := Outside | At_swap | Failed | Queueing | Queued | Sleeping | Holding | Released | Waking | Woken.
#[export] Instance pc_eq : EqDecision pc.
Proof. solve_decision. Defined.

Record system := System {
  s_owner : Z;
  s_lock : Z;
  s_queue : list Z;
  s_pc : Z -> pc;
  s_blocked : Z -> bool;          (* [PROCESS_BLOCKED], and not made ready since *)
}.

Definition set_at {A} (p : Z) (x : A) (f : Z -> A) : Z -> A := fun q => if q =? p then x else f q.

(** One atomic access by process [p], a PCB's address. *)
Inductive step (p : Z) : system -> system -> Prop :=
| step_acquire o l q c b : c p = Outside ->
    step p (System o l q c b) (System o l q (set_at p At_swap c) b)
| step_swap_won l q c b : c p = At_swap ->
    step p (System 0 l q c b) (System p l q (set_at p Holding c) b)
| step_swap_lost o l q c b : c p = At_swap -> o <> 0 ->
    step p (System o l q c b) (System p l q (set_at p Failed c) b)
| step_lock_to_queue o q c b : c p = Failed ->
    step p (System o 0 q c b) (System o 1 q (set_at p Queueing c) b)
| step_enqueue o l q c b : c p = Queueing ->
    step p (System o l q c b) (System o l (if bool_decide (p ∈ q) then q else p :: q) (set_at p Queued c) (set_at p true b))
| step_unlock_queue o l q c b : c p = Queued ->
    step p (System o l q c b) (System o 0 q (set_at p Sleeping c) b)
| step_resume o l q c b : c p = Sleeping -> b p = false ->
    step p (System o l q c b) (System o l q (set_at p At_swap c) b)
| step_clear_owner o l q c b : c p = Holding ->
    step p (System o l q c b) (System 0 l q (set_at p Released c) b)
| step_lock_to_wake o q c b : c p = Released ->
    step p (System o 0 q c b) (System o 1 q (set_at p Waking c) b)
| step_wake_none o l c b : c p = Waking ->
    step p (System o l [] c b) (System o l [] (set_at p Woken c) b)
| step_wake o l w q c b : c p = Waking ->
    step p (System o l (w :: q) c b) (System o l q (set_at p Woken c) (set_at w false b))
| step_unlock_wake o l q c b : c p = Woken ->
    step p (System o l q c b) (System o 0 q (set_at p Outside c) b).

(** Some process, not at address 0, takes a step. *)
Definition any_step (s s' : system) : Prop := exists p, p <> 0 /\ step p s s'.
Definition initial : system := System 0 0 [] (fun _ => Outside) (fun _ => false).
