(* ===== verification/SyncSpec.v ===== *)
(** * What the mutex promises

    In every interleaving at most one process holds the mutex and at most one
    works on the wait list; and, as the kernel calls them, [mutex_acquire] of a
    mutex that is taken blocks, and [mutex_release] hands over to a waiter. *)
From stdpp Require Import relations.
From S2P Require Import Prelude KList Buddy Mmap Proc Cow Sched SchedInv SchedSpec SchedThm Sync.

(** ** Interleavings *)

(** The steps taken with the wait lock held. *)
Definition in_lock (c : pc) : bool := match c with Queueing | Queued | Waking | Woken => true | _ => false end.

Record safe (s : system) : Prop := {
  sf_one : forall p q, s_pc s p = Holding -> s_pc s q = Holding -> p = q;
  sf_owner : forall p, s_pc s p = Holding -> s_owner s <> 0;
  sf_lock : forall p q, in_lock (s_pc s p) = true -> in_lock (s_pc s q) = true -> p = q;
  sf_locked : forall p, in_lock (s_pc s p) = true -> s_lock s <> 0;
  sf_queue : forall p, s_blocked s p = true <-> p ∈ s_queue s;
  sf_nodup : NoDup (s_queue s);
}.

Lemma safe_initial : safe initial.
Proof. split; cbn; try done; [|constructor]. intros p. rewrite elem_of_nil. done. Qed.

(** Case analysis on which processes a function changed by [set_at] is read at. *)
Ltac at_cases :=
  unfold set_at in *;
  repeat match goal with
    | H : context [?a =? ?b] |- _ => destruct (Z.eqb_spec a b); subst
    | |- context [?a =? ?b] => destruct (Z.eqb_spec a b); subst
    end.

Lemma safe_step p s s' : p <> 0 -> safe s -> step p s s' -> safe s'.
Proof.
  intros Hp [H1 H2 H3 H4 H5 H6] Hs.
  assert (Hl : forall q, in_lock (s_pc s p) = true -> in_lock (s_pc s q) = true -> q = p) by (intros q ? ?; by apply H3).
  destruct Hs as [o l q c b E|l q c b E|o l q c b E E0|o q c b E|o l q c b E|o l q c b E|o l q c b E Eb|o l q c b E|o q c b E|o l c b E|o l w q c b E|o l q c b E];
    cbn in *; rewrite ?E in *; cbn in Hl; split; cbn; try done.
  all: try (intros x y Hx Hy; at_cases; try done; eauto; fail).
  all: try (intros x Hx; at_cases; try done; eauto; fail).
  all: try (intros x y Hx Hy; at_cases; try done; exfalso; (by eapply H2) || (by eapply H4)).
  all: try (intros x Hx; by apply (H4 p); rewrite E).
  - intros x. pose proof (H5 x) as Hx. case_bool_decide as Hin; at_cases; rewrite ?elem_of_cons; split; intuition congruence.
  - case_bool_decide; [done|by constructor].
  - intros x. apply NoDup_cons in H6 as [Hw Hq]. at_cases; [split; done|]. rewrite H5, elem_of_cons. tauto.
  - by apply NoDup_cons in H6 as [_ ?].
Qed.

(** C21: mutual exclusion.  However the processes' accesses are interleaved, at
    most one of them is between [mutex_acquire] and the store that clears the
    owner, and the owner is set then; at most one is in the critical section of
    the wait lock; and the processes that are blocked are exactly those on the
    wait list, each once. *)
Theorem mutex_exclusive s : rtc any_step initial s ->
  (forall p q, s_pc s p = Holding -> s_pc s q = Holding -> p = q /\ s_owner s <> 0) /\
  (forall p q, in_lock (s_pc s p) = true -> in_lock (s_pc s q) = true -> p = q /\ s_lock s <> 0) /\
  (forall p, s_blocked s p = true <-> p ∈ s_queue s) /\ NoDup (s_queue s).
Proof.
  intros Hr. assert (Hs : safe s).
  { revert Hr. generalize safe_initial. generalize initial. intros s0 H0 Hr.
    induction Hr as [|x y z (p & Hp & Hxy) _ IH]; [done|]. apply IH. by eapply safe_step. }
  destruct Hs as [H1 H2 H3 H4 H5 H6]. split; [|split; [|done]].
  - intros p q Hp Hq. split; [by apply H1|by eapply H2].
  - intros p q Hp Hq. split; [by apply H3|by eapply H4].
Qed.

(** Process [p] takes a step of the given kind. *)
Ltac stepping p rule :=
  eapply rtc_l; [exists p; split; [discriminate|apply rule; (reflexivity || discriminate)]|].

(** One process gets the mutex while another is put off. *)
Definition contended : system := System 2 0 [] (set_at 2 Failed (set_at 1 Holding (set_at 2 At_swap (set_at 1 At_swap (fun _ => Outside))))) (fun _ => false).

Lemma contended_reachable : rtc any_step initial contended.
Proof.
  unfold initial, contended.
  stepping 1 step_acquire.
  stepping 2 step_acquire.
  stepping 1 step_swap_won.
  stepping 2 step_swap_lost.
  apply rtc_refl.
Qed.

Lemma mutex_exclusive_witness : s_pc contended 1 = Holding /\ forall q, s_pc contended q = Holding -> 1 = q.
Proof. split; [reflexivity|]. intros q Hq. apply (proj1 (mutex_exclusive contended contended_reachable) 1 q eq_refl Hq). Defined.

(** The wait list is entered after the failed swap.  If the holder releases in
    between, it wakes nobody, and the waiter sleeps although the mutex is free.
    On the one core, with interrupts masked in a system call, nothing comes in
    between. *)
Lemma wakeup_lost_when_preempted : exists s, rtc any_step contended s /\
  s_owner s = 0 /\ s_pc s 1 = Outside /\ s_pc s 2 = Sleeping /\ s_blocked s 2 = true /\ forall s', ~ step 2 s s'.
Proof.
  unfold contended. eexists. split.
  { stepping 1 step_clear_owner.
    stepping 1 step_lock_to_wake.
    stepping 1 step_wake_none.
    stepping 1 step_unlock_wake.
    stepping 2 step_lock_to_queue.
    stepping 2 step_enqueue.
    stepping 2 step_unlock_queue.
    apply rtc_refl. }
  split; [done|]. split; [done|]. split; [done|]. split; [done|]. intros s' Hs. inversion Hs; subst; done.
Qed.

(** ** As the kernel calls it *)
Section mutex.
Context {M : Type} `{!ProcMem M}.
Implicit Types k : kernel M.

Lemma spinlock_free fuel m : wait_lock m = 0 -> spinlock_acquire (S fuel) m = Ok (set_wait_lock 1 m).
Proof. intros E. cbn [spinlock_acquire]. by rewrite E. Qed.

(** A lock word that is not zero, whatever its upper half, is never acquired. *)
Lemma spinlock_stuck fuel m : wait_lock m <> 0 -> spinlock_acquire fuel m = Fuel.
Proof.
  revert m. induction fuel as [|fuel IH]; intros m Hm; [done|]. cbn [spinlock_acquire].
  rewrite (proj2 (Z.eqb_neq _ _) Hm). by apply IH.
Qed.

(** Blocking without touching the run queue, then the scheduler. *)
Lemma block_running ps rq k :
  sched_inv ps rq k -> pstate (pcb_at k (current k)) = PROCESS_RUNNING -> current k <> idle_proc k ->
  exists k1 k', upd_pcb (current k) (set_pstate PROCESS_BLOCKED) k = Ok k1 /\ current k1 = current k /\
    deschedule k1 = Ok k' /\ current k' = default (idle_proc k) (head rq) /\ sched_inv ps (tail rq) k' /\
    pstate (pcb_at k' (current k)) = PROCESS_BLOCKED /\ pstate (pcb_at k' (current k')) = PROCESS_RUNNING.
Proof.
  intros Hi Hrun Hci. pose proof (si_cur _ _ _ Hi) as Hc. pose proof (si_known _ _ _ Hi _ Hc) as Hk.
  assert (Hn : current k ∉ rq) by (rewrite (si_ready _ _ _ Hi); intuition congruence).
  destruct (restate ps rq rq (current k) PROCESS_BLOCKED (links k) k Hi Hc) as [Hi1 Hr];
    [by destruct Hi|intros q; case_decide; [subst; intuition congruence|done]|done|].
  rewrite upd_pcb_ok by done.
  replace (with_links (links k) _) with (with_pcbs (<[current k := set_pstate PROCESS_BLOCKED (pcb_at k (current k))]> (pcbs k)) k) in *
    by (by destruct k).
  set (k1 := with_pcbs _ k) in *. destruct Hr as [rs_at rs_cur rs_idle rs_mem rs_sp].
  assert (Hb : pstate (pcb_at k1 (current k1)) = PROCESS_BLOCKED) by (rewrite rs_at, rs_cur; by case_decide).
  destruct (scheduler_ok ps rq k1 Hi1) as (k' & E' & Hs); [by rewrite Hb|by rewrite Hb|].
  exists k1, k'. split; [done|]. split; [done|]. split.
  { unfold deschedule, get_current. rewrite get_pcb_ok by by apply (si_known _ _ _ Hi1), (si_cur _ _ _ Hi1).
    cbn [mbind res_bind]. rewrite decide_False by (by rewrite Hb). cbn [mbind res_bind]. done. }
  destruct Hs as [sd_abs sd_same sd_idle sd_primed sd_state sd_freed sd_mem]. rewrite Hb, bool_decide_false in sd_abs by done.
  destruct sd_abs as (rq' & Ha & Hi'). rewrite rs_idle, rs_cur in *.
  assert (Hcu : current k' = default (idle_proc k) (head rq) /\ rq' = tail rq) by (destruct rq; cbn in Ha; by simplify_eq).
  destruct Hcu as [Hcu ->]. split; [done|]. split; [done|]. split; [|by rewrite sd_state, decide_True].
  assert (Hne : current k <> current k').
  { rewrite Hcu. destruct rq as [|x rq]; cbn; [done|]. intros E. apply Hn. rewrite E. left. }
  rewrite sd_state, decide_False by done. rewrite Hb. rewrite decide_False by (intros []; done). done.
Qed.

Lemma entry_fresh (q : list Z) p : p ∉ q -> W_entry p ∉ W_head :: (W_entry <$> q).
Proof.
  intros Hp. rewrite elem_of_cons. intros [E|Hin]; [done|]. apply list_elem_of_fmap in Hin as (r & E & Hr). congruence.
Qed.

(** C26: a process that finds the mutex taken goes to the head of the wait list
    and blocks while the next process runs; [mutex_release] clears the owner,
    takes the first waiter off the list and runs it at once, with the releasing
    process first on the run queue, so that the waiter's next attempt gets the
    mutex. *)
Theorem mutex_handover ps rq q m k :
  sched_inv ps rq k -> pstate (pcb_at k (current k)) = PROCESS_RUNNING -> current k <> idle_proc k ->
  owner m <> 0 -> wait_lock m = 0 -> ring (wait_list m) W_head (W_entry <$> q) ->
  (current k ∉ q -> exists m' k', mutex_acquire 1 m k = Ok (false, m', k') /\ owner m' = current k /\ wait_lock m' = 0 /\
    ring (wait_list m') W_head (W_entry <$> current k :: q) /\ current k' = default (idle_proc k) (head rq) /\
    sched_inv ps (tail rq) k' /\ pstate (pcb_at k' (current k)) = PROCESS_BLOCKED) /\
  (forall w q', q = w :: q' -> w ∈ ps -> w <> idle_proc k -> w ∉ rq -> w <> current k ->
    exists m' k', mutex_release 1 m k = Ok (m', k') /\ current k' = w /\ owner m' = 0 /\ wait_lock m' = 0 /\
      ring (wait_list m') W_head (W_entry <$> q') /\ sched_inv ps (current k :: rq) k' /\
      exists m'', acquire_turn 1 m' k' = Ok (true, m'', k') /\ owner m'' = w).
Proof.
  intros Hi Hrun Hci Ho Hl Hq. split.
  - intros Hn. unfold mutex_acquire, acquire_turn, get_current. cbn [owner set_owner set_wait_list].
    rewrite (proj2 (Z.eqb_neq _ _) Ho), spinlock_free by done. cbn [mbind res_bind wait_list set_wait_lock set_owner set_wait_list].
    rewrite (list_empty_ring _ _ []) by apply INIT_LIST_HEAD_ring. rewrite bool_decide_true by done.
    destruct (list_add_ring (INIT_LIST_HEAD (W_entry (current k)) (wait_list m)) W_head (W_entry <$> q) (W_entry (current k)))
      as (h & E & Hr & _); [|by apply entry_fresh|].
    { eapply ring_ext; [|exact Hq]. intros x Hx. apply INIT_LIST_HEAD_frame. intros ->. by apply (entry_fresh q (current k)). }
    rewrite E. cbn [mbind res_bind].
    destruct (block_running ps rq k Hi Hrun Hci) as (k1 & k' & -> & Hc1 & E' & Hc & Hi' & Hb & _). cbn [mbind res_bind].
    rewrite E'. cbn [mbind res_bind]. eexists _, k'. split; [done|]. repeat (split; [done|]). done.
  - intros w q' -> Hw Hwi Hwr Hwc. unfold mutex_release. rewrite spinlock_free by done.
    cbn [mbind res_bind wait_list set_wait_lock set_owner].
    rewrite (list_empty_ring _ _ _ Hq), bool_decide_false by done. rewrite (ring_next _ _ _ Hq).
    change (list.head (W_entry <$> w :: q')) with (Some (W_entry w)). cbn [default id from_option deref mbind res_bind default_wake_fn].
    destruct (reschedule_ok ps rq w k Hi Hw Hwi Hwr) as (k1 & -> & Hi1 & Hr1). cbn [mbind res_bind].
    destruct (list_remove_ring _ _ [] _ _ Hq) as (h & -> & Hq' & _). cbn [mbind res_bind app] in *.
    destruct Hr1 as [rs_at rs_cur rs_idle rs_mem rs_sp].
    assert (Hrun1 : pstate (pcb_at k1 (current k1)) = PROCESS_RUNNING) by (rewrite rs_at, rs_cur, decide_False by done; done).
    destruct (tick_swaps ps w rq k1 Hi1 Hrun1 ltac:(congruence)) as (k' & -> & Hc & Hi' & _). cbn [mbind res_bind].
    rewrite rs_cur in Hi'. eexists _, k'. split; [done|]. repeat (split; [done|]).
    eexists. unfold acquire_turn. cbn [owner spinlock_release set_wait_lock set_wait_list set_owner Z.eqb]. split; [done|]. done.
Qed.
End mutex.

#[local] Existing Instance kernel_proc_mem.

(** The mutex is held by the process that runs, and process 3 waits. *)
Definition taken : mutex_t :=
  Mutex (proc_at 0) 0 {[W_head := LNode (Some (W_entry (proc_at 3))) (Some (W_entry (proc_at 3)));
                        W_entry (proc_at 3) := LNode (Some W_head) (Some W_head)]}.

Lemma mutex_handover_witness : exists m' k',
  @mutex_release _ (kernel_proc_mem 4 demo_table demo_frames (fun _ => replicate 8 0)) 1 taken demo = Ok (m', k') /\
  current k' = proc_at 3 /\ owner m' = 0.
Proof.
  destruct (@mutex_handover _ (kernel_proc_mem 4 demo_table demo_frames (fun _ => replicate 8 0)) demo_ps _ [proc_at 3] taken demo demo_inv)
    as [_ H]; [reflexivity|discriminate|discriminate|reflexivity| |].
  - split; [split; split; reflexivity|]. apply NoDup_cons. split; [|apply NoDup_singleton].
    intros Hin. apply list_elem_of_singleton in Hin. discriminate.
  - destruct (H (proc_at 3) [] eq_refl) as (m' & k' & E & Hc & Ho & _);
      [by apply (bool_decide_unpack _)|discriminate|by apply (bool_decide_unpack _)|discriminate|].
    exists m', k'. split; [exact E|]. split; [exact Hc|exact Ho].
Defined.
