(* ===== verification/Vma.v ===== *)
(** * Virtual memory areas and page faults ([system/syscalls.c], [system/userfault.c])

    A process's areas hang on the [vmas] list of its control block.  [sys_mmap]
    and [sys_brk] change them; a page fault either resolves a copy-on-write page
    or enters a fresh page for the area the address lies in. *)
From S2P Require Import Prelude KList Buddy Mmap Proc.

Definition PROT_READ : Z := 1.
Definition PROT_WRITE : Z := 2.
Definition PROT_EXEC : Z := 4.
Definition PROT_NONE : Z := 8.
Definition VMA_USER : Z := 8.

Section Vma.
Context {M : Type} `{!ProcMem M}.
Implicit Types k : kernel M.

(** A loop over the list from node [p]: the body breaks with [inr]. *)
Fixpoint vma_loop {A} (fuel : nat) (body : Z -> vma -> A -> A + A) (p hd : lkey) (a : A) k : res A :=
  match fuel with
  | O => Fuel
  | S fuel =>
      if decide (p = hd) then Ok a
      else
        v ← vma_entry p;
        x ← get_vma v k;
        match body v x a with
        | inr a => Ok a
        | inl a => n ← deref (lnext (node_at (links k) p)); vma_loop fuel body n hd a k
        end
  end.

Definition over_vmas {A} (fuel : nat) (body : Z -> vma -> A -> A + A) (cur : Z) (a : A) k : res A :=
  p ← deref (lnext (node_at (links k) (L_vmas cur)));
  vma_loop fuel body p (L_vmas cur) a k.

(** The address lies strictly inside the area, as both calls test it. *)
Definition inside (addr : Z) (x : vma) : bool := (start x <? addr) && (addr <? end_ x).

(** The search of [sys_mmap]: it does not stop at the first match. *)
Definition mmap_body (addr : Z) (v : Z) (x : vma) (found : Z) : Z + Z :=
  inl (if inside addr x then v else found).

(** What [sys_mmap] makes of the protection bits. *)
Definition mmap_prot (prot : Z) : Z :=
  let prot := if negb (Z.land prot PROT_NONE =? 0) then 0 else prot in
  if negb (Z.land prot PROT_WRITE =? 0) && negb (Z.land prot PROT_EXEC =? 0)
  then Z.lor PROT_READ PROT_WRITE else prot.

Definition sys_mmap (fuel : nat) (addr len prot : Z) k : res (Z * kernel M) :=
  let start_addr := page_down addr in
  let end_addr := page_up (u64 (addr + len)) in
  let cur := get_current k in
  found_vma ← over_vmas fuel (mmap_body addr) cur 0 k;
  '(found_vma, k) ← (if found_vma =? 0 then
       '(new, k) ← kmalloc_obj sizeof_vma k;
       let k := put_vma new (Vma start_addr end_addr (u8 (mmap_prot prot))) k in
       k ← on_links (list_add (L_vma new) (L_vmas cur)) k;
       Ok (new, k)
     else Ok (found_vma, k));
  x ← get_vma found_vma k;
  Ok (start x, k).

(** The search of [sys_brk]: [true] when another area strictly contains the
    requested break. *)
Definition brk_body (heap addr : Z) (v : Z) (x : vma) (hit : bool) : bool + bool :=
  if v =? heap then inl hit else if inside addr x then inr true else inl hit.

Definition sys_brk (fuel : nat) (addr : Z) k : res (Z * kernel M) :=
  let cur := get_current k in
  b ← get_pcb cur k;
  if heap_vma b =? 0 then
    '(heap, k) ← kmalloc_obj sizeof_vma k;
    let k := put_vma heap (Vma (start_brk b) (brk b) (Z.lor (Z.lor VMA_USER VMA_READ) VMA_WRITE)) k in
    k ← on_links (list_add (L_vma heap) (L_vmas cur)) k;
    k ← upd_pcb cur (set_heap_vma heap) k;
    Ok (brk b, k)
  else
    let heap := heap_vma b in
    x ← get_vma heap k;
    let addr := page_up addr in
    if addr <? end_ x then Ok (end_ x, k)
    else
      hit ← over_vmas fuel (brk_body heap addr) cur false k;
      if (hit : bool) then Ok (end_ x, k)
      else Ok (addr, put_vma heap (Vma (start x) addr (permissions x)) k).

Definition sys_munmap (addr len : Z) k : res (Z * kernel M) := Ok (0, k).

(** ** Page faults *)

(** [check_vma]: [true] when the address lies in an area, for which a page is
    allocated and entered with the area's permissions. *)
Definition fault_body (addr : Z) (v : Z) (x : vma) (found : option vma) : option vma + option vma :=
  if (addr <? end_ x) && (start x <=? addr) then inr (Some x) else inl found.

Definition check_vma (fuel : nat) (faulting_address : Z) k : res (bool * kernel M) :=
  let cur := get_current k in
  found ← over_vmas fuel (fault_body faulting_address) cur None k;
  match found with
  | None => Ok (false, k)
  | Some x =>
      '(page, k) ← on_mem (pm_buddy_alloc PAGE_SIZE) k;
      b ← get_pcb cur k;
      k ← do_mem (pm_map (page_down faulting_address) (va_to_pa page) 0 (Z.lor MAP_USER (permissions x)) (ttbr b)) k;
      Ok (true, k)
  end.

(** [check_cow(addr)]: the address of the page's entry when it is marked. *)
Definition check_cow (addr : Z) k : res (option Z) :=
  b ← get_pcb (get_current k) k;
  let w := pm_words (kmem k) in
  let e0 := rd_entry w (ttbr b) (idx0 addr) in
  if valid e0 =? 0 then Ok None
  else
    let t1 := pa_to_va (u64 (Z.shiftl (address e0) 12)) in
    let e1 := rd_entry w t1 (idx1 addr) in
    if valid e1 =? 0 then Ok None
    else
      let t2 := pa_to_va (u64 (Z.shiftl (address e1) 12)) in
      let e2 := rd_entry w t2 (idx2 addr) in
      if valid e2 =? 0 then Ok None
      else
        let t3 := pa_to_va (u64 (Z.shiftl (address e2) 12)) in
        let e3 := rd_entry w t3 (idx3 addr) in
        if cow e3 =? 0 then Ok None else Ok (Some (u64 (t3 + 8 * idx3 addr))).

(** The fault handler: [Halted] is the endless loop of [halt]. *)
Inductive fault_outcome := Resolved | Halted.

(** [user_page va k] is what the words of the faulting page are, read through
    the process's own tables: [memcpy(new_page, base_addr, PAGE_SIZE)]. *)
Fixpoint copy_page (n : nat) (dst src : Z) (user_word : Z -> Z) k : kernel M :=
  match n with
  | O => k
  | S n => copy_page n (dst + 8) (src + 8) user_word (store_kernel dst (user_word src) k)
  end.

(** The address of the [page_frame_t] that the handler computes; the array's
    start, a kernel address already, is translated once more. *)
Definition cow_frame (pfn : Z) : Z := u64 (pa_to_va pm_frame_array + 32 * pfn).

Definition handle_el0_fault (fuel : nat) (L0_TABLE : Z) (user_word : kernel M -> Z -> Z) (faulting_address : Z) k
    : res (fault_outcome * kernel M) :=
  l3_pte ← check_cow faulting_address k;
  match l3_pte with
  | Some e =>
      '(new_page, k) ← on_mem (pm_buddy_alloc PAGE_SIZE) k;
      let base_addr := page_down faulting_address in
      k ← do_mem (pm_map new_page (va_to_pa new_page) 0 (Z.lor (Z.lor MAP_KERNEL MAP_READ) MAP_WRITE) L0_TABLE) k;
      let k := copy_page 512 new_page base_addr (user_word k) k in
      let pfn := address (load64 e k) in
      refs ← pm_frame_refcount (cow_frame pfn) (kmem k);
      let k := (if refs =? 1 then
                  let k := store_kernel e (set_cow 0 (load64 e k)) k in
                  store_kernel e (set_ap EL0_RW_EL1_RW (load64 e k)) k
                else k) in
      k ← do_mem (pm_decrement_ref (pa_to_va (u64 (Z.shiftl pfn PAGE_SHIFT)))) k;
      let k := store_kernel e (set_address (Z.shiftr (va_to_pa new_page) 12) (load64 e k)) k in
      Ok (Resolved, k)
  | None =>
      '(found, k) ← check_vma fuel faulting_address k;
      if (found : bool) then Ok (Resolved, k) else Ok (Halted, k)
  end.
End Vma.
