(* ===== verification/VmaSpec.v ===== *)
(** * Lazy mapping and copy-on-write faults

    What [sys_mmap] promises to the fault handler, the protection bits it lets
    through, and what a copy-on-write fault does. *)
From S2P Require Import Prelude KList Buddy BuddyRef Slab Mmap Proc Cow Vma.

Lemma page_down_spec x : 0 <= x -> page_down x = 4096 * (x / 4096).
Proof.
  intros. unfold page_down. change 4095 with (Z.ones 12). rewrite <- Z.ldiff_land, Z.ldiff_ones_r by lia.
  rewrite Z.shiftl_mul_pow2, Z.shiftr_div_pow2 by lia. change (2 ^ 12) with 4096. lia.
Qed.

Lemma page_up_ge x : 0 <= x <= 2 ^ 64 - 4096 -> x <= page_up x.
Proof.
  change (2 ^ 64) with 18446744073709551616. intros. unfold page_up. rewrite u64_small by lia.
  change (Z.land (x + 4095) (Z.lnot 4095)) with (page_down (x + 4095)). rewrite page_down_spec by lia. zdiv.
Qed.

(** Bits of a protection value. *)
Definition writable (p : Z) : bool := negb (Z.land p PROT_WRITE =? 0).
Definition executable (p : Z) : bool := negb (Z.land p PROT_EXEC =? 0).

Lemma mmap_prot_wx prot : writable (u8 (mmap_prot prot)) && executable (u8 (mmap_prot prot)) = false.
Proof.
  assert (Hu : forall p m, 0 <= m < 256 -> Z.land (u8 p) m = Z.land p m).
  { intros p m Hm. unfold u8, wrap. rewrite <- Z.land_ones by lia. rewrite <- Z.land_assoc. f_equal.
    rewrite Z.land_comm, Z.land_ones by lia. apply Z.mod_small. change (2 ^ 8) with 256. lia. }
  unfold writable, executable. rewrite !Hu by (unfold PROT_WRITE, PROT_EXEC; lia). unfold mmap_prot.
  set (p := if negb (Z.land prot PROT_NONE =? 0) then 0 else prot).
  destruct (negb (Z.land p PROT_WRITE =? 0) && negb (Z.land p PROT_EXEC =? 0)) eqn:E; [reflexivity|exact E].
Qed.

Section VmaSpec.
Context {M : Type} `{!ProcMem M}.
Implicit Types k : kernel M.

(** The areas of a process, in the list's order. *)
Record areas (cur : Z) (vs : list (Z * vma)) k : Prop := {
  ar_ring : ring (links k) (L_vmas cur) (L_vma <$> vs.*1);
  ar_known : forall v x, (v, x) ∈ vs -> vmas k !! v = Some x;
}.

(** A loop body run over a list of areas. *)
Fixpoint scan {A} (body : Z -> vma -> A -> A + A) (vs : list (Z * vma)) (a : A) : A :=
  match vs with
  | [] => a
  | (v, x) :: vs => match body v x a with inl a => scan body vs a | inr a => a end
  end.

Lemma vma_loop_scan {A} (body : Z -> vma -> A -> A + A) vs p hd fuel (a : A) k :
  chain (links k) p (L_vma <$> vs.*1) hd -> (forall v x, (v, x) ∈ vs -> vmas k !! v = Some x) ->
  hd ∉ L_vma <$> vs.*1 -> (length vs < fuel)%nat ->
  (n ← deref (lnext (node_at (links k) p)); vma_loop fuel body n hd a k) = Ok (scan body vs a).
Proof.
  revert p fuel a. induction vs as [|[v x] vs IH]; intros p fuel a Hc Hk Hn Hf; (destruct fuel as [|fuel]; [cbn in Hf; lia|]).
  - destruct Hc as [Hc _]. rewrite Hc. cbn. by rewrite decide_True.
  - cbn [fmap list_fmap fst] in Hc, Hn. destruct Hc as [[Hc _] Hc']. rewrite Hc. cbn [deref mbind res_bind vma_loop].
    apply not_elem_of_cons in Hn as [Hne Hn]. rewrite decide_False by congruence. cbn [vma_entry mbind res_bind].
    unfold get_vma. rewrite (Hk v x) by left. cbn [deref mbind res_bind scan].
    destruct (body v x a) as [a'|a']; [|done].
    apply (IH (L_vma v)); [done|intros; apply Hk; by right|done|cbn in Hf; lia].
Qed.

Lemma over_vmas_scan {A} (body : Z -> vma -> A -> A + A) cur vs fuel (a : A) k :
  areas cur vs k -> (length vs < fuel)%nat -> over_vmas fuel body cur a k = Ok (scan body vs a).
Proof.
  intros [[Hc Hd] Hk] Hf. apply NoDup_cons in Hd as [Hd _]. unfold over_vmas. by apply vma_loop_scan.
Qed.

Lemma scan_mmap addr vs : forall f, (forall v x, (v, x) ∈ vs -> inside addr x = false) -> scan (mmap_body addr) vs f = f.
Proof.
  induction vs as [|[v x] vs IH]; intros f Hn; [done|]. cbn. rewrite (Hn v x) by left. apply IH.
  intros v' x' Hin. apply (Hn v' x'). by right.
Qed.

(** A new area at the head of the list. *)
Lemma areas_add cur vs k k' new x :
  areas cur vs k -> new ∉ vs.*1 -> links k' = links k -> vmas k' = <[new := x]> (vmas k) ->
  exists h, list_add (L_vma new) (L_vmas cur) (links k') = Ok h /\ areas cur ((new, x) :: vs) (with_links h k').
Proof.
  intros [Hr Hk] Hn Hl Hv. destruct (list_add_ring _ _ _ (L_vma new) Hr) as (h & E & Hr' & _).
  { rewrite elem_of_cons. intros [?|Hin]; [done|]. apply list_elem_of_fmap in Hin as (? & ? & ?). congruence. }
  exists h. rewrite Hl. split; [done|]. split; [done|]. intros v y Hin. cbn [vmas with_links]. rewrite Hv.
  apply elem_of_cons in Hin as [[= -> ->]|Hin]; [by rewrite lookup_insert_eq|].
  rewrite lookup_insert_ne; [by apply Hk|]. intros ->. apply Hn. apply list_elem_of_fmap. by exists (v, y).
Qed.

(** C23: [sys_mmap] of a range that no area strictly contains returns its
    page-aligned start and makes a new area of the whole pages around it, never
    both writable and executable; a later fault at any address of the range is
    resolved by entering a page there with that area's permissions. *)
Theorem mmap_then_fault cur vs k addr len prot new m fuel :
  current k = cur -> areas cur vs k -> (S (length vs) < fuel)%nat ->
  0 <= addr -> 0 < len -> addr + len <= 2 ^ 64 - 4096 ->
  (forall v x, (v, x) ∈ vs -> inside addr x = false) ->
  pm_kmalloc sizeof_vma (kmem k) = Ok (new, m) -> new <> 0 -> new ∉ vs.*1 ->
  exists k' x, sys_mmap fuel addr len prot k = Ok (page_down addr, k') /\
    areas cur ((new, x) :: vs) k' /\ start x = page_down addr /\ addr + len <= end_ x /\
    writable (permissions x) && executable (permissions x) = false /\
    forall fa page m1 m2 b, addr <= fa < addr + len -> pcbs k !! cur = Some b ->
      pm_buddy_alloc PAGE_SIZE m = Ok (page, m1) ->
      pm_map (page_down fa) (va_to_pa page) 0 (Z.lor MAP_USER (permissions x)) (ttbr b) m1 = Ok m2 ->
      check_vma fuel fa k' = Ok (true, with_mem m2 k').
Proof.
  intros Hcur Ha Hf Hp Hl Hr Hin Ek Hnz Hn. change (2 ^ 64) with 18446744073709551616 in *.
  set (x := Vma (page_down addr) (page_up (u64 (addr + len))) (u8 (mmap_prot prot))).
  unfold sys_mmap, get_current. rewrite Hcur, (over_vmas_scan _ _ vs) by (done || lia). cbn [mbind res_bind].
  rewrite scan_mmap by done. cbn [Z.eqb]. unfold kmalloc_obj, on_mem. rewrite Ek. cbn [mbind res_bind].
  destruct (Z.eqb_spec new 0); [done|]. cbn [mbind res_bind].
  destruct (areas_add cur vs k (put_vma new x (with_mem m k)) new x Ha Hn eq_refl eq_refl) as (h & E & Ha').
  unfold on_links. fold x. rewrite E. cbn [mbind res_bind]. set (k' := with_links h _) in *.
  assert (Ex : vmas k' !! new = Some x) by (apply (ar_known _ _ _ Ha'); left).
  unfold get_vma. rewrite Ex. cbn [deref mbind res_bind]. exists k', x. split; [done|]. split; [done|].
  split; [done|].
  assert (Hend : addr + len <= end_ x) by (cbn; rewrite u64_small by lia; apply page_up_ge; change (2 ^ 64) with 18446744073709551616; lia).
  split; [done|]. split; [apply mmap_prot_wx|].
  intros fa page m1 m2 b Hfa Eb Epage Emap. unfold check_vma, get_current. change (current k') with (current k). rewrite Hcur.
  rewrite (over_vmas_scan _ _ ((new, x) :: vs)) by (done || cbn; lia). cbn [mbind res_bind scan].
  unfold fault_body. rewrite (proj2 (Z.ltb_lt _ _)) by lia.
  rewrite (proj2 (Z.leb_le _ _)) by (cbn [start x]; rewrite page_down_spec by lia; zdiv). cbn [andb].
  unfold on_mem. change (kmem k') with m. rewrite Epage. cbn [mbind res_bind].
  unfold get_pcb. change (pcbs (with_mem m1 k')) with (pcbs k). rewrite Eb. cbn [deref mbind res_bind].
  unfold do_mem. cbn [kmem with_mem]. by rewrite Emap.
Qed.
End VmaSpec.

(** The address computed for a page frame by the copy-on-write handler is below
    the kernel's half of the address space. *)
Lemma cow_frame_outside fuel L0_TABLE array junk pfn :
  VIRT_BASE <= array <= VIRT_BASE + 2 ^ 30 -> 0 <= pfn < 2 ^ 36 ->
  @cow_frame _ (kernel_proc_mem fuel L0_TABLE array junk) pfn < VIRT_BASE.
Proof.
  unfold cow_frame. cbn [pm_frame_array kernel_proc_mem]. unfold pa_to_va, u64, wrap.
  change (2 ^ 30) with 1073741824. change (2 ^ 36) with 68719476736. change (2 ^ 64) with 18446744073709551616.
  unfold VIRT_BASE. intros. zdiv.
Qed.

Lemma frame_refcount_below array addr st : addr < array -> frame_refcount array addr st = UB.
Proof.
  intros H. unfold frame_refcount, in_array, sizeof_page_frame_t.
  assert (Hd : (addr - array) / 32 < 0) by zdiv. rewrite (proj2 (Z.leb_gt _ _) Hd). by rewrite andb_false_r.
Qed.

Lemma address_range e : 0 <= address e < 2 ^ 36.
Proof. unfold address, get_bits. rewrite Z.land_ones by lia. by apply Z.mod_pos_bound. Qed.

(** C38: a copy-on-write fault is never resolved.  Wherever the linker puts the
    page-frame array in the kernel's first gigabyte, the handler translates its
    address a second time and reads the frame's reference count from outside
    the array, below the kernel's half of the address space. *)
Theorem cow_fault_never_resolved ptfuel L0_TABLE array junk fuel user_word fa e (k : kernel kernel_mem) :
  VIRT_BASE <= array <= VIRT_BASE + 2 ^ 30 -> check_cow (ProcMem0 := kernel_proc_mem ptfuel L0_TABLE array junk) fa k = Ok (Some e) ->
  forall r, @handle_el0_fault _ (kernel_proc_mem ptfuel L0_TABLE array junk) fuel L0_TABLE user_word fa k <> Ok r.
Proof.
  intros Ha Ec r E. unfold handle_el0_fault in E. rewrite Ec in E. cbn [mbind res_bind] in E.
  inv_bind E. destruct a as [new_page k1]. inv_bind E. inv_bind E. rename a0 into refs, Ha2 into Hrefs.
  cbn [pm_frame_refcount kernel_proc_mem] in Hrefs. rewrite frame_refcount_below in Hrefs; [discriminate|].
  eapply Z.lt_le_trans; [apply cow_frame_outside; [done|apply address_range]|lia].
Qed.

(** ** Instances *)

(** A memory that hands out addresses upwards and maps nothing. *)
#[local] Instance bump_mem : ProcMem Z := {|
  pm_frame_array := 0; pm_kmalloc n a := Ok (a, a + 4096); pm_buddy_alloc n a := Ok (a, a + n);
  pm_buddy_free _ a := Ok a; pm_head_from_page p _ := Ok p; pm_map _ _ _ _ _ a := Ok a; pm_update_mapping _ _ _ _ a := a;
  pm_buddy_alloc_pt a := Ok (a, a + 4096); pm_clone_virtual_memory _ a := Ok (a, a + 4096);
  pm_reap_virtual_memory _ _ a := Ok a; pm_decrement_ref _ a := Ok a; pm_frame_refcount _ _ := Ok 1;
  pm_words _ := fun _ => 0; pm_on_words _ a := a |}.

Definition one_proc (M : Type) (m : M) (table : Z) : kernel M :=
  Kernel {[7 := Pcb 0 table PROCESS_RUNNING 1 0 0 0 0 0 (replicate MAX_OPEN_FILES 0)]} ∅ (INIT_LIST_HEAD (L_vmas 7) ∅) 0 1 1 7 0 0 false m.

Lemma mmap_then_fault_witness : exists k' x,
  sys_mmap 5 0x5010 100 (Z.lor PROT_WRITE PROT_EXEC) (one_proc Z 0xFFFF800000200000 0) = Ok (0x5000, k') /\
  permissions x = Z.lor PROT_READ PROT_WRITE /\ areas 7 [(0xFFFF800000200000, x)] k'.
Proof.
  destruct (mmap_then_fault 7 [] (one_proc Z 0xFFFF800000200000 0) 0x5010 100 (Z.lor PROT_WRITE PROT_EXEC) 0xFFFF800000200000
    0xFFFF800000201000 5) as (k' & x & E & Ha & _);
    [reflexivity| |cbn; lia|lia|lia|change (2 ^ 64) with 18446744073709551616; lia| |reflexivity|discriminate|apply not_elem_of_nil|].
  - split; [apply INIT_LIST_HEAD_ring|]. intros v x Hv. by apply not_elem_of_nil in Hv.
  - intros v x Hv. by apply not_elem_of_nil in Hv.
  - exists k', x. split; [exact E|]. split; [|exact Ha]. vm_compute in E. injection E as E.
    pose proof (ar_known _ _ _ Ha 0xFFFF800000200000 x ltac:(left)) as Hx. rewrite <- E in Hx.
    vm_compute in Hx. injection Hx as <-. reflexivity.
Defined.

(** Four tables, the last with a page marked copy-on-write. *)
Definition cow_words : words := fun x =>
  if x =? 0x1000 then 0x2003 else if x =? 0x2000 then 0x3003 else if x =? 0x3000 then 0x4003
  else if x =? 0x4000 then 0x80000000000003 else 0.
Definition cow_kernel : kernel kernel_mem := one_proc kernel_mem (KHeap (MM (Buddy ∅ ∅) cow_words) ∅ ∅) (VIRT_BASE + 0x1000).

Lemma cow_fault_never_resolved_witness :
  check_cow (ProcMem0 := kernel_proc_mem 4 (VIRT_BASE + 0x80000) (VIRT_BASE + 0x100000) (fun _ => replicate 8 0)) 0 cow_kernel
    = Ok (Some (VIRT_BASE + 0x4000)) /\
  forall r, @handle_el0_fault _ (kernel_proc_mem 4 (VIRT_BASE + 0x80000) (VIRT_BASE + 0x100000) (fun _ => replicate 8 0)) 5
    (VIRT_BASE + 0x80000) (fun _ _ => 0) 0 cow_kernel <> Ok r.
Proof.
  assert (E : check_cow (ProcMem0 := kernel_proc_mem 4 (VIRT_BASE + 0x80000) (VIRT_BASE + 0x100000) (fun _ => replicate 8 0)) 0 cow_kernel
    = Ok (Some (VIRT_BASE + 0x4000))) by (vm_compute; reflexivity).
  split; [exact E|].
  apply (cow_fault_never_resolved 4 (VIRT_BASE + 0x80000) (VIRT_BASE + 0x100000) (fun _ => replicate 8 0) 5 (fun _ _ => 0) 0 (VIRT_BASE + 0x4000) cow_kernel); [|exact E].
  unfold VIRT_BASE. change (2 ^ 30) with 1073741824. lia.
Defined.
