(* ===== verification/Gpio.v ===== *)
(** * GPIO pins ([io/gpio.c])

    The registers of the pin controller and the routines that drive a pin; the
    fixed delays between register writes are left out. *)
From S2P Require Import Prelude.

Record gpio_regs := GpioRegs {
  func_select : list Z;             (* ten pins per register, three bits each *)
  output_set : list Z;
  output_clear : list Z;
  pupd_enable : Z;
  pupd_clocks_enable : list Z;
}.

Definition set_func_select x r := GpioRegs x (output_set r) (output_clear r) (pupd_enable r) (pupd_clocks_enable r).
Definition set_output_set x r := GpioRegs (func_select r) x (output_clear r) (pupd_enable r) (pupd_clocks_enable r).
Definition set_output_clear x r := GpioRegs (func_select r) (output_set r) x (pupd_enable r) (pupd_clocks_enable r).
Definition set_pupd x y r := GpioRegs (func_select r) (output_set r) (output_clear r) x y.

(** [regs[i] = v], outside the array an error. *)
Definition write_reg (i v : Z) (l : list Z) : res (list Z) :=
  if (0 <=? i) && (i <? Z.of_nat (length l)) then Ok (<[Z.to_nat i := v]> l) else UB.
Definition read_reg (i : Z) (l : list Z) : res Z := deref (l !! Z.to_nat i).

Definition bit_start (pinNumber : Z) : Z := u8 ((pinNumber * 3) mod 30).

Definition gpio_pin_set_func (pinNumber func : Z) (r : gpio_regs) : res gpio_regs :=
  let reg := u8 (pinNumber / 10) in
  selector ← read_reg reg (func_select r);
  let selector := Z.land selector (Z.lnot (Z.shiftl 7 (bit_start pinNumber))) in
  let selector := u32 (Z.lor selector (Z.shiftl func (bit_start pinNumber))) in
  l ← write_reg reg selector (func_select r);
  Ok (set_func_select l r).

Definition gpio_set_pin_high (pinNumber : Z) (r : gpio_regs) : res gpio_regs :=
  l ← write_reg (pinNumber / 32) (u32 (Z.shiftl 1 (pinNumber mod 32))) (output_set r);
  Ok (set_output_set l r).

Definition gpio_set_pin_low (pinNumber : Z) (r : gpio_regs) : res gpio_regs :=
  l ← write_reg (pinNumber / 32) (u32 (Z.shiftl 1 (pinNumber mod 32))) (output_clear r);
  Ok (set_output_clear l r).

(** The pull-up state is latched by the clock register between the two writes of
    [pupd_enable]; the result lists what the clock register held. *)
Definition gpio_pin_enable (pinNumber : Z) (r : gpio_regs) : res (Z * gpio_regs) :=
  let clock := u32 (Z.shiftl 1 (pinNumber mod 32)) in
  _ ← write_reg (pinNumber / 32) clock (pupd_clocks_enable r);
  l ← write_reg (pinNumber / 32) 0 (pupd_clocks_enable r);
  Ok (clock, set_pupd 0 l r).

Definition pulse (pin : Z) (on : bool) (r : gpio_regs) : res gpio_regs :=
  if on then gpio_set_pin_low pin r else gpio_set_pin_high pin r.

(** The function code of a pin. *)
Definition pin_func (pin : Z) (r : gpio_regs) : Z :=
  Z.land (Z.shiftr (nth (Z.to_nat (pin / 10)) (func_select r) 0) ((pin mod 10) * 3)) 7.

Lemma bit_start_pin pin : 0 <= pin < 60 -> bit_start pin = (pin mod 10) * 3.
Proof. intros. unfold bit_start. rewrite u8_small by zdiv. zdiv. Qed.

(** Replacing the three bits at [s] of a 32-bit word. *)
Lemma field3_get v f s t :
  0 <= v < 2 ^ 32 -> 0 <= f < 8 -> 0 <= s <= 27 -> 0 <= t <= 27 -> (exists k, s = k * 3) -> (exists k, t = k * 3) ->
  Z.land (Z.shiftr (u32 (Z.lor (Z.land v (Z.lnot (Z.shiftl 7 s))) (Z.shiftl f s))) t) 7 =
  if t =? s then f else Z.land (Z.shiftr v t) 7.
Proof.
  intros Hv Hf Hs Ht [a Ea] [b Eb]. unfold u32, wrap. rewrite <- Z.land_ones by lia.
  apply Z.bits_inj'. intros n Hn. change 7 with (Z.ones 3).
  rewrite Z.land_spec, Z.shiftr_spec, Z.land_spec, Z.lor_spec, Z.land_spec, Z.lnot_spec, !Z.shiftl_spec by lia.
  destruct (Z.lt_ge_cases n 3) as [H3|H3].
  - rewrite (Z.ones_spec_low 3 n), andb_true_r, (Z.ones_spec_low 32) by lia. rewrite andb_true_r.
    destruct (Z.eqb_spec t s) as [->|Hne].
    + replace (n + s - s) with n by lia. rewrite (Z.ones_spec_low 3 n) by lia. cbn [negb]. by rewrite andb_false_r.
    + rewrite Z.land_spec, Z.shiftr_spec, (Z.ones_spec_low 3 n), andb_true_r by lia.
      assert (Hd : n + t - s < 0 \/ 3 <= n + t - s) by lia.
      destruct Hd as [Hd|Hd].
      * rewrite (Z.testbit_neg_r (Z.ones 3)), (Z.testbit_neg_r f) by lia. cbn. by rewrite andb_true_r, orb_false_r.
      * rewrite (Z.ones_spec_high 3) by lia. cbn [negb]. rewrite andb_true_r.
        rewrite (Z.bits_above_log2 f), orb_false_r; [done|lia|].
        destruct (Z.eq_dec f 0) as [->|]; [cbn; lia|]. assert (Z.log2 f < 3) by (apply Z.log2_lt_pow2; lia). lia.
  - rewrite (Z.ones_spec_high 3 n), andb_false_r by lia. destruct (Z.eqb_spec t s).
    + symmetry. apply Z.bits_above_log2; [lia|]. destruct (Z.eq_dec f 0) as [->|]; [cbn; lia|].
      assert (Z.log2 f < 3) by (apply Z.log2_lt_pow2; lia). lia.
    + by rewrite Z.land_spec, (Z.ones_spec_high 3 n), andb_false_r by lia.
Qed.

(** [gpio_pin_set_func] gives the pin its function and leaves the function
    of every other pin as it was. *)
Lemma gpio_set_func_frame pin func r :
  0 <= pin < 60 -> 0 <= func < 8 -> length (func_select r) = 6%nat ->
  (forall i v, func_select r !! i = Some v -> 0 <= v < 2 ^ 32) ->
  exists r', gpio_pin_set_func pin func r = Ok r' /\
    forall q, 0 <= q < 60 -> pin_func q r' = if q =? pin then func else pin_func q r.
Proof.
  intros Hp Hf Hl Hw. unfold gpio_pin_set_func. rewrite u8_small by zdiv. rewrite bit_start_pin by done.
  assert (Hi : 0 <= pin / 10 < 6) by zdiv.
  destruct (lookup_lt_is_Some_2 (func_select r) (Z.to_nat (pin / 10))) as [v Ev]; [lia|].
  unfold read_reg, write_reg. rewrite Ev. cbn [deref mbind res_bind]. rewrite Hl.
  rewrite (proj2 (Z.leb_le _ _)), (proj2 (Z.ltb_lt _ _)) by lia. cbn [andb mbind res_bind].
  eexists. split; [done|]. intros q Hq. unfold pin_func. cbn [func_select set_func_select].
  destruct (Z.eq_dec (q / 10) (pin / 10)) as [E|E].
  - rewrite E. assert (Hlt : (Z.to_nat (pin / 10) < length (func_select r))%nat) by lia.
    rewrite (nth_lookup_Some _ _ _ _ (list_lookup_insert_eq _ _ _ Hlt)).
    rewrite field3_get; [|by apply (Hw (Z.to_nat (pin / 10)))|lia|zdiv|zdiv|eauto|eauto].
    rewrite (nth_lookup_Some _ _ _ _ Ev).
    destruct (Z.eqb_spec q pin), (Z.eqb_spec ((q mod 10) * 3) ((pin mod 10) * 3)); try done; exfalso; zdiv.
  - rewrite !nth_lookup, list_lookup_insert_ne by zdiv.
    destruct (Z.eqb_spec q pin); [congruence|done].
Qed.

Lemma gpio_set_func_frame_witness :
  exists r', gpio_pin_set_func 17 4 (GpioRegs [0; 0xFFFFFFFF; 0; 0; 0; 0] [0; 0] [0; 0] 0 [0; 0]) = Ok r' /\
    pin_func 17 r' = 4 /\ pin_func 18 r' = 7.
Proof.
  destruct (gpio_set_func_frame 17 4 (GpioRegs [0; 0xFFFFFFFF; 0; 0; 0; 0] [0; 0] [0; 0] 0 [0; 0])) as (r' & E & H);
    [lia|lia|reflexivity| |].
  - intros i v. cbn. change (2 ^ 32) with 4294967296.
    do 6 (destruct i as [|i]; [intros [= <-]; lia|]). discriminate.
  - exists r'. split; [exact E|]. split; [apply (H 17); lia|]. rewrite (H 18) by lia. reflexivity.
Defined.
