(* ===== verification/Syscalls.v ===== *)
(** * System calls ([system/syscalls.c])

    The dispatch table and the calls on processes and file descriptors; the
    calls on memory areas are in the file Vma.  A descriptor refers to a
    [file_t], whose operations are those of a driver or, for a file opened from
    disk, none (a NULL [file_ops]).  A call that blocks is split at
    [deschedule]: its outcome says what it does when the process runs again. *)
From S2P Require Import Prelude KList Buddy Mmap Proc Sched Vma Timer.

Definition SYS_MAX : Z := 300.
Definition ENOENT : Z := 0x02.
Definition ENOEXEC : Z := 0x08.
Definition ECHILD : Z := 0x0A.
Definition ENOSYS : Z := 0x26.
Definition SYS_SUCCESS : Z := 0.
Definition I2C_SLAVE : Z := 0x0703.

(** The tables [stdout_ops], [pipe_ops], [keyboard_ops] and [i2c_ops]. *)
Inductive fileops := stdout_ops | pipe_ops | keyboard_ops | i2c_ops.

Record file_t := File {
  inode : Z;
  pos : Z;
  flags : Z;
  refcount : Z;
  file_ops : option fileops;
  private_data : Z;
}.

(** Which entries of a table are not NULL. *)
Definition has_open (f : fileops) : bool := match f with stdout_ops => false | _ => true end.
Definition has_write (f : fileops) : bool := match f with keyboard_ops => false | _ => true end.
Definition has_read (f : fileops) : bool := true.
Definition has_ioctl (f : fileops) : bool := match f with i2c_ops => true | _ => false end.

Definition stdio_file : file_t := File 0 0 0 1 (Some stdout_ops) 0.
Definition pipe_file : file_t := File 0 0 0 1 (Some pipe_ops) 0.
Definition keyboard_file : file_t := File 0 0 0 1 (Some keyboard_ops) 0.
Definition i2c_file : file_t := File 0 0 0 1 (Some i2c_ops) 0.

(** The system calls with an entry in [syscall_table]. *)
Inductive syscall :=
| sys_ioctl | sys_io_setup | sys_open | sys_write | sys_read | sys_mmap | sys_brk | sys_clone3 | sys_execve
| sys_munmap | sys_exit | sys_exit_group | sys_nanosleep | sys_getpid | sys_getppid | sys_clock_gettime
| sys_pulse_led | sys_get_framebuffer | sys_getc | sys_pipe2 | sys_fork | sys_test_mutex | sys_waitid | sys_getcwd.

Definition syscall_entries : list (Z * syscall) :=
  [(29, sys_ioctl); (0, sys_io_setup); (56, sys_open); (64, sys_write); (63, sys_read); (222, sys_mmap);
   (214, sys_brk); (220, sys_clone3); (221, sys_execve); (215, sys_munmap); (93, sys_exit); (94, sys_exit_group);
   (101, sys_nanosleep); (172, sys_getpid); (173, sys_getppid); (113, sys_clock_gettime); (292, sys_pulse_led);
   (293, sys_get_framebuffer); (294, sys_getc); (59, sys_pipe2); (295, sys_fork); (297, sys_test_mutex);
   (95, sys_waitid); (17, sys_getcwd)].

(** [syscall_table], an array of [SYS_MAX] pointers. *)
Definition syscall_table : list (option syscall) :=
  foldl (fun t e => <[Z.to_nat e.1 := Some e.2]> t) (replicate (Z.to_nat SYS_MAX) None) syscall_entries.

(** [handle_syscall]: the number's handler runs, or an error value is returned.
    The bound is tested with [>]. *)
Definition handle_syscall {S} (call : syscall -> S -> res (Z * S)) (syscall_number : Z) (s : S) : res (Z * S) :=
  if SYS_MAX <? syscall_number then Ok (u64 (- ENOSYS), s)
  else
    entry ← deref (syscall_table !! Z.to_nat syscall_number);
    match entry with
    | Some f => call f s
    | None => Ok (u64 (-1), s)
    end.

Section Syscalls.
Context {M : Type} `{!ProcMem M}.

(** The kernel with the [file_t] objects and the sleep queue. *)
Record sys := Sys { kern : kernel M; files : gmap Z file_t; sleep : sleepers }.

Definition on_kern (f : kernel M -> res (kernel M)) (s : sys) : res sys :=
  k ← f (kern s); Ok (Sys k (files s) (sleep s)).
Definition on_kern' {A} (f : kernel M -> res (A * kernel M)) (s : sys) : res (A * sys) :=
  '(a, k) ← f (kern s); Ok (a, Sys k (files s) (sleep s)).
Definition put_file (a : Z) (f : file_t) (s : sys) : sys := Sys (kern s) (<[a := f]> (files s)) (sleep s).

(** The drivers: the operations of a table, on the descriptor's file. *)
Context (drv_open drv_read drv_write : fileops -> Z -> Z -> Z -> sys -> res (Z * sys)).

(** [current->fds[fd]], an array of [MAX_OPEN_FILES] pointers, and the file. *)
Definition get_fd (fd : Z) (s : sys) : res Z :=
  b ← get_pcb (get_current (kern s)) (kern s);
  if (0 <=? fd) && (fd <? 32) then deref (fds b !! Z.to_nat fd) else UB.
Definition set_fd (fd f : Z) (s : sys) : res sys :=
  if (0 <=? fd) && (fd <? 32) then
    on_kern (upd_pcb (get_current (kern s)) (fun b => set_fds (<[Z.to_nat fd := f]> (fds b)) b)) s
  else UB.
Definition get_file (f : Z) (s : sys) : res file_t := deref (files s !! f).

Definition do_write (fd buf count : Z) (s : sys) : res (Z * sys) :=
  f ← get_fd fd s;
  if f =? 0 then Ok (0, s)
  else
    file ← get_file f s;
    ops ← deref (file_ops file);
    if has_write ops then drv_write ops f buf count s else Ok (0, s).

(** [None]: the function ends without a value. *)
Definition do_read (fd buf count : Z) (s : sys) : res (option Z * sys) :=
  f ← get_fd fd s;
  if f =? 0 then Ok (None, s)
  else
    file ← get_file f s;
    ops ← deref (file_ops file);
    if has_read ops then '(n, s) ← drv_read ops f buf count s; Ok (Some n, s) else Ok (None, s).

(** [i2c_ioctl] is the one entry: it stashes the device address in the file. *)
Definition i2c_ioctl (f cmd arg : Z) (s : sys) : res (Z * sys) :=
  file ← get_file f s;
  if cmd =? I2C_SLAVE then
    Ok (0, put_file f (File (inode file) (pos file) (flags file) (refcount file) (file_ops file) arg) s)
  else Ok (u64 (-1), s).

Definition do_ioctl (fd cmd arg : Z) (s : sys) : res (option Z * sys) :=
  f ← get_fd fd s;
  if f =? 0 then Ok (None, s)
  else
    file ← get_file f s;
    ops ← deref (file_ops file);
    if has_ioctl ops then '(n, s) ← i2c_ioctl f cmd arg s; Ok (Some n, s) else Ok (None, s).

(** What follows in [sys_open] once there is a file object. *)
Definition open_fd (f : Z) (s : sys) : res (Z * sys) :=
  '(fd_index, s) ← on_kern' (fd_alloc (get_current (kern s)) f) s;
  s ← set_fd fd_index f s;
  file ← get_file f s;
  s ← (match file_ops file with
       | Some ops => if has_open ops then '(_, s) ← drv_open ops f 0 0 s; Ok s else Ok s
       | None => Ok s
       end);
  Ok (u64 fd_index, s).

(** [sys_open]: [vfs] is what [check_vfs(path)] returned, the address of a
    device's file, and [disk] the result of [open(path, flags)]. *)
Definition do_open (vfs disk : Z) (s : sys) : res (Z * sys) :=
  if negb (vfs =? 0) then
    '(new_fd, s) ← on_kern' (kmalloc_obj sizeof_file_t) s;
    fd ← get_file vfs s;
    open_fd new_fd (put_file new_fd fd s)
  else if disk =? 0 then Ok (u64 (- ENOENT), s)
  else open_fd disk s.

Definition do_nanosleep (ns now : Z) (s : sys) : res (Z * sys) :=
  t ← timer_nanosleep ns now (get_current (kern s)) (sleep s);
  s ← on_kern deschedule (Sys (kern s) (files s) t);
  Ok (0, s).

Definition do_getpid (s : sys) : res Z :=
  let cur := get_current (kern s) in
  if cur =? 0 then Ok (u64 (-1))
  else b ← get_pcb cur (kern s); Ok (if 0 <? pid b then pid b else u64 (-1)).

Definition do_getppid (s : sys) : res Z :=
  b ← get_pcb (get_current (kern s)) (kern s);
  if parent b =? 0 then Ok (u64 (-1))
  else p ← get_pcb (parent b) (kern s); Ok (if 0 <? pid p then pid p else u64 (-1)).

Definition do_exit (s : sys) : res (Z * sys) := s ← on_kern reap s; Ok (SYS_SUCCESS, s).

(** [sys_execve]: a program that was found is loaded by [readelf], and the call
    returns no value. *)
Definition do_execve (readelf : Z -> sys -> res sys) (f : Z) (s : sys) : res (option Z * sys) :=
  if f =? 0 then Ok (Some (u64 (- ENOEXEC)), s)
  else s ← readelf f s; Ok (None, s).

(** [sys_fork]: the child's number comes back through an [int]. *)
Definition do_fork (fuel : nat) (L0_TABLE ret_from_fork : Z) (s : sys) : res (Z * sys) :=
  let cur := get_current (kern s) in
  '(newproc, s) ← on_kern' (clone_active_proc fuel L0_TABLE ret_from_fork) s;
  s ← on_kern (add_to_schedule newproc) s;
  b ← get_pcb newproc (kern s);
  s ← on_kern (on_links (list_add (L_siblings newproc) (L_children cur))) s;
  Ok (u64 (s32 (pid b)), s).

(** The search of [sys_waitid] over the children. *)
Fixpoint find_child (fuel : nat) (p : lkey) (cur want : Z) (k : kernel M) : res (option Z) :=
  match fuel with
  | O => Fuel
  | S fuel =>
      if decide (p = L_children cur) then Ok None
      else
        child ← siblings_entry p;
        b ← get_pcb child k;
        if pid b =? want then Ok (Some child)
        else n ← deref (lnext (node_at (links k) p)); find_child fuel n cur want k
  end.

Inductive wait_outcome :=
| W_error (value : Z)
| W_none                        (* no such child: no value is returned *)
| W_ended                       (* the child had ended, or has now *)
| W_waiting (child : Z).        (* in [deschedule] *)

(** One turn of the waiting loop. *)
Definition wait_turn (child : Z) (s : sys) : res (wait_outcome * sys) :=
  b ← get_pcb child (kern s);
  if decide (pstate b = PROCESS_TERMINATED) then Ok (W_ended, s)
  else s ← on_kern deschedule s; Ok (W_waiting child, s).

Definition do_waitid (fuel : nat) (want : Z) (s : sys) : res (wait_outcome * sys) :=
  let cur := get_current (kern s) in
  if list_empty (L_children cur) (links (kern s)) then Ok (W_error ECHILD, s)
  else
    p ← deref (lnext (node_at (links (kern s)) (L_children cur)));
    found ← find_child fuel p cur want (kern s);
    match found with
    | None => Ok (W_none, s)
    | Some child =>
        s ← on_kern (upd_pcb cur (set_waiting_on (u32 want))) s;
        wait_turn child s
    end.
End Syscalls.

Arguments sys M : clear implicits.
