(* ===== verification/SyscallSpec.v ===== *)
(** * What the system-call layer does

    The dispatch of numbers to handlers and the life of a descriptor: the slot
    [sys_open] picks and the driver that later calls on it reach. *)
From S2P Require Import Prelude KList Buddy Mmap Proc Sched Vma Timer Syscalls VmaSpec.

(** C39: [handle_syscall] runs the handler registered for a number, answers
    [-ENOSYS] above the table and [-1] for a number without a handler; the bound
    is one too large, and number 300 reads the word behind the table. *)
Theorem dispatch_ok {S} (call : syscall -> S -> res (Z * S)) n s :
  0 <= n ->
  (SYS_MAX < n -> handle_syscall call n s = Ok (u64 (- ENOSYS), s)) /\
  (n < SYS_MAX -> (forall f, (n, f) ∈ syscall_entries -> handle_syscall call n s = call f s) /\
    (n ∉ syscall_entries.*1 -> handle_syscall call n s = Ok (u64 (-1), s))) /\
  (n = SYS_MAX -> handle_syscall call n s = UB).
Proof.
  intros Hn. unfold handle_syscall. split; [|split].
  - intros H. by rewrite (proj2 (Z.ltb_lt _ _)).
  - intros H. rewrite (proj2 (Z.ltb_ge _ _)) by lia. split.
    + intros f Hf.
      assert (Hall : Forall (fun e => syscall_table !! Z.to_nat e.1 = Some (Some e.2)) syscall_entries)
        by (repeat constructor).
      rewrite Forall_forall in Hall. pose proof (Hall _ Hf) as E. cbn [fst snd] in E. by rewrite E.
    + intros Hf.
      assert (Hall : Forall (fun i => default (Some sys_read) (syscall_table !! i) = None \/ Z.of_nat i ∈ syscall_entries.*1) (seq 0 300)).
      { assert (Hb : forallb (fun i => match default (Some sys_read) (syscall_table !! i) with None => true | _ => bool_decide (Z.of_nat i ∈ syscall_entries.*1) end) (seq 0 300) = true)
          by (vm_compute; reflexivity).
        apply Forall_forall. intros i Hi. rewrite forallb_forall in Hb. specialize (Hb i).
        rewrite <- list_elem_of_In in Hb. specialize (Hb Hi).
        destruct (default _ _); [right; by apply bool_decide_eq_true in Hb|by left]. }
      rewrite Forall_forall in Hall. destruct (Hall (Z.to_nat n)) as [E|E].
      * apply elem_of_seq. unfold SYS_MAX in *. lia.
      * destruct (syscall_table !! Z.to_nat n) as [e|] eqn:El; cbn in E; [by subst e|discriminate].
      * rewrite Z2Nat.id in E by lia. contradiction.
  - intros ->. rewrite (proj2 (Z.ltb_ge _ _)) by lia. by vm_compute.
Qed.

Lemma dispatch_ok_witness :
  handle_syscall (fun f s => Ok (0, f :: s)) 56 [] = Ok (0, [sys_open]) /\
  handle_syscall (fun f s => Ok (0, f :: s)) 400 [] = Ok (u64 (- ENOSYS), []).
Proof.
  split.
  - refine (proj1 (proj1 (proj2 (dispatch_ok (fun f s => Ok (0, f :: s)) 56 [] ltac:(lia))) ltac:(unfold SYS_MAX; lia)) sys_open _).
    right; right; left.
  - refine (proj1 (dispatch_ok (fun f s => Ok (0, f :: s)) 400 [] ltac:(lia)) ltac:(unfold SYS_MAX; lia)).
Defined.

(** ** Descriptors *)

Lemma fd_scan_first n i file (l : list Z) :
  (exists j, (i <= j < i + n)%nat /\ l !! j = Some 0) ->
  exists j, (i <= j < i + n)%nat /\ l !! j = Some 0 /\ (forall h, (i <= h < j)%nat -> default 0 (l !! h) <> 0) /\
    fd_scan n i file l = (Z.of_nat j, <[j := file]> l).
Proof.
  revert i. induction n as [|n IH]; intros i (j & Hj & Ej); [lia|]. cbn [fd_scan].
  destruct (Z.eqb_spec (default 0 (l !! i)) 0) as [E|E].
  - destruct (l !! i) as [x|] eqn:Ei.
    + cbn in E. subst x. exists i. repeat split; try done; lia.
    + exfalso. apply lookup_ge_None in Ei. apply lookup_lt_Some in Ej. lia.
  - destruct (IH (S i)) as (h & Hh & Eh & Hm & Ef).
    + exists j. split; [|done]. destruct (decide (i = j)) as [->|]; [rewrite Ej in E; done|lia].
    + exists h. split; [lia|]. split; [done|]. split; [|done]. intros g Hg.
      destruct (decide (g = i)) as [->|]; [done|]. apply Hm. lia.
Qed.

Section SyscallSpec.
Context {M : Type} `{!ProcMem M}.
Context (drv_open drv_read drv_write : fileops -> Z -> Z -> Z -> sys M -> res (Z * sys M)).

(** The descriptor table of the running process. *)
Definition fd_table (s : sys M) : list Z :=
  match pcbs (kern s) !! current (kern s) with Some b => fds b | None => [] end.

Lemma open_fd_ok s b f file :
  pcbs (kern s) !! current (kern s) = Some b -> length (fds b) = 32%nat -> 0 ∈ fds b ->
  files s !! f = Some file ->
  exists j s1, open_fd drv_open f s =
      (s' ← (match file_ops file with
             | Some ops => if has_open ops then '(_, s') ← drv_open ops f 0 0 s1; Ok s' else Ok s1
             | None => Ok s1 end); Ok (Z.of_nat j, s')) /\
    (j < 32)%nat /\ fds b !! j = Some 0 /\ (forall h, (h < j)%nat -> default 0 (fds b !! h) <> 0) /\
    fd_table s1 = <[j := f]> (fds b) /\ files s1 = files s /\ current (kern s1) = current (kern s).
Proof.
  intros Eb Hl H0 Ef. apply list_elem_of_lookup in H0 as [i Ei].
  assert (Hi : (i < 32)%nat) by (rewrite <- Hl; by eapply lookup_lt_Some).
  destruct (fd_scan_first 32 0 f (fds b)) as (j & Hj & Ej & Hm & Es); [exists i; split; [lia|done]|].
  unfold open_fd, on_kern', fd_alloc, get_current, get_pcb. rewrite Eb. cbn [deref mbind res_bind].
  change MAX_OPEN_FILES with 32%nat. rewrite Es. unfold upd_pcb, get_pcb. rewrite Eb. cbn [deref mbind res_bind].
  unfold set_fd. rewrite (proj2 (Z.leb_le _ _)), (proj2 (Z.ltb_lt _ _)) by lia. cbn [andb].
  unfold on_kern, upd_pcb, get_pcb, get_current. cbn [kern pcbs with_pcbs current]. rewrite lookup_insert_eq.
  cbn [deref mbind res_bind files sleep]. unfold get_file. cbn [files]. rewrite Ef. cbn [deref mbind res_bind].
  rewrite Nat2Z.id, u64_small by lia. exists j. eexists. split; [done|].
  split; [lia|]. split; [done|]. split; [intros h Hh; apply Hm; lia|]. split; [|done].
  unfold fd_table. cbn [kern pcbs with_pcbs current]. rewrite lookup_insert_eq. cbn. apply list_insert_insert_eq.
Qed.

(** C29: [sys_open] of a device makes a private copy of the device's file and
    stores it in the lowest free slot of the process's table; the returned
    number then leads [sys_read] and [sys_write] to that device's driver with
    the copy. *)
Theorem open_then_use s b vfs disk dev new m :
  pcbs (kern s) !! current (kern s) = Some b -> length (fds b) = 32%nat -> 0 ∈ fds b ->
  vfs <> 0 -> files s !! vfs = Some dev ->
  pm_kmalloc sizeof_file_t (kmem (kern s)) = Ok (new, m) -> new <> 0 -> new <> vfs ->
  forall ops, file_ops dev = Some ops ->
  exists j s1, (j < 32)%nat /\ fds b !! j = Some 0 /\ (forall h, (h < j)%nat -> default 0 (fds b !! h) <> 0) /\
    do_open drv_open vfs disk s =
      (s' ← (if has_open ops then '(_, s') ← drv_open ops new 0 0 s1; Ok s' else Ok s1); Ok (Z.of_nat j, s')) /\
    fd_table s1 = <[j := new]> (fds b) /\ files s1 !! new = Some dev /\ files s1 !! vfs = Some dev /\
    (forall buf count, do_read drv_read (Z.of_nat j) buf count s1 = ('(n, s') ← drv_read ops new buf count s1; Ok (Some n, s'))) /\
    (forall buf count, has_write ops = true -> do_write drv_write (Z.of_nat j) buf count s1 = drv_write ops new buf count s1).
Proof.
  intros Eb Hl H0 Hv Ev Ek Hn Hnv ops Eo. unfold do_open. rewrite (proj2 (Z.eqb_neq _ _) Hv). cbn [negb].
  unfold on_kern', kmalloc_obj, on_mem. rewrite Ek. cbn [mbind res_bind]. rewrite (proj2 (Z.eqb_neq _ _) Hn).
  cbn [mbind res_bind]. unfold get_file at 1. cbn [files]. rewrite Ev. cbn [deref mbind res_bind].
  set (s0 := put_file new dev _).
  destruct (open_fd_ok s0 b new dev) as (j & s1 & E & Hj & Ej & Hm & Et & Ef & Ec); [done|done|done|by cbn; rewrite lookup_insert_eq|].
  rewrite Eo in E. exists j, s1. split; [done|]. split; [done|]. split; [done|]. split; [done|]. split; [done|].
  assert (En : files s1 !! new = Some dev) by (rewrite Ef; cbn; by rewrite lookup_insert_eq).
  split; [done|]. split; [rewrite Ef; cbn; by rewrite lookup_insert_ne by done|].
  assert (Efd : get_fd (Z.of_nat j) s1 = Ok new).
  { unfold get_fd, get_current, get_pcb. unfold fd_table in Et.
    destruct (pcbs (kern s1) !! current (kern s1)) as [b1|] eqn:E1.
    - cbn [deref mbind res_bind]. rewrite (proj2 (Z.leb_le _ _)), (proj2 (Z.ltb_lt _ _)) by lia. cbn [andb].
      rewrite Et, Nat2Z.id, list_lookup_insert_eq by lia. done.
    - symmetry in Et. apply (f_equal length) in Et. rewrite length_insert in Et. cbn in Et. lia. }
  unfold do_read, do_write. rewrite Efd. cbn [mbind res_bind]. rewrite (proj2 (Z.eqb_neq _ _) Hn).
  unfold get_file. rewrite En. cbn [deref mbind res_bind]. rewrite Eo. cbn [deref mbind res_bind has_read].
  split; [done|]. intros buf count Hw. by rewrite Hw.
Qed.
End SyscallSpec.

#[local] Existing Instance bump_mem.

Definition one_sys : sys Z :=
  Sys (one_proc Z 0xFFFF800000200000 0) {[5 := keyboard_file]} sleep_init.

Lemma open_then_use_witness : exists s1, fd_table s1 = <[0%nat := 0xFFFF800000200000]> (replicate MAX_OPEN_FILES 0) /\
  do_open (fun _ _ _ _ s => Ok (1, s)) 5 0 one_sys = Ok (0, s1).
Proof.
  destruct (open_then_use (fun _ _ _ _ s => Ok (1, s)) (fun _ _ _ _ s => Ok (1, s)) (fun _ _ _ _ s => Ok (1, s)) one_sys
    (Pcb 0 0 PROCESS_RUNNING 1 0 0 0 0 0 (replicate MAX_OPEN_FILES 0)) 5 0 keyboard_file 0xFFFF800000200000 0xFFFF800000201000)
    with (ops := keyboard_ops) as (j & s1 & Hj & Ej & Hm & E & Et & _);
    [reflexivity|reflexivity|left|discriminate|reflexivity|reflexivity|discriminate|discriminate|reflexivity|].
  assert (j = 0%nat) as ->.
  { destruct j as [|j]; [reflexivity|]. exfalso. apply (Hm 0%nat); [lia|reflexivity]. }
  exists s1. split; [exact Et|exact E].
Defined.
