(* ===== verification/Fork.v ===== *)
(** * Building the child of a [fork]

    What [clone_active_proc] ([system/process.c]) needs of the kernel's memory,
    as the interface [ForkMem], and what its parts do over any memory that keeps
    it: the loop over the parent's areas, and the words of the kernel stacks
    that [memcpy] and [memset] change. *)
From S2P Require Import Prelude KList Buddy BuddyOps Mmap MmapInv Proc VmaSpec.

(** A kernel stack is a block of two frames, named by the first; the words
    [i < 512] of the second one are the stack's. *)
Definition stack_pa (b i : Z) : Z := (b + 1) * 4096 + 8 * i.
Definition stack_va (b i : Z) : Z := page_va (b + 1) + 8 * i.

Section stacks.
Context {M : Type} `{!ProcMem M}.

(** The words of the stacks [St] are the same in two memories. *)
Definition stacks_same (St : gset Z) (m m' : M) : Prop :=
  forall b i, b ∈ St -> 0 <= i < 512 -> pm_words m' (stack_pa b i) = pm_words m (stack_pa b i).

#[export] Instance stacks_same_preorder St : PreOrder (stacks_same St).
Proof. split; [by intros m b i|]. intros m1 m2 m3 H1 H2 b i Hb Hi. by rewrite (H2 b i), (H1 b i). Qed.

Lemma stacks_same_sub St St' m m' : St ⊆ St' -> stacks_same St' m m' -> stacks_same St m m'.
Proof. intros Hs H b i Hb. apply H. by apply Hs. Qed.
End stacks.

(** What the memory promises: [fm_ok L St T n m] says that the objects [L] are
    live, the stacks [St] are in use, every page table of [T] translates as [T]
    says and [n] more requests can be served. *)
Class ForkMem (M : Type) `{!ProcMem M} (L0_TABLE : Z) := {
  fm_ok : gset Z -> gset Z -> gmap Z (Z -> Z) -> nat -> M -> Prop;
  fm_stack_range L St T n m b : fm_ok L St T n m -> b ∈ St -> 0 <= b /\ b + 1 < NPAGES;
  fm_kmalloc L St T n m size : fm_ok L St T (S n) m -> 32 < size <= 2048 ->
    exists p m', pm_kmalloc size m = Ok (p, m') /\ p <> 0 /\ p ∉ L /\ fm_ok ({[p]} ∪ L) St T n m' /\ stacks_same St m m';
  fm_stack L St T n m : fm_ok L St T (S n) m ->
    exists b m', pm_buddy_alloc (KSTACK_SIZE + PAGE_SIZE) m = Ok (page_va b, m') /\ b ∉ St /\
      fm_ok L ({[b]} ∪ St) T n m' /\ stacks_same St m m';
  fm_map L St T n m b : fm_ok L St T (S n) m -> b ∈ St ->
    exists m', pm_map (page_va (b + 1)) (va_to_pa (page_va (b + 1))) 0 (Z.lor (Z.lor MAP_KERNEL MAP_READ) MAP_WRITE) L0_TABLE m = Ok m' /\
      fm_ok L St T n m' /\ stacks_same St m m';
  fm_head L St T n m b : fm_ok L St T n m -> b ∈ St -> pm_head_from_page (page_va (b + 1)) m = Ok (page_va b);
  fm_clone L St T n m t f : fm_ok L St T (S n) m -> T !! t = Some f ->
    exists t' m', pm_clone_virtual_memory t m = Ok (t', m') /\ T !! t' = None /\ fm_ok L St (<[t' := f]> T) n m' /\ stacks_same St m m';
  fm_store L St T n m b i v : fm_ok L St T n m -> b ∈ St -> 0 <= i < 512 -> fm_ok L St T n (pm_on_words (store64 (stack_pa b i) v) m);
  fm_words m f : pm_words (pm_on_words f m) = f (pm_words m);
}.

Section Fork.
Context {M : Type} `{!ProcMem M} {L0_TABLE : Z} `{!ForkMem M L0_TABLE}.
Implicit Types (k : kernel M) (L St : gset Z) (T : gmap Z (Z -> Z)).

(** ** Addresses in a stack *)

Lemma stack_va_eq b i : 0 <= b -> b + 1 < NPAGES -> stack_va b i = VIRT_BASE + stack_pa b i.
Proof. intros. unfold stack_va, stack_pa. rewrite page_va_eq by lia. lia. Qed.

Lemma stack_va_pa b i : 0 <= b -> b + 1 < NPAGES -> 0 <= i < 512 -> va_to_pa (stack_va b i) = stack_pa b i.
Proof.
  intros. rewrite stack_va_eq by done. unfold va_to_pa, stack_pa, VIRT_BASE. unfold NPAGES in *.
  change (2 ^ 18) with 262144 in *. rewrite u64_small by lia. lia.
Qed.

Lemma stack_pa_inj b b' i i' : 0 <= i < 512 -> 0 <= i' < 512 -> stack_pa b i = stack_pa b' i' -> b = b' /\ i = i'.
Proof. unfold stack_pa. lia. Qed.

Lemma stack_u64 b x : 0 <= b -> b + 1 < NPAGES -> 0 <= x <= 4096 -> u64 (page_va (b + 1) + x) = page_va (b + 1) + x.
Proof.
  intros. rewrite page_va_eq by lia. unfold VIRT_BASE, NPAGES in *. change (2 ^ 18) with 262144 in *. apply u64_small. lia.
Qed.

Lemma stack_page_down b x : 0 <= b -> b + 1 < NPAGES -> 0 <= x < 4096 -> page_down (page_va (b + 1) + x) = page_va (b + 1).
Proof.
  intros. rewrite page_va_eq by lia. unfold VIRT_BASE, NPAGES in *. change (2 ^ 18) with 262144 in *.
  rewrite page_down_spec by lia. zdiv.
Qed.

(** ** Words of a stack *)

Definition stack_word (b i : Z) (m : M) : Z := pm_words m (stack_pa b i).

(** Only the words of the stack [b] are changed, to [f]. *)
Record stored (St : gset Z) (b : Z) (f : Z -> Z) (m m' : M) : Prop := {
  st_ok : forall L T n, fm_ok L St T n m -> fm_ok L St T n m';
  st_here : forall i, 0 <= i < 512 -> stack_word b i m' = f i;
  st_else : forall b' i, b' <> b -> 0 <= i < 512 -> stack_word b' i m' = stack_word b' i m;
}.

Lemma stored_refl St b f m : (forall i, 0 <= i < 512 -> stack_word b i m = f i) -> stored St b f m m.
Proof. by split. Qed.

Lemma stored_trans St b f g m1 m2 m3 : stored St b f m1 m2 -> stored St b g m2 m3 -> stored St b g m1 m3.
Proof.
  intros [O1 H1 A1] [O2 H2 A2]. split; auto. intros b' i Hb Hi. by rewrite A2, A1.
Qed.

Lemma stored_ext St b f g m m' : (forall i, 0 <= i < 512 -> f i = g i) -> stored St b f m m' -> stored St b g m m'.
Proof. intros Hf [O H A]. split; try done. intros i Hi. by rewrite H, Hf. Qed.

Lemma load_stack b i k : 0 <= b -> b + 1 < NPAGES -> 0 <= i < 512 -> load64 (stack_va b i) k = stack_word b i (kmem k).
Proof. intros. unfold load64, stack_word. by rewrite stack_va_pa. Qed.

Lemma store_stack St b i v k : b ∈ St -> 0 <= b -> b + 1 < NPAGES -> 0 <= i < 512 ->
  exists m', store_kernel (stack_va b i) v k = with_mem m' k /\
    stored St b (fun j => if j =? i then v else stack_word b j (kmem k)) (kmem k) m'.
Proof.
  intros Hb H0 H1 Hi. unfold store_kernel. rewrite stack_va_pa by done. eexists. split; [done|]. split.
  - intros L T n Ho. by apply fm_store.
  - intros j Hj. unfold stack_word. rewrite fm_words. unfold store64. cbn beta.
    destruct (Z.eqb_spec j i) as [->|Hne]; [by rewrite Z.eqb_refl|]. rewrite (proj2 (Z.eqb_neq _ _)); [done|].
    intros E. apply stack_pa_inj in E; [naive_solver|done|done].
  - intros b' j Hne Hj. unfold stack_word. rewrite fm_words. unfold store64. cbn beta.
    rewrite (proj2 (Z.eqb_neq _ _)); [done|]. intros E. apply stack_pa_inj in E; [naive_solver|done|done].
Qed.

Lemma with_mem_id k : with_mem (kmem k) k = k.
Proof. by destruct k. Qed.

Lemma range_step i j n : (i <=? j) && (j <? i + Z.of_nat (S n)) = (j =? i) || (i + 1 <=? j) && (j <? i + 1 + Z.of_nat n).
Proof. apply eq_true_iff_eq. rewrite orb_true_iff, !andb_true_iff, !Z.leb_le, !Z.ltb_lt, Z.eqb_eq. lia. Qed.

Lemma range_step_first i n : (i + 1 <=? i) && (i <? i + 1 + Z.of_nat n) = false.
Proof. by rewrite (proj2 (Z.leb_gt _ _)) by lia. Qed.

Lemma range_none i j : (i <=? j) && (j <? i + Z.of_nat 0) = false.
Proof. rewrite Z.add_0_r. destruct (_ && _) eqn:E; [lia|done]. Qed.

Lemma zero_words_stack St b n i k : b ∈ St -> 0 <= b -> b + 1 < NPAGES -> 0 <= i -> i + Z.of_nat n <= 512 ->
  exists m', zero_words n (stack_va b i) k = with_mem m' k /\
    stored St b (fun j => if (i <=? j) && (j <? i + Z.of_nat n) then 0 else stack_word b j (kmem k)) (kmem k) m'.
Proof.
  intros Hb H0 H1. revert i k. induction n as [|n IH]; intros i k Hi Hn; cbn [zero_words].
  - exists (kmem k). rewrite with_mem_id. split; [done|]. apply stored_refl. intros j Hj. by rewrite range_none.
  - replace (stack_va b i + 8) with (stack_va b (i + 1)) by (unfold stack_va; lia).
    destruct (store_stack St b i 0 k Hb H0 H1 ltac:(lia)) as (m1 & -> & Hs).
    destruct (IH (i + 1) (with_mem m1 k)) as (m2 & -> & Hs2); [lia|lia|]. exists m2. split; [done|].
    eapply stored_trans; [exact Hs|]. eapply stored_ext; [|exact Hs2]. intros j Hj. cbn [kmem with_mem].
    rewrite (st_here _ _ _ _ _ Hs), range_step by done.
    by destruct (Z.eqb_spec j i) as [->|Hji]; [rewrite range_step_first|].
Qed.

(** Copying from one stack to another. *)
Lemma copy_words_stack St b s n i k : b ∈ St -> s ∈ St -> b <> s -> 0 <= b -> b + 1 < NPAGES -> 0 <= s -> s + 1 < NPAGES ->
  0 <= i -> i + Z.of_nat n <= 512 ->
  exists m', copy_words n (stack_va b i) (stack_va s i) k = with_mem m' k /\
    stored St b (fun j => if (i <=? j) && (j <? i + Z.of_nat n) then stack_word s j (kmem k) else stack_word b j (kmem k)) (kmem k) m'.
Proof.
  intros Hb Hs Hne H0 H1 H2 H3. revert i k. induction n as [|n IH]; intros i k Hi Hn; cbn [copy_words].
  - exists (kmem k). rewrite with_mem_id. split; [done|]. apply stored_refl. intros j Hj. by rewrite range_none.
  - replace (stack_va b i + 8) with (stack_va b (i + 1)) by (unfold stack_va; lia).
    replace (stack_va s i + 8) with (stack_va s (i + 1)) by (unfold stack_va; lia). rewrite load_stack by (done || lia).
    destruct (store_stack St b i (stack_word s i (kmem k)) k Hb H0 H1 ltac:(lia)) as (m1 & -> & Hst).
    destruct (IH (i + 1) (with_mem m1 k)) as (m2 & -> & Hs2); [lia|lia|]. exists m2. split; [done|].
    eapply stored_trans; [exact Hst|]. eapply stored_ext; [|exact Hs2]. intros j Hj. cbn [kmem with_mem].
    rewrite (st_here _ _ _ _ _ Hst), (st_else _ _ _ _ _ Hst), range_step by congruence || lia.
    by destruct (Z.eqb_spec j i) as [->|Hji]; [rewrite range_step_first|].
Qed.

Lemma stored_same St St' b f m m' : b ∉ St -> stored St' b f m m' -> stacks_same St m m'.
Proof. intros Hb [_ _ A] b' i Hb' Hi. apply A; [by intros ->|done]. Qed.

(** ** The areas *)

(** The nodes of the objects in [L], and the two heads. *)
Definition key_live L (x : lkey) : Prop :=
  match x with
  | L_proclist_head | L_runqueue_head => True
  | L_proclist p | L_runqueue p | L_children p | L_siblings p | L_vmas p | L_vma p => p ∈ L
  end.

Lemma areas_ext p vs k k' :
  (forall x, x ∈ L_vmas p :: (L_vma <$> vs.*1) -> node_at (links k') x = node_at (links k) x) ->
  (forall v, v ∈ vs.*1 -> vmas k' !! v = vmas k !! v) -> areas p vs k -> areas p vs k'.
Proof.
  intros Hn Hv [Hr Hk]. split; [by eapply ring_ext|]. intros v x Hin. rewrite Hv; [by apply Hk|].
  apply list_elem_of_fmap. by exists (v, x).
Qed.

Lemma area_key (p v : Z) (vs : list Z) : v ∉ vs -> L_vma v ∉ L_vmas p :: (L_vma <$> vs).
Proof. rewrite elem_of_cons, list_elem_of_fmap. intros Hv [?|(u & [= ->] & Hu)]; done. Qed.

(** One turn: a new area [nv] with the contents of [v] heads the child's list. *)
Lemma copy_vma_ok cur c v x nv L vs dn k :
  areas cur vs k -> areas c dn k -> c <> cur -> (forall u, u ∈ vs.*1 -> u ∈ L) -> (forall u, u ∈ dn.*1 -> u ∈ L) ->
  (forall u, u ∈ vs.*1 -> u ∉ dn.*1) -> (v, x) ∈ vs -> nv ∉ L ->
  exists h', copy_vma v nv c k = Ok (with_links h' (put_vma nv x k)) /\
    areas c ((nv, x) :: dn) (with_links h' (put_vma nv x k)) /\
    forall y, y <> L_vma nv -> y ∉ L_vmas c :: (L_vma <$> dn.*1) -> node_at h' y = node_at (links k) y.
Proof.
  intros [_ Hk] [Hr Hkc] Hne HL HLd Hdj Hv Hnv. unfold copy_vma, get_vma. rewrite (Hk v x Hv). cbn [deref mbind res_bind].
  assert (Hnd : nv ∉ dn.*1) by (intros Hin; by apply Hnv, HLd).
  unfold on_links. cbn [links with_links put_vma with_vmas].
  destruct (list_add_ring (<[L_vma nv := node_at (links k) (L_vma v)]> (links k)) (L_vmas c) (L_vma <$> dn.*1) (L_vma nv))
    as (h' & E & Hr' & Hf); [|by apply area_key|].
  { eapply ring_ext; [|exact Hr]. intros y Hy. rewrite node_at_insert, decide_False; [done|].
    intros <-. by apply (area_key c nv dn.*1). }
  rewrite E. cbn [mbind res_bind]. exists h'. split; [done|]. split.
  - split; [exact Hr'|]. intros u z. cbn [vmas with_links put_vma with_vmas]. rewrite lookup_insert, elem_of_cons. intros [[= -> ->]|Hu].
    + by rewrite decide_True.
    + rewrite decide_False; [by apply Hkc|]. intros <-. apply Hnd. apply list_elem_of_fmap. by exists (nv, z).
  - intros y Hy Hn. rewrite Hf, node_at_insert, decide_False; [done|congruence|]. set_solver.
Qed.

(** What the loop leaves: the state [k] with new memory, nodes and areas. *)
Record copied (cur c : Z) L St T (n : nat) (rest dn : list (Z * vma)) k k' : Prop := {
  cp_new : exists L' new, L ⊆ L' /\ fm_ok L' St T n (kmem k') /\ areas c (new ++ dn) k' /\ new.*2 = rest.*2 /\
             (forall v, v ∈ new.*1 -> v ∉ L);
  cp_eq : k' = with_mem (kmem k') (with_links (links k') (with_vmas (vmas k') k));
  cp_stacks : stacks_same St (kmem k) (kmem k');
  cp_vmas : forall v, v ∈ L -> vmas k' !! v = vmas k !! v;
  cp_links : forall y, key_live L y -> y ∉ L_vmas c :: (L_vma <$> dn.*1) -> node_at (links k') y = node_at (links k) y;
}.

Lemma clone_vmas_ok cur c St T n rest : forall vs dn L k fuel,
  areas cur (rest ++ vs) k -> areas c dn k -> c <> cur -> cur ∈ L ->
  (forall u, u ∈ (rest ++ vs).*1 -> u ∈ L) -> (forall u, u ∈ dn.*1 -> u ∈ L) ->
  (forall u, u ∈ (rest ++ vs).*1 -> u ∉ dn.*1) -> fm_ok L St T (length rest + n) (kmem k) -> (length rest < fuel)%nat ->
  exists k', clone_vmas fuel (default (L_vmas cur) (last (L_vma <$> rest.*1))) cur c k = Ok k' /\
    copied cur c L St T n rest dn k k'.
Proof.
  induction rest as [|[v x] rest IH] using rev_ind; intros vs dn L k fuel Ha Hc Hne Hcur HL HLd Hdj Hok Hf;
    (destruct fuel as [|fuel]; [lia|]); cbn [clone_vmas].
  - cbn [fmap list_fmap last default from_option id]. rewrite decide_True by done. exists k. split; [done|].
    split; try done. { exists L, []. split; [done|]. split; [exact Hok|]. split; [exact Hc|]. split; [done|]. intros v Hv. by apply not_elem_of_nil in Hv. }
    by destruct k.
  - rewrite !fmap_app. cbn [fmap list_fmap fst]. rewrite last_snoc. cbn [default from_option id]. rewrite decide_False by done.
    cbn [vma_entry mbind res_bind]. rewrite length_app in Hok, Hf. cbn [length] in Hok, Hf.
    replace (length rest + 1 + n)%nat with (S (length rest + n)) in Hok by lia. rewrite <- app_assoc in *. cbn [app] in *.
    assert (Hv : (v, x) ∈ rest ++ (v, x) :: vs) by (apply elem_of_app; right; left).
    assert (Hv1 : v ∈ (rest ++ (v, x) :: vs).*1) by (apply list_elem_of_fmap; by exists (v, x)).
    destruct (fm_kmalloc _ _ _ _ _ sizeof_vma Hok ltac:(unfold sizeof_vma; lia)) as (nv & m1 & E1 & Hnz & Hfr & Hok1 & Hs1).
    unfold on_mem. rewrite E1. cbn [mbind res_bind]. rewrite (proj2 (Z.eqb_neq _ _) Hnz).
    destruct (copy_vma_ok cur c v x nv L (rest ++ (v, x) :: vs) dn (with_mem m1 k)) as (h' & E2 & Hc' & Hf2); try done.
    { by eapply areas_ext; [| |exact Ha]. } { by eapply areas_ext; [| |exact Hc]. }
    rewrite E2. cbn [mbind res_bind]. set (k2 := with_links h' _) in *. change (links (with_mem m1 k)) with (links k) in Hf2.
    assert (Hfar : forall y, key_live L y -> y ∉ L_vmas c :: (L_vma <$> dn.*1) -> node_at h' y = node_at (links k) y).
    { intros y Hy Hn. apply Hf2; [|done]. intros ->. done. }
    assert (HnL : forall u, u ∈ (rest ++ (v, x) :: vs).*1 -> node_at h' (L_vma u) = node_at (links k) (L_vma u)).
    { intros u Hu. apply Hfar; [by apply HL|]. apply area_key. by apply Hdj. }
    change (links k2) with h'. rewrite HnL by done.
    pose proof (ar_ring _ _ _ Ha) as Hra. rewrite !fmap_app in Hra. cbn [fmap list_fmap fst] in Hra.
    rewrite (ring_prev_mid _ _ _ _ _ Hra). cbn [deref mbind res_bind].
    assert (HVe : forall u, u ∈ L -> vmas k2 !! u = vmas k !! u).
    { intros u Hu. cbn. rewrite lookup_insert, decide_False; [done|]. by intros <-. }
    destruct (IH ((v, x) :: vs) ((nv, x) :: dn) ({[nv]} ∪ L) k2 fuel) as (k' & E & Hcp); try done.
    + eapply areas_ext; [| |exact Ha]; [|intros u Hu; by apply HVe, HL].
      intros y [->|(u & -> & Hu)%list_elem_of_fmap]%elem_of_cons; [|by apply HnL].
      apply Hfar; [done|]. rewrite elem_of_cons, list_elem_of_fmap. intros [[= ->]|(? & ? & _)]; done.
    + by apply elem_of_union_r.
    + intros u Hu. by apply elem_of_union_r, HL.
    + intros u [->|Hu]%elem_of_cons; [by apply elem_of_union_l, elem_of_singleton|]. by apply elem_of_union_r, HLd.
    + intros u Hu [->|Hu']%elem_of_cons; [by apply Hfr, HL|]. by apply (Hdj u).
    + lia.
    + exists k'. split; [exact E|]. destruct Hcp as [(L' & new & P1 & P2 & P3 & P4 & P5) P6 P7 P8 P9]. split.
      * exists L', (new ++ [(nv, x)]). split; [intros u Hu; by apply P1, elem_of_union_r|]. split; [done|].
        split; [by rewrite <- app_assoc|]. split; [rewrite !fmap_app; by rewrite P4|].
        rewrite fmap_app. intros u [Hu|Hu]%elem_of_app.
        -- intros Hin. apply (P5 u Hu). by apply elem_of_union_r.
        -- apply list_elem_of_singleton in Hu as ->. done.
      * exact P6.
      * by transitivity m1.
      * intros u Hu. rewrite P8 by by apply elem_of_union_r. by apply HVe.
      * intros y Hy Hn. rewrite P9; [by apply Hfar| |].
        -- destruct y; cbn in *; try done; by apply elem_of_union_r.
        -- cbn [fmap list_fmap fst]. rewrite !elem_of_cons. intros [->|[->|Hin]]; [apply Hn; left|done|].
           apply Hn. by right.
Qed.
End Fork.
