(* ===== verification/ForkSpec.v ===== *)
(** * What [fork] promises

    The child that [sys_fork] makes: its control block, areas, kernel stack and
    place in the lists, over any memory that keeps [ForkMem]. *)
From S2P Require Import Prelude KList Buddy BuddyOps Mmap MmapInv Proc Sched SchedInv Vma VmaSpec Timer Syscalls Fork.

Section ForkSpec.
Context {M : Type} `{!ProcMem M} {L0_TABLE : Z} `{!ForkMem M L0_TABLE} (ret_from_fork : Z).
Implicit Types (k : kernel M) (L St : gset Z) (T : gmap Z (Z -> Z)).

(** ** The second half of [clone_active_proc], behind the areas *)

Definition finish_clone (process cur : Z) k : res (Z * kernel M) :=
  k ← upd_pcb process (set_parent cur) k;
  '(kstack, k) ← initialize_proc_kstack L0_TABLE k;
  k ← upd_pcb process (set_kernel_stack kstack) k;
  let '(new_pid, k) := generate_pid k in
  k ← upd_pcb process (set_pid new_pid) k;
  head ← pm_head_from_page (page_down (cpu_sp k)) (kmem k);
  let current_stack_top := u64 (head + PAGE_SIZE) in
  let k := copy_words 512 (page_down kstack) current_stack_top k in
  b ← get_pcb cur k;
  '(table, k) ← on_mem (pm_clone_virtual_memory (ttbr b)) k;
  k ← upd_pcb process (set_ttbr table) k;
  k ← upd_pcb process (fun b => set_kernel_stack (u64 (kernel_stack b - S_FRAME_SIZE)) b) k;
  b ← get_pcb process k;
  let k := store_kernel (kernel_stack b) 0 k in
  k ← push_context ret_from_fork process 0 k;
  Ok (process, k).

Lemma clone_split fuel k :
  clone_active_proc fuel L0_TABLE ret_from_fork k =
  ('(process, k) ← kmalloc_obj sizeof_pcb_t k;
   let cur := get_current k in
   b ← get_pcb cur k;
   let k := with_pcbs (<[process := b]> (pcbs k)) k in
   let k := init_lists (pcb_lists process) k in
   let k := init_lists [L_vmas process] k in
   p ← deref (lprev (node_at (links k) (L_vmas cur)));
   k ← clone_vmas fuel p cur process k;
   finish_clone process cur k).
Proof. reflexivity. Qed.

(** The states on the way: new memory, next number and control block [b] at [c]. *)
Definition child_state (c : Z) k (m : M) (np : Z) (b : pcb_t) : kernel M :=
  with_mem m (with_pidcounter np (with_pcbs (<[c := b]> (pcbs k)) k)).

Lemma upd_child c k m np b f : upd_pcb c f (child_state c k m np b) = Ok (child_state c k m np (f b)).
Proof.
  unfold upd_pcb, get_pcb, child_state. cbn [pcbs with_mem with_pidcounter with_pcbs]. rewrite lookup_insert_eq.
  cbn [deref mbind res_bind]. by rewrite insert_insert_eq.
Qed.

Lemma get_child c k m np b : get_pcb c (child_state c k m np b) = Ok b.
Proof. unfold get_pcb. cbn. by rewrite lookup_insert_eq. Qed.

Lemma get_other c k m np b p : c <> p -> get_pcb p (child_state c k m np b) = get_pcb p k.
Proof. intros. unfold get_pcb. cbn. by rewrite lookup_insert_ne. Qed.

Lemma child_state_start c k b : pcbs k !! c = Some b -> k = child_state c k (kmem k) (pidcounter k) b.
Proof. intros E. unfold child_state. rewrite insert_id by done. by destruct k. Qed.

(** The stack and the map entry that [initialize_proc_kstack] takes. *)
Lemma kstack_ok L St T n k :
  fm_ok L St T (S (S n)) (kmem k) ->
  exists nb m, initialize_proc_kstack L0_TABLE k = Ok (stack_va nb 510, with_mem m k) /\ nb ∉ St /\
    0 <= nb /\ nb + 1 < NPAGES /\ fm_ok L ({[nb]} ∪ St) T n m /\ stacks_same St (kmem k) m.
Proof.
  intros Hok. destruct (fm_stack _ _ _ _ _ Hok) as (nb & m1 & E1 & Hfr & Hok1 & Hs1).
  assert (Hin : nb ∈ ({[nb]} ∪ St : gset Z)) by (apply elem_of_union_l, elem_of_singleton; done).
  destruct (fm_stack_range _ _ _ _ _ _ Hok1 Hin) as [H0 H1].
  destruct (fm_map _ _ _ _ _ _ Hok1 Hin) as (m2 & E2 & Hok2 & Hs2). exists nb, m2.
  assert (Hva : forall x, 0 <= x <= 4096 -> u64 (page_va nb + 4096 + x) = page_va (nb + 1) + x).
  { intros x Hx. rewrite <- (stack_u64 nb x) by done. f_equal. rewrite !page_va_eq by lia. lia. }
  unfold initialize_proc_kstack, on_mem. rewrite E1. cbn [mbind res_bind]. unfold do_mem. cbn [kmem with_mem].
  change PAGE_SIZE with 4096. specialize (Hva 0 ltac:(lia)) as H00. rewrite !Z.add_0_r in H00. rewrite H00, E2.
  cbn [mbind res_bind]. split_and!; try done.
  - do 2 f_equal. unfold stack_va. rewrite <- Hva by lia. f_equal. unfold KSTACK_SIZE, PAGE_SIZE. lia.
  - transitivity m1; [done|]. eapply stacks_same_sub; [|exact Hs2]. by apply union_subseteq_r.
Qed.

(** The words of the child's stack: the parent's, but for the saved context
    (464 to 475) and the first register of the trap frame (476). *)
Definition child_word (w : Z -> Z) (i : Z) : Z :=
  if i =? 465 then ret_from_fork else if (464 <=? i) && (i <? 476) then 0 else if i =? 476 then 0 else w i.

Definition child_pcb (b : pcb_t) (cur np nb t : Z) : pcb_t :=
  Pcb (stack_va nb 464) t (pstate b) np (waiting_on b) cur (brk b) (start_brk b) (heap_vma b) (fds b).

(** The last steps, on the new stack [nb]. *)
Lemma push_child_ok c k m np b nb St L T n :
  nb ∈ St -> 0 <= nb -> nb + 1 < NPAGES -> kernel_stack b = stack_va nb 510 -> fm_ok L St T n m ->
  exists m',
    (k ← upd_pcb c (fun b => set_kernel_stack (u64 (kernel_stack b - S_FRAME_SIZE)) b) (child_state c k m np b);
     b ← get_pcb c k;
     let k := store_kernel (kernel_stack b) 0 k in
     k ← push_context ret_from_fork c 0 k;
     Ok (c, k)) = Ok (c, child_state c k m' np (set_kernel_stack (stack_va nb 464) b)) /\
    fm_ok L St T n m' /\ stored St nb (child_word (fun i => stack_word nb i m)) m m'.
Proof.
  intros Hin H0 H1 Hks Hok.
  assert (Hu : forall i j, 0 <= i <= 512 -> 0 <= i - j <= 512 -> u64 (stack_va nb i - 8 * j) = stack_va nb (i - j)).
  { intros i j Hi Hj. unfold stack_va. replace (page_va (nb + 1) + 8 * i - 8 * j) with (page_va (nb + 1) + 8 * (i - j)) by lia.
    apply stack_u64; lia. }
  rewrite upd_child. cbn [mbind res_bind]. rewrite get_child, Hks. cbn [mbind res_bind kernel_stack set_kernel_stack].
  change S_FRAME_SIZE with (8 * 34). rewrite Hu by lia. change (510 - 34) with 476.
  set (b1 := set_kernel_stack (stack_va nb 476) b).
  destruct (store_stack St nb 476 0 (child_state c k m np b1) Hin H0 H1 ltac:(lia)) as (m1 & -> & S1).
  change (with_mem m1 (child_state c k m np b1)) with (child_state c k m1 np b1).
  unfold push_context. rewrite upd_child. cbn [mbind res_bind]. rewrite get_child. cbn [mbind res_bind kernel_stack set_kernel_stack b1].
  replace (stack_va nb 476 - 0 - 96) with (stack_va nb 476 - 8 * 12) by lia. rewrite Hu by lia. change (476 - 12) with 464.
  set (b2 := set_kernel_stack (stack_va nb 464) b1).
  destruct (zero_words_stack St nb 12 464 (child_state c k m1 np b2) Hin H0 H1 ltac:(lia) ltac:(lia)) as (m2 & -> & S2).
  change (with_mem m2 (child_state c k m1 np b2)) with (child_state c k m2 np b2).
  replace (stack_va nb 464 + 8) with (stack_va nb 465) by (unfold stack_va; lia).
  destruct (store_stack St nb 465 ret_from_fork (child_state c k m2 np b2) Hin H0 H1 ltac:(lia)) as (m3 & -> & S3).
  exists m3. cbn [kmem child_state with_mem] in S1, S2, S3.
  split; [done|]. split; [by apply (st_ok _ _ _ _ _ S3), (st_ok _ _ _ _ _ S2), (st_ok _ _ _ _ _ S1)|].
  eapply stored_ext; [|eapply stored_trans; [exact S1|eapply stored_trans; [exact S2|exact S3]]].
  intros i Hi. cbn beta. unfold child_word. destruct (Z.eqb_spec i 465); [done|].
  rewrite (st_here _ _ _ _ _ S2) by done. change (464 + Z.of_nat 12) with 476.
  destruct (_ && _); [done|]. by rewrite (st_here _ _ _ _ _ S1).
Qed.

Lemma finish_clone_ok cur c b s St L T n k f :
  c <> cur -> pcbs k !! c = Some b -> pcbs k !! cur = Some b -> fm_ok L St T (3 + n) (kmem k) ->
  s ∈ St -> page_down (cpu_sp k) = page_va (s + 1) -> T !! ttbr b = Some f ->
  let np := u32 (pidcounter k + 1) in
  exists m nb t, finish_clone c cur k = Ok (c, child_state c k m np (child_pcb b cur np nb t)) /\
    nb ∉ St /\ T !! t = None /\ fm_ok L ({[nb]} ∪ St) (<[t := f]> T) n m /\ stacks_same St (kmem k) m /\
    (forall i, 0 <= i < 512 -> stack_word nb i m = child_word (fun i => stack_word s i (kmem k)) i).
Proof.
  intros Hne Hc Hcur Hok Hs Hsp Ht np. unfold finish_clone.
  pose proof (upd_child c k (kmem k) (pidcounter k) b (set_parent cur)) as E. rewrite <- (child_state_start c k b Hc) in E.
  rewrite E. cbn [mbind res_bind]. set (k1 := child_state c k (kmem k) (pidcounter k) _).
  destruct (kstack_ok L St T (S n) k1 Hok) as (nb & m1 & E1 & Hnb & H0 & H1 & Hok1 & Hs1). rewrite E1. cbn [mbind res_bind].
  change (with_mem m1 k1) with (child_state c k m1 (pidcounter k) (set_parent cur b)). rewrite upd_child. cbn [mbind res_bind].
  unfold generate_pid. cbn [pidcounter child_state with_mem with_pidcounter]. fold np.
  match goal with |- context [upd_pcb c (set_pid np) ?x] =>
    change x with (child_state c k m1 np (set_kernel_stack (stack_va nb 510) (set_parent cur b))) end.
  rewrite upd_child. cbn [mbind res_bind]. set (b2 := set_pid np _).
  assert (Hin : nb ∈ ({[nb]} ∪ St : gset Z)) by (apply elem_of_union_l, elem_of_singleton; done).
  assert (Hin' : s ∈ ({[nb]} ∪ St : gset Z)) by (by apply elem_of_union_r).
  destruct (fm_stack_range _ _ _ _ _ _ Hok1 Hin') as [H2 H3].
  change (cpu_sp (child_state c k m1 np b2)) with (cpu_sp k). rewrite Hsp.
  change (kmem (child_state c k m1 np b2)) with m1. rewrite (fm_head _ _ _ _ _ _ Hok1 Hin'). cbn [mbind res_bind].
  assert (E0 : forall d, stack_va d 0 = page_va (d + 1)) by (intros d; unfold stack_va; lia).
  assert (Etop : u64 (page_va s + PAGE_SIZE) = stack_va s 0).
  { rewrite E0, <- (Z.add_0_r (page_va (s + 1))), <- stack_u64 by lia. f_equal. rewrite !page_va_eq by lia. unfold PAGE_SIZE. lia. }
  rewrite Etop. replace (page_down (stack_va nb 510)) with (stack_va nb 0).
  2:{ rewrite E0. unfold stack_va. symmetry. apply stack_page_down; lia. }
  assert (Hns : nb <> s) by (by intros ->).
  destruct (copy_words_stack ({[nb]} ∪ St) nb s 512 0 (child_state c k m1 np b2) Hin Hin' Hns H0 H1 H2 H3 ltac:(lia) ltac:(lia))
    as (m2 & -> & S2). change (kmem (child_state c k m1 np b2)) with m1 in S2.
  change (with_mem m2 (child_state c k m1 np b2)) with (child_state c k m2 np b2).
  rewrite get_other by done.
  assert (Eg : get_pcb cur k = Ok b) by (unfold get_pcb; by rewrite Hcur). rewrite Eg. cbn [mbind res_bind].
  destruct (fm_clone _ _ _ _ _ _ _ (st_ok _ _ _ _ _ S2 _ _ _ Hok1) Ht) as (t & m3 & E3 & Htf & Hok3 & Hs3).
  unfold on_mem. change (kmem (child_state c k m2 np b2)) with m2. rewrite E3. cbn [mbind res_bind].
  change (with_mem m3 (child_state c k m2 np b2)) with (child_state c k m3 np b2). rewrite upd_child. cbn [mbind res_bind].
  destruct (push_child_ok c k m3 np (set_ttbr t b2) nb ({[nb]} ∪ St) L (<[t := f]> T) n Hin H0 H1 eq_refl Hok3) as (m4 & E4 & Hok4 & S4).
  exists m4, nb, t. split; [exact E4|]. split; [done|]. split; [done|]. split; [done|]. split.
  - transitivity m1; [done|]. transitivity m2; [by eapply stored_same|]. transitivity m3; [|by eapply stored_same].
    eapply stacks_same_sub; [|exact Hs3]. by apply union_subseteq_r.
  - intros i Hi. rewrite (st_here _ _ _ _ _ S4) by done. unfold child_word.
    destruct (_ =? _); [done|]. destruct (_ && _); [done|]. destruct (_ =? _); [done|].
    unfold stack_word at 1. rewrite (Hs3 nb i) by done. fold (stack_word nb i m2). rewrite (st_here _ _ _ _ _ S2) by done.
    change (0 + Z.of_nat 512) with 512. replace ((0 <=? i) && (i <? 512)) with true by lia. by apply Hs1.
Qed.

(** ** [clone_active_proc] *)

Lemma init_nodes_frame (ns : list lkey) h y : y ∉ ns -> node_at (foldl (fun h n => INIT_LIST_HEAD n h) h ns) y = node_at h y.
Proof.
  revert h. induction ns as [|n ns IH]; intros h Hy; [done|]. apply not_elem_of_cons in Hy as [Hne Hy]. cbn [foldl].
  rewrite IH by done. by apply INIT_LIST_HEAD_frame.
Qed.

Lemma init_nodes_ring (ns : list lkey) h y : y ∈ ns -> NoDup ns -> ring (foldl (fun h n => INIT_LIST_HEAD n h) h ns) y [].
Proof.
  revert h. induction ns as [|n ns IH]; intros h Hy Hd; [by apply not_elem_of_nil in Hy|].
  apply NoDup_cons in Hd as [Hn Hd]. cbn [foldl]. apply elem_of_cons in Hy as [->|Hy]; [|by apply IH].
  eapply ring_ext; [|apply (INIT_LIST_HEAD_ring h)]. intros z ->%list_elem_of_singleton. by apply init_nodes_frame.
Qed.

Definition child_lists (c : Z) : list lkey := pcb_lists c ++ [L_vmas c].

Lemma child_lists_nodup c : NoDup (child_lists c).
Proof. unfold child_lists, pcb_lists. cbn [app]. repeat (apply NoDup_cons; split; [set_solver|]). apply NoDup_nil_2. Qed.

Lemma live_not_child L c y : c ∉ L -> key_live L y -> y ∉ child_lists c.
Proof.
  intros Hc Hy Hin. unfold child_lists, pcb_lists in Hin. cbn [app] in Hin.
  repeat (apply elem_of_cons in Hin as [->|Hin]; [done|]). by apply not_elem_of_nil in Hin.
Qed.

(** What must hold of the caller: it is live, its areas are the list [vs], and
    it runs on the stack [s] with a page table of its own. *)
Record forker L St T (s : Z) (vs : list (Z * vma)) k : Prop := {
  fr_pcb : pcbs k !! current k = Some (pcb_at k (current k));
  fr_areas : areas (current k) vs k;
  fr_live : current k ∈ L;
  fr_vmas : forall v, v ∈ vs.*1 -> v ∈ L;
  fr_stack : s ∈ St;
  fr_sp : page_down (cpu_sp k) = page_va (s + 1);
  fr_table : is_Some (T !! ttbr (pcb_at k (current k)));
}.

(** The state with the new process [c] on the stack [nb] with the table [t]. *)
Record forked L St T (s : Z) (vs : list (Z * vma)) (n : nat) (c nb t : Z) k k' : Prop := {
  fk_fresh : c ∉ L /\ nb ∉ St /\ T !! t = None;
  fk_eq : let np := u32 (pidcounter k + 1) in
          k' = with_mem (kmem k') (with_links (links k') (with_vmas (vmas k') (with_pidcounter np
                 (with_pcbs (<[c := child_pcb (pcb_at k (current k)) (current k) np nb t]> (pcbs k)) k))));
  fk_ok : exists L' f, {[c]} ∪ L ⊆ L' /\ T !! ttbr (pcb_at k (current k)) = Some f /\ fm_ok L' ({[nb]} ∪ St) (<[t := f]> T) n (kmem k');
  fk_words : forall i, 0 <= i < 512 -> stack_word nb i (kmem k') = child_word (fun i => stack_word s i (kmem k)) i;
  fk_stacks : stacks_same St (kmem k) (kmem k');
  fk_areas : exists vs', areas c vs' k' /\ vs'.*2 = vs.*2 /\ (forall v, v ∈ vs'.*1 -> v ∉ L);
  fk_vmas : forall v, v ∈ L -> vmas k' !! v = vmas k !! v;
  fk_links : forall y, key_live L y -> node_at (links k') y = node_at (links k) y;
  fk_lists : forall y, y ∈ pcb_lists c -> ring (links k') y [];
}.

Lemma clone_active_proc_ok L St T s vs n k fuel :
  forker L St T s vs k -> fm_ok L St T (length vs + (4 + n)) (kmem k) -> (length vs < fuel)%nat ->
  exists c nb t k', clone_active_proc fuel L0_TABLE ret_from_fork k = Ok (c, k') /\ forked L St T s vs n c nb t k k'.
Proof.
  intros [Hb Ha Hcl Hvl Hs Hsp [f Ht]] Hok Hf. set (cur := current k) in *. set (b := pcb_at k cur) in *.
  rewrite clone_split. unfold kmalloc_obj, on_mem.
  replace (length vs + (4 + n))%nat with (S (length vs + (3 + n))) in Hok by lia.
  destruct (fm_kmalloc _ _ _ _ _ sizeof_pcb_t Hok ltac:(unfold sizeof_pcb_t; lia)) as (c & m1 & E1 & Hnz & Hc & Hok1 & Hs1).
  rewrite E1. cbn [mbind res_bind]. rewrite (proj2 (Z.eqb_neq _ _) Hnz). cbn [mbind res_bind].
  change (get_current (with_mem m1 k)) with cur. assert (Eg : get_pcb cur (with_mem m1 k) = Ok b) by (unfold get_pcb; cbn; by rewrite Hb).
  rewrite Eg. cbn [mbind res_bind]. set (k1 := with_pcbs _ _). unfold init_lists. cbn [links with_links k1 with_pcbs with_mem].
  rewrite <- foldl_app. change (pcb_lists c ++ [L_vmas c]) with (child_lists c). set (h := foldl _ _ _).
  assert (Hcc : c <> cur) by (by intros ->).
  assert (Hfar : forall y, key_live L y -> node_at h y = node_at (links k) y).
  { intros y Hy. apply init_nodes_frame. by eapply live_not_child. }
  assert (Hnew : forall y, y ∈ child_lists c -> ring h y []).
  { intros y Hy. apply init_nodes_ring; [done|apply child_lists_nodup]. }
  match goal with |- context [clone_vmas fuel _ cur c ?x] => set (k2 := x) end. change (links k2) with h.
  rewrite Hfar by done. rewrite (ring_prev _ _ _ (ar_ring _ _ _ Ha)). cbn [deref mbind res_bind].
  assert (Ha2 : areas cur vs k2).
  { eapply areas_ext; [| |exact Ha]; [|done]. intros y [->|(v & -> & Hv)%list_elem_of_fmap]%elem_of_cons; apply Hfar; [done|by apply Hvl]. }
  destruct (clone_vmas_ok cur c St T (3 + n) vs [] [] ({[c]} ∪ L) k2 fuel) as (k3 & E3 & [(L' & new & P1 & P2 & P3 & P4 & P5) P6 P7 P8 P9]);
    rewrite ?app_nil_r; try done.
  { split; [|intros v x Hv; by apply not_elem_of_nil in Hv]. apply Hnew. unfold child_lists. apply elem_of_app. right. by left. }
  { by apply elem_of_union_r. }
  { intros u Hu. by apply elem_of_union_r, Hvl. }
  { intros u Hu. by apply not_elem_of_nil in Hu. }
  { intros u _ Hu. by apply not_elem_of_nil in Hu. }
  rewrite E3. cbn [mbind res_bind].
  assert (Hpcbs : pcbs k3 = <[c := b]> (pcbs k)) by (by rewrite P6). assert (Hsp3 : cpu_sp k3 = cpu_sp k) by (by rewrite P6).
  assert (Hpid3 : pidcounter k3 = pidcounter k) by (by rewrite P6).
  destruct (finish_clone_ok cur c b s St L' T n k3 f) as (m & nb & t & E4 & Hnb & Htf & Hok4 & Hs4 & Hw4); try done.
  { rewrite Hpcbs. by rewrite lookup_insert_eq. } { rewrite Hpcbs. by rewrite lookup_insert_ne. } { by rewrite Hsp3. }
  rewrite E4. exists c, nb, t. eexists. split; [done|]. rewrite Hpid3. rewrite app_nil_r in P3.
  set (b' := child_pcb _ _ _ _ _). set (k' := child_state c k3 m _ b').
  assert (Hlk : forall y, key_live ({[c]} ∪ L) y -> y <> L_vmas c -> node_at (links k3) y = node_at h y).
  { intros y Hy Hn. apply (P9 y Hy). by intros [?|Hin]%elem_of_cons; [|apply not_elem_of_nil in Hin]. }
  assert (HnL : forall v, v ∈ new.*1 -> v ∉ L). { intros v Hv Hin. apply (P5 v Hv). by apply elem_of_union_r. }
  split; cbn [links vmas kmem k' child_state with_mem with_pidcounter with_pcbs].
  - done.
  - unfold k', child_state. rewrite Hpcbs, insert_insert_eq. rewrite P6 at 1. done.
  - by exists L', f.
  - intros i Hi. rewrite Hw4 by done. unfold child_word. repeat (case_match; [done|]).
    unfold stack_word. rewrite (P7 s i Hs Hi). by apply Hs1.
  - transitivity m1; [done|]. by transitivity (kmem k3).
  - exists new. split; [|done]. eapply areas_ext; [| |exact P3]; done.
  - intros v Hv. apply P8. by apply elem_of_union_r.
  - intros y Hy. rewrite Hlk; [by apply Hfar| |].
    + destruct y; cbn in *; try done; by apply elem_of_union_r.
    + intros ->. done.
  - intros y Hy. eapply ring_ext; [|apply Hnew; unfold child_lists; by apply elem_of_app; left].
    intros z ->%list_elem_of_singleton. apply Hlk.
    + unfold pcb_lists in Hy. repeat (apply elem_of_cons in Hy as [->|Hy]; [by apply elem_of_union_l, elem_of_singleton|]).
      by apply not_elem_of_nil in Hy.
    + intros ->. unfold pcb_lists in Hy. set_solver.
Qed.

(** ** The lists the child joins *)

(** The nodes of four kinds: those of a list are of one kind. *)
Definition kind (y : lkey) : nat :=
  match y with
  | L_proclist_head | L_proclist _ => 0
  | L_runqueue_head | L_runqueue _ => 1
  | L_children _ | L_siblings _ => 2
  | L_vmas _ | L_vma _ => 3
  end.

Lemma add_kind h hd (f : Z -> lkey) (xs : list Z) new i :
  ring h hd (f <$> xs) -> Inj eq eq f -> kind hd = i -> (forall p, kind (f p) = i) -> (forall p, f p <> hd) -> new ∉ xs ->
  exists h', list_add (f new) hd h = Ok h' /\ ring h' hd (f <$> new :: xs) /\
    (forall y, y ∉ f new :: hd :: (f <$> xs) -> node_at h' y = node_at h y) /\ (forall y, kind y <> i -> node_at h' y = node_at h y).
Proof.
  intros Hr Hinj Hhd Hf Hne Hnew. destruct (list_add_ring h hd (f <$> xs) (f new)) as (h' & E & Hr' & Hfr); [done| |].
  { rewrite elem_of_cons, list_elem_of_fmap. intros [Heq|(p & Heq & Hp)]; [by apply (Hne new)|]. apply Hinj in Heq as ->. done. }
  exists h'. split; [done|]. split; [done|]. split; [done|]. intros y Hy. apply Hfr. rewrite !elem_of_cons, list_elem_of_fmap.
  intros [->|[->|(p & -> & _)]]; naive_solver.
Qed.

Lemma ring_kind h h' hd xs i : (forall y, kind y <> i -> node_at h' y = node_at h y) -> Forall (fun y => kind y <> i) (hd :: xs) ->
  ring h hd xs -> ring h' hd xs.
Proof. intros Hf Hk. apply ring_ext. intros y Hy. apply Hf. by apply (proj1 (Forall_forall _ _) Hk). Qed.

Lemma queue_kind h h' ps rq i : (forall y, kind y <> i -> node_at h' y = node_at h y) -> i <> 1%nat -> queue_ok h ps rq -> queue_ok h' ps rq.
Proof.
  intros Hf Hi [Hr Ho]. split; [|intros p Hp Hn]; (eapply ring_kind; [exact Hf| |]; [|by auto || exact Hr]).
  - constructor; [by cbn|]. apply Forall_fmap, Forall_forall. by cbn.
  - by repeat constructor.
Qed.

Lemma forked_pcb_at L St T s vs n c nb t k k1 : forked L St T s vs n c nb t k k1 ->
  pcbs k1 = <[c := child_pcb (pcb_at k (current k)) (current k) (u32 (pidcounter k + 1)) nb t]> (pcbs k).
Proof. intros H. by rewrite (fk_eq _ _ _ _ _ _ _ _ _ _ _ H). Qed.

(** The child is put on the two global lists. *)
Lemma add_child_ok L St T s vs n c nb t k k1 ps rq all :
  forked L St T s vs n c nb t k k1 -> sched_inv ps rq k -> ps ⊆ L ->
  ring (links k) L_proclist_head (L_proclist <$> all) -> (forall p, p ∈ all -> p ∈ L) ->
  let b := child_pcb (pcb_at k (current k)) (current k) (u32 (pidcounter k + 1)) nb t in
  exists h, add_to_schedule c k1 = Ok (with_n (u64 (n_processes k1 + 1)) (with_links h (with_pcbs (<[c := set_pstate PROCESS_READY b]> (pcbs k)) k1))) /\
    queue_ok h ({[c]} ∪ ps) (c :: rq) /\ ring h L_proclist_head (L_proclist <$> c :: all) /\
    forall y, kind y <> 0%nat -> kind y <> 1%nat -> node_at h y = node_at (links k1) y.
Proof.
  intros Hk Hi Hps Hr Hall b. pose proof Hk as [(Hc & _ & _) _ _ _ _ _ _ Hl Hn].
  assert (Hrq : forall p, p ∈ rq -> p ∈ L). { intros p Hp. by apply Hps, (si_ready _ _ _ Hi). }
  unfold add_to_schedule, upd_pcb, get_pcb. rewrite (forked_pcb_at _ _ _ _ _ _ _ _ _ _ _ Hk), lookup_insert_eq.
  cbn [deref mbind res_bind]. rewrite insert_insert_eq. fold b. unfold on_links. cbn [links with_pcbs with_links].
  destruct (add_kind (links k1) L_proclist_head L_proclist all c 0) as (h1 & E1 & Hr1 & _ & Hf1); try done.
  { eapply ring_ext; [|exact Hr]. intros y [->|(p & -> & Hp)%list_elem_of_fmap]%elem_of_cons; apply Hl; [done|by apply Hall]. }
  { by intros p q [= ->]. } { intros Hin. by apply Hc, Hall. }
  rewrite E1. cbn [mbind res_bind links with_pcbs with_links].
  assert (Hq0 : queue_ok (links k1) ({[c]} ∪ ps) rq).
  { split.
    - eapply ring_ext; [|exact (si_ring _ _ _ Hi)]. intros y [->|(p & -> & Hp)%list_elem_of_fmap]%elem_of_cons; apply Hl; [done|by apply Hrq].
    - intros p [->%elem_of_singleton|Hp]%elem_of_union Hq; [apply Hn; unfold pcb_lists; set_solver|].
      eapply ring_ext; [|by apply (si_off _ _ _ Hi)]. intros y ->%list_elem_of_singleton. apply Hl. by apply Hps. }
  assert (Hq1 : queue_ok h1 ({[c]} ∪ ps) rq) by (by eapply queue_kind; [exact Hf1| |]).
  destruct (queue_add h1 _ _ c Hq1) as (h2 & E2 & Hq2); [intros Hin; by apply Hc, Hrq|].
  destruct (add_kind h1 L_runqueue_head L_runqueue rq c 1) as (h2' & E2' & _ & _ & Hf2); try done.
  { apply Hq1. } { by intros p q [= ->]. } { intros Hin. by apply Hc, Hrq. }
  rewrite E2 in E2'. injection E2' as <-. rewrite E2. cbn [mbind res_bind]. exists h2. split; [done|]. split; [done|]. split.
  - eapply ring_kind; [exact Hf2| |exact Hr1]. constructor; [by cbn|]. apply Forall_fmap, Forall_forall. by cbn.
  - intros y H0 H1. rewrite Hf2, Hf1; done.
Qed.

(** The invariant with the child as the first of the ready processes. *)
Lemma add_child_inv ps rq c b k k' :
  sched_inv ps rq k -> c ∉ ps -> pstate b = PROCESS_READY -> pid b <> 0 ->
  (forall p, pcb_at k' p = if decide (c = p) then b else pcb_at k p) ->
  (forall p, p = c \/ (exists x, pcbs k !! p = Some x) -> exists x, pcbs k' !! p = Some x) ->
  idle_proc k' = idle_proc k -> current k' = current k -> queue_ok (links k') ({[c]} ∪ ps) (c :: rq) ->
  sched_inv ({[c]} ∪ ps) (c :: rq) k'.
Proof.
  intros Hi Hc Hst Hpid Hat Hkn Eid Ec [Hr Ho]. pose proof Hi as [_ _ I3 I4 I5 I6 I7 I8].
  assert (Hne : forall p, p ∈ ps -> c <> p) by (by intros p Hp ->).
  split; rewrite ?Eid, ?Ec; try done.
  - intros p [->%elem_of_singleton|Hp]%elem_of_union; apply Hkn; [by left|right; by apply I3].
  - intros p [->%elem_of_singleton|Hp]%elem_of_union; rewrite Hat; case_decide as Hd; try done.
    + split; [done|]. intros ->. by destruct Hc.
    + subst. done.
    + by apply I4.
  - intros p. rewrite elem_of_cons, Hat, I5, elem_of_union, elem_of_singleton. case_decide as Hd.
    + subst p. split; [|by left]. intros _. split; [by left|]. split; [by intros ->|done].
    + naive_solver.
  - intros p [->%elem_of_singleton|Hp]%elem_of_union; rewrite Hat.
    + rewrite decide_True by done. congruence.
    + rewrite decide_False by by apply Hne. by apply I6.
  - by apply elem_of_union_r.
  - by apply elem_of_union_r.
Qed.

(** What the lists and the words of the stacks are once the lists of processes
    have changed. *)
Lemma forked_areas L St T s vs n c nb t k k1 k' :
  forker L St T s vs k -> forked L St T s vs n c nb t k k1 ->
  (forall y, kind y = 3%nat -> node_at (links k') y = node_at (links k1) y) -> vmas k' = vmas k1 ->
  areas (current k) vs k' /\ exists vs', areas c vs' k' /\ vs'.*2 = vs.*2 /\ (forall v, v ∈ vs'.*1 -> v ∉ vs.*1).
Proof.
  intros [_ Ha Hcl Hvl _ _ _] [_ _ _ _ _ (vs' & Ha' & Hv' & Hn') Hvm Hl _] Hfin Hvk. split.
  - eapply areas_ext; [| |exact Ha].
    + intros y Hy. rewrite Hfin; [apply Hl|]; apply elem_of_cons in Hy as [->|(v & -> & Hv)%list_elem_of_fmap]; try done. by apply Hvl.
    + intros v Hv. rewrite Hvk. by apply Hvm, Hvl.
  - exists vs'. split; [|split; [done|intros v Hv Hin; apply (Hn' v Hv); by apply Hvl]].
    eapply areas_ext; [| |exact Ha']; [|intros v _; by rewrite Hvk].
    intros y [->|(v & -> & Hv)%list_elem_of_fmap]%elem_of_cons; by apply Hfin.
Qed.

Lemma forked_stacks L St T s vs n m c nb t k k1 k' :
  forker L St T s vs k -> forked L St T s vs n c nb t k k1 -> fm_ok L St T m (kmem k) -> kmem k' = kmem k1 ->
  kernel_stack (pcb_at k' c) = stack_va nb 464 ->
  (forall i, 0 <= i < 12 -> load64 (kernel_stack (pcb_at k' c) + 8 * i) k' = if i =? 1 then ret_from_fork else 0) /\
  (forall i, 0 <= i < 34 -> load64 (kernel_stack (pcb_at k' c) + 96 + 8 * i) k' = if i =? 0 then 0 else load64 (stack_va s (476 + i)) k) /\
  (forall i, 0 <= i < 512 -> load64 (stack_va s i) k' = load64 (stack_va s i) k).
Proof.
  intros Hfr [_ _ (L' & f & _ & _ & Hok') Hw Hst _ _ _ _] Hok Hm Hk.
  destruct (fm_stack_range _ _ _ _ _ _ Hok (fr_stack _ _ _ _ _ _ Hfr)) as [Hs0 Hs1].
  destruct (fm_stack_range _ _ _ _ _ nb Hok' ltac:(by apply elem_of_union_l, elem_of_singleton)) as [Hn0 Hn1].
  assert (Hks : forall i, kernel_stack (pcb_at k' c) + 8 * i = stack_va nb (464 + i)) by (intros i; rewrite Hk; unfold stack_va; lia).
  split_and!; intros i Hi.
  - rewrite Hks, load_stack, Hm, Hw by lia. unfold child_word. replace (464 + i =? 465) with (i =? 1) by lia.
    destruct (i =? 1); [done|]. by replace ((464 <=? 464 + i) && (464 + i <? 476)) with true by lia.
  - replace (kernel_stack (pcb_at k' c) + 96 + 8 * i) with (kernel_stack (pcb_at k' c) + 8 * (12 + i)) by lia.
    rewrite Hks, !load_stack, Hm, Hw by lia. unfold child_word. replace (464 + (12 + i)) with (476 + i) by lia.
    replace (476 + i =? 465) with false by lia. replace ((464 <=? 476 + i) && (476 + i <? 476)) with false by lia.
    by replace (476 + i =? 476) with (i =? 0) by lia.
  - rewrite !load_stack, Hm by lia. apply Hst; [apply Hfr|done].
Qed.

(** The state [k'] behind [sys_fork] called in [k]: the child [c], its stack
    [nb] and its table [t]. *)
Record child_made (ps : gset Z) (rq : list Z) (s : Z) (vs : list (Z * vma)) (cs all : list Z) (c nb t : Z) k k' : Prop := {
  cm_queue : sched_inv ({[c]} ∪ ps) (c :: rq) k';
  cm_all : ring (links k') L_proclist_head (L_proclist <$> c :: all);
  cm_children : ring (links k') (L_children (current k)) (L_siblings <$> c :: cs);
  cm_childless : ring (links k') (L_children c) [];
  cm_pcb : pcb_at k' c = set_pstate PROCESS_READY (child_pcb (pcb_at k (current k)) (current k) (u32 (pidcounter k + 1)) nb t);
  cm_others : forall p, p <> c -> pcb_at k' p = pcb_at k p;
  cm_current : current k' = current k;
  cm_areas : areas (current k) vs k';
  cm_child_areas : exists vs', areas c vs' k' /\ vs'.*2 = vs.*2 /\ (forall v, v ∈ vs'.*1 -> v ∉ vs.*1);
  cm_context : forall i, 0 <= i < 12 -> load64 (kernel_stack (pcb_at k' c) + 8 * i) k' = if i =? 1 then ret_from_fork else 0;
  cm_frame : forall i, 0 <= i < 34 -> load64 (kernel_stack (pcb_at k' c) + 96 + 8 * i) k' =
               if i =? 0 then 0 else load64 (stack_va s (476 + i)) k;
  cm_stack : forall i, 0 <= i < 512 -> load64 (stack_va s i) k' = load64 (stack_va s i) k;
}.

Lemma fork_child_ok L St T s vs n ps rq cs all fuel (sy : sys M) :
  let k := kern sy in
  forker L St T s vs k -> fm_ok L St T (length vs + (4 + n)) (kmem k) -> (length vs < fuel)%nat ->
  sched_inv ps rq k -> ps ⊆ L -> 0 <= pidcounter k < 2 ^ 32 - 1 ->
  ring (links k) L_proclist_head (L_proclist <$> all) -> (forall p, p ∈ all -> p ∈ L) ->
  ring (links k) (L_children (current k)) (L_siblings <$> cs) -> (forall p, p ∈ cs -> p ∈ L) ->
  exists c nb t k', do_fork fuel L0_TABLE ret_from_fork sy = Ok (u64 (s32 (pidcounter k + 1)), Sys k' (files sy) (sleep sy)) /\
    c ∉ L /\ nb ∉ St /\ T !! t = None /\ child_made ps rq s vs cs all c nb t k k' /\
    exists L' f, {[c]} ∪ L ⊆ L' /\ T !! ttbr (pcb_at k (current k)) = Some f /\ fm_ok L' ({[nb]} ∪ St) (<[t := f]> T) n (kmem k').
Proof.
  intros k Hfr Hok Hf Hi Hps Hpc Hall HaL Hcs HcL. set (cur := current k) in *.
  destruct (clone_active_proc_ok L St T s vs n k fuel Hfr Hok Hf) as (c & nb & t & k1 & E1 & Hk).
  pose proof (forked_pcb_at _ _ _ _ _ _ _ _ _ _ _ Hk) as Hp1.
  destruct (add_child_ok _ _ _ _ _ _ _ _ _ _ _ ps rq all Hk Hi Hps Hall HaL) as (h2 & E2 & Hq2 & Hr2 & Hf2).
  pose proof Hk as [(Hc & Hnb & Ht) Heq Hokk Hw Hst (vs' & Ha' & Hv' & Hn') Hvm Hl Hnew].
  set (b := child_pcb _ _ _ _ _) in *. set (k2 := with_n _ _) in *.
  destruct (add_kind h2 (L_children cur) L_siblings cs c 2) as (h3 & E3 & Hr3 & Ho3 & Hf3); try done.
  { eapply ring_ext; [|exact Hcs]. intros y Hy. rewrite Hf2.
    - apply Hl. apply elem_of_cons in Hy as [->|(p & -> & Hp)%list_elem_of_fmap]; [apply Hfr|by apply HcL].
    - by apply elem_of_cons in Hy as [->|(p & -> & Hp)%list_elem_of_fmap].
    - by apply elem_of_cons in Hy as [->|(p & -> & Hp)%list_elem_of_fmap]. }
  { by intros p q [= ->]. } { intros Hin. by apply Hc, HcL. }
  exists c, nb, t, (with_links h3 k2).
  assert (Hpid : u32 (pidcounter k + 1) = pidcounter k + 1).
  { change (2 ^ 32) with 4294967296 in Hpc. apply u32_small. lia. }
  split.
  { unfold do_fork, on_kern', on_kern. fold k. rewrite E1. cbn [mbind res_bind kern]. rewrite E2. cbn [mbind res_bind kern files sleep].
    unfold get_pcb. cbn [pcbs k2 with_n with_links with_pcbs]. rewrite lookup_insert_eq. cbn [deref mbind res_bind].
    unfold on_links. cbn [links k2 with_n with_links]. change (get_current k) with cur. rewrite E3. cbn [mbind res_bind pid set_pstate b child_pcb].
    rewrite Hpid. done. }
  split; [done|]. split; [done|]. split; [done|]. split; [|done].
  assert (Hat : forall p, pcb_at (with_links h3 k2) p = if decide (c = p) then set_pstate PROCESS_READY b else pcb_at k p).
  { intros p. unfold pcb_at. cbn [pcbs k2 with_n with_links with_pcbs]. rewrite lookup_insert. by case_decide. }
  assert (Hfin : forall y, kind y = 3%nat -> node_at h3 y = node_at (links k1) y).
  { intros y Hy. rewrite Hf3, Hf2 by congruence. done. }
  assert (Hm : kmem (with_links h3 k2) = kmem k1) by done. assert (Hvk : vmas (with_links h3 k2) = vmas k1) by done.
  assert (Hcur : current (with_links h3 k2) = cur) by (change (current k1 = cur); by rewrite Heq).
  assert (Hidle : idle_proc (with_links h3 k2) = idle_proc k) by (change (idle_proc k1 = idle_proc k); by rewrite Heq).
  assert (Hkn : forall p, p = c \/ (exists x, pcbs k !! p = Some x) -> exists x, pcbs (with_links h3 k2) !! p = Some x).
  { intros p Hp. cbn [pcbs k2 with_n with_links with_pcbs]. rewrite lookup_insert. case_decide; [by eexists|]. by destruct Hp as [->|Hp]. }
  assert (Hl3 : links (with_links h3 k2) = h3) by done. set (k' := with_links h3 k2) in *. clearbody k'. subst h3. clear k2 E2.
  destruct (forked_areas _ _ _ _ _ _ _ _ _ k k1 k' Hfr Hk Hfin Hvk) as [Hav Hac].
  destruct (forked_stacks _ _ _ _ _ _ _ _ _ _ k k1 k' Hfr Hk Hok Hm) as (Hctx & Htf & Hsame); [by rewrite Hat, decide_True|].
  split.
  - apply (add_child_inv ps rq c (set_pstate PROCESS_READY b) k k'); try done.
    + intros Hin. by apply Hc, Hps.
    + cbn [pid set_pstate b child_pcb]. lia.
    + by eapply queue_kind.
  - eapply ring_kind; [exact Hf3| |exact Hr2]. constructor; [by cbn|]. apply Forall_fmap, Forall_forall. by cbn.
  - exact Hr3.
  - eapply ring_ext; [|apply Hnew; by left]. intros y ->%list_elem_of_singleton. rewrite Ho3, Hf2; [done|done|done|].
    rewrite !elem_of_cons, list_elem_of_fmap. intros [?|[[= Hx]|(p & ? & _)]]; [done| |done].
    apply Hc. rewrite Hx. apply Hfr.
  - by rewrite Hat, decide_True.
  - intros p Hp. by rewrite Hat, decide_False.
  - done.
  - done.
  - done.
  - done.
  - done.
  - done.
Qed.

(** C7: [sys_fork] of a process that runs on its stack [s] with the areas [vs]
    returns the child's number.  The child is the first of the ready processes,
    of all processes and of the caller's children; it has areas of its own that
    are copies of the caller's in the same order, no children, and the caller's
    control block but for its number, parent, state, stack and table.  The
    context it is switched in with returns through [ret_from_fork] to a copy of
    the caller's trap frame in which the first register, the call's result, is
    0.  The child's table translates every address as the caller's does.  The
    caller's stack, areas and control block are unchanged, and no list but these
    three. *)
Theorem fork_child L St T s vs n ps rq cs all fuel (sy : sys M) :
  let k := kern sy in
  forker L St T s vs k -> fm_ok L St T (length vs + (4 + n)) (kmem k) -> (length vs < fuel)%nat ->
  sched_inv ps rq k -> ps ⊆ L -> 0 <= pidcounter k < 2 ^ 32 - 1 ->
  ring (links k) L_proclist_head (L_proclist <$> all) -> (forall p, p ∈ all -> p ∈ L) ->
  ring (links k) (L_children (current k)) (L_siblings <$> cs) -> (forall p, p ∈ cs -> p ∈ L) ->
  exists c nb t k', do_fork fuel L0_TABLE ret_from_fork sy = Ok (u64 (s32 (pidcounter k + 1)), Sys k' (files sy) (sleep sy)) /\
    c ∉ L /\ nb ∉ St /\ T !! t = None /\ child_made ps rq s vs cs all c nb t k k' /\
    exists L' f, {[c]} ∪ L ⊆ L' /\ T !! ttbr (pcb_at k (current k)) = Some f /\ fm_ok L' ({[nb]} ∪ St) (<[t := f]> T) n (kmem k').
Proof. apply fork_child_ok. Qed.
End ForkSpec.

(** ** An instance *)

(** What its tables translate to. *)
Definition toy_va (va : Z) : Z := va mod 4096.

(** A memory that hands out objects, stacks and tables upwards. *)
Record toy := Toy { next_obj : Z; next_stack : Z; next_table : Z; toy_words : words }.

#[local] Instance toy_mem : ProcMem toy := {|
  pm_frame_array := 0;
  pm_kmalloc _ m := Ok (next_obj m, Toy (next_obj m + 1) (next_stack m) (next_table m) (toy_words m));
  pm_buddy_alloc _ m := Ok (page_va (next_stack m), Toy (next_obj m) (next_stack m + 2) (next_table m) (toy_words m));
  pm_buddy_free _ m := Ok m;
  pm_head_from_page p _ := Ok (p - 4096);
  pm_map _ _ _ _ _ m := Ok m;
  pm_update_mapping _ _ _ _ m := m;
  pm_buddy_alloc_pt m := Ok (next_table m, Toy (next_obj m) (next_stack m) (next_table m + 1) (toy_words m));
  pm_clone_virtual_memory _ m := Ok (next_table m, Toy (next_obj m) (next_stack m) (next_table m + 1) (toy_words m));
  pm_reap_virtual_memory _ _ m := Ok m;
  pm_decrement_ref _ m := Ok m;
  pm_frame_refcount _ _ := Ok 1;
  pm_words := toy_words;
  pm_on_words f m := Toy (next_obj m) (next_stack m) (next_table m) (f (toy_words m));
|}.

Record toy_ok (L St : gset Z) (T : gmap Z (Z -> Z)) (n : nat) (m : toy) : Prop := {
  ty_obj : 0 < next_obj m /\ forall p, p ∈ L -> p < next_obj m;
  ty_stack : 0 <= next_stack m /\ next_stack m + 2 * Z.of_nat n < NPAGES /\ forall b, b ∈ St -> 0 <= b /\ b + 1 < NPAGES /\ b < next_stack m;
  ty_table : forall t f, T !! t = Some f -> t < next_table m;
}.

#[local] Instance toy_fork_mem : ForkMem toy 0.
Proof.
  refine {| fm_ok := toy_ok |}.
  - intros L St T n m b [_ (_ & _ & H2) _] Hb. by destruct (H2 b Hb) as (? & ? & _).
  - intros L St T n m size [[H1 H1'] (H2 & H2' & H2'') H3] _. exists (next_obj m). eexists. split; [done|]. split; [lia|]. split.
    + intros Hin. apply H1' in Hin. lia.
    + split; [|by intros b i]. split; cbn [next_obj next_stack next_table]; [|split_and!; try done; lia|done].
      split; [lia|]. intros p [->%elem_of_singleton|Hp]%elem_of_union; [|apply H1' in Hp]; lia.
  - intros L St T n m [H1 (H2 & H2' & H2'') H3]. exists (next_stack m). eexists. split; [done|]. split.
    + intros Hin. apply H2'' in Hin. lia.
    + split; [|by intros b i]. split; cbn [next_obj next_stack next_table]; [done| |done].
      split; [lia|]. split; [lia|]. intros b [->%elem_of_singleton|Hb]%elem_of_union; [|apply H2'' in Hb]; lia.
  - intros L St T n m b [H1 (H2 & H2' & H2'') H3] _. exists m. split; [done|]. split; [|done]. split; try done. split_and!; try done; lia.
  - intros L St T n m b [_ (_ & _ & H2) _] Hb. destruct (H2 b Hb) as (? & ? & _). cbn. f_equal. rewrite !page_va_eq by lia. lia.
  - intros L St T n m t f [H1 (H2 & H2' & H2'') H3] _. exists (next_table m). eexists. split; [done|]. split.
    + destruct (T !! next_table m) as [g|] eqn:E; [|done]. apply H3 in E. lia.
    + split; [|by intros b i]. split; cbn [next_obj next_stack next_table]; [done|split_and!; try done; lia|].
      intros t' g. rewrite lookup_insert. case_decide; [lia|]. intros Ht'. apply H3 in Ht'. lia.
  - intros L St T n m b i v [H1 H2 H3] _ _. by split.
  - done.
Defined.

(** Process 7 runs with one area and no other process is ready. *)
Definition toy_area : vma := Vma 0x7fffffffe000 0x7ffffffff000 3.
Definition toy_pcb (st : PROC_STATE) (id : Z) : pcb_t := Pcb 0 1 st id WAITING_NONE 5 0 0 0 (replicate MAX_OPEN_FILES 0).
Definition toy_nodes : gmap lkey (list_head_t lkey) :=
  let h := foldl (fun h n => INIT_LIST_HEAD n h) ∅
    [L_proclist_head; L_runqueue_head; L_runqueue 5; L_runqueue 7; L_children 7; L_siblings 7; L_vmas 7] in
  match (h ← list_add (L_vma 20) (L_vmas 7) h; list_add (L_proclist 7) L_proclist_head h) with Ok h => h | _ => ∅ end.
Definition toy_kernel : kernel toy :=
  Kernel {[5 := toy_pcb PROCESS_READY 0; 7 := toy_pcb PROCESS_RUNNING 1]} {[20 := toy_area]} toy_nodes 5 1 1 7
    (page_va 101 + 0xE00) 0 false (Toy 21 102 2 (fun _ => 0)).

Lemma toy_inv : sched_inv {[5; 7]} [] toy_kernel.
Proof.
  split; try done.
  - split; [vm_compute; repeat split|]. by apply (bool_decide_unpack _).
  - intros p [->%elem_of_singleton| ->%elem_of_singleton]%elem_of_union _; (split; [vm_compute; repeat split|apply NoDup_singleton]).
  - intros p [->%elem_of_singleton| ->%elem_of_singleton]%elem_of_union; by eexists.
  - intros p [->%elem_of_singleton| ->%elem_of_singleton]%elem_of_union; vm_compute; split; intros H; try done; discriminate H.
  - intros p. split; [intros H; by apply not_elem_of_nil in H|].
    intros ([->%elem_of_singleton| ->%elem_of_singleton]%elem_of_union & Hne & Hr); [done|]. vm_compute in Hr. discriminate Hr.
  - intros p [->%elem_of_singleton| ->%elem_of_singleton]%elem_of_union Hr; [vm_compute in Hr; discriminate Hr|done].
Qed.

Lemma toy_forker : forker {[5; 7; 20]} {[100]} {[1 := toy_va]} 100 [(20, toy_area)] toy_kernel.
Proof.
  split; try done.
  - split; [split; [vm_compute; repeat split|by apply (bool_decide_unpack _)]|].
    by intros v x [= -> ->]%list_elem_of_singleton.
  - intros v ->%list_elem_of_singleton. by apply (bool_decide_unpack _).
Qed.

Lemma toy_start : @fm_ok toy toy_mem 0 toy_fork_mem {[5; 7; 20]} {[100]} {[1 := toy_va]} 8 (kmem toy_kernel).
Proof.
  split; [|split_and!; try done|]; cbn; [set_solver by lia..|]. by intros t f [<- _]%lookup_singleton_Some.
Qed.

Lemma fork_child_witness : exists c nb t k',
  do_fork 5 0 0xFFFF800000081000 (Sys toy_kernel ∅ sleep_init) = Ok (2, Sys k' ∅ sleep_init) /\
  child_made 0xFFFF800000081000 {[5; 7]} [] 100 [(20, toy_area)] [] [7] c nb t toy_kernel k'.
Proof.
  destruct (fork_child 0xFFFF800000081000 {[5; 7; 20]} {[100]} {[1 := toy_va]} 100 [(20, toy_area)] 3 {[5; 7]} [] [] [7] 5
    (Sys toy_kernel ∅ sleep_init)) as (c & nb & t & k' & E & _ & _ & _ & H & _).
  - exact toy_forker.
  - exact toy_start.
  - cbn. lia.
  - exact toy_inv.
  - set_solver.
  - cbn. lia.
  - split; [vm_compute; repeat split|by apply (bool_decide_unpack _)].
  - intros p ->%list_elem_of_singleton. by apply (bool_decide_unpack _).
  - split; [vm_compute; repeat split|by apply (bool_decide_unpack _)].
  - intros p Hp. by apply not_elem_of_nil in Hp.
  - exists c, nb, t, k'. split; [exact E|exact H].
Defined.
