(* ===== verification/Arm.v ===== *)
(** * The instructions the kernel's assembly uses

    A64's effect on the general registers, the stack pointers, the system
    registers and the 64-bit words of memory, for the instructions of [boot.S],
    [boot/highhalf.S], [system/entry.S] and [system/contextswitch.S].  Barriers
    and cache and TLB maintenance have no effect on this state. *)
From S2P Require Import Prelude.

Inductive sysreg :=
| SP_EL0 | SP_EL1 | SP_EL2 | SP_EL3
| ELR_EL1 | ELR_EL2 | ELR_EL3 | SPSR_EL1 | SPSR_EL2 | SPSR_EL3
| ESR_EL1 | FAR_EL1 | TTBR0_EL1 | TTBR1_EL1 | MAIR_EL1 | TCR_EL1
| VBAR_EL1 | VBAR_EL2 | VBAR_EL3 | SCTLR_EL1 | SCTLR_EL2 | HCR_EL2 | SCR_EL3
| CPTR_EL2 | CPTR_EL3 | CPACR_EL1 | CPUECTLR_EL1 | MPIDR_EL1 | TPIDR_EL1.

#[export] Instance sysreg_eq_dec : EqDecision sysreg.
Proof. solve_decision. Defined.

(** The processor: [xr i] is [x i] for [i < 31], [el] the exception level,
    [spsel] the stack-pointer select, [daif] the four mask bits. *)
Record cpu := Cpu {
  xr : Z -> Z;
  sr : sysreg -> Z;
  memw : Z -> Z;
  el : Z;
  spsel : Z;
  daif : Z;
}.

Definition XZR : Z := 31.
Definition set_fun {A} `{!EqDecision A} (a : A) (v : Z) (f : A -> Z) : A -> Z := fun b => if decide (a = b) then v else f b.

Definition rd (r : Z) (c : cpu) : Z := if r =? XZR then 0 else xr c r.
Definition wr (r v : Z) (c : cpu) : cpu :=
  if r =? XZR then c else Cpu (fun q => if q =? r then v else xr c q) (sr c) (memw c) (el c) (spsel c) (daif c).
Definition wr_sys (s : sysreg) (v : Z) (c : cpu) : cpu := Cpu (xr c) (set_fun s v (sr c)) (memw c) (el c) (spsel c) (daif c).
Definition st (a v : Z) (c : cpu) : cpu :=
  Cpu (xr c) (sr c) (fun b => if b =? a then v else memw c b) (el c) (spsel c) (daif c).

(** The stack pointer in use: [SP_EL0] or that of the level. *)
Definition sp_reg (c : cpu) : sysreg :=
  if spsel c =? 0 then SP_EL0
  else if el c =? 3 then SP_EL3 else if el c =? 2 then SP_EL2 else if el c =? 1 then SP_EL1 else SP_EL0.
Definition sp (c : cpu) : Z := sr c (sp_reg c).
Definition set_sp (v : Z) (c : cpu) : cpu := wr_sys (sp_reg c) v c.

Inductive instr :=
| Sub_sp (n : Z)                    (* sub sp, sp, #n *)
| Add_sp (n : Z)                    (* add sp, sp, #n *)
| Stp (a b off : Z)                 (* stp xa, xb, [sp, #off] *)
| Ldp (a b off : Z)                 (* ldp xa, xb, [sp, #off] *)
| Stp_pre (a b n : Z)               (* stp xa, xb, [sp, #-n]! *)
| Ldp_post (a b n : Z)              (* ldp xa, xb, [sp], #n *)
| Str_sp (a off : Z)                (* str xa, [sp, #off] *)
| Ldr_sp (a off : Z)                (* ldr xa, [sp, #off] *)
| Str_at (a b : Z)                  (* str xa, [xb] *)
| Mrs (a : Z) (s : sysreg)
| Msr (s : sysreg) (a : Z)
| Msr_spsel (n : Z)
| Msr_daifset (n : Z)
| Msr_daifclr (n : Z)
| Mrs_CurrentEL (a : Z)
| Mov_imm (a n : Z)                 (* mov xa, #n and ldr xa, =n *)
| Mov (a b : Z)
| Mov_from_sp (a : Z)               (* mov xa, sp *)
| Mov_to_sp (a : Z)                 (* mov sp, xa *)
| Lsr (a b n : Z)
| And_imm (a b n : Z)
| Orr_imm (a b n : Z)
| Bic_imm (a b n : Z)
| Sub_imm (a b n : Z).

Definition step (i : instr) (c : cpu) : cpu :=
  match i with
  | Sub_sp n => set_sp (u64 (sp c - n)) c
  | Add_sp n => set_sp (u64 (sp c + n)) c
  | Stp a b off => st (u64 (sp c + off + 8)) (rd b c) (st (u64 (sp c + off)) (rd a c) c)
  | Ldp a b off =>
      let v := memw c (u64 (sp c + off)) in let w := memw c (u64 (sp c + off + 8)) in wr b w (wr a v c)
  | Stp_pre a b n =>
      let s := u64 (sp c - n) in
      set_sp s (st (u64 (s + 8)) (rd b c) (st s (rd a c) c))
  | Ldp_post a b n =>
      let v := memw c (sp c) in let w := memw c (u64 (sp c + 8)) in set_sp (u64 (sp c + n)) (wr b w (wr a v c))
  | Str_sp a off => st (u64 (sp c + off)) (rd a c) c
  | Ldr_sp a off => wr a (memw c (u64 (sp c + off))) c
  | Str_at a b => st (rd b c) (rd a c) c
  | Mrs a s => wr a (sr c s) c
  | Msr s a => wr_sys s (rd a c) c
  | Msr_spsel n => Cpu (xr c) (sr c) (memw c) (el c) n (daif c)
  | Msr_daifset n => Cpu (xr c) (sr c) (memw c) (el c) (spsel c) (Z.lor (daif c) n)
  | Msr_daifclr n => Cpu (xr c) (sr c) (memw c) (el c) (spsel c) (Z.land (daif c) (Z.lnot n))
  | Mrs_CurrentEL a => wr a (Z.shiftl (el c) 2) c
  | Mov_imm a n => wr a (u64 n) c
  | Mov a b => wr a (rd b c) c
  | Mov_from_sp a => wr a (sp c) c
  | Mov_to_sp a => set_sp (rd a c) c
  | Lsr a b n => wr a (Z.shiftr (rd b c) n) c
  | And_imm a b n => wr a (Z.land (rd b c) n) c
  | Orr_imm a b n => wr a (Z.lor (rd b c) n) c
  | Bic_imm a b n => wr a (Z.land (rd b c) (Z.lnot n)) c
  | Sub_imm a b n => wr a (u64 (rd b c - n)) c
  end.

Definition run (l : list instr) (c : cpu) : cpu := fold_left (fun c i => step i c) l c.

(** The exception level, stack select and masks in a saved program status. *)
Definition spsr_el (s : Z) : Z := Z.land (Z.shiftr s 2) 3.
Definition spsr_sp (s : Z) : Z := Z.land s 1.
Definition spsr_daif (s : Z) : Z := Z.land (Z.shiftr s 6) 15.

(** The level's return registers. *)
Definition elr_of (c : cpu) : Z := sr c (if el c =? 3 then ELR_EL3 else if el c =? 2 then ELR_EL2 else ELR_EL1).
Definition spsr_of (c : cpu) : Z := sr c (if el c =? 3 then SPSR_EL3 else if el c =? 2 then SPSR_EL2 else SPSR_EL1).

(** [eret]: where it continues, and the state there.  A return to a higher
    level or to AArch32 is illegal. *)
Definition eret (c : cpu) : res (Z * cpu) :=
  let s := spsr_of c in
  if negb (Z.testbit s 4) && (spsr_el s <=? el c) && negb ((spsr_el s =? 0) && (spsr_sp s =? 1)) then
    Ok (elr_of c, Cpu (xr c) (sr c) (memw c) (spsr_el s) (spsr_sp s) (spsr_daif s))
  else UB.

(** An exception taken to EL1 from [pc]: the state at the vector. *)
Definition take (pc pstate : Z) (c : cpu) : cpu :=
  let c := wr_sys SPSR_EL1 pstate (wr_sys ELR_EL1 pc c) in
  Cpu (xr c) (sr c) (memw c) 1 1 15.

(** ** Lemmas *)

Lemma run_app l1 l2 c : run (l1 ++ l2) c = run l2 (run l1 c).
Proof. apply fold_left_app. Qed.

Lemma set_fun_same {A} `{!EqDecision A} (a : A) v f : set_fun a v f a = v.
Proof. unfold set_fun. by rewrite decide_True. Qed.

Lemma set_fun_other {A} `{!EqDecision A} (a b : A) v f : a <> b -> set_fun a v f b = f b.
Proof. intros. unfold set_fun. by rewrite decide_False. Qed.
