(* ===== verification/Entry.v ===== *)
(** * Entering and leaving the kernel ([system/entry.S], [system/contextswitch.S])

    The trap frame is pushed by [kernel_entry] and popped by [kernel_exit]; the
    handlers between them are arguments.  [context_switch] pushes the twelve
    registers a C function keeps, changes the stack and pops them. *)
From S2P Require Import Prelude Arm.

Definition S_FRAME_SIZE : Z := 272.

Definition kernel_entry : list instr :=
  [Sub_sp S_FRAME_SIZE;
   Stp 0 1 (16 * 0); Stp 2 3 (16 * 1); Stp 4 5 (16 * 2); Stp 6 7 (16 * 3); Stp 8 9 (16 * 4);
   Stp 10 11 (16 * 5); Stp 12 13 (16 * 6); Stp 14 15 (16 * 7); Stp 16 17 (16 * 8); Stp 18 19 (16 * 9);
   Stp 20 21 (16 * 10); Stp 22 23 (16 * 11); Stp 24 25 (16 * 12); Stp 26 27 (16 * 13); Stp 28 29 (16 * 14);
   Mrs 0 SP_EL0; Stp 30 0 (16 * 15);
   Mrs 0 ELR_EL1; Mrs 1 SPSR_EL1; Stp 0 1 (16 * 16);
   Ldp 0 1 (16 * 0)].

Definition kernel_exit : list instr :=
  [Ldp 2 3 (16 * 1); Ldp 4 5 (16 * 2); Ldp 6 7 (16 * 3); Ldp 8 9 (16 * 4);
   Ldp 10 11 (16 * 5); Ldp 12 13 (16 * 6); Ldp 14 15 (16 * 7); Ldp 16 17 (16 * 8); Ldp 18 19 (16 * 9);
   Ldp 20 21 (16 * 10); Ldp 22 23 (16 * 11); Ldp 24 25 (16 * 12); Ldp 26 27 (16 * 13); Ldp 28 29 (16 * 14);
   Ldp 30 0 (16 * 15);
   Msr SP_EL0 0;
   Ldp 0 1 (16 * 16); Msr ELR_EL1 0; Msr SPSR_EL1 1;
   Ldp 0 1 (16 * 0); Add_sp S_FRAME_SIZE].

(** A call of a C function is what it does to the processor's state, or that it
    does not return. *)
Definition callee : Type := cpu -> res cpu.

(** The handlers of interrupts, from the user and from the kernel, are the same
    code: the register file and the level interrupted are the arguments. *)
Definition handle_irq_entry (handle_irq : callee) (c : cpu) : res (Z * cpu) :=
  let c := run kernel_entry c in
  c ← handle_irq (run [Mov_from_sp 0; Mrs 1 SPSR_EL1; Lsr 1 1 2; And_imm 1 1 3] c);
  eret (run kernel_exit c).

Definition EC_DATA_ABORT : Z := 0x24.
Definition EC_INSTRUCTION_ABORT : Z := 0x20.

(** [handle_el0_svc]: every synchronous exception of a user program. *)
Definition handle_el0_svc (handle_syscall handle_el0_fault : callee) (c : cpu) : res (Z * cpu) :=
  let c := run (kernel_entry ++ [Mrs 0 ESR_EL1; Lsr 1 0 26]) c in
  c ← (if (rd 1 c =? EC_DATA_ABORT) || (rd 1 c =? EC_INSTRUCTION_ABORT) then
         handle_el0_fault (run [Mrs 0 FAR_EL1; Mrs 1 ESR_EL1; Mrs 2 SP_EL0] c)
       else
         c ← handle_syscall (run [Ldp 0 1 (16 * 0); Ldp 2 3 (16 * 1); Ldp 4 5 (16 * 2); Ldr_sp 8 (16 * 4);
                                  Mov 6 8; Mov_from_sp 7] c);
         Ok (run [Str_sp 0 (16 * 0)] c));
  eret (run kernel_exit c).

(** Where a new process starts, behind its first context switch. *)
Definition ret_from_fork (c : cpu) : res (Z * cpu) := eret (run kernel_exit c).

(** [drop_to_user(kstack, ttbr)], in [x0] and [x1]. *)
Definition drop_to_user (c : cpu) : res (Z * cpu) := ret_from_fork (run [Msr TTBR0_EL1 1; Mov_to_sp 0] c).

(** An exception no handler is for: a message, then the end. *)
Definition handle_invalid_entry (type : Z) : list instr :=
  kernel_entry ++ [Mov_imm 0 type; Mrs 1 ESR_EL1; Mrs 2 ELR_EL1; Mrs 3 FAR_EL1].

(** ** The context switch *)

Definition switch_save : list instr :=
  [Stp_pre 19 20 16; Stp_pre 21 22 16; Stp_pre 23 24 16; Stp_pre 25 26 16; Stp_pre 27 28 16; Stp_pre 29 30 16;
   Mov_from_sp 19; Str_at 19 1; Mov_to_sp 0; Msr TTBR0_EL1 2; Mov 0 1].
Definition switch_load : list instr :=
  [Ldp_post 29 30 16; Ldp_post 27 28 16; Ldp_post 25 26 16; Ldp_post 23 24 16; Ldp_post 21 22 16; Ldp_post 19 20 16].

(** [context_switch(new_kernel_stack, old_kernel_stack_save_point, new_ttbr)]; it
    goes on at the address in [x30]. *)
Definition context_switch (check_and_reap : callee) (c : cpu) : res (Z * cpu) :=
  c ← check_and_reap (run switch_save c);
  let c := run switch_load c in
  Ok (rd 30 c, c).

(** ** The vector table, and the routines around single registers
    ([system/entry.S], [system/irq.c], [system/irq.S], [utils/utils.S]) *)
Open Scope string_scope.

(** The branch target of a vector: a handler, or a [handle_invalid_entry] with
    its type ([sync_invalid_el1h] first overwrites [x10] to [x12]). *)
Inductive handler := Handle_el1_irq | Handle_el0_svc | Handle_el0_irq | Invalid (type : Z).

(** [entry.h] *)
Definition SYNC_INVALID_EL1T : Z := 0.
Definition IRQ_INVALID_EL1T : Z := 1.
Definition FIQ_INVALUD_EL1T : Z := 2.
Definition ERROR_INVALID_EL1T : Z := 3.
Definition SYNC_INVALID_EL1H : Z := 4.
Definition FIQ_INVALUD_EL1H : Z := 6.
Definition ERROR_INVALID_EL1H : Z := 7.
Definition FIQ_INVALUD_EL0_64 : Z := 10.
Definition ERROR_INVALID_EL0_64 : Z := 11.
Definition SYNC_INVALID_EL0_32 : Z := 12.
Definition IRQ_INVALID_EL0_32 : Z := 13.
Definition FIQ_INVALUD_EL0_32 : Z := 14.
Definition ERROR_INVALID_EL0_32 : Z := 15.

Definition vectors : list handler :=
  [Invalid SYNC_INVALID_EL1T; Invalid IRQ_INVALID_EL1T; Invalid FIQ_INVALUD_EL1T; Invalid ERROR_INVALID_EL1T;
   Invalid SYNC_INVALID_EL1H; Handle_el1_irq; Invalid FIQ_INVALUD_EL1H; Invalid ERROR_INVALID_EL1H;
   Handle_el0_svc; Handle_el0_irq; Invalid FIQ_INVALUD_EL0_64; Invalid ERROR_INVALID_EL0_64;
   Invalid SYNC_INVALID_EL0_32; Invalid IRQ_INVALID_EL0_32; Invalid FIQ_INVALUD_EL0_32; Invalid ERROR_INVALID_EL0_32].

Definition entry_error_messages : list string :=
  ["SYNC_INVALID_EL1t"; "IRQ_INVALID_EL1t"; "FIQ_INVALID_EL1t"; "ERROR_INVALID_EL1T";
   "SYNC_INVALID_EL1h"; "IRQ_INVALID_EL1h"; "FIQ_INVALID_EL1h"; "ERROR_INVALID_EL1h";
   "SYNC_INVALID_EL0_64"; "IRQ_INVALID_EL0_64"; "FIQ_INVALID_EL0_64"; "ERROR_INVALID_EL0_64";
   "SYNC_INVALID_EL0_32"; "IRQ_INVALID_EL0_32"; "FIQ_INVALID_EL0_32"; "ERROR_INVALID_EL0_32"].

(** What [show_invalid_entry_message] prints: the message, the values of its five
    lines, and whether the line of a [BRK] from [panic] follows.  [pid] and
    [ttbr] are of the running process. *)
Record report := Report { message : string; procnum : Z; ttbr : Z; esr : Z; instruction : Z; address : Z; panic : bool }.
Definition show_invalid_entry_message (pid ttbr0 type esr instruction address : Z) : res report :=
  m ← (match entry_error_messages !! Z.to_nat type with
       | Some m => if (0 <=? type)%Z then Ok m else UB
       | None => UB
       end);
  Ok (Report m pid ttbr0 esr instruction address ((Z.shiftr esr 26 =? 0x3C)%Z && (Z.land esr 0xFFFF =? 0xBEEF)%Z)).

(** An exception no handler is for, to the report of it; the core then stops. *)
Definition invalid_entry (pid type : Z) (c : cpu) : res report :=
  let c := run (handle_invalid_entry type) c in
  show_invalid_entry_message pid (sr c TTBR0_EL1) (u32 (rd 0 c)) (rd 1 c) (rd 2 c) (rd 3 c).
Close Scope string_scope.

Definition irq_enable : list instr := [Msr_daifclr 2].
Definition irq_disable : list instr := [Msr_daifset 2].
Definition get_el : list instr := [Mrs_CurrentEL 0; Lsr 0 0 2].
Definition mmu_enabled : list instr := [Mrs 0 SCTLR_EL1; And_imm 0 0 1].
Definition get_active_pcb : list instr := [Mrs 0 TPIDR_EL1].
Definition set_active_pcb : list instr := [Msr TPIDR_EL1 0].
Definition switch_user_tlb : list instr := [Msr TTBR0_EL1 0].

(** [delay] and [delay_lo]: the count is tested after it is decremented. *)
Fixpoint delay (fuel : nat) (c : cpu) : res cpu :=
  match fuel with
  | O => Fuel
  | S fuel => let c := wr 0 (u64 (rd 0 c - 1)) c in if rd 0 c =? 0 then Ok c else delay fuel c
  end.
