(* ===== verification/EntrySpec.v ===== *)
(** * What the entry code promises

    The frame pushed holds the interrupted program's state, and leaving the
    kernel restores what the frame holds; so an interrupt is invisible, a system
    call changes the result register alone, and a [fork] returns twice. *)
From S2P Require Import Prelude Arm Entry.

(** The interrupted program's state, numbered as in the frame. *)
Definition user_reg (c : cpu) (i : Z) : Z :=
  if i <? 31 then xr c i else if i =? 31 then sr c SP_EL0 else if i =? 32 then sr c ELR_EL1 else sr c SPSR_EL1.

(** A processor in the kernel, on the stack [s]. *)
Record in_kernel (s : Z) (c : cpu) : Prop := {
  ik_el : el c = 1;
  ik_spsel : spsel c = 1;
  ik_sp : sr c SP_EL1 = s;
}.

Lemma in_kernel_sp_reg s c : in_kernel s c -> sp_reg c = SP_EL1.
Proof. intros [E1 E2 _]. unfold sp_reg. by rewrite E1, E2. Qed.

Lemma in_kernel_sp s c : in_kernel s c -> sp c = s.
Proof. intros H. unfold sp. rewrite (in_kernel_sp_reg s) by done. apply H. Qed.

(** Runs of pair instructions from register [2 i] on. *)
Fixpoint stps (n : nat) (i : Z) : list instr :=
  match n with O => [] | S n => Stp (2 * i) (2 * i + 1) (16 * i) :: stps n (i + 1) end.
Fixpoint ldps (n : nat) (i : Z) : list instr :=
  match n with O => [] | S n => Ldp (2 * i) (2 * i + 1) (16 * i) :: ldps n (i + 1) end.

Lemma stp_ok s c a b off : in_kernel s c -> 0 <= s + off -> s + off + 8 < 2 ^ 64 ->
  step (Stp a b off) c = Cpu (xr c) (sr c)
    (fun x => if x =? s + off + 8 then rd b c else if x =? s + off then rd a c else memw c x) (el c) (spsel c) (daif c).
Proof.
  intros Hk H0 H1. change (2 ^ 64) with 18446744073709551616 in H1. cbn [step]. rewrite (in_kernel_sp s) by done.
  rewrite !u64_small by lia. done.
Qed.

Lemma stps_ok s n : forall i c, in_kernel s c -> 0 <= s -> s + 272 <= 2 ^ 64 -> 0 <= i -> i + Z.of_nat n <= 15 ->
  exists m, run (stps n i) c = Cpu (xr c) (sr c) m (el c) (spsel c) (daif c) /\
    (forall j, 2 * i <= j < 2 * (i + Z.of_nat n) -> m (s + 8 * j) = xr c j) /\
    (forall x, ~ (s + 16 * i <= x < s + 16 * (i + Z.of_nat n)) -> m x = memw c x).
Proof.
  induction n as [|n IH]; intros i c Hk H0 H1 Hi Hn.
  - exists (memw c). split; [by destruct c|]. split; [lia|done].
  - cbn [stps]. change (run (?x :: ?l) c) with (run l (step x c)). change (2 ^ 64) with 18446744073709551616 in H1.
    rewrite (stp_ok s) by (done || change (2 ^ 64) with 18446744073709551616; lia). set (c1 := Cpu _ _ _ _ _ _).
    destruct (IH (i + 1) c1) as (m & E & Hm & Ho); [by destruct Hk|lia|change (2 ^ 64) with 18446744073709551616; lia|lia|lia|].
    exists m. split; [exact E|]. cbn [xr sr memw c1] in *. split.
    + intros j Hj. destruct (decide (2 * (i + 1) <= j)); [apply Hm; lia|]. rewrite Ho by lia. unfold rd, XZR.
      destruct (Z.eqb_spec (s + 8 * j) (s + 16 * i + 8)) as [E1|E1].
      * replace j with (2 * i + 1) by lia. by rewrite (proj2 (Z.eqb_neq _ _)) by lia.
      * replace j with (2 * i) by lia. replace (s + 8 * (2 * i)) with (s + 16 * i) by lia. rewrite Z.eqb_refl.
        by rewrite (proj2 (Z.eqb_neq _ _)) by lia.
    + intros x Hx. rewrite Ho by lia. by rewrite !(proj2 (Z.eqb_neq x _)) by lia.
Qed.

Lemma ldp_ok s c a b off : in_kernel s c -> 0 <= s + off -> s + off + 8 < 2 ^ 64 -> 0 <= a < 31 -> 0 <= b < 31 ->
  step (Ldp a b off) c = Cpu
    (fun q => if q =? b then memw c (s + off + 8) else if q =? a then memw c (s + off) else xr c q)
    (sr c) (memw c) (el c) (spsel c) (daif c).
Proof.
  intros Hk H0 H1 Ha Hb. change (2 ^ 64) with 18446744073709551616 in H1. cbn [step]. rewrite (in_kernel_sp s) by done.
  rewrite !u64_small by lia. unfold wr, XZR. by rewrite (proj2 (Z.eqb_neq a 31)), (proj2 (Z.eqb_neq b 31)) by lia.
Qed.

Lemma ldps_ok s n : forall i c, in_kernel s c -> 0 <= s -> s + 272 <= 2 ^ 64 -> 0 <= i -> i + Z.of_nat n <= 15 ->
  exists f, run (ldps n i) c = Cpu f (sr c) (memw c) (el c) (spsel c) (daif c) /\
    (forall j, 2 * i <= j < 2 * (i + Z.of_nat n) -> f j = memw c (s + 8 * j)) /\
    (forall j, ~ (2 * i <= j < 2 * (i + Z.of_nat n)) -> f j = xr c j).
Proof.
  induction n as [|n IH]; intros i c Hk H0 H1 Hi Hn.
  - exists (xr c). split; [by destruct c|]. split; [lia|done].
  - cbn [ldps]. change (run (?x :: ?l) c) with (run l (step x c)). change (2 ^ 64) with 18446744073709551616 in H1.
    rewrite (ldp_ok s) by (done || lia || change (2 ^ 64) with 18446744073709551616; lia). set (c1 := Cpu _ _ _ _ _ _).
    destruct (IH (i + 1) c1) as (f & E & Hf & Ho); [by destruct Hk|lia|change (2 ^ 64) with 18446744073709551616; lia|lia|lia|].
    exists f. split; [exact E|]. cbn [xr sr memw c1] in *. split.
    + intros j Hj. destruct (decide (2 * (i + 1) <= j)); [apply Hf; lia|]. rewrite Ho by lia.
      destruct (Z.eqb_spec j (2 * i + 1)) as [->|E1]; [f_equal; lia|].
      replace j with (2 * i) by lia. rewrite Z.eqb_refl. f_equal. lia.
    + intros x Hx. rewrite Ho by lia. by rewrite !(proj2 (Z.eqb_neq x _)) by lia.
Qed.

(** ** The frame *)

Lemma entry_shape : kernel_entry =
  Sub_sp S_FRAME_SIZE :: stps 15 0 ++ [Mrs 0 SP_EL0; Stp 30 0 240; Mrs 0 ELR_EL1; Mrs 1 SPSR_EL1; Stp 0 1 256; Ldp 0 1 0].
Proof. reflexivity. Qed.

Lemma exit_shape : kernel_exit =
  ldps 14 1 ++ [Ldp 30 0 240; Msr SP_EL0 0; Ldp 0 1 256; Msr ELR_EL1 0; Msr SPSR_EL1 1; Ldp 0 1 0; Add_sp S_FRAME_SIZE].
Proof. reflexivity. Qed.

(** The frame at [s] holds the state [u]. *)
Definition frame_is (s : Z) (u : Z -> Z) (c : cpu) : Prop := forall i, 0 <= i < 34 -> memw c (s + 8 * i) = u i.

Record entered (s : Z) (c c' : cpu) : Prop := {
  en_kernel : in_kernel (s - 272) c';
  en_frame : frame_is (s - 272) (user_reg c) c';
  en_mem : forall x, ~ (s - 272 <= x < s) -> memw c' x = memw c x;
  en_regs : forall i, 0 <= i < 31 -> xr c' i = xr c i;
  en_sys : forall r, r <> SP_EL1 -> sr c' r = sr c r;
}.

Lemma kernel_entry_ok s c : in_kernel s c -> 272 <= s -> s < 2 ^ 64 -> entered s c (run kernel_entry c).
Proof.
  intros Hk H0 H1. change (2 ^ 64) with 18446744073709551616 in H1. rewrite entry_shape.
  change (run (?x :: ?l) c) with (run l (step x c)). cbn [step]. unfold set_sp.
  rewrite (in_kernel_sp s), (in_kernel_sp_reg s) by done. unfold S_FRAME_SIZE. rewrite u64_small by lia.
  set (c0 := wr_sys SP_EL1 (s - 272) c). assert (Hk0 : in_kernel (s - 272) c0) by (destruct Hk; by split).
  rewrite run_app. destruct (stps_ok (s - 272) 15 0 c0 Hk0) as (m & E & Hm & Ho); [lia|change (2 ^ 64) with 18446744073709551616; lia|lia|lia|].
  rewrite E. set (c1 := Cpu _ _ _ _ _ _). assert (Hk1 : in_kernel (s - 272) c1) by (by destruct Hk0).
  change (run ?l c1) with (step (Ldp 0 1 0) (step (Stp 0 1 256) (step (Mrs 1 SPSR_EL1) (step (Mrs 0 ELR_EL1)
    (step (Stp 30 0 240) (step (Mrs 0 SP_EL0) c1)))))).
  set (c2 := step (Mrs 0 SP_EL0) c1). assert (Hk2 : in_kernel (s - 272) c2) by (by destruct Hk1).
  rewrite (stp_ok (s - 272) c2) by (done || change (2 ^ 64) with 18446744073709551616; lia). set (c3 := Cpu _ _ _ _ _ _).
  set (c4 := step (Mrs 1 SPSR_EL1) _). assert (Hk4 : in_kernel (s - 272) c4) by (by destruct Hk2).
  rewrite (stp_ok (s - 272) c4) by (done || change (2 ^ 64) with 18446744073709551616; lia). set (c5 := Cpu _ _ _ _ _ _).
  assert (Hk5 : in_kernel (s - 272) c5) by (by destruct Hk4).
  rewrite (ldp_ok (s - 272)) by (done || lia || change (2 ^ 64) with 18446744073709551616; lia).
  assert (Hmem : forall x, memw c5 x =
    if x =? s - 272 + 264 then sr c SPSR_EL1 else if x =? s - 272 + 256 then sr c ELR_EL1
    else if x =? s - 272 + 248 then sr c SP_EL0 else if x =? s - 272 + 240 then xr c 30 else m x).
  { intros x. cbn. unfold set_fun. cbn. replace (s - 272 + 256 + 8) with (s - 272 + 264) by lia.
    by replace (s - 272 + 240 + 8) with (s - 272 + 248) by lia. }
  assert (Hreg : forall i, 0 <= i < 31 -> i <> 0 -> i <> 1 -> xr c5 i = xr c i).
  { intros i Hi N0 N1. cbn. by rewrite (proj2 (Z.eqb_neq i 0)), (proj2 (Z.eqb_neq i 1)) by lia. }
  assert (Hsys : forall r, sr c5 r = sr c0 r) by done. clearbody c5. cbn [xr memw c0 wr_sys] in Hm, Ho.
  split; cbn [xr sr memw el spsel daif].
  - by destruct Hk5.
  - intros i Hi. cbn [memw]. rewrite Hmem. unfold user_reg.
    destruct (Z.eqb_spec (s - 272 + 8 * i) (s - 272 + 264)); [replace i with 33 by lia; done|].
    destruct (Z.eqb_spec (s - 272 + 8 * i) (s - 272 + 256)); [replace i with 32 by lia; done|].
    destruct (Z.eqb_spec (s - 272 + 8 * i) (s - 272 + 248)); [replace i with 31 by lia; done|].
    rewrite (proj2 (Z.ltb_lt i 31)) by lia.
    destruct (Z.eqb_spec (s - 272 + 8 * i) (s - 272 + 240)); [replace i with 30 by lia; done|]. apply Hm. lia.
  - intros x Hx. cbn [memw]. rewrite Hmem, !(proj2 (Z.eqb_neq x _)) by lia. apply Ho. lia.
  - intros i Hi. rewrite !Hmem.
    destruct (Z.eqb_spec i 1) as [->|N1]; [|destruct (Z.eqb_spec i 0) as [->|N0]; [|by apply Hreg]].
    + rewrite !(proj2 (Z.eqb_neq _ _)) by lia. replace (s - 272 + 0 + 8) with (s - 272 + 8 * 1) by lia. apply Hm. lia.
    + rewrite !(proj2 (Z.eqb_neq _ _)) by lia. replace (s - 272 + 0) with (s - 272 + 8 * 0) by lia. apply Hm. lia.
  - intros r Hr. rewrite Hsys. by apply set_fun_other.
Qed.

Record left_kernel (s : Z) (c c' : cpu) : Prop := {
  lk_kernel : in_kernel (s + 272) c';
  lk_regs : forall i, 0 <= i < 34 -> user_reg c' i = memw c (s + 8 * i);
  lk_mem : memw c' = memw c;
  lk_sys : forall r, r <> SP_EL1 -> r <> SP_EL0 -> r <> ELR_EL1 -> r <> SPSR_EL1 -> sr c' r = sr c r;
}.

Lemma kernel_exit_ok s c : in_kernel s c -> 0 <= s -> s + 272 < 2 ^ 64 -> left_kernel s c (run kernel_exit c).
Proof.
  intros Hk H0 H1. change (2 ^ 64) with 18446744073709551616 in H1. rewrite exit_shape, run_app.
  destruct (ldps_ok s 14 1 c Hk) as (f & E & Hf & _); [lia|change (2 ^ 64) with 18446744073709551616; lia|lia|lia|].
  rewrite E. set (c1 := Cpu _ _ _ _ _ _). assert (Hk1 : in_kernel s c1) by (by destruct Hk).
  change (run ?l c1) with (step (Add_sp S_FRAME_SIZE) (step (Ldp 0 1 0) (step (Msr SPSR_EL1 1) (step (Msr ELR_EL1 0)
    (step (Ldp 0 1 256) (step (Msr SP_EL0 0) (step (Ldp 30 0 240) c1))))))).
  rewrite (ldp_ok s c1) by (done || lia || change (2 ^ 64) with 18446744073709551616; lia). set (c2 := step (Msr SP_EL0 0) _).
  assert (Hk2 : in_kernel s c2) by (by destruct Hk1).
  rewrite (ldp_ok s c2) by (done || lia || change (2 ^ 64) with 18446744073709551616; lia).
  set (c3 := step (Msr SPSR_EL1 1) _). assert (Hk3 : in_kernel s c3) by (by destruct Hk2).
  rewrite (ldp_ok s c3) by (done || lia || change (2 ^ 64) with 18446744073709551616; lia). set (c4 := Cpu _ _ _ _ _ _).
  assert (Hk4 : in_kernel s c4) by (by destruct Hk3). cbn [step]. unfold set_sp.
  rewrite (in_kernel_sp s), (in_kernel_sp_reg s) by done. unfold S_FRAME_SIZE. rewrite u64_small by lia.
  assert (Hx : forall i, xr c4 i = if i =? 1 then memw c (s + 8) else if i =? 0 then memw c s else if i =? 30 then memw c (s + 240) else f i).
  { intros i. cbn. replace (s + 0) with s by lia. destruct (i =? 1) eqn:?, (i =? 0) eqn:?, (i =? 30) eqn:?; done || lia. }
  assert (Hsys : forall r, sr c4 r = if decide (r = SPSR_EL1) then memw c (s + 264) else if decide (r = ELR_EL1) then memw c (s + 256)
     else if decide (r = SP_EL0) then memw c (s + 248) else sr c r).
  { intros r. cbn. unfold set_fun. cbn. replace (s + 256 + 8) with (s + 264) by lia. replace (s + 240 + 8) with (s + 248) by lia.
    repeat case_decide; congruence. }
  assert (Hm : memw c4 = memw c) by done. clearbody c4. split.
  - destruct Hk4. split; try done.
  - intros i Hi. unfold user_reg. cbn [wr_sys xr sr]. destruct (Z.ltb_spec i 31).
    2:{ assert (i = 31 \/ i = 32 \/ i = 33) as [-> |[-> | ->]] by lia; cbn [Z.eqb Pos.eqb]; rewrite set_fun_other, Hsys by done;
        repeat case_decide; try done; f_equal; lia. }
    rewrite Hx.
    destruct (Z.eqb_spec i 1) as [->|]; [f_equal; lia|]. destruct (Z.eqb_spec i 0) as [->|]; [f_equal; lia|].
    destruct (Z.eqb_spec i 30) as [->|]; [f_equal; lia|]. apply Hf. lia.
  - done.
  - intros r R1 R2 R3 R4. cbn [wr_sys sr]. rewrite set_fun_other, Hsys, !decide_False by congruence. done.
Qed.

(** ** Interrupts and system calls *)

(** The status register [ps] describes the processor [c], in a state that an
    exception to EL1 can come from. *)
Record status_of (ps : Z) (c : cpu) : Prop := {
  so_el : spsr_el ps = el c;
  so_sp : spsr_sp ps = spsel c;
  so_daif : spsr_daif ps = daif c;
  so_64 : Z.testbit ps 4 = false;
  so_level : el c = 0 /\ spsel c = 0 \/ el c = 1;
}.

(** A handler called with the state [c1] comes back to its caller with the frame
    at [s] holding [u]. *)
Definition comes_back (h : callee) (s : Z) (u : Z -> Z) (c1 c2 : cpu) : Prop :=
  h c1 = Ok c2 /\ in_kernel s c2 /\ frame_is s u c2.

(** The program interrupted goes on at [pc] with its own registers. *)
Record resumed (pc : Z) (c : cpu) (c' : cpu) : Prop := {
  re_sp0 : sr c' SP_EL0 = sr c SP_EL0;
  re_sp1 : sr c' SP_EL1 = sr c SP_EL1;
  re_el : el c' = el c;
  re_spsel : spsel c' = spsel c;
  re_daif : daif c' = daif c;
}.

Lemma take_kernel pc ps c : in_kernel (sr c SP_EL1) (take pc ps c).
Proof. by split. Qed.

(** Leaving with the frame of an exception taken at [pc], but for register 0. *)
Lemma leave_ok pc ps c s c2 x0 :
  s = sr c SP_EL1 - 272 -> 0 <= s -> s + 272 < 2 ^ 64 -> status_of ps c -> in_kernel s c2 ->
  frame_is s (fun i => if i =? 0 then x0 else user_reg (take pc ps c) i) c2 ->
  exists c', eret (run kernel_exit c2) = Ok (pc, c') /\ resumed pc c c' /\ memw c' = memw c2 /\
    xr c' 0 = x0 /\ forall i, 1 <= i < 31 -> xr c' i = xr c i.
Proof.
  intros Es H0 H1 Hps Hk Hfr. pose proof (kernel_exit_ok s c2 Hk H0 H1) as HK. revert HK.
  generalize (run kernel_exit c2) as c3. intros c3 [K1 K2 K3 K4].
  assert (Hu : forall i, 0 <= i < 34 -> user_reg c3 i = if i =? 0 then x0 else user_reg (take pc ps c) i).
  { intros i Hi. rewrite K2 by done. by apply Hfr. }
  assert (Helr : sr c3 ELR_EL1 = pc) by exact (Hu 32 ltac:(lia)).
  assert (Hspsr : sr c3 SPSR_EL1 = ps) by exact (Hu 33 ltac:(lia)).
  destruct Hps as [P1 P2 P3 P4 P5]. unfold eret, elr_of, spsr_of. rewrite (ik_el _ _ K1). cbn [Z.eqb Pos.eqb].
  rewrite Helr, Hspsr, P1, P2, P3, P4. cbn [negb andb].
  replace ((el c <=? 1) && negb ((el c =? 0) && (spsel c =? 1))) with true
    by (destruct P5 as [[E1 E2]|E1]; rewrite E1, ?E2; reflexivity).
  eexists. split; [done|]. split; [split; cbn [sr el spsel daif]; try done|].
  - exact (Hu 31 ltac:(lia)).
  - rewrite (ik_sp _ _ K1). lia.
  - split; [exact K3|]. split; [exact (Hu 0 ltac:(lia))|]. intros i Hi. pose proof (Hu i ltac:(lia)) as E.
    unfold user_reg in E. rewrite (proj2 (Z.ltb_lt i 31)), (proj2 (Z.eqb_neq i 0)) in E by lia. exact E.
Qed.

(** A user program at work, and one whose supervisor call is number 294. *)
Definition demo_cpu (esr : Z) : cpu :=
  Cpu (fun i => if i =? 8 then 294 else 100 + i) (set_fun SP_EL1 0xFFFF800000200000 (set_fun ESR_EL1 esr (fun _ => 0x7000)))
    (fun _ => 0) 0 0 0.

Lemma demo_status esr : status_of 0 (demo_cpu esr).
Proof. split; try done. by left. Qed.

(** C10: an interrupt is invisible.  [handle_irq] is called with the address of a
    frame that holds the state of the program interrupted, the user or the
    kernel, and with its level; if it comes back with its stack and the frame as
    they were, the program goes on where it was, with every register, both stack
    pointers, the level and the masks as before. *)
Theorem interrupt_invisible handle_irq pc ps c :
  let s := sr c SP_EL1 - 272 in
  272 <= sr c SP_EL1 < 2 ^ 64 -> status_of ps c ->
  (forall c1, in_kernel s c1 -> frame_is s (user_reg (take pc ps c)) c1 -> xr c1 0 = s -> xr c1 1 = el c ->
     exists c2, comes_back handle_irq s (user_reg (take pc ps c)) c1 c2) ->
  exists c', handle_irq_entry handle_irq (take pc ps c) = Ok (pc, c') /\ resumed pc c c' /\
    forall i, 0 <= i < 31 -> xr c' i = xr c i.
Proof.
  intros s [H0 H1] Hps Hh. pose proof (kernel_entry_ok _ _ (take_kernel pc ps c) H0 H1) as HE. unfold handle_irq_entry. revert HE.
  generalize (run kernel_entry (take pc ps c)) as c1. intros c1 [E1 E2 _ _ E5]. fold s in E1, E2. set (c1' := run _ c1).
  assert (Hsys : sr c1 SPSR_EL1 = ps) by (rewrite E5; done).
  destruct (Hh c1') as (c2 & -> & Hk2 & Hf2).
  - by destruct E1.
  - exact E2.
  - exact (in_kernel_sp _ _ E1).
  - cbn. rewrite Hsys. exact (so_el _ _ Hps).
  - cbn [mbind res_bind]. destruct (leave_ok pc ps c s c2 (xr c 0)) as (c' & E & Hr & _ & Hx0 & Hx); try done; [lia|lia| |].
    { intros i Hi. rewrite Hf2 by done. destruct (Z.eqb_spec i 0) as [->|]; done. }
    exists c'. split; [exact E|]. split; [exact Hr|]. intros i Hi. destruct (decide (i = 0)) as [->|]; [done|]. apply Hx. lia.
Qed.

Lemma interrupt_invisible_witness : exists c',
  handle_irq_entry (fun c => Ok (wr 5 0 c)) (take 0x4000 0 (demo_cpu 0)) = Ok (0x4000, c') /\ xr c' 5 = 105.
Proof.
  destruct (interrupt_invisible (fun c => Ok (wr 5 0 c)) 0x4000 0 (demo_cpu 0)) as (c' & E & _ & Hx).
  - by vm_compute.
  - apply demo_status.
  - intros c1 [K1 K2 K3] Hf _ _. exists (wr 5 0 c1). split; [done|]. by split.
  - exists c'. split; [exact E|]. by rewrite Hx by lia.
Defined.

(** Leaving for the user with any frame of a user program. *)
Definition user_status (ps : Z) : Prop := spsr_el ps = 0 /\ spsr_sp ps = 0 /\ Z.testbit ps 4 = false.

Record user_runs (s : Z) (u : Z -> Z) (c' : cpu) : Prop := {
  ur_regs : forall i, 0 <= i < 31 -> xr c' i = u i;
  ur_sp0 : sr c' SP_EL0 = u 31;
  ur_sp1 : sr c' SP_EL1 = s + 272;
  ur_el : el c' = 0 /\ spsel c' = 0;
  ur_daif : daif c' = spsr_daif (u 33);
}.

Lemma exit_user s u c : in_kernel s c -> 0 <= s -> s + 272 < 2 ^ 64 -> frame_is s u c -> user_status (u 33) ->
  exists c', eret (run kernel_exit c) = Ok (u 32, c') /\ user_runs s u c'.
Proof.
  intros Hk H0 H1 Hf (U1 & U2 & U3). pose proof (kernel_exit_ok s c Hk H0 H1) as HK. revert HK.
  generalize (run kernel_exit c) as c3. intros c3 [K1 K2 _ _].
  assert (Hu : forall i, 0 <= i < 34 -> user_reg c3 i = u i) by (intros i Hi; rewrite K2 by done; by apply Hf).
  assert (Helr : sr c3 ELR_EL1 = u 32) by exact (Hu 32 ltac:(lia)).
  assert (Hspsr : sr c3 SPSR_EL1 = u 33) by exact (Hu 33 ltac:(lia)).
  unfold eret, elr_of, spsr_of. rewrite (ik_el _ _ K1). cbn [Z.eqb Pos.eqb].
  rewrite Helr, Hspsr, U1, U2, U3. cbn [negb andb Z.leb Z.eqb Z.compare Pos.eqb]. eexists. split; [done|].
  split; cbn [xr sr el spsel daif]; try done.
  - intros i Hi. pose proof (Hu i ltac:(lia)) as E. unfold user_reg in E. by rewrite (proj2 (Z.ltb_lt i 31)) in E by lia.
  - exact (Hu 31 ltac:(lia)).
  - apply (ik_sp _ _ K1).
Qed.

(** C11: a system call.  The handler gets the user's [x0] to [x5], the number from
    [x8] and the frame; whatever frame [u] of a user program it leaves, the user
    goes on where that says, with its registers, and with the handler's result
    in [x0].  A call that leaves the frame alone thus changes [x0] only. *)
Theorem syscall_returns handle_syscall handle_el0_fault pc ps c ret u :
  let s := sr c SP_EL1 - 272 in
  272 <= sr c SP_EL1 < 2 ^ 64 -> user_status (u 33) ->
  Z.shiftr (sr c ESR_EL1) 26 <> EC_DATA_ABORT -> Z.shiftr (sr c ESR_EL1) 26 <> EC_INSTRUCTION_ABORT ->
  (forall c1, in_kernel s c1 -> frame_is s (user_reg (take pc ps c)) c1 -> (forall i, 0 <= i < 6 -> xr c1 i = xr c i) ->
     xr c1 6 = xr c 8 -> xr c1 7 = s -> exists c2, comes_back handle_syscall s u c1 c2 /\ xr c2 0 = ret) ->
  exists c', handle_el0_svc handle_syscall handle_el0_fault (take pc ps c) = Ok (u 32, c') /\
    user_runs s (fun i => if i =? 0 then ret else u i) c'.
Proof.
  intros s [H0 H1] Hu N1 N2 Hh. change (2 ^ 64) with 18446744073709551616 in H1.
  pose proof (kernel_entry_ok _ _ (take_kernel pc ps c) H0 H1) as HE. unfold handle_el0_svc. rewrite run_app. revert HE.
  generalize (run kernel_entry (take pc ps c)) as c1. intros c1 [E1 E2 _ _ E5]. fold s in E1, E2.
  assert (Hesr : sr c1 ESR_EL1 = sr c ESR_EL1) by (by rewrite E5).
  set (c1' := run _ c1). assert (Hx1 : rd 1 c1' = Z.shiftr (sr c ESR_EL1) 26) by (by rewrite <- Hesr).
  rewrite Hx1, (proj2 (Z.eqb_neq _ _) N1), (proj2 (Z.eqb_neq _ _) N2). cbn [orb].
  assert (Hk1 : in_kernel s c1') by (by destruct E1). assert (Hf1 : frame_is s (user_reg (take pc ps c)) c1') by exact E2.
  clearbody c1'. clear E1 E2 E5 Hesr Hx1.
  change (run ?l c1') with (step (Mov_from_sp 7) (step (Mov 6 8) (step (Ldr_sp 8 64) (step (Ldp 4 5 32) (step (Ldp 2 3 16) (step (Ldp 0 1 0) c1')))))).
  rewrite (ldp_ok s c1') by (done || lia || change (2 ^ 64) with 18446744073709551616; lia). set (d1 := Cpu _ _ _ _ _ _).
  assert (K1 : in_kernel s d1) by (by destruct Hk1).
  rewrite (ldp_ok s d1) by (done || lia || change (2 ^ 64) with 18446744073709551616; lia). set (d2 := Cpu _ _ _ _ _ _).
  assert (K2 : in_kernel s d2) by (by destruct K1).
  rewrite (ldp_ok s d2) by (done || lia || change (2 ^ 64) with 18446744073709551616; lia). set (d3 := Cpu _ _ _ _ _ _).
  assert (K3 : in_kernel s d3) by (by destruct K2).
  assert (Hfr : forall i, 0 <= i < 31 -> memw c1' (s + 8 * i) = xr c i).
  { intros i Hi. rewrite Hf1 by lia. unfold user_reg. by rewrite (proj2 (Z.ltb_lt i 31)) by lia. }
  destruct (Hh (step (Mov_from_sp 7) (step (Mov 6 8) (step (Ldr_sp 8 64) d3)))) as (c2 & (-> & Hk2 & Hf2) & Hret).
  - by destruct K3.
  - exact Hf1.
  - intros i Hi. assert (i = 0 \/ i = 1 \/ i = 2 \/ i = 3 \/ i = 4 \/ i = 5) as Hc by lia. rewrite <- Hfr by lia.
    destruct Hc as [->|[->|[->|[->|[->| ->]]]]]; cbn; f_equal; lia.
  - cbn [step]. unfold rd, XZR. cbn [Z.eqb Pos.eqb wr xr]. rewrite (in_kernel_sp s d3) by done. rewrite <- Hfr by lia.
    cbn. rewrite u64_small by lia. f_equal; lia.
  - cbn [step wr xr]. cbn [Z.eqb Pos.eqb XZR]. by apply in_kernel_sp; destruct K3.
  - cbn [mbind res_bind]. change (run [Str_sp 0 (16 * 0)] c2) with (step (Str_sp 0 0) c2). cbn [step].
    rewrite (in_kernel_sp s) by done. rewrite u64_small by lia. change (rd 0 c2) with (xr c2 0). rewrite Hret.
    destruct (exit_user s (fun i => if i =? 0 then ret else u i) (st (s + 0) ret c2)) as (c' & E & Hr); try done; try lia.
    + by destruct Hk2.
    + intros i Hi. cbn [memw st]. destruct (Z.eqb_spec (s + 8 * i) (s + 0)), (Z.eqb_spec i 0); try lia. by apply Hf2.
    + by exists c'.
Qed.

Lemma syscall_returns_witness : exists c',
  handle_el0_svc (fun c => Ok (wr 0 7 c)) (fun _ => Panic) (take 0x4000 0 (demo_cpu 0x56000000)) = Ok (0x4000, c') /\
  xr c' 0 = 7 /\ xr c' 5 = 105.
Proof.
  set (c := demo_cpu 0x56000000).
  destruct (syscall_returns (fun c => Ok (wr 0 7 c)) (fun _ => Panic) 0x4000 0 c 7 (user_reg (take 0x4000 0 c)))
    as (c' & E & [Hx _ _ _ _]).
  - by vm_compute.
  - done.
  - by vm_compute.
  - by vm_compute.
  - intros c1 [K1 K2 K3] Hf _ _ _. exists (wr 0 7 c1). split; [|done]. split; [done|]. by split.
  - exists c'. split; [exact E|]. by rewrite !Hx by lia.
Defined.

(** A page fault: the handler gets the fault's address and syndrome and the
    user's stack pointer, and the instruction is tried again with every register
    as it was. *)
Lemma fault_retries handle_syscall handle_el0_fault pc ps c :
  let s := sr c SP_EL1 - 272 in let ec := Z.shiftr (sr c ESR_EL1) 26 in
  272 <= sr c SP_EL1 < 2 ^ 64 -> status_of ps c -> ec = EC_DATA_ABORT \/ ec = EC_INSTRUCTION_ABORT ->
  (forall c1, in_kernel s c1 -> frame_is s (user_reg (take pc ps c)) c1 -> xr c1 0 = sr c FAR_EL1 -> xr c1 1 = sr c ESR_EL1 ->
     xr c1 2 = sr c SP_EL0 -> exists c2, comes_back handle_el0_fault s (user_reg (take pc ps c)) c1 c2) ->
  exists c', handle_el0_svc handle_syscall handle_el0_fault (take pc ps c) = Ok (pc, c') /\ resumed pc c c' /\
    forall i, 0 <= i < 31 -> xr c' i = xr c i.
Proof.
  intros s ec [H0 H1] Hps Hec Hh.
  pose proof (kernel_entry_ok _ _ (take_kernel pc ps c) H0 H1) as HE. unfold handle_el0_svc. rewrite run_app. revert HE.
  generalize (run kernel_entry (take pc ps c)) as c1. intros c1 [E1 E2 _ _ E5]. fold s in E1, E2.
  assert (Hesr : sr c1 ESR_EL1 = sr c ESR_EL1) by (by rewrite E5).
  assert (Hx1 : rd 1 (run [Mrs 0 ESR_EL1; Lsr 1 0 26] c1) = ec) by (unfold ec; by rewrite <- Hesr).
  rewrite Hx1. replace ((ec =? EC_DATA_ABORT) || (ec =? EC_INSTRUCTION_ABORT)) with true.
  2:{ destruct Hec as [->| ->]; reflexivity. }
  destruct (Hh (run [Mrs 0 FAR_EL1; Mrs 1 ESR_EL1; Mrs 2 SP_EL0] (run [Mrs 0 ESR_EL1; Lsr 1 0 26] c1))) as (c2 & -> & Hk2 & Hf2).
  - by destruct E1.
  - exact E2.
  - cbn. rewrite E5; done.
  - cbn. done.
  - cbn. rewrite E5; done.
  - cbn [mbind res_bind]. destruct (leave_ok pc ps c s c2 (xr c 0)) as (c' & E & Hr & _ & Hx0 & Hx); try done; [lia|lia| |].
    { intros i Hi. rewrite Hf2 by done. destruct (Z.eqb_spec i 0) as [->|]; done. }
    exists c'. split; [exact E|]. split; [exact Hr|]. intros i Hi. destruct (decide (i = 0)) as [->|]; [done|]. apply Hx. lia.
Qed.

(** ** The context switch *)

(** The order of the twelve registers on the stack. *)
Definition saved_reg (i : Z) : Z :=
  if i =? 0 then 29 else if i =? 1 then 30 else if i =? 2 then 27 else if i =? 3 then 28 else if i =? 4 then 25
  else if i =? 5 then 26 else if i =? 6 then 23 else if i =? 7 then 24 else if i =? 8 then 21 else if i =? 9 then 22
  else if i =? 10 then 19 else 20.

Lemma stp_pre_ok s c a b : in_kernel s c -> 16 <= s -> s < 2 ^ 64 ->
  exists c', step (Stp_pre a b 16) c = c' /\ in_kernel (s - 16) c' /\ xr c' = xr c /\ daif c' = daif c /\
    (forall r, r <> SP_EL1 -> sr c' r = sr c r) /\
    memw c' = fun x => if x =? s - 16 + 8 then rd b c else if x =? s - 16 then rd a c else memw c x.
Proof.
  intros Hk H0 H1. change (2 ^ 64) with 18446744073709551616 in H1. eexists. split; [done|]. cbn [step]. unfold set_sp.
  rewrite (in_kernel_sp s) by done. rewrite (u64_small (s - 16)), u64_small by lia.
  change (sp_reg (st (s - 16 + 8) _ _)) with (sp_reg c). rewrite (in_kernel_sp_reg s) by done.
  destruct Hk. split; [by split|]. split; [done|]. split; [done|]. split; [|done]. intros r Hr. by apply set_fun_other.
Qed.

Lemma ldp_post_ok s c a b : in_kernel s c -> 0 <= s -> s + 16 < 2 ^ 64 -> 0 <= a < 31 -> 0 <= b < 31 ->
  exists c', step (Ldp_post a b 16) c = c' /\ in_kernel (s + 16) c' /\ memw c' = memw c /\ daif c' = daif c /\
    (forall r, r <> SP_EL1 -> sr c' r = sr c r) /\
    xr c' = fun q => if q =? b then memw c (s + 8) else if q =? a then memw c s else xr c q.
Proof.
  intros Hk H0 H1 Ha Hb. change (2 ^ 64) with 18446744073709551616 in H1. eexists. split; [done|]. cbn [step]. unfold set_sp.
  rewrite (in_kernel_sp s) by done. rewrite !u64_small by lia. unfold wr, XZR.
  rewrite (proj2 (Z.eqb_neq a 31)), (proj2 (Z.eqb_neq b 31)) by lia.
  change (sp_reg (Cpu _ (sr (Cpu _ (sr c) _ _ _ _)) _ _ _ _)) with (sp_reg c). rewrite (in_kernel_sp_reg s) by done.
  destruct Hk. split; [by split|]. split; [done|]. split; [done|]. split; [|done]. intros r Hr. by apply set_fun_other.
Qed.

(** What [switch_load] takes from the stack. *)
Lemma switch_load_ok s c : in_kernel s c -> 0 <= s -> s + 96 < 2 ^ 64 ->
  let c' := run switch_load c in
  in_kernel (s + 96) c' /\ memw c' = memw c /\ (forall r, r <> SP_EL1 -> sr c' r = sr c r) /\
  (forall i, 0 <= i < 12 -> xr c' (saved_reg i) = memw c (s + 8 * i)) /\ (forall q, ~ (19 <= q <= 30) -> xr c' q = xr c q).
Proof.
  intros Hk H0 H1. change (2 ^ 64) with 18446744073709551616 in H1. cbv zeta.
  change (run switch_load c) with (step (Ldp_post 19 20 16) (step (Ldp_post 21 22 16) (step (Ldp_post 23 24 16)
    (step (Ldp_post 25 26 16) (step (Ldp_post 27 28 16) (step (Ldp_post 29 30 16) c)))))).
  assert (HB : forall z, z < 18446744073709551616 -> z < 2 ^ 64) by done.
  destruct (ldp_post_ok s c 29 30 Hk) as (c1 & -> & K1 & M1 & _ & S1 & X1); [lia|apply HB; lia|lia|lia|].
  destruct (ldp_post_ok _ c1 27 28 K1) as (c2 & -> & K2 & M2 & _ & S2 & X2); [lia|apply HB; lia|lia|lia|].
  destruct (ldp_post_ok _ c2 25 26 K2) as (c3 & -> & K3 & M3 & _ & S3 & X3); [lia|apply HB; lia|lia|lia|].
  destruct (ldp_post_ok _ c3 23 24 K3) as (c4 & -> & K4 & M4 & _ & S4 & X4); [lia|apply HB; lia|lia|lia|].
  destruct (ldp_post_ok _ c4 21 22 K4) as (c5 & -> & K5 & M5 & _ & S5 & X5); [lia|apply HB; lia|lia|lia|].
  destruct (ldp_post_ok _ c5 19 20 K5) as (c6 & -> & K6 & M6 & _ & S6 & X6); [lia|apply HB; lia|lia|lia|].
  split; [replace (s + 96) with (s + 16 + 16 + 16 + 16 + 16 + 16) by lia; exact K6|]. split; [congruence|]. split; [|split].
  - intros r Hr. by rewrite S6, S5, S4, S3, S2, S1.
  - intros i Hi. assert (Hc : i = 0 \/ i = 1 \/ i = 2 \/ i = 3 \/ i = 4 \/ i = 5 \/ i = 6 \/ i = 7 \/ i = 8 \/ i = 9 \/ i = 10 \/ i = 11) by lia.
    rewrite X6, X5, X4, X3, X2, X1, M5, M4, M3, M2, M1.
    repeat destruct Hc as [->|Hc]; try subst i; cbn; f_equal; lia.
  - intros q Hq. rewrite X6, X5, X4, X3, X2, X1. by rewrite !(proj2 (Z.eqb_neq q _)) by lia.
Qed.

(** What [switch_save] leaves: the registers on the old stack, its top in the save
    point, and the new stack and tables. *)
Lemma switch_save_ok s c : in_kernel s c -> 96 <= s -> s < 2 ^ 64 -> ~ (s - 96 <= xr c 1 < s) ->
  let c' := run switch_save c in
  in_kernel (xr c 0) c' /\ memw c' (xr c 1) = s - 96 /\ sr c' TTBR0_EL1 = xr c 2 /\
  (forall i, 0 <= i < 12 -> memw c' (s - 96 + 8 * i) = xr c (saved_reg i)) /\
  (forall x, ~ (s - 96 <= x < s) -> x <> xr c 1 -> memw c' x = memw c x).
Proof.
  intros Hk H0 H1 Hp. change (2 ^ 64) with 18446744073709551616 in H1. cbv zeta.
  change (run switch_save c) with (run [Mov_from_sp 19; Str_at 19 1; Mov_to_sp 0; Msr TTBR0_EL1 2; Mov 0 1]
    (step (Stp_pre 29 30 16) (step (Stp_pre 27 28 16) (step (Stp_pre 25 26 16)
      (step (Stp_pre 23 24 16) (step (Stp_pre 21 22 16) (step (Stp_pre 19 20 16) c))))))).
  assert (HB : forall z, z < 18446744073709551616 -> z < 2 ^ 64) by done.
  destruct (stp_pre_ok s c 19 20 Hk) as (c1 & -> & K1 & X1 & _ & S1 & M1); [lia|apply HB; lia|].
  destruct (stp_pre_ok _ c1 21 22 K1) as (c2 & -> & K2 & X2 & _ & S2 & M2); [lia|apply HB; lia|].
  destruct (stp_pre_ok _ c2 23 24 K2) as (c3 & -> & K3 & X3 & _ & S3 & M3); [lia|apply HB; lia|].
  destruct (stp_pre_ok _ c3 25 26 K3) as (c4 & -> & K4 & X4 & _ & S4 & M4); [lia|apply HB; lia|].
  destruct (stp_pre_ok _ c4 27 28 K4) as (c5 & -> & K5 & X5 & _ & S5 & M5); [lia|apply HB; lia|].
  destruct (stp_pre_ok _ c5 29 30 K5) as (c6 & -> & K6 & X6 & _ & S6 & M6); [lia|apply HB; lia|].
  assert (X : xr c6 = xr c) by congruence. assert (Es : sp c6 = s - 96) by (rewrite (in_kernel_sp _ _ K6); lia).
  assert (Hin : forall i, 0 <= i < 12 -> memw c6 (s - 96 + 8 * i) = xr c (saved_reg i)).
  { intros i Hi. assert (Hc : i = 0 \/ i = 1 \/ i = 2 \/ i = 3 \/ i = 4 \/ i = 5 \/ i = 6 \/ i = 7 \/ i = 8 \/ i = 9 \/ i = 10 \/ i = 11) by lia.
    rewrite M6, M5, M4, M3, M2, M1. unfold rd. rewrite X5, X4, X3, X2, X1. cbn [XZR Z.eqb Pos.eqb].
    repeat destruct Hc as [->|Hc]; try subst i; unfold saved_reg; cbn [Z.eqb Pos.eqb]; 
      repeat match goal with |- context [?a =? ?b] => destruct (Z.eqb_spec a b); [first [reflexivity|exfalso; lia]|] end; exfalso; lia. }
  assert (Hout : forall x, ~ (s - 96 <= x < s) -> memw c6 x = memw c x).
  { intros x Hx. rewrite M6, M5, M4, M3, M2, M1. by rewrite !(proj2 (Z.eqb_neq x _)) by lia. }
  assert (Hsr : sp_reg c6 = SP_EL1) by apply (in_kernel_sp_reg _ _ K6).
  destruct K6 as [L1 L2 L3]. clear M6 M5 M4 M3 M2 M1.
  set (c7 := run _ c6).
  assert (Hm7 : memw c7 = fun x => if x =? xr c 1 then s - 96 else memw c6 x) by (cbn; by rewrite Es, X).
  assert (Hs7 : sr c7 = set_fun TTBR0_EL1 (xr c 2) (set_fun SP_EL1 (xr c 0) (sr c6))).
  { cbn. change (sp_reg (st _ _ _)) with (sp_reg c6). rewrite Hsr. by rewrite X. }
  split; [split|]; [exact L1|exact L2|by rewrite Hs7|]. rewrite Hm7, Hs7. split; [by rewrite Z.eqb_refl|]. split; [done|]. split.
  - intros i Hi. rewrite (proj2 (Z.eqb_neq _ _)) by lia. by apply Hin.
  - intros x Hx Hne. rewrite (proj2 (Z.eqb_neq _ _)) by done. by apply Hout.
Qed.

(** [check_and_reap], called on the new stack [t], leaves the words [P] and the
    tables alone. *)
Definition reaps (h : callee) (t : Z) (P : Z -> Prop) : Prop := forall d, in_kernel t d -> exists d', h d = Ok d' /\ in_kernel t d' /\
  sr d' TTBR0_EL1 = sr d TTBR0_EL1 /\ forall x, P x -> memw d' x = memw d x.

(** A call of [context_switch] on the stack [s] that pushes and saves nothing
    between [lo] and [hi]. *)
Record switching (s lo hi : Z) (c : cpu) : Prop := {
  sg_kernel : in_kernel s c;
  sg_range : 96 <= s < 2 ^ 64;
  sg_save : ~ (s - 96 <= xr c 1 < s) /\ ~ (lo <= xr c 1 < hi);
  sg_apart : s <= lo \/ hi <= s - 96;
}.

(** A switch to a stack [t] on which the words [w] were pushed. *)
Lemma switch_to s lo hi t w h c : switching s lo hi c -> 0 <= t -> t + 96 < 2 ^ 64 -> lo <= t -> t + 96 <= hi ->
  xr c 0 = t -> (forall i, 0 <= i < 12 -> memw c (t + 8 * i) = w i) -> reaps h t (fun x => lo <= x < hi) ->
  exists c', context_switch h c = Ok (w 1, c') /\ in_kernel (t + 96) c' /\ sr c' TTBR0_EL1 = xr c 2 /\
    (forall i, 0 <= i < 12 -> xr c' (saved_reg i) = w i) /\ forall x, lo <= x < hi -> memw c' x = memw c x.
Proof.
  intros [Hk [H0 H1] [Hp Hp'] Hd] Ht0 Ht1 Hlo Hhi Hx Hw Hh. destruct (switch_save_ok s c Hk H0 H1 Hp) as (K1 & _ & T1 & _ & M1).
  unfold context_switch. rewrite Hx in K1. destruct (Hh _ K1) as (d & -> & K2 & T2 & M2). cbn [mbind res_bind].
  destruct (switch_load_ok t d K2 Ht0 Ht1) as (K3 & E3 & S3 & X3 & _). eexists.
  assert (E : rd 30 (run switch_load d) = w 1).
  { change (rd 30 (run switch_load d)) with (xr (run switch_load d) (saved_reg 1)). rewrite X3, M2, M1 by lia. apply Hw. lia. }
  rewrite E. split; [done|]. split; [done|]. split; [by rewrite S3, T2, T1|]. split.
  - intros i Hi. rewrite X3, M2, M1 by lia. by apply Hw.
  - intros x Hin. rewrite E3, M2, M1 by lia. done.
Qed.

(** A process switched out resumes where it was.  Let [c] be a call of
    [context_switch] on the stack [s].  Any later call that is given the pointer
    the first one saved, while the twelve words it pushed are as they were,
    returns to the first one's caller, on the first one's stack, with the twelve
    registers a C function keeps; the tables are those of the later call. *)
Lemma switch_resumes h c c2 s s2 :
  in_kernel s c -> 96 <= s -> s < 2 ^ 64 -> ~ (s - 96 <= xr c 1 < s) -> switching s2 (s - 96) s c2 ->
  xr c2 0 = memw (run switch_save c) (xr c 1) ->
  (forall i, 0 <= i < 12 -> memw c2 (s - 96 + 8 * i) = memw (run switch_save c) (s - 96 + 8 * i)) ->
  reaps h (s - 96) (fun x => s - 96 <= x < s) ->
  exists c3, context_switch h c2 = Ok (xr c 30, c3) /\ in_kernel s c3 /\ sr c3 TTBR0_EL1 = xr c2 2 /\
    forall q, 19 <= q <= 30 -> xr c3 q = xr c q.
Proof.
  intros Hk H0 H1 Hp Hk2 Hx Hw Hh. destruct (switch_save_ok s c Hk H0 H1 Hp) as (_ & Hsv & _ & M & _).
  destruct (switch_to s2 (s - 96) s (s - 96) (fun i => xr c (saved_reg i)) h c2 Hk2) as (c3 & E & K & Ht & Hr & _); try done; try lia.
  { intros i Hi. rewrite Hw by done. by apply M. }
  exists c3. split; [exact E|]. split; [by replace (s - 96 + 96) with s in K by lia|]. split; [done|]. intros q Hq.
  assert (exists i, 0 <= i < 12 /\ saved_reg i = q) as (i & Hi & <-); [|by apply Hr].
  assert (Hc : q = 29 \/ q = 30 \/ q = 27 \/ q = 28 \/ q = 25 \/ q = 26 \/ q = 23 \/ q = 24 \/ q = 21 \/ q = 22 \/ q = 19 \/ q = 20) by lia.
  destruct Hc as [->|[->|[->|[->|[->|[->|[->|[->|[->|[->|[->| ->]]]]]]]]]]];
    [exists 0|exists 1|exists 2|exists 3|exists 4|exists 5|exists 6|exists 7|exists 8|exists 9|exists 10|exists 11]; by split.
Qed.

(** ** The vectors, and the routines around single registers *)

(** Every vector without a handler reports itself: the type it passes is its own
    place in the table, and has a message. *)
Lemma vectors_report : length vectors = 16%nat /\ forall i t, vectors !! i = Some (Invalid t) ->
  t = Z.of_nat i /\ is_Some (entry_error_messages !! i).
Proof.
  split; [done|]. intros i t H. assert (Hi : (i < 16)%nat) by exact (lookup_lt_Some _ _ _ H).
  do 16 (destruct i as [|i]; [vm_compute in H; first [discriminate | injection H as <-; split; [done|by eexists]]|]). lia.
Qed.

(** The report names the vector taken, the return address and the syndrome. *)
Lemma invalid_entry_reports i t pid s c : vectors !! i = Some (Invalid t) -> in_kernel s c -> 272 <= s -> s < 2 ^ 64 ->
  exists m, entry_error_messages !! i = Some m /\
    invalid_entry pid t c = Ok (Report m pid (sr c TTBR0_EL1) (sr c ESR_EL1) (sr c ELR_EL1) (sr c FAR_EL1)
      ((Z.shiftr (sr c ESR_EL1) 26 =? 0x3C) && (Z.land (sr c ESR_EL1) 0xFFFF =? 0xBEEF))).
Proof.
  intros H Hk H0 H1. destruct (proj2 vectors_report i t H) as [-> [m Em]]. exists m. split; [done|].
  assert (Hi : (i < 16)%nat) by exact (lookup_lt_Some _ _ _ H).
  pose proof (en_sys _ _ _ (kernel_entry_ok s c Hk H0 H1)) as Hs. unfold invalid_entry, handle_invalid_entry. rewrite run_app.
  generalize dependent (run kernel_entry c). intros c1 Hs. unfold show_invalid_entry_message.
  change (rd 0 (run _ c1)) with (u64 (Z.of_nat i)).
  assert (E : u32 (u64 (Z.of_nat i)) = Z.of_nat i) by (rewrite (u64_small (Z.of_nat i)), u32_small; lia).
  rewrite E, Nat2Z.id, Em, (proj2 (Z.leb_le 0 (Z.of_nat i))) by lia. cbn -[Z.shiftr Z.land]. rewrite <- !Hs by done. done.
Qed.

Lemma irq_mask c : Z.testbit (daif (run irq_disable c)) 1 = true /\ Z.testbit (daif (run irq_enable c)) 1 = false.
Proof. cbn -[Z.testbit Z.lor Z.land Z.lnot]. rewrite Z.lor_spec, Z.land_spec. cbn. by rewrite orb_true_r, andb_false_r. Qed.

Lemma get_el_ok c : 0 <= el c -> rd 0 (run get_el c) = el c.
Proof. intros. cbn -[Z.shiftl Z.shiftr]. rewrite Z.shiftr_shiftl_l, Z.sub_diag by lia. apply Z.shiftl_0_r. Qed.

Lemma mmu_enabled_ok c : rd 0 (run mmu_enabled c) = Z.b2z (Z.testbit (sr c SCTLR_EL1) 0).
Proof.
  cbn -[Z.land Z.testbit]. change 1 with (Z.ones 1). rewrite Z.land_ones, Z.bit0_mod by lia. done.
Qed.

Lemma active_pcb_kept c : rd 0 (run (set_active_pcb ++ get_active_pcb) c) = rd 0 c.
Proof. done. Qed.

(** [delay] returns after as many steps as its argument says; but a wait of 0 is
    the longest. *)
Lemma delay_ok fuel : forall c, 0 < rd 0 c < 2 ^ 64 -> rd 0 c <= Z.of_nat fuel -> exists c', delay fuel c = Ok c' /\ rd 0 c' = 0.
Proof.
  induction fuel as [|fuel IH]; intros c Hc Hf; [lia|]. change (2 ^ 64) with 18446744073709551616 in *. cbn [delay].
  set (c1 := wr 0 _ c). assert (R : rd 0 c1 = rd 0 c - 1) by (rewrite <- (u64_small (rd 0 c - 1)) by lia; done).
  clearbody c1. destruct (Z.eqb_spec (rd 0 c1) 0); [by exists c1|]. apply IH; lia.
Qed.

Lemma delay_zero_is_longest fuel c : rd 0 c = 0 -> Z.of_nat fuel < 2 ^ 64 -> delay fuel c = Fuel.
Proof.
  assert (H : forall f c, Z.of_nat f < rd 0 c < 2 ^ 64 -> delay f c = Fuel).
  { induction f as [|f IH]; intros d Hd; [done|]. change (2 ^ 64) with 18446744073709551616 in *. cbn [delay].
    set (c1 := wr 0 _ d). assert (R : rd 0 c1 = rd 0 d - 1) by (rewrite <- (u64_small (rd 0 d - 1)) by lia; done).
    clearbody c1. rewrite (proj2 (Z.eqb_neq _ _)) by lia. apply IH. lia. }
  intros H0 Hf. destruct fuel as [|fuel]; [done|]. cbn [delay]. set (c1 := wr 0 _ c).
  assert (R : rd 0 c1 = 2 ^ 64 - 1) by (unfold c1; rewrite H0; done). clearbody c1.
  change (2 ^ 64) with 18446744073709551616 in *. rewrite (proj2 (Z.eqb_neq _ _)) by lia.
  apply H. change (2 ^ 64) with 18446744073709551616. lia.
Qed.
