(* ===== verification/ForkReturn.v ===== *)
(** * A [fork] returns twice

    The composition of [sys_fork] (ForkSpec) with the entry code (EntrySpec): the
    parent leaves the kernel with the child's number, and the child, when it is
    first switched in, leaves it at the same place with the same registers and
    the result 0. *)
From S2P Require Import Prelude KList Buddy BuddyOps Mmap MmapInv Proc Sched SchedInv Vma VmaSpec Timer Syscalls Fork ForkSpec Arm Entry EntrySpec.

Section ForkReturn.
Context {M : Type} `{!ProcMem M} {L0_TABLE : Z} `{!ForkMem M L0_TABLE} (ret_from_fork : Z).
Implicit Types k : kernel M.

(** The processor's view of a stack: its words are the kernel's. *)
Definition sees_stack (b : Z) k (c : cpu) : Prop := forall i, 0 <= i < 512 -> memw c (stack_va b i) = load64 (stack_va b i) k.

(** The trap frame on a stack. *)
Definition trap_frame (b : Z) k (i : Z) : Z := load64 (stack_va b (476 + i)) k.

Lemma stack_va_frame b i : stack_va b 476 + 8 * i = stack_va b (476 + i).
Proof. unfold stack_va. lia. Qed.

Lemma sees_frame b k c : sees_stack b k c -> frame_is (stack_va b 476) (trap_frame b k) c.
Proof. intros H i Hi. rewrite stack_va_frame. apply H. lia. Qed.

Lemma stack_va_bounds b : 0 <= b -> b + 1 < NPAGES -> 0 <= stack_va b 0 /\ stack_va b 512 < 2 ^ 64.
Proof.
  intros. unfold stack_va. rewrite !page_va_eq by lia. unfold VIRT_BASE, NPAGES in *. change (2 ^ 18) with 262144 in *.
  change (2 ^ 64) with 18446744073709551616. lia.
Qed.

(** The caller leaves with the result of the call. *)
Lemma parent_leaves ps rq s vs cs all c nb tb k k' r cp :
  child_made ret_from_fork ps rq s vs cs all c nb tb k k' -> 0 <= s -> s + 1 < NPAGES -> user_status (trap_frame s k 33) ->
  in_kernel (stack_va s 476) cp -> sees_stack s k' cp -> xr cp 0 = r ->
  let u := trap_frame s k in
  exists p', eret (run kernel_exit (run [Str_sp 0 0] cp)) = Ok (u 32, p') /\
    user_runs (stack_va s 476) (fun i => if i =? 0 then r else u i) p'.
Proof.
  intros Hcm Hs0 Hs1 Hus Hkp Hsp Hr u. destruct (stack_va_bounds s Hs0 Hs1) as [B1 B2].
  change (2 ^ 64) with 18446744073709551616 in *.
  cbn [run fold_left step]. rewrite (in_kernel_sp (stack_va s 476)) by done.
  rewrite u64_small by (unfold stack_va in *; lia). change (rd 0 cp) with (xr cp 0). rewrite Hr.
  apply (exit_user (stack_va s 476) (fun i => if i =? 0 then r else u i)); try done; try (unfold stack_va in *; lia).
  - by destruct Hkp.
  - intros i Hi. cbn [memw st]. destruct (Z.eqb_spec (stack_va s 476 + 8 * i) (stack_va s 476 + 0)), (Z.eqb_spec i 0); try lia.
    rewrite (sees_frame _ _ _ Hsp) by done. unfold trap_frame. apply (cm_stack _ _ _ _ _ _ _ _ _ _ _ _ Hcm). lia.
Qed.

(** The child, when it is switched in. *)
Lemma child_leaves ps rq s vs cs all c nb tb k k' cc t h :
  child_made ret_from_fork ps rq s vs cs all c nb tb k k' -> 0 <= nb -> nb + 1 < NPAGES -> user_status (trap_frame s k 33) ->
  switching t (stack_va nb 0) (stack_va nb 512) cc -> sees_stack nb k' cc -> xr cc 0 = kernel_stack (pcb_at k' c) ->
  reaps h (stack_va nb 464) (fun x => stack_va nb 0 <= x < stack_va nb 512) ->
  let u := trap_frame s k in
  exists c1 c2, context_switch h cc = Ok (ret_from_fork, c1) /\ sr c1 TTBR0_EL1 = xr cc 2 /\
    Entry.ret_from_fork c1 = Ok (u 32, c2) /\ user_runs (stack_va nb 476) (fun i => if i =? 0 then 0 else u i) c2.
Proof.
  intros Hcm Hn0 Hn1 Hus Hsw Hsc Hx0 Hh u. destruct (stack_va_bounds nb Hn0 Hn1) as [B3 B4].
  change (2 ^ 64) with 18446744073709551616 in *.
  assert (Hks : kernel_stack (pcb_at k' c) = stack_va nb 464) by (by rewrite (cm_pcb _ _ _ _ _ _ _ _ _ _ _ _ Hcm)).
  assert (Hva : forall b i j, stack_va b (i + j) = stack_va b i + 8 * j) by (intros; unfold stack_va; lia).
  destruct (switch_to t (stack_va nb 0) (stack_va nb 512) (stack_va nb 464) (fun i => if i =? 1 then ret_from_fork else 0) h cc Hsw)
    as (c1 & E1 & K1 & T1 & _ & M1); try done; try (unfold stack_va in *; lia); try congruence.
  { intros i Hi. rewrite <- Hva, Hsc by lia. rewrite <- (cm_context _ _ _ _ _ _ _ _ _ _ _ _ Hcm i Hi). by rewrite Hks, <- Hva. }
  cbn [Z.eqb Pos.eqb] in E1. replace (stack_va nb 464 + 96) with (stack_va nb 476) in K1 by (unfold stack_va; lia).
  destruct (exit_user (stack_va nb 476) (fun i => if i =? 0 then 0 else u i) c1 K1) as (c2 & E2 & H2); try done; try (unfold stack_va in *; lia).
  { intros i Hi. rewrite M1 by (unfold stack_va in *; lia). rewrite stack_va_frame, Hsc by lia.
    pose proof (cm_frame _ _ _ _ _ _ _ _ _ _ _ _ Hcm i Hi) as E. rewrite Hks in E. unfold u, trap_frame. rewrite <- E.
    f_equal. unfold stack_va. lia. }
  by exists c1, c2.
Qed.

(** C9: a [fork] returns twice.  [sys_fork] of a process that is in a system call
    on its stack [s] returns a number [r], the child's, and makes the child.  On
    any processor [cp] on which the call has come back with its result in [x0] the
    caller leaves the kernel with that number in [x0].  A switch to the child's saved
    stack, made on any other stack [t], comes to [ret_from_fork] on the child's
    stack and from there to the same address, with the same registers, user stack
    pointer and masks, but with 0 in [x0]. *)
Theorem fork_returns_twice L St T s vs n ps rq cs all fuel (sy : sys M) :
  let k := kern sy in let u := trap_frame s k in
  forker L St T s vs k -> fm_ok L St T (length vs + (4 + n)) (kmem k) -> (length vs < fuel)%nat ->
  sched_inv ps rq k -> ps ⊆ L -> 0 <= pidcounter k < 2 ^ 32 - 1 ->
  ring (links k) L_proclist_head (L_proclist <$> all) -> (forall p, p ∈ all -> p ∈ L) ->
  ring (links k) (L_children (current k)) (L_siblings <$> cs) -> (forall p, p ∈ cs -> p ∈ L) ->
  user_status (u 33) ->
  exists c nb k' r, do_fork fuel L0_TABLE ret_from_fork sy = Ok (r, Sys k' (files sy) (sleep sy)) /\
    c ∉ L /\ nb ∉ St /\ 0 <= nb /\ nb + 1 < NPAGES /\ r = u64 (s32 (pid (pcb_at k' c))) /\ pid (pcb_at k' c) = pidcounter k + 1 /\
    (forall cp, in_kernel (stack_va s 476) cp -> sees_stack s k' cp -> xr cp 0 = r ->
      exists p', eret (run kernel_exit (run [Str_sp 0 0] cp)) = Ok (u 32, p') /\
        user_runs (stack_va s 476) (fun i => if i =? 0 then r else u i) p') /\
    (forall cc t h, switching t (stack_va nb 0) (stack_va nb 512) cc -> sees_stack nb k' cc -> xr cc 0 = kernel_stack (pcb_at k' c) ->
      reaps h (stack_va nb 464) (fun x => stack_va nb 0 <= x < stack_va nb 512) ->
      exists c1 c2, context_switch h cc = Ok (ret_from_fork, c1) /\ sr c1 TTBR0_EL1 = xr cc 2 /\
        Entry.ret_from_fork c1 = Ok (u 32, c2) /\ user_runs (stack_va nb 476) (fun i => if i =? 0 then 0 else u i) c2).
Proof.
  intros k u Hfr Hok Hf Hi Hps Hpc Hall HaL Hcs HcL Hus.
  destruct (fork_child_ok ret_from_fork L St T s vs n ps rq cs all fuel sy Hfr Hok Hf Hi Hps Hpc Hall HaL Hcs HcL)
    as (c & nb & tb & k' & E & Hc & Hnb & _ & Hcm & L' & f & _ & _ & Hok').
  assert (Epid : pid (pcb_at k' c) = pidcounter k + 1).
  { rewrite (cm_pcb _ _ _ _ _ _ _ _ _ _ _ _ Hcm). cbn. change (2 ^ 32) with 4294967296 in Hpc. apply u32_small. unfold k in *. lia. }
  exists c, nb, k', (u64 (s32 (pidcounter k + 1))). do 3 (split; [done|]).
  destruct (fm_stack_range _ _ _ _ _ _ Hok (fr_stack _ _ _ _ _ _ Hfr)) as [Hs0 Hs1].
  destruct (fm_stack_range _ _ _ _ _ nb Hok' ltac:(by apply elem_of_union_l, elem_of_singleton)) as [Hn0 Hn1].
  do 2 (split; [done|]). split; [by rewrite Epid|]. split; [done|].
  split; [intros cp; eapply parent_leaves|intros cc t h; eapply child_leaves]; done.
Qed.
End ForkReturn.

(** The process of ForkSpec forks; the child is switched in from a stack of its
    own at 4096. *)
#[local] Existing Instance toy_mem.
#[local] Existing Instance toy_fork_mem.

Definition parent_cpu (k : kernel toy) : cpu :=
  Cpu (fun i => if i =? 0 then 2 else 0) (set_fun SP_EL1 (stack_va 100 476) (fun _ => 0)) (fun a => load64 a k) 1 1 0.
Definition switch_cpu (to : Z) (k : kernel toy) : cpu :=
  Cpu (fun i => if i =? 0 then to else if i =? 1 then 8 else 0x5000) (set_fun SP_EL1 0x1000 (fun _ => 0)) (fun a => load64 a k) 1 1 0.

Lemma fork_returns_twice_witness : exists c nb k',
  do_fork 5 0 0xFFFF800000081000 (Sys toy_kernel ∅ sleep_init) = Ok (2, Sys k' ∅ sleep_init) /\
  (exists p', eret (run kernel_exit (run [Str_sp 0 0] (parent_cpu k'))) = Ok (0, p') /\ xr p' 0 = 2) /\
  (exists c1 c2, context_switch (fun d => Ok d) (switch_cpu (kernel_stack (pcb_at k' c)) k') = Ok (0xFFFF800000081000, c1) /\
     Entry.ret_from_fork c1 = Ok (0, c2) /\ xr c2 0 = 0 /\ sr c2 SP_EL1 = stack_va nb 476 + 272).
Proof.
  destruct (fork_returns_twice 0xFFFF800000081000 {[5; 7; 20]} {[100]} {[1 := toy_va]} 100 [(20, toy_area)] 3 {[5; 7]} [] [] [7] 5
    (Sys toy_kernel ∅ sleep_init)) as (c & nb & k' & r & E & _ & _ & Hn0 & Hn1 & Er & Epid & Hp & Hc).
  - exact toy_forker.
  - exact toy_start.
  - cbn. lia.
  - exact toy_inv.
  - set_solver.
  - cbn. lia.
  - split; [vm_compute; repeat split|by apply (bool_decide_unpack _)].
  - intros p ->%list_elem_of_singleton. by apply (bool_decide_unpack _).
  - split; [vm_compute; repeat split|by apply (bool_decide_unpack _)].
  - intros p Hp. by apply not_elem_of_nil in Hp.
  - done.
  - assert (E32 : trap_frame 100 toy_kernel 32 = 0) by (vm_compute; reflexivity).
    change (kern (Sys toy_kernel ∅ sleep_init)) with toy_kernel in Epid, Hp, Hc, E. cbn [files sleep] in E.
    exists c, nb, k'. rewrite Epid in Er. change (u64 (s32 (pidcounter _ + 1))) with 2 in Er. subst r. split; [exact E|]. clear E. split.
    + destruct (Hp (parent_cpu k')) as (p' & E1 & R1); [by split|by intros i Hi|done|]. rewrite E32 in E1.
      exists p'. split; [exact E1|]. apply (ur_regs _ _ _ R1 0). lia.
    + destruct (stack_va_bounds nb Hn0 Hn1) as [B1 B2]. assert (Hlo : 0x2000 <= stack_va nb 0).
      { unfold stack_va. rewrite page_va_eq by lia. unfold VIRT_BASE. lia. }
      destruct (Hc (switch_cpu (kernel_stack (pcb_at k' c)) k') 0x1000 (fun d => Ok d)) as (c1 & c2 & E2 & _ & E3 & R2).
      { constructor.
        - by split.
        - lia.
        - cbn [xr switch_cpu Z.eqb Pos.eqb]. lia.
        - lia. }
      { by intros i Hi. }
      { done. }
      { intros d Hd. by exists d. }
      rewrite E32 in E3. exists c1, c2. split; [exact E2|]. split; [exact E3|]. split; [apply (ur_regs _ _ _ R2 0); lia|apply (ur_sp1 _ _ _ R2)].
Defined.
