(* ===== verification/ForkKernel.v ===== *)
(** * [fork] on the kernel's own memory

    The memory assembled in Cow - [kmalloc]'s heap over the buddy allocator, with the
    kernel's page tables as boot builds them and the address spaces of the
    processes - keeps the promises of [ForkMem], as long as enough free runs of four
    pages are left for the slabs, stacks and tables that [fork] takes.  A page that
    a 2 MiB block of the kernel's tables maps is entered in the first page of that
    block ([scar]); the invariant keeps those pages out of use. *)
From S2P Require Import Prelude KList Buddy BuddyInv BuddyOps BuddyInit BuddyRef Slab SlabInv SlabOps SlabSpec.
From S2P Require Import Mmap MmapInv MmapKernel Proc Cow PageUse CowTree CowClone CowLoop CowSpec Sched SchedInv Vma VmaSpec Timer Syscalls Fork ForkSpec.

(** ** Views of the page allocator *)

(** The blocks in use with their owners. *)
Definition view_of (V : gmap Z (Z * Z)) (B : blocks) (st : buddy) : Prop :=
  forall p o w, V !! p = Some (o, w) <-> B !! p = Some (o, true) /\ w = state (frame_at st p).

(** The frames determine which blocks are in use. *)
Lemma used_unique r1 B1 r2 B2 st p o :
  buddy_inv r1 B1 st -> buddy_inv r2 B2 st -> B1 !! p = Some (o, true) -> B2 !! p = Some (o, true).
Proof.
  intros H1 H2 Hp. pose proof (block_range _ _ _ _ _ _ H1 Hp) as (? & ? & ? & ? & ?). pose proof (pow2_pos o ltac:(lia)).
  destruct (fo_head _ _ _ (bi_frames _ _ _ H1) _ _ _ Hp) as (E1 & E2 & E3 & E4).
  assert (Hr : r2 <= p).
  { destruct (Z.le_gt_cases r2 p); [done|]. exfalso. apply E4. by rewrite (fo_resv _ _ _ (bi_frames _ _ _ H2)) by lia. }
  destruct (bw_cover _ _ (bi_wf _ _ _ H2) p) as (q & oq & u & Hq & Hin); [lia|]. destruct (decide (q = p)) as [->|Hne].
  - destruct (fo_head _ _ _ (bi_frames _ _ _ H2) _ _ _ Hq) as (G1 & _ & G3). destruct u; [congruence|done].
  - destruct (fo_tail _ _ _ (bi_frames _ _ _ H2) _ _ _ p Hq ltac:(lia)) as (_ & [G|G] & _); rewrite G in E2; discriminate.
Qed.

Lemma view_unique resv B st V : buddy_inv resv B st -> buddy_view_at resv st V -> view_of V B st.
Proof.
  intros Hi (B' & Hi' & HV) p o w. rewrite HV. split; intros [H ->]; (split; [|done]).
  - by eapply (used_unique resv B' resv B).
  - by eapply (used_unique resv B resv B').
Qed.

Lemma view_of_view resv B st V : buddy_inv resv B st -> view_of V B st -> buddy_view_at resv st V.
Proof. intros Hi HV. by exists B. Qed.

Lemma view_of_eq V V' B st : view_of V B st -> view_of V' B st -> V = V'.
Proof.
  intros H H'. apply map_eq. intros p. apply option_eq. intros [o w]. by rewrite (H p o w), (H' p o w).
Qed.

(** A page in a block in use. *)
Definition used (V : gmap Z (Z * Z)) (q : Z) : Prop := exists p o w, V !! p = Some (o, w) /\ p <= q < p + 2 ^ o.

Lemma used_in_use V B st q : view_of V B st -> used V q <-> in_use B q.
Proof.
  intros HV. split.
  - intros (p & o & w & Hp & Hq). apply HV in Hp as [Hp _]. by exists p, o.
  - intros (p & o & Hp & Hq). exists p, o, (state (frame_at st p)). split; [by apply HV|done].
Qed.

Lemma used_mono V V' q : V ⊆ V' -> used V q -> used V' q.
Proof. intros H (p & o & w & Hp & Hq). exists p, o, w. split; [by eapply lookup_weaken|done]. Qed.

(** The page allocator over memory whose words keep [P]. *)
Section pages_on.
Context {S : Type} `{!PageAllocator S} (P : words -> Prop).

Definition pages_on : PageAllocator (mm S).
Proof.
  refine {| pa_alloc := lift_alloc; pa_free := fun p => lift_pages (pa_free p);
    pa_owner := fun p s => pa_owner p (mpages s); pa_set_owner := fun p w => lift_pages (pa_set_owner p w);
    pa_head := fun p s => pa_head p (mpages s); pa_view := fun s V => pa_view (mpages s) V /\ P (mwords s) |}.
  - intros s V p o w [Hv _]. by apply (pa_range (mpages s)).
  - intros s V p o w q o' w' [Hv _]. by apply (pa_disjoint (mpages s)).
  - intros s V bytes [Hv HP] Hb. unfold lift_alloc.
    destruct (pa_alloc_spec (mpages s) V bytes Hv Hb) as [E|(p & q & E & Hn & Hv')]; rewrite E; cbn.
    + left. by destruct s.
    + right. by exists p, (MM q (mwords s)).
  - intros s V p o w off [Hv HP] Hp Ho. unfold lift_pages.
    destruct (pa_free_spec (mpages s) V p o w off Hv Hp Ho) as (q & E & Hv'). rewrite E. cbn. eauto.
  - intros s V p o w q off [Hv _]. by apply (pa_owner_spec (mpages s)).
  - intros s V p o w q off [Hv _]. by apply (pa_head_spec (mpages s)).
  - intros s V p o w q off w' [Hv HP] Hp Hq Ho Hw Hw'. unfold lift_pages.
    destruct (pa_set_owner_spec (mpages s) V p o w q off w' Hv Hp Hq Ho Hw Hw') as (r & E & Hv'). rewrite E. cbn. eauto.
Defined.
End pages_on.

(** ** Words off the first pages of blocks *)

Section cold.
Context (resv : Z).

(** [w'] has the words of [w] but in the first pages of 2 MiB blocks. *)
Definition cold_same (w w' : words) : Prop := forall q x, ~ hot resv q -> in_page q x -> w' x = w x.

Lemma cold_same_trans w1 w2 w3 : cold_same w1 w2 -> cold_same w2 w3 -> cold_same w1 w3.
Proof. intros H1 H2 q x Hq Hx. by rewrite (H2 q x), (H1 q x). Qed.

Lemma cold_scarred N w w' : (forall x, ~ scarred resv N x -> w' x = w x) -> cold_same w w'.
Proof. intros H q x Hq Hx. apply H. by eapply cold_word. Qed.

Lemma cold_walk r0 kern w w' : (forall q, kern q -> q < resv) -> cold_same w w' -> kernel_walk resv r0 kern w -> kernel_walk resv r0 kern w'.
Proof.
  intros Hkern Hw. apply kernel_walk_ext. intros q x Hq%Hkern Hx. apply (Hw q); [|done]. intros [Hh _]. lia.
Qed.
End cold.

(** ** Address spaces *)

Lemma erase_tables_length T : length (tables (erase T)) = length (tables T).
Proof.
  revert T. fix IH 1. intros [e|t kids]; [done|]. cbn [erase tables length]. f_equal.
  induction kids as [|[T|] kids IHk]; cbn; [done| |done]. by rewrite !length_app, IH, IHk.
Qed.

Lemma kid_tables_erase kids : length (kid_tables (List.map (option_map erase) kids)) = length (kid_tables kids).
Proof. exact (f_equal (fun n => pred n) (erase_tables_length (Table 0 kids))). Qed.

Lemma kid_tables_shared kids : kid_tables (List.map (option_map share) kids) = kid_tables kids.
Proof. by injection (share_tables (Table 0 kids)). Qed.

Lemma kid_mapped_shared kids : kid_mapped (List.map (option_map share) kids) = kid_mapped kids.
Proof. exact (share_mapped (Table 0 kids)). Qed.

(** A clone has as many tables and maps the same frames. *)
Lemma clone_size kids kids' :
  List.map (option_map erase) kids' = List.map (option_map erase) (List.map (option_map share) kids) ->
  length (kid_tables kids') = length (kid_tables kids) /\ kid_mapped kids' = kid_mapped kids.
Proof.
  intros E. rewrite <- (kid_tables_erase kids'), <- (kid_mapped_shared kids), E, kid_tables_erase, kid_tables_shared.
  split; [done|]. assert (H : forall ks, kid_mapped (List.map (option_map erase) ks) = kid_mapped ks).
  { intros ks. exact (erase_mapped (Table 0 ks)). }
  by rewrite <- (H kids'), E, H.
Qed.

Lemma space_frame w w' r kids : space w r kids -> same_on w w' (r :: kid_tables kids) -> space w' r kids.
Proof.
  intros [H1 H2 H3 H4] Hs. split; try done. eapply kids_frame; [exact H3| |].
  - intros q x Hq. apply Hs. by right.
  - intros j Hj. apply (same_on_entry _ _ (r :: kid_tables kids)); [done|by left|lia].
Qed.

(** ** The invariant *)

Section kernel.
Context (resv r0 top : Z) (kern : Z -> Prop) (fuel : nat) (frame_array : Z) (junk : Z -> list Z) (K : nat).
Context (Hkern : forall q, kern q -> q < resv) (Hjunk : junk_bytes junk).

Notation L0 := (page_va r0).
Notation mapped_words := (kernel_walk resv r0 kern).
Notation on_words_kept := (@pages_on buddy (buddy_pages resv) mapped_words).
Notation hot := (hot resv).
Notation hinv := (@heap_inv (mm buddy) on_words_kept).

(** The pages a table may lie in: reserved ones that are not the kernel's tables,
    or pages in use; not the first page of a 2 MiB block. *)
Definition table_page (V : gmap Z (Z * Z)) (q : Z) : Prop := 0 <= q < NPAGES /\ ~ kern q /\ ~ hot q /\ (q < resv \/ used V q).

(** The address space at the root [r], of at most [K] tables. *)
Record space_at (V : gmap Z (Z * Z)) (w : words) (r : Z) (kids : list (option ptree)) : Prop := {
  sa_space : space w r kids;
  sa_nodup : NoDup (r :: kid_tables kids);
  sa_pages : forall q, q ∈ r :: kid_tables kids -> table_page V q;
  sa_mapped : forall a, a ∈ kid_mapped kids -> used V a;
  sa_size : (length (r :: kid_tables kids) <= K)%nat;
}.

(** The kernel's memory: the blocks in use [V], the address spaces [sp] by their
    roots, and the free runs [room] of four pages below order [top], of which a
    request takes at most [K + 1].  Neither they nor the pages in use are the
    first page of a 2 MiB block. *)
Record kernel_at (V : gmap Z (Z * Z)) (B : blocks) (sp : gmap Z (list (option ptree))) (room : list Z)
    (L St : gset Z) (T : gmap Z (Z -> Z)) (n : nat) (k : kernel_mem) : Prop := {
  ka_inv : buddy_inv resv B (mpages (pages k));
  ka_view : view_of V B (mpages (pages k));
  ka_heap : hinv V k;
  ka_live : forall p, p ∈ L -> exists m, live_obj V k p m;
  ka_stacks : forall b, b ∈ St -> V !! b = Some (1, PAGE_BUDDY);
  ka_tables : forall t f, T !! t = Some f -> exists r kids, t = page_va r /\ sp !! r = Some kids /\
    forall va, 0 <= va -> tree_va kids va = f va;
  ka_spaces : forall r kids, sp !! r = Some kids -> space_at V (mwords (pages k)) r kids;
  ka_apart : forall r kids r' kids', sp !! r = Some kids -> sp !! r' = Some kids' -> r <> r' ->
    forall q, q ∈ r :: kid_tables kids -> q ∉ r' :: kid_tables kids';
  ka_stack_page : forall b r kids, b ∈ St -> sp !! r = Some kids -> b + 1 ∉ r :: kid_tables kids;
  ka_room : NoDup room /\ (n * S K <= length room)%nat /\ forall q, q ∈ room -> quad top B q;
  ka_small : forall q, small top B q -> ~ hot q;
  ka_cold : forall q, used V q -> ~ hot q;
}.

Definition kernel_ok (L St : gset Z) (T : gmap Z (Z -> Z)) (n : nat) (k : kernel_mem) : Prop :=
  exists V B sp room, kernel_at V B sp room L St T n k.

Lemma ka_words V B sp room L St T n k : kernel_at V B sp room L St T n k -> mapped_words (mwords (pages k)).
Proof. intros H. apply (hi_view _ _ (ka_heap _ _ _ _ _ _ _ _ _ H)). Qed.

Lemma stack_range V B sp room L St T n k b : kernel_at V B sp room L St T n k -> b ∈ St -> 0 <= b /\ b + 1 < NPAGES.
Proof.
  intros H Hb. pose proof (ka_stacks _ _ _ _ _ _ _ _ _ H b Hb) as Hv. apply (ka_view _ _ _ _ _ _ _ _ _ H) in Hv as [Hv _].
  pose proof (block_range _ _ _ _ _ _ (ka_inv _ _ _ _ _ _ _ _ _ H) Hv). change (2 ^ 1) with 2 in *. lia.
Qed.

Lemma stack_cold V B sp room L St T n k b : kernel_at V B sp room L St T n k -> b ∈ St -> ~ hot (b + 1).
Proof.
  intros H Hb. apply (ka_cold _ _ _ _ _ _ _ _ _ H). exists b, 1, PAGE_BUDDY. split; [by apply (ka_stacks _ _ _ _ _ _ _ _ _ H)|].
  change (2 ^ 1) with 2. lia.
Qed.

Lemma space_at_mono V V' w r kids : V ⊆ V' -> space_at V w r kids -> space_at V' w r kids.
Proof.
  intros HV [H1 H2 H3 H4 H5]. split; try done.
  - intros q Hq. destruct (H3 q Hq) as (? & ? & ? & Hu). do 3 (split; [done|]).
    destruct Hu as [|Hu]; [by left|right]. by eapply used_mono.
  - intros a Ha. by eapply used_mono; [|apply H4].
Qed.

Lemma space_at_cold V w w' r kids : cold_same resv w w' -> space_at V w r kids -> space_at V w' r kids.
Proof.
  intros Hw [H1 H2 H3 H4 H5]. split; try done. eapply space_frame; [exact H1|]. intros q x Hq Hx. apply (Hw q); [|done].
  by destruct (H3 q Hq) as (_ & _ & ? & _).
Qed.

(** A step that takes one block of small ones: [p] starts the block. *)
Lemma kernel_at_step V B sp room L St T n k V' B' k' p :
  kernel_at V B sp room L St T (S n) k -> buddy_inv resv B' (mpages (pages k')) -> view_of V' B' (mpages (pages k')) ->
  hinv V' k' -> V ⊆ V' -> cold_same resv (mwords (pages k)) (mwords (pages k')) ->
  (forall a m, live_obj V k a m -> live_obj V' k' a m) -> quads_kept B B' p ->
  (forall q, small top B' q -> small top B q) -> (forall q, used V' q -> used V q \/ small top B q) ->
  kernel_at V' B' sp (filter (fun q => q ∉ [p]) room) L St T n k'.
Proof.
  intros [H1 H2 H3 H4 H5 H6 H7 H8 H9 (R1 & R2 & R3) H11 H12] Hi Hv Hh HV Hw Hl Hq Hsm Hus. split; try done.
  - intros q Hp. destruct (H4 q Hp) as [m Hm]. exists m. by apply Hl.
  - intros b Hb. eapply lookup_weaken; [by apply H5|done].
  - intros r kids Hr. eapply space_at_mono; [done|]. eapply space_at_cold; [done|by apply H7].
  - split; [by apply NoDup_filter|]. pose proof (nodup_outside [p] room R1). cbn [length] in *. split; [lia|].
    intros q [Hn Hin]%list_elem_of_filter. apply Hq; [by apply R3|]. intros ->. apply Hn. by left.
  - intros q Hs. by apply H11, Hsm.
  - intros q [Hu|Hs]%Hus; [by apply H12|by apply H11].
Qed.

(** A request is served by small blocks while there is a run left. *)
Lemma room_alloc V B sp room L St T n k bytes : kernel_at V B sp room L St T (S n) k -> 0 <= bytes <= 2 ^ 43 -> order_for bytes <= 2 ->
  exists p st' B', buddy_alloc bytes (mpages (pages k)) = Ok (page_va p, st') /\ alloc_post resv B (mpages (pages k)) (order_for bytes) p B' st' /\
    0 <= p < NPAGES /\ (forall q, small top B' q -> small top B q) /\ forall q, p <= q < p + 2 ^ order_for bytes -> small top B q.
Proof.
  intros [H1 _ _ _ _ _ _ _ _ (R1 & R2 & R3) _ _] Hb Ho.
  destruct room as [|q room]; [cbn [length] in R2; lia|]. destruct (R3 q) as (a & o & Ha & Hoa & _); [by left|].
  destruct (buddy_alloc_ok resv bytes B (mpages (pages k)) H1 Hb) as [[_ Hno]|(p & st' & B' & E & HP)]; [apply Hno in Ha; lia|].
  exists p, st', B'. split; [done|]. split; [done|]. pose proof (block_range _ _ _ _ _ _ (ap_inv _ _ _ _ _ _ _ HP) (ap_new _ _ _ _ _ _ _ HP)).
  pose proof (pow2_pos (order_for bytes) ltac:(lia)). split; [lia|].
  destruct (alloc_stock resv top B _ _ p B' st' a o HP Ha ltac:(lia) ltac:(lia)) as [Hs Hn]. split; [by intros x [? _]%Hs|done].
Qed.

(** The view behind an allocation, whoever owns the new block. *)
Lemma alloc_view V B st r p B' st' st2 V' : view_of V B st -> buddy_inv resv B st -> alloc_post resv B st r p B' st' ->
  (forall q, q <> p -> frame_at st2 q = frame_at st' q) -> view_of V' B' st2 -> V ⊆ V' /\ V' !! p = Some (r, state (frame_at st2 p)) /\
  (forall q x, q <> p -> V' !! q = Some x -> V !! q = Some x) /\ (forall q, used V' q -> used V q \/ p <= q < p + 2 ^ r).
Proof.
  intros HV Hi HP H2 HV'. pose proof (ap_inv _ _ _ _ _ _ _ HP) as Hi'.
  assert (Hq : forall q o, q <> p -> B !! q = Some (o, true) -> state (frame_at st2 q) = state (frame_at st q)).
  { intros q o Hne Hq. rewrite H2 by done. pose proof (block_range _ _ _ _ _ _ Hi Hq). pose proof (pow2_pos o ltac:(lia)).
    by rewrite (ap_kept _ _ _ _ _ _ _ HP q o q Hq) by lia. }
  assert (Hold : forall q x, q <> p -> V' !! q = Some x -> V !! q = Some x).
  { intros q [o w] Hne Hx. apply HV' in Hx as [Hx ->]. apply (ap_used _ _ _ _ _ _ _ HP) in Hx; [|done].
    apply HV. split; [done|]. by eapply Hq. }
  assert (Hnew : V' !! p = Some (r, state (frame_at st2 p))) by (apply HV'; split; [apply HP|done]).
  split; [|split; [done|split; [done|]]].
  - apply map_subseteq_spec. intros q [o w] Hx. apply HV in Hx as [Hx ->].
    assert (Hne : q <> p) by (intros ->; by apply (ap_fresh _ _ _ _ _ _ _ HP) in Hx).
    apply HV'. split; [by apply (ap_used _ _ _ _ _ _ _ HP)|]. symmetry. by eapply Hq.
  - intros q (a & o & w & Ha & Hin). destruct (decide (a = p)) as [->|Hne].
    + rewrite Hnew in Ha. injection Ha as <- <-. by right.
    + left. exists a, o, w. split; [by apply Hold|done].
Qed.

(** ** The operations *)

Notation KM := (kernel_proc_mem (S fuel) L0 frame_array junk).

Lemma kmap_slab : @slab_map_ok (mm buddy) on_words_kept (kmap (S fuel) L0) L0.
Proof.
  intros p w fl s V [Hv Hk] Hp Hw. pose proof Hv as (B & Hi & HV). apply HV in Hp as [Hp _].
  pose proof (block_range _ _ _ _ _ _ Hi Hp). unfold kmap.
  destruct (map_walked resv r0 kern (buddy_alloc_pt (S fuel) L0) p w (va_to_pa (page_va p)) fl s Hkern Hk) as (w' & E & Hw'); [lia|lia|lia|lia|].
  exists true, (MM (mpages s) w'), V. split; [done|]. split; [|done]. split; [done|].
  eapply cold_walk; [done| |exact Hk]. by eapply cold_scarred.
Qed.

Lemma kmalloc_insts size (k : kernel_mem) :
  @Slab.kmalloc (mm buddy) on_words_kept (kmap (S fuel) L0) L0 junk size k = @pm_kmalloc _ KM size k.
Proof. reflexivity. Qed.

(** The pages behind a small request. *)
Lemma slab_block_effect V B sp room L St T n k k' o : kernel_at V B sp room L St T (S n) k -> 5 <= o <= 11 ->
  @slab_block (mm buddy) on_words_kept (kmap (S fuel) L0) L0 o (pages k) (pages k') ->
  exists p st1 B1, alloc_post resv B (mpages (pages k)) (slab_pages o) p B1 st1 /\ buddy_inv resv B1 (mpages (pages k')) /\
    (forall q, q <> p -> frame_at (mpages (pages k')) q = frame_at st1 q) /\ cold_same resv (mwords (pages k)) (mwords (pages k')) /\
    (forall q, small top B1 q -> small top B q) /\ forall q, p <= q < p + 2 ^ slab_pages o -> small top B q.
Proof.
  intros Hk Ho (p0 & s1 & s2 & b & E1 & _ & E2 & E3). pose proof (size_facts o Ho) as (_ & _ & _ & _ & _ & Hpg & Hord & _).
  destruct (room_alloc _ _ _ _ _ _ _ _ _ (4096 * (slab_pages o + 1)) Hk) as (p & st1 & B1 & E & HP & Hp & Hsm & Hcold); [|lia|].
  { change (2 ^ 43) with 8796093022208. lia. }
  rewrite Hord in HP, Hcold. cbn [pa_alloc on_words_kept] in E1. unfold lift_alloc in E1. cbn [pa_alloc buddy_pages] in E1.
  rewrite E in E1. cbn [mbind res_bind] in E1. injection E1 as <- <-.
  pose proof (ap_inv _ _ _ _ _ _ _ HP) as Hi1. pose proof (ap_new _ _ _ _ _ _ _ HP) as Hn1. pose proof (pow2_pos (slab_pages o) ltac:(lia)).
  destruct (set_page_owner_ok resv B1 st1 p (slab_pages o) p 0 PAGE_SLAB Hi1 Hn1) as (st2 & E2' & Hi2 & HF); [lia|lia|done|done|].
  rewrite Z.add_0_r in E2'. cbn [pa_set_owner on_words_kept] in E2. unfold lift_pages in E2. cbn [pa_set_owner buddy_pages mpages] in E2.
  rewrite E2' in E2. cbn [mbind res_bind mwords] in E2. injection E2 as <-.
  pose proof (block_range _ _ _ _ _ _ Hi1 Hn1). unfold kmap in E3.
  match type of E3 with map ?f _ ?pa _ ?fl _ ?s = _ =>
    destruct (map_walked resv r0 kern f p (slab_pages o) pa fl s Hkern (ka_words _ _ _ _ _ _ _ _ _ Hk)) as (w & E3' & Hw); [lia|lia|lia|lia|] end.
  rewrite E3' in E3. injection E3 as _ <-. cbn [mpages mwords] in *.
  exists p, st1, B1. split; [done|]. split; [done|]. split; [intros q Hq; by rewrite HF, decide_False|].
  split; [by eapply cold_scarred|done].
Qed.

Lemma kernel_kmalloc L St T n k size : kernel_ok L St T (S n) k -> 32 < size <= 2048 ->
  exists p k', @pm_kmalloc _ KM size k = Ok (p, k') /\ p <> 0 /\ p ∉ L /\ kernel_ok ({[p]} ∪ L) St T n k' /\
    cold_same resv (mwords (pages k)) (mwords (pages k')).
Proof.
  intros (V & B & sp & room & Hk) Hsz.
  destruct (size_class_ok size) as (_ & Ho & Hle & [Hcls _]); [change (2 ^ 30) with 1073741824; lia|]. specialize (Hcls ltac:(lia)).
  assert (H6 : 5 < size_class size).
  { destruct (decide (size_class size <= 5)); [|lia]. pose proof (pow2_le (size_class size) 5 ltac:(lia)). change (2 ^ 5) with 32 in *. lia. }
  pose proof (size_facts (size_class size) ltac:(lia)) as (_ & _ & _ & _ & _ & Hpg & Hord & _).
  pose proof (@kmalloc_small (mm buddy) on_words_kept (kmap (S fuel) L0) L0 V k size junk kmap_slab (ka_heap _ _ _ _ _ _ _ _ _ Hk)
    ltac:(lia) Hjunk ltac:(intros; lia)) as [(_ & E & _)|(addr & k' & V' & E & Hh' & Hnl & Hl & _ & Hnz & _)].
  { destruct (room_alloc _ _ _ _ _ _ _ _ _ (4096 * (slab_pages (size_class size) + 1)) Hk) as (p & st1 & B1 & E' & _ & Hp & _); [|lia|].
    { change (2 ^ 43) with 8796093022208. lia. }
    cbn [pa_alloc on_words_kept] in E. unfold lift_alloc in E. cbn [pa_alloc buddy_pages] in E. rewrite E' in E.
    cbn [mbind res_bind] in E. injection E as E _. by destruct (page_va_nonzero p Hp). }
  exists addr, k'. rewrite <- kmalloc_insts. split; [done|]. split; [done|].
  assert (Hfresh : forall m, live_obj V k addr m -> False).
  { intros m Hm. apply Hnl. assert (Hm' : live_obj V' k' addr m) by (apply Hl; by left).
    assert (Hn' : live_obj V' k' addr (2 ^ size_class size)) by (apply Hl; by right).
    pose proof (pow2_pos (size_class size) ltac:(lia)).
    assert (1 <= m). { destruct Hm as (q & w & s & i & Hq & Hs & _ & _ & _ & ->).
      destruct (hi_slabs _ _ (ka_heap _ _ _ _ _ _ _ _ _ Hk) q w Hq) as (s' & Hs' & Hok). rewrite Hs in Hs'. injection Hs' as <-.
      pose proof (slab_sizes _ _ Hok). lia. }
    destruct (live_disjoint _ _ _ _ _ _ Hh' Hm' Hn') as [[_ ->]|[?|?]]; [done|lia|lia]. }
  split. { intros Hin. destruct (ka_live _ _ _ _ _ _ _ _ _ Hk addr Hin) as [m Hm]. by eapply Hfresh. }
  assert (Hlive : forall V2 B2 sp2 room2, kernel_at V2 B2 sp2 room2 L St T n k' -> V2 = V' -> kernel_ok ({[addr]} ∪ L) St T n k').
  { intros V2 B2 sp2 room2 [G1 G2 G3 G4 G5 G6 G7 G8 G9 G10 G11 G12] ->. exists V', B2, sp2, room2. split; try done.
    intros p [->%elem_of_singleton|Hp]%elem_of_union; [|by apply G4]. exists (2 ^ size_class size). apply Hl. by right. }
  pose proof (hi_view _ _ Hh') as [Hv' _].
  destruct (@kmalloc_pages (mm buddy) on_words_kept (kmap (S fuel) L0) L0 size junk k addr k' ltac:(lia) E) as [Ep|Ep].
  - split; [|by rewrite Ep]. assert (V' = V) as ->.
    { apply (view_of_eq V' V B (mpages (pages k))); [|apply Hk]. rewrite <- Ep. apply (view_unique resv); [rewrite Ep; apply Hk|done]. }
    apply (Hlive V B sp (filter (fun q => q ∉ [-1]) room)); [|done].
    apply (kernel_at_step V B sp room L St T n k V B k' (-1)); rewrite ?Ep; try done; try apply Hk.
    + intros a m Ha. apply Hl. by left.
    + apply quads_kept_refl.
    + intros q Hq. by left.
  - destruct (slab_block_effect _ _ _ _ _ _ _ _ _ k' (size_class size) Hk ltac:(lia) Ep) as (p & st1 & B1 & HP & Hi' & HF & Hw & Hsm & Hcold). split; [|done].
    pose proof (view_unique resv B1 _ V' Hi' Hv') as HV'.
    destruct (alloc_view V B _ _ p B1 st1 _ V' (ka_view _ _ _ _ _ _ _ _ _ Hk) (ka_inv _ _ _ _ _ _ _ _ _ Hk) HP HF HV') as (Hsub & _ & _ & Hus).
    apply (Hlive V' B1 sp (filter (fun q => q ∉ [p]) room)); [|done].
    apply (kernel_at_step V B sp room L St T n k V' B1 k' p); try done; [|apply HP; lia|].
    + intros a m Ha. apply Hl. by left.
    + intros q [Hq|Hq]%Hus; [by left|right; by apply Hcold].
Qed.

(** A block of two pages for a stack. *)
Lemma kernel_stack_alloc L St T n k : kernel_ok L St T (S n) k ->
  exists b k', @pm_buddy_alloc _ KM (KSTACK_SIZE + PAGE_SIZE) k = Ok (page_va b, k') /\ b ∉ St /\
    kernel_ok L ({[b]} ∪ St) T n k' /\ mwords (pages k') = mwords (pages k).
Proof.
  intros (V & B & sp & room & Hk).
  destruct (room_alloc _ _ _ _ _ _ _ _ _ (KSTACK_SIZE + PAGE_SIZE) Hk) as (b & st1 & B1 & E & HP & Hb & Hsm & Hcold);
    [unfold KSTACK_SIZE, PAGE_SIZE; change (2 ^ 43) with 8796093022208; lia|done|].
  change (order_for (KSTACK_SIZE + PAGE_SIZE)) with 1 in HP, Hcold. exists b, (KHeap (MM st1 (mwords (pages k))) (slabs k) (snodes k)).
  split. { cbn [pm_buddy_alloc kernel_proc_mem]. unfold on_mm. cbn [pa_alloc mm_page_allocator]. unfold lift_alloc.
    cbn [pa_alloc buddy_page_allocator]. by rewrite E. }
  pose proof (buddy_view_alloc resv (mpages (pages k)) V (KSTACK_SIZE + PAGE_SIZE)) as HA.
  destruct HA as [E'|(b' & st' & E' & HVb & Hv')]; [apply (hi_view _ _ (ka_heap _ _ _ _ _ _ _ _ _ Hk))|
    unfold KSTACK_SIZE, PAGE_SIZE; change (2 ^ 43) with 8796093022208; lia| |].
  { rewrite E in E'. injection E' as E' _. by destruct (page_va_nonzero b Hb). }
  rewrite E in E'. injection E' as Eb <-. change (order_for (KSTACK_SIZE + PAGE_SIZE)) with 1 in Hv'.
  set (V' := <[b' := (1, PAGE_BUDDY)]> V) in *. pose proof (view_unique resv B1 st1 V' (ap_inv _ _ _ _ _ _ _ HP) Hv') as HV'.
  destruct (alloc_view V B _ _ b B1 st1 st1 V' (ka_view _ _ _ _ _ _ _ _ _ Hk) (ka_inv _ _ _ _ _ _ _ _ _ Hk) HP) as (Hsub & HbV & Hold & Hus); [done|done|].
  rewrite (ap_owner _ _ _ _ _ _ _ HP) in HbV by (change (2 ^ 1) with 2; lia).
  destruct (@heap_inv_grow (mm buddy) on_words_kept V k V' (MM st1 (mwords (pages k))) (ka_heap _ _ _ _ _ _ _ _ _ Hk)) as [G1 G2].
  { split; [done|by eapply ka_words]. } { intros q x Hq. by eapply lookup_weaken. }
  { intros q w Hq. destruct (decide (q = b)) as [->|Hne]; [rewrite HbV in Hq; discriminate|by apply Hold]. }
  assert (Hnew : V !! b = None).
  { destruct (V !! b) as [[o w]|] eqn:Ev; [|done]. apply (ka_view _ _ _ _ _ _ _ _ _ Hk) in Ev as [Ev _].
    by apply (ap_fresh _ _ _ _ _ _ _ HP) in Ev. }
  split. { intros Hin. rewrite (ka_stacks _ _ _ _ _ _ _ _ _ Hk b Hin) in Hnew. done. }
  split; [|done]. set (k' := KHeap _ _ _) in *.
  pose proof (kernel_at_step V B sp room L St T n k V' B1 k' b Hk (ap_inv _ _ _ _ _ _ _ HP) HV' G1 Hsub (fun _ _ _ _ => eq_refl)
    (fun a m H => proj2 (G2 a m) H) (ap_quads _ _ _ _ _ _ _ HP ltac:(lia)) Hsm) as [F1 F2 F3 F4 F5 F6 F7 F8 F9 F10 F11 F12].
  { intros q [Hq|Hq]%Hus; [by left|right; by apply Hcold]. }
  exists V', B1, sp, (filter (fun q => q ∉ [b]) room). split; try done.
  - intros c [->%elem_of_singleton|Hc]%elem_of_union; [done|by apply F5].
  - intros c r kids [->%elem_of_singleton|Hc]%elem_of_union Hr; [|by apply F9].
    intros Hq. destruct (sa_pages _ _ _ _ (ka_spaces _ _ _ _ _ _ _ _ _ Hk r kids Hr) _ Hq) as (_ & _ & _ & Hu).
    pose proof (block_range _ _ _ _ _ _ (ap_inv _ _ _ _ _ _ _ HP) (ap_new _ _ _ _ _ _ _ HP)) as (? & ? & _).
    destruct Hu as [?|(p & o & w & Hp & Hpq)]; [lia|]. assert (p <> b) by (intros ->; congruence).
    pose proof (lookup_weaken _ _ _ _ Hp Hsub) as Hp'. apply HV' in Hp' as [Hp' _].
    pose proof (block_disjoint _ _ _ _ _ _ _ _ (b + 1) (bi_wf _ _ _ (ap_inv _ _ _ _ _ _ _ HP)) Hp' (ap_new _ _ _ _ _ _ _ HP) Hpq
      ltac:(change (2 ^ 1) with 2; lia)). done.
Qed.

(** The new stack's page is entered in the kernel's tables. *)
Lemma kernel_map_stack L St T n k b : kernel_ok L St T (S n) k -> b ∈ St ->
  exists k', @pm_map _ KM (page_va (b + 1)) (va_to_pa (page_va (b + 1))) 0 (Z.lor (Z.lor Mmap.MAP_KERNEL Mmap.MAP_READ) Mmap.MAP_WRITE) L0 k = Ok k' /\
    kernel_ok L St T n k' /\ cold_same resv (mwords (pages k)) (mwords (pages k')).
Proof.
  intros (V & B & sp & room & Hk) Hb. destruct (stack_range _ _ _ _ _ _ _ _ _ b Hk Hb) as [H0 H1].
  pose proof Hk as [F1 F2 F3 F4 F5 F6 F7 F8 F9 F10 F11 F12].
  pose proof (F5 b Hb) as Hv. apply F2 in Hv as [Hv _]. pose proof (block_range _ _ _ _ _ _ F1 Hv).
  cbn [pm_map kernel_proc_mem]. unfold do_mm, kmap.
  match goal with |- context [map ?f _ ?pa _ ?fl _ _] =>
    destruct (map_walked resv r0 kern f (b + 1) 0 pa fl (pages k) Hkern (ka_words _ _ _ _ _ _ _ _ _ Hk)) as (w & E & Hw);
      [lia|lia|change (2 ^ 0) with 1; lia|lia|] end.
  rewrite E. cbn [mbind res_bind]. apply cold_scarred in Hw. eexists. split; [done|]. split; [|done].
  destruct (@heap_inv_grow (mm buddy) on_words_kept V k V (MM (mpages (pages k)) w) F3) as [G1 G2]; try done.
  { split; [apply (hi_view _ _ F3)|]. eapply cold_walk; [done|exact Hw|by eapply ka_words]. }
  exists V, B, sp, (filter (fun q => q ∉ [-1]) room). eapply kernel_at_step; [exact Hk|done|done|exact G1|done|exact Hw| | |done|].
  - intros a m Ha. by apply G2.
  - apply quads_kept_refl.
  - intros q Hq. by left.
Qed.

Lemma kernel_head L St T n k b : kernel_ok L St T n k -> b ∈ St -> @pm_head_from_page _ KM (page_va (b + 1)) k = Ok (page_va b).
Proof.
  intros (V & B & sp & room & Hk) Hb. pose proof (ka_stacks _ _ _ _ _ _ _ _ _ Hk b Hb) as Hv.
  apply (ka_view _ _ _ _ _ _ _ _ _ Hk) in Hv as [Hv _].
  pose proof (head_from_page_ok resv B (mpages (pages k)) b 1 (b + 1) 0 (ka_inv _ _ _ _ _ _ _ _ _ Hk) Hv) as E.
  rewrite Z.add_0_r in E. apply E; [change (2 ^ 1) with 2; lia|lia].
Qed.

(** A word of a stack is stored. *)
Lemma kernel_store L St T n k b i v : kernel_ok L St T n k -> b ∈ St -> 0 <= i < 512 ->
  kernel_ok L St T n (@pm_on_words _ KM (store64 (stack_pa b i) v) k).
Proof.
  intros (V & B & sp & room & Hk) Hb Hi. exists V, B, sp, room. pose proof Hk as [F1 F2 F3 F4 F5 F6 F7 F8 F9 F10 F11 F12].
  assert (Hx : in_page (b + 1) (stack_pa b i)) by (unfold in_page, stack_pa; lia).
  assert (Hw : forall q x, q <> b + 1 -> in_page q x -> store64 (stack_pa b i) v (mwords (pages k)) x = mwords (pages k) x).
  { intros q x Hq Hqx. unfold store64. rewrite (proj2 (Z.eqb_neq _ _)); [done|]. intros ->. by apply Hq, (in_page_eq q (b + 1) (stack_pa b i)). }
  set (w' := store64 (stack_pa b i) v (mwords (pages k))) in *.
  change (pm_on_words _ k) with (KHeap (MM (mpages (pages k)) w') (slabs k) (snodes k)).
  pose proof (ka_stacks _ _ _ _ _ _ _ _ _ Hk b Hb) as Hv. apply F2 in Hv as [Hv _]. pose proof (block_range _ _ _ _ _ _ F1 Hv).
  assert (Hm : mapped_words w').
  { apply (kernel_walk_ext resv r0 kern (mwords (pages k))); [|by eapply ka_words]. intros q x Hq Hqx. apply (Hw q); [|done].
    intros ->. apply Hkern in Hq. lia. }
  destruct (@heap_inv_grow (mm buddy) on_words_kept V k V (MM (mpages (pages k)) w') F3) as [G1 G2]; try done.
  { split; [apply (hi_view _ _ F3)|done]. }
  split; try done.
  intros r kids Hr. destruct (F7 r kids Hr) as [H1 H2 H3 H4 H5]. split; try done.
  eapply space_frame; [exact H1|]. intros q x Hq Hqx. apply (Hw q); [|done]. intros ->. by apply (F9 b r kids Hb Hr).
Qed.

(** ** Cloning *)

(** The view with single pages added. *)
Definition add_pages (N : list Z) (V : gmap Z (Z * Z)) : gmap Z (Z * Z) := foldr (fun q V => <[q := (0, PAGE_BUDDY)]> V) V N.

Lemma add_pages_lookup N V p : add_pages N V !! p = if decide (p ∈ N) then Some (0, PAGE_BUDDY) else V !! p.
Proof.
  induction N as [|q N IH]; cbn [add_pages foldr]; [by rewrite decide_False by apply not_elem_of_nil|].
  change (foldr _ V N) with (add_pages N V). rewrite lookup_insert, IH. destruct (decide (q = p)) as [->|Hne].
  - by rewrite decide_True by by left.
  - destruct (decide (p ∈ N)); [by rewrite decide_True by by right|]. rewrite decide_False; [done|].
    by intros [->|]%elem_of_cons.
Qed.

Lemma grown_view V B st B' st' N A : buddy_inv resv B st -> view_of V B st -> grown B st B' st' N A ->
  view_of (add_pages N V) B' st' /\ V ⊆ add_pages N V.
Proof.
  intros Hi HV HG. assert (Hfree : forall p, p ∈ N -> V !! p = None).
  { intros p Hp. destruct (V !! p) as [[o w]|] eqn:E; [|done]. apply HV in E as [E _]. pose proof (block_range _ _ _ _ _ _ Hi E).
    pose proof (pow2_pos o ltac:(lia)). destruct (free_not_used resv B st p Hi (gr_free HG p Hp)). exists p, o. split; [done|lia]. }
  split.
  - intros p o w. rewrite add_pages_lookup, (gr_used HG p o). case_decide as Hp.
    + split; [intros [= <- <-]; split; [by right|by rewrite (gr_fresh HG p Hp)]|].
      intros [[Hb|[_ ->]] ->]; [|by rewrite (gr_fresh HG p Hp)].
      assert (Hv : V !! p = Some (o, state (frame_at st p))) by (by apply HV). rewrite (Hfree p Hp) in Hv. done.
    + rewrite (HV p o w). split.
      * intros [Hb ->]. split; [by left|]. symmetry. apply (gr_owner HG). pose proof (block_range _ _ _ _ _ _ Hi Hb).
        pose proof (pow2_pos o ltac:(lia)). exists p, o. split; [done|lia].
      * intros [[Hb|[? _]] ->]; [|done]. split; [done|]. apply (gr_owner HG). pose proof (block_range _ _ _ _ _ _ Hi Hb).
        pose proof (pow2_pos o ltac:(lia)). exists p, o. split; [done|lia].
  - apply map_subseteq_spec. intros p x Hp. rewrite add_pages_lookup, decide_False; [done|]. intros Hin. rewrite Hfree in Hp; done.
Qed.

Lemma not_free_table V B sp room L St T n k q : kernel_at V B sp room L St T n k -> table_page V q -> ~ free_page B q.
Proof.
  intros Hk (_ & _ & _ & [Hq|Hq]) Hf.
  - pose proof (free_range resv _ _ _ (ka_inv _ _ _ _ _ _ _ _ _ Hk) Hf). lia.
  - apply (used_in_use V B _ q (ka_view _ _ _ _ _ _ _ _ _ Hk)) in Hq. by eapply free_not_used; [apply Hk| |].
Qed.

Lemma kernel_at_ready V B sp room L St T n k : kernel_at V B sp room L St T (S n) k -> ready resv r0 top kern B (pages k) (S K).
Proof.
  intros Hk. pose proof Hk as [F1 _ _ _ _ _ _ _ _ (R1 & R2 & R3) F11 _]. split; [done|by eapply ka_words|done|].
  split; [|done]. exists room. split; [done|]. split; [lia|].
  intros q Hq. destruct (R3 q Hq) as (p & o & Hp & Ho & Hin & _). exists p, o. split; [done|]. lia.
Qed.

(** What a clone is made of: its pages [N] were free, and nothing else that the
    invariant speaks of changed. *)
Lemma clone_other V B sp room L St T n k r kids c kids' s' B' :
  kernel_at V B sp room L St T (S n) k -> sp !! r = Some kids -> cloned_space resv r0 top kern B (pages k) r kids 0 c kids' B' s' ->
  (forall q, q ∈ c :: kid_tables kids' -> free_page B q) /\
  (forall r1 kids1 q, sp !! r1 = Some kids1 -> q ∈ r1 :: kid_tables kids1 -> q ∉ c :: kid_tables kids') /\
  (forall b, b ∈ St -> b + 1 ∉ c :: kid_tables kids') /\
  (forall r1 kids1, sp !! r1 = Some kids1 -> r1 <> r -> same_on (mwords (pages k)) (mwords s') (r1 :: kid_tables kids1)) /\
  (forall b x, b ∈ St -> in_page (b + 1) x -> mwords s' x = mwords (pages k) x).
Proof.
  intros Hk Hr Hc. pose proof (gr_free (cs_grown _ _ _ _ _ _ _ _ _ _ _ _ _ Hc)) as Hfree.
  assert (Htab : forall r1 kids1 q, sp !! r1 = Some kids1 -> q ∈ r1 :: kid_tables kids1 -> q ∉ c :: kid_tables kids').
  { intros r1 kids1 q H1 Hq Hin. apply (not_free_table _ _ _ _ _ _ _ _ _ q Hk); [|by apply Hfree].
    by apply (sa_pages _ _ _ _ (ka_spaces _ _ _ _ _ _ _ _ _ Hk r1 kids1 H1)). }
  assert (Hst : forall b, b ∈ St -> b + 1 ∉ c :: kid_tables kids').
  { intros b Hb Hin. apply (free_not_used resv B _ (b + 1) (ka_inv _ _ _ _ _ _ _ _ _ Hk)); [by apply Hfree|].
    pose proof (ka_stacks _ _ _ _ _ _ _ _ _ Hk b Hb) as Hv. apply (ka_view _ _ _ _ _ _ _ _ _ Hk) in Hv as [Hv _].
    exists b, 1. change (2 ^ 1) with 2. split; [done|lia]. }
  split; [done|]. split; [done|]. split; [done|]. split.
  - intros r1 kids1 H1 Hne q x Hq Hx.
    assert (Hcq : ~ hot q) by (by destruct (sa_pages _ _ _ _ (ka_spaces _ _ _ _ _ _ _ _ _ Hk r1 kids1 H1) q Hq) as (_ & _ & ? & _)).
    apply (cs_frame _ _ _ _ _ _ _ _ _ _ _ _ _ Hc); [|by eapply cold_word]. intros q' Hq' Hx'.
    assert (q' = q) as -> by (by eapply in_page_eq). apply elem_of_app in Hq' as [Hq'|Hq']; [|by eapply Htab].
    by apply (ka_apart _ _ _ _ _ _ _ _ _ Hk r1 kids1 r kids H1 Hr Hne q).
  - intros b x Hb Hx. apply (cs_frame _ _ _ _ _ _ _ _ _ _ _ _ _ Hc); [|eapply cold_word; [by eapply stack_cold|done]]. intros q' Hq' Hx'.
    assert (q' = b + 1) as -> by (by eapply in_page_eq). apply elem_of_app in Hq' as [Hq'|Hq']; [|by eapply Hst].
    by apply (ka_stack_page _ _ _ _ _ _ _ _ _ Hk b r kids Hb Hr).
Qed.

(** The address spaces after the clone [c] of the one at [r]. *)
Definition clone_spaces (r : Z) kids (c : Z) kids' (sp : gmap Z (list (option ptree))) : gmap Z (list (option ptree)) :=
  <[c := kids']> (<[r := List.map (option_map share) kids]> sp).

Lemma clone_spaces_lookup r kids c kids' sp r1 kids1 : sp !! r = Some kids ->
  clone_spaces r kids c kids' sp !! r1 = Some kids1 ->
  (r1 = c /\ kids1 = kids') \/ (exists kids0, sp !! r1 = Some kids0 /\ kid_tables kids1 = kid_tables kids0 /\ r1 <> c /\
    (r1 = r /\ kids1 = List.map (option_map share) kids \/ r1 <> r /\ kids1 = kids0)).
Proof.
  intros Hr. unfold clone_spaces. rewrite !lookup_insert. repeat case_decide; intros Heq; simplify_eq; [by left| |].
  - right. exists kids. rewrite kid_tables_shared. split; [done|]. split; [done|]. split; [by apply not_eq_sym|]. by left.
  - right. exists kids1. split; [done|]. split; [done|]. split; [by apply not_eq_sym|]. right. split; [by apply not_eq_sym|done].
Qed.

Section cloned.
Context (V : gmap Z (Z * Z)) (B : blocks) (sp : gmap Z (list (option ptree))) (room : list Z) (L St : gset Z) (T : gmap Z (Z -> Z))
  (n : nat) (k : kernel_mem) (r c : Z) (kids kids' : list (option ptree)) (s' : mm buddy) (B' : blocks).
Context (Hk : kernel_at V B sp room L St T (S n) k) (Hr : sp !! r = Some kids)
  (Hc : cloned_space resv r0 top kern B (pages k) r kids 0 c kids' B' s').

Notation N := (c :: kid_tables kids').
Notation sp' := (clone_spaces r kids c kids' sp).

Lemma clone_new_root r1 kids1 : sp !! r1 = Some kids1 -> c <> r1.
Proof. intros H1 ->. destruct (clone_other _ _ _ _ _ _ _ _ _ _ _ _ _ _ _ Hk Hr Hc) as (_ & Htab & _). by eapply Htab; [exact H1|by left|by left]. Qed.

Lemma clone_tree_va va : 0 <= va -> tree_va kids' va = tree_va kids va /\ tree_va (List.map (option_map share) kids) va = tree_va kids va.
Proof.
  intros Hv. destruct (cs_va _ _ _ _ _ _ _ _ _ _ _ _ _ Hc va Hv) as [E1 E2].
  pose proof (sa_space _ _ _ _ (ka_spaces _ _ _ _ _ _ _ _ _ Hk r kids Hr)) as S1.
  rewrite (translate_tree _ _ _ va S1) in E1, E2 by done. rewrite (translate_tree _ _ _ va (cs_parent _ _ _ _ _ _ _ _ _ _ _ _ _ Hc)) in E1 by done.
  by rewrite (translate_tree _ _ _ va (cs_child _ _ _ _ _ _ _ _ _ _ _ _ _ Hc)) in E2.
Qed.

Lemma clone_table_new : T !! page_va c = None.
Proof.
  destruct (T !! page_va c) as [g|] eqn:Hin; [|done]. exfalso.
  destruct (ka_tables _ _ _ _ _ _ _ _ _ Hk _ _ Hin) as (r1 & kids1 & Eq & H1 & _). apply (clone_new_root r1 kids1 H1).
  destruct (clone_other _ _ _ _ _ _ _ _ _ _ _ _ _ _ _ Hk Hr Hc) as (Hfree & _).
  apply page_va_inj; [| |done]; [|apply (sp_range _ _ _ (sa_space _ _ _ _ (ka_spaces _ _ _ _ _ _ _ _ _ Hk r1 kids1 H1)))].
  pose proof (ka_inv _ _ _ _ _ _ _ _ _ Hk) as F1. pose proof (free_range resv _ _ _ F1 (Hfree c ltac:(by left))).
  pose proof (bi_resv _ _ _ F1). consts. lia.
Qed.

(** The tables translate as before, the new one as the one cloned. *)
Lemma clone_tables f : T !! page_va r = Some f -> (forall va, 0 <= va -> tree_va kids va = f va) ->
  forall t1 g, <[page_va c := f]> T !! t1 = Some g ->
  exists r1 kids1, t1 = page_va r1 /\ sp' !! r1 = Some kids1 /\ forall va, 0 <= va -> tree_va kids1 va = g va.
Proof.
  intros Ht Hva t1 g. rewrite lookup_insert. case_decide as Ht1.
  { intros [= <-]. exists c, kids'. split; [done|]. unfold clone_spaces. split; [by rewrite lookup_insert_eq|].
    intros va Hv. by rewrite (proj1 (clone_tree_va va Hv)), Hva. }
  intros H1. destruct (ka_tables _ _ _ _ _ _ _ _ _ Hk t1 g H1) as (r1 & kids1 & -> & Hr1 & Hg).
  exists r1. unfold clone_spaces. rewrite lookup_insert_ne by by eapply clone_new_root.
  rewrite lookup_insert. case_decide as Hd; [|by exists kids1]. subst r1.
  rewrite Hr in Hr1. injection Hr1 as <-. eexists. do 2 (split; [done|]). intros va Hv. rewrite (proj2 (clone_tree_va va Hv)). by apply Hg.
Qed.

(** Every address space is whole, the new one too, and they share no table. *)
Lemma clone_spaces_at r1 kids1 : sp' !! r1 = Some kids1 -> space_at (add_pages N V) (mwords s') r1 kids1.
Proof.
  destruct (clone_other _ _ _ _ _ _ _ _ _ _ _ _ _ _ _ Hk Hr Hc) as (Hfree & _ & _ & Hsame & _).
  destruct (clone_size kids kids' (cs_same _ _ _ _ _ _ _ _ _ _ _ _ _ Hc)) as [Hsize Hmap].
  pose proof (cs_grown _ _ _ _ _ _ _ _ _ _ _ _ _ Hc) as HG. pose proof (ka_inv _ _ _ _ _ _ _ _ _ Hk) as F1.
  destruct (grown_view V B _ B' _ N _ F1 (ka_view _ _ _ _ _ _ _ _ _ Hk) HG) as [_ Hsub].
  pose proof (ka_spaces _ _ _ _ _ _ _ _ _ Hk) as F7. destruct (F7 r kids Hr) as [S1 S2 S3 S4 S5].
  intros [[-> ->]|(kids0 & H0 & Et & _ & [[-> ->]|[Hne ->]])]%clone_spaces_lookup; [..|done].
  - split; [apply Hc|apply (gr_nodup HG)| | |cbn [length] in *; lia].
    + intros q Hq. pose proof (free_range resv _ _ _ F1 (Hfree q Hq)). pose proof (bi_resv _ _ _ F1).
      split; [consts; lia|]. split; [intros Hkq; apply Hkern in Hkq; lia|].
      split; [intros [_ Hh]; by apply (gr_cold HG q Hq)|]. right. exists q, 0, PAGE_BUDDY.
      rewrite add_pages_lookup, decide_True by done. split; [done|lia].
    + rewrite Hmap. intros a Ha. eapply used_mono; [exact Hsub|by apply S4].
  - apply (space_at_mono V); [done|]. split; rewrite ?kid_tables_shared, ?kid_mapped_shared; try done. apply Hc.
  - apply (space_at_mono V); [done|]. destruct (F7 r1 kids0 H0) as [Q1 Q2 Q3 Q4 Q5]. split; try done.
    eapply space_frame; [exact Q1|]. by apply Hsame.
Qed.

Lemma clone_spaces_apart r1 kids1 r2 kids2 : sp' !! r1 = Some kids1 -> sp' !! r2 = Some kids2 -> r1 <> r2 ->
  forall q, q ∈ r1 :: kid_tables kids1 -> q ∉ r2 :: kid_tables kids2.
Proof.
  destruct (clone_other _ _ _ _ _ _ _ _ _ _ _ _ _ _ _ Hk Hr Hc) as (_ & Htab & _).
  intros H1%clone_spaces_lookup H2%clone_spaces_lookup Hne q Hq Hq'; [|done|done].
  destruct H1 as [[-> ->]|(kids3 & H1 & Et1 & _ & _)], H2 as [[-> ->]|(kids4 & H2 & Et2 & _ & _)]; rewrite ?Et1, ?Et2 in *.
  - done.
  - by apply (Htab r2 kids4 q H2 Hq').
  - by apply (Htab r1 kids3 q H1 Hq).
  - by apply (ka_apart _ _ _ _ _ _ _ _ _ Hk r1 kids3 r2 kids4 H1 H2 Hne q).
Qed.

Lemma clone_kernel_at f : T !! page_va r = Some f -> (forall va, 0 <= va -> tree_va kids va = f va) ->
  kernel_at (add_pages N V) B' sp' (filter (fun q => q ∉ N) room) L St (<[page_va c := f]> T) n (KHeap s' (slabs k) (snodes k)).
Proof.
  intros Ht Hva. destruct (clone_other _ _ _ _ _ _ _ _ _ _ _ _ _ _ _ Hk Hr Hc) as (_ & _ & Hst & _ & _).
  destruct (clone_size kids kids' (cs_same _ _ _ _ _ _ _ _ _ _ _ _ _ Hc)) as [Hsize _].
  pose proof (cs_grown _ _ _ _ _ _ _ _ _ _ _ _ _ Hc) as HG. pose proof (sa_size _ _ _ _ (ka_spaces _ _ _ _ _ _ _ _ _ Hk r kids Hr)) as S5.
  pose proof Hk as [F1 F2 F3 F4 F5 F6 F7 F8 F9 (R1 & R2 & R3) F11 F12].
  pose proof (cs_ready _ _ _ _ _ _ _ _ _ _ _ _ _ Hc) as [Hi' Hm' _ [_ Hcold]].
  destruct (grown_view V B _ B' _ N _ F1 F2 HG) as [HV' Hsub].
  destruct (@heap_inv_grow (mm buddy) on_words_kept V k (add_pages N V) s' F3) as [G1 G2].
  { split; [by eapply view_of_view|done]. } { intros q x Hq. by eapply lookup_weaken. }
  { intros q w Hq. rewrite add_pages_lookup in Hq. case_decide; [discriminate|done]. }
  split; try done.
  - intros p Hp. destruct (F4 p Hp) as [m Hm]. exists m. by apply G2.
  - intros b Hb. eapply lookup_weaken; [by apply F5|done].
  - by apply clone_tables.
  - apply clone_spaces_at.
  - apply clone_spaces_apart.
  - intros b r1 kids1 Hb [[-> ->]|(kids0 & H0 & -> & _)]%clone_spaces_lookup; [by apply Hst|by apply F9|done].
  - split; [by apply NoDup_filter|]. pose proof (nodup_outside N room R1). cbn [length] in *. split; [lia|].
    intros q [Hn Hin]%list_elem_of_filter. apply (gr_quads HG); [by apply R3|done].
  - intros q (p & o & w & Hp & Hin). rewrite add_pages_lookup in Hp. case_decide as Hd; [|apply F12; by exists p, o, w].
    injection Hp as <- <-. change (2 ^ 0) with 1 in Hin. assert (q = p) as -> by lia. intros [_ Hh]. by apply (gr_cold HG p Hd).
Qed.
End cloned.

Lemma kernel_clone L St T n k t f : kernel_ok L St T (S n) k -> T !! t = Some f ->
  exists t' k', @pm_clone_virtual_memory _ KM t k = Ok (t', k') /\ T !! t' = None /\ kernel_ok L St (<[t' := f]> T) n k' /\
    (forall b x, b ∈ St -> in_page (b + 1) x -> mwords (pages k') x = mwords (pages k) x).
Proof.
  intros (V & B & sp & room & Hk) Ht. destruct (ka_tables _ _ _ _ _ _ _ _ _ Hk t f Ht) as (r & kids & -> & Hr & Hva).
  destruct (ka_spaces _ _ _ _ _ _ _ _ _ Hk r kids Hr) as [S1 S2 S3 S4 S5].
  destruct (clone_space_ok resv r0 top kern fuel r kids B (pages k) 0 S1 S2) as (c & kids' & s' & B' & E & Hc).
  { intros q Hq. destruct (S3 q Hq) as (? & ? & ? & _). split; [done|]. split; [|done]. by eapply not_free_table, S3. }
  { intros a Ha. by apply (used_in_use V B _ a (ka_view _ _ _ _ _ _ _ _ _ Hk)), S4. }
  { eapply ready_less; [by eapply kernel_at_ready|]. lia. }
  exists (page_va c), (KHeap s' (slabs k) (snodes k)). split; [|split; [|split]].
  - cbn [pm_clone_virtual_memory kernel_proc_mem]. unfold on_mm. by rewrite E.
  - by eapply clone_table_new.
  - do 4 eexists. by eapply clone_kernel_at.
  - by eapply clone_other.
Qed.

(** ** The interface *)

Lemma kernel_ok_less L St T n k : kernel_ok L St T (S n) k -> kernel_ok L St T n k.
Proof.
  intros (V & B & sp & room & [F1 F2 F3 F4 F5 F6 F7 F8 F9 (R1 & R2 & R3) F11 F12]). exists V, B, sp, room. split; try done.
  split; [done|]. split; [lia|done].
Qed.

Lemma stack_in_page b i : 0 <= i < 512 -> in_page (b + 1) (stack_pa b i).
Proof. unfold in_page, stack_pa. lia. Qed.

Lemma cold_same_stacks L St T n (k k' : kernel_mem) :
  kernel_ok L St T n k -> cold_same resv (mwords (pages k)) (mwords (pages k')) -> @stacks_same _ KM St k k'.
Proof.
  intros (V & B & sp & room & Hk) E b i Hb Hi. apply (E (b + 1)); [by eapply stack_cold|by apply stack_in_page].
Qed.

Definition kernel_fork_mem : @ForkMem kernel_mem KM L0.
Proof.
  refine (@Build_ForkMem kernel_mem KM L0 kernel_ok _ _ _ _ _ _ _ _).
  - intros L St T n k b (V & B & sp & room & Hk) Hb. by eapply stack_range.
  - intros L St T n k size Hk Hs. destruct (kernel_kmalloc L St T n k size Hk Hs) as (p & k' & E & ? & ? & ? & Hw).
    exists p, k'. do 4 (split; [done|]). by eapply cold_same_stacks.
  - intros L St T n k Hk. destruct (kernel_stack_alloc L St T n k Hk) as (b & k' & E & ? & ? & Hw).
    exists b, k'. do 3 (split; [done|]). eapply cold_same_stacks; [done|]. by rewrite Hw.
  - intros L St T n k b Hk Hb. destruct (kernel_map_stack L St T n k b Hk Hb) as (k' & E & ? & Hw).
    exists k'. do 2 (split; [done|]). by eapply cold_same_stacks.
  - intros L St T n k b. apply kernel_head.
  - intros L St T n k t f Hk Ht. destruct (kernel_clone L St T n k t f Hk Ht) as (t' & k' & E & ? & ? & Hw).
    exists t', k'. do 3 (split; [done|]). intros b i Hb Hi. apply (Hw b); [done|by apply stack_in_page].
  - intros L St T n k b i v. apply kernel_store.
  - done.
Defined.

Lemma va_to_pa_page p : 0 <= p < NPAGES -> va_to_pa (page_va p) = p * 4096.
Proof.
  intros. rewrite page_va_eq by lia. unfold va_to_pa, VIRT_BASE, NPAGES in *. change (2 ^ 18) with 262144 in *.
  rewrite u64_small; lia.
Qed.

(** What a table of the kernel's memory translates. *)
Definition translates (k : kernel_mem) (t va : Z) : Z := translate_va (mwords (pages k)) va (va_to_pa t).

Lemma kernel_translates L St T n k t f va : kernel_ok L St T n k -> T !! t = Some f -> 0 <= va -> translates k t va = f va.
Proof.
  intros (V & B & sp & room & Hk) Ht Hva. destruct (ka_tables _ _ _ _ _ _ _ _ _ Hk t f Ht) as (r & kids & -> & Hr & Hf).
  pose proof (sa_space _ _ _ _ (ka_spaces _ _ _ _ _ _ _ _ _ Hk r kids Hr)) as Hsp. unfold translates.
  rewrite va_to_pa_page by apply (sp_range _ _ _ Hsp). by rewrite (translate_tree _ _ _ va Hsp), Hf.
Qed.

(** C8: [fork] on the kernel's own memory, with the kernel's page tables as boot
    builds them ([kernel_walk]; 2 MiB blocks are followed as the code follows
    them).  While [K + 1] free runs of four pages are left in the blocks below
    order [top] for each of its requests - the control block, an area of the
    parent each, the stack, its mapping and the clone of an address space of at
    most [K] tables - [sys_fork] succeeds, makes the child of [child_made], keeps
    the invariants of the buddy allocator, the heap and every address space, and
    leaves the child's table translating every address as the parent's did, the
    parent's own unchanged.  After boot the last pages of memory are such runs
    ([boot_allocator]); pages that the block entries overwrite are not in use. *)
Theorem kernel_forks (ret_from_fork : Z) L St T s vs n ps rq cs all turns (sy : sys kernel_mem) :
  let k := Syscalls.kern sy in
  forker L St T s vs k -> kernel_ok L St T (length vs + (4 + n)) (kmem k) -> (length vs < turns)%nat ->
  sched_inv ps rq k -> ps ⊆ L -> 0 <= pidcounter k < 2 ^ 32 - 1 ->
  ring (links k) L_proclist_head (L_proclist <$> all) -> (forall p, p ∈ all -> p ∈ L) ->
  ring (links k) (L_children (current k)) (L_siblings <$> cs) -> (forall p, p ∈ cs -> p ∈ L) ->
  exists c nb k', let t := ttbr (pcb_at k' c) in let t0 := ttbr (pcb_at k (current k)) in
    @do_fork kernel_mem KM turns L0 ret_from_fork sy = Ok (u64 (s32 (pidcounter k + 1)), Sys k' (files sy) (sleep sy)) /\
    @child_made kernel_mem KM ret_from_fork ps rq s vs cs all c nb t k k' /\ c ∉ L /\ nb ∉ St /\ T !! t = None /\
    (exists L' f, {[c]} ∪ L ⊆ L' /\ T !! t0 = Some f /\ kernel_ok L' ({[nb]} ∪ St) (<[t := f]> T) n (kmem k')) /\
    forall va, 0 <= va -> translates (kmem k') t va = translates (kmem k) t0 va /\ translates (kmem k') t0 va = translates (kmem k) t0 va.
Proof.
  intros k Hfr Hok Hturns Hs Hps Hpid Hall HaL Hcs HcL.
  destruct (@fork_child_ok kernel_mem KM L0 kernel_fork_mem ret_from_fork L St T s vs n ps rq cs all turns sy Hfr Hok Hturns Hs Hps Hpid Hall HaL Hcs HcL)
    as (c & nb & t & k' & E & Hc & Hb & Ht & Hcm & L' & f & HL & Hf & Hok').
  assert (Et : ttbr (pcb_at k' c) = t) by (by rewrite (cm_pcb _ _ _ _ _ _ _ _ _ _ _ _ Hcm)).
  exists c, nb, k'. cbn zeta. rewrite Et. do 5 (split; [done|]). split; [by exists L', f|].
  intros va Hva. rewrite (kernel_translates _ _ _ _ (kmem k) (ttbr (pcb_at k (current k))) f va Hok Hf Hva).
  split; (eapply kernel_translates; [exact Hok'| |done]); [apply lookup_insert_eq|].
  rewrite lookup_insert_ne; [done|]. intros ->. unfold k in *. congruence.
Qed.
End kernel.

(** ** A kernel behind boot *)

Notation demo_ok := (kernel_ok 2319 2215 9 boot_kern 4).

(** The memory of one process that has one page, an empty heap and room for 11
    requests, in the tables and the free pages that boot leaves. *)
Lemma demo_memory : exists f m, demo_ok ∅ ∅ {[page_va 2300 := f]} 11 m.
Proof.
  destruct one_page_used as (B & st & p & Hi & Hp & _ & [_ Hsm] & Hpr & Hu & Hown & Hpc & room & Hnd & Hlen & Hq).
  exists (tree_va (demo_kids p)), (kheap_init (KHeap (MM st (demo_words p)) ∅ ∅)).
  assert (HV : view_of {[p := (0, PAGE_BUDDY)]} B st).
  { intros q o w. rewrite lookup_singleton_Some. split.
    - intros [-> [= <- <-]]. by rewrite Hown.
    - intros [Hq' ->]. pose proof (Hu _ _ Hq') as ->. rewrite Hp in Hq'. injection Hq' as <-. by rewrite Hown. }
  exists {[p := (0, PAGE_BUDDY)]}, B, {[2300 := demo_kids p]}, room. split; try done.
  - apply (@kheap_init_ok (mm buddy) (@pages_on buddy (buddy_pages 2319) (kernel_walk 2319 2215 boot_kern))).
    + split; [by exists B|apply demo_words_walk].
    + by intros q w [_ [= _ H]]%lookup_singleton_Some.
  - intros t f [<- <-]%lookup_singleton_Some. exists 2300, (demo_kids p). by rewrite lookup_singleton_eq.
  - intros r kids [<- <-]%lookup_singleton_Some. split; rewrite ?demo_tables.
    + apply demo_space.
    + by apply (bool_decide_unpack _).
    + intros q Hin. assert (2300 <= q <= 2303) by set_solver by lia. split; [consts; lia|]. split; [lia|].
      split; [intros [? _]; lia|left; lia].
    + rewrite demo_mapped by (consts; lia). intros a ->%list_elem_of_singleton. exists p, 0, PAGE_BUDDY.
      rewrite lookup_singleton_eq. split; [done|lia].
    + cbn. lia.
  - intros r kids r' kids' [<- _]%lookup_singleton_Some [<- _]%lookup_singleton_Some. done.
  - split; [done|]. split; [lia|done].
  - intros q (p' & o & w & [<- [= <- <-]]%lookup_singleton_Some & Hin). change (2 ^ 0) with 1 in Hin. by replace q with p by lia.
Qed.

Lemma demo_reserved q : boot_kern q -> q < 2319.
Proof. intros H. cbn beta in H. lia. Qed.

(** With the control blocks [a] and [c], an area [v] and a stack [s]. *)
Lemma demo_objects : exists f a c v s (m : kernel_mem), a <> c /\
  demo_ok {[v; c; a]} {[s]} {[page_va 2300 := f]} 7 m /\ 0 <= s /\ s + 1 < NPAGES.
Proof.
  destruct demo_memory as (f & m0 & H0). exists f.
  destruct (kernel_kmalloc 2319 2215 9 boot_kern 0 0 clear_junk 4 demo_reserved clear_junk_ok _ _ _ _ _ sizeof_pcb_t H0) as (a & m1 & _ & _ & _ & H1 & _); [done|].
  destruct (kernel_kmalloc 2319 2215 9 boot_kern 0 0 clear_junk 4 demo_reserved clear_junk_ok _ _ _ _ _ sizeof_pcb_t H1) as (c & m2 & _ & _ & Hc & H2 & _); [done|].
  destruct (kernel_kmalloc 2319 2215 9 boot_kern 0 0 clear_junk 4 demo_reserved clear_junk_ok _ _ _ _ _ sizeof_vma H2) as (v & m3 & _ & _ & _ & H3 & _); [done|].
  destruct (kernel_stack_alloc 2319 2215 9 boot_kern 0 0 clear_junk 4 _ _ _ _ _ H3) as (s & m4 & _ & _ & H4 & _).
  exists a, c, v, s, m4. split; [set_solver|].
  rewrite !(right_id_L ∅ (∪)) in H4. rewrite <- !(assoc_L (∪)). split; [done|].
  destruct H4 as (V & B & sp & room & H4). eapply stack_range; [exact H4|set_solver].
Qed.

(** Process [c] runs with the area [v] and the idle process [a] waits. *)
Definition demo_area : vma := Vma 0 4096 3.
Definition parent_pcb (st : PROC_STATE) (id : Z) (a : Z) : pcb_t := Pcb 0 (page_va 2300) st id WAITING_NONE a 0 0 0 (replicate MAX_OPEN_FILES 0).
Definition demo_sys (a c v s : Z) (h : gmap lkey (list_head_t lkey)) (m : kernel_mem) : sys kernel_mem :=
  Sys (Kernel {[a := parent_pcb PROCESS_READY 0 a; c := parent_pcb PROCESS_RUNNING 1 a]} {[v := demo_area]} h a 1 1 c
    (page_va (s + 1) + 0xE00) 0 false m) ∅ sleep_init.

Lemma demo_links a c v : a <> c -> exists h,
  ring h L_proclist_head (L_proclist <$> [c]) /\ ring h (L_vmas c) (L_vma <$> [v]) /\
  ring h L_runqueue_head [] /\ ring h (L_runqueue a) [] /\ ring h (L_runqueue c) [] /\ ring h (L_children c) [].
Proof.
  intros Hac. set (ns := [L_proclist_head; L_runqueue_head; L_runqueue a; L_runqueue c; L_children c; L_vmas c]).
  set (h0 := foldl (fun h n => INIT_LIST_HEAD n h) ∅ ns).
  assert (Hnd : NoDup ns) by (unfold ns; repeat (apply NoDup_cons; split; [set_solver|]); apply NoDup_nil_2).
  assert (H0 : forall y, y ∈ ns -> ring h0 y []) by (intros y Hy; by apply init_nodes_ring).
  destruct (add_kind h0 (L_vmas c) L_vma [] v 3) as (h1 & _ & R1 & _ & F1); try done; try (by intros ?? [= ->]); [apply H0; set_solver|set_solver|].
  destruct (add_kind h1 L_proclist_head L_proclist [] c 0) as (h2 & _ & R2 & _ & F2); try done; try (by intros ?? [= ->]); [|set_solver|].
  { eapply ring_kind; [exact F1|by repeat constructor|apply H0; set_solver]. }
  exists h2. split; [done|]. split; [by eapply ring_kind; [exact F2|by repeat constructor|]|].
  assert (H2 : forall y, y ∈ ns -> kind y <> 0%nat -> kind y <> 3%nat -> ring h2 y []).
  { intros y Hy K0 K3. eapply ring_kind; [exact F2|by repeat constructor|]. eapply ring_kind; [exact F1|by repeat constructor|by apply H0]. }
  split_and!; apply H2; try done; set_solver.
Qed.

Section demo_state.
Context (f : Z -> Z) (a c v s : Z) (m : kernel_mem) (h : gmap lkey (list_head_t lkey)) (Hac : a <> c).
Notation k := (Syscalls.kern (demo_sys a c v s h m)).

Lemma demo_at p b : pcbs k !! p = Some b -> pcb_at k p = b.
Proof. intros E. unfold pcb_at. by rewrite E. Qed.
Lemma demo_idle : pcbs k !! a = Some (parent_pcb PROCESS_READY 0 a).
Proof. apply lookup_insert_eq. Qed.
Lemma demo_cur : pcbs k !! c = Some (parent_pcb PROCESS_RUNNING 1 a).
Proof. cbn. rewrite lookup_insert_ne by done. apply lookup_singleton_eq. Qed.

Lemma parent_inv : ring h L_runqueue_head [] -> ring h (L_runqueue a) [] -> ring h (L_runqueue c) [] -> sched_inv {[a; c]} [] k.
Proof.
  intros R1 R2 R3. pose proof (demo_at _ _ demo_idle) as Ea. pose proof (demo_at _ _ demo_cur) as Ec.
  assert (Hps : forall P : Z -> Prop, P a -> P c -> forall p, p ∈ ({[a; c]} : gset Z) -> P p).
  { intros P Ha Hc p [->%elem_of_singleton| ->%elem_of_singleton]%elem_of_union; done. }
  split; try (apply Hps); rewrite ?Ea, ?Ec; try done; try set_solver.
  - by eexists; apply demo_idle.
  - by eexists; apply demo_cur.
  - intros p. split; [by intros Hp%not_elem_of_nil|]. intros (Hp & Hne & Hr). exfalso. revert Hne Hr.
    apply (Hps (fun p => p <> a -> pstate (pcb_at k p) = PROCESS_READY -> False)); [done|by rewrite Ec|done].
  - apply (Hps (fun p => pstate (pcb_at k p) = PROCESS_RUNNING -> p = c)); [by rewrite Ea|done].
Qed.

Lemma demo_forker : ring h (L_vmas c) (L_vma <$> [v]) -> 0 <= s -> s + 1 < NPAGES ->
  forker {[v; c; a]} {[s]} {[page_va 2300 := f]} s [(v, demo_area)] k.
Proof.
  intros R H0 H1. pose proof (demo_at _ _ demo_cur) as Ec. split.
  - change (current k) with c. by rewrite Ec, demo_cur.
  - split; [done|]. intros x y [= -> ->]%list_elem_of_singleton. apply lookup_singleton_eq.
  - cbn. set_solver.
  - intros x ->%list_elem_of_singleton. set_solver.
  - set_solver.
  - cbn. apply stack_page_down; lia.
  - change (current k) with c. rewrite Ec. cbn [ttbr parent_pcb]. rewrite lookup_singleton_eq. by eexists.
Qed.
End demo_state.

Lemma kernel_forks_witness : exists (sy : sys kernel_mem) c k',
  let KM := kernel_proc_mem 1 (page_va 2215) 0 clear_junk in let k := Syscalls.kern sy in
  @do_fork kernel_mem KM 9 (page_va 2215) 0xFFFF800000081000 sy = Ok (2, Sys k' (files sy) (sleep sy)) /\
  c <> current k /\ ttbr (pcb_at k' c) <> ttbr (pcb_at k (current k)) /\
  translates (kmem k') (ttbr (pcb_at k' c)) 0x123 = translates (kmem k) (ttbr (pcb_at k (current k))) 0x123.
Proof.
  destruct demo_objects as (f & a & c0 & v & s & m & Hac & Hm & H0 & H1).
  destruct (demo_links a c0 v Hac) as (h & R1 & R2 & R3 & R4 & R5 & R6).
  destruct (kernel_forks 2319 2215 9 boot_kern 0 0 clear_junk 4 demo_reserved clear_junk_ok 0xFFFF800000081000 {[v; c0; a]} {[s]} {[page_va 2300 := f]}
    s [(v, demo_area)] 2 {[a; c0]} [] [] [c0] 9 (demo_sys a c0 v s h m)) as (c & nb & k' & E & _ & Hc & _ & Ht & (L' & g & _ & Hg & _) & Htr).
  - by apply demo_forker.
  - exact Hm.
  - cbn. lia.
  - by apply parent_inv.
  - set_solver.
  - cbn. lia.
  - exact R1.
  - intros p ->%list_elem_of_singleton. set_solver.
  - exact R6.
  - intros p Hp. by apply not_elem_of_nil in Hp.
  - exists (demo_sys a c0 v s h m), c, k'. split; [exact E|]. split; [|split; [|apply Htr; lia]].
    + intros ->. apply Hc. cbn. set_solver.
    + intros Eq. rewrite Eq, Hg in Ht. discriminate Ht.
Defined.
