(* ===== verification/Boot.v ===== *)
(** * The first instructions ([boot.S], [boot/highhalf.S], [memory/mm.S])

    The path of the first core from the firmware's entry at EL3 down to the kernel
    at EL1: the settings of each level and the returns between them, up to the
    jump into the high half and the cleared [.bss]; the layouts of the system
    registers ([types/sysregs_types.h]); and what they establish.  Addresses of
    symbols are arguments; the C functions called on the way are what they do to
    the processor.  The bit fields of the register unions are listed in the order
    in which they are declared, each with its width and the bits its comment gives
    it.  A compiler for this processor allocates bit fields from the lowest bit
    up, so that a field lies where the widths before it end, or in the next 64-bit
    unit where it would cross the end of its own. *)
From S2P Require Import Prelude Arm Entry.

Section Boot.
Context (kstack_top kstack_top_hi vectors el2_entry map_high el1_entry bss_start bss_end : Z).
Context (uart_init_lo initialize_gic : callee).

(** Where a core ends up: parked, at an address, or in the C kernel. *)
Inductive boot_outcome := Parked | At (pc : Z) (c : cpu).

Definition core_id : list instr := [Mov 19 0; Mrs 0 MPIDR_EL1; And_imm 0 0 0xFF].

Definition irq_init_vectors : list instr := [Mov_imm 0 vectors; Msr VBAR_EL1 0; Msr VBAR_EL2 0; Msr VBAR_EL3 0].

Definition set_smpen : list instr := [Mrs 0 CPUECTLR_EL1; Orr_imm 0 0 (Z.shiftl 1 6); Msr CPUECTLR_EL1 0].

Definition drop_to_el2 : list instr :=
  [Mov_imm 0 kstack_top; Sub_imm 0 0 0x10; Mov_to_sp 0; Msr SP_EL1 0;
   Mrs 0 CPTR_EL3; Bic_imm 0 0 (Z.shiftl 3 10); Msr CPTR_EL3 0;
   Msr_spsel 1;
   Msr SCTLR_EL2 XZR; Msr HCR_EL2 XZR;
   Mrs 0 SCR_EL3; Orr_imm 0 0 (Z.shiftl 1 10); Orr_imm 0 0 (Z.shiftl 1 0); Msr SCR_EL3 0;
   Mov_imm 0 0x9; Msr SPSR_EL3 0;
   Mov_imm 0 el2_entry; Msr ELR_EL3 0].

(** [_start], without the debugger's [debug_init_lo]. *)
Definition start (c : cpu) : res boot_outcome :=
  if negb (rd 0 (run core_id c) =? 0) then Ok Parked
  else
    c ← uart_init_lo (run ([Mov_imm 0 kstack_top; Mov_to_sp 0] ++ irq_init_vectors) (run core_id c));
    c ← initialize_gic (run set_smpen c);
    '(pc, c) ← eret (run drop_to_el2 c);
    Ok (At pc c).

Definition el2_entry_code : list instr :=
  [Mov_imm 0 (Z.lor (Z.lor (Z.lor (Z.shiftl 1 29) (Z.shiftl 1 28)) (Z.shiftl 1 23)) (Z.shiftl 1 22)); Msr SCTLR_EL1 0;
   Mrs 0 HCR_EL2; Orr_imm 0 0 (Z.shiftl 1 31); Msr HCR_EL2 0;
   Mov_imm 0 0x3c5; Msr SPSR_EL2 0;
   Mov_imm 0 map_high; Msr ELR_EL2 0;
   Mrs 0 CPTR_EL2; Bic_imm 0 0 (Z.shiftl 1 10); Msr CPTR_EL2 0; Mrs 0 CPTR_EL2;
   Msr_spsel 1].

Definition el2_main (c : cpu) : res boot_outcome := '(pc, c) ← eret (run el2_entry_code c); Ok (At pc c).

(** The boot of a core up to [map_high]. *)
Definition boot (c : cpu) : res boot_outcome :=
  r ← start c;
  match r with
  | Parked => Ok Parked
  | At pc c => if pc =? el2_entry then el2_main c else UB
  end.

(** [enable_mmu(ttbr1, ttbr0)], called by [map_high]; the two calls write back
    the caches. *)
Definition MAIR_VALUE : Z := Z.lor (Z.lor (Z.shiftl 0x44 0) (Z.shiftl 0x04 8)) (Z.shiftl 0xFF 16).
Definition TCR_VALUE : Z := 0x80100010.
Definition enable_mmu (invalidate_dcache_all invalidate_dcache_range : callee) (c : cpu) : res boot_outcome :=
  let c := run [Mov_imm 2 MAIR_VALUE; Msr MAIR_EL1 2; Mov_imm 2 TCR_VALUE; Msr TCR_EL1 2;
                Msr TTBR1_EL1 0; Msr TTBR0_EL1 1; Mov 4 0; Mov 5 1] c in
  c ← invalidate_dcache_all c;
  c ← invalidate_dcache_range (run [Mov_imm 0 0; Mov_imm 1 0x1000000] c);
  let c := run [Mov_imm 0 kstack_top_hi; Sub_imm 0 0 0x10; Mov_to_sp 0;
                Mrs 2 SCTLR_EL1; Orr_imm 2 2 (Z.shiftl 1 0); Orr_imm 2 2 (Z.shiftl 1 2); Msr SCTLR_EL1 2;
                Mov_imm 0 el1_entry] c in
  Ok (At (rd 0 c) c).

(** The signed reading of a register. *)
Definition s64 (z : Z) : Z := (z + 2 ^ 63) mod 2 ^ 64 - 2 ^ 63.

(** [memzero]: a word is stored before the count is looked at; [b.gt] after
    [subs] compares the count before it as a signed number. *)
Fixpoint memzero (fuel : nat) (c : cpu) : res cpu :=
  match fuel with
  | O => Fuel
  | S fuel =>
      let c := wr 0 (u64 (rd 0 c + 8)) (st (rd 0 c) 0 c) in
      let n := rd 1 c in
      let c := wr 1 (u64 (n - 8)) c in
      if 8 <? s64 n then memzero fuel c else Ok c
  end.

(** [el1_entry] up to the call of [kernel_main]. *)
Definition el1_main (fuel : nat) (c : cpu) : res cpu :=
  let c := run [Mov_imm 0 0; Msr SPSR_EL1 0;
                Mrs 0 CPACR_EL1; Orr_imm 0 0 (Z.shiftl 3 20); Msr CPACR_EL1 0; Mrs 0 CPACR_EL1;
                Mov_imm 0 bss_start; Mov_imm 1 bss_end] c in
  let c := wr 1 (u64 (rd 1 c - rd 0 c)) c in
  c ← memzero fuel c;
  Ok (run [Mov_imm 0 kstack_top_hi; Mov_to_sp 0] c).
End Boot.

(** ** The register layouts *)

Record field := Field { fname : string; width : Z; doc : option (Z * Z) }.

Definition layout : Type := list field.
Open Scope string_scope.

Definition sctlr_el3_t : layout :=
  [Field "m" 1 (Some (0, 0)); Field "a" 1 (Some (1, 1)); Field "c" 1 (Some (2, 2)); Field "sa" 1 (Some (3, 3));
   Field "res1" 2 (Some (5, 4)); Field "naa" 1 (Some (6, 6)); Field "res2" 4 (Some (10, 7));
   Field "eos" 1 (Some (11, 11)); Field "i" 1 (Some (12, 12)); Field "endb" 1 (Some (13, 13));
   Field "res3" 5 (Some (18, 14)); Field "wxn" 1 (Some (19, 19)); Field "res4" 1 (Some (20, 20));
   Field "iesb" 1 (Some (21, 21)); Field "eis" 1 None; Field "res4" 2 (Some (24, 23)); Field "ee" 1 (Some (25, 25));
   Field "res5" 1 (Some (26, 26)); Field "enda" 1 (Some (27, 27)); Field "res5" 2 (Some (29, 28));
   Field "enib" 1 (Some (30, 30)); Field "enia" 1 (Some (31, 31)); Field "res6" 4 (Some (35, 32));
   Field "bt" 1 (Some (36, 36)); Field "itfsb" 1 (Some (37, 37)); Field "res0_38_39" 2 (Some (39, 38));
   Field "tcf" 2 (Some (41, 40)); Field "res0_42" 1 (Some (42, 42)); Field "ata" 1 (Some (43, 43));
   Field "dssbs" 1 (Some (44, 44)); Field "res0_45" 6 (Some (50, 45)); Field "tmt" 1 (Some (51, 51));
   Field "res0_52" 6 (Some (52, 52)); Field "tme" 1 (Some (53, 53)); Field "res0_54_60" 7 (Some (60, 54));
   Field "nmi" 1 (Some (61, 61)); Field "spintmask" 1 (Some (62, 62)); Field "res0_63" 1 (Some (63, 63))].

Definition scr_el3_t : layout :=
  [Field "ns" 1 (Some (0, 0)); Field "irq" 1 (Some (1, 1)); Field "irq" 1 (Some (2, 2)); Field "ea" 1 (Some (3, 3));
   Field "res1_5_4" 2 (Some (5, 4)); Field "res0_6" 1 (Some (6, 6)); Field "smd" 1 (Some (7, 7));
   Field "hce" 1 (Some (8, 8)); Field "sif" 1 (Some (9, 9)); Field "rw" 1 (Some (10, 10));
   Field "st" 1 (Some (11, 11)); Field "twi" 1 (Some (12, 12)); Field "twi" 1 (Some (13, 13));
   Field "tlor" 1 (Some (14, 14)); Field "terr" 1 (Some (15, 15)); Field "apk" 1 (Some (16, 16));
   Field "api" 1 (Some (17, 17)); Field "eel2" 1 (Some (18, 18)); Field "ease" 1 (Some (19, 19));
   Field "nmea" 1 (Some (20, 20)); Field "fien" 1 (Some (21, 21)); Field "res1_22_24" 3 (Some (24, 22));
   Field "enscxt" 1 (Some (25, 25)); Field "ata" 1 (Some (26, 26)); Field "fgte" 1 (Some (27, 27));
   Field "ecven" 1 (Some (28, 28)); Field "tweden" 1 (Some (29, 29)); Field "twedel" 4 (Some (33, 30));
   Field "res0_34" 1 (Some (34, 34)); Field "amvoffen" 1 (Some (35, 35)); Field "enaso" 1 (Some (36, 36));
   Field "aden" 1 (Some (37, 37)); Field "hxen" 1 (Some (38, 38)); Field "res0_39" 1 (Some (39, 39));
   Field "trndr" 1 (Some (40, 40)); Field "res0_41_63" 23 (Some (63, 41))].

Definition spsr_el3_t : layout :=
  [Field "m" 5 (Some (4, 0)); Field "res0_5" 1 (Some (5, 5)); Field "f" 1 (Some (6, 6)); Field "i" 1 (Some (7, 7));
   Field "a" 1 (Some (8, 8)); Field "d" 1 (Some (9, 9)); Field "btype" 2 (Some (11, 10));
   Field "ssbs" 1 (Some (9, 9)); Field "res0_13_19" 7 (Some (19, 13)); Field "il" 1 (Some (20, 20));
   Field "ss" 1 (Some (21, 21)); Field "pan" 1 (Some (22, 22)); Field "uao" 1 (Some (23, 23));
   Field "dit" 1 (Some (24, 24)); Field "tco" 1 (Some (25, 25)); Field "res0_26_27" 2 (Some (27, 26));
   Field "v" 1 (Some (28, 28)); Field "c" 1 (Some (29, 29)); Field "z" 1 (Some (30, 30));
   Field "n" 1 (Some (31, 31)); Field "res0_32_63" 32 (Some (63, 32))].

Definition sctlr_el2_t : layout :=
  [Field "m" 1 (Some (0, 0)); Field "a" 1 (Some (1, 1)); Field "c" 1 (Some (2, 2)); Field "sa0" 1 (Some (3, 3));
   Field "sa" 1 (Some (4, 4)); Field "cp15ben" 1 (Some (5, 5)); Field "naa" 1 (Some (6, 6));
   Field "itd" 1 (Some (7, 7)); Field "sed" 1 (Some (8, 8)); Field "uma" 1 (Some (9, 9));
   Field "enrctx" 1 (Some (5, 5)); Field "eos" 1 (Some (11, 11)); Field "i" 1 (Some (12, 12));
   Field "endb" 1 (Some (13, 13)); Field "dze" 1 (Some (14, 14)); Field "uct" 1 (Some (15, 15));
   Field "ntwi" 1 (Some (16, 16)); Field "res0_17" 1 (Some (17, 17)); Field "ntwe" 1 (Some (18, 18));
   Field "wxn" 1 (Some (19, 19)); Field "tscxt" 1 (Some (20, 20)); Field "iesb" 1 (Some (21, 21));
   Field "eis" 1 (Some (22, 22)); Field "span" 1 (Some (23, 23)); Field "e0e" 1 (Some (24, 24));
   Field "ee" 1 (Some (25, 25)); Field "uci" 1 (Some (26, 26)); Field "enda" 1 (Some (27, 27));
   Field "ntlsmd" 1 (Some (28, 28)); Field "lsmaoe" 1 (Some (29, 29)); Field "enib" 1 (Some (30, 30));
   Field "enia" 1 (Some (31, 31)); Field "cmow" 1 (Some (32, 32)); Field "mscen" 1 (Some (33, 33));
   Field "enfpn" 1 (Some (34, 34)); Field "bt0" 1 (Some (35, 35)); Field "bt" 1 (Some (36, 36));
   Field "itfsb" 1 (Some (37, 37)); Field "tcf0" 2 (Some (39, 38)); Field "tcf" 2 (Some (41, 40));
   Field "ata0" 1 (Some (42, 42)); Field "ata" 1 (Some (43, 43)); Field "dssbs" 1 (Some (44, 44));
   Field "tweden" 1 (Some (45, 45)); Field "twedelc" 4 (Some (49, 46)); Field "res0_50_53" 1 (Some (53, 50));
   Field "enasr" 1 (Some (54, 54)); Field "enas0" 1 (Some (55, 55)); Field "enals" 1 (Some (56, 56));
   Field "epan" 1 (Some (57, 57)); Field "tcso0" 1 (Some (58, 58)); Field "tcso" 1 (Some (59, 59));
   Field "entp2" 1 (Some (60, 60)); Field "nmi" 1 (Some (61, 61)); Field "spintmask" 1 (Some (62, 62));
   Field "tidcp" 1 (Some (63, 63))].

Definition hcr_el2_t : layout := [].

Definition spsr_el2_t : layout := [].

Close Scope string_scope.

(** Where a field of width [w] goes, when the one before ends at [n]. *)
Definition place (n w : Z) : Z := if (n / 64 =? (n + w - 1) / 64)%Z then n else ((n + w - 1) / 64 * 64)%Z.

(** The lowest bit of the first field of a name, and the field of a value. *)
Fixpoint offset_from (n : Z) (name : string) (l : layout) : option (Z * Z) :=
  match l with
  | [] => None
  | f :: l => if decide (fname f = name) then Some (place n (width f), width f) else offset_from (place n (width f) + width f) name l
  end.
Definition get_field (l : layout) (name : string) (value : Z) : option Z :=
  (fun p => Z.land (Z.shiftr value p.1) (Z.ones p.2)) <$> offset_from 0 name l.

Definition total (l : layout) : Z := foldr (fun f n => width f + n) 0 l.

(** The fields that do not lie where their comments say. *)
Fixpoint misplaced (n : Z) (l : layout) : list string :=
  match l with
  | [] => []
  | f :: l =>
      let n := place n (width f) in
      match doc f with Some d => if decide (d = (n + width f - 1, n)) then [] else [fname f] | None => [] end ++ misplaced (n + width f) l
  end.
Fixpoint repeated (l : list string) : list string :=
  match l with
  | [] => []
  | x :: l => (if decide (x ∈ l) then [x] else []) ++ repeated l
  end.

(** ** What the boot path establishes *)

(** A C function that only touches devices and the registers it may use. *)
Definition quiet (h : callee) : Prop := forall c, exists c', h c = Ok c' /\
  sr c' = sr c /\ el c' = el c /\ spsel c' = spsel c /\ daif c' = daif c /\ forall i, 19 <= i < 30 -> xr c' i = xr c i.

Lemma lor_bit a n m : Z.testbit (Z.lor a (Z.shiftl 1 n)) m = Z.testbit a m || (0 <=? m) && (m =? n).
Proof.
  rewrite Z.lor_spec. f_equal. destruct (Z.leb_spec 0 m), (Z.eqb_spec m n); subst; cbn [andb].
  - destruct (Z.leb_spec 0 n); [|lia]. rewrite Z.shiftl_spec by lia. by rewrite Z.sub_diag.
  - rewrite Z.shiftl_spec by lia. change 1 with (2 ^ 0). rewrite Z.pow2_bits_false; [done|lia].
  - by rewrite Z.testbit_neg_r.
  - by rewrite Z.testbit_neg_r.
Qed.

Lemma eret_to c pc s : elr_of c = pc -> spsr_of c = s ->
  negb (Z.testbit s 4) && (spsr_el s <=? el c) && negb ((spsr_el s =? 0) && (spsr_sp s =? 1)) = true ->
  eret c = Ok (pc, Cpu (xr c) (sr c) (memw c) (spsr_el s) (spsr_sp s) (spsr_daif s)).
Proof. intros <- <- H. unfold eret. by rewrite H. Qed.

Section BootSpec.
Context (kstack_top kstack_top_hi vectors el2_entry map_high el1_entry : Z).
Context (uart_init_lo initialize_gic : callee).

Record at_el1 (c c' : cpu) : Prop := {
  al_level : el c' = 1 /\ spsel c' = 1 /\ daif c' = 15;
  al_stack : sp c' = kstack_top - 16;
  al_vectors : sr c' VBAR_EL1 = vectors;
  al_mmu : Z.testbit (sr c' SCTLR_EL1) 0 = false;
  al_hcr : sr c' HCR_EL2 = 2 ^ 31;
  al_scr : Z.testbit (sr c' SCR_EL3) 10 = true /\ Z.testbit (sr c' SCR_EL3) 0 = true;
  al_tree : xr c' 19 = xr c 0;
}.

(** The stack and the vectors, before the first call. *)
Definition prepare : list instr := core_id ++ [Mov_imm 0 kstack_top; Mov_to_sp 0] ++ irq_init_vectors vectors.

Lemma prepare_ok c : el c = 3 -> spsel c = 1 -> 0 <= vectors < 2 ^ 64 ->
  let c' := run prepare c in el c' = 3 /\ spsel c' = 1 /\ sr c' VBAR_EL1 = vectors /\ xr c' 19 = xr c 0.
Proof.
  destruct c as [X S W l p d]. cbn [el spsel]. intros -> -> Hv. repeat split. apply u64_small. exact Hv.
Qed.

Lemma core_id_ok c : rd 0 (run core_id c) = Z.land (sr c MPIDR_EL1) 0xFF.
Proof. by destruct c. Qed.

Lemma set_smpen_ok c : let c' := run set_smpen c in
  el c' = el c /\ spsel c' = spsel c /\ sr c' VBAR_EL1 = sr c VBAR_EL1 /\ xr c' 19 = xr c 19.
Proof. by destruct c. Qed.

Lemma start_parks c : rd 0 (run core_id c) <> 0 ->
  boot kstack_top vectors el2_entry map_high uart_init_lo initialize_gic c = Ok Parked.
Proof. unfold boot, start. generalize (run core_id c). intros c1 H. by rewrite (proj2 (Z.eqb_neq _ _) H). Qed.

Lemma start_steps c c2 c3 pc c4 : rd 0 (run core_id c) = 0 -> uart_init_lo (run prepare c) = Ok c2 ->
  initialize_gic (run set_smpen c2) = Ok c3 -> eret (run (drop_to_el2 kstack_top el2_entry) c3) = Ok (pc, c4) ->
  start kstack_top vectors el2_entry uart_init_lo initialize_gic c = Ok (At pc c4).
Proof.
  unfold prepare. rewrite (run_app core_id). unfold start. generalize (run core_id c). intros c1 -> E2 E3 E4.
  cbn [Z.eqb negb]. rewrite (bind_ok _ _ _ E2). cbv beta. rewrite (bind_ok _ _ _ E3). cbv beta. exact (bind_ok _ _ _ E4).
Qed.

Lemma quiet_keeps h c v x e p : quiet h -> el c = e -> spsel c = p -> sr c VBAR_EL1 = v -> xr c 19 = x ->
  exists c', h c = Ok c' /\ el c' = e /\ spsel c' = p /\ sr c' VBAR_EL1 = v /\ xr c' 19 = x.
Proof.
  intros H He Hp Hv Hx. destruct (H c) as (c' & E & S & L & P & _ & X). exists c'.
  rewrite S, L, P, X by lia. done.
Qed.

(** Down from EL3. *)
Lemma leave_el3 c : el c = 3 -> spsel c = 1 -> 16 <= kstack_top < 2 ^ 64 -> 0 <= el2_entry < 2 ^ 64 ->
  exists c', eret (run (drop_to_el2 kstack_top el2_entry) c) = Ok (el2_entry, c') /\
    el c' = 2 /\ spsel c' = 1 /\ sr c' SP_EL1 = kstack_top - 16 /\ sr c' VBAR_EL1 = sr c VBAR_EL1 /\ sr c' HCR_EL2 = 0 /\
    sr c' SCR_EL3 = Z.lor (Z.lor (sr c SCR_EL3) (Z.shiftl 1 10)) (Z.shiftl 1 0) /\ xr c' 19 = xr c 19.
Proof.
  destruct c as [X S W l p d]. cbn [el spsel]. intros -> -> Hk He. change (2 ^ 64) with 18446744073709551616 in *.
  assert (Hs : u64 (u64 kstack_top - 16) = kstack_top - 16) by (rewrite (u64_small kstack_top), u64_small; lia).
  eexists. split; [apply (eret_to _ _ 9); [by apply u64_small|done|done]|]. repeat split. exact Hs.
Qed.

(** Down from EL2. *)
Lemma leave_el2 c : el c = 2 -> spsel c = 1 -> 0 <= map_high < 2 ^ 64 ->
  exists c', eret (run (el2_entry_code map_high) c) = Ok (map_high, c') /\
    el c' = 1 /\ spsel c' = 1 /\ daif c' = 15 /\ Z.testbit (sr c' SCTLR_EL1) 0 = false /\
    sr c' HCR_EL2 = Z.lor (sr c HCR_EL2) (Z.shiftl 1 31) /\ xr c' 19 = xr c 19 /\
    (forall r, r ∈ [SP_EL1; VBAR_EL1; SCR_EL3] -> sr c' r = sr c r).
Proof.
  destruct c as [X S W l p d]. cbn [el spsel]. intros -> -> Hm. change (2 ^ 64) with 18446744073709551616 in *.
  eexists. split; [apply (eret_to _ _ 0x3c5); [by apply u64_small|done|done]|]. repeat split.
  intros r Hr. assert (r = SP_EL1 \/ r = VBAR_EL1 \/ r = SCR_EL3) as [-> | [-> | ->]] by set_solver; reflexivity.
Qed.

(** C13: the boot path.  From the firmware's entry at EL3 the first core comes down
    through EL2 to [map_high] at EL1 on the level's own stack, sixteen bytes
    below the boot stack's top, with all interrupts masked, the MMU off, the
    vectors set, EL1 in AArch64 and non-secure, and with the device tree's address in
    [x19]; every other core is parked. *)
Theorem boot_reaches_el1 c :
  quiet uart_init_lo -> quiet initialize_gic -> el c = 3 -> spsel c = 1 ->
  16 <= kstack_top < 2 ^ 64 -> 0 <= vectors < 2 ^ 64 -> 0 <= el2_entry < 2 ^ 64 -> 0 <= map_high < 2 ^ 64 ->
  let r := boot kstack_top vectors el2_entry map_high uart_init_lo initialize_gic c in
  (Z.land (sr c MPIDR_EL1) 0xFF <> 0 -> r = Ok Parked) /\
  (Z.land (sr c MPIDR_EL1) 0xFF = 0 -> exists c', r = Ok (At map_high c') /\ at_el1 c c').
Proof.
  intros Hu Hg Hel Hsp Hk Hv He Hm r.
  unfold r. rewrite <- core_id_ok. split; intros Hid; [by apply start_parks|].
  destruct (prepare_ok c Hel Hsp Hv) as (L1 & P1 & V1 & X1).
  destruct (quiet_keeps _ _ _ _ _ _ Hu L1 P1 V1 X1) as (c2 & E2 & L2 & P2 & V2 & X2).
  destruct (set_smpen_ok c2) as (L2' & P2' & V2' & X2'). rewrite L2 in L2'. rewrite P2 in P2'. rewrite V2 in V2'. rewrite X2 in X2'.
  destruct (quiet_keeps _ _ _ _ _ _ Hg L2' P2' V2' X2') as (c3 & E3 & HL3 & HP3 & Hvb & HX3).
  destruct (leave_el3 c3 HL3 HP3 Hk He) as (c4 & E4 & L4 & P4 & K4 & V4 & H4 & R4 & X4).
  destruct (leave_el2 c4 L4 P4 Hm) as (c5 & E5 & L5 & P5 & D5 & M5 & H5 & X5 & S5).
  exists c5. split.
  - unfold boot. rewrite (start_steps _ _ _ _ _ Hid E2 E3 E4). cbn [mbind res_bind]. rewrite Z.eqb_refl. unfold el2_main. by rewrite E5.
  - split; try done.
    + unfold sp, sp_reg. rewrite P5, L5. cbn. rewrite S5; [done|by apply (bool_decide_unpack _)].
    + rewrite S5; [congruence|by apply (bool_decide_unpack _)].
    + rewrite H5, H4. done.
    + rewrite S5, R4, !lor_bit by by apply (bool_decide_unpack _). cbn. by rewrite !orb_true_r.
    + congruence.
Qed.
End BootSpec.

(** A board: addresses as the linker script places them, and C functions that
    change nothing. *)
Definition reset_cpu : cpu := Cpu (fun i => if i =? 0 then 0x2eff0000 else 0) (fun _ => 0) (fun _ => 0) 3 1 15.

Lemma boot_reaches_el1_witness : exists c',
  boot 0x100000 0x82000 0x80100 0x80200 (fun c => Ok c) (fun c => Ok c) reset_cpu = Ok (At 0x80200 c') /\ at_el1 0x100000 0x82000 reset_cpu c'.
Proof.
  destruct (boot_reaches_el1 0x100000 0x82000 0x80100 0x80200 (fun c => Ok c) (fun c => Ok c) reset_cpu) as [_ H];
    try (intros c; by exists c); try done; try lia.
  by apply H.
Defined.

(** ** [memzero] *)

Lemma s64_small z : 0 <= z < 2 ^ 63 -> s64 z = z.
Proof.
  intros H. unfold s64. change (2 ^ 64) with 18446744073709551616. change (2 ^ 63) with 9223372036854775808 in *.
  rewrite Z.mod_small; lia.
Qed.

(** What it leaves: [w] words cleared from [a] on. *)
Definition cleared (a w : Z) (c c' : cpu) : Prop :=
  (forall i, 0 <= i < w -> memw c' (a + 8 * i) = 0) /\
  (forall x, (forall i, 0 <= i < w -> x <> a + 8 * i) -> memw c' x = memw c x).
Definition zero_words (n : Z) : Z := Z.max 1 ((n + 7) / 8).

Lemma zero_words_step n : 0 <= n -> zero_words n = if 8 <? n then 1 + zero_words (n - 8) else 1.
Proof.
  intros H. unfold zero_words. destruct (Z.ltb_spec 8 n).
  - replace (n - 8 + 7) with (n + 7 + (-1) * 8) by lia. rewrite Z_div_plus by lia.
    assert (2 <= (n + 7) / 8) by (apply Z.div_le_lower_bound; lia). lia.
  - assert ((n + 7) / 8 < 2) by (apply Z.div_lt_upper_bound; lia). lia.
Qed.

(** [memzero(a, n)] clears the words that hold [n] bytes, but one for no bytes at
    all, and returns. *)
Lemma memzero_ok fuel : forall c, 0 <= rd 0 c -> 0 <= rd 1 c < 2 ^ 63 -> rd 0 c + 8 * zero_words (rd 1 c) < 2 ^ 64 ->
  zero_words (rd 1 c) <= Z.of_nat fuel ->
  exists c', memzero fuel c = Ok c' /\ cleared (rd 0 c) (zero_words (rd 1 c)) c c' /\ sr c' = sr c /\ el c' = el c /\ spsel c' = spsel c /\
    forall i, 2 <= i < 31 -> xr c' i = xr c i.
Proof.
  induction fuel as [|fuel IH]; intros c Ha Hn Hw Hf.
  - unfold zero_words in Hf. lia.
  - change (2 ^ 64) with 18446744073709551616 in *. change (2 ^ 63) with 9223372036854775808 in *.
    pose proof (zero_words_step (rd 1 c) (proj1 Hn)) as Es. cbn [memzero].
    set (c1 := wr 1 _ _). change (rd 1 (wr 0 _ _)) with (rd 1 c).
    assert (R0 : rd 0 c1 = u64 (rd 0 c + 8)) by done. assert (R1 : rd 1 c1 = u64 (rd 1 c - 8)) by done.
    assert (M1 : forall x, memw c1 x = if x =? rd 0 c then 0 else memw c x) by done.
    assert (X1 : forall i, 2 <= i < 31 -> xr c1 i = xr c i).
    { intros i Hi. cbn. by rewrite !(proj2 (Z.eqb_neq i _)) by lia. }
    assert (S1 : sr c1 = sr c /\ el c1 = el c /\ spsel c1 = spsel c) by done. clearbody c1. destruct S1 as (S1 & L1 & P1).
    rewrite s64_small by (change (2 ^ 63) with 9223372036854775808; lia). destruct (Z.ltb_spec 8 (rd 1 c)).
    + assert (1 <= zero_words (rd 1 c - 8)) by apply Z.le_max_l. rewrite u64_small in R0, R1 by lia.
      destruct (IH c1) as (c' & E & C & S' & L' & P' & X'); try (rewrite ?R0, ?R1; lia).
      exists c'. split; [exact E|]. split; [|repeat split; try congruence; intros i Hi; rewrite X' by done; by apply X1].
      destruct C as [Cin Cout]. rewrite R0, R1 in Cin, Cout. rewrite Es. split.
      * intros i Hi. destruct (decide (i = 0)) as [->|]; [|replace (rd 0 c + 8 * i) with (rd 0 c + 8 + 8 * (i - 1)) by lia; apply Cin; lia].
        rewrite Cout, M1 by (intros; lia). by rewrite (proj2 (Z.eqb_eq _ _)) by lia.
      * intros x Hx. rewrite Cout, M1. { rewrite (proj2 (Z.eqb_neq _ _)); [done|]. specialize (Hx 0). lia. }
        intros i Hi. specialize (Hx (i + 1)). lia.
    + exists c1. split; [done|]. split; [|done]. rewrite Es. split.
      * intros i Hi. rewrite M1. by rewrite (proj2 (Z.eqb_eq _ _)) by lia.
      * intros x Hx. rewrite M1. rewrite (proj2 (Z.eqb_neq _ _)); [done|]. specialize (Hx 0). lia.
Qed.

(** ** Into the high half *)

Lemma enable_mmu_ok kstack_top_hi el1_entry h1 h2 c :
  el c = 1 -> spsel c = 1 -> 16 <= kstack_top_hi < 2 ^ 64 -> 0 <= el1_entry < 2 ^ 64 -> quiet h1 -> quiet h2 ->
  exists c', enable_mmu kstack_top_hi el1_entry h1 h2 c = Ok (At el1_entry c') /\
    sr c' TTBR1_EL1 = xr c 0 /\ sr c' TTBR0_EL1 = xr c 1 /\ sr c' TCR_EL1 = TCR_VALUE /\ sr c' MAIR_EL1 = MAIR_VALUE /\
    sp c' = kstack_top_hi - 16 /\ xr c' 19 = xr c 19 /\
    Z.testbit (sr c' SCTLR_EL1) 0 = true /\ Z.testbit (sr c' SCTLR_EL1) 2 = true /\
    (forall m, m <> 0 -> m <> 2 -> Z.testbit (sr c' SCTLR_EL1) m = Z.testbit (sr c SCTLR_EL1) m).
Proof.
  intros Hel Hsp Hk He H1 H2. change (2 ^ 64) with 18446744073709551616 in *. unfold enable_mmu. set (c1 := run _ c).
  assert (F1 : el c1 = 1 /\ spsel c1 = 1 /\ xr c1 19 = xr c 19) by done.
  assert (G1 : sr c1 TTBR1_EL1 = xr c 0 /\ sr c1 TTBR0_EL1 = xr c 1 /\ sr c1 TCR_EL1 = TCR_VALUE /\ sr c1 MAIR_EL1 = MAIR_VALUE /\
    sr c1 SCTLR_EL1 = sr c SCTLR_EL1) by done. clearbody c1.
  destruct (H1 c1) as (c2 & E2 & S2 & L2 & P2 & _ & X2). rewrite (bind_ok _ _ _ E2). set (c2' := run _ c2).
  assert (F2 : el c2' = el c2 /\ spsel c2' = spsel c2 /\ sr c2' = sr c2 /\ xr c2' 19 = xr c2 19) by done. clearbody c2'.
  destruct (H2 c2') as (c3 & E3 & S3 & L3 & P3 & _ & X3). rewrite (bind_ok _ _ _ E3).
  destruct F2 as (F2 & F3 & F4 & F5). rewrite F4, S2 in S3. rewrite F2, L2, (proj1 F1) in L3. rewrite F3, P2, (proj1 (proj2 F1)) in P3.
  assert (X19 : xr c3 19 = xr c 19) by (rewrite X3, F5, X2 by lia; apply F1).
  rewrite <- S3 in G1. clear - Hk He G1 L3 P3 X19. destruct c3 as [X S W l p d]. cbn [el spsel sr xr] in *. subst.
  destruct G1 as (G1 & G2 & G3 & G4 & G5).
  eexists. split; [unfold rd; cbn -[u64 Z.lor Z.shiftl]; rewrite u64_small by lia; reflexivity|].
  cbn -[u64 Z.lor Z.shiftl Z.testbit]. unfold sp, set_fun. cbn -[u64 Z.lor Z.shiftl Z.testbit].
  rewrite (u64_small kstack_top_hi), (u64_small (kstack_top_hi - 16)) by lia. rewrite <- G5.
  do 6 (split; [done|]).
  match goal with |- Z.testbit ?q 0 = true /\ _ => change q with (Z.lor (Z.lor (S SCTLR_EL1) (Z.shiftl 1 0)) (Z.shiftl 1 2)) end.
  rewrite !lor_bit. split; [by rewrite orb_true_r|]. split; [by rewrite orb_true_r|].
  intros m N0 N2. rewrite !lor_bit. rewrite (proj2 (Z.eqb_neq m 0)), (proj2 (Z.eqb_neq m 2)) by done.
  by rewrite !andb_false_r, !orb_false_r.
Qed.

(** What the two values say: attribute 0 is [0x44], normal non-cacheable memory;
    the walks of [TTBR1] are non-cacheable and not shared, both halves have 48
    bits, and the physical size is 32 bits. *)
Lemma mair_values : Z.land MAIR_VALUE 0xFF = 0x44 /\ Z.land (Z.shiftr MAIR_VALUE 8) 0xFF = 0x04 /\ Z.land (Z.shiftr MAIR_VALUE 16) 0xFF = 0xFF.
Proof. by repeat split. Qed.

Definition tcr_bits (lo n : Z) : Z := Z.land (Z.shiftr TCR_VALUE lo) (Z.ones n).

Lemma tcr_fields : tcr_bits 0 6 = 16 /\ tcr_bits 16 6 = 16 /\ tcr_bits 24 2 = 0 /\ tcr_bits 26 2 = 0 /\ tcr_bits 28 2 = 0 /\
  tcr_bits 14 2 = 0 /\ tcr_bits 30 2 = 2 /\ tcr_bits 32 3 = 0.
Proof. by repeat split. Qed.

(** ** The register layouts *)

Lemma layout_sizes : total sctlr_el3_t = 69 /\ total scr_el3_t = 64 /\ total spsr_el3_t = 64 /\ total sctlr_el2_t = 61.
Proof. by repeat split. Qed.

Open Scope string_scope.
Lemma layout_comments :
  misplaced 0 sctlr_el3_t = ["res0_52"; "tme"; "res0_54_60"; "nmi"; "spintmask"; "res0_63"] /\
  misplaced 0 scr_el3_t = [] /\ misplaced 0 spsr_el3_t = ["ssbs"] /\
  misplaced 0 sctlr_el2_t = ["enrctx"; "res0_50_53"; "enasr"; "enas0"; "enals"; "epan"; "tcso0"; "tcso"; "entp2"; "nmi"; "spintmask"; "tidcp"].
Proof. vm_compute. by repeat split. Qed.

Lemma layout_names : repeated (map fname sctlr_el3_t) = ["res4"; "res5"] /\ repeated (map fname scr_el3_t) = ["irq"; "twi"] /\
  repeated (map fname spsr_el3_t) = [] /\ repeated (map fname sctlr_el2_t) = [].
Proof. vm_compute. by repeat split. Qed.

(** The values boot writes, read with the layouts. *)
Lemma boot_values : get_field spsr_el3_t "m" 0x9 = Some 9 /\ get_field spsr_el3_t "m" 0x3c5 = Some 5 /\
  get_field scr_el3_t "rw" (Z.lor (Z.shiftl 1 10) 1) = Some 1 /\ get_field scr_el3_t "ns" (Z.lor (Z.shiftl 1 10) 1) = Some 1 /\
  get_field sctlr_el2_t "m" 0 = Some 0.
Proof. vm_compute. by repeat split. Qed.
Close Scope string_scope.
