(* ===== verification/Ext4.v ===== *)
(** * The ext4 file system ([filesystem/disk.c], [filesystem/filesystem.c])

    Reading of directories, inodes and files from the card.  [disk s i] is byte
    [i] of sector [s]; a read of the card fills a buffer completely.  A buffer is
    the list of its bytes.  An inode is decoded from its 128 bytes; a file is
    the part of [file_t] that reading uses. *)
From S2P Require Import Prelude Mem KString.

Definition FS_START_SECTOR : Z := 0x104000.
Definition ROOT_SUPERBLOCK_SECTOR : Z := 0x104002.
Definition GROUP_DESC_SECTOR : Z := 0x104008.
Definition sizeof_ext4_block : Z := 4096.
Definition sizeof_sector : Z := 512.

(** Little-endian fields of a packed structure. *)
Definition le8 (l : list Z) (o : Z) : res Z := if o <? 0 then UB else deref (l !! Z.to_nat o).
Definition le16 (l : list Z) (o : Z) : res Z := a ← le8 l o; b ← le8 l (o + 1); Ok (a + 256 * b).
Definition le32 (l : list Z) (o : Z) : res Z := a ← le16 l o; b ← le16 l (o + 2); Ok (a + 65536 * b).
Fixpoint le32s (n : nat) (l : list Z) (o : Z) : res (list Z) :=
  match n with
  | O => Ok []
  | S n => x ← le32 l o; xs ← le32s n l (o + 4); Ok (x :: xs)
  end.

(** The fields of [ext_superblock] that are read, by their offsets. *)
Record ext_superblock := SuperBlock {
  s_log_block_size : Z;
  s_inodes_per_group : Z;
  s_magic : Z;
  s_inode_size : Z;
  s_desc_size : Z;
}.
Definition parse_superblock (l : list Z) : res ext_superblock :=
  log ← le32 l 24; ipg ← le32 l 40; magic ← le16 l 56; isz ← le16 l 88; dsz ← le8 l 254;
  Ok (SuperBlock log ipg magic isz dsz).

(** [ext4_inode]: mode, size and the block pointers. *)
Record ext4_inode := Inode {
  i_mode : Z;
  i_size_lo : Z;
  i_block : list Z;
}.
Definition parse_inode (l : list Z) (o : Z) : res ext4_inode :=
  m ← le16 l o; sz ← le32 l (o + 4); bs ← le32s 15 l (o + 40); Ok (Inode m sz bs).

Record ext4_dir_entry := DirEntry { de_inode : Z; rec_len : Z; name_len : Z }.
Definition parse_dir_entry (l : list Z) (o : Z) : res ext4_dir_entry :=
  i ← le32 l o; r ← le16 l (o + 4); n ← le8 l (o + 6); Ok (DirEntry i r n).

(** [memcpy] out of a buffer. *)
Definition sub_bytes (l : list Z) (o n : Z) : res (list Z) :=
  if (o <? 0) || (Z.of_nat (length l) <? o + n) then UB else Ok (take (Z.to_nat n) (drop (Z.to_nat o) l)).

(** Two strings laid out in memory, and [strcmp] of them. *)
Definition two_strings (a b : list Z) : mem := fun x => if x <? 4096 then nth (Z.to_nat x) a 0 else nth (Z.to_nat (x - 4096)) b 0.
Definition compare_names (a b : list Z) : res Z := strcmp 4096 (two_strings a b) 0 4096.

Section Ext4.
Context (disk : Z -> Z -> Z).

(** [emmc_seek_sector(sector); emmc_read(buf, n)]. *)
Definition read_sectors (sector n : Z) : list Z :=
  (fun i => disk (sector + i / 512) (i mod 512)) <$> seqZ 0 n.

(** [rootfs] and the statics of [disk.c]. *)
Record fs := Fs {
  root_inode : ext4_inode;
  block_size : Z;
  inode_size : Z;
  inodes_per_group : Z;
  group_descriptor_table : list Z;
}.

Definition sizeof_group_desc : Z := 32.
Definition bg_inode_table_lo (f : fs) (group : Z) : res Z := le32 (group_descriptor_table f) (sizeof_group_desc * group + 8).

(** The sector of an inode's block and the offset in it. *)
Definition inode_to_sector (f : fs) (inode_num : Z) : res (Z * Z) :=
  if inodes_per_group f =? 0 then UB
  else if block_size f =? 0 then UB
  else
    let group := u32 (u64 (inode_num - 1) / inodes_per_group f) in
    let index := u32 (u64 (inode_num - 1) mod inodes_per_group f) in
    let inode_offset := u64 (index * inode_size f) in
    let inode_block_offset := inode_offset / block_size f in
    let inode_offset_in_block := inode_offset mod block_size f in
    inode_table_block ← bg_inode_table_lo f group;
    Ok (u64 (FS_START_SECTOR + u64 (u64 (inode_table_block + inode_block_offset) * 8)), inode_offset_in_block).

(** The sector is computed on 32 bits. *)
Definition read_block (block_num : Z) : list Z :=
  read_sectors (u32 (FS_START_SECTOR + u32 (block_num * 8))) sizeof_ext4_block.

Definition read_inode (f : fs) (inode_num : Z) : res ext4_inode :=
  '(sector, offset) ← inode_to_sector f inode_num;
  parse_inode (read_sectors sector sizeof_ext4_block) offset.

(** The walk over the entries of a directory block; 0 (NULL) is "not found". *)
Fixpoint dir_loop (fuel : nat) (dir : list Z) (offset : Z) (name : list Z) : res Z :=
  match fuel with
  | O => Fuel
  | S fuel =>
      if offset <? 4096 then
        entry ← parse_dir_entry dir offset;
        if rec_len entry =? 0 then Ok 0
        else if de_inode entry =? 0 then dir_loop fuel dir (u32 (offset + rec_len entry)) name
        else
          entry_name ← sub_bytes dir (offset + 8) (name_len entry);
          c ← compare_names entry_name name;
          if c =? 0 then Ok (de_inode entry)
          else dir_loop fuel dir (u32 (offset + rec_len entry)) name
      else Ok 0
  end.
Definition inode_from_directory (dir name : list Z) : res Z := dir_loop 4097 dir 0 name.

(** [lookup(dirnode, name)]: the inode found replaces [dirnode]. *)
Fixpoint lookup_loop (f : fs) (blocks : list Z) (name : list Z) : res (option ext4_inode) :=
  match blocks with
  | [] => Ok None
  | block :: blocks =>
      if block =? 0 then lookup_loop f blocks name
      else
        inode_num ← inode_from_directory (read_block block) name;
        if negb (inode_num =? 0) then i ← read_inode f inode_num; Ok (Some i)
        else lookup_loop f blocks name
  end.
Definition lookup (f : fs) (dirnode : ext4_inode) (name : list Z) : res (option ext4_inode) :=
  lookup_loop f (take 15 (i_block dirnode)) name.

Definition filesystem_init : res fs :=
  sb ← parse_superblock (read_sectors ROOT_SUPERBLOCK_SECTOR (sizeof_sector * 2));
  if 22 <=? s_log_block_size sb then UB
  else
    let block_size := u64 (s32 (Z.shiftl 1024 (s_log_block_size sb))) in
    let table := read_sectors GROUP_DESC_SECTOR (sizeof_ext4_block * 8) in
    first ← le32 table 8;
    root ← parse_inode (read_sectors (u32 (FS_START_SECTOR + u32 (first * 8))) sizeof_ext4_block) (s_inode_size sb);
    Ok (Fs root block_size (s_inode_size sb) (s_inodes_per_group sb) table).

(** ** Files *)

Record file := MkFile { f_inode : ext4_inode; f_pos : Z }.

(** The walk of [open] over the names of a path, from a directory. *)
Fixpoint walk_path (f : fs) (node : ext4_inode) (names : list (list Z)) : res (option ext4_inode) :=
  match names with
  | [] => Ok (Some node)
  | name :: names =>
      r ← lookup f node name;
      match r with
      | None => Ok None
      | Some node => walk_path f node names
      end
  end.

(** [open(pathname, flags)] of a path given as its characters: a path that does
    not start at the root is refused. *)
Definition open (f : fs) (pathname : list Z) : res (option file) :=
  match pathname with
  | 47 :: _ =>
      r ← walk_path f (root_inode f) (tokens 47 pathname);
      match r with
      | None => Ok None
      | Some node => Ok (Some (MkFile node 0))
      end
  | _ => Ok None
  end.

(** [read_file_block]: the bytes put into the caller's buffer. *)
Definition read_file_block (fl : file) (count blockno : Z) : res (list Z * file) :=
  let block_offset := u32 (f_pos fl mod 4096) in
  let bytes_to_read := u32 (Z.min count (u32 (4096 - block_offset))) in
  bytes ← (if blockno =? 0 then Ok (replicate (Z.to_nat bytes_to_read) 0)
           else sub_bytes (read_block blockno) block_offset bytes_to_read);
  Ok (bytes, MkFile (f_inode fl) (u64 (f_pos fl + bytes_to_read))).

(** [read_direct] from block [i] on, [n] of the fifteen pointers left. *)
Fixpoint direct_loop (n : nat) (i : Z) (fl : file) (count : Z) (got : list Z) : res (list Z * file) :=
  match n with
  | O => Ok (got, fl)
  | S n =>
      blockno ← deref (i_block (f_inode fl) !! Z.to_nat i);
      '(bytes, fl) ← read_file_block fl (u64 (count - Z.of_nat (length got))) blockno;
      let got := got ++ bytes in
      if count <=? Z.of_nat (length got) then Ok (got, fl) else direct_loop n (i + 1) fl count got
  end.
Definition read_direct (fl : file) (count : Z) : res (list Z * file) :=
  let block_no := u32 (f_pos fl / 4096) in
  direct_loop (Z.to_nat (15 - block_no)) block_no fl count [].

(** The loop of [read_single_indirect]; it stops when the next block's number is
    128 or more. *)
Fixpoint indirect_loop (fuel : nat) (blocks : list Z) (offset new_blockno : Z) (fl : file) (count : Z) (got : list Z)
    : res (list Z * file) :=
  match fuel with
  | O => Fuel
  | S fuel =>
      if Z.of_nat (length got) <? count then
        '(bytes, fl) ← read_file_block fl (u64 (count - Z.of_nat (length got))) new_blockno;
        let got := got ++ bytes in
        let offset := offset + 1 in
        new_blockno ← le32 blocks (4 * offset);
        if 128 <=? new_blockno then Ok (got, fl) else indirect_loop fuel blocks offset new_blockno fl count got
      else Ok (got, fl)
  end.
Definition read_single_indirect (fuel : nat) (fl : file) (count offset : Z) : res (list Z * file) :=
  single_indirect_blockno ← deref (i_block (f_inode fl) !! 12%nat);
  let blocks := read_block single_indirect_blockno in
  new_blockno ← le32 blocks (4 * offset);
  indirect_loop fuel blocks offset new_blockno fl count [].

Definition read_double_indirect (fl : file) (count offset : Z) : res (list Z * file) :=
  double_indirect_blockno ← deref (i_block (f_inode fl) !! 13%nat);
  let blocks := read_block double_indirect_blockno in
  Ok ([], fl).
Definition read_triple_indirect (fl : file) (count offset : Z) : res (list Z * file) := Ok ([], fl).

(** [read(file, buf, count)] with a file and a buffer: [None] is the value -1. *)
Definition read (fuel : nat) (fl : file) (count : Z) : res (option (list Z) * file) :=
  let entries_per_block := 1024 in
  let entries_per_double_indirect := entries_per_block * entries_per_block in
  let entries_per_triple_indirect := entries_per_double_indirect * entries_per_block in
  let blockno := u32 (f_pos fl / 4096) in
  if blockno <? 12 then '(b, fl) ← read_direct fl count; Ok (Some b, fl)
  else if blockno <? 12 + entries_per_block then
    '(b, fl) ← read_single_indirect fuel fl count (blockno - 12); Ok (Some b, fl)
  else if blockno <? 12 + entries_per_block + entries_per_double_indirect then
    '(b, fl) ← read_double_indirect fl count (blockno - (12 + entries_per_block)); Ok (Some b, fl)
  else if blockno <? 12 + entries_per_block + entries_per_double_indirect + entries_per_triple_indirect then
    '(b, fl) ← read_triple_indirect fl count (blockno - (12 + entries_per_block + entries_per_double_indirect)); Ok (Some b, fl)
  else Ok (None, fl).

Definition SEEK_SET : Z := 0.
Definition SEEK_CUR : Z := 1.
Definition SEEK_END : Z := 2.
Definition seek (fl : file) (offset whence : Z) : Z * file :=
  if whence =? SEEK_SET then (0, MkFile (f_inode fl) offset)
  else if whence =? SEEK_CUR then (0, MkFile (f_inode fl) (u64 (f_pos fl + offset)))
  else if whence =? SEEK_END then (-1, fl)
  else (0, fl).
End Ext4.
