(* ===== verification/Ext4Spec.v ===== *)
(** * What the file system reads

    Directories as lists of entries, and the contents of a file as a function of
    the position. *)
From S2P Require Import Prelude Mem KString Ext4.

(** ** Reading a file through its direct blocks *)

Section Read.
Context (disk : Z -> Z -> Z).

(** Byte [pos] of block number [b] of the card. *)
Definition block_byte (b off : Z) : Z := disk (FS_START_SECTOR + b * 8 + off / 512) (off mod 512).

(** Byte [pos] of a file as its first fifteen pointers give it: pointer [pos /
    4096], a zero pointer standing for a hole. *)
Definition pointer_byte (i : ext4_inode) (pos : Z) : Z :=
  let b := nth (Z.to_nat (pos / 4096)) (i_block i) 0 in
  if b =? 0 then 0 else block_byte b (pos mod 4096).

(** The file system's own rule for the first twelve blocks and those behind the
    single indirect pointer. *)
Definition file_byte (i : ext4_inode) (pos : Z) : Z :=
  if pos / 4096 <? 12 then pointer_byte i pos
  else
    let table := nth 12 (i_block i) 0 in
    let e := 4 * (pos / 4096 - 12) in
    let b := block_byte table e + 256 * block_byte table (e + 1) + 65536 * (block_byte table (e + 2) + 256 * block_byte table (e + 3)) in
    if b =? 0 then 0 else block_byte b (pos mod 4096).

(** Fifteen pointers, within the part of the card that 32-bit sector numbers
    reach. *)
Record inode_ok (i : ext4_inode) : Prop := {
  ok_len : length (i_block i) = 15%nat;
  ok_range : forall b, b ∈ i_block i -> 0 <= b < 2 ^ 28;
}.

Lemma read_block_bytes b : 0 <= b < 2 ^ 28 -> read_block disk b = (block_byte b) <$> seqZ 0 4096.
Proof.
  change (2 ^ 28) with 268435456. intros Hb. unfold read_block, read_sectors, block_byte.
  unfold FS_START_SECTOR. rewrite (u32_small (b * 8)) by lia. rewrite u32_small by lia. done.
Qed.

Lemma sub_bytes_seq (g : Z -> Z) o n :
  0 <= o -> 0 <= n -> o + n <= 4096 -> sub_bytes (g <$> seqZ 0 4096) o n = Ok (g <$> seqZ o n).
Proof.
  intros. unfold sub_bytes. rewrite length_fmap, length_seqZ. rewrite (proj2 (Z.ltb_ge _ _)), (proj2 (Z.ltb_ge _ _)) by lia.
  cbn [orb]. f_equal. rewrite <- fmap_drop, <- fmap_take. f_equal.
  apply list_eq. intros i. destruct (decide (i < Z.to_nat n)%nat) as [Hi|Hi].
  - rewrite lookup_take, decide_True, lookup_drop by lia. rewrite !lookup_seqZ_lt by lia. f_equal. lia.
  - rewrite !(proj2 (lookup_ge_None _ _)); [done|rewrite length_seqZ; lia|rewrite length_take; lia].
Qed.

Lemma read_file_block_ok fl b n :
  0 <= f_pos fl < 2 ^ 63 -> 0 < n <= 2 ^ 62 -> 0 <= b < 2 ^ 28 ->
  nth (Z.to_nat (f_pos fl / 4096)) (i_block (f_inode fl)) 0 = b ->
  let k := Z.min n (4096 - f_pos fl mod 4096) in
  read_file_block disk fl n b = Ok (pointer_byte (f_inode fl) <$> seqZ (f_pos fl) k, MkFile (f_inode fl) (f_pos fl + k)).
Proof.
  change (2 ^ 63) with 9223372036854775808. change (2 ^ 62) with 4611686018427387904. intros Hp Hn Hb Eb k.
  pose proof (Z.mod_pos_bound (f_pos fl) 4096 ltac:(lia)) as Hm.
  unfold read_file_block. rewrite (u32_small (f_pos fl mod 4096)), (u32_small (4096 - _)), (u32_small (Z.min _ _)) by lia. fold k.
  assert (Hseq : forall g : Z -> Z, (forall x, f_pos fl <= x < f_pos fl + k -> pointer_byte (f_inode fl) x = g (x mod 4096)) ->
    g <$> seqZ (f_pos fl mod 4096) k = pointer_byte (f_inode fl) <$> seqZ (f_pos fl) k).
  { intros g Hg. apply list_eq. intros i. rewrite !list_lookup_fmap.
    destruct (decide (i < Z.to_nat k)%nat) as [Hi|Hi].
    - rewrite !lookup_seqZ_lt by lia. cbn. f_equal. rewrite Hg by lia. f_equal. zdiv.
    - rewrite !(proj2 (lookup_ge_None _ _)); [done|rewrite length_seqZ; lia..]. }
  assert (Hdiv : forall x, f_pos fl <= x < f_pos fl + k -> x / 4096 = f_pos fl / 4096) by (intros; zdiv).
  rewrite u64_small by lia. destruct (Z.eqb_spec b 0) as [E0|E0].
  - cbn [mbind res_bind]. do 2 f_equal. rewrite <- (Hseq (fun _ => 0)).
    + apply list_eq. intros i. destruct (decide (i < Z.to_nat k)%nat).
      * rewrite lookup_replicate_2, list_lookup_fmap, lookup_seqZ_lt by lia. done.
      * rewrite !(proj2 (lookup_ge_None _ _)); [done|rewrite length_fmap, length_seqZ; lia|rewrite length_replicate; lia].
    + intros x Hx. unfold pointer_byte. rewrite Hdiv, Eb, E0 by done. done.
  - rewrite read_block_bytes by done. rewrite sub_bytes_seq by lia. cbn [mbind res_bind]. do 2 f_equal.
    apply Hseq. intros x Hx. unfold pointer_byte. rewrite Hdiv, Eb by done. by rewrite (proj2 (Z.eqb_neq _ _)).
Qed.

Lemma direct_loop_ok n : forall i fl count got,
  inode_ok (f_inode fl) -> 0 <= i -> i + Z.of_nat n = 15 -> f_pos fl / 4096 = i -> 0 <= f_pos fl ->
  (Z.of_nat (length got) < count) -> count <= 2 ^ 62 -> f_pos fl + (count - Z.of_nat (length got)) <= 15 * 4096 ->
  direct_loop disk n i fl count got =
    Ok (got ++ (pointer_byte (f_inode fl) <$> seqZ (f_pos fl) (count - Z.of_nat (length got))),
        MkFile (f_inode fl) (f_pos fl + (count - Z.of_nat (length got)))).
Proof.
  induction n as [|n IH]; intros i fl count got Hok Hi Hin Hpi Hp Hc Hmax Hend; [zdiv|].
  change (2 ^ 62) with 4611686018427387904 in *. cbn [direct_loop]. destruct Hok as [Hl Hr].
  destruct (lookup_lt_is_Some_2 (i_block (f_inode fl)) (Z.to_nat i)) as [b Eb]; [lia|]. rewrite Eb. cbn [deref mbind res_bind].
  rewrite u64_small by lia.
  assert (Hnth : nth (Z.to_nat (f_pos fl / 4096)) (i_block (f_inode fl)) 0 = b) by (rewrite Hpi; by apply nth_lookup_Some).
  rewrite (read_file_block_ok fl b) by (first [exact Hnth|apply Hr; by eapply list_elem_of_lookup_2
    |change (2 ^ 63) with 9223372036854775808; lia|change (2 ^ 62) with 4611686018427387904; lia]).
  cbn [mbind res_bind]. set (m := count - Z.of_nat (length got)). set (k := Z.min m (4096 - f_pos fl mod 4096)).
  pose proof (Z.mod_pos_bound (f_pos fl) 4096 ltac:(lia)) as Hm.
  rewrite length_app, length_fmap, length_seqZ. destruct (Z.leb_spec count (Z.of_nat (length got + Z.to_nat k))) as [Hle|Hlt].
  - replace k with m by lia. done.
  - rewrite IH; cbn [f_inode f_pos]; [|by split|lia|lia|subst k; zdiv|lia|rewrite length_app, length_fmap, length_seqZ; lia|lia
      |rewrite length_app, length_fmap, length_seqZ; lia].
    rewrite length_app, length_fmap, length_seqZ. do 2 f_equal.
    + rewrite <- app_assoc. f_equal. rewrite <- fmap_app. f_equal. replace m with (k + (m - k)) by lia.
      rewrite seqZ_app by lia. f_equal. f_equal; lia.
    + f_equal. lia.
Qed.

Lemma read_direct_ok fl count fuel :
  inode_ok (f_inode fl) -> 0 <= f_pos fl < 12 * 4096 -> 0 < count -> f_pos fl + count <= 15 * 4096 ->
  read disk fuel fl count = Ok (Some (pointer_byte (f_inode fl) <$> seqZ (f_pos fl) count), MkFile (f_inode fl) (f_pos fl + count)).
Proof.
  intros Hok Hp Hc He. unfold read. assert (Hb : 0 <= f_pos fl / 4096 < 12) by zdiv.
  rewrite u32_small by lia. rewrite (proj2 (Z.ltb_lt _ _)) by lia.
  unfold read_direct. rewrite u32_small by lia.
  rewrite (direct_loop_ok (Z.to_nat (15 - f_pos fl / 4096))); [|done|lia|lia|done|lia|cbn; lia|change (2 ^ 62) with 4611686018427387904; lia|cbn; lia].
  cbn [length app mbind res_bind]. by rewrite Z.sub_0_r.
Qed.
End Read.

(** ** Directories *)

(** A C string laid out by [two_strings]. *)
Lemma cstr_list m base (l : list Z) :
  (forall i x, l !! i = Some x -> m (base + Z.of_nat i) = x) -> m (base + Z.of_nat (length l)) = 0 ->
  Forall (fun x => x <> 0) l -> cstr m base l.
Proof.
  revert base. induction l as [|x l IH]; intros base Hl He Hf; cbn.
  - by rewrite Z.add_0_r in He.
  - apply Forall_cons in Hf as [Hx Hf]. split; [done|]. split; [by rewrite <- (Hl 0%nat x) by done; rewrite Z.add_0_r|].
    apply IH; [|by rewrite <- He; f_equal; cbn [length]; lia|done].
    intros i y E. rewrite <- (Hl (S i) y) by done. f_equal. lia.
Qed.

Lemma compare_names_ok a b :
  Forall (fun x => x <> 0) a -> Forall (fun x => x <> 0) b -> (length a < 4095)%nat ->
  compare_names a b = Ok (if decide (a = b) then 0 else 1).
Proof.
  intros Ha Hb Hl. unfold compare_names. apply strcmp_ok.
  - apply cstr_list; [| |done]; intros; unfold two_strings.
    + rewrite (proj2 (Z.ltb_lt _ _)) by (apply lookup_lt_Some in H; lia). rewrite Z.add_0_l, Nat2Z.id. by apply nth_lookup_Some.
    + rewrite (proj2 (Z.ltb_lt _ _)) by lia. apply nth_overflow. lia.
  - apply cstr_list; [| |done]; intros; unfold two_strings; rewrite (proj2 (Z.ltb_ge _ _)) by lia.
    + replace (4096 + Z.of_nat i - 4096) with (Z.of_nat i) by lia. rewrite Nat2Z.id. by apply nth_lookup_Some.
    + apply nth_overflow. lia.
  - lia.
Qed.

(** The entries from offset [off] on: inode and name of each live one. *)
Inductive dir_at (dir : list Z) : Z -> list (Z * list Z) -> Prop :=
| dir_end off : 4096 <= off -> dir_at dir off []
| dir_skip off r n es :
    0 <= off < 4096 -> parse_dir_entry dir off = Ok (DirEntry 0 r n) -> 0 < r < 65536 ->
    dir_at dir (off + r) es -> dir_at dir off es
| dir_name off ino r name es :
    0 <= off < 4096 -> parse_dir_entry dir off = Ok (DirEntry ino r (Z.of_nat (length name))) -> 0 < r < 65536 -> ino <> 0 ->
    sub_bytes dir (off + 8) (Z.of_nat (length name)) = Ok name ->
    Forall (fun x => x <> 0) name -> (length name < 256)%nat ->
    dir_at dir (off + r) es -> dir_at dir off ((ino, name) :: es).

(** The inode of the first entry with a name. *)
Fixpoint find_name (es : list (Z * list Z)) (name : list Z) : Z :=
  match es with
  | [] => 0
  | (ino, n) :: es => if decide (n = name) then ino else find_name es name
  end.

(** One turn of the walk. *)
Lemma dir_loop_step dir off name fuel : dir_loop (S fuel) dir off name =
  if off <? 4096 then
    entry ← parse_dir_entry dir off;
    if rec_len entry =? 0 then Ok 0
    else if de_inode entry =? 0 then dir_loop fuel dir (u32 (off + rec_len entry)) name
    else
      entry_name ← sub_bytes dir (off + 8) (name_len entry);
      c ← compare_names entry_name name;
      if c =? 0 then Ok (de_inode entry)
      else dir_loop fuel dir (u32 (off + rec_len entry)) name
  else Ok 0.
Proof. reflexivity. Qed.

Lemma dir_loop_ok dir off es name fuel :
  dir_at dir off es -> 0 <= off -> Forall (fun x => x <> 0) name -> 4096 - off < Z.of_nat fuel ->
  (0 < fuel)%nat -> dir_loop fuel dir off name = Ok (find_name es name).
Proof.
  intros Hd. revert fuel. induction Hd as [off Hoff|off r n es Hoff Ep Hr Hd IH|off ino r nm es Hoff Ep Hr Hi Es Hz Hl Hd IH];
    intros fuel H0 Hn Hf Hp; (destruct fuel as [|fuel]; [lia|]); rewrite dir_loop_step.
  - by rewrite (proj2 (Z.ltb_ge _ _)).
  - rewrite (proj2 (Z.ltb_lt _ _)) by lia. rewrite Ep, bind_Ok. cbn [rec_len de_inode].
    rewrite (proj2 (Z.eqb_neq _ _)) by lia. rewrite Z.eqb_refl, u32_small by lia. apply IH; [lia|done|lia|lia].
  - rewrite (proj2 (Z.ltb_lt _ _)) by lia. rewrite Ep, bind_Ok. cbn [rec_len de_inode name_len].
    rewrite !(proj2 (Z.eqb_neq _ _)) by lia. rewrite Es, bind_Ok.
    rewrite compare_names_ok by (done || lia). rewrite bind_Ok. cbn [find_name].
    case_decide; [done|]. cbn [Z.eqb]. rewrite u32_small by lia. apply IH; [lia|done|lia|lia].
Qed.

(** ** Termination on any directory block *)

Lemma strcmp_terminates fuel : forall m a b,
  (exists i, 0 <= i < Z.of_nat fuel /\ m (a + i) = 0) -> exists c, strcmp fuel m a b = Ok c.
Proof.
  induction fuel as [|fuel IH]; intros m a b (i & Hi & E); [lia|]. cbn [strcmp].
  destruct (Z.eqb_spec (m a) 0) as [Ea|Ea]; cbn [negb andb]; [eauto|].
  destruct (Z.eqb_spec (m b) 0); cbn [negb]; [eauto|]. destruct (Z.eqb_spec (m a) (m b)); cbn [negb]; [|eauto].
  apply IH. exists (i - 1). replace (a + 1 + (i - 1)) with (a + i) by lia. split; [|done].
  destruct (Z.eq_dec i 0) as [->|]; [by rewrite Z.add_0_r in E|lia].
Qed.

Definition bytes_ok (l : list Z) : Prop := Forall (fun x => 0 <= x < 256) l.

Lemma le8_range l o x : bytes_ok l -> le8 l o = Ok x -> 0 <= x < 256.
Proof.
  unfold le8. intros Hb E. destruct (o <? 0); [done|]. destruct (l !! Z.to_nat o) as [y|] eqn:El; [|done].
  cbn in E. injection E as <-. by eapply Forall_lookup_1 in Hb.
Qed.

Lemma le16_range l o x : bytes_ok l -> le16 l o = Ok x -> 0 <= x < 65536.
Proof.
  intros Hb E. unfold le16 in E. inv_bind E. inv_bind E. apply le8_range in Ha, Ha0; try done. injection E as <-. lia.
Qed.

Lemma le_not_fuel l o : le8 l o <> Fuel /\ le16 l o <> Fuel /\ le32 l o <> Fuel.
Proof.
  assert (H8 : forall o, le8 l o <> Fuel) by (intros p; unfold le8; destruct (p <? 0); [done|by destruct (l !! Z.to_nat p)]).
  assert (H16 : forall o, le16 l o <> Fuel).
  { intros p. unfold le16. pose proof (H8 p). pose proof (H8 (p + 1)).
    destruct (le8 l p); cbn; try done. by destruct (le8 l (p + 1)). }
  split; [done|]. split; [done|]. unfold le32. pose proof (H16 o). pose proof (H16 (o + 2)).
  destruct (le16 l o); cbn; try done. by destruct (le16 l (o + 2)).
Qed.

Lemma dir_loop_terminates dir name fuel : forall off,
  bytes_ok dir -> 0 <= off -> 4096 - off < Z.of_nat fuel -> (0 < fuel)%nat -> dir_loop fuel dir off name <> Fuel.
Proof.
  induction fuel as [|fuel IH]; intros off Hb Ho Hf Hp; [lia|]. rewrite dir_loop_step.
  destruct (Z.ltb_spec off 4096) as [Hlt|]; [|done].
  destruct (parse_dir_entry dir off) as [[ino r n]| | |] eqn:Ep; [rewrite bind_Ok; cbn [rec_len de_inode name_len]|by cbn..|].
  - assert (Hr : 0 <= r < 65536 /\ 0 <= n < 256).
    { unfold parse_dir_entry in Ep. inv_bind Ep. inv_bind Ep. inv_bind Ep. injection Ep as <- <- <-.
      apply le16_range in Ha0; [|done]. by apply le8_range in Ha1. }
    destruct (Z.eqb_spec r 0); [done|]. rewrite u32_small by lia.
    assert (Hrec : dir_loop fuel dir (off + r) name <> Fuel) by (apply IH; [done|lia|lia|lia]).
    destruct (Z.eqb_spec ino 0); [done|].
    destruct (sub_bytes dir (off + 8) n) as [en| | |] eqn:Es; [rewrite bind_Ok|by cbn..|].
    + destruct (strcmp_terminates 4096 (two_strings en name) 0 4096) as [c Ec].
      { exists (Z.of_nat (length en)). unfold sub_bytes in Es. destruct ((off + 8 <? 0) || _); [done|]. injection Es as <-.
        rewrite length_take. split; [lia|]. unfold two_strings. rewrite (proj2 (Z.ltb_lt _ _)) by lia.
        apply nth_overflow. rewrite length_take. lia. }
      replace (compare_names en name) with (Ok c) by (symmetry; exact Ec). rewrite bind_Ok. by destruct (c =? 0).
    + unfold sub_bytes in Es. by destruct ((off + 8 <? 0) || _).
  - unfold parse_dir_entry in Ep. destruct (le_not_fuel dir off) as (_ & _ & H32).
    destruct (le_not_fuel dir (off + 4)) as (_ & H16 & _). destruct (le_not_fuel dir (off + 6)) as (H8 & _ & _).
    destruct (le32 dir off); cbn in Ep; try done. destruct (le16 dir (off + 4)); cbn in Ep; try done.
    by destruct (le8 dir (off + 6)).
Qed.

(** ** Claims *)

(** The blocks of a directory and their entries. *)
Definition dir_blocks (disk : Z -> Z -> Z) (bs : list Z) (ess : list (list (Z * list Z))) : Prop :=
  Forall2 (fun b es => if b =? 0 then es = [] else dir_at (read_block disk b) 0 es) bs ess.

Lemma find_name_concat_cons es ess name :
  (forall i n, (i, n) ∈ es -> i <> 0) ->
  find_name (es ++ concat ess) name = if find_name es name =? 0 then find_name (concat ess) name else find_name es name.
Proof.
  induction es as [|[i n] es IH]; intros Hn; cbn; [done|]. case_decide.
  - rewrite (proj2 (Z.eqb_neq _ _)); [done|]. apply (Hn i n). left.
  - apply IH. intros j m Hj. apply (Hn j m). by right.
Qed.

Lemma dir_at_live dir off es : dir_at dir off es -> forall i n, (i, n) ∈ es -> i <> 0.
Proof.
  induction 1 as [|off r k es Hoff Ep Hr Hd IH|off ino r nm es Hoff Ep Hr Hi Es Hz Hl Hd IH]; intros i n Hin; [by apply not_elem_of_nil in Hin|by eapply IH|].
  apply elem_of_cons in Hin as [[= -> ->]|Hin]; [done|by eapply IH].
Qed.

(** C17: looking a name up in a directory.  The search ends on every block of
    bytes, whatever record lengths it holds; in a well-formed directory it finds
    the inode of the first live entry with that name over all the blocks, reads
    it, and reports nothing when there is none. *)
Theorem directory_lookup disk f bs ess name size mode :
  (forall dir nm, bytes_ok dir -> inode_from_directory dir nm <> Fuel) /\
  ((length bs <= 15)%nat -> dir_blocks disk bs ess -> Forall (fun x => x <> 0) name ->
   lookup disk f (Inode mode size bs) name =
     if find_name (concat ess) name =? 0 then Ok None
     else i ← read_inode disk f (find_name (concat ess) name); Ok (Some i)).
Proof.
  split.
  - intros dir nm Hb. apply dir_loop_terminates; [done|lia|lia|lia].
  - intros Hl Hd Hn. unfold lookup. cbn [i_block]. rewrite take_ge by done. clear Hl.
    induction Hd as [|b es bs ess Hb Hd IH]; cbn [lookup_loop concat]; [done|].
    destruct (Z.eqb_spec b 0) as [Eb|Eb].
    + subst es. apply IH.
    + unfold inode_from_directory. rewrite (dir_loop_ok _ _ es) by (done || lia). cbn [mbind res_bind].
      rewrite find_name_concat_cons by by eapply dir_at_live.
      destruct (Z.eqb_spec (find_name es name) 0) as [E|E]; cbn [negb]; [apply IH|].
      by rewrite (proj2 (Z.eqb_neq _ _) E).
Qed.

(** A card whose sector 0x104008, block 1, starts with the live entry [a], inode
    7, of length 4096. *)
Definition dir_disk : Z -> Z -> Z := fun s i =>
  if (s =? FS_START_SECTOR + 8) && (i <? 9) then nth (Z.to_nat i) [7; 0; 0; 0; 0; 16; 1; 2; 97] 0 else 0.

Lemma dir_disk_block : dir_blocks dir_disk [0; 1] [[]; [(7, [97])]].
Proof.
  constructor; [done|]. constructor; [|constructor]. cbn [Z.eqb].
  apply (dir_name _ 0 7 4096 [97]); [lia|vm_compute; reflexivity|lia|lia|vm_compute; reflexivity| |cbn; lia|].
  - repeat constructor. lia.
  - apply dir_end. lia.
Qed.

Definition dir_fs : fs := Fs (Inode 0 0 [0; 1]) 4096 128 8192 (replicate 64 0).

Lemma directory_lookup_witness :
  lookup dir_disk dir_fs (Inode 0 0 [0; 1]) [97] = (i ← read_inode dir_disk dir_fs 7; Ok (Some i)) /\
  lookup dir_disk dir_fs (Inode 0 0 [0; 1]) [98] = Ok None.
Proof.
  split.
  - apply (proj2 (directory_lookup dir_disk dir_fs [0; 1] [[]; [(7, [97])]] [97] 0 0)); [cbn; lia|apply dir_disk_block|repeat constructor; lia].
  - apply (proj2 (directory_lookup dir_disk dir_fs [0; 1] [[]; [(7, [97])]] [98] 0 0)); [cbn; lia|apply dir_disk_block|repeat constructor; lia].
Defined.

(** C18: [read] of a range within the first twelve blocks returns exactly the
    file's bytes there, holes as zeros, and advances the position by their
    number. *)
Theorem read_file_content disk fl count fuel :
  inode_ok (f_inode fl) -> 0 <= f_pos fl -> 0 < count -> f_pos fl + count <= 12 * 4096 ->
  read disk fuel fl count = Ok (Some (file_byte disk (f_inode fl) <$> seqZ (f_pos fl) count), MkFile (f_inode fl) (f_pos fl + count)).
Proof.
  intros Hok Hp Hc He. rewrite read_direct_ok by (done || lia). do 3 f_equal.
  apply list_fmap_ext. intros i x Hx. apply lookup_seqZ in Hx as [-> Hi]. unfold file_byte.
  rewrite (proj2 (Z.ltb_lt _ _)); [done|]. zdiv.
Qed.

(** Block 1 holds the file's first block; the others are holes. *)
Definition small_inode : ext4_inode := Inode 0 0 (1 :: replicate 14 0).

Lemma small_inode_ok : inode_ok small_inode.
Proof.
  split; [done|]. intros b Hb. cbn in Hb. change (2 ^ 28) with 268435456.
  rewrite !elem_of_cons in Hb. destruct_or! Hb; subst; try lia. by apply not_elem_of_nil in Hb.
Qed.

Lemma read_file_content_witness :
  read dir_disk 1 (MkFile small_inode 4) 5 = Ok (Some [0; 16; 1; 2; 97], MkFile small_inode 9).
Proof.
  rewrite (read_file_content dir_disk (MkFile small_inode 4) 5 1); [vm_compute; reflexivity|apply small_inode_ok|cbn; lia|lia|cbn; lia].
Defined.

(** A read that starts in the direct blocks and runs on goes through the
    indirect pointers as if they were direct ones: the bytes behind the twelfth
    block are those of the table of block numbers itself. *)
Lemma read_runs_into_table disk fl count fuel pos :
  inode_ok (f_inode fl) -> 0 <= f_pos fl < 12 * 4096 -> f_pos fl + count <= 15 * 4096 ->
  12 * 4096 <= pos < 13 * 4096 -> pos < f_pos fl + count -> nth 12 (i_block (f_inode fl)) 0 <> 0 ->
  exists got fl', read disk fuel fl count = Ok (Some got, fl') /\
    got !! Z.to_nat (pos - f_pos fl) = Some (block_byte disk (nth 12 (i_block (f_inode fl)) 0) (pos mod 4096)).
Proof.
  intros Hok Hp He Hpos Hin Hnz. rewrite read_direct_ok by (done || lia). eexists _, _. split; [done|].
  rewrite list_lookup_fmap, lookup_seqZ_lt by lia. cbn. f_equal.
  replace (f_pos fl + Z.of_nat (Z.to_nat (pos - f_pos fl))) with pos by lia. unfold pointer_byte.
  replace (Z.to_nat (pos / 4096)) with 12%nat by zdiv. by rewrite (proj2 (Z.eqb_neq _ _)).
Qed.

Definition big_inode : ext4_inode := Inode 0 0 (replicate 12 0 ++ [1; 0; 0]).

Lemma read_runs_into_table_witness : exists got fl',
  read dir_disk 1 (MkFile big_inode 49150) 100 = Ok (Some got, fl') /\ got !! 2%nat = Some 7.
Proof.
  destruct (read_runs_into_table dir_disk (MkFile big_inode 49150) 100 1 49152) as (got & fl' & E & H);
    [|cbn; lia|cbn; lia|lia|cbn; lia|vm_compute; discriminate|].
  - split; [done|]. intros b Hb. cbn in Hb. change (2 ^ 28) with 268435456.
    rewrite !elem_of_cons in Hb. destruct_or! Hb; subst; try lia. by apply not_elem_of_nil in Hb.
  - exists got, fl'. split; [exact E|]. change (Z.to_nat (49152 - f_pos (MkFile big_inode 49150))) with 2%nat in H.
    rewrite H. vm_compute. reflexivity.
Defined.
