(* ===== verification/Listing.v ===== *)
(** * Listings of the disk ([filesystem/disk.c])

    The routines that print a partition table, a FAT directory and an ext4
    directory; what they print is their result. *)
From S2P Require Import Prelude Mem KString Ext4 Ext4Spec.

(** ** The partition table *)

Definition sizeof_partition_entry : Z := 16.
Record partition_entry := Partition { status : Z; type : Z; first_lba_sector : Z; num_sectors : Z }.
Definition parse_partition (mbr : list Z) (i : Z) : res partition_entry :=
  let o := 0x1BE + sizeof_partition_entry * i in
  s ← le8 mbr o; t ← le8 mbr (o + 4); f ← le32 mbr (o + 8); n ← le32 mbr (o + 12); Ok (Partition s t f n).

(** One line per partition, [None] for an unused one. *)
Fixpoint partition_loop (n : nat) (i : Z) (mbr : list Z) : res (list (option partition_entry)) :=
  match n with
  | O => Ok []
  | S n =>
      p ← parse_partition mbr i;
      l ← partition_loop n (i + 1) mbr;
      Ok ((if type p =? 0 then None else Some p) :: l)
  end.
Definition print_partitions (mbr : list Z) : res (list (option partition_entry)) := partition_loop 4 0 mbr.

(** ** A FAT directory *)

Definition sizeof_fat32_entry : Z := 32.
(** Name, extension, and the attributes unless it is the volume label. *)
Record fat_line := FatLine { filename : list Z; extension : list Z; attributes : option Z }.

Fixpoint fat_loop (n : nat) (o : Z) (s : list Z) : res (list fat_line) :=
  match n with
  | O => Ok []
  | S n =>
      first ← le8 s o;
      if first =? 0 then Ok []
      else
        attr ← le8 s (o + 11);
        if (first =? 0xE5) || (attr =? 0xF) then fat_loop n (o + sizeof_fat32_entry) s
        else
          name ← sub_bytes s o 8;
          ext ← sub_bytes s (o + 8) 3;
          l ← fat_loop n (o + sizeof_fat32_entry) s;
          Ok (FatLine name ext (if Z.land attr 0x08 =? 0 then Some attr else None) :: l)
  end.
Definition print_fat32_directory (s : list Z) : res (list fat_line) := fat_loop 16 0 s.

(** ** An ext4 directory *)

(** The string that [%s] prints of a name copied out of an entry. *)
Fixpoint up_to_nul (l : list Z) : list Z :=
  match l with
  | [] => []
  | c :: l => if c =? 0 then [] else c :: up_to_nul l
  end.

Fixpoint print_loop (fuel : nat) (dir : list Z) (offset : Z) : res (list (list Z)) :=
  match fuel with
  | O => Fuel
  | S fuel =>
      if offset <? 4096 then
        entry ← parse_dir_entry dir offset;
        if de_inode entry =? 0 then print_loop fuel dir (u32 (offset + rec_len entry))
        else
          name ← sub_bytes dir (offset + 8) (if 256 <=? name_len entry then 255 else name_len entry);
          l ← print_loop fuel dir (u32 (offset + rec_len entry));
          Ok (up_to_nul name :: l)
      else Ok []
  end.
Definition print_dir (dir : list Z) : res (list (list Z)) := print_loop 4097 dir 0.

Section Read.
Context (disk : Z -> Z -> Z).

(** The root directory's first block, named by the pointers of the structure
    behind the root inode. *)
Definition read_superblock (inode_1 : ext4_inode) : res (Z * list (list Z)) :=
  root_block ← deref (i_block inode_1 !! 0%nat);
  let root_dir_start_sector := u64 (FS_START_SECTOR + u64 (root_block * 8)) in
  l ← print_dir (read_sectors disk (u32 root_dir_start_sector) sizeof_ext4_block);
  Ok (root_dir_start_sector, l).

Definition read_dir (f : fs) : res (list (list Z)) :=
  let lib_inode := 7340033 in
  '(inode_sector, offset) ← inode_to_sector f lib_inode;
  inode ← parse_inode (read_sectors disk (u32 inode_sector) sizeof_ext4_block) offset;
  dirblock ← deref (i_block inode !! 0%nat);
  let dirsector := u32 (FS_START_SECTOR + u32 (dirblock * 8)) in
  print_dir (read_sectors disk dirsector sizeof_ext4_block).
End Read.

(** ** What is listed *)

Lemma up_to_nul_id l : Forall (fun x => x <> 0) l -> up_to_nul l = l.
Proof. induction 1 as [|c l Hc _ IH]; cbn; [done|]. by rewrite (proj2 (Z.eqb_neq _ _) Hc), IH. Qed.

Lemma print_loop_step fuel dir off : print_loop (S fuel) dir off =
  if off <? 4096 then
    entry ← parse_dir_entry dir off;
    if de_inode entry =? 0 then print_loop fuel dir (u32 (off + rec_len entry))
    else
      name ← sub_bytes dir (off + 8) (if 256 <=? name_len entry then 255 else name_len entry);
      l ← print_loop fuel dir (u32 (off + rec_len entry));
      Ok (up_to_nul name :: l)
  else Ok [].
Proof. reflexivity. Qed.

Lemma print_loop_ok dir off es fuel : dir_at dir off es -> 0 <= off -> 4096 - off < Z.of_nat fuel -> (0 < fuel)%nat ->
  print_loop fuel dir off = Ok (snd <$> es).
Proof.
  intros Hd. revert fuel. induction Hd as [off Hoff|off r n es Hoff Ep Hr Hd IH|off ino r nm es Hoff Ep Hr Hi Es Hz Hl Hd IH];
    intros fuel H0 Hf Hp; (destruct fuel as [|fuel]; [lia|]); rewrite print_loop_step.
  - by rewrite (proj2 (Z.ltb_ge _ _)).
  - rewrite (proj2 (Z.ltb_lt _ _)) by lia. rewrite Ep, bind_Ok. cbn [rec_len de_inode].
    rewrite Z.eqb_refl, u32_small by lia. apply IH; lia.
  - rewrite (proj2 (Z.ltb_lt _ _)) by lia. rewrite Ep, bind_Ok. cbn [rec_len de_inode name_len].
    rewrite (proj2 (Z.eqb_neq _ _)), (proj2 (Z.leb_gt _ _)) by lia. rewrite Es, bind_Ok, u32_small by lia.
    rewrite IH by lia. cbn [mbind res_bind]. by rewrite up_to_nul_id.
Qed.

(** The listing and the search see the same names: in a well-formed directory
    a name is printed exactly when looking it up finds an inode. *)
Lemma listing_matches_lookup dir es name : dir_at dir 0 es -> Forall (fun x => x <> 0) name ->
  exists l i, print_dir dir = Ok l /\ inode_from_directory dir name = Ok i /\ (name ∈ l <-> i <> 0).
Proof.
  intros Hd Hn. exists (snd <$> es), (find_name es name).
  split; [apply print_loop_ok; [done|lia|lia|lia]|]. split; [apply dir_loop_ok; (done || lia)|].
  pose proof (dir_at_live dir 0 es Hd) as Hl. clear Hd Hn. induction es as [|[i n] es IH]; cbn [find_name fmap list_fmap snd].
  - split; [intros H; by apply elem_of_nil in H|done].
  - rewrite elem_of_cons. case_decide as Hc.
    + split; [intros _; apply (Hl i n); left|intros _; by left].
    + rewrite <- IH by (intros j m Hj; apply (Hl j m); by right). split; [intros [?|?]; [congruence|done]|by right].
Qed.

(** An entry of length 0, which the search treats as the end, holds the listing
    up for ever. *)
Lemma print_dir_stuck fuel dir off ino n : 0 <= off < 4096 -> parse_dir_entry dir off = Ok (DirEntry ino 0 n) -> ino = 0 ->
  print_loop fuel dir off = Fuel.
Proof.
  intros Ho Ep ->. induction fuel as [|fuel IH]; [done|]. rewrite print_loop_step, (proj2 (Z.ltb_lt _ _)) by lia.
  rewrite Ep, bind_Ok. cbn [de_inode rec_len]. rewrite Z.eqb_refl, Z.add_0_r, u32_small by lia. apply IH.
Qed.
