(* ===== verification/Elf.v ===== *)
(** * Loading programs ([filesystem/elf.c])

    [readelf] reads the headers from the first block of the file, gives every
    segment its pages in a new address space, copies the segment there and makes
    the running process continue in it.  The user memory written through the new
    tables is a function from addresses to bytes. *)
From S2P Require Import Prelude Mem KString KList Buddy Mmap Proc Vma VmaSpec Ext4.

Definition ELF_MAGIC : Z := 0x464c457f.
Definition PT_LOAD : Z := 1.
Definition PF_X : Z := 1.
Definition PF_W : Z := 2.
Definition PF_R : Z := 4.

Definition le64 (l : list Z) (o : Z) : res Z := a ← le32 l o; b ← le32 l (o + 4); Ok (a + 2 ^ 32 * b).

(** The fields of [elf64_header] that are used. *)
Record elf64_header := ElfHeader { e_magic : Z; e_entry : Z; e_phoff : Z; e_phnum : Z }.
Definition parse_header (l : list Z) : res elf64_header :=
  m ← le32 l 0; e ← le64 l 24; p ← le64 l 32; n ← le16 l 56; Ok (ElfHeader m e p n).

Record elf64_program_header := ProgramHeader {
  p_type : Z; p_flags : Z; p_offset : Z; p_vaddr : Z; p_filesz : Z; p_memsz : Z }.
Definition sizeof_program_header : Z := 56.
Definition parse_program_header (l : list Z) (o : Z) : res elf64_program_header :=
  t ← le32 l o; f ← le32 l (o + 4); off ← le64 l (o + 8); v ← le64 l (o + 16);
  fs ← le64 l (o + 32); ms ← le64 l (o + 40); Ok (ProgramHeader t f off v fs ms).

(** The mapping flags of a segment. *)
Definition segment_flags (p_flags : Z) : Z :=
  let flags := MAP_USER in
  let flags := if negb (Z.land p_flags PF_R =? 0) then Z.lor flags MAP_READ else flags in
  let flags := if negb (Z.land p_flags PF_W =? 0) then Z.lor flags MAP_WRITE else flags in
  if negb (Z.land p_flags PF_X =? 0) then Z.lor flags MAP_EXEC else flags.

(** The number of pages given to a segment. *)
Definition segment_pages (p_memsz : Z) : res Z :=
  l ← log2_pow2 (p_memsz / 4096);
  let order := u16 l in
  if 31 <=? order then UB else Ok (Z.shiftl 1 order).

Section Elf.
Context {M : Type} `{!ProcMem M}.
Context (disk : Z -> Z -> Z).

Record loader := Loader {
  ld_kern : kernel M;
  ld_user : mem;
  ld_file : file;
  ld_brk : Z;              (* [start_brk] *)
}.

(** The pages of a segment, one by one. *)
Fixpoint alloc_pages (n : nat) (i vaddr new_proc_l0 : Z) (k : kernel M) : res (kernel M) :=
  match n with
  | O => Ok k
  | S n =>
      '(phys_block, k) ← on_mem (pm_buddy_alloc PAGE_SIZE) k;
      k ← do_mem (pm_map (u64 (vaddr + i * PAGE_SIZE)) (va_to_pa phys_block) 0
            (Z.lor (Z.lor MAP_USER MAP_READ) MAP_WRITE) new_proc_l0) k;
      alloc_pages n (i + 1) vaddr new_proc_l0 k
  end.

(** [memcpy] into the user's memory. *)
Fixpoint store_bytes (a : Z) (l : list Z) (m : mem) : mem :=
  match l with
  | [] => m
  | x :: l => store_bytes (a + 1) l (store8 a x m)
  end.

(** One [PT_LOAD] segment.  The file is read into the 4096 bytes of the block
    buffer; the destination adds the offset in the page to an address that has
    it already. *)
Definition load_segment (fuel : nat) (ph : elf64_program_header) (new_proc_l0 : Z) (s : loader) : res loader :=
  let start_brk := Z.max (page_up (u64 (p_vaddr ph + p_memsz ph))) (ld_brk s) in
  let flags := segment_flags (p_flags ph) in
  n ← segment_pages (p_memsz ph);
  k ← alloc_pages (Z.to_nat n) 0 (p_vaddr ph) new_proc_l0 (ld_kern s);
  let '(_, fl) := seek (ld_file s) (p_offset ph) SEEK_SET in
  if 4096 <? p_filesz ph then UB
  else
    '(bytes, fl) ← read disk fuel fl (p_filesz ph);
    let in_page_offset := p_vaddr ph mod PAGE_SIZE in
    let user := store_bytes (u64 (p_vaddr ph + in_page_offset)) (take (Z.to_nat (p_filesz ph)) (default [] bytes)) (ld_user s) in
    let start_addr := page_down (p_vaddr ph) in
    let end_addr := page_up (u64 (p_vaddr ph + p_memsz ph)) in
    let k := with_mem (pm_update_mapping start_addr end_addr flags new_proc_l0 (kmem k)) k in
    Ok (Loader k user fl start_brk).

(** The loop over the program headers, [n] turns from the header at [ph]; a
    header of another type is not stepped over. *)
Fixpoint load_segments (fuel : nat) (n : nat) (block : list Z) (ph new_proc_l0 : Z) (s : loader) : res loader :=
  match n with
  | O => Ok s
  | S n =>
      p ← parse_program_header block ph;
      if negb (p_type p =? PT_LOAD) then load_segments fuel n block ph new_proc_l0 s
      else
        s ← load_segment fuel p new_proc_l0 s;
        load_segments fuel n block (ph + sizeof_program_header) new_proc_l0 s
  end.

Definition set_brks (b : Z) (p : pcb_t) : pcb_t :=
  Pcb (kernel_stack p) (ttbr p) (pstate p) (pid p) (waiting_on p) (parent p) b b (heap_vma p) (fds p).

(** [readelf(file)]: [false] when the file is not an ELF file. *)
Definition readelf (fuel : nat) (fl : file) (user : mem) (k : kernel M) : res (bool * kernel M * mem) :=
  '(_, k) ← on_mem (pm_kmalloc sizeof_ext4_block) k;
  '(bytes, fl) ← read disk fuel fl sizeof_ext4_block;
  let block := default [] bytes in
  header ← parse_header block;
  if negb (e_magic header =? ELF_MAGIC) then Ok (false, k, user)
  else
    '(new_proc_l0, k) ← on_mem pm_buddy_alloc_pt k;
    let k := set_ttbr0 (va_to_pa new_proc_l0) k in
    s ← load_segments fuel (Z.to_nat (e_phnum header)) block (e_phoff header) new_proc_l0 (Loader k user fl 0);
    let k := ld_kern s in
    let cur := get_current k in
    b ← get_pcb cur k;
    let old_ttbr := ttbr b in
    k ← upd_pcb cur (set_ttbr new_proc_l0) k;
    let trapframe := BASE_TRAPFRAME (kernel_stack b) in
    let k := store_kernel (trapframe + off_sp_el0) (USER_STACK_TOP - 16) k in
    let k := store_kernel (trapframe + off_elr_el1) (e_entry header) k in
    let k := store_kernel (trapframe + off_spsr_el1) 0 k in
    k ← do_mem (pm_reap_virtual_memory old_ttbr 0) k;
    k ← upd_pcb cur (set_brks (ld_brk s)) k;
    Ok (true, k, ld_user s).

(** Once the loop stands on a header that is not [PT_LOAD], it loads nothing
    more, however many headers follow. *)
Lemma load_segments_stuck fuel n block ph new_proc_l0 s p :
  parse_program_header block ph = Ok p -> p_type p <> PT_LOAD ->
  load_segments fuel n block ph new_proc_l0 s = Ok s.
Proof.
  intros Ep Ht. induction n as [|n IH]; cbn [load_segments]; [done|].
  rewrite Ep. cbn [mbind res_bind]. by rewrite (proj2 (Z.eqb_neq _ _) Ht).
Qed.

(** The loader loads the [PT_LOAD] headers that come before the first header
    of another type, in order, and no segment behind that header. *)
Lemma load_stops_at_other fuel n m block ph new_proc_l0 s p :
  (forall i, 0 <= i < Z.of_nat n -> exists q, parse_program_header block (ph + sizeof_program_header * i) = Ok q /\ p_type q = PT_LOAD) ->
  parse_program_header block (ph + sizeof_program_header * Z.of_nat n) = Ok p -> p_type p <> PT_LOAD ->
  load_segments fuel (n + m) block ph new_proc_l0 s = load_segments fuel n block ph new_proc_l0 s.
Proof.
  revert ph s. induction n as [|n IH]; intros ph s Hl Ep Ht.
  - cbn [Nat.add]. eapply load_segments_stuck; [|exact Ht]. by rewrite Z.mul_0_r, Z.add_0_r in Ep.
  - cbn [Nat.add load_segments]. destruct (Hl 0) as (q & Eq & Tq); [lia|].
    rewrite Z.mul_0_r, Z.add_0_r in Eq. rewrite Eq. cbn [mbind res_bind]. rewrite Tq, Z.eqb_refl. cbn [negb].
    destruct (load_segment fuel q new_proc_l0 s) as [s1| | |]; cbn [mbind res_bind]; try done.
    apply IH; [|by rewrite <- Ep; f_equal; lia|done].
    intros i Hi. destruct (Hl (i + 1)) as (q' & Eq' & Tq'); [lia|]. exists q'. split; [|done]. rewrite <- Eq'. f_equal. lia.
Qed.
End Elf.

#[local] Existing Instance bump_mem.

(** A block whose first header has type 0. *)
Lemma load_stops_at_other_witness :
  load_segments (fun _ _ => 0) 5 (0 + 3) (replicate 4096 0) 64 0 (Loader (one_proc Z 0 0) (fun _ => 0) (MkFile (Inode 0 0 []) 0) 7)
  = Ok (Loader (one_proc Z 0 0) (fun _ => 0) (MkFile (Inode 0 0 []) 0) 7).
Proof.
  refine (load_stops_at_other (fun _ _ => 0) 5 0 3 (replicate 4096 0) 64 0 _ (ProgramHeader 0 0 0 0 0 0) _ _ _).
  - intros i Hi. exfalso. lia.
  - vm_compute. reflexivity.
  - discriminate.
Defined.

(** A segment gets [2 ^ log2] of its whole pages, rounded down to a power of
    two: its memory is all there exactly when its size is a power-of-two number
    of pages, and otherwise its end is not mapped. *)
Lemma segment_pages_short p_memsz :
  4096 <= p_memsz < 2 ^ 42 -> exists n, segment_pages p_memsz = Ok n /\
    n <= p_memsz / 4096 < 2 * n /\ (p_memsz <= n * 4096 <-> p_memsz = n * 4096) /\ n = 2 ^ Z.log2 (p_memsz / 4096).
Proof.
  intros Hm. set (q := p_memsz / 4096).
  assert (Hq : 1 <= q < 2 ^ 30) by (subst q; split; [apply Z.div_le_lower_bound|apply Z.div_lt_upper_bound]; lia).
  assert (Hl : 0 <= Z.log2 q < 30) by (split; [apply Z.log2_nonneg|apply Z.log2_lt_pow2; lia]).
  exists (2 ^ Z.log2 q). unfold segment_pages, log2_pow2. fold q. rewrite (proj2 (Z.eqb_neq _ _)) by lia.
  rewrite log2_loop_ok by lia. cbn [mbind res_bind]. rewrite u16_small by lia.
  rewrite (proj2 (Z.leb_gt _ _)) by lia. rewrite Z.shiftl_1_l.
  pose proof (Z.log2_spec q ltac:(lia)) as [Hlo Hhi]. rewrite Z.pow_succ_r in Hhi by lia.
  pose proof (Z.mul_div_le p_memsz 4096 ltac:(lia)). fold q in H. repeat split; try lia.
Qed.

Lemma segment_pages_short_witness : exists n, segment_pages 0x3000 = Ok n /\ n = 2 ^ Z.log2 (0x3000 / 4096).
Proof.
  destruct (segment_pages_short 0x3000 ltac:(lia)) as (n & E & _ & _ & En). exists n. split; [exact E|exact En].
Defined.
