(* ===== verification/Mmio.v ===== *)
(** * Memory-mapped devices

    The registers of the SD host controller and of the mailbox, the hardware
    behind them as an interface, and the monad of code that drives them.  The
    hardware is not part of the kernel: a development about the drivers holds for
    every instance of [Hardware]. *)
From S2P Require Import Prelude.

(** [emmc_regs_t] and [mailbox_regs_t], the registers the drivers use. *)
Inductive reg :=
| block_size_count | arg1 | cmd_xfer_mode | response (i : nat) | data | status | control0 | control1
| int_flags | int_mask | int_enable | control2
| mbx_read | mbx_status | mbx_write.

(** A register is read, which may change the device, or written; time passes;
    and the device and the kernel share the words of [property_data]. *)
Class Hardware (H : Type) := {
  hw_read : reg -> H -> Z * H;
  hw_write : reg -> Z -> H -> H;
  hw_sleep : Z -> H -> H;
  hw_shared : H -> list Z;
  hw_share : list Z -> H -> H;
}.

(** Code over a world [W]. *)
Definition M (W A : Type) : Type := W -> res (A * W).
#[global] Instance M_ret W : MRet (M W) := fun A a w => Ok (a, w).
#[global] Instance M_bind W : MBind (M W) := fun A B f m w => match m w with
  | Ok (a, w) => f a w
  | Panic => Panic
  | UB => UB
  | Fuel => Fuel
  end.

Section Ops.
Context {W : Type}.
Definition fail {A} : M W A := fun _ => UB.
Definition out_of_fuel {A} : M W A := fun _ => Fuel.
Definition get {A} (f : W -> A) : M W A := fun w => Ok (f w, w).
Definition modify (f : W -> W) : M W unit := fun w => Ok (tt, f w).
Definition lift_res {A} (r : res A) : M W A := fun w => a ← r; Ok (a, w).

(** A world that holds a device. *)
Context {H : Type} `{Hardware H} (hw : W -> H) (set_hw : H -> W -> W).
Definition reg_read (r : reg) : M W Z := fun w => let '(v, h) := hw_read r (hw w) in Ok (u32 v, set_hw h w).
Definition reg_write (r : reg) (v : Z) : M W unit := modify (fun w => set_hw (hw_write r (u32 v) (hw w)) w).
Definition timer_sleep (ms : Z) : M W unit := modify (fun w => set_hw (hw_sleep ms (hw w)) w).
Definition shared : M W (list Z) := get (fun w => hw_shared (hw w)).
Definition share (l : list Z) : M W unit := modify (fun w => set_hw (hw_share l (hw w)) w).
End Ops.

(** ** What a run ends in *)

(** [m] runs to its end from [w], with a result and a world that satisfy [Q]. *)
Definition wp {W A} (m : M W A) (Q : A -> W -> Prop) (w : W) : Prop :=
  match m w with Ok (a, w') => Q a w' | _ => False end.

Section Rules.
Context {W : Type}.

Lemma wp_ret {A} (a : A) (Q : A -> W -> Prop) w : Q a w -> wp (mret a) Q w.
Proof. done. Qed.

Lemma wp_bind {A B} (m : M W A) (f : A -> M W B) Q w : wp m (fun a => wp (f a) Q) w -> wp (m ≫= f) Q w.
Proof. unfold wp, mbind, M_bind. by destruct (m w) as [[a w']| | |]. Qed.

Lemma wp_mono {A} (m : M W A) (Q Q' : A -> W -> Prop) w :
  wp m Q w -> (forall a w', Q a w' -> Q' a w') -> wp m Q' w.
Proof. unfold wp. destruct (m w) as [[a w']| | |]; auto. Qed.

Lemma wp_get {A} (f : W -> A) (Q : A -> W -> Prop) w : Q (f w) w -> wp (get f) Q w.
Proof. done. Qed.

Lemma wp_modify (f : W -> W) (Q : unit -> W -> Prop) w : Q tt (f w) -> wp (modify f) Q w.
Proof. done. Qed.

Lemma wp_lift {A} (r : res A) (a : A) (Q : A -> W -> Prop) w : r = Ok a -> Q a w -> wp (lift_res r) Q w.
Proof. by intros ->. Qed.

Lemma wp_eq {A} (m m' : M W A) Q w : m w = m' w -> wp m' Q w -> wp m Q w.
Proof. unfold wp. by intros ->. Qed.

Lemma wp_run {A} (m : M W A) Q w : wp m Q w -> exists a w', m w = Ok (a, w') /\ Q a w'.
Proof. unfold wp. destruct (m w) as [[a w']| | |]; [eauto|done..]. Qed.

Context {H : Type} `{Hardware H} (hw : W -> H) (set_hw : H -> W -> W).

Lemma wp_read r (Q : Z -> W -> Prop) w :
  (forall v h, hw_read r (hw w) = (v, h) -> Q (u32 v) (set_hw h w)) -> wp (reg_read hw set_hw r) Q w.
Proof. unfold wp, reg_read. destruct (hw_read r (hw w)). auto. Qed.

Lemma wp_write r v (Q : unit -> W -> Prop) w :
  Q tt (set_hw (hw_write r (u32 v) (hw w)) w) -> wp (reg_write hw set_hw r v) Q w.
Proof. done. Qed.

Lemma wp_sleep ms (Q : unit -> W -> Prop) w :
  Q tt (set_hw (hw_sleep ms (hw w)) w) -> wp (timer_sleep hw set_hw ms) Q w.
Proof. done. Qed.
End Rules.

Lemma M_bind_inv {W A B} (m : M W A) (f : A -> M W B) w b w' :
  (m ≫= f) w = Ok (b, w') -> exists a w1, m w = Ok (a, w1) /\ f a w1 = Ok (b, w').
Proof. unfold mbind, M_bind. destruct (m w) as [[a w1]| | |]; try discriminate. eauto. Qed.
