(* ===== verification/Mailbox.v ===== *)
(** * The firmware mailbox ([mailbox/mailbox.c])

    The kernel asks the firmware by property messages: words in the buffer
    [property_data], which both share, whose address goes through the mailbox.
    The polling loops have no bound of their own and take fuel. *)
From S2P Require Import Prelude Mmio.

Definition MAILBOX_FULL : Z := 0x80000000.
Definition MAILBOX_EMPTY : Z := 0x40000000.
Definition MAIL_TAGS : Z := 8.
Definition RPI_FIRMWARE_STATUS_REQUEST : Z := 0.
Definition RPI_FIRMWARE_PROPERTY_END : Z := 0.
Definition RPI_FIRMWARE_GET_CLOCK_RATE : Z := 0x00030002.
Definition RPI_FIRMWARE_GET_DOMAIN_STATE : Z := 0x00030030.
Definition RPI_FIRMWARE_SET_CLOCK_STATE : Z := 0x00038001.
Definition RPI_FIRMWARE_SET_POWER_STATE : Z := 0x00028001.
Definition CT_EMMC : Z := 1.

(** [mailbox_generic], [mailbox_power] and [mailbox_clock] are one layout: the
    tag's three words, an id and a value. *)
Record mailbox_generic := Generic { tag_id : Z; tag_buffer_size : Z; tag_value_length : Z; id : Z; value : Z }.
Definition tag_words (m : mailbox_generic) : list Z := [tag_id m; tag_buffer_size m; tag_value_length m; id m; value m].
Definition of_words (l : list Z) : mailbox_generic :=
  Generic (nth 0 l 0) (nth 1 l 0) (nth 2 l 0) (nth 3 l 0) (nth 4 l 0).

Section Mailbox.
Context {W H : Type} `{Hardware H} (hw : W -> H) (set_hw : H -> W -> W).
Context (fuel : nat) (property_address : Z).
Notation read := (reg_read hw set_hw).
Notation write := (reg_write hw set_hw).

(** [while(MBX->status & mask);] *)
Fixpoint wait_while (n : nat) (mask : Z) : M W unit :=
  match n with
  | O => out_of_fuel
  | S n => s ← read mbx_status; if Z.land s mask =? 0 then mret tt else wait_while n mask
  end.

Definition mailbox_write (channel data : Z) : M W unit :=
  _ ← wait_while fuel MAILBOX_FULL;
  write mbx_write (Z.lor (Z.land data 0xFFFFFFF0) (Z.land channel 0xF)).

Fixpoint mailbox_read_loop (n : nat) (channel : Z) : M W Z :=
  match n with
  | O => out_of_fuel
  | S n =>
      _ ← wait_while fuel MAILBOX_EMPTY;
      data ← read mbx_read;
      if Z.land data 0xF =? channel then mret (Z.land data 0xFFFFFFF0) else mailbox_read_loop n channel
  end.
Definition mailbox_read (channel : Z) : M W Z := mailbox_read_loop fuel channel.

(** [property_data] has 8192 words; the message is written over its start. *)
Definition message (tag l : list Z) : list Z :=
  let size := Z.of_nat (length tag) * 4 + 12 in
  [size; RPI_FIRMWARE_STATUS_REQUEST] ++ tag ++ [RPI_FIRMWARE_PROPERTY_END] ++ drop (length tag + 3) l.

Definition mailbox_process (tag : list Z) : M W (bool * list Z) :=
  l ← shared hw;
  _ ← (if (length tag + 3 <=? 8192)%nat then share hw set_hw (message tag l) else fail);
  _ ← mailbox_write MAIL_TAGS property_address;
  _ ← mailbox_read MAIL_TAGS;
  l ← shared hw;
  mret (true, take (length tag) (drop 2 l)).

(** The three words behind the tag's are 8 bytes of request and answer. *)
Definition mailbox_generic_command (tag_id id value : Z) : M W (bool * Z) :=
  '(_, l) ← mailbox_process (tag_words (Generic tag_id 8 0 id value));
  mret (true, Mailbox.value (of_words l)).

(** [rate] is what the structure's last word happened to hold. *)
Definition mailbox_clock_rate (ct rate : Z) : M W Z :=
  '(_, l) ← mailbox_process (tag_words (Generic RPI_FIRMWARE_GET_CLOCK_RATE 8 0 ct rate));
  mret (value (of_words l)).

Definition mailbox_power_check (type : Z) : M W bool :=
  '(_, l) ← mailbox_process (tag_words (Generic RPI_FIRMWARE_GET_DOMAIN_STATE 8 0 type (2 ^ 32 - 1)));
  let state := value (of_words l) in
  mret (negb (state =? 0) && negb (state =? 2 ^ 32 - 1)).

Definition pcie_clock_on : M W bool :=
  '(b, _) ← mailbox_process (tag_words (Generic RPI_FIRMWARE_SET_CLOCK_STATE 8 8 9 1)); mret b.

(** The two domains, the second asked twice: the structure the firmware
    answered in is sent again. *)
Definition mailbox_pcie_usb_power_on : M W bool :=
  ret ← pcie_clock_on;
  if negb ret then mret false
  else
    '(_, l) ← mailbox_process (tag_words (Generic RPI_FIRMWARE_SET_POWER_STATE 8 8 3 3));
    let mbx := of_words l in
    '(_, l) ← mailbox_process (tag_words (Generic (tag_id mbx) (tag_buffer_size mbx) (tag_value_length mbx) 6 3));
    '(b, l) ← mailbox_process l;
    if negb b then mret false
    else mret (Z.testbit (value (of_words l)) 0).
End Mailbox.

(** ** What the firmware is sent *)

(** The firmware's reading of a message: its size in bytes, the request code,
    and tags (id, room for the value in bytes, request length, value words) up to
    the end tag. *)
Fixpoint parse_tags (fuel : nat) (l : list Z) : option (list (Z * list Z)) :=
  match fuel, l with
  | S fuel, 0 :: _ => Some []
  | S fuel, i :: room :: _ :: l =>
      let n := Z.to_nat (room / 4) in
      if (n <=? length l)%nat then rest ← parse_tags fuel (drop n l); Some ((i, take n l) :: rest) else None
  | _, _ => None
  end.
Definition parse_message (l : list Z) : option (list (Z * list Z)) :=
  match l with
  | size :: 0 :: l' => if size mod 4 =? 0 then parse_tags (length l) (take (Z.to_nat (size / 4) - 2) l') else None
  | _ => None
  end.

(** What [mailbox_process] puts in the shared buffer is a message of one tag,
    whatever was there. *)
Lemma message_parses i v_id v l :
  i <> 0 -> parse_message (message (tag_words (Generic i 8 0 v_id v)) l) = Some [(i, [v_id; v])].
Proof. intros Hi. destruct i; [done|reflexivity|reflexivity]. Qed.

(** [mailbox_process] answers the words the firmware left for the tag. *)
Lemma mailbox_process_answer {W H} `{Hardware H} (hw : W -> H) set_hw fuel pa tag w b l w' :
  mailbox_process hw set_hw fuel pa tag w = Ok ((b, l), w') ->
  b = true /\ l = take (length tag) (drop 2 (hw_shared (hw w'))).
Proof.
  unfold mailbox_process. intros E.
  do 4 (apply M_bind_inv in E as (? & ? & _ & E)). apply M_bind_inv in E as (l1 & w1 & E1 & E).
  injection E1 as <- <-. by injection E as <- <- <-.
Qed.
