(* ===== verification/Emmc.v ===== *)
(** * The SD card driver ([emmc/emmc.c], [emmc/emmc_clock.c])

    Commands, data transfers and the start of the card, over any host controller
    ([Hardware]).  The world of the driver is the controller, its
    [emmc_device_t], the memory of the caller's buffer and the pins.  Messages are
    left out.  The two loops without a bound of their own take fuel. *)
From S2P Require Import Prelude Mem Gpio Mmio Mailbox.

(** ** Commands *)

Record emmc_cmd_t := Cmd {
  resp_a : Z; block_count : Z; auto_command : Z; direction : Z; multiblock : Z; resp_b : Z; response_type : Z;
  res0 : Z; crc_enable : Z; idx_enable : Z; is_data : Z; type_ : Z; index : Z; res1 : Z;
}.

Definition RT136 : Z := 1.
Definition RT48 : Z := 2.
Definition RT48Busy : Z := 3.

Definition CTGoIdle : Z := 0.
Definition CTSendCide : Z := 2.
Definition CTSendRelativeAddr : Z := 3.
Definition CTIOSetOpCond : Z := 5.
Definition CTSelectCard : Z := 7.
Definition CTSendIfCond : Z := 8.
Definition CTSetBlockLen : Z := 16.
Definition CTReadBlock : Z := 17.
Definition CTReadMultiple : Z := 18.
Definition CTWriteBlock : Z := 24.
Definition CTWriteMultiple : Z := 25.
Definition CTOcrCheck : Z := 41.
Definition CTSendSCR : Z := 51.
Definition CTApp : Z := 55.

(** [RES_CMD] and [commands]. *)
Definition INVALID_CMD : emmc_cmd_t := Cmd 1 1 3 1 1 0xF 3 1 1 1 1 3 0xF 3.
Definition commands : list emmc_cmd_t :=
  [ Cmd 0 0 0 0 0 0 0 0 0 0 0 0 0 0;
    INVALID_CMD;
    Cmd 0 0 0 0 0 0 RT136 0 1 0 0 0 2 0;
    Cmd 0 0 0 0 0 0 RT48 0 1 0 0 0 3 0;
    Cmd 0 0 0 0 0 0 0 0 0 0 0 0 4 0;
    Cmd 0 0 0 0 0 0 RT136 0 0 0 0 0 5 0;
    Cmd 0 0 0 0 0 0 RT48 0 1 0 0 0 6 0;
    Cmd 0 0 0 0 0 0 RT48Busy 0 1 0 0 0 7 0;
    Cmd 0 0 0 0 0 0 RT48 0 1 0 0 0 8 0;
    Cmd 0 0 0 0 0 0 RT136 0 1 0 0 0 9 0 ]
  ++ replicate 6 INVALID_CMD ++
  [ Cmd 0 0 0 0 0 0 RT48 0 1 0 0 0 16 0;
    Cmd 0 0 0 1 0 0 RT48 0 1 0 1 0 17 0;
    Cmd 0 1 1 1 1 0 RT48 0 1 0 1 0 18 0 ]
  ++ replicate 22 INVALID_CMD ++
  [ Cmd 0 0 0 0 0 0 RT48 0 0 0 0 0 41 0 ]
  ++ replicate 9 INVALID_CMD ++
  [ Cmd 0 0 0 1 0 0 RT48 0 1 0 1 0 51 0 ]
  ++ replicate 3 INVALID_CMD ++
  [ Cmd 0 0 0 0 0 0 RT48 0 1 0 0 0 55 0 ].

(** A bit field of a width. *)
Definition field (w v : Z) : Z := v mod 2 ^ w.

(** [TO_REG]: the bit fields from the least significant bit. *)
Definition TO_REG (c : emmc_cmd_t) : Z :=
  field 1 (resp_a c) + 2 ^ 1 * field 1 (block_count c) + 2 ^ 2 * field 2 (auto_command c)
  + 2 ^ 4 * field 1 (direction c) + 2 ^ 5 * field 1 (multiblock c) + 2 ^ 6 * field 10 (resp_b c)
  + 2 ^ 16 * field 2 (response_type c) + 2 ^ 18 * field 1 (res0 c) + 2 ^ 19 * field 1 (crc_enable c)
  + 2 ^ 20 * field 1 (idx_enable c) + 2 ^ 21 * field 1 (is_data c) + 2 ^ 22 * field 2 (type_ c)
  + 2 ^ 24 * field 6 (index c) + 2 ^ 30 * field 2 (res1 c).

(** ** The device structure *)

(** Where [buffer] points: to [device.scr] or to the caller's memory. *)
Inductive buffer_t := NoBuffer | ScrBuffer | MemBuffer (a : Z).

Record emmc_device_t := Device {
  last_success : bool; transfer_blocks : Z; last_command : emmc_cmd_t; last_command_value : Z; block_size : Z;
  last_response : list Z; sdhc : bool; ocr : Z; rca : Z; offset : Z; buffer : buffer_t; base_clock : Z;
  last_error : Z; last_interrupt : Z; scr : list Z; version : Z;
}.

Definition device_init : emmc_device_t :=
  Device false 0 (Cmd 0 0 0 0 0 0 0 0 0 0 0 0 0 0) 0 0 [0; 0; 0; 0] false 0 0 0 NoBuffer 0 0 0 [0; 0] 0.

Definition set_last_success x d := let 'Device _ b c e f g h i j k l m n o p q := d in Device x b c e f g h i j k l m n o p q.
Definition set_transfer_blocks x d := let 'Device a _ c e f g h i j k l m n o p q := d in Device a x c e f g h i j k l m n o p q.
Definition set_last_command x d := let 'Device a b _ e f g h i j k l m n o p q := d in Device a b x e f g h i j k l m n o p q.
Definition set_last_command_value x d := let 'Device a b c _ f g h i j k l m n o p q := d in Device a b c x f g h i j k l m n o p q.
Definition set_block_size x d := let 'Device a b c e _ g h i j k l m n o p q := d in Device a b c e x g h i j k l m n o p q.
Definition set_last_response x d := let 'Device a b c e f _ h i j k l m n o p q := d in Device a b c e f x h i j k l m n o p q.
Definition set_sdhc x d := let 'Device a b c e f g _ i j k l m n o p q := d in Device a b c e f g x i j k l m n o p q.
Definition set_ocr x d := let 'Device a b c e f g h _ j k l m n o p q := d in Device a b c e f g h x j k l m n o p q.
Definition set_rca x d := let 'Device a b c e f g h i _ k l m n o p q := d in Device a b c e f g h i x k l m n o p q.
Definition set_offset x d := let 'Device a b c e f g h i j _ l m n o p q := d in Device a b c e f g h i j x l m n o p q.
Definition set_buffer x d := let 'Device a b c e f g h i j k _ m n o p q := d in Device a b c e f g h i j k x m n o p q.
Definition set_base_clock x d := let 'Device a b c e f g h i j k l _ n o p q := d in Device a b c e f g h i j k l x n o p q.
Definition set_error (x y : Z) d := let 'Device a b c e f g h i j k l m _ _ p q := d in Device a b c e f g h i j k l m x y p q.
Definition put_scr x d := let 'Device a b c e f g h i j k l m n o _ q := d in Device a b c e f g h i j k l m n o x q.
Definition set_version x d := let 'Device a b c e f g h i j k l m n o p _ := d in Device a b c e f g h i j k l m n o p x.

Definition sd_error_mask (err : Z) : Z := 2 ^ (16 + err).
Definition SDECommandTimeout : Z := 0.

Definition SD_CLOCK_ID : Z := 400000.
Definition SD_CLOCK_NORMAL : Z := 25000000.

(** [get_clock_divider].  [div = -1] stands for no bit found. *)
Fixpoint top_bit (fuel : nat) (fb target_div : Z) : Z :=
  match fuel with
  | O => -1
  | S fuel =>
      if negb (Z.land target_div (2 ^ fb) =? 0) then
        if negb (Z.land target_div (Z.lnot (2 ^ fb)) =? 0) then fb + 1 else fb
      else top_bit fuel (fb - 1) target_div
  end.
Definition divider_code (target_div : Z) : Z :=
  let div := top_bit 32 31 target_div in
  let div := if div =? -1 then 31 else div in
  let div := if 32 <=? div then 31 else div in
  let div := if negb (div =? 0) then 2 ^ (div - 1) else div in
  let div := if 0x400 <=? div then 0x3FF else div in
  let freqSel := Z.land div 0xff in
  let upper := Z.land (Z.shiftr div 8) 3 in
  Z.lor (Z.shiftl freqSel 8) (Z.shiftl upper 6).
Definition get_clock_divider (base_clock target_rate : Z) : Z :=
  divider_code
    (if target_rate <=? base_clock then
       if negb (base_clock mod target_rate =? 0) then 0 else base_clock / target_rate
     else 1).

(** [BSWAP32]. *)
Definition BSWAP32 (x : Z) : Z :=
  Z.lor (Z.lor (Z.land (Z.shiftl x 24) 0xff000000) (Z.land (Z.shiftl x 8) 0x00ff0000))
        (Z.lor (Z.land (Z.shiftr x 8) 0x0000ff00) (Z.land (Z.shiftr x 24) 0x000000ff)).

(** ** The world, and the driver *)

Record world (H : Type) := World { hw : H; device : emmc_device_t; memory : mem; pins : gpio_regs }.
Arguments World {H}. Arguments hw {H}. Arguments device {H}. Arguments memory {H}. Arguments pins {H}.

Section Driver.
Context {H : Type} `{Hardware H}.
(** Bounds for the loops without one, the buffer of the mailbox, and what an
    uninitialised word held. *)
Context (fuel : nat) (property_address indeterminate : Z).

Definition set_hw (h : H) (w : world H) : world H := World h (device w) (memory w) (pins w).
Notation M := (M (world H)).
Notation read := (Mmio.reg_read hw set_hw).
Notation write := (Mmio.reg_write hw set_hw).
Notation timer_sleep := (Mmio.timer_sleep hw set_hw).
Definition of_device {A} (f : emmc_device_t -> A) : M A := get (fun w => f (device w)).
Definition upd (f : emmc_device_t -> emmc_device_t) : M unit :=
  modify (fun w => World (hw w) (f (device w)) (memory w) (pins w)).

Definition set_last_error (intr_val : Z) : M unit := upd (set_error (Z.land intr_val 0xFFFF0000) intr_val).

(** [wait_reg_mask]: [timeout + 1] looks at the register. *)
Fixpoint wait_reg_loop (n : nat) (r : reg) (mask : Z) (set : bool) : M bool :=
  match n with
  | O => mret false
  | S n =>
      v ← read r;
      if (if negb (Z.land v mask =? 0) then set else negb set) then mret true
      else _ ← timer_sleep 1; wait_reg_loop n r mask set
  end.
Definition wait_reg_mask (r : reg) (mask : Z) (set : bool) (timeout : Z) : M bool :=
  wait_reg_loop (Z.to_nat (timeout + 1)) r mask set.

(** [*data++], the [i]-th word of the buffer. *)
Definition store_word (i v : Z) : M unit :=
  b ← of_device buffer;
  match b with
  | NoBuffer => fail
  | ScrBuffer => if i <? 2 then upd (fun d => put_scr (<[Z.to_nat i := v]> (scr d)) d) else fail
  | MemBuffer a => modify (fun w => World (hw w) (device w) (store32 (a + 4 * i) v (memory w)) (pins w))
  end.
Definition load_word (i : Z) : M Z :=
  b ← of_device buffer;
  match b with
  | NoBuffer => fail
  | ScrBuffer => if i <? 2 then of_device (fun d => nth (Z.to_nat i) (scr d) 0) else fail
  | MemBuffer a => get (fun w => load32 (a + 4 * i) (memory w))
  end.

(** The words of a block; a length that is not a multiple of 4 wraps below 0 and
    the loop does not end. *)
Fixpoint word_loop (n : nat) (write_ : bool) (length i : Z) : M Z :=
  if length =? 0 then mret i
  else match n with
  | O => out_of_fuel
  | S n =>
      _ ← (if write_ then v ← load_word i; write data v else v ← read data; store_word i v);
      word_loop n write_ (u32 (length - 4)) (i + 1)
  end.

Fixpoint block_loop (n : nat) (write_ : bool) (wrIrpt i : Z) : M bool :=
  match n with
  | O => mret true
  | S n =>
      _ ← wait_reg_mask int_flags (Z.lor wrIrpt 0x8000) true 2000;
      intr_val ← read int_flags;
      _ ← write int_flags (Z.lor wrIrpt 0x8000);
      if negb (Z.land intr_val 0xFFFF0000 =? 0) then _ ← set_last_error intr_val; mret false
      else
        length ← of_device block_size;
        i ← word_loop (Z.to_nat (length / 4)) write_ length i;
        block_loop n write_ wrIrpt i
  end.

Definition do_data_transfer (cmd : emmc_cmd_t) : M bool :=
  let '(wrIrpt, write_) := if negb (direction cmd =? 0) then (2 ^ 5, false) else (2 ^ 4, true) in
  n ← of_device transfer_blocks;
  block_loop (Z.to_nat n) write_ wrIrpt 0.

(** The wait for the command: whether it came to an end in time. *)
Fixpoint command_loop (n : nat) : M bool :=
  match n with
  | O => mret false
  | S n =>
      reg ← read int_flags;
      if negb (Z.land reg 0x8001 =? 0) then mret true
      else _ ← timer_sleep 1; command_loop n
  end.

Definition read_responses (cmd : emmc_cmd_t) : M unit :=
  if (response_type cmd =? RT48) || (response_type cmd =? RT48Busy) then
    r ← read (response 0); upd (fun d => set_last_response (<[0%nat := r]> (last_response d)) d)
  else if response_type cmd =? RT136 then
    r0 ← read (response 0); r1 ← read (response 1); r2 ← read (response 2); r3 ← read (response 3);
    upd (set_last_response [r0; r1; r2; r3])
  else mret tt.

(** The wait for the end of a transfer. *)
Definition finish_transfer (cmd : emmc_cmd_t) : M bool :=
  if (response_type cmd =? RT48Busy) || negb (is_data cmd =? 0) then
    _ ← wait_reg_mask int_flags 0x8002 true 2000;
    intr_val ← read int_flags;
    _ ← write int_flags 0xFFFF0002;
    let v := Z.land intr_val 0xFFFF0002 in
    if negb (v =? 2) && negb (v =? 0x100002) then _ ← set_last_error intr_val; mret false
    else _ ← write int_flags 0xFFFF0002; mret true
  else mret true.

Definition emmc_issue_command (cmd : emmc_cmd_t) (arg timeout : Z) : M bool :=
  _ ← upd (set_last_command_value (TO_REG cmd));
  let command_reg := TO_REG cmd in
  blocks ← of_device transfer_blocks;
  if 0xFFFF <? blocks then mret false
  else
    size ← of_device block_size;
    _ ← write block_size_count (Z.lor size (Z.shiftl blocks 16));
    _ ← write arg1 arg;
    _ ← write cmd_xfer_mode command_reg;
    _ ← timer_sleep 10;
    in_time ← command_loop (Z.to_nat timeout);
    if negb in_time then _ ← upd (set_last_success false); mret false
    else
      intr_val ← read int_flags;
      _ ← write int_flags 0xFFFF0001;
      if negb (Z.land intr_val 0xFFFF0001 =? 1) then
        _ ← set_last_error intr_val; _ ← upd (set_last_success false); mret false
      else
        _ ← read_responses cmd;
        _ ← (if negb (is_data cmd =? 0) then do_data_transfer cmd else mret true);
        done ← finish_transfer cmd;
        if negb done then mret false
        else _ ← upd (set_last_success true); mret true.

Definition emmc_app_command (command arg timeout : Z) : M bool :=
  c ← lift_res (deref (commands !! Z.to_nat command));
  if 60 <=? index c then mret false
  else
    app ← lift_res (deref (commands !! Z.to_nat CTApp));
    _ ← upd (set_last_command app);
    r ← of_device rca;
    let r := if negb (r =? 0) then u32 (Z.shiftl r 16) else 0 in
    ok ← emmc_issue_command app r 2000;
    if (ok : bool) then _ ← upd (set_last_command c); emmc_issue_command c arg 2000
    else mret false.

Definition emmc_command (command arg timeout : Z) : M bool :=
  if negb (Z.land command 0x80000000 =? 0) then mret false
  else
    c ← lift_res (deref (commands !! Z.to_nat command));
    _ ← upd (set_last_command c);
    if TO_REG c =? TO_REG INVALID_CMD then mret false
    else emmc_issue_command c arg timeout.

(** ** The clock *)

Definition EMMC_STATUS_INHIBIT : Z := 3.
Definition EMMC_CTRL1_CLK_ENABLE : Z := 2 ^ 2.

Fixpoint wait_inhibit (n : nat) : M unit :=
  match n with
  | O => out_of_fuel
  | S n =>
      s ← read status;
      if Z.land s EMMC_STATUS_INHIBIT =? 0 then mret tt else _ ← timer_sleep 1; wait_inhibit n
  end.

Definition switch_clock_rate (base_clock target_rate : Z) : M bool :=
  let divider := get_clock_divider base_clock target_rate in
  _ ← wait_inhibit fuel;
  c ← read control1;
  let c1 := Z.land c (Z.lnot EMMC_CTRL1_CLK_ENABLE) in
  _ ← write control1 c1;
  _ ← timer_sleep 3;
  _ ← write control1 (Z.land (Z.lor c1 divider) (Z.lnot 0xFFE0));
  _ ← timer_sleep 3;
  _ ← write control1 (Z.lor c1 EMMC_CTRL1_CLK_ENABLE);
  _ ← timer_sleep 3;
  mret true.

Definition emmc_setup_clock : M bool :=
  _ ← write control2 0;
  rate ← mailbox_clock_rate hw set_hw fuel property_address CT_EMMC indeterminate;
  n ← read control1;
  let n := Z.lor n 1 in
  let n := Z.lor n (get_clock_divider rate SD_CLOCK_ID) in
  let n := Z.land n (Z.lnot (Z.shiftl 0xf 16)) in
  let n := Z.lor n (Z.shiftl 11 16) in
  _ ← write control1 n;
  stable ← wait_reg_mask control1 (2 ^ 1) true 2000;
  if negb stable then mret false
  else
    _ ← timer_sleep 30;
    c ← read control1;
    _ ← write control1 (Z.lor c 4);
    _ ← timer_sleep 30;
    mret true.

(** ** The start of the card *)

Definition EMMC_CTRL1_RESET_CMD : Z := 2 ^ 25.
Definition EMMC_CTRL1_RESET_HOST : Z := 2 ^ 24.
Definition EMMC_CTRL1_RESET_ALL : Z := 2 ^ 26 + 2 ^ 25 + 2 ^ 24.

Fixpoint reset_loop (n : nat) : M bool :=
  match n with
  | O => mret false
  | S n =>
      c ← read control1;
      if Z.land c EMMC_CTRL1_RESET_CMD =? 0 then mret true else _ ← timer_sleep 1; reset_loop n
  end.
Definition reset_command : M bool :=
  c ← read control1;
  _ ← write control1 (Z.lor c EMMC_CTRL1_RESET_CMD);
  reset_loop 10000.

Fixpoint ocr_loop (n : nat) : M bool :=
  match n with
  | O => mret false
  | S n => passed ← emmc_app_command CTOcrCheck 0 2000; if (passed : bool) then mret true else ocr_loop n
  end.
Definition check_ocr : M bool :=
  passed ← ocr_loop 5;
  if negb passed then mret false
  else _ ← upd (fun d => set_ocr (Z.land (Z.shiftr (nth 0 (last_response d) 0) 8) 0xFFFF) d); mret true.

Definition timed_out (e : Z) : bool := negb (Z.land e (2 ^ 16) =? 0).

Definition check_usable_card : M bool :=
  ok ← emmc_command CTIOSetOpCond 0 1000;
  if (ok : bool) then mret true
  else
    e ← of_device last_error;
    if e =? 0 then mret true
    else if timed_out e then
      reset ← reset_command;
      if negb reset then mret false
      else _ ← write int_flags (sd_error_mask SDECommandTimeout); mret true
    else mret false.

Definition check_v2_card : M bool :=
  ok ← emmc_command CTSendIfCond 0x1AA 200;
  if negb ok then
    e ← of_device last_error;
    if timed_out e then
      reset ← reset_command;
      if negb reset then mret false
      else _ ← write int_flags (sd_error_mask SDECommandTimeout); mret false
    else mret false
  else
    r ← of_device (fun d => nth 0 (last_response d) 0);
    mret (Z.land r 0xFFF =? 0x1AA).

(** Asks again as long as the card is busy. *)
Fixpoint sdhc_loop (n : nat) (v2_card : bool) : M bool :=
  match n with
  | O => out_of_fuel
  | S n =>
      let v2_flags := if v2_card then 2 ^ 30 else 0 in
      ok ← emmc_app_command CTOcrCheck (Z.lor 0x00FF8000 v2_flags) 2000;
      if negb ok then mret false
      else
        r ← of_device (fun d => nth 0 (last_response d) 0);
        if Z.testbit r 31 then
          _ ← upd (set_ocr (Z.land (Z.shiftr r 8) 0xFFFF));
          _ ← upd (set_sdhc (Z.testbit r 30));
          mret true
        else _ ← timer_sleep 500; sdhc_loop n v2_card
  end.
Definition check_sdhc_support (v2_card : bool) : M bool := sdhc_loop fuel v2_card.

Definition check_rca : M bool :=
  ok ← emmc_command CTSendCide 0 2000;
  if negb ok then mret false
  else
    ok ← emmc_command CTSendRelativeAddr 0 2000;
    if negb ok then mret false
    else
      r ← of_device (fun d => nth 0 (last_response d) 0);
      _ ← upd (set_rca (Z.land (Z.shiftr r 16) 0xFFFF));
      mret (Z.testbit r 8).

Definition select_card : M bool :=
  r ← of_device rca;
  ok ← emmc_command CTSelectCard (u32 (Z.shiftl r 16)) 2000;
  if negb ok then mret false
  else
    r ← of_device (fun d => nth 0 (last_response d) 0);
    let status := Z.land (Z.shiftr r 9) 0xF in
    mret ((status =? 3) || (status =? 4)).

(** The version of the card from its configuration register. *)
Definition scr_version (scr0 : Z) : Z :=
  let spec := Z.land (Z.shiftr scr0 24) 0xf in
  let spec3 := Z.land (Z.shiftr scr0 15) 1 in
  let spec4 := Z.land (Z.shiftr scr0 10) 1 in
  if spec =? 0 then 1
  else if spec =? 1 then 11
  else if spec =? 2 then (if spec3 =? 0 then 2 else if spec4 =? 0 then 3 else 4)
  else 0xFFFFFFFF.

Definition set_scr : M bool :=
  hc ← of_device sdhc;
  ok ← (if negb hc then emmc_command CTSetBlockLen 512 2000 else mret true);
  if negb ok then mret false
  else
    bsc ← read block_size_count;
    _ ← write block_size_count (Z.lor (Z.land bsc (Z.lnot 0xFFF)) 0x200);
    _ ← upd (fun d => set_transfer_blocks 1 (set_block_size 8 (set_buffer ScrBuffer d)));
    ok ← emmc_app_command CTSendSCR 0 30000;
    if negb ok then mret false
    else
      _ ← upd (set_block_size 512);
      _ ← upd (fun d => set_version (scr_version (BSWAP32 (nth 0 (scr d) 0))) d);
      mret true.

Definition emmc_card_reset : M bool :=
  _ ← write control1 EMMC_CTRL1_RESET_HOST;
  ok ← wait_reg_mask control1 EMMC_CTRL1_RESET_ALL false 2000;
  if negb ok then mret false
  else
    c0 ← read control0;
    _ ← write control0 (Z.lor c0 (Z.shiftl 0x0F 8));
    _ ← timer_sleep 3;
    ok ← emmc_setup_clock;
    if negb ok then mret false
    else
      _ ← write int_enable 0;
      _ ← write int_flags 0xFFFFFFFF;
      _ ← write int_mask 0xFFFFFFFF;
      _ ← timer_sleep 203;
      _ ← upd (fun d => set_block_size 0 (set_last_success false (set_last_command_value 0 (set_transfer_blocks 0 d))));
      ok ← emmc_command CTGoIdle 0 2000;
      if negb ok then mret false
      else
        v2_card ← check_v2_card;
        ok ← check_usable_card;
        if negb ok then mret false
        else
          ok ← check_ocr;
          if negb ok then mret false
          else
            ok ← check_sdhc_support v2_card;
            if negb ok then mret false
            else
              b ← of_device base_clock;
              _ ← switch_clock_rate b SD_CLOCK_NORMAL;
              _ ← timer_sleep 10;
              ok ← check_rca;
              if negb ok then mret false
              else
                ok ← select_card;
                if negb ok then mret false
                else
                  ok ← set_scr;
                  if negb ok then mret false
                  else _ ← write int_flags 0xFFFFFFFF; mret true.

Definition pin_func_ (pin func : Z) : M unit := fun w =>
  p ← gpio_pin_set_func pin func (pins w); Ok (tt, World (hw w) (device w) (memory w) p).
Fixpoint pin_funcs (l : list Z) (func : Z) : M unit :=
  match l with
  | [] => mret tt
  | pin :: l => _ ← pin_func_ pin func; pin_funcs l func
  end.

Fixpoint init_loop (n : nat) : M bool :=
  match n with
  | O => mret false
  | S n => success ← emmc_card_reset; if (success : bool) then mret true else _ ← timer_sleep 100; init_loop n
  end.

Definition emmc_init : M bool :=
  _ ← pin_funcs [34; 35; 36; 37; 38; 39] 0;
  _ ← pin_funcs [48; 49; 50; 51; 52] 7;
  _ ← upd (fun d => set_base_clock 0 (set_offset 0 (set_rca 0 (set_ocr 0 (set_sdhc false (set_block_size 0
             (set_last_success false (set_last_command_value 0 (set_transfer_blocks 0 d)))))))));
  init_loop 10.

(** ** Reading and seeking *)

Definition data_command (write_ : bool) (blocks : Z) : Z :=
  if write_ && (1 <? blocks) then CTWriteMultiple
  else if write_ then CTWriteBlock
  else if 1 <? blocks then CTReadMultiple
  else CTReadBlock.

Fixpoint retry_loop (n : nat) (command block_no : Z) : M bool :=
  match n with
  | O => mret false
  | S n => ok ← emmc_command command block_no 5000; if (ok : bool) then mret true else retry_loop n command block_no
  end.

Definition do_data_command (write_ : bool) (b bsize block_no : Z) : M bool :=
  hc ← of_device sdhc;
  let block_no := if negb hc then u32 (block_no * 512) else block_no in
  size ← of_device block_size;
  if bsize <? size then mret false
  else if size =? 0 then fail                   (* a division by zero *)
  else
    _ ← upd (set_transfer_blocks (bsize / size));
    if negb (bsize mod size =? 0) then mret false
    else
      _ ← upd (set_buffer (MemBuffer b));
      retry_loop 3 (data_command write_ (bsize / size)) block_no.

Definition do_read (b bsize block_no : Z) : M Z :=
  ok ← do_data_command false b bsize block_no;
  if negb ok then mret (-1) else mret (s32 bsize).

Definition emmc_read (b size : Z) : M Z :=
  o ← of_device offset;
  if negb (o mod 512 =? 0) then mret (-1)
  else
    r ← do_read b size (u32 (o / 512));
    if negb (u32 r =? size) then mret (-1) else mret (s32 size).

Definition emmc_seek (_offset : Z) : M unit := upd (set_offset _offset).
Definition emmc_seek_sector (_sector : Z) : M unit := upd (set_offset (u64 (_sector * 512))).
End Driver.
