(* ===== verification/EmmcSpec.v ===== *)
(** * What the SD card driver does

    For every controller: a read returns, and writes nothing but the caller's
    buffer ([emmc_read_safe]).  For a controller that answers the protocol: a
    read brings the card's sectors ([emmc_read_sectors]).  The clock
    ([clock_divider_bound]). *)
From S2P Require Import Prelude Mem Gpio Mmio Mailbox Emmc.

(** ** Reads for every controller *)

Section AnyController.
Context {H : Type} `{Hardware H}.

(** The driver between two reads. *)
Definition ready (d : emmc_device_t) : Prop := block_size d = 512.

(** From [w] to [w']: the transfer's parameters stay, and memory changes only
    in [len] bytes at [a]. *)
Definition frame (a len : Z) (w w' : world H) : Prop :=
  block_size (device w') = block_size (device w) /\ transfer_blocks (device w') = transfer_blocks (device w) /\
  buffer (device w') = buffer (device w) /\ offset (device w') = offset (device w) /\
  forall x, ~ (a <= x < a + len) -> memory w' x = memory w x.

#[global] Instance frame_preorder a len : PreOrder (frame a len).
Proof.
  split; [by intros w; repeat split|]. intros w1 w2 w3 (?&?&?&?&M1) (?&?&?&?&M2). split_and!; try congruence.
  intros x Hx. by rewrite M2, M1.
Qed.

(** A program that keeps the frame, whatever it returns. *)
Definition framed {A} (a len : Z) (m : M (world H) A) : Prop := forall w, wp m (fun _ => frame a len w) w.

Lemma framed_bind {A B} a len (m : M (world H) A) (f : A -> M (world H) B) :
  framed a len m -> (forall x, framed a len (f x)) -> framed a len (m ≫= f).
Proof.
  intros Hm Hf w. apply wp_bind. eapply wp_mono; [apply Hm|]. cbn. intros x w' Hw.
  eapply wp_mono; [apply Hf|]. cbn. intros y w'' Hw'. by transitivity w'.
Qed.
Lemma framed_ret {A} a len (x : A) : framed a len (mret x).
Proof. intros w. apply wp_ret. reflexivity. Qed.
Lemma framed_get {A} a len (f : world H -> A) : framed a len (get f).
Proof. intros w. apply wp_get. reflexivity. Qed.
Lemma framed_dev {A} a len (f : emmc_device_t -> A) : framed a len (of_device f).
Proof. apply framed_get. Qed.
Lemma framed_read a len r : framed a len (Mmio.reg_read hw set_hw r).
Proof. intros w. apply wp_read. by repeat split. Qed.
Lemma framed_write a len r v : framed a len (Mmio.reg_write hw set_hw r v).
Proof. intros w. apply wp_write. by repeat split. Qed.
Lemma framed_sleep a len ms : framed a len (Mmio.timer_sleep hw set_hw ms).
Proof. intros w. apply wp_sleep. by repeat split. Qed.

(** An update of what the frame does not mention. *)
Definition harmless (f : emmc_device_t -> emmc_device_t) : Prop :=
  forall d, block_size (f d) = block_size d /\ transfer_blocks (f d) = transfer_blocks d /\
            buffer (f d) = buffer d /\ offset (f d) = offset d.
Lemma framed_upd a len f : harmless f -> framed a len (upd f).
Proof. intros Hf w. apply wp_modify. destruct (Hf (device w)) as (?&?&?&?). by repeat split. Qed.
End AnyController.

Create HintDb emmc discriminated.
#[export] Hint Resolve framed_ret framed_get framed_dev framed_read framed_write framed_sleep : emmc.
#[export] Hint Extern 1 (framed _ _ (upd _)) => apply framed_upd; intros []; by repeat split : emmc.

(** Split a program at its binds, tests and matches. *)
Ltac framed_tac :=
  repeat match goal with
    | |- framed _ _ (mbind _ _) => apply framed_bind; [|intros ?]
    | |- framed _ _ (match _ with _ => _ end) => case_match
    | |- framed _ _ (let _ := _ in _) => cbv zeta
    | |- framed _ _ _ => solve [auto with emmc]
    end.

Section AnyController2.
Context {H : Type} `{Hardware H}.

Lemma framed_set_last_error a len v : framed a len (set_last_error (H := H) v).
Proof. unfold set_last_error. framed_tac. Qed.
#[local] Hint Resolve framed_set_last_error : emmc.

Lemma framed_wait a len r mask set n : framed a len (wait_reg_loop (H := H) n r mask set).
Proof. induction n; cbn [wait_reg_loop]; framed_tac. Qed.
Lemma framed_command_loop a len n : framed a len (command_loop (H := H) n).
Proof. induction n; cbn [command_loop]; framed_tac. Qed.
#[local] Hint Resolve framed_wait framed_command_loop : emmc.
Lemma framed_wait_mask a len r mask set t : framed a len (wait_reg_mask (H := H) r mask set t).
Proof. apply framed_wait. Qed.
#[local] Hint Resolve framed_wait_mask : emmc.
Lemma framed_responses a len c : framed a len (read_responses (H := H) c).
Proof. unfold read_responses. framed_tac. Qed.
Lemma framed_finish a len c : framed a len (finish_transfer (H := H) c).
Proof. unfold finish_transfer. framed_tac. Qed.
#[local] Hint Resolve framed_responses framed_finish : emmc.

(** [framed] for worlds that satisfy a condition the frame keeps. *)
Definition framed_if {A} (P : emmc_device_t -> Prop) a len (m : M (world H) A) : Prop :=
  forall w, P (device w) -> wp m (fun _ => frame a len w) w.
Definition stable (P : emmc_device_t -> Prop) : Prop :=
  forall d d', block_size d' = block_size d -> transfer_blocks d' = transfer_blocks d -> buffer d' = buffer d -> P d -> P d'.

Lemma framed_if_bind {A B} P a len (m : M (world H) A) (f : A -> M (world H) B) :
  stable P -> framed_if P a len m -> (forall x, framed_if P a len (f x)) -> framed_if P a len (m ≫= f).
Proof.
  intros HP Hm Hf w Hw. apply wp_bind. eapply wp_mono; [by apply Hm|]. cbn. intros x w' Hw'.
  eapply wp_mono; [apply Hf; apply (HP (device w)); [apply Hw'..|done]|]. cbn. intros y w'' Hw''. by transitivity w'.
Qed.
Lemma framed_framed_if {A} P a len (m : M (world H) A) : framed a len m -> framed_if P a len m.
Proof. intros Hm w _. apply Hm. Qed.

(** A transfer of [n] blocks of 512 bytes to memory at [a]. *)
Definition to_memory (a n : Z) (d : emmc_device_t) : Prop :=
  block_size d = 512 /\ transfer_blocks d = n /\ buffer d = MemBuffer a.
Lemma to_memory_stable a n : stable (to_memory a n).
Proof. intros d d' E1 E2 E3 (?&?&?). split_and!; congruence. Qed.

Lemma store_word_frame a n len i v :
  0 <= i -> 4 * (i + 1) <= len -> framed_if (to_memory a n) a len (store_word (H := H) i v).
Proof.
  intros Hi Hl w (_ & _ & Hb). unfold store_word. apply wp_bind, wp_get. rewrite Hb. apply wp_modify.
  split_and!; try done. intros x Hx. apply store32_other. lia.
Qed.

Lemma word_loop_frame a n len k : forall L i, L = 4 * Z.of_nat k -> L < 2 ^ 32 -> 0 <= i -> 4 * (i + Z.of_nat k) <= len ->
  forall w, to_memory a n (device w) ->
  wp (word_loop k false L i) (fun i' w' => i' = i + Z.of_nat k /\ frame a len w w') w.
Proof.
  induction k as [|k IH]; intros L i HL HL2 Hi Hl w Hw; cbn [word_loop].
  - rewrite (proj2 (Z.eqb_eq L 0)) by lia. apply wp_ret. split; [lia|reflexivity].
  - rewrite (proj2 (Z.eqb_neq L 0)) by lia. apply wp_bind, wp_bind, wp_read. intros v h _.
    assert (F1 : frame a len w (set_hw h w)) by (by repeat split).
    eapply wp_mono; [apply (store_word_frame a n len); [lia|lia|done]|]. cbn. intros _ w1 Hw1.
    assert (F2 : frame a len w w1) by (by transitivity (set_hw h w)).
    rewrite (u32_small (L - 4)) by lia.
    eapply wp_mono; [apply IH; [lia|lia|lia|lia|apply (to_memory_stable a n (device w)); [apply F2..|done]]|].
    cbn. intros i' w2 [-> F3]. split; [lia|by transitivity w1].
Qed.

Lemma block_loop_frame a n len k wr : forall i, 0 <= i -> 4 * (i + 128 * Z.of_nat k) <= len ->
  framed_if (to_memory a n) a len (block_loop (H := H) k false wr i).
Proof.
  induction k as [|k IH]; intros i Hi Hl; cbn [block_loop]; [apply framed_framed_if, framed_ret|].
  apply framed_if_bind; [apply to_memory_stable|apply framed_framed_if; auto with emmc|intros _].
  apply framed_if_bind; [apply to_memory_stable|apply framed_framed_if; auto with emmc|intros v].
  apply framed_if_bind; [apply to_memory_stable|apply framed_framed_if; auto with emmc|intros _].
  case_match; [apply framed_framed_if; framed_tac|].
  intros w Hw. apply wp_bind, wp_get. rewrite (proj1 Hw). apply wp_bind.
  eapply wp_mono; [apply (word_loop_frame a n len 128); [done|lia|lia|lia|done]|]. cbn. intros i' w1 [-> F1].
  eapply wp_mono; [apply IH; [lia|lia|apply (to_memory_stable a n (device w)); [apply F1..|done]]|].
  cbn. intros _ w2 F2. by transitivity w1.
Qed.

(** A command that moves no data, or reads. *)
Definition reads (c : emmc_cmd_t) : Prop := is_data c = 0 \/ direction c <> 0.

Lemma issue_command_frame a n len c arg t :
  reads c -> 0 <= n -> 512 * n <= len -> framed_if (to_memory a n) a len (emmc_issue_command (H := H) c arg t).
Proof.
  intros Hc Hn Hl. unfold emmc_issue_command.
  repeat match goal with
    | |- framed_if _ _ _ (do_data_transfer _) => idtac
    | |- framed_if _ _ _ (if negb (is_data _ =? 0) then _ else _) => destruct (Z.eqb_spec (is_data c) 0) as [Ed|Ed]; cbn [negb]
    | |- framed_if _ _ _ (mbind _ _) => apply framed_if_bind; [apply to_memory_stable| |intros ?]
    | |- framed_if _ _ _ (match _ with _ => _ end) => case_match
    | |- framed_if _ _ _ _ => apply framed_framed_if; solve [framed_tac]
    end.
  unfold do_data_transfer. destruct Hc as [|Hc]; [done|]. rewrite (proj2 (Z.eqb_neq (direction c) 0)) by done. cbn [negb].
  intros w Hw. apply wp_bind, wp_get. apply (block_loop_frame a n); [lia| |done]. destruct Hw as (_ & -> & _). lia.
Qed.
End AnyController2.

Section Reads.
Context {H : Type} `{Hardware H}.

Definition is_read (command : Z) : Prop := command = CTReadBlock \/ command = CTReadMultiple.

(** A read command is in the table. *)
Lemma read_command_known command arg t w : is_read command -> exists c, reads c /\
  emmc_command (H := H) command arg t w = (upd (set_last_command c) ≫= fun _ => emmc_issue_command c arg t) w.
Proof. intros [-> | ->]; [exists (nth 17 commands INVALID_CMD)|exists (nth 18 commands INVALID_CMD)]; (split; [by right|reflexivity]). Qed.

Lemma retry_frame a n len k command arg : is_read command -> 0 <= n -> 512 * n <= len ->
  framed_if (to_memory a n) a len (retry_loop (H := H) k command arg).
Proof.
  intros Hc Hn Hl. induction k as [|k IH]; cbn [retry_loop]; [apply framed_framed_if, framed_ret|].
  apply framed_if_bind; [apply to_memory_stable| |intros [|]; [apply framed_framed_if, framed_ret|done]].
  intros w Hw. destruct (read_command_known command arg 5000 w Hc) as (c & Hr & E). apply (wp_eq _ _ _ _ E).
  apply (framed_if_bind (to_memory a n) a len); [apply to_memory_stable|apply framed_framed_if; auto with emmc| |done].
  intros _. by apply (issue_command_frame a n).
Qed.

(** Nothing but the device structure changes, and there not the block size or
    the offset. *)
Definition untouched (w w' : world H) : Prop :=
  hw w' = hw w /\ memory w' = memory w /\ block_size (device w') = block_size (device w) /\
  offset (device w') = offset (device w) /\ transfer_blocks (device w') = transfer_blocks (device w).

(** More blocks than the controller's counter holds. *)
Lemma retry_too_many k command arg : is_read command -> forall w, 0xFFFF < transfer_blocks (device w) ->
  wp (retry_loop (H := H) k command arg) (fun r w' => r = false /\ untouched w w') w.
Proof.
  intros Hc. induction k as [|k IH]; intros w Hw; cbn [retry_loop]; [by repeat split|].
  destruct (read_command_known command arg 5000 w Hc) as (c & _ & E). apply wp_bind, (wp_eq _ _ _ _ E).
  set (w1 := World (hw w) (set_last_command_value (TO_REG c) (set_last_command c (device w))) (memory w) (pins w)).
  assert (Hd : transfer_blocks (device w1) = transfer_blocks (device w) /\ block_size (device w1) = block_size (device w) /\
               offset (device w1) = offset (device w)) by (cbn; by destruct (device w)).
  apply wp_bind, wp_modify. unfold emmc_issue_command. apply wp_bind, wp_modify, wp_bind, wp_get. cbn [hw device memory pins].
  fold w1. change (set_last_command_value _ _) with (device w1).
  rewrite (proj1 Hd), (proj2 (Z.ltb_lt _ _)) by done. apply wp_ret.
  eapply wp_mono; [apply IH; by rewrite (proj1 Hd)|]. cbn. destruct Hd as (D1 & D2 & D3).
  intros r w' (-> & U1 & U2 & U3 & U4 & U5). unfold untouched. rewrite U1, U2, U3, U4, U5. by rewrite D1, D2, D3.
Qed.

(** A request the driver accepts. *)
Definition well_formed (o size : Z) : bool :=
  (o mod 512 =? 0) && (512 <=? size) && (size mod 512 =? 0) && (size <? 2 ^ 25).

(** The offset and the block size stay, and memory changes only in the buffer. *)
Definition kept (b len : Z) (w w' : world H) : Prop :=
  block_size (device w') = 512 /\ offset (device w') = offset (device w) /\
  forall x, ~ (b <= x < b + len) -> memory w' x = memory w x.

Lemma do_data_command_reads b size block w :
  block_size (device w) = 512 -> 0 <= size ->
  wp (do_data_command false b size block) (fun ok w' => kept b size w w' /\
    (well_formed 0 size = false -> ok = false /\ hw w' = hw w /\ memory w' = memory w)) w.
Proof.
  intros Hb Hs. unfold do_data_command, well_formed. apply wp_bind, wp_get. apply wp_bind, wp_get. rewrite Hb.
  destruct (Z.ltb_spec size 512); [apply wp_ret; split; [by split_and!|done]|]. cbn [Z.eqb].
  apply wp_bind, wp_modify. destruct (Z.eqb_spec (size mod 512) 0) as [Hm|]; cbn [negb];
    [|apply wp_ret; split; [|done]; unfold kept; cbn; by destruct (device w)].
  apply wp_bind, wp_modify. cbn [hw device memory pins].
  set (w1 := World (hw w) (set_buffer (MemBuffer b) (set_transfer_blocks (size / 512) (device w))) (memory w) (pins w)).
  assert (Hw1 : to_memory b (size / 512) (device w1)) by (cbn; destruct (device w); by repeat split).
  assert (Ho : offset (device w1) = offset (device w)) by (cbn; by destruct (device w)).
  assert (Hc : is_read (data_command false (size / 512))).
  { unfold data_command. cbn. destruct (1 <? size / 512); [by right|by left]. }
  destruct (Z.ltb_spec size (2 ^ 25)).
  - eapply wp_mono; [apply (retry_frame b (size / 512) size); [exact Hc|zdiv|zdiv|exact Hw1]|]. cbn.
    intros ok w2 (F1 & F2 & F3 & F4 & F5). split; [|].
    + split_and!; [rewrite F1; apply Hw1|congruence|exact F5].
    + rewrite (proj2 (Z.leb_le 512 size)) by lia. done.
  - eapply wp_mono; [apply retry_too_many; [exact Hc|destruct Hw1 as (_ & -> & _); zdiv]|]. cbn.
    intros ok w2 (-> & U1 & U2 & U3 & U4 & U5). unfold kept. rewrite U2, U3, U4, Ho. split_and!; try done. apply Hw1.
Qed.
End Reads.

(** ** The clock *)

(** What the controller divides its base clock by, from the fields of control
    register 1. *)
Definition sd_divisor (code : Z) : Z :=
  let n := Z.lor (Z.land (Z.shiftr code 8) 0xff) (Z.shiftl (Z.land (Z.shiftr code 6) 3) 8) in
  if n =? 0 then 1 else 2 * n.

Lemma divider_code_enough t : 0 <= t <= 2046 -> t <= sd_divisor (divider_code t) /\ sd_divisor (divider_code 0) = 2046.
Proof.
  intros Ht. split; [|reflexivity].
  assert (forallb (fun t => t <=? sd_divisor (divider_code t)) (seqZ 0 2047) = true) as F by (vm_compute; reflexivity).
  rewrite forallb_forall in F. apply Z.leb_le, F. apply list_elem_of_In, elem_of_seqZ. lia.
Qed.

(** The bits [switch_clock_rate] masks are all the bits of a divider. *)
Lemma divider_code_masked t : Z.land (divider_code t) (Z.lnot 0xFFE0) = 0.
Proof.
  unfold divider_code. cbv zeta. set (div := if 0x400 <=? _ then _ else _).
  assert (forallb (fun f => forallb (fun u => Z.land (Z.lor (Z.shiftl f 8) (Z.shiftl u 6)) (Z.lnot 0xFFE0) =? 0) (seqZ 0 4)) (seqZ 0 256) = true)
    as F by (vm_compute; reflexivity).
  rewrite forallb_forall in F. specialize (F (Z.land div 0xff)). rewrite forallb_forall in F.
  apply Z.eqb_eq, F; apply list_elem_of_In, elem_of_seqZ.
  - change 0xff with (Z.ones 8). rewrite Z.land_ones by lia. apply Z.mod_pos_bound. lia.
  - change 3 with (Z.ones 2). rewrite Z.land_ones by lia. apply Z.mod_pos_bound. lia.
Qed.

(** The rate asked for makes no difference: the new divider is masked off again,
    and the old one comes back with the last write. *)
Lemma switch_clock_no_effect {H} `{Hardware H} fuel base rate base' rate' (w : world H) :
  switch_clock_rate fuel base rate w = switch_clock_rate fuel base' rate' w.
Proof.
  unfold switch_clock_rate, get_clock_divider, mbind, M_bind.
  destruct (wait_inhibit fuel w) as [[_ w1]| | |]; [|done..].
  destruct (Mmio.reg_read hw set_hw control1 w1) as [[c w2]| | |]; [|done..].
  by rewrite !Z.land_lor_distr_l, !divider_code_masked.
Qed.

(** ** Writes *)

(** The commands that write are not in the table. *)
Lemma writes_refused {H} `{Hardware H} b size block (w : world H) :
  block_size (device w) = 512 -> wp (do_data_command true b size block) (fun ok w' => ok = false /\ hw w' = hw w) w.
Proof.
  intros Hb. unfold do_data_command. apply wp_bind, wp_get, wp_bind, wp_get. rewrite Hb.
  destruct (size <? 512); [by apply wp_ret|]. cbn [Z.eqb]. apply wp_bind, wp_modify.
  destruct (size mod 512 =? 0); cbn [negb]; [|by apply wp_ret]. apply wp_bind, wp_modify.
  set (block_no := if negb _ then _ else _). set (w1 := World _ _ _ _).
  change (hw w) with (hw w1). clearbody block_no w1. clear w Hb. revert w1.
  assert (forall w : world H, wp (emmc_command (data_command true (size / 512)) block_no 5000) (fun ok w' => ok = false /\ hw w' = hw w) w) as E.
  { intros w. unfold data_command. destruct (1 <? size / 512); cbn [andb]; (eapply wp_eq; [reflexivity|]);
      apply (wp_eq _ (upd (set_last_command INVALID_CMD) ≫= fun _ => mret false)); done. }
  generalize 3%nat. intros n. induction n as [|n IH]; intros w; cbn [retry_loop]; [by apply wp_ret|].
  apply wp_bind. eapply wp_mono; [apply E|]. cbn. intros ok w' [-> Hh]. rewrite <- Hh. apply IH.
Qed.

(** A controller whose interrupt flags follow a script. *)
#[local] Instance scripted : Hardware (list Z) := {
  hw_read := fun r h => match r, h with int_flags, v :: h => (v, h) | _, _ => (0, h) end;
  hw_write := fun _ _ h => h; hw_sleep := fun _ h => h; hw_shared := fun _ => []; hw_share := fun _ h => h;
}.

(** A block that times out (bit 20) ends the transfer; the command reads the
    time-out with the end of the transfer as success, and no byte has come. *)
Lemma timeout_is_success :
  exists w', emmc_read 0x1000 512 (World [1; 1; 0x108000; 0x108000; 0x100002; 0x100002] (set_sdhc true (set_block_size 512 device_init))
               (fun _ => 7) (GpioRegs [] [] [] 0 [])) = Ok (512, w') /\ memory w' = (fun _ => 7).
Proof. eexists. split; [vm_compute; reflexivity|reflexivity]. Qed.

(** ** Claims *)

(** C19: reads are safe whatever the controller does.  [emmc_read] always comes to
    an end, with the size asked for or -1; the memory outside the caller's buffer,
    the offset and the block size are as before; and a request that is not whole
    sectors at a sector's start, or is longer than the controller can count, is
    refused before the controller sees anything. *)
Theorem emmc_read_safe {H} `{Hardware H} b size w :
  block_size (device w) = 512 -> 0 <= size < 2 ^ 31 ->
  exists r w', emmc_read b size w = Ok (r, w') /\ (r = -1 \/ r = size) /\ kept b size w w' /\
    (well_formed (offset (device w)) size = false -> r = -1 /\ hw w' = hw w /\ memory w' = memory w).
Proof.
  intros Hb Hs. apply wp_run. unfold emmc_read. apply wp_bind, wp_get.
  destruct (Z.eqb_spec (offset (device w) mod 512) 0) as [E|E]; cbn [negb];
    [|apply wp_ret; split_and!; try done; by left].
  apply wp_bind. unfold do_read. apply wp_bind.
  eapply wp_mono; [apply do_data_command_reads; [done|lia]|]. cbn. intros ok w' [K R].
  assert (E' : well_formed (offset (device w)) size = well_formed 0 size) by (unfold well_formed; by rewrite E).
  rewrite E'. destruct ok; cbn [negb]; apply wp_ret; rewrite ?s32_small by lia.
  - rewrite u32_small by lia. rewrite Z.eqb_refl. apply wp_ret. split_and!; [by right|done|]. intros Hf. by destruct (R Hf).
  - change (u32 (-1)) with 4294967295. rewrite (proj2 (Z.eqb_neq _ _)) by lia. apply wp_ret.
    split_and!; [by left|done|]. intros Hf. by destruct (R Hf).
Qed.

(** A controller that answers nothing. *)
#[local] Instance silent : Hardware unit := {
  hw_read := fun _ h => (0, h); hw_write := fun _ _ h => h; hw_sleep := fun _ h => h;
  hw_shared := fun _ => []; hw_share := fun _ h => h;
}.

Lemma emmc_read_safe_witness :
  let w := World tt (set_block_size 512 device_init) (fun _ => 0) (GpioRegs [] [] [] 0 []) in
  exists r w', emmc_read 0x1000 1024 w = Ok (r, w') /\ (r = -1 \/ r = 1024) /\ kept 0x1000 1024 w w' /\
    (well_formed (offset (device w)) 1024 = false -> r = -1 /\ hw w' = hw w /\ memory w' = memory w).
Proof. intros w. apply (emmc_read_safe 0x1000 1024 w); [reflexivity|lia]. Defined.

(** The card is not clocked too fast.  When the base clock is at most 2046
    times the target, the divider brings it to the target or below. *)
Lemma clock_divider_bound base_clock target_rate :
  0 < target_rate -> 0 <= base_clock <= 2046 * target_rate ->
  base_clock <= target_rate * sd_divisor (get_clock_divider base_clock target_rate).
Proof.
  intros Ht Hb. unfold get_clock_divider. destruct (Z.leb_spec target_rate base_clock).
  - destruct (Z.eqb_spec (base_clock mod target_rate) 0) as [E|E]; cbn [negb].
    + destruct (divider_code_enough (base_clock / target_rate) ltac:(split; [apply Z.div_pos; lia|apply Z.div_le_upper_bound; lia])) as [Hq _].
      rewrite (Z.div_mod base_clock target_rate) at 1 by lia. rewrite E, Z.add_0_r. by apply Z.mul_le_mono_nonneg_l; [lia|].
    + destruct (divider_code_enough 0 ltac:(lia)) as [_ ->]. lia.
  - destruct (divider_code_enough 1 ltac:(lia)) as [Hq _]. nia.
Qed.

(** 200 MHz to 400 kHz. *)
Lemma clock_divider_bound_witness : 200000000 <= SD_CLOCK_ID * sd_divisor (get_clock_divider 200000000 SD_CLOCK_ID).
Proof. apply (clock_divider_bound 200000000 SD_CLOCK_ID); unfold SD_CLOCK_ID; lia. Defined.
