(* ===== verification/EmmcRead.v ===== *)
(** * Reading the card's sectors

    What the driver expects of the host controller and the card, as laws over
    the phases of a read, and that [emmc_read] then brings the sectors to memory
    ([emmc_read_sectors]), as the bytes the file system's reader sees. *)
From S2P Require Import Prelude Mem Gpio Mmio Mailbox Emmc.

(** ** A controller that answers *)

(** The phases of a read: the command is done after [k] ms; the next block is in
    the FIFO after [k] ms; the words left of a block, and the blocks behind it;
    the transfer is complete after [k] ms. *)
Inductive phase :=
| Idle
| Command (k : nat) (bs : list (list Z))
| Filling (k : nat) (b : list Z) (bs : list (list Z))
| Block (ws : list Z) (bs : list (list Z))
| Complete (k : nat).

(** Of the flags in [mask], [bit] is up and alone once the time is over. *)
Definition raised (v mask bit : Z) (k : nat) : Prop := Z.land (u32 v) mask = if (k =? 0)%nat then bit else 0.

(** Sectors the card can be asked for: byte addresses without SDHC. *)
Definition addressable (hc : bool) (s n : Z) : Prop :=
  0 <= s /\ 1 <= n <= 0xFFFF /\ s + n <= if hc then 2 ^ 32 else 2 ^ 23.
Definition sector_address (hc : bool) (s : Z) : Z := if hc then s else s * 512.
Definition read_command (n : Z) : emmc_cmd_t := nth (Z.to_nat (if 1 <? n then CTReadMultiple else CTReadBlock)) commands INVALID_CMD.

(** The SD host controller with a card of sectors of 128 words: what the
    registers show in each phase, and what starts and ends it.  Every wait is at
    most 2000 ms. *)
Class Controller (H : Type) `{Hardware H} (card : Z -> list Z) (hc : bool) := {
  in_phase : phase -> H -> Prop;
  card_words s : length (card s) = 128%nat /\ Forall (fun v => 0 <= v < 2 ^ 32) (card s);
  start s n h : in_phase Idle h -> addressable hc s n ->
    exists k, (k <= 2000)%nat /\ in_phase (Command k (card <$> seqZ s n))
      (hw_sleep 10 (hw_write cmd_xfer_mode (u32 (TO_REG (read_command n)))
        (hw_write arg1 (u32 (sector_address hc s)) (hw_write block_size_count (u32 (Z.lor 512 (Z.shiftl n 16))) h))));
  command_flags k bs h v h' : in_phase (Command k bs) h -> hw_read int_flags h = (v, h') ->
    in_phase (Command k bs) h' /\ raised v 0x8001 1 k /\ raised v 0xFFFF0001 1 k;
  command_time k bs h : in_phase (Command (S k) bs) h -> in_phase (Command k bs) (hw_sleep 1 h);
  command_ack b bs h : in_phase (Command 0 (b :: bs)) h ->
    exists k, (k <= 2000)%nat /\ in_phase (Filling k b bs) (hw_write int_flags 0xFFFF0001 h);
  response_read k b bs h v h' : in_phase (Filling k b bs) h -> hw_read (response 0) h = (v, h') -> in_phase (Filling k b bs) h';
  filling_flags k b bs h v h' : in_phase (Filling k b bs) h -> hw_read int_flags h = (v, h') ->
    in_phase (Filling k b bs) h' /\ raised v 0x8020 0x20 k /\ Z.land (u32 v) 0xFFFF0000 = 0;
  filling_time k b bs h : in_phase (Filling (S k) b bs) h -> in_phase (Filling k b bs) (hw_sleep 1 h);
  filling_ack b bs h : in_phase (Filling 0 b bs) h -> in_phase (Block b bs) (hw_write int_flags 0x8020 h);
  data_read w ws bs h v h' : in_phase (Block (w :: ws) bs) h -> hw_read data h = (v, h') -> v = w /\ in_phase (Block ws bs) h';
  block_end b bs h : in_phase (Block [] (b :: bs)) h -> exists k, (k <= 2000)%nat /\ in_phase (Filling k b bs) h;
  last_block_end h : in_phase (Block [] []) h -> exists k, (k <= 2000)%nat /\ in_phase (Complete k) h;
  complete_flags k h v h' : in_phase (Complete k) h -> hw_read int_flags h = (v, h') ->
    in_phase (Complete k) h' /\ raised v 0x8002 2 k /\ raised v 0xFFFF0002 2 k;
  complete_time k h : in_phase (Complete (S k)) h -> in_phase (Complete k) (hw_sleep 1 h);
  complete_ack h : in_phase (Complete 0) h -> in_phase Idle (hw_write int_flags 0xFFFF0002 h);
  idle_ack h : in_phase Idle h -> in_phase Idle (hw_write int_flags 0xFFFF0002 h);
}.

(** ** Words in memory *)

Definition words_at (m : mem) (a : Z) (ws : list Z) : Prop :=
  forall i v, ws !! i = Some v -> load32 (a + 4 * Z.of_nat i) m = v.

Lemma words_at_app m a ws ws' : words_at m a ws -> words_at m (a + 4 * Z.of_nat (length ws)) ws' -> words_at m a (ws ++ ws').
Proof.
  intros H1 H2 i v Hi. apply lookup_app_Some in Hi as [Hi|[Hl Hi]]; [by apply H1|].
  rewrite <- (H2 _ _ Hi). f_equal. lia.
Qed.

Lemma words_at_same m m' a ws :
  (forall x, x < a + 4 * Z.of_nat (length ws) -> m' x = m x) -> words_at m a ws -> words_at m' a ws.
Proof.
  intros E Hw i v Hi. rewrite <- (Hw i v Hi). apply load32_same. intros x Hx. apply E.
  apply lookup_lt_Some in Hi. lia.
Qed.

Section Read.
Context {H : Type} `{Hardware H} (card : Z -> list Z) (hc : bool) `{!Controller H card hc}.

(** The world is [w] but for the device. *)
Definition only_hw (w w' : world H) : Prop := device w' = device w /\ memory w' = memory w /\ pins w' = pins w.
#[global] Instance only_hw_preorder : PreOrder only_hw.
Proof. split; [by intros w|]. intros w1 w2 w3 (?&?&?) (?&?&?). split_and!; congruence. Qed.

(** A wait for a flag that comes up in [k] steps. *)
Lemma wait_ok (F : nat -> H -> Prop) mask bit :
  bit <> 0 ->
  (forall k h v h', F k h -> hw_read int_flags h = (v, h') -> F k h' /\ raised v mask bit k) ->
  (forall k h, F (S k) h -> F k (hw_sleep 1 h)) ->
  forall n k w, (k < n)%nat -> F k (hw w) ->
  wp (wait_reg_loop n int_flags mask true) (fun ok w' => ok = true /\ F 0%nat (hw w') /\ only_hw w w') w.
Proof.
  intros Hbit Hread Hsleep n. induction n as [|n IH]; intros k w Hk HF; [lia|]. cbn [wait_reg_loop].
  apply wp_bind, wp_read. intros v h E. destruct (Hread _ _ _ _ HF E) as [HF' R]. unfold raised in R. rewrite R.
  destruct k as [|k]; cbn [Nat.eqb].
  - rewrite (proj2 (Z.eqb_neq bit 0)) by done. apply wp_ret. by repeat split.
  - cbn [Z.eqb negb]. apply wp_bind, wp_sleep. eapply wp_mono; [apply (IH k); [lia|by apply Hsleep]|].
    cbn. intros ok w' (-> & HF0 & O). split_and!; [done|done|]. transitivity (set_hw (hw_sleep 1 h) w); [by repeat split|exact O].
Qed.

(** The wait for a command is the same loop. *)
Lemma command_loop_wait n : forall w : world H, command_loop n w = wait_reg_loop n int_flags 0x8001 true w.
Proof.
  induction n as [|n IH]; intros w; [done|]. cbn [command_loop wait_reg_loop].
  unfold mbind, M_bind. destruct (Mmio.reg_read hw set_hw int_flags w) as [[v w1]| | |]; try done.
  destruct (negb (Z.land v 0x8001 =? 0)); [done|]. unfold Mmio.timer_sleep, modify. apply IH.
Qed.
Definition bounded (ws : list Z) : Prop := Forall (fun v => 0 <= v < 2 ^ 32) ws.

(** Words [i] on of the buffer are [ws] now, and nothing below changed. *)
Definition brought (a i : Z) (ws : list Z) (w w' : world H) : Prop :=
  device w' = device w /\ words_at (memory w') (a + 4 * i) ws /\ forall x, x < a + 4 * i -> memory w' x = memory w x.

Lemma filled_app a i ws ws' w w1 w2 :
  brought a i ws w w1 -> brought a (i + Z.of_nat (length ws)) ws' w1 w2 -> brought a i (ws ++ ws') w w2.
Proof.
  intros (D1 & W1 & B1) (D2 & W2 & B2). split_and!; [congruence| |intros x Hx; rewrite B2, B1 by lia; done].
  apply words_at_app.
  - apply (words_at_same (memory w1)); [|done]. intros x Hx. apply B2. lia.
  - intros j v Hj. rewrite <- (W2 j v Hj). f_equal. lia.
Qed.

Lemma only_hw_filled a i ws w w1 w2 : only_hw w w1 -> brought a i ws w1 w2 -> brought a i ws w w2.
Proof. intros (D & Hm & _) (D' & W & B). split_and!; [congruence|done|]. intros x Hx. by rewrite B, Hm. Qed.

Lemma store_word_ok a i v w : 0 <= i -> 0 <= v < 2 ^ 32 -> buffer (device w) = MemBuffer a ->
  wp (store_word i v) (fun _ w' => hw w' = hw w /\ brought a i [v] w w') w.
Proof.
  intros Hi Hv Hb. unfold store_word. apply wp_bind, wp_get. rewrite Hb. apply wp_modify. split; [done|].
  split_and!; [done| |cbn; intros; by apply store32_below].
  intros [|j] v' Hj; [|done]. injection Hj as <-. cbn [memory Z.of_nat]. rewrite Z.mul_0_r, Z.add_0_r. by apply load_store32.
Qed.

Lemma word_loop_ok a bs ws : bounded ws -> forall i w L,
  L = 4 * Z.of_nat (length ws) -> L < 2 ^ 32 -> 0 <= i -> buffer (device w) = MemBuffer a -> in_phase (Block ws bs) (hw w) ->
  wp (word_loop (length ws) false L i)
    (fun i' w' => i' = i + Z.of_nat (length ws) /\ in_phase (Block [] bs) (hw w') /\ brought a i ws w w') w.
Proof.
  induction 1 as [|v ws Hv _ IH]; intros i w L HL HL2 Hi Hb HP; cbn [word_loop length] in *.
  - rewrite (proj2 (Z.eqb_eq L 0)) by lia. apply wp_ret. split_and!; [lia|done|]. by split_and!.
  - rewrite (proj2 (Z.eqb_neq L 0)) by lia. apply wp_bind, wp_bind, wp_read. intros v' h E.
    destruct (data_read _ _ _ _ _ _ HP E) as [-> HP']. rewrite (u32_small v) by lia.
    eapply wp_mono; [by apply (store_word_ok a)|]. cbn. intros _ w1 [Hh Hf]. rewrite (u32_small (L - 4)) by lia.
    eapply wp_mono; [apply IH; [lia|lia|lia|by rewrite (proj1 Hf)|by rewrite Hh]|].
    cbn. intros i' w2 (-> & HP2 & Hf2). split_and!; [lia|done|]. change (v :: ws) with ([v] ++ ws).
    eapply filled_app; [exact (only_hw_filled _ _ _ _ (set_hw h w) _ ltac:(by repeat split) Hf)|exact Hf2].
Qed.

(** One block of a transfer. *)
Lemma block_step a n b bs k i w Q :
  length b = 128%nat -> bounded b -> (k <= 2000)%nat -> 0 <= i ->
  block_size (device w) = 512 -> buffer (device w) = MemBuffer a -> in_phase (Filling k b bs) (hw w) ->
  (forall w', in_phase (Block [] bs) (hw w') -> brought a i b w w' -> wp (block_loop n false (2 ^ 5) (i + 128)) Q w') ->
  wp (block_loop (S n) false (2 ^ 5) i) Q w.
Proof.
  intros Hl Hb Hk Hi Hs Hbuf HP Hnext. cbn [block_loop]. apply wp_bind.
  eapply wp_mono; [apply (wait_ok (fun k h => in_phase (Filling k b bs) h) 0x8020 0x20) with (k := k)|].
  - done.
  - intros ? ? ? ? F E. by destruct (filling_flags _ _ _ _ _ _ F E) as (?&?&?).
  - intros ? ?. apply filling_time.
  - lia.
  - exact HP.
  - cbn. intros _ w1 (_ & HP1 & O1). apply wp_bind, wp_read. intros v h E.
    destruct (filling_flags _ _ _ _ _ _ HP1 E) as (HP2 & _ & Hz). apply wp_bind, wp_write. rewrite Hz. cbn [Z.eqb negb].
    apply wp_bind, wp_get. cbn [device set_hw hw]. rewrite (proj1 O1), Hs. apply wp_bind. change (Z.to_nat (512 / 4)) with 128%nat.
    rewrite <- Hl. eapply wp_mono; [apply (word_loop_ok a bs b Hb)|].
    + rewrite Hl. lia.
    + lia.
    + done.
    + cbn. by rewrite (proj1 O1).
    + cbn. by apply filling_ack.
    + cbn. intros i' w2 (-> & HP3 & Hf). rewrite Hl. apply Hnext; [done|].
      apply (only_hw_filled _ _ _ _ (set_hw (hw_write int_flags (u32 32800) h) (set_hw h w1))); [|exact Hf].
      transitivity w1; [exact O1|by repeat split].
Qed.

(** The blocks of a transfer: the first is awaited. *)
Lemma block_loop_ok a bs : Forall (fun b => length b = 128%nat /\ bounded b) bs -> forall b k i w,
  length b = 128%nat -> bounded b -> (k <= 2000)%nat -> 0 <= i ->
  block_size (device w) = 512 -> buffer (device w) = MemBuffer a -> in_phase (Filling k b bs) (hw w) ->
  wp (block_loop (S (length bs)) false (2 ^ 5) i)
    (fun _ w' => (exists k', (k' <= 2000)%nat /\ in_phase (Complete k') (hw w')) /\ brought a i (concat (b :: bs)) w w') w.
Proof.
  induction 1 as [|b' bs [Hl' Hb'] _ IH]; intros b k i w Hl Hb Hk Hi Hs Hbuf HP;
    eapply block_step; eauto; intros w1 HP1 Hf1; cbn [concat].
  - apply wp_ret. split; [by apply last_block_end|]. by rewrite app_nil_r.
  - destruct (block_end _ _ _ HP1) as (k1 & Hk1 & HP2).
    eapply wp_mono; [apply (IH b' k1 (i + 128) w1); try done; try lia; by rewrite (proj1 Hf1)|].
    cbn. intros _ w2 [HC Hf2]. split; [done|]. eapply filled_app; [exact Hf1|]. by rewrite Hl.
Qed.
(** Worlds between which only the driver's notes about the last command changed. *)
Definition noted (w w' : world H) : Prop :=
  memory w' = memory w /\ block_size (device w') = block_size (device w) /\ transfer_blocks (device w') = transfer_blocks (device w) /\
  buffer (device w') = buffer (device w) /\ offset (device w') = offset (device w) /\ sdhc (device w') = sdhc (device w).
#[global] Instance noted_preorder : PreOrder noted.
Proof.
  split; [by intros w; repeat split|].
  intros w1 w2 w3 (?&?&?&?&?&?) (?&?&?&?&?&?). split_and!; congruence.
Qed.
Lemma only_hw_noted w w' : only_hw w w' -> noted w w'.
Proof. intros (D & E & _). unfold noted. by rewrite D, E. Qed.

(** The wait for the command, its acknowledgement and the response. *)
Lemma command_part (Q : bool -> world H -> Prop) k b bs c w (f : Z -> M (world H) bool) :
  (k <= 2000)%nat -> in_phase (Command k (b :: bs)) (hw w) -> response_type c = RT48 ->
  (forall w' v, noted w w' -> Z.land v 0xFFFF0001 = 1 -> (exists k', (k' <= 2000)%nat /\ in_phase (Filling k' b bs) (hw w')) ->
     wp (_ ← read_responses c; f v) Q w' ) ->
  wp (in_time ← command_loop (Z.to_nat 5000);
      if negb in_time then _ ← upd (set_last_success false); mret false
      else intr_val ← Mmio.reg_read hw set_hw int_flags; _ ← Mmio.reg_write hw set_hw int_flags 0xFFFF0001;
           if negb (Z.land intr_val 0xFFFF0001 =? 1) then
             _ ← set_last_error intr_val; _ ← upd (set_last_success false); mret false
           else _ ← read_responses c; f intr_val) Q w.
Proof.
  intros Hk HP Hr Hf. apply wp_bind, (wp_eq _ _ _ _ (command_loop_wait _ _)).
  eapply wp_mono; [apply (wait_ok (fun k h => in_phase (Command k (b :: bs)) h) 0x8001 1) with (k := k)|].
  - done.
  - intros ? ? ? ? F E. by destruct (command_flags _ _ _ _ _ F E) as (?&?&?).
  - intros ? ?. apply command_time.
  - lia.
  - exact HP.
  - cbn. intros _ w1 (-> & HP1 & O1). cbn [negb]. apply wp_bind, wp_read. intros v h E.
    destruct (command_flags _ _ _ _ _ HP1 E) as (HP2 & _ & R). unfold raised in R. cbn in R.
    apply wp_bind, wp_write. rewrite R. cbn [Z.eqb negb Pos.eqb]. apply Hf; [|done|].
    + transitivity w1; [by apply only_hw_noted|by repeat split].
    + apply (command_ack _ _ _ HP2).
Qed.

Lemma responses_ok k b bs c w : response_type c = RT48 -> in_phase (Filling k b bs) (hw w) ->
  wp (read_responses c) (fun _ w' => noted w w' /\ in_phase (Filling k b bs) (hw w')) w.
Proof.
  intros Hr HP. unfold read_responses. rewrite Hr. cbn [Z.eqb RT48 Pos.eqb orb].
  apply wp_bind, wp_read. intros v h E. apply wp_modify. split.
  - unfold noted. cbn. by destruct (device w).
  - cbn. by eapply response_read.
Qed.

Lemma finish_ok c k w : is_data c = 1 -> (k <= 2000)%nat -> in_phase (Complete k) (hw w) ->
  wp (finish_transfer c) (fun ok w' => ok = true /\ only_hw w w' /\ in_phase Idle (hw w')) w.
Proof.
  intros Hc Hk HP. unfold finish_transfer. rewrite Hc, orb_true_r. apply wp_bind.
  eapply wp_mono; [apply (wait_ok (fun k h => in_phase (Complete k) h) 0x8002 2) with (k := k)|].
  - done.
  - intros ? ? ? ? F E. by destruct (complete_flags _ _ _ _ F E) as (?&?&?).
  - intros ? ?. apply complete_time.
  - lia.
  - exact HP.
  - cbn. intros _ w1 (_ & HP1 & O1). apply wp_bind, wp_read. intros v h E.
    destruct (complete_flags _ _ _ _ HP1 E) as (HP2 & _ & R). unfold raised in R. cbn in R.
    apply wp_bind, wp_write. rewrite R. cbn [Z.eqb negb andb Pos.eqb]. apply wp_bind, wp_write, wp_ret.
    split_and!; [done| |]; [transitivity w1; [done|by repeat split]|]. cbn. by apply idle_ack, complete_ack.
Qed.

(** What a read leaves: the words, an idle controller, the driver as before. *)
Definition got (a : Z) (ws : list Z) (w w' : world H) : Prop :=
  in_phase Idle (hw w') /\ words_at (memory w') a ws /\ block_size (device w') = block_size (device w) /\
  offset (device w') = offset (device w) /\ sdhc (device w') = sdhc (device w).

Lemma read_command_facts n : response_type (read_command n) = RT48 /\ is_data (read_command n) = 1 /\ direction (read_command n) = 1.
Proof. unfold read_command. by destruct (1 <? n). Qed.

Lemma card_blocks s n : Forall (fun b => length b = 128%nat /\ bounded b) (card <$> seqZ s n).
Proof. apply Forall_fmap, Forall_forall. intros x _. apply card_words. Qed.

Lemma issue_ok a s n w : addressable hc s n ->
  in_phase Idle (hw w) -> block_size (device w) = 512 -> transfer_blocks (device w) = n -> buffer (device w) = MemBuffer a ->
  wp (emmc_issue_command (read_command n) (sector_address hc s) 5000)
    (fun ok w' => ok = true /\ got a (concat (card <$> seqZ s n)) w w') w.
Proof.
  intros Ha HP Hs Hn Hb. destruct (read_command_facts n) as (Hr & Hd & Hdir).
  assert (Hn' : 1 <= n <= 0xFFFF) by apply Ha.
  unfold emmc_issue_command. apply wp_bind, wp_modify, wp_bind, wp_get.
  set (w0 := World (hw w) (set_last_command_value (TO_REG (read_command n)) (device w)) (memory w) (pins w)).
  assert (N0 : noted w w0) by (unfold noted; cbn; by destruct (device w)).
  pose proof N0 as (_ & B0 & T0 & U0 & _ & _).
  rewrite T0, Hn, (proj2 (Z.ltb_ge _ _)) by lia. apply wp_bind, wp_get. rewrite B0, Hs.
  do 3 apply wp_bind, wp_write. apply wp_bind, wp_sleep.
  destruct (start s n (hw w) HP Ha) as (k & Hk & HP1).
  pose proof (card_blocks s n) as Hbs.
  destruct (card <$> seqZ s n) as [|b bs] eqn:Ebs; [apply (f_equal length) in Ebs; rewrite length_fmap, length_seqZ in Ebs; cbn in Ebs; lia|].
  assert (length (b :: bs) = Z.to_nat n) as Hlen by (by rewrite <- Ebs, length_fmap, length_seqZ).
  inversion_clear Hbs as [|? ? [Hbl Hbb] Hbs'].
  eapply (command_part _ k b bs); [exact Hk|exact HP1|exact Hr|].
  intros w1 v N1 Hv (k1 & Hk1 & HP2). apply wp_bind. eapply wp_mono; [by apply responses_ok|].
  cbn beta. intros _ w2 [N2 HP3]. rewrite Hd. cbn [Z.eqb negb]. apply wp_bind. unfold do_data_transfer. rewrite Hdir. cbn [Z.eqb negb].
  assert (N : noted w w2) by (transitivity w0; [exact N0|]; transitivity w1; [|exact N2]; exact N1).
  destruct N as (M & B & T & U & O & S). apply wp_bind, wp_get. rewrite T, Hn.
  replace (Z.to_nat n) with (Datatypes.S (length bs)) by (cbn in Hlen; lia).
  eapply wp_mono; [apply (block_loop_ok a bs Hbs' b k1); try done; congruence|].
  cbn beta. intros _ w3 [(k3 & Hk3 & HP4) (D & Wd & _)]. apply wp_bind.
  eapply wp_mono; [by apply (finish_ok _ k3)|]. cbn beta. intros ok w4 (-> & (D4 & M4 & _) & HP5). cbn [negb].
  apply wp_bind, wp_modify, wp_ret. split; [done|]. rewrite Z.mul_0_r, Z.add_0_r in Wd.
  assert (noted w4 (World (hw w4) (set_last_success true (device w4)) (memory w4) (pins w4))) as (M5 & B5 & _ & _ & O5 & S5)
    by (unfold noted; cbn; by destruct (device w4)).
  split_and!; [done|by rewrite M5, M4|congruence..].
Qed.

(** The first attempt is enough. *)
Lemma retry_ok a s n w : addressable hc s n ->
  in_phase Idle (hw w) -> block_size (device w) = 512 -> transfer_blocks (device w) = n -> buffer (device w) = MemBuffer a ->
  wp (retry_loop 3 (data_command false n) (sector_address hc s)) (fun ok w' => ok = true /\ got a (concat (card <$> seqZ s n)) w w') w.
Proof.
  intros Ha HP Hs Hn Hb. cbn [retry_loop]. apply wp_bind.
  set (w0 := World (hw w) (set_last_command (read_command n) (device w)) (memory w) (pins w)).
  assert (N0 : noted w w0) by (unfold noted; cbn; by destruct (device w)). destruct N0 as (M0 & B0 & T0 & U0 & O0 & S0).
  apply (wp_eq _ (upd (set_last_command (read_command n)) ≫= fun _ => emmc_issue_command (read_command n) (sector_address hc s) 5000)).
  { unfold data_command, read_command. cbn [andb]. by destruct (1 <? n). }
  apply wp_bind, wp_modify. fold w0.
  eapply wp_mono; [apply (issue_ok a s n w0); try done; congruence|]. cbn. intros ok w1 (-> & P1 & W1 & B1 & O1 & S1).
  apply wp_ret. split; [done|]. split_and!; [done|done|congruence..].
Qed.
End Read.

(** ** A controller of this kind *)

(** The phase and the two registers a command takes its parameters from. *)
Record sim := Sim { sim_phase : phase; sim_count : Z; sim_arg : Z }.
Definition sim_card (s : Z) : list Z := replicate 128 (u32 s).
Definition norm (p : phase) : phase :=
  match p with Block [] (b :: bs) => Filling 1 b bs | Block [] [] => Complete 1 | _ => p end.
Definition sim_flags (p : phase) : Z :=
  match p with Command 0 _ => 1 | Filling 0 _ _ => 0x20 | Complete 0 => 2 | _ => 0 end.
Definition sim_tick (p : phase) : phase :=
  match p with
  | Command (S k) bs => Command k bs
  | Filling (S k) b bs => Filling k b bs
  | Complete (S k) => Complete k
  | _ => p
  end.
Definition sim_write (r : reg) (v : Z) (h : sim) : sim :=
  match r, sim_phase h with
  | block_size_count, p => Sim p v (sim_arg h)
  | arg1, p => Sim p (sim_count h) v
  | cmd_xfer_mode, Idle => Sim (Command 2 (sim_card <$> seqZ (sim_arg h) (Z.shiftr (sim_count h) 16))) (sim_count h) (sim_arg h)
  | int_flags, Command 0 (b :: bs) => Sim (Filling 1 b bs) (sim_count h) (sim_arg h)
  | int_flags, Filling 0 b bs => Sim (norm (Block b bs)) (sim_count h) (sim_arg h)
  | int_flags, Complete 0 => Sim Idle (sim_count h) (sim_arg h)
  | _, _ => h
  end.
Definition sim_read (r : reg) (h : sim) : Z * sim :=
  match r, sim_phase h with
  | int_flags, p => (sim_flags p, h)
  | data, Block (w :: ws) bs => (w, Sim (norm (Block ws bs)) (sim_count h) (sim_arg h))
  | _, _ => (0, h)
  end.
#[export] Instance sim_hardware : Hardware sim := {
  hw_read := sim_read; hw_write := sim_write;
  hw_sleep := fun _ h => Sim (sim_tick (sim_phase h)) (sim_count h) (sim_arg h);
  hw_shared := fun _ => []; hw_share := fun _ h => h;
}.

Lemma count_field n : 1 <= n <= 0xFFFF -> Z.shiftr (u32 (Z.lor 512 (Z.shiftl n 16))) 16 = n.
Proof.
  intros Hn. unfold u32, wrap. rewrite <- Z.land_ones, Z.shiftr_land, Z.shiftr_lor, Z.shiftr_shiftl_l by lia.
  cbn [Z.sub]. change (Z.shiftr 512 16) with 0. change (Z.shiftr (Z.ones 32) 16) with (Z.ones 16).
  rewrite Z.lor_0_l, Z.shiftl_0_r, Z.land_ones by lia. apply Z.mod_small. lia.
Qed.

#[export] Instance sim_controller : Controller sim sim_card true.
Proof.
  apply (Build_Controller _ _ _ _ (fun p h => sim_phase h = norm p)).
  - intros s. split; [done|]. apply Forall_replicate, (wrap_range 32). lia.
  - intros s n [p c a] Hp (Hs & Hn & Hl). cbn in Hp. subst p. exists 1%nat. split; [lia|]. cbn.
    rewrite count_field by done. by rewrite (u32_small s) by lia.
  - intros k bs [p c a] v h' Hp E. cbn in *. subst p. injection E as <- <-. by destruct k.
  - intros k bs [p c a] Hp. cbn in *. by subst p.
  - intros b bs [p c a] Hp. cbn in *. subst p. exists 1%nat. split; [lia|done].
  - intros k b bs [p c a] v h' Hp E. cbn in *. subst p. by injection E as <- <-.
  - intros k b bs [p c a] v h' Hp E. cbn in *. subst p. injection E as <- <-. by destruct k.
  - intros k b bs [p c a] Hp. cbn in *. by subst p.
  - intros b bs [p c a] Hp. cbn in *. by subst p.
  - intros x ws bs [p c a] v h' Hp E. cbn in *. subst p. by injection E as <- <-.
  - intros b bs [p c a] Hp. cbn in *. subst p. exists 1%nat. split; [lia|done].
  - intros [p c a] Hp. cbn in *. subst p. exists 1%nat. split; [lia|done].
  - intros k [p c a] v h' Hp E. cbn in *. subst p. injection E as <- <-. by destruct k.
  - intros k [p c a] Hp. cbn in *. by subst p.
  - intros [p c a] Hp. cbn in *. by subst p.
  - intros [p c a] Hp. cbn in *. by subst p.
Defined.

(** ** The whole read *)

Lemma read_sectors_ok {H} `{Hardware H} (card : Z -> list Z) hc `{!Controller H card hc} s n b (w : world H) :
  addressable hc s n -> in_phase Idle (hw w) -> block_size (device w) = 512 -> sdhc (device w) = hc ->
  exists w', (_ ← emmc_seek_sector s; emmc_read b (512 * n)) w = Ok (512 * n, w') /\
    words_at (memory w') b (concat (card <$> seqZ s n)) /\
    in_phase Idle (hw w') /\ block_size (device w') = 512 /\ sdhc (device w') = hc.
Proof.
  intros Ha HP Hs Hhc. pose proof Ha as (Hs0 & Hn & Hl).
  assert (s + n <= 2 ^ 32) as Hl' by (destruct hc; lia).
  enough (wp (_ ← emmc_seek_sector s; emmc_read b (512 * n)) (fun r w' => r = 512 * n /\
    words_at (memory w') b (concat (card <$> seqZ s n)) /\
    in_phase Idle (hw w') /\ block_size (device w') = 512 /\ sdhc (device w') = hc) w) as (r & w' & E & -> & K)%wp_run by eauto.
  apply wp_bind, wp_modify. unfold emmc_read. apply wp_bind, wp_get.
  set (w0 := World (hw w) (set_offset (u64 (s * 512)) (device w)) (memory w) (pins w)).
  assert (offset (device w0) = s * 512 /\ block_size (device w0) = 512 /\ sdhc (device w0) = hc) as (O0 & B0 & S0).
  { cbn. destruct (device w). cbn in *. rewrite u64_small by lia. done. }
  rewrite O0, Z.mod_mul by lia. cbn [Z.eqb negb]. rewrite Z.div_mul by lia. rewrite (u32_small s) by lia.
  apply wp_bind. unfold do_read. apply wp_bind. unfold do_data_command.
  apply wp_bind, wp_get. rewrite S0. apply wp_bind, wp_get. rewrite B0.
  replace (if negb hc then u32 (s * 512) else s) with (sector_address hc s)
    by (destruct hc; cbn; [done|symmetry; apply u32_small; lia]).
  rewrite (proj2 (Z.ltb_ge _ _)) by lia. cbn [Z.eqb].
  rewrite (Z.mul_comm 512 n), Z.div_mul, Z.mod_mul by lia. cbn [Z.eqb negb].
  apply wp_bind, wp_modify, wp_bind, wp_modify. cbn [hw device memory pins].
  set (w1 := World (hw w0) (set_buffer (MemBuffer b) (set_transfer_blocks n (device w0))) (memory w0) (pins w0)).
  assert (transfer_blocks (device w1) = n /\ block_size (device w1) = 512 /\ buffer (device w1) = MemBuffer b /\ sdhc (device w1) = hc)
    as (T1 & B1 & U1 & S1) by (unfold w1; cbn [device]; destruct (device w0); cbn in *; by split_and!).
  eapply wp_mono; [by apply (retry_ok card hc b s n w1)|]. cbn beta. intros ok w2 (-> & P2 & W2 & B2 & _ & S2). cbn [negb].
  apply wp_ret. rewrite s32_small by lia. rewrite u32_small by lia. rewrite Z.eqb_refl. apply wp_ret.
  split_and!; [done|done|done|congruence|congruence].
Qed.

(** ** Claims *)

(** A read brings the sectors.  With a controller that answers the protocol,
    idle, and a driver the start of the card left ready, seeking to a sector and
    reading [n] sectors returns all the bytes asked for, with the card's words in
    the buffer in order, and leaves the controller idle and the driver ready. *)
Lemma emmc_read_sectors {H} `{Hardware H} (card : Z -> list Z) hc `{!Controller H card hc} s n b (w : world H) :
  addressable hc s n -> in_phase Idle (hw w) -> block_size (device w) = 512 -> sdhc (device w) = hc ->
  exists w', (_ ← emmc_seek_sector s; emmc_read b (512 * n)) w = Ok (512 * n, w') /\
    words_at (memory w') b (concat (card <$> seqZ s n)) /\
    in_phase Idle (hw w') /\ block_size (device w') = 512 /\ sdhc (device w') = hc.
Proof. apply read_sectors_ok. Qed.

Definition sim_device : emmc_device_t := set_sdhc true (set_block_size 512 device_init).

(** Sectors 7 and 8. *)
Lemma emmc_read_sectors_witness :
  exists w', (_ ← emmc_seek_sector 7; emmc_read 0x1000 1024) (World (Sim Idle 0 0) sim_device (fun _ => 0) (GpioRegs [] [] [] 0 [])) = Ok (1024, w') /\
    words_at (memory w') 0x1000 (concat (sim_card <$> seqZ 7 2)) /\
    in_phase Idle (hw w') /\ block_size (device w') = 512 /\ sdhc (device w') = true.
Proof. apply (emmc_read_sectors sim_card true 7 2 0x1000); [split; [lia|split; [lia|lia]]|reflexivity|reflexivity|reflexivity]. Defined.

(** ** The card under the file system *)

From S2P Require Import Ext4.

(** Byte [i] of a sector, from its words, least significant byte first. *)
Definition card_byte (card : Z -> list Z) (s i : Z) : Z :=
  u8 (Z.shiftr (nth (Z.to_nat (i / 4)) (card s) 0) (8 * (i mod 4))).

(** The bytes of a word in memory. *)
Lemma load32_byte a m j : 0 <= j < 4 -> u8 (Z.shiftr (load32 a m) (8 * j)) = u8 (m (a + j)).
Proof.
  intros Hj. unfold load32. rewrite Z.shiftr_div_pow2 by lia. unfold u8, wrap.
  set (b0 := m a mod 2 ^ 8). set (b1 := m (a + 1) mod 2 ^ 8). set (b2 := m (a + 2) mod 2 ^ 8). set (b3 := m (a + 3) mod 2 ^ 8).
  assert (0 <= b0 < 256 /\ 0 <= b1 < 256 /\ 0 <= b2 < 256 /\ 0 <= b3 < 256) as (?&?&?&?) by (split_and!; apply Z.mod_pos_bound; lia).
  assert (j = 0 \/ j = 1 \/ j = 2 \/ j = 3) as [->|[->|[->| ->]]] by lia; rewrite ?Z.add_0_r; fold b0 b1 b2 b3;
    change (2 ^ 8) with 256; change (2 ^ 16) with 65536; change (2 ^ 24) with 16777216;
    [change (2 ^ (8 * 0)) with 1|change (2 ^ (8 * 1)) with 256|change (2 ^ (8 * 2)) with 65536|change (2 ^ (8 * 3)) with 16777216]; zdiv.
Qed.

(** Word [k] of consecutive sectors. *)
Lemma sectors_word card s n k : (forall s, length (card s) = 128%nat) -> 0 <= k < 128 * n ->
  concat (card <$> seqZ s n) !! Z.to_nat k = Some (nth (Z.to_nat (k mod 128)) (card (s + k / 128)) 0).
Proof.
  intros Hl. revert s k. destruct (decide (0 <= n)) as [Hn|]; [|lia]. pattern n. apply natlike_ind; [lia| |done]. clear n Hn.
  intros n Hn IH s k Hk. rewrite seqZ_cons, Z.pred_succ, fmap_cons by lia. cbn [concat]. rewrite lookup_app.
  destruct (decide (k < 128)) as [Hlt|Hge].
  - rewrite Z.mod_small, Z.div_small, Z.add_0_r, nth_lookup by lia.
    destruct (card s !! Z.to_nat k) as [v|] eqn:E; [done|]. apply lookup_ge_None in E. rewrite Hl in E. lia.
  - rewrite (proj2 (lookup_ge_None (card s) _)) by (rewrite Hl; lia). rewrite Hl.
    replace (Z.to_nat k - 128)%nat with (Z.to_nat (k - 128)) by lia.
    rewrite (IH (Z.succ s)) by lia. replace ((k - 128) mod 128) with (k mod 128) by zdiv.
    replace (Z.succ s + (k - 128) / 128) with (s + k / 128) by zdiv. done.
Qed.

(** ** Claims *)

(** C20: the driver serves the file system.  With a controller that answers, the
    bytes in the buffer after seeking to a sector and reading are those the file
    system's [read_sectors] takes from the card. *)
Theorem driver_serves_fs {H} `{Hardware H} (card : Z -> list Z) hc `{!Controller H card hc} s n b (w : world H) :
  addressable hc s n -> in_phase Idle (hw w) -> Emmc.block_size (device w) = 512 -> sdhc (device w) = hc ->
  exists w', (_ ← emmc_seek_sector s; emmc_read b (512 * n)) w = Ok (512 * n, w') /\
    (fun i => u8 (memory w' (b + i))) <$> seqZ 0 (512 * n) = read_sectors (card_byte card) s (512 * n).
Proof.
  intros Ha HP Hs Hhc. destruct (read_sectors_ok card hc s n b w Ha HP Hs Hhc) as (w' & E & Hw & _).
  exists w'. split; [exact E|]. unfold read_sectors. apply list_fmap_ext. intros j i Hj.
  apply lookup_seqZ in Hj as [-> Hj]. rewrite Z.add_0_l. set (i := Z.of_nat j) in *.
  assert (0 <= i) by lia. unfold card_byte.
  pose proof (sectors_word card s n (i / 4) ltac:(intros; apply card_words) ltac:(split; zdiv)) as Hk.
  apply Hw in Hk. rewrite Z2Nat.id in Hk by zdiv.
  replace (s + i / 512) with (s + i / 4 / 128) by (f_equal; zdiv).
  replace (i mod 512 / 4) with (i / 4 mod 128) by zdiv. rewrite <- Hk.
  replace (i mod 512 mod 4) with (i mod 4) by zdiv. rewrite load32_byte by zdiv. do 2 f_equal. zdiv.
Qed.

Lemma driver_serves_fs_witness :
  exists w', (_ ← emmc_seek_sector 7; emmc_read 0x1000 1024) (World (Sim Idle 0 0) sim_device (fun _ => 0) (GpioRegs [] [] [] 0 [])) = Ok (1024, w') /\
    (fun i => u8 (memory w' (0x1000 + i))) <$> seqZ 0 1024 = read_sectors (card_byte sim_card) 7 1024.
Proof. apply (driver_serves_fs sim_card true 7 2 0x1000); [split; [lia|split; [lia|lia]]|reflexivity|reflexivity|reflexivity]. Defined.
