(* ===== verification/I2c.v ===== *)
(** * The I2C driver ([filedescriptors/filedescriptors.c])

    The BSC controller's registers as an interface, and the routines behind the
    descriptor of [/dev/i2c].  The two polling loops have no bound of their own
    and take fuel. *)
From S2P Require Import Prelude Mmap Gpio Mmio.

(** [struct BSCRegs], the registers the driver uses. *)
Inductive bsc := bsc_c | bsc_s | bsc_dlen | bsc_a | bsc_fifo | bsc_div.

Class Bus (H : Type) := {
  bus_read : bsc -> H -> Z * H;
  bus_write : bsc -> Z -> H -> H;
}.

Definition GFAlt0 : Z := 4.
Definition SDA_GPIO : Z := 2.
Definition SCL_GPIO : Z := 3.

Record i2c_world (H : Type) := I2cWorld { bus : H; i2c_pins : gpio_regs }.
Arguments I2cWorld {H}. Arguments bus {H}. Arguments i2c_pins {H}.

Section I2c.
Context {H : Type} `{Bus H} (fuel : nat).
Notation M := (M (i2c_world H)).

Definition bread (r : bsc) : M Z := fun w => let '(v, h) := bus_read r (bus w) in Ok (u32 v, I2cWorld h (i2c_pins w)).
Definition bwrite (r : bsc) (v : Z) : M unit := fun w => Ok (tt, I2cWorld (bus_write r (u32 v) (bus w)) (i2c_pins w)).

(** [regs->r.bits.field = x], and a test of a field. *)
Definition set_field (r : bsc) (lo width x : Z) : M unit := v ← bread r; bwrite r (set_bits lo width x v).
Definition get_field (r : bsc) (lo width : Z) : M Z := v ← bread r; mret (get_bits lo width v).

Fixpoint poll (n : nat) (lo : Z) : M unit :=
  match n with
  | O => out_of_fuel
  | S n => b ← get_field bsc_s lo 1; if b =? 0 then poll n lo else mret tt
  end.

Definition on_pins (f : gpio_regs -> res gpio_regs) : M unit := fun w => p ← f (i2c_pins w); Ok (tt, I2cWorld (bus w) p).

(** The function ends without a value. *)
Definition i2c_open : M unit :=
  _ ← on_pins (fun p => '(_, p) ← gpio_pin_enable SDA_GPIO p; Ok p);
  _ ← on_pins (fun p => '(_, p) ← gpio_pin_enable SCL_GPIO p; Ok p);
  _ ← on_pins (gpio_pin_set_func SDA_GPIO GFAlt0);
  _ ← on_pins (gpio_pin_set_func SCL_GPIO GFAlt0);
  _ ← set_field bsc_c 15 1 1;
  set_field bsc_div 0 16 1500.

(** [buf] is given by its bytes, [None] when it is NULL; the address of the
    device is in the file's [private_data].  [None]: no value is returned. *)
Definition i2c_read (private_data : Z) (buf : option (list Z)) : M (option Z) :=
  match buf with
  | None => mret (Some 0)
  | Some _ => _ ← set_field bsc_a 0 7 (u8 private_data); mret None
  end.

Fixpoint send_loop (n : nat) (buf : list Z) : M unit :=
  match n with
  | O => mret tt
  | S n =>
      _ ← poll fuel 4;
      c ← lift_res (deref (list.head buf));
      _ ← set_field bsc_fifo 0 8 c;
      send_loop n (tail buf)
  end.

Definition transfer_block (buf : list Z) (count : Z) : M Z :=
  _ ← set_field bsc_c 7 1 1;
  _ ← send_loop (Z.to_nat count) buf;
  _ ← poll fuel 1;
  _ ← get_field bsc_s 8 1;                      (* for the message *)
  get_field bsc_s 8 1.

Fixpoint transfer_loop (n : nat) (buf : list Z) (count to_transfer : Z) : M unit :=
  if to_transfer =? 0 then mret tt
  else match n with
  | O => out_of_fuel
  | S n =>
      _ ← set_field bsc_dlen 0 16 to_transfer;
      _ ← transfer_block buf to_transfer;
      transfer_loop n buf count (Z.min (count - to_transfer) 65535)
  end.

Definition i2c_write (private_data : Z) (buf : option (list Z)) (count : Z) : M (option Z) :=
  match buf with
  | None => mret (Some 0)
  | Some buf =>
      if 65535 <? count then mret (Some 0)
      else
        _ ← set_field bsc_a 0 7 (u8 private_data);
        _ ← set_field bsc_c 4 2 1;
        _ ← set_field bsc_c 0 1 0;
        _ ← set_field bsc_div 0 16 2500;
        _ ← transfer_loop 2 buf count (Z.min count 65535);
        mret None
  end.

(** The loop over blocks runs once: a longer message has been refused. *)
Lemma transfer_once n buf count w : 0 < count <= 65535 ->
  transfer_loop (S n) buf count (Z.min count 65535) w =
    (_ ← set_field bsc_dlen 0 16 count; _ ← transfer_block buf count; mret tt) w.
Proof.
  intros Hc. rewrite Z.min_l by lia. cbn [transfer_loop]. rewrite (proj2 (Z.eqb_neq count 0)) by lia.
  unfold mbind, M_bind. destruct (set_field _ _ _ _ w) as [[[] w1]| | |]; try done.
  destruct (transfer_block buf count w1) as [[v w2]| | |]; try done.
  rewrite Z.sub_diag, Z.min_l by lia. by destruct n.
Qed.
End I2c.

(** A bus that is always ready notes what is written to it. *)
#[local] Instance noting_bus : Bus (list (bsc * Z)) := {
  bus_read r h := (match r with bsc_s => 0x12 | _ => 0 end, h);
  bus_write r v h := h ++ [(r, v)];
}.

(** The bytes the FIFO has been given. *)
Definition sent (h : list (bsc * Z)) : list Z := omap (fun e => match e with (bsc_fifo, v) => Some v | _ => None end) h.

Lemma byte_field c : 0 <= c < 256 -> u32 (set_bits 0 8 c 0) = c.
Proof.
  intros Hc. unfold set_bits. rewrite Z.ldiff_0_l, Z.lor_0_l, Z.shiftl_0_r, Z.land_ones by lia.
  rewrite Z.mod_small by (change (2 ^ 8) with 256; lia). apply u32_small. lia.
Qed.

(** All bytes of the message, in order, and nothing else. *)
Lemma send_all fuel buf : (0 < fuel)%nat -> Forall (fun c => 0 <= c < 256) buf -> forall w,
  wp (send_loop fuel (length buf) buf) (fun _ w' => sent (bus w') = sent (bus w) ++ buf) w.
Proof.
  intros Hf. induction 1 as [|c buf Hc _ IH]; intros w; cbn [send_loop length]; [apply wp_ret; by rewrite app_nil_r|].
  destruct fuel as [|fuel]; [lia|]. apply wp_bind.
  apply (wp_eq _ (mret tt)); [by destruct w|]. apply wp_ret, wp_bind. apply (wp_lift _ c); [done|].
  apply wp_bind. apply (wp_eq _ (fun w => Ok (tt, I2cWorld (bus w ++ [(bsc_fifo, c)]) (i2c_pins w)))).
  { unfold set_field, bread, bwrite, mbind, M_bind. cbn. change (u32 0) with 0. by rewrite byte_field. }
  unfold wp at 1. eapply wp_mono; [apply IH|]. cbn. intros _ w' ->.
  unfold sent. rewrite omap_app. cbn. by rewrite <- app_assoc.
Qed.
