(* ===== verification/Printf.v ===== *)
(** * Formatted output ([io/kprintf.c], [user/lib/printf.c])

    The kernel's and the user library's [printf] are copies of one program: a
    format expander over a decoder of ANSI escape sequences.  They differ in
    where a character goes, in what a colour sequence does and in a few
    directives, which are the parameters of the common part.  The arguments of
    a call are the list of its 64-bit slots; a string argument is given by its
    characters. *)
From Stdlib Require Import SpecFloat.
From S2P Require Import Prelude.

Inductive ANSI_STATE := ANSI_ESCAPE | ANSI_NORMAL | ANSI_PARSING | ANSI_END_PARSING.
Record ansi_state := Ansi { state : ANSI_STATE; params : list Z; param_len : Z; cmd : Z }.

Definition with_state (x : ANSI_STATE) (a : ansi_state) : ansi_state := Ansi x (params a) (param_len a) (cmd a).
Definition ansi_init : ansi_state := Ansi ANSI_NORMAL (replicate 16 0) 0 0.

Inductive va := Slot (z : Z) | Str (s : list Z) | Dbl (d : spec_float).

Definition is_digit (c : Z) : bool := (48 <=? c) && (c <=? 57).

(** [int] arithmetic: overflow is undefined. *)
Definition int_ok (z : Z) : res Z := if (- 2 ^ 31 <=? z) && (z <? 2 ^ 31) then Ok z else UB.

(** [atoi_until_semicolon]: the number and the rest of the string. *)
Fixpoint atoi_loop (p : list Z) (num : Z) : res (Z * list Z) :=
  match p with
  | [] => UB                                   (* no NUL *)
  | c :: p' =>
      if (c =? 0) then Ok (num, p)
      else if (c =? 59) then Ok (num, p')
      else num ← int_ok (num * 10 + (c - 48)); atoi_loop p' num
  end.
Definition atoi_until_semicolon (p : list Z) : res (Z * list Z) := atoi_loop p 0.

(** The numbers of a sequence, at most five. *)
Fixpoint ansi_params (n : nat) (p : list Z) : res (list Z) :=
  match n with
  | O => Ok []
  | S n =>
      c ← deref (list.head p);
      if c =? 0 then Ok []
      else '(x, p) ← atoi_until_semicolon p; l ← ansi_params n p; Ok (x :: l)
  end.

Section Decoder.
(** Where characters go, and what the numbers of a sequence ended by [m] do. *)
Context {T : Type} (putc : Z -> T -> res T) (colors : list Z -> T -> T).

Definition ansi_normal (c : Z) (t : T) : res (ANSI_STATE * T) :=
  if c =? 27 then Ok (ANSI_ESCAPE, t) else t ← putc c t; Ok (ANSI_NORMAL, t).

Definition ansi_escape (c : Z) (a : ansi_state) : ANSI_STATE * ansi_state :=
  if c =? 91 then (ANSI_PARSING, Ansi (state a) (params a) 0 (cmd a)) else (ANSI_NORMAL, a).

Definition ansi_parsing (c : Z) (a : ansi_state) : ANSI_STATE * ansi_state :=
  if c =? 109 then (ANSI_END_PARSING, Ansi (state a) (<[Z.to_nat (param_len a) := 0]> (params a)) (param_len a) 109)
  else if (is_digit c || (c =? 59)) && (param_len a <? 15)
  then (ANSI_PARSING, Ansi (state a) (<[Z.to_nat (param_len a) := c]> (params a)) (param_len a + 1) (cmd a))
  else (ANSI_NORMAL, Ansi (state a) (params a) 0 (cmd a)).

Definition ansi_end_escape (a : ansi_state) (t : T) : res (ANSI_STATE * T) :=
  l ← ansi_params 5 (params a);
  Ok (ANSI_NORMAL, if cmd a =? 109 then colors l t else t).

(** [ANSI_END_PARSING] falls through to the normal case. *)
Definition ansi_decoder (c : Z) (at_ : ansi_state * T) : res (ansi_state * T) :=
  let '(a, t) := at_ in
  match state a with
  | ANSI_ESCAPE => let '(x, a) := ansi_escape c a in Ok (with_state x a, t)
  | ANSI_PARSING => let '(x, a) := ansi_parsing c a in Ok (with_state x a, t)
  | ANSI_END_PARSING =>
      '(x, t) ← ansi_end_escape a t;
      '(x, t) ← ansi_normal c t; Ok (with_state x a, t)
  | ANSI_NORMAL => '(x, t) ← ansi_normal c t; Ok (with_state x a, t)
  end.

Definition _nibble_to_char (nibble : Z) : Z :=
  if (0 <=? nibble) && (nibble <=? 9) then 48 + nibble
  else if (10 <=? nibble) && (nibble <=? 15) then 65 + (nibble - 10)
  else 0.

(** [emit_string], and the loops that send a buffer. *)
Fixpoint emit_string (s : list Z) (x : ansi_state * T) : res (ansi_state * T) :=
  match s with
  | [] => Ok x
  | c :: s => x ← ansi_decoder c x; emit_string s x
  end.

(** Digits into a buffer, least significant first, [fuel] for the loop. *)
Fixpoint dec_digits (fuel : nat) (num : Z) (buf : list Z) : res (list Z) :=
  match fuel with
  | O => Fuel
  | S fuel => if num =? 0 then Ok buf else dec_digits fuel (num / 10) (buf ++ [48 + num mod 10])
  end.
Fixpoint hex_digits (fuel : nat) (num : Z) (buf : list Z) : res (list Z) :=
  match fuel with
  | O => Fuel
  | S fuel =>
      let buf := buf ++ [_nibble_to_char (Z.land num 0xF)] in
      let num := Z.shiftr num 4 in
      if num =? 0 then Ok buf else hex_digits fuel num buf
  end.

(** The buffer holds 20, 16 and 24 characters. *)
Definition in_buf (n : nat) (buf : list Z) : res (list Z) := if (length buf <=? n)%nat then Ok buf else UB.

Definition parse_and_emit_int (num : Z) (x : ansi_state * T) : res (ansi_state * T) :=
  if num =? 0 then ansi_decoder 48 x
  else
    x ← (if num <? 0 then ansi_decoder 45 x else Ok x);
    num ← (if num <? 0 then int_ok (- num) else Ok num);
    buf ← dec_digits 12 num [];
    buf ← in_buf 20 buf;
    emit_string (rev buf) x.

Definition parse_and_emit_hex (num : Z) (x : ansi_state * T) : res (ansi_state * T) :=
  buf ← hex_digits 16 num [];
  buf ← in_buf 16 buf;
  emit_string (rev buf) x.

Definition parse_and_emit_padded (num width : Z) (x : ansi_state * T) : res (ansi_state * T) :=
  buf ← (if num =? 0 then Ok [48] else dec_digits 21 num []);
  buf ← in_buf 24 (buf ++ replicate (Z.to_nat (width - Z.of_nat (length buf))) 48);
  emit_string (rev buf) x.

(** [va_arg] of a slot, of a string and of a [double]. *)
Definition va_slot (l : list va) : res (Z * list va) :=
  match l with Slot z :: l => Ok (z, l) | _ => UB end.
Definition va_str (l : list va) : res (list Z * list va) :=
  match l with Str s :: l => Ok (s, l) | _ => UB end.
Definition va_dbl (l : list va) : res (spec_float * list va) :=
  match l with Dbl d :: l => Ok (d, l) | _ => UB end.

(** The directives both programs have; [s] begins behind the percent sign. *)
Definition expand_common (c : Z) (l : list va) (x : ansi_state * T) : res (list va * (ansi_state * T)) :=
  if (c =? 100) || (c =? 108) then '(z, l) ← va_slot l; x ← parse_and_emit_int (s32 z) x; Ok (l, x)
  else if c =? 115 then '(s, l) ← va_str l; x ← emit_string s x; Ok (l, x)
  else if c =? 99 then '(z, l) ← va_slot l; x ← ansi_decoder (u8 z) x; Ok (l, x)
  else if c =? 120 then '(z, l) ← va_slot l; x ← parse_and_emit_hex z x; Ok (l, x)
  else if c =? 37 then x ← ansi_decoder c x; Ok (l, x)
  else Ok (l, x).

(** The main loop, over an [expand] that returns how many characters it took;
    the string is given without its NUL, and reading behind that is an error. *)
Fixpoint format_loop (expand : list Z -> list va -> ansi_state * T -> res (nat * list va * (ansi_state * T)))
    (fuel : nat) (ptr : list Z) (l : list va) (x : ansi_state * T) : res (ansi_state * T) :=
  match fuel with
  | O => Fuel
  | S fuel =>
      match ptr with
      | [] => Ok x
      | c :: ptr =>
          if c =? 37 then
            '(n, l, x) ← expand ptr l x;
            if (n <=? length ptr)%nat then format_loop expand fuel (drop n ptr) l x else UB
          else x ← ansi_decoder c x; format_loop expand fuel ptr l x
      end
  end.
End Decoder.

(** ** The kernel's [kprintf] *)

(** What the console does: a character, or a change of colour (0 to 7). *)
Inductive event := Char (c : Z) | TextColor (n : Z) | BackgroundColor (n : Z) | UnsetText | UnsetBackground.

Definition uart_putc (c : Z) (t : list event) : res (list event) := Ok (t ++ [Char c]).

(** The colour directives. *)
Definition color_events (n : Z) : list event :=
  if n =? 0 then [UnsetBackground; UnsetText]
  else if (30 <=? n) && (n <=? 37) then [TextColor (n - 30)]
  else if (40 <=? n) && (n <=? 47) then [BackgroundColor (n - 40)]
  else [].
Definition kernel_colors (l : list Z) (t : list event) : list event := t ++ concat (color_events <$> l).

(** The digits of a width, and what is behind them. *)
Fixpoint width_loop (p : list Z) (width : Z) (taken : nat) : res (Z * nat * list Z) :=
  match p with
  | c :: p' =>
      if is_digit c then width ← int_ok (width * 10 + (c - 48)); width_loop p' width (S taken)
      else Ok (width, taken, p)
  | [] => Ok (width, taken, [])
  end.

Definition expand (s : list Z) (l : list va) (x : ansi_state * list event) : res (nat * list va * (ansi_state * list event)) :=
  let plain := '(l, x) ← expand_common uart_putc kernel_colors (default 0 (list.head s)) l x; Ok (1%nat, l, x) in
  match s with
  | c :: p =>
      if c =? 48 then
        '(width, taken, p) ← width_loop p 0 0;
        if bool_decide (list.head p = Some 100) then
          '(z, l) ← va_slot l;
          x ← parse_and_emit_padded uart_putc kernel_colors z width x;
          Ok ((taken + 2)%nat, l, x)
        else plain
      else plain
  | [] => plain
  end.

Definition kprintf (format_str : list Z) (l : list va) (x : ansi_state * list event) : res (ansi_state * list event) :=
  format_loop uart_putc kernel_colors expand (S (length format_str)) format_str l x.

(** ** The user library's [printf] *)

(** The print buffer, and the strings passed to [SYS_WRITE]. *)
Record printbuf := PrintBuf { buf : list Z; size : Z; pos : Z; written : list (list Z) }.
Definition printbuf_init : printbuf := PrintBuf (replicate 2048 0) 2048 0 [].

Definition put_at (c : Z) (b : printbuf) : res printbuf :=
  if (0 <=? pos b) && (pos b <? 2048) then Ok (PrintBuf (<[Z.to_nat (pos b) := c]> (buf b)) (size b) (pos b) (written b)) else UB.
Definition advance (b : printbuf) : printbuf := PrintBuf (buf b) (size b) (pos b + 1) (written b).

(** The C string at the start of the buffer. *)
Fixpoint c_string (l : list Z) : list Z :=
  match l with
  | [] => []
  | c :: l => if c =? 0 then [] else c :: c_string l
  end.
Definition flush (b : printbuf) : printbuf := PrintBuf (buf b) (size b) 0 (written b ++ [c_string (buf b)]).

Definition buf_putc (c : Z) (b : printbuf) : res printbuf :=
  b ← (if pos b =? size b - 1 then b ← put_at 0 b; Ok (flush b) else Ok b);
  b ← put_at c b;
  let b := advance b in
  if c =? 10 then b ← put_at 0 b; Ok (flush (advance b)) else Ok b.

Definition user_colors (l : list Z) (b : printbuf) : printbuf := b.

(** [parse_and_emit_double]: IEEE doubles, and the conversions to and from
    [int], which truncate. *)
Definition double_of_int (n : Z) : spec_float := binary_normalize 53 1024 n 0 false.
Definition int_of_double (d : spec_float) : res Z :=
  match d with
  | S754_zero _ => Ok 0
  | S754_finite s m e =>
      let a := if 0 <=? e then Zpos m * 2 ^ e else Zpos m / 2 ^ (- e) in
      int_ok (if s then - a else a)
  | _ => UB
  end.

Fixpoint fraction_loop (n : nat) (frac : spec_float) (x : ansi_state * printbuf) : res (ansi_state * printbuf) :=
  match n with
  | O => Ok x
  | S n =>
      let frac := SFmul 53 1024 frac (double_of_int 10) in
      i ← int_of_double frac;
      x ← ansi_decoder buf_putc user_colors (u8 (48 + i)) x;
      fraction_loop n (SFsub 53 1024 frac (double_of_int i)) x
  end.

Definition parse_and_emit_double (val : spec_float) (x : ansi_state * printbuf) : res (ansi_state * printbuf) :=
  let neg := SFltb val (S754_zero false) in
  x ← (if neg then ansi_decoder buf_putc user_colors 45 x else Ok x);
  let val := if neg then SFopp val else val in
  i ← int_of_double val;
  x ← parse_and_emit_int buf_putc user_colors i x;
  x ← ansi_decoder buf_putc user_colors 46 x;
  fraction_loop 6 (SFsub 53 1024 val (double_of_int i)) x.

Definition user_expand (s : list Z) (l : list va) (x : ansi_state * printbuf) : res (nat * list va * (ansi_state * printbuf)) :=
  let c := default 0 (list.head s) in
  if c =? 102 then '(d, l) ← va_dbl l; x ← parse_and_emit_double d x; Ok (1%nat, l, x)
  else '(l, x) ← expand_common buf_putc user_colors c l x; Ok (1%nat, l, x).

Definition printf (format_str : list Z) (l : list va) (x : ansi_state * printbuf) : res (ansi_state * printbuf) :=
  format_loop buf_putc user_colors user_expand (S (length format_str)) format_str l x.
