(* ===== verification/PrintfSpec.v ===== *)
(** * What the formatted output prints

    The kernel's [kprintf] and the user library's [printf] print the same text
    ([printf_equivalent]); numbers are printed so that the decoder's own
    [atoi_until_semicolon] reads them back ([int_roundtrip]); the buffers of the
    number printers ([buffers_suffice]). *)
From S2P Require Import Prelude Printf.

(** ** Runs that agree up to a relation *)

Inductive res_rel {A B} (R : A -> B -> Prop) : res A -> res B -> Prop :=
| rel_ok a b : R a b -> res_rel R (Ok a) (Ok b)
| rel_panic : res_rel R Panic Panic
| rel_ub : res_rel R UB UB
| rel_fuel : res_rel R Fuel Fuel.
#[local] Hint Constructors res_rel : rpos.

Lemma res_rel_bind {A B C D} (R : A -> B -> Prop) (S : C -> D -> Prop) r r' f f' :
  res_rel R r r' -> (forall a b, R a b -> res_rel S (f a) (f' b)) -> res_rel S (r ≫= f) (r' ≫= f').
Proof. destruct 1; cbn; auto with rpos. Qed.

Lemma res_rel_same {A C D} (S : C -> D -> Prop) (r : res A) f f' :
  (forall a, res_rel S (f a) (f' a)) -> res_rel S (r ≫= f) (r ≫= f').
Proof. intros. destruct r; cbn; auto with rpos. Qed.

(** ** The expander respects every relation its character sink respects *)

Section Relation.
Context {T U : Type} (putT : Z -> T -> res T) (putU : Z -> U -> res U)
  (colT : list Z -> T -> T) (colU : list Z -> U -> U) (R : T -> U -> Prop).
Hypothesis put_rel : forall c t u, R t u -> res_rel R (putT c t) (putU c u).
Hypothesis col_rel : forall l t u, R t u -> R (colT l t) (colU l u).

Definition pair_rel {A} (x : A * T) (y : A * U) : Prop := fst x = fst y /\ R (snd x) (snd y).
Definition arg_rel (x : list va * (ansi_state * T)) (y : list va * (ansi_state * U)) : Prop :=
  fst x = fst y /\ pair_rel (snd x) (snd y).

Lemma ansi_normal_rel c t u : R t u -> res_rel pair_rel (ansi_normal putT c t) (ansi_normal putU c u).
Proof.
  intros H. unfold ansi_normal. destruct (c =? 27); [by repeat constructor|].
  eapply res_rel_bind; [by apply put_rel|]. by repeat constructor.
Qed.

Lemma ansi_decoder_rel c x y :
  pair_rel x y -> res_rel pair_rel (ansi_decoder putT colT c x) (ansi_decoder putU colU c y).
Proof.
  destruct x as [a t], y as [a' u]. intros [Ha H]; cbn in Ha, H; subst a'. unfold ansi_decoder.
  destruct (state a) eqn:E.
  - destruct (ansi_escape c a). by repeat constructor.
  - eapply res_rel_bind; [by apply ansi_normal_rel|]. intros [s t'] [s' u'] [Hs H']; cbn in Hs, H'; subst s'.
    by repeat constructor.
  - destruct (ansi_parsing c a). by repeat constructor.
  - unfold ansi_end_escape. eapply (res_rel_bind pair_rel).
    + apply res_rel_same. intros l. constructor. split; [done|]. cbn. destruct (cmd a =? 109); auto.
    + intros [s t'] [s' u'] [Hs H']; cbn in Hs, H'; subst s'.
      eapply res_rel_bind; [by apply ansi_normal_rel|]. intros [s'' t''] [s3 u3] [Hs' H3]; cbn in Hs', H3; subst s3.
      by repeat constructor.
Qed.

Lemma emit_string_rel s : forall x y,
  pair_rel x y -> res_rel pair_rel (emit_string putT colT s x) (emit_string putU colU s y).
Proof.
  induction s as [|c s IH]; cbn; intros x y H; [by constructor|].
  eapply res_rel_bind; [by apply ansi_decoder_rel|]. auto.
Qed.

Lemma emit_int_rel z x y :
  pair_rel x y -> res_rel pair_rel (parse_and_emit_int putT colT z x) (parse_and_emit_int putU colU z y).
Proof.
  intros H. unfold parse_and_emit_int. destruct (z =? 0); [by apply ansi_decoder_rel|].
  eapply (res_rel_bind pair_rel).
  - destruct (z <? 0); [by apply ansi_decoder_rel|by constructor].
  - intros x' y' H'. do 3 (apply res_rel_same; intros ?). by apply emit_string_rel.
Qed.

Lemma emit_hex_rel z x y :
  pair_rel x y -> res_rel pair_rel (parse_and_emit_hex putT colT z x) (parse_and_emit_hex putU colU z y).
Proof. intros H. do 2 (apply res_rel_same; intros ?). by apply emit_string_rel. Qed.

Lemma expand_common_rel c l x y :
  pair_rel x y -> res_rel arg_rel (expand_common putT colT c l x) (expand_common putU colU c l y).
Proof.
  intros H. unfold expand_common.
  assert (forall (l : list va) r r', res_rel pair_rel r r' ->
            res_rel arg_rel (r ≫= fun x => Ok (l, x)) (r' ≫= fun x => Ok (l, x))) as Hk.
  { intros l' r r' Hr. eapply res_rel_bind; [exact Hr|]. intros. constructor. by split. }
  repeat case_match; try (apply res_rel_same; intros [??]);
    auto using emit_int_rel, emit_hex_rel, emit_string_rel, ansi_decoder_rel.
  constructor. by split.
Qed.
End Relation.

(** ** The kernel's and the user library's output *)

(** The text on the console, colours aside. *)
Definition char_of (e : event) : list Z := match e with Char c => [c] | _ => [] end.
Definition kernel_text (t : list event) : list Z := concat (char_of <$> t).

(** The text the user library printed: what it passed to [SYS_WRITE], and what
    waits in the buffer. *)
Definition user_text (b : printbuf) : list Z := concat (written b) ++ take (Z.to_nat (pos b)) (buf b).

(** The buffer is a C string of at most 2047 characters, and as long as no NUL
    was printed both texts are the same. *)
Definition same_text (t : list event) (b : printbuf) : Prop :=
  length (buf b) = 2048%nat /\ size b = 2048 /\ 0 <= pos b <= 2047 /\
  (Forall (fun c => c <> 0) (kernel_text t) -> user_text b = kernel_text t).

Definition same_output (x : ansi_state * list event) (y : ansi_state * printbuf) : Prop := pair_rel same_text x y.

Lemma kernel_text_app t t' : kernel_text (t ++ t') = kernel_text t ++ kernel_text t'.
Proof. unfold kernel_text. by rewrite fmap_app, concat_app. Qed.

Lemma colors_no_text l : kernel_text (concat (color_events <$> l)) = [].
Proof.
  induction l as [|n l IH]; [done|]. rewrite fmap_cons. cbn [concat]. rewrite kernel_text_app, IH, app_nil_r.
  unfold color_events. by repeat case_match.
Qed.

(** A flush writes the buffer as a string. *)
Lemma c_string_take n : forall l, Forall (fun c => c <> 0) (take n l) -> (n < length l)%nat ->
  c_string (<[n := 0]> l) = take n l.
Proof.
  induction n as [|n IH]; intros [|c l]; cbn; intros Hf Hn; try lia; [done|].
  inversion_clear Hf. rewrite (proj2 (Z.eqb_neq c 0)) by done. f_equal. apply IH; [done|lia].
Qed.

Lemma flush_text b k :
  length (buf b) = 2048%nat -> 0 <= pos b <= 2047 -> Forall (fun c => c <> 0) (user_text b) ->
  user_text (flush (PrintBuf (<[Z.to_nat (pos b) := 0]> (buf b)) (size b) k (written b))) = user_text b.
Proof.
  intros Hl Hp Hf. unfold user_text, flush. cbn [written buf pos]. apply Forall_app in Hf as [_ Hf].
  rewrite c_string_take by (auto; lia). rewrite concat_app. cbn. by rewrite !app_nil_r.
Qed.

Lemma put_at_ok c b : 0 <= pos b < 2048 ->
  put_at c b = Ok (PrintBuf (<[Z.to_nat (pos b) := c]> (buf b)) (size b) (pos b) (written b)).
Proof. intros. unfold put_at. by rewrite (proj2 (andb_true_iff _ _)) by lia. Qed.

(** One character, when the buffer has room. *)
Lemma put_advance_text c b :
  length (buf b) = 2048%nat -> 0 <= pos b < 2047 ->
  user_text (advance (PrintBuf (<[Z.to_nat (pos b) := c]> (buf b)) (size b) (pos b) (written b))) = user_text b ++ [c].
Proof.
  intros Hl Hp. unfold user_text, advance. cbn [written buf pos].
  replace (Z.to_nat (pos b + 1)) with (S (Z.to_nat (pos b))) by lia.
  rewrite (take_S_r _ _ c) by (apply list_lookup_insert_eq; lia).
  rewrite take_insert_ge by lia. by rewrite app_assoc.
Qed.

Lemma not_nul_app (l : list Z) c : Forall (fun c => c <> 0) (l ++ [c]) -> Forall (fun c => c <> 0) l /\ c <> 0.
Proof. rewrite Forall_app, Forall_singleton. done. Qed.

(** The three steps of [buf_putc]. *)
Definition written_out (t : list event) (b : printbuf) : Prop := same_text t b /\ pos b < 2047.

Lemma make_room t b :
  same_text t b ->
  exists b', (if pos b =? size b - 1 then b ← put_at 0 b; Ok (flush b) else Ok b) = Ok b' /\ written_out t b'.
Proof.
  intros (Hl & Hs & Hp & Ht). rewrite Hs. destruct (Z.eqb_spec (pos b) (2048 - 1)) as [E|E].
  - rewrite put_at_ok by lia. cbn [mbind res_bind].
    eexists; split; [done|]. split; [|cbn; lia]. split_and!; cbn [flush buf size pos]; [by rewrite length_insert|done|lia|lia|].
    intros Hf. specialize (Ht Hf). rewrite flush_text by (rewrite ?Ht; auto; lia). done.
  - exists b. split; [done|]. split; [done|lia].
Qed.

Lemma buf_putc_rel c t b : same_text t b -> res_rel same_text (uart_putc c t) (buf_putc c b).
Proof.
  intros Hb. unfold buf_putc, uart_putc. destruct (make_room _ _ Hb) as (b1 & -> & (Hl & Hs & Hp & Ht) & Hlt).
  cbn [mbind res_bind]. rewrite put_at_ok by lia. cbn [mbind res_bind].
  pose proof (put_advance_text c b1 Hl ltac:(lia)) as Ha.
  set (b2 := advance _) in *. assert (Hl2 : length (buf b2) = 2048%nat) by (cbn; by rewrite length_insert).
  assert (Hp2 : 0 <= pos b2 <= 2047) by (cbn; lia). assert (Hs2 : size b2 = 2048) by done.
  assert (Ht2 : Forall (fun c => c <> 0) (kernel_text (t ++ [Char c])) -> user_text b2 = kernel_text (t ++ [Char c])).
  { rewrite kernel_text_app. intros Hf. destruct (not_nul_app _ _ Hf). by rewrite Ha, Ht. }
  destruct (c =? 10).
  - rewrite put_at_ok by lia. cbn [mbind res_bind]. constructor.
    clearbody b2. unfold advance. cbn [buf size pos written]. split_and!; cbn [flush buf size pos]; [by rewrite length_insert|done|lia|lia|].
    intros Hf. specialize (Ht2 Hf). rewrite flush_text by (rewrite ?Ht2; auto; lia). done.
  - constructor. split_and!; cbn; [by rewrite length_insert|done|lia|lia|exact Ht2].
Qed.

Lemma colors_rel l t b : same_text t b -> same_text (kernel_colors l t) (user_colors l b).
Proof.
  intros (Hl & Hs & Hp & Ht). unfold kernel_colors, user_colors. split_and!; try done; try lia.
  rewrite kernel_text_app, colors_no_text, app_nil_r. done.
Qed.

(** The directives both programs have: neither a width nor [%f]. *)
Fixpoint common (p : list Z) : bool :=
  match p with
  | [] => true
  | c :: p =>
      if c =? 37 then
        match p with
        | [] => true
        | d :: p => negb ((d =? 48) || (d =? 102)) && common p
        end
      else common p
  end.

Lemma expand_rel s l x y :
  default 0 (list.head s) <> 48 -> default 0 (list.head s) <> 102 -> same_output x y ->
  res_rel (fun p q => p.1.1 = 1%nat /\ q.1.1 = 1%nat /\ p.1.2 = q.1.2 /\ same_output p.2 q.2) (expand s l x) (user_expand s l y).
Proof.
  intros H1 H2 H. unfold user_expand. rewrite (proj2 (Z.eqb_neq _ 102)) by done.
  assert (expand s l x = '(l, x) ← expand_common uart_putc kernel_colors (default 0 (list.head s)) l x; Ok (1%nat, l, x)) as ->.
  { destruct s as [|c s]; [done|]. unfold expand. cbn in *. by rewrite (proj2 (Z.eqb_neq c 48)). }
  eapply res_rel_bind; [apply expand_common_rel; [exact buf_putc_rel|exact colors_rel|exact H]|].
  intros [l1 x1] [l2 x2] [E Hx]. by constructor.
Qed.

Lemma format_rel fuel : forall p l x y, common p = true -> same_output x y ->
  res_rel same_output (format_loop uart_putc kernel_colors expand fuel p l x) (format_loop buf_putc user_colors user_expand fuel p l y).
Proof.
  induction fuel as [|fuel IH]; intros p l x y Hc H; cbn; [by constructor|].
  destruct p as [|c p]; [by constructor|]. cbn [common] in Hc. destruct (c =? 37).
  - eapply res_rel_bind.
    + apply expand_rel; [..|exact H]; destruct p as [|d p]; cbn; lia.
    + intros [[n1 l1] x1] [[n2 l2] x2] (E1 & E2 & E3 & Hx). cbn in *. subst.
      destruct p as [|d p]; cbn; [by constructor|]. rewrite drop_0.
      apply IH; [by apply andb_true_iff in Hc as [_ ?]|done].
  - eapply res_rel_bind; [apply ansi_decoder_rel; [exact buf_putc_rel|exact colors_rel|exact H]|].
    intros. by apply IH.
Qed.

(** The programs begin with nothing printed. *)
Lemma init_same : same_output (ansi_init, []) (ansi_init, printbuf_init).
Proof. split; [done|]. split_and!; try done; cbn; lia. Qed.

(** ** Numbers *)

(** The value of digits that are stored least significant first. *)
Fixpoint le_value (l : list Z) : Z := match l with [] => 0 | c :: l => (c - 48) + 10 * le_value l end.

Definition digits (l : list Z) : Prop := Forall (fun c => is_digit c = true) l.

Lemma le_value_nonneg l : digits l -> 0 <= le_value l.
Proof. unfold digits, is_digit. induction 1; cbn; lia. Qed.

Lemma le_value_app l k : le_value (l ++ replicate k 48) = le_value l.
Proof. induction l as [|c l IH]; cbn; [induction k; cbn; lia|lia]. Qed.

Lemma rev_zeros k : rev (replicate k 48) = replicate k 48.
Proof. rewrite rev_alt. apply reverse_replicate. Qed.

(** No leading zero: a text of more than one digit needs them all. *)
Definition shortest (base num : Z) (l : list Z) : Prop := (length l <= 1)%nat \/ base ^ (Z.of_nat (length l) - 1) <= num.

Lemma shortest_cons base num c l : 1 < base -> 0 <= num -> num / base <> 0 -> shortest base (num / base) l -> shortest base num (c :: l).
Proof.
  intros Hb Hn H0 Hs. assert (Hd : base * (num / base) <= num) by (apply Z.mul_div_le; lia).
  assert (1 <= num / base) by (pose proof (Z.div_pos num base); lia).
  destruct l as [|c1 l]; [by left|]. right. cbn [length]. destruct Hs as [Hs|Hs]; cbn [length] in Hs.
  - assert (length l = 0%nat) as -> by lia. change (Z.of_nat 2 - 1) with 1. rewrite Z.pow_1_r. nia.
  - replace (Z.of_nat (S (S (length l))) - 1) with (Z.succ (Z.of_nat (S (length l)) - 1)) by lia.
    rewrite Z.pow_succ_r by lia. nia.
Qed.

Lemma dec_digits_ok n : forall num buf, 0 <= num < 10 ^ Z.of_nat n ->
  exists l, dec_digits (S n) num buf = Ok (buf ++ l) /\ digits l /\ le_value l = num /\ (length l <= n)%nat /\
    shortest 10 num l /\ (num = 0 -> l = []).
Proof.
  induction n as [|n IH]; intros num buf H.
  - change (10 ^ Z.of_nat 0) with 1 in H. cbn. rewrite (proj2 (Z.eqb_eq num 0)) by lia.
    exists []. rewrite app_nil_r. split_and!; [done|constructor|cbn; lia|done|left; cbn; lia|done].
  - cbn [dec_digits]. destruct (Z.eqb_spec num 0) as [->|Hn].
    { exists []. rewrite app_nil_r. split_and!; [done|constructor|done|cbn; lia|left; cbn; lia|done]. }
    rewrite Nat2Z.inj_succ, Z.pow_succ_r in H by lia.
    destruct (IH (num / 10) (buf ++ [48 + num mod 10]) ltac:(split; zdiv)) as (l & E & Hd & Hv & Hl & Hs & Hz).
    exists (48 + num mod 10 :: l). split_and!.
    + cbn [dec_digits] in E. rewrite E, <- app_assoc. done.
    + constructor; [unfold is_digit; zdiv|done].
    + cbn. rewrite Hv. zdiv.
    + cbn. lia.
    + destruct (decide (num / 10 = 0)) as [H0|H0]; [rewrite (Hz H0); by left|]. apply shortest_cons; done || lia.
    + done.
Qed.

Lemma atoi_digits l : digits l -> le_value l < 2 ^ 31 -> forall rest,
  atoi_loop (rev l ++ rest) 0 = atoi_loop rest (le_value l).
Proof.
  induction 1 as [|c l Hc Hl IH]; intros Hv rest; cbn; [done|].
  cbn in Hv. pose proof (le_value_nonneg _ Hl). unfold is_digit in Hc.
  rewrite <- app_assoc, IH by lia. cbn.
  rewrite (proj2 (Z.eqb_neq c 0)), (proj2 (Z.eqb_neq c 59)) by lia.
  unfold int_ok. rewrite (proj2 (andb_true_iff _ _)) by lia. cbn. f_equal. lia.
Qed.

(** Outside an escape sequence characters go straight to the console. *)
Lemma decoder_plain c a t : state a = ANSI_NORMAL -> c <> 27 ->
  ansi_decoder uart_putc kernel_colors c (a, t) = Ok (a, t ++ [Char c]).
Proof.
  destruct a as [s p n m]. cbn. intros -> Hc. unfold ansi_normal. by rewrite (proj2 (Z.eqb_neq c 27)).
Qed.

Lemma emit_plain s : forall a t, state a = ANSI_NORMAL -> Forall (fun c => c <> 27) s ->
  emit_string uart_putc kernel_colors s (a, t) = Ok (a, t ++ (Char <$> s)).
Proof.
  induction s as [|c s IH]; intros a t Ha Hs; cbn [emit_string]; [by rewrite app_nil_r|].
  inversion_clear Hs. rewrite decoder_plain by done. cbn [mbind res_bind].
  rewrite IH by done. by rewrite <- app_assoc.
Qed.

Lemma digits_plain l : digits l -> Forall (fun c => c <> 27) (rev l).
Proof. intros H. apply Forall_rev. eapply Forall_impl; [exact H|]. unfold is_digit. cbn. lia. Qed.

(** What the number printers do with digits from [dec_digits]. *)
Lemma emit_padded_ok num width a t : state a = ANSI_NORMAL -> 0 <= num < 2 ^ 64 ->
  exists l, digits l /\ le_value l = num /\ shortest 10 num l /\ (1 <= length l <= 20)%nat /\
    parse_and_emit_padded uart_putc kernel_colors num width (a, t) =
      if width <=? 24 then Ok (a, t ++ (Char <$> rev (l ++ replicate (Z.to_nat (width - Z.of_nat (length l))) 48))) else UB.
Proof.
  intros Ha Hn.
  assert (exists l, digits l /\ le_value l = num /\ shortest 10 num l /\ (1 <= length l <= 20)%nat /\
            (if num =? 0 then Ok [48] else dec_digits 21 num []) = Ok l) as (l & Hd & Hv & Hs & Hl & E).
  { destruct (Z.eqb_spec num 0) as [->|H0]; [exists [48]; split_and!; try done; try (by left); try (cbn; lia); by constructor|].
    destruct (dec_digits_ok 20 num [] ltac:(lia)) as (l & E & Hd & Hv & Hl & Hs & _).
    exists l. split_and!; try done. destruct l; cbn in *; lia. }
  exists l. split_and!; try done; try lia. unfold parse_and_emit_padded. rewrite E. cbn [mbind res_bind]. unfold in_buf.
  rewrite length_app, length_replicate. destruct (Z.leb_spec width 24).
  - rewrite (proj2 (Nat.leb_le _ 24)) by lia. cbn [mbind res_bind]. apply emit_plain; [done|]. apply digits_plain.
    apply Forall_app; split; [done|]. by apply Forall_replicate.
  - by rewrite (proj2 (Nat.leb_gt _ 24)) by lia.
Qed.

Definition nibble_value (c : Z) : Z := if c <=? 57 then c - 48 else c - 55.
Fixpoint le_hex (l : list Z) : Z := match l with [] => 0 | c :: l => nibble_value c + 16 * le_hex l end.

Definition hex_char (c : Z) : Prop := 48 <= c <= 57 \/ 65 <= c <= 70.

Lemma nibble_to_char_value num :
  hex_char (_nibble_to_char (Z.land num 0xF)) /\ nibble_value (_nibble_to_char (Z.land num 0xF)) = num mod 16.
Proof.
  change 0xF with (Z.ones 4). rewrite Z.land_ones by lia. change (2 ^ 4) with 16.
  pose proof (Z.mod_pos_bound num 16). unfold hex_char, _nibble_to_char, nibble_value. repeat case_match; lia.
Qed.

Lemma hex_digits_ok n : forall num buf, 0 <= num < 16 ^ Z.of_nat (S n) ->
  exists l, hex_digits (S n) num buf = Ok (buf ++ l) /\ (1 <= length l <= S n)%nat /\ Forall hex_char l /\ le_hex l = num /\ shortest 16 num l.
Proof.
  induction n as [|n IH]; intros num buf H; cbn [hex_digits]; rewrite Z.shiftr_div_pow2 by lia; change (2 ^ 4) with 16;
    destruct (nibble_to_char_value num) as [Hc Hv].
  - change (16 ^ Z.of_nat 1) with 16 in H. rewrite (proj2 (Z.eqb_eq (num / 16) 0)) by zdiv.
    eexists; split_and!; [done|cbn; lia|cbn; lia|by apply Forall_singleton|cbn [le_hex]; rewrite Hv; zdiv|by left].
  - destruct (Z.eqb_spec (num / 16) 0).
    + eexists; split_and!; [done|cbn; lia|cbn; lia|by apply Forall_singleton|cbn [le_hex]; rewrite Hv; zdiv|by left].
    + rewrite Nat2Z.inj_succ, Z.pow_succ_r in H by lia.
      destruct (IH (num / 16) (buf ++ [_nibble_to_char (Z.land num 0xF)]) ltac:(split; zdiv)) as (l & E & Hl & Hf & Hh & Hs).
      exists (_nibble_to_char (Z.land num 0xF) :: l). split_and!; [|cbn; lia|cbn; lia|by constructor|cbn [le_hex]; rewrite Hv; zdiv|apply shortest_cons; done || lia].
      cbn [hex_digits] in E. rewrite E, <- app_assoc. done.
Qed.

(** ** The decoder's state *)

Definition param_char (c : Z) : bool := is_digit c || (c =? 59).

(** The array holds the parameters read so far, and room for their NUL, which is
    there once the sequence has ended. *)
Record ansi_ok (a : ansi_state) : Prop := {
  ao_params : length (params a) = 16%nat;
  ao_len : 0 <= param_len a <= 15;
  ao_chars : state a = ANSI_PARSING \/ state a = ANSI_END_PARSING ->
    Forall (fun c => param_char c = true) (take (Z.to_nat (param_len a)) (params a));
  ao_nul : state a = ANSI_END_PARSING -> params a !! Z.to_nat (param_len a) = Some 0;
}.

(** A number of at most nine characters fits. *)
Lemma atoi_short rest pre : Forall (fun c => param_char c = true) pre -> forall num,
  0 <= num < 10 ^ (9 - Z.of_nat (length pre)) ->
  (length pre <= 9)%nat ->
  exists x pre', atoi_loop (pre ++ 0 :: rest) num = Ok (x, pre' ++ 0 :: rest) /\
    Forall (fun c => param_char c = true) pre' /\ (length pre' <= length pre)%nat.
Proof.
  induction 1 as [|c pre Hc Hpre IH]; intros num Hn Hl; [by exists num, []|].
  cbn [length app] in *. unfold param_char, is_digit in Hc. cbn [atoi_loop].
  rewrite (proj2 (Z.eqb_neq c 0)) by lia. destruct (Z.eqb_spec c 59) as [->|H59].
  - exists num, pre. split_and!; [done|done|lia].
  - assert (9 - Z.of_nat (length pre) = Z.succ (9 - Z.of_nat (S (length pre)))) as E by lia.
    pose proof (Z.pow_le_mono_r 10 (9 - Z.of_nat (length pre)) 9 ltac:(lia) ltac:(lia)) as Hm. change (10 ^ 9) with 1000000000 in Hm.
    assert (0 <= num * 10 + (c - 48) < 10 ^ (9 - Z.of_nat (length pre))) as Hn' by (rewrite E, Z.pow_succ_r by lia; lia).
    unfold int_ok. rewrite (proj2 (andb_true_iff _ _)) by lia. cbn [mbind res_bind].
    destruct (IH _ Hn' ltac:(lia)) as (x & pre' & Ex & Hf & Hl'). exists x, pre'. split_and!; [done|done|lia].
Qed.

Lemma params_short rest n : forall pre, Forall (fun c => param_char c = true) pre -> (length pre <= 9)%nat ->
  exists l, ansi_params n (pre ++ 0 :: rest) = Ok l.
Proof.
  induction n as [|n IH]; intros pre Hf Hl; cbn [ansi_params]; [eauto|].
  destruct pre as [|c pre]; cbn [list.head app deref mbind res_bind]; [eauto|].
  inversion Hf as [|? ? Hc]; subst. unfold param_char, is_digit in Hc. rewrite (proj2 (Z.eqb_neq c 0)) by lia.
  destruct (atoi_short rest (c :: pre) Hf 0) as (x & pre' & E & Hf' & Hl'); [|done|].
  { split; [lia|]. apply Z.pow_pos_nonneg; cbn [length] in *; lia. }
  unfold atoi_until_semicolon. cbn [app] in E. rewrite E. cbn [mbind res_bind].
  destruct (IH pre' Hf' ltac:(lia)) as (l & ->). cbn. eauto.
Qed.

(** The sequence that has ended: its characters, the NUL, and what is behind. *)
Lemma ended_params a : ansi_ok a -> state a = ANSI_END_PARSING ->
  exists rest, params a = take (Z.to_nat (param_len a)) (params a) ++ 0 :: rest.
Proof.
  intros Ha Hs. exists (drop (S (Z.to_nat (param_len a))) (params a)).
  by rewrite (take_drop_middle (params a) _ 0 (ao_nul a Ha Hs)).
Qed.

Lemma ok_other a x : ansi_ok a -> x = ANSI_NORMAL \/ x = ANSI_ESCAPE -> ansi_ok (with_state x a).
Proof. intros [] Hx. split; cbn; try done; intros; naive_solver. Qed.

(** One character of a sequence. *)
Lemma parsing_ok c a : ansi_ok a -> state a = ANSI_PARSING ->
  ansi_ok (let '(x, a) := ansi_parsing c a in with_state x a).
Proof.
  intros [Hp Hl Hc _] Hs. specialize (Hc (or_introl Hs)). unfold ansi_parsing.
  destruct (c =? 109) eqn:E109.
  - split; cbn; [by rewrite length_insert|done| |].
    + intros _. by rewrite take_insert_ge by lia.
    + intros _. apply list_lookup_insert_eq. lia.
  - destruct ((is_digit c || (c =? 59)) && (param_len a <? 15)) eqn:E.
    + apply andb_true_iff in E as [Ec El]. split; cbn; [by rewrite length_insert|lia| |done].
      intros _. replace (Z.to_nat (param_len a + 1)) with (S (Z.to_nat (param_len a))) by lia.
      rewrite (take_S_r _ _ c) by (apply list_lookup_insert_eq; lia). rewrite take_insert_ge by lia.
      apply Forall_app; split; [done|]. by apply Forall_singleton.
    + split; cbn; [done|lia|naive_solver|done].
Qed.

(** ** Claims *)

(** C34: the two expanders print the same text.  For a format without a width
    and without [%f], the kernel's [kprintf] and the user library's [printf],
    started with the same decoder state and the same text printed, either both
    end with the same decoder state and the same text (colours aside, as long as
    no NUL is printed), or fail alike. *)
Theorem printf_equivalent format_str l x y :
  common format_str = true -> same_output x y ->
  res_rel same_output (kprintf format_str l x) (printf format_str l y).
Proof. apply format_rel. Qed.

(** "%d" of -42, a red "A" and a newline. *)
Lemma printf_equivalent_witness :
  res_rel same_output
    (kprintf ([37; 100; 27; 91; 51; 49; 109; 65; 10]) [Slot (-42)] (ansi_init, []))
    (printf ([37; 100; 27; 91; 51; 49; 109; 65; 10]) [Slot (-42)] (ansi_init, printbuf_init)).
Proof. apply (printf_equivalent _ _ _ _); [reflexivity|exact init_same]. Defined.

(** A number's text reads back.  Every [int] but the least is printed as an
    optional minus sign and digits that the decoder's own number parser turns
    into its absolute value; the least has no absolute value. *)
Lemma int_roundtrip num a t : state a = ANSI_NORMAL -> - 2 ^ 31 <= num < 2 ^ 31 ->
  if num =? - 2 ^ 31 then parse_and_emit_int uart_putc kernel_colors num (a, t) = UB
  else exists s, digits s /\ atoi_until_semicolon (s ++ [0]) = Ok (Z.abs num, [0]) /\
    parse_and_emit_int uart_putc kernel_colors num (a, t) = Ok (a, t ++ (Char <$> (if num <? 0 then [45] else []) ++ s)).
Proof.
  intros Ha Hn. unfold parse_and_emit_int. destruct (Z.eqb_spec num (- 2 ^ 31)) as [->|Hm].
  { change (- 2 ^ 31 =? 0) with false. change (- 2 ^ 31 <? 0) with true. cbv iota. by rewrite decoder_plain. }
  destruct (Z.eqb_spec num 0) as [->|H0].
  { exists [48]. split_and!; [by constructor|done|]. by rewrite decoder_plain. }
  destruct (dec_digits_ok 11 (Z.abs num) [] ltac:(lia)) as (l & E & Hd & Hv & Hl & _).
  exists (rev l). split_and!; [by apply Forall_rev| |].
  { unfold atoi_until_semicolon. rewrite atoi_digits by (auto; lia). by rewrite Hv. }
  assert (in_buf 20 l = Ok l) as Hb by (unfold in_buf; by rewrite (proj2 (Nat.leb_le _ _)) by lia).
  destruct (Z.ltb_spec num 0).
  - rewrite decoder_plain by done. cbn [mbind res_bind]. unfold int_ok.
    rewrite (proj2 (andb_true_iff _ _)) by lia. cbn [mbind res_bind]. rewrite Z.abs_neq in E by lia.
    rewrite E. cbn [mbind res_bind app]. rewrite Hb. cbn [mbind res_bind].
    rewrite emit_plain by auto using digits_plain. by rewrite <- app_assoc.
  - cbn [mbind res_bind]. rewrite Z.abs_eq in E by lia. rewrite E. cbn [mbind res_bind app]. rewrite Hb.
    cbn [mbind res_bind]. by rewrite emit_plain by auto using digits_plain.
Qed.

Lemma int_roundtrip_witness :
  exists s, digits s /\ atoi_until_semicolon (s ++ [0]) = Ok (42, [0]) /\
    parse_and_emit_int uart_putc kernel_colors (-42) (ansi_init, []) = Ok (ansi_init, Char <$> [45] ++ s).
Proof. apply (int_roundtrip (-42) ansi_init []); [reflexivity|lia]. Defined.

(** C40: what the number printers print, and whether their buffers hold it.  [%x]
    prints the hexadecimal digits of the number without leading zeros, and its 16
    characters always suffice.  A padded number is its decimal digits without
    leading zeros behind as many zeros as the width asks for beyond them; the
    buffer suffices exactly for widths to 24. *)
Theorem buffers_suffice num width a t : state a = ANSI_NORMAL -> 0 <= num < 2 ^ 64 ->
  (exists s, Forall hex_char s /\ le_hex (rev s) = num /\ (1 <= length s <= 16)%nat /\ shortest 16 num s /\
     parse_and_emit_hex uart_putc kernel_colors num (a, t) = Ok (a, t ++ (Char <$> s))) /\
  (if width <=? 24 then
     exists s, digits s /\ le_value (rev s) = num /\ (1 <= length s <= 20)%nat /\ shortest 10 num s /\
       parse_and_emit_padded uart_putc kernel_colors num width (a, t) =
         Ok (a, t ++ (Char <$> replicate (Z.to_nat (width - Z.of_nat (length s))) 48 ++ s))
   else parse_and_emit_padded uart_putc kernel_colors num width (a, t) = UB).
Proof.
  intros Ha Hn. split.
  - destruct (hex_digits_ok 15 num [] ltac:(cbn; lia)) as (l & E & Hl & Hf & Hh & Hs). exists (rev l).
    split_and!; [by apply Forall_rev|by rewrite rev_involutive|rewrite length_rev; lia|rewrite length_rev; lia|by unfold shortest; rewrite length_rev|].
    unfold parse_and_emit_hex. rewrite E. cbn [mbind res_bind app]. unfold in_buf.
    rewrite (proj2 (Nat.leb_le _ _)) by lia. cbn [mbind res_bind]. apply emit_plain; [done|].
    apply Forall_rev. eapply Forall_impl; [exact Hf|]. unfold hex_char. lia.
  - destruct (emit_padded_ok num width a t Ha Hn) as (l & Hd & Hv & Hs & Hl & ->). destruct (width <=? 24); [|done].
    exists (rev l). unfold shortest. rewrite length_rev, rev_involutive, rev_app_distr, rev_zeros.
    split_and!; [by apply Forall_rev|done|lia|lia|done|done].
Qed.

(** 48879 is "BEEF" and, padded to 8, "00048879". *)
Lemma buffers_suffice_witness :
  (exists s, Forall hex_char s /\ le_hex (rev s) = 48879 /\ (1 <= length s <= 16)%nat /\ shortest 16 48879 s /\
     parse_and_emit_hex uart_putc kernel_colors 48879 (ansi_init, []) = Ok (ansi_init, [] ++ (Char <$> s))) /\
  (exists s, digits s /\ le_value (rev s) = 48879 /\ (1 <= length s <= 20)%nat /\ shortest 10 48879 s /\
     parse_and_emit_padded uart_putc kernel_colors 48879 8 (ansi_init, []) =
       Ok (ansi_init, [] ++ (Char <$> replicate (Z.to_nat (8 - Z.of_nat (length s))) 48 ++ s))).
Proof. apply (buffers_suffice 48879 8 ansi_init []); [reflexivity|lia]. Defined.

(** C37: the decoder keeps its array.  Whatever characters come, the decoder's
    state stays well formed: the parameters of a sequence fit the array and end in
    a NUL.  It goes on from every such state unless a sequence has ended whose
    parameters take ten characters or more, whose number may not fit an [int]. *)
Theorem decoder_keeps_state c a t : ansi_ok a ->
  (forall a' t', ansi_decoder uart_putc kernel_colors c (a, t) = Ok (a', t') -> ansi_ok a') /\
  (state a <> ANSI_END_PARSING \/ param_len a <= 9 -> exists x, ansi_decoder uart_putc kernel_colors c (a, t) = Ok x).
Proof.
  intros Ha. unfold ansi_decoder, ansi_normal, uart_putc. destruct (state a) eqn:Hs.
  - assert (ansi_ok (let '(x, a) := ansi_escape c a in with_state x a)) as Hk.
    { unfold ansi_escape. destruct Ha as [Hp Hl _ _]. destruct (c =? 91); split; cbn; try done; intros; naive_solver. }
    destruct (ansi_escape c a) as [x a1]. split; [intros ? ? [= <- <-]; exact Hk|eauto].
  - split; [|destruct (c =? 27); cbn; eauto].
    intros a' t' E. destruct (c =? 27); cbn in E; injection E as <- <-; apply ok_other; auto.
  - pose proof (parsing_ok c a Ha Hs) as Hk. destruct (ansi_parsing c a) as [x a1].
    split; [intros ? ? [= <- <-]; exact Hk|eauto].
  - split.
    + intros a' t' E. apply bind_Ok_inv in E as ([x t1] & _ & E). destruct (c =? 27); cbn in E; injection E as <- <-; apply ok_other; auto.
    + intros [?|Hl]; [done|]. unfold ansi_end_escape. destruct (ended_params a Ha Hs) as (rest & Er).
      destruct (params_short rest 5 (take (Z.to_nat (param_len a)) (params a))) as (l & El).
      * by apply (ao_chars a Ha); right.
      * rewrite length_take. lia.
      * rewrite <- Er in El. rewrite El. cbn. destruct (c =? 27); cbn; eauto.
Qed.

(** After "ESC[31" the "m" ends the sequence, and the next character is printed. *)
Lemma decoder_keeps_state_witness :
  let a := Ansi ANSI_PARSING (<[1%nat := 49]> (<[0%nat := 51]> (replicate 16 0))) 2 0 in
  ansi_ok a /\
  (forall a' t', ansi_decoder uart_putc kernel_colors 109 (a, []) = Ok (a', t') -> ansi_ok a') /\
  (ANSI_PARSING <> ANSI_END_PARSING \/ 2 <= 9 -> exists x, ansi_decoder uart_putc kernel_colors 109 (a, []) = Ok x).
Proof.
  intros a. assert (Ha : ansi_ok a).
  { split; [done|cbn; lia| |done]. intros _. cbn. repeat (apply Forall_cons_2; [done|]). apply Forall_nil_2. }
  split; [exact Ha|]. apply (decoder_keeps_state 109 a [] Ha).
Defined.
