(* ===== verification/Console.v ===== *)
(** * The display console ([io/cli.c], [io/lcd.c])

    Glyphs of 10 by 20 pixels drawn into a frame buffer of 800 by 480 pixels of
    32 bits: 24 lines of 80 characters.  The frame buffer is in the bytes of
    memory ([Mem]), where [memcpy] scrolls it; the bytes of the font, a file, are
    an argument. *)
From S2P Require Import Prelude Mem Printf.

Definition EMPTY_GLYPH : Z := 32.
Definition COLOR_WHITE : Z := 0xFFFFFFFF.
Definition COLOR_BLACK : Z := 0xFF000000.
Definition NUM_LINES : Z := 24.
Definition WIDTH : Z := 800.
Definition HEIGHT : Z := 480.

(** The statics of [cli.c], and memory. *)
Record console := Con { line : Z; cursor : Z; BACKGROUND_COLOR : Z; TEXT_COLOR : Z; bytes : mem }.
Definition with_pos (l c : Z) (s : console) : console := Con l c (BACKGROUND_COLOR s) (TEXT_COLOR s) (bytes s).
Definition with_bytes (m : mem) (s : console) : console := Con (line s) (cursor s) (BACKGROUND_COLOR s) (TEXT_COLOR s) m.
Definition DEFAULT_BACKGROUND_COLOR : Z := COLOR_BLACK.
Definition DEFAULT_TEXT_COLOR : Z := COLOR_WHITE.

Definition set_text_background_color (new_color : Z) (s : console) : console :=
  Con (line s) (cursor s) (Z.lor 0xFF000000 new_color) (TEXT_COLOR s) (bytes s).
Definition unset_text_background_color (s : console) : console :=
  Con (line s) (cursor s) DEFAULT_BACKGROUND_COLOR (TEXT_COLOR s) (bytes s).
Definition set_text_color (new_color : Z) (s : console) : console :=
  Con (line s) (cursor s) (BACKGROUND_COLOR s) (Z.lor 0xFF000000 new_color) (bytes s).
Definition unset_text_color (s : console) : console :=
  Con (line s) (cursor s) (BACKGROUND_COLOR s) DEFAULT_TEXT_COLOR (bytes s).

Section Console.
Context (fb : Z) (font : Z -> Z).

(** [frame.fb[idx] = argb]; the array has [WIDTH * HEIGHT] pixels. *)
Definition write_pixel (idx argb : Z) (m : mem) : res mem :=
  if (0 <=? idx) && (idx <? WIDTH * HEIGHT) then Ok (store32 (fb + 4 * idx) argb m) else UB.

Definition fill_screen (argb : Z) (m : mem) : mem := memset fb argb (u32 (u32 (WIDTH * HEIGHT) * 4)) m.

Definition scroll (s : console) : console :=
  let line_idxs := u32 (800 * 20) in
  let line_bytes := u64 (u32 (line_idxs * 4)) in
  let m := memcpy fb (fb + line_bytes) (line_bytes * (NUM_LINES - 1)) (bytes s) in
  let last_line := fb + line_bytes * (NUM_LINES - 1) in
  with_bytes (memset last_line DEFAULT_BACKGROUND_COLOR (line_idxs * 4) m) s.

Definition newline (s : console) : console :=
  let s := with_pos (u64 (line s + 1)) 0 s in
  if line s =? 24 then let s := scroll s in with_pos (u64 (line s - 1)) (cursor s) s else s.

(** The inner loop of [_print_glyph], from column [col]. *)
Fixpoint glyph_cols (n : nat) (r mask row col fb_idx text background : Z) (m : mem) : res mem :=
  match n with
  | O => Ok m
  | S n =>
      let color := if negb (Z.land r mask =? 0) then text else background in
      m ← write_pixel (u64 (fb_idx + row * 800 + col)) color m;
      glyph_cols n r (Z.shiftr mask 1) row (col + 1) fb_idx text background m
  end.

Definition glyph_row (glyph row : Z) : Z :=
  u16 (Z.lor (Z.shiftl (font (glyph + row * 2)) 8) (font (glyph + row * 2 + 1))).

Fixpoint glyph_rows (n : nat) (glyph row fb_idx text background : Z) (m : mem) : res mem :=
  match n with
  | O => Ok m
  | S n =>
      m ← glyph_cols 10 (glyph_row glyph row) (Z.shiftl 1 15) row 0 fb_idx text background m;
      glyph_rows n glyph (row + 1) fb_idx text background m
  end.

(** [_print_glyph]; a glyph is named by its offset in the font. *)
Definition _print_glyph (glyph_location : Z) (s : console) : res console :=
  let fb_idx := s32 (u64 (line s * 800 * 20 + cursor s)) in
  m ← glyph_rows 20 glyph_location 0 fb_idx (TEXT_COLOR s) (BACKGROUND_COLOR s) (bytes s);
  let s := with_bytes m s in
  let s := with_pos (line s) (u64 (cursor s + 10)) s in
  Ok (if cursor s =? 800 then newline s else s).

Definition print_glyph (c : Z) (s : console) : res console :=
  if (c =? 10) || (c =? 13) then Ok (newline s)
  else if c =? 9 then Ok (with_pos (line s) (u64 (cursor s + 40)) s)
  else if c =? 127 then
    if 0 <? cursor s then
      let s := with_pos (line s) (u64 (cursor s - 10)) s in
      s ← _print_glyph (40 * EMPTY_GLYPH) s;
      Ok (with_pos (line s) (u64 (cursor s - 10)) s)
    else Ok s
  else _print_glyph (40 * c) s.

(** [print_string] has its own treatment of a newline, without scrolling. *)
Fixpoint print_string (str : list Z) (s : console) : res console :=
  match str with
  | [] => Ok s
  | c :: str =>
      if c =? 10 then print_string str (with_pos (u64 (line s + 1)) 0 s)
      else s ← _print_glyph (40 * c) s; print_string str s
  end.

Fixpoint print_glyphs (l : list Z) (s : console) : res console :=
  match l with
  | [] => Ok s
  | c :: l => s ← print_glyph c s; print_glyphs l s
  end.

(** [ANSI_COLORS], and what [kprintf] does to the console. *)
Definition ANSI_COLORS : list Z :=
  [0xFF000000; 0xFFFF0000; 0xFF00FF00; 0xFFFFFF00; 0xFF0000FF; 0xFFFF00FF; 0xFF00FFFF; 0xFFFFFFFF].

Definition console_event (e : event) (s : console) : res console :=
  match e with
  | Char c => print_glyph (u8 c) s
  | TextColor n => Ok (set_text_color (nth (Z.to_nat n) ANSI_COLORS 0) s)
  | BackgroundColor n => Ok (set_text_background_color (nth (Z.to_nat n) ANSI_COLORS 0) s)
  | UnsetText => Ok (unset_text_color s)
  | UnsetBackground => Ok (unset_text_background_color s)
  end.
Fixpoint console_events (l : list event) (s : console) : res console :=
  match l with
  | [] => Ok s
  | e :: l => s ← console_event e s; console_events l s
  end.
End Console.

(** ** The font's header

    [psf2_header_t] at the start of the file, and where the glyphs begin. *)
Record psf2_header_t := Psf2 { magic : Z; headersize : Z; bytes_per_glyph : Z }.
Definition read_header (file : Z -> Z) : psf2_header_t :=
  Psf2 (load32 0 file) (load32 8 file) (load32 20 file).
Definition load_font (file : Z -> Z) : (Z -> Z) * bool :=
  let h := read_header file in (fun o => file (headersize h + o), magic h =? 0x864ab572).
