(* ===== verification/ConsoleSpec.v ===== *)
(** * What the console shows

    The frame buffer refines a terminal: a grid of 24 lines of 80 cells, a
    position and two colours. *)
From S2P Require Import Prelude Mem Printf Console.

(** ** Pixels *)

Section spec.
Context (fb : Z) (font : Z -> Z).

Definition pix (m : mem) (i : Z) : Z := load32 (fb + 4 * i) m.
Definition PIXELS : Z := WIDTH * HEIGHT.

(** From [m] to [m'] the pixels of [P] were drawn and nothing else changed. *)
Record drawn (m m' : mem) (P : Z -> option Z) : Prop := {
  dw_pix : forall i, 0 <= i < PIXELS -> pix m' i = default (pix m i) (P i);
  dw_out : forall a, a < fb \/ fb + 4 * PIXELS <= a -> m' a = m a;
}.

Lemma drawn_refl m : drawn m m (fun _ => None).
Proof. by split. Qed.

Lemma drawn_trans m m1 m2 P Q : drawn m m1 P -> drawn m1 m2 Q ->
  drawn m m2 (fun i => match Q i with Some v => Some v | None => P i end).
Proof.
  intros [P1 O1] [P2 O2]. split.
  - intros i Hi. rewrite P2, P1 by done. by destruct (Q i).
  - intros a Ha. by rewrite O2, O1.
Qed.

Lemma drawn_ext m m' P Q : (forall i, 0 <= i < PIXELS -> P i = Q i) -> drawn m m' P -> drawn m m' Q.
Proof. intros H [H1 H2]. split; [|done]. intros i Hi. by rewrite H1, H. Qed.

Lemma write_pixel_out i v m : PIXELS <= i -> write_pixel fb i v m = UB.
Proof. intros Hi. unfold write_pixel. fold PIXELS. rewrite (proj2 (Z.ltb_ge i PIXELS)) by lia. by rewrite andb_false_r. Qed.

Lemma write_pixel_ok i v m : 0 <= i < PIXELS -> 0 <= v < 2 ^ 32 ->
  exists m', write_pixel fb i v m = Ok m' /\ drawn m m' (fun j => if decide (j = i) then Some v else None).
Proof.
  intros Hi Hv. unfold write_pixel. fold PIXELS. rewrite (proj2 (Z.leb_le _ _)), (proj2 (Z.ltb_lt _ _)) by lia. cbn [andb].
  eexists. split; [done|]. split.
  - intros j Hj. unfold pix. case_decide as Hd; cbn; [subst; by apply load_store32|].
    apply load32_same. intros x Hx. apply store32_other. lia.
  - intros a Ha. apply store32_other. lia.
Qed.

(** ** One glyph *)

Definition bit_color (r x text background : Z) : Z := if Z.testbit r (15 - x) then text else background.

Lemma mask_test r x : 0 <= x <= 15 -> negb (Z.land r (Z.shiftr (Z.shiftl 1 15) x) =? 0) = Z.testbit r (15 - x).
Proof.
  intros Hx. replace (Z.shiftr (Z.shiftl 1 15) x) with (2 ^ (15 - x)).
  2: { rewrite Z.shiftl_1_l, Z.shiftr_div_pow2 by lia. by rewrite <- Z.pow_sub_r by lia. }
  assert (H : Z.land r (2 ^ (15 - x)) = if Z.testbit r (15 - x) then 2 ^ (15 - x) else 0).
  { apply Z.bits_inj'. intros k Hk. rewrite Z.land_spec, Z.pow2_bits_eqb by lia.
    destruct (Z.eqb_spec (15 - x) k) as [<-|Hne].
    - rewrite andb_true_r. destruct (Z.testbit r (15 - x)); [by rewrite Z.pow2_bits_true by lia|by rewrite Z.bits_0].
    - rewrite andb_false_r. destruct (Z.testbit r (15 - x)); [by rewrite Z.pow2_bits_false by lia|by rewrite Z.bits_0]. }
  rewrite H. destruct (Z.testbit r (15 - x)); [|done]. rewrite (proj2 (Z.eqb_neq _ _)); [done|].
  pose proof (pow2_pos (15 - x)). lia.
Qed.

Lemma glyph_cols_ok n r row col fb_idx tx bg m : 0 <= col -> col + Z.of_nat n = 10 -> 0 <= fb_idx -> 0 <= row ->
  fb_idx + row * 800 + 10 <= PIXELS -> 0 <= tx < 2 ^ 32 -> 0 <= bg < 2 ^ 32 ->
  exists m', glyph_cols fb n r (Z.shiftr (Z.shiftl 1 15) col) row col fb_idx tx bg m = Ok m' /\
    drawn m m' (fun i => let x := i - (fb_idx + row * 800) in
      if decide (col <= x < 10) then Some (bit_color r x tx bg) else None).
Proof.
  revert col m. induction n as [|n IH]; intros col m H0 Hn Hf Hr Hp Ht Hb; cbn [glyph_cols].
  - exists m. split; [done|]. eapply drawn_ext; [|apply drawn_refl]. intros i _. cbn. by rewrite decide_False by lia.
  - assert (HPX : PIXELS = 384000) by done. rewrite u64_small by lia. rewrite mask_test by lia.
    destruct (write_pixel_ok (fb_idx + row * 800 + col) (if Z.testbit r (15 - col) then tx else bg) m) as (m1 & -> & D1);
      [lia|by destruct (Z.testbit r (15 - col))|]. cbn [mbind res_bind].
    rewrite Z.shiftr_shiftr by lia. destruct (IH (col + 1) m1) as (m2 & -> & D2); [lia|lia|done|done|done|done|done|].
    exists m2. split; [done|]. eapply drawn_ext; [|eapply drawn_trans; [exact D1|exact D2]]. intros i _. cbn.
    unfold bit_color. repeat case_decide; try done; try lia.
    by replace (15 - col) with (15 - (i - (fb_idx + row * 800))) by lia.
Qed.

Lemma glyph_rows_ok n g row fb_idx tx bg m : 0 <= row -> row + Z.of_nat n = 20 -> 0 <= fb_idx ->
  fb_idx + 19 * 800 + 10 <= PIXELS -> 0 <= tx < 2 ^ 32 -> 0 <= bg < 2 ^ 32 ->
  exists m', glyph_rows fb font n g row fb_idx tx bg m = Ok m' /\
    drawn m m' (fun i => let y := (i - fb_idx) / 800 in let x := (i - fb_idx) mod 800 in
      if decide (row <= y < 20 /\ x < 10) then Some (bit_color (glyph_row font g y) x tx bg) else None).
Proof.
  revert row m. induction n as [|n IH]; intros row m H0 Hn Hf Hp Ht Hb; cbn [glyph_rows].
  - exists m. split; [done|]. eapply drawn_ext; [|apply drawn_refl]. intros i _. cbv zeta. by rewrite decide_False by lia.
  - destruct (glyph_cols_ok 10 (glyph_row font g row) row 0 fb_idx tx bg m) as (m1 & E & D1); try lia.
    rewrite Z.shiftr_0_r in E. rewrite E. cbn [mbind res_bind].
    destruct (IH (row + 1) m1) as (m2 & -> & D2); [lia|lia|done|done|done|done|].
    exists m2. split; [done|]. eapply drawn_ext; [|eapply drawn_trans; [exact D1|exact D2]]. intros i _. cbv beta zeta.
    set (y := (i - fb_idx) / 800). set (x := (i - fb_idx) mod 800).
    assert (Hi : i - fb_idx = 800 * y + x /\ 0 <= x < 800) by (pose proof (Z.div_mod (i - fb_idx) 800 ltac:(done)); pose proof (Z.mod_pos_bound (i - fb_idx) 800 ltac:(done)); unfold y, x; lia).
    clearbody y x.
    destruct (decide (row + 1 <= y < 20 /\ x < 10)); [by rewrite (decide_True (P := row <= y < 20 /\ x < 10)) by lia|].
    destruct (decide (0 <= i - (fb_idx + row * 800) < 10)).
    + assert (y = row) as -> by lia. rewrite decide_True by lia. do 2 f_equal. lia.
    + rewrite decide_False by lia. done.
Qed.

(** ** Scrolling *)

Lemma pix_copied m m' i n : copied fb (fb + 64000) n m m' -> 0 <= i -> 4 * i + 4 <= n -> pix m' i = pix m (i + 16000).
Proof.
  intros Hc H0 Hn. assert (H : forall k, 0 <= k < 4 -> m' (fb + 4 * i + k) = m (fb + 4 * (i + 16000) + k)).
  { intros k Hk. rewrite (Hc (fb + 4 * i + k)). zbool; try lia. f_equal. lia. }
  pose proof (H 0 ltac:(lia)) as E0. rewrite !Z.add_0_r in E0. unfold pix, load32.
  by rewrite E0, (H 1), (H 2), (H 3) by lia.
Qed.

Lemma pix_filled m m' d n i : filled d n 0 m m' -> d <= fb + 4 * i -> fb + 4 * i + 4 <= d + n -> pix m' i = 0.
Proof. intros Hf H1 H2. unfold pix, load32. rewrite !(Hf _). by zbool; try lia. Qed.

(** ** The terminal *)

Inductive cell := Blank | Glyph (c fg bg : Z).
Record term := Term { trow : Z; tcol : Z; tbg : Z; tfg : Z; grid : Z -> Z -> cell }.

Definition tshift (g : Z -> Z -> cell) : Z -> Z -> cell := fun r c => if r =? 23 then Blank else g (r + 1) c.
Definition tset (r c : Z) (x : cell) (g : Z -> Z -> cell) : Z -> Z -> cell :=
  fun r' c' => if (r' =? r) && (c' =? c) then x else g r' c'.

Definition tnewline (t : term) : term :=
  if trow t =? 23 then Term 23 0 (tbg t) (tfg t) (tshift (grid t))
  else Term (trow t + 1) 0 (tbg t) (tfg t) (grid t).

Definition tdraw (c : Z) (t : term) : term :=
  let g := tset (trow t) (tcol t) (Glyph c (tfg t) (tbg t)) (grid t) in
  if tcol t =? 79 then tnewline (Term (trow t) 0 (tbg t) (tfg t) g)
  else Term (trow t) (tcol t + 1) (tbg t) (tfg t) g.

(** A character; [None] for a tab that reaches the right edge. *)
Definition tput (c : Z) (t : term) : option term :=
  if (c =? 10) || (c =? 13) then Some (tnewline t)
  else if c =? 9 then if tcol t + 4 <? 80 then Some (Term (trow t) (tcol t + 4) (tbg t) (tfg t) (grid t)) else None
  else if c =? 127 then
    if tcol t =? 0 then Some t
    else Some (Term (trow t) (tcol t - 1) (tbg t) (tfg t) (tset (trow t) (tcol t - 1) (Glyph 32 (tfg t) (tbg t)) (grid t)))
  else Some (tdraw c t).

Definition cell_pixel (x : cell) (r c : Z) : Z :=
  match x with
  | Blank => 0
  | Glyph g fg bg => bit_color (glyph_row font (40 * g) r) c fg bg
  end.

(** The console [s] shows [t]; outside the frame buffer memory is [m0]. *)
Record shows (m0 : mem) (s : console) (t : term) : Prop := {
  sh_row : line s = trow t /\ 0 <= trow t < 24;
  sh_col : cursor s = 10 * tcol t /\ 0 <= tcol t < 80;
  sh_bg : BACKGROUND_COLOR s = tbg t /\ 0 <= tbg t < 2 ^ 32;
  sh_fg : TEXT_COLOR s = tfg t /\ 0 <= tfg t < 2 ^ 32;
  sh_pix : forall y x, 0 <= y < 480 -> 0 <= x < 800 ->
    pix (bytes s) (y * 800 + x) = cell_pixel (grid t (y / 20) (x / 10)) (y mod 20) (x mod 10);
  sh_out : forall a, a < fb \/ fb + 4 * PIXELS <= a -> bytes s a = m0 a;
}.

Lemma newline_shows m0 s t g : shows m0 (with_pos (line s) 0 s) (Term (trow t) 0 (tbg t) (tfg t) g) -> 
  shows m0 (newline fb s) (tnewline (Term (trow t) 0 (tbg t) (tfg t) g)).
Proof.
  intros [[Hl Hr] _ Hbg Hfg Hp Ho]. cbn in *. unfold newline, tnewline. cbn [line with_pos trow tbg tfg grid].
  rewrite Hl, (u64_small (trow t + 1)) by lia. destruct (Z.eqb_spec (trow t + 1) 24) as [H24|H24].
  - rewrite (proj2 (Z.eqb_eq (trow t) 23)) by lia. unfold scroll. cbn [bytes with_bytes line with_pos cursor].
    change (u64 (u32 (u32 (800 * 20) * 4))) with 64000. change (u32 (800 * 20) * 4) with 64000. change (64000 * (NUM_LINES - 1)) with 1472000.
    rewrite u64_small by lia.
    pose proof (memcpy_ok fb (fb + 64000) 1472000 (bytes s) ltac:(lia) ltac:(left; lia)) as Hc.
    set (m1 := memcpy fb (fb + 64000) 1472000 (bytes s)) in *.
    pose proof (memset_ok (fb + 1472000) DEFAULT_BACKGROUND_COLOR 64000 m1 ltac:(lia)) as Hm. change (u8 DEFAULT_BACKGROUND_COLOR) with 0 in Hm.
    change (Z.max 16 64000) with 64000 in Hm. split; cbn; try done; try lia.
    + intros y x Hy Hx. destruct (decide (460 <= y)) as [H460|H460].
      * rewrite (pix_filled m1 _ _ _ _ Hm) by lia. unfold tshift. rewrite (proj2 (Z.eqb_eq (y / 20) 23)) by zdiv. done.
      * assert (E : pix (memset (fb + 1472000) DEFAULT_BACKGROUND_COLOR 64000 m1) (y * 800 + x) = pix m1 (y * 800 + x)).
        { apply load32_same. intros a Ha. rewrite (Hm a). zbool; lia || done. }
        rewrite E, (pix_copied _ _ _ _ Hc) by lia. replace (y * 800 + x + 16000) with ((y + 20) * 800 + x) by lia.
        rewrite Hp by lia. unfold tshift. rewrite (proj2 (Z.eqb_neq (y / 20) 23)) by zdiv.
        replace ((y + 20) / 20) with (y / 20 + 1) by zdiv. by replace ((y + 20) mod 20) with (y mod 20) by zdiv.
    + intros a Ha. change PIXELS with 384000 in *. rewrite (Hm a), (Hc a). zbool; try lia; by apply Ho.
  - rewrite (proj2 (Z.eqb_neq (trow t) 23)) by lia. split; cbn; try done; lia.
Qed.

Lemma cell_index y x r c : 0 <= y < 480 -> 0 <= x < 800 -> 0 <= r < 24 -> 0 <= c < 80 ->
  let i := y * 800 + x - (r * 16000 + 10 * c) in
  (0 <= i / 800 < 20 /\ i mod 800 < 10 <-> y / 20 = r /\ x / 10 = c) /\
  (y / 20 = r -> x / 10 = c -> i / 800 = y mod 20 /\ i mod 800 = x mod 10).
Proof.
  intros Hy Hx Hr Hc i.
  assert (Hi : i = 800 * (i / 800) + i mod 800 /\ 0 <= i mod 800 < 800)
    by (pose proof (Z.div_mod i 800 ltac:(done)); pose proof (Z.mod_pos_bound i 800 ltac:(done)); lia).
  assert (Hy' : y = 20 * (y / 20) + y mod 20 /\ 0 <= y mod 20 < 20) by zdiv.
  assert (Hx' : x = 10 * (x / 10) + x mod 10 /\ 0 <= x mod 10 < 10) by zdiv.
  unfold i in *. clear i. generalize dependent ((y * 800 + x - (r * 16000 + 10 * c)) / 800).
  generalize dependent ((y * 800 + x - (r * 16000 + 10 * c)) mod 800). generalize dependent (y mod 20). generalize dependent (x mod 10).
  intros xm Hx' ym Hy' im iq Hi. split; [split|]; intros; try split; lia.
Qed.

Lemma draw_cell m0 s t c : shows m0 s t ->
  exists m', glyph_rows fb font 20 (40 * c) 0 (s32 (u64 (line s * 800 * 20 + cursor s))) (TEXT_COLOR s) (BACKGROUND_COLOR s) (bytes s) = Ok m' /\
    (forall y x, 0 <= y < 480 -> 0 <= x < 800 -> pix m' (y * 800 + x) =
      cell_pixel (tset (trow t) (tcol t) (Glyph c (tfg t) (tbg t)) (grid t) (y / 20) (x / 10)) (y mod 20) (x mod 10)) /\
    (forall a, a < fb \/ fb + 4 * PIXELS <= a -> m' a = m0 a).
Proof.
  intros [[-> Hr] [-> Hc] [-> Hb] [-> Hf] Hp Ho]. rewrite u64_small, s32_small by lia.
  replace (trow t * 800 * 20 + 10 * tcol t) with (trow t * 16000 + 10 * tcol t) by lia.
  destruct (glyph_rows_ok 20 (40 * c) 0 (trow t * 16000 + 10 * tcol t) (tfg t) (tbg t) (bytes s)) as (m' & E & [D1 D2]);
    try done; try (change PIXELS with 384000; lia). exists m'. split; [done|]. split.
  - intros y x Hy Hx. rewrite D1 by (change PIXELS with 384000; lia).
    destruct (cell_index y x (trow t) (tcol t) Hy Hx Hr Hc) as [Hiff Heq]. unfold tset.
    destruct (decide (y / 20 = trow t /\ x / 10 = tcol t)) as [[H1 H2]|Hne].
    + rewrite (proj2 (Z.eqb_eq _ _) H1), (proj2 (Z.eqb_eq _ _) H2). destruct (Heq H1 H2) as [E1 E2].
      rewrite decide_True by (apply Hiff; done). cbn. by rewrite E1, E2.
    + rewrite decide_False by (intros H; apply Hne, Hiff; done). cbn [default]. rewrite Hp by done.
      destruct (Z.eqb_spec (y / 20) (trow t)), (Z.eqb_spec (x / 10) (tcol t)); cbn [andb]; tauto || done.
  - intros a Ha. rewrite D2 by done. by apply Ho.
Qed.

Lemma print_cell m0 s t c : shows m0 s t -> exists s', _print_glyph fb font (40 * c) s = Ok s' /\ shows m0 s' (tdraw c t).
Proof.
  intros Hs. destruct (draw_cell m0 s t c Hs) as (m' & E & Hp & Ho). destruct Hs as [[Hl Hr] [Hcu Hc] Hb Hf _ _].
  unfold _print_glyph. rewrite E. cbn [mbind res_bind]. eexists. split; [done|]. unfold tdraw.
  cbn [cursor with_pos with_bytes line]. rewrite (u64_small (cursor s + 10)) by lia.
  destruct (Z.eqb_spec (tcol t) 79) as [H79|H79].
  - rewrite (proj2 (Z.eqb_eq (cursor s + 10) 800)) by lia. apply newline_shows. split; cbn; try done; lia.
  - rewrite (proj2 (Z.eqb_neq (cursor s + 10) 800)) by lia. split; cbn; try done; lia.
Qed.

Lemma print_glyph_ok m0 s t c t' : shows m0 s t -> tput c t = Some t' ->
  exists s', print_glyph fb font c s = Ok s' /\ shows m0 s' t'.
Proof.
  intros Hs Ht. pose proof Hs as [[Hl Hr] [Hcu Hc] Hb Hf Hp Ho]. unfold tput in Ht. unfold print_glyph.
  destruct ((c =? 10) || (c =? 13)).
  { injection Ht as <-. eexists. split; [done|].
    replace (tnewline t) with (tnewline (Term (trow t) 0 (tbg t) (tfg t) (grid t))) by done.
    apply newline_shows. split; cbn; try done; lia. }
  destruct (c =? 9).
  { destruct (Z.ltb_spec (tcol t + 4) 80); [|done]. injection Ht as <-. eexists. split; [done|].
    rewrite u64_small by lia. split; cbn; try done; lia. }
  destruct (c =? 127); [|injection Ht as <-; by apply print_cell].
  destruct (Z.eqb_spec (tcol t) 0) as [H0|H0].
  { injection Ht as <-. rewrite (proj2 (Z.ltb_ge 0 (cursor s))) by lia. eauto. }
  injection Ht as <-. rewrite (proj2 (Z.ltb_lt 0 (cursor s))) by lia. cbv zeta. rewrite (u64_small (cursor s - 10)) by lia.
  set (t1 := Term (trow t) (tcol t - 1) (tbg t) (tfg t) (grid t)).
  destruct (print_cell m0 (with_pos (line s) (cursor s - 10) s) t1 EMPTY_GLYPH) as (s' & -> & Hs').
  { split; cbn; try done; lia. }
  cbn [mbind res_bind]. eexists. split; [done|]. revert Hs'. unfold tdraw, t1. cbn [tcol trow tbg tfg grid].
  rewrite (proj2 (Z.eqb_neq (tcol t - 1) 79)) by lia. intros [[L R] [C1 C2] B F P O]. cbn in *.
  rewrite u64_small by lia. split; cbn; try done; lia.
Qed.

Fixpoint tputs (l : list Z) (t : term) : option term :=
  match l with
  | [] => Some t
  | c :: l => match tput c t with Some t => tputs l t | None => None end
  end.

(** An event of [kprintf] on the terminal. *)
Definition opaque_color (n : Z) : Z := Z.lor 0xFF000000 (nth (Z.to_nat n) ANSI_COLORS 0).
Definition tevent (e : event) (t : term) : option term :=
  match e with
  | Char c => tput (u8 c) t
  | TextColor n => Some (Term (trow t) (tcol t) (tbg t) (opaque_color n) (grid t))
  | BackgroundColor n => Some (Term (trow t) (tcol t) (opaque_color n) (tfg t) (grid t))
  | UnsetText => Some (Term (trow t) (tcol t) (tbg t) COLOR_WHITE (grid t))
  | UnsetBackground => Some (Term (trow t) (tcol t) COLOR_BLACK (tfg t) (grid t))
  end.
Fixpoint tevents (l : list event) (t : term) : option term :=
  match l with
  | [] => Some t
  | e :: l => match tevent e t with Some t => tevents l t | None => None end
  end.

Lemma opaque_range n : 0 <= opaque_color n < 2 ^ 32.
Proof.
  unfold opaque_color. destruct (Z.to_nat n) as [|[|[|[|[|[|[|[|[|k]]]]]]]]]; (split; vm_compute; done).
Qed.

Lemma console_event_ok m0 s t e t' : shows m0 s t -> tevent e t = Some t' ->
  exists s', console_event fb font e s = Ok s' /\ shows m0 s' t'.
Proof.
  intros Hs Ht. destruct e as [c|n|n| |]; cbn [tevent console_event] in *.
  - by eapply print_glyph_ok.
  - injection Ht as <-. eexists. split; [done|]. destruct Hs as [Hr Hc Hb Hf Hp Ho]. split; cbn; try done; try apply Hb.
    split; [done|]. apply opaque_range.
  - injection Ht as <-. eexists. split; [done|]. destruct Hs as [Hr Hc Hb Hf Hp Ho]. split; cbn; try done; try apply Hf.
    split; [done|]. apply opaque_range.
  - injection Ht as <-. eexists. split; [done|]. destruct Hs. split; cbn; done.
  - injection Ht as <-. eexists. split; [done|]. destruct Hs. split; cbn; done.
Qed.

Lemma console_events_ok m0 l s t t' : shows m0 s t -> tevents l t = Some t' ->
  exists s', console_events fb font l s = Ok s' /\ shows m0 s' t'.
Proof.
  revert s t. induction l as [|e l IH]; intros s t Hs Ht; cbn [tevents console_events] in *; [injection Ht as <-; eauto|].
  destruct (tevent e t) as [t1|] eqn:E; [|done]. destruct (console_event_ok m0 s t e t1 Hs E) as (s1 & -> & Hs1).
  cbn [mbind res_bind]. by apply (IH s1 t1).
Qed.

(** A glyph whose last row lies behind the frame buffer. *)
Lemma glyph_rows_outside n g row fb_idx tx bg m : 0 <= row -> row + Z.of_nat n = 20 -> (0 < n)%nat -> 0 <= fb_idx ->
  fb_idx + 18 * 800 + 10 <= PIXELS -> PIXELS <= fb_idx + 19 * 800 < 2 ^ 32 -> 0 <= tx < 2 ^ 32 -> 0 <= bg < 2 ^ 32 ->
  glyph_rows fb font n g row fb_idx tx bg m = UB.
Proof.
  revert row m. induction n as [|n IH]; intros row m H0 Hn Hpos Hf H18 H19 Ht Hb; [lia|]. cbn [glyph_rows].
  change (2 ^ 32) with 4294967296 in *. destruct (decide (n = 0%nat)) as [->|Hne].
  - assert (row = 19) as -> by lia. cbn [glyph_cols]. by rewrite write_pixel_out by (rewrite u64_small by lia; change PIXELS with 384000 in *; lia).
  - destruct (glyph_cols_ok 10 (glyph_row font g row) row 0 fb_idx tx bg m) as (m1 & E & _); try (change (2 ^ 32) with 4294967296; lia).
    rewrite Z.shiftr_0_r in E. rewrite E. cbn [mbind res_bind]. apply IH; try done; try (change (2 ^ 32) with 4294967296; lia); lia.
Qed.

(** A glyph that starts behind it. *)
Lemma glyph_rows_behind n g fb_idx tx bg m : PIXELS <= fb_idx < 2 ^ 32 -> glyph_rows fb font (S n) g 0 fb_idx tx bg m = UB.
Proof.
  intros H. cbn [glyph_rows glyph_cols].
  by rewrite write_pixel_out by (change PIXELS with 384000 in *; rewrite u64_small; lia).
Qed.
End spec.

(** ** A concrete console *)

Definition demo_font (o : Z) : Z := o mod 256.
Definition demo_start : console := Con 0 0 COLOR_BLACK COLOR_WHITE (fun _ => 0).
Definition demo_term : term := Term 0 0 COLOR_BLACK COLOR_WHITE (fun _ _ => Blank).

Lemma demo_shows : shows 0x3c000000 demo_font (fun _ => 0) demo_start demo_term.
Proof. split; cbn; try done. Qed.

(** The frame buffer shows the terminal: for every sequence of characters and
    colour changes ([kprintf]'s output) whose tabs stay inside the line, the
    console ends with exactly the pixels of the grid of cells - newlines, line
    wrap, delete and scrolling included - and changes no memory outside the
    frame buffer.  The lines that scrolling brings in are zero words. *)
Lemma console_refines_terminal fb font m0 l s t t' :
  shows fb font m0 s t -> tevents l t = Some t' ->
  exists s', console_events fb font l s = Ok s' /\ shows fb font m0 s' t'.
Proof. apply console_events_ok. Qed.

Lemma console_refines_terminal_witness : exists s' t',
  tevents [Char 72; TextColor 1; Char 105; Char 10; Char 9; Char 33; Char 127] demo_term = Some t' /\
  console_events 0x3c000000 demo_font [Char 72; TextColor 1; Char 105; Char 10; Char 9; Char 33; Char 127] demo_start = Ok s' /\
  line s' = 1 /\ cursor s' = 40 /\ grid t' 0 1 = Glyph 105 0xFFFF0000 COLOR_BLACK.
Proof.
  destruct (console_refines_terminal 0x3c000000 demo_font (fun _ => 0)
    [Char 72; TextColor 1; Char 105; Char 10; Char 9; Char 33; Char 127] demo_start demo_term _ demo_shows eq_refl) as (s' & E & Hs).
  eexists s', _. split; [reflexivity|]. split; [exact E|]. destruct Hs as [[-> _] [-> _] _ _ _ _]. split_and!; reflexivity.
Defined.

(** A tab that reaches the right edge breaks the console: the test for the end
    of a line compares the cursor with 800 only after a glyph, so on the last line
    the next character is drawn past the end of the frame buffer. *)
Lemma tab_leaves_screen fb font m0 s t c :
  shows fb font m0 s t -> trow t = 23 -> 76 <= tcol t -> c <> 9 -> c <> 10 -> c <> 13 -> c <> 127 ->
  print_glyphs fb font [9; c] s = UB.
Proof.
  intros [[Hl Hr] [Hcu Hc] [Hb Hb'] [Hf Hf'] _ _] H23 H76 H9 H10 H13 H127. cbn [print_glyphs].
  change (print_glyph fb font 9 s) with (Ok (with_pos (line s) (u64 (cursor s + 40)) s)). cbn [mbind res_bind].
  unfold print_glyph. rewrite !(proj2 (Z.eqb_neq c _)) by done. cbn [orb]. unfold _print_glyph.
  cbn [line cursor with_pos TEXT_COLOR BACKGROUND_COLOR bytes].
  rewrite (u64_small (cursor s + 40)), (u64_small (_ + (cursor s + 40))), s32_small by lia.
  rewrite glyph_rows_outside; try done; rewrite ?Hb, ?Hf; try done; change PIXELS with 384000; change (2 ^ 32) with 4294967296; lia.
Qed.

(** After such a tab to column 800 a delete redraws the last cell, which ends the
    line, and then steps back from 0: the cursor wraps around. *)
Lemma delete_after_tab fb font m0 s t : shows fb font m0 s t -> tcol t = 76 -> trow t < 23 ->
  exists s', print_glyphs fb font [9; 127] s = Ok s' /\ line s' = trow t + 1 /\ cursor s' = 2 ^ 64 - 10.
Proof.
  intros Hs H76 Hrow. pose proof Hs as [[Hl Hr] [Hcu Hc] Hb Hf Hp Ho]. cbn [print_glyphs].
  change (print_glyph fb font 9 s) with (Ok (with_pos (line s) (u64 (cursor s + 40)) s)). cbn [mbind res_bind].
  unfold print_glyph. cbn [Z.eqb Pos.eqb orb cursor with_pos line]. rewrite (u64_small (cursor s + 40)) by lia.
  rewrite (proj2 (Z.ltb_lt 0 _)) by lia. cbv zeta. rewrite (u64_small (cursor s + 40 - 10)) by lia.
  destruct (print_cell fb font m0 (with_pos (line s) (cursor s + 40 - 10) (with_pos (line s) (cursor s + 40) s))
    (Term (trow t) 79 (tbg t) (tfg t) (grid t)) EMPTY_GLYPH) as (s1 & -> & [[L _] [C _] _ _ _ _]).
  { split; cbn; try done; lia. }
  cbn [mbind res_bind]. eexists. split; [done|]. cbn. unfold tdraw, tnewline in L, C. cbn in L, C.
  rewrite (proj2 (Z.eqb_neq (trow t) 23)) in L, C by lia. cbn in L, C. rewrite L, C. done.
Qed.

(** [print_string] counts lines without scrolling: after 24 newlines the next
    character is outside the frame buffer. *)
Lemma print_string_newlines fb font n l s : 0 <= line s -> line s + Z.of_nat n < 2 ^ 64 -> (0 < n)%nat ->
  print_string fb font (replicate n 10 ++ l) s = print_string fb font l (with_pos (line s + Z.of_nat n) 0 s).
Proof.
  revert s. induction n as [|n IH]; intros s Hl Hn Hpos; [lia|]. cbn [replicate app print_string].
  change (10 =? 10) with true. cbn iota. rewrite u64_small by (change (2 ^ 64) with 18446744073709551616 in *; lia).
  destruct n as [|n]; [done|]. rewrite IH; cbn [line with_pos]; try (change (2 ^ 64) with 18446744073709551616 in *; lia).
  replace (line s + 1 + Z.of_nat (S n)) with (line s + Z.of_nat (S (S n))) by lia. done.
Qed.

Lemma print_string_no_scroll fb font s c : line s = 0 -> c <> 10 -> print_string fb font (replicate 24 10 ++ [c]) s = UB.
Proof.
  intros Hl Hc. rewrite print_string_newlines by (rewrite ?Hl; lia). rewrite Hl. cbn [print_string].
  rewrite (proj2 (Z.eqb_neq c 10)) by done. unfold _print_glyph. cbn [line with_pos cursor TEXT_COLOR BACKGROUND_COLOR bytes].
  by rewrite (glyph_rows_behind _ _ 19).
Qed.
