(* ===== verification/Lcd.v ===== *)
(** * The frame buffer ([io/lcd.c])

    The kernel asks the firmware for a screen of 800 by 480 pixels in one message
    of five requests, maps the memory it is given and clears it.  The words of
    [lcd.c]'s [mailbox], which the message is built in, are here the words the
    hardware shares ([Mmio]). *)
From S2P Require Import Prelude Buddy Mmap Mem Mmio Mailbox Console Printf ConsoleSpec.

Definition CHANNEL_PROP : Z := 8.
Definition TAG_SET_PHYSICAL_SIZE : Z := 0x48003.
Definition TAG_SET_VIRTUAL_SIZE : Z := 0x48004.
Definition TAG_SET_DEPTH : Z := 0x48005.
Definition TAG_ALLOCATE_BUFFER : Z := 0x40001.
Definition TAG_GET_PITCH : Z := 0x40008.
Definition TAG_END : Z := 0.
Definition GPU_BUS_TO_ARM (addr : Z) : Z := Z.land addr 0x3FFFFFFF.

Record frame_t := Frame { fb : Z; width : Z; height : Z; pitch : Z }.

(** The words [_init_framebuffer] writes over the start of [mailbox]. *)
Definition fb_message (width height depth : Z) : list Z :=
  [104; 0;
   TAG_SET_PHYSICAL_SIZE; 8; 0; width; height;
   TAG_SET_VIRTUAL_SIZE; 8; 0; width; height;
   TAG_SET_DEPTH; 4; 0; depth;
   TAG_ALLOCATE_BUFFER; 8; 0; 16; 0;
   TAG_GET_PITCH; 4; 0; 0;
   TAG_END].

(** What it makes of the answer. *)
Definition frame_of (mb : list Z) (width height : Z) : frame_t :=
  let fb_addr := Z.land (nth 19 mb 0) 0x3FFFFFFF in
  let pitch := Z.land (nth 23 mb 0) 0x7FFFFFFF in
  let fb_bytes := GPU_BUS_TO_ARM fb_addr in
  Frame (if fb_bytes =? 0 then 0 else pa_to_va fb_bytes) width height pitch.

Section Frame.
Context {W H : Type} `{Hardware H} (hw : W -> H) (set_hw : H -> W -> W) (fuel : nat) (mailbox_address : Z).

Definition _init_framebuffer (width height depth : Z) : M W frame_t :=
  mb ← shared hw;
  _ ← share hw set_hw (fb_message width height depth ++ drop 26 mb);
  _ ← mailbox_write hw set_hw fuel CHANNEL_PROP mailbox_address;
  _ ← mailbox_read hw set_hw fuel CHANNEL_PROP;
  mb ← shared hw;
  mret (frame_of mb width height).
End Frame.

(** The statics of [lcd.c], the hardware, the page tables and memory. *)
Record lcd (H S : Type) := Lcd { device : H; tables : mm S; frame : frame_t; LCD_READY : bool; screen : mem }.
Arguments Lcd {H S} _ _ _ _ _.
Arguments device {H S} _.
Arguments tables {H S} _.
Arguments frame {H S} _.
Arguments LCD_READY {H S} _.
Arguments screen {H S} _.

Section Lcd.
Context {H S : Type} `{Hardware H} (fuel : nat) (mailbox_address L0_TABLE : Z) (alloc_pt : mm S -> res (Z * mm S)).
Notation W := (lcd H S).

Definition set_device (h : H) (w : W) : W := Lcd h (tables w) (frame w) (LCD_READY w) (screen w).
Definition set_tables (t : mm S) (w : W) : W := Lcd (device w) t (frame w) (LCD_READY w) (screen w).
Definition set_frame (f : frame_t) (w : W) : W := Lcd (device w) (tables w) f (LCD_READY w) (screen w).
Definition set_ready (b : bool) (w : W) : W := Lcd (device w) (tables w) (frame w) b (screen w).
Definition set_screen (m : mem) (w : W) : W := Lcd (device w) (tables w) (frame w) (LCD_READY w) m.

Definition panel_ready (w : W) : bool := LCD_READY w.

Definition init_framebuffer : M W bool :=
  f ← _init_framebuffer device set_device fuel mailbox_address 800 480 32;
  _ ← modify (set_frame f);
  _ ← modify (set_ready (negb (fb f =? 0)));
  _ ← (if negb (fb f =? 0) then
         t ← get tables;
         '(_, t) ← lift_res (map_pages alloc_pt (fb f) (va_to_pa (fb f)) 376 (MAP_KERNEL + MAP_READ + MAP_WRITE) L0_TABLE t);
         _ ← modify (set_tables t);
         modify (fun w => set_screen (fill_screen (fb f) 0xFF000000 (screen w)) w)
       else mret tt);
  get LCD_READY.
End Lcd.

(** ** What the firmware is asked, and the screen that comes up *)

(** The five requests, whatever follows them in the buffer. *)
Lemma fb_message_parses w h d rest :
  parse_message (fb_message w h d ++ rest) = Some
    [(TAG_SET_PHYSICAL_SIZE, [w; h]); (TAG_SET_VIRTUAL_SIZE, [w; h]); (TAG_SET_DEPTH, [d]);
     (TAG_ALLOCATE_BUFFER, [16; 0]); (TAG_GET_PITCH, [0])].
Proof. reflexivity. Qed.

(** The answer: the codes of message and tags, the address and size of the
    buffer in the place of its alignment, and the pitch. *)
Definition fb_answer (width height depth addr size pitch : Z) : list Z :=
  [104; 0x80000000;
   TAG_SET_PHYSICAL_SIZE; 8; 0x80000008; width; height;
   TAG_SET_VIRTUAL_SIZE; 8; 0x80000008; width; height;
   TAG_SET_DEPTH; 4; 0x80000004; depth;
   TAG_ALLOCATE_BUFFER; 8; 0x80000008; addr; size;
   TAG_GET_PITCH; 4; 0x80000004; pitch;
   TAG_END].

(** The address is taken from the answer, but the pitch is read one word too
    early: it is the length of the tag's answer, 4, whatever the pitch is. *)
Lemma frame_of_answer width height depth addr size pitch rest :
  GPU_BUS_TO_ARM addr <> 0 ->
  frame_of (fb_answer width height depth addr size pitch ++ rest) width height =
  Frame (pa_to_va (GPU_BUS_TO_ARM addr)) width height 4.
Proof.
  intros Ha. unfold frame_of. cbn [fb_answer app nth].
  assert (E : GPU_BUS_TO_ARM (Z.land addr 0x3FFFFFFF) = GPU_BUS_TO_ARM addr).
  { unfold GPU_BUS_TO_ARM. by rewrite <- Z.land_assoc. }
  rewrite E. by rewrite (proj2 (Z.eqb_neq _ _) Ha).
Qed.

(** A firmware that answers each message as [answer] says, at once. *)
Class Firmware (H : Type) `{Hardware H} (answer : list Z -> list Z) : Prop := {
  fw_status : forall h, hw_read mbx_status h = (0, h);
  fw_answer : forall v h, hw_shared (hw_write mbx_write v h) = answer (hw_shared h);
  fw_read : forall v h, hw_read mbx_read (hw_write mbx_write v h) = (v, hw_write mbx_write v h);
  fw_share : forall l h, hw_shared (hw_share l h) = l;
}.

Section exchange.
Context {W H : Type} `{Hardware H} (hw : W -> H) (set_hw : H -> W -> W).
Context (hw_set : forall h w, hw (set_hw h w) = h) (set_set : forall h h' w, set_hw h (set_hw h' w) = set_hw h w)
  (set_get : forall w, set_hw (hw w) w = w).
Context (answer : list Z -> list Z) `{!Firmware H answer}.

(** One exchange over a channel. *)
Lemma exchange_ok fuel addr channel w : (0 < fuel)%nat -> 0 <= channel < 16 ->
  exists h v, (_ ← mailbox_write hw set_hw fuel channel addr; mailbox_read hw set_hw fuel channel) w = Ok (v, set_hw h w) /\
    hw_shared h = answer (hw_shared (hw w)).
Proof.
  intros Hf Hc. destruct fuel as [|fuel]; [lia|].
  assert (Hw : forall mask w, wait_while hw set_hw (S fuel) mask w = Ok (tt, w)).
  { intros mask w1. cbn [wait_while]. unfold mbind, M_bind, reg_read. rewrite fw_status, set_get. reflexivity. }
  set (v := u32 (Z.lor (Z.land addr 0xFFFFFFF0) (Z.land channel 0xF))).
  exists (hw_write mbx_write v (hw w)), (Z.land v 0xFFFFFFF0). split; [|apply fw_answer].
  unfold mailbox_write, mailbox_read. cbn [mailbox_read_loop]. unfold mbind, M_bind. rewrite Hw.
  unfold reg_write, modify. fold v. rewrite Hw. unfold reg_read. rewrite hw_set, fw_read, set_set.
  assert (Ev : u32 v = v) by (unfold v; apply u32_small, (wrap_range 32); lia).
  assert (El : Z.land v 0xF = channel).
  { unfold v, u32, wrap. rewrite <- (Z.land_ones _ 32), <- Z.land_assoc by lia. change (Z.land (Z.ones 32) 0xF) with 0xF.
    rewrite Z.land_lor_distr_l, <- !Z.land_assoc. change (Z.land 0xFFFFFFF0 15) with 0. change (Z.land 15 15) with (Z.ones 4).
    rewrite Z.land_0_r, Z.lor_0_l, Z.land_ones by lia. by apply Z.mod_small. }
  rewrite Ev, El, Z.eqb_refl. reflexivity.
Qed.
End exchange.

(** ** The screen *)

(** [fill_screen] sets every byte to the low byte of the color: black without
    opacity, a zero word. *)
Lemma fill_screen_pix a m i : 0 <= i < PIXELS -> pix a (fill_screen a 0xFF000000 m) i = 0.
Proof.
  intros Hi. assert (F : forall x, a <= x < a + 4 * PIXELS -> fill_screen a 0xFF000000 m x = 0).
  { intros x Hx. unfold fill_screen. change (u32 (u32 (WIDTH * HEIGHT) * 4)) with (4 * PIXELS).
    rewrite (memset_ok a 0xFF000000 (4 * PIXELS) m ltac:(done) x). unfold PIXELS in *.
    change (Z.max 16 (4 * (WIDTH * HEIGHT))) with (4 * (WIDTH * HEIGHT)). zbool; try done; lia. }
  unfold pix, load32. rewrite !F by lia. done.
Qed.

Definition start (m : mem) : console := Con 0 0 COLOR_BLACK COLOR_WHITE m.
Definition blank : term := Term 0 0 COLOR_BLACK COLOR_WHITE (fun _ _ => Blank).

Lemma start_shows a font m : (forall i, 0 <= i < PIXELS -> pix a m i = 0) -> shows a font m (start m) blank.
Proof.
  intros Hm. split; cbn [start blank line cursor TEXT_COLOR BACKGROUND_COLOR bytes trow tcol tbg tfg grid]; try done.
  intros y x Hy Hx. rewrite Hm; [done|]. change PIXELS with 384000. lia.
Qed.

Section screen.
Context {H S : Type} `{Hardware H} (answer : list Z -> list Z) `{!Firmware H answer}.
Context (fuel : nat) (mailbox_address L0_TABLE : Z) (alloc_pt : mm S -> res (Z * mm S)).

(** The screen comes up, and shows a terminal from then on. *)
Lemma screen_comes_up (w : lcd H S) addr size pitch t : (0 < fuel)%nat ->
  (forall rest, answer (fb_message 800 480 32 ++ rest) = fb_answer 800 480 32 addr size pitch ++ rest) ->
  GPU_BUS_TO_ARM addr <> 0 -> pa_to_va (GPU_BUS_TO_ARM addr) <> 0 ->
  map_pages alloc_pt (pa_to_va (GPU_BUS_TO_ARM addr)) (va_to_pa (pa_to_va (GPU_BUS_TO_ARM addr))) 376 19 L0_TABLE (tables w) = Ok (true, t) ->
  exists w', init_framebuffer fuel mailbox_address L0_TABLE alloc_pt w = Ok (true, w') /\
    frame w' = Frame (pa_to_va (GPU_BUS_TO_ARM addr)) 800 480 4 /\ tables w' = t /\
    forall font l t', tevents l blank = Some t' ->
      exists s, console_events (fb (frame w')) font l (start (screen w')) = Ok s /\ shows (fb (frame w')) font (screen w') s t'.
Proof.
  intros Hf Ha Hg Hv Hm. set (a := pa_to_va (GPU_BUS_TO_ARM addr)) in *.
  set (w0 := set_device (hw_share (fb_message 800 480 32 ++ drop 26 (hw_shared (device w))) (device w)) w).
  destruct (exchange_ok device set_device (fun _ _ => eq_refl) (fun _ _ _ => eq_refl) (fun w => match w with Lcd _ _ _ _ _ => eq_refl end)
    answer fuel mailbox_address CHANNEL_PROP w0 Hf ltac:(done)) as (h & v & E & Hh).
  assert (Ei : _init_framebuffer device set_device fuel mailbox_address 800 480 32 w = Ok (Frame a 800 480 4, set_device h w)).
  { unfold _init_framebuffer. unfold mbind, M_bind, shared, get, share, modify in *. fold w0.
    destruct (mailbox_write _ _ _ _ _ w0) as [[? w1]| | |]; try done. rewrite E. cbn [device set_device mret M_ret].
    rewrite Hh. unfold w0. cbn [device set_device]. rewrite fw_share, Ha. rewrite frame_of_answer by done. reflexivity. }
  unfold init_framebuffer. unfold mbind, M_bind. rewrite Ei. cbn [fb]. unfold modify, get.
  rewrite (proj2 (Z.eqb_neq a 0)) by done. cbn [negb tables set_device set_ready set_frame]. unfold lift_res.
  change (MAP_KERNEL + MAP_READ + MAP_WRITE) with 19. rewrite Hm. cbn [mbind res_bind].
  eexists. split; [reflexivity|]. split; [reflexivity|]. split; [reflexivity|]. cbn [frame screen set_screen set_tables set_ready set_frame set_device fb].
  intros font l t' Ht. apply (console_events_ok _ _ _ l _ blank t' (start_shows _ _ _ (fill_screen_pix a _)) Ht).
Qed.
End screen.
