(* ===== verification/Dt.v ===== *)
(** * The device tree parser ([drivers/dt.c])

    A walk over the words of a flattened device tree, which prints the name of
    every node and the name and length of every property.  The messages are the
    result; the loops take fuel.  [device_tree_init] keeps the walk behind
    [if(FALSE)]. *)
From S2P Require Import Prelude Mem KString.

Definition FDT_BEGIN_NODE : Z := 1.
Definition FDT_END_NODE : Z := 2.
Definition FDT_PROP : Z := 3.
Definition FDT_NOP : Z := 4.
Definition FDT_END : Z := 9.

(** [__builtin_bswap32]. *)
Definition swap_endianness_32 (data : Z) : Z :=
  2 ^ 24 * (data mod 256) + 2 ^ 16 * (data / 256 mod 256) + 2 ^ 8 * (data / 65536 mod 256) + data / 16777216 mod 256.

(** The header's fields, as the walk finds them: in the processor's order. *)
Record fdt_header := FdtHeader { header : Z; off_dt_struct : Z; off_dt_strings : Z }.
Record fdt_property := FdtProperty { len : Z; nameoff : Z }.

(** The words of the header, [INFO("Node: %s")] and [INFO("\t%s: len = %d")]. *)
Inductive dt_message := HeaderInfo (words : list Z) | NodeInfo (nodename : list Z) | PropertyInfo (name : list Z) (len : Z).

Section Walk.
Context (fuel : nat) (m : mem).

(** The string [%s] prints. *)
Fixpoint read_string (n : nat) (s : Z) : res (list Z) :=
  match n with
  | O => Fuel
  | S n => if m s =? 0 then Ok [] else l ← read_string n (s + 1); Ok (m s :: l)
  end.

(** [swap_endianness_32( *ptr )]. *)
Definition token (ptr : Z) : Z := swap_endianness_32 (load32 ptr m).

(** [ALIGN_UP(x, 4)] of an [int] and of a [u32]. *)
Definition align_int (x : Z) : Z := Z.land (x + 3) (-4).
Definition align_u32 (x : Z) : Z := Z.land (u32 (x + 3)) 0xFFFFFFFC.

(** Where the next token is, and what was printed. *)
Definition parse_property (h : fdt_header) (property : Z) : res (Z * list dt_message) :=
  let prop := FdtProperty (token property) (token (property + 4)) in
  let strtable := header h + off_dt_strings h in
  name ← read_string fuel (strtable + nameoff prop);
  let skip := s32 (align_u32 (len prop) + 8) in
  Ok (property + skip, [PropertyInfo name (len prop)]).

(** [parse_node] up to its loop, which is [loop]. *)
Definition parse_name (loop : Z -> res (Z * list dt_message)) (ptr : Z) : res (Z * list dt_message) :=
  nodename ← read_string fuel ptr;
  n ← strlen fuel m ptr;
  '(ptr, l) ← loop (ptr + align_int n);
  Ok (ptr, NodeInfo nodename :: l).

(** The loop of [parse_node], which calls it again. *)
Fixpoint node_loop (n : nat) (h : fdt_header) (ptr : Z) : res (Z * list dt_message) :=
  match n with
  | O => Fuel
  | S n =>
      let val := token ptr in
      if val =? FDT_END_NODE then Ok (ptr, [])
      else
        '(ptr, l) ←
          (if val =? FDT_BEGIN_NODE then parse_name (node_loop n h) (ptr + 4)
           else if val =? FDT_PROP then parse_property h (ptr + 4)
           else Ok (ptr + 4, []));
        '(ptr, l') ← node_loop n h ptr;
        Ok (ptr, l ++ l')
  end.
Definition parse_node (h : fdt_header) (ptr : Z) : res (Z * list dt_message) := parse_name (node_loop fuel h) ptr.

Fixpoint tree_loop (n : nat) (h : fdt_header) (p : Z) : res (list dt_message) :=
  match n with
  | O => Fuel
  | S n =>
      let val := token p in
      if val =? FDT_END then Ok []
      else
        '(p, l) ← (if val =? FDT_BEGIN_NODE then parse_node h (p + 4) else Ok (p + 4, []));
        l' ← tree_loop n h p;
        Ok (l ++ l')
  end.
Definition parse_device_tree (h : fdt_header) : res (list dt_message) :=
  tree_loop fuel h (header h + off_dt_struct h).
End Walk.

(** The conversion of the header in [device_tree_init]: ten words, each stored
    back in the processor's order. *)
Fixpoint swap_words (n : nat) (a : Z) (m : mem) : mem :=
  match n with
  | O => m
  | S n => swap_words n (a + 4) (store32 a (swap_endianness_32 (load32 a m)) m)
  end.
Definition read_fdt_header (a : Z) (m : mem) : fdt_header :=
  FdtHeader a (load32 (a + 8) m) (load32 (a + 12) m).

(** The block behind [if(FALSE)]. *)
Definition parse_blob (fuel : nat) (tree : Z) (m : mem) : res (list dt_message) :=
  let m := swap_words 10 tree m in
  l ← parse_device_tree fuel m (read_fdt_header tree m);
  Ok (HeaderInfo ((fun i => load32 (tree + 4 * i) m) <$> seqZ 0 10) :: l).
