(* ===== verification/DtSpec.v ===== *)
(** * The device tree parser reports every node and property

    A device tree, its flattened form as the specification of the format lays it
    out, and the messages expected.  [parse_node] returns at the token that ends
    a node without stepping over it, so that the end of the first child ends all
    its ancestors too; [rest] is what is then left, and the outer loop goes on
    with it. *)
From S2P Require Import Prelude Mem KString Dt.

(** ** Trees and their bytes *)

Inductive pitem := Nop | Property (nameoff : Z) (name data : list Z).
Inductive node := Node (name : list Z) (props : list pitem) (subs : list node).

Section node_ind.
Variable P : node -> Prop.
Hypothesis HP : forall name props subs, Forall P subs -> P (Node name props subs).
Fixpoint node_ind' (t : node) : P t :=
  match t with
  | Node name props subs =>
      HP name props subs ((fix go (l : list node) : Forall P l :=
        match l with [] => Forall_nil_2 P | t :: l => Forall_cons_2 P t l (node_ind' t) (go l) end) subs)
  end.
End node_ind.

Definition be32 (v : Z) : list Z := [v / 16777216 mod 256; v / 65536 mod 256; v / 256 mod 256; v mod 256].
Definition pad4 (l : list Z) : list Z := l ++ replicate (Z.to_nat ((- Z.of_nat (length l)) mod 4)) 0.

Definition enc_prop (p : pitem) : list Z :=
  match p with
  | Nop => be32 FDT_NOP
  | Property o _ d => be32 FDT_PROP ++ be32 (Z.of_nat (length d)) ++ be32 o ++ pad4 d
  end.
Fixpoint enc (t : node) : list Z :=
  match t with
  | Node nm ps ss => be32 FDT_BEGIN_NODE ++ pad4 (nm ++ [0]) ++ concat (map enc_prop ps) ++ concat (map enc ss) ++ be32 FDT_END_NODE
  end.

(** What the walk should print: nodes in order, each with its properties. *)
Definition report_prop (p : pitem) : list dt_message :=
  match p with Nop => [] | Property _ nm d => [PropertyInfo nm (Z.of_nat (length d))] end.
Fixpoint report (t : node) : list dt_message :=
  match t with
  | Node nm ps ss => NodeInfo nm :: concat (map report_prop ps) ++ concat (map report ss)
  end.

(** What [parse_node] prints, and the tokens and nodes it leaves. *)
Fixpoint chain (t : node) : list dt_message :=
  match t with
  | Node nm ps ss => NodeInfo nm :: concat (map report_prop ps) ++ match ss with [] => [] | s :: _ => chain s end
  end.
Fixpoint rest (t : node) : list (option node) :=
  match t with
  | Node _ _ [] => [None]
  | Node _ _ (s :: ss) => rest s ++ map Some ss ++ [None]
  end.
Definition enc_top (x : option node) : list Z := match x with Some t => enc t | None => be32 FDT_END_NODE end.
Definition report_top (x : option node) : list dt_message := match x with Some t => report t | None => [] end.

Lemma concat_map_Some {B} (f : option node -> list B) (l : list node) :
  concat (map f (map Some l)) = concat (map (fun t => f (Some t)) l).
Proof. by rewrite map_map. Qed.

Lemma report_split t : report t = chain t ++ concat (map report_top (rest t)).
Proof.
  induction t as [nm ps ss IH] using node_ind'. cbn [report chain rest]. destruct ss as [|s ss]; cbn [map concat].
  - cbn. by rewrite !app_nil_r.
  - inversion IH as [|? ? E _]; subst. rewrite E, !map_app, !concat_app, concat_map_Some. cbn.
    by rewrite !app_nil_r, <- !app_assoc.
Qed.

Lemma rest_shorter t : (length (concat (map enc_top (rest t))) < length (enc t))%nat.
Proof.
  induction t as [nm ps ss IH] using node_ind'. destruct ss as [|s ss]; cbn [enc rest map concat].
  - rewrite !length_app. cbn. lia.
  - inversion IH as [|? ? E _]; subst. rewrite !map_app, !concat_app, concat_map_Some, !length_app.
    change (map (fun t => enc_top (Some t)) ss) with (map enc ss). cbn [map concat enc_top length app]. rewrite app_nil_r.
    cbn [be32 length] in *. lia.
Qed.

(** ** Bytes in memory *)

Definition at_ (m : mem) (a : Z) (l : list Z) : Prop := forall i b, l !! i = Some b -> m (a + Z.of_nat i) = b.

Lemma at_app m a l l' : at_ m a (l ++ l') <-> at_ m a l /\ at_ m (a + Z.of_nat (length l)) l'.
Proof.
  split.
  - intros H. split; intros i b Hi.
    + apply H. by apply lookup_app_l_Some.
    + rewrite <- (H (length l + i)%nat b); [f_equal; lia|]. rewrite lookup_app_r by lia. by replace (length l + i - length l)%nat with i by lia.
  - intros [H1 H2] i b Hi. apply lookup_app_Some in Hi as [Hi|[Hl Hi]]; [by apply H1|]. rewrite <- (H2 _ _ Hi). f_equal. lia.
Qed.

Lemma at_ext m m' a l : (forall x, a <= x < a + Z.of_nat (length l) -> m' x = m x) -> at_ m a l -> at_ m' a l.
Proof. intros E H i b Hi. rewrite <- (H i b Hi). apply E. apply lookup_lt_Some in Hi. lia. Qed.

Lemma at_cstr m a l l' : at_ m a (l ++ 0 :: l') -> Forall (fun c => c <> 0) l -> cstr m a l.
Proof.
  revert a. induction l as [|c l IH]; intros a H Hl; cbn [cstr].
  - specialize (H 0%nat 0 eq_refl). by rewrite Z.add_0_r in H.
  - inversion Hl; subst. split; [done|]. split; [specialize (H 0%nat c eq_refl); by rewrite Z.add_0_r in H|].
    apply IH; [|done]. intros i b Hi. rewrite <- (H (S i) b Hi). f_equal. lia.
Qed.

Lemma swap_endianness_bytes b0 b1 b2 b3 : 0 <= b0 < 256 -> 0 <= b1 < 256 -> 0 <= b2 < 256 -> 0 <= b3 < 256 ->
  swap_endianness_32 (b3 + 256 * b2 + 65536 * b1 + 16777216 * b0) = b0 + 256 * b1 + 65536 * b2 + 16777216 * b3.
Proof.
  intros H0 H1 H2 H3. set (x := b3 + 256 * b2 + 65536 * b1 + 16777216 * b0). unfold swap_endianness_32.
  assert (x mod 256 = b3) as -> by (symmetry; apply (Z.mod_unique_pos x 256 (b2 + 256 * b1 + 65536 * b0)); unfold x; lia).
  assert (x / 256 = b2 + 256 * b1 + 65536 * b0) as -> by (symmetry; apply (Z.div_unique_pos x 256 _ b3); unfold x; lia).
  assert (x / 65536 = b1 + 256 * b0) as -> by (symmetry; apply (Z.div_unique_pos x 65536 _ (b3 + 256 * b2)); unfold x; lia).
  assert (x / 16777216 = b0) as -> by (symmetry; apply (Z.div_unique_pos x 16777216 _ (b3 + 256 * b2 + 65536 * b1)); unfold x; lia).
  rewrite <- (Z.mod_unique_pos (b2 + 256 * b1 + 65536 * b0) 256 (b1 + 256 * b0) b2) by lia.
  rewrite <- (Z.mod_unique_pos (b1 + 256 * b0) 256 b0 b1) by lia. rewrite (Z.mod_small b0) by lia. lia.
Qed.

Lemma token_at m a v l : at_ m a (be32 v ++ l) -> 0 <= v < 2 ^ 32 -> token m a = v.
Proof.
  intros H Hv. change (2 ^ 32) with 4294967296 in Hv.
  pose proof (H 0%nat _ eq_refl) as H0. pose proof (H 1%nat _ eq_refl) as H1. pose proof (H 2%nat _ eq_refl) as H2. pose proof (H 3%nat _ eq_refl) as H3.
  rewrite Z.add_0_r in H0. change (Z.of_nat 1) with 1 in H1. change (Z.of_nat 2) with 2 in H2. change (Z.of_nat 3) with 3 in H3. unfold token, load32. rewrite H0, H1, H2, H3. unfold u8, wrap.
  change (2 ^ 8) with 256. change (2 ^ 16) with 65536. change (2 ^ 24) with 16777216.
  rewrite !Z.mod_mod by done.
  set (b3 := v / 16777216 mod 256). set (b2 := v / 65536 mod 256). set (b1 := v / 256 mod 256). set (b0 := v mod 256).
  assert (v = b0 + 256 * b1 + 65536 * b2 + 16777216 * b3) by (unfold b0, b1, b2, b3; zdiv).
  assert (0 <= b0 < 256 /\ 0 <= b1 < 256 /\ 0 <= b2 < 256 /\ 0 <= b3 < 256) by (unfold b0, b1, b2, b3; repeat split; zdiv).
  rewrite swap_endianness_bytes by tauto. lia.
Qed.

Lemma read_string_ok n m a s : cstr m a s -> (length s < n)%nat -> read_string m n a = Ok s.
Proof.
  revert a s. induction n as [|n IH]; intros a s Hs Hn; [lia|]. cbn [read_string]. destruct s as [|c s]; cbn [cstr length] in *.
  - by rewrite Hs.
  - destruct Hs as (Hc & -> & Hs). rewrite (proj2 (Z.eqb_neq _ _) Hc). rewrite (IH (a + 1) s) by (done || lia). done.
Qed.

Lemma pad4_length l : Z.of_nat (length (pad4 l)) = (Z.of_nat (length l) + 3) / 4 * 4.
Proof. unfold pad4. rewrite length_app, length_replicate, Nat2Z.inj_add, Z2Nat.id by zdiv. zdiv. Qed.

Lemma align_int_eq x : align_int x = (x + 3) / 4 * 4.
Proof.
  unfold align_int. change (-4) with (Z.lnot (Z.ones 2)). rewrite <- Z.ldiff_land, Z.ldiff_ones_r by lia.
  rewrite Z.shiftl_mul_pow2, Z.shiftr_div_pow2 by lia. done.
Qed.
Lemma align_u32_eq x : 0 <= x < 2 ^ 31 -> align_u32 x = (x + 3) / 4 * 4.
Proof.
  intros Hx. change (2 ^ 31) with 2147483648 in Hx. unfold align_u32. rewrite u32_small by lia. rewrite <- (align_int_eq x). unfold align_int.
  change 0xFFFFFFFC with (Z.land (Z.ones 32) (-4)). rewrite Z.land_assoc, Z.land_ones by lia. by rewrite Z.mod_small by (change (2 ^ 32) with 4294967296; lia).
Qed.

(** ** The walk *)

Lemma node_loop_mono fuel m h n n' a x : (n <= n')%nat -> node_loop fuel m n h a = Ok x -> node_loop fuel m n' h a = Ok x.
Proof.
  revert n' a x. induction n as [|n IH]; intros [|n'] a x Hn E; cbn [node_loop] in *; try done; [lia|].
  destruct (token m a =? FDT_END_NODE); [done|].
  apply bind_Ok_inv in E as ([p l] & E1 & E2). apply bind_Ok_inv in E2 as ([q l'] & E2 & E3).
  assert (E1' : (if token m a =? FDT_BEGIN_NODE then parse_name fuel m (node_loop fuel m n' h) (a + 4)
    else if token m a =? FDT_PROP then parse_property fuel m h (a + 4) else Ok (a + 4, [])) = Ok (p, l)).
  { destruct (token m a =? FDT_BEGIN_NODE); [|done]. unfold parse_name in *.
    apply bind_Ok_inv in E1 as (s & -> & E1). apply bind_Ok_inv in E1 as (k & -> & E1). apply bind_Ok_inv in E1 as ([r l1] & E1 & E4).
    cbn [mbind res_bind]. rewrite (IH n' _ _ ltac:(lia) E1). done. }
  rewrite E1'. cbn [mbind res_bind]. rewrite (IH n' _ _ ltac:(lia) E2). done.
Qed.

Section walk.
Context (fuel : nat) (m : mem) (h : fdt_header).

(** Lengths and offsets in range, and the names in the string table. *)
Definition prop_ok (p : pitem) : Prop :=
  match p with
  | Nop => True
  | Property o nm d => 0 <= o < 2 ^ 32 /\ Z.of_nat (length d) < 2 ^ 30 /\ (length nm < fuel)%nat /\
      cstr m (header h + off_dt_strings h + o) nm
  end.
Inductive node_ok : node -> Prop :=
| Node_ok nm ps ss : Forall (fun c => c <> 0) nm -> (length nm < fuel)%nat -> Z.of_nat (length nm) < 2 ^ 30 ->
    Forall prop_ok ps -> Forall node_ok ss -> node_ok (Node nm ps ss).
Definition top_ok (x : option node) : Prop := match x with Some t => node_ok t | None => True end.

Lemma rest_ok t : node_ok t -> Forall top_ok (rest t).
Proof.
  induction t as [nm ps ss IH] using node_ind'. intros H. inversion H as [? ? ? _ _ _ _ Hs]; subst. cbn [rest].
  destruct ss as [|s ss]; [by repeat constructor|]. inversion IH; inversion Hs; subst.
  apply Forall_app. split; [auto|]. apply Forall_app. split; [by apply Forall_map|by repeat constructor].
Qed.

(** A token that is neither: one word further. *)
Lemma skip_word n a v q l l0 : at_ m a (be32 v ++ l0) -> 0 <= v < 2 ^ 32 -> v <> FDT_BEGIN_NODE -> v <> FDT_END_NODE -> v <> FDT_PROP ->
  node_loop fuel m n h (a + 4) = Ok (q, l) -> node_loop fuel m (S n) h a = Ok (q, l).
Proof.
  intros Ha Hv H1 H2 H3 E. cbn [node_loop]. rewrite (token_at m a v l0 Ha Hv), !(proj2 (Z.eqb_neq v _)) by done.
  cbn [mbind res_bind]. by rewrite E.
Qed.

Lemma one_prop n a p q l l0 : at_ m a (enc_prop p ++ l0) -> prop_ok p ->
  node_loop fuel m n h (a + Z.of_nat (length (enc_prop p))) = Ok (q, l) ->
  node_loop fuel m (S n) h a = Ok (q, report_prop p ++ l).
Proof.
  intros Ha Hp E. destruct p as [|o nm d]; [by apply (skip_word n a FDT_NOP q l l0)|].
  destruct Hp as (Ho & Hd & Hf & Hnm). change (2 ^ 30) with 1073741824 in Hd. cbn [node_loop enc_prop] in *.
  rewrite <- !app_assoc in Ha. rewrite (token_at m a FDT_PROP _ Ha) by done.
  change (FDT_PROP =? FDT_END_NODE) with false. change (FDT_PROP =? FDT_BEGIN_NODE) with false. rewrite Z.eqb_refl. cbn iota.
  apply at_app in Ha as [_ Ha]. change (Z.of_nat (length (be32 FDT_PROP))) with 4 in Ha.
  unfold parse_property. rewrite (token_at m (a + 4) _ _ Ha) by (change (2 ^ 32) with 4294967296; lia).
  apply at_app in Ha as [_ Ha]. change (Z.of_nat (length (be32 _))) with 4 in Ha. rewrite (token_at m (a + 4 + 4) _ _ Ha) by done.
  cbn [len nameoff]. rewrite (read_string_ok fuel m _ nm Hnm Hf). cbn [mbind res_bind].
  rewrite align_u32_eq by (change (2 ^ 31) with 2147483648; lia). rewrite s32_small by zdiv.
  replace (a + 4 + ((Z.of_nat (length d) + 3) / 4 * 4 + 8)) with (a + Z.of_nat (length (be32 FDT_PROP ++ be32 (Z.of_nat (length d)) ++ be32 o ++ pad4 d))).
  - rewrite E. done.
  - rewrite !length_app, !Nat2Z.inj_add, pad4_length. change (Z.of_nat (length (be32 _))) with 4. lia.
Qed.

Lemma all_props n a ps q l l0 : at_ m a (concat (map enc_prop ps) ++ l0) -> Forall prop_ok ps ->
  node_loop fuel m n h (a + Z.of_nat (length (concat (map enc_prop ps)))) = Ok (q, l) ->
  node_loop fuel m (length ps + n) h a = Ok (q, concat (map report_prop ps) ++ l).
Proof.
  revert a. induction ps as [|p ps IH]; intros a Ha Hp E; cbn [map concat length] in *; [by rewrite Z.add_0_r in E|].
  inversion Hp; subst. rewrite <- app_assoc in Ha. pose proof (proj2 (proj1 (at_app _ _ _ _) Ha)) as Ha'.
  cbn [Nat.add]. rewrite <- app_assoc. eapply one_prop; [exact Ha|done|].
  apply IH; [done|done|]. rewrite length_app, Nat2Z.inj_add in E. by rewrite Z.add_assoc in E.
Qed.
(** The name, whose padding may leave a word of zeros. *)
Lemma skip_name n a nm q l l0 : at_ m a (pad4 (nm ++ [0]) ++ l0) ->
  node_loop fuel m n h (a + Z.of_nat (length (pad4 (nm ++ [0])))) = Ok (q, l) ->
  node_loop fuel m (S n) h (a + align_int (Z.of_nat (length nm))) = Ok (q, l).
Proof.
  intros Ha E. rewrite align_int_eq. rewrite pad4_length, length_app, Nat2Z.inj_add in E. change (Z.of_nat (length [0])) with 1 in E.
  destruct (decide (Z.of_nat (length nm) mod 4 = 0)) as [H4|H4].
  - assert (Hp : pad4 (nm ++ [0]) = nm ++ be32 0).
    { unfold pad4. rewrite length_app, Nat2Z.inj_add. change (Z.of_nat (length [0])) with 1.
      replace ((- (Z.of_nat (length nm) + 1)) mod 4) with 3 by zdiv. rewrite <- app_assoc. reflexivity. }
    rewrite Hp, <- app_assoc in Ha. apply at_app in Ha as [_ Ha].
    replace ((Z.of_nat (length nm) + 3) / 4 * 4) with (Z.of_nat (length nm)) by zdiv.
    apply (skip_word n _ 0 q l l0 Ha); try done.
    replace (a + Z.of_nat (length nm) + 4) with (a + (Z.of_nat (length nm) + 1 + 3) / 4 * 4) by zdiv. done.
  - apply (node_loop_mono fuel m h n); [lia|].
    replace (a + (Z.of_nat (length nm) + 3) / 4 * 4) with (a + (Z.of_nat (length nm) + 1 + 3) / 4 * 4) by zdiv. done.
Qed.

Lemma rest_head t : exists r, rest t = None :: r.
Proof.
  induction t as [nm ps ss IH] using node_ind'. cbn [rest]. destruct ss as [|s ss]; [eauto|].
  apply Forall_inv in IH as [r ->]. cbn. eauto.
Qed.

Lemma end_token n a l0 : at_ m a (be32 FDT_END_NODE ++ l0) -> node_loop fuel m (S n) h a = Ok (a, []).
Proof. intros Ha. cbn [node_loop]. by rewrite (token_at m a FDT_END_NODE l0 Ha). Qed.

Definition body (t : node) : list Z :=
  match t with
  | Node nm ps ss => pad4 (nm ++ [0]) ++ concat (map enc_prop ps) ++ concat (map enc ss) ++ be32 FDT_END_NODE
  end.
Lemma enc_body t : enc t = be32 FDT_BEGIN_NODE ++ body t.
Proof. by destruct t. Qed.

Lemma props_count ps : (length ps <= length (concat (map enc_prop ps)))%nat.
Proof.
  induction ps as [|p ps IH]; cbn [map concat length]; [lia|]. rewrite length_app.
  assert (1 <= length (enc_prop p))%nat by (destruct p; cbn; lia). lia.
Qed.

Lemma parse_name_ok t : forall n a l0, at_ m a (body t ++ l0) -> node_ok t -> (length (enc t) <= n)%nat ->
  exists q, parse_name fuel m (node_loop fuel m n h) a = Ok (q, chain t) /\ at_ m q (concat (map enc_top (rest t)) ++ l0).
Proof.
  induction t as [nm ps ss IH] using node_ind'. intros n a l0 Ha Ht Hn. inversion Ht as [? ? ? Hz Hf Hl Hp Hs]; subst.
  cbn [body] in Ha. rewrite <- !app_assoc in Ha.
  assert (Hc : cstr m a nm).
  { unfold pad4 in Ha. rewrite <- !app_assoc in Ha. by eapply at_cstr. }
  unfold parse_name. rewrite (read_string_ok fuel m a nm Hc Hf). unfold strlen. rewrite (strlen_loop_ok fuel m a a nm Hc Hf).
  change (2 ^ 30) with 1073741824 in Hl. replace (a + Z.of_nat (length nm) - a) with (Z.of_nat (length nm)) by lia.
  rewrite s32_small by lia. cbn [mbind res_bind].
  pose proof (proj2 (proj1 (at_app _ _ _ _) Ha)) as Hb. pose proof (proj2 (proj1 (at_app _ _ _ _) Hb)) as Hq.
  set (b := a + Z.of_nat (length (pad4 (nm ++ [0])))) in *. set (c := b + Z.of_nat (length (concat (map enc_prop ps)))) in *.
  assert (Hloop : exists q l, (forall k, (length (concat (map enc ss)) + 1 <= k)%nat -> node_loop fuel m k h c = Ok (q, l)) /\
    l = match ss with [] => [] | s :: _ => chain s end /\ at_ m q (concat (map enc_top (rest (Node nm ps ss))) ++ l0)).
  { destruct ss as [|s ss]; cbn [map concat rest app] in *.
    - exists c, []. split; [|done]. intros [|k] Hk; [lia|]. by eapply end_token.
    - apply Forall_inv in IH as IHs. apply Forall_inv in Hs as Hs1. rewrite <- !app_assoc, enc_body, <- app_assoc in Hq.
      destruct (IHs (length (enc s)) (c + 4) (concat (map enc ss) ++ be32 FDT_END_NODE ++ l0)) as (q & E & Hr); [|done|done|].
      { by apply at_app in Hq as [_ Hq]. }
      exists q, (chain s ++ []). split; [|split; [by rewrite app_nil_r|]].
      + intros [|k] Hk; [lia|]. rewrite length_app in Hk. cbn [node_loop]. rewrite (token_at m c FDT_BEGIN_NODE _ Hq) by done.
        change (FDT_BEGIN_NODE =? FDT_END_NODE) with false. rewrite Z.eqb_refl. cbn iota.
        assert (E' : parse_name fuel m (node_loop fuel m k h) (c + 4) = Ok (q, chain s)).
        { unfold parse_name in *. apply bind_Ok_inv in E as (x & -> & E). apply bind_Ok_inv in E as (y & -> & E).
          apply bind_Ok_inv in E as ([z w] & E1 & E). cbn [mbind res_bind]. rewrite (node_loop_mono _ _ _ (length (enc s)) k _ _ ltac:(lia) E1). done. }
        rewrite E'. cbn [mbind res_bind]. destruct (rest_head s) as [r Er]. rewrite Er in Hr. cbn [map concat enc_top] in Hr.
        rewrite <- app_assoc in Hr. destruct k as [|k]; [rewrite enc_body, length_app in Hk; cbn in Hk; lia|].
        by rewrite (end_token k q _ Hr).
      + rewrite !map_app, !concat_app, concat_map_Some. cbn [map concat enc_top]. rewrite app_nil_r, <- !app_assoc. done. }
  destruct Hloop as (q & l & El & -> & Hr). exists q. split; [|done].
  destruct n as [|n]; [cbn in Hn; lia|]. cbn [enc] in Hn. rewrite !length_app in Hn. cbn [be32 length] in Hn. pose proof (props_count ps).
  assert (E : node_loop fuel m (S n) h (a + align_int (Z.of_nat (length nm))) = Ok (q, concat (map report_prop ps) ++ match ss with [] => [] | s :: _ => chain s end)).
  { eapply skip_name; [exact Ha|]. fold b. replace n with (length ps + (n - length ps))%nat by lia.
    eapply all_props; [exact Hb|done|]. fold c. apply El. lia. }
  rewrite E. done.
Qed.
(** The outer loop, on what is left of a tree. *)
Lemma tree_loop_ok n : forall l a l0, at_ m a (concat (map enc_top l) ++ be32 FDT_END ++ l0) -> Forall top_ok l ->
  (length (concat (map enc_top l)) < n)%nat -> (length (concat (map enc_top l)) <= fuel)%nat ->
  tree_loop fuel m n h a = Ok (concat (map report_top l)).
Proof.
  induction n as [|n IH]; intros l a l0 Ha Hok Hn Hf; [lia|]. cbn [tree_loop]. destruct l as [|[t|] l]; cbn [map concat enc_top report_top app] in *.
  - rewrite (token_at m a FDT_END l0 Ha) by done. by rewrite Z.eqb_refl.
  - apply Forall_cons in Hok as [Ht Hl]. pose proof (rest_shorter t) as Hr. rewrite length_app in Hn, Hf. rewrite <- app_assoc in Ha.
    destruct (parse_name_ok t fuel (a + 4) (concat (map enc_top l) ++ be32 FDT_END ++ l0)) as (q & E & Hq); [|done|lia|].
    { rewrite enc_body, <- app_assoc in Ha. by apply at_app in Ha as [_ Ha]. }
    rewrite enc_body, <- app_assoc in Ha. rewrite (token_at m a FDT_BEGIN_NODE _ Ha) by done.
    change (FDT_BEGIN_NODE =? FDT_END) with false. rewrite Z.eqb_refl. cbn iota. unfold parse_node. rewrite E. cbn [mbind res_bind].
    rewrite (IH (rest t ++ l) q l0).
    + cbn [mbind res_bind]. rewrite map_app, concat_app, report_split. by rewrite app_assoc.
    + by rewrite map_app, concat_app, <- app_assoc.
    + apply Forall_app. split; [by apply rest_ok|done].
    + rewrite map_app, concat_app, length_app. lia.
    + rewrite map_app, concat_app, length_app. lia.
  - apply Forall_cons in Hok as [_ Hl]. rewrite <- app_assoc in Ha. rewrite (token_at m a FDT_END_NODE _ Ha) by done.
    change (FDT_END_NODE =? FDT_END) with false. change (FDT_END_NODE =? FDT_BEGIN_NODE) with false. cbn [mbind res_bind].
    apply at_app in Ha as [_ Ha]. rewrite (IH l (a + 4) l0 Ha Hl) by (rewrite length_app in Hn, Hf; cbn [be32 length] in Hn, Hf; lia). done.
Qed.
End walk.

(** ** The header *)

Lemma swap_words_other n a m x : x < a \/ a + 4 * Z.of_nat n <= x -> swap_words n a m x = m x.
Proof.
  revert a m. induction n as [|n IH]; intros a m Hx; cbn [swap_words]; [done|].
  rewrite IH by lia. apply store32_other. lia.
Qed.

Lemma swap_range v : 0 <= swap_endianness_32 v < 2 ^ 32.
Proof.
  unfold swap_endianness_32. change (2 ^ 8) with 256. change (2 ^ 16) with 65536. change (2 ^ 24) with 16777216. change (2 ^ 32) with 4294967296.
  pose proof (Z.mod_pos_bound v 256 ltac:(done)). pose proof (Z.mod_pos_bound (v / 256) 256 ltac:(done)).
  pose proof (Z.mod_pos_bound (v / 65536) 256 ltac:(done)). pose proof (Z.mod_pos_bound (v / 16777216) 256 ltac:(done)). lia.
Qed.

Lemma swap_words_load n a m i : (i < n)%nat ->
  load32 (a + 4 * Z.of_nat i) (swap_words n a m) = token m (a + 4 * Z.of_nat i).
Proof.
  revert a m i. induction n as [|n IH]; intros a m i Hi; [lia|]. cbn [swap_words]. destruct i as [|i].
  - rewrite Z.mul_0_r, Z.add_0_r. rewrite (load32_same a (store32 a (swap_endianness_32 (load32 a m)) m)).
    + apply load_store32, swap_range.
    + intros x Hx. apply swap_words_other. lia.
  - replace (a + 4 * Z.of_nat (S i)) with (a + 4 + 4 * Z.of_nat i) by lia. rewrite IH by lia. unfold token. f_equal.
    apply load32_same. intros x Hx. apply store32_other. lia.
Qed.

Lemma node_ok_ext fuel m m' h t : (forall x, header h + off_dt_strings h <= x -> m' x = m x) -> node_ok fuel m h t -> node_ok fuel m' h t.
Proof.
  intros E. induction t as [nm ps ss IH] using node_ind'. intros H. inversion H as [? ? ? Hz Hf Hl Hp Hs]; subst.
  constructor; try done.
  - eapply Forall_impl; [exact Hp|]. intros [|o s d]; [done|]. cbn. intros (Ho & Hd & Hn & Hc). split_and!; try done; try tauto.
    eapply cstr_ext; [|exact Hc]. intros x Hx. apply E. lia.
  - clear H. induction Hs; inversion IH; subst; constructor; auto.
Qed.

(** ** Blobs *)

(** Well-formed trees over a string table. *)
Definition prop_wf (strs : list Z) (p : pitem) : Prop :=
  match p with
  | Nop => True
  | Property o nm d => 0 <= o < 2 ^ 32 /\ Forall (fun c => c <> 0) nm /\ exists l, drop (Z.to_nat o) strs = nm ++ 0 :: l
  end.
Inductive node_wf (strs : list Z) : node -> Prop :=
| Node_wf nm ps ss : Forall (fun c => c <> 0) nm -> Forall (prop_wf strs) ps -> Forall (node_wf strs) ss -> node_wf strs (Node nm ps ss).

(** A flattened device tree: ten words, the structure and the strings. *)
Definition struct_block (t : node) : list Z := enc t ++ be32 FDT_END.
Definition header_words (t : node) (strs : list Z) : list Z :=
  let s := Z.of_nat (length (struct_block t)) in
  let n := Z.of_nat (length strs) in
  [0xd00dfeed; 40 + s + n; 40; 40 + s; 40; 17; 16; 0; n; s].
Definition blob (t : node) (strs : list Z) : list Z := concat (map be32 (header_words t strs)) ++ struct_block t ++ strs.

Lemma tokens_at m a ws l0 i v : at_ m a (concat (map be32 ws) ++ l0) -> Forall (fun v => 0 <= v < 2 ^ 32) ws -> ws !! i = Some v ->
  token m (a + 4 * Z.of_nat i) = v.
Proof.
  revert a i. induction ws as [|w ws IH]; intros a i Ha Hw Hi; [done|]. apply Forall_cons in Hw as [Hw Hws]. cbn [map concat] in Ha.
  rewrite <- app_assoc in Ha. destruct i as [|i].
  - injection Hi as <-. rewrite Z.mul_0_r, Z.add_0_r. by eapply token_at.
  - apply at_app in Ha as [_ Ha]. change (Z.of_nat (length (be32 w))) with 4 in Ha.
    replace (a + 4 * Z.of_nat (S i)) with (a + 4 + 4 * Z.of_nat i) by lia. by apply IH.
Qed.

Lemma in_concat_length {A} (f : A -> list Z) x l : x ∈ l -> (length (f x) <= length (concat (map f l)))%nat.
Proof. induction 1; cbn [map concat]; rewrite length_app; lia. Qed.

Lemma pad4_at_least l : (length l <= length (pad4 l))%nat.
Proof. unfold pad4. rewrite length_app. lia. Qed.

Lemma wf_ok strs fuel m h t N : node_wf strs t -> at_ m (header h + off_dt_strings h) strs ->
  (length (enc t) <= N)%nat -> (length strs <= N)%nat -> (N < fuel)%nat -> Z.of_nat N < 2 ^ 30 -> node_ok fuel m h t.
Proof.
  intros Hw Hs HN HsN HF H30. revert Hw HN. induction t as [nm ps ss IH] using node_ind'. intros Hw HN.
  inversion Hw as [? ? ? Hz Hp Hss]; subst. cbn [enc] in HN. rewrite !length_app in HN.
  pose proof (pad4_at_least (nm ++ [0])) as Hpad. rewrite length_app in Hpad. constructor; [done|lia|lia| |].
  - apply Forall_forall. intros p Hin. pose proof (in_concat_length enc_prop p ps Hin) as Hl.
    rewrite Forall_forall in Hp. specialize (Hp p Hin). destruct p as [|o s d]; [done|]. destruct Hp as (Ho & Hnz & l & El).
    cbn [enc_prop] in Hl. rewrite !length_app in Hl. pose proof (pad4_at_least d).
    assert (Hle : (Z.to_nat o <= length strs)%nat).
    { destruct (Nat.leb_spec (Z.to_nat o) (length strs)) as [|Hgt]; [done|]. rewrite drop_ge in El by lia. by destruct s. }
    assert (Hlen : (length s < length strs)%nat).
    { apply (f_equal length) in El. rewrite length_drop, length_app in El. cbn in El. lia. }
    split; [done|]. split; [lia|]. split; [lia|].
    assert (E2 : strs = take (Z.to_nat o) strs ++ s ++ 0 :: l) by (by rewrite <- El, take_drop).
    rewrite E2 in Hs. apply at_app in Hs as [_ Hs]. rewrite length_take_le, Z2Nat.id in Hs by lia. by eapply at_cstr.
  - apply Forall_forall. intros s Hin. rewrite Forall_forall in IH, Hss. apply IH; [done|by apply Hss|].
    pose proof (in_concat_length enc s ss Hin). lia.
Qed.


(** A tree of four nodes; the strings are ["model"] and ["reg"]. *)
Definition demo_strings : list Z := [109; 111; 100; 101; 108; 0; 114; 101; 103; 0].
Definition demo_tree : node :=
  Node [] [Property 0 [109; 111; 100; 101; 108] [114; 112; 105; 52; 0]; Nop]
    [Node [99; 112; 117; 115] [] [Node [99; 112; 117] [Property 6 [114; 101; 103] [0; 0; 0; 1]] []];
     Node [109; 101; 109] [Property 6 [114; 101; 103] []] []].
Definition demo_blob : mem := fun x => nth (Z.to_nat (x - 4096)) (blob demo_tree demo_strings) 0.

