(* ===== verification/Shell.v ===== *)
(** * The shell and the other user programs ([user/jsh], [user/ls], [user/pwd])

    The command line of [jsh] reads one key at a time into a buffer; a line ends
    in a [fork] whose child executes the program named by it.  A program is its
    sequence of system calls; the keys and the results of the calls are
    arguments.  [usrtmp/user.c], the demonstration program inside the kernel, is
    an older copy. *)
From S2P Require Import Prelude Mem KString Printf.

(** A system call with its arguments, strings as their characters. *)
Inductive call :=
| SYS_OPEN (path : list Z) | SYS_READ (fd count : Z) | SYS_WRITE (fd : Z) (s : list Z) | SYS_FORK | SYS_WAITID (pid : Z)
| SYS_NANOSLEEP (ns : Z) | SYS_EXECVE (path : list Z) | SYS_EXIT_GROUP
| SYS_BRK (addr : Z) | SYS_MMAP (addr len prot flags fd off : Z) | SYS_IOCTL (fd request arg : Z).

Definition char_array (s : list Z) : list Z := s ++ replicate (1024 - length s) 0.
(** [static char path[1024] = "/bin/";] *)
Definition bin : list Z := [47; 98; 105; 110; 47].
Definition path : list Z := char_array bin.

(** Stores into an array of 1024 characters. *)
Definition put (i c : Z) (a : list Z) : res (list Z) :=
  if (0 <=? i) && (i <? 1024) then Ok (<[Z.to_nat i := c]> a) else UB.

(** The string in an array, which must end inside it. *)
Definition string_of (a : list Z) : res (list Z) := if decide (0 ∈ a) then Ok (c_string a) else UB.

(** [while( *copy) *destcopy++ = *copy++;] *)
Fixpoint copy_path (cmd : list Z) (i : Z) (a : list Z) : res (list Z) :=
  match cmd with
  | [] => Ok a
  | c :: cmd => a ← put i c a; copy_path cmd (i + 1) a
  end.

(** [process_command] in the parent, where [fork] returned [pid], and in the
    child, where it returned 0; [execve] only returns when it failed. *)
Definition process_command (cmd : list Z) (pid : Z) : res (list call) :=
  if negb (pid =? 0) then Ok [SYS_FORK; SYS_WAITID pid]
  else
    a ← copy_path cmd 5 path;
    p ← string_of a;
    Ok [SYS_FORK; SYS_NANOSLEEP 1000000000; SYS_EXECVE p; SYS_EXIT_GROUP].

(** [commandline]: the buffer and the index of [cmdptr]. *)
Record editor := Editor { buf : list Z; cmdptr : Z }.

(** One round of the loop: [read] puts the key behind the line.  A finished
    line is returned. *)
Definition key (c : Z) (s : editor) : res (option (list Z) * editor) :=
  b ← put (cmdptr s) c (buf s);
  if (c =? 13) || (c =? 10) then
    b ← put (cmdptr s) 0 b;
    cmd ← string_of b;
    Ok (Some cmd, Editor b 0)
  else if c =? 127 then Ok (None, Editor b (Z.max (cmdptr s - 1) 0))
  else b ← put (cmdptr s) c b; Ok (None, Editor b (cmdptr s + 1)).

(** The commands that a sequence of keys starts, by the calls of their children. *)
Fixpoint commandline (keys : list Z) (s : editor) : res (list (list call)) :=
  match keys with
  | [] => Ok []
  | c :: keys =>
      '(cmd, s) ← key c s;
      match cmd with
      | Some cmd => calls ← process_command cmd 0; l ← commandline keys s; Ok (calls :: l)
      | None => commandline keys s
      end
  end.

(** [main] up to the command line: the calls, and what it writes to the memory
    it got. *)
Fixpoint puts (s : list Z) (a : Z) (m : mem) : mem :=
  match s with
  | [] => m
  | c :: s => puts s (a + 1) (store8 a c m)
  end.
Definition main_calls (brk : Z) : list call :=
  [SYS_BRK 0; SYS_BRK (u64 (brk + 0x1000)); SYS_MMAP 0x5000000 0x1000 3 0 0 0].
Definition main_writes (brk ret_addr : Z) (m : mem) : mem :=
  puts [71; 111; 111; 100; 98; 121; 101; 33; 0] ret_addr (puts [72; 101; 108; 108; 111; 33; 0] (u64 (brk - 0x1000)) m).

(** [ls] and [pwd]: the count of the write is whatever the register held. *)
Definition ls_main : list call :=
  [SYS_WRITE 0 [102; 97; 107; 101; 100; 105; 114; 49; 10; 102; 97; 107; 101; 100; 105; 114; 50; 10; 102; 97; 107; 101; 100; 105; 114; 51; 10];
   SYS_EXIT_GROUP].
Definition pwd_main : list call :=
  [SYS_WRITE 0 [69; 120; 101; 99; 117; 116; 105; 110; 103; 32; 39; 112; 119; 100; 39; 46; 46; 46; 10]; SYS_EXIT_GROUP].

(** ** The lines of a sequence of keys *)

(** The line so far, last key first; a command ends at a NUL. *)
Fixpoint lines (keys line : list Z) : list (list Z) :=
  match keys with
  | [] => []
  | c :: keys =>
      if (c =? 13) || (c =? 10) then c_string (rev line) :: lines keys []
      else if c =? 127 then lines keys (tail line)
      else lines keys (c :: line)
  end.

(** Every line, also while it is typed, has at most [n] characters. *)
Fixpoint fits (n : nat) (keys line : list Z) : bool :=
  (length line <=? n)%nat &&
  match keys with
  | [] => true
  | c :: keys =>
      if (c =? 13) || (c =? 10) then fits n keys []
      else if c =? 127 then fits n keys (tail line)
      else fits n keys (c :: line)
  end.

Lemma put_ok i c a : 0 <= i < 1024 -> put i c a = Ok (<[Z.to_nat i := c]> a).
Proof. intros Hi. unfold put. by rewrite (proj2 (Z.leb_le _ _)), (proj2 (Z.ltb_lt _ _)) by lia. Qed.

Lemma insert_behind (l r : list Z) c : (length l < length r)%nat ->
  <[length l := c]> (l ++ drop (length l) r) = (l ++ [c]) ++ drop (length (l ++ [c])) r.
Proof.
  intros Hl. rewrite insert_app_r_alt by lia. rewrite Nat.sub_diag, length_app. destruct (drop (length l) r) as [|x r'] eqn:E.
  - apply (f_equal length) in E. rewrite length_drop in E. cbn in E. lia.
  - cbn. rewrite <- app_assoc. cbn. do 2 f_equal. rewrite <- drop_drop, E. done.
Qed.

Lemma c_string_app l r : 0 ∈ l -> c_string (l ++ r) = c_string l.
Proof.
  induction l as [|c l IH]; intros H; cbn; [by apply elem_of_nil in H|]. destruct (Z.eqb_spec c 0); [done|].
  apply elem_of_cons in H as [H|H]; [congruence|]. by rewrite IH.
Qed.

Lemma c_string_nul l r : c_string (l ++ 0 :: r) = c_string l.
Proof. induction l as [|c l IH]; cbn; [done|]. by destruct (c =? 0); [|rewrite IH]. Qed.

Lemma c_string_nonzero l : Forall (fun c => c <> 0) (c_string l).
Proof. induction l as [|c l IH]; cbn; [done|]. destruct (Z.eqb_spec c 0); [done|by constructor]. Qed.
Lemma c_string_id l : Forall (fun c => c <> 0) l -> c_string l = l.
Proof. induction 1 as [|c l Hc _ IH]; cbn; [done|]. by rewrite (proj2 (Z.eqb_neq _ _) Hc), IH. Qed.
Lemma c_string_length l : (length (c_string l) <= length l)%nat.
Proof. induction l as [|c l IH]; cbn; [done|]. destruct (c =? 0); cbn; lia. Qed.

(** ** The editor holds the line *)

Record holds (s : editor) (line : list Z) : Prop := {
  ho_len : length (buf s) = 1024%nat;
  ho_ptr : cmdptr s = Z.of_nat (length line);
  ho_buf : take (length line) (buf s) = rev line;
}.

Lemma holds_put s line c : holds s line -> (length line < 1024)%nat ->
  exists b, put (cmdptr s) c (buf s) = Ok b /\ length b = 1024%nat /\ take (S (length line)) b = rev (c :: line).
Proof.
  intros [Hl Hp Hb] Hn. rewrite Hp, put_ok by lia. eexists. split; [done|]. rewrite length_insert. split; [done|].
  rewrite Nat2Z.id. rewrite (take_S_r _ _ c) by (apply list_lookup_insert_eq; lia). rewrite take_insert_ge by lia. by rewrite Hb.
Qed.

Lemma take_prefix {A} n k (l l' : list A) : (k <= n)%nat -> take n l = l' -> take k l = take k l'.
Proof. intros Hk <-. rewrite take_take. by rewrite Nat.min_l by lia. Qed.

Lemma take_rev_cons (line : list Z) c : take (length line) (rev (c :: line)) = rev line.
Proof. cbn [rev]. rewrite take_app_le by (rewrite length_rev; lia). by rewrite firstn_all2 by (rewrite length_rev; lia). Qed.

(** The key was stored, and then the buffer holds the line as before. *)
Lemma holds_again s line c b : holds s line -> length b = 1024%nat -> take (S (length line)) b = rev (c :: line) ->
  holds (Editor b (cmdptr s)) line.
Proof.
  intros Hs Hl Hb. split; cbn [buf cmdptr]; [done|apply Hs|]. apply (take_prefix _ (length line)) in Hb; [|lia].
  by rewrite Hb, take_rev_cons.
Qed.

Lemma holds_step s line c : holds s line -> (length line < 1023)%nat -> c <> 13 -> c <> 10 ->
  exists s', key c s = Ok (None, s') /\ holds s' (if c =? 127 then tail line else c :: line).
Proof.
  intros Hs Hn H13 H10. destruct (holds_put s line c Hs) as (b & E & Hl & Hb); [lia|]. unfold key. rewrite E. cbn [mbind res_bind].
  rewrite !(proj2 (Z.eqb_neq c _)) by done. cbn [orb]. pose proof (ho_ptr _ _ Hs) as Hp. destruct (Z.eqb_spec c 127) as [->|H127].
  - eexists. split; [done|]. destruct (holds_again _ _ _ _ Hs Hl Hb) as [_ _ Hb']. cbn [buf] in Hb'.
    destruct line as [|x line]; split; cbn [buf cmdptr tail length] in *; try done; try lia.
    apply (take_prefix _ (length line)) in Hb'; [|lia]. by rewrite Hb', take_rev_cons.
  - destruct (holds_put _ line c (holds_again _ _ _ _ Hs Hl Hb)) as (b' & E' & Hl' & Hb'); [lia|]. cbn [buf cmdptr] in E'.
    rewrite E'. cbn [mbind res_bind]. eexists. split; [done|]. split; cbn [buf cmdptr length]; [done|lia|done].
Qed.

Lemma holds_line s line c : holds s line -> (length line < 1024)%nat -> c = 13 \/ c = 10 ->
  exists s', key c s = Ok (Some (c_string (rev line)), s') /\ holds s' [].
Proof.
  intros Hs Hn Hc. destruct (holds_put s line c Hs Hn) as (b & E & Hl & Hb). unfold key. rewrite E. cbn [mbind res_bind].
  assert ((c =? 13) || (c =? 10) = true) as -> by (destruct Hc as [-> | ->]; done).
  destruct (holds_put _ line 0 (holds_again _ _ _ _ Hs Hl Hb)) as (b' & E' & Hl' & Hb'); [done|].
  cbn [buf cmdptr] in E'. rewrite E'. cbn [mbind res_bind]. cbn [rev] in Hb'.
  assert (Es : string_of b' = Ok (c_string (rev line))).
  { unfold string_of. rewrite <- (take_drop (S (length line)) b'), Hb'. rewrite decide_True by set_solver.
    rewrite <- app_assoc. cbn [app]. by rewrite c_string_nul. }
  rewrite Es. cbn [mbind res_bind]. eexists. split; [done|]. by split.
Qed.

(** The child's copy of the path. *)
Lemma copy_path_ok cmd l : (length l + length cmd <= 1024)%nat ->
  copy_path cmd (Z.of_nat (length l)) (char_array l) = Ok (char_array (l ++ cmd)).
Proof.
  revert l. induction cmd as [|c cmd IH]; intros l Hl; cbn [copy_path length] in *; [by rewrite app_nil_r|].
  rewrite put_ok by lia. cbn [mbind res_bind]. rewrite Nat2Z.id.
  assert (E : <[length l := c]> (char_array l) = char_array (l ++ [c])).
  { unfold char_array. rewrite insert_app_r_alt by lia. rewrite Nat.sub_diag, length_app.
    replace (1024 - length l)%nat with (S (1024 - (length l + 1))) by lia. cbn. by rewrite <- app_assoc. }
  rewrite E. replace (Z.of_nat (length l) + 1) with (Z.of_nat (length (l ++ [c]))) by (rewrite length_app; cbn; lia).
  rewrite IH by (rewrite length_app; cbn; lia). by rewrite <- app_assoc.
Qed.

Lemma path_ok cmd : (length cmd <= 1019)%nat -> copy_path cmd 5 path = Ok (char_array (bin ++ cmd)).
Proof. intros Hl. apply (copy_path_ok cmd bin). cbn. lia. Qed.

Lemma process_command_ok cmd : Forall (fun c => c <> 0) cmd -> (length cmd <= 1018)%nat ->
  process_command cmd 0 = Ok [SYS_FORK; SYS_NANOSLEEP 1000000000; SYS_EXECVE (bin ++ cmd); SYS_EXIT_GROUP].
Proof.
  intros Hc Hl. unfold process_command. cbn [Z.eqb negb]. rewrite path_ok by lia. cbn [mbind res_bind].
  unfold string_of, char_array. rewrite length_app. cbn [length bin].
  replace (1024 - (5 + length cmd))%nat with (S (1018 - length cmd)) by lia. cbn [replicate]. rewrite decide_True by set_solver. cbn [mbind res_bind].
  rewrite c_string_nul, c_string_id; [done|]. apply Forall_app. split; [repeat constructor; done|done].
Qed.

(** What the shell starts for a line. *)
Definition run_line (cmd : list Z) : list call := [SYS_FORK; SYS_NANOSLEEP 1000000000; SYS_EXECVE (bin ++ cmd); SYS_EXIT_GROUP].

Lemma commandline_ok keys : forall s line, holds s line -> fits 1018 keys line = true ->
  commandline keys s = Ok (run_line <$> lines keys line).
Proof.
  induction keys as [|c keys IH]; intros s line Hs Hf; cbn [commandline lines fits] in *; [done|].
  apply andb_true_iff in Hf as [Hl Hf]. apply Nat.leb_le in Hl. destruct ((c =? 13) || (c =? 10)) eqn:Ec.
  - destruct (holds_line s line c Hs) as (s' & -> & Hs'); [lia|apply orb_true_iff in Ec; rewrite !Z.eqb_eq in Ec; tauto|].
    cbn [mbind res_bind]. rewrite process_command_ok.
    + cbn [mbind res_bind]. rewrite (IH s' [] Hs' Hf). done.
    + apply c_string_nonzero.
    + etransitivity; [apply c_string_length|]. by rewrite length_rev.
  - apply orb_false_iff in Ec as [E13 E10]. apply Z.eqb_neq in E13, E10.
    destruct (holds_step s line c Hs) as (s' & -> & Hs'); [lia|done|done|]. cbn [mbind res_bind].
    destruct (c =? 127); by apply IH.
Qed.



(** The buffers are not bounded: a line of 1024 characters is written past the
    end, and one of 1019 fills [path] without a NUL. *)
Lemma long_line_overruns s line c : holds s line -> length line = 1024%nat -> key c s = UB.
Proof. intros [_ Hp _] Hl. unfold key. rewrite Hp, Hl. done. Qed.

Lemma long_path_unterminated cmd : Forall (fun c => c <> 0) cmd -> length cmd = 1019%nat -> process_command cmd 0 = UB.
Proof.
  intros Hc Hl. unfold process_command. cbn [Z.eqb negb]. rewrite path_ok by lia. cbn [mbind res_bind].
  unfold string_of, char_array. rewrite length_app, Hl. cbn [length bin Nat.add Nat.sub replicate]. rewrite app_nil_r.
  rewrite decide_False; [done|]. intros H. apply elem_of_app in H as [H|H].
  - revert H. unfold bin. set_solver.
  - rewrite Forall_forall in Hc. by apply (Hc 0 H).
Qed.
