(* ===== verification/Usrtmp.v ===== *)
(** * The test section inside the kernel ([usrtmp/printf.c], [usrtmp/user.c])

    Its [printf] is the user library's without floating point, the third copy of
    the decoder of [Printf]; its program is an older copy of the shell ([Shell]). *)
From S2P Require Import Prelude Printf Shell.

(** ** [usrtmp/printf.c] *)

Module Copy.
(** The common decoder, with the print buffer as its sink and colours ignored. *)
Definition atoi_until_semicolon : list Z -> res (Z * list Z) := Printf.atoi_until_semicolon.
Definition buf_putc : Z -> printbuf -> res printbuf := Printf.buf_putc.
Definition ansi_normal : Z -> printbuf -> res (ANSI_STATE * printbuf) := Printf.ansi_normal buf_putc.
Definition ansi_escape : Z -> ansi_state -> ANSI_STATE * ansi_state := Printf.ansi_escape.
Definition ansi_parsing : Z -> ansi_state -> ANSI_STATE * ansi_state := Printf.ansi_parsing.

(** The numbers are read and dropped. *)
Definition ansi_end_escape (a : ansi_state) (t : printbuf) : res (ANSI_STATE * printbuf) :=
  _ ← ansi_params 5 (params a);
  Ok (ANSI_NORMAL, t).

Definition ansi_decoder (c : Z) (at_ : ansi_state * printbuf) : res (ansi_state * printbuf) :=
  let '(a, t) := at_ in
  match state a with
  | ANSI_ESCAPE => let '(x, a) := ansi_escape c a in Ok (with_state x a, t)
  | ANSI_PARSING => let '(x, a) := ansi_parsing c a in Ok (with_state x a, t)
  | ANSI_END_PARSING =>
      '(x, t) ← ansi_end_escape a t;
      '(x, t) ← ansi_normal c t; Ok (with_state x a, t)
  | ANSI_NORMAL => '(x, t) ← ansi_normal c t; Ok (with_state x a, t)
  end.

Definition _nibble_to_char : Z -> Z := Printf._nibble_to_char.

(** [emit_string], and the loops that send a buffer of digits. *)
Fixpoint emit_string (s : list Z) (x : ansi_state * printbuf) : res (ansi_state * printbuf) :=
  match s with
  | [] => Ok x
  | c :: s => x ← ansi_decoder c x; emit_string s x
  end.

Definition parse_and_emit_int (num : Z) (x : ansi_state * printbuf) : res (ansi_state * printbuf) :=
  if num =? 0 then ansi_decoder 48 x
  else
    x ← (if num <? 0 then ansi_decoder 45 x else Ok x);
    num ← (if num <? 0 then int_ok (- num) else Ok num);
    buf ← dec_digits 12 num [];
    buf ← in_buf 20 buf;
    emit_string (rev buf) x.

Definition parse_and_emit_hex (num : Z) (x : ansi_state * printbuf) : res (ansi_state * printbuf) :=
  buf ← hex_digits 16 num [];
  buf ← in_buf 16 buf;
  emit_string (rev buf) x.

Definition expand (s : list Z) (l : list va) (x : ansi_state * printbuf) : res (nat * list va * (ansi_state * printbuf)) :=
  let c := default 0 (list.head s) in
  if (c =? 100) || (c =? 108) then '(z, l) ← va_slot l; x ← parse_and_emit_int (s32 z) x; Ok (1%nat, l, x)
  else if c =? 115 then '(s, l) ← va_str l; x ← emit_string s x; Ok (1%nat, l, x)
  else if c =? 99 then '(z, l) ← va_slot l; x ← ansi_decoder (u8 z) x; Ok (1%nat, l, x)
  else if c =? 120 then '(z, l) ← va_slot l; x ← parse_and_emit_hex z x; Ok (1%nat, l, x)
  else if c =? 37 then x ← ansi_decoder c x; Ok (1%nat, l, x)
  else Ok (1%nat, l, x).

Fixpoint format_loop (fuel : nat) (ptr : list Z) (l : list va) (x : ansi_state * printbuf) : res (ansi_state * printbuf) :=
  match fuel with
  | O => Fuel
  | S fuel =>
      match ptr with
      | [] => Ok x
      | c :: ptr =>
          if c =? 37 then
            '(n, l, x) ← expand ptr l x;
            if (n <=? length ptr)%nat then format_loop fuel (drop n ptr) l x else UB
          else x ← ansi_decoder c x; format_loop fuel ptr l x
      end
  end.
Definition printf (format_str : list Z) (l : list va) (x : ansi_state * printbuf) : res (ansi_state * printbuf) :=
  format_loop (S (length format_str)) format_str l x.
End Copy.

(** ** The two are one program up to [%f] *)

(** No directive is a [%f]. *)
Fixpoint no_double (p : list Z) : bool :=
  match p with
  | [] => true
  | c :: p =>
      if c =? 37 then match p with d :: p => negb (d =? 102) && no_double p | [] => true end
      else no_double p
  end.

Lemma decoder_copy c x : Copy.ansi_decoder c x = ansi_decoder buf_putc user_colors c x.
Proof.
  destruct x as [a t]. unfold Copy.ansi_decoder, ansi_decoder. destruct (state a); try done.
  unfold Copy.ansi_end_escape, ansi_end_escape. destruct (ansi_params 5 (params a)); cbn [mbind res_bind]; try done.
  by destruct (cmd a =? 109).
Qed.

Lemma emit_copy s x : Copy.emit_string s x = emit_string buf_putc user_colors s x.
Proof.
  revert x. induction s as [|c s IH]; intros x; [done|]. cbn [Copy.emit_string emit_string]. rewrite decoder_copy.
  destruct (ansi_decoder buf_putc user_colors c x); cbn [mbind res_bind]; [apply IH|done..].
Qed.

Lemma bind_same {A B} (r : res A) (f g : A -> res B) : (forall a, f a = g a) -> (r ≫= f) = (r ≫= g).
Proof. intros E. destruct r; cbn; auto. Qed.

Lemma int_copy z x : Copy.parse_and_emit_int z x = parse_and_emit_int buf_putc user_colors z x.
Proof.
  unfold Copy.parse_and_emit_int, parse_and_emit_int. rewrite !decoder_copy. destruct (z =? 0); [done|].
  do 4 (apply bind_same; intros ?). apply emit_copy.
Qed.

Lemma hex_copy z x : Copy.parse_and_emit_hex z x = parse_and_emit_hex buf_putc user_colors z x.
Proof. do 2 (apply bind_same; intros ?). apply emit_copy. Qed.

Lemma bind_assoc {A B C} (r : res A) (f : A -> res B) (g : B -> res C) : ((r ≫= f) ≫= g) = (r ≫= fun a => f a ≫= g).
Proof. by destruct r. Qed.

Lemma expand_copy s l x : list.head s <> Some 102 -> Copy.expand s l x = user_expand s l x.
Proof.
  intros Hs. unfold Copy.expand, user_expand, expand_common.
  assert (Hc : (default 0 (list.head s) =? 102) = false).
  { apply Z.eqb_neq. destruct s as [|c s]; cbn in *; [lia|congruence]. }
  rewrite Hc. set (c := default 0 (list.head s)). rewrite decoder_copy.
  repeat match goal with |- context [if ?b then _ else _] => destruct b end; try done;
    rewrite ?bind_assoc; apply bind_same; intros; rewrite ?bind_assoc; try done;
    match goal with p : (_ * _)%type |- _ => destruct p end; rewrite ?bind_assoc, ?int_copy, ?hex_copy, ?emit_copy, ?decoder_copy; done.
Qed.

(** The embedded [printf] prints what the library's does, for every format
    without [%f]. *)
Lemma copy_equivalent_loop fuel : forall p l x, no_double p = true ->
  Copy.format_loop fuel p l x = format_loop buf_putc user_colors user_expand fuel p l x.
Proof.
  induction fuel as [|fuel IH]; intros p l x Hp; [done|]. cbn [Copy.format_loop format_loop]. destruct p as [|c p]; [done|].
  cbn [no_double] in Hp. rewrite decoder_copy. destruct (c =? 37).
  - rewrite expand_copy by (destruct p as [|d p]; [done|]; apply andb_true_iff in Hp as [Hd _]; intros [= ->]; done).
    destruct (user_expand p l x) as [[[n l'] x']| | |] eqn:E; cbn [mbind res_bind]; try done.
    assert (n = 1%nat) as ->.
    { revert E. unfold user_expand. destruct (default 0 (list.head p) =? 102); intros E; repeat (apply bind_Ok_inv in E as ([? ?] & _ & E)); congruence. }
    destruct p as [|d p]; [done|]. cbn [length Nat.leb drop]. apply andb_true_iff in Hp as [_ Hp]. by apply IH.
  - destruct (ansi_decoder buf_putc user_colors c x); cbn [mbind res_bind]; try done. by apply IH.
Qed.

Lemma copy_equivalent format_str l x : no_double format_str = true -> Copy.printf format_str l x = printf format_str l x.
Proof. apply copy_equivalent_loop. Qed.

(** ** [usrtmp/user.c] *)

Module Demo.
(** Here [path] is constant, and so the child must not write to it. *)
Definition process_command (cmd : list Z) (pid : Z) : res (list call) :=
  if negb (pid =? 0) then Ok [SYS_FORK; SYS_WAITID pid]
  else
    match cmd with
    | _ :: _ => UB
    | [] => Ok [SYS_FORK; SYS_NANOSLEEP 1000000000; SYS_EXECVE bin; SYS_EXIT_GROUP]
    end.

Fixpoint commandline (keys : list Z) (s : editor) : res (list (list call)) :=
  match keys with
  | [] => Ok []
  | c :: keys =>
      '(cmd, s) ← key c s;
      match cmd with
      | Some cmd => calls ← process_command cmd 0; l ← commandline keys s; Ok (calls :: l)
      | None => commandline keys s
      end
  end.

(** [i2c_test]: an angle of 135, as the bytes of an [int]; [fd] is what the open
    returned. *)
Definition i2c_test (fd : Z) : list call :=
  SYS_OPEN [47; 100; 101; 118; 47; 105; 50; 99] ::
  (if fd <? 0 then [] else [SYS_IOCTL fd 0x0703 0x08; SYS_WRITE fd [135; 0; 0; 0]]).
End Demo.

(** The first command kills its child before it is executed. *)
Lemma demo_never_executes c cmd : Demo.process_command (c :: cmd) 0 = UB.
Proof. done. Qed.
