(* ===== verification/Memprofiler.v ===== *)
(** * The memory profiler ([memory/memprofiler.c])

    It walks the page-frame array from block to block, and the page tables of a
    process.  What it prints is the result; nothing is changed. *)
From S2P Require Import Prelude KList Buddy BuddyInv BuddyOps BuddySpec Mmap Proc.

(** ** Free pages *)

(** [get_percent_free]: the loop steps by blocks, from each head to the next;
    [end] is the end of the array. *)
Fixpoint count_loop (fuel : nat) (curr blocks_free total_blocks : Z) (st : buddy) : res (Z * Z) :=
  if curr =? NPAGES then Ok (blocks_free, total_blocks)
  else match fuel with
  | O => Fuel
  | S fuel =>
      f ← get_frame curr st;
      let n := Z.shiftl 1 (order f) in
      count_loop fuel (curr + n)
        (u64 (blocks_free + if Buddy.state f =? PAGE_FREE then n else 0)) (u64 (total_blocks + n)) st
  end.

(** Both counts, and millionths of a percent. *)
Definition get_percent_free (st : buddy) : res (Z * Z * Z) :=
  '(blocks_free, total_blocks) ← count_loop (Z.to_nat NPAGES) 0 0 0 st;
  if total_blocks =? 0 then UB else Ok (blocks_free, total_blocks, u64 (blocks_free * 100000000) / total_blocks).

(** ** The tables of a process *)

(** A line of the listing: the level, the address, and the frame of the leaf. *)
Record leaf_line := Leaf { l_level : Z; l_addr : Z; l_frame : page_frame_t }.

(** [walk_virtual_memory]; [depth] levels below this one can be tables. *)
Fixpoint walk_virtual_memory (depth : nat) (w : words) (st : buddy) (parent_table level : Z) : res (list leaf_line) :=
  (fix entries (n : nat) (i : Z) : res (list leaf_line) :=
     match n with
     | O => Ok []
     | S n =>
         let e := rd_entry w parent_table i in
         l ← (if valid e =? 0 then Ok []
              else if (level <? 3) && (type e =? 1) then
                match depth with
                | O => Fuel
                | S depth => walk_virtual_memory depth w st (next_table e) (level + 1)
                end
              else f ← get_frame (address e) st; Ok [Leaf level (u64 (Z.shiftl (address e) 12)) f]);
         r ← entries n (i + 1);
         Ok (l ++ r)
     end) 512%nat 0.

Section Profile.
Context {M : Type} `{!ProcMem M}.

(** [list_entry(node, pcb_t, proclist)]. *)
Definition proclist_entry (n : lkey) : res Z := match n with L_proclist p => Ok p | _ => UB end.

(** The process list, followed from a process: the loop compares the process
    with the last list node, whose address is 32 above its process. *)
Definition off_proclist : Z := 32.
Fixpoint pid_loop (fuel : nat) (target proc : Z) (k : kernel M) : res (option Z) :=
  match fuel with
  | O => Fuel
  | S fuel =>
      b ← get_pcb proc k;
      if pid b =? target then Ok (Some proc)
      else
        n ← deref (lnext (node_at (links k) (L_proclist proc)));
        proc ← proclist_entry n;
        last ← deref (lprev (node_at (links k) L_proclist_head));
        last ← proclist_entry last;
        if proc =? last + off_proclist then Ok None else pid_loop fuel target proc k
  end.

Definition profile_pid (fuel : nat) (target : Z) (st : buddy) (k : kernel M) : res (list leaf_line) :=
  n ← deref (lnext (node_at (links k) L_proclist_head));
  proc ← proclist_entry n;
  found ← pid_loop fuel target proc k;
  match found with
  | None => Ok []
  | Some proc => b ← get_pcb proc k; walk_virtual_memory 3 (pm_words (kmem k)) st (ttbr b) 0
  end.

(** [memprofiler_cfg], the field in use. *)
Definition profile (fuel : nat) (cfg_pid : Z) (st : buddy) (k : kernel M) : res (list leaf_line * (Z * Z * Z)) :=
  l ← (if negb (cfg_pid =? 0) then profile_pid fuel cfg_pid st k else Ok []);
  c ← get_percent_free st;
  Ok (l, c).
End Profile.

(** ** The count under the allocator's invariant *)

(** The pages of the free blocks from [p] on. *)
Definition free_from (p : Z) (B : blocks) : Z :=
  map_fold (fun q '(o, u) n => if (p <=? q) && negb u then n + 2 ^ o else n) 0 B.
Definition free_pages (B : blocks) : Z := free_from 0 B.

Lemma free_from_insert p q o u B : B !! q = None ->
  free_from p (<[q := (o, u)]> B) = (if (p <=? q) && negb u then 2 ^ o else 0) + free_from p B.
Proof.
  intros Hq. unfold free_from. rewrite map_fold_insert_L; [case_match; lia| |done].
  intros a b [oa ua] [ob ub] n _ _ _. repeat case_match; lia.
Qed.

Lemma free_from_ext p p' B :
  (forall q o, B !! q = Some (o, false) -> (p <=? q) = (p' <=? q)) -> free_from p B = free_from p' B.
Proof.
  induction B as [|q [o u] B Hq IH] using map_ind; intros E; [done|].
  rewrite !free_from_insert by done. rewrite IH.
  - destruct u; [by rewrite !andb_false_r|]. by rewrite (E q o) by apply lookup_insert_eq.
  - intros q' o' Hq'. apply (E q' o'). rewrite lookup_insert_ne; [done|congruence].
Qed.

(** The head of the walk is counted, the rest is from the next head on. *)
Lemma free_from_step resv B p o (u : bool) : blocks_wf resv B -> B !! p = Some (o, u) ->
  free_from p B = (if (u : bool) then 0 else 2 ^ o) + free_from (p + 2 ^ o) B.
Proof.
  intros Hw Hp. pose proof (insert_delete_id B p (o, u) Hp) as E.
  destruct (bw_bounds _ _ Hw _ _ _ Hp) as (Ho & _). pose proof (pow2_pos o ltac:(lia)).
  rewrite <- E at 1 2. rewrite !free_from_insert by apply lookup_delete_eq.
  rewrite (proj2 (Z.leb_le p p)), (proj2 (Z.leb_gt (p + 2 ^ o) p)) by lia. cbn [andb negb].
  assert (free_from p (delete p B) = free_from (p + 2 ^ o) (delete p B)) as ->; [|by destruct u].
  apply free_from_ext. intros q o' Hq. apply lookup_delete_Some in Hq as [Hne Hq].
  destruct (block_sep _ _ _ _ _ _ _ _ Hw Hp Hq Hne) as [Hs|Hs].
  - by rewrite !(proj2 (Z.leb_le _ _)) by lia.
  - destruct (bw_bounds _ _ Hw _ _ _ Hq) as (Ho' & _). pose proof (pow2_pos o' ltac:(lia)).
    by rewrite !(proj2 (Z.leb_gt _ _)) by lia.
Qed.

Lemma free_from_bound resv B p : blocks_wf resv B -> 0 <= free_from p B.
Proof.
  intros Hw. assert (forall q o u, B !! q = Some (o, u) -> 0 <= o) as Ho by (intros q o u Hq; by apply (bw_bounds _ _ Hw) in Hq as [[??] _]).
  clear Hw. induction B as [|q [o u] B Hq IH] using map_ind; [done|]. rewrite free_from_insert by done.
  pose proof (Ho q o u ltac:(apply lookup_insert_eq)). pose proof (pow2_pos o ltac:(lia)).
  assert (0 <= free_from p B); [|case_match; lia].
  apply IH. intros q' o' u' Hq'. apply (Ho q' o' u'). rewrite lookup_insert_ne; [done|congruence].
Qed.

Lemma free_from_end resv B : blocks_wf resv B -> free_from NPAGES B = 0.
Proof.
  intros Hw. assert (forall q o u, B !! q = Some (o, u) -> q < NPAGES) as Ho.
  { intros q o u Hq. destruct (bw_bounds _ _ Hw _ _ _ Hq) as (? & ? & ?). pose proof (pow2_pos o ltac:(lia)). lia. }
  clear Hw. induction B as [|q [o u] B Hq IH] using map_ind; [done|]. rewrite free_from_insert by done.
  rewrite (proj2 (Z.leb_gt _ _)) by (eapply Ho, lookup_insert_eq). cbn [andb]. rewrite IH; [done|].
  intros q' o' u' Hq'. apply (Ho q' o' u'). rewrite lookup_insert_ne; [done|congruence].
Qed.

Lemma free_from_resv resv B : blocks_wf resv B -> 0 <= resv -> free_from resv B = free_pages B.
Proof.
  intros Hw Hr. apply free_from_ext. intros q o Hq. destruct (bw_bounds _ _ Hw _ _ _ Hq) as (_ & ? & _).
  by rewrite !(proj2 (Z.leb_le _ _)) by lia.
Qed.

(** Behind a block comes the next head, or the end of the array. *)
Lemma next_head resv B p o u : blocks_wf resv B -> B !! p = Some (o, u) ->
  (exists o' u', B !! (p + 2 ^ o) = Some (o', u')) \/ p + 2 ^ o = NPAGES.
Proof.
  intros Hw Hp. destruct (bw_bounds _ _ Hw _ _ _ Hp) as (Ho & ? & ?). pose proof (pow2_pos o ltac:(lia)).
  destruct (decide (p + 2 ^ o = NPAGES)); [by right|left].
  destruct (bw_cover _ _ Hw (p + 2 ^ o) ltac:(lia)) as (q & o' & u' & Hq & Hin).
  destruct (decide (q = p + 2 ^ o)) as [<-|]; [eauto|].
  destruct (Z.lt_trichotomy q p) as [Hlt|[->|Hlt]].
  - pose proof (bw_disj _ _ Hw _ _ _ _ _ _ Hq Hp Hlt). lia.
  - simplify_eq. lia.
  - pose proof (bw_disj _ _ Hw _ _ _ _ _ _ Hp Hq Hlt). lia.
Qed.

Lemma free_from_le resv B : blocks_wf resv B -> forall n p, (exists o u, B !! p = Some (o, u)) \/ p = NPAGES ->
  NPAGES - p <= Z.of_nat n -> free_from p B <= NPAGES - p.
Proof.
  intros Hw. induction n as [|n IH]; intros p [(o & u & Hp)| ->] Hn; try (rewrite (free_from_end _ _ Hw); lia);
    destruct (bw_bounds _ _ Hw _ _ _ Hp) as (Ho & _ & ?); pose proof (pow2_pos o ltac:(lia)); [lia|].
  rewrite (free_from_step _ _ _ _ _ Hw Hp). specialize (IH _ (next_head _ _ _ _ _ Hw Hp) ltac:(lia)). destruct u; lia.
Qed.

(** The region begins with a head. *)
Lemma first_head resv B : blocks_wf resv B -> resv < NPAGES -> exists o u, B !! resv = Some (o, u).
Proof.
  intros Hw Hlt. destruct (bw_cover _ _ Hw resv ltac:(lia)) as (q & o & u & Hq & Hin).
  destruct (bw_bounds _ _ Hw _ _ _ Hq) as (_ & ? & _). assert (q = resv) as -> by lia. eauto.
Qed.

Section Count.
Context (resv : Z) (B : blocks) (st : buddy).
Hypothesis Hinv : buddy_inv resv B st.

(** The walk from the head of a block, or from the end. *)
Lemma count_blocks fuel : forall p bf t, (exists o u, B !! p = Some (o, u)) \/ p = NPAGES ->
  NPAGES - p <= Z.of_nat fuel -> resv <= p -> 0 <= bf -> bf + free_from p B <= NPAGES -> 0 <= t -> t + (NPAGES - p) <= NPAGES ->
  count_loop fuel p bf t st = Ok (bf + free_from p B, t + (NPAGES - p)).
Proof.
  induction fuel as [|fuel IH]; intros p bf t Hp Hf Hr Hbf Hb Ht Hb2; pose proof (bi_wf _ _ _ Hinv) as Hw;
    destruct Hp as [(o & u & Hp)|Hp];
    try (cbn [count_loop]; rewrite Hp, Z.eqb_refl, (free_from_end _ _ Hw); f_equal; f_equal; lia);
    destruct (bw_bounds _ _ Hw _ _ _ Hp) as (Ho & _ & He); pose proof (pow2_pos o ltac:(lia)) as Hpos; [lia|].
  cbn [count_loop]. rewrite (proj2 (Z.eqb_neq p NPAGES)) by lia.
  pose proof (bi_resv _ _ _ Hinv). rewrite get_frame_ok by (consts; lia). cbn [mbind res_bind].
  destruct (fo_head _ _ _ (bi_frames _ _ _ Hinv) _ _ _ Hp) as (-> & _ & Hst).
  rewrite shiftl_1 by lia. pose proof (free_from_step _ _ _ _ _ Hw Hp) as Estep.
  pose proof (free_from_bound resv B (p + 2 ^ o) Hw).
  assert ((if Buddy.state (frame_at st p) =? PAGE_FREE then 2 ^ o else 0) = (if u then 0 else 2 ^ o)) as ->.
  { destruct u; [destruct Hst as [Hst _]; by rewrite (proj2 (Z.eqb_neq _ _))|by rewrite Hst, Z.eqb_refl]. }
  rewrite !u64_small by (consts; destruct u; lia). rewrite IH.
  - f_equal. f_equal; [destruct u; lia|lia].
  - by apply (next_head resv B p o u).
  - lia.
  - lia.
  - destruct u; lia.
  - destruct u; lia.
  - lia.
  - lia.
Qed.

(** The reserved frames are one by one. *)
Lemma count_reserved n : forall p t fuel, Z.of_nat n = resv - p -> 0 <= p -> resv < NPAGES ->
  NPAGES - p <= Z.of_nat fuel -> t = p -> free_pages B <= NPAGES ->
  count_loop fuel p 0 t st = Ok (free_pages B, NPAGES).
Proof.
  pose proof (bi_wf _ _ _ Hinv) as Hw. pose proof (bi_resv _ _ _ Hinv) as Hr0.
  induction n as [|n IH]; intros p t fuel Hn Hp Hlt Hf -> Hfree.
  - assert (p = resv) as -> by lia. rewrite count_blocks; try lia.
    + rewrite (free_from_resv _ _ Hw) by (consts; lia). f_equal. f_equal; lia.
    + left. by apply (first_head resv B).
    + rewrite (free_from_resv _ _ Hw) by (consts; lia). lia.
  - destruct fuel as [|fuel]; [lia|]. cbn [count_loop]. rewrite (proj2 (Z.eqb_neq p NPAGES)) by lia.
    rewrite get_frame_ok by lia. cbn [mbind res_bind].
    rewrite (fo_resv _ _ _ (bi_frames _ _ _ Hinv)) by lia. cbn [order Buddy.state]. change (Z.shiftl 1 0) with 1.
    change (PAGE_RESERVED =? PAGE_FREE) with false. cbv iota. rewrite !u64_small by (consts; lia).
    apply IH; lia.
Qed.
End Count.

(** ** Claims *)

(** The profiler counts the free pages.  In a state of the allocator the walk
    over the frame array comes to the end of the array, whatever the blocks are;
    it has counted every page once, as free exactly those of the free blocks, and
    the percentage is theirs. *)
Lemma profile_counts_free resv B st : buddy_inv resv B st -> resv < NPAGES ->
  get_percent_free st = Ok (free_pages B, NPAGES, free_pages B * 100000000 / NPAGES) /\ 0 <= free_pages B <= NPAGES - resv.
Proof.
  intros Hi Hlt. pose proof (bi_wf _ _ _ Hi) as Hw. pose proof (bi_resv _ _ _ Hi) as Hr. unfold MAX_ORDER in Hr.
  assert (0 <= free_pages B <= NPAGES - resv) as Hb.
  { split; [by apply (free_from_bound resv)|]. rewrite <- (free_from_resv resv) by (auto; lia).
    apply (free_from_le resv B Hw (Z.to_nat NPAGES)); [left; by apply (first_head resv B)|lia]. }
  split; [|exact Hb]. unfold get_percent_free.
  assert (count_loop (Z.to_nat NPAGES) 0 0 0 st = Ok (free_pages B, NPAGES)) as ->.
  { apply (count_reserved resv B st Hi) with (n := Z.to_nat resv); lia. }
  cbn [mbind res_bind]. change (NPAGES =? 0) with false. cbv iota.
  rewrite u64_small; [done|]. consts. lia.
Qed.

(** At boot every page that is not reserved is free. *)
Lemma profile_counts_free_witness : exists st B, buddy_inv 256 B st /\
  get_percent_free st = Ok (free_pages B, NPAGES, free_pages B * 100000000 / NPAGES) /\ 0 <= free_pages B <= NPAGES - 256.
Proof.
  destruct boot_state as (st & B & _ & Hi & _). exists st, B. split; [exact Hi|].
  apply (profile_counts_free 256 B st Hi). unfold NPAGES. lia.
Defined.
