(* ===== verification/Irq.v ===== *)
(** * Interrupts ([system/irq.c], [system/gic.c])

    The dispatch of an interrupt over the handlers of the other components,
    which are an interface: the timers, the keyboard, the scheduler. *)
From S2P Require Import Prelude Timer.

Definition AUX_IRQ : Z := 2 ^ 29.

(** What an interrupt can make the kernel do. *)
Class Handlers (S : Type) := {
  handle_timer_1 : S -> res S;
  handle_timer_3 : S -> res S;
  handle_virtual_timer : S -> res S;
  handle_keyboard_event : Z -> S -> res S;
  uart_echo : S -> res S;                   (* [uart_putc(uart_getc())] *)
  end_of_interrupt : Z -> S -> res S;       (* the write to [gicc_eoir] *)
  scheduler : S -> res S;
}.

(** [irq &= ~bit], after a test. *)
Definition clear (irq bit : Z) : Z := Z.land irq (Z.lnot bit).
Definition pending (irq bit : Z) : bool := negb (Z.land irq bit =? 0).

Section Irq.
Context {S : Type} `{!Handlers S}.

Definition when (b : bool) (f : S -> res S) (s : S) : res S := if b then f s else Ok s.

(** The loop over the pending bits of the legacy controller. *)
Fixpoint irq_loop (fuel : nat) (irq : Z) (s : S) : res S :=
  if irq =? 0 then Ok s
  else match fuel with
  | O => Fuel
  | Datatypes.S fuel =>
      let irq := if pending irq AUX_IRQ then clear irq AUX_IRQ else irq in
      s ← when (pending irq SYS_TIMER_IRQ_1) handle_timer_1 s;
      let irq := if pending irq SYS_TIMER_IRQ_1 then clear irq SYS_TIMER_IRQ_1 else irq in
      s ← when (pending irq SYS_TIMER_IRQ_3) handle_timer_3 s;
      let irq := if pending irq SYS_TIMER_IRQ_3 then clear irq SYS_TIMER_IRQ_3 else irq in
      irq_loop fuel irq s
  end.

(** [handle_irq], given what the registers show: the pending bits, the
    interrupt's id, the keyboard flag and the received byte. *)
Definition handle_irq (fuel : nat) (irq gic_irq : Z) (kbd_flag : bool) (mu_io : Z) (s : S) : res S :=
  s ← irq_loop fuel irq s;
  if gic_irq <? 1020 then
    '(invoke_scheduler, s) ←
      (if gic_irq =? 30 then Ok (true, s)
       else if gic_irq =? 27 then s ← handle_virtual_timer s; Ok (false, s)
       else if gic_irq =? 125 then
         if kbd_flag then s ← handle_keyboard_event (Z.land mu_io 0xFF) s; Ok (true, s) else Ok (false, s)
       else if gic_irq =? 89 then s ← uart_echo s; Ok (false, s)
       else Ok (false, s));
    s ← end_of_interrupt gic_irq s;
    if (invoke_scheduler : bool) then scheduler s else Ok s
  else Ok s.

(** ** The dispatch as a table *)

(** The handler of an id, and whether the scheduler runs afterwards. *)
Definition device_handler (gic_irq : Z) (kbd_flag : bool) (mu_io : Z) (s : S) : res S :=
  if gic_irq =? 27 then handle_virtual_timer s
  else if (gic_irq =? 125) && kbd_flag then handle_keyboard_event (Z.land mu_io 0xFF) s
  else if gic_irq =? 89 then uart_echo s
  else Ok s.
Definition reschedules (gic_irq : Z) (kbd_flag : bool) : bool := (gic_irq =? 30) || ((gic_irq =? 125) && kbd_flag).

(** The bits the loop knows. *)
Definition known : Z := AUX_IRQ + SYS_TIMER_IRQ_3 + SYS_TIMER_IRQ_1.

Lemma clear_pending irq bit : (if pending irq bit then clear irq bit else irq) = clear irq bit.
Proof.
  unfold pending, clear. destruct (Z.eqb_spec (Z.land irq bit) 0) as [E|]; [|done]. cbn [negb].
  apply Z.bits_inj'. intros n Hn. rewrite Z.land_spec, Z.lnot_spec by done.
  assert (Z.testbit (Z.land irq bit) n = false) as Hb by (rewrite E; apply Z.bits_0).
  rewrite Z.land_spec in Hb. by destruct (Z.testbit irq n), (Z.testbit bit n).
Qed.

Lemma pending_clear irq a b : Z.land a b = 0 -> pending (clear irq a) b = pending irq b.
Proof.
  intros E. unfold pending, clear. do 2 f_equal. rewrite <- Z.land_assoc. f_equal.
  apply Z.bits_inj'. intros n Hn. rewrite Z.land_spec, Z.lnot_spec by done.
  assert (Z.testbit (Z.land a b) n = false) as Hb by (rewrite E; apply Z.bits_0).
  rewrite Z.land_spec in Hb. by destruct (Z.testbit a n), (Z.testbit b n).
Qed.

Lemma clear_all irq : clear (clear (clear irq AUX_IRQ) SYS_TIMER_IRQ_1) SYS_TIMER_IRQ_3 = clear irq known.
Proof. unfold clear. by rewrite <- !Z.land_assoc. Qed.

(** A pass of the loop. *)
Lemma irq_pass fuel irq s : irq <> 0 ->
  irq_loop (Datatypes.S fuel) irq s =
    (s ← when (pending irq SYS_TIMER_IRQ_1) handle_timer_1 s;
     s ← when (pending irq SYS_TIMER_IRQ_3) handle_timer_3 s; irq_loop fuel (clear irq known) s).
Proof.
  intros Hz. cbn [irq_loop]. rewrite (proj2 (Z.eqb_neq irq 0)) by done. cbv zeta.
  rewrite !clear_pending, clear_all, !pending_clear by done. done.
Qed.

(** A bit the loop does not know stays: no number of passes is enough. *)
Lemma irq_loop_stuck fuel : forall irq s s', clear irq known <> 0 -> irq_loop fuel irq s <> Ok s'.
Proof.
  induction fuel as [|fuel IH]; intros irq s s' Hc.
  - cbn. destruct (Z.eqb_spec irq 0) as [->|]; [by destruct (Hc eq_refl)|done].
  - rewrite irq_pass by (intros ->; by destruct (Hc eq_refl)). intros E.
    apply bind_Ok_inv in E as (s1 & _ & E). apply bind_Ok_inv in E as (s2 & _ & E).
    apply (IH _ _ _) in E; [done|]. unfold clear in *. by rewrite <- Z.land_assoc, Z.land_diag.
Qed.

(** The part behind the loop. *)
Lemma dispatch_table gic_irq (kbd_flag : bool) mu_io (s : S) :
  ('(invoke_scheduler, s) ←
      (if gic_irq =? 30 then Ok (true, s)
       else if gic_irq =? 27 then s ← handle_virtual_timer s; Ok (false, s)
       else if gic_irq =? 125 then
         if kbd_flag then s ← handle_keyboard_event (Z.land mu_io 0xFF) s; Ok (true, s) else Ok (false, s)
       else if gic_irq =? 89 then s ← uart_echo s; Ok (false, s)
       else Ok (false, s));
    s ← end_of_interrupt gic_irq s;
    if (invoke_scheduler : bool) then scheduler s else Ok s) =
  (s ← device_handler gic_irq kbd_flag mu_io s; s ← end_of_interrupt gic_irq s;
   when (reschedules gic_irq kbd_flag) scheduler s).
Proof.
  unfold device_handler, reschedules, when.
  destruct (Z.eqb_spec gic_irq 30) as [->|H30]; [done|].
  destruct (Z.eqb_spec gic_irq 27) as [->|H27]; [cbn; by destruct (handle_virtual_timer s)|].
  destruct (Z.eqb_spec gic_irq 125) as [->|H125].
  - destruct kbd_flag; [|done]. cbn. by destruct (handle_keyboard_event _ s).
  - cbn [andb orb]. destruct (gic_irq =? 89); [cbn; by destruct (uart_echo s)|done].
Qed.

(** ** Claims *)

(** C30: an interrupt is dispatched once, and acknowledged before the scheduler
    runs.  When only known bits are pending, the handlers of those bits run, then
    the one of the interrupt's id, then the interrupt is ended, and last the
    scheduler runs for the quantum timer and for a key.  With any other bit
    pending the handler never returns. *)
Theorem irq_dispatch fuel irq gic_irq kbd_flag mu_io s : gic_irq < 1020 -> (0 < fuel)%nat ->
  if clear irq known =? 0 then
    handle_irq fuel irq gic_irq kbd_flag mu_io s =
      (s ← when (pending irq SYS_TIMER_IRQ_1) handle_timer_1 s;
       s ← when (pending irq SYS_TIMER_IRQ_3) handle_timer_3 s;
       s ← device_handler gic_irq kbd_flag mu_io s;
       s ← end_of_interrupt gic_irq s;
       when (reschedules gic_irq kbd_flag) scheduler s)
  else forall s', handle_irq fuel irq gic_irq kbd_flag mu_io s <> Ok s'.
Proof.
  intros Hg Hf. destruct (Z.eqb_spec (clear irq known) 0) as [Hc|Hc].
  - assert (irq_loop fuel irq s = (s ← when (pending irq SYS_TIMER_IRQ_1) handle_timer_1 s;
              when (pending irq SYS_TIMER_IRQ_3) handle_timer_3 s)) as E.
    { destruct (Z.eq_dec irq 0) as [->|Hz]; [by destruct fuel|].
      destruct fuel as [|fuel]; [lia|]. rewrite irq_pass, Hc by done.
      destruct (when _ handle_timer_1 s) as [s1| | |]; [|done..]. cbn [mbind res_bind].
      destruct (when _ handle_timer_3 s1) as [s2| | |]; [by destruct fuel|done..]. }
    unfold handle_irq. rewrite E, (proj2 (Z.ltb_lt _ _)) by done.
    destruct (when _ handle_timer_1 s) as [s1| | |]; [|done..]. cbn [mbind res_bind].
    destruct (when _ handle_timer_3 s1) as [s2| | |]; [|done..]. apply dispatch_table.
  - intros s' E. apply bind_Ok_inv in E as (s1 & E & _). by apply irq_loop_stuck in E.
Qed.
End Irq.

(** Handlers that note what they were called for. *)
#[local] Instance noting : Handlers (list Z) := {
  handle_timer_1 s := Ok (s ++ [1]); handle_timer_3 s := Ok (s ++ [3]); handle_virtual_timer s := Ok (s ++ [27]);
  handle_keyboard_event c s := Ok (s ++ [c]); uart_echo s := Ok (s ++ [89]); end_of_interrupt i s := Ok (s ++ [-1; i]);
  scheduler s := Ok (s ++ [-2]);
}.

(** Both system timers and the key "A". *)
Lemma irq_dispatch_witness : handle_irq 1 10 125 true 65 [] = Ok [1; 3; 65; -1; 125; -2].
Proof. exact (irq_dispatch (S := list Z) 1 10 125 true 65 [] ltac:(lia) ltac:(lia)). Defined.
