(* ===== verification/Uart.v ===== *)
(** * The mini UART, its set-up and the interrupt controller's
    ([io/mini_uart.c], [boot/uart_low.c], [system/gic.c])

    A character of the kernel goes to the serial line and, when the panel is
    there, to the console.  The UART is an interface: its status, transmit and
    receive registers.  The set-up routines write registers, which are records. *)
From S2P Require Import Prelude Mem KString Printf Console Gpio Irq.

(** ** [io/mini_uart.c] *)

Class UartHw (H : Type) := {
  mu_lsr : H -> Z * H;
  mu_io_read : H -> Z * H;
  mu_io_write : Z -> H -> H;
}.

(** The UART, the console behind the panel and its flags. *)
Record kio (H : Type) := Kio { uart : H; panel : console; LCD_READY : bool; USE_PANEL : bool }.
Arguments Kio {H} _ _ _ _.
Arguments uart {H} _.
Arguments panel {H} _.
Arguments LCD_READY {H} _.
Arguments USE_PANEL {H} _.

Section Uart.
Context {H : Type} `{UartHw H} (fuel : nat) (fb : Z) (font : Z -> Z).

Definition with_uart (h : H) (w : kio H) : kio H := Kio h (panel w) (LCD_READY w) (USE_PANEL w).
Definition with_panel (s : console) (w : kio H) : kio H := Kio (uart w) s (LCD_READY w) (USE_PANEL w).
Definition disable_panel (w : kio H) : kio H := Kio (uart w) (panel w) (LCD_READY w) false.

(** [while(!(REGS_AUX->mu_lsr & mask));] *)
Fixpoint wait_lsr (n : nat) (mask : Z) (h : H) : res H :=
  match n with
  | O => Fuel
  | S n => let '(v, h) := mu_lsr h in if Z.land v mask =? 0 then wait_lsr n mask h else Ok h
  end.

Definition send (c : Z) (h : H) : res H := h ← wait_lsr fuel 0x20 h; Ok (mu_io_write c h).

Definition uart_putc (c : Z) (w : kio H) : res (kio H) :=
  h ← (if c =? 10 then send 13 (uart w) else Ok (uart w));
  h ← send c h;
  let w := with_uart h w in
  if LCD_READY w && USE_PANEL w then s ← print_glyph fb font c (panel w); Ok (with_panel s w) else Ok w.

Definition uart_getc (w : kio H) : res (Z * kio H) :=
  h ← wait_lsr fuel 1 (uart w);
  let '(v, h) := mu_io_read h in
  Ok (Z.land v 0xFF, with_uart h w).

(** [while( *str) uart_putc( *str++)] *)
Fixpoint uart_puts (n : nat) (m : mem) (str : Z) (w : kio H) : res (kio H) :=
  match n with
  | O => Fuel
  | S n => if m str =? 0 then Ok w else w ← uart_putc (m str) w; uart_puts n m (str + 1) w
  end.

(** What [kprintf] does to the UART and the console. *)
Definition kio_event (e : event) (w : kio H) : res (kio H) :=
  match e with
  | Char c => uart_putc (u8 c) w
  | _ => s ← console_event fb font e (panel w); Ok (with_panel s w)
  end.
Fixpoint kio_events (l : list event) (w : kio H) : res (kio H) :=
  match l with
  | [] => Ok w
  | e :: l => w ← kio_event e w; kio_events l w
  end.
End Uart.

(** ** [boot/uart_low.c] *)

Definition TXD : Z := 14.
Definition RXD : Z := 15.
Definition TCK : Z := 22.
Definition TMS : Z := 27.
Definition TDI : Z := 4.
Definition TDO : Z := 5.
Definition TRST : Z := 25.
Definition GFAlt4 : Z := 3.
Definition GFAlt5 : Z := 2.

Record AuxRegs := Aux { enables : Z; mu_ier : Z; mu_lcr : Z; mu_mcr : Z; mu_control : Z; mu_baud_rate : Z }.

Definition gpio_pin_set_func_lo (pinNumber func : Z) (r : gpio_regs) : res gpio_regs :=
  let bit_start := u8 ((pinNumber * 3) mod 30) in
  let reg := u8 (pinNumber / 10) in
  selector ← read_reg reg (func_select r);
  let selector := Z.land selector (Z.lnot (Z.shiftl 7 bit_start)) in
  let selector := u32 (Z.lor selector (Z.shiftl func bit_start)) in
  l ← write_reg reg selector (func_select r);
  Ok (set_func_select l r).

(** Between the delays the clock register holds the pin's bit. *)
Definition gpio_pin_enable_lo (pinNumber : Z) (r : gpio_regs) : res gpio_regs :=
  let r := set_pupd 0 (pupd_clocks_enable r) r in
  l ← write_reg (pinNumber / 32) (u32 (Z.shiftl 1 (pinNumber mod 32))) (pupd_clocks_enable r);
  let r := set_pupd 0 l r in
  l ← write_reg (pinNumber / 32) 0 (pupd_clocks_enable r);
  Ok (set_pupd 0 l r).

Fixpoint each (f : Z -> gpio_regs -> res gpio_regs) (l : list Z) (r : gpio_regs) : res gpio_regs :=
  match l with
  | [] => Ok r
  | p :: l => r ← f p r; each f l r
  end.

Definition uart_init_lo (r : gpio_regs) (a : AuxRegs) : res (gpio_regs * AuxRegs) :=
  r ← each (fun p => gpio_pin_set_func_lo p GFAlt5) [TXD; RXD] r;
  r ← each gpio_pin_enable_lo [TXD; RXD] r;
  Ok (r, Aux 1 0x1 3 0 3 541).

(** [debug_init_lo] ends in a loop over a local variable, for a debugger to
    leave. *)
Fixpoint gate_loop (n : nat) (gate : Z) : res unit :=
  match n with
  | O => Fuel
  | S n => if gate =? 0 then gate_loop n gate else Ok tt
  end.
Definition debug_init_lo (fuel : nat) (r : gpio_regs) : res gpio_regs :=
  r ← each (fun p => gpio_pin_set_func_lo p GFAlt4) [TCK; TMS; TDI; TDO; TRST] r;
  r ← each gpio_pin_enable_lo [TCK; TMS; TDI; TDO; TRST] r;
  _ ← gate_loop fuel 0;
  Ok r.

(** ** [system/gic.c] *)

Definition IT_NR : Z := 128.
Definition VIRT_TIMER : Z := 27.
Definition PHYS_TIMER : Z := 30.
Definition MINI_UART_RECV : Z := 125.

(** The registers used; priorities and targets are bytes. *)
Record gic_regs := Gic {
  gicd_ctrlr : Z; gicd_igroupr : list Z; gicd_isenabler : list Z; gicd_ipriorityr : list Z; gicd_itargetsr : list Z;
  gicc_ctrlr : Z; gicc_pmr : Z;
}.

Fixpoint group_loop (n : nat) (i : Z) (l : list Z) : res (list Z) :=
  match n with
  | O => Ok l
  | S n => l ← write_reg i 0xFFFFFFFF l; group_loop n (i + 1) l
  end.

(** [GICD_ISENABLER[irq / 32] |= 1 << (irq % 32)] *)
Definition enable_irq (irq : Z) (l : list Z) : res (list Z) :=
  v ← read_reg (irq / 32) l;
  write_reg (irq / 32) (u32 (Z.lor v (Z.shiftl 1 (irq mod 32)))) l.

Definition initialize_gic (g : gic_regs) : res gic_regs :=
  groups ← group_loop (Z.to_nat (IT_NR / 32)) 0 (gicd_igroupr g);
  prio ← write_reg PHYS_TIMER 0x80 (gicd_ipriorityr g);
  prio ← write_reg VIRT_TIMER 0x80 prio;
  prio ← write_reg MINI_UART_RECV 0x80 prio;
  en ← enable_irq PHYS_TIMER (gicd_isenabler g);
  en ← enable_irq VIRT_TIMER en;
  en ← enable_irq MINI_UART_RECV en;
  targets ← write_reg MINI_UART_RECV 0x01 (gicd_itargetsr g);
  Ok (Gic 3 groups en prio targets 3 0xFF).

(** [enable_interrupt_controller] of [system/irq.c]. *)
Definition enable_interrupt_controller (irq0_enable_0 : Z) (g : gic_regs) : Z * gic_regs :=
  (AUX_IRQ, Gic (gicd_ctrlr g) (gicd_igroupr g) (gicd_isenabler g) (gicd_ipriorityr g) (gicd_itargetsr g) 1 (gicc_pmr g)).
