(* ===== verification/UartSpec.v ===== *)
(** * What the kernel's output does, and the devices after their set-up *)
From S2P Require Import Prelude Mem KString Printf PrintfSpec Console ConsoleSpec Gpio Irq Uart.

(** A UART that transmits: a busy line gets ready after at most [depth] looks at
    the status, and what is written is sent. *)
Class Transmitter (H : Type) `{UartHw H} (sent : H -> list Z) (backlog : H -> nat) (depth : nat) : Prop := {
  tx_busy : forall h v h', mu_lsr h = (v, h') -> sent h' = sent h /\ (Z.land v 0x20 = 0 -> (backlog h' < backlog h)%nat);
  tx_write : forall c h, sent (mu_io_write c h) = sent h ++ [c];
  tx_depth : forall h, (backlog h <= depth)%nat;
}.

Definition crlf (s : list Z) : list Z := concat (map (fun c => if c =? 10 then [13; 10] else [c]) s).

Lemma crlf_app s t : crlf (s ++ t) = crlf s ++ crlf t.
Proof. unfold crlf. by rewrite map_app, concat_app. Qed.

Section output.
Context {H : Type} `{UartHw H} (sent : H -> list Z) (backlog : H -> nat) (depth : nat) `{!Transmitter H sent backlog depth}.
Context (fuel : nat) (fb : Z) (font : Z -> Z) (Hfuel : (depth < fuel)%nat).

Lemma tx_wait_ok n h : (backlog h < n)%nat -> exists h', wait_lsr n 0x20 h = Ok h' /\ sent h' = sent h.
Proof.
  revert h. induction n as [|n IH]; intros h Hn; [lia|]. cbn [wait_lsr]. destruct (mu_lsr h) as [v h1] eqn:E.
  destruct (tx_busy h v h1 E) as [Es Hb]. destruct (Z.eqb_spec (Z.land v 0x20) 0) as [Hz|]; [|eauto].
  destruct (IH h1) as (h2 & -> & E2); [specialize (Hb Hz); lia|]. exists h2. by rewrite E2.
Qed.

Lemma send_ok c h : exists h', send fuel c h = Ok h' /\ sent h' = sent h ++ [c].
Proof.
  unfold send. destruct (tx_wait_ok fuel h) as (h1 & -> & E); [pose proof (tx_depth h); lia|]. cbn [mbind res_bind].
  eexists. split; [done|]. by rewrite tx_write, E.
Qed.

(** One character, on the line and on the panel. *)
Lemma uart_putc_ok c (w : kio H) : exists h,
  uart_putc fuel fb font c w =
    (if LCD_READY w && USE_PANEL w then s ← print_glyph fb font c (panel w); Ok (Kio h s (LCD_READY w) (USE_PANEL w))
     else Ok (Kio h (panel w) (LCD_READY w) (USE_PANEL w))) /\
  sent h = sent (uart w) ++ crlf [c].
Proof.
  unfold uart_putc, crlf. cbn [map concat]. rewrite app_nil_r. destruct (Z.eqb_spec c 10) as [->|].
  - destruct (send_ok 13 (uart w)) as (h1 & -> & E1). cbn [mbind res_bind]. destruct (send_ok 10 h1) as (h2 & -> & E2).
    exists h2. split; [done|]. by rewrite E2, E1, <- app_assoc.
  - cbn [mbind res_bind]. destruct (send_ok c (uart w)) as (h2 & -> & E2). by exists h2.
Qed.

Definition sent_text (l : list event) : list Z := crlf (map u8 (kernel_text l)).

Lemma sent_text_cons e l : sent_text (e :: l) = sent_text [e] ++ sent_text l.
Proof. unfold sent_text. rewrite <- crlf_app, <- map_app, <- kernel_text_app. done. Qed.

Lemma kio_event_ok m0 e w t t' : LCD_READY w = true -> USE_PANEL w = true -> shows fb font m0 (panel w) t -> tevent e t = Some t' ->
  exists w', kio_event fuel fb font e w = Ok w' /\ LCD_READY w' = true /\ USE_PANEL w' = true /\
    sent (uart w') = sent (uart w) ++ sent_text [e] /\ shows fb font m0 (panel w') t'.
Proof.
  intros Hl Hu Hs Ht. destruct (console_event_ok fb font m0 _ _ e _ Hs Ht) as (s' & E & Hs'). destruct e as [c|n|n| |].
  { cbn [kio_event console_event] in *. destruct (uart_putc_ok (u8 c) w) as (h & -> & Eh). rewrite Hl, Hu. cbn [andb]. rewrite E.
    cbn [mbind res_bind]. eexists. split; [done|]. cbn. done. }
  all: cbn [kio_event]; rewrite E; eexists; split; [done|]; cbn; by rewrite app_nil_r.
Qed.

Lemma kio_events_ok m0 l : forall w t t', LCD_READY w = true -> USE_PANEL w = true -> shows fb font m0 (panel w) t -> tevents l t = Some t' ->
  exists w', kio_events fuel fb font l w = Ok w' /\ sent (uart w') = sent (uart w) ++ sent_text l /\ shows fb font m0 (panel w') t'.
Proof.
  induction l as [|e l IH]; intros w t t' Hl Hu Hs Ht; cbn [kio_events tevents] in *.
  - injection Ht as <-. exists w. cbn. by rewrite app_nil_r.
  - destruct (tevent e t) as [t1|] eqn:E; [|done]. destruct (kio_event_ok m0 e w t t1 Hl Hu Hs E) as (w1 & -> & Hl1 & Hu1 & E1 & Hs1).
    cbn [mbind res_bind]. destruct (IH w1 t1 t' Hl1 Hu1 Hs1 Ht) as (w2 & -> & E2 & Hs2). exists w2. split; [done|]. split; [|done].
    by rewrite E2, E1, <- app_assoc, (sent_text_cons e l).
Qed.

(** [uart_puts] sends the string. *)
Lemma uart_puts_ok n m : forall str s w, cstr m str s -> (length s < n)%nat -> LCD_READY w && USE_PANEL w = false ->
  exists h, uart_puts fuel fb font n m str w = Ok (Kio h (panel w) (LCD_READY w) (USE_PANEL w)) /\ sent h = sent (uart w) ++ crlf s.
Proof.
  induction n as [|n IH]; intros str s w Hs Hn Hp; [lia|]. cbn [uart_puts]. destruct s as [|c s]; cbn [cstr length] in *.
  - rewrite Hs. cbn. exists (uart w). rewrite app_nil_r. by destruct w.
  - destruct Hs as (Hc & -> & Hs). rewrite (proj2 (Z.eqb_neq _ _) Hc). destruct (uart_putc_ok c w) as (h & -> & E). rewrite Hp.
    cbn [mbind res_bind]. destruct (IH (str + 1) s (Kio h (panel w) (LCD_READY w) (USE_PANEL w)) Hs ltac:(lia) Hp) as (h' & -> & E').
    exists h'. split; [done|]. cbn [uart] in E'. rewrite E', E, <- app_assoc, <- crlf_app. done.
Qed.
End output.

(** C31: the kernel's output is on the serial line and on the screen: for every
    sequence of characters and colour changes ([kprintf]'s output) whose tabs stay
    inside the line, with a UART that gets ready, the characters are sent in
    order, a return before each newline, and the frame buffer shows what a
    terminal would. *)
Theorem kernel_output {H} `{UartHw H} sent backlog depth `{!Transmitter H sent backlog depth} fuel fb font m0 l w t t' :
  (depth < fuel)%nat -> LCD_READY w = true -> USE_PANEL w = true -> shows fb font m0 (panel w) t -> tevents l t = Some t' ->
  exists w', kio_events fuel fb font l w = Ok w' /\ sent (uart w') = sent (uart w) ++ sent_text l /\ shows fb font m0 (panel w') t'.
Proof. intros. by eapply kio_events_ok. Qed.

(** A line that is busy for three looks after each character. *)
#[export] Instance slow_uart : UartHw (nat * list Z) := {
  mu_lsr h := match h.1 with O => (0x20, h) | S n => (0, (Nat.min n 2, h.2)) end;
  mu_io_read h := (0, h);
  mu_io_write c h := (3%nat, h.2 ++ [c]);
}.
#[export] Instance slow_transmitter : Transmitter (nat * list Z) snd (fun h => Nat.min h.1 3) 3.
Proof.
  split.
  - intros [[|n] l] v h' [= <- <-]; cbn; split; try done; intros; lia.
  - done.
  - intros h. lia.
Qed.

Lemma kernel_output_witness : exists w' t',
  tevents [Char 72; TextColor 1; Char 105; Char 10; Char 9; Char 33; Char 127] demo_term = Some t' /\
  kio_events 5 0x3c000000 demo_font [Char 72; TextColor 1; Char 105; Char 10; Char 9; Char 33; Char 127]
    (Kio (0%nat, []) demo_start true true) = Ok w' /\
  (uart w').2 = [72; 105; 13; 10; 9; 33; 127] /\ line (panel w') = 1 /\ cursor (panel w') = 40.
Proof.
  destruct (kernel_output snd (fun h => Nat.min h.1 3) 3 5 0x3c000000 demo_font (fun _ => 0)
    [Char 72; TextColor 1; Char 105; Char 10; Char 9; Char 33; Char 127] (Kio (0%nat, []) demo_start true true) demo_term _
    ltac:(lia) eq_refl eq_refl demo_shows eq_refl) as (w' & E & Es & Hs).
  eexists w', _. split; [reflexivity|]. split; [exact E|]. destruct Hs as [[L _] [C _] _ _ _ _]. split; [exact Es|]. split; [exact L|exact C].
Defined.

(** ** The devices after their set-up *)

(** The boot copy of the pin routine is the driver's. *)
Lemma set_func_lo_same pin func r : gpio_pin_set_func_lo pin func r = gpio_pin_set_func pin func r.
Proof. done. Qed.

Lemma debug_init_lo_hangs fuel r : debug_init_lo fuel r <> UB -> (forall r', debug_init_lo fuel r <> Ok r').
Proof.
  intros _ r' E. unfold debug_init_lo in E. apply bind_Ok_inv in E as (r1 & _ & E). apply bind_Ok_inv in E as (r2 & _ & E).
  apply bind_Ok_inv in E as ([] & E & _). induction fuel as [|fuel IH]; cbn in E; [done|auto].
Qed.

Definition irq_enabled (irq : Z) (g : gic_regs) : bool := Z.testbit (nth (Z.to_nat (irq / 32)) (gicd_isenabler g) 0) (irq mod 32).

Lemma write_reg_ok i v l : 0 <= i < Z.of_nat (length l) -> write_reg i v l = Ok (<[Z.to_nat i := v]> l).
Proof. intros Hi. unfold write_reg. by rewrite (proj2 (Z.leb_le _ _)), (proj2 (Z.ltb_lt _ _)) by lia. Qed.

Lemma enable_irq_ok irq l : 0 <= irq < 32 * Z.of_nat (length l) -> exists l', enable_irq irq l = Ok l' /\ length l' = length l /\
  forall i, 0 <= i -> Z.testbit (nth (Z.to_nat (i / 32)) l' 0) (i mod 32) = (i =? irq) || Z.testbit (nth (Z.to_nat (i / 32)) l 0) (i mod 32).
Proof.
  intros Hi. assert (Hd : 0 <= irq / 32 < Z.of_nat (length l)) by zdiv. unfold enable_irq.
  destruct (lookup_lt_is_Some_2 l (Z.to_nat (irq / 32))) as [v Hv]; [lia|]. unfold read_reg. rewrite Hv. cbn [deref mbind res_bind].
  rewrite write_reg_ok by done. eexists. split; [done|]. rewrite length_insert. split; [done|].
  assert (Hlt : (Z.to_nat (irq / 32) < length l)%nat) by lia.
  intros i H0. assert (Hm : 0 <= i mod 32 < 32) by zdiv. destruct (decide (i / 32 = irq / 32)) as [E|E].
  - rewrite E. rewrite (nth_lookup_Some _ _ _ _ (list_lookup_insert_eq _ _ _ Hlt)), (nth_lookup_Some _ _ _ _ Hv).
    unfold u32, wrap. rewrite Z.mod_pow2_bits_low by lia. rewrite Z.lor_spec, Z.shiftl_1_l, Z.pow2_bits_eqb by zdiv.
    rewrite orb_comm. f_equal. destruct (Z.eqb_spec (irq mod 32) (i mod 32)), (Z.eqb_spec i irq); try done; exfalso; zdiv.
  - rewrite !nth_lookup, list_lookup_insert_ne by zdiv. destruct (Z.eqb_spec i irq) as [->|]; [done|done].
Qed.

Lemma group_loop_ok n : forall i l, 0 <= i -> i + Z.of_nat n <= Z.of_nat (length l) -> exists l', group_loop n i l = Ok l'.
Proof.
  induction n as [|n IH]; intros i l H0 Hn; cbn [group_loop]; [eauto|]. rewrite write_reg_ok by lia. cbn [mbind res_bind].
  apply IH; rewrite ?length_insert; lia.
Qed.

(** [initialize_gic] enables exactly three interrupts more, at priority 0x80,
    and sends the UART's to the first core. *)
Lemma initialize_gic_ok g : length (gicd_igroupr g) = 16%nat -> length (gicd_isenabler g) = 16%nat ->
  length (gicd_ipriorityr g) = 512%nat -> length (gicd_itargetsr g) = 512%nat ->
  exists g', initialize_gic g = Ok g' /\ gicd_ctrlr g' = 3 /\ gicc_ctrlr g' = 3 /\ gicc_pmr g' = 0xFF /\
    (forall i, 0 <= i -> irq_enabled i g' = (i =? MINI_UART_RECV) || ((i =? VIRT_TIMER) || ((i =? PHYS_TIMER) || irq_enabled i g))) /\
    (forall i, i ∈ [PHYS_TIMER; VIRT_TIMER; MINI_UART_RECV] -> gicd_ipriorityr g' !! Z.to_nat i = Some 0x80) /\
    gicd_itargetsr g' !! 125%nat = Some 1.
Proof.
  intros H1 H2 H3 H4. unfold initialize_gic. change (Z.to_nat (IT_NR / 32)) with 4%nat.
  destruct (group_loop_ok 4 0 (gicd_igroupr g)) as (gr & ->); [lia|rewrite H1; cbn; lia|]. cbn [mbind res_bind].
  unfold PHYS_TIMER, VIRT_TIMER, MINI_UART_RECV in *. rewrite (write_reg_ok 30) by (rewrite H3; lia). cbn [mbind res_bind].
  rewrite (write_reg_ok 27) by (rewrite length_insert, H3; lia). cbn [mbind res_bind].
  rewrite (write_reg_ok 125 0x80) by (rewrite !length_insert, H3; lia). cbn [mbind res_bind].
  destruct (enable_irq_ok 30 (gicd_isenabler g)) as (e1 & -> & L1 & E1); [rewrite H2; lia|]. cbn [mbind res_bind].
  destruct (enable_irq_ok 27 e1) as (e2 & -> & L2 & E2); [rewrite L1, H2; lia|]. cbn [mbind res_bind].
  destruct (enable_irq_ok 125 e2) as (e3 & -> & L3 & E3); [rewrite L2, L1, H2; lia|]. cbn [mbind res_bind].
  rewrite (write_reg_ok 125 0x01) by (rewrite H4; lia). cbn [mbind res_bind]. eexists. split; [done|].
  cbn [gicd_ctrlr gicc_ctrlr gicc_pmr gicd_isenabler gicd_ipriorityr gicd_itargetsr]. split_and!; try done.
  - intros i H0. unfold irq_enabled. cbn [gicd_isenabler]. by rewrite E3, E2, E1.
  - intros i Hi. assert (Hl : forall k, (k < 512)%nat -> (k < length (gicd_ipriorityr g))%nat) by (intros; by rewrite H3).
    assert (i = 30 \/ i = 27 \/ i = 125) as [->|[->| ->]] by set_solver.
    + rewrite !list_lookup_insert_ne by done. apply list_lookup_insert_eq, Hl. lia.
    + rewrite list_lookup_insert_ne by done. apply list_lookup_insert_eq. rewrite length_insert. apply Hl. lia.
    + apply list_lookup_insert_eq. rewrite !length_insert. apply Hl. lia.
  - apply list_lookup_insert_eq. rewrite H4. lia.
Qed.
