(* ===== verification/Start.v ===== *)
(** * The start of the kernel ([kernel.c])

    [kernel_main] calls the components' initialisations, each of which is
    modelled with its component; here they are an interface, for the order of
    the calls. *)
From S2P Require Import Prelude.

Class Kernel (S : Type) := {
  finish_virtual_mapping : S -> res S;
  load_font : S -> res S;
  init_framebuffer : S -> res S;
  enable_interrupt_controller : S -> res S;
  timer_init : S -> res S;
  emmc_init : S -> res (bool * S);
  kheap_init : S -> res S;
  scheduler_init : S -> res S;
  filesystem_init : S -> res S;
  device_tree_init : S -> res S;
  keyboard_init : S -> res S;
  physical_timer_enable : S -> res S;
  virtual_timer_enable : S -> res S;
  prime_physical_timer : S -> res S;
  add_shell_to_scheduler : S -> res S;
  start_scheduler : S -> res S;
}.

Section Start.
Context {S : Type} `{!Kernel S}.

(** Without a card the kernel stops in [while(1);]. *)
Definition hardware_init (s : S) : res S :=
  s ← finish_virtual_mapping s;
  s ← load_font s;
  s ← init_framebuffer s;
  s ← enable_interrupt_controller s;
  s ← timer_init s;
  '(card, s) ← emmc_init s;
  if negb card then Fuel
  else
    s ← kheap_init s;
    s ← scheduler_init s;
    s ← filesystem_init s;
    s ← device_tree_init s;
    s ← keyboard_init s;
    s ← physical_timer_enable s;
    s ← virtual_timer_enable s;
    prime_physical_timer s.

Definition kernel_main (s : S) : res S :=
  s ← hardware_init s;
  s ← add_shell_to_scheduler s;
  start_scheduler s.
End Start.

(** ** The order of the calls *)

Inductive step :=
| Mapping | Font | FrameBuffer | InterruptController | Timer | Card | Heap | SchedulerInit | FileSystem | DeviceTree | Keyboard
| PhysicalTimer | VirtualTimer | Prime | ShellAdded | SchedulerStarted.

(** A kernel that keeps the calls made, and finds a card or not. *)
#[local] Instance trace (card : bool) : Kernel (list step) := {
  finish_virtual_mapping l := Ok (l ++ [Mapping]);
  load_font l := Ok (l ++ [Font]);
  init_framebuffer l := Ok (l ++ [FrameBuffer]);
  enable_interrupt_controller l := Ok (l ++ [InterruptController]);
  timer_init l := Ok (l ++ [Timer]);
  emmc_init l := Ok (card, l ++ [Card]);
  kheap_init l := Ok (l ++ [Heap]);
  scheduler_init l := Ok (l ++ [SchedulerInit]);
  filesystem_init l := Ok (l ++ [FileSystem]);
  device_tree_init l := Ok (l ++ [DeviceTree]);
  keyboard_init l := Ok (l ++ [Keyboard]);
  physical_timer_enable l := Ok (l ++ [PhysicalTimer]);
  virtual_timer_enable l := Ok (l ++ [VirtualTimer]);
  prime_physical_timer l := Ok (l ++ [Prime]);
  add_shell_to_scheduler l := Ok (l ++ [ShellAdded]);
  start_scheduler l := Ok (l ++ [SchedulerStarted]);
}.

(** Memory is mapped before the heap, the heap is there before the scheduler and
    the file system, and the card before the file system; the timers run before
    the first process is added. *)
Example start_order : kernel_main (Kernel0 := trace true) [] =
  Ok [Mapping; Font; FrameBuffer; InterruptController; Timer; Card; Heap; SchedulerInit; FileSystem; DeviceTree; Keyboard;
      PhysicalTimer; VirtualTimer; Prime; ShellAdded; SchedulerStarted].
Proof. reflexivity. Qed.

(** Without a card nothing is started, whatever the components do. *)
Lemma no_card_no_start {S} `{!Kernel S} (s : S) : (forall s, exists s', emmc_init s = Ok (false, s')) -> forall s', kernel_main s <> Ok s'.
Proof.
  intros Hc s' E. unfold kernel_main, hardware_init in E. apply bind_Ok_inv in E as (s1 & E & _).
  do 5 (apply bind_Ok_inv in E as (? & _ & E)). apply bind_Ok_inv in E as ([card s2] & E2 & E).
  destruct (Hc x3) as (s3 & E3). rewrite E3 in E2. injection E2 as <- <-. done.
Qed.
