(* ===== verification/Launch.v ===== *)
(** * The first processes, and the remaining system calls

    What the kernel starts with ([system/scheduler.c], [memory/mmu.c]) and the
    short calls and driver routines that stand on the other components
    ([system/syscalls.c], [filesystem/filesystem.c],
    [filedescriptors/filedescriptors.c], [drivers/kbd.c], [utils/timer.c]). *)
From S2P Require Import Prelude Mem KString KList Buddy BuddyRef Slab Mmap Printf Uart Proc Sched Sync Timer Ext4 Elf Syscalls.

(** ** [mmu.c] *)

Definition PBASE : Z := 0xFFFF8000FE000000.
Definition GIC_BASE : Z := 0xFFFF8000FF840000.

(** [finish_virtual_mapping()]; [ttbr1] is what the register holds. *)
Definition finish_virtual_mapping (fuel : nat) (ttbr1 phys_test_region test_size : Z) (s : mm buddy) : res (Z * mm buddy) :=
  '(_, b) ← initialize_page_frame_array phys_test_region test_size (mpages s);
  let s := MM b (mwords s) in
  let L0_TABLE := pa_to_va ttbr1 in
  let flags := Z.lor (Z.lor (Z.lor Mmap.MAP_KERNEL MAP_DEVICE) Mmap.MAP_WRITE) Mmap.MAP_READ in
  '(_, s) ← map (buddy_alloc_pt fuel L0_TABLE) PBASE (va_to_pa PBASE) 12 flags L0_TABLE s;
  let gic_virtual := ALIGN_DOWN GIC_BASE BLOCK_SIZE in
  '(_, s) ← map (buddy_alloc_pt fuel L0_TABLE) gic_virtual (va_to_pa gic_virtual) 9 flags L0_TABLE s;
  Ok (L0_TABLE, s).

(** [print_page_table]: the entries printed. *)
Definition print_page_table (pt_addr n_entries : Z) (s : mm buddy) : list Z :=
  (fun i => rd_entry (mwords s) pt_addr i) <$> seqZ 0 n_entries.

(** ** [scheduler.c] *)

Section Launch.
Context {M : Type} `{!ProcMem M}.

(** The shell: [f] is what [open("/bin/jsh")] returned.  The result of [readelf]
    is not looked at. *)
Definition add_shell_to_scheduler (disk : Z -> Z -> Z) (fuel : nat) (L0_TABLE ret_from_fork : Z) (f : option file) (user : mem)
    (k : kernel M) : res (kernel M * mem) :=
  '(pcb, k) ← procalloc L0_TABLE ret_from_fork 0 k;
  let k := set_current pcb k in
  f ← deref f;
  '(_, k, user) ← readelf disk fuel f user k;
  k ← add_to_schedule pcb k;
  Ok (k, user).

(** The program in the kernel's own image. *)
Definition add_test_section_to_scheduler (L0_TABLE ret_from_fork user_ptr test_virt test_phys test_size : Z) (k : kernel M) : res (kernel M) :=
  '(proc, k) ← procalloc L0_TABLE ret_from_fork user_ptr k;
  order ← log2_pow2 (test_size / 4096);
  b ← get_pcb proc k;
  k ← do_mem (pm_map test_virt test_phys (u16 order) (Z.lor (Z.lor Mmap.MAP_USER Mmap.MAP_READ) Mmap.MAP_EXEC) (ttbr b)) k;
  let tf := BASE_TRAPFRAME (kernel_stack b) in
  let k := store_kernel (tf + off_elr_el1) user_ptr k in
  add_to_schedule proc k.

(** A shell that is no ELF file is scheduled all the same, with the entry point
    0 that [procalloc] was given. *)
Lemma bad_shell_is_scheduled disk fuel L0 ret f user k pcb k1 k2 user2 k3 :
  procalloc L0 ret 0 k = Ok (pcb, k1) -> readelf disk fuel f user (set_current pcb k1) = Ok (false, k2, user2) ->
  add_to_schedule pcb k2 = Ok k3 -> add_shell_to_scheduler disk fuel L0 ret (Some f) user k = Ok (k3, user2).
Proof. intros E1 E2 E3. unfold add_shell_to_scheduler. rewrite E1. cbn [mbind res_bind deref]. rewrite E2. cbn [mbind res_bind]. by rewrite E3. Qed.

(** ** [syscalls.c] *)

(** The calls that do nothing. *)
Definition do_clock_gettime (clock kernel_timespec : Z) (s : sys M) : res (Z * sys M) := Ok (0, s).
Definition do_io_setup (s : sys M) : res (Z * sys M) := Ok (0, s).
Definition do_getcwd (buffer size : Z) (s : sys M) : res (Z * sys M) := Ok (0, s).
Definition do_get_framebuffer (s : sys M) : res (Z * sys M) := Ok (0, s).
Definition do_clone3 (cl_args size : Z) (s : sys M) : res (Z * sys M) := Ok (0, s).

Definition do_exit_group (status : Z) (s : sys M) : res (Z * sys M) := s ← on_kern reap s; Ok (SYS_SUCCESS, s).

(** Sixteen pages, whose address is dropped. *)
Definition do_pipe2 (fd_rets flags : Z) (s : sys M) : res (Z * sys M) :=
  '(_, s) ← on_kern' (on_mem (pm_buddy_alloc (Z.shiftl 16 12))) s;
  Ok (0, s).

(** [sys_test_mutex] up to the mutex: the static page, made by the first call,
    and the mutex in it; the old contents are [junk]. *)
Record mutex_page := MutexPage { cacheable_page : Z; page_mutex : mutex_t }.
Definition test_mutex_enter (fuel : nat) (L0_TABLE : Z) (junk : mutex_t) (p : mutex_page) (k : kernel M) : res (bool * mutex_page * kernel M) :=
  '(p, k) ← (if cacheable_page p =? 0 then
      '(page, k) ← on_mem (pm_buddy_alloc PAGE_SIZE) k;
      k ← do_mem (pm_map page (va_to_pa page) 0
            (Z.lor (Z.lor (Z.lor Mmap.MAP_READ Mmap.MAP_WRITE) MAP_CACHE) Mmap.MAP_KERNEL) L0_TABLE) k;
      let m := set_owner MUTEX_UNLOCKED junk in
      Ok (MutexPage page (set_wait_list (INIT_LIST_HEAD W_head (wait_list m)) m), k)
    else Ok (p, k));
  '(held, m, k) ← mutex_acquire fuel (page_mutex p) k;
  Ok (held, MutexPage (cacheable_page p) m, k).

(** Once it holds the mutex: a second of sleep, ... *)
Definition test_mutex_sleep (now : Z) (s : sys M) : res (sys M) :=
  t ← timer_nanosleep 1000000000 now (get_current (kern s)) (sleep s);
  on_kern deschedule (Sys (kern s) (files s) t).
(** ... and then the release; no value is returned. *)
Definition test_mutex_leave (fuel : nat) (p : mutex_page) (k : kernel M) : res (mutex_page * kernel M) :=
  '(m, k) ← mutex_release fuel (page_mutex p) k;
  Ok (MutexPage (cacheable_page p) m, k).
End Launch.

(** [sys_getc]: a character is echoed. *)
Definition do_getc {H} `{UartHw H} (fuel : nat) (fb : Z) (font : Z -> Z) (w : kio H) : res (Z * kio H) :=
  '(c, w) ← uart_getc fuel w;
  w ← Uart.uart_putc fuel fb font c w;
  Ok (c, w).

(** ** Drivers and files *)

(** The user's buffer is the format, and there are no arguments. *)
Definition uart_write (buf : list Z) (count : Z) (x : ansi_state * list event) : res (Z * (ansi_state * list event)) :=
  x ← kprintf buf [] x; Ok (0, x).

(** [keyboard_open] hands out the one pipe of the keyboard. *)
Definition keyboard_open (kbd_pipe : Z) (f : file_t) : Z * file_t :=
  (1, File (inode f) (pos f) (flags f) (u32 (refcount f + 1)) (file_ops f) kbd_pipe).
Definition keyboard_close (f : file_t) : Z := -1.

Section Heap.
Context {S : Type} `{!PageAllocator S}.

(** [close(file)] and [pipe_close(file)], given the pointers in the objects. *)
Definition close (file inode : Z) (k : kheap S) : res (Z * kheap S) :=
  if negb (file =? 0) then k ← kfree inode k; k ← kfree file k; Ok (0, k) else Ok (-1, k).
Definition pipe_close (priv_data buf : Z) (k : kheap S) : res (Z * kheap S) :=
  k ← kfree buf k; k ← kfree priv_data k; Ok (1, k).
End Heap.

(** ** [timer.c] *)

(** [timer_sleep]: [ticks] are the results of the calls of [timer_get_ticks];
    the product is taken on 32 bits. *)
Fixpoint sleep_loop (fuel : nat) (ticks : nat -> Z) (i : nat) (until : Z) : res nat :=
  match fuel with
  | O => Fuel
  | Datatypes.S fuel => if ticks i <? until then sleep_loop fuel ticks (Datatypes.S i) until else Ok i
  end.
Definition timer_sleep (fuel : nat) (ticks : nat -> Z) (milliseconds : Z) : res nat :=
  sleep_loop fuel ticks 1 (u64 (ticks 0%nat + u32 (milliseconds * 1000))).

Definition handle_physical_timer {M} (k : kernel M) : kernel M := prime_physical_timer k.

Lemma sleep_loop_ok fuel ticks until : forall i j, (i <= j < i + fuel)%nat -> until <= ticks j ->
  exists n, sleep_loop fuel ticks i until = Ok n /\ (i <= n <= j)%nat /\ until <= ticks n.
Proof.
  induction fuel as [|fuel IH]; intros i j Hj Hu; [lia|]. cbn [sleep_loop]. destruct (Z.ltb_spec (ticks i) until).
  - destruct (decide (i = j)) as [->|Hij]; [lia|]. destruct (IH (Datatypes.S i) j) as (n & -> & Hn & Hun); [lia|done|]. exists n. split; [done|]. split; [lia|done].
  - exists i. split; [done|]. split; [lia|done].
Qed.

(** The sleep ends once the counter has gone far enough, not before: for less
    than 72 minutes, from where on the product wraps. *)
Lemma timer_sleep_ok fuel ticks ms j : 0 <= ms < 4294967 -> 0 <= ticks 0%nat < 2 ^ 63 -> (1 <= j <= fuel)%nat ->
  ticks 0%nat + ms * 1000 <= ticks j ->
  exists n, timer_sleep fuel ticks ms = Ok n /\ ticks 0%nat + ms * 1000 <= ticks n.
Proof.
  intros Hm Ht Hj Hu. change (2 ^ 63) with 9223372036854775808 in Ht. unfold timer_sleep. rewrite u32_small, u64_small by lia.
  destruct (sleep_loop_ok fuel ticks (ticks 0%nat + ms * 1000) 1 j) as (n & E & _ & Hn); [lia|done|]. eauto.
Qed.

Lemma long_sleep_is_short fuel ticks : 0 <= ticks 0%nat < 2 ^ 63 -> ticks 0%nat + 704 <= ticks 1%nat ->
  timer_sleep (Datatypes.S fuel) ticks 4294968 = Ok 1%nat.
Proof.
  intros Ht Hu. change (2 ^ 63) with 9223372036854775808 in Ht. unfold timer_sleep. change (u32 (4294968 * 1000)) with 704. rewrite u64_small by lia.
  cbn [sleep_loop]. by rewrite (proj2 (Z.ltb_ge _ _)).
Qed.
